(* ===== verification/_CoqProject ===== *)
-Q . S2P
Prelude.v
PySort.v
PyFloat.v
PyData.v
PyNum.v
Enums.v
Lifecycle.v
Programs.v
AuditTrail.v
Aggregate.v
LabletSessionEvents.v
LabletSession.v
LabletSessionProps.v
LabletSessionSpec.v
LabRecordEvents.v
LabValues.v
LabRecord.v
LabRecordProps.v
LabRecordSpec.v
Ports.v
PortService.v
PortServiceProps.v
PortRace.v
Topo.v
TopoProps.v
Pipeline.v
PipelineProps.v
PipelineSpec.v
PipelineTemplates.v
PipelineTemplatesProps.v
Placement.v
PlacementProps.v
WorkerValues.v
WorkerEvents.v
Worker.v
WorkerProps.v
WorkerSpec.v
Slug.v
DefinitionEvents.v
LabletDefinition.v
DefinitionProps.v
DefinitionCommands.v
DefinitionStore.v
Reconciliation.v
LifecycleHandler.v
LifecycleHandlerProps.v
DeviceAccess.v
DeviceAccessProps.v
LabletServices.v
StepHandlers.v
StepHandlersProps.v
LabletReconciler.v
LabletReconcilerProps.v
Timeslots.v
Scheduler.v
SchedulerProps.v
WorkerVisits.v
WorkerVisitsProps.v
WorkerDiscovery.v
ReconciliationProps.v
Traces.v
WatchTrigger.v
Election.v
ElectionProps.v
Dsl.v
DslProps.v
Job.v
JobExecution.v
JobExecutionProps.v
SessionCommands.v
PipelineProgress.v
SessionBooks.v
SessionCommandsProps.v
SessionCommandsSpec.v
WorkerCommands.v
SystemSettings.v
WorkerFleet.v
WorkerStore.v
Enforcement.v
PipelineProgressProps.v
