(* ===== verification/Prelude.v ===== *)
(** * CML cloud manager: a verification of its core logic

    The program manages lab sessions ("lablets") on Cisco Modeling Labs workers.
    It is a set of Python services under [src/src]: the control-plane API keeps
    the aggregates and the ports, the resource scheduler places sessions on
    workers, the lablet controller runs the pipelines that bring a session up and
    down, the worker controller drives machines, the scenario engine runs jobs;
    [core/lcm_core] holds what they share.  This library models the parts that
    decide something and proves what makes them correct.

    ** How the parts interact

    A session is created and scheduled (LabletSession) in a time slot (Lifecycle).
    The scheduler asks the placement engine (Placement) for a worker, or for the
    template of a new one.  The lablet controller instantiates the session by
    running a pipeline of steps (Pipeline), which allocates ports from a store in
    etcd (PortService) for a template read off the topology (Ports), resolves a lab
    (LabRecord), and reports its progress to the session.  The session is made from a
    definition (LabletDefinition), whose content is synchronized from a bucket and
    which the definition commands (DefinitionCommands) create, edit, publish and
    retire in a repository; it runs on a worker (Worker), whose capacity, licence,
    metrics and activity the worker aggregate keeps.  The session commands
    (SessionCommands) move a session along and keep the session, its lab and its worker
    in step; the reports on its pipelines (PipelineProgress) lead to events and to an
    audit record.  The aggregates are event
    sourced: a command checks its guard, registers an event and applies it to the
    state; the state keeps a history of its status (AuditTrail).  Scheduler and
    controllers run as services in several instances: the elected leader (Election)
    reconciles its resources in cycles (Reconciliation) and when a watch of etcd says
    that they changed (WatchTrigger): the scheduler its pending sessions (Scheduler), the
    lablet controller its sessions (LabletReconciler), the worker controller its workers
    (WorkerVisits), which it also discovers (WorkerDiscovery).  Deadlines are looked for
    beside them (Timeslots, Enforcement).  Steps of a pipeline may be jobs of the scenario
    engine, which executes scenarios as tasks (JobExecution) and documents of tasks
    (Dsl).

    ** The files

    - [Prelude]: results and exceptions, record update, dicts, strings, lists,
      finite sequences of steps, the hint database [lcm].  [PySort], [PyFloat],
      [PyData], [PyNum]: Python's [sorted], floats, datetimes, untyped values and
      arithmetic on them.
    - [Enums] ([core/lcm_core/domain/enums]): the status enums, their lookup and the
      tables of transitions; the class [StrEnum] is what the rest uses of them.
    - [Lifecycle] ([core/lcm_core/domain/value_objects], [domain/lifecycles.py]):
      transitions, managed lifecycles, time slots.
    - [AuditTrail]: the interface (class [Audited]) between an aggregate and the trail of
      its status; the [*Props] file of each aggregate gives the instance.
      [Aggregate]: the interface (class [Aggregate]) of an aggregate with commands, its
      runs, invariants of runs, replay of the events.
    - [LabletSessionEvents], [LabletSession] ([domain/entities/lablet_session.py]):
      one record per event, one [on_*] per event handler, one definition per method
      with its guard.  [LabletSessionProps], [LabletSessionSpec]: commands as a data
      type with [exec], runs of commands, and the theorems.
    - [LabRecordEvents], [LabValues], [LabRecord] ([domain/entities/lab_record.py] and
      its value objects): the same for lab records, with the methods that change the
      state outside events.  [LabRecordProps], [LabRecordSpec].
    - [Ports] ([port_template.py], [port_allocation.py]); [PortService]
      ([port_allocation_service.py], the port operations of [etcd_state_store.py]):
      programs over single reads and writes of a worker's key, run alone in
      [PortServiceProps] and interleaved in [PortRace].
    - [Topo], [TopoProps]: [graphlib.TopologicalSorter] and its correctness.
      [Pipeline] ([pipeline_executor.py], [step_registry.py] and the dispatcher of
      [lablet_reconciler.py]), [PipelineProps], [PipelineSpec].
    - [Placement] ([placement_engine.py]), [PlacementProps].
    - [WorkerValues] ([worker_capacity.py], [resource_requirements.py],
      [cml_license.py], [cml_metrics.py]), [WorkerEvents], [Worker]
      ([domain/entities/cml_worker.py]): as for sessions.  [WorkerProps] has the
      commands and the trail, [WorkerSpec] the rest.
    - [Slug] ([lcm_core/domain/utils.py] and the version numbers of the update
      command), [DefinitionEvents], [LabletDefinition]
      ([domain/entities/lablet_definition.py], [pod_definition_ref.py]),
      [DefinitionProps].
    - [Programs]: programs over a stored world, which may raise, and Hoare triples that
      speak of returning and of raising.
    - [DefinitionCommands] ([application/commands/lablet_definition]): one program per
      handler over the stored documents; [DefinitionStore]: what they keep true of
      the repository.
    - [SessionCommands] ([application/commands/lablet_session], with the capacity
      commands of [commands/worker] and the wipe of [commands/lab]), [PipelineProgress]
      (the three commands on pipeline steps, [pipeline_execution_record.py]): one
      program per handler over the four repositories they share, each request of
      which may be refused or lose its answer.  [SessionBooks]: what sessions hold of
      workers, as ledgers; [SessionCommandsProps]: a triple per handler, and the system
      of requests; [SessionCommandsSpec], [PipelineProgressProps]: the theorems.
    - [Reconciliation], [WatchTrigger], [Election] (the services of
      [core/lcm_core/infrastructure/hosted_services]): the coroutines of a service as
      a transition system whose steps are what runs between two waits, with their
      theorems.  [Traces]: infinite executions, fairness, and the rule for what
      eventually happens.
    - [PipelineTemplates] ([pipeline_template_resolver.py]): the templates that the
      pipelines of a definition extend, and the reading of a resolved pipeline by the
      executor; [PipelineTemplatesProps].  [LifecycleHandler]
      ([lifecycle_phase_handler.py], the pipeline phases of [lablet_reconciler.py], the
      signals of the scenario engine and the operations of [admin_controller.py]): the
      handlers, their tasks, the visits and the locks as steps between two waits;
      [LifecycleHandlerProps].
    - [DeviceAccess] ([reconciler_helpers/lds_helpers.py]), [LabletServices] (the other
      helpers of the reconciler and the read models), [StepHandlers]
      ([application/services/step_handlers], one definition per step, the registry and
      the dispatcher), [LabletReconciler] (the visits of [lablet_reconciler.py]):
      programs over what the reconciler keeps and a log of the calls it makes.  Other
      processes are a class of services, which answer a call in any way, from all calls
      so far.  [DeviceAccessProps], [StepHandlersProps], [LabletReconcilerProps].
    - [Scheduler] ([scheduler_hosted_service.py]), [SchedulerProps]: the cycle of the
      scheduler around [Placement], over the same services.
    - [Timeslots] ([timeslot_manager_hosted_service.py], [timeslot_watcher_service.py] and
      the query on deadlines that both ask), with their theorems; [Enforcement]
      ([timeslot_enforcement_service.py]): the run of the control plane over
      [SessionCommands], with its theorem.
    - [WorkerVisits], [WorkerDiscovery] ([worker_reconciler.py] and the read model of
      workers): the visits, and the loops beside them.  [WorkerVisitsProps]: the plan of
      a visit, and the system of a worker and its EC2 instance.
    - [WorkerCommands], [WorkerFleet] ([application/commands/worker], the mapper and the
      queries of workers): what users and controllers ask of workers, how workers come to
      be and how they are seen, over the store of [SessionCommands].  [SystemSettings]
      ([system_settings.py], [system_configuration_service.py], [detect_worker_idle_command.py]
      and [telemetry_filter.py]): the settings, and the idle detection that reads them.
      [WorkerStore]: the requests as one data type, what they keep true of the stored
      workers, the books, the cleanup, and what the reconciler makes of it.
    - [Dsl] ([scenario-engine/application/services/dsl_executor.py] and
      [jq_evaluator.py]): the interpreter of lifecycle documents as a state and error
      monad over the workflow context; [DslProps].
    - [Job] ([scenario-engine/domain/entities/job.py]), [JobExecution]
      ([job_execution_service.py] and the commands on jobs): tasks, commands, timers
      and restarts as steps over a repository with versions; [JobExecutionProps].

    ** Conventions

    A method is a function from the state (and the readings of the clock) to
    [res] of the new state and the events.  [await] of a service is a parameter: the
    step handlers and the expression evaluator of a pipeline, the digest of a
    topology's checksum, [AggregateRoot.id] (class [RootId]), the iteration order of
    a Python set (class [SetOrder]).  What is assumed of them is in the statement
    or in a class of laws, with an instance among the witnesses.  Integers are unbounded, as in
    Python; floats are binary64.

    ** What is shown

    - Sessions: only legal transitions happen, from every state and on every command;
      the history is complete and linked; every reachable state carries the data its
      status promises; runs end; replaying the events gives the state back; the
      branches of the timeslot extension and the drift report.
    - Lab records: the same for the guarded commands; what a synchronization does;
      bounded histories, consecutive revisions, bindings and cleanliness from the events.
    - Values: what [to_dict] writes is read back, phases of a time slot partition the
      time line, the checksum does not depend on orders.
    - Ports: the search is first fit; an allocation on every branch; release; the
      availability check; serialized operations keep ports disjoint in every
      interleaving, and the code as it is does not.
    - Placement: eligibility as a specification; the decision is the first eligible worker of
      greatest score; the two filters and the preview agree with it, and return on
      inputs of reasonable size.
    - Pipelines: sorting accepts exactly well-formed definitions; steps run after the
      ones they need, within their attempts and never again once settled; the
      result accounts for every step; a finished run can be run again without effect.
    - Pipelines of sessions: a definition that extends a template gets the steps it does
      not remove, in order, with its own; at most one task runs a phase of a session, and
      a phase is given up at the failure its retries allow; however often steps are
      repeated at most one lab is imported for a session; only a lab that fits is reused,
      and only labs that were imported are deleted; a session past its deadline is only
      expired; which devices its user sees.
    - Workers: any run leaves an unbroken trail and well-formed values; sessions and
      allocated capacity are those of a ledger of assignments; an admitted session
      fits; ports agree with the port service; licence operations, reports and
      stops do to the state what they promise.
    - Stored workers: under any requests and failures they stay sound; a recalculation
      charges a worker for the sessions it lists that hold capacity; the cleanup deletes
      the old terminated workers only; a terminated worker keeps its instance and is not
      visited again, and a worker that a user creates is never launched.
    - Definitions: the trail follows a state machine; what is active was
      synchronized; identity and pod type never change; creation is faithful.
    - The repository of definitions keeps identifiers, and names with versions,
      unique under every request, answered or failed.
    - Sessions and workers together: while nothing fails, each worker is charged for
      exactly the sessions that hold it, at the requirements of their definitions; with
      any failures no session is on two workers; an expiry gives lab and capacity back.
    - Progress of pipelines: the answer for a suspended step is taken once; no run opens
      an audit record, and each completed step announces the whole pipeline.
    - Services: attempts on a resource do not overlap within the cycles and within the
      semaphore, and do overlap with those of the watch; the delays after failures; an
      event that was watched is served in the end; of the leaders at most one holds a
      lease that lives, a free key is taken, and an expired leader goes on leading.
    - Scheduler: what a cycle lists; a session goes to a worker that fits its definition by
      the capacities at hand; a session that is refused is put off and never given up.
      Deadlines: what the scans trigger, what the enforcement expires, and what it leaves.
    - Worker reconciler: a visit takes the steps of a plan; a worker comes to rest with its
      instance as it is wanted, from every state on the way; the states that it never
      leaves; a worker is given up by the discovery only on the word of EC2.
    - Scenario engine: a document is executed to an outcome; a task that fails leaves
      the context as it found it; jobs keep to their life cycle in every interleaving,
      each scenario is executed once, and tasks are bounded.
    - Defects: a theorem for each one that the model shows.  Listed with the properties
      are the race in port allocation and the workers that are stuck; not listed, in the
      same files, suspensions that are lost, phases of a session that overlap, scheduled
      sessions that stay past their deadline, LDS sessions that are not archived, two
      leaders, a manager of time slots that never acts, a cycle that crowds one worker,
      deleted definitions that come back, and others.

    ** Fuel

    Five recursions have fuel.  [find_loop] gets one unit per port of the range and
    [find_available_eq] shows it is never short.  The depth-first search of
    [Topo] gets one unit per node and edge ([dfs_ends]), its rounds one per node
    ([rounds_inv]); [static_order_ok] is the total result.  The interpreter of
    documents goes as deep as the document is nested ([execute_ends]).  [distance], which the proof about workers at rest
    computes with, gets twenty units: within eight rounds every state on the way is at rest
    ([all_nearer]).  A step that polls
    gets any number of polls, as many as its timeout leaves room for; out of them it is
    cancelled, which is an outcome.

    ** What is not modelled, and why

    Clients and repositories (MongoDB, etcd, CML, AWS, LDS, HTTP), controllers, pages,
    logging and seeding: input and output.  Of the executor, durations and task
    cancellation; of the port service, its usage statistics; of the definition
    repository, its listings; of the services, starting and stopping them.  Of the lablet
    controller: the discovery of labs, the synchronization of content and the actions on
    lab records, loops over CML, S3 and LDS.  Of the worker controller: the content of the
    reports on CML, statistics, connections.  Of the scheduler: its cleanup service, which
    never leads.  Not modelled for want of time: the commands on labs and on worker
    templates, the pod definitions of the scenario engine, the entities of an assessment. *)
From stdpp Require Export base decidable option list sets gmap strings pretty.
From Stdlib Require Export ZArith Lia.
#[global] Open Scope string_scope.
#[global] Open Scope list_scope.
#[global] Open Scope Z_scope.

(** * Exceptions and results

    A Python call either returns or raises.  [exn] lists the exception classes
    the modelled code raises itself; [res A] is the outcome of a call. *)

Inductive exn :=
| ValueError (msg : string)
| TypeError (msg : string)
| KeyError (key : string)
| OverflowError (msg : string)
| ZeroDivisionError (msg : string)
| InvalidStateTransitionError (from_state to_state message : string)
| InvalidLabRecordTransitionError (from_status to_status message : string)
| AttributeError (msg : string)
| PipelineDefinitionError (msg : string)
| PipelineTemplateError (msg : string).

Inductive res (A : Type) :=
| Ok (a : A)
| Err (e : exn).
Arguments Ok {_} _.
Arguments Err {_} _.

#[export] Instance res_ret : MRet res := @Ok.
#[export] Instance res_bind : MBind res :=
  fun _ _ k r => match r with Ok a => k a | Err e => Err e end.
#[export] Instance res_fmap : FMap res :=
  fun _ _ f r => match r with Ok a => Ok (f a) | Err e => Err e end.

#[export] Instance exn_eq_dec : EqDecision exn.
Proof. solve_decision. Defined.

(** [is_ok r]: the call returned. *)
Definition is_ok {A} (r : res A) : bool := match r with Ok _ => true | Err _ => false end.

(** [raise_if b e]: [if b: raise e]. *)
Definition raise_if (b : bool) (e : exn) : res unit := if b then Err e else Ok ().

Lemma bind_ok {A B} (r : res A) (k : A -> res B) b :
  (r ≫= k) = Ok b <-> exists a, r = Ok a /\ k a = Ok b.
Proof. destruct r; cbn; naive_solver. Qed.

Lemma raise_if_ok b e u : raise_if b e = Ok u <-> b = false.
Proof. destruct b, u; cbn; naive_solver. Qed.

(** * Record update

    [r <| f := v |>] is the record [r] with the field [f] set to [v], as an
    attribute assignment on the object does.  A record type gives its rebuilt
    form [eta] once; the setter of a field is found from it. *)

Class Eta (R : Type) := eta : R -> R.
Class Setter {R T : Type} (proj : R -> T) := upd : (T -> T) -> R -> R.
Arguments upd {_ _} _ {_} _ _ /.

Ltac derive_setter :=
  lazymatch goal with
  | |- @Setter ?R ?T ?p =>
    let i := constr:(_ : Eta R) in
    let e := eval cbv delta [eta] in (@eta R i) in
    let e := eval hnf in e in
    match eval pattern p in e with
    | ?F _ =>
      let body := constr:(fun (f : T -> T) => F (fun r : R => f (p r))) in
      let body := eval cbv beta in body in
      exact body
    end
  end.
#[export] Hint Extern 0 (Setter _) => derive_setter : typeclass_instances.

Declare Scope py_scope.
Delimit Scope py_scope with py.
#[global] Open Scope py_scope.

Notation "r <| f := v |>" := (upd f (fun _ => v) r)
  (at level 12, f constr at level 9, left associativity,
   format "r  <| f  :=  v |>") : py_scope.

(** * Tactics and hints

    [lcm] is the hint database of the development; [inv_ok] takes apart a chain
    of calls known to return; [split_match] does the case analysis of the
    innermost [match] or [if] of the goal. *)

Create HintDb lcm discriminated.

Ltac inv_ok :=
  repeat match goal with
  | H : (_ ≫= _) = Ok _ |- _ => apply bind_ok in H; destruct H as (? & ? & H)
  | H : raise_if _ _ = Ok _ |- _ => apply raise_if_ok in H
  | H : mret _ = Ok _ |- _ => unfold mret, res_ret in H
  | H : Ok _ = Ok _ |- _ => injection H as H; try subst
  | H : Err _ = Ok _ |- _ => discriminate H
  | H : Ok _ = Err _ |- _ => discriminate H
  | H : (_, _) = (_, _) |- _ => injection H as; try subst
  end.

Ltac split_match :=
  match goal with
  | |- context [match ?x with _ => _ end] =>
      lazymatch x with context [match _ with _ => _ end] => fail | _ => destruct x eqn:? end
  end.

Ltac split_match_in H :=
  match type of H with
  | context [match ?x with _ => _ end] =>
      lazymatch x with context [match _ with _ => _ end] => fail | _ => destruct x eqn:? end
  end.

(** * Dictionaries

    A Python [dict] with string keys: the list of its items in insertion order.
    [dict_set] is [d[k] = v] (an existing key keeps its place), [dict_get] is
    [d.get(k)], [dict_pop] is [d.pop(k, None)] without the returned value. *)

Abbreviation dict V := (list (string * V)).

Section Dict.
Context {V : Type}.
Implicit Types (d : dict V) (k : string) (v : V).

Fixpoint dict_get k d : option V :=
  match d with
  | [] => None
  | (k', v) :: d => if String.eqb k k' then Some v else dict_get k d
  end.

Fixpoint dict_set k v d : dict V :=
  match d with
  | [] => [(k, v)]
  | (k', v') :: d => if String.eqb k k' then (k', v) :: d else (k', v') :: dict_set k v d
  end.

Fixpoint dict_pop k d : dict V :=
  match d with
  | [] => []
  | (k', v') :: d => if String.eqb k k' then d else (k', v') :: dict_pop k d
  end.

Definition dict_keys d : list string := map fst d.
Definition dict_values d : list V := map snd d.
Definition dict_mem k d : bool := match dict_get k d with Some _ => true | None => false end.

(** [d.get(k, default)] *)
Definition dict_get_or k v d : V := default v (dict_get k d).

(** [d[k]] *)
Definition dict_item k d : res V :=
  match dict_get k d with Some v => Ok v | None => Err (KeyError k) end.

(** [d.update(e)] *)
Definition dict_update d (e : dict V) : dict V := fold_left (fun d p => dict_set p.1 p.2 d) e d.

(** [{f(x): g(x) for x in l}] *)
Definition dict_of {A} (f : A -> string) (g : A -> V) (l : list A) : dict V :=
  fold_left (fun d x => dict_set (f x) (g x) d) l [].

Lemma dict_get_set k k' v d :
  dict_get k (dict_set k' v d) = if String.eqb k k' then Some v else dict_get k d.
Proof.
  induction d as [|[k2 v2] d IH]; cbn.
  - by destruct (String.eqb k k').
  - destruct (String.eqb_spec k' k2) as [->|Hne]; cbn.
    + by destruct (String.eqb k k2).
    + rewrite IH. destruct (String.eqb_spec k k2) as [->|]; [|done].
      destruct (String.eqb_spec k2 k'); congruence.
Qed.

Lemma dict_get_set_eq k v d : dict_get k (dict_set k v d) = Some v.
Proof. by rewrite dict_get_set, String.eqb_refl. Qed.

Lemma dict_get_set_ne k k' v d : k <> k' -> dict_get k (dict_set k' v d) = dict_get k d.
Proof. intros Hne. rewrite dict_get_set. by destruct (String.eqb_spec k k'). Qed.

Lemma dict_keys_set k v d :
  dict_keys (dict_set k v d) = if dict_mem k d then dict_keys d else dict_keys d ++ [k].
Proof.
  unfold dict_mem, dict_keys. induction d as [|[k2 v2] d IH]; cbn; [done|].
  destruct (String.eqb_spec k k2) as [->|Hne]; cbn; [done|].
  rewrite IH. by destruct (dict_get k d).
Qed.

Lemma dict_get_None k d : dict_get k d = None <-> k ∉ dict_keys d.
Proof.
  unfold dict_keys. induction d as [|[k2 v2] d IH]; cbn.
  - split; [intros _ H; inversion H|done].
  - rewrite not_elem_of_cons. destruct (String.eqb_spec k k2) as [->|Hne]; naive_solver.
Qed.

Lemma dict_get_elem k v d : dict_get k d = Some v -> (k, v) ∈ d.
Proof.
  induction d as [|[k2 v2] d IH]; cbn; [done|].
  destruct (String.eqb_spec k k2) as [->|Hne]; intros.
  - simplify_eq. apply list_elem_of_here.
  - by apply list_elem_of_further, IH.
Qed.

Lemma dict_elem_get k v d : NoDup (dict_keys d) -> (k, v) ∈ d -> dict_get k d = Some v.
Proof.
  unfold dict_keys. induction d as [|[k2 v2] d IH]; cbn; intros Hnd Hin.
  - inversion Hin.
  - apply NoDup_cons in Hnd as [Hn Hnd]. apply elem_of_cons in Hin as [Heq|Hin].
    + simplify_eq. by rewrite String.eqb_refl.
    + destruct (String.eqb_spec k k2) as [->|]; [|by apply IH].
      destruct Hn. change k2 with (fst (k2, v)). by apply list_elem_of_fmap_2.
Qed.

Lemma dict_set_NoDup k v d : NoDup (dict_keys d) -> NoDup (dict_keys (dict_set k v d)).
Proof.
  intros Hnd. rewrite dict_keys_set. unfold dict_mem.
  destruct (dict_get k d) eqn:E; [done|]. apply dict_get_None in E.
  apply NoDup_app. repeat split; [done| |apply NoDup_singleton].
  intros x Hx ->%list_elem_of_singleton. by apply E.
Qed.

Lemma dict_pop_notin k d : k ∉ dict_keys d -> dict_pop k d = d.
Proof.
  unfold dict_keys. induction d as [|[k2 v2] d IH]; cbn; [done|].
  rewrite not_elem_of_cons. destruct (String.eqb_spec k k2); [naive_solver|].
  intros [_ H]. by rewrite IH.
Qed.

Lemma dict_get_pop k k' d : NoDup (dict_keys d) ->
  dict_get k (dict_pop k' d) = if String.eqb k k' then None else dict_get k d.
Proof.
  unfold dict_keys. induction d as [|[k2 v2] d IH]; cbn; intros Hnd.
  - by destruct (String.eqb k k').
  - apply NoDup_cons in Hnd as [Hn Hnd].
    destruct (String.eqb_spec k' k2) as [->|Hne]; cbn.
    + destruct (String.eqb_spec k k2) as [->|]; [|done]. by apply dict_get_None.
    + rewrite IH by done. destruct (String.eqb_spec k k2) as [->|]; [|done].
      destruct (String.eqb_spec k2 k'); congruence.
Qed.

Lemma dict_pop_keys_sub k d : dict_keys (dict_pop k d) `sublist_of` dict_keys d.
Proof.
  unfold dict_keys. induction d as [|[k2 v2] d IH]; cbn; [done|].
  destruct (String.eqb k k2); cbn; by constructor.
Qed.

Lemma dict_pop_NoDup k d : NoDup (dict_keys d) -> NoDup (dict_keys (dict_pop k d)).
Proof. intros H. eapply sublist_NoDup; [exact H|]. apply dict_pop_keys_sub. Qed.
End Dict.

Lemma dict_of_snoc {A V} (f : A -> string) (g : A -> V) l x :
  dict_of f g (l ++ [x]) = dict_set (f x) (g x) (dict_of f g l).
Proof. unfold dict_of. by rewrite fold_left_app. Qed.

(** A dict built from items with distinct keys lists them in order. *)
Lemma dict_of_NoDup {A V} (f : A -> string) (g : A -> V) l :
  NoDup (map f l) -> dict_of f g l = map (fun x => (f x, g x)) l.
Proof.
  induction l as [|x l IH] using rev_ind; [done|].
  rewrite dict_of_snoc, !map_app. cbn. intros [Hl [Hx _]]%NoDup_app.
  rewrite IH by done. clear IH Hl. induction l as [|y l IH]; cbn in *; [done|].
  destruct (String.eqb_spec (f x) (f y)) as [He|].
  - destruct (Hx (f y)); [set_solver|]. rewrite He. set_solver.
  - rewrite IH; [done|]. set_solver.
Qed.

Lemma dict_of_keys_NoDup {A V} (f : A -> string) (g : A -> V) l : NoDup (dict_keys (dict_of f g l)).
Proof.
  induction l as [|x l IH] using rev_ind; [apply NoDup_nil_2|].
  rewrite dict_of_snoc. by apply dict_set_NoDup.
Qed.

Lemma dict_set_elem {V} k v k' v' (d : dict V) :
  (k', v') ∈ dict_set k v d -> (k', v') = (k, v) \/ (k', v') ∈ d.
Proof.
  induction d as [|[k2 v2] d IH]; cbn.
  - rewrite list_elem_of_singleton. naive_solver.
  - destruct (String.eqb_spec k k2) as [->|]; rewrite !elem_of_cons; naive_solver.
Qed.

Lemma dict_of_elem {A V} (f : A -> string) (g : A -> V) l k v :
  (k, v) ∈ dict_of f g l -> exists x, k = f x /\ v = g x.
Proof.
  induction l as [|x l IH] using rev_ind; [intros H; inversion H|].
  rewrite dict_of_snoc. intros [[= -> ->]|Hin]%dict_set_elem; eauto.
Qed.

#[export] Hint Resolve dict_set_NoDup dict_pop_NoDup : lcm.
#[export] Hint Rewrite @dict_get_set_eq : lcm.

(** * Strings

    Python [str] methods on ASCII text: [lower], [upper], [strip], [replace] with a
    non-empty pattern, [startswith] and [split] on one character. *)

Definition ascii_lower (c : Ascii.ascii) : Ascii.ascii :=
  let n := Ascii.nat_of_ascii c in
  if ((65 <=? n) && (n <=? 90))%nat then Ascii.ascii_of_nat (n + 32) else c.

Fixpoint py_lower (s : string) : string :=
  match s with
  | EmptyString => EmptyString
  | String c s => String (ascii_lower c) (py_lower s)
  end.

Definition ascii_upper (c : Ascii.ascii) : Ascii.ascii :=
  let n := Ascii.nat_of_ascii c in
  if ((97 <=? n) && (n <=? 122))%nat then Ascii.ascii_of_nat (n - 32) else c.

Fixpoint py_upper (s : string) : string :=
  match s with
  | EmptyString => EmptyString
  | String c s => String (ascii_upper c) (py_upper s)
  end.

Definition ascii_is_space (c : Ascii.ascii) : bool :=
  let n := Ascii.nat_of_ascii c in
  (((9 <=? n) && (n <=? 13)) || ((28 <=? n) && (n <=? 32)))%nat.

(** [s.lstrip()] and [s.rstrip()] for the characters [p] accepts. *)
Fixpoint lstrip_by (p : Ascii.ascii -> bool) (s : string) : string :=
  match s with
  | EmptyString => EmptyString
  | String c s' => if p c then lstrip_by p s' else s
  end.

Fixpoint rstrip_by (p : Ascii.ascii -> bool) (s : string) : string :=
  match s with
  | EmptyString => EmptyString
  | String c s' =>
      match rstrip_by p s' with
      | EmptyString => if p c then EmptyString else String c EmptyString
      | r => String c r
      end
  end.

Definition py_strip_by p s := rstrip_by p (lstrip_by p s).
Definition py_strip (s : string) : string := py_strip_by ascii_is_space s.

Fixpoint py_replace_from (old new s : string) (skip : nat) : string :=
  match s with
  | EmptyString => EmptyString
  | String c s' =>
      match skip with
      | S n => py_replace_from old new s' n
      | O => if String.prefix old s
             then new +:+ py_replace_from old new s' (pred (String.length old))
             else String c (py_replace_from old new s' 0)
      end
  end.

(** [s.replace(old, new)] *)
Definition py_replace (old new s : string) : string := py_replace_from old new s 0.

(** [s.startswith(p)] and [s[len(p):]]. *)
Definition py_startswith (p s : string) : bool := String.prefix p s.

Fixpoint str_drop (n : nat) (s : string) : string :=
  match n, s with
  | S n, String _ s => str_drop n s
  | _, _ => s
  end.

(** [s.split(c)] for a single character [c]. *)
Fixpoint py_split (c : Ascii.ascii) (s : string) : list string :=
  match s with
  | EmptyString => [EmptyString]
  | String a s' =>
      if Ascii.eqb a c then EmptyString :: py_split c s'
      else match py_split c s' with
           | w :: ws => String a w :: ws
           | [] => [String a EmptyString]
           end
  end.

(** [sep.join(l)] *)
Definition py_join (sep : string) (l : list string) : string := String.concat sep l.

(** Truth value of a string and of an optional string. *)
Definition str_truthy (s : string) : bool := negb (String.eqb s "").
Definition ostr_truthy (s : option string) : bool :=
  match s with Some s => str_truthy s | None => false end.
(** [s or default] *)
Definition ostr_or (s : option string) (default : string) : string :=
  match s with Some s => if str_truthy s then s else default | None => default end.

(** [a < b] on strings: lexicographic on code points. *)
Fixpoint str_ltb (a b : string) : bool :=
  match a, b with
  | _, EmptyString => false
  | EmptyString, String _ _ => true
  | String x a, String y b =>
      let nx := Ascii.nat_of_ascii x in let ny := Ascii.nat_of_ascii y in
      if (nx <? ny)%nat then true else if (ny <? nx)%nat then false else str_ltb a b
  end.

Lemma ascii_lower_idem c : ascii_lower (ascii_lower c) = ascii_lower c.
Proof. by destruct c as [[] [] [] [] [] [] [] []]. Qed.

Lemma py_lower_idem s : py_lower (py_lower s) = py_lower s.
Proof. induction s as [|c s IH]; cbn; [done|]. by rewrite ascii_lower_idem, IH. Qed.

Lemma str_ltb_irrefl a : str_ltb a a = false.
Proof. induction a as [|x a IH]; cbn -[Nat.ltb]; [done|]. by rewrite Nat.ltb_irrefl. Qed.

(** * Lists *)

(** [l[-n:]] for [n > 0]. *)
Definition last_n {A} (n : nat) (l : list A) : list A := drop (length l - n) l.

Lemma last_n_length {A} n (l : list A) : length (last_n n l) = Nat.min n (length l).
Proof. unfold last_n. rewrite length_drop. lia. Qed.

Lemma last_n_last {A} n (l : list A) x : (0 < n)%nat -> last (last_n n (l ++ [x])) = Some x.
Proof.
  intros Hn. unfold last_n. rewrite length_app. cbn.
  rewrite drop_app_le by lia. by rewrite last_snoc.
Qed.

(** ** Sets

    The iteration order of [set(l)], which Python does not fix. *)
Class SetOrder := set_order : list string -> list string.

Class SetOrderLaws `{SetOrder} : Prop := {
  set_order_NoDup : forall l, NoDup (set_order l);
  set_order_elem : forall l x, x ∈ set_order l <-> x ∈ l
}.

Lemma insertion_order : @SetOrderLaws remove_dups.
Proof. split; [apply NoDup_remove_dups|intros; apply elem_of_remove_dups]. Qed.

(** Finite sequences of steps of a relation. *)
Inductive star {A} (R : A -> A -> Prop) : A -> A -> Prop :=
| star_refl a : star R a a
| star_step a b c : R a b -> star R b c -> star R a c.

Lemma star_trans {A} (R : A -> A -> Prop) a b c : star R a b -> star R b c -> star R a c.
Proof. induction 1; eauto using star. Qed.

Lemma star_one {A} (R : A -> A -> Prop) a b : R a b -> star R a b.
Proof. eauto using star. Qed.

(** An invariant of the steps is an invariant of the sequences. *)
Lemma star_invariant {A} (R : A -> A -> Prop) (I : A -> Prop) a b :
  (forall x y, R x y -> I x -> I y) -> star R a b -> I a -> I b.
Proof. intros HR. induction 1; eauto. Qed.

#[export] Hint Constructors star : lcm.

(** * Aggregate roots

    [root_id s] is [AggregateRoot.id()] of the neuroglia framework for an
    aggregate in state [s]; the theorems that need it assume it returns the
    identifier of the state. *)
Class RootId (S : Type) := root_id : S -> option string.
