(* ===== verification/PySort.v ===== *)
(** * Python's [sorted] and the order of strings

    [sort_by lt key l] is [sorted(l, key=key)]: stable, by the strict order [lt]
    on the keys.  When keys are distinct the result does not depend on the order
    of the input. *)
From S2P Require Import Prelude.
From Stdlib Require Import Sorting.Sorted.

Section Sort.
Context {A K : Type} (lt : K -> K -> bool) (key : A -> K).

(** Insertion after the elements whose key is not greater. *)
Fixpoint sort_insert (x : A) (l : list A) : list A :=
  match l with
  | [] => [x]
  | y :: l' => if lt (key x) (key y) then x :: l else y :: sort_insert x l'
  end.

Definition sort_by (l : list A) : list A := fold_left (fun acc x => sort_insert x acc) l [].
End Sort.

(** A strict total order given by a boolean test. *)
Class StrictTotal {K : Type} (lt : K -> K -> bool) : Prop := {
  st_irrefl : forall a, lt a a = false;
  st_trans : forall a b c, lt a b = true -> lt b c = true -> lt a c = true;
  st_total : forall a b, lt a b = false -> lt b a = false -> a = b
}.

Section SortFacts.
Context {A K : Type} (lt : K -> K -> bool) (key : A -> K) `{!StrictTotal lt}.

Definition key_le (x y : A) : Prop := lt (key y) (key x) = false.

Lemma sort_insert_perm x l : sort_insert lt key x l ≡ₚ x :: l.
Proof.
  induction l as [|y l IH]; cbn; [done|]. destruct (lt _ _); [done|]. rewrite IH. constructor.
Qed.

Lemma sort_by_perm l : sort_by lt key l ≡ₚ l.
Proof.
  unfold sort_by. rewrite <- (app_nil_r l) at 2. generalize (@nil A).
  induction l as [|x l IH]; intros acc; cbn; [done|].
  rewrite IH, sort_insert_perm. by rewrite Permutation_middle.
Qed.

Lemma lt_asym a b : lt a b = true -> lt b a = false.
Proof.
  intros Hab. destruct (lt b a) eqn:Hba; [|done]. pose proof (st_trans _ _ _ Hab Hba) as Haa.
  by rewrite st_irrefl in Haa.
Qed.

Lemma key_le_trans x y z : key_le x y -> key_le y z -> key_le x z.
Proof.
  unfold key_le. intros Hxy Hyz. destruct (lt (key z) (key x)) eqn:Hzx; [|done].
  destruct (lt (key y) (key z)) eqn:E.
  - by rewrite (st_trans _ _ _ E Hzx) in Hxy.
  - by rewrite (st_total _ _ E Hyz), Hzx in Hxy.
Qed.

Lemma sort_insert_sorted x l :
  StronglySorted key_le l -> StronglySorted key_le (sort_insert lt key x l).
Proof.
  induction l as [|y l IH]; cbn; intros Hs; [repeat constructor|].
  apply StronglySorted_inv in Hs as [Hs Hy]. destruct (lt (key x) (key y)) eqn:E.
  - constructor; [by constructor|]. constructor; [by apply lt_asym|].
    eapply Forall_impl; [exact Hy|]. intros z Hz. eapply key_le_trans; [|exact Hz]. by apply lt_asym.
  - constructor; [by apply IH|]. rewrite sort_insert_perm. by constructor.
Qed.

Lemma sort_by_sorted l : StronglySorted key_le (sort_by lt key l).
Proof.
  unfold sort_by. assert (StronglySorted key_le []) as H0 by constructor. revert H0.
  generalize (@nil A). induction l as [|x l IH]; intros acc Hs; cbn; [done|].
  apply IH. by apply sort_insert_sorted.
Qed.

(** Sorted lists with the same elements and distinct keys are equal. *)
Lemma sorted_unique l l' :
  NoDup (map key l) -> l ≡ₚ l' -> StronglySorted key_le l -> StronglySorted key_le l' -> l = l'.
Proof.
  revert l'. induction l as [|x l IH]; intros l' Hnd Hp Hs Hs'.
  - by apply Permutation_nil_l in Hp.
  - destruct l' as [|y l']; [by apply Permutation_nil_r in Hp|].
    apply StronglySorted_inv in Hs as [Hs Hx]. apply StronglySorted_inv in Hs' as [Hs' Hy].
    rewrite Forall_forall in Hx, Hy.
    assert (x = y) as ->.
    { assert (x ∈ y :: l') as Hin by (rewrite <- Hp; left).
      assert (y ∈ x :: l) as Hin' by (rewrite Hp; left).
      apply elem_of_cons in Hin as [->|Hin]; [done|]. apply elem_of_cons in Hin' as [->|Hin']; [done|].
      cbn in Hnd. apply NoDup_cons in Hnd as [Hn _]. destruct Hn.
      assert (key x = key y) as -> by (apply st_total; [by apply Hy|by apply Hx]).
      by apply list_elem_of_fmap_2. }
    f_equal. cbn in Hnd. apply NoDup_cons in Hnd as [_ Hnd]. apply IH; try done.
    by apply Permutation_cons_inv in Hp.
Qed.

Lemma sort_by_unique l l' : NoDup (map key l) -> l ≡ₚ l' -> sort_by lt key l = sort_by lt key l'.
Proof.
  intros Hnd Hp. apply sorted_unique; try apply sort_by_sorted.
  - by rewrite sort_by_perm.
  - by rewrite !sort_by_perm.
Qed.
End SortFacts.

(** ** Strings and pairs of strings are strictly totally ordered *)

Lemma str_ltb_trans a b c : str_ltb a b = true -> str_ltb b c = true -> str_ltb a c = true.
Proof.
  revert b c. induction a as [|x a IH]; intros [|y b] [|z c]; cbn -[Nat.ltb]; try done.
  repeat (match goal with |- context [(?m <? ?n)%nat] => destruct (Nat.ltb_spec m n) end; try done; try lia).
  apply IH.
Qed.

Lemma str_ltb_total a b : str_ltb a b = false -> str_ltb b a = false -> a = b.
Proof.
  revert b. induction a as [|x a IH]; intros [|y b]; cbn -[Nat.ltb]; try done.
  repeat (match goal with |- context [(?m <? ?n)%nat] => destruct (Nat.ltb_spec m n) end; try done; try lia).
  intros H1 H2. assert (x = y) as ->.
  { rewrite <- (Ascii.ascii_nat_embedding x), <- (Ascii.ascii_nat_embedding y). f_equal. lia. }
  f_equal. by apply IH.
Qed.

#[export] Instance str_strict_total : StrictTotal str_ltb.
Proof. split; [exact str_ltb_irrefl|exact str_ltb_trans|exact str_ltb_total]. Qed.

(** [a < b] on pairs of strings. *)
Definition str2_ltb (a b : string * string) : bool :=
  str_ltb a.1 b.1 || (String.eqb a.1 b.1 && str_ltb a.2 b.2).

#[export] Instance str2_strict_total : StrictTotal str2_ltb.
Proof.
  split; unfold str2_ltb.
  - intros [a1 a2]. cbn. by rewrite !str_ltb_irrefl, andb_false_r.
  - intros [a1 a2] [b1 b2] [c1 c2]; cbn. rewrite !orb_true_iff, !andb_true_iff, !String.eqb_eq.
    intros [H1|[-> H1]] [H2|[E H2]]; subst; eauto using str_ltb_trans.
  - intros [a1 a2] [b1 b2]; cbn. rewrite !orb_false_iff, !andb_false_iff, !String.eqb_neq.
    intros [H1 H2] [H3 H4]. assert (a1 = b1) as -> by (by apply str_ltb_total).
    f_equal. apply str_ltb_total; naive_solver.
Qed.
