(* ===== verification/PyFloat.v ===== *)
(** * Python floats

    Binary64 arithmetic as the code uses it: the true division of two integers,
    addition, multiplication and division of floats, comparison, [round] to a
    number of digits and the [.2f] format, all correctly rounded to even. *)
From S2P Require Import Prelude.
From Stdlib Require Import Floats.SpecFloat.

Abbreviation float := spec_float.
Definition prec : Z := 53.
Definition emax : Z := 1024.

Definition fadd : float -> float -> float := SFadd prec emax.
Definition fmul : float -> float -> float := SFmul prec emax.
Definition fdiv : float -> float -> float := SFdiv prec emax.
(** [a < b] *)
Definition fltb : float -> float -> bool := SFltb.

Definition fzero : float := S754_zero false.
(** The literals [0.05] and [0.01]. *)
Definition f_0_05 : float := S754_finite false 7205759403792794 (-57).
Definition f_0_01 : float := S754_finite false 5764607523034235 (-59).

(** The integer quotient [a / b], rounded, with sign [s]; [b] positive. *)
Definition quot_float (s : bool) (a b : Z) : float :=
  if a =? 0 then S754_zero s else
  let '(q, e, l) := SFdiv_core_binary prec emax a 0 b 0 in
  binary_round_aux prec emax s q e l.

Definition check_finite (f : float) : res float :=
  match f with
  | S754_infinity _ => Err (OverflowError "integer division result too large for a float")
  | _ => Ok f
  end.

(** [a / b] on integers. *)
Definition int_truediv (a b : Z) : res float :=
  if b =? 0 then Err (ZeroDivisionError "division by zero") else
  check_finite (quot_float (xorb (a <? 0) (b <? 0)) (Z.abs a) (Z.abs b)).

(** [float(n)] *)
Definition float_of_int (n : Z) : res float :=
  match binary_normalize prec emax n 0 false with
  | S754_infinity _ => Err (OverflowError "int too large to convert to float")
  | f => Ok f
  end.

(** [min(a, b)] and the comparison [a > 0] of [max] by key. *)
Definition fmin (a b : float) : float := if fltb b a then b else a.

(** ** Decimal rounding *)

(** [num / den] to the nearest integer, halves to even; [num >= 0], [den > 0]. *)
Definition div_half_even (num den : Z) : Z :=
  let q := num / den in
  let r := num mod den in
  if (2 * r <? den) then q else if (den <? 2 * r) then q + 1 else if Z.even q then q else q + 1.

(** The magnitude [m * 2^e] times [10^k], to the nearest integer. *)
Definition scaled (k : Z) (m : positive) (e : Z) : Z :=
  if 0 <=? e then Z.pos m * 2 ^ e * 10 ^ k else div_half_even (Z.pos m * 10 ^ k) (2 ^ (- e)).

(** [round(x, k)] *)
Definition fround (k : Z) (x : float) : float :=
  match x with
  | S754_finite s m e => quot_float s (scaled k m e) (10 ^ k)
  | _ => x
  end.

Definition two_digits (n : Z) : string := (if n <? 10 then "0" else "") +:+ pretty n.

(** [f"{x:.2f}"] *)
Definition fmt2 (x : float) : string :=
  match x with
  | S754_nan => "nan"
  | S754_infinity s => (if s then "-" else "") +:+ "inf"
  | S754_zero s => (if s then "-" else "") +:+ "0.00"
  | S754_finite s m e =>
      let n := scaled 2 m e in
      (if s then "-" else "") +:+ pretty (n / 100) +:+ "." +:+ two_digits (n mod 100)
  end.

(** * Facts *)

Definition not_nan (f : float) : Prop := f <> S754_nan.

(** ** The order

    On numbers [fltb] is the strict order of a key: sign and class first, then
    exponent and mantissa. *)
Definition fkey (f : float) : Z * Z * Z :=
  match f with
  | S754_nan => (0, 0, 0)
  | S754_infinity true => (-2, 0, 0)
  | S754_finite true m e => (-1, - e, - Z.pos m)
  | S754_zero _ => (0, 0, 0)
  | S754_finite false m e => (1, e, Z.pos m)
  | S754_infinity false => (2, 0, 0)
  end.

Definition key_lt (a b : Z * Z * Z) : Prop :=
  let '(a1, a2, a3) := a in let '(b1, b2, b3) := b in
  a1 < b1 \/ (a1 = b1 /\ (a2 < b2 \/ (a2 = b2 /\ a3 < b3))).

Lemma fltb_key a b : not_nan a -> not_nan b -> fltb a b = true <-> key_lt (fkey a) (fkey b).
Proof.
  unfold not_nan, fltb, SFltb. intros Ha Hb.
  destruct a as [[]|[]| |[] m e], b as [[]|[]| |[] m' e']; try done; cbn [SFcompare fkey key_lt];
    try (split; [done|lia]); try (split; [lia|done]); change (Pos.compare_cont Eq m m') with (Pos.compare m m').
  - destruct (Z.compare_spec e e'); [subst|split; [done|lia]|split; [lia|done]].
    destruct (Pos.compare_spec m m'); cbn; split; (done || lia).
  - destruct (Z.compare_spec e e'); [subst|split; [lia|done]|split; [done|lia]].
    destruct (Pos.compare_spec m m'); cbn; split; (done || lia).
Qed.

Lemma key_lt_trans a b c : key_lt a b -> key_lt b c -> key_lt a c.
Proof. destruct a as [[]], b as [[]], c as [[]]; cbn; lia. Qed.

Lemma key_lt_total a b c : key_lt a b -> key_lt a c \/ key_lt c b.
Proof. destruct a as [[]], b as [[]], c as [[]]; cbn; lia. Qed.

(** "Not less" is transitive on numbers. *)
Lemma fltb_not_less_trans a b c : not_nan a -> not_nan b -> not_nan c ->
  fltb a b = false -> fltb b c = false -> fltb a c = false.
Proof.
  intros Ha Hb Hc. rewrite <- !not_true_iff_false, !fltb_key by done. intros H1 H2 H3.
  destruct (key_lt_total _ _ (fkey b) H3); tauto.
Qed.

Lemma fltb_asym a b : not_nan a -> not_nan b -> fltb a b = true -> fltb b a = false.
Proof.
  intros Ha Hb. rewrite <- not_true_iff_false, !fltb_key by done.
  destruct (fkey a) as [[]], (fkey b) as [[]]; cbn; lia.
Qed.

Lemma fltb_irrefl a : fltb a a = false.
Proof.
  destruct a as [[]|[]| |[] m e]; try done; unfold fltb, SFltb; cbn [SFcompare]; rewrite Z.compare_refl;
    change (Pos.compare_cont Eq m m) with (Pos.compare m m); by rewrite Pos.compare_refl.
Qed.

(** ** Results of the operations are numbers *)

Lemma shr_1_nonneg r : 0 <= shr_m r -> 0 <= shr_m (shr_1 r).
Proof. destruct r as [[|[]|[]] ? ?]; cbn; lia. Qed.

Lemma iter_pos_nonneg n r : 0 <= shr_m r -> 0 <= shr_m (iter_pos shr_1 n r).
Proof. revert r. induction n as [n IH|n IH|]; intros r Hr; cbn; auto using shr_1_nonneg. Qed.

Lemma shr_fexp_nonneg m e l : 0 <= m -> 0 <= shr_m (shr_fexp prec emax m e l).1.
Proof.
  intros Hm. unfold shr_fexp, shr. assert (0 <= shr_m (shr_record_of_loc m l)) by (by destruct l as [|[]]).
  destruct (_ - _); cbn; auto using iter_pos_nonneg.
Qed.

Lemma binary_round_aux_number s m e l : 0 <= m -> 
  match binary_round_aux prec emax s m e l with
  | S754_nan => False
  | S754_infinity s' | S754_zero s' | S754_finite s' _ _ => s' = s
  end.
Proof.
  intros Hm. unfold binary_round_aux.
  pose proof (shr_fexp_nonneg m e l Hm) as H1. destruct (shr_fexp prec emax m e l) as [r1 e1]. cbn [fst] in H1.
  assert (0 <= round_nearest_even (shr_m r1) (loc_of_shr_record r1)) as H2.
  { unfold round_nearest_even. destruct (loc_of_shr_record r1) as [|[]]; try lia. destruct (Z.even _); lia. }
  pose proof (shr_fexp_nonneg _ e1 loc_Exact H2) as H3.
  destruct (shr_fexp prec emax (round_nearest_even _ _) e1 loc_Exact) as [r2 e2]. cbn [fst] in H3.
  destruct (shr_m r2); [done| |lia]. by destruct (_ <=? _).
Qed.

Lemma binary_normalize_number m e z : not_nan (binary_normalize prec emax m e z).
Proof.
  unfold not_nan, binary_normalize, binary_round. destruct m as [|m|m]; [done| |];
    destruct (shl_align _ _ _) as [mz ez];
    match goal with |- context [binary_round_aux _ _ ?s ?m ?e ?l] =>
      pose proof (binary_round_aux_number s m e l ltac:(lia)) as Hn end;
    intros E; by rewrite E in Hn.
Qed.

Lemma quot_float_number s a b : 0 <= a -> 0 < b -> not_nan (quot_float s a b).
Proof.
  intros Ha Hb. unfold quot_float. destruct (a =? 0); [done|]. unfold SFdiv_core_binary.
  set (m' := match _ with Z0 => a | Z.pos _ => _ | Z.neg _ => 0 end).
  assert (0 <= m') as Hm by (unfold m'; destruct (_ - _); [done| |done]; by apply Z.shiftl_nonneg).
  destruct (Z.div_eucl m' b) as [q r] eqn:E.
  assert (0 <= q) as Hq by (replace q with (m' / b) by (unfold Z.div; by rewrite E); by apply Z.div_pos; lia).
  match goal with |- context [binary_round_aux _ _ ?s ?m ?e ?l] =>
    pose proof (binary_round_aux_number s m e l Hq) as Hn end.
  intros E'. by rewrite E' in Hn.
Qed.

(** A float that is neither infinite nor a NaN. *)
Definition is_finite (f : float) : Prop :=
  match f with S754_zero _ | S754_finite _ _ _ => True | _ => False end.

Lemma int_truediv_finite a b f : 0 < b -> int_truediv a b = Ok f -> is_finite f.
Proof.
  intros Hb. unfold int_truediv. destruct (Z.eqb_spec b 0); [lia|].
  pose proof (quot_float_number (xorb (a <? 0) (b <? 0)) (Z.abs a) (Z.abs b) ltac:(lia) ltac:(lia)) as Hn.
  unfold not_nan in Hn. by destruct (quot_float _ _ _); cbn; intros [= <-].
Qed.

Lemma fadd_number a b : is_finite a -> is_finite b -> not_nan (fadd a b).
Proof.
  destruct a as [[]| | |], b as [[]| | |]; try done; intros _ _; cbn; try done.
  apply binary_normalize_number.
Qed.

(** Adding something finite to a number gives a number. *)
Lemma fadd_finite_number a b : not_nan a -> is_finite b -> not_nan (fadd a b).
Proof.
  destruct a as [[]|[]| |], b as [[]| | |]; try done; intros _ _; cbn; try done.
  apply binary_normalize_number.
Qed.

Lemma fdiv_number a m e : not_nan a -> not_nan (fdiv a (S754_finite false m e)).
Proof.
  destruct a as [| | |s m' e']; try done; intros _. unfold fdiv, SFdiv, SFdiv_core_binary.
  set (mm := match _ with Z0 => Z.pos m' | Z.pos _ => _ | Z.neg _ => 0 end).
  assert (0 <= mm) as Hm by (unfold mm; destruct (_ - _); try done; by apply Z.shiftl_nonneg).
  destruct (Z.div_eucl mm (Z.pos m)) as [q r] eqn:E.
  assert (0 <= q) as Hq by (replace q with (mm / Z.pos m) by (unfold Z.div; by rewrite E); apply Z.div_pos; lia).
  match goal with |- context [binary_round_aux _ _ ?s ?m ?e ?l] =>
    pose proof (binary_round_aux_number s m e l Hq) as Hn end.
  unfold not_nan. intros E'. by rewrite E' in Hn.
Qed.

(** ** Integers in range convert and divide without overflow *)

Local Abbreviation digits := Zdigits2.

Lemma digits_pos m : 0 < m -> digits m = Z.log2 m + 1.
Proof.
  destruct m as [|p|]; try lia. intros _. cbn [Zdigits2].
  assert (forall p, Z.pos (digits2_pos p) = Z.log2 (Z.pos p) + 1) as H; [|apply H]. clear p.
  induction p as [p IH|p IH|]; cbn [digits2_pos]; [| |done]; rewrite Pos2Z.inj_succ, IH.
  - rewrite (Pos2Z.inj_xI p), Z.log2_succ_double; lia.
  - rewrite (Pos2Z.inj_xO p), Z.log2_double; lia.
Qed.

Lemma digits_nonneg m : 0 <= digits m.
Proof. destruct m; cbn; lia. Qed.

Lemma digits_mono m n : 0 <= m -> m <= n -> digits m <= digits n.
Proof.
  intros Hm Hn. destruct (Z.eq_dec m 0) as [->|]; [apply digits_nonneg|].
  rewrite !digits_pos by lia. pose proof (Z.log2_le_mono m n). lia.
Qed.

Lemma digits_lt m k : 0 <= m -> 0 <= k -> m < 2 ^ k -> digits m <= k.
Proof.
  intros Hm Hk Hlt. destruct (Z.eq_dec m 0) as [->|]; [done|].
  rewrite digits_pos by lia. pose proof (Z.log2_lt_pow2 m k ltac:(lia)). lia.
Qed.

Lemma shr_1_digits r : 0 <= shr_m r -> digits (shr_m (shr_1 r)) = Z.max 0 (digits (shr_m r) - 1).
Proof. destruct r as [[|[]|] ? ?]; cbn; lia. Qed.

Lemma iter_pos_digits n r : 0 <= shr_m r ->
  digits (shr_m (iter_pos shr_1 n r)) = Z.max 0 (digits (shr_m r) - Z.pos n).
Proof.
  revert r. induction n as [n IH|n IH|]; intros r Hr; cbn [iter_pos].
  - rewrite !IH, shr_1_digits by auto using iter_pos_nonneg, shr_1_nonneg. lia.
  - rewrite !IH by auto using iter_pos_nonneg. lia.
  - rewrite shr_1_digits by done. lia.
Qed.

(** A mantissa and exponent whose value is below [2^k]. *)
Definition below (k m e : Z) : Prop := 0 <= m /\ digits m + e <= k /\ e <= k - prec.

Lemma shr_fexp_below k m e l : 100 <= k -> below k m e ->
  below k (shr_m (shr_fexp prec emax m e l).1) (shr_fexp prec emax m e l).2.
Proof.
  intros Hk (Hm & Hd & He). pose proof (shr_fexp_nonneg m e l Hm) as Hn. revert Hn.
  unfold shr_fexp, shr. assert (shr_m (shr_record_of_loc m l) = m) as Hs by (by destruct l as [|[]]).
  unfold fexp, emin, below, emax, prec in *. destruct (_ - e) as [|p|p] eqn:E; cbn [fst snd]; rewrite ?Hs; [lia| |lia].
  intros Hn. rewrite iter_pos_digits, Hs by (by rewrite Hs). pose proof (digits_nonneg m). lia.
Qed.

Lemma round_below k m e l : below k m e -> below (k + 1) (round_nearest_even m l) e.
Proof.
  intros (Hm & Hd & He). assert (forall n, m <= n <= m + 1 -> below (k + 1) n e) as H.
  { intros n Hn. split; [lia|]. split; [|unfold prec in *; lia].
    destruct (Z.eq_dec n 0) as [->|]; [cbn; unfold prec in *; lia|]. rewrite digits_pos by lia.
    destruct (Z.eq_dec m 0) as [->|].
    - assert (n = 1) as -> by lia. unfold prec in *; cbn; lia.
    - rewrite digits_pos in Hd by lia. pose proof (Z.log2_succ_le m).
      pose proof (Z.log2_le_mono n (Z.succ m)). lia. }
  apply H. unfold round_nearest_even. destruct l as [|[]]; try lia. destruct (Z.even m); lia.
Qed.

Lemma binary_round_aux_finite s m e l : below 1020 m e -> is_finite (binary_round_aux prec emax s m e l).
Proof.
  intros Hb. unfold binary_round_aux. pose proof (shr_fexp_below 1020 m e l ltac:(lia) Hb) as H1.
  destruct (shr_fexp prec emax m e l) as [r1 e1]. cbn [fst snd] in H1.
  pose proof (round_below _ _ _ (loc_of_shr_record r1) H1) as H2.
  pose proof (shr_fexp_below (1020 + 1) _ e1 loc_Exact ltac:(lia) H2) as (H3 & H4 & H5).
  destruct (shr_fexp prec emax (round_nearest_even _ _) e1 loc_Exact) as [r2 e2]. cbn [fst snd] in *.
  destruct (shr_m r2); [done| |lia]. destruct (Z.leb_spec e2 (emax - prec)); [done|]. unfold emax, prec in *. lia.
Qed.

Lemma digits_div m b : 0 <= m -> 0 < b -> digits (m / b) <= Z.max 0 (digits m - digits b + 1).
Proof.
  intros Hm Hb. destruct (Z.eq_dec m 0) as [->|]; [rewrite Z.div_0_l; cbn; lia|].
  assert (0 <= m / b) by (apply Z.div_pos; lia).
  destruct (Z.eq_dec (m / b) 0) as [->|]; [cbn; lia|]. rewrite !digits_pos by lia.
  assert (m / b <= m / 2 ^ Z.log2 b) as Hle.
  { apply Z.div_le_compat_l; [lia|]. pose proof (Z.log2_spec b Hb).
    pose proof (Z.pow_pos_nonneg 2 (Z.log2 b) ltac:(lia) (Z.log2_nonneg b)). lia. }
  apply Z.log2_le_mono in Hle. rewrite <- Z.shiftr_div_pow2, Z.log2_shiftr in Hle by (apply Z.log2_nonneg || lia).
  assert (b <= m) by (destruct (Z.lt_ge_cases m b); [rewrite Z.div_small in *; lia|done]).
  pose proof (Z.log2_le_mono b m). lia.
Qed.

(** A quotient of integers below [2^1000] is finite. *)
Lemma quot_float_finite s a b : 0 <= a < 2 ^ 1000 -> 0 < b -> is_finite (quot_float s a b).
Proof.
  intros [Ha Hlt] Hb. unfold quot_float. destruct (Z.eqb_spec a 0); [done|].
  pose proof (digits_lt a 1000 Ha ltac:(lia) Hlt) as Hd. pose proof (digits_pos a ltac:(lia)).
  pose proof (digits_pos b Hb). pose proof (Z.log2_nonneg a). pose proof (Z.log2_nonneg b).
  unfold SFdiv_core_binary. rewrite !Z.add_0_r, Z.sub_0_r. set (e := Z.min _ _).
  set (m' := match _ with Z0 => a | Z.pos _ => _ | Z.neg _ => 0 end).
  assert (e <= 0 /\ e <= Z.max (digits a - digits b - prec) (-1074)) as [He1 He2].
  { unfold e, fexp, emin, emax, prec. lia. }
  assert (0 <= m' /\ digits m' <= digits a - e) as [Hm Hdm].
  { unfold m'. destruct (0 - e) eqn:E; [lia| |lia].
    assert (0 < Z.shiftl a (Z.pos p)) by (rewrite Z.shiftl_mul_pow2 by lia; lia).
    rewrite (digits_pos (Z.shiftl _ _)), Z.log2_shiftl by lia. lia. }
  destruct (Z.div_eucl m' b) as [q r] eqn:E.
  replace q with (m' / b) by (unfold Z.div; by rewrite E).
  apply binary_round_aux_finite. pose proof (digits_div m' b Hm Hb).
  split; [by apply Z.div_pos|]. unfold prec in *. lia.
Qed.

Lemma int_truediv_total a b : Z.abs a < 2 ^ 1000 -> 0 < b -> exists f, int_truediv a b = Ok f.
Proof.
  intros Ha Hb. unfold int_truediv. destruct (Z.eqb_spec b 0); [lia|].
  pose proof (quot_float_finite (xorb (a <? 0) (b <? 0)) (Z.abs a) (Z.abs b) ltac:(lia) ltac:(lia)) as Hf.
  destruct (quot_float _ _ _); try done; cbn; eauto.
Qed.

Lemma digits_iter_xO d p : digits (Z.pos (Pos.iter xO p d)) = digits (Z.pos p) + Z.pos d.
Proof.
  induction d as [|d IH] using Pos.peano_ind; [cbn; lia|].
  rewrite Pos.iter_succ. cbn [Zdigits2 digits2_pos] in *. lia.
Qed.

Lemma float_of_int_total n : 0 <= n < 2 ^ 1000 -> exists f, float_of_int n = Ok f.
Proof.
  intros [Hn Hlt]. unfold float_of_int, binary_normalize. destruct n as [|p|]; [eauto| |lia].
  unfold binary_round, shl_align. rewrite Z.sub_0_r, Z.add_0_r.
  pose proof (digits_lt (Z.pos p) 1000 ltac:(lia) ltac:(lia) Hlt) as Hd. cbn [Zdigits2] in Hd.
  destruct (fexp prec emax _) as [|d|d] eqn:E;
    match goal with |- context [binary_round_aux _ _ ?s ?m ?e ?l] =>
      assert (is_finite (binary_round_aux prec emax s m e l)) as Hf
        by (apply binary_round_aux_finite; split; [lia|]; rewrite ?digits_iter_xO; cbn [Zdigits2]; unfold prec; lia)
    end; destruct (binary_round_aux _ _ _ _ _ _); try done; eauto.
Qed.
