(* ===== verification/PyData.v ===== *)
(** * Python data shared by the components

    Datetimes, the untyped values that cross serialization boundaries, and the
    readers that [from_dict] methods apply to them. *)
From S2P Require Import Prelude PyFloat.
From Stdlib Require Import Floats.SpecFloat.

(** ** Datetimes

    A [datetime] is its instant in microseconds (for an aware datetime: of the
    UTC instant) and whether it carries a time zone.  Comparing or subtracting
    a naive and an aware datetime raises [TypeError].  A [timedelta] is its
    number of microseconds. *)
Record datetime := DT { dt_us : Z; dt_aware : bool }.

#[export] Instance datetime_eq_dec : EqDecision datetime.
Proof. solve_decision. Defined.

Definition dt_compatible (a b : datetime) : bool := Bool.eqb (dt_aware a) (dt_aware b).

Definition dt_cmp_error : exn := TypeError "can't compare offset-naive and offset-aware datetimes".
Definition dt_sub_error : exn := TypeError "can't subtract offset-naive and offset-aware datetimes".

(** [a <= b], [a < b] and [a - b] on datetimes. *)
Definition dt_leb (a b : datetime) : res bool :=
  if dt_compatible a b then Ok (dt_us a <=? dt_us b) else Err dt_cmp_error.
Definition dt_ltb (a b : datetime) : res bool :=
  if dt_compatible a b then Ok (dt_us a <? dt_us b) else Err dt_cmp_error.
Definition dt_sub (a b : datetime) : res Z :=
  if dt_compatible a b then Ok (dt_us a - dt_us b) else Err dt_sub_error.

(** [a + delta] *)
Definition dt_add (a : datetime) (delta : Z) : datetime := DT (dt_us a + delta) (dt_aware a).

(** [d if d.tzinfo else d.replace(tzinfo=UTC)] *)
Definition dt_to_utc (d : datetime) : datetime := DT (dt_us d) true.

Definition seconds (n : Z) : Z := n * 1000000.
Definition minutes (n : Z) : Z := seconds (n * 60).

(** An aware datetime, as [datetime.now(timezone.utc)] returns. *)
Definition utc (us : Z) : datetime := DT us true.

Lemma dt_leb_aware a b : dt_aware a = true -> dt_aware b = true -> dt_leb a b = Ok (dt_us a <=? dt_us b).
Proof. intros Ha Hb. unfold dt_leb, dt_compatible. by rewrite Ha, Hb. Qed.
Lemma dt_ltb_aware a b : dt_aware a = true -> dt_aware b = true -> dt_ltb a b = Ok (dt_us a <? dt_us b).
Proof. intros Ha Hb. unfold dt_ltb, dt_compatible. by rewrite Ha, Hb. Qed.
Lemma dt_sub_aware a b : dt_aware a = true -> dt_aware b = true -> dt_sub a b = Ok (dt_us a - dt_us b).
Proof. intros Ha Hb. unfold dt_sub, dt_compatible. by rewrite Ha, Hb. Qed.
#[export] Hint Rewrite dt_leb_aware dt_ltb_aware dt_sub_aware using done : lcm.

Lemma dt_to_utc_aware d : dt_aware (dt_to_utc d) = true.
Proof. done. Qed.
#[export] Hint Resolve dt_to_utc_aware : lcm.

Lemma dt_sub_utc a b : dt_sub (dt_to_utc a) (dt_to_utc b) = Ok (dt_us a - dt_us b).
Proof. done. Qed.

(** Readings of [datetime.now]: by a command of an aggregate, and by the handler
    it triggers for [transitioned_at] and for [updated_at]. *)
Record clock := { now : datetime; now_hist : datetime; now_upd : datetime }.

(** ** Untyped values

    [PIso d] is the string [d.isoformat()], which [datetime.fromisoformat]
    reads back as [d]; [PSecs us] is the float number of seconds that
    [timedelta.total_seconds()] gives for [us] microseconds. *)
Inductive pyval :=
| PNone
| PBool (b : bool)
| PInt (z : Z)
| PFloat (f : float)
| PStr (s : string)
| PTime (d : datetime)
| PIso (d : datetime)
| PSecs (us : Z)
| PList (l : list pyval)
| PDict (d : dict pyval).

Abbreviation pydict := (dict pyval).

(** Truth value testing. *)
Definition truthy (v : pyval) : bool :=
  match v with
  | PNone => false
  | PBool b => b
  | PInt z => negb (z =? 0)
  | PFloat f => match f with S754_zero _ => false | _ => true end
  | PStr s => str_truthy s
  | PTime _ | PIso _ => true
  | PSecs us => negb (us =? 0)
  | PList l => match l with [] => false | _ => true end
  | PDict d => match d with [] => false | _ => true end
  end.

(** [d.get(k)]: [None] for a missing key. *)
Definition pd_get (k : string) (d : pydict) : pyval := default PNone (dict_get k d).
(** [d.get(k, v)] *)
Definition pd_get_or (k : string) (v : pyval) (d : pydict) : pyval := default v (dict_get k d).
(** [v or w] *)
Definition py_or (v w : pyval) : pyval := if truthy v then v else w.

Definition is_dict (v : pyval) : bool := match v with PDict _ => true | _ => false end.
Definition is_str (v : pyval) : bool := match v with PStr _ | PIso _ => true | _ => false end.
(** [v == "s"] for a string [s] that is not an ISO timestamp. *)
Definition eq_str (v : pyval) (s : string) : bool :=
  match v with PStr s' => String.eqb s' s | _ => false end.

Definition of_ostr (o : option string) : pyval := match o with Some s => PStr s | None => PNone end.
Definition of_oint (o : option Z) : pyval := match o with Some z => PInt z | None => PNone end.
Definition of_odict (o : option pydict) : pyval := match o with Some d => PDict d | None => PNone end.
Definition of_ports (p : dict Z) : pyval := PDict (map (fun '(k, v) => (k, PInt v)) p).

(** Readers: a [from_dict] stores what it finds; the model reads each field at
    the type the dataclass declares for it. *)
Definition bad_field : exn := TypeError "field of an unexpected type".
Definition as_str (v : pyval) : res string := match v with PStr s => Ok s | _ => Err bad_field end.
Definition as_ostr (v : pyval) : res (option string) :=
  match v with PNone => Ok None | PStr s => Ok (Some s) | _ => Err bad_field end.
Definition as_int (v : pyval) : res Z := match v with PInt z => Ok z | _ => Err bad_field end.
Definition as_bool (v : pyval) : res bool := match v with PBool b => Ok b | _ => Err bad_field end.
Definition as_secs (v : pyval) : res Z :=
  match v with PSecs us => Ok us | PInt z => Ok (seconds z) | _ => Err bad_field end.
Definition as_odict (v : pyval) : res (option pydict) :=
  match v with PNone => Ok None | PDict d => Ok (Some d) | _ => Err bad_field end.
Definition as_dict (v : pyval) : res pydict :=
  match v with PDict d => Ok d | _ => Err bad_field end.
(** [datetime.fromisoformat(v) if isinstance(v, str) else v] *)
Definition as_datetime (v : pyval) : res datetime :=
  match v with
  | PIso d | PTime d => Ok d
  | PStr _ => Err (ValueError "Invalid isoformat string")
  | _ => Err bad_field
  end.

Definition of_otime (o : option datetime) : pyval := match o with Some d => PIso d | None => PNone end.
Definition of_osecs (o : option Z) : pyval := match o with Some us => PSecs us | None => PNone end.
Definition of_strs (d : dict string) : pyval := PDict (map (fun '(k, v) => (k, PStr v)) d).

(** [f"{l}"] for a list of strings without quotes or backslashes. *)
Definition repr_list (l : list string) : string := "[" +:+ py_join ", " (map (fun s => "'" +:+ s +:+ "'") l) +:+ "]".

(** [str(e)] *)
Definition exn_str (e : exn) : string :=
  match e with
  | ValueError m | TypeError m | KeyError m | OverflowError m | ZeroDivisionError m | AttributeError m
  | PipelineDefinitionError m | PipelineTemplateError m => m
  | InvalidStateTransitionError _ _ m | InvalidLabRecordTransitionError _ _ m => m
  end.

(** [datetime.fromisoformat(v)] *)
Definition fromisoformat (v : pyval) : res datetime :=
  match v with
  | PIso d => Ok d
  | PStr s => Err (ValueError ("Invalid isoformat string: '" +:+ s +:+ "'"))
  | _ => Err (TypeError "fromisoformat: argument must be str")
  end.

Definition as_oint (v : pyval) : res (option Z) :=
  match v with PNone => Ok None | PInt z => Ok (Some z) | _ => Err bad_field end.
Definition as_osecs (v : pyval) : res (option Z) :=
  match v with PNone => Ok None | PSecs us => Ok (Some us) | PInt z => Ok (Some (seconds z)) | _ => Err bad_field end.
Definition as_list (v : pyval) : res (list pyval) :=
  match v with PList l => Ok l | _ => Err bad_field end.
Definition as_str_list (v : pyval) : res (list string) := l ← as_list v; mapM as_str l.
Definition as_strs (v : pyval) : res (dict string) :=
  match v with
  | PDict d => mapM (fun '(k, v) => s ← as_str v; Ok (k, s)) d
  | _ => Err bad_field
  end.

Lemma as_ostr_of o : as_ostr (of_ostr o) = Ok o.
Proof. by destruct o. Qed.
Lemma as_odict_of o : as_odict (of_odict o) = Ok o.
Proof. by destruct o. Qed.
Lemma as_oint_of o : as_oint (of_oint o) = Ok o. Proof. by destruct o. Qed.
Lemma as_osecs_of o : as_osecs (of_osecs o) = Ok o. Proof. by destruct o. Qed.

Lemma as_strs_of d : as_strs (of_strs d) = Ok d.
Proof. cbn. induction d as [|[k v] d IH]; cbn; [done|]. by rewrite IH. Qed.

Lemma mapM_to_dict {A} (to : A -> pydict) (from : pydict -> res A) l :
  (forall x, from (to x) = Ok x) ->
  mapM (fun v => as_dict v ≫= from) (map (fun x => PDict (to x)) l) = Ok l.
Proof. intros Hr. induction l as [|x l IH]; cbn; [done|]. rewrite Hr. cbn. by rewrite IH. Qed.
#[export] Hint Rewrite as_ostr_of as_odict_of as_oint_of as_osecs_of as_strs_of : lcm.

(** * Dates

    The calendar behind [datetime.strptime] and [datetime.strftime], as far as the code uses
    them: the day number of a date and back, and the formats of event timestamps.  Strings
    are ASCII. *)
Module Calendar.
Import Stdlib.Strings.Ascii.

(** ** Days and dates

    Days are counted from 1970-01-01; a year starts in March, so that the leap day is its
    last, and 400 years are 146097 days. *)
Definition civil_of_days (days : Z) : Z * Z * Z :=
  let z := days + 719468 in
  let era := z / 146097 in
  let doe := z mod 146097 in
  let yoe := (doe - doe / 1460 + doe / 36524 - doe / 146096) / 365 in
  let doy := doe - (365 * yoe + yoe / 4 - yoe / 100) in
  let mp := (5 * doy + 2) / 153 in
  let d := doy - (153 * mp + 2) / 5 + 1 in
  let m := if mp <? 10 then mp + 3 else mp - 9 in
  (yoe + era * 400 + (if m <=? 2 then 1 else 0), m, d).

Definition days_of_civil (y m d : Z) : Z :=
  let y := if m <=? 2 then y - 1 else y in
  let era := y / 400 in
  let yoe := y mod 400 in
  let mp := if m <=? 2 then m + 9 else m - 3 in
  let doy := (153 * mp + 2) / 5 + d - 1 in
  era * 146097 + yoe * 365 + yoe / 4 - yoe / 100 + doy - 719468.

(** The date, hour, minute, second and microsecond of a datetime. *)
Definition us_per_day : Z := seconds 86400.

Definition time_of_day (us : Z) : Z * Z * Z * Z :=
  let t := us mod us_per_day in
  (t / seconds 3600, t / seconds 60 mod 60, t / seconds 1 mod 60, t mod seconds 1).

Definition us_of_civil (y m d hour minute second micro : Z) : Z :=
  days_of_civil y m d * us_per_day + seconds (hour * 3600 + minute * 60 + second) + micro.

(** ** [strftime("%Y%m%d-%H%M%S")] *)

(** [n] in [w] digits at least. *)
Definition padded (w : nat) (n : Z) : string :=
  let s := pretty n in
  String.string_of_list_ascii (repeat "0"%char (w - String.length s)) +:+ s.

Definition compact_stamp (t : datetime) : string :=
  let '(y, m, d) := civil_of_days (dt_us t / us_per_day) in
  let '(hour, minute, second, _) := time_of_day (dt_us t) in
  padded 4 y +:+ padded 2 m +:+ padded 2 d +:+ "-" +:+ padded 2 hour +:+ padded 2 minute +:+ padded 2 second.

(** ** [strptime] *)

Definition digit (ch : ascii) : option Z :=
  let n := Z.of_nat (nat_of_ascii ch) - 48 in if (0 <=? n) && (n <=? 9) then Some n else None.

Fixpoint number_from (acc : Z) (l : list ascii) : option Z :=
  match l with
  | [] => Some acc
  | ch :: l => match digit ch with Some n => number_from (10 * acc + n) l | None => None end
  end.

(** A field of at least [lo_w] and at most [hi_w] digits, whose value is between [lo] and [hi]. *)
Definition field (lo_w hi_w : nat) (lo hi : Z) (l : list ascii) : option Z :=
  if (Nat.leb lo_w (length l)) && (Nat.leb (length l) hi_w) then
    match number_from 0 l with Some n => if (lo <=? n) && (n <=? hi) then Some n else None | None => None end
  else None.

(** [%d] also takes a blank and one digit. *)
Definition day_field (l : list ascii) : option Z :=
  match l with
  | " "%char :: l => field 1 1 1 9 l
  | _ => field 1 2 1 31 l
  end.

(** [%f]: up to six digits of a second. *)
Definition micro_field (l : list ascii) : option Z :=
  match field 1 6 0 999999 l with Some n => Some (n * 10 ^ (6 - Z.of_nat (length l))) | None => None end.

(** What comes before the first [stop], and after it; letters match in either case. *)
Definition same_letter (a b : ascii) : bool := String.eqb (py_lower (String a "")) (py_lower (String b "")).

Fixpoint until (stop : ascii) (l : list ascii) : option (list ascii * list ascii) :=
  match l with
  | [] => None
  | ch :: l =>
      if same_letter ch stop then Some ([], l)
      else match until stop l with Some (before, after) => Some (ch :: before, after) | None => None end
  end.

Definition days_in_month (y m : Z) : Z :=
  if m =? 12 then 31 else days_of_civil y (m + 1) 1 - days_of_civil y m 1.

(** [datetime(y, m, d, hour, minute, second, micro)] *)
Definition naive_datetime (y m d hour minute second micro : Z) : option datetime :=
  if (1 <=? y) && (d <=? days_in_month y m) && (second <=? 59)
  then Some (DT (us_of_civil y m d hour minute second micro) false) else None.

(** [%S] or [%S.%f], then [Z] or nothing. *)
Definition second_fields (fraction zulu : bool) (l : list ascii) : option (Z * Z) :=
  l ← (if zulu then match until "Z" l with Some (before, []) => Some before | _ => None end else Some l);
  if fraction then
    '(s, f) ← until "." l;
    second ← field 1 2 0 61 s;
    micro ← micro_field f;
    Some (second, micro)
  else second ← field 1 2 0 61 l; Some (second, 0).

(** [%Y-%m-%dT%H:%M:%S], with [.%f] and [Z] as asked. *)
Definition strptime (fraction zulu : bool) (s : string) : option datetime :=
  '(y, l) ← until "-" (String.list_ascii_of_string s);
  '(m, l) ← until "-" l;
  '(d, l) ← until "T" l;
  '(hour, l) ← until ":" l;
  '(minute, l) ← until ":" l;
  y ← field 4 4 0 9999 y;
  m ← field 1 2 1 12 m;
  d ← day_field d;
  hour ← field 1 2 0 23 hour;
  minute ← field 1 2 0 59 minute;
  '(second, micro) ← second_fields fraction zulu l;
  naive_datetime y m d hour minute second micro.

(** ** Facts *)

(** The year of the era and the day of the year are in their bounds. *)
Lemma era_bounds doe : 0 <= doe < 146097 ->
  let yoe := (doe - doe / 1460 + doe / 36524 - doe / 146096) / 365 in
  0 <= yoe < 400 /\ 0 <= doe - (365 * yoe + yoe / 4 - yoe / 100) <= 366.
Proof. intros Hd. cbn zeta. split; Z.to_euclidean_division_equations; lia. Qed.

Lemma days_of_civil_of_days days : let '(y, m, d) := civil_of_days days in days_of_civil y m d = days.
Proof.
  unfold civil_of_days, days_of_civil. pose proof (Z.div_mod (days + 719468) 146097 ltac:(lia)) as Hz.
  pose proof (era_bounds ((days + 719468) mod 146097) ltac:(apply Z.mod_pos_bound; lia)) as [Hy Hd]. cbn zeta in Hy, Hd.
  set (era := (days + 719468) / 146097) in *. set (doe := (days + 719468) mod 146097) in *.
  set (yoe := (doe - doe / 1460 + doe / 36524 - doe / 146096) / 365) in *.
  set (doy := doe - (365 * yoe + yoe / 4 - yoe / 100)) in *. set (mp := (5 * doy + 2) / 153).
  assert (0 <= mp <= 11) as Hmp by (unfold mp; Z.to_euclidean_division_equations; lia).
  set (m := if mp <? 10 then mp + 3 else mp - 9).
  assert ((if m <=? 2 then m + 9 else m - 3) = mp) as -> by (unfold m; destruct (mp <? 10) eqn:E1; destruct (_ <=? 2) eqn:E2; lia).
  replace (if m <=? 2 then yoe + era * 400 + (if m <=? 2 then 1 else 0) - 1 else yoe + era * 400 + (if m <=? 2 then 1 else 0))
    with (yoe + era * 400) by (destruct (m <=? 2); lia).
  rewrite Z.div_add, Z.mod_add, (Z.div_small yoe), (Z.mod_small yoe) by lia. unfold doy. lia.
Qed.

(** Reading the three numbers of a date gives its day back. *)
Lemma us_of_civil_of_us us :
  let '(y, m, d) := civil_of_days (us / us_per_day) in let '(hour, minute, second, micro) := time_of_day us in
  us_of_civil y m d hour minute second micro = us.
Proof.
  pose proof (days_of_civil_of_days (us / us_per_day)) as Hd. destruct (civil_of_days _) as [[y m] d].
  unfold time_of_day, us_of_civil. rewrite Hd. unfold us_per_day, seconds. Z.to_euclidean_division_equations. lia.
Qed.

Example read_zulu : strptime true true "2025-11-19T10:25:32.810Z" = Some (DT (us_of_civil 2025 11 19 10 25 32 810000) false).
Proof. reflexivity. Qed.
Example no_such_day : strptime false false "2025-02-29T10:25:32" = None.
Proof. reflexivity. Qed.
End Calendar.
