(* ===== verification/PyNum.v ===== *)
(** * Arithmetic on untyped values

    The operators the code applies to numbers it read out of JSON: subtraction,
    division, [abs], comparison and equality of values that may be integers,
    floats or neither, with the exceptions they raise. *)
From S2P Require Import Prelude PyFloat PyData.
From Stdlib Require Import Floats.SpecFloat.

(** ** Numbers *)
Inductive num := NInt (z : Z) | NFloat (f : float).

(** The number a value is; [bool] is a subclass of [int]. *)
Definition num_of (v : pyval) : option num :=
  match v with
  | PBool b => Some (NInt (if b then 1 else 0))
  | PInt z => Some (NInt z)
  | PFloat f => Some (NFloat f)
  | PSecs us => match int_truediv us 1000000 with Ok f => Some (NFloat f) | Err _ => None end
  | _ => None
  end.

Definition float_of_num (n : num) : res float :=
  match n with NInt z => float_of_int z | NFloat f => Ok f end.

Definition of_num (n : num) : pyval := match n with NInt z => PInt z | NFloat f => PFloat f end.

Definition fneg : float -> float := SFopp.
Definition fabs : float -> float := SFabs.
Definition fsub (a b : float) : float := SFsub prec emax a b.

Definition is_fzero (f : float) : bool := match f with S754_zero _ => true | _ => false end.

(** A float against an integer, exactly; no answer for a NaN. *)
Definition fcompare_int (f : float) (z : Z) : option comparison :=
  match f with
  | S754_zero _ => Some (0 ?= z)
  | S754_infinity s => Some (if s then Lt else Gt)
  | S754_nan => None
  | S754_finite s m e =>
      let m := if s then Z.neg m else Z.pos m in
      Some (if 0 <=? e then m * 2 ^ e ?= z else m ?= z * 2 ^ (- e))
  end.

Definition num_compare (a b : num) : option comparison :=
  match a, b with
  | NInt a, NInt b => Some (a ?= b)
  | NFloat a, NFloat b => SFcompare a b
  | NFloat a, NInt b => fcompare_int a b
  | NInt a, NFloat b => CompOpp <$> fcompare_int b a
  end.

Definition num_ltb (a b : num) : bool := match num_compare a b with Some Lt => true | _ => false end.
Definition num_leb (a b : num) : bool := match num_compare a b with Some (Lt | Eq) => true | _ => false end.
Definition num_eqb (a b : num) : bool := match num_compare a b with Some Eq => true | _ => false end.

Definition num_sub (a b : num) : res num :=
  match a, b with
  | NInt a, NInt b => Ok (NInt (a - b))
  | _, _ => a ← float_of_num a; b ← float_of_num b; Ok (NFloat (fsub a b))
  end.

Definition num_mul (a b : num) : res num :=
  match a, b with
  | NInt a, NInt b => Ok (NInt (a * b))
  | _, _ => a ← float_of_num a; b ← float_of_num b; Ok (NFloat (fmul a b))
  end.

Definition num_add (a b : num) : res num :=
  match a, b with
  | NInt a, NInt b => Ok (NInt (a + b))
  | _, _ => a ← float_of_num a; b ← float_of_num b; Ok (NFloat (fadd a b))
  end.

(** [a / b] *)
Definition num_truediv (a b : num) : res float :=
  match a, b with
  | NInt a, NInt b => int_truediv a b
  | _, _ =>
      a ← float_of_num a; b ← float_of_num b;
      if is_fzero b then Err (ZeroDivisionError "float division by zero") else Ok (fdiv a b)
  end.

Definition num_abs (n : num) : num :=
  match n with NInt z => NInt (Z.abs z) | NFloat f => NFloat (fabs f) end.

(** ** Operators on values *)
Definition unsupported : exn := TypeError "unsupported operand type(s)".

Definition py_num (v : pyval) : res num := match num_of v with Some n => Ok n | None => Err unsupported end.

Definition py_sub (a b : pyval) : res pyval := a ← py_num a; b ← py_num b; n ← num_sub a b; Ok (of_num n).
Definition py_mul (a b : pyval) : res pyval := a ← py_num a; b ← py_num b; n ← num_mul a b; Ok (of_num n).
Definition py_truediv (a b : pyval) : res pyval := a ← py_num a; b ← py_num b; f ← num_truediv a b; Ok (PFloat f).
Definition py_abs (a : pyval) : res pyval := a ← py_num a; Ok (of_num (num_abs a)).

(** [a < b] on numbers; other values are not compared by the code. *)
Definition py_ltb (a b : pyval) : res bool := a ← py_num a; b ← py_num b; Ok (num_ltb a b).
Definition py_leb (a b : pyval) : res bool := a ← py_num a; b ← py_num b; Ok (num_leb a b).

(** [int(v)] for a number. *)
Definition trunc (f : float) : res Z :=
  match f with
  | S754_zero _ => Ok 0
  | S754_finite s m e =>
      let n := if 0 <=? e then Z.pos m * 2 ^ e else Z.pos m / 2 ^ (- e) in Ok (if s then - n else n)
  | S754_infinity _ => Err (OverflowError "cannot convert float infinity to integer")
  | S754_nan => Err (ValueError "cannot convert float NaN to integer")
  end.
Definition num_int (n : num) : res Z := match n with NInt z => Ok z | NFloat f => trunc f end.

(** [a == b]: numbers by value, dicts whatever their order. *)
Fixpoint py_eq (a b : pyval) {struct a} : bool :=
  match a, b with
  | PNone, PNone => true
  | PStr s, PStr t => String.eqb s t
  | PTime s, PTime t | PIso s, PIso t => bool_decide (s = t)
  | PList l, PList k =>
      (fix eq_list (l k : list pyval) : bool :=
         match l, k with
         | [], [] => true
         | x :: l, y :: k => py_eq x y && eq_list l k
         | _, _ => false
         end) l k
  | PDict d, PDict e =>
      (length d =? length e)%nat &&
      (fix eq_items (d : list (string * pyval)) : bool :=
         match d with
         | [] => true
         | (k, v) :: d => match dict_get k e with Some w => py_eq v w && eq_items d | None => false end
         end) d
  | _, _ => match num_of a, num_of b with Some x, Some y => num_eqb x y | _, _ => false end
  end.

(** [a is None] *)
Definition is_none (v : pyval) : bool := match v with PNone => true | _ => false end.

(** The floats 0.0, 60.0 and 100.0. *)
Definition f_60 : float := S754_finite false 8444249301319680 (-47).
Definition f_100 : float := S754_finite false 7036874417766400 (-46).

(** [delta.total_seconds() / 60] for a [timedelta] of [us] microseconds. *)
Definition in_minutes (us : Z) : res float := s ← int_truediv us 1000000; Ok (fdiv s f_60).

Example f_60_value : float_of_int 60 = Ok f_60. Proof. reflexivity. Qed.
Example f_100_value : float_of_int 100 = Ok f_100. Proof. reflexivity. Qed.

(** ** Facts *)

Lemma num_ltb_int a b : num_ltb (NInt a) (NInt b) = (a <? b).
Proof. unfold num_ltb, num_compare, Z.ltb. by destruct (a ?= b). Qed.
Lemma num_leb_int a b : num_leb (NInt a) (NInt b) = (a <=? b).
Proof. unfold num_leb, num_compare, Z.leb. by destruct (a ?= b). Qed.
Lemma num_eqb_int a b : num_eqb (NInt a) (NInt b) = (a =? b).
Proof. unfold num_eqb, num_compare. destruct (Z.compare_spec a b), (Z.eqb_spec a b); done || lia. Qed.
#[export] Hint Rewrite num_ltb_int num_leb_int num_eqb_int : lcm.
