(* ===== verification/Enums.v ===== *)
(** * Status enums and transition tables ([core/lcm_core/domain/enums])

    The case-insensitive enum base class as an interface, its instances, and
    the valid-transition tables of the state machines. *)
From S2P Require Import Prelude.

(** ** [CaseInsensitiveStrEnum] *)

Class StrEnum (E : Type) := {
  enum_value : E -> string;
  enum_members : list E
}.

(** What every such enum promises: all members are listed, values are lower
    case and name one member. *)
Class StrEnumLaws (E : Type) `{StrEnum E} := {
  enum_complete : forall e : E, e ∈ enum_members;
  enum_value_inj : forall e e' : E, enum_value e = enum_value e' -> e = e';
  enum_value_lower : forall e : E, py_lower (enum_value e) = enum_value e
}.

Section CaseInsensitive.
Context {E : Type} `{StrEnum E}.

Definition find_value (s : string) : option E :=
  List.find (fun m => String.eqb (enum_value m) s) enum_members.

(** [_missing_]: the member whose value is the lower-cased argument. *)
Definition _missing_ (value : string) : option E := find_value (py_lower value).

(** [E(value)]: the member with this value, else [_missing_], else ValueError. *)
Definition enum_call (value : string) : res E :=
  match find_value value with
  | Some m => Ok m
  | None =>
      match _missing_ value with
      | Some m => Ok m
      | None => Err (ValueError (value +:+ " is not a valid member"))
      end
  end.
End CaseInsensitive.

(** ** [LabletSessionStatus] *)
Module SessionStatus.
Inductive LabletSessionStatus :=
| PENDING | SCHEDULED | INSTANTIATING | READY | RUNNING | COLLECTING | GRADING
| STOPPING | STOPPED | ARCHIVED | TERMINATED | EXPIRED.

Definition LabletSessionStatus_value (s : LabletSessionStatus) : string :=
  match s with
  | PENDING => "pending" | SCHEDULED => "scheduled" | INSTANTIATING => "instantiating"
  | READY => "ready" | RUNNING => "running" | COLLECTING => "collecting"
  | GRADING => "grading" | STOPPING => "stopping" | STOPPED => "stopped"
  | ARCHIVED => "archived" | TERMINATED => "terminated" | EXPIRED => "expired"
  end.

Definition LabletSessionStatus_members : list LabletSessionStatus :=
  [PENDING; SCHEDULED; INSTANTIATING; READY; RUNNING; COLLECTING; GRADING;
   STOPPING; STOPPED; ARCHIVED; TERMINATED; EXPIRED].

#[global] Instance eq_dec : EqDecision LabletSessionStatus.
Proof. solve_decision. Defined.
#[global] Instance enum : StrEnum LabletSessionStatus :=
  {| enum_value := LabletSessionStatus_value; enum_members := LabletSessionStatus_members |}.

Definition LABLET_SESSION_VALID_TRANSITIONS (s : LabletSessionStatus) : list LabletSessionStatus :=
  match s with
  | PENDING => [SCHEDULED; TERMINATED]
  | SCHEDULED => [INSTANTIATING; TERMINATED]
  | INSTANTIATING => [READY; EXPIRED; TERMINATED]
  | READY => [RUNNING; EXPIRED; TERMINATED]
  | RUNNING => [COLLECTING; STOPPING; EXPIRED; TERMINATED]
  | COLLECTING => [GRADING; STOPPING; EXPIRED; TERMINATED]
  | GRADING => [STOPPING; EXPIRED; TERMINATED]
  | STOPPING => [STOPPED; ARCHIVED; TERMINATED]
  | STOPPED => [ARCHIVED; TERMINATED]
  | ARCHIVED => [TERMINATED]
  | TERMINATED => []
  | EXPIRED => [STOPPING; TERMINATED]
  end.
End SessionStatus.

(** ** [CMLWorkerStatus] *)
Module WorkerStatus.
Inductive CMLWorkerStatus :=
| PENDING | PROVISIONING | STARTING | RUNNING | DRAINING | STOPPING | STOPPED
| TERMINATING | SHUTTING_DOWN | TERMINATED | FAILED | UNKNOWN.

Definition CMLWorkerStatus_value (s : CMLWorkerStatus) : string :=
  match s with
  | PENDING => "pending" | PROVISIONING => "provisioning" | STARTING => "starting"
  | RUNNING => "running" | DRAINING => "draining" | STOPPING => "stopping"
  | STOPPED => "stopped" | TERMINATING => "terminating"
  | SHUTTING_DOWN => "shutting-down" | TERMINATED => "terminated"
  | FAILED => "failed" | UNKNOWN => "unknown"
  end.

Definition CMLWorkerStatus_members : list CMLWorkerStatus :=
  [PENDING; PROVISIONING; STARTING; RUNNING; DRAINING; STOPPING; STOPPED;
   TERMINATING; SHUTTING_DOWN; TERMINATED; FAILED; UNKNOWN].

#[global] Instance eq_dec : EqDecision CMLWorkerStatus.
Proof. solve_decision. Defined.
#[global] Instance enum : StrEnum CMLWorkerStatus :=
  {| enum_value := CMLWorkerStatus_value; enum_members := CMLWorkerStatus_members |}.

Definition CML_WORKER_VALID_TRANSITIONS (s : CMLWorkerStatus) : list CMLWorkerStatus :=
  match s with
  | PENDING => [PROVISIONING; FAILED; TERMINATED]
  | PROVISIONING => [STARTING; RUNNING; FAILED; TERMINATED]
  | STARTING => [RUNNING; FAILED; STOPPING; TERMINATED]
  | RUNNING => [DRAINING; STOPPING; TERMINATING; SHUTTING_DOWN; TERMINATED; FAILED]
  | DRAINING => [STOPPING; TERMINATING; SHUTTING_DOWN; TERMINATED; FAILED]
  | STOPPING => [STOPPED; TERMINATED; FAILED]
  | STOPPED => [STARTING; TERMINATING; SHUTTING_DOWN; TERMINATED]
  | TERMINATING => [TERMINATED]
  | SHUTTING_DOWN => [TERMINATED]
  | TERMINATED => []
  | FAILED => [PENDING; TERMINATED]
  | UNKNOWN => CMLWorkerStatus_members
  end.
End WorkerStatus.

(** ** [LabRecordStatus] *)
Module LabStatus.
Inductive LabRecordStatus :=
| DISCOVERED | IMPORTING | DEFINED | STARTING | QUEUED | BOOTED | PAUSED
| STOPPING | STOPPED | WIPING | WIPED | DELETING | DELETED | ARCHIVED
| ERROR | ORPHANED.

Definition LabRecordStatus_value (s : LabRecordStatus) : string :=
  match s with
  | DISCOVERED => "discovered" | IMPORTING => "importing" | DEFINED => "defined"
  | STARTING => "starting" | QUEUED => "queued" | BOOTED => "booted"
  | PAUSED => "paused" | STOPPING => "stopping" | STOPPED => "stopped"
  | WIPING => "wiping" | WIPED => "wiped" | DELETING => "deleting"
  | DELETED => "deleted" | ARCHIVED => "archived" | ERROR => "error"
  | ORPHANED => "orphaned"
  end.

Definition LabRecordStatus_members : list LabRecordStatus :=
  [DISCOVERED; IMPORTING; DEFINED; STARTING; QUEUED; BOOTED; PAUSED; STOPPING;
   STOPPED; WIPING; WIPED; DELETING; DELETED; ARCHIVED; ERROR; ORPHANED].

#[global] Instance eq_dec : EqDecision LabRecordStatus.
Proof. solve_decision. Defined.
#[global] Instance enum : StrEnum LabRecordStatus :=
  {| enum_value := LabRecordStatus_value; enum_members := LabRecordStatus_members |}.

(** Raw CML state strings and the status they stand for. *)
Definition CML_STATE_TO_LAB_RECORD_STATUS : dict LabRecordStatus :=
  [("DEFINED_ON_CORE", DEFINED); ("STARTED", BOOTED); ("BOOTED", BOOTED);
     ("STOPPED", STOPPED); ("QUEUED", QUEUED)].

Definition LAB_RECORD_VALID_TRANSITIONS (s : LabRecordStatus) : list LabRecordStatus :=
  match s with
  | DISCOVERED => [IMPORTING; DEFINED; STARTING; BOOTED; STOPPED; WIPED; DELETED; ORPHANED]
  | IMPORTING => [DEFINED; ERROR; ORPHANED]
  | DEFINED => [STARTING; BOOTED; WIPING; DELETING; DELETED; ORPHANED; ERROR]
  | STARTING => [QUEUED; BOOTED; STOPPED; ERROR; ORPHANED]
  | QUEUED => [BOOTED; STOPPED; ERROR; ORPHANED]
  | BOOTED => [STOPPING; STOPPED; PAUSED; WIPED; ERROR; ORPHANED]
  | PAUSED => [STARTING; BOOTED; STOPPING; STOPPED; ERROR; ORPHANED]
  | STOPPING => [STOPPED; ERROR; ORPHANED]
  | STOPPED => [STARTING; BOOTED; WIPING; WIPED; DELETING; DELETED; ARCHIVED; ORPHANED; ERROR]
  | WIPING => [WIPED; ERROR; ORPHANED]
  | WIPED => [STARTING; BOOTED; DELETING; DELETED; ARCHIVED; ORPHANED]
  | DELETING => [DELETED; ERROR; ORPHANED]
  | DELETED => []
  | ARCHIVED => []
  | ERROR => [STARTING; STOPPING; WIPING; WIPED; DELETING; DELETED; DEFINED; ORPHANED]
  | ORPHANED => [DELETED; ARCHIVED]
  end.
End LabStatus.

(** ** [PodDefinitionStatus] *)
Module PodStatus.
Inductive PodDefinitionStatus := DEFINED | SYNCHRONIZING | READY | FAILED | EXPIRED | SUPERSEDED.

Definition PodDefinitionStatus_value (s : PodDefinitionStatus) : string :=
  match s with
  | DEFINED => "defined" | SYNCHRONIZING => "synchronizing" | READY => "ready"
  | FAILED => "failed" | EXPIRED => "expired" | SUPERSEDED => "superseded"
  end.

Definition PodDefinitionStatus_members : list PodDefinitionStatus := [DEFINED; SYNCHRONIZING; READY; FAILED; EXPIRED; SUPERSEDED].

#[global] Instance eq_dec : EqDecision PodDefinitionStatus.
Proof. solve_decision. Defined.
#[global] Instance enum : StrEnum PodDefinitionStatus :=
  {| enum_value := PodDefinitionStatus_value; enum_members := PodDefinitionStatus_members |}.

Definition POD_DEFINITION_VALID_TRANSITIONS (s : PodDefinitionStatus) : list PodDefinitionStatus :=
  match s with
  | DEFINED => [SYNCHRONIZING]
  | SYNCHRONIZING => [READY; FAILED]
  | READY => [EXPIRED; SUPERSEDED]
  | FAILED => [SYNCHRONIZING]
  | EXPIRED => []
  | SUPERSEDED => []
  end.
End PodStatus.

(** ** [CMLServiceStatus] *)
Module ServiceStatus.
Inductive CMLServiceStatus :=
| UNAVAILABLE | STARTING | AVAILABLE | ERROR.

Definition CMLServiceStatus_value (s : CMLServiceStatus) : string :=
  match s with
  | UNAVAILABLE => "unavailable" | STARTING => "starting" | AVAILABLE => "available"
  | ERROR => "error"
  end.

Definition CMLServiceStatus_members : list CMLServiceStatus :=
  [UNAVAILABLE; STARTING; AVAILABLE; ERROR].

#[global] Instance eq_dec : EqDecision CMLServiceStatus.
Proof. solve_decision. Defined.
#[global] Instance enum : StrEnum CMLServiceStatus :=
  {| enum_value := CMLServiceStatus_value; enum_members := CMLServiceStatus_members |}.
End ServiceStatus.

(** ** [LicenseStatus] *)
Module LicenseState.
Inductive LicenseStatus :=
| UNREGISTERED | REGISTERED | EVALUATION | EXPIRED | INVALID.

Definition LicenseStatus_value (s : LicenseStatus) : string :=
  match s with
  | UNREGISTERED => "unregistered" | REGISTERED => "registered"
  | EVALUATION => "evaluation" | EXPIRED => "expired" | INVALID => "invalid"
  end.

Definition LicenseStatus_members : list LicenseStatus :=
  [UNREGISTERED; REGISTERED; EVALUATION; EXPIRED; INVALID].

#[global] Instance eq_dec : EqDecision LicenseStatus.
Proof. solve_decision. Defined.
#[global] Instance enum : StrEnum LicenseStatus :=
  {| enum_value := LicenseStatus_value; enum_members := LicenseStatus_members |}.
End LicenseState.

(** ** [WorkerOrigin] *)
Module Origin.
Inductive WorkerOrigin :=
| USER_CREATED | SCALE_UP | EC2_DISCOVERY | UNKNOWN.

Definition WorkerOrigin_value (s : WorkerOrigin) : string :=
  match s with
  | USER_CREATED => "user_created" | SCALE_UP => "scale_up"
  | EC2_DISCOVERY => "ec2_discovery" | UNKNOWN => "unknown"
  end.

Definition WorkerOrigin_members : list WorkerOrigin :=
  [USER_CREATED; SCALE_UP; EC2_DISCOVERY; UNKNOWN].

#[global] Instance eq_dec : EqDecision WorkerOrigin.
Proof. solve_decision. Defined.
#[global] Instance enum : StrEnum WorkerOrigin :=
  {| enum_value := WorkerOrigin_value; enum_members := WorkerOrigin_members |}.
End Origin.

(** ** [LabletDefinitionStatus] *)
Module DefinitionStatus.
Inductive LabletDefinitionStatus :=
| PENDING_SYNC | ACTIVE | INACTIVE | DEPRECATED | ARCHIVED | DELETED.

Definition LabletDefinitionStatus_value (s : LabletDefinitionStatus) : string :=
  match s with
  | PENDING_SYNC => "pending_sync" | ACTIVE => "active" | INACTIVE => "inactive"
  | DEPRECATED => "deprecated" | ARCHIVED => "archived" | DELETED => "deleted"
  end.

Definition LabletDefinitionStatus_members : list LabletDefinitionStatus :=
  [PENDING_SYNC; ACTIVE; INACTIVE; DEPRECATED; ARCHIVED; DELETED].

#[global] Instance eq_dec : EqDecision LabletDefinitionStatus.
Proof. solve_decision. Defined.
#[global] Instance enum : StrEnum LabletDefinitionStatus :=
  {| enum_value := LabletDefinitionStatus_value; enum_members := LabletDefinitionStatus_members |}.
End DefinitionStatus.

(** ** [LicenseType] *)
Module Affinity.
Inductive LicenseType :=
| PERSONAL | ENTERPRISE | EVALUATION.

Definition LicenseType_value (s : LicenseType) : string :=
  match s with
  | PERSONAL => "personal" | ENTERPRISE => "enterprise" | EVALUATION => "evaluation"
  end.

Definition LicenseType_members : list LicenseType :=
  [PERSONAL; ENTERPRISE; EVALUATION].

#[global] Instance eq_dec : EqDecision LicenseType.
Proof. solve_decision. Defined.
#[global] Instance enum : StrEnum LicenseType :=
  {| enum_value := LicenseType_value; enum_members := LicenseType_members |}.
End Affinity.

(** ** [PodType] *)
Module Platform.
Inductive PodType :=
| CML_ON_AWS | ROC_RADKIT | PROXMOX | VMWARE.

Definition PodType_value (s : PodType) : string :=
  match s with
  | CML_ON_AWS => "cml_on_aws" | ROC_RADKIT => "roc_radkit" | PROXMOX => "proxmox"
  | VMWARE => "vmware"
  end.

Definition PodType_members : list PodType :=
  [CML_ON_AWS; ROC_RADKIT; PROXMOX; VMWARE].

#[global] Instance eq_dec : EqDecision PodType.
Proof. solve_decision. Defined.
#[global] Instance enum : StrEnum PodType :=
  {| enum_value := PodType_value; enum_members := PodType_members |}.
End Platform.

(** ** Facts *)

(** Instances of the enum laws, decided by cases. *)
Ltac enum_laws :=
  split;
  [ intros []; cbn; repeat constructor
  | intros [] []; cbn; congruence
  | intros []; reflexivity ].

#[export] Instance session_status_laws : StrEnumLaws SessionStatus.LabletSessionStatus.
Proof. enum_laws. Qed.
#[export] Instance worker_status_laws : StrEnumLaws WorkerStatus.CMLWorkerStatus.
Proof. enum_laws. Qed.
#[export] Instance lab_status_laws : StrEnumLaws LabStatus.LabRecordStatus.
Proof. enum_laws. Qed.
#[export] Instance pod_status_laws : StrEnumLaws PodStatus.PodDefinitionStatus.
Proof. enum_laws. Qed.

#[export] Instance service_status_laws : StrEnumLaws ServiceStatus.CMLServiceStatus.
Proof. enum_laws. Qed.
#[export] Instance license_status_laws : StrEnumLaws LicenseState.LicenseStatus.
Proof. enum_laws. Qed.
#[export] Instance worker_origin_laws : StrEnumLaws Origin.WorkerOrigin.
Proof. enum_laws. Qed.
#[export] Instance definition_status_laws : StrEnumLaws DefinitionStatus.LabletDefinitionStatus.
Proof. enum_laws. Qed.
#[export] Instance license_type_laws : StrEnumLaws Affinity.LicenseType.
Proof. enum_laws. Qed.
#[export] Instance pod_type_laws : StrEnumLaws Platform.PodType.
Proof. enum_laws. Qed.

Section EnumFacts.
Context {E : Type} `{StrEnumLaws E}.

Lemma find_value_Some s (e : E) : find_value s = Some e <-> enum_value e = s.
Proof.
  unfold find_value. split.
  - intros [_ Hs]%List.find_some. by apply String.eqb_eq in Hs.
  - intros <-. destruct (List.find _ _) as [e'|] eqn:Hf.
    + apply List.find_some in Hf as [_ Hs]. apply String.eqb_eq in Hs.
      f_equal. by apply enum_value_inj.
    + assert (e ∈ enum_members) as Hin by apply enum_complete.
      apply list_elem_of_In in Hin.
      pose proof (List.find_none _ _ Hf e Hin) as Hn. cbn beta in Hn. by rewrite String.eqb_refl in Hn.
Qed.

Lemma enum_call_value (e e' : E) : enum_call (enum_value e) = Ok e' -> e' = e.
Proof.
  unfold enum_call. rewrite (proj2 (find_value_Some _ e) eq_refl). by intros [=].
Qed.

Lemma enum_call_of (e : E) : enum_call (enum_value e) = Ok e.
Proof. unfold enum_call. by rewrite (proj2 (find_value_Some _ e) eq_refl). Qed.

(** Enum lookup is exactly case-insensitive lookup by value: [E(s)]
    returns [e] if and only if lower-casing [s] gives [e]'s value. *)
Theorem enum_call_spec s (e : E) : enum_call s = Ok e <-> py_lower s = enum_value e.
Proof.
  unfold enum_call, _missing_. destruct (find_value s) as [m|] eqn:Hs.
  - apply find_value_Some in Hs. subst s. rewrite enum_value_lower. split.
    + by intros [= ->].
    + intros Hv. f_equal. by apply enum_value_inj.
  - destruct (find_value (py_lower s)) as [m|] eqn:Hl.
    + apply find_value_Some in Hl. rewrite <- Hl. split.
      * by intros [= ->].
      * intros Hv. f_equal. by apply enum_value_inj.
    + split; [done|]. intros Hv.
      by rewrite (proj2 (find_value_Some (py_lower s) e) (eq_sym Hv)) in Hl.
Qed.
End EnumFacts.

Lemma enum_call_spec_witness :
  enum_call (E := WorkerStatus.CMLWorkerStatus) "Shutting-DOWN" = Ok WorkerStatus.SHUTTING_DOWN.
Proof. apply enum_call_spec. reflexivity. Defined.
