(* ===== verification/Lifecycle.v ===== *)
(** * Resource value objects ([core/lcm_core/domain/value_objects], [control-plane-api/domain/lifecycles.py])

    State transitions, managed lifecycles and timeslots: the value objects the
    resource aggregates are built from, with their serialization. *)
From S2P Require Import Prelude PyData.

(** ** [StateTransition] *)
Record StateTransition := {
  st_from_state : option string;
  st_to_state : string;
  st_transitioned_at : datetime;
  st_triggered_by : string;
  st_reason : option string;
  st_metadata : option pydict
}.

Definition StateTransition_to_dict (t : StateTransition) : pydict :=
  [("from_state", of_ostr (st_from_state t));
   ("to_state", PStr (st_to_state t));
   ("transitioned_at", PIso (st_transitioned_at t));
   ("triggered_by", PStr (st_triggered_by t));
   ("reason", of_ostr (st_reason t));
   ("metadata", of_odict (st_metadata t))].

Definition StateTransition_from_dict (data : pydict) : res StateTransition :=
  transitioned_at ← dict_item "transitioned_at" data ≫= as_datetime;
  from_state ← as_ostr (pd_get "from_state" data);
  to_state ← dict_item "to_state" data ≫= as_str;
  triggered_by ← as_str (pd_get_or "triggered_by" (PStr "system") data);
  reason ← as_ostr (pd_get "reason" data);
  metadata ← as_odict (pd_get "metadata" data);
  Ok {| st_from_state := from_state; st_to_state := to_state;
        st_transitioned_at := transitioned_at; st_triggered_by := triggered_by;
        st_reason := reason; st_metadata := metadata |}.

(** ** [LifecyclePhase] and [ManagedLifecycle] *)
Record LifecyclePhase := {
  lp_name : string;
  lp_engine : string;
  lp_trigger_on_status : option string;
  lp_pipeline_def : option pydict;
  lp_workflow_ref : option pydict;
  lp_is_required : bool
}.

Definition LifecyclePhase_to_dict (p : LifecyclePhase) : pydict :=
  [("name", PStr (lp_name p));
   ("engine", PStr (lp_engine p));
   ("trigger_on_status", of_ostr (lp_trigger_on_status p));
   ("pipeline_def", of_odict (lp_pipeline_def p));
   ("workflow_ref", of_odict (lp_workflow_ref p));
   ("is_required", PBool (lp_is_required p))].

Definition LifecyclePhase_from_dict (data : pydict) : res LifecyclePhase :=
  name ← dict_item "name" data ≫= as_str;
  engine ← as_str (pd_get_or "engine" (PStr "pipeline") data);
  trigger ← as_ostr (pd_get "trigger_on_status" data);
  pipeline_def ← as_odict (pd_get "pipeline_def" data);
  workflow_ref ← as_odict (pd_get "workflow_ref" data);
  is_required ← as_bool (pd_get_or "is_required" (PBool true) data);
  Ok {| lp_name := name; lp_engine := engine; lp_trigger_on_status := trigger;
        lp_pipeline_def := pipeline_def; lp_workflow_ref := workflow_ref;
        lp_is_required := is_required |}.

Record ManagedLifecycle := {
  ml_phases : list LifecyclePhase;
  ml_current_phase : option string
}.

Definition get_phase (l : ManagedLifecycle) (name : string) : option LifecyclePhase :=
  List.find (fun p => String.eqb (lp_name p) name) (ml_phases l).

Definition get_active_phases (l : ManagedLifecycle) : list LifecyclePhase :=
  List.filter lp_is_required (ml_phases l).

Definition phase_names (l : ManagedLifecycle) : list string := map lp_name (ml_phases l).

Definition ManagedLifecycle_to_dict (l : ManagedLifecycle) : pydict :=
  [("phases", PDict (dict_of lp_name (fun p => PDict (LifecyclePhase_to_dict p)) (ml_phases l)));
   ("current_phase", of_ostr (ml_current_phase l))].

(** One item of the loop over [raw_phases.items()]. *)
Definition phase_of_item (item : string * pyval) : res LifecyclePhase :=
  phase_data ← as_dict item.2;
  LifecyclePhase_from_dict
    (if dict_mem "name" phase_data then phase_data
     else dict_set "name" (PStr item.1) phase_data).

Definition ManagedLifecycle_from_dict (data : pydict) : res ManagedLifecycle :=
  raw_phases ← as_dict (pd_get_or "phases" (PDict []) data);
  phases ← mapM phase_of_item raw_phases;
  current ← as_ostr (pd_get "current_phase" data);
  Ok {| ml_phases := phases; ml_current_phase := current |}.

(** ** Lifecycle constants ([domain/lifecycles.py]) *)
Definition pipeline_phase (name trigger : string) (required : bool) : LifecyclePhase :=
  {| lp_name := name; lp_engine := "pipeline"; lp_trigger_on_status := Some trigger;
     lp_pipeline_def := None; lp_workflow_ref := None; lp_is_required := required |}.

Definition CML_WORKER_LIFECYCLE : ManagedLifecycle :=
  {| ml_phases :=
       [pipeline_phase "provision" "pending" true;
        pipeline_phase "startup" "provisioning" true;
        pipeline_phase "initial_metrics" "starting" true;
        pipeline_phase "license_register" "starting" false;
        pipeline_phase "monitor_resources" "running" true;
        pipeline_phase "drain" "draining" true;
        pipeline_phase "teardown" "stopping" true;
        pipeline_phase "terminate" "terminating" true];
     ml_current_phase := None |}.

Definition LABLET_SESSION_LIFECYCLE : ManagedLifecycle :=
  {| ml_phases :=
       [pipeline_phase "schedule" "pending" true;
        pipeline_phase "instantiate" "scheduled" true;
        pipeline_phase "activate" "ready" true;
        pipeline_phase "monitor" "running" true;
        pipeline_phase "collect_evidence" "collecting" false;
        pipeline_phase "compute_grading" "grading" false;
        pipeline_phase "teardown" "stopping" true;
        pipeline_phase "archive" "stopped" false;
        pipeline_phase "expire" "expired" true;
        pipeline_phase "terminate" "terminated" true];
     ml_current_phase := None |}.

Definition LABLET_DEFINITION_LIFECYCLE : ManagedLifecycle :=
  {| ml_phases :=
       [pipeline_phase "sync_content" "pending_sync" true;
        pipeline_phase "activate" "active" true;
        pipeline_phase "deprecate" "deprecated" false;
        pipeline_phase "archive" "archived" false];
     ml_current_phase := None |}.

(** ** [Timeslot]

    The optional [now] argument of the methods is always given here; the
    default reads the clock. *)
Record Timeslot := {
  start : datetime;
  end_ : datetime;
  lead_time : Z;
  teardown_buffer : Z
}.

(** [__post_init__]: the checks of the constructor. *)
Definition Timeslot_post_init (t : Timeslot) : res Timeslot :=
  bad ← dt_leb (end_ t) (start t);
  _ ← raise_if bad (ValueError "end must be after start");
  _ ← raise_if (lead_time t <? 0) (ValueError "lead_time must be non-negative");
  _ ← raise_if (teardown_buffer t <? 0) (ValueError "teardown_buffer must be non-negative");
  Ok t.

Definition mk_timeslot (s e : datetime) (lead teardown : Z) : res Timeslot :=
  Timeslot_post_init {| start := s; end_ := e; lead_time := lead; teardown_buffer := teardown |}.

(** [Timeslot(start=s, end=e)], with the default margins. *)
Definition mk_timeslot_default (s e : datetime) : res Timeslot :=
  mk_timeslot s e (minutes 15) (minutes 10).

Definition provision_at (t : Timeslot) : datetime := dt_add (start t) (- lead_time t).
Definition cleanup_deadline (t : Timeslot) : datetime := dt_add (end_ t) (teardown_buffer t).
Definition duration (t : Timeslot) : res Z := dt_sub (end_ t) (start t).
Definition total_duration (t : Timeslot) : res Z := dt_sub (cleanup_deadline t) (provision_at t).

Definition is_approaching (t : Timeslot) (now : datetime) : res bool :=
  a ← dt_leb (provision_at t) now;
  if a : bool then dt_ltb now (start t) else Ok false.

Definition is_active (t : Timeslot) (now : datetime) : res bool :=
  a ← dt_leb (start t) now;
  if a : bool then dt_leb now (end_ t) else Ok false.

Definition is_expired (t : Timeslot) (now : datetime) : res bool := dt_ltb (end_ t) now.

Definition is_in_teardown (t : Timeslot) (now : datetime) : res bool :=
  a ← dt_ltb (end_ t) now;
  if a : bool then dt_leb now (cleanup_deadline t) else Ok false.

Definition remaining (t : Timeslot) (now : datetime) : res Z :=
  d ← dt_sub (end_ t) now; Ok (Z.max 0 d).

Definition extend (t : Timeslot) (new_end : datetime) : res Timeslot :=
  bad ← dt_leb new_end (end_ t);
  _ ← raise_if bad (ValueError "new_end must be after current end");
  mk_timeslot (start t) new_end (lead_time t) (teardown_buffer t).

Definition Timeslot_to_dict (t : Timeslot) : pydict :=
  [("start", PIso (start t));
   ("end", PIso (end_ t));
   ("lead_time_seconds", PSecs (lead_time t));
   ("teardown_buffer_seconds", PSecs (teardown_buffer t))].

Definition Timeslot_from_dict (data : pydict) : res Timeslot :=
  s ← dict_item "start" data ≫= as_datetime;
  e ← dict_item "end" data ≫= as_datetime;
  lead ← as_secs (pd_get_or "lead_time_seconds" (PSecs (seconds 900)) data);
  teardown ← as_secs (pd_get_or "teardown_buffer_seconds" (PSecs (seconds 600)) data);
  mk_timeslot s e lead teardown.

Definition phase (t : Timeslot) (now : datetime) : res string :=
  before ← dt_ltb now (provision_at t);
  if before : bool then Ok "before" else
  approaching ← is_approaching t now;
  if approaching : bool then Ok "approaching" else
  active ← is_active t now;
  if active : bool then Ok "active" else
  teardown ← is_in_teardown t now;
  if teardown : bool then Ok "teardown" else Ok "expired".


(** * Theorems *)

Lemma StateTransition_of_to_dict t : StateTransition_from_dict (StateTransition_to_dict t) = Ok t.
Proof. by destruct t as [[] ? ? ? [] []]. Qed.
#[export] Hint Rewrite StateTransition_of_to_dict : lcm.

Lemma LifecyclePhase_of_to_dict p : LifecyclePhase_from_dict (LifecyclePhase_to_dict p) = Ok p.
Proof. by destruct p as [? ? [] [] [] ?]. Qed.

Lemma phase_of_item_to_dict k p : phase_of_item (k, PDict (LifecyclePhase_to_dict p)) = Ok p.
Proof. apply LifecyclePhase_of_to_dict. Qed.

Lemma phases_of_items (l : list LifecyclePhase) :
  mapM phase_of_item (map (fun p => (lp_name p, PDict (LifecyclePhase_to_dict p))) l) = Ok l.
Proof.
  induction l as [|p l IH]; [done|]. cbn -[phase_of_item].
  rewrite phase_of_item_to_dict. cbn -[phase_of_item]. by rewrite IH.
Qed.

Lemma phases_of_items_names (d : pydict) ps :
  (forall k v, (k, v) ∈ d -> exists p, k = lp_name p /\ v = PDict (LifecyclePhase_to_dict p)) ->
  mapM phase_of_item d = Ok ps -> map lp_name ps = dict_keys d.
Proof.
  revert ps. induction d as [|[k v] d IH]; cbn -[phase_of_item]; intros ps Hd Hm; [by inv_ok|].
  destruct (Hd k v) as (p & -> & ->); [set_solver|].
  rewrite phase_of_item_to_dict in Hm. cbn -[phase_of_item] in Hm. inv_ok. cbn.
  f_equal. apply IH; [set_solver|done].
Qed.

(** A managed lifecycle survives serialization exactly when its phase
    names are distinct: phases are keyed by name, so a repeated name loses a
    phase. *)
Theorem ManagedLifecycle_roundtrip l :
  ManagedLifecycle_from_dict (ManagedLifecycle_to_dict l) = Ok l <-> NoDup (phase_names l).
Proof.
  destruct l as [ps cur]. unfold phase_names, ManagedLifecycle_from_dict, ManagedLifecycle_to_dict. cbn -[mapM dict_of].
  split.
  - intros H. inv_ok. match goal with H : mapM _ _ = Ok _ |- _ => rename H into Hm end.
    cbn. apply phases_of_items_names in Hm as ->; [apply dict_of_keys_NoDup|].
    intros k v Hin. apply dict_of_elem in Hin as (p & -> & ->). eauto.
  - intros Hnd. cbn in Hnd. rewrite dict_of_NoDup by done. rewrite phases_of_items.
    cbn -[as_ostr of_ostr].
    autorewrite with lcm. done.
Qed.

Definition timeslot_valid (t : Timeslot) : Prop :=
  dt_aware (start t) = dt_aware (end_ t) /\ dt_us (start t) < dt_us (end_ t)
  /\ 0 <= lead_time t /\ 0 <= teardown_buffer t.

Lemma post_init_ok t t' : Timeslot_post_init t = Ok t' <-> t' = t /\ timeslot_valid t.
Proof.
  unfold Timeslot_post_init, timeslot_valid, dt_leb, dt_compatible.
  destruct (Bool.eqb_spec (dt_aware (end_ t)) (dt_aware (start t))) as [->|Hne]; cbn.
  2: { split; [done|]. intros (_ & ? & _). congruence. }
  unfold raise_if. destruct (Z.leb_spec (dt_us (end_ t)) (dt_us (start t))); cbn; [naive_solver lia|].
  destruct (Z.ltb_spec (lead_time t) 0); cbn; [naive_solver lia|].
  destruct (Z.ltb_spec (teardown_buffer t) 0); cbn; naive_solver lia.
Qed.

(** The timeslot constructor accepts exactly well-formed timeslots, and
    reading back a serialized timeslot re-runs its checks: [from_dict] inverts
    [to_dict] on every timeslot the constructor accepts. *)
Theorem Timeslot_roundtrip t :
  Timeslot_from_dict (Timeslot_to_dict t) = Timeslot_post_init t
  /\ (Timeslot_from_dict (Timeslot_to_dict t) = Ok t <-> timeslot_valid t).
Proof.
  assert (Timeslot_from_dict (Timeslot_to_dict t) = Timeslot_post_init t) as E by by destruct t.
  split; [done|]. rewrite E, post_init_ok. naive_solver.
Qed.

Definition aware_timeslot (t : Timeslot) : Prop :=
  timeslot_valid t /\ dt_aware (start t) = true.

(** The phase, as a function of the instants. *)
Definition phase_spec (t : Timeslot) (now : Z) : string :=
  if now <? dt_us (start t) - lead_time t then "before"
  else if now <? dt_us (start t) then "approaching"
  else if now <=? dt_us (end_ t) then "active"
  else if now <=? dt_us (end_ t) + teardown_buffer t then "teardown"
  else "expired".

(** For aware datetimes the phases cut the time line at [start - lead],
    [start], [end] and [end + buffer], and the predicates [is_approaching],
    [is_active] and [is_expired] agree with the phase that [phase] reports. *)
Theorem phase_partition t us (Hv : aware_timeslot t) :
  phase t (utc us) = Ok (phase_spec t us)
  /\ is_approaching t (utc us) = Ok (String.eqb (phase_spec t us) "approaching")
  /\ is_active t (utc us) = Ok (String.eqb (phase_spec t us) "active")
  /\ is_in_teardown t (utc us) = Ok (String.eqb (phase_spec t us) "teardown")
  /\ is_expired t (utc us)
     = Ok (String.eqb (phase_spec t us) "teardown" || String.eqb (phase_spec t us) "expired").
Proof.
  destruct t as [[s []] [e []] lead td], Hv as [(Ha & Hse & Hl & Ht) Hs]; cbn in *; try done.
  unfold phase, is_approaching, is_active, is_in_teardown, is_expired, phase_spec, dt_ltb, dt_leb,
    provision_at, cleanup_deadline, dt_compatible; cbn.
  repeat (case_match; cbn); try done; try lia; repeat split; (f_equal; lia) || lia || done.
Qed.

Lemma phase_partition_witness :
  phase {| start := utc 100; end_ := utc 200; lead_time := 10; teardown_buffer := 5 |} (utc 203)
  = Ok "teardown".
Proof.
  refine (proj1 (phase_partition {| start := utc 100; end_ := utc 200; lead_time := 10;
                                    teardown_buffer := 5 |} 203 _)).
  repeat split; cbn; lia.
Defined.
