(* ===== verification/Programs.v ===== *)
(** * Programs over a stored world

    A handler that reads and writes what is stored, and may raise, is a function of
    the world: what it stored before it raised stays stored.  With the triples that
    speak of returning and of raising. *)
From S2P Require Import Prelude.

Definition prog (W A : Type) : Type := W -> res A * W.

#[export] Instance prog_ret {W} : MRet (prog W) := fun A a w => (Ok a, w).
#[export] Instance prog_bind {W} : MBind (prog W) := fun A B f m w =>
  match m w with (Ok a, w') => f a w' | (Err e, w') => (Err e, w') end.

(** A computation that does not touch the world. *)
Definition lift {W A} (r : res A) : prog W A := fun w => (r, w).

(** [try: m except Exception as e: h(e)] *)
Definition try_ {W A} (m : prog W A) (h : exn -> prog W A) : prog W A := fun w =>
  match m w with (Err e, w') => h e w' | r => r end.

(** *** Running a program *)
Section Running.
Context {W A B : Type}.
Implicit Types (m : prog W A) (f : A -> prog W B) (w : W).

Lemma run_bind m f w a w' : m w = (Ok a, w') -> (m ≫= f) w = f a w'.
Proof. unfold mbind, prog_bind. by intros ->. Qed.

Lemma run_raise m f w e w' : m w = (Err e, w') -> (m ≫= f) w = (Err e, w').
Proof. unfold mbind, prog_bind. by intros ->. Qed.

Lemma run_returned m f w b w' : (m ≫= f) w = (Ok b, w') -> exists a w1, m w = (Ok a, w1) /\ f a w1 = (Ok b, w').
Proof. unfold mbind, prog_bind. destruct (m w) as [[a|e] w1]; [eauto|done]. Qed.

Lemma run_try m h w a w' : m w = (Ok a, w') -> try_ m h w = (Ok a, w').
Proof. unfold try_. by intros ->. Qed.
End Running.

(** ** Triples

    From a world that satisfies [P], [m] returns with [Q] or raises with [X]. *)
Definition triple {W A} (P : W -> Prop) (m : prog W A) (Q : A -> W -> Prop) (X : W -> Prop) : Prop :=
  forall w r w', P w -> m w = (r, w') -> match r with Ok a => Q a w' | Err _ => X w' end.

Section Triples.
Context {W : Type}.
Implicit Types (P X : W -> Prop).

Lemma triple_ret {A} (a : A) P (Q : A -> W -> Prop) X : (forall w, P w -> Q a w) -> triple P (mret a) Q X.
Proof. intros H w r w' HP [= <- <-]. by apply H. Qed.

Lemma triple_lift {A} (r : res A) P (Q : A -> W -> Prop) X :
  (forall a w, r = Ok a -> P w -> Q a w) -> (forall w, P w -> X w) -> triple P (lift r) Q X.
Proof. intros HQ HX w r' w' HP [= <- <-]. destruct r; eauto. Qed.

(** A call on an aggregate, then the rest. *)
Lemma triple_call {A B} (r : res A) (f : A -> prog W B) P (Q : B -> W -> Prop) X :
  (forall a, r = Ok a -> triple P (f a) Q X) -> (forall e w, r = Err e -> P w -> X w) ->
  triple P (lift r ≫= f) Q X.
Proof.
  intros Hf HX w r' w' HP He. unfold mbind, prog_bind, lift in He. destruct r as [a|e].
  - by eapply Hf.
  - injection He as <- <-. eauto.
Qed.

Lemma triple_bind {A B} (m : prog W A) (f : A -> prog W B) P (R : A -> W -> Prop) (Q : B -> W -> Prop) X :
  triple P m R X -> (forall a, triple (R a) (f a) Q X) -> triple P (m ≫= f) Q X.
Proof.
  intros Hm Hf w r w' HP He. unfold mbind, prog_bind in He.
  destruct (m w) as [[a|e] w1] eqn:Hm1; pose proof (Hm _ _ _ HP Hm1) as H1; cbn in H1.
  - by eapply Hf.
  - by injection He as <- <-.
Qed.

Lemma triple_try {A} (m : prog W A) h P (Q : A -> W -> Prop) Y X :
  triple P m Q Y -> (forall e, triple Y (h e) Q X) -> triple P (try_ m h) Q X.
Proof.
  intros Hm Hh w r w' HP He. unfold try_ in He.
  destruct (m w) as [[a|e] w1] eqn:Hm1; pose proof (Hm _ _ _ HP Hm1) as H1; cbn in H1.
  - by injection He as <- <-.
  - by eapply Hh.
Qed.

Lemma triple_weaken {A} (m : prog W A) P P' (Q : A -> W -> Prop) X :
  triple P m Q X -> (forall w, P' w -> P w) -> triple P' m Q X.
Proof. intros Hm HP w r w' H He. eapply Hm; eauto. Qed.

Lemma triple_post {A} (m : prog W A) P (Q Q' : A -> W -> Prop) X X' :
  triple P m Q X -> (forall a w, Q a w -> Q' a w) -> (forall w, X w -> X' w) -> triple P m Q' X'.
Proof. intros Hm HQ HX w r w' HP He. specialize (Hm _ _ _ HP He). destruct r; auto. Qed.

(** What is known before any world is. *)
Lemma triple_pure {A} (φ : Prop) (m : prog W A) P (Q : A -> W -> Prop) X :
  (φ -> triple P m Q X) -> triple (fun w => φ /\ P w) m Q X.
Proof. intros Hm w r w' [Hφ HP] He. by eapply Hm. Qed.

Lemma triple_ex {A B} (m : prog W A) (P : B -> W -> Prop) (Q : A -> W -> Prop) X :
  (forall b, triple (P b) m Q X) -> triple (fun w => exists b, P b w) m Q X.
Proof. intros Hm w r w' [b HP] He. by eapply Hm. Qed.
End Triples.

(** ** Programs within a relation

    Whatever [m] returns or raises, the world it leaves is related to the one it found. *)
Definition within {W A} (R : W -> W -> Prop) (m : prog W A) : Prop := forall w, R w (m w).2.

Section Within.
Context {W : Type} (R : W -> W -> Prop) `{!PreOrder R}.

Lemma within_ret {A} (a : A) : within R (mret a).
Proof. intros w. cbn. reflexivity. Qed.
Lemma within_lift {A} (r : res A) : within R (lift r).
Proof. intros w. cbn. reflexivity. Qed.
Lemma within_bind {A B} (m : prog W A) (f : A -> prog W B) : within R m -> (forall a, within R (f a)) -> within R (m ≫= f).
Proof.
  intros Hm Hf w. unfold mbind, prog_bind. pose proof (Hm w) as Hw. destruct (m w) as [[a|e] w1]; cbn in *; [|done].
  etransitivity; [done|apply Hf].
Qed.
Lemma within_try {A} (m : prog W A) h : within R m -> (forall e, within R (h e)) -> within R (try_ m h).
Proof.
  intros Hm Hh w. unfold try_. pose proof (Hm w) as Hw. destruct (m w) as [[a|e] w1]; cbn in *; [done|].
  etransitivity; [done|apply Hh].
Qed.
End Within.
