(* ===== verification/AuditTrail.v ===== *)
(** * Audit trails

    What every resource aggregate promises about its state history: an applied
    event leaves history and status alone, or appends one transition from the
    old status to the new one.  From that promise alone the trail of any run is
    one unbroken chain that ends at the current status. *)
From S2P Require Import Prelude PyData Enums Lifecycle.

(** The audited part of an aggregate state: its status and its history. *)
Class Audited (A St : Type) := {
  au_status : A -> St;
  au_value : St -> string;
  au_history : A -> list pydict
}.

Section Trail.
Context {A St : Type} `{Audited A St}.

(** The change an event makes to the audited part. *)
Definition audit_step (s s' : A) : Prop :=
  (au_history s' = au_history s /\ au_status s' = au_status s) \/
  (exists t, au_history s' = au_history s ++ [StateTransition_to_dict t]
             /\ st_from_state t = Some (au_value (au_status s))
             /\ st_to_state t = au_value (au_status s')).

(** The transitions [l] link up: each starts where the previous one ended;
    [from] is where the first starts. *)
Fixpoint linked (from : option string) (l : list StateTransition) : Prop :=
  match l with
  | [] => True
  | t :: l => st_from_state t = from /\ linked (Some (st_to_state t)) l
  end.

(** A recorded change of status is one [allowed] lists. *)
Definition hop_ok (allowed : St -> St -> Prop) (t : StateTransition) : Prop :=
  match st_from_state t with
  | None => True
  | Some f => exists a b, f = au_value a /\ st_to_state t = au_value b /\ allowed a b
  end.

(** The history of [s] reads back as a chain of allowed changes from no state
    to the status. *)
Definition trail (allowed : St -> St -> Prop) (s : A) : Prop :=
  exists l, mapM StateTransition_from_dict (au_history s) = Ok l
            /\ linked None l
            /\ Forall (hop_ok allowed) l
            /\ (st_to_state <$> last l) = Some (au_value (au_status s)).

Lemma mapM_snoc {X Y} (f : X -> res Y) l x ys y :
  mapM f l = Ok ys -> f x = Ok y -> mapM f (l ++ [x]) = Ok (ys ++ [y]).
Proof.
  revert ys. induction l as [|a l IH]; cbn; intros ys Hl Hx.
  - inv_ok. rewrite Hx. done.
  - inv_ok. match goal with H : f a = Ok _ |- _ => rewrite H end. cbn.
    by rewrite (IH _ ltac:(eassumption) Hx).
Qed.

Lemma mapM_last {X Y} (f : X -> res Y) l ys y :
  mapM f l = Ok ys -> last ys = Some y -> exists x, last l = Some x /\ f x = Ok y.
Proof.
  revert ys. induction l as [|x l IH]; intros ys Hm Hl; cbn in Hm; inv_ok; [done|].
  rename x0 into z, x1 into zs. destruct l as [|x' l].
  - cbn in *. inv_ok. simplify_eq/=. eauto.
  - destruct zs as [|z' zs]; [cbn in *; by inv_ok|]. by eapply IH.
Qed.

Lemma linked_snoc l from t :
  linked from l -> l <> [] -> st_from_state t = (st_to_state <$> last l) -> linked from (l ++ [t]).
Proof.
  revert from. induction l as [|a l IH]; [done|]. intros from [Ha Hl] _ Ht. cbn. split; [done|].
  destruct l as [|b l]; [done|]. by apply IH.
Qed.

(** An allowed step keeps the trail. *)
Lemma trail_step allowed s s' :
  audit_step s s' -> allowed (au_status s) (au_status s') -> trail allowed s -> trail allowed s'.
Proof.
  intros [[Hh Hs]|(t & Hh & Hf & Ht)] Ha (l & Hm & Hl & Hok & He); unfold trail.
  - rewrite Hh, Hs. eauto.
  - exists (l ++ [t]). rewrite Hh, last_snoc. cbn. rewrite Ht. split; [|split; [|split; [|done]]].
    + apply mapM_snoc; [done|]. apply StateTransition_of_to_dict.
    + apply linked_snoc; [done| |by rewrite Hf, He]. by intros ->.
    + apply Forall_app. split; [done|]. apply Forall_singleton. unfold hop_ok. rewrite Hf. eauto.
Qed.

(** The first entry starts a trail. *)
Lemma trail_init allowed s t :
  au_history s = [StateTransition_to_dict t] -> st_from_state t = None ->
  st_to_state t = au_value (au_status s) -> trail allowed s.
Proof.
  intros Hh Hf Ht. exists [t]. rewrite Hh. cbn -[StateTransition_from_dict].
  rewrite StateTransition_of_to_dict. cbn. rewrite Hf, Ht. repeat split.
  apply Forall_singleton. unfold hop_ok. by rewrite Hf.
Qed.

(** What the trail gives a reader: the last recorded state is the status. *)
Lemma trail_last allowed s : trail allowed s ->
  exists d t, last (au_history s) = Some d /\ StateTransition_from_dict d = Ok t
              /\ st_to_state t = au_value (au_status s).
Proof.
  intros (l & Hm & _ & _ & He). destruct (last l) as [t|] eqn:Hl; [|done]. cbn in He. injection He as He.
  destruct (mapM_last _ _ _ _ Hm Hl) as (d & ? & ?). eauto.
Qed.
End Trail.
