(* ===== verification/Aggregate.v ===== *)
(** * Event-sourced aggregates

    What the aggregates share: commands that register events, handlers that
    apply them, and runs of commands.  An aggregate is an instance of
    [Aggregate]; invariants and replay are proved here once, from what one
    command does. *)
From S2P Require Import Prelude PyData.

(** A state, its events and its commands: the handler of an event, and a command
    with the events it registers. *)
Class Aggregate (S E C : Type) := {
  ag_on : clock -> E -> S -> res S;
  ag_exec : clock -> C -> S -> res (S * list E)
}.

Section Runs.
Context {S E C : Type} `{Aggregate S E C}.

(** Events applied in order, each under its clock. *)
Fixpoint ag_replay (evs : list (clock * E)) (s : S) : res S :=
  match evs with
  | [] => Ok s
  | (c, ev) :: evs => s' ← ag_on c ev s; ag_replay evs s'
  end.

(** A sequence of commands, stopping at the first that raises; with the events
    it registers. *)
Fixpoint ag_run (l : list (clock * C)) (s : S) : res (S * list (clock * E)) :=
  match l with
  | [] => Ok (s, [])
  | (c, cmd) :: l =>
      '(s1, evs1) ← ag_exec c cmd s;
      '(s2, evs2) ← ag_run l s1;
      Ok (s2, map (pair c) evs1 ++ evs2)
  end.

Lemma ag_run_cons c cmd l s s' evs :
  ag_run ((c, cmd) :: l) s = Ok (s', evs) <->
  exists s1 evs1 evs2, ag_exec c cmd s = Ok (s1, evs1) /\ ag_run l s1 = Ok (s', evs2)
                       /\ evs = map (pair c) evs1 ++ evs2.
Proof.
  cbn. rewrite bind_ok. split.
  - intros ([s1 evs1] & He & Hr). inv_ok. destruct x as [s2 evs2]. inv_ok. eauto 8.
  - intros (s1 & evs1 & evs2 & He & Hr & ->). exists (s1, evs1). rewrite He, Hr. done.
Qed.

Lemma ag_run_app l1 l2 s s' evs : ag_run (l1 ++ l2) s = Ok (s', evs) ->
  exists s1 e1 e2, ag_run l1 s = Ok (s1, e1) /\ ag_run l2 s1 = Ok (s', e2) /\ evs = e1 ++ e2.
Proof.
  revert s evs. induction l1 as [|[c cmd] l1 IH]; intros s evs Hr; [by exists s, [], evs|].
  change (((c, cmd) :: l1) ++ l2) with ((c, cmd) :: (l1 ++ l2)) in Hr.
  apply ag_run_cons in Hr as (s1 & e1 & e2 & He & Hr & ->). apply IH in Hr as (s2 & e3 & e4 & Hr1 & Hr2 & ->).
  exists s2, (map (pair c) e1 ++ e3), e4. split; [apply ag_run_cons; eauto 8|]. by rewrite app_assoc.
Qed.

(** An invariant of the commands is an invariant of the runs. *)
Lemma ag_run_invariant (I : S -> Prop) l s s' evs :
  (forall c cmd s s' evs, ag_exec c cmd s = Ok (s', evs) -> I s -> I s') ->
  ag_run l s = Ok (s', evs) -> I s -> I s'.
Proof.
  intros HI. revert s evs. induction l as [|[c cmd] l IH]; intros s evs Hr Hs.
  - cbn in Hr. by inv_ok.
  - apply ag_run_cons in Hr as (s1 & evs1 & evs2 & He & Hr & _). eauto.
Qed.

(** The same, for a property of the state and of the events registered so far. *)
Lemma ag_run_history (I : S -> list (clock * E) -> Prop) l s s' evs past :
  (forall c cmd s s' evs past, ag_exec c cmd s = Ok (s', evs) -> I s past -> I s' (past ++ map (pair c) evs)) ->
  ag_run l s = Ok (s', evs) -> I s past -> I s' (past ++ evs).
Proof.
  intros HI. revert s evs past. induction l as [|[c cmd] l IH]; intros s evs past Hr Hs.
  - cbn in Hr. inv_ok. by rewrite app_nil_r.
  - apply ag_run_cons in Hr as (s1 & evs1 & evs2 & He & Hr & ->). rewrite app_assoc. eauto.
Qed.

Lemma ag_replay_app e1 e2 s s1 : ag_replay e1 s = Ok s1 -> ag_replay (e1 ++ e2) s = ag_replay e2 s1.
Proof.
  revert s. induction e1 as [|[c ev] e1 IH]; cbn; intros s Hr; [by inv_ok|].
  inv_ok. match goal with H : ag_on _ _ _ = Ok _ |- _ => rewrite H end. cbn. by apply IH.
Qed.

(** Replay gives a run's state back as soon as it does so for one command. *)
Lemma ag_run_replay l s s' evs :
  (forall c cmd s s' evs, ag_exec c cmd s = Ok (s', evs) -> ag_replay (map (pair c) evs) s = Ok s') ->
  ag_run l s = Ok (s', evs) -> ag_replay evs s = Ok s'.
Proof.
  intros HR. revert s evs. induction l as [|[c cmd] l IH]; intros s evs Hr.
  - cbn in Hr. by inv_ok.
  - apply ag_run_cons in Hr as (s1 & evs1 & evs2 & He & Hr & ->).
    rewrite (ag_replay_app _ _ _ _ (HR _ _ _ _ _ He)). eauto.
Qed.
End Runs.
