(* ===== verification/LabletSessionEvents.v ===== *)
(** * LabletSession domain events ([control-plane-api/domain/events/lablet_session_events.py])

    One record per event dataclass, with the dataclass's fields in order, and
    the type of all of them. *)
From S2P Require Import Prelude PyData.

Record LabletSessionCreatedDomainEvent := {
  Created_aggregate_id : string;
  Created_definition_id : string;
  Created_definition_name : string;
  Created_definition_version : string;
  Created_owner_id : string;
  Created_timeslot_start : datetime;
  Created_timeslot_end : datetime;
  Created_reservation_id : option string;
  Created_created_at : datetime
}.

Record LabletSessionScheduledDomainEvent := {
  Scheduled_aggregate_id : string;
  Scheduled_worker_id : string;
  Scheduled_allocated_ports : dict Z;
  Scheduled_lab_record_id : string;
  Scheduled_scheduled_at : datetime;
  Scheduled_scheduled_by : string
}.

Record LabletSessionInstantiatingDomainEvent := {
  Instantiating_aggregate_id : string;
  Instantiating_instantiation_started_at : datetime
}.

Record LabletSessionReadyDomainEvent := {
  Ready_aggregate_id : string;
  Ready_user_session_id : string;
  Ready_cml_lab_id : string;
  Ready_ready_at : datetime
}.

Record LabletSessionRunningDomainEvent := {
  Running_aggregate_id : string;
  Running_started_at : datetime
}.

Record LabletSessionCollectingDomainEvent := {
  Collecting_aggregate_id : string;
  Collecting_collection_started_at : datetime
}.

Record LabletSessionGradingDomainEvent := {
  Grading_aggregate_id : string;
  Grading_grading_session_id : string;
  Grading_grading_started_at : datetime
}.

Record LabletSessionScoreRecordedDomainEvent := {
  ScoreRecorded_aggregate_id : string;
  ScoreRecorded_score_report_id : string;
  ScoreRecorded_grade_result : string;
  ScoreRecorded_scored_at : datetime
}.

Record LabletSessionStoppingDomainEvent := {
  Stopping_aggregate_id : string;
  Stopping_stopping_started_at : datetime;
  Stopping_reason : option string
}.

Record LabletSessionStoppedDomainEvent := {
  Stopped_aggregate_id : string;
  Stopped_stopped_at : datetime;
  Stopped_duration_seconds : option Z
}.

Record LabletSessionArchivedDomainEvent := {
  Archived_aggregate_id : string;
  Archived_archived_at : datetime;
  Archived_archived_by : string
}.

Record LabletSessionTerminatedDomainEvent := {
  Terminated_aggregate_id : string;
  Terminated_terminated_at : datetime;
  Terminated_terminated_by : string;
  Terminated_reason : option string;
  Terminated_from_state : string;
  Terminated_duration_seconds : option Z
}.

Record LabletSessionPortsReleasedDomainEvent := {
  PortsReleased_aggregate_id : string;
  PortsReleased_worker_id : string;
  PortsReleased_released_ports : dict Z;
  PortsReleased_released_at : datetime
}.

Record LabletSessionTimeslotExtendedDomainEvent := {
  TimeslotExtended_aggregate_id : string;
  TimeslotExtended_old_timeslot_end : datetime;
  TimeslotExtended_new_timeslot_end : datetime;
  TimeslotExtended_extended_by : string;
  TimeslotExtended_extended_at : datetime
}.

Record LabletSessionRequeuedDomainEvent := {
  Requeued_aggregate_id : string;
  Requeued_requeued_at : datetime;
  Requeued_requeued_by : string;
  Requeued_reason : option string;
  Requeued_current_status : string
}.

Record LabletSessionResourcesObservedDomainEvent := {
  ResourcesObserved_aggregate_id : string;
  ResourcesObserved_observed_resources : pydict;
  ResourcesObserved_observed_ports : dict Z;
  ResourcesObserved_port_drift_detected : bool;
  ResourcesObserved_observed_at : datetime
}.

Record LabletSessionPortDriftDetectedDomainEvent := {
  PortDriftDetected_aggregate_id : string;
  PortDriftDetected_allocated_ports : dict Z;
  PortDriftDetected_observed_ports : dict Z;
  PortDriftDetected_drift_details : pydict;
  PortDriftDetected_detected_at : datetime
}.

Record LabletSessionObserveResourcesRequestedDomainEvent := {
  ObserveResourcesRequested_aggregate_id : string;
  ObserveResourcesRequested_requested_by : string;
  ObserveResourcesRequested_requested_at : datetime
}.

Record LabletSessionExpiredDomainEvent := {
  Expired_aggregate_id : string;
  Expired_expired_at : datetime;
  Expired_reason : string;
  Expired_from_state : string;
  Expired_duration_seconds : option Z
}.

Record LabletSessionLabBoundDomainEvent := {
  LabBound_aggregate_id : string;
  LabBound_lab_record_id : string;
  LabBound_allocated_ports : dict Z;
  LabBound_bound_at : datetime;
  LabBound_cml_lab_id : option string;
  LabBound_cml_lab_title : option string
}.

Record LabletSessionPipelineProgressUpdatedDomainEvent := {
  PipelineProgressUpdated_aggregate_id : string;
  PipelineProgressUpdated_pipeline_name : string;
  PipelineProgressUpdated_step_name : string;
  PipelineProgressUpdated_step_status : string;
  PipelineProgressUpdated_progress_data : pydict;
  PipelineProgressUpdated_updated_at : datetime
}.

Record LabletSessionDesiredStatusUpdatedDomainEvent := {
  DesiredStatusUpdated_aggregate_id : string;
  DesiredStatusUpdated_old_desired_status : string;
  DesiredStatusUpdated_new_desired_status : string;
  DesiredStatusUpdated_updated_at : datetime;
  DesiredStatusUpdated_requested_by : option string;
  DesiredStatusUpdated_reason : option string
}.

(** A registered LabletSession event. *)
Inductive session_event :=
| Created (event : LabletSessionCreatedDomainEvent)
| Scheduled (event : LabletSessionScheduledDomainEvent)
| Instantiating (event : LabletSessionInstantiatingDomainEvent)
| Ready (event : LabletSessionReadyDomainEvent)
| Running (event : LabletSessionRunningDomainEvent)
| Collecting (event : LabletSessionCollectingDomainEvent)
| Grading (event : LabletSessionGradingDomainEvent)
| ScoreRecorded (event : LabletSessionScoreRecordedDomainEvent)
| Stopping (event : LabletSessionStoppingDomainEvent)
| Stopped (event : LabletSessionStoppedDomainEvent)
| Archived (event : LabletSessionArchivedDomainEvent)
| Terminated (event : LabletSessionTerminatedDomainEvent)
| PortsReleased (event : LabletSessionPortsReleasedDomainEvent)
| TimeslotExtended (event : LabletSessionTimeslotExtendedDomainEvent)
| Requeued (event : LabletSessionRequeuedDomainEvent)
| ResourcesObserved (event : LabletSessionResourcesObservedDomainEvent)
| PortDriftDetected (event : LabletSessionPortDriftDetectedDomainEvent)
| ObserveResourcesRequested (event : LabletSessionObserveResourcesRequestedDomainEvent)
| Expired (event : LabletSessionExpiredDomainEvent)
| LabBound (event : LabletSessionLabBoundDomainEvent)
| PipelineProgressUpdated (event : LabletSessionPipelineProgressUpdatedDomainEvent)
| DesiredStatusUpdated (event : LabletSessionDesiredStatusUpdatedDomainEvent).
