(* ===== verification/LabletSession.v ===== *)
(** * The LabletSession aggregate ([control-plane-api/domain/entities/lablet_session.py])

    The persisted state, one handler per domain event ([on_...], dispatched by
    [on]), and the command methods of the aggregate root.  A command validates,
    registers events and applies each to the state; here it returns the
    registered events and the new state.  Theorems on it are in
    [LabletSessionProps]. *)
From S2P Require Import Prelude PyData Enums Lifecycle LabletSessionEvents.
Import SessionStatus.

(** ** State *)
Record LabletSessionState := {
  id : string;
  resource_type : string;
  definition_id : string;
  definition_name : string;
  definition_version : string;
  owner_id : string;
  reservation_id : option string;
  status : LabletSessionStatus;
  desired_status : LabletSessionStatus;
  state_history : list pydict;
  worker_id : option string;
  lab_record_id : option string;
  cml_lab_id : option string;
  cml_lab_title : option string;
  allocated_ports : option (dict Z);
  user_session_id : option string;
  grading_session_id : option string;
  score_report_id : option string;
  grade_result : option string;
  created_at : datetime;
  updated_at : datetime;
  scheduled_at : option datetime;
  started_at : option datetime;
  ended_at : option datetime;
  duration_seconds : option Z;
  terminated_at : option datetime;
  timeslot : option pydict;
  lifecycle : option pydict;
  legacy_ts_start : option datetime;
  legacy_ts_end : option datetime;
  observed_resources : option pydict;
  observed_ports : option (dict Z);
  port_drift_detected : bool;
  observation_count : Z;
  observed_at : option datetime;
  pipeline_progress : option pydict
}.

#[export] Instance eta_session : Eta LabletSessionState := fun s => {|
  id := s.(id);
  resource_type := s.(resource_type);
  definition_id := s.(definition_id);
  definition_name := s.(definition_name);
  definition_version := s.(definition_version);
  owner_id := s.(owner_id);
  reservation_id := s.(reservation_id);
  status := s.(status);
  desired_status := s.(desired_status);
  state_history := s.(state_history);
  worker_id := s.(worker_id);
  lab_record_id := s.(lab_record_id);
  cml_lab_id := s.(cml_lab_id);
  cml_lab_title := s.(cml_lab_title);
  allocated_ports := s.(allocated_ports);
  user_session_id := s.(user_session_id);
  grading_session_id := s.(grading_session_id);
  score_report_id := s.(score_report_id);
  grade_result := s.(grade_result);
  created_at := s.(created_at);
  updated_at := s.(updated_at);
  scheduled_at := s.(scheduled_at);
  started_at := s.(started_at);
  ended_at := s.(ended_at);
  duration_seconds := s.(duration_seconds);
  terminated_at := s.(terminated_at);
  timeslot := s.(timeslot);
  lifecycle := s.(lifecycle);
  legacy_ts_start := s.(legacy_ts_start);
  legacy_ts_end := s.(legacy_ts_end);
  observed_resources := s.(observed_resources);
  observed_ports := s.(observed_ports);
  port_drift_detected := s.(port_drift_detected);
  observation_count := s.(observation_count);
  observed_at := s.(observed_at);
  pipeline_progress := s.(pipeline_progress)
|}.

(** [LabletSessionState.__init__], with the clock reading [t]. *)
Definition init_state (t : datetime) : LabletSessionState := {|
  id := ""; resource_type := "lablet_session";
  definition_id := ""; definition_name := ""; definition_version := "";
  owner_id := ""; reservation_id := None;
  status := PENDING; desired_status := RUNNING; state_history := [];
  worker_id := None; lab_record_id := None; cml_lab_id := None; cml_lab_title := None;
  allocated_ports := None; user_session_id := None; grading_session_id := None;
  score_report_id := None; grade_result := None;
  created_at := t; updated_at := t; scheduled_at := None; started_at := None;
  ended_at := None; duration_seconds := None; terminated_at := None;
  timeslot := None; lifecycle := None; legacy_ts_start := None; legacy_ts_end := None;
  observed_resources := None; observed_ports := None; port_drift_detected := false;
  observation_count := 0; observed_at := None; pipeline_progress := None
|}.

(** ** State helpers *)

(** [TimedResourceState.get_timeslot] *)
Definition timed_get_timeslot (s : LabletSessionState) : res (option Timeslot) :=
  match s.(timeslot) with
  | None => Ok None
  | Some d => t ← Timeslot_from_dict d; Ok (Some t)
  end.

(** [get_timeslot], with the fallback to the fields of old documents. *)
Definition get_timeslot (s : LabletSessionState) : res (option Timeslot) :=
  result ← timed_get_timeslot s;
  match result, s.(legacy_ts_start), s.(legacy_ts_end) with
  | Some t, _, _ => Ok (Some t)
  | None, Some ts_start, Some ts_end =>
      later ← dt_ltb ts_start ts_end;
      if later : bool then t ← mk_timeslot_default ts_start ts_end; Ok (Some t) else Ok None
  | None, _, _ => Ok None
  end.

(** [set_timeslot], with its clock reading. *)
Definition set_timeslot (ts : Timeslot) (t : datetime) (s : LabletSessionState) : LabletSessionState :=
  s <| timeslot := Some (Timeslot_to_dict ts) |> <| updated_at := t |>.

Definition timeslot_start (s : LabletSessionState) : res datetime :=
  ts ← get_timeslot s; Ok (match ts with Some t => start t | None => s.(created_at) end).

Definition timeslot_end (s : LabletSessionState) : res datetime :=
  ts ← get_timeslot s; Ok (match ts with Some t => end_ t | None => s.(created_at) end).

(** [_compute_duration] *)
Definition compute_duration (s : LabletSessionState) : res LabletSessionState :=
  match s.(started_at), s.(ended_at) with
  | Some st, Some en =>
      d ← dt_sub (dt_to_utc en) (dt_to_utc st); Ok (s <| duration_seconds := Some d |>)
  | _, _ => Ok s
  end.

(** [_record_transition] *)
Definition record_transition (c : clock) (from_state : option string) (to_state triggered_by : string)
    (reason : option string) (metadata : option pydict) (s : LabletSessionState) : LabletSessionState :=
  let transition := {|
    st_from_state := from_state; st_to_state := to_state;
    st_transitioned_at := c.(now_hist); st_triggered_by := triggered_by;
    st_reason := reason; st_metadata := metadata |} in
  s <| state_history := s.(state_history) ++ [StateTransition_to_dict transition] |>
    <| updated_at := c.(now_upd) |>.

(** The end every status-changing handler shares: [self.status = to] and
    [self._record_transition(old_status.value, to.value, ...)]. *)
Definition set_status (c : clock) (old_status to : LabletSessionStatus) (triggered_by : string)
    (reason : option string) (metadata : option pydict) (s : LabletSessionState) : LabletSessionState :=
  record_transition c (Some (LabletSessionStatus_value old_status)) (LabletSessionStatus_value to)
    triggered_by reason metadata (s <| status := to |>).

(** ** Event handlers *)

Definition on_Created (c : clock) (event : LabletSessionCreatedDomainEvent) (s : LabletSessionState)
    : res LabletSessionState :=
  let s := s <| id := event.(Created_aggregate_id) |>
             <| definition_id := event.(Created_definition_id) |>
             <| definition_name := event.(Created_definition_name) |>
             <| definition_version := event.(Created_definition_version) |>
             <| owner_id := event.(Created_owner_id) |>
             <| reservation_id := event.(Created_reservation_id) |>
             <| created_at := event.(Created_created_at) |>
             <| updated_at := event.(Created_created_at) |>
             <| status := PENDING |>
             <| desired_status := RUNNING |> in
  ts ← mk_timeslot_default event.(Created_timeslot_start) event.(Created_timeslot_end);
  let s := set_timeslot ts c.(now_upd) s in
  let s := s <| lifecycle := Some (ManagedLifecycle_to_dict
                  {| ml_phases := ml_phases LABLET_SESSION_LIFECYCLE;
                     ml_current_phase := Some "schedule" |}) |> in
  Ok (record_transition c None (LabletSessionStatus_value PENDING) "system"
        (Some "Session created") None s).

Definition on_Scheduled (c : clock) (event : LabletSessionScheduledDomainEvent) (s : LabletSessionState)
    : res LabletSessionState :=
  let old_status := s.(status) in
  let s := s <| worker_id := Some event.(Scheduled_worker_id) |>
             <| allocated_ports := Some event.(Scheduled_allocated_ports) |>
             <| lab_record_id := Some event.(Scheduled_lab_record_id) |>
             <| scheduled_at := Some event.(Scheduled_scheduled_at) |> in
  Ok (set_status c old_status SCHEDULED event.(Scheduled_scheduled_by)
        (Some ("Scheduled on worker " +:+ event.(Scheduled_worker_id)))
        (Some [("allocated_ports", of_ports event.(Scheduled_allocated_ports));
               ("lab_record_id", PStr event.(Scheduled_lab_record_id))]) s).

Definition on_Instantiating (c : clock) (event : LabletSessionInstantiatingDomainEvent)
    (s : LabletSessionState) : res LabletSessionState :=
  Ok (set_status c s.(status) INSTANTIATING "lablet-controller"
        (Some "Lab import/startup initiated") None s).

Definition on_Ready (c : clock) (event : LabletSessionReadyDomainEvent) (s : LabletSessionState)
    : res LabletSessionState :=
  let old_status := s.(status) in
  let s := s <| user_session_id := Some event.(Ready_user_session_id) |>
             <| cml_lab_id := Some event.(Ready_cml_lab_id) |> in
  Ok (set_status c old_status READY "lablet-controller"
        (Some "Infrastructure ready, UserSession provisioned")
        (Some [("user_session_id", PStr event.(Ready_user_session_id));
               ("cml_lab_id", PStr event.(Ready_cml_lab_id))]) s).

Definition on_Running (c : clock) (event : LabletSessionRunningDomainEvent) (s : LabletSessionState)
    : res LabletSessionState :=
  let old_status := s.(status) in
  let s := s <| started_at := Some event.(Running_started_at) |> in
  Ok (set_status c old_status RUNNING "lds-event" (Some "User logged in, session active") None s).

Definition on_Collecting (c : clock) (event : LabletSessionCollectingDomainEvent)
    (s : LabletSessionState) : res LabletSessionState :=
  Ok (set_status c s.(status) COLLECTING "lablet-controller"
        (Some "Assessment data collection started") None s).

Definition on_Grading (c : clock) (event : LabletSessionGradingDomainEvent) (s : LabletSessionState)
    : res LabletSessionState :=
  let old_status := s.(status) in
  let s := s <| grading_session_id := Some event.(Grading_grading_session_id) |> in
  Ok (set_status c old_status GRADING "lablet-controller" (Some "Grading started")
        (Some [("grading_session_id", PStr event.(Grading_grading_session_id))]) s).

Definition on_ScoreRecorded (event : LabletSessionScoreRecordedDomainEvent) (s : LabletSessionState)
    : res LabletSessionState :=
  Ok (s <| score_report_id := Some event.(ScoreRecorded_score_report_id) |>
        <| grade_result := Some event.(ScoreRecorded_grade_result) |>).

Definition on_Stopping (c : clock) (event : LabletSessionStoppingDomainEvent) (s : LabletSessionState)
    : res LabletSessionState :=
  Ok (set_status c s.(status) STOPPING "lablet-controller"
        (Some (ostr_or event.(Stopping_reason) "Session shutdown initiated")) None s).

Definition on_Stopped (c : clock) (event : LabletSessionStoppedDomainEvent) (s : LabletSessionState)
    : res LabletSessionState :=
  let old_status := s.(status) in
  s ← compute_duration (s <| ended_at := Some event.(Stopped_stopped_at) |>);
  Ok (set_status c old_status STOPPED "lablet-controller" (Some "Session stopped") None s).

Definition on_Archived (c : clock) (event : LabletSessionArchivedDomainEvent) (s : LabletSessionState)
    : res LabletSessionState :=
  Ok (set_status c s.(status) ARCHIVED event.(Archived_archived_by) (Some "Session archived") None s).

Definition on_Terminated (c : clock) (event : LabletSessionTerminatedDomainEvent)
    (s : LabletSessionState) : res LabletSessionState :=
  let old_status := s.(status) in
  let s := s <| terminated_at := Some event.(Terminated_terminated_at) |>
             <| desired_status := TERMINATED |> in
  let s := match s.(ended_at) with
           | None => s <| ended_at := Some event.(Terminated_terminated_at) |>
           | Some _ => s
           end in
  s ← match s.(duration_seconds) with None => compute_duration s | Some _ => Ok s end;
  Ok (set_status c old_status TERMINATED event.(Terminated_terminated_by)
        (Some (ostr_or event.(Terminated_reason) "Session terminated")) None s).

Definition on_PortsReleased (event : LabletSessionPortsReleasedDomainEvent) (s : LabletSessionState)
    : res LabletSessionState := Ok (s <| allocated_ports := None |>).

Definition on_TimeslotExtended (c : clock) (event : LabletSessionTimeslotExtendedDomainEvent)
    (s : LabletSessionState) : res LabletSessionState :=
  current_ts ← get_timeslot s;
  match current_ts with
  | Some ts =>
      new_ts ← extend ts event.(TimeslotExtended_new_timeslot_end);
      Ok (set_timeslot new_ts c.(now_upd) s)
  | None => Ok s
  end.

Definition on_Requeued (c : clock) (event : LabletSessionRequeuedDomainEvent) (s : LabletSessionState)
    : res LabletSessionState :=
  Ok (record_transition c (Some (LabletSessionStatus_value s.(status)))
        (LabletSessionStatus_value s.(status)) event.(Requeued_requeued_by)
        (Some (ostr_or event.(Requeued_reason) "Manual requeue for reconciliation"))
        (Some [("requeue", PBool true)]) s).

Definition on_ResourcesObserved (event : LabletSessionResourcesObservedDomainEvent)
    (s : LabletSessionState) : res LabletSessionState :=
  Ok (s <| observed_resources := Some event.(ResourcesObserved_observed_resources) |>
        <| observed_ports := Some event.(ResourcesObserved_observed_ports) |>
        <| port_drift_detected := event.(ResourcesObserved_port_drift_detected) |>
        <| observation_count := s.(observation_count) + 1 |>
        <| observed_at := Some event.(ResourcesObserved_observed_at) |>).

Definition on_PortDriftDetected (event : LabletSessionPortDriftDetectedDomainEvent)
    (s : LabletSessionState) : res LabletSessionState := Ok s.

Definition on_ObserveResourcesRequested (event : LabletSessionObserveResourcesRequestedDomainEvent)
    (s : LabletSessionState) : res LabletSessionState :=
  Ok (s <| updated_at := event.(ObserveResourcesRequested_requested_at) |>).

Definition on_PipelineProgressUpdated (event : LabletSessionPipelineProgressUpdatedDomainEvent)
    (s : LabletSessionState) : res LabletSessionState :=
  let progress := default [] s.(pipeline_progress) in
  Ok (s <| pipeline_progress :=
         Some (dict_set event.(PipelineProgressUpdated_pipeline_name)
                 (PDict event.(PipelineProgressUpdated_progress_data)) progress) |>).

Definition on_DesiredStatusUpdated (event : LabletSessionDesiredStatusUpdatedDomainEvent)
    (s : LabletSessionState) : res LabletSessionState :=
  new ← enum_call event.(DesiredStatusUpdated_new_desired_status);
  Ok (s <| desired_status := new |>).

Definition on_Expired (c : clock) (event : LabletSessionExpiredDomainEvent) (s : LabletSessionState)
    : res LabletSessionState :=
  let old_status := s.(status) in
  s ← compute_duration (s <| ended_at := Some event.(Expired_expired_at) |>);
  Ok (set_status c old_status EXPIRED "system"
        (Some (ostr_or (Some event.(Expired_reason)) "Timeslot expired")) None s).

Definition on_LabBound (event : LabletSessionLabBoundDomainEvent) (s : LabletSessionState)
    : res LabletSessionState :=
  let s := s <| lab_record_id := Some event.(LabBound_lab_record_id) |>
             <| allocated_ports := match event.(LabBound_allocated_ports) with
                                   | [] => None
                                   | ports => Some ports
                                   end |> in
  let s := if ostr_truthy event.(LabBound_cml_lab_id)
           then s <| cml_lab_id := event.(LabBound_cml_lab_id) |> else s in
  Ok (if ostr_truthy event.(LabBound_cml_lab_title)
      then s <| cml_lab_title := event.(LabBound_cml_lab_title) |> else s).

(** The [@dispatch] on the event's class. *)
Definition on (c : clock) (ev : session_event) (s : LabletSessionState) : res LabletSessionState :=
  match ev with
  | Created e => on_Created c e s
  | Scheduled e => on_Scheduled c e s
  | Instantiating e => on_Instantiating c e s
  | Ready e => on_Ready c e s
  | Running e => on_Running c e s
  | Collecting e => on_Collecting c e s
  | Grading e => on_Grading c e s
  | ScoreRecorded e => on_ScoreRecorded e s
  | Stopping e => on_Stopping c e s
  | Stopped e => on_Stopped c e s
  | Archived e => on_Archived c e s
  | Terminated e => on_Terminated c e s
  | PortsReleased e => on_PortsReleased e s
  | TimeslotExtended e => on_TimeslotExtended c e s
  | Requeued e => on_Requeued c e s
  | ResourcesObserved e => on_ResourcesObserved e s
  | PortDriftDetected e => on_PortDriftDetected e s
  | ObserveResourcesRequested e => on_ObserveResourcesRequested e s
  | Expired e => on_Expired c e s
  | LabBound e => on_LabBound e s
  | PipelineProgressUpdated e => on_PipelineProgressUpdated e s
  | DesiredStatusUpdated e => on_DesiredStatusUpdated e s
  end.


(** ** The aggregate root

    [root_id] is [AggregateRoot.id] of the neuroglia framework.  A command
    returns the new state and the events it registered, in order. *)
Abbreviation result := (res (LabletSessionState * list session_event)).

(** [self.state.on(self.register_event(ev))], then the rest of the method. *)
Definition emit (c : clock) (ev : session_event) (s : LabletSessionState) : result :=
  s' ← on c ev s; Ok (s', [ev]).

Definition illegal (from to : LabletSessionStatus) : exn :=
  InvalidStateTransitionError (LabletSessionStatus_value from) (LabletSessionStatus_value to)
    ("Invalid transition from " +:+ LabletSessionStatus_value from +:+ " to "
       +:+ LabletSessionStatus_value to).

Definition validate_transition (s : LabletSessionState) (to_state : LabletSessionStatus) : res unit :=
  raise_if (negb (bool_decide (to_state ∈ LABLET_SESSION_VALID_TRANSITIONS s.(status))))
    (illegal s.(status) to_state).

Section Commands.
Context `{RootId LabletSessionState}.
Implicit Types (c : clock) (s : LabletSessionState).

(** [LabletSession.id] *)
Definition aggregate_id s : res string :=
  match root_id s with
  | Some i => Ok i
  | None => Err (ValueError "LabletSession aggregate identifier has not been initialized")
  end.

Definition schedule c (worker : string) (ports : dict Z) (lab_record scheduled_by : string) s : result :=
  _ ← validate_transition s SCHEDULED;
  i ← aggregate_id s;
  emit c (Scheduled {| Scheduled_aggregate_id := i; Scheduled_worker_id := worker;
                       Scheduled_allocated_ports := ports; Scheduled_lab_record_id := lab_record;
                       Scheduled_scheduled_at := c.(now); Scheduled_scheduled_by := scheduled_by |}) s.

Definition start_instantiation c s : result :=
  _ ← validate_transition s INSTANTIATING;
  i ← aggregate_id s;
  emit c (Instantiating {| Instantiating_aggregate_id := i;
                           Instantiating_instantiation_started_at := c.(now) |}) s.

Definition mark_ready c (user_session cml_lab : string) s : result :=
  _ ← validate_transition s READY;
  i ← aggregate_id s;
  emit c (Ready {| Ready_aggregate_id := i; Ready_user_session_id := user_session;
                   Ready_cml_lab_id := cml_lab; Ready_ready_at := c.(now) |}) s.

Definition mark_running c s : result :=
  _ ← validate_transition s RUNNING;
  i ← aggregate_id s;
  emit c (Running {| Running_aggregate_id := i; Running_started_at := c.(now) |}) s.

Definition start_collection c s : result :=
  _ ← validate_transition s COLLECTING;
  i ← aggregate_id s;
  emit c (Collecting {| Collecting_aggregate_id := i;
                        Collecting_collection_started_at := c.(now) |}) s.

Definition start_grading c (grading_session : string) s : result :=
  _ ← validate_transition s GRADING;
  i ← aggregate_id s;
  emit c (Grading {| Grading_aggregate_id := i; Grading_grading_session_id := grading_session;
                     Grading_grading_started_at := c.(now) |}) s.

Definition record_score c (score_report grade : string) s : result :=
  i ← aggregate_id s;
  emit c (ScoreRecorded {| ScoreRecorded_aggregate_id := i;
                           ScoreRecorded_score_report_id := score_report;
                           ScoreRecorded_grade_result := grade;
                           ScoreRecorded_scored_at := c.(now) |}) s.

Definition start_stopping c (reason : option string) s : result :=
  _ ← validate_transition s STOPPING;
  i ← aggregate_id s;
  emit c (Stopping {| Stopping_aggregate_id := i; Stopping_stopping_started_at := c.(now);
                      Stopping_reason := reason |}) s.

Definition mark_stopped c s : result :=
  _ ← validate_transition s STOPPED;
  duration ← match s.(started_at) with
             | Some st => d ← dt_sub c.(now) st; Ok (Some d)
             | None => Ok None
             end;
  i ← aggregate_id s;
  emit c (Stopped {| Stopped_aggregate_id := i; Stopped_stopped_at := c.(now);
                     Stopped_duration_seconds := duration |}) s.

Definition archive c (archived_by : string) s : result :=
  _ ← validate_transition s ARCHIVED;
  i ← aggregate_id s;
  emit c (Archived {| Archived_aggregate_id := i; Archived_archived_at := c.(now);
                      Archived_archived_by := archived_by |}) s.

(** The duration [terminate] and [expire] put in their event. *)
Definition open_duration c s : res (option Z) :=
  match s.(started_at), s.(ended_at) with
  | Some st, None => d ← dt_sub c.(now) st; Ok (Some d)
  | _, _ => Ok None
  end.

Definition terminate c (terminated_by : string) (reason : option string) s : result :=
  _ ← validate_transition s TERMINATED;
  duration ← open_duration c s;
  i ← aggregate_id s;
  emit c (Terminated {| Terminated_aggregate_id := i; Terminated_terminated_at := c.(now);
                        Terminated_terminated_by := terminated_by; Terminated_reason := reason;
                        Terminated_from_state := LabletSessionStatus_value s.(status);
                        Terminated_duration_seconds := duration |}) s.

Definition release_ports c s : result :=
  match s.(worker_id), s.(allocated_ports) with
  | Some worker, Some ((_ :: _) as ports) =>
      if str_truthy worker then
        i ← aggregate_id s;
        emit c (PortsReleased {| PortsReleased_aggregate_id := i; PortsReleased_worker_id := worker;
                                 PortsReleased_released_ports := ports;
                                 PortsReleased_released_at := c.(now) |}) s
      else Ok (s, [])
  | _, _ => Ok (s, [])
  end.

Definition extend_timeslot c (new_end : datetime) (extended_by : string) s : result :=
  old_end ← timeslot_end s;
  bad ← dt_leb new_end old_end;
  _ ← raise_if bad (ValueError "new_end must be after current timeslot_end");
  i ← aggregate_id s;
  emit c (TimeslotExtended {| TimeslotExtended_aggregate_id := i;
                              TimeslotExtended_old_timeslot_end := old_end;
                              TimeslotExtended_new_timeslot_end := new_end;
                              TimeslotExtended_extended_by := extended_by;
                              TimeslotExtended_extended_at := c.(now) |}) s.

Definition requeue c (requeued_by : string) (reason : option string) s : result :=
  let current := LabletSessionStatus_value s.(status) in
  _ ← raise_if (bool_decide (s.(status) ∈ [TERMINATED; ARCHIVED]))
        (InvalidStateTransitionError current current
           ("Cannot requeue a session in " +:+ current +:+ " state"));
  i ← aggregate_id s;
  emit c (Requeued {| Requeued_aggregate_id := i; Requeued_requeued_at := c.(now);
                      Requeued_requeued_by := requeued_by; Requeued_reason := reason;
                      Requeued_current_status := current |}) s.

Definition request_resource_observation c (requested_by : string) s : result :=
  i ← aggregate_id s;
  emit c (ObserveResourcesRequested {| ObserveResourcesRequested_aggregate_id := i;
                                       ObserveResourcesRequested_requested_by := requested_by;
                                       ObserveResourcesRequested_requested_at := c.(now) |}) s.

Definition update_pipeline_progress c (pipeline_name step_name step_status : string)
    (progress_data : pydict) s : result :=
  i ← aggregate_id s;
  emit c (PipelineProgressUpdated {| PipelineProgressUpdated_aggregate_id := i;
                                     PipelineProgressUpdated_pipeline_name := pipeline_name;
                                     PipelineProgressUpdated_step_name := step_name;
                                     PipelineProgressUpdated_step_status := step_status;
                                     PipelineProgressUpdated_progress_data := progress_data;
                                     PipelineProgressUpdated_updated_at := c.(now) |}) s.

(** The boolean is the method's result. *)
Definition update_desired_status c (new_desired : LabletSessionStatus)
    (requested_by reason : option string) s : res (bool * LabletSessionState * list session_event) :=
  if bool_decide (s.(desired_status) = new_desired) then Ok (false, s, []) else
  i ← aggregate_id s;
  '(s', evs) ← emit c (DesiredStatusUpdated {|
      DesiredStatusUpdated_aggregate_id := i;
      DesiredStatusUpdated_old_desired_status := LabletSessionStatus_value s.(desired_status);
      DesiredStatusUpdated_new_desired_status := LabletSessionStatus_value new_desired;
      DesiredStatusUpdated_updated_at := c.(now);
      DesiredStatusUpdated_requested_by := requested_by;
      DesiredStatusUpdated_reason := reason |}) s;
  Ok (true, s', evs).

Definition bind_lab c (lab_record : string) (ports : option (dict Z))
    (cml_lab cml_title : option string) s : result :=
  i ← aggregate_id s;
  emit c (LabBound {| LabBound_aggregate_id := i; LabBound_lab_record_id := lab_record;
                      LabBound_allocated_ports := default [] ports; LabBound_bound_at := c.(now);
                      LabBound_cml_lab_id := cml_lab; LabBound_cml_lab_title := cml_title |}) s.

Definition expire c (reason : string) s : result :=
  _ ← validate_transition s EXPIRED;
  duration ← open_duration c s;
  i ← aggregate_id s;
  emit c (Expired {| Expired_aggregate_id := i; Expired_expired_at := c.(now);
                     Expired_reason := reason;
                     Expired_from_state := LabletSessionStatus_value s.(status);
                     Expired_duration_seconds := duration |}) s.
End Commands.

(** [LabletSession.create]: [uid] is [str(uuid4())], [t_check] the clock of the
    check and [t_init] that of the new state's [__init__]. *)
Definition create (c : clock) (t_check t_init : datetime) (uid : string)
    (def_id def_name def_version owner : string) (ts_start ts_end : datetime)
    (reservation : option string) : result :=
  bad ← dt_leb ts_end ts_start;
  _ ← raise_if bad (ValueError "timeslot_end must be after timeslot_start");
  past ← dt_ltb ts_start (dt_add t_check (- minutes 5));
  _ ← raise_if past (ValueError "timeslot_start cannot be in the past");
  emit c (Created {| Created_aggregate_id := uid; Created_definition_id := def_id;
                     Created_definition_name := def_name; Created_definition_version := def_version;
                     Created_owner_id := owner; Created_timeslot_start := ts_start;
                     Created_timeslot_end := ts_end; Created_reservation_id := reservation;
                     Created_created_at := c.(now) |}) (init_state t_init).

(** ** Port drift

    [drift_details] of [record_resource_observation].  The code walks sets of
    names, in an unspecified order, to fill dictionaries; here the names come
    in the order of the dictionary they are taken from. *)
Record drift := { added : dict Z; removed : dict Z; changed : dict (Z * Z) }.

Definition missing_in (d d' : dict Z) : dict Z :=
  List.filter (fun '(name, _) => negb (dict_mem name d')) d.

Definition changed_in (allocated observed : dict Z) : dict (Z * Z) :=
  omap (fun '(name, a) =>
          match dict_get name observed with
          | Some o => if a =? o then None else Some (name, (a, o))
          | None => None
          end) allocated.

Definition no_drift : drift := {| added := []; removed := []; changed := [] |}.

Definition drift_details (allocated observed : dict Z) : drift :=
  match allocated, observed with
  | _ :: _, _ :: _ =>
      {| added := missing_in observed allocated;
         removed := missing_in allocated observed;
         changed := changed_in allocated observed |}
  | _, _ => no_drift
  end.

Definition drift_detected (d : drift) : bool :=
  match d with
  | {| added := []; removed := []; changed := [] |} => false
  | _ => true
  end.

Definition drift_to_dict (d : drift) : pydict :=
  [("added", of_ports d.(added)); ("removed", of_ports d.(removed));
   ("changed", PDict (map (fun '(name, (a, o)) =>
                  (name, PDict [("allocated", PInt a); ("observed", PInt o)])) d.(changed)))].

Definition record_resource_observation `{RootId LabletSessionState} (c : clock) (resources : pydict)
    (ports : dict Z) (s : LabletSessionState) : result :=
  let allocated := default [] s.(allocated_ports) in
  let details := drift_details allocated ports in
  i ← aggregate_id s;
  '(s1, evs1) ← emit c (ResourcesObserved {|
      ResourcesObserved_aggregate_id := i; ResourcesObserved_observed_resources := resources;
      ResourcesObserved_observed_ports := ports;
      ResourcesObserved_port_drift_detected := drift_detected details;
      ResourcesObserved_observed_at := c.(now) |}) s;
  if drift_detected details then
    i ← aggregate_id s1;
    '(s2, evs2) ← emit c (PortDriftDetected {|
        PortDriftDetected_aggregate_id := i; PortDriftDetected_allocated_ports := allocated;
        PortDriftDetected_observed_ports := ports;
        PortDriftDetected_drift_details := drift_to_dict details;
        PortDriftDetected_detected_at := c.(now) |}) s1;
    Ok (s2, evs1 ++ evs2)
  else Ok (s1, evs1).

(** ** Computed properties *)
Definition is_terminal (s : LabletSessionState) : bool := bool_decide (s.(status) = TERMINATED).
Definition session_is_active (s : LabletSessionState) : bool :=
  bool_decide (s.(status) ∈ [RUNNING; COLLECTING; GRADING]).
Definition is_pending_execution (s : LabletSessionState) : bool :=
  bool_decide (s.(status) ∈ [PENDING; SCHEDULED]).
Definition can_be_terminated (s : LabletSessionState) : bool :=
  bool_decide (TERMINATED ∈ LABLET_SESSION_VALID_TRANSITIONS s.(status)).

(** [int(seconds / 60)] of a span in microseconds: the float quotient and the
    exact one truncate alike for spans shorter than 285 years. *)
Definition whole_minutes (us : Z) : Z := Z.quot us (minutes 1).

Definition duration_minutes (s : LabletSessionState) : res Z :=
  ts ← get_timeslot s;
  match ts with
  | Some t => d ← duration t; Ok (whole_minutes d)
  | None => Ok 0
  end.

Definition actual_duration_minutes (t : datetime) (s : LabletSessionState) : res (option Z) :=
  match s.(started_at) with
  | None => Ok None
  | Some st =>
      let end_time := match s.(ended_at), s.(terminated_at) with
                      | Some e, _ => e
                      | None, Some e => e
                      | None, None => t
                      end in
      d ← dt_sub end_time st; Ok (Some (whole_minutes d))
  end.

Definition transition_count (s : LabletSessionState) : nat := length s.(state_history).
Definition last_transition (s : LabletSessionState) : res (option StateTransition) :=
  match last s.(state_history) with
  | Some d => t ← StateTransition_from_dict d; Ok (Some t)
  | None => Ok None
  end.
Definition has_user_session (s : LabletSessionState) : bool := bool_decide (is_Some s.(user_session_id)).
Definition has_grading_session (s : LabletSessionState) : bool := bool_decide (is_Some s.(grading_session_id)).
Definition has_score_report (s : LabletSessionState) : bool := bool_decide (is_Some s.(score_report_id)).
