(* ===== verification/LabletSessionProps.v ===== *)
(** * Correctness of the LabletSession aggregate

    The commands as one executable type, the state machine they implement, its
    audit trail, the bound on status changes, the data each status guarantees,
    durations, timeslot extension and port drift. *)
From S2P Require Import Prelude PyData Enums Lifecycle AuditTrail LabletSessionEvents LabletSession.
Import SessionStatus.

(** ** Commands as data *)
Inductive command :=
| Schedule (worker : string) (ports : dict Z) (lab_record by_ : string)
| StartInstantiation
| MarkReady (user_session cml_lab : string)
| MarkRunning
| StartCollection
| StartGrading (grading_session : string)
| RecordScore (score_report grade : string)
| StartStopping (reason : option string)
| MarkStopped
| Archive (by_ : string)
| Terminate (by_ : string) (reason : option string)
| ReleasePorts
| ExtendTimeslot (new_end : datetime) (by_ : string)
| Requeue (by_ : string) (reason : option string)
| ObserveResources (resources : pydict) (ports : dict Z)
| RequestObservation (by_ : string)
| PipelineProgress (pipeline step step_status : string) (data : pydict)
| SetDesired (to : LabletSessionStatus) (by_ reason : option string)
| BindLab (lab_record : string) (ports : option (dict Z)) (cml_lab title : option string)
| Expire (reason : string).

Definition exec `{RootId LabletSessionState} (c : clock) (cmd : command) (s : LabletSessionState) : result :=
  match cmd with
  | Schedule w p l b => schedule c w p l b s
  | StartInstantiation => start_instantiation c s
  | MarkReady u l => mark_ready c u l s
  | MarkRunning => mark_running c s
  | StartCollection => start_collection c s
  | StartGrading g => start_grading c g s
  | RecordScore r g => record_score c r g s
  | StartStopping r => start_stopping c r s
  | MarkStopped => mark_stopped c s
  | Archive b => archive c b s
  | Terminate b r => terminate c b r s
  | ReleasePorts => release_ports c s
  | ExtendTimeslot e b => extend_timeslot c e b s
  | Requeue b r => requeue c b r s
  | ObserveResources r p => record_resource_observation c r p s
  | RequestObservation b => request_resource_observation c b s
  | PipelineProgress p st ss d => update_pipeline_progress c p st ss d s
  | SetDesired t b r => '(_, s', evs) ← update_desired_status c t b r s; Ok (s', evs)
  | BindLab l p i t => bind_lab c l p i t s
  | Expire r => expire c r s
  end.

(** The status a command moves to, for the commands that move. *)
Definition target (cmd : command) : option LabletSessionStatus :=
  match cmd with
  | Schedule _ _ _ _ => Some SCHEDULED
  | StartInstantiation => Some INSTANTIATING
  | MarkReady _ _ => Some READY
  | MarkRunning => Some RUNNING
  | StartCollection => Some COLLECTING
  | StartGrading _ => Some GRADING
  | StartStopping _ => Some STOPPING
  | MarkStopped => Some STOPPED
  | Archive _ => Some ARCHIVED
  | Terminate _ _ => Some TERMINATED
  | Expire _ => Some EXPIRED
  | _ => None
  end.

Definition is_creation (ev : session_event) : bool :=
  match ev with Created _ => true | _ => false end.

(** The events of a session's later life, each applied under its clock. *)
Fixpoint replay (evs : list (clock * session_event)) (s : LabletSessionState) : res LabletSessionState :=
  match evs with
  | [] => Ok s
  | (c, ev) :: evs => s' ← on c ev s; replay evs s'
  end.

(** A sequence of commands, stopping at the first that raises; with the events
    it registers. *)
Fixpoint exec_all `{RootId LabletSessionState} (l : list (clock * command)) (s : LabletSessionState)
    : res (LabletSessionState * list (clock * session_event)) :=
  match l with
  | [] => Ok (s, [])
  | (c, cmd) :: l =>
      '(s1, evs1) ← exec c cmd s;
      '(s2, evs2) ← exec_all l s1;
      Ok (s2, map (pair c) evs1 ++ evs2)
  end.

#[export] Instance session_audited : Audited LabletSessionState LabletSessionStatus :=
  {| au_status := status; au_value := LabletSessionStatus_value; au_history := state_history |}.

(** ** What the handlers do to the audited part *)

(** The status change of an event. *)
Definition event_target (ev : session_event) : option LabletSessionStatus :=
  match ev with
  | Created _ => Some PENDING
  | Scheduled _ => Some SCHEDULED
  | Instantiating _ => Some INSTANTIATING
  | Ready _ => Some READY
  | Running _ => Some RUNNING
  | Collecting _ => Some COLLECTING
  | Grading _ => Some GRADING
  | Stopping _ => Some STOPPING
  | Stopped _ => Some STOPPED
  | Archived _ => Some ARCHIVED
  | Terminated _ => Some TERMINATED
  | Expired _ => Some EXPIRED
  | _ => None
  end.

Lemma compute_duration_ok s : exists d, compute_duration s = Ok (s <| duration_seconds := d |>).
Proof.
  unfold compute_duration. destruct (started_at s), (ended_at s); rewrite ?dt_sub_utc; cbn; eauto;
    exists (duration_seconds s); by destruct s.
Qed.

Lemma compute_duration_eq s s' : compute_duration s = Ok s' ->
  exists d, s' = s <| duration_seconds := d |>.
Proof. destruct (compute_duration_ok s) as [d ->]. intros [= <-]. eauto. Qed.

(** Takes apart [on c ev s = Ok s'] for a known event constructor. *)
Ltac handler_cases H :=
  cbv [on on_Created on_Scheduled on_Instantiating on_Ready on_Running on_Collecting on_Grading
       on_ScoreRecorded on_Stopping on_Stopped on_Archived on_Terminated on_PortsReleased
       on_TimeslotExtended on_Requeued on_ResourcesObserved on_PortDriftDetected
       on_ObserveResourcesRequested on_PipelineProgressUpdated on_DesiredStatusUpdated
       on_Expired on_LabBound] in H;
  repeat first
    [ progress inv_ok
    | match goal with
      | H : compute_duration _ = Ok _ |- _ => apply compute_duration_eq in H as [? ->]
      | H : context [match ?x with _ => _ end] |- _ => destruct x eqn:?
      end ];
  subst;
  repeat match goal with |- context [ostr_truthy ?x] => destruct (ostr_truthy x) eqn:? end.

Lemma on_status c ev s s' : on c ev s = Ok s' -> status s' = default (status s) (event_target ev).
Proof. destruct ev; intros Ho; handler_cases Ho; done. Qed.

Lemma record_transition_audit c s s0 to by_ r m :
  state_history s0 = state_history s -> status s0 = to ->
  audit_step s (record_transition c (Some (LabletSessionStatus_value (status s)))
                  (LabletSessionStatus_value to) by_ r m s0).
Proof.
  intros Hh Hs. right. eexists. split; [cbn; rewrite Hh; reflexivity|]. cbn. by rewrite Hs.
Qed.

Lemma set_status_audit c s s0 to by_ r m : state_history s0 = state_history s ->
  audit_step s (set_status c (status s) to by_ r m s0).
Proof. intros Hh. by apply record_transition_audit. Qed.

Lemma on_audit c ev s s' : is_creation ev = false -> on c ev s = Ok s' -> audit_step s s'.
Proof.
  intros He Ho. destruct ev; try done; handler_cases Ho; try (by left);
    try (apply set_status_audit); try (by apply record_transition_audit); try done;
    cbn; by repeat case_match.
Qed.

Lemma on_id c ev s s' : is_creation ev = false -> on c ev s = Ok s' -> id s' = id s.
Proof. intros He Ho. destruct ev; try done; handler_cases Ho; try done; cbn; by repeat case_match. Qed.

(** ** What a command that returns has done *)

Lemma emit_ok c ev s s' evs : emit c ev s = Ok (s', evs) <-> evs = [ev] /\ on c ev s = Ok s'.
Proof. unfold emit. rewrite bind_ok. split; [intros (? & ? & [= -> ->]); done|intros [-> ?]; eauto]. Qed.

Lemma validate_ok s to u :
  validate_transition s to = Ok u <-> to ∈ LABLET_SESSION_VALID_TRANSITIONS (status s).
Proof.
  unfold validate_transition. rewrite raise_if_ok, negb_false_iff, bool_decide_eq_true. done.
Qed.

Ltac unfold_commands :=
  cbv [exec schedule start_instantiation mark_ready mark_running start_collection start_grading
       record_score start_stopping mark_stopped archive terminate release_ports extend_timeslot
       requeue request_resource_observation update_pipeline_progress update_desired_status bind_lab
       expire record_resource_observation open_duration].

(** An event the aggregate registers in state [s]: not a second creation, and
    a status change only to a status the table allows. *)
Definition legal_event (s : LabletSessionState) (ev : session_event) : Prop :=
  is_creation ev = false /\
  match event_target ev with
  | Some to => to ∈ LABLET_SESSION_VALID_TRANSITIONS (status s)
  | None => True
  end.

(** The events [evs] take [s] to [s'], each legal where it is applied. *)
Inductive applied (c : clock) : LabletSessionState -> list session_event -> LabletSessionState -> Prop :=
| applied_nil s : applied c s [] s
| applied_cons s ev s1 evs s2 :
    legal_event s ev -> on c ev s = Ok s1 -> applied c s1 evs s2 -> applied c s (ev :: evs) s2.

(** A command that returns applied the events it registered, in order; it moved
    to its target, which the table allows, or kept the status. *)
Record command_effect `{RootId LabletSessionState} (c : clock) (cmd : command)
    (s s' : LabletSessionState) (evs : list session_event) : Prop := {
  ce_applied : applied c s evs s';
  ce_audit : audit_step s s';
  ce_status : status s' = default (status s) (target cmd);
  ce_valid : match target cmd with
             | Some to => to ∈ LABLET_SESSION_VALID_TRANSITIONS (status s)
             | None => True
             end
}.

Lemma command_effect_one `{RootId LabletSessionState} c cmd s s' evs ev :
  emit c ev s = Ok (s', evs) -> is_creation ev = false -> event_target ev = target cmd ->
  match target cmd with Some to => to ∈ LABLET_SESSION_VALID_TRANSITIONS (status s) | None => True end ->
  command_effect c cmd s s' evs.
Proof.
  rewrite emit_ok. intros [-> Ho] Hc Ht Hv. split; [| | |done].
  - apply applied_cons with s'; [|done|constructor]. split; [done|]. by rewrite Ht.
  - by apply on_audit in Ho.
  - rewrite <- Ht. by apply on_status in Ho.
Qed.

Lemma command_effect_none `{RootId LabletSessionState} c cmd s :
  target cmd = None -> command_effect c cmd s s [].
Proof. intros Ht. split; cbn; rewrite ?Ht; try done; [constructor|by left]. Qed.

Lemma exec_effect `{RootId LabletSessionState} c cmd s s' evs :
  exec c cmd s = Ok (s', evs) -> command_effect c cmd s s' evs.
Proof.
  destruct cmd; unfold_commands; intros He;
    repeat first
      [ progress inv_ok
      | match goal with
        | H : validate_transition _ _ = Ok _ |- _ => apply validate_ok in H
        | H : context [match ?x with _ => _ end] |- _ =>
            lazymatch x with context [match _ with _ => _ end] => fail | _ => destruct x eqn:? end
        end ];
    try (by apply command_effect_none);
    try (by eapply command_effect_one; cbn; eauto).
  (* the observation that finds drift registers two events *)
  repeat match goal with H : emit _ _ _ = Ok _ |- _ => apply emit_ok in H as [-> ?] end.
  match goal with H1 : on _ (ResourcesObserved _) _ = Ok _, H2 : on _ (PortDriftDetected _) _ = Ok _ |- _ =>
    rename H1 into O1; rename H2 into O2 end.
  split; [| | |done].
  - econstructor; [|exact O1|]; [done|]. econstructor; [|exact O2|constructor]; done.
  - left. by handler_cases O1; handler_cases O2.
  - apply on_status in O1, O2. cbn in *. congruence.
Qed.

Lemma replay_app e1 e2 s s1 : replay e1 s = Ok s1 -> replay (e1 ++ e2) s = replay e2 s1.
Proof.
  revert s. induction e1 as [|[c ev] e1 IH]; cbn -[on]; intros s Hr; [by inv_ok|].
  inv_ok. match goal with H : on _ _ _ = Ok _ |- _ => rewrite H end. cbn -[on]. by apply IH.
Qed.

(** Induction on the commands of a run. *)
Lemma exec_all_cons `{RootId LabletSessionState} c cmd l s s' evs :
  exec_all ((c, cmd) :: l) s = Ok (s', evs) <->
  exists s1 evs1 evs2, exec c cmd s = Ok (s1, evs1) /\ exec_all l s1 = Ok (s', evs2)
                       /\ evs = map (pair c) evs1 ++ evs2.
Proof.
  cbn. rewrite bind_ok. split.
  - intros ([s1 evs1] & He & Hr). inv_ok. destruct x as [s2 evs2]. inv_ok. eauto 8.
  - intros (s1 & evs1 & evs2 & He & Hr & ->). exists (s1, evs1). rewrite He, Hr. done.
Qed.

Lemma exec_all_invariant `{RootId LabletSessionState} (I : LabletSessionState -> Prop) l s s' evs :
  (forall c cmd s s' evs, exec c cmd s = Ok (s', evs) -> I s -> I s') ->
  exec_all l s = Ok (s', evs) -> I s -> I s'.
Proof.
  intros HI. revert s evs. induction l as [|[c cmd] l IH]; intros s evs Hr Hs.
  - cbn in Hr. by inv_ok.
  - apply exec_all_cons in Hr as (s1 & evs1 & evs2 & He & Hr & _). eauto.
Qed.

Lemma applied_invariant (I : LabletSessionState -> Prop) c s evs s' :
  (forall ev s s', legal_event s ev -> on c ev s = Ok s' -> I s -> I s') ->
  applied c s evs s' -> I s -> I s'.
Proof. intros HI. induction 1; eauto. Qed.

Lemma applied_replay c s evs s' : applied c s evs s' -> replay (map (pair c) evs) s = Ok s'.
Proof. induction 1 as [|s ev s1 evs s2 _ Ho _ IH]; cbn -[on]; [done|]. by rewrite Ho. Qed.

(** An invariant of the handlers is an invariant of the runs. *)
Lemma run_invariant `{RootId LabletSessionState} (I : LabletSessionState -> Prop) l s s' evs :
  (forall c ev s s', legal_event s ev -> on c ev s = Ok s' -> I s -> I s') ->
  exec_all l s = Ok (s', evs) -> I s -> I s'.
Proof.
  intros HI. apply exec_all_invariant. intros c cmd s1 s1' evs1 [Ha _ _ _]%exec_effect.
  apply applied_invariant with c evs1; [|exact Ha]. apply HI.
Qed.

(** ** The state machine *)

(** Steps left to the end of the lifecycle along the longest path. *)
Definition rank (s : LabletSessionStatus) : nat :=
  match s with
  | PENDING => 11 | SCHEDULED => 10 | INSTANTIATING => 9 | READY => 8 | RUNNING => 7
  | COLLECTING => 6 | GRADING => 5 | EXPIRED => 4 | STOPPING => 3 | STOPPED => 2
  | ARCHIVED => 1 | TERMINATED => 0
  end%nat.

Lemma transition_rank from to :
  to ∈ LABLET_SESSION_VALID_TRANSITIONS from -> (rank to < rank from)%nat.
Proof.
  intros Hv. apply (bool_decide_eq_true_2 _) in Hv. destruct from, to; try discriminate Hv; cbn; lia.
Qed.

(** Readings of the clock are aware; stored times may be naive. *)
Definition opt_aware (d : option datetime) : bool :=
  match d with Some d => dt_aware d | None => true end.

Section StateMachine.
Context `{RootId LabletSessionState} (root_id_law : forall s, root_id s = Some (id s)).

Lemma aggregate_id_ok s : aggregate_id s = Ok (id s).
Proof. unfold aggregate_id. by rewrite root_id_law. Qed.

(** A handler that moves a session cannot raise. *)
Lemma on_moves c ev s to : event_target ev = Some to -> to <> PENDING -> exists s', on c ev s = Ok s'.
Proof using.
  assert (forall s k, exists s', (s1 ← compute_duration s; Ok (k s1)) = Ok (s' : LabletSessionState)) as D.
  { intros s0 k. destruct (compute_duration_ok s0) as [d ->]. cbn. eauto. }
  destruct ev; cbn -[on]; intros Ht Hp; simplify_eq; try (by eexists; reflexivity); unfold on;
    [unfold on_Stopped; apply D| |unfold on_Expired; apply D].
  unfold on_Terminated. cbv zeta. destruct (duration_seconds _); cbn -[compute_duration]; [eauto|apply D].
Qed.

(** Guard of a moving command. *)
Lemma exec_illegal c cmd s to :
  target cmd = Some to -> to ∉ LABLET_SESSION_VALID_TRANSITIONS (status s) ->
  exec c cmd s = Err (illegal (status s) to).
Proof.
  intros Ht Hv. assert (validate_transition s to = Err (illegal (status s) to)) as E.
  { unfold validate_transition. by rewrite bool_decide_eq_false_2. }
  destruct cmd; simplify_eq/=; unfold_commands; by rewrite E.
Qed.

Lemma open_duration_ok c s : dt_aware (now c) = true -> opt_aware (started_at s) = true ->
  exists d, open_duration c s = Ok d.
Proof.
  intros Hc Hs. unfold open_duration. destruct (started_at s), (ended_at s); cbn in *; eauto.
  rewrite dt_sub_aware by done. cbn. eauto.
Qed.

Lemma exec_legal c cmd s to :
  dt_aware (now c) = true -> opt_aware (started_at s) = true ->
  target cmd = Some to -> to ∈ LABLET_SESSION_VALID_TRANSITIONS (status s) ->
  exists s' ev, exec c cmd s = Ok (s', [ev]) /\ event_target ev = Some to.
Proof.
  intros Hc Hs Ht Hv.
  assert (exists ev, exec c cmd s = emit c ev s /\ event_target ev = Some to) as (ev & He & Hev).
  2: { destruct (on_moves c ev s to) as [s' Ho]; [done|by destruct cmd; simplify_eq/=|].
       exists s', ev. rewrite He. unfold emit. by rewrite Ho. }
  assert (validate_transition s to = Ok ()) as E by (by apply validate_ok).
  destruct (open_duration_ok c s Hc Hs) as [od Hod].
  assert (exists d, match started_at s with
                    | Some st => d ← dt_sub (now c) st; Ok (Some d) | None => Ok None end = Ok d) as [sd Hsd].
  { destruct (started_at s); cbn in *; [rewrite dt_sub_aware by done|]; cbn; eauto. }
  destruct cmd; simplify_eq/=; unfold exec;
    cbv [schedule start_instantiation mark_ready mark_running start_collection start_grading
         start_stopping mark_stopped archive terminate expire];
    rewrite E; cbn -[emit dt_sub open_duration]; rewrite ?Hod, ?Hsd; cbn -[emit]; rewrite aggregate_id_ok;
    cbn -[emit]; eexists; (split; reflexivity).
Qed.

End StateMachine.

Definition example_clock : clock := {| now := utc 50; now_hist := utc 51; now_upd := utc 52 |}.
Definition state_root_id : RootId LabletSessionState := fun s => Some (id s).

Definition example_session : LabletSessionState := init_state (utc 0) <| status := SCHEDULED |>.


(** ** Runs of a session *)

(** [s0] is a freshly created session. *)
Definition created (s0 : LabletSessionState) : Prop :=
  exists c t_check t_init uid d n v o ts te r evs,
    create c t_check t_init uid d n v o ts te r = Ok (s0, evs).

Lemma created_event s0 : created s0 -> exists c t ev, on_Created c ev (init_state t) = Ok s0.
Proof.
  intros (c & tc & ti & uid & d & n & v & o & ts & te & r & evs & Hc). unfold create in Hc.
  repeat first [progress inv_ok | match goal with H : emit _ _ _ = Ok _ |- _ => apply emit_ok in H as [-> H] end].
  eauto.
Qed.

Lemma created_shape s0 : created s0 -> exists t ts,
  timeslot_valid ts /\ timeslot s0 = Some (Timeslot_to_dict ts)
  /\ state_history s0 = [StateTransition_to_dict t] /\ st_from_state t = None
  /\ st_to_state t = "pending" /\ status s0 = PENDING
  /\ started_at s0 = None /\ ended_at s0 = None /\ duration_seconds s0 = None
  /\ terminated_at s0 = None.
Proof.
  intros (c & t & ev & Ho)%created_event. unfold on_Created in Ho. inv_ok.
  match goal with H : mk_timeslot_default _ _ = Ok _ |- _ => apply post_init_ok in H as [-> Hv] end.
  do 2 eexists. split; [exact Hv|]. repeat split.
Qed.

Definition allowed_change (from to : LabletSessionStatus) : Prop :=
  from = to \/ to ∈ LABLET_SESSION_VALID_TRANSITIONS from.

(** The audit trail is complete and truthful: in every session, after any
    run of commands, the history reads back as one unbroken chain that starts at
    the creation, whose every entry stays put (a requeue) or follows the
    transition table, and whose last entry is the current status. *)
Theorem session_trail `{RootId LabletSessionState} s0 l s evs
    (Hc : created s0) (Hr : exec_all l s0 = Ok (s, evs)) :
  trail allowed_change s.
Proof.
  eapply exec_all_invariant; [|exact Hr|].
  - intros c cmd s1 s2 evs1 [_ Ha Hst Hv]%exec_effect. apply trail_step; [done|].
    cbn. rewrite Hst. destruct (target cmd); [by right|by left].
  - apply created_shape in Hc as (t & ts & _ & _ & Hh & Hf & Ht & Hs & _).
    eapply trail_init; [exact Hh|done|]. cbn. by rewrite Hs.
Qed.

(** The lifecycle terminates: each command that moves the status uses up
    one of the steps left to its status, so a run holds at most eleven moves
    from PENDING, and none from TERMINATED. *)
Theorem session_terminates `{RootId LabletSessionState} l s s' evs
    (Hr : exec_all l s = Ok (s', evs)) :
  (length (List.filter (fun p => bool_decide (is_Some (target p.2))) l) + rank (status s')
   <= rank (status s))%nat.
Proof.
  revert s evs Hr. induction l as [|[c cmd] l IH]; intros s evs Hr.
  - cbn in Hr. inv_ok. done.
  - apply exec_all_cons in Hr as (s1 & evs1 & evs2 & [_ _ Hst Hv]%exec_effect & Hr & _).
    apply IH in Hr. cbn. rewrite Hst in Hr. destruct (target cmd) as [to|]; cbn in *; [|lia].
    apply transition_rank in Hv. lia.
Qed.


(** ** The data each status guarantees *)

Definition before_login (st : LabletSessionStatus) : bool :=
  bool_decide (st ∈ [PENDING; SCHEDULED; INSTANTIATING; READY]).
Definition in_session (st : LabletSessionStatus) : bool :=
  bool_decide (st ∈ [RUNNING; COLLECTING; GRADING]).

Definition span (started ended : option datetime) : option Z :=
  match started, ended with Some a, Some b => Some (dt_us b - dt_us a) | _, _ => None end.

Record session_data (s : LabletSessionState) : Prop := {
  sd_before : before_login (status s) = true -> started_at s = None /\ ended_at s = None;
  sd_running : in_session (status s) = true ->
    is_Some (started_at s) /\ ended_at s = None;
  sd_ready : status s = READY \/ in_session (status s) = true ->
    is_Some (user_session_id s) /\ is_Some (cml_lab_id s);
  sd_grading : status s = GRADING -> is_Some (grading_session_id s);
  sd_scheduled : status s <> PENDING -> status s <> TERMINATED ->
    is_Some (worker_id s) /\ is_Some (lab_record_id s) /\ is_Some (scheduled_at s);
  sd_ended : status s ∈ [EXPIRED; STOPPED; TERMINATED] -> is_Some (ended_at s);
  sd_terminated : is_Some (terminated_at s) <-> status s = TERMINATED;
  sd_duration : duration_seconds s = span (started_at s) (ended_at s)
}.

Lemma compute_duration_span s : compute_duration s
  = Ok (match span (started_at s) (ended_at s) with
        | Some d => s <| duration_seconds := Some d |>
        | None => s
        end).
Proof. unfold compute_duration, span. by destruct (started_at s), (ended_at s). Qed.

(** Events that keep the status keep the times and the bindings. *)
Definition keeps_data (s s' : LabletSessionState) : Prop :=
  status s' = status s /\ started_at s' = started_at s /\ ended_at s' = ended_at s
  /\ duration_seconds s' = duration_seconds s /\ terminated_at s' = terminated_at s
  /\ worker_id s' = worker_id s /\ scheduled_at s' = scheduled_at s
  /\ user_session_id s' = user_session_id s /\ grading_session_id s' = grading_session_id s
  /\ (is_Some (lab_record_id s) -> is_Some (lab_record_id s'))
  /\ (is_Some (cml_lab_id s) -> is_Some (cml_lab_id s')).

Lemma on_keeps_data c ev s s' : event_target ev = None -> on c ev s = Ok s' -> keeps_data s s'.
Proof.
  intros He Ho. destruct ev; try discriminate He; handler_cases Ho; repeat split; try done; cbn;
    unfold ostr_truthy in *; by repeat case_match.
Qed.

Lemma keeps_session_data s s' : keeps_data s s' -> session_data s -> session_data s'.
Proof.
  intros (E1 & E2 & E3 & E4 & E5 & E6 & E7 & E8 & E9 & E10 & E11) [].
  split; rewrite ?E1, ?E2, ?E3, ?E4, ?E5, ?E6, ?E7, ?E8, ?E9; naive_solver.
Qed.

(** The cases of a status that may move to [to]. *)
Ltac source_cases Hv :=
  apply (bool_decide_eq_true_2 _) in Hv;
  match type of Hv with context [status ?s] => destruct (status s) eqn:? end;
  try discriminate Hv; clear Hv.

(** What the invariant says at a concrete status. *)
Ltac specialize_data s H1 H2 H3 H4 H5 H6 H7 :=
  first [destruct (H1 eq_refl) as [? ?] | idtac]; clear H1;
  first [destruct (H2 eq_refl) as (? & ?) | idtac]; clear H2;
  first [destruct (H3 (or_introl eq_refl)) | destruct (H3 (or_intror eq_refl)) | idtac]; clear H3;
  first [pose proof (H4 eq_refl) | idtac]; clear H4;
  first [destruct (H5 ltac:(discriminate) ltac:(discriminate)) as (? & ? & ?) | idtac]; clear H5;
  first [pose proof (H6 (bool_decide_unpack _ I)) | idtac]; clear H6;
  assert (terminated_at s = None)
    by (destruct (terminated_at s); [exfalso; by discriminate (proj1 H7 (mk_is_Some _ _ eq_refl))|done]);
  clear H7.

Lemma on_session_data c ev s s' :
  legal_event s ev -> on c ev s = Ok s' -> session_data s -> session_data s'.
Proof.
  intros [Hc Hv] Ho Hd. destruct (event_target ev) as [to|] eqn:Et.
  2: { eapply keeps_session_data; [by eapply on_keeps_data|done]. }
  destruct Hd as [H1 H2 H3 H4 H5 H6 H7 H8].
  destruct ev; try discriminate; cbn in Et; injection Et as <-; source_cases Hv;
    cbv [on on_Scheduled on_Instantiating on_Ready on_Running on_Collecting on_Grading
         on_Stopping on_Stopped on_Archived on_Terminated on_Expired] in Ho;
    rewrite ?compute_duration_span in Ho; cbn in Ho.
  all: specialize_data s H1 H2 H3 H4 H5 H6 H7; rewrite ?H8 in Ho;
    destruct (started_at s) eqn:?, (ended_at s) eqn:?; cbn in Ho; try discriminate;
    injection Ho as <-; split; cbn; intros; rewrite ?Heqo, ?Heqo0; try done; eauto; try discriminate.
  all: match goal with
       | H : _ \/ _ |- _ => first [by destruct H | split; eauto]
       | H : _ ∈ [EXPIRED; STOPPED; TERMINATED] |- _ =>
           apply (bool_decide_eq_true_2 _) in H; discriminate H
       | H : terminated_at _ = None |- _ <-> _ => rewrite ?H; split; [by intros [? ?]|done]
       end.
Qed.

(** ** A concrete run *)

Definition example_created : LabletSessionState :=
  match create example_clock (utc 10) (utc 10) "s-1" "d-1" "Lab" "1.0" "alice"
          (utc (minutes 60)) (utc (minutes 120)) None with
  | Ok (s, _) => s
  | Err _ => init_state (utc 0)
  end.

Lemma example_created_ok : created example_created.
Proof.
  exists example_clock, (utc 10), (utc 10), "s-1", "d-1", "Lab", "1.0", "alice",
    (utc (minutes 60)), (utc (minutes 120)), None. eexists. vm_compute. reflexivity.
Qed.

Definition example_commands : list (clock * command) :=
  map (pair example_clock)
    [Schedule "w-1" [("serial_1", 5041)] "lab-1" "scheduler"; StartInstantiation;
     MarkReady "us-1" "cml-1"; MarkRunning; Requeue "admin" None;
     ObserveResources [] [("serial_1", 5042)]; StartCollection; StartGrading "g-1";
     RecordScore "r-1" "pass"; StartStopping None; MarkStopped; Archive "admin"].

Definition example_result : LabletSessionState * list (clock * session_event) :=
  match exec_all (H := state_root_id) example_commands example_created with
  | Ok r => r
  | Err _ => (example_created, [])
  end.

Lemma example_run_ok :
  exec_all (H := state_root_id) example_commands example_created = Ok (example_result.1, example_result.2).
Proof. vm_compute. reflexivity. Qed.

Lemma session_trail_witness : status example_result.1 = ARCHIVED /\ trail allowed_change example_result.1.
Proof.
  split; [vm_compute; reflexivity|].
  exact (session_trail (H := state_root_id) _ _ _ _ example_created_ok example_run_ok).
Defined.

Lemma session_terminates_witness : (9 + rank (status example_result.1) <= rank (status example_created))%nat.
Proof. exact (session_terminates (H := state_root_id) _ _ _ _ example_run_ok). Defined.

