(* ===== verification/LabletSessionSpec.v ===== *)
(** * Further properties of the LabletSession aggregate

    The data of reachable states, the raw subtraction of [mark_stopped], early
    archiving, timeslot extension and port drift. *)
From S2P Require Import Prelude PyData Enums Lifecycle AuditTrail LabletSessionEvents LabletSession LabletSessionProps.
Import SessionStatus.

(** Every state a session reaches carries the data its status promises:
    no start time before login, a start time and a user session while the user
    works, a grading session while grading, a worker and a lab record once
    scheduled, an end time once expired, stopped or terminated, a termination
    time exactly when terminated, and a stored duration that is exactly the
    difference of the stored end and start. *)
Theorem session_data_reachable `{RootId LabletSessionState} s0 l s evs
    (Hc : created s0) (Hr : exec_all l s0 = Ok (s, evs)) : session_data s.
Proof.
  eapply run_invariant; [exact on_session_data|exact Hr|].
  apply created_shape in Hc as (t & ts & _ & _ & _ & _ & _ & Hs & Ha & He & Hd & Ht).
  split; rewrite ?Hs, ?Ha, ?He, ?Hd, ?Ht; try done.
  - by intros [].
  - intros Hin. by apply (bool_decide_eq_true_2 _) in Hin.
Qed.

(** A stored start time that comes back naive from the document store makes
    [mark_stopped] raise TypeError from STOPPING: the event's duration is
    computed by a raw subtraction, although [_compute_duration], which the
    handler runs on the same two times, normalizes both and cannot fail. *)
Theorem mark_stopped_naive_start `{RootId LabletSessionState} c s st
    (Hs : status s = STOPPING) (Hst : started_at s = Some st)
    (Hn : dt_aware st = false) (Hc : dt_aware (now c) = true) :
  mark_stopped c s = Err dt_sub_error
  /\ exists d, compute_duration (s <| ended_at := Some (now c) |>)
               = Ok (s <| ended_at := Some (now c) |> <| duration_seconds := d |>).
Proof.
  split; [|apply compute_duration_ok]. unfold mark_stopped, validate_transition. rewrite Hs, Hst. cbn.
  unfold dt_sub, dt_compatible. by rewrite Hn, Hc.
Qed.

(** [archive] is also accepted while STOPPING, skipping STOPPED; the
    archived session then has no end time unless it expired before. *)
Theorem archive_skips_stopped `{RootId LabletSessionState} c by_ s s' evs
    (Hs : status s = STOPPING) (Hr : archive c by_ s = Ok (s', evs)) :
  status s' = ARCHIVED /\ ended_at s' = ended_at s /\ duration_seconds s' = duration_seconds s.
Proof.
  unfold archive in Hr. inv_ok. match goal with H : emit _ _ _ = _ |- _ => apply emit_ok in H as [-> Ho] end.
  by handler_cases Ho.
Qed.

(** ** Timeslots *)

Lemma Timeslot_read t : timeslot_valid t -> Timeslot_from_dict (Timeslot_to_dict t) = Ok t.
Proof. intros Hv. transitivity (Timeslot_post_init t); [by destruct t|by apply post_init_ok]. Qed.

Lemma get_timeslot_stored s t : timeslot s = Some (Timeslot_to_dict t) -> timeslot_valid t ->
  get_timeslot s = Ok (Some t).
Proof. intros Hs Hv. unfold get_timeslot, timed_get_timeslot. rewrite Hs, Timeslot_read by done. done. Qed.

(** [extend_timeslot] on a session with a stored timeslot: a new end that
    is not later is refused with ValueError and nothing changes; a later one is
    always accepted, moves only the end of the timeslot, keeps it well-formed,
    and touches neither status nor history. *)
Theorem extend_timeslot_spec `{RootId LabletSessionState} c e by_ s t
    (Hid : forall s, root_id s = Some (id s))
    (Hs : timeslot s = Some (Timeslot_to_dict t)) (Hv : timeslot_valid t)
    (Ha : dt_aware e = dt_aware (end_ t)) :
  let t' := {| start := start t; end_ := e; lead_time := lead_time t;
               teardown_buffer := teardown_buffer t |} in
  (dt_us e <= dt_us (end_ t) ->
     extend_timeslot c e by_ s = Err (ValueError "new_end must be after current timeslot_end"))
  /\ (dt_us (end_ t) < dt_us e ->
      timeslot_valid t' /\
      exists s' ev, extend_timeslot c e by_ s = Ok (s', [ev])
        /\ get_timeslot s' = Ok (Some t') /\ status s' = status s
        /\ state_history s' = state_history s).
Proof.
  intros t'. unfold extend_timeslot, timeslot_end. rewrite (get_timeslot_stored s t) by done. cbn -[emit].
  unfold dt_leb, dt_compatible. rewrite Ha, eqb_reflx. cbn -[emit]. split.
  - intros Hle. by rewrite (proj2 (Z.leb_le _ _) Hle).
  - intros Hlt. rewrite (proj2 (Z.leb_gt _ _) Hlt). cbn -[emit]. rewrite aggregate_id_ok by done.
    cbn -[emit].
    assert (timeslot_valid t') as Hv'. { destruct Hv as (? & ? & ? & ?). subst t'. repeat split; cbn; congruence || lia. }
    split; [done|]. exists (set_timeslot t' (now_upd c) s). eexists.
    split; [|split; [by apply get_timeslot_stored|by split]].
    unfold emit, on, on_TimeslotExtended. rewrite (get_timeslot_stored s t) by done. cbn -[get_timeslot].
    unfold extend, dt_leb, dt_compatible. rewrite Ha, eqb_reflx. cbn.
    rewrite (proj2 (Z.leb_gt _ _) Hlt). cbn. unfold mk_timeslot.
    fold t'. rewrite (proj2 (post_init_ok t' t') (conj eq_refl Hv')). reflexivity.
Qed.

(** ** Port drift *)

(** Two allocations differ at some name. *)
Definition ports_differ (allocated observed : dict Z) : Prop :=
  exists name, dict_get name allocated <> dict_get name observed.

Lemma missing_in_spec d d' name n : NoDup (dict_keys d) ->
  (name, n) ∈ missing_in d d' <-> dict_get name d = Some n /\ dict_get name d' = None.
Proof.
  intros Hnd. unfold missing_in. rewrite list_elem_of_In, filter_In, <- list_elem_of_In.
  unfold dict_mem. split.
  - intros [Hin Hm]. split; [by apply dict_elem_get|]. by destruct (dict_get name d').
  - intros [Hg Hm]. split; [by apply dict_get_elem|]. by rewrite Hm.
Qed.

Lemma changed_in_spec d d' name a o : NoDup (dict_keys d) ->
  (name, (a, o)) ∈ changed_in d d' <-> dict_get name d = Some a /\ dict_get name d' = Some o /\ a <> o.
Proof.
  intros Hnd. unfold changed_in. rewrite list_elem_of_omap. split.
  - intros ([k v] & Hin & Hx). apply (dict_elem_get k v d Hnd) in Hin.
    destruct (dict_get k d') as [o'|] eqn:Ho; [|done]. destruct (Z.eqb_spec v o'); [done|]. by simplify_eq.
  - intros (Ha & Ho & Hne). exists (name, a). split; [by apply dict_get_elem|]. rewrite Ho.
    by destruct (Z.eqb_spec a o).
Qed.

(** Drift detection: for non-empty allocations the details list exactly the
    names observed but not allocated, allocated but not observed, and bound to
    different ports, and drift is reported if and only if the two allocations
    differ at some name; when either side is empty no drift is ever reported. *)
Theorem drift_spec allocated observed
    (Ha : NoDup (dict_keys allocated)) (Ho : NoDup (dict_keys observed)) :
  let d := drift_details allocated observed in
  (allocated <> [] -> observed <> [] ->
    (forall name n, (name, n) ∈ added d <-> dict_get name observed = Some n /\ dict_get name allocated = None)
    /\ (forall name n, (name, n) ∈ removed d <-> dict_get name allocated = Some n /\ dict_get name observed = None)
    /\ (forall name a o, (name, (a, o)) ∈ changed d <->
          dict_get name allocated = Some a /\ dict_get name observed = Some o /\ a <> o)
    /\ (drift_detected d = true <-> ports_differ allocated observed))
  /\ (allocated = [] \/ observed = [] -> drift_detected d = false).
Proof.
  intros d. split.
  2: { intros [->| ->]; [done|]. subst d. by destruct allocated. }
  intros Hna Hno.
  assert (d = {| added := missing_in observed allocated; removed := missing_in allocated observed;
                 changed := changed_in allocated observed |}) as E by (by destruct allocated, observed).
  rewrite E. cbn [added removed changed].
  split; [by intros; apply missing_in_spec|]. split; [by intros; apply missing_in_spec|].
  split; [by intros; apply changed_in_spec|]. unfold ports_differ. split.
  - (* reported, so some list is non-empty *)
    intros Hd. unfold drift_detected in Hd.
    destruct (missing_in observed allocated) as [|[name n] ?] eqn:E1.
    2: { destruct (missing_in_spec observed allocated name n Ho) as [[Hg Hm] _];
           [rewrite E1; apply list_elem_of_here|]. exists name. congruence. }
    destruct (missing_in allocated observed) as [|[name n] ?] eqn:E2.
    2: { destruct (missing_in_spec allocated observed name n Ha) as [[Hg Hm] _];
           [rewrite E2; apply list_elem_of_here|]. exists name. congruence. }
    destruct (changed_in allocated observed) as [|[name [a o]] ?] eqn:E3; [done|].
    destruct (changed_in_spec allocated observed name a o Ha) as [(Hg & Hm & Hne) _];
      [rewrite E3; apply list_elem_of_here|]. exists name. congruence.
  - intros [name Hd]. unfold drift_detected.
    destruct (dict_get name allocated) as [a|] eqn:Ga, (dict_get name observed) as [o|] eqn:Go; [| | |done].
    + assert ((name, (a, o)) ∈ changed_in allocated observed) as Hin
        by (apply changed_in_spec; [done|]; repeat split; congruence).
      destruct (changed_in allocated observed); [by apply elem_of_nil in Hin|].
      by repeat case_match.
    + assert ((name, a) ∈ missing_in allocated observed) as Hin by (by apply missing_in_spec).
      destruct (missing_in allocated observed); [by apply elem_of_nil in Hin|]. by repeat case_match.
    + assert ((name, o) ∈ missing_in observed allocated) as Hin by (by apply missing_in_spec).
      destruct (missing_in observed allocated); [by apply elem_of_nil in Hin|]. by repeat case_match.
Qed.

(** ** Witnesses *)

Lemma session_data_reachable_witness : session_data example_result.1.
Proof. exact (session_data_reachable (H := state_root_id) _ _ _ _ example_created_ok example_run_ok). Defined.

(** A stopping session whose start time was read back naive. *)
Definition naive_stopping : LabletSessionState :=
  init_state (utc 0) <| status := STOPPING |> <| started_at := Some (DT 5 false) |>.

Lemma mark_stopped_naive_start_witness :
  mark_stopped (H := state_root_id) example_clock naive_stopping = Err dt_sub_error.
Proof.
  exact (proj1 (mark_stopped_naive_start (H := state_root_id) example_clock naive_stopping (DT 5 false)
                  eq_refl eq_refl eq_refl eq_refl)).
Defined.

Definition archived_early : LabletSessionState :=
  match archive (H := state_root_id) example_clock "admin" naive_stopping with
  | Ok (s, _) => s | Err _ => naive_stopping end.

Lemma archive_skips_stopped_witness : status archived_early = ARCHIVED /\ ended_at archived_early = None.
Proof.
  destruct (archive_skips_stopped (H := state_root_id) example_clock "admin" naive_stopping archived_early
              [Archived {| Archived_aggregate_id := ""; Archived_archived_at := utc 50;
                           Archived_archived_by := "admin" |}] eq_refl eq_refl) as (E1 & E2 & _).
  split; [exact E1|exact E2].
Defined.

Definition example_slot : Timeslot :=
  {| start := utc 100; end_ := utc 200; lead_time := 10; teardown_buffer := 5 |}.
Definition slotted_session : LabletSessionState := set_timeslot example_slot (utc 1) (init_state (utc 0)).

Lemma extend_timeslot_spec_witness :
  extend_timeslot (H := state_root_id) example_clock (utc 150) "alice" slotted_session
    = Err (ValueError "new_end must be after current timeslot_end").
Proof.
  refine (proj1 (extend_timeslot_spec (H := state_root_id) example_clock (utc 150) "alice" slotted_session
                   example_slot (fun _ => eq_refl) eq_refl _ eq_refl) _).
  - repeat split; cbn; lia.
  - cbn. lia.
Defined.

Lemma drift_spec_witness : drift_detected (drift_details [("a", 1)] [("a", 2)]) = true.
Proof.
  refine (proj2 (proj2 (proj2 (proj2 (proj1 (drift_spec [("a", 1)] [("a", 2)] _ _) _ _)))) _).
  - apply (bool_decide_unpack _). reflexivity.
  - apply (bool_decide_unpack _). reflexivity.
  - discriminate.
  - discriminate.
  - exists "a". discriminate.
Defined.
