(* ===== verification/LabRecordEvents.v ===== *)
(** * LabRecord domain events ([control-plane-api/domain/events/lab_record_events.py])

    One record per event dataclass, with the aggregate identifier the constructor
    stores and the dataclass's fields in order, and the type of all of them. *)
From S2P Require Import Prelude PyData.

Record LabRecordCreatedDomainEvent := {
  Created_aggregate_id : string;
  Created_worker_id : string;
  Created_lab_id : string;
  Created_title : option string;
  Created_description : option string;
  Created_notes : option string;
  Created_state : string;
  Created_owner_username : option string;
  Created_owner_fullname : option string;
  Created_node_count : Z;
  Created_link_count : Z;
  Created_groups : option (list string);
  Created_cml_created_at : option datetime;
  Created_cml_modified_at : option datetime;
  Created_first_seen_at : datetime
}.

Record LabRecordUpdatedDomainEvent := {
  Updated_aggregate_id : string;
  Updated_lab_id : string;
  Updated_title : option string;
  Updated_description : option string;
  Updated_notes : option string;
  Updated_state : string;
  Updated_owner_username : option string;
  Updated_owner_fullname : option string;
  Updated_node_count : Z;
  Updated_link_count : Z;
  Updated_groups : option (list string);
  Updated_cml_modified_at : option datetime;
  Updated_synced_at : datetime
}.

Record LabStateChangedDomainEvent := {
  StateChanged_aggregate_id : string;
  StateChanged_lab_id : string;
  StateChanged_previous_state : string;
  StateChanged_new_state : string;
  StateChanged_changed_fields : pydict;
  StateChanged_changed_at : datetime
}.

Record LabActionRequestedDomainEvent := {
  ActionRequested_aggregate_id : string;
  ActionRequested_lab_id : string;
  ActionRequested_worker_id : string;
  ActionRequested_action : string;
  ActionRequested_requested_at : datetime
}.

Record LabActionCompletedDomainEvent := {
  ActionCompleted_aggregate_id : string;
  ActionCompleted_lab_id : string;
  ActionCompleted_action : string;
  ActionCompleted_completed_at : datetime
}.

Record LabActionFailedDomainEvent := {
  ActionFailed_aggregate_id : string;
  ActionFailed_lab_id : string;
  ActionFailed_action : string;
  ActionFailed_error_message : string;
  ActionFailed_failed_at : datetime
}.

Record LabActionClearedDomainEvent := {
  ActionCleared_aggregate_id : string;
  ActionCleared_lab_id : string;
  ActionCleared_action : string;
  ActionCleared_cleared_at : datetime
}.

Record LabRecordDiscoveredDomainEvent := {
  Discovered_aggregate_id : string;
  Discovered_worker_id : string;
  Discovered_lab_id : string;
  Discovered_title : option string;
  Discovered_description : option string;
  Discovered_notes : option string;
  Discovered_state : string;
  Discovered_owner_username : option string;
  Discovered_node_count : Z;
  Discovered_link_count : Z;
  Discovered_worker_ip : option string;
  Discovered_discovered_at : datetime;
  Discovered_based_on_definition_id : option string
}.

Record LabRecordImportedDomainEvent := {
  Imported_aggregate_id : string;
  Imported_worker_id : string;
  Imported_lab_id : string;
  Imported_title : option string;
  Imported_topology_checksum : string;
  Imported_imported_by : string;
  Imported_imported_at : datetime
}.

Record LabRecordStartedDomainEvent := {
  Started_aggregate_id : string;
  Started_lab_id : string;
  Started_started_at : datetime;
  Started_started_by : string
}.

Record LabRecordStoppedDomainEvent := {
  Stopped_aggregate_id : string;
  Stopped_lab_id : string;
  Stopped_stopped_at : datetime;
  Stopped_stop_reason : option string
}.

Record LabRecordWipedDomainEvent := {
  Wiped_aggregate_id : string;
  Wiped_lab_id : string;
  Wiped_wiped_at : datetime
}.

Record LabRecordDeletedDomainEvent := {
  Deleted_aggregate_id : string;
  Deleted_lab_id : string;
  Deleted_deleted_at : datetime;
  Deleted_deleted_by : string
}.

Record LabRecordArchivedDomainEvent := {
  Archived_aggregate_id : string;
  Archived_lab_id : string;
  Archived_archived_at : datetime;
  Archived_archived_by : string
}.

Record LabRecordClonedDomainEvent := {
  Cloned_aggregate_id : string;
  Cloned_lab_id : string;
  Cloned_source_lab_record_id : string;
  Cloned_cloned_at : datetime;
  Cloned_cloned_by : string
}.

Record LabRecordRevisionCreatedDomainEvent := {
  RevisionCreated_aggregate_id : string;
  RevisionCreated_lab_id : string;
  RevisionCreated_revision : Z;
  RevisionCreated_topology_checksum : string;
  RevisionCreated_previous_checksum : option string;
  RevisionCreated_change_summary : option string;
  RevisionCreated_node_count : Z;
  RevisionCreated_link_count : Z;
  RevisionCreated_created_at : datetime
}.

Record LabRecordBoundToLabletDomainEvent := {
  BoundToLablet_aggregate_id : string;
  BoundToLablet_lab_id : string;
  BoundToLablet_lablet_session_id : string;
  BoundToLablet_binding_id : string;
  BoundToLablet_binding_role : string;
  BoundToLablet_bound_at : datetime
}.

Record LabRecordUnboundFromLabletDomainEvent := {
  UnboundFromLablet_aggregate_id : string;
  UnboundFromLablet_lab_id : string;
  UnboundFromLablet_lablet_session_id : string;
  UnboundFromLablet_binding_id : string;
  UnboundFromLablet_unbound_at : datetime
}.

Record LabRecordErrorDomainEvent := {
  Error_aggregate_id : string;
  Error_lab_id : string;
  Error_error_message : string;
  Error_previous_status : string;
  Error_occurred_at : datetime
}.

Record LabRecordOrphanedDomainEvent := {
  Orphaned_aggregate_id : string;
  Orphaned_lab_id : string;
  Orphaned_worker_id : string;
  Orphaned_orphaned_at : datetime
}.

Record LabRecordPortsAllocatedDomainEvent := {
  PortsAllocated_aggregate_id : string;
  PortsAllocated_lab_id : string;
  PortsAllocated_allocated_ports : dict Z;
  PortsAllocated_allocated_at : datetime
}.

Record PipelineRunRecordedDomainEvent := {
  PipelineRunRecorded_aggregate_id : string;
  PipelineRunRecorded_lab_id : string;
  PipelineRunRecorded_run_id : string;
  PipelineRunRecorded_pipeline_name : string;
  PipelineRunRecorded_status : string;
  PipelineRunRecorded_started_at : datetime;
  PipelineRunRecorded_completed_at : option datetime;
  PipelineRunRecorded_duration_seconds : option Z;
  PipelineRunRecorded_steps_completed : Z;
  PipelineRunRecorded_steps_failed : Z;
  PipelineRunRecorded_steps_skipped : Z;
  PipelineRunRecorded_step_results : option pydict;
  PipelineRunRecorded_error_message : option string;
  PipelineRunRecorded_triggered_by : string;
  PipelineRunRecorded_lablet_session_id : option string;
  PipelineRunRecorded_recorded_at : datetime
}.

(** A registered LabRecord event. *)
Inductive lab_event :=
| Created (event : LabRecordCreatedDomainEvent)
| Updated (event : LabRecordUpdatedDomainEvent)
| StateChanged (event : LabStateChangedDomainEvent)
| ActionRequested (event : LabActionRequestedDomainEvent)
| ActionCompleted (event : LabActionCompletedDomainEvent)
| ActionFailed (event : LabActionFailedDomainEvent)
| ActionCleared (event : LabActionClearedDomainEvent)
| Discovered (event : LabRecordDiscoveredDomainEvent)
| Imported (event : LabRecordImportedDomainEvent)
| Started (event : LabRecordStartedDomainEvent)
| Stopped (event : LabRecordStoppedDomainEvent)
| Wiped (event : LabRecordWipedDomainEvent)
| Deleted (event : LabRecordDeletedDomainEvent)
| Archived (event : LabRecordArchivedDomainEvent)
| Cloned (event : LabRecordClonedDomainEvent)
| RevisionCreated (event : LabRecordRevisionCreatedDomainEvent)
| BoundToLablet (event : LabRecordBoundToLabletDomainEvent)
| UnboundFromLablet (event : LabRecordUnboundFromLabletDomainEvent)
| Error (event : LabRecordErrorDomainEvent)
| Orphaned (event : LabRecordOrphanedDomainEvent)
| PortsAllocated (event : LabRecordPortsAllocatedDomainEvent)
| PipelineRunRecorded (event : PipelineRunRecordedDomainEvent).
