(* ===== verification/LabValues.v ===== *)
(** * Value objects of a lab record ([control-plane-api/domain/value_objects])

    Revisions, run records, runtime bindings, external interfaces and topology
    snapshots: their constructor checks, their serialization, and the canonical
    form a topology is hashed from. *)
From S2P Require Import Prelude PySort PyData Enums.

(** The [isinstance] cascade that reads a timestamp: an ISO string or a datetime,
    otherwise the [missing] value. *)
Definition read_time {A} (present : datetime -> A) (missing : A) (v : pyval) : res A :=
  match v with
  | PIso d | PTime d => Ok (present d)
  | PStr _ => Err (ValueError "Invalid isoformat string")
  | _ => Ok missing
  end.

(** ** [LabRevision] *)
Record LabRevision := {
  rev_revision : Z;
  rev_topology_checksum : string;
  rev_created_at : datetime;
  rev_created_by : string;
  rev_change_summary : option string;
  rev_node_count : Z;
  rev_link_count : Z
}.

Definition LabRevision_post_init (r : LabRevision) : res LabRevision :=
  _ ← raise_if (rev_revision r <? 1) (ValueError "revision must be >= 1");
  _ ← raise_if (negb (str_truthy (rev_topology_checksum r))) (ValueError "topology_checksum cannot be empty");
  Ok r.

Definition LabRevision_to_dict (r : LabRevision) : pydict :=
  [("revision", PInt (rev_revision r));
   ("topology_checksum", PStr (rev_topology_checksum r));
   ("created_at", PIso (rev_created_at r));
   ("created_by", PStr (rev_created_by r));
   ("change_summary", of_ostr (rev_change_summary r));
   ("node_count", PInt (rev_node_count r));
   ("link_count", PInt (rev_link_count r))].

Definition LabRevision_from_dict (t : datetime) (data : pydict) : res LabRevision :=
  created_at ← read_time id t (pd_get "created_at" data);
  revision ← dict_item "revision" data ≫= as_int;
  checksum ← dict_item "topology_checksum" data ≫= as_str;
  created_by ← as_str (pd_get_or "created_by" (PStr "system") data);
  summary ← as_ostr (pd_get "change_summary" data);
  nodes ← as_int (pd_get_or "node_count" (PInt 0) data);
  links ← as_int (pd_get_or "link_count" (PInt 0) data);
  LabRevision_post_init
    {| rev_revision := revision; rev_topology_checksum := checksum; rev_created_at := created_at;
       rev_created_by := created_by; rev_change_summary := summary;
       rev_node_count := nodes; rev_link_count := links |}.

(** ** [LabRunRecord] *)
Record LabRunRecord := {
  run_id : string;
  run_started_at : datetime;
  run_stopped_at : option datetime;
  run_duration_seconds : option Z;
  run_started_by : string;
  run_stop_reason : option string;
  run_lablet_session_id : option string;
  run_final_state : option string
}.

Definition LabRunRecord_post_init (r : LabRunRecord) : res LabRunRecord :=
  _ ← raise_if (negb (str_truthy (run_id r))) (ValueError "run_id cannot be empty"); Ok r.

Definition run_is_running (r : LabRunRecord) : bool := bool_decide (run_stopped_at r = None).

(** Whole seconds from the start to the stop, or to the time [t] of the call. *)
Definition calculated_duration_seconds (t : datetime) (r : LabRunRecord) : res Z :=
  d ← dt_sub (default t (run_stopped_at r)) (run_started_at r); Ok (Z.quot d (seconds 1)).

Definition LabRunRecord_to_dict (r : LabRunRecord) : pydict :=
  [("run_id", PStr (run_id r));
   ("started_at", PIso (run_started_at r));
   ("stopped_at", of_otime (run_stopped_at r));
   ("duration_seconds", of_oint (run_duration_seconds r));
   ("started_by", PStr (run_started_by r));
   ("stop_reason", of_ostr (run_stop_reason r));
   ("lablet_session_id", of_ostr (run_lablet_session_id r));
   ("final_state", of_ostr (run_final_state r))].

Definition LabRunRecord_from_dict (t : datetime) (data : pydict) : res LabRunRecord :=
  started_at ← read_time id t (pd_get "started_at" data);
  stopped_at ← read_time Some None (pd_get "stopped_at" data);
  rid ← dict_item "run_id" data ≫= as_str;
  duration ← as_oint (pd_get "duration_seconds" data);
  started_by ← as_str (pd_get_or "started_by" (PStr "system") data);
  reason ← as_ostr (pd_get "stop_reason" data);
  session ← as_ostr (pd_get_or "lablet_session_id" (pd_get "lablet_instance_id" data) data);
  final ← as_ostr (pd_get "final_state" data);
  LabRunRecord_post_init
    {| run_id := rid; run_started_at := started_at; run_stopped_at := stopped_at;
       run_duration_seconds := duration; run_started_by := started_by; run_stop_reason := reason;
       run_lablet_session_id := session; run_final_state := final |}.

(** ** [PipelineRunRecord] *)
Record PipelineRunRecord := {
  pr_run_id : string;
  pr_pipeline_name : string;
  pr_started_at : datetime;
  pr_completed_at : option datetime;
  pr_status : string;
  pr_step_results : option pydict;
  pr_error_message : option string;
  pr_triggered_by : string;
  pr_lablet_session_id : option string;
  pr_duration_seconds : option Z;
  pr_steps_completed : Z;
  pr_steps_failed : Z;
  pr_steps_skipped : Z
}.

Definition PipelineRunRecord_post_init (r : PipelineRunRecord) : res PipelineRunRecord :=
  _ ← raise_if (negb (str_truthy (pr_run_id r))) (ValueError "run_id cannot be empty");
  _ ← raise_if (negb (str_truthy (pr_pipeline_name r))) (ValueError "pipeline_name cannot be empty");
  Ok r.

Definition PipelineRunRecord_to_dict (r : PipelineRunRecord) : pydict :=
  [("run_id", PStr (pr_run_id r));
   ("pipeline_name", PStr (pr_pipeline_name r));
   ("started_at", PIso (pr_started_at r));
   ("completed_at", of_otime (pr_completed_at r));
   ("status", PStr (pr_status r));
   ("step_results", of_odict (pr_step_results r));
   ("error_message", of_ostr (pr_error_message r));
   ("triggered_by", PStr (pr_triggered_by r));
   ("lablet_session_id", of_ostr (pr_lablet_session_id r));
   ("duration_seconds", of_osecs (pr_duration_seconds r));
   ("steps_completed", PInt (pr_steps_completed r));
   ("steps_failed", PInt (pr_steps_failed r));
   ("steps_skipped", PInt (pr_steps_skipped r))].

Definition PipelineRunRecord_from_dict (t : datetime) (data : pydict) : res PipelineRunRecord :=
  started_at ← read_time id t (pd_get "started_at" data);
  completed_at ← read_time Some None (pd_get "completed_at" data);
  rid ← dict_item "run_id" data ≫= as_str;
  name ← as_str (pd_get_or "pipeline_name" (PStr "unknown") data);
  status ← as_str (pd_get_or "status" (PStr "completed") data);
  results ← as_odict (pd_get "step_results" data);
  error ← as_ostr (pd_get "error_message" data);
  by_ ← as_str (pd_get_or "triggered_by" (PStr "lablet-controller") data);
  session ← as_ostr (pd_get "lablet_session_id" data);
  duration ← as_osecs (pd_get "duration_seconds" data);
  completed ← as_int (pd_get_or "steps_completed" (PInt 0) data);
  failed ← as_int (pd_get_or "steps_failed" (PInt 0) data);
  skipped ← as_int (pd_get_or "steps_skipped" (PInt 0) data);
  PipelineRunRecord_post_init
    {| pr_run_id := rid; pr_pipeline_name := name; pr_started_at := started_at;
       pr_completed_at := completed_at; pr_status := status; pr_step_results := results;
       pr_error_message := error; pr_triggered_by := by_; pr_lablet_session_id := session;
       pr_duration_seconds := duration; pr_steps_completed := completed;
       pr_steps_failed := failed; pr_steps_skipped := skipped |}.

(** ** [RuntimeEnvironmentType] and [RuntimeBinding] *)
Inductive RuntimeEnvironmentType := CML | POD | K8S | BARE_METAL.

Definition RuntimeEnvironmentType_value (t : RuntimeEnvironmentType) : string :=
  match t with CML => "cml" | POD => "pod" | K8S => "k8s" | BARE_METAL => "bare_metal" end.

#[export] Instance runtime_enum : StrEnum RuntimeEnvironmentType :=
  {| enum_value := RuntimeEnvironmentType_value; enum_members := [CML; POD; K8S; BARE_METAL] |}.
#[export] Instance runtime_enum_laws : StrEnumLaws RuntimeEnvironmentType.
Proof. enum_laws. Qed.

Record RuntimeBinding := {
  rb_runtime_type : RuntimeEnvironmentType;
  rb_worker_id : string;
  rb_runtime_lab_id : string;
  rb_endpoint : option string;
  rb_extra : pydict
}.

Definition RuntimeBinding_post_init (b : RuntimeBinding) : res RuntimeBinding :=
  _ ← raise_if (negb (str_truthy (rb_worker_id b))) (ValueError "worker_id cannot be empty");
  _ ← raise_if (negb (str_truthy (rb_runtime_lab_id b))) (ValueError "runtime_lab_id cannot be empty");
  Ok b.

Definition RuntimeBinding_to_dict (b : RuntimeBinding) : pydict :=
  [("runtime_type", PStr (RuntimeEnvironmentType_value (rb_runtime_type b)));
   ("worker_id", PStr (rb_worker_id b));
   ("runtime_lab_id", PStr (rb_runtime_lab_id b));
   ("endpoint", of_ostr (rb_endpoint b));
   ("extra", PDict (rb_extra b))].

Definition RuntimeBinding_from_dict (data : pydict) : res RuntimeBinding :=
  rt ← (dict_item "runtime_type" data ≫= as_str) ≫= enum_call;
  worker ← dict_item "worker_id" data ≫= as_str;
  lab ← dict_item "runtime_lab_id" data ≫= as_str;
  endpoint ← as_ostr (pd_get "endpoint" data);
  extra ← as_dict (pd_get_or "extra" (PDict []) data);
  RuntimeBinding_post_init
    {| rb_runtime_type := rt; rb_worker_id := worker; rb_runtime_lab_id := lab;
       rb_endpoint := endpoint; rb_extra := extra |}.

Definition for_cml (worker lab : string) : res RuntimeBinding :=
  RuntimeBinding_post_init
    {| rb_runtime_type := CML; rb_worker_id := worker; rb_runtime_lab_id := lab;
       rb_endpoint := None; rb_extra := [] |}.

(** ** [ExternalInterface] *)
Record ExternalInterface := {
  ei_node_label : string;
  ei_protocol : string;
  ei_port : Z;
  ei_host : option string;
  ei_password : option string
}.

Definition ExternalInterface_post_init (e : ExternalInterface) : res ExternalInterface :=
  _ ← raise_if (negb (str_truthy (ei_node_label e))) (ValueError "node_label cannot be empty");
  _ ← raise_if (negb (str_truthy (ei_protocol e))) (ValueError "protocol cannot be empty");
  _ ← raise_if ((ei_port e <? 1) || (65535 <? ei_port e))
        (ValueError ("port must be between 1 and 65535, got " +:+ pretty (ei_port e)));
  Ok e.

Definition ExternalInterface_to_dict (e : ExternalInterface) : pydict :=
  [("node_label", PStr (ei_node_label e)); ("protocol", PStr (ei_protocol e));
   ("port", PInt (ei_port e)); ("host", of_ostr (ei_host e));
   ("password", of_ostr (ei_password e))].

Definition ExternalInterface_from_dict (data : pydict) : res ExternalInterface :=
  label ← dict_item "node_label" data ≫= as_str;
  protocol ← dict_item "protocol" data ≫= as_str;
  port ← dict_item "port" data ≫= as_int;
  host ← as_ostr (pd_get "host" data);
  password ← as_ostr (pd_get "password" data);
  ExternalInterface_post_init
    {| ei_node_label := label; ei_protocol := protocol; ei_port := port; ei_host := host;
       ei_password := password |}.

(** ** Topology snapshots *)
Record TopologyNode := {
  tn_label : string;
  tn_node_definition : string;
  tn_x : Z;
  tn_y : Z;
  tn_tags : dict string;
  tn_configuration : option string
}.

Definition TopologyNode_to_dict (n : TopologyNode) : pydict :=
  [("label", PStr (tn_label n)); ("node_definition", PStr (tn_node_definition n));
   ("x", PInt (tn_x n)); ("y", PInt (tn_y n)); ("tags", of_strs (tn_tags n));
   ("configuration", of_ostr (tn_configuration n))].

Definition TopologyNode_from_dict (data : pydict) : res TopologyNode :=
  label ← dict_item "label" data ≫= as_str;
  def ← dict_item "node_definition" data ≫= as_str;
  x ← as_int (pd_get_or "x" (PInt 0) data);
  y ← as_int (pd_get_or "y" (PInt 0) data);
  tags ← as_strs (pd_get_or "tags" (PDict []) data);
  conf ← as_ostr (pd_get "configuration" data);
  Ok {| tn_label := label; tn_node_definition := def; tn_x := x; tn_y := y; tn_tags := tags;
        tn_configuration := conf |}.

Record TopologyLink := {
  tl_source_node : string;
  tl_source_interface : string;
  tl_target_node : string;
  tl_target_interface : string;
  tl_label : option string
}.

Definition TopologyLink_to_dict (l : TopologyLink) : pydict :=
  [("source_node", PStr (tl_source_node l)); ("source_interface", PStr (tl_source_interface l));
   ("target_node", PStr (tl_target_node l)); ("target_interface", PStr (tl_target_interface l));
   ("label", of_ostr (tl_label l))].

Definition TopologyLink_from_dict (data : pydict) : res TopologyLink :=
  sn ← dict_item "source_node" data ≫= as_str;
  si ← dict_item "source_interface" data ≫= as_str;
  tn ← dict_item "target_node" data ≫= as_str;
  ti ← dict_item "target_interface" data ≫= as_str;
  label ← as_ostr (pd_get "label" data);
  Ok {| tl_source_node := sn; tl_source_interface := si; tl_target_node := tn;
        tl_target_interface := ti; tl_label := label |}.

Record TopologyAnnotation := {
  ta_text : string;
  ta_x : Z;
  ta_y : Z;
  ta_annotation_type : string
}.

Definition TopologyAnnotation_to_dict (a : TopologyAnnotation) : pydict :=
  [("text", PStr (ta_text a)); ("x", PInt (ta_x a)); ("y", PInt (ta_y a));
   ("annotation_type", PStr (ta_annotation_type a))].

Definition TopologyAnnotation_from_dict (data : pydict) : res TopologyAnnotation :=
  text ← dict_item "text" data ≫= as_str;
  x ← as_int (pd_get_or "x" (PInt 0) data);
  y ← as_int (pd_get_or "y" (PInt 0) data);
  ty ← as_str (pd_get_or "annotation_type" (PStr "text") data);
  Ok {| ta_text := text; ta_x := x; ta_y := y; ta_annotation_type := ty |}.

Record LabTopologySpec := {
  ts_version : option string;
  ts_title : option string;
  ts_description : option string;
  ts_nodes : list TopologyNode;
  ts_links : list TopologyLink;
  ts_annotations : list TopologyAnnotation;
  ts_metadata : pydict;
  ts_raw_yaml : option string
}.

Definition ts_node_count (t : LabTopologySpec) : Z := Z.of_nat (length (ts_nodes t)).
Definition ts_link_count (t : LabTopologySpec) : Z := Z.of_nat (length (ts_links t)).

Definition LabTopologySpec_to_dict (t : LabTopologySpec) : pydict :=
  [("version", of_ostr (ts_version t)); ("title", of_ostr (ts_title t));
   ("description", of_ostr (ts_description t));
   ("nodes", PList (map (fun n => PDict (TopologyNode_to_dict n)) (ts_nodes t)));
   ("links", PList (map (fun l => PDict (TopologyLink_to_dict l)) (ts_links t)));
   ("annotations", PList (map (fun a => PDict (TopologyAnnotation_to_dict a)) (ts_annotations t)));
   ("metadata", PDict (ts_metadata t));
   ("raw_yaml", of_ostr (ts_raw_yaml t))].

Definition LabTopologySpec_from_dict (data : pydict) : res LabTopologySpec :=
  version ← as_ostr (pd_get "version" data);
  title ← as_ostr (pd_get "title" data);
  description ← as_ostr (pd_get "description" data);
  nodes ← as_list (pd_get_or "nodes" (PList []) data) ≫= mapM (fun v => as_dict v ≫= TopologyNode_from_dict);
  links ← as_list (pd_get_or "links" (PList []) data) ≫= mapM (fun v => as_dict v ≫= TopologyLink_from_dict);
  annotations ← as_list (pd_get_or "annotations" (PList []) data)
                  ≫= mapM (fun v => as_dict v ≫= TopologyAnnotation_from_dict);
  metadata ← as_dict (pd_get_or "metadata" (PDict []) data);
  raw ← as_ostr (pd_get "raw_yaml" data);
  Ok {| ts_version := version; ts_title := title; ts_description := description;
        ts_nodes := nodes; ts_links := links; ts_annotations := annotations;
        ts_metadata := metadata; ts_raw_yaml := raw |}.

(** *** The checksum

    [digest] is the SHA-256 of the JSON text of the canonical form: nodes sorted
    by label, links by source, tags by name (JSON's [sort_keys]). *)
Record canonical := {
  cn_version : option string;
  cn_nodes : list (string * string * dict string);
  cn_links : list (string * string * (string * string))
}.

Definition canonical_of (t : LabTopologySpec) : canonical := {|
  cn_version := ts_version t;
  cn_nodes := sort_by str_ltb (fun n => n.1.1)
                (map (fun n => (tn_label n, tn_node_definition n, sort_by str_ltb fst (tn_tags n))) (ts_nodes t));
  cn_links := sort_by str2_ltb fst
                (map (fun l => (tl_source_node l, tl_source_interface l,
                                (tl_target_node l, tl_target_interface l))) (ts_links t))
|}.

Definition checksum (digest : canonical -> string) (t : LabTopologySpec) : string := digest (canonical_of t).

(** * Theorems *)

Lemma read_otime_of o : read_time Some None (of_otime o) = Ok o. Proof. by destruct o. Qed.

Lemma TopologyNode_of_to_dict n : TopologyNode_from_dict (TopologyNode_to_dict n) = Ok n.
Proof.
  destruct n as [l d x y tags conf]. unfold TopologyNode_from_dict, TopologyNode_to_dict.
  cbn -[as_strs of_strs as_ostr of_ostr]. rewrite as_strs_of. cbn -[as_ostr of_ostr]. by rewrite as_ostr_of.
Qed.

Lemma TopologyLink_of_to_dict n : TopologyLink_from_dict (TopologyLink_to_dict n) = Ok n.
Proof. by destruct n as [? ? ? ? []]. Qed.

Lemma TopologyAnnotation_of_to_dict n : TopologyAnnotation_from_dict (TopologyAnnotation_to_dict n) = Ok n.
Proof. by destruct n. Qed.

Lemma LabRevision_of_to_dict t r : LabRevision_from_dict t (LabRevision_to_dict r) = LabRevision_post_init r.
Proof. by destruct r as [? ? ? ? [] ? ?]. Qed.

(** Reading back what [to_dict] wrote gives the same value object, subject
    only to the constructor's own checks: for revisions, run records, pipeline
    runs, runtime bindings and external interfaces the checks decide, and a
    topology snapshot always survives unchanged. *)
Theorem lab_values_roundtrip t :
  (forall r, LabRevision_from_dict t (LabRevision_to_dict r) = LabRevision_post_init r)
  /\ (forall r, LabRunRecord_from_dict t (LabRunRecord_to_dict r) = LabRunRecord_post_init r)
  /\ (forall r, PipelineRunRecord_from_dict t (PipelineRunRecord_to_dict r) = PipelineRunRecord_post_init r)
  /\ (forall b, RuntimeBinding_from_dict (RuntimeBinding_to_dict b) = RuntimeBinding_post_init b)
  /\ (forall e, ExternalInterface_from_dict (ExternalInterface_to_dict e) = ExternalInterface_post_init e)
  /\ (forall s, LabTopologySpec_from_dict (LabTopologySpec_to_dict s) = Ok s).
Proof.
  split; [intros; apply LabRevision_of_to_dict|]. split; [by intros [? ? [] [] ? [] [] []]|].
  split; [by intros [? ? ? [] ? [] [] ? [] [] ? ? ?]|]. split; [by intros [[] ? ? [] ?]|].
  split; [by intros [? ? ? [] []]|].
  intros [v ti de ns ls an md ry]. unfold LabTopologySpec_from_dict, LabTopologySpec_to_dict, pd_get, pd_get_or.
  cbn -[mapM as_ostr of_ostr TopologyNode_to_dict TopologyLink_to_dict TopologyAnnotation_to_dict].
  rewrite !as_ostr_of.
  rewrite (mapM_to_dict _ _ ns TopologyNode_of_to_dict), (mapM_to_dict _ _ ls TopologyLink_of_to_dict),
    (mapM_to_dict _ _ an TopologyAnnotation_of_to_dict). reflexivity.
Qed.

(** Two snapshots list the same nodes and links, in any order, with the tags of
    a node in any order. *)
Definition same_node (n n' : TopologyNode) : Prop :=
  tn_label n = tn_label n' /\ tn_node_definition n = tn_node_definition n' /\ tn_tags n ≡ₚ tn_tags n'.
Definition same_link (l l' : TopologyLink) : Prop :=
  tl_source_node l = tl_source_node l' /\ tl_source_interface l = tl_source_interface l'
  /\ tl_target_node l = tl_target_node l' /\ tl_target_interface l = tl_target_interface l'.

Record same_topology (t t' : LabTopologySpec) : Prop := {
  same_version : ts_version t = ts_version t';
  same_nodes : exists ns, ns ≡ₚ ts_nodes t' /\ Forall2 same_node (ts_nodes t) ns;
  same_links : exists ls, ls ≡ₚ ts_links t' /\ Forall2 same_link (ts_links t) ls
}.

(** The checksum is independent of the order of nodes, links and tags,
    and of titles, positions, configurations, annotations and YAML text: two
    snapshots with the same nodes and links hash alike, provided node labels,
    link sources and tag names are distinct within a snapshot. *)
Theorem checksum_order_independent digest t t'
    (Hn : NoDup (map tn_label (ts_nodes t)))
    (Hl : NoDup (map (fun l => (tl_source_node l, tl_source_interface l)) (ts_links t)))
    (Ht : Forall (fun n => NoDup (dict_keys (tn_tags n))) (ts_nodes t))
    (Hs : same_topology t t') :
  checksum digest t = checksum digest t'.
Proof.
  destruct Hs as [Hv (ns & Hpn & Hfn) (ls & Hpl & Hfl)]. unfold checksum, canonical_of. f_equal.
  set (fn := fun n => (tn_label n, tn_node_definition n, sort_by str_ltb fst (tn_tags n))).
  set (fl := fun l => (tl_source_node l, tl_source_interface l, (tl_target_node l, tl_target_interface l))).
  assert (map fn (ts_nodes t) = map fn ns) as En.
  { clear -Hfn Ht. induction Hfn as [|n n' l l' (E1 & E2 & E3) _ IH]; cbn; [done|].
    apply Forall_cons in Ht as [Hd Ht]. rewrite IH by done. unfold fn. rewrite E1, E2.
    by rewrite (sort_by_unique str_ltb fst _ _ Hd E3). }
  assert (map fl (ts_links t) = map fl ls) as El.
  { clear -Hfl. induction Hfl as [|l l' q q' (E1 & E2 & E3 & E4) _ IH]; cbn; [done|].
    rewrite IH. unfold fl. by rewrite E1, E2, E3, E4. }
  f_equal; [done| |].
  - apply sort_by_unique; [exact _| |by rewrite En, Hpn]. by rewrite map_map.
  - apply sort_by_unique; [exact _| |by rewrite El, Hpl]. by rewrite map_map.
Qed.

Definition tnode (l : string) : TopologyNode :=
  {| tn_label := l; tn_node_definition := "iosv"; tn_x := 0; tn_y := 0; tn_tags := []; tn_configuration := None |}.
Definition topo (ns : list TopologyNode) : LabTopologySpec :=
  {| ts_version := None; ts_title := None; ts_description := None; ts_nodes := ns; ts_links := [];
     ts_annotations := []; ts_metadata := []; ts_raw_yaml := None |}.

Lemma checksum_order_independent_witness :
  checksum (fun c => py_join "," (map (fun n => n.1.1) (cn_nodes c))) (topo [tnode "b"; tnode "a"])
  = checksum (fun c => py_join "," (map (fun n => n.1.1) (cn_nodes c))) (topo [tnode "a"; tnode "b"]).
Proof.
  apply checksum_order_independent.
  - apply (bool_decide_unpack _). reflexivity.
  - apply NoDup_nil_2.
  - repeat constructor.
  - split; [reflexivity| |].
    + exists [tnode "b"; tnode "a"]. split; [apply Permutation_swap|]. repeat constructor.
    + exists []. split; constructor.
Defined.
