(* ===== verification/LabRecord.v ===== *)
(** * The LabRecord aggregate ([control-plane-api/domain/entities/lab_record.py])

    The persisted state, one handler per domain event ([on_...], dispatched by
    [on]), and the command methods of the aggregate root, as in
    [LabletSession].  The state left by a handler that raises part-way is not
    modelled: the caller drops the aggregate.  Theorems are in [LabRecordProps]. *)
From S2P Require Import Prelude PyData Enums Lifecycle LabRecordEvents LabValues.
Import LabStatus.

(** ** State *)
Record LabRecordState := {
  id : string;
  resource_type : string;
  owner_id : string;
  desired_status : option string;
  worker_id : string;
  lab_id : string;
  worker_ip : option string;
  status : LabRecordStatus;
  state_history : list pydict;
  title : option string;
  description : option string;
  notes : option string;
  state : option string;
  owner_username : option string;
  owner_fullname : option string;
  node_count : Z;
  link_count : Z;
  groups : list string;
  runtime_binding : option pydict;
  topology_spec : option pydict;
  external_interfaces : list pydict;
  revision : Z;
  revision_history : list pydict;
  run_history_v2 : list pydict;
  max_run_history_size : Z;
  pipeline_run_history : list pydict;
  pipeline_progress : option pydict;
  source : string;
  based_on_definition_id : option string;
  cml_created_at : option datetime;
  modified_at : option datetime;
  last_synced_at : option datetime;
  first_seen_at : option datetime;
  allocated_ports : option (dict Z);
  active_lablet_session_id : option string;
  active_binding_id : option string;
  is_clean : bool;
  node_stats : option pydict;
  link_stats : option pydict;
  stats_collected_at : option string;
  pending_action : option string;
  pending_action_at : option datetime;
  pending_action_error : option string;
  last_error : option string;
  last_error_at : option datetime;
  previous_status_before_error : option string;
  created_at : datetime;
  updated_at : datetime
}.

#[export] Instance eta_lab : Eta LabRecordState := fun s => {|
  id := s.(id);
  resource_type := s.(resource_type);
  owner_id := s.(owner_id);
  desired_status := s.(desired_status);
  worker_id := s.(worker_id);
  lab_id := s.(lab_id);
  worker_ip := s.(worker_ip);
  status := s.(status);
  state_history := s.(state_history);
  title := s.(title);
  description := s.(description);
  notes := s.(notes);
  state := s.(state);
  owner_username := s.(owner_username);
  owner_fullname := s.(owner_fullname);
  node_count := s.(node_count);
  link_count := s.(link_count);
  groups := s.(groups);
  runtime_binding := s.(runtime_binding);
  topology_spec := s.(topology_spec);
  external_interfaces := s.(external_interfaces);
  revision := s.(revision);
  revision_history := s.(revision_history);
  run_history_v2 := s.(run_history_v2);
  max_run_history_size := s.(max_run_history_size);
  pipeline_run_history := s.(pipeline_run_history);
  pipeline_progress := s.(pipeline_progress);
  source := s.(source);
  based_on_definition_id := s.(based_on_definition_id);
  cml_created_at := s.(cml_created_at);
  modified_at := s.(modified_at);
  last_synced_at := s.(last_synced_at);
  first_seen_at := s.(first_seen_at);
  allocated_ports := s.(allocated_ports);
  active_lablet_session_id := s.(active_lablet_session_id);
  active_binding_id := s.(active_binding_id);
  is_clean := s.(is_clean);
  node_stats := s.(node_stats);
  link_stats := s.(link_stats);
  stats_collected_at := s.(stats_collected_at);
  pending_action := s.(pending_action);
  pending_action_at := s.(pending_action_at);
  pending_action_error := s.(pending_action_error);
  last_error := s.(last_error);
  last_error_at := s.(last_error_at);
  previous_status_before_error := s.(previous_status_before_error);
  created_at := s.(created_at);
  updated_at := s.(updated_at)
|}.

(** [LabRecordState.__init__], with the clock readings of the base class. *)
Definition init_state (t_created t_updated : datetime) : LabRecordState := {|
  id := ""; resource_type := "lab_record"; owner_id := ""; desired_status := None; worker_id := "";
  lab_id := ""; worker_ip := None; status := DISCOVERED; state_history := []; title := None;
  description := None; notes := None; state := None; owner_username := None; owner_fullname := None;
  node_count := 0; link_count := 0; groups := []; runtime_binding := None; topology_spec := None;
  external_interfaces := []; revision := 1; revision_history := []; run_history_v2 := [];
  max_run_history_size := 50; pipeline_run_history := []; pipeline_progress := None; source :=
  "discovery"; based_on_definition_id := None; cml_created_at := None; modified_at := None;
  last_synced_at := None; first_seen_at := None; allocated_ports := None; active_lablet_session_id
  := None; active_binding_id := None; is_clean := true; node_stats := None; link_stats := None;
  stats_collected_at := None; pending_action := None; pending_action_at := None;
  pending_action_error := None; last_error := None; last_error_at := None;
  previous_status_before_error := None; created_at := t_created; updated_at := t_updated
|}.

(** [_record_transition] *)
Definition record_transition (c : clock) (from_state : option string) (to_state triggered_by : string)
    (reason : option string) (s : LabRecordState) : LabRecordState :=
  let transition := {|
    st_from_state := from_state; st_to_state := to_state;
    st_transitioned_at := c.(now_hist); st_triggered_by := triggered_by;
    st_reason := reason; st_metadata := None |} in
  s <| state_history := s.(state_history) ++ [StateTransition_to_dict transition] |>
    <| updated_at := c.(now_upd) |>.

(** [self.status = to; self._record_transition(old_status.value, to.value, ...)] *)
Definition set_status (c : clock) (old_status to : LabRecordStatus) (triggered_by reason : string)
    (s : LabRecordState) : LabRecordState :=
  record_transition c (Some (LabRecordStatus_value old_status)) (LabRecordStatus_value to)
    triggered_by (Some reason) (s <| status := to |>).

(** [CML_STATE_TO_LAB_RECORD_STATUS.get(raw, d)] *)
Definition status_of_cml (raw : string) (d : LabRecordStatus) : LabRecordStatus :=
  dict_get_or raw d CML_STATE_TO_LAB_RECORD_STATUS.

(** The end of the two sync handlers: map the raw state to a status and record a
    transition if the status changed. *)
Definition sync_status (c : clock) (old_status : LabRecordStatus) (raw reason : string)
    (s : LabRecordState) : LabRecordState :=
  let s := s <| status := status_of_cml raw s.(status) |> in
  if bool_decide (s.(status) <> old_status) then
    record_transition c (Some (LabRecordStatus_value old_status)) (LabRecordStatus_value s.(status))
      "cml-sync" (Some reason) s
  else s.

(** [l[-m:]] *)
Definition py_tail {A} (m : Z) (l : list A) : list A :=
  if 0 <? m then last_n (Z.to_nat m) l else drop (Z.to_nat (- m)) l.

(** Append, then keep the newest [m] entries when there are more than [m]. *)
Definition append_bounded {A} (m : Z) (l : list A) (x : A) : list A :=
  let l := l ++ [x] in
  if m <? Z.of_nat (length l) then py_tail m l else l.

(** ** Event handlers *)

Definition on_Created (c : clock) (event : LabRecordCreatedDomainEvent) (s : LabRecordState)
    : res LabRecordState :=
  let s := s <| id := event.(Created_aggregate_id) |>
             <| worker_id := event.(Created_worker_id) |>
             <| lab_id := event.(Created_lab_id) |>
             <| title := event.(Created_title) |>
             <| description := event.(Created_description) |>
             <| notes := event.(Created_notes) |>
             <| state := Some event.(Created_state) |>
             <| owner_username := event.(Created_owner_username) |>
             <| owner_fullname := event.(Created_owner_fullname) |>
             <| node_count := event.(Created_node_count) |>
             <| link_count := event.(Created_link_count) |>
             <| groups := default [] event.(Created_groups) |>
             <| cml_created_at := event.(Created_cml_created_at) |>
             <| modified_at := event.(Created_cml_modified_at) |>
             <| first_seen_at := Some event.(Created_first_seen_at) |>
             <| last_synced_at := Some event.(Created_first_seen_at) |>
             <| status := status_of_cml event.(Created_state) DISCOVERED |> in
  b ← for_cml event.(Created_worker_id) event.(Created_lab_id);
  let s := s <| runtime_binding := Some (RuntimeBinding_to_dict b) |>
             <| source := "discovery" |> in
  Ok (record_transition c None (LabRecordStatus_value s.(status)) "system"
        (Some "Lab record created from CML data") s).

Definition on_Updated (c : clock) (event : LabRecordUpdatedDomainEvent) (s : LabRecordState)
    : res LabRecordState :=
  let old_status := s.(status) in
  let s := s <| title := event.(Updated_title) |>
             <| description := event.(Updated_description) |>
             <| notes := event.(Updated_notes) |>
             <| state := Some event.(Updated_state) |>
             <| owner_username := event.(Updated_owner_username) |>
             <| owner_fullname := event.(Updated_owner_fullname) |>
             <| node_count := event.(Updated_node_count) |>
             <| link_count := event.(Updated_link_count) |>
             <| groups := default [] event.(Updated_groups) |>
             <| modified_at := event.(Updated_cml_modified_at) |>
             <| last_synced_at := Some event.(Updated_synced_at) |> in
  Ok (sync_status c old_status event.(Updated_state)
        ("Updated from CML state '" +:+ event.(Updated_state) +:+ "'") s).

Definition on_StateChanged (c : clock) (event : LabStateChangedDomainEvent) (s : LabRecordState)
    : res LabRecordState :=
  let old_status := s.(status) in
  let s := s <| state := Some event.(StateChanged_new_state) |> in
  Ok (sync_status c old_status event.(StateChanged_new_state)
        ("CML state changed from '" +:+ event.(StateChanged_previous_state) +:+ "' to '"
           +:+ event.(StateChanged_new_state) +:+ "'") s).

Definition on_ActionRequested (event : LabActionRequestedDomainEvent) (s : LabRecordState)
    : res LabRecordState :=
  Ok (s <| pending_action := Some event.(ActionRequested_action) |>
        <| pending_action_at := Some event.(ActionRequested_requested_at) |>
        <| pending_action_error := None |>).

Definition on_ActionCompleted (event : LabActionCompletedDomainEvent) (s : LabRecordState)
    : res LabRecordState :=
  Ok (s <| pending_action := None |> <| pending_action_at := None |> <| pending_action_error := None |>).

Definition on_ActionFailed (event : LabActionFailedDomainEvent) (s : LabRecordState)
    : res LabRecordState :=
  Ok (s <| pending_action := None |> <| pending_action_at := None |>
        <| pending_action_error := Some event.(ActionFailed_error_message) |>).

Definition on_ActionCleared (event : LabActionClearedDomainEvent) (s : LabRecordState)
    : res LabRecordState :=
  Ok (s <| pending_action := None |> <| pending_action_at := None |> <| pending_action_error := None |>).

Definition on_Discovered (c : clock) (event : LabRecordDiscoveredDomainEvent) (s : LabRecordState)
    : res LabRecordState :=
  let s := s <| id := event.(Discovered_aggregate_id) |>
             <| worker_id := event.(Discovered_worker_id) |>
             <| lab_id := event.(Discovered_lab_id) |>
             <| title := event.(Discovered_title) |>
             <| description := event.(Discovered_description) |>
             <| notes := event.(Discovered_notes) |>
             <| state := Some event.(Discovered_state) |>
             <| owner_username := event.(Discovered_owner_username) |>
             <| node_count := event.(Discovered_node_count) |>
             <| link_count := event.(Discovered_link_count) |>
             <| worker_ip := event.(Discovered_worker_ip) |>
             <| first_seen_at := Some event.(Discovered_discovered_at) |>
             <| last_synced_at := Some event.(Discovered_discovered_at) |>
             <| status := DISCOVERED |>
             <| source := "discovery" |>
             <| based_on_definition_id := event.(Discovered_based_on_definition_id) |> in
  b ← for_cml event.(Discovered_worker_id) event.(Discovered_lab_id);
  Ok (record_transition c None (LabRecordStatus_value DISCOVERED) "system"
        (Some "Lab discovered on worker") (s <| runtime_binding := Some (RuntimeBinding_to_dict b) |>)).

Definition on_Imported (c : clock) (event : LabRecordImportedDomainEvent) (s : LabRecordState)
    : res LabRecordState :=
  let old_status := s.(status) in
  let s := s <| lab_id := event.(Imported_lab_id) |>
             <| title := event.(Imported_title) |>
             <| status := DEFINED |>
             <| source := "import" |>
             <| last_synced_at := Some event.(Imported_imported_at) |> in
  b ← for_cml event.(Imported_worker_id) event.(Imported_lab_id);
  let s := s <| runtime_binding := Some (RuntimeBinding_to_dict b) |> in
  initial_rev ← LabRevision_post_init
    {| rev_revision := 1; rev_topology_checksum := event.(Imported_topology_checksum);
       rev_created_at := event.(Imported_imported_at); rev_created_by := event.(Imported_imported_by);
       rev_change_summary := Some "Imported from YAML";
       rev_node_count := s.(node_count); rev_link_count := s.(link_count) |};
  let s := s <| revision := 1 |> <| revision_history := [LabRevision_to_dict initial_rev] |> in
  Ok (set_status c old_status DEFINED event.(Imported_imported_by) "Lab imported from YAML topology" s).

Definition on_Started (c : clock) (event : LabRecordStartedDomainEvent) (s : LabRecordState)
    : res LabRecordState :=
  Ok (set_status c s.(status) BOOTED "system" "Lab started (all nodes running)"
        (s <| state := Some "BOOTED" |>)).

Definition on_Stopped (c : clock) (event : LabRecordStoppedDomainEvent) (s : LabRecordState)
    : res LabRecordState :=
  Ok (set_status c s.(status) STOPPED "system" "Lab stopped" (s <| state := Some "STOPPED" |>)).

Definition on_Wiped (c : clock) (event : LabRecordWipedDomainEvent) (s : LabRecordState)
    : res LabRecordState :=
  Ok (set_status c s.(status) WIPED "system" "Lab wiped (nodes reset)"
        (s <| state := Some "WIPED" |> <| is_clean := true |>)).

Definition on_Deleted (c : clock) (event : LabRecordDeletedDomainEvent) (s : LabRecordState)
    : res LabRecordState :=
  Ok (set_status c s.(status) DELETED "system" "Lab deleted from runtime"
        (s <| state := Some "DELETED" |>)).

Definition on_Archived (c : clock) (event : LabRecordArchivedDomainEvent) (s : LabRecordState)
    : res LabRecordState :=
  Ok (set_status c s.(status) ARCHIVED "system" "Lab archived" (s <| state := Some "ARCHIVED" |>)).

Definition on_Cloned (c : clock) (event : LabRecordClonedDomainEvent) (s : LabRecordState)
    : res LabRecordState :=
  let s := s <| id := event.(Cloned_aggregate_id) |>
             <| lab_id := event.(Cloned_lab_id) |>
             <| source := "clone" |> in
  Ok (set_status c s.(status) DEFINED "system" "Lab cloned" (s <| state := Some "DEFINED_ON_CORE" |>)).

Definition on_RevisionCreated (event : LabRecordRevisionCreatedDomainEvent) (s : LabRecordState)
    : res LabRecordState :=
  let s := s <| revision := event.(RevisionCreated_revision) |>
             <| node_count := event.(RevisionCreated_node_count) |>
             <| link_count := event.(RevisionCreated_link_count) |> in
  new_rev ← LabRevision_post_init
    {| rev_revision := event.(RevisionCreated_revision);
       rev_topology_checksum := event.(RevisionCreated_topology_checksum);
       rev_created_at := event.(RevisionCreated_created_at); rev_created_by := "system";
       rev_change_summary := event.(RevisionCreated_change_summary);
       rev_node_count := event.(RevisionCreated_node_count);
       rev_link_count := event.(RevisionCreated_link_count) |};
  Ok (s <| revision_history := s.(revision_history) ++ [LabRevision_to_dict new_rev] |>).

Definition on_PortsAllocated (event : LabRecordPortsAllocatedDomainEvent) (s : LabRecordState)
    : res LabRecordState := Ok (s <| allocated_ports := Some event.(PortsAllocated_allocated_ports) |>).

Definition on_BoundToLablet (event : LabRecordBoundToLabletDomainEvent) (s : LabRecordState)
    : res LabRecordState :=
  Ok (s <| active_lablet_session_id := Some event.(BoundToLablet_lablet_session_id) |>
        <| active_binding_id := Some event.(BoundToLablet_binding_id) |>
        <| is_clean := false |>).

Definition on_UnboundFromLablet (event : LabRecordUnboundFromLabletDomainEvent) (s : LabRecordState)
    : res LabRecordState :=
  Ok (if bool_decide (s.(active_binding_id) = Some event.(UnboundFromLablet_binding_id))
      then s <| active_lablet_session_id := None |> <| active_binding_id := None |>
      else s).

Definition on_Error (c : clock) (event : LabRecordErrorDomainEvent) (s : LabRecordState)
    : res LabRecordState :=
  let old_status := s.(status) in
  let s := s <| previous_status_before_error := Some event.(Error_previous_status) |>
             <| last_error := Some event.(Error_error_message) |>
             <| last_error_at := Some event.(Error_occurred_at) |>
             <| state := Some "ERROR" |> in
  Ok (set_status c old_status ERROR "system" event.(Error_error_message) s).

Definition on_Orphaned (c : clock) (event : LabRecordOrphanedDomainEvent) (s : LabRecordState)
    : res LabRecordState :=
  Ok (set_status c s.(status) ORPHANED "system" "Lab orphaned (worker terminated)"
        (s <| state := Some "ORPHANED" |>)).

Definition on_PipelineRunRecorded (event : PipelineRunRecordedDomainEvent) (s : LabRecordState)
    : res LabRecordState :=
  record ← PipelineRunRecord_post_init
    {| pr_run_id := event.(PipelineRunRecorded_run_id);
       pr_pipeline_name := event.(PipelineRunRecorded_pipeline_name);
       pr_started_at := event.(PipelineRunRecorded_started_at);
       pr_completed_at := event.(PipelineRunRecorded_completed_at);
       pr_status := event.(PipelineRunRecorded_status);
       pr_step_results := event.(PipelineRunRecorded_step_results);
       pr_error_message := event.(PipelineRunRecorded_error_message);
       pr_triggered_by := event.(PipelineRunRecorded_triggered_by);
       pr_lablet_session_id := event.(PipelineRunRecorded_lablet_session_id);
       pr_duration_seconds := event.(PipelineRunRecorded_duration_seconds);
       pr_steps_completed := event.(PipelineRunRecorded_steps_completed);
       pr_steps_failed := event.(PipelineRunRecorded_steps_failed);
       pr_steps_skipped := event.(PipelineRunRecorded_steps_skipped) |};
  Ok (s <| pipeline_run_history :=
         append_bounded s.(max_run_history_size) s.(pipeline_run_history)
           (PipelineRunRecord_to_dict record) |>).

(** The [@dispatch] on the event's class. *)
Definition on (c : clock) (ev : lab_event) (s : LabRecordState) : res LabRecordState :=
  match ev with
  | Created e => on_Created c e s
  | Updated e => on_Updated c e s
  | StateChanged e => on_StateChanged c e s
  | ActionRequested e => on_ActionRequested e s
  | ActionCompleted e => on_ActionCompleted e s
  | ActionFailed e => on_ActionFailed e s
  | ActionCleared e => on_ActionCleared e s
  | Discovered e => on_Discovered c e s
  | Imported e => on_Imported c e s
  | Started e => on_Started c e s
  | Stopped e => on_Stopped c e s
  | Wiped e => on_Wiped c e s
  | Deleted e => on_Deleted c e s
  | Archived e => on_Archived c e s
  | Cloned e => on_Cloned c e s
  | RevisionCreated e => on_RevisionCreated e s
  | BoundToLablet e => on_BoundToLablet e s
  | UnboundFromLablet e => on_UnboundFromLablet e s
  | Error e => on_Error c e s
  | Orphaned e => on_Orphaned c e s
  | PortsAllocated e => on_PortsAllocated e s
  | PipelineRunRecorded e => on_PipelineRunRecorded e s
  end.

(** ** The aggregate root *)
Abbreviation result := (res (LabRecordState * list lab_event)).

(** [self.state.on(self.register_event(ev))], then the rest of the method. *)
Definition emit (c : clock) (ev : lab_event) (s : LabRecordState) : result :=
  s' ← on c ev s; Ok (s', [ev]).

Definition illegal (from to : LabRecordStatus) : exn :=
  InvalidLabRecordTransitionError (LabRecordStatus_value from) (LabRecordStatus_value to)
    ("Invalid LabRecord transition from " +:+ LabRecordStatus_value from +:+ " to "
       +:+ LabRecordStatus_value to).

Definition validate_transition (s : LabRecordState) (to_status : LabRecordStatus) : res unit :=
  raise_if (negb (bool_decide (to_status ∈ LAB_RECORD_VALID_TRANSITIONS s.(status))))
    (illegal s.(status) to_status).

(** Factories: [uid] is [str(uuid4())], [t1] and [t2] the readings of the new
    state's [__init__]. *)
Definition create (c : clock) (t1 t2 : datetime) (uid lab worker : string)
    (ti de no : option string) (raw : string) (ou ofn : option string) (nodes links : Z)
    (gr : option (list string)) (created modified : option datetime) : result :=
  emit c (Created {| Created_aggregate_id := uid; Created_worker_id := worker; Created_lab_id := lab;
                     Created_title := ti; Created_description := de; Created_notes := no;
                     Created_state := raw; Created_owner_username := ou;
                     Created_owner_fullname := ofn; Created_node_count := nodes;
                     Created_link_count := links; Created_groups := gr;
                     Created_cml_created_at := created; Created_cml_modified_at := modified;
                     Created_first_seen_at := c.(now) |}) (init_state t1 t2).

Definition discover (c : clock) (t1 t2 : datetime) (uid lab worker : string) (ti de : option string)
    (raw : string) (ou : option string) (nodes links : Z) (no ip based : option string) : result :=
  emit c (Discovered {| Discovered_aggregate_id := uid; Discovered_worker_id := worker;
                        Discovered_lab_id := lab; Discovered_title := ti;
                        Discovered_description := de; Discovered_notes := no;
                        Discovered_state := raw; Discovered_owner_username := ou;
                        Discovered_node_count := nodes; Discovered_link_count := links;
                        Discovered_worker_ip := ip; Discovered_discovered_at := c.(now);
                        Discovered_based_on_definition_id := based |}) (init_state t1 t2).

(** The data of one lab as CML reports it: the arguments of [update_from_cml]. *)
Record cml_data := {
  d_title : option string;
  d_description : option string;
  d_notes : option string;
  d_state : string;
  d_owner_username : option string;
  d_owner_fullname : option string;
  d_node_count : Z;
  d_link_count : Z;
  d_groups : option (list string);
  d_modified_at : option datetime;
  d_worker_ip : option string
}.

(** The freshness guard: is the incoming data no newer than what is stored? *)
Definition is_stale (d : cml_data) (s : LabRecordState) : bool :=
  match d.(d_modified_at), s.(modified_at) with
  | Some incoming, Some stored => dt_us (dt_to_utc incoming) <=? dt_us (dt_to_utc stored)
  | _, _ => false
  end.

Definition changed_fields (d : cml_data) (s : LabRecordState) : pydict :=
  (if bool_decide (s.(title) <> d.(d_title))
   then [("title", PDict [("old", of_ostr s.(title)); ("new", of_ostr d.(d_title))])] else [])
  ++ (if bool_decide (s.(node_count) <> d.(d_node_count))
      then [("node_count", PDict [("old", PInt s.(node_count)); ("new", PInt d.(d_node_count))])] else [])
  ++ (if bool_decide (s.(link_count) <> d.(d_link_count))
      then [("link_count", PDict [("old", PInt s.(link_count)); ("new", PInt d.(d_link_count))])] else []).

Section Commands.
Context `{RootId LabRecordState}.
Implicit Types (c : clock) (s : LabRecordState).

(** [LabRecord.id] *)
Definition aggregate_id s : res string :=
  match root_id s with
  | Some i => Ok i
  | None => Err (ValueError "LabRecord aggregate identifier has not been initialized")
  end.

(** [c1] is the clock of the handler of the state-change event, if any. *)
Definition update_from_cml c c1 (d : cml_data) s : result :=
  if is_stale d s then Ok (s, []) else
  let s := match d.(d_worker_ip) with Some ip => s <| worker_ip := Some ip |> | None => s end in
  '(s, evs) ←
    (if ostr_truthy s.(state) && bool_decide (s.(state) <> Some d.(d_state)) then
       i ← aggregate_id s;
       emit c1 (StateChanged {| StateChanged_aggregate_id := i; StateChanged_lab_id := s.(lab_id);
                                StateChanged_previous_state := default "" s.(state);
                                StateChanged_new_state := d.(d_state);
                                StateChanged_changed_fields := changed_fields d s;
                                StateChanged_changed_at := c.(now) |}) s
     else Ok (s, []));
  i ← aggregate_id s;
  '(s, evs') ← emit c (Updated {|
      Updated_aggregate_id := i; Updated_lab_id := s.(lab_id); Updated_title := d.(d_title);
      Updated_description := d.(d_description); Updated_notes := d.(d_notes);
      Updated_state := d.(d_state); Updated_owner_username := d.(d_owner_username);
      Updated_owner_fullname := d.(d_owner_fullname); Updated_node_count := d.(d_node_count);
      Updated_link_count := d.(d_link_count); Updated_groups := d.(d_groups);
      Updated_cml_modified_at := d.(d_modified_at); Updated_synced_at := c.(now) |}) s;
  Ok (s, evs ++ evs').

Definition mark_imported c (lab worker : string) (ti : option string) (sum by_ : string) s : result :=
  _ ← validate_transition s DEFINED;
  i ← aggregate_id s;
  emit c (Imported {| Imported_aggregate_id := i; Imported_worker_id := worker;
                      Imported_lab_id := lab; Imported_title := ti;
                      Imported_topology_checksum := sum; Imported_imported_by := by_;
                      Imported_imported_at := c.(now) |}) s.

Definition mark_started c (by_ : string) s : result :=
  _ ← validate_transition s BOOTED;
  i ← aggregate_id s;
  emit c (Started {| Started_aggregate_id := i; Started_lab_id := s.(lab_id);
                     Started_started_at := c.(now); Started_started_by := by_ |}) s.

Definition mark_stopped c (reason : option string) s : result :=
  _ ← validate_transition s STOPPED;
  i ← aggregate_id s;
  emit c (Stopped {| Stopped_aggregate_id := i; Stopped_lab_id := s.(lab_id);
                     Stopped_stopped_at := c.(now); Stopped_stop_reason := reason |}) s.

Definition mark_wiped c s : result :=
  _ ← validate_transition s WIPED;
  i ← aggregate_id s;
  emit c (Wiped {| Wiped_aggregate_id := i; Wiped_lab_id := s.(lab_id); Wiped_wiped_at := c.(now) |}) s.

Definition mark_deleted c (by_ : string) s : result :=
  _ ← validate_transition s DELETED;
  i ← aggregate_id s;
  emit c (Deleted {| Deleted_aggregate_id := i; Deleted_lab_id := s.(lab_id);
                     Deleted_deleted_at := c.(now); Deleted_deleted_by := by_ |}) s.

Definition mark_archived c (by_ : string) s : result :=
  _ ← validate_transition s ARCHIVED;
  i ← aggregate_id s;
  emit c (Archived {| Archived_aggregate_id := i; Archived_lab_id := s.(lab_id);
                      Archived_archived_at := c.(now); Archived_archived_by := by_ |}) s.

Definition mark_error c (message : string) s : result :=
  _ ← validate_transition s ERROR;
  i ← aggregate_id s;
  emit c (Error {| Error_aggregate_id := i; Error_lab_id := s.(lab_id);
                   Error_error_message := message;
                   Error_previous_status := LabRecordStatus_value s.(status);
                   Error_occurred_at := c.(now) |}) s.

Definition mark_orphaned c s : result :=
  _ ← validate_transition s ORPHANED;
  i ← aggregate_id s;
  emit c (Orphaned {| Orphaned_aggregate_id := i; Orphaned_lab_id := s.(lab_id);
                      Orphaned_worker_id := s.(worker_id); Orphaned_orphaned_at := c.(now) |}) s.

(** [digest] hashes a topology's canonical form, see [LabValues.checksum]; [t]
    is the clock [LabRevision.from_dict] may read. *)
Definition update_topology (digest : canonical -> string) c (t : datetime) (spec : LabTopologySpec)
    (summary : option string) s : result :=
  let new_checksum := checksum digest spec in
  current_checksum ← match last s.(revision_history) with
                     | Some d => r ← LabRevision_from_dict t d; Ok (Some (rev_topology_checksum r))
                     | None => Ok None
                     end;
  let s := s <| topology_spec := Some (LabTopologySpec_to_dict spec) |>
             <| node_count := ts_node_count spec |>
             <| link_count := ts_link_count spec |> in
  if bool_decide (current_checksum <> Some new_checksum) then
    i ← aggregate_id s;
    emit c (RevisionCreated {| RevisionCreated_aggregate_id := i; RevisionCreated_lab_id := s.(lab_id);
                               RevisionCreated_revision := s.(revision) + 1;
                               RevisionCreated_topology_checksum := new_checksum;
                               RevisionCreated_previous_checksum := current_checksum;
                               RevisionCreated_change_summary := summary;
                               RevisionCreated_node_count := ts_node_count spec;
                               RevisionCreated_link_count := ts_link_count spec;
                               RevisionCreated_created_at := c.(now) |}) s
  else Ok (s, []).

Definition set_external_interfaces (interfaces : list ExternalInterface) s : LabRecordState :=
  s <| external_interfaces := map ExternalInterface_to_dict interfaces |>.

Definition allocate_ports c (ports : dict Z) s : result :=
  i ← aggregate_id s;
  emit c (PortsAllocated {| PortsAllocated_aggregate_id := i; PortsAllocated_lab_id := s.(lab_id);
                            PortsAllocated_allocated_ports := ports;
                            PortsAllocated_allocated_at := c.(now) |}) s.

Definition bind_to_lablet c (session binding role : string) s : result :=
  i ← aggregate_id s;
  emit c (BoundToLablet {| BoundToLablet_aggregate_id := i; BoundToLablet_lab_id := s.(lab_id);
                           BoundToLablet_lablet_session_id := session;
                           BoundToLablet_binding_id := binding;
                           BoundToLablet_binding_role := role; BoundToLablet_bound_at := c.(now) |}) s.

Definition unbind_from_lablet c (session binding : string) s : result :=
  i ← aggregate_id s;
  emit c (UnboundFromLablet {| UnboundFromLablet_aggregate_id := i;
                               UnboundFromLablet_lab_id := s.(lab_id);
                               UnboundFromLablet_lablet_session_id := session;
                               UnboundFromLablet_binding_id := binding;
                               UnboundFromLablet_unbound_at := c.(now) |}) s.

Definition record_run (run : LabRunRecord) s : LabRecordState :=
  s <| run_history_v2 :=
    append_bounded s.(max_run_history_size) s.(run_history_v2) (LabRunRecord_to_dict run) |>.

Definition append_pipeline_run c (run : PipelineRunRecord) s : result :=
  i ← aggregate_id s;
  emit c (PipelineRunRecorded {|
      PipelineRunRecorded_aggregate_id := i; PipelineRunRecorded_lab_id := s.(lab_id);
      PipelineRunRecorded_run_id := pr_run_id run;
      PipelineRunRecorded_pipeline_name := pr_pipeline_name run;
      PipelineRunRecorded_status := pr_status run;
      PipelineRunRecorded_started_at := pr_started_at run;
      PipelineRunRecorded_completed_at := pr_completed_at run;
      PipelineRunRecorded_duration_seconds := pr_duration_seconds run;
      PipelineRunRecorded_steps_completed := pr_steps_completed run;
      PipelineRunRecorded_steps_failed := pr_steps_failed run;
      PipelineRunRecorded_steps_skipped := pr_steps_skipped run;
      PipelineRunRecorded_step_results := pr_step_results run;
      PipelineRunRecorded_error_message := pr_error_message run;
      PipelineRunRecorded_triggered_by := pr_triggered_by run;
      PipelineRunRecorded_lablet_session_id := pr_lablet_session_id run;
      PipelineRunRecorded_recorded_at := c.(now) |}) s.

(** The four [request_...] methods differ in the action they name. *)
Definition request_action c (action : string) s : result :=
  i ← aggregate_id s;
  emit c (ActionRequested {| ActionRequested_aggregate_id := i; ActionRequested_lab_id := s.(lab_id);
                             ActionRequested_worker_id := s.(worker_id);
                             ActionRequested_action := action;
                             ActionRequested_requested_at := c.(now) |}) s.
Definition request_start c s : result := request_action c "start" s.
Definition request_stop c s : result := request_action c "stop" s.
Definition request_wipe c s : result := request_action c "wipe" s.
Definition request_delete c s : result := request_action c "delete" s.

(** [if not self.state.pending_action: return], then the event [k] makes. *)
Definition on_pending c s (k : string -> string -> lab_event) : result :=
  match s.(pending_action) with
  | Some action => if str_truthy action then i ← aggregate_id s; emit c (k i action) s else Ok (s, [])
  | None => Ok (s, [])
  end.

Definition complete_pending_action c s : result :=
  on_pending c s (fun i action => ActionCompleted
    {| ActionCompleted_aggregate_id := i; ActionCompleted_lab_id := s.(lab_id);
       ActionCompleted_action := action; ActionCompleted_completed_at := c.(now) |}).

Definition fail_pending_action c (message : string) s : result :=
  on_pending c s (fun i action => ActionFailed
    {| ActionFailed_aggregate_id := i; ActionFailed_lab_id := s.(lab_id);
       ActionFailed_action := action; ActionFailed_error_message := message;
       ActionFailed_failed_at := c.(now) |}).

Definition clear_pending_action c s : result :=
  on_pending c s (fun i action => ActionCleared
    {| ActionCleared_aggregate_id := i; ActionCleared_lab_id := s.(lab_id);
       ActionCleared_action := action; ActionCleared_cleared_at := c.(now) |}).
End Commands.

(** ** Property accessors and computed properties *)
Definition runtime_binding_vo (s : LabRecordState) : res (option RuntimeBinding) :=
  match s.(runtime_binding) with
  | Some ((_ :: _) as d) => b ← RuntimeBinding_from_dict d; Ok (Some b)
  | _ => Ok None
  end.
Definition topology_spec_vo (s : LabRecordState) : res (option LabTopologySpec) :=
  match s.(topology_spec) with
  | Some ((_ :: _) as d) => t ← LabTopologySpec_from_dict d; Ok (Some t)
  | _ => Ok None
  end.
Definition external_interfaces_vo (s : LabRecordState) : res (list ExternalInterface) :=
  mapM ExternalInterface_from_dict s.(external_interfaces).
Definition revision_history_vo (t : datetime) (s : LabRecordState) : res (list LabRevision) :=
  mapM (LabRevision_from_dict t) s.(revision_history).
Definition run_history_vo (t : datetime) (s : LabRecordState) : res (list LabRunRecord) :=
  mapM (LabRunRecord_from_dict t) s.(run_history_v2).
Definition pipeline_run_history_vo (t : datetime) (s : LabRecordState) : res (list PipelineRunRecord) :=
  mapM (PipelineRunRecord_from_dict t) s.(pipeline_run_history).

Definition is_terminal (s : LabRecordState) : bool := bool_decide (s.(status) ∈ [DELETED; ARCHIVED]).
Definition is_running (s : LabRecordState) : bool := bool_decide (s.(status) = BOOTED).
Definition is_reusable (s : LabRecordState) : bool := bool_decide (s.(status) ∈ [DEFINED; WIPED; STOPPED]).
Definition is_error (s : LabRecordState) : bool := bool_decide (s.(status) = ERROR).
Definition is_orphaned (s : LabRecordState) : bool := bool_decide (s.(status) = ORPHANED).
