(* ===== verification/LabRecordProps.v ===== *)
(** * Correctness of the LabRecord aggregate

    Commands as data and what each does, the guarded state machine and the
    unguarded CML synchronization, the audit trail, bounded histories, topology
    revisions, bindings and pending actions. *)
From S2P Require Import Prelude PyData Enums Lifecycle AuditTrail LabRecordEvents LabValues LabRecord.
Import LabStatus.

(** ** Commands as data *)
Inductive command :=
| UpdateFromCml (c1 : clock) (d : cml_data)
| MarkImported (lab worker : string) (ti : option string) (sum by_ : string)
| MarkStarted (by_ : string)
| MarkStopped (reason : option string)
| MarkWiped
| MarkDeleted (by_ : string)
| MarkArchived (by_ : string)
| MarkError (message : string)
| MarkOrphaned
| UpdateTopology (t : datetime) (spec : LabTopologySpec) (summary : option string)
| SetInterfaces (l : list ExternalInterface)
| AllocatePorts (ports : dict Z)
| Bind (session binding role : string)
| Unbind (session binding : string)
| RecordRun (run : LabRunRecord)
| AppendPipelineRun (run : PipelineRunRecord)
| RequestAction (action : string)
| CompleteAction
| FailAction (message : string)
| ClearAction.

Definition exec `{RootId LabRecordState} (digest : canonical -> string) (c : clock) (cmd : command)
    (s : LabRecordState) : result :=
  match cmd with
  | UpdateFromCml c1 d => update_from_cml c c1 d s
  | MarkImported l w t sum b => mark_imported c l w t sum b s
  | MarkStarted b => mark_started c b s
  | MarkStopped r => mark_stopped c r s
  | MarkWiped => mark_wiped c s
  | MarkDeleted b => mark_deleted c b s
  | MarkArchived b => mark_archived c b s
  | MarkError m => mark_error c m s
  | MarkOrphaned => mark_orphaned c s
  | UpdateTopology t spec sum => update_topology digest c t spec sum s
  | SetInterfaces l => Ok (set_external_interfaces l s, [])
  | AllocatePorts p => allocate_ports c p s
  | Bind ls b r => bind_to_lablet c ls b r s
  | Unbind ls b => unbind_from_lablet c ls b s
  | RecordRun r => Ok (record_run r s, [])
  | AppendPipelineRun r => append_pipeline_run c r s
  | RequestAction a => request_action c a s
  | CompleteAction => complete_pending_action c s
  | FailAction m => fail_pending_action c m s
  | ClearAction => clear_pending_action c s
  end.

Fixpoint exec_all `{RootId LabRecordState} (digest : canonical -> string) (l : list (clock * command))
    (s : LabRecordState) : result :=
  match l with
  | [] => Ok (s, [])
  | (c, cmd) :: l =>
      '(s1, evs1) ← exec digest c cmd s;
      '(s2, evs2) ← exec_all digest l s1;
      Ok (s2, evs1 ++ evs2)
  end.

(** The status a guarded command moves to. *)
Definition target (cmd : command) : option LabRecordStatus :=
  match cmd with
  | MarkImported _ _ _ _ _ => Some DEFINED
  | MarkStarted _ => Some BOOTED
  | MarkStopped _ => Some STOPPED
  | MarkWiped => Some WIPED
  | MarkDeleted _ => Some DELETED
  | MarkArchived _ => Some ARCHIVED
  | MarkError _ => Some ERROR
  | MarkOrphaned => Some ORPHANED
  | _ => None
  end.

#[export] Instance lab_audited : Audited LabRecordState LabRecordStatus :=
  {| au_status := status; au_value := LabRecordStatus_value; au_history := state_history |}.

(** Events that make a record rather than change one. *)
Definition is_creation (ev : lab_event) : bool :=
  match ev with Created _ | Discovered _ | Cloned _ => true | _ => false end.

(** Events of the synchronization with CML, which no table guards. *)
Definition is_sync (ev : lab_event) : bool :=
  match ev with Updated _ | StateChanged _ => true | _ => false end.

Definition event_target (ev : lab_event) : option LabRecordStatus :=
  match ev with
  | Imported _ => Some DEFINED
  | Started _ => Some BOOTED
  | Stopped _ => Some STOPPED
  | Wiped _ => Some WIPED
  | Deleted _ => Some DELETED
  | Archived _ => Some ARCHIVED
  | Error _ => Some ERROR
  | Orphaned _ => Some ORPHANED
  | _ => None
  end.

(** ** What the handlers do *)

Ltac handler_cases H :=
  cbv [on on_Created on_Updated on_StateChanged on_ActionRequested on_ActionCompleted on_ActionFailed
       on_ActionCleared on_Discovered on_Imported on_Started on_Stopped on_Wiped on_Deleted on_Archived
       on_Cloned on_RevisionCreated on_BoundToLablet on_UnboundFromLablet on_Error on_Orphaned
       on_PortsAllocated on_PipelineRunRecorded] in H;
  inv_ok; subst;
  repeat match goal with
  | |- context [if bool_decide (active_binding_id ?s = ?b) then _ else _] =>
      destruct (bool_decide (active_binding_id s = b)) eqn:?
  end.

Definition cml_statuses : list LabRecordStatus := [DEFINED; BOOTED; STOPPED; QUEUED].

Lemma status_of_cml_cases raw d : status_of_cml raw d = d \/ status_of_cml raw d ∈ cml_statuses.
Proof.
  unfold status_of_cml, dict_get_or. destruct (dict_get raw _) as [st|] eqn:E; [right|by left].
  apply dict_get_elem in E. cbn [default].
  repeat (apply elem_of_cons in E as [[= -> ->]|E]; [apply (bool_decide_unpack _); reflexivity|]).
  by apply elem_of_nil in E.
Qed.

Lemma lab_set_status_audit c s s0 to by_ r : state_history s0 = state_history s ->
  audit_step s (set_status c (status s) to by_ r s0).
Proof. intros Hh. right. eexists. split; [cbn; rewrite Hh; reflexivity|]. done. Qed.

Lemma sync_status_audit c s s0 raw r : state_history s0 = state_history s -> status s0 = status s ->
  audit_step s (sync_status c (status s) raw r s0).
Proof.
  intros Hh Hs. unfold sync_status. case_bool_decide as Hd.
  - right. eexists. split; [cbn; rewrite Hh; reflexivity|]. done.
  - by left.
Qed.

Lemma lab_on_audit c ev s s' : is_creation ev = false -> on c ev s = Ok s' -> audit_step s s'.
Proof.
  intros He Ho. destruct ev; try discriminate He; handler_cases Ho; try (by left);
    first [by apply lab_set_status_audit|by apply sync_status_audit].
Qed.

Lemma sync_status_status c old raw r s : status (sync_status c old raw r s) = status_of_cml raw (status s).
Proof. unfold sync_status. by case_bool_decide. Qed.

Lemma lab_on_status c ev s s' : is_creation ev = false -> is_sync ev = false -> on c ev s = Ok s' ->
  status s' = default (status s) (event_target ev).
Proof. intros Hc Hy Ho. destruct ev; try discriminate; handler_cases Ho; done. Qed.

Lemma on_sync_status c ev s s' : is_sync ev = true -> on c ev s = Ok s' ->
  status s' = status s \/ status s' ∈ cml_statuses.
Proof.
  intros Hy Ho. destruct ev; try discriminate; handler_cases Ho; rewrite sync_status_status;
    apply status_of_cml_cases.
Qed.

(** ** What a command that returns has done *)

(** A revision event numbers the next revision and brings a new checksum. *)
Definition revision_ok (s : LabRecordState) (ev : lab_event) : Prop :=
  match ev with
  | RevisionCreated e =>
      RevisionCreated_revision e = revision s + 1
      /\ forall r, last (revision_history s) = Some (LabRevision_to_dict r) ->
           LabRevision_post_init r = Ok r -> rev_topology_checksum r <> RevisionCreated_topology_checksum e
  | _ => True
  end.

Definition legal_event (s : LabRecordState) (ev : lab_event) : Prop :=
  is_creation ev = false
  /\ match event_target ev with
     | Some to => to ∈ LAB_RECORD_VALID_TRANSITIONS (status s)
     | None => True
     end
  /\ revision_ok s ev.

(** Assignments the commands make to the state outside any event. *)
Inductive direct : LabRecordState -> LabRecordState -> Prop :=
| direct_ip s ip : direct s (s <| worker_ip := Some ip |>)
| direct_topology s d n m :
    direct s (s <| topology_spec := Some d |> <| node_count := n |> <| link_count := m |>)
| direct_interfaces s l : direct s (s <| external_interfaces := l |>)
| direct_run s run : direct s (record_run run s).

(** Events and direct assignments, each event legal where it is applied. *)
Inductive applied : LabRecordState -> list lab_event -> LabRecordState -> Prop :=
| applied_nil s : applied s [] s
| applied_event c s ev s1 evs s2 :
    legal_event s ev -> on c ev s = Ok s1 -> applied s1 evs s2 -> applied s (ev :: evs) s2
| applied_direct s s1 evs s2 : direct s s1 -> applied s1 evs s2 -> applied s evs s2.

Lemma applied_app s e1 s1 e2 s2 : applied s e1 s1 -> applied s1 e2 s2 -> applied s (e1 ++ e2) s2.
Proof. induction 1; cbn; eauto using applied. Qed.

Lemma lab_applied_invariant (I : LabRecordState -> Prop) s evs s' :
  (forall c ev s s', legal_event s ev -> on c ev s = Ok s' -> I s -> I s') ->
  (forall s s', direct s s' -> I s -> I s') -> applied s evs s' -> I s -> I s'.
Proof. intros HI HD. induction 1; eauto. Qed.

Lemma lab_emit_ok c ev s s' evs : emit c ev s = Ok (s', evs) <-> evs = [ev] /\ on c ev s = Ok s'.
Proof. unfold emit. rewrite bind_ok. split; [intros (? & ? & [= -> ->]); done|intros [-> ?]; eauto]. Qed.

Lemma lab_validate_ok s to u : validate_transition s to = Ok u <-> to ∈ LAB_RECORD_VALID_TRANSITIONS (status s).
Proof. unfold validate_transition. by rewrite raise_if_ok, negb_false_iff, bool_decide_eq_true. Qed.

Lemma emit_applied c ev s s' evs : emit c ev s = Ok (s', evs) -> legal_event s ev -> applied s evs s'.
Proof. rewrite lab_emit_ok. intros [-> Ho] Hl. eauto using applied. Qed.

Lemma on_pending_applied `{RootId LabRecordState} c s k s' evs :
  (forall i a, legal_event s (k i a)) -> on_pending c s k = Ok (s', evs) -> applied s evs s'.
Proof.
  intros Hk Hp. unfold on_pending in Hp. repeat split_match_in Hp; inv_ok; try constructor.
  by eapply emit_applied.
Qed.

Lemma update_from_cml_applied `{RootId LabRecordState} c c1 d s s' evs :
  update_from_cml c c1 d s = Ok (s', evs) -> applied s evs s'.
Proof.
  unfold update_from_cml. destruct (is_stale d s); [intros; inv_ok; constructor|]. intros Hu.
  assert (exists s0, (s0 = s \/ direct s s0) /\ s0 = match d_worker_ip d with
            | Some ip => s <| worker_ip := Some ip |> | None => s end) as (s0 & Hs0 & E).
  { destruct (d_worker_ip d); eexists; (split; [|reflexivity]); [right; constructor|by left]. }
  rewrite <- E in Hu. clear E. inv_ok. destruct x as [s1 evs1]. inv_ok. destruct x0 as [s2 evs2]. inv_ok.
  assert (applied s0 (evs1 ++ evs2) s') as Ha.
  { eapply applied_app; [|by eapply emit_applied].
    match goal with H : (if _ then _ else _) = Ok _ |- _ => rename H into Hc end.
    destruct (_ && _) in Hc; inv_ok; [by eapply emit_applied|constructor]. }
  destruct Hs0 as [->|Hd]; [done|]. by eapply applied_direct.
Qed.

Lemma exec_applied `{RootId LabRecordState} digest c cmd s s' evs :
  exec digest c cmd s = Ok (s', evs) -> applied s evs s'.
Proof.
  destruct cmd; unfold exec; intros He; try (by eapply update_from_cml_applied);
    try (by eapply on_pending_applied; [|exact He]; intros; split);
    cbv [mark_imported mark_started mark_stopped mark_wiped mark_deleted mark_archived mark_error
         mark_orphaned update_topology allocate_ports bind_to_lablet unbind_from_lablet
         append_pipeline_run request_action] in He; inv_ok;
    try match goal with H : validate_transition _ _ = Ok _ |- _ => apply lab_validate_ok in H end;
    try (by eapply emit_applied); try (by eauto using applied, direct).
  eapply applied_direct; [apply direct_topology|].
  match goal with H : (if _ then _ else _) = Ok _ |- _ => rename H into Hc end.
  case_bool_decide as Hne; inv_ok; [|constructor]. eapply emit_applied; [eassumption|].
  split; [done|]. split; [done|]. split; [done|]. intros r Hl Hr Hs. cbn in Hl. apply Hne.
  match goal with H : match last _ with _ => _ end = Ok _ |- _ => rewrite Hl in H; rename H into Hd end.
  rewrite LabRevision_of_to_dict, Hr in Hd. cbn in Hd. injection Hd as <-. by rewrite Hs.
Qed.

Lemma exec_all_applied `{RootId LabRecordState} digest l s s' evs :
  exec_all digest l s = Ok (s', evs) -> applied s evs s'.
Proof.
  revert s evs. induction l as [|[c cmd] l IH]; cbn; intros s evs Hr; inv_ok; [constructor|].
  destruct x as [s1 evs1]. inv_ok. destruct x as [s2 evs2]. inv_ok.
  eapply applied_app; [by eapply exec_applied|]. eauto.
Qed.
