(* ===== verification/LabRecordSpec.v ===== *)
(** * Properties of the LabRecord aggregate

    The theorems on lab records: guarded transitions, the trail with its one
    unguarded source of changes, freshness of synchronization, bounded
    histories, revisions, bindings and cleanliness, pending actions. *)
From S2P Require Import Prelude PyData Enums Lifecycle AuditTrail LabRecordEvents LabValues LabRecord LabRecordProps.
Import LabStatus.
#[local] Arguments status_of_cml : simpl never.

(** ** The guarded state machine *)

(** The arguments an import needs; the other commands take any. *)
Definition import_ok (cmd : command) : bool :=
  match cmd with
  | MarkImported lab worker _ sum _ => str_truthy worker && str_truthy lab && str_truthy sum
  | _ => true
  end.

Section StateMachine.
Context `{RootId LabRecordState} (root_id_law : forall s, root_id s = Some (id s)) (digest : canonical -> string).

Lemma lab_aggregate_id_ok s : aggregate_id s = Ok (id s).
Proof. unfold aggregate_id. by rewrite root_id_law. Qed.

Lemma lab_on_moves c ev s to : event_target ev = Some to ->
  match ev with
  | Imported e => str_truthy (Imported_worker_id e) && str_truthy (Imported_lab_id e)
                  && str_truthy (Imported_topology_checksum e)
  | _ => true
  end = true -> exists s', on c ev s = Ok s'.
Proof using.
  destruct ev; cbn -[on]; intros Ht Hi; try discriminate Ht; try (by eexists; reflexivity).
  unfold on, on_Imported, for_cml, RuntimeBinding_post_init, LabRevision_post_init. cbn.
  apply andb_true_iff in Hi as [Hi ->]. apply andb_true_iff in Hi as [-> ->]. cbn. eauto.
Qed.

Lemma exec_moves c cmd s to : target cmd = Some to -> import_ok cmd = true ->
  to ∈ LAB_RECORD_VALID_TRANSITIONS (status s) ->
  exists s' ev, exec digest c cmd s = Ok (s', [ev]) /\ on c ev s = Ok s' /\ event_target ev = Some to.
Proof.
  intros Ht Hi Hv. assert (validate_transition s to = Ok ()) as E by (by apply lab_validate_ok).
  assert (exists ev, exec digest c cmd s = emit c ev s /\ event_target ev = Some to
    /\ exists s', on c ev s = Ok s') as (ev & He & Hev & s' & Ho).
  { destruct cmd; simplify_eq/=; unfold exec;
      cbv [mark_imported mark_started mark_stopped mark_wiped mark_deleted mark_archived
           mark_error mark_orphaned]; rewrite E; cbn -[emit on]; rewrite lab_aggregate_id_ok; cbn -[emit on];
      eexists; (split; [reflexivity|]); (split; [reflexivity|]); by eapply lab_on_moves. }
  exists s', ev. rewrite He. unfold emit. by rewrite Ho.
Qed.

(** (C2) The guarded half of the lab state machine: a typed status command
    raises InvalidLabRecordTransitionError, changing nothing, when the table
    does not list its target for the current status; otherwise (an import also
    needs non-empty identifiers and checksum) it registers one event, the
    status becomes the target and one transition is appended to the history. *)
Theorem lab_transition c cmd s to (Ht : target cmd = Some to) (Hi : import_ok cmd = true) :
  (to ∉ LAB_RECORD_VALID_TRANSITIONS (status s) -> exec digest c cmd s = Err (illegal (status s) to))
  /\ (to ∈ LAB_RECORD_VALID_TRANSITIONS (status s) ->
      exists s' ev t, exec digest c cmd s = Ok (s', [ev]) /\ status s' = to
        /\ state_history s' = state_history s ++ [StateTransition_to_dict t]
        /\ st_from_state t = Some (LabRecordStatus_value (status s))
        /\ st_to_state t = LabRecordStatus_value to).
Proof.
  split; intros Hv.
  - assert (validate_transition s to = Err (illegal (status s) to)) as E
      by (unfold validate_transition; by rewrite bool_decide_eq_false_2).
    destruct cmd; simplify_eq/=; unfold exec;
      cbv [mark_imported mark_started mark_stopped mark_wiped mark_deleted mark_archived
           mark_error mark_orphaned]; by rewrite E.
  - destruct (exec_moves c cmd s to Ht Hi Hv) as (s' & ev & He & Ho & Hev).
    exists s', ev. destruct ev; try discriminate Hev; cbn in Hev; injection Hev as <-;
      handler_cases Ho; eexists; repeat split; done.
Qed.
End StateMachine.

Definition state_root_id : RootId LabRecordState := fun s => Some (id s).
Definition example_clock : clock := {| now := utc 50; now_hist := utc 51; now_upd := utc 52 |}.
Definition booted_record : LabRecordState := init_state (utc 0) (utc 0) <| status := BOOTED |>.
Definition deleted_record : LabRecordState := init_state (utc 0) (utc 0) <| status := DELETED |>.

Lemma lab_transition_witness :
  exec (H := state_root_id) (fun _ => "") example_clock MarkWiped deleted_record
  = Err (illegal DELETED WIPED)
  /\ exists s', (exists evs, exec (H := state_root_id) (fun _ => "") example_clock MarkWiped booted_record = Ok (s', evs))
                /\ status s' = WIPED.
Proof.
  split.
  - apply (proj1 (lab_transition (H := state_root_id) (fun _ => eq_refl) (fun _ => "") example_clock MarkWiped
             deleted_record WIPED eq_refl eq_refl)).
    apply (bool_decide_unpack _). reflexivity.
  - destruct (proj2 (lab_transition (H := state_root_id) (fun _ => eq_refl) (fun _ => "") example_clock MarkWiped
             booted_record WIPED eq_refl eq_refl)) as (s' & ev & t & He & Hs & _).
    + apply (bool_decide_unpack _). reflexivity.
    + exists s'. split; [by exists [ev]|exact Hs].
Defined.

(** ** The trail *)

Definition created (s0 : LabRecordState) : Prop :=
  (exists c t1 t2 u l w ti de no raw ou ofn n m gr cr mo evs,
     create c t1 t2 u l w ti de no raw ou ofn n m gr cr mo = Ok (s0, evs))
  \/ (exists c t1 t2 u l w ti de raw ou n m no ip ba evs,
     discover c t1 t2 u l w ti de raw ou n m no ip ba = Ok (s0, evs)).

Ltac creation_cases H := unfold create, discover in H; apply lab_emit_ok in H as [_ H]; handler_cases H.

(** A change the table lists, or one to a status that CML reports. *)
Definition allowed_change (from to : LabRecordStatus) : Prop :=
  from = to \/ to ∈ LAB_RECORD_VALID_TRANSITIONS from \/ to ∈ cml_statuses.

Lemma on_allowed c ev s s' : legal_event s ev -> on c ev s = Ok s' -> allowed_change (status s) (status s').
Proof.
  intros (Hc & Hl & _) Ho. unfold allowed_change. destruct (is_sync ev) eqn:Hy.
  - apply on_sync_status in Ho as [->|?]; auto.
  - apply lab_on_status in Ho as ->; [|done..]. destruct (event_target ev); cbn; auto.
Qed.

(** The audit trail of a lab record is complete: after any run of commands
    on a created or discovered record, the history reads back as one unbroken
    chain that ends at the current status, and each entry follows the transition
    table or is a change to a status CML reported. *)
Theorem lab_trail `{RootId LabRecordState} digest s0 l s evs
    (Hc : created s0) (Hr : exec_all digest l s0 = Ok (s, evs)) : trail allowed_change s.
Proof.
  apply exec_all_applied in Hr. eapply lab_applied_invariant; [| |exact Hr|].
  - intros c ev s1 s2 Hl Ho. apply trail_step; [eapply lab_on_audit; [apply Hl|done]|by eapply on_allowed].
  - intros s1 s2 Hd. apply trail_step; [left; by inversion Hd|left; by inversion Hd].
  - destruct Hc as [(?&?&?&?&?&?&?&?&?&?&?&?&?&?&?&?&?&?&Hc)|(?&?&?&?&?&?&?&?&?&?&?&?&?&?&?&?&Hc)];
      creation_cases Hc; eapply trail_init; done.
Qed.

Definition example_record : LabRecordState :=
  match discover example_clock (utc 0) (utc 0) "r-1" "lab-1" "w-1" None None "STOPPED" None 2 1 None None None with
  | Ok (s, _) => s | Err _ => init_state (utc 0) (utc 0) end.

Lemma example_record_created : created example_record.
Proof.
  right. exists example_clock, (utc 0), (utc 0), "r-1", "lab-1", "w-1", None, None, "STOPPED", None, 2, 1, None, None, None.
  eexists. vm_compute. reflexivity.
Qed.

Definition example_data (st : string) (t : Z) : cml_data :=
  {| d_title := None; d_description := None; d_notes := None; d_state := st; d_owner_username := None;
     d_owner_fullname := None; d_node_count := 2; d_link_count := 1; d_groups := None;
     d_modified_at := Some (utc t); d_worker_ip := None |}.

Definition example_commands : list (clock * command) :=
  map (pair example_clock)
    [MarkDeleted "admin"; UpdateFromCml example_clock (example_data "BOOTED" 7); MarkError "lost"; MarkWiped].

Definition example_result : LabRecordState * list lab_event :=
  match exec_all (H := state_root_id) (fun _ => "") example_commands example_record with
  | Ok r => r | Err _ => (example_record, []) end.

Lemma lab_example_run_ok :
  exec_all (H := state_root_id) (fun _ => "") example_commands example_record
  = Ok (example_result.1, example_result.2).
Proof. vm_compute. reflexivity. Qed.

Lemma lab_trail_witness : status example_result.1 = WIPED /\ trail allowed_change example_result.1.
Proof.
  split; [vm_compute; reflexivity|].
  exact (lab_trail (H := state_root_id) _ _ _ _ _ example_record_created lab_example_run_ok).
Defined.

(** ** Synchronization with CML *)

Lemma status_of_cml_idem raw d : status_of_cml raw (status_of_cml raw d) = status_of_cml raw d.
Proof. unfold status_of_cml, dict_get_or. by destruct (dict_get raw _). Qed.

(** What synchronization leaves alone. *)
Definition same_identity (s s' : LabRecordState) : Prop :=
  id s' = id s /\ lab_id s' = lab_id s /\ worker_id s' = worker_id s
  /\ runtime_binding s' = runtime_binding s /\ revision s' = revision s
  /\ revision_history s' = revision_history s /\ run_history_v2 s' = run_history_v2 s
  /\ is_clean s' = is_clean s /\ active_binding_id s' = active_binding_id s
  /\ pending_action s' = pending_action s /\ allocated_ports s' = allocated_ports s.

(** The whole effect of fresh data. *)
Record synced (d : cml_data) (s s' : LabRecordState) : Prop := {
  sy_title : title s' = d_title d;
  sy_state : state s' = Some (d_state d);
  sy_counts : node_count s' = d_node_count d /\ link_count s' = d_link_count d;
  sy_modified : modified_at s' = d_modified_at d;
  sy_ip : worker_ip s' = match d_worker_ip d with Some ip => Some ip | None => worker_ip s end;
  sy_status : status s' = status_of_cml (d_state d) (status s);
  sy_rest : same_identity s s'
}.

Lemma on_Updated_synced c e s : exists s', on c (Updated e) s = Ok s'
  /\ title s' = Updated_title e /\ state s' = Some (Updated_state e)
  /\ node_count s' = Updated_node_count e /\ link_count s' = Updated_link_count e
  /\ modified_at s' = Updated_cml_modified_at e /\ worker_ip s' = worker_ip s
  /\ status s' = status_of_cml (Updated_state e) (status s) /\ same_identity s s'.
Proof. eexists. split; [reflexivity|]. unfold sync_status. case_bool_decide; repeat split. Qed.

Lemma on_StateChanged_synced c e s : exists s', on c (StateChanged e) s = Ok s'
  /\ worker_ip s' = worker_ip s
  /\ status s' = status_of_cml (StateChanged_new_state e) (status s) /\ same_identity s s'.
Proof. eexists. split; [reflexivity|]. unfold sync_status. case_bool_decide; repeat split. Qed.

Lemma emit_on c ev s s' : on c ev s = Ok s' -> emit c ev s = Ok (s', [ev]).
Proof. intros Ho. by apply lab_emit_ok. Qed.

Lemma same_identity_trans s1 s2 s3 : same_identity s1 s2 -> same_identity s2 s3 -> same_identity s1 s3.
Proof. unfold same_identity. intros H1 H2. decompose [and] H1. decompose [and] H2. repeat split; congruence. Qed.

(** [update_from_cml]: data whose modification time is not newer than the
    stored one changes nothing and registers nothing (times are compared as UTC
    instants, so naive stored times do not raise); any other data is taken over
    entirely, sets the status CML's state stands for (or keeps it for a state CML
    does not map), registers a state-change event exactly when a known raw state
    changes, and leaves identity, revisions, runs, bindings and ports alone. *)
Theorem update_from_cml_spec `{RootId LabRecordState} c c1 d s
    (Hid : forall s, root_id s = Some (id s)) :
  (is_stale d s = true -> update_from_cml c c1 d s = Ok (s, []))
  /\ (is_stale d s = false -> exists s' evs, update_from_cml c c1 d s = Ok (s', evs)
      /\ synced d s s'
      /\ length evs = if ostr_truthy (state s) && bool_decide (state s <> Some (d_state d)) then 2%nat else 1%nat).
Proof.
  unfold update_from_cml. split; intros ->; [done|].
  set (s0 := match d_worker_ip d with Some ip => s <| worker_ip := Some ip |> | None => s end).
  assert (same_identity s s0 /\ state s0 = state s /\ status s0 = status s
          /\ worker_ip s0 = match d_worker_ip d with Some ip => Some ip | None => worker_ip s end)
    as (Hs0 & Est & Ess & Eip) by (unfold s0; destruct (d_worker_ip d); repeat split).
  rewrite Est. clearbody s0. destruct (ostr_truthy (state s) && _).
  - rewrite lab_aggregate_id_ok by done. cbn -[emit].
    match goal with |- context [emit c1 (StateChanged ?e) s0] =>
      destruct (on_StateChanged_synced c1 e s0) as (s1 & Ho1 & Ei1 & Es1 & H1) end.
    rewrite (emit_on _ _ _ _ Ho1). cbn -[emit]. rewrite lab_aggregate_id_ok by done. cbn -[emit].
    match goal with |- context [emit c (Updated ?e) s1] =>
      destruct (on_Updated_synced c e s1) as (s2 & Ho2 & E1 & E2 & E3 & E4 & E5 & E6 & E7 & H2) end.
    rewrite (emit_on _ _ _ _ Ho2). cbn. do 2 eexists. split; [reflexivity|]. split; [|done]. cbn in *.
    split; try done; [by rewrite E6, Ei1|by rewrite E7, Es1, status_of_cml_idem, Ess|].
    by eapply same_identity_trans, same_identity_trans.
  - cbn -[emit]. rewrite lab_aggregate_id_ok by done. cbn -[emit].
    match goal with |- context [emit c (Updated ?e) s0] =>
      destruct (on_Updated_synced c e s0) as (s2 & Ho2 & E1 & E2 & E3 & E4 & E5 & E6 & E7 & H2) end.
    rewrite (emit_on _ _ _ _ Ho2). cbn. do 2 eexists. split; [reflexivity|]. split; [|done]. cbn in *.
    split; try done; [by rewrite E6|by rewrite E7, Ess|by eapply same_identity_trans].
Qed.

Lemma update_from_cml_spec_witness :
  update_from_cml (H := state_root_id) example_clock example_clock (example_data "BOOTED" 7)
    (booted_record <| modified_at := Some (DT 7 false) |>)
  = Ok (booted_record <| modified_at := Some (DT 7 false) |>, []).
Proof.
  refine (proj1 (update_from_cml_spec (H := state_root_id) example_clock example_clock
                   (example_data "BOOTED" 7) _ (fun _ => eq_refl)) _).
  reflexivity.
Defined.

(** Synchronization bypasses the transition table: fresh data that says
    BOOTED brings a record that was DELETED or ARCHIVED, from which the table
    allows no transition at all, back to BOOTED. *)
Theorem sync_leaves_terminal `{RootId LabRecordState} c c1 d s s' evs
    (Ht : is_terminal s = true) (Hf : is_stale d s = false) (Hb : d_state d = "BOOTED")
    (Hu : update_from_cml c c1 d s = Ok (s', evs)) :
  LAB_RECORD_VALID_TRANSITIONS (status s) = [] /\ status s' = BOOTED.
Proof.
  unfold is_terminal in Ht. apply bool_decide_eq_true in Ht.
  split; [by repeat (apply elem_of_cons in Ht as [->|Ht]; [done|]); apply elem_of_nil in Ht|].
  unfold update_from_cml in Hu. rewrite Hf in Hu. inv_ok. destruct x as [s1 evs1]. inv_ok.
  match goal with H : emit c (Updated _) _ = Ok ?p |- _ => destruct p as [s2 evs2]; apply lab_emit_ok in H as [-> Ho] end.
  inv_ok. handler_cases Ho. rewrite sync_status_status. cbn. rewrite Hb. done.
Qed.

Lemma sync_leaves_terminal_witness :
  status deleted_record = DELETED /\
  exists s' evs, update_from_cml (H := state_root_id) example_clock example_clock (example_data "BOOTED" 7) deleted_record
                 = Ok (s', evs) /\ status s' = BOOTED.
Proof.
  split; [reflexivity|]. eexists. eexists.
  split; [vm_compute; reflexivity|].
  refine (proj2 (sync_leaves_terminal (H := state_root_id) example_clock example_clock (example_data "BOOTED" 7)
                   deleted_record _ _ eq_refl eq_refl eq_refl _)).
  vm_compute. reflexivity.
Defined.

(** * Histories, revisions, bindings and actions of a lab record

    Bounded run histories, the numbering of topology revisions, cleanliness and
    bindings as functions of the registered events, pending actions, orphaning. *)
From S2P Require Import Prelude PyData Enums Lifecycle AuditTrail LabRecordEvents LabValues LabRecord.
From S2P Require Import LabRecordProps.
Import LabStatus.

(** ** Bounded histories *)

Lemma append_bounded_length {A} m (l : list A) x : 0 < m -> Z.of_nat (length l) <= m ->
  Z.of_nat (length (append_bounded m l x)) <= m.
Proof.
  intros Hm Hl. unfold append_bounded, py_tail. rewrite (proj2 (Z.ltb_lt 0 m) Hm).
  destruct (Z.ltb_spec m (Z.of_nat (length (l ++ [x])))); [|done]. rewrite last_n_length. lia.
Qed.

Lemma append_bounded_eq {A} m (l : list A) x : 0 < m ->
  append_bounded m l x = last_n (Z.to_nat m) (l ++ [x]).
Proof.
  intros Hm. unfold append_bounded, py_tail. rewrite (proj2 (Z.ltb_lt 0 m) Hm).
  destruct (Z.ltb_spec m (Z.of_nat (length (l ++ [x])))) as [|Hle]; [done|].
  unfold last_n. replace (length (l ++ [x]) - Z.to_nat m)%nat with 0%nat by lia. done.
Qed.

Record histories_bounded (s : LabRecordState) : Prop := {
  hb_max : max_run_history_size s = 50;
  hb_runs : Z.of_nat (length (run_history_v2 s)) <= 50;
  hb_pipelines : Z.of_nat (length (pipeline_run_history s)) <= 50
}.

Lemma on_bounded c ev s s' : is_creation ev = false -> on c ev s = Ok s' ->
  histories_bounded s -> histories_bounded s'.
Proof.
  intros He Ho [Hm Hr Hp]. destruct ev; try discriminate He; handler_cases Ho;
    try (by split); try (unfold sync_status; case_bool_decide; by split).
  split; try done. cbn. rewrite Hm. by apply append_bounded_length.
Qed.

Lemma direct_bounded s s' : direct s s' -> histories_bounded s -> histories_bounded s'.
Proof.
  intros [] [Hm Hr Hp]; split; try done. cbn. rewrite Hm. by apply append_bounded_length.
Qed.

Lemma created_bounded s : created s -> histories_bounded s.
Proof.
  intros [(?&?&?&?&?&?&?&?&?&?&?&?&?&?&?&?&?&?&Hc)|(?&?&?&?&?&?&?&?&?&?&?&?&?&?&?&?&Hc)];
    creation_cases Hc; split; done.
Qed.

(** Run histories are bounded queues of the newest fifty: after any run of
    commands on a created or discovered record both histories hold at most fifty
    entries, and recording one more run keeps exactly the newest fifty of the old
    entries and the new one, in order. *)
Theorem histories_keep_newest `{RootId LabRecordState} digest s0 l s evs
    (Hc : created s0) (Hr : exec_all digest l s0 = Ok (s, evs)) :
  histories_bounded s
  /\ forall run, run_history_v2 (record_run run s) = last_n 50 (run_history_v2 s ++ [LabRunRecord_to_dict run]).
Proof.
  assert (histories_bounded s) as Hb.
  { apply exec_all_applied in Hr. eapply lab_applied_invariant; [| |exact Hr|by apply created_bounded].
    - intros c ev s1 s2 [He _]. by apply on_bounded.
    - exact direct_bounded. }
  split; [done|]. intros run. cbn. destruct Hb as [-> _ _]. by apply (append_bounded_eq 50).
Qed.

Lemma histories_keep_newest_witness : histories_bounded example_result.1.
Proof.
  exact (proj1 (histories_keep_newest (H := state_root_id) _ _ _ _ _ example_record_created lab_example_run_ok)).
Defined.

(** ** Topology revisions *)

(** Consecutive numbers and changing checksums. *)
Fixpoint revisions_linked (l : list LabRevision) : Prop :=
  match l with
  | r :: (r' :: _) as l' =>
      rev_revision r' = rev_revision r + 1 /\ rev_topology_checksum r <> rev_topology_checksum r'
      /\ revisions_linked l'
  | _ => True
  end.

Definition revisions_ok (s : LabRecordState) : Prop :=
  exists rs, revision_history s = map LabRevision_to_dict rs
    /\ Forall (fun r => LabRevision_post_init r = Ok r) rs
    /\ revisions_linked rs
    /\ revision s = default 1 (rev_revision <$> last rs).

Lemma revisions_linked_snoc rs r :
  revisions_linked rs ->
  (forall r0, last rs = Some r0 -> rev_revision r = rev_revision r0 + 1
                                /\ rev_topology_checksum r0 <> rev_topology_checksum r) ->
  revisions_linked (rs ++ [r]).
Proof.
  induction rs as [|r1 rs IH]; [done|]. intros Hl Hr. destruct rs as [|r2 rs].
  - cbn. destruct (Hr r1 eq_refl). done.
  - destruct Hl as (H1 & H2 & Hl). split; [done|]. split; [done|]. apply IH; [exact Hl|exact Hr].
Qed.

Lemma LabRevision_post_init_ok r r' : LabRevision_post_init r = Ok r' -> r' = r.
Proof. unfold LabRevision_post_init. intros. by inv_ok. Qed.

Lemma on_revisions c ev s s' : legal_event s ev -> on c ev s = Ok s' -> revisions_ok s -> revisions_ok s'.
Proof.
  intros (He & _ & Hok) Ho (rs & Hh & Hv & Hl & Hn). destruct ev; try discriminate He; handler_cases Ho;
    try (by exists rs); try (unfold sync_status; case_bool_decide; by exists rs).
  - (* import *)
    match goal with H : LabRevision_post_init ?r = Ok ?r' |- _ =>
      pose proof (LabRevision_post_init_ok _ _ H); subst r'; exists [r]; rename H into Hr end.
    split; [done|]. split; [by apply Forall_singleton|done].
  - (* a new revision *)
    match goal with H : LabRevision_post_init ?r = Ok ?r' |- _ =>
      pose proof (LabRevision_post_init_ok _ _ H); subst r'; rename H into Hr; exists (rs ++ [r]) end.
    destruct Hok as [Hnum Hsum]. cbn. rewrite Hh, map_app, last_snoc. split; [done|]. split; [|split; [|done]].
    + apply Forall_app. split; [done|]. by apply Forall_singleton.
    + apply revisions_linked_snoc; [done|]. intros r0 Hlast. cbn. rewrite Hnum, Hn, Hlast. split; [done|].
      apply Hsum.
      * rewrite Hh, fmap_last, Hlast. done.
      * rewrite Forall_forall in Hv. apply Hv. by apply last_Some_elem_of.
Qed.

Lemma mapM_revisions t rs : Forall (fun r => LabRevision_post_init r = Ok r) rs ->
  mapM (LabRevision_from_dict t) (map LabRevision_to_dict rs) = Ok rs.
Proof.
  induction 1 as [|r rs Hr _ IH]; [done|]. cbn -[LabRevision_from_dict].
  rewrite LabRevision_of_to_dict, Hr. cbn -[LabRevision_from_dict]. by rewrite IH.
Qed.

(** Revisions number the topology changes: after any run of commands the
    revision history reads back without error, its numbers are consecutive, no
    two neighbours have the same checksum, and the record's revision is the
    number of the last entry (1 while there is none). *)
Theorem revisions_consecutive `{RootId LabRecordState} digest s0 l s evs t
    (Hc : created s0) (Hr : exec_all digest l s0 = Ok (s, evs)) :
  exists rs, revision_history_vo t s = Ok rs /\ revisions_linked rs
             /\ revision s = default 1 (rev_revision <$> last rs).
Proof.
  assert (revisions_ok s) as (rs & Hh & Hv & Hl & Hn).
  { apply exec_all_applied in Hr. eapply lab_applied_invariant; [| |exact Hr|].
    - intros c ev. apply on_revisions.
    - intros s1 s2 [] (rs & ?); by exists rs.
    - exists []. destruct Hc as [(?&?&?&?&?&?&?&?&?&?&?&?&?&?&?&?&?&?&Hc)|(?&?&?&?&?&?&?&?&?&?&?&?&?&?&?&?&Hc)];
        creation_cases Hc; repeat split; constructor. }
  exists rs. unfold revision_history_vo. rewrite Hh. split; [by apply mapM_revisions|done].
Qed.

Definition example_spec (l : string) : LabTopologySpec := topo [tnode l].
Definition example_digest (c : canonical) : string := "sha:" +:+ py_join "," (map (fun n => n.1.1) (cn_nodes c)).

Definition revised : LabRecordState * list lab_event :=
  match exec_all (H := state_root_id) example_digest
          (map (pair example_clock)
             [UpdateTopology (utc 0) (example_spec "a") None; UpdateTopology (utc 0) (example_spec "a") None;
              UpdateTopology (utc 0) (example_spec "b") None]) example_record with
  | Ok r => r | Err _ => (example_record, []) end.

Lemma revisions_consecutive_witness :
  revision revised.1 = 3 /\
  exists rs, revision_history_vo (utc 0) revised.1 = Ok rs /\ revisions_linked rs
             /\ revision revised.1 = default 1 (rev_revision <$> last rs).
Proof.
  split; [vm_compute; reflexivity|].
  refine (revisions_consecutive (H := state_root_id) example_digest example_record
            (map (pair example_clock)
               [UpdateTopology (utc 0) (example_spec "a") None; UpdateTopology (utc 0) (example_spec "a") None;
                UpdateTopology (utc 0) (example_spec "b") None]) revised.1 revised.2 (utc 0)
            example_record_created _).
  vm_compute. reflexivity.
Defined.

(** ** Bindings and cleanliness *)

Definition clean_after (b : bool) (ev : lab_event) : bool :=
  match ev with BoundToLablet _ => false | Wiped _ => true | _ => b end.

Definition binding_after (b : option string) (ev : lab_event) : option string :=
  match ev with
  | BoundToLablet e => Some (BoundToLablet_binding_id e)
  | UnboundFromLablet e => if bool_decide (b = Some (UnboundFromLablet_binding_id e)) then None else b
  | _ => b
  end.

(** The session and the binding of a record are set and cleared together. *)
Definition bound_together (s : LabRecordState) : Prop :=
  is_Some (active_lablet_session_id s) <-> is_Some (active_binding_id s).

Lemma on_clean_binding c ev s s' : is_creation ev = false -> on c ev s = Ok s' ->
  is_clean s' = clean_after (is_clean s) ev
  /\ active_binding_id s' = binding_after (active_binding_id s) ev
  /\ (bound_together s -> bound_together s').
Proof.
  intros He Ho. unfold bound_together. destruct ev; try discriminate He; handler_cases Ho;
    try (unfold sync_status; by case_bool_decide);
    cbn; rewrite ?Heqb; (split; [done|]); (split; [done|]); intros Hb; try exact Hb;
    split; intros Hx; by destruct Hx || by eexists.
Qed.

(** Bindings and cleanliness are determined by the registered events: a
    record is clean exactly when it was clean and no binding followed, or it was
    wiped after its last binding; its active binding is the last one bound
    unless an unbinding of that same binding followed (unbinding any other is
    ignored); and it names a session exactly when it has a binding. *)
Theorem binding_from_events `{RootId LabRecordState} digest l s s' evs
    (Hr : exec_all digest l s = Ok (s', evs)) :
  is_clean s' = fold_left clean_after evs (is_clean s)
  /\ active_binding_id s' = fold_left binding_after evs (active_binding_id s)
  /\ (bound_together s -> bound_together s').
Proof.
  apply exec_all_applied in Hr. clear l. induction Hr as [s|c s ev s1 evs s2 [He _] Ho _ IH|s s1 evs s2 Hd _ IH].
  - done.
  - destruct (on_clean_binding _ _ _ _ He Ho) as (E1 & E2 & E3). destruct IH as (I1 & I2 & I3).
    cbn. rewrite <- E1, <- E2. auto.
  - destruct IH as (I1 & I2 & I3). destruct Hd; auto.
Qed.

Definition bound_run : LabRecordState * list lab_event :=
  match exec_all (H := state_root_id) (fun _ => "")
          (map (pair example_clock) [Bind "s-1" "b-1" "primary"; Unbind "s-2" "b-2"]) example_record with
  | Ok r => r | Err _ => (example_record, []) end.

Lemma binding_from_events_witness :
  is_clean bound_run.1 = false /\ active_binding_id bound_run.1 = Some "b-1".
Proof.
  destruct (binding_from_events (H := state_root_id) (fun _ => "")
              (map (pair example_clock) [Bind "s-1" "b-1" "primary"; Unbind "s-2" "b-2"])
              example_record bound_run.1 bound_run.2 ltac:(vm_compute; reflexivity)) as (E1 & E2 & _).
  split; [exact E1|exact E2].
Defined.

(** ** Pending actions *)

(** A failed action's message cannot be acknowledged: after
    [fail_pending_action] nothing is pending, so [clear_pending_action], the
    method documented for acknowledging a failure, and [complete_pending_action]
    register nothing and leave the message in place; only requesting another
    action removes it. *)
Theorem failed_action_not_cleared `{RootId LabRecordState} c c' m a s
    (Hid : forall s, root_id s = Some (id s))
    (Hp : pending_action s = Some a) (Ha : str_truthy a = true) :
  exists s' ev, fail_pending_action c m s = Ok (s', [ev])
    /\ pending_action s' = None /\ pending_action_error s' = Some m
    /\ clear_pending_action c' s' = Ok (s', []) /\ complete_pending_action c' s' = Ok (s', [])
    /\ forall action, exists s'' ev', request_action c' action s' = Ok (s'', [ev'])
         /\ pending_action s'' = Some action /\ pending_action_error s'' = None.
Proof.
  unfold fail_pending_action, clear_pending_action, complete_pending_action, request_action, on_pending.
  rewrite Hp, Ha, lab_aggregate_id_ok by done. cbn. do 2 eexists. split; [reflexivity|]. cbn.
  repeat split. intros action. rewrite lab_aggregate_id_ok by done. cbn. do 2 eexists. by repeat split.
Qed.

Definition pending_record : LabRecordState := booted_record <| pending_action := Some "stop" |>.

Lemma failed_action_not_cleared_witness :
  exists s' ev, fail_pending_action (H := state_root_id) example_clock "no route" pending_record = Ok (s', [ev])
    /\ pending_action_error s' = Some "no route"
    /\ clear_pending_action (H := state_root_id) example_clock s' = Ok (s', []).
Proof.
  destruct (failed_action_not_cleared (H := state_root_id) example_clock example_clock "no route" "stop"
              pending_record (fun _ => eq_refl) eq_refl eq_refl) as (s' & ev & E1 & _ & E2 & E3 & _).
  exists s', ev. auto.
Defined.

(** ** Orphaning *)

(** When a worker goes away, every record of it can be marked orphaned
    except one that is already orphaned, deleted or archived. *)
Theorem mark_orphaned_iff `{RootId LabRecordState} c s (Hid : forall s, root_id s = Some (id s)) :
  (exists s' evs, mark_orphaned c s = Ok (s', evs))
  <-> status s <> DELETED /\ status s <> ARCHIVED /\ status s <> ORPHANED.
Proof.
  unfold mark_orphaned, validate_transition.
  destruct (status s) eqn:E; cbn -[emit]; rewrite ?lab_aggregate_id_ok by done; cbn;
    (split; [intros (? & ? & ?); by repeat split|intros (? & ? & ?); try done; by do 2 eexists]).
Qed.

Lemma mark_orphaned_iff_witness :
  exists s' evs, mark_orphaned (H := state_root_id) example_clock booted_record = Ok (s', evs).
Proof.
  apply (proj2 (mark_orphaned_iff (H := state_root_id) example_clock booted_record (fun _ => eq_refl))).
  repeat split; discriminate.
Defined.
