(* ===== verification/Ports.v ===== *)
(** * Port templates and allocations ([control-plane-api/domain/value_objects/port_template.py], [port_allocation.py])

    The ports a definition asks for, how a template is read off the tags of a
    CML topology, and the record of the ports a session got. *)
From S2P Require Import Prelude PyData LabValues.
From Stdlib Require Import Ascii.

(** ** [PortDefinition] and [PortTemplate] *)
Record PortDefinition := {
  pd_name : string;
  pd_protocol : string;
  pd_description : option string
}.

Definition PortDefinition_post_init (p : PortDefinition) : res PortDefinition :=
  _ ← raise_if (negb (str_truthy (pd_name p))) (ValueError "Port name cannot be empty");
  _ ← raise_if (negb (bool_decide (pd_protocol p ∈ ["tcp"; "udp"])))
        (ValueError ("Invalid protocol '" +:+ pd_protocol p +:+ "'. Must be 'tcp' or 'udp'"));
  Ok p.

Definition PortDefinition_to_dict (p : PortDefinition) : pydict :=
  [("name", PStr (pd_name p)); ("protocol", PStr (pd_protocol p));
   ("description", of_ostr (pd_description p))].

Definition PortDefinition_from_dict (data : pydict) : res PortDefinition :=
  name ← dict_item "name" data ≫= as_str;
  protocol ← as_str (pd_get_or "protocol" (PStr "tcp") data);
  description ← as_ostr (pd_get "description" data);
  PortDefinition_post_init {| pd_name := name; pd_protocol := protocol; pd_description := description |}.

Record PortTemplate := { pt_ports : list PortDefinition }.

Definition port_count (t : PortTemplate) : nat := length (pt_ports t).
Definition port_names (t : PortTemplate) : list string := map pd_name (pt_ports t).

Definition PortTemplate_post_init (t : PortTemplate) : res PortTemplate :=
  _ ← raise_if (negb (bool_decide (NoDup (port_names t))))
        (ValueError "Port names must be unique within a template");
  Ok t.

Definition PortTemplate_to_dict (t : PortTemplate) : pydict :=
  [("ports", PList (map (fun p => PDict (PortDefinition_to_dict p)) (pt_ports t)))].

Definition PortTemplate_from_dict (data : pydict) : res PortTemplate :=
  ports ← as_list (pd_get_or "ports" (PList []) data)
            ≫= mapM (fun v => as_dict v ≫= PortDefinition_from_dict);
  PortTemplate_post_init {| pt_ports := ports |}.

Definition PortTemplate_empty : PortTemplate := {| pt_ports := [] |}.

(** ** Reading a template off CML tags *)

Definition CML_TCP_PROTOCOLS : list string := ["serial"; "vnc"; "ssh"; "telnet"; "tcp"; "http"; "https"].

Definition is_ascii_alpha (c : Ascii.ascii) : bool :=
  let n := Ascii.nat_of_ascii c in (((65 <=? n) && (n <=? 90)) || ((97 <=? n) && (n <=? 122)))%nat.
Definition is_ascii_digit (c : Ascii.ascii) : bool :=
  let n := Ascii.nat_of_ascii c in ((48 <=? n) && (n <=? 57))%nat.
(** [[a-zA-Z0-9_-]] *)
Definition is_name_char (c : Ascii.ascii) : bool :=
  is_ascii_alpha c || is_ascii_digit c || Ascii.eqb c "_"%char || Ascii.eqb c "-"%char.

Fixpoint str_forallb (p : Ascii.ascii -> bool) (s : string) : bool :=
  match s with EmptyString => true | String c s => p c && str_forallb p s end.

Fixpoint str_map (f : Ascii.ascii -> Ascii.ascii) (s : string) : string :=
  match s with EmptyString => EmptyString | String c s => String (f c) (str_map f s) end.

(** The text before the first colon and the text after it. *)
Fixpoint split_colon (s : string) : option (string * string) :=
  match s with
  | EmptyString => None
  | String c s' =>
      if Ascii.eqb c ":"%char then Some (EmptyString, s')
      else match split_colon s' with Some (a, b) => Some (String c a, b) | None => None end
  end.

(** Group 1 of [tag_pattern] on ASCII text: a letter followed by name characters,
    then a colon and digits, possibly none. *)
Definition match_tag (tag : string) : option string :=
  match split_colon tag with
  | Some (String c name, digits) =>
      if is_ascii_alpha c && str_forallb is_name_char name && str_forallb is_ascii_digit digits
      then Some (String c name) else None
  | _ => None
  end.

(** [re.sub(r"[^a-zA-Z0-9_-]", "_", label)] *)
Definition safe_label (label : string) : string :=
  str_map (fun c => if is_name_char c then c else "_"%char) label.

(** A node as the parsed topology gives it. *)
Record cml_node := { node_label : option string; node_tags : option (list string) }.

(** One tag of a node: the state is the ports so far and the names seen. *)
Definition add_tag (label : string) (acc : res (list PortDefinition * list string)) (tag : string)
    : res (list PortDefinition * list string) :=
  '(ports, seen) ← acc;
  match match_tag (py_strip tag) with
  | None => Ok (ports, seen)
  | Some group =>
      let protocol := py_lower group in
      if negb (bool_decide (protocol ∈ CML_TCP_PROTOCOLS)) then Ok (ports, seen) else
      let port_name := safe_label label +:+ "_" +:+ protocol in
      if bool_decide (port_name ∈ seen) then Ok (ports, seen) else
      p ← PortDefinition_post_init
            {| pd_name := port_name; pd_protocol := "tcp";
               pd_description := Some (protocol +:+ " on " +:+ label) |};
      Ok (ports ++ [p], seen ++ [port_name])
  end.

Definition add_node (acc : res (list PortDefinition * list string)) (node : cml_node)
    : res (list PortDefinition * list string) :=
  match node_label node with
  | Some label =>
      if str_truthy label then fold_left (add_tag label) (default [] (node_tags node)) acc else acc
  | None => acc
  end.

Definition from_cml_nodes (nodes : list cml_node) : res PortTemplate :=
  '(ports, _) ← fold_left add_node nodes (Ok ([], []));
  PortTemplate_post_init {| pt_ports := ports |}.

(** ** [PortAllocation] *)
Record PortAllocation := {
  pa_session_id : string;
  pa_ports : dict Z;
  pa_allocated_at : datetime
}.

(** The first port out of range, in the order of the mapping. *)
Fixpoint bad_port (ports : dict Z) : option (string * Z) :=
  match ports with
  | [] => None
  | (name, n) :: ports => if (n <? 2000) || (65535 <? n) then Some (name, n) else bad_port ports
  end.

Definition PortAllocation_post_init (a : PortAllocation) : res PortAllocation :=
  _ ← raise_if (negb (str_truthy (pa_session_id a))) (ValueError "session_id cannot be empty");
  match bad_port (pa_ports a) with
  | Some (name, n) =>
      Err (ValueError ("Port number " +:+ pretty n +:+ " for '" +:+ name
                         +:+ "' must be between 2000 and 65535"))
  | None => Ok a
  end.

Definition get_port (a : PortAllocation) (name : string) : option Z := dict_get name (pa_ports a).
Definition get_all_ports (a : PortAllocation) : list Z := dict_values (pa_ports a).

Definition PortAllocation_to_dict (a : PortAllocation) : pydict :=
  [("session_id", PStr (pa_session_id a)); ("ports", of_ports (pa_ports a));
   ("allocated_at", PIso (pa_allocated_at a))].

Definition as_ports (v : pyval) : res (dict Z) :=
  match v with PDict d => mapM (fun '(k, v) => z ← as_int v; Ok (k, z)) d | _ => Err bad_field end.

Definition PortAllocation_from_dict (t : datetime) (data : pydict) : res PortAllocation :=
  allocated_at ← read_time id t (pd_get "allocated_at" data);
  session ← as_str (pd_get_or "session_id" (pd_get_or "instance_id" (PStr "") data) data);
  ports ← as_ports (pd_get_or "ports" (PDict []) data);
  PortAllocation_post_init {| pa_session_id := session; pa_ports := ports; pa_allocated_at := allocated_at |}.

(** * Theorems *)

Lemma as_ports_of p : as_ports (of_ports p) = Ok p.
Proof. cbn. induction p as [|[k v] p IH]; cbn; [done|]. by rewrite IH. Qed.

(** What [add_tag] and [add_node] keep: the names seen are the names of the
    ports, without repetition, and every port is a TCP port. *)
Definition tags_ok (acc : res (list PortDefinition * list string)) : Prop :=
  exists ports seen, acc = Ok (ports, seen) /\ seen = map pd_name ports /\ NoDup seen
    /\ Forall (fun p => pd_protocol p = "tcp" /\ str_truthy (pd_name p) = true) ports.

Lemma str_truthy_app_r a b : str_truthy b = true -> str_truthy (a +:+ b) = true.
Proof. unfold str_truthy. destruct a; cbn; [done|]. done. Qed.

Lemma add_tag_ok label tag acc : tags_ok acc -> tags_ok (add_tag label acc tag).
Proof.
  intros (ports & seen & -> & -> & Hnd & Hf). cbn -[safe_label]. unfold tags_ok.
  destruct (match_tag (py_strip tag)) as [group|]; [|by exists ports, (map pd_name ports)].
  destruct (bool_decide (py_lower group ∈ CML_TCP_PROTOCOLS)); cbn -[safe_label];
    [|by exists ports, (map pd_name ports)].
  case_bool_decide as Hin; [by exists ports, (map pd_name ports)|].
  assert (str_truthy (safe_label label +:+ "_" +:+ py_lower group) = true) as Ht
    by (apply str_truthy_app_r; done).
  unfold PortDefinition_post_init. cbn -[safe_label]. rewrite Ht. cbn -[safe_label].
  do 2 eexists. split; [reflexivity|]. split; [by rewrite map_app|]. split.
  - apply NoDup_app. repeat split; [done| |apply NoDup_singleton].
    intros x Hx ->%list_elem_of_singleton. done.
  - apply Forall_app. split; [done|]. by apply Forall_singleton.
Qed.

Lemma add_node_ok acc node : tags_ok acc -> tags_ok (add_node acc node).
Proof.
  intros Hok. unfold add_node. destruct (node_label node) as [label|]; [|done].
  destruct (str_truthy label); [|done]. revert acc Hok.
  induction (default [] (node_tags node)) as [|tag tags IH]; intros acc Hok; cbn [fold_left]; [done|].
  apply IH. by apply add_tag_ok.
Qed.

(** Reading a template off a topology never fails, whatever the labels and
    tags: the names it makes are pairwise distinct and non-empty and every port
    is a TCP port, so the constructors' checks pass. *)
Theorem from_cml_nodes_total nodes :
  exists t, from_cml_nodes nodes = Ok t /\ NoDup (port_names t)
            /\ Forall (fun p => pd_protocol p = "tcp" /\ str_truthy (pd_name p) = true) (pt_ports t).
Proof.
  assert (tags_ok (fold_left add_node nodes (Ok ([], [])))) as (ports & seen & E & -> & Hnd & Hf).
  { assert (tags_ok (Ok ([], []))) as H0 by (exists [], []; repeat split; constructor).
    revert H0. generalize (Ok (A := list PortDefinition * list string) ([], [])).
    induction nodes as [|n nodes IH]; intros acc Hok; cbn [fold_left]; [done|].
    apply IH. by apply add_node_ok. }
  unfold from_cml_nodes. rewrite E. cbn. unfold PortTemplate_post_init.
  rewrite bool_decide_eq_true_2 by done. cbn. eauto.
Qed.

Lemma PortTemplate_of_to_dict t : Forall (fun p => PortDefinition_post_init p = Ok p) (pt_ports t) ->
  PortTemplate_from_dict (PortTemplate_to_dict t) = PortTemplate_post_init t.
Proof.
  destruct t as [ps]. unfold PortTemplate_from_dict, PortTemplate_to_dict. cbn -[mapM]. intros Hf.
  assert (mapM (fun v => as_dict v ≫= PortDefinition_from_dict)
            (map (fun p => PDict (PortDefinition_to_dict p)) ps) = Ok ps) as ->; [|done].
  induction Hf as [|p ps Hp _ IH]; cbn -[PortDefinition_from_dict]; [done|].
  assert (PortDefinition_from_dict (PortDefinition_to_dict p) = PortDefinition_post_init p) as -> by
    by destruct p as [? ? []].
  rewrite Hp. cbn -[PortDefinition_from_dict]. by rewrite IH.
Qed.

Lemma bad_port_None ports : bad_port ports = None <-> Forall (fun n => 2000 <= n <= 65535) (dict_values ports).
Proof.
  unfold dict_values. induction ports as [|[name n] ports IH]; cbn; [split; [constructor|done]|].
  destruct (Z.ltb_spec n 2000), (Z.ltb_spec 65535 n); cbn; rewrite Forall_cons, <- ?IH;
    naive_solver lia.
Qed.

Lemma PortAllocation_post_init_ok a a' :
  PortAllocation_post_init a = Ok a' <->
  a' = a /\ str_truthy (pa_session_id a) = true /\ Forall (fun n => 2000 <= n <= 65535) (dict_values (pa_ports a)).
Proof.
  unfold PortAllocation_post_init. rewrite <- bad_port_None.
  destruct (str_truthy (pa_session_id a)); cbn; [|naive_solver].
  destruct (bad_port (pa_ports a)) as [[]|]; naive_solver.
Qed.
