(* ===== verification/PortService.v ===== *)
(** * Port allocation ([etcd_state_store.py] and [application/services/port_allocation_service.py])

    The service and the store operations it calls are programs over the two
    requests they send to etcd, a read and a write of one worker's key; each
    request is a point where other coroutines can run.  [run] executes a program
    alone; [PortRace] interleaves several. *)
From S2P Require Import Prelude PyData Ports.

(** ** Programs over etcd *)

(** The allocations of one worker: session to port name to port number.  They
    are stored as JSON text, which reads back as the same dict. *)
Abbreviation allocations := (dict (dict Z)).

(** The keys [/lcm/workers/{id}/ports], by worker. *)
Abbreviation store := (gmap string allocations).

Inductive prog (A : Type) :=
| Ret (a : A)
| Get (worker : string) (k : option allocations -> prog A)
| Put (worker : string) (allocs : allocations) (k : prog A).
Arguments Ret {_} _.
Arguments Get {_} _ _.
Arguments Put {_} _ _ _.

#[export] Instance prog_ret : MRet prog := @Ret.
#[export] Instance prog_bind : MBind prog :=
  fun A B (f : A -> prog B) => fix go (p : prog A) : prog B :=
    match p with
    | Ret a => f a
    | Get w k => Get w (fun r => go (k r))
    | Put w a k => Put w a (go k)
    end.

(** A program running alone. *)
Fixpoint run {A} (p : prog A) (σ : store) : A * store :=
  match p with
  | Ret a => (a, σ)
  | Get w k => run (k (σ !! w)) σ
  | Put w a k => run k (<[w := a]> σ)
  end.

(** ** [EtcdStateStore]: port operations *)

Definition get_worker_ports (worker : string) : prog (option allocations) := Get worker Ret.
Definition set_worker_ports (worker : string) (a : allocations) : prog () := Put worker a (Ret ()).

(** The ports of all sessions. *)
Definition used_ports (a : allocations) : gset Z :=
  foldr (fun p acc => list_to_set (dict_values p.2) ∪ acc) ∅ a.

Definition allocate_session_ports (worker session : string) (ports : dict Z) : prog bool :=
  current ← get_worker_ports worker;
  let a := default [] current in
  if existsb (fun port => bool_decide (port ∈ used_ports a)) (dict_values ports) then mret false else
  _ ← set_worker_ports worker (dict_set session ports a);
  mret true.

Definition release_session_ports (worker session : string) : prog (option (dict Z)) :=
  current ← get_worker_ports worker;
  match current with
  | None => mret None
  | Some a =>
      match dict_get session a with
      | None => mret None
      | Some released => _ ← set_worker_ports worker (dict_pop session a); mret (Some released)
      end
  end.

Definition get_allocated_ports_for_worker (worker : string) : prog (gset Z) :=
  current ← get_worker_ports worker;
  mret (match current with None => ∅ | Some a => used_ports a end).

(** ** [PortAllocationService] *)

Definition PORT_RANGE_MIN : Z := 2000.
Definition PORT_RANGE_MAX : Z := 9999.

Record PortAllocationResult := {
  success : bool;
  allocation : option PortAllocation;
  error : option string;
  allocated_ports : option (dict Z)
}.

Definition failed (message : string) : PortAllocationResult :=
  {| success := false; allocation := None; error := Some message; allocated_ports := None |}.

Section Service.
Context (range_min range_max : Z).

(** The [while] loop of [_find_available_ports], with fuel. *)
Fixpoint find_loop (fuel : nat) (allocated : gset Z) (count : nat) (available : list Z) (port : Z)
    : list Z :=
  match fuel with
  | O => available
  | S fuel =>
      if (length available <? count)%nat && (port <=? range_max) then
        find_loop fuel allocated count
          (if bool_decide (port ∉ allocated) then available ++ [port] else available) (port + 1)
      else available
  end.

(** Every iteration moves to the next port of the range. *)
Definition find_fuel : nat := Z.to_nat (range_max - range_min + 1).

Definition find_available_ports (allocated : gset Z) (count : nat) : list Z :=
  find_loop find_fuel allocated count [] range_min.

(** [port_mapping[port_def.name] = available_ports[i]] for each port. *)
Definition port_mapping (names : list string) (available : list Z) : dict Z :=
  fold_left (fun d p => dict_set p.1 p.2 d) (combine names available) [].

Definition allocate_ports (t : datetime) (worker session : string) (template : PortTemplate)
    : prog (res PortAllocationResult) :=
  if negb (str_truthy worker) then mret (Ok (failed "worker_id is required")) else
  if negb (str_truthy session) then mret (Ok (failed "session_id is required")) else
  if (port_count template =? 0)%nat then
    mret (a ← PortAllocation_post_init {| pa_session_id := session; pa_ports := []; pa_allocated_at := t |};
          Ok {| success := true; allocation := Some a; error := None; allocated_ports := Some [] |}) else
  if range_max <=? range_min then
    mret (Ok (failed ("Invalid port range: " +:+ pretty range_min +:+ "-" +:+ pretty range_max))) else
  allocated ← get_allocated_ports_for_worker worker;
  let required := port_count template in
  let available := find_available_ports allocated required in
  if (length available <? required)%nat then
    mret (Ok (failed ("Not enough ports available. Need " +:+ pretty (Z.of_nat required) +:+ ", have "
      +:+ pretty (range_max - range_min + 1 - Z.of_nat (size allocated)) +:+ " free")))
  else
    let mapping := port_mapping (port_names template) available in
    ok ← allocate_session_ports worker session mapping;
    if negb ok then
      mret (Ok (failed "Port allocation conflict - ports already allocated (race condition)"))
    else
      mret (match PortAllocation_post_init
                    {| pa_session_id := session; pa_ports := mapping; pa_allocated_at := t |} with
            | Ok a => Ok {| success := true; allocation := Some a; error := None;
                            allocated_ports := Some mapping |}
            | Err e => Ok (failed ("Allocation failed: " +:+ exn_str e))
            end).

Definition release_ports (worker session : string) : prog (option (dict Z)) :=
  if negb (str_truthy worker) || negb (str_truthy session) then mret None
  else release_session_ports worker session.

Definition get_allocated_ports (worker session : string) : prog (option (dict Z)) :=
  worker_ports ← get_worker_ports worker;
  mret (match worker_ports with None => None | Some a => dict_get session a end).

Definition get_all_allocated_ports (worker : string) : prog allocations :=
  worker_ports ← get_worker_ports worker; mret (default [] worker_ports).

Definition validate_port_availability (worker : string) (template : PortTemplate)
    : prog (bool * option string) :=
  if (port_count template =? 0)%nat then mret (true, None) else
  allocated ← get_allocated_ports_for_worker worker;
  let available_count := range_max - range_min + 1 - Z.of_nat (size allocated) in
  mret (if Z.of_nat (port_count template) <=? available_count then (true, None)
        else (false, Some ("Need " +:+ pretty (Z.of_nat (port_count template)) +:+ " ports, only "
                           +:+ pretty available_count +:+ " available"))).

(** [_validate_ports_in_range] *)
Fixpoint validate_ports_in_range (ports : dict Z) : bool * option string :=
  match ports with
  | [] => (true, None)
  | (name, port) :: ports =>
      if (port <? range_min) || (range_max <? port) then
        (false, Some ("Port " +:+ pretty port +:+ " for '" +:+ name +:+ "' is outside valid range "
                        +:+ pretty range_min +:+ "-" +:+ pretty range_max))
      else validate_ports_in_range ports
  end.
End Service.

Lemma prog_run_bind {A B} (p : prog A) (f : A -> prog B) σ :
  run (p ≫= f) σ = let '(a, σ') := run p σ in run (f a) σ'.
Proof. revert σ. induction p as [a|w k IH|w a k IH]; intros σ; cbn; [done|apply IH|apply IH]. Qed.

Lemma run_ret {A} (a : A) σ : run (mret a) σ = (a, σ).
Proof. done. Qed.

Definition allocations_of (σ : store) (worker : string) : allocations := default [] (σ !! worker).

Lemma run_get_allocated worker σ :
  run (get_allocated_ports_for_worker worker) σ = (used_ports (allocations_of σ worker), σ).
Proof. unfold allocations_of. cbn. by destruct (σ !! worker). Qed.

Lemma run_allocate_session worker session ports σ :
  run (allocate_session_ports worker session ports) σ =
  if existsb (fun port => bool_decide (port ∈ used_ports (allocations_of σ worker))) (dict_values ports)
  then (false, σ)
  else (true, <[worker := dict_set session ports (allocations_of σ worker)]> σ).
Proof. unfold allocations_of. cbn. by destruct (existsb _ _). Qed.
#[export] Hint Rewrite @prog_run_bind @run_ret run_get_allocated run_allocate_session : lcm.
