(* ===== verification/PortServiceProps.v ===== *)
(** * Correctness of port allocation for one caller at a time

    The search loop against its specification, the outcome of an allocation, the
    disjointness of allocations under any sequence of calls, release, the
    availability check, and the allocation that a misconfigured range leaks. *)
From stdpp Require Import sorting.
From S2P Require Import Prelude PyData Ports PortService.

(** ** The search *)

(** The free ports from [port] to [last], ascending. *)
Definition free_ports (allocated : gset Z) (port last : Z) : list Z :=
  filter (fun p => p ∉ allocated) (seqZ port (last + 1 - port)).

Lemma free_ports_step allocated port last : port <= last ->
  free_ports allocated port last
  = (if bool_decide (port ∉ allocated) then [port] else []) ++ free_ports allocated (port + 1) last.
Proof.
  intros Hle. unfold free_ports. rewrite seqZ_cons by lia. rewrite filter_cons.
  replace (Z.pred (last + 1 - port)) with (last + 1 - (port + 1)) by lia.
  replace (Z.succ port) with (port + 1) by lia.
  destruct (decide (port ∉ allocated)) as [H|H].
  - by rewrite bool_decide_eq_true_2.
  - by rewrite bool_decide_eq_false_2.
Qed.

Lemma find_loop_spec last fuel allocated count available port :
  Z.to_nat (last + 1 - port) = fuel -> (length available <= count)%nat ->
  find_loop last fuel allocated count available port
  = available ++ take (count - length available) (free_ports allocated port last).
Proof.
  revert available port. induction fuel as [|fuel IH]; intros available port Hf Hc; cbn [find_loop].
  - unfold free_ports. rewrite (seqZ_nil port) by lia. cbn. by rewrite take_nil, app_nil_r.
  - destruct (Nat.ltb_spec (length available) count); cbn [andb].
    2: { replace (count - length available)%nat with 0%nat by lia. by rewrite app_nil_r. }
    rewrite (proj2 (Z.leb_le port last)) by lia. rewrite free_ports_step by lia.
    case_bool_decide as Hin.
    + rewrite IH by (rewrite ?length_app; cbn; lia). rewrite length_app. cbn.
      replace (count - length available)%nat with (S (count - (length available + 1))) by lia. cbn.
      by rewrite <- app_assoc.
    + rewrite IH by lia. done.
Qed.

Lemma free_ports_spec allocated lo hi p : p ∈ free_ports allocated lo hi <-> lo <= p <= hi /\ p ∉ allocated.
Proof. unfold free_ports. rewrite list_elem_of_filter, elem_of_seqZ. naive_solver lia. Qed.

Lemma free_ports_NoDup allocated lo hi : NoDup (free_ports allocated lo hi).
Proof. apply NoDup_filter, NoDup_seqZ. Qed.

Lemma find_available_eq range_min range_max allocated count :
  find_available_ports range_min range_max allocated count
  = take count (free_ports allocated range_min range_max).
Proof.
  unfold find_available_ports, find_fuel. rewrite find_loop_spec; cbn; [|f_equal; lia|lia].
  by rewrite Nat.sub_0_r.
Qed.

Lemma free_ports_sorted allocated lo hi : StronglySorted Z.lt (free_ports allocated lo hi).
Proof.
  remember (Z.to_nat (hi + 1 - lo)) as n eqn:Hn. revert lo Hn. induction n as [|n IH]; intros lo Hn.
  - unfold free_ports. rewrite (seqZ_nil lo) by lia. constructor.
  - rewrite free_ports_step by lia. case_bool_decide; cbn [app]; [|apply IH; lia]. constructor; [apply IH; lia|].
    apply Forall_forall. intros p Hp%free_ports_spec. lia.
Qed.

(** The search is first fit: [_find_available_ports] terminates within one
    iteration per port of the range; it returns free ports of the range in
    ascending order, as many as asked for or all there are, and never passes
    over a free port that is lower than one it returns. *)
Theorem find_available_first_fit range_min range_max allocated count :
  let found := find_available_ports range_min range_max allocated count in
  StronglySorted Z.lt found /\
  length found = Nat.min count (length (free_ports allocated range_min range_max)) /\
  (forall p, p ∈ found -> range_min <= p <= range_max /\ p ∉ allocated) /\
  (forall p q, q ∈ found -> range_min <= p < q -> p ∉ allocated -> p ∈ found).
Proof.
  intros found. unfold found. rewrite find_available_eq.
  pose proof (free_ports_sorted allocated range_min range_max) as Hs.
  set (l := free_ports allocated range_min range_max) in *.
  assert (forall p, p ∈ take count l -> p ∈ l) as Ht by (intros p Hp; eapply elem_of_sublist; [exact Hp|apply sublist_take]).
  rewrite <- (take_drop count l) in Hs. split; [by eapply StronglySorted_app_1_l|].
  split; [apply length_take|]. split; [intros p Hp%Ht; by apply free_ports_spec|].
  intros p q Hq Hpq Hp. assert (p ∈ l) as Hin.
  { apply free_ports_spec. split; [|done]. apply Ht, free_ports_spec in Hq. lia. }
  rewrite <- (take_drop count l), elem_of_app in Hin. destruct Hin as [|Hd]; [done|].
  pose proof (StronglySorted_app_1_elem_of _ _ _ _ _ Hs Hq Hd). lia.
Qed.

Lemma find_available_NoDup lo hi allocated count : NoDup (find_available_ports lo hi allocated count).
Proof.
  rewrite find_available_eq. eapply sublist_NoDup; [apply (free_ports_NoDup allocated lo hi)|].
  apply sublist_take.
Qed.

Lemma find_available_elem lo hi allocated count p :
  p ∈ find_available_ports lo hi allocated count -> lo <= p <= hi /\ p ∉ allocated.
Proof.
  rewrite find_available_eq. intros Hp. apply free_ports_spec. apply elem_of_take in Hp as (i & Hi & _).
  by eapply list_elem_of_lookup_2.
Qed.

(** ** The mapping of names to ports *)

Lemma port_mapping_combine names available : NoDup names -> length available = length names ->
  port_mapping names available = combine names available.
Proof.
  intros Hnd Hl. change (port_mapping names available) with (dict_of fst snd (combine names available)).
  rewrite dict_of_NoDup.
  - rewrite <- (map_id (combine names available)) at 2. apply map_ext. by intros [].
  - revert available Hl. induction names as [|n names IH]; intros [|p available]; cbn; intros Hl; try done;
      try (by constructor). apply NoDup_cons in Hnd as [Hn Hnd]. apply NoDup_cons. split.
    + intros Hin. apply Hn. apply list_elem_of_fmap in Hin as ([n' p'] & -> & Hin). cbn.
      apply list_elem_of_In, in_combine_l in Hin. by apply list_elem_of_In.
    + apply IH; [done|lia].
Qed.

Lemma dict_keys_combine (names : list string) (ps : list Z) : length ps = length names ->
  dict_keys (combine names ps) = names /\ dict_values (combine names ps) = ps.
Proof.
  unfold dict_keys, dict_values. revert ps. induction names as [|n names IH]; intros [|p ps]; cbn; try done.
  intros Hl. destruct (IH ps) as [-> ->]; [lia|done].
Qed.

(** ** All ports of a worker *)
Definition all_ports (a : allocations) : list Z := concat (map (fun p => dict_values p.2) a).

Lemma used_ports_elem a p : p ∈ used_ports a <-> p ∈ all_ports a.
Proof.
  unfold used_ports, all_ports. induction a as [|[s ps] a IH]; cbn; [set_solver|].
  rewrite elem_of_union, elem_of_app, elem_of_list_to_set, IH. done.
Qed.

Lemma all_ports_set s ps a p : p ∈ all_ports (dict_set s ps a) -> p ∈ dict_values ps \/ p ∈ all_ports a.
Proof.
  unfold all_ports. induction a as [|[s' ps'] a IH]; cbn; [rewrite app_nil_r; auto|].
  destruct (String.eqb s s'); cbn; rewrite !elem_of_app; naive_solver.
Qed.

Lemma all_ports_set_NoDup s ps a :
  NoDup (all_ports a) -> NoDup (dict_values ps) -> (forall p, p ∈ dict_values ps -> p ∉ all_ports a) ->
  NoDup (all_ports (dict_set s ps a)).
Proof.
  unfold all_ports. induction a as [|[s' ps'] a IH]; cbn; intros Ha Hp Hd; [by rewrite app_nil_r|].
  apply NoDup_app in Ha as (H1 & H2 & H3). destruct (String.eqb s s'); cbn; apply NoDup_app.
  - repeat split; [done| |done]. intros p Hin Hin'. apply (Hd p Hin). apply elem_of_app. by right.
  - repeat split; [done| |].
    + intros p Hin Hin'. apply all_ports_set in Hin' as [Hin'|Hin']; [|by eapply H2].
      apply (Hd p Hin'). apply elem_of_app. by left.
    + apply IH; [done..|]. intros p Hin Hin'. apply (Hd p Hin). apply elem_of_app. by right.
Qed.

Lemma all_ports_pop_NoDup s a : NoDup (all_ports a) -> NoDup (all_ports (dict_pop s a)).
Proof.
  unfold all_ports. intros Ha. eapply sublist_NoDup; [exact Ha|]. clear Ha.
  induction a as [|[s' ps'] a IH]; cbn; [done|]. destruct (String.eqb s s'); cbn.
  - by apply sublist_inserts_l.
  - by apply sublist_app.
Qed.

(** No port of a worker is allocated twice, and no session is listed twice. *)
Definition disjoint (a : allocations) : Prop := NoDup (all_ports a) /\ NoDup (dict_keys a).
Definition store_ok (σ : store) : Prop := forall w a, σ !! w = Some a -> disjoint a.

Lemma store_ok_at σ w : store_ok σ -> disjoint (allocations_of σ w).
Proof.
  intros Hs. unfold allocations_of. destruct (σ !! w) eqn:E; cbn; [by eapply Hs|].
  split; [constructor|constructor].
Qed.

Lemma store_ok_insert σ w a : store_ok σ -> disjoint a -> store_ok (<[w := a]> σ).
Proof.
  intros Hs Ha w' a' Hl. destruct (decide (w = w')) as [->|Hne].
  - rewrite lookup_insert_eq in Hl. by simplify_eq.
  - rewrite lookup_insert_ne in Hl by done. by eapply Hs.
Qed.

Lemma conflict_free a ps :
  existsb (fun port => bool_decide (port ∈ used_ports a)) ps = false
  <-> forall p, p ∈ ps -> p ∉ all_ports a.
Proof.
  split.
  - intros He p Hin Hu. apply used_ports_elem in Hu.
    assert (existsb (fun port => bool_decide (port ∈ used_ports a)) ps = true) as Ht; [|congruence].
    apply existsb_exists. exists p. split; [by apply list_elem_of_In|]. by apply bool_decide_eq_true_2.
  - intros Hf. destruct (existsb _ _) eqn:E; [|done]. exfalso.
    apply existsb_exists in E as (p & Hin & Hu). apply list_elem_of_In in Hin.
    apply bool_decide_eq_true, used_ports_elem in Hu. by eapply Hf.
Qed.

(** The write of an allocation keeps the worker's ports disjoint. *)
Lemma disjoint_set s ps a : disjoint a -> NoDup (dict_values ps) ->
  (forall p, p ∈ dict_values ps -> p ∉ all_ports a) -> disjoint (dict_set s ps a).
Proof.
  intros [Ha Hk] Hp Hd. split; [by apply all_ports_set_NoDup|by apply dict_set_NoDup].
Qed.

(** ** One allocation *)

Section Allocate.
Context (range_min range_max : Z).

(** What a request needs to reach the search. *)
Record request_ok (worker session : string) (template : PortTemplate) : Prop := {
  ro_worker : str_truthy worker = true;
  ro_session : str_truthy session = true;
  ro_names : NoDup (port_names template);
  ro_some : pt_ports template <> [];
  ro_range : range_min < range_max
}.

(** The mapping first fit gives a template. *)
Definition first_fit (σ : store) (worker : string) (template : PortTemplate) : dict Z :=
  combine (port_names template)
    (take (port_count template) (free_ports (used_ports (allocations_of σ worker)) range_min range_max)).

Definition free_count (σ : store) (worker : string) : nat :=
  length (free_ports (used_ports (allocations_of σ worker)) range_min range_max).

Lemma first_fit_values σ worker template : (port_count template <= free_count σ worker)%nat ->
  dict_keys (first_fit σ worker template) = port_names template
  /\ NoDup (dict_values (first_fit σ worker template))
  /\ forall p, p ∈ dict_values (first_fit σ worker template) ->
       range_min <= p <= range_max /\ p ∉ all_ports (allocations_of σ worker).
Proof.
  intros Hc. unfold first_fit. destruct (dict_keys_combine (port_names template)
    (take (port_count template) (free_ports (used_ports (allocations_of σ worker)) range_min range_max)))
    as [-> ->].
  { rewrite length_take. unfold free_count in Hc. unfold port_names. rewrite length_map.
    unfold port_count in *. lia. }
  split; [done|]. rewrite <- find_available_eq. split; [apply find_available_NoDup|].
  intros p Hp. apply find_available_elem in Hp. by rewrite used_ports_elem in Hp.
Qed.

(** Up to the write: the search fails, or the mapping passes the conflict
    check and is written. *)
Lemma allocate_run t worker session template σ : request_ok worker session template ->
  run (allocate_ports range_min range_max t worker session template) σ =
  if (free_count σ worker <? port_count template)%nat
  then (Ok (failed ("Not enough ports available. Need " +:+ pretty (Z.of_nat (port_count template)) +:+ ", have "
         +:+ pretty (range_max - range_min + 1 - Z.of_nat (size (used_ports (allocations_of σ worker)))) +:+ " free")), σ)
  else (match PortAllocation_post_init {| pa_session_id := session; pa_ports := first_fit σ worker template;
                                          pa_allocated_at := t |} with
        | Ok a => Ok {| success := true; allocation := Some a; error := None;
                        allocated_ports := Some (first_fit σ worker template) |}
        | Err e => Ok (failed ("Allocation failed: " +:+ exn_str e))
        end,
        <[worker := dict_set session (first_fit σ worker template) (allocations_of σ worker)]> σ).
Proof.
  intros [Hw Hs Hn Hp Hr]. unfold allocate_ports. rewrite Hw, Hs. cbn [negb].
  assert (port_count template <> 0%nat) as Hc by (unfold port_count; by destruct (pt_ports template)).
  rewrite (proj2 (Nat.eqb_neq _ _) Hc), (proj2 (Z.leb_gt _ _) Hr), prog_run_bind, run_get_allocated.
  cbv beta iota zeta. rewrite find_available_eq, length_take.
  assert ((Nat.min (port_count template) (free_count σ worker) <? port_count template)%nat
          = (free_count σ worker <? port_count template)%nat) as E.
  { destruct (Nat.ltb_spec (free_count σ worker) (port_count template)); [apply Nat.ltb_lt|apply Nat.ltb_ge]; lia. }
  unfold free_count in E |- *. rewrite E. clear E.
  fold (free_count σ worker). destruct (Nat.ltb_spec (free_count σ worker) (port_count template)) as [|Hge]; [done|].
  rewrite port_mapping_combine; [|done|].
  2: { rewrite length_take. unfold port_names, port_count, free_count in *. rewrite length_map. lia. }
  fold (first_fit σ worker template). rewrite prog_run_bind, run_allocate_session.
  destruct (first_fit_values σ worker template Hge) as (_ & _ & Hfree).
  assert (existsb (fun port => bool_decide (port ∈ used_ports (allocations_of σ worker)))
            (dict_values (first_fit σ worker template)) = false) as ->.
  { apply conflict_free. intros p Hp'. by apply (Hfree p Hp'). }
  reflexivity.
Qed.

Lemma first_fit_accepted t session σ worker template :
  request_ok worker session template -> 2000 <= range_min -> range_max <= 65535 ->
  (port_count template <= free_count σ worker)%nat ->
  let a := {| pa_session_id := session; pa_ports := first_fit σ worker template; pa_allocated_at := t |} in
  PortAllocation_post_init a = Ok a.
Proof.
  intros Hr Hlo Hhi Hge a. destruct (first_fit_values σ worker template Hge) as (_ & _ & Hin).
  apply PortAllocation_post_init_ok. cbn. split; [done|]. split; [by destruct Hr|].
  apply Forall_forall. intros p Hp. apply Hin in Hp. lia.
Qed.


(** A range that reaches outside 2000-65535 leaks: when the lowest free
    port is out of bounds the value object refuses the mapping after it was
    written, so the caller is told the allocation failed while the store keeps
    the ports for the session. *)
Theorem misconfigured_range_leaks t worker session template σ p
    (Hr : request_ok worker session template)
    (Henough : (port_count template <= free_count σ worker)%nat)
    (Hp : p ∈ dict_values (first_fit σ worker template)) (Hbad : p < 2000 \/ 65535 < p) :
  exists r, (run (allocate_ports range_min range_max t worker session template) σ).1 = Ok r
    /\ success r = false
    /\ dict_get session (allocations_of (run (allocate_ports range_min range_max t worker session template) σ).2 worker)
       = Some (first_fit σ worker template).
Proof.
  rewrite allocate_run by done. rewrite (proj2 (Nat.ltb_ge _ _) Henough). cbn [fst snd].
  assert (dict_get session (allocations_of
    (<[worker := dict_set session (first_fit σ worker template) (allocations_of σ worker)]> σ) worker)
    = Some (first_fit σ worker template)) as Hg.
  { unfold allocations_of at 1. rewrite lookup_insert_eq. cbn. apply dict_get_set_eq. }
  destruct (PortAllocation_post_init _) as [a|e] eqn:E; [|eexists; by split].
  apply PortAllocation_post_init_ok in E as (_ & _ & Hall). rewrite Forall_forall in Hall.
  apply Hall in Hp. lia.
Qed.

(** ** The availability check *)

Lemma free_count_lower allocated :
  (Z.to_nat (range_max - range_min + 1) <= length (free_ports allocated range_min range_max) + size allocated)%nat.
Proof.
  unfold free_ports. set (l := seqZ range_min (range_max + 1 - range_min)).
  assert (length l = Z.to_nat (range_max - range_min + 1)) as <- by (unfold l; rewrite length_seqZ; lia).
  assert (length (filter (fun p => p ∈ allocated) l) <= size allocated)%nat as Hu.
  { assert (NoDup (filter (fun p => p ∈ allocated) l)) as Hnd by (apply NoDup_filter, NoDup_seqZ).
    rewrite <- (size_list_to_set (C := gset Z)) by done. apply subseteq_size.
    intros p. rewrite elem_of_list_to_set, list_elem_of_filter. naive_solver. }
  enough (length l = length (filter (fun p => p ∉ allocated) l) + length (filter (fun p => p ∈ allocated) l))%nat by lia.
  clear. induction l as [|x l IH]; [done|]. rewrite !filter_cons.
  destruct (decide (x ∈ allocated)), (decide (x ∉ allocated)); cbn; try done; lia.
Qed.

(** The availability check used before scheduling is sound: when it says a
    template fits and nothing else runs in between, the allocation succeeds.
    It also changes nothing. *)
Theorem availability_sound t worker session template σ
    (Hr : request_ok worker session template) (Hlo : 2000 <= range_min) (Hhi : range_max <= 65535)
    (Hv : (run (validate_port_availability range_min range_max worker template) σ).1.1 = true) :
  (run (validate_port_availability range_min range_max worker template) σ).2 = σ
  /\ exists r, (run (allocate_ports range_min range_max t worker session template) σ).1 = Ok r /\ success r = true.
Proof.
  unfold validate_port_availability in *.
  assert (port_count template <> 0%nat) as Hc.
  { destruct Hr as [_ _ _ Hne _]. unfold port_count. by destruct (pt_ports template). }
  rewrite (proj2 (Nat.eqb_neq _ _) Hc) in *. rewrite prog_run_bind, run_get_allocated in *. cbn in *.
  split; [done|]. rewrite allocate_run by done.
  destruct (Z.leb_spec (Z.of_nat (port_count template))
    (range_max - range_min + 1 - Z.of_nat (size (used_ports (allocations_of σ worker))))); [|done].
  pose proof (free_count_lower (used_ports (allocations_of σ worker))) as Hf.
  assert (port_count template <= free_count σ worker)%nat as Hge by (unfold free_count; lia).
  rewrite (proj2 (Nat.ltb_ge _ _) Hge), first_fit_accepted by done. eexists. by split.
Qed.
End Allocate.

(** ** Witnesses *)

Definition example_template : PortTemplate :=
  {| pt_ports := [{| pd_name := "serial_1"; pd_protocol := "tcp"; pd_description := None |};
                  {| pd_name := "vnc_1"; pd_protocol := "tcp"; pd_description := None |}] |}.

Definition example_store : store := {[ "w-1" := [("s-0", [("ssh", 2000); ("http", 2002)])] ]}.

Lemma example_request lo hi s : lo < hi -> str_truthy s = true -> request_ok lo hi "w-1" s example_template.
Proof. intros Hr Hs. split; try done. apply (bool_decide_unpack _). reflexivity. Qed.


Lemma misconfigured_range_leaks_witness :
  exists r, (run (allocate_ports 1000 1010 (utc 5) "w-1" "s-1" example_template) example_store).1 = Ok r
    /\ success r = false
    /\ dict_get "s-1" (allocations_of (run (allocate_ports 1000 1010 (utc 5) "w-1" "s-1" example_template) example_store).2 "w-1")
       = Some (first_fit 1000 1010 example_store "w-1" example_template).
Proof.
  refine (misconfigured_range_leaks 1000 1010 (utc 5) "w-1" "s-1" example_template example_store 1000
            (example_request 1000 1010 "s-1" ltac:(lia) eq_refl) _ _ _).
  - apply (bool_decide_unpack _). vm_compute. reflexivity.
  - apply (bool_decide_unpack _). vm_compute. reflexivity.
  - lia.
Defined.

Lemma availability_sound_witness :
  exists r, (run (allocate_ports 2000 2010 (utc 5) "w-1" "s-1" example_template) example_store).1 = Ok r /\ success r = true.
Proof.
  refine (proj2 (availability_sound 2000 2010 (utc 5) "w-1" "s-1" example_template example_store
                   (example_request 2000 2010 "s-1" ltac:(lia) eq_refl) _ _ _)).
  - lia.
  - lia.
  - vm_compute. reflexivity.
Defined.
