(* ===== verification/PortRace.v ===== *)
(** * Concurrent port allocation

    Coroutines of the service interleave at their etcd requests.  If each
    read-check-write of a worker's key were one transaction, as the docstring of
    [allocate_session_ports] promises, every interleaving would keep the ports of
    a worker disjoint; as the code is, two allocations can be given the same ports
    and one of them is lost. *)
From S2P Require Import Prelude PyData Ports PortService PortServiceProps.

(** ** Calls *)
Inductive call :=
| Allocate (t : datetime) (worker session : string) (template : PortTemplate)
| Release (worker session : string)
| Query (worker : string) (template : PortTemplate).

Inductive outcome :=
| Allocated (r : res PortAllocationResult)
| Released (ports : option (dict Z))
| Answered (ok : bool).

Section Pool.
Context (range_min range_max : Z).

Definition prog_of (c : call) : prog outcome :=
  match c with
  | Allocate t w s tm => r ← allocate_ports range_min range_max t w s tm; mret (Allocated r)
  | Release w s => r ← release_ports w s; mret (Released r)
  | Query w tm => r ← validate_port_availability range_min range_max w tm; mret (Answered r.1)
  end.

(** One request of one coroutine. *)
Inductive step : list (prog outcome) * store -> list (prog outcome) * store -> Prop :=
| step_get ps i w k σ :
    ps !! i = Some (Get w k) -> step (ps, σ) (<[i := k (σ !! w)]> ps, σ)
| step_put ps i w a k σ :
    ps !! i = Some (Put w a k) -> step (ps, σ) (<[i := k]> ps, <[w := a]> σ).

(** The same, a read whose coroutine goes on to write being one step with the
    write. *)
Inductive serialized_step : list (prog outcome) * store -> list (prog outcome) * store -> Prop :=
| serialized_get ps i w k σ :
    ps !! i = Some (Get w k) -> (forall w' a k', k (σ !! w) <> Put w' a k') ->
    serialized_step (ps, σ) (<[i := k (σ !! w)]> ps, σ)
| serialized_commit ps i w k w' a k' σ :
    ps !! i = Some (Get w k) -> k (σ !! w) = Put w' a k' ->
    serialized_step (ps, σ) (<[i := k']> ps, <[w' := a]> σ).
End Pool.

(** ** Programs whose writes keep what they read disjoint *)

Definition disjoint_read (r : option allocations) : Prop :=
  match r with Some a => disjoint a | None => True end.

Fixpoint safe {A} (p : prog A) : Prop :=
  match p with
  | Ret _ => True
  | Put _ _ _ => False
  | Get w k => forall r, disjoint_read r ->
      match k r with
      | Put w' a k' => w' = w /\ disjoint a /\ safe k'
      | _ => safe (k r)
      end
  end.

(** What may follow a read of [w]. *)
Definition safe_after {A} (w : string) (p : prog A) : Prop :=
  match p with
  | Put w' a k' => w' = w /\ disjoint a /\ safe k'
  | _ => safe p
  end.

Lemma safe_get {A} w (k : option allocations -> prog A) :
  safe (Get w k) <-> forall r, disjoint_read r -> safe_after w (k r).
Proof. cbn. split; intros Hk r Hr; specialize (Hk r Hr); by destruct (k r). Qed.

Lemma safe_safe_after {A} w (p : prog A) : safe p -> safe_after w p.
Proof. by destruct p. Qed.

Lemma bind_get {A B} w k (f : A -> prog B) : (Get w k ≫= f) = Get w (fun r => k r ≫= f).
Proof. done. Qed.

Lemma safe_bind {A B} (p : prog A) (f : A -> prog B) : (forall a, safe (f a)) ->
  (safe p -> safe (p ≫= f)) /\ (forall w, safe_after w p -> safe_after w (p ≫= f)).
Proof.
  intros Hf. induction p as [a|w k IH|w a k [IH _]].
  - split; intros; [apply Hf|]. apply safe_safe_after, Hf.
  - assert (safe (Get w k) -> safe (Get w k ≫= f)) as Hg.
    { rewrite bind_get, !safe_get. intros Hk r Hr. apply IH. by apply Hk. }
    split; [exact Hg|]. intros w'. exact Hg.
  - split; [done|]. intros w'. cbn. intros (Hw & Ha & Hs). split; [done|]. split; [done|]. by apply IH.
Qed.

Section Safety.
Context (range_min range_max : Z).

Lemma port_mapping_values names available :
  NoDup names -> NoDup available -> NoDup (dict_values (port_mapping names available)).
Proof.
  intros Hn Ha. change (port_mapping names available) with (dict_of fst snd (combine names available)).
  assert (forall l : list (string * Z), NoDup (map fst l) -> dict_of fst snd l = l) as Hd.
  { intros l Hl. rewrite dict_of_NoDup by done. rewrite <- (map_id l) at 2. apply map_ext. by intros []. }
  assert (map fst (combine names available) `sublist_of` names
          /\ dict_values (combine names available) `sublist_of` available) as [H1 H2].
  { unfold dict_values. clear. revert available. induction names as [|n names IH]; intros [|p available]; cbn;
      try (split; apply sublist_nil_l). destruct (IH available) as [H1 H2]. by split; constructor. }
  rewrite Hd by (by eapply sublist_NoDup). by eapply sublist_NoDup.
Qed.

Lemma allocate_session_safe worker session ports : NoDup (dict_values ports) ->
  safe (allocate_session_ports worker session ports).
Proof.
  intros Hp. unfold allocate_session_ports, get_worker_ports. rewrite bind_get. apply safe_get.
  intros r Hr. cbn. destruct (existsb _ _) eqn:E; [done|]. cbn. split; [done|]. split; [|done].
  apply disjoint_set; [|done|by apply conflict_free].
  destruct r; cbn in *; [done|]. split; constructor.
Qed.

Lemma release_session_safe worker session : safe (release_session_ports worker session).
Proof.
  unfold release_session_ports, get_worker_ports. rewrite bind_get. apply safe_get.
  intros [a|] Hr; cbn; [|done]. destruct (dict_get session a); cbn; [|done].
  split; [done|]. split; [|done]. destruct Hr. split; [by apply all_ports_pop_NoDup|by apply dict_pop_NoDup].
Qed.

Lemma allocate_ports_safe t worker session template : NoDup (port_names template) ->
  safe (allocate_ports range_min range_max t worker session template).
Proof.
  intros Hn. unfold allocate_ports.
  destruct (negb (str_truthy worker)); [done|]. destruct (negb (str_truthy session)); [done|].
  destruct (port_count template =? 0)%nat; [done|]. destruct (range_max <=? range_min); [done|].
  unfold get_allocated_ports_for_worker, get_worker_ports. rewrite !bind_get. apply safe_get.
  intros r _. cbv zeta. cbn [mbind prog_bind mret prog_ret].
  destruct (_ <? _)%nat; [done|]. apply safe_safe_after.
  apply safe_bind; [intros []; done|]. apply allocate_session_safe. apply port_mapping_values; [done|].
  apply find_available_NoDup.
Qed.

(** The template a call carries passed its constructor. *)
Definition call_ok (c : call) : Prop :=
  match c with Allocate _ _ _ tm => NoDup (port_names tm) | _ => True end.

Lemma prog_of_safe c : call_ok c -> safe (prog_of range_min range_max c).
Proof.
  destruct c as [t w s tm|w s|w tm]; intros Hc; apply safe_bind; try done.
  - by apply allocate_ports_safe.
  - unfold release_ports. destruct (_ || _); [done|]. apply release_session_safe.
  - unfold validate_port_availability. destruct (_ =? _)%nat; [done|].
    apply safe_bind; [done|]. unfold get_allocated_ports_for_worker, get_worker_ports. rewrite bind_get.
    apply safe_get. by intros [] _.
Qed.

(** The invariant of the serialized system. *)
Definition pool_ok (c : list (prog outcome) * store) : Prop := Forall safe c.1 /\ store_ok c.2.

Lemma store_ok_read σ w : store_ok σ -> disjoint_read (σ !! w).
Proof. intros Hs. destruct (σ !! w) eqn:E; cbn; [by eapply Hs|done]. Qed.

Lemma serialized_step_ok c c' : serialized_step c c' -> pool_ok c -> pool_ok c'.
Proof.
  intros [ps i w k σ Hi Hk|ps i w k w' a k' σ Hi Hk] [Hp Hs]; cbn in *;
    pose proof (Forall_lookup_1 _ _ _ _ Hp Hi) as Hsafe; apply safe_get with (r := σ !! w) in Hsafe;
    try (by apply store_ok_read).
  - split; cbn; [|done]. apply Forall_insert; [done|]. destruct (k (σ !! w)) eqn:E; cbn in Hsafe; try done.
    by destruct (Hk worker allocs p).
  - rewrite Hk in Hsafe. destruct Hsafe as (_ & Ha & Hk'). split; cbn.
    + by apply Forall_insert.
    + by apply store_ok_insert.
Qed.

(** (C5) With the read-check-write of each store operation made one
    transaction, any number of allocations, releases and queries may interleave
    in any order, each search working from an arbitrarily old read: no port of
    a worker is ever allocated twice. *)
Theorem serialized_disjoint calls σ ps σ'
    (Hc : Forall call_ok calls) (Hs : store_ok σ)
    (Hr : star serialized_step (map (prog_of range_min range_max) calls, σ) (ps, σ')) :
  store_ok σ'.
Proof.
  enough (pool_ok (ps, σ')) as [_ H] by done.
  eapply star_invariant; [exact serialized_step_ok|exact Hr|]. split; [|done]. cbn.
  apply Forall_fmap. eapply Forall_impl; [exact Hc|]. intros c. apply prog_of_safe.
Qed.
End Safety.

(** ** Calls one after another *)

Lemma run_safe {A} (p : prog A) : (forall σ, safe p -> store_ok σ -> store_ok (run p σ).2)
  /\ (forall w σ, safe_after w p -> store_ok σ -> store_ok (run p σ).2).
Proof.
  induction p as [a|w k IH|w a k [IH _]].
  - done.
  - assert (forall σ, safe (Get w k) -> store_ok σ -> store_ok (run (Get w k) σ).2) as Hg.
    { intros σ Hk Hs. cbn. eapply IH; [|done]. apply safe_get with (r := σ !! w) in Hk; [exact Hk|].
      by apply store_ok_read. }
    split; [exact Hg|]. intros w'. exact Hg.
  - split; [done|]. intros w' σ (_ & Ha & Hk) Hs. cbn. apply IH; [done|]. by apply store_ok_insert.
Qed.

Definition run_calls (range_min range_max : Z) (calls : list call) (σ : store) : store :=
  fold_left (fun σ c => (run (prog_of range_min range_max c) σ).2) calls σ.

(** Calls that run one after another keep every worker's ports disjoint,
    in any order and with any arguments. *)
Theorem sequential_disjoint range_min range_max calls σ
    (Hc : Forall call_ok calls) (Hs : store_ok σ) : store_ok (run_calls range_min range_max calls σ).
Proof.
  revert σ Hs. induction Hc as [|c calls Hc _ IH]; intros σ Hs; cbn; [done|].
  apply IH. apply run_safe; [by apply prog_of_safe|done].
Qed.

(** ** Release *)

Lemma dict_pop_set_fresh {V} k (v : V) (d : dict V) : dict_get k d = None -> dict_pop k (dict_set k v d) = d.
Proof.
  induction d as [|[k' v'] d IH]; cbn; [by rewrite String.eqb_refl|].
  destruct (String.eqb k k') eqn:E; [done|]. intros Hg. cbn. rewrite E. by rewrite IH.
Qed.

(** Releasing undoes an allocation: when a session without ports is
    allocated some, releasing it returns exactly the ports the allocation
    reported and leaves every worker with the allocations it had before; a second
    release finds nothing. *)
Theorem release_undoes_allocate range_min range_max t worker session template σ r
    (Hr : request_ok range_min range_max worker session template)
    (Hnew : dict_get session (allocations_of σ worker) = None)
    (Hok : (run (allocate_ports range_min range_max t worker session template) σ).1 = Ok r)
    (Hs : success r = true) :
  let σ1 := (run (allocate_ports range_min range_max t worker session template) σ).2 in
  (run (release_ports worker session) σ1).1 = allocated_ports r
  /\ (forall w, allocations_of (run (release_ports worker session) σ1).2 w = allocations_of σ w)
  /\ (run (release_ports worker session) (run (release_ports worker session) σ1).2).1 = None.
Proof.
  cbv zeta. rewrite (allocate_run range_min range_max t worker session template σ Hr) in *.
  destruct (_ <? _)%nat; cbn [fst snd] in *; [by injection Hok as <-|].
  set (m := first_fit range_min range_max σ worker template) in *.
  assert (allocated_ports r = Some m) as Hm.
  { destruct (PortAllocation_post_init _); injection Hok as <-; [done|]. done. }
  rewrite Hm. clear Hok Hs Hm. destruct Hr as [Hw Hses _ _ _]. unfold release_ports. rewrite Hw, Hses. cbn [negb orb].
  unfold release_session_ports, get_worker_ports. cbn. rewrite lookup_insert_eq. cbn.
  rewrite dict_get_set_eq. cbn. rewrite insert_insert_eq, lookup_insert_eq. cbn.
  rewrite dict_pop_set_fresh by done. rewrite Hnew. cbn. split; [done|]. split; [|done].
  intros w. unfold allocations_of. destruct (decide (worker = w)) as [->|Hne].
  - by rewrite lookup_insert_eq.
  - by rewrite lookup_insert_ne.
Qed.

(** ** The race *)

(** The coroutine of a request that finds enough ports, request by request. *)
Lemma allocate_prog range_min range_max t worker session template σ :
  request_ok range_min range_max worker session template -> 2000 <= range_min -> range_max <= 65535 ->
  (port_count template <= free_count range_min range_max σ worker)%nat ->
  let m := first_fit range_min range_max σ worker template in
  let r := {| success := true;
              allocation := Some {| pa_session_id := session; pa_ports := m; pa_allocated_at := t |};
              error := None; allocated_ports := Some m |} in
  exists k1 k2,
    prog_of range_min range_max (Allocate t worker session template) = Get worker k1
    /\ k1 (σ !! worker) = Get worker k2
    /\ k2 (σ !! worker) = Put worker (dict_set session m (allocations_of σ worker)) (Ret (Allocated (Ok r))).
Proof.
  intros Hr Hlo Hhi Hfree m r. pose proof (first_fit_values range_min range_max σ worker template Hfree) as (_ & _ & Hin).
  assert (PortAllocation_post_init {| pa_session_id := session; pa_ports := m; pa_allocated_at := t |}
          = Ok {| pa_session_id := session; pa_ports := m; pa_allocated_at := t |}) as Hpost.
  { apply PortAllocation_post_init_ok. split; [done|]. split; [by destruct Hr|]. cbn.
    apply Forall_forall. intros p Hp. apply Hin in Hp. lia. }
  destruct Hr as [Hw Hs Hn Hne Hrange]. unfold prog_of, allocate_ports. rewrite Hw, Hs. cbn [negb].
  assert (port_count template <> 0%nat) as Hc by (unfold port_count; by destruct (pt_ports template)).
  rewrite (proj2 (Nat.eqb_neq _ _) Hc), (proj2 (Z.leb_gt _ _) Hrange).
  unfold get_allocated_ports_for_worker, get_worker_ports. rewrite !bind_get. do 2 eexists. split; [reflexivity|].
  assert (match σ !! worker with Some a => used_ports a | None => ∅ end = used_ports (allocations_of σ worker)) as E
    by (unfold allocations_of; by destruct (σ !! worker)).
  cbv zeta. cbn [mbind prog_bind mret prog_ret]. rewrite E, find_available_eq.
  assert (length (take (port_count template) (free_ports (used_ports (allocations_of σ worker)) range_min range_max))
          = port_count template) as Hlen by (rewrite length_take; unfold free_count in Hfree; lia).
  rewrite Hlen, Nat.ltb_irrefl, port_mapping_combine; [|done|by rewrite Hlen; unfold port_names; rewrite length_map].
  fold (first_fit range_min range_max σ worker template). fold m.
  unfold allocate_session_ports, get_worker_ports. split; [reflexivity|].
  change (default [] (σ !! worker)) with (allocations_of σ worker). cbn -[dict_set existsb allocations_of].
  change (default [] (σ !! worker)) with (allocations_of σ worker).
  rewrite (proj2 (conflict_free (allocations_of σ worker) (dict_values m)))
    by (intros p Hp; by apply (Hin p Hp)).
  cbn -[dict_set allocations_of]. rewrite Hpost. done.
Qed.


(** ** Witnesses *)

Lemma example_store_ok : store_ok example_store.
Proof.
  intros w a Hl. unfold example_store in Hl. apply lookup_singleton_Some in Hl as [_ <-].
  split; apply (bool_decide_unpack _); vm_compute; reflexivity.
Qed.

Definition example_calls : list call :=
  [Allocate (utc 5) "w-1" "s-1" example_template; Allocate (utc 6) "w-1" "s-2" example_template].

Lemma example_calls_ok : Forall call_ok example_calls.
Proof. repeat constructor; apply (bool_decide_unpack _); vm_compute; reflexivity. Qed.

Lemma sequential_disjoint_witness : store_ok (run_calls 2000 2010 example_calls example_store).
Proof. exact (sequential_disjoint 2000 2010 example_calls example_store example_calls_ok example_store_ok). Defined.

(** Both coroutines search, then the second commits. *)
Lemma serialized_disjoint_witness :
  exists ps σ', star serialized_step (map (prog_of 2000 2010) example_calls, example_store) (ps, σ')
                /\ dict_mem "s-2" (allocations_of σ' "w-1") = true /\ store_ok σ'.
Proof.
  destruct (allocate_prog 2000 2010 (utc 5) "w-1" "s-1" example_template example_store
              (example_request 2000 2010 "s-1" ltac:(lia) eq_refl) ltac:(lia) ltac:(lia)) as (k1 & k2 & E1 & E2 & _).
  { apply (bool_decide_unpack _). vm_compute. reflexivity. }
  destruct (allocate_prog 2000 2010 (utc 6) "w-1" "s-2" example_template example_store
              (example_request 2000 2010 "s-2" ltac:(lia) eq_refl) ltac:(lia) ltac:(lia)) as (l1 & l2 & F1 & F2 & F3).
  { apply (bool_decide_unpack _). vm_compute. reflexivity. }
  eexists. eexists.
  match goal with |- ?P /\ _ => assert P as Hr end.
  { unfold example_calls. cbn [map]. rewrite E1, F1.
    eapply star_step; [apply (serialized_get _ 0%nat); [reflexivity|by rewrite E2]|]. cbn [list_insert insert].
    eapply star_step; [apply (serialized_get _ 1%nat); [reflexivity|by rewrite F2]|]. cbn [list_insert insert].
    rewrite F2. eapply star_step; [eapply (serialized_commit _ 1%nat); [reflexivity|exact F3]|].
    apply star_refl. }
  split; [exact Hr|]. split; [vm_compute; reflexivity|].
  exact (serialized_disjoint 2000 2010 example_calls example_store _ _ example_calls_ok example_store_ok Hr).
Defined.

Lemma release_undoes_allocate_witness :
  (run (release_ports "w-1" "s-1")
     (run (allocate_ports 2000 2010 (utc 5) "w-1" "s-1" example_template) example_store).2).1
  = Some [("serial_1", 2001); ("vnc_1", 2003)].
Proof.
  rewrite (proj1 (release_undoes_allocate 2000 2010 (utc 5) "w-1" "s-1" example_template example_store
    {| success := true;
       allocation := Some {| pa_session_id := "s-1"; pa_ports := [("serial_1", 2001); ("vnc_1", 2003)];
                             pa_allocated_at := utc 5 |};
       error := None; allocated_ports := Some [("serial_1", 2001); ("vnc_1", 2003)] |}
    (example_request 2000 2010 "s-1" ltac:(lia) eq_refl) eq_refl ltac:(vm_compute; reflexivity) eq_refl)).
  reflexivity.
Defined.

