(* ===== verification/Topo.v ===== *)
(** * Topological sorting ([graphlib.TopologicalSorter])

    The part of Python's [graphlib] that [static_order] runs, as the standard
    library implements it: the table of nodes with their successors and numbers of
    predecessors, the depth-first search for a cycle, and the rounds of ready
    nodes.  The order of a run depends on the order in which nodes enter the table. *)
From S2P Require Import Prelude.

(** ** The table of nodes *)
Record node_info := { npredecessors : Z; successors : list string }.

Abbreviation table := (dict node_info).

(** [_get_nodeinfo] *)
Definition get_nodeinfo (n : string) (t : table) : node_info :=
  default {| npredecessors := 0; successors := [] |} (dict_get n t).

(** [pred_info.successors.append(node)] *)
Definition add_edge (node : string) (t : table) (pred : string) : table :=
  let i := get_nodeinfo pred t in
  dict_set pred {| npredecessors := npredecessors i; successors := successors i ++ [node] |} t.

(** [add(node, *predecessors)] *)
Definition add_node (t : table) (item : string * list string) : table :=
  let '(node, preds) := item in
  let i := get_nodeinfo node t in
  let t := dict_set node {| npredecessors := npredecessors i + Z.of_nat (length preds);
                            successors := successors i |} t in
  fold_left (add_edge node) preds t.

Definition sorter (graph : list (string * list string)) : table := fold_left add_node graph [].

Definition succ_of (t : table) (n : string) : list string := successors (get_nodeinfo n t).

(** ** Search for a cycle ([_find_cycle])

    The stack holds the nodes of the current path with the successors still to
    visit, the top first. *)
Abbreviation dfs_stack := (list (string * list string)).

(** Pops until a node has another successor, and takes it. *)
Fixpoint backtrack (stack : dfs_stack) : option (string * dfs_stack) :=
  match stack with
  | [] => None
  | (_, []) :: stack => backtrack stack
  | (n, s :: rest) :: stack => Some (s, (n, rest) :: stack)
  end.

(** [stack[node2stacki[node]:] + [node]] *)
Fixpoint path_to (node : string) (stack : dfs_stack) : list string :=
  match stack with
  | [] => []
  | (n, _) :: stack => if String.eqb n node then [n] else n :: path_to node stack
  end.

Inductive dfs_result := Cycle (c : list string) | Clear (seen : list string) | Out_of_fuel.

Fixpoint dfs (fuel : nat) (t : table) (node : string) (stack : dfs_stack) (seen : list string) : dfs_result :=
  match fuel with
  | O => Out_of_fuel
  | S fuel =>
      if bool_decide (node ∈ seen) then
        if bool_decide (node ∈ map fst stack) then Cycle (rev (path_to node stack) ++ [node])
        else match backtrack stack with
             | Some (s, stack) => dfs fuel t s stack seen
             | None => Clear seen
             end
      else
        match backtrack ((node, succ_of t node) :: stack) with
        | Some (s, stack) => dfs fuel t s stack (node :: seen)
        | None => Clear (node :: seen)
        end
  end.

Definition dfs_fuel (t : table) : nat := S (sum_list_with (fun p => S (length (successors p.2))) t).

Fixpoint find_cycle_from (t : table) (roots seen : list string) : dfs_result :=
  match roots with
  | [] => Clear seen
  | n :: roots =>
      if bool_decide (n ∈ seen) then find_cycle_from t roots seen
      else match dfs (dfs_fuel t) t n [] seen with
           | Clear seen => find_cycle_from t roots seen
           | r => r
           end
  end.

Definition find_cycle (t : table) : dfs_result := find_cycle_from t (dict_keys t) [].

(** ** The rounds of ready nodes ([static_order])

    [graphlib] also marks the nodes it passed out; the marks only feed checks that
    [static_order] cannot trip, and are left out. *)

(** One successor of a node that is done: the table and the ready nodes. *)
Definition release (acc : table * list string) (s : string) : table * list string :=
  let '(t, ready) := acc in
  let i := get_nodeinfo s t in
  let i := {| npredecessors := npredecessors i - 1; successors := successors i |} in
  (dict_set s i t, if npredecessors i =? 0 then ready ++ [s] else ready).

(** [done(node)] *)
Definition done_node (acc : table * list string) (n : string) : table * list string :=
  fold_left release (succ_of acc.1 n) acc.

Fixpoint rounds (fuel : nat) (t : table) (ready : list string) : list string :=
  match fuel, ready with
  | O, _ | _, [] => []
  | S fuel, _ =>
      let '(t, next) := fold_left done_node ready (t, []) in
      ready ++ rounds fuel t next
  end.

Definition initially_ready (t : table) : list string :=
  map fst (filter (fun p => npredecessors p.2 = 0) t).

(** [list(sorter.static_order())], or the cycle of [CycleError]. *)
Definition static_order (graph : list (string * list string)) : list string + list string :=
  let t := sorter graph in
  match find_cycle t with
  | Clear _ => inl (rounds (S (length t)) t (initially_ready t))
  | Cycle c => inr c
  | Out_of_fuel => inr []
  end.
