(* ===== verification/TopoProps.v ===== *)
(** * Correctness of the topological sort

    On a graph whose predecessors are nodes, [static_order] either lists every
    node once, after its predecessors, or reports a cycle of the graph. *)
From S2P Require Import Prelude Topo.

(** ** The table built from a graph *)

Definition npred (t : table) (n : string) : Z := npredecessors (get_nodeinfo n t).

Lemma get_nodeinfo_set k i n t : get_nodeinfo n (dict_set k i t) = if String.eqb n k then i else get_nodeinfo n t.
Proof. unfold get_nodeinfo. rewrite dict_get_set. by destruct (String.eqb n k). Qed.

Lemma dict_keys_set_elem {V} k (v : V) d x : x ∈ dict_keys (dict_set k v d) <-> x ∈ dict_keys d \/ x = k.
Proof.
  rewrite dict_keys_set. unfold dict_mem. destruct (dict_get k d) eqn:E; [|set_solver].
  split; [by left|]. intros [?| ->]; [done|]. apply dict_get_elem in E. unfold dict_keys.
  change k with (fst (k, v0)). by apply list_elem_of_fmap_2.
Qed.

Lemma succ_of_set k i n t : succ_of (dict_set k i t) n = if String.eqb n k then successors i else succ_of t n.
Proof. unfold succ_of. rewrite get_nodeinfo_set. by destruct (String.eqb n k). Qed.

Lemma npred_set k i n t : npred (dict_set k i t) n = if String.eqb n k then npredecessors i else npred t n.
Proof. unfold npred. rewrite get_nodeinfo_set. by destruct (String.eqb n k). Qed.

Lemma add_edge_succ node t pred n : succ_of (add_edge node t pred) n = succ_of t n ++ if String.eqb n pred then [node] else [].
Proof. unfold add_edge. rewrite succ_of_set. destruct (String.eqb_spec n pred) as [->|]; [done|by rewrite app_nil_r]. Qed.

Lemma add_edge_npred node t pred n : npred (add_edge node t pred) n = npred t n.
Proof. unfold add_edge. rewrite npred_set. by destruct (String.eqb_spec n pred) as [->|]. Qed.

Lemma add_edges_spec node preds t : NoDup preds ->
  let t' := fold_left (add_edge node) preds t in
  (forall n, succ_of t' n = succ_of t n ++ if bool_decide (n ∈ preds) then [node] else []) /\
  (forall n, npred t' n = npred t n) /\
  (forall n, n ∈ dict_keys t' <-> n ∈ dict_keys t \/ n ∈ preds) /\
  (NoDup (dict_keys t) -> NoDup (dict_keys t')).
Proof.
  revert t. induction preds as [|p preds IH]; intros t Hnd; cbn [fold_left].
  - repeat split; auto; [intros n; by rewrite app_nil_r|set_solver].
  - apply NoDup_cons in Hnd as [Hp Hnd]. destruct (IH (add_edge node t p) Hnd) as (Hs & Hn & Hk & Hd).
    split; [|split; [|split]].
    + intros n. rewrite Hs, add_edge_succ. destruct (String.eqb_spec n p) as [->|].
      * rewrite bool_decide_eq_false_2, bool_decide_eq_true_2 by (done || left). by rewrite app_nil_r.
      * rewrite app_nil_r. f_equal. repeat case_bool_decide; set_solver.
    + intros n. by rewrite Hn, add_edge_npred.
    + intros n. rewrite Hk. unfold add_edge. rewrite dict_keys_set_elem. set_solver.
    + intros H. apply Hd. unfold add_edge. by apply dict_set_NoDup.
Qed.

(** What the table says of the graph it was built from. *)
Record table_of (g : list (string * list string)) (t : table) : Prop := {
  to_keys : NoDup (dict_keys t);
  to_nodes : forall n, n ∈ dict_keys t <-> n ∈ map fst g \/ exists m ps, (m, ps) ∈ g /\ n ∈ ps;
  to_succ : forall n m, m ∈ succ_of t n <-> exists ps, (m, ps) ∈ g /\ n ∈ ps;
  to_succ_NoDup : forall n, NoDup (succ_of t n);
  to_npred : forall n ps, (n, ps) ∈ g -> npred t n = Z.of_nat (length ps);
  to_npred_0 : forall n, n ∉ map fst g -> npred t n = 0
}.

Lemma sorter_table g : NoDup (map fst g) -> Forall (fun p => NoDup p.2) g -> table_of g (sorter g).
Proof.
  induction g as [|[node ps] g IH] using rev_ind; intros Hnd Hps.
  - split; cbn; try done; try (intros; inversion 1; fail);
      try (intros; set_solver); intros; try constructor; set_solver.
  - rewrite map_app in Hnd. apply NoDup_app in Hnd as (Hnd & Hdis & _). apply Forall_app in Hps as [Hps Hp].
    apply Forall_cons in Hp as [Hp _]. cbn in Hp. destruct (IH Hnd Hps) as [Hk Hn Hs Hsn Hnp Hn0]. clear IH.
    assert (node ∉ map fst g) as Hnew by (intros Hin; apply (Hdis _ Hin); set_solver).
    unfold sorter in *. rewrite fold_left_app. cbn. set (t := fold_left add_node g []) in *.
    set (t1 := dict_set node _ t).
    destruct (add_edges_spec node ps t1 Hp) as (Es & En & Ek & Ed).
    assert (forall n, succ_of t1 n = succ_of t n) as Hs1.
    { intros n. unfold t1. rewrite succ_of_set. by destruct (String.eqb_spec n node) as [->|]. }
    split.
    + apply Ed. by apply dict_set_NoDup.
    + intros n. rewrite Ek. unfold t1. rewrite dict_keys_set_elem, Hn, map_app. set_solver.
    + intros n m. rewrite Es, Hs1, elem_of_app, Hs. setoid_rewrite elem_of_app. case_bool_decide; set_solver.
    + intros n. rewrite Es, Hs1. case_bool_decide; [|by rewrite app_nil_r].
      apply NoDup_app. split; [apply Hsn|]. split; [|apply NoDup_singleton].
      intros m (ps' & Hin & _)%Hs ->%list_elem_of_singleton. apply Hnew. change node with (fst (node, ps')).
      by apply list_elem_of_fmap_2.
    + intros n ps'. rewrite En. unfold t1. rewrite npred_set, elem_of_app, list_elem_of_singleton.
      destruct (String.eqb_spec n node) as [->|].
      * intros [Hin|[= ->]]; [|cbn; fold (npred t node); rewrite Hn0 by done; lia].
        destruct Hnew. change node with (fst (node, ps')). by apply list_elem_of_fmap_2.
      * intros [Hin|[= ? ?]]; [by apply Hnp|done].
    + intros n. rewrite map_app, En. unfold t1. rewrite npred_set. cbn. destruct (String.eqb_spec n node) as [->|]; [set_solver|].
      intros Hin. apply Hn0. set_solver.
Qed.

(** ** The search for a cycle *)

(** Consecutive nodes are edges from a node to one of its successors. *)
Fixpoint walk (t : table) (l : list string) : Prop :=
  match l with
  | a :: (b :: _) as l' => b ∈ succ_of t a /\ walk t l'
  | _ => True
  end.

Definition is_cycle (t : table) (c : list string) : Prop := exists x l, c = x :: l ++ [x] /\ walk t c.

(** [fin]: the nodes that are finished, the first to finish first; the
    successors of a finished node finished before it. *)
Definition closed (t : table) (fin : list string) : Prop :=
  forall a b c, fin = a ++ b :: c -> forall s, s ∈ succ_of t b -> s ∈ a.

(** [cur] is the successor being visited of the top of the stack, and the
    successors before it are finished. *)
Fixpoint chain (t : table) (fin : list string) (cur : string) (stack : dfs_stack) : Prop :=
  match stack with
  | [] => True
  | (n, rest) :: stack => (exists p, succ_of t n = p ++ cur :: rest /\ p ⊆ fin) /\ chain t fin n stack
  end.

(** The same between two visits. *)
Definition resting (t : table) (fin : list string) (stack : dfs_stack) : Prop :=
  match stack with
  | [] => True
  | (n, rest) :: stack => (exists p, succ_of t n = p ++ rest /\ p ⊆ fin) /\ chain t fin n stack
  end.

Section Search.
Context (t : table).

Lemma walk_snoc l a b : walk t (l ++ [a]) -> b ∈ succ_of t a -> walk t (l ++ [a] ++ [b]).
Proof.
  induction l as [|x l IH]; [by cbn|]. destruct l as [|y l]; cbn in *; [naive_solver|].
  intros [Hx Hw] Hb. split; [done|]. by apply IH.
Qed.

Lemma chain_mono fin fin' cur stack : fin ⊆ fin' -> chain t fin cur stack -> chain t fin' cur stack.
Proof.
  intros Hf. revert cur. induction stack as [|[n rest] stack IH]; intros cur; cbn; [done|].
  intros [(p & Hp & Hs) Hc]. split; [exists p; split; [done|set_solver]|by apply IH].
Qed.

Lemma path_to_cycle fin cur node stack : chain t fin cur stack -> node ∈ map fst stack ->
  walk t (rev (path_to node stack) ++ [cur]) /\ exists q, path_to node stack = q ++ [node].
Proof.
  revert cur. induction stack as [|[n rest] stack IH]; intros cur; cbn; [set_solver|].
  intros [(p & Hp & _) Hc] Hin. assert (cur ∈ succ_of t n) as He by (rewrite Hp; set_solver).
  destruct (String.eqb_spec n node) as [->|Hne]; [split; [done|by exists []]|].
  destruct (IH n Hc ltac:(set_solver)) as [Hw [q Hq]]. split; [|exists (n :: q); cbn; by rewrite Hq].
  cbn [rev]. rewrite <- app_assoc. by apply walk_snoc.
Qed.

Lemma closed_snoc fin n : closed t fin -> succ_of t n ⊆ fin -> closed t (fin ++ [n]).
Proof.
  intros Hc Hs a b c E s Hin. destruct c as [|y c] using rev_ind.
  - apply app_inj_tail in E as [<- <-]. set_solver.
  - rewrite app_comm_cons, app_assoc in E. apply app_inj_tail in E as [E _]. by eapply Hc.
Qed.

Lemma resting_of_chain fin cur stack : cur ∈ fin -> chain t fin cur stack -> resting t fin stack.
Proof.
  intros Hc. destruct stack as [|[n rest] stack]; cbn; [done|]. intros [(p & Hp & Hs) Hch]. split; [|done].
  exists (p ++ [cur]). rewrite <- app_assoc. split; [done|set_solver].
Qed.

Lemma backtrack_spec fin stack : closed t fin -> resting t fin stack ->
  exists fin', closed t fin' /\ fin ⊆ fin' /\
    match backtrack stack with
    | None => forall x, x ∈ fin' <-> x ∈ fin \/ x ∈ map fst stack
    | Some (s, stack') => chain t fin' s stack' /\
        forall x, (x ∈ fin' \/ x ∈ map fst stack') <-> (x ∈ fin \/ x ∈ map fst stack)
    end.
Proof.
  revert fin. induction stack as [|[n rest] stack IH]; intros fin Hc Hr; cbn in *; [exists fin; set_solver|].
  destruct Hr as [(p & Hp & Hs) Hch]. destruct rest as [|s rest].
  - rewrite app_nil_r in Hp. destruct (IH (fin ++ [n])) as (fin' & Hc' & Hsub & Hb).
    + apply closed_snoc; [done|]. by rewrite Hp.
    + eapply resting_of_chain; [|eapply chain_mono; [|exact Hch]]; set_solver.
    + exists fin'. split; [done|]. split; [set_solver|]. destruct (backtrack stack) as [[s stack']|].
      * destruct Hb as [? Hb]. split; [done|]. intros x. rewrite Hb. set_solver.
      * intros x. rewrite Hb. set_solver.
  - exists fin. split; [done|]. split; [done|]. split; [|set_solver]. cbn. split; [|done]. by exists p.
Qed.

(** The visited nodes are the finished ones and those of the stack. *)
Definition covers (seen fin : list string) (stack : dfs_stack) : Prop :=
  forall x, x ∈ seen <-> x ∈ fin \/ x ∈ map fst stack.

Lemma dfs_spec fuel node stack seen fin : closed t fin -> chain t fin node stack -> covers seen fin stack ->
  match dfs fuel t node stack seen with
  | Cycle c => is_cycle t c
  | Clear seen' => node ∈ seen' /\ seen ⊆ seen' /\ exists fin', closed t fin' /\ covers seen' fin' []
  | Out_of_fuel => True
  end.
Proof.
  revert node stack seen fin. induction fuel as [|fuel IH]; intros node stack seen fin Hc Hch Hcov; cbn [dfs]; [done|].
  destruct (bool_decide (node ∈ seen)) eqn:Eseen.
  - apply bool_decide_eq_true in Eseen. destruct (bool_decide (node ∈ map fst stack)) eqn:Est.
    + apply bool_decide_eq_true in Est. destruct (path_to_cycle _ _ _ _ Hch Est) as [Hw [q Hq]].
      rewrite Hq, rev_app_distr in *. exists node, (rev q). by split.
    + apply bool_decide_eq_false in Est. assert (node ∈ fin) as Hf by (apply Hcov in Eseen; naive_solver).
      destruct (backtrack_spec fin stack Hc (resting_of_chain _ _ _ Hf Hch)) as (fin' & Hc' & Hsub & Hb).
      destruct (backtrack stack) as [[s stack']|].
      * destruct Hb as [Hch' Hb]. specialize (IH s stack' seen fin' Hc' Hch').
        assert (covers seen fin' stack') as Hcov' by (intros x; rewrite (Hcov x); symmetry; apply Hb).
        specialize (IH Hcov'). destruct (dfs fuel t s stack' seen); [done| |done].
        destruct IH as (_ & Hss & Hex). split; [set_solver|by split].
      * split; [done|]. split; [done|]. exists fin'. split; [done|]. intros x. rewrite (Hcov x), (Hb x). set_solver.
  - apply bool_decide_eq_false in Eseen.
    destruct (backtrack_spec fin ((node, succ_of t node) :: stack) Hc) as (fin' & Hc' & Hsub & Hb).
    { cbn. split; [exists []; split; [done|set_solver]|done]. }
    destruct (backtrack _) as [[s stack']|].
    + destruct Hb as [Hch' Hb]. specialize (IH s stack' (node :: seen) fin' Hc' Hch').
      assert (covers (node :: seen) fin' stack') as Hcov'.
      { intros x. rewrite elem_of_cons, (Hcov x). cbn in Hb. rewrite (Hb x). set_solver. }
      specialize (IH Hcov'). destruct (dfs fuel t s stack' _); [done| |done].
      destruct IH as (_ & Hss & Hex). split; [set_solver|]. split; [set_solver|done].
    + split; [left|]. split; [set_solver|]. exists fin'. split; [done|]. intros x.
      rewrite elem_of_cons, (Hcov x). cbn in Hb. rewrite (Hb x). set_solver.
Qed.
End Search.

(** ** The search ends *)

Section Fuel.
Context (t : table) (Hkeys : NoDup (dict_keys t)) (Hclosed : forall n s, s ∈ succ_of t n -> s ∈ dict_keys t).

(** The work left: the successors of the nodes not seen yet, and of the stack. *)
Definition unseen_work (seen : list string) : nat :=
  sum_list_with (fun p => if bool_decide (p.1 ∈ seen) then 0%nat else S (length (successors p.2))) t.
Definition stack_work (stack : dfs_stack) : nat := sum_list_with (fun p => length p.2) stack.

Lemma unseen_work_le seen : (unseen_work seen < dfs_fuel t)%nat.
Proof.
  unfold unseen_work, dfs_fuel. clear. induction t as [|p l IH]; cbn; [lia|]. case_bool_decide; lia.
Qed.

Lemma unseen_work_cons n seen : n ∉ seen -> n ∈ dict_keys t ->
  (unseen_work (n :: seen) + S (length (succ_of t n)) = unseen_work seen)%nat.
Proof.
  unfold unseen_work, succ_of, get_nodeinfo. clear Hclosed. revert Hkeys. unfold dict_keys.
  induction t as [|[m i] l IH]; cbn; [set_solver|]. intros [Hm Hnd]%NoDup_cons Hn Hin.
  destruct (String.eqb_spec n m) as [->|Hne].
  - rewrite (bool_decide_eq_true_2 (m ∈ m :: seen)), (bool_decide_eq_false_2 (m ∈ seen)) by (done || left). cbn.
    assert (forall l' : table, m ∉ map fst l' ->
      sum_list_with (fun p => if bool_decide (p.1 ∈ m :: seen) then 0%nat else S (length (successors p.2))) l'
      = sum_list_with (fun p => if bool_decide (p.1 ∈ seen) then 0%nat else S (length (successors p.2))) l') as H.
    { intros l'. induction l' as [|p l' IH']; cbn; [done|]. intros Hm'. rewrite IH' by set_solver.
      f_equal. repeat case_bool_decide; try done; set_solver. }
    rewrite (H l Hm). lia.
  - specialize (IH Hnd Hn ltac:(set_solver)).
    assert (bool_decide (m ∈ n :: seen) = bool_decide (m ∈ seen)) as -> by (apply bool_decide_ext; set_solver). lia.
Qed.

Lemma backtrack_work stack s stack' : backtrack stack = Some (s, stack') ->
  (stack_work stack' < stack_work stack)%nat /\
  (Forall (fun p => p.2 ⊆ dict_keys t) stack -> Forall (fun p => p.2 ⊆ dict_keys t) stack' /\ s ∈ dict_keys t).
Proof.
  induction stack as [|[n [|s' rest]] stack IH]; cbn; [done| |].
  - intros E. destruct (IH E) as [Hw Hf]. unfold stack_work in *. cbn. split; [done|].
    intros [_ H]%Forall_cons. auto.
  - intros [= <- <-]. unfold stack_work. cbn. split; [lia|]. rewrite !Forall_cons. cbn. set_solver.
Qed.

Lemma dfs_ends fuel node stack seen : node ∈ dict_keys t -> Forall (fun p => p.2 ⊆ dict_keys t) stack ->
  (unseen_work seen + stack_work stack < fuel)%nat -> dfs fuel t node stack seen <> Out_of_fuel.
Proof.
  revert node stack seen. induction fuel as [|fuel IH]; intros node stack seen Hn Hst Hw; cbn [dfs]; [lia|].
  destruct (bool_decide (node ∈ seen)) eqn:Eseen.
  - destruct (bool_decide (node ∈ map fst stack)); [done|].
    destruct (backtrack stack) as [[s stack']|] eqn:Eb; [|done].
    destruct (backtrack_work _ _ _ Eb) as [Hlt Hf]. destruct (Hf Hst) as [Hst' Hs]. apply IH; [done|done|lia].
  - apply bool_decide_eq_false in Eseen. pose proof (unseen_work_cons node seen Eseen Hn) as Hu.
    destruct (backtrack ((node, succ_of t node) :: stack)) as [[s stack']|] eqn:Eb; [|done].
    destruct (backtrack_work _ _ _ Eb) as [Hlt Hf]. unfold stack_work in Hlt at 2. cbn in Hlt. fold (stack_work stack) in Hlt.
    destruct Hf as [Hst' Hs]; [constructor; [intros x; apply Hclosed|done]|]. apply IH; [done|done|lia].
Qed.

Lemma find_cycle_from_spec roots seen fin : roots ⊆ dict_keys t -> closed t fin -> covers seen fin [] ->
  match find_cycle_from t roots seen with
  | Cycle c => is_cycle t c
  | Clear seen' => roots ⊆ seen' /\ seen ⊆ seen' /\ exists fin', closed t fin' /\ covers seen' fin' []
  | Out_of_fuel => False
  end.
Proof.
  revert seen fin. induction roots as [|n roots IH]; intros seen fin Hr Hc Hcov; cbn [find_cycle_from].
  - split; [set_solver|]. split; [done|by exists fin].
  - destruct (bool_decide (n ∈ seen)) eqn:En.
    + apply bool_decide_eq_true in En. specialize (IH seen fin ltac:(set_solver) Hc Hcov).
      destruct (find_cycle_from t roots seen); [done| |done]. destruct IH as (? & ? & ?). split; [set_solver|done].
    + pose proof (dfs_spec t (dfs_fuel t) n [] seen fin Hc I Hcov) as Hd.
      assert (unseen_work seen + stack_work [] < dfs_fuel t)%nat as Hlt
        by (change (stack_work []) with 0%nat; pose proof (unseen_work_le seen); lia).
      pose proof (dfs_ends (dfs_fuel t) n [] seen ltac:(set_solver) ltac:(constructor) Hlt) as He.
      destruct (dfs (dfs_fuel t) t n [] seen) as [c|seen'|]; [done| |done].
      destruct Hd as (Hn & Hs & fin' & Hc' & Hcov'). specialize (IH seen' fin' ltac:(set_solver) Hc' Hcov').
      destruct (find_cycle_from t roots seen'); [done| |done]. destruct IH as (? & ? & ?).
      split; [set_solver|]. split; [set_solver|done].
Qed.

(** Either the cycle found is one, or the nodes can be ordered, each after its
    predecessors. *)
Lemma find_cycle_spec :
  match find_cycle t with
  | Cycle c => is_cycle t c
  | Clear _ => exists fin, closed t fin /\ dict_keys t ⊆ fin
  | Out_of_fuel => False
  end.
Proof.
  unfold find_cycle. pose proof (find_cycle_from_spec (dict_keys t) [] [] ltac:(done)) as H.
  destruct (find_cycle_from t (dict_keys t) []).
  - apply H; [by intros [] ? ?|intros x; set_solver].
  - destruct H as (Hk & _ & fin & Hc & Hcov); [by intros [] ? ?|intros x; set_solver|].
    exists fin. split; [done|]. intros x Hx. apply Hk, Hcov in Hx. set_solver.
  - apply H; [by intros [] ? ?|intros x; set_solver].
Qed.
End Fuel.

(** ** The rounds *)

Lemma release_spec q t ready : NoDup q ->
  let r := fold_left release q (t, ready) in
  r.2 = ready ++ filter (fun s => npred t s = 1) q /\
  (forall n, succ_of r.1 n = succ_of t n) /\
  (forall n, npred r.1 n = npred t n - if bool_decide (n ∈ q) then 1 else 0).
Proof.
  revert t ready. induction q as [|s q IH]; intros t ready; cbn [fold_left].
  - intros _. cbn. rewrite app_nil_r. repeat split; auto. intros n. by rewrite Z.sub_0_r.
  - intros [Hs Hnd]%NoDup_cons. cbn [release]. set (t1 := dict_set s _ t).
    assert (forall n, succ_of t1 n = succ_of t n) as Hs1.
    { intros n. unfold t1. rewrite succ_of_set. by destruct (String.eqb_spec n s) as [->|]. }
    assert (forall n, npred t1 n = npred t n - if bool_decide (n = s) then 1 else 0) as Hn1.
    { intros n. unfold t1. rewrite npred_set. destruct (String.eqb_spec n s) as [->|].
      - by rewrite bool_decide_eq_true_2.
      - rewrite bool_decide_eq_false_2 by done. lia. }
    destruct (IH t1 (if npredecessors (get_nodeinfo s t) - 1 =? 0 then ready ++ [s] else ready) Hnd) as (E1 & E2 & E3).
    cbn [npredecessors]. split; [|split].
    + rewrite E1, filter_cons. fold (npred t s).
      assert (filter (fun s' => npred t1 s' = 1) q = filter (fun s' => npred t s' = 1) q) as ->.
      { clear -Hs Hn1. induction q as [|x q IH]; [done|]. rewrite !filter_cons, IH, Hn1 by set_solver.
        rewrite bool_decide_eq_false_2 by set_solver. by rewrite Z.sub_0_r. }
      destruct (Z.eqb_spec (npred t s - 1) 0); [rewrite decide_True by lia; by rewrite <- app_assoc|by rewrite decide_False by lia].
    + intros n. by rewrite E2.
    + intros n. rewrite E3, Hn1. assert (n ∈ q -> n <> s) by (intros ? ->; done).
      repeat case_bool_decide; set_solver by lia.
Qed.

(** The predecessors of a node that are not done. *)
Definition waiting (done ps : list string) : list string := filter (fun d => d ∉ done) ps.

Lemma waiting_nil done ps : waiting done ps = [] <-> ps ⊆ done.
Proof.
  unfold waiting. split.
  - intros E x Hx. destruct (decide (x ∈ done)); [done|].
    assert (x ∈ filter (fun d => d ∉ done) ps) as H by (by apply list_elem_of_filter). rewrite E in H. inversion H.
  - intros Hs. induction ps as [|p ps IH]; [done|]. rewrite filter_cons_False by (intros Hp; apply Hp, Hs; left).
    apply IH. set_solver.
Qed.

Lemma waiting_snoc done n ps : NoDup ps -> n ∉ done ->
  Z.of_nat (length (waiting (done ++ [n]) ps)) = Z.of_nat (length (waiting done ps)) - if bool_decide (n ∈ ps) then 1 else 0.
Proof.
  intros Hp Hn. unfold waiting. induction ps as [|p ps IH]; [done|]. apply NoDup_cons in Hp as [Hp Hps'].
  specialize (IH Hps'). rewrite !filter_cons. destruct (decide (p = n)) as [->|Hne].
  - rewrite (bool_decide_eq_true_2 (n ∈ n :: ps)) by left. rewrite bool_decide_eq_false_2 in IH by done.
    rewrite decide_False by set_solver. rewrite decide_True by done. cbn [length]. lia.
  - assert (bool_decide (n ∈ p :: ps) = bool_decide (n ∈ ps)) as -> by (apply bool_decide_ext; set_solver).
    destruct (decide (p ∉ done)); [rewrite decide_True by set_solver|rewrite decide_False by set_solver]; cbn [length]; lia.
Qed.

Section Rounds.
Context (g : list (string * list string)) (t0 : table) (Ht : table_of g t0) (Hnd : NoDup (map fst g))
  (Hps : Forall (fun p => NoDup p.2) g) (Hin : forall n ps, (n, ps) ∈ g -> ps ⊆ map fst g).

(** The nodes that are done or ready, the first first: the ready ones are those
    with no predecessor left, and the done ones came after their predecessors. *)
Record progress_inv (done ready : list string) (t : table) : Prop := {
  pi_succ : forall n, succ_of t n = succ_of t0 n;
  pi_NoDup : NoDup (done ++ ready);
  pi_nodes : done ++ ready ⊆ map fst g;
  pi_npred : forall m ps, (m, ps) ∈ g -> npred t m = Z.of_nat (length (waiting done ps));
  pi_ready : forall m ps, (m, ps) ∈ g -> (m ∈ done ++ ready <-> waiting done ps = []);
  pi_order : forall a m b, done = a ++ m :: b -> forall ps, (m, ps) ∈ g -> ps ⊆ a
}.

Lemma graph_functional n ps ps' : (n, ps) ∈ g -> (n, ps') ∈ g -> ps = ps'.
Proof.
  intros H H'. apply (dict_elem_get (V := list string)) in H, H'; try done. congruence.
Qed.

Lemma succ_needs n m ps : (m, ps) ∈ g -> (m ∈ succ_of t0 n <-> n ∈ ps).
Proof.
  intros Hm. rewrite (to_succ _ _ Ht). split; [|by exists ps].
  intros (ps' & Hm' & Hn'). by rewrite (graph_functional _ _ _ Hm Hm').
Qed.

(** One node of a round: [rest] is the rest of the round, [next] the next one. *)
Lemma done_node_inv done n rest next t : progress_inv done (n :: rest ++ next) t ->
  let r := done_node (t, next) n in progress_inv (done ++ [n]) (rest ++ r.2) r.1.
Proof.
  intros [Ps Pd Pn Pp Pr Po]. unfold done_node. cbn [fst]. rewrite Ps.
  destruct (release_spec (succ_of t0 n) t next (to_succ_NoDup _ _ Ht n)) as (E1 & E2 & E3).
  destruct (fold_left release (succ_of t0 n) (t, next)) as [t' ready']. cbn [fst snd] in *.
  apply NoDup_app in Pd as Hdd. destruct Hdd as (Hd & Hdis & [Hn _]%NoDup_cons).
  assert (n ∉ done) as Hnd' by (intros H; by apply (Hdis n H); left).
  pose proof (succ_needs n) as Hsucc.
  assert (forall m ps, (m, ps) ∈ g -> npred t' m = Z.of_nat (length (waiting (done ++ [n]) ps))) as Hnp.
  { intros m ps Hm. rewrite E3, (Pp m ps Hm), waiting_snoc; [|by rewrite Forall_forall in Hps; apply (Hps _ Hm)|done].
    f_equal. by rewrite (bool_decide_ext _ _ (Hsucc m ps Hm)). }
  assert (forall m, m ∈ filter (fun s => npred t s = 1) (succ_of t0 n) <->
            exists ps, (m, ps) ∈ g /\ n ∈ ps /\ waiting (done ++ [n]) ps = []) as Hnew.
  { intros m. rewrite list_elem_of_filter, (to_succ _ _ Ht). split.
    - intros (H1 & ps & Hm & Hnps). exists ps. split; [done|]. split; [done|].
      assert (npred t' m = 0) as H0 by (rewrite E3, H1, bool_decide_eq_true_2; [done|by apply (Hsucc m ps)]).
      rewrite (Hnp m ps Hm) in H0. by destruct (waiting _ _).
    - intros (ps & Hm & Hnps & Hw). split; [|by exists ps].
      pose proof (Hnp m ps Hm) as H. rewrite Hw, E3, bool_decide_eq_true_2 in H by (by apply (Hsucc m ps)). cbn in H. lia. }
  assert (forall m, m ∈ filter (fun s => npred t s = 1) (succ_of t0 n) -> m ∉ done ++ n :: rest ++ next) as Hfresh.
  { intros m (ps & Hm & Hnps & _)%Hnew Hm'. apply (Pr m ps Hm), waiting_nil in Hm'. by apply Hnd', Hm'. }
  split.
  - intros m. by rewrite E2, Ps.
  - rewrite E1, <- app_assoc. cbn. rewrite (app_assoc rest), app_comm_cons, app_assoc. apply NoDup_app.
    split; [done|]. split; [|apply NoDup_filter, (to_succ_NoDup _ _ Ht)]. intros m Hm Hm'. by apply (Hfresh m).
  - intros m. rewrite E1. rewrite !elem_of_app, list_elem_of_singleton. intros Hm.
    destruct (decide (m ∈ filter (fun s => npred t s = 1) (succ_of t0 n))) as [H|H].
    + apply Hnew in H as (ps & Hm' & _). change m with (fst (m, ps)). by apply list_elem_of_fmap_2.
    + apply Pn. set_solver.
  - done.
  - intros m ps Hm. pose proof (Pr m ps Hm) as Hr. rewrite E1, waiting_nil. rewrite waiting_nil in Hr. split.
    + intros Hm'. destruct (decide (m ∈ done ++ n :: rest ++ next)) as [H|H]; [apply Hr in H; set_solver|].
      assert (m ∈ filter (fun s => npred t s = 1) (succ_of t0 n)) as Hf by set_solver.
      apply Hnew in Hf as (ps' & Hm2 & _ & Hw). rewrite <- (graph_functional _ _ _ Hm2 Hm). by apply waiting_nil.
    + intros Hs. destruct (decide (n ∈ ps)) as [Hnps|Hnps].
      * assert (m ∈ filter (fun s => npred t s = 1) (succ_of t0 n)); [|set_solver].
        apply Hnew. exists ps. split; [done|]. split; [done|]. by apply waiting_nil.
      * assert (ps ⊆ done) as H by set_solver. apply Hr in H. set_solver.
  - intros a m b E ps Hm. destruct b as [|y b] using rev_ind.
    + apply app_inj_tail in E as [<- <-]. apply waiting_nil, (Pr n ps Hm). set_solver.
    + rewrite app_comm_cons, app_assoc in E. apply app_inj_tail in E as [E _]. by eapply Po.
Qed.

Lemma round_inv group done next t : progress_inv done (group ++ next) t ->
  let r := fold_left done_node group (t, next) in progress_inv (done ++ group) r.2 r.1.
Proof.
  revert done next t. induction group as [|n group IH]; intros done next t; cbn [fold_left].
  - intros H. cbn. by rewrite app_nil_r.
  - intros H. apply done_node_inv in H. cbn zeta in *. destruct (done_node (t, next) n) as [t' next'].
    cbn [fst snd] in H. apply IH in H. by rewrite <- app_assoc in H.
Qed.

Lemma rounds_inv fuel done ready t : progress_inv done ready t -> (length g < fuel + length done)%nat ->
  exists t', progress_inv (done ++ rounds fuel t ready) [] t'.
Proof.
  revert done ready t. induction fuel as [|fuel IH]; intros done ready t Hi Hf.
  - destruct Hi as [_ Pd Pn _ _ _].
    pose proof (submseteq_length _ _ (NoDup_submseteq _ _ Pd Pn)) as Hl. rewrite length_app, length_map in Hl. lia.
  - destruct ready as [|n ready]; [exists t; cbn; by rewrite app_nil_r|]. cbn [rounds].
    pose proof (round_inv (n :: ready) done [] t) as Hr. rewrite app_nil_r in Hr. specialize (Hr Hi). cbn zeta in Hr.
    destruct (fold_left done_node (n :: ready) (t, [])) as [t' next]. cbn [fst snd] in Hr.
    destruct (IH _ _ _ Hr) as [t2 H2]; [rewrite length_app; cbn; lia|]. exists t2. by rewrite app_assoc.
Qed.
End Rounds.

(** ** [static_order] *)

(** [order] lists each node of [g] once, after its predecessors. *)
Definition topological (g : list (string * list string)) (order : list string) : Prop :=
  order ≡ₚ map fst g /\ forall a m b, order = a ++ m :: b -> forall ps, (m, ps) ∈ g -> ps ⊆ a.

(** Each node of [l] is a predecessor of the next. *)
Fixpoint path (g : list (string * list string)) (l : list string) : Prop :=
  match l with
  | a :: (b :: _) as l' => (exists ps, (b, ps) ∈ g /\ a ∈ ps) /\ path g l'
  | _ => True
  end.

Definition cyclic (g : list (string * list string)) (c : list string) : Prop :=
  exists x l, c = x :: l ++ [x] /\ path g c.

Section Order.
Context (g : list (string * list string)) (Hnd : NoDup (map fst g)) (Hps : Forall (fun p => NoDup p.2) g)
  (Hin : forall n ps, (n, ps) ∈ g -> ps ⊆ map fst g).

Lemma walk_path t l : table_of g t -> walk t l -> path g l.
Proof.
  intros Ht. induction l as [|a l IH]; [done|]. destruct l as [|b l]; [done|].
  intros [Hb Hw]. split; [by apply (to_succ _ _ Ht)|by apply IH].
Qed.

Lemma table_nodes t n : table_of g t -> n ∈ dict_keys t <-> n ∈ map fst g.
Proof.
  intros Ht. rewrite (to_nodes _ _ Ht). split; [|by left]. intros [?|(m & ps & Hm & Hn)]; [done|].
  by apply (Hin m ps Hm).
Qed.

Lemma initial_inv t : table_of g t -> progress_inv g t [] (initially_ready t) t.
Proof.
  intros Ht. pose proof (to_keys _ _ Ht) as Hk.
  assert (forall m ps, (m, ps) ∈ g -> waiting [] ps = ps) as Hw.
  { intros m ps _. unfold waiting. clear. induction ps as [|p ps IH]; [done|].
    rewrite filter_cons_True by (intros H; inversion H). by rewrite IH. }
  split; cbn [app].
  - done.
  - unfold initially_ready. eapply sublist_NoDup; [exact Hk|]. apply (fmap_sublist fst), sublist_filter.
  - intros m Hm. apply (table_nodes t m Ht). unfold initially_ready in Hm. unfold dict_keys.
    apply list_elem_of_fmap in Hm as (p & -> & Hp%list_elem_of_filter). apply list_elem_of_fmap_2. naive_solver.
  - intros m ps Hm. rewrite (Hw m ps Hm). by apply (to_npred _ _ Ht).
  - intros m ps Hm. rewrite (Hw m ps Hm). pose proof (to_npred _ _ Ht m ps Hm) as Hp. unfold initially_ready.
    assert (m ∈ dict_keys t) as Hmk.
    { apply (table_nodes t m Ht). change m with (fst (m, ps)). by apply list_elem_of_fmap_2. }
    split.
    + intros ([m' i] & -> & [Hi Hmi]%list_elem_of_filter)%list_elem_of_fmap. cbn [fst snd] in *.
      apply (dict_elem_get (V := node_info)) in Hmi; [|done]. unfold npred, get_nodeinfo in Hp. rewrite Hmi in Hp.
      cbn in Hp. destruct ps; [done|cbn in Hp; lia].
    + intros ->. unfold dict_keys in Hmk. apply list_elem_of_fmap in Hmk as ([m' i] & -> & Hmi). cbn [fst] in *.
      change m' with (fst (m', i)). apply list_elem_of_fmap_2, list_elem_of_filter. split; [|done]. cbn.
      apply (dict_elem_get (V := node_info)) in Hmi; [|done]. unfold npred, get_nodeinfo in Hp. by rewrite Hmi in Hp.
  - intros a m b E. by destruct a.
Qed.

(** Nodes that can be ordered by [fin] are all reached by the rounds. *)
Lemma rounds_complete t done t' fin : table_of g t -> progress_inv g t done [] t' -> closed t fin ->
  dict_keys t ⊆ fin -> map fst g ⊆ done.
Proof.
  intros Ht [_ _ _ _ Pr _] Hc Hf. rewrite app_nil_r in Pr.
  assert (forall b a, fin = a ++ b -> forall m, m ∈ map fst g -> m ∉ a -> m ∈ done) as H.
  { induction b as [|x b IH]; intros a E m Hm Ha.
    - destruct Ha. rewrite app_nil_r in E. rewrite <- E. by apply Hf, (table_nodes t m Ht).
    - assert (fin = (a ++ [x]) ++ b) as E' by (by rewrite <- app_assoc). specialize (IH _ E').
      destruct (decide (m = x)) as [->|]; [|apply IH; set_solver].
      apply list_elem_of_fmap in Hm as ([x' ps] & -> & Hg). cbn [fst] in *.
      apply (Pr x' ps Hg). apply waiting_nil. intros d Hd. apply IH; [by apply (Hin x' ps)|]. intros Hda.
      apply list_elem_of_split in Hda as (a1 & a2 & Ea). apply Ha.
      assert (x' ∈ a1) as Hx.
      { apply (Hc a1 d (a2 ++ b)); [by rewrite E', Ea, <- app_assoc|]. apply (to_succ _ _ Ht). by exists ps. }
      destruct a2 as [|y a2] using rev_ind; [by apply app_inj_tail in Ea as [-> _]|].
      rewrite app_comm_cons, app_assoc in Ea. apply app_inj_tail in Ea as [-> _]. set_solver. }
  intros m Hm. apply (H fin []); [done|done|]. intros Hn. inversion Hn.
Qed.

Lemma static_order_ok : 
  match static_order g with inl order => topological g order | inr c => cyclic g c end.
Proof.
  pose proof (sorter_table g Hnd Hps) as Ht. unfold static_order. set (t := sorter g) in *.
  assert (forall n s, s ∈ succ_of t n -> s ∈ dict_keys t) as Hcl.
  { intros n s (ps & Hg & _)%(to_succ _ _ Ht). apply (table_nodes t s Ht).
    change s with (fst (s, ps)). by apply list_elem_of_fmap_2. }
  pose proof (find_cycle_spec t (to_keys _ _ Ht) Hcl) as Hf.
  destruct (find_cycle t) as [c|seen|]; [|destruct Hf as (fin & Hc & Hk)|done].
  - destruct Hf as (x & l & -> & Hw). exists x, l. split; [done|]. by apply (walk_path t).
  - assert (length g <= length t)%nat as Hlen.
    { rewrite <- (length_map fst g), <- (length_map fst t). apply submseteq_length, NoDup_submseteq; [done|].
      intros m. fold (dict_keys t). by apply (table_nodes t m Ht). }
    destruct (rounds_inv g t Ht Hnd Hps Hin (S (length t)) [] (initially_ready t) t (initial_inv t Ht)) as [t' Hi]; [cbn; lia|].
    cbn [app] in Hi. set (order := rounds _ _ _) in *.
    pose proof (rounds_complete t order t' fin Ht Hi Hc Hk) as Hall. destruct Hi as [_ Pd Pn _ _ Po].
    rewrite app_nil_r in Pd, Pn. split; [|done]. apply NoDup_Permutation; [done|done|]. intros m. split; auto.
Qed.

(** A graph with a cycle has no such order. *)
Lemma cyclic_not_topological c order : cyclic g c -> ~ topological g order.
Proof.
  intros (x & l & -> & Hpath) [Hperm Hord].
  assert (forall l y, path g (y :: l) -> forall a b, order = a ++ b -> y ∉ a -> forall z, z ∈ l -> z ∉ a) as H.
  { clear x l Hpath. induction l as [|z l IH]; intros y Hp a b E Hy w; [set_solver|].
    destruct Hp as [(ps & Hg & Hyp) Hp]. assert (z ∉ a) as Hz.
    { intros Hz. apply list_elem_of_split in Hz as (a1 & a2 & ->). apply Hy.
      rewrite <- app_assoc in E. cbn in E. pose proof (Hord _ _ _ E ps Hg y Hyp). set_solver. }
    intros [->|Hw]%elem_of_cons; [done|]. by apply (IH z Hp a b E Hz). }
  assert (x ∈ order) as Hx.
  { rewrite Hperm. destruct l as [|y l]; destruct Hpath as [(ps & Hg & Hxp) _]; by apply (Hin _ _ Hg). }
  apply list_elem_of_split in Hx as (a & b & E).
  assert (x ∉ a) as Hxa.
  { assert (NoDup order) as Ho by (by rewrite Hperm). rewrite E in Ho.
    apply NoDup_app in Ho as (_ & Hd & _). intros Hxa. apply (Hd x Hxa). left. }
  (* some predecessor of [x] on the cycle comes before it, and [x] before that one *)
  assert (exists y ps, y ∈ x :: l /\ (x, ps) ∈ g /\ y ∈ ps) as (y & ps & Hy & Hg & Hyp).
  { clear -Hpath. revert Hpath. generalize x at 1 3 as z. revert l.
    induction l as [|w l IH]; intros z Hp; cbn in Hp.
    - destruct Hp as [(ps & Hg & Hz) _]. exists z, ps. split; [left|done].
    - destruct Hp as [_ Hp]. destruct (IH w Hp) as (y & ps & Hy & ?). exists y, ps. split; [by right|done]. }
  pose proof (Hord _ _ _ E ps Hg y Hyp) as Hya.
  assert (y <> x) as Hne by (intros ->; done).
  apply (H (l ++ [x]) x Hpath a (x :: b) E Hxa y); [set_solver|done].
Qed.
End Order.
