(* ===== verification/Pipeline.v ===== *)
(** * The pipeline executor ([lablet-controller/application/services/pipeline_executor.py])

    A pipeline is a graph of steps; the executor sorts it, then runs the steps one
    after the other, each with its retries, and may stop at a step that suspended
    or a required step that failed.  [step_registry.py] and the dispatcher that
    [lablet_reconciler.py] builds over it are at the end.

    Effects.  The calls the executor makes are recorded in a log; what the world
    answers (step handlers, the clock) is a function of the log so far, so a
    handler may answer each attempt differently.  Handlers read the progress and
    the data of the earlier steps and do not write them.  [simple_eval] stands for
    the [simpleeval] package, [getattr] for attribute lookup on a value that is not
    a dict.  Not modelled: cancellation, the duration of a run. *)
From S2P Require Import Prelude PySort PyData Topo.
From Stdlib Require Import Ascii.

(** ** Definitions of pipelines

    The values the executor reads off the YAML, defaults in place of absent keys.
    An [error] is the step and the error in "Required step '...' failed: ...". *)
Record retry_config := { max_attempts : Z; delay_seconds : Z }.

Record step := {
  name : string;
  optional : bool;
  needs : list string;
  skip_when : option string;
  handler : option string;
  timeout_seconds : option Z;
  retry : option retry_config;
  params : option pydict
}.

Record pipeline := {
  description : string;
  steps : list step;
  outputs : dict string;
  max_retries : Z
}.

Record PipelineResult := {
  pipeline_name : string;
  status : string;
  steps_completed : nat;
  steps_failed : nat;
  steps_skipped : nat;
  steps_suspended : nat;
  resolved_outputs : pydict;
  error : option (string * pyval);
  result_max_retries : Z;
  result_external_jobs : list pydict
}.

(** ** Sorting the steps ([_resolve_dag]) *)
Section Resolve.
Context `{SetOrder}.

Fixpoint register (l : list step) (step_map : dict step) (graph : dict (list string))
    : res (dict step * dict (list string)) :=
  match l with
  | [] => Ok (step_map, graph)
  | s :: l =>
      if dict_mem (name s) step_map
      then Err (PipelineDefinitionError ("Duplicate step name: '" +:+ name s +:+ "'"))
      else register l (dict_set (name s) s step_map) (dict_set (name s) (set_order (needs s)) graph)
  end.

Fixpoint check_known (known : list string) (graph : dict (list string)) : res unit :=
  match graph with
  | [] => Ok ()
  | (n, deps) :: graph =>
      match filter (fun d => d ∉ known) deps with
      | [] => check_known known graph
      | [u] => Err (PipelineDefinitionError ("Step '" +:+ n +:+ "' depends on unknown step '" +:+ u +:+ "'"))
      | us => Err (PipelineDefinitionError ("Step '" +:+ n +:+ "' depends on unknown step(s): "
                     +:+ py_join ", " (sort_by str_ltb id us)))
      end
  end.

Definition resolve_dag (l : list step) : res (list step) :=
  '(step_map, graph) ← register l [] [];
  _ ← check_known (dict_keys step_map) graph;
  match static_order graph with
  | inl ordered_names => mapM (fun n => dict_item n step_map) ordered_names
  | inr cycle_nodes => Err (PipelineDefinitionError
      ("Cycle detected among steps: [" +:+ py_join ", " cycle_nodes +:+ "]"))
  end.
End Resolve.

(** ** Effects and answers *)
Inductive effect :=
| Dispatch (step_name handler_name : string) (attempt : Z)
| Sleep (seconds : Z)
| Persist (pipeline step_name step_status : string) (result_data error : pyval).

(** What awaiting a coroutine gives. *)
Inductive awaited (A : Type) := Returned (a : A) | Raised (msg : string) | TimedOut.
Arguments Returned {_} _.
Arguments Raised {_} _.
Arguments TimedOut {_}.

(** What evaluating an expression gives: a value, one of the exceptions that
    [_evaluate_skip] catches, or another exception. *)
Inductive evaluated := Value (v : pyval) | Caught | Uncaught (e : exn).

Definition dispatcher : Type := list effect -> string -> pydict -> pydict -> option pydict -> awaited pyval.

(** The local variables of [execute], and what of the context it changes. *)
Record exec := {
  log : list effect;
  progress : pydict;
  steps_data : pydict;
  step_statuses : dict string;
  completed : nat;
  failed : nat;
  skipped : nat;
  suspended_count : nat;
  error_message : option (string * pyval);
  external_jobs : list pydict;
  pipeline_suspended : bool
}.
#[export] Instance exec_eta : Eta exec := fun r =>
  Build_exec (log r) (progress r) (steps_data r) (step_statuses r) (completed r) (failed r) (skipped r)
    (suspended_count r) (error_message r) (external_jobs r) (pipeline_suspended r).

Definition effects (x : exec) (l : list effect) : exec := x <| log := log x ++ l |>.
Definition set_progress (n : string) (entry : pydict) (x : exec) : exec :=
  x <| progress := dict_set n (PDict entry) (progress x) |>.
Definition set_data (n : string) (v : pyval) (x : exec) : exec :=
  x <| steps_data := dict_set n v (steps_data x) |>.

(** [step_statuses[n] = status] with the counter of the status. *)
Definition mark_completed (n : string) (x : exec) : exec :=
  x <| step_statuses := dict_set n "completed" (step_statuses x) |> <| completed := S (completed x) |>.
Definition mark_failed (n : string) (x : exec) : exec :=
  x <| step_statuses := dict_set n "failed" (step_statuses x) |> <| failed := S (failed x) |>.
Definition mark_skipped (n : string) (x : exec) : exec :=
  x <| step_statuses := dict_set n "skipped" (step_statuses x) |> <| skipped := S (skipped x) |>.
Definition mark_suspended (n : string) (job : pydict) (x : exec) : exec :=
  x <| step_statuses := dict_set n "suspended" (step_statuses x) |> <| suspended_count := S (suspended_count x) |>
    <| external_jobs := external_jobs x ++ [job] |> <| pipeline_suspended := true |>.

(** ** Resumption *)

(** The entries of a previous run by step name: a dict by name, or under ["steps"]
    a list of entries that name their step.  A name that is not a string names no step. *)
Definition add_entry (acc : dict pydict) (v : pyval) : res (dict pydict) :=
  match v with
  | PDict s =>
      match pd_get_or "step" (pd_get_or "name" (PStr "") s) s with
      | PStr n => Ok (if str_truthy n then dict_set n s acc else acc)
      | _ => Ok acc
      end
  | _ => Err (AttributeError "object has no attribute 'get'")
  end.

Fixpoint add_entries (l : list pyval) (acc : dict pydict) : res (dict pydict) :=
  match l with
  | [] => Ok acc
  | v :: l => acc ← add_entry acc v; add_entries l acc
  end.

Definition resume_index (existing : option pydict) : res (dict pydict) :=
  match existing with
  | None => Ok []
  | Some d =>
      match dict_get "steps" d with
      | Some (PList l) => add_entries l []
      | _ => Ok (fold_left (fun acc '(n, v) =>
                   match v with
                   | PDict info => if dict_mem "status" info then dict_set n info acc else acc
                   | _ => acc
                   end) d [])
      end
  end.

(** [prev.get(k) or prev.get("result_data", {}).get(k)] *)
Definition external_field (k : string) (prev : pydict) : res pyval :=
  let v := pd_get k prev in
  if truthy v then Ok v
  else match pd_get_or "result_data" (PDict []) prev with
       | PDict d => Ok (pd_get k d)
       | _ => Err (AttributeError "object has no attribute 'get'")
       end.

(** The text of a job id in a message: a string, a number or [None]. *)
Definition job_str (v : pyval) : string :=
  match v with PStr s => s | PInt z => pretty z | _ => "None" end.

(** ** Outputs *)
Section Outputs.
Context (getattr : pyval -> string -> option pyval).

Fixpoint navigate (data : pyval) (field_path : list string) : pyval :=
  match field_path with
  | [] => data
  | part :: field_path =>
      let next := match data with PDict d => pd_get part d | _ => default PNone (getattr data part) end in
      match next with PNone => PNone | _ => navigate next field_path end
  end.

Definition is_quote (c : ascii) : bool := Ascii.eqb c "'"%char || (Ascii.nat_of_ascii c =? 34)%nat.

Definition resolve_dot_path (expression : string) (data : pydict) : pyval :=
  let expr := py_strip_by is_quote (py_strip expression) in
  if negb (py_startswith "$STEPS." expr) then PNone else
  match py_split "."%char (str_drop 7 expr) with
  | step_name :: field :: field_path =>
      match pd_get step_name data with
      | PNone => PNone
      | d => navigate d (field :: field_path)
      end
  | _ => PNone
  end.

Definition resolve_outputs (output_defs : dict string) (data : pydict) : pydict :=
  map (fun '(key, expr) => (key, resolve_dot_path expr data)) output_defs.
End Outputs.

(** ** Execution *)
Section Execute.
Context `{SetOrder} (dispatch : dispatcher) (simple_eval : string -> pydict -> evaluated)
  (now_iso : list effect -> datetime) (getattr : pyval -> string -> option pyval).

(** [_evaluate_skip] *)
Definition evaluate_skip (expression : string) (data : pydict) : res bool :=
  let cleaned_expr :=
    py_replace "$STEPS" "STEPS" (py_replace "$WORKER" "WORKER"
      (py_replace "$SESSION" "SESSION" (py_replace "$DEFINITION" "DEFINITION" expression))) in
  match simple_eval cleaned_expr data with
  | Value v => Ok (truthy v)
  | Caught => Ok false
  | Uncaught e => Err e
  end.

(** [_persist_progress]: the API call; its failure is only logged. *)
Definition persist_progress (pipeline_name : option string) (n st : string) (result_data error : pyval) (x : exec) : exec :=
  effects x [Persist (ostr_or pipeline_name "unnamed") n st result_data error].

(** *** One step with its retries ([_execute_step]) *)
Definition attempts_of (s : step) : Z := match retry s with Some r => max_attempts r | None => 1 end.
Definition delay_of (s : step) : Z := match retry s with Some r => delay_seconds r | None => 0 end.
Definition handler_of (s : step) : string := default (name s) (handler s).

Definition timeout_message (s : step) (attempt : Z) : string :=
  "Step '" +:+ name s +:+ "' timed out after "
    +:+ match timeout_seconds s with Some t => pretty t | None => "None" end +:+ "s (attempt "
    +:+ pretty attempt +:+ "/" +:+ pretty (attempts_of s) +:+ ")".

(** [n] attempts are left, the first of them the [attempt]-th. *)
Fixpoint run_attempts (s : step) (n : nat) (attempt : Z) (last_error : string) (x : exec) : (pydict + string) * exec :=
  match n with
  | O => (inr ("Step '" +:+ name s +:+ "' failed: " +:+ last_error), x)
  | S n =>
      let x := set_progress (name s) [("status", PStr "in_progress"); ("attempt", PInt attempt)] x in
      let answer := dispatch (log x) (handler_of s) (progress x) (steps_data x) (params s) in
      let x := effects x [Dispatch (name s) (handler_of s) attempt] in
      let wait := if (attempt <? attempts_of s) && (0 <? delay_of s) then [Sleep (delay_of s)] else [] in
      match answer with
      | Returned (PDict d) => (inl d, x)
      | Returned v => (inl [("result", v)], x)
      | Raised msg => run_attempts s n (attempt + 1) msg (effects x wait)
      | TimedOut => run_attempts s n (attempt + 1) (timeout_message s attempt) (effects x wait)
      end
  end.

Definition execute_step (s : step) (x : exec) : (pydict + string) * exec :=
  run_attempts s (Z.to_nat (attempts_of s)) 1 "None" x.

Section Run.
Context (all ordered : list step) (pname : option string) (resume : dict pydict).

(** The rest of the steps, when a required step failed. *)
Definition abort_rest (x : exec) : exec :=
  fold_left (fun x remaining =>
    let rname := name remaining in
    if dict_mem rname (step_statuses x) then x
    else persist_progress pname rname "skipped" PNone PNone
           (set_progress rname [("status", PStr "skipped"); ("reason", PStr "pipeline aborted")] (mark_skipped rname x)))
    ordered x.

(** A step that failed: whether the loop stops, and the state. *)
Definition fail_step (s : step) (err : pyval) (entry : pydict) (x : exec) : bool * exec :=
  let x := persist_progress pname (name s) "failed" PNone err (set_progress (name s) entry (mark_failed (name s) x)) in
  if optional s then (false, x)
  else (true, abort_rest (x <| error_message := Some (name s, err) |>)).

(** A step with an entry of a previous run; [None] runs it again. *)
Definition resume_step (s : step) (prev : pydict) (x : exec) : res (option (bool * exec)) :=
  let prev_status := pd_get_or "status" (pd_get_or "step_status" (PStr "") prev) prev in
  if eq_str prev_status "completed" then
    let prev_result := pd_get_or "result_data" (PDict []) prev in
    let x := if truthy prev_result then set_data (name s) prev_result x else x in
    Ok (Some (false, set_progress (name s) [("status", PStr "completed"); ("result_data", prev_result)]
                       (mark_completed (name s) x)))
  else if eq_str prev_status "skipped" then
    Ok (Some (false, set_progress (name s) [("status", PStr "skipped"); ("reason", PStr "previously skipped")]
                       (mark_skipped (name s) x)))
  else if eq_str prev_status "suspended" then
    external_job_id ← external_field "external_job_id" prev;
    step_correlation_id ← external_field "step_correlation_id" prev;
    let job := [("step_name", PStr (name s)); ("external_job_id", external_job_id);
                ("step_correlation_id", step_correlation_id); ("suspended_at", pd_get "suspended_at" prev)] in
    Ok (Some (true, set_progress (name s) prev (mark_suspended (name s) job x)))
  else Ok None.

(** [_find_step] *)
Definition find_step (n : string) : option step := List.find (fun s => String.eqb (name s) n) all.

(** The dependency that blocks a step, if any. *)
Fixpoint blocked_by (deps : list string) (x : exec) : option string :=
  match deps with
  | [] => None
  | dep :: deps =>
      match dict_get dep (step_statuses x) with
      | Some st =>
          if String.eqb st "failed" then
            match find_step dep with
            | Some dep_step => if optional dep_step then blocked_by deps x else Some dep
            | None => Some dep
            end
          else blocked_by deps x
      | None => blocked_by deps x
      end
  end.

(** What a step handler returned. *)
Definition handle_result (s : step) (result_data : pydict) (x : exec) : bool * exec :=
  let handler_status := pd_get "status" result_data in
  if eq_str handler_status "skipped" then
    let reason := pd_get_or "reason" (PStr "step handler returned skipped") result_data in
    (false,
     persist_progress pname (name s) "skipped" PNone PNone
       (set_progress (name s) [("status", PStr "skipped"); ("reason", reason); ("result_data", PDict result_data)]
         (set_data (name s) (PDict result_data) (mark_skipped (name s) x))))
  else if eq_str handler_status "suspended" then
    let external_job_id := pd_get "external_job_id" result_data in
    let step_correlation_id := pd_get "step_correlation_id" result_data in
    let suspended_at := PIso (now_iso (log x)) in
    let reason := pd_get_or "reason" (PStr ("awaiting external job " +:+ job_str external_job_id)) result_data in
    let job := [("step_name", PStr (name s)); ("external_job_id", external_job_id);
                ("step_correlation_id", step_correlation_id); ("suspended_at", suspended_at)] in
    let marker := [("external_job_id", external_job_id); ("step_correlation_id", step_correlation_id);
                   ("suspended_at", suspended_at); ("reason", reason)] in
    (true,
     persist_progress pname (name s) "suspended" (PDict marker) PNone
       (set_progress (name s) (("status", PStr "suspended") :: marker ++ [("result_data", PDict result_data)])
         (mark_suspended (name s) job x)))
  else if eq_str handler_status "failed" then
    let handler_error := pd_get_or "error" (PStr "step handler returned failed") result_data in
    fail_step s handler_error
      [("status", PStr "failed"); ("error", handler_error); ("result_data", PDict result_data)] x
  else
    (false,
     persist_progress pname (name s) "completed" (PDict result_data) PNone
       (set_progress (name s) [("status", PStr "completed"); ("result_data", PDict result_data)]
         (set_data (name s) (PDict result_data) (mark_completed (name s) x)))).

(** A step that no previous run settled. *)
Definition run_step (s : step) (x : exec) : res (bool * exec) :=
  match blocked_by (needs s) x with
  | Some dep =>
      Ok (false,
          persist_progress pname (name s) "skipped" PNone PNone
            (set_progress (name s) [("status", PStr "skipped"); ("reason", PStr ("upstream '" +:+ dep +:+ "' failed"))]
              (mark_skipped (name s) x)))
  | None =>
      let skip_expr := default "" (skip_when s) in
      skip ← (if str_truthy skip_expr then evaluate_skip skip_expr (steps_data x) else Ok false);
      if skip : bool then
        Ok (false,
            persist_progress pname (name s) "skipped" PNone PNone
              (set_progress (name s) [("status", PStr "skipped"); ("reason", PStr ("skip_when: " +:+ skip_expr))]
                (mark_skipped (name s) x)))
      else
        match execute_step s x with
        | (inl result_data, x) => Ok (handle_result s result_data x)
        | (inr exc_msg, x) =>
            Ok (fail_step s (PStr exc_msg) [("status", PStr "failed"); ("error", PStr exc_msg)] x)
        end
  end.

(** One iteration of the loop over the sorted steps. *)
Definition visit (s : step) (x : exec) : res (bool * exec) :=
  match dict_get (name s) resume with
  | Some ((_ :: _) as prev) =>
      r ← resume_step s prev x;
      match r with Some r => Ok r | None => run_step s x end
  | _ => run_step s x
  end.

Fixpoint run_steps (l : list step) (x : exec) : res exec :=
  match l with
  | [] => Ok x
  | s :: l => '(stop, x) ← visit s x; if stop : bool then Ok x else run_steps l x
  end.
End Run.

(** [_build_initial_progress] *)
Definition initial_progress (ordered : list step) : pydict :=
  fold_left (fun acc '(i, s) => dict_set (name s) (PDict [("status", PStr "pending"); ("order", PInt (Z.of_nat i))]) acc)
    (imap pair ordered) [].

Definition initial_exec (log0 : list effect) (data : pydict) (p : pydict) : exec :=
  {| log := log0; progress := p; steps_data := data; step_statuses := []; completed := 0; failed := 0; skipped := 0;
     suspended_count := 0; error_message := None; external_jobs := []; pipeline_suspended := false |}.

Definition terminal_status (x : exec) : string :=
  if pipeline_suspended x then "suspended"
  else match error_message x with
       | Some _ => "failed"
       | None => if (0 <? failed x)%nat then "partial" else "completed"
       end.

Definition result_of (p : pipeline) (x : exec) : PipelineResult :=
  {| pipeline_name := description p; status := terminal_status x; steps_completed := completed x;
     steps_failed := failed x; steps_skipped := skipped x; steps_suspended := suspended_count x;
     resolved_outputs := resolve_outputs getattr (outputs p) (steps_data x); error := error_message x;
     result_max_retries := max_retries p; result_external_jobs := external_jobs x |}.

(** The result with the state at the end: the log, the progress and the data. *)
Definition execute (p : pipeline) (data : pydict) (existing_progress : option pydict) (pname : option string)
    (log0 : list effect) : res (PipelineResult * exec) :=
  match steps p with
  | [] =>
      let x := initial_exec log0 data [] in
      Ok ({| pipeline_name := description p; status := "completed"; steps_completed := 0; steps_failed := 0;
             steps_skipped := 0; steps_suspended := 0; resolved_outputs := []; error := None;
             result_max_retries := max_retries p; result_external_jobs := [] |}, x)
  | _ =>
      ordered ← resolve_dag (steps p);
      resume ← resume_index existing_progress;
      x ← run_steps (steps p) ordered pname resume ordered (initial_exec log0 data (initial_progress ordered));
      Ok (result_of p x, x)
  end.
End Execute.

(** ** Step handlers ([step_registry.py]) and the reconciler's dispatcher *)

Record StepResult := {
  sr_status : string;
  sr_result_data : pydict;
  sr_error : option string;
  sr_reason : option string;
  sr_external_job_id : option string;
  sr_step_correlation_id : option string
}.

Definition StepResult_completed (result_data : pydict) : StepResult :=
  {| sr_status := "completed"; sr_result_data := result_data; sr_error := None; sr_reason := None;
     sr_external_job_id := None; sr_step_correlation_id := None |}.
Definition StepResult_skipped (reason : string) : StepResult :=
  {| sr_status := "skipped"; sr_result_data := []; sr_error := None; sr_reason := Some reason;
     sr_external_job_id := None; sr_step_correlation_id := None |}.
Definition StepResult_failed (error : string) : StepResult :=
  {| sr_status := "failed"; sr_result_data := []; sr_error := Some error; sr_reason := None;
     sr_external_job_id := None; sr_step_correlation_id := None |}.
Definition StepResult_suspended (external_job_id step_correlation_id : string) (reason : option string) : StepResult :=
  {| sr_status := "suspended"; sr_result_data := []; sr_error := None;
     sr_reason := Some (ostr_or reason ("awaiting external job " +:+ external_job_id));
     sr_external_job_id := Some external_job_id; sr_step_correlation_id := Some step_correlation_id |}.

Definition StepResult_to_dict (r : StepResult) : pydict :=
  let field k v := if ostr_truthy v then [(k, of_ostr v)] else [] in
  [("status", PStr (sr_status r))]
  ++ match sr_result_data r with [] => [] | d => [("result_data", PDict d)] end
  ++ field "error" (sr_error r) ++ field "reason" (sr_reason r)
  ++ field "external_job_id" (sr_external_job_id r) ++ field "step_correlation_id" (sr_step_correlation_id r).

(** What a legacy [_step_*] method returns: the keys the dispatcher reads. *)
Record legacy_result := { lg_status : option string; lg_error : option string; lg_result_data : option pyval }.

(** [_build_step_dispatcher]: the registered handlers, then the reconciler's own methods. *)
Definition build_step_dispatcher
    (registry : string -> option (list effect -> pydict -> pydict -> option pydict -> awaited StepResult))
    (legacy : string -> option (list effect -> pydict -> awaited legacy_result)) : dispatcher :=
  fun log handler_name progress data params =>
    match registry handler_name with
    | Some handler_fn =>
        match handler_fn log progress data params with
        | Returned step_result =>
            let result_dict := StepResult_to_dict step_result in
            if eq_str (pd_get_or "status" (PStr "completed") result_dict) "failed"
            then Raised (match pd_get "error" result_dict with PStr e => e
                         | _ => "Step " +:+ handler_name +:+ " failed" end)
            else Returned (pd_get_or "result_data" (PDict []) result_dict)
        | Raised msg => Raised msg
        | TimedOut => TimedOut
        end
    | None =>
        match legacy handler_name with
        | None => Raised ("Unknown pipeline step handler: " +:+ handler_name +:+ " (not in registry or reconciler)")
        | Some method =>
            match method log progress with
            | Returned r =>
                if String.eqb (default "completed" (lg_status r)) "failed"
                then Raised (default ("Step " +:+ handler_name +:+ " failed") (lg_error r))
                else Returned (default (PDict []) (lg_result_data r))
            | Raised msg => Raised msg
            | TimedOut => TimedOut
            end
        end
    end.
