(* ===== verification/PipelineProps.v ===== *)
(** * Properties of the pipeline executor

    Sorting refuses exactly the malformed definitions; a run dispatches steps in
    the sorted order, within their attempts, and never a step that a previous run
    settled; the counters and the status of the result account for every step;
    the check of failed dependencies is redundant; a finished run can be run again
    without effect; and the reconciler's dispatcher loses suspensions. *)
From S2P Require Import Prelude PySort PyData Topo TopoProps Pipeline.

(** ** Sorting the steps *)

Section Resolve.
Context `{SetOrderLaws}.

Definition graph_of (l : list step) : dict (list string) := map (fun s => (name s, set_order (needs s))) l.
Definition step_map_of (l : list step) : dict step := map (fun s => (name s, s)) l.

Lemma dict_set_new {V} k (v : V) d : k ∉ dict_keys d -> dict_set k v d = d ++ [(k, v)].
Proof.
  unfold dict_keys. induction d as [|[k' v'] d IH]; cbn; [done|]. rewrite not_elem_of_cons. intros [Hk Hd].
  destruct (String.eqb_spec k k'); [done|]. by rewrite IH.
Qed.

Lemma dict_mem_true {V} k (d : dict V) : dict_mem k d = true <-> k ∈ dict_keys d.
Proof.
  unfold dict_mem. destruct (dict_get k d) eqn:E.
  - split; [|done]. intros _. apply dict_get_elem in E. unfold dict_keys. change k with (fst (k, v)).
    by apply list_elem_of_fmap_2.
  - apply dict_get_None in E. by split.
Qed.

Lemma keys_step_map l : dict_keys (step_map_of l) = map name l.
Proof. unfold dict_keys, step_map_of. rewrite map_map. done. Qed.
Lemma keys_graph l : map fst (graph_of l) = map name l.
Proof. unfold graph_of. rewrite map_map. done. Qed.

Lemma register_spec l done :
  match register l (step_map_of done) (graph_of done) with
  | Ok (m, g) => m = step_map_of (done ++ l) /\ g = graph_of (done ++ l) /\ (NoDup (map name done) -> NoDup (map name (done ++ l)))
  | Err e => (exists msg, e = PipelineDefinitionError msg) /\ ~ NoDup (map name (done ++ l))
  end.
Proof.
  revert done. induction l as [|s l IH]; intros done; cbn [register].
  - rewrite app_nil_r. by repeat split.
  - destruct (dict_mem (name s) (step_map_of done)) eqn:E.
    + split; [by eexists|]. apply dict_mem_true in E. rewrite keys_step_map in E. rewrite map_app. cbn.
      intros (_ & Hd & _)%NoDup_app. apply (Hd _ E). left.
    + assert (name s ∉ map name done) as Hn by (intros Hx; rewrite <- keys_step_map, <- dict_mem_true in Hx; congruence).
      rewrite !dict_set_new by (by rewrite ?keys_step_map; unfold dict_keys; rewrite ?keys_graph).
      change (step_map_of done ++ [(name s, s)]) with (step_map_of done ++ step_map_of [s]).
      change (graph_of done ++ [(name s, set_order (needs s))]) with (graph_of done ++ graph_of [s]).
      unfold step_map_of, graph_of. rewrite <- !map_app. fold (step_map_of (done ++ [s])) (graph_of (done ++ [s])).
      specialize (IH (done ++ [s])). rewrite <- app_assoc in IH. cbn in IH.
      destruct (register l _ _) as [[m g]|e]; [|done]. destruct IH as (-> & -> & Hd). split; [done|]. split; [done|].
      intros Hnd. apply Hd. rewrite map_app. apply NoDup_app. split; [done|]. split; [|apply NoDup_singleton].
      intros x Hx ->%list_elem_of_singleton. done.
Qed.

Lemma check_known_spec known g :
  match check_known known g with
  | Ok _ => forall n ps, (n, ps) ∈ g -> ps ⊆ known
  | Err e => (exists msg, e = PipelineDefinitionError msg) /\ exists n ps d, (n, ps) ∈ g /\ d ∈ ps /\ d ∉ known
  end.
Proof.
  induction g as [|[n deps] g IH]; cbn [check_known]; [intros n ps Hin; inversion Hin|].
  destruct (filter (fun d => d ∉ known) deps) as [|u us] eqn:E.
  - assert (deps ⊆ known) as Hd.
    { intros d Hd. destruct (decide (d ∈ known)); [done|].
      assert (d ∈ filter (fun d => d ∉ known) deps) as Hf by (by apply list_elem_of_filter). rewrite E in Hf. inversion Hf. }
    destruct (check_known known g).
    + intros m ps [[= -> ->]|Hin]%elem_of_cons; [done|by eapply IH].
    + destruct IH as [? (m & ps & d & Hin & ?)]. split; [done|]. exists m, ps, d. split; [by right|done].
  - assert (u ∈ filter (fun d => d ∉ known) deps) as [Hu Hin]%list_elem_of_filter by (rewrite E; left).
    assert (exists n' ps d, (n', ps) ∈ (n, deps) :: g /\ d ∈ ps /\ d ∉ known) as Hex by (exists n, deps, u; split; [left|done]).
    destruct us; split; try done; by eexists.
Qed.

Lemma mapM_lookup (l : list step) names : NoDup (map name l) -> names ⊆ map name l ->
  exists ordered, mapM (fun n => dict_item n (step_map_of l)) names = Ok ordered /\ map name ordered = names /\ ordered ⊆ l.
Proof.
  intros Hnd. induction names as [|n names IH]; intros Hs; cbn [mapM]; [exists []; split; [done|]; split; [done|set_solver]|].
  destruct IH as (ordered & E & Hm & Ho); [set_solver|].
  assert (n ∈ map name l) as (s & -> & Hin)%list_elem_of_fmap by set_solver.
  assert (dict_get (name s) (step_map_of l) = Some s) as Hg.
  { apply dict_elem_get; [by rewrite keys_step_map|]. unfold step_map_of. by apply (list_elem_of_fmap_2 (fun s => (name s, s))). }
  assert (dict_item (name s) (step_map_of l) = Ok s) as -> by (unfold dict_item; by rewrite Hg).
  cbn [mbind res_bind]. rewrite E. exists (s :: ordered). split; [done|]. split; [cbn; by rewrite Hm|set_solver].
Qed.

(** A definition that can be run: names are distinct, dependencies are steps, and
    there is no cycle. *)
Record well_formed (l : list step) : Prop := {
  wf_names : NoDup (map name l);
  wf_needs : forall s d, s ∈ l -> d ∈ needs s -> d ∈ map name l;
  wf_acyclic : forall c, ~ cyclic (graph_of l) c
}.

(** [ordered] is the steps [l], each after its dependencies. *)
Definition dependencies_first (l ordered : list step) : Prop :=
  ordered ≡ₚ l /\ forall a s b, ordered = a ++ s :: b -> forall d, d ∈ needs s -> d ∈ map name a.

Lemma graph_elem l n ps : (n, ps) ∈ graph_of l <-> exists s, s ∈ l /\ n = name s /\ ps = set_order (needs s).
Proof.
  unfold graph_of. rewrite list_elem_of_fmap. split.
  - intros (s & [= -> ->] & Hs). by exists s.
  - intros (s & Hs & -> & ->). by exists s.
Qed.

Lemma names_inj (l : list step) s s' : NoDup (map name l) -> s ∈ l -> s' ∈ l -> name s = name s' -> s = s'.
Proof.
  intros Hnd Hs Hs' E. assert (forall s, s ∈ l -> dict_get (name s) (step_map_of l) = Some s) as Hg.
  { intros t Ht. apply dict_elem_get; [by rewrite keys_step_map|]. by apply (list_elem_of_fmap_2 (fun s => (name s, s))). }
  pose proof (Hg _ Hs) as H1. rewrite E, (Hg _ Hs') in H1. congruence.
Qed.

Lemma resolve_dag_cases l :
  match resolve_dag l with
  | Ok ordered => well_formed l /\ dependencies_first l ordered
  | Err e => (exists msg, e = PipelineDefinitionError msg) /\ ~ well_formed l
  end.
Proof.
  unfold resolve_dag. pose proof (register_spec l []) as Hr. cbn [app] in Hr.
  change (@nil (string * step)) with (step_map_of []). change (@nil (string * list string)) with (graph_of []).
  destruct (register l _ _) as [[m g]|e]; cbn [mbind res_bind]; [|split; [apply Hr|intros []; by apply Hr]].
  destruct Hr as (-> & -> & Hnd). specialize (Hnd (NoDup_nil_2)). pose proof (check_known_spec (map name l) (graph_of l)) as Hk.
  rewrite keys_step_map. destruct (check_known _ _) as [u|e]; cbn [mbind res_bind].
  2: { destruct Hk as (? & n & ps & d & Hin & Hd & Hnk). split; [done|]. intros [_ Hn _].
       apply graph_elem in Hin as (s & Hs & -> & ->). apply Hnk, (Hn s); [done|]. by apply set_order_elem. }
  assert (NoDup (map fst (graph_of l))) as Hg by (by rewrite keys_graph).
  assert (Forall (fun p => NoDup p.2) (graph_of l)) as Hps.
  { apply Forall_forall. intros [n ps] (s & _ & _ & ->)%graph_elem. apply set_order_NoDup. }
  assert (forall n ps, (n, ps) ∈ graph_of l -> ps ⊆ map fst (graph_of l)) as Hin by (rewrite keys_graph; exact Hk).
  pose proof (static_order_ok _ Hg Hps Hin) as Hs. destruct (static_order (graph_of l)) as [names|c].
  2: { split; [by eexists|]. intros [_ _ Hc]. by apply (Hc c). }
  pose proof Hs as [Hp Ho]. rewrite keys_graph in Hp.
  destruct (mapM_lookup l names Hnd) as (ordered & -> & Hm & Hsub); [by rewrite Hp|]. split.
  - split; [done| |].
    + intros s d Hs' Hd. apply (Hk (name s) (set_order (needs s))); [apply graph_elem; by exists s|by apply set_order_elem].
    + intros c Hc. exact (cyclic_not_topological _ Hg Hps Hin c names Hc Hs).
  - split.
    + apply NoDup_Permutation.
      * apply (NoDup_fmap_1 name). change (NoDup (map name ordered)). by rewrite Hm, Hp.
      * by apply (NoDup_fmap_1 name).
      * intros s. split; [apply Hsub|]. intros Hs'.
        assert (name s ∈ map name ordered) as (s' & E & Hs2)%list_elem_of_fmap.
        { rewrite Hm, Hp. by apply list_elem_of_fmap_2. }
        by rewrite (names_inj l s s' Hnd Hs' (Hsub _ Hs2) E).
    + intros a s b E d Hd. rewrite E in Hm. rewrite map_app in Hm. cbn in Hm. symmetry in Hm.
      apply (Ho _ _ _ Hm (set_order (needs s))); [|by apply set_order_elem].
      apply graph_elem. exists s. split; [|done]. apply Hsub. rewrite E. set_solver.
Qed.

(** (C12) Sorting accepts exactly the well-formed definitions; it returns every
    step once, after the steps it depends on, and refuses the others with a
    definition error, whatever order sets are iterated in. *)
Theorem resolve_dag_spec l :
  (forall ordered, resolve_dag l = Ok ordered -> dependencies_first l ordered) /\
  (is_ok (resolve_dag l) = true <-> well_formed l) /\
  (forall e, resolve_dag l = Err e -> exists msg, e = PipelineDefinitionError msg).
Proof. pose proof (resolve_dag_cases l) as Hc. destruct (resolve_dag l); cbn; naive_solver. Qed.
End Resolve.

(** ** The state of a run *)

Definition with_status (st : string) (x : exec) : list string := filter (.= st) (dict_values (step_statuses x)).

(** The counters count the statuses, which are distinct steps'. *)
Record counted (x : exec) : Prop := {
  ct_NoDup : NoDup (dict_keys (step_statuses x));
  ct_completed : completed x = length (with_status "completed" x);
  ct_failed : failed x = length (with_status "failed" x);
  ct_skipped : skipped x = length (with_status "skipped" x);
  ct_suspended : suspended_count x = length (with_status "suspended" x);
  ct_total : (completed x + failed x + skipped x + suspended_count x = length (step_statuses x))%nat
}.

(** [x'] differs from [x] at most in the log, the progress and the data. *)
Record same_marks (x x' : exec) : Prop := {
  sm_statuses : step_statuses x' = step_statuses x;
  sm_completed : completed x' = completed x;
  sm_failed : failed x' = failed x;
  sm_skipped : skipped x' = skipped x;
  sm_suspended : suspended_count x' = suspended_count x;
  sm_error : error_message x' = error_message x;
  sm_halted : pipeline_suspended x' = pipeline_suspended x
}.

#[export] Instance same_marks_pre : PreOrder same_marks.
Proof. split; [by split|]. intros x y z [] []. split; congruence. Qed.

Lemma same_marks_counted x x' : same_marks x x' -> counted x -> counted x'.
Proof.
  intros [Es Ec Ef Ek Eu _ _] [? ? ? ? ? ?].
  split; unfold with_status in *; rewrite ?Es, ?Ec, ?Ef, ?Ek, ?Eu; done.
Qed.

Lemma same_marks_effects l x : same_marks x (effects x l).
Proof. by split. Qed.
Lemma same_marks_progress n e x : same_marks x (set_progress n e x).
Proof. by split. Qed.
Lemma same_marks_data n v x : same_marks x (set_data n v x).
Proof. by split. Qed.
#[export] Hint Resolve same_marks_effects same_marks_progress same_marks_data : lcm.

(** The step marked last, with its status. *)
Definition marked (n st : string) (x x' : exec) : Prop :=
  step_statuses x' = step_statuses x ++ [(n, st)] /\ counted x'.

Lemma with_status_snoc st n st' x x' : step_statuses x' = step_statuses x ++ [(n, st')] ->
  length (with_status st x') = (length (with_status st x) + if String.eqb st' st then 1 else 0)%nat.
Proof.
  intros E. unfold with_status, dict_values. rewrite E, map_app, filter_app, length_app. f_equal. cbn [map snd].
  rewrite filter_cons, filter_nil. destruct (String.eqb_spec st' st); [by rewrite decide_True|by rewrite decide_False].
Qed.

Ltac solve_marked :=
  match goal with
  | Hn : ?n ∉ dict_keys (step_statuses ?x), Hc : counted ?x |- marked ?n ?st ?x ?x' =>
      destruct Hc as [Hk Hc1 Hc2 Hc3 Hc4 Ht];
      let E := fresh in
      assert (step_statuses x' = step_statuses x ++ [(n, st)]) as E by (by apply dict_set_new);
      split; [exact E|];
      split; [unfold dict_keys in *; rewrite E, map_app; apply NoDup_app; cbn; split; [done|];
              split; [intros y Hy ->%list_elem_of_singleton; done|apply NoDup_singleton]
             | | | | |rewrite E, length_app; cbn; lia];
      rewrite (with_status_snoc _ _ _ _ _ E); cbn; lia
  end.

Section Marks.
Context (n : string) (x : exec) (Hn : n ∉ dict_keys (step_statuses x)) (Hc : counted x).

Lemma mark_completed_ok : marked n "completed" x (mark_completed n x).
Proof. solve_marked. Qed.
Lemma mark_failed_ok : marked n "failed" x (mark_failed n x).
Proof. solve_marked. Qed.
Lemma mark_skipped_ok : marked n "skipped" x (mark_skipped n x).
Proof. solve_marked. Qed.
Lemma mark_suspended_ok job : marked n "suspended" x (mark_suspended n job x).
Proof. solve_marked. Qed.
Lemma mark_any_suspended_ok : marked n "suspended" x (mark_suspended n [] x).
Proof. apply mark_suspended_ok. Qed.
End Marks.

Lemma marked_same n st x x1 x2 : marked n st x x1 -> same_marks x1 x2 -> marked n st x x2.
Proof. intros [E Hc] Hs. split; [by rewrite (sm_statuses _ _ Hs)|by eapply same_marks_counted]. Qed.

Lemma same_marked n st x0 x x1 : same_marks x0 x -> marked n st x x1 -> marked n st x0 x1.
Proof. intros Hs [E Hc]. split; [by rewrite E, (sm_statuses _ _ Hs)|done]. Qed.

(** The steps a list of effects dispatches. *)
Definition dispatched (l : list effect) : list string :=
  omap (fun e => match e with Dispatch n _ _ => Some n | _ => None end) l.

Lemma dispatched_app l l' : dispatched (l ++ l') = dispatched l ++ dispatched l'.
Proof. apply omap_app. Qed.

(** [x'] is [x] after effects and progress notes on step [n] only. *)
Record touched (n : string) (x x' : exec) : Prop := {
  tc_marks : same_marks x x';
  tc_data : steps_data x' = steps_data x;
  tc_others : forall m, m <> n -> dict_get m (progress x') = dict_get m (progress x);
  tc_keys : NoDup (dict_keys (progress x)) -> NoDup (dict_keys (progress x'))
}.

#[export] Instance touched_pre n : PreOrder (touched n).
Proof.
  split; [by split|]. intros x y z [Hm Hd Ho Hk] [Hm' Hd' Ho' Hk']. split; [by etransitivity|congruence| |auto].
  intros m Hne. by rewrite Ho', Ho.
Qed.

(** [x'] is [x] with the step [n] settled as [st], noted in the progress. *)
Record settled (n st : string) (x x' : exec) : Prop := {
  st_marked : marked n st x x';
  st_error : error_message x' = error_message x;
  st_noted : st = "suspended" \/ exists e, dict_get n (progress x') = Some (PDict e) /\ pd_get "status" e = PStr st;
  st_others : forall m, m <> n -> dict_get m (progress x') = dict_get m (progress x);
  st_keys : NoDup (dict_keys (progress x)) -> NoDup (dict_keys (progress x'))
}.

Lemma touched_settled n st x x1 x' : touched n x x1 -> settled n st x1 x' -> settled n st x x'.
Proof.
  intros [Hm _ Ho Hk] [Hs He Hn Ho' Hk']. split; [by eapply same_marked|by rewrite He, (sm_error _ _ Hm)|done| |auto].
  intros m Hne. by rewrite Ho', Ho.
Qed.

Ltac solve_settled mark_ok :=
  split;
  [eapply marked_same; [by apply mark_ok|split; reflexivity]
  |reflexivity
  |first [left; reflexivity|right; eexists; split; [apply dict_get_set_eq|reflexivity]]
  |intros; by apply dict_get_set_ne
  |intros; by apply dict_set_NoDup].

(** [new] are effects that dispatch at most the step [s], within its attempts. *)
Definition attempts_log (s : step) (x x' : exec) (k : nat) : Prop :=
  exists new, log x' = log x ++ new /\ dispatched new = replicate k (name s).

Lemma attempts_log_more s x x1 x' k l : attempts_log s x x1 k -> log x' = log x1 ++ l -> dispatched l = [] ->
  attempts_log s x x' k.
Proof.
  intros (new & E & Hd) E' Hl. exists (new ++ l). split; [by rewrite E', E, app_assoc|].
  by rewrite dispatched_app, Hd, Hl, app_nil_r.
Qed.

Section Attempts.
Context (dispatch : dispatcher).

Lemma run_attempts_touched s n a e x r x' : run_attempts dispatch s n a e x = (r, x') ->
  touched (name s) x x' /\ exists k, (k <= n)%nat /\ attempts_log s x x' k.
Proof.
  revert a e x. induction n as [|n IH]; intros a e x; cbn [run_attempts].
  - intros [= <- <-]. split; [reflexivity|]. exists 0%nat. split; [done|]. exists []. by rewrite app_nil_r.
  - set (x1 := set_progress _ _ x). set (x2 := effects x1 _).
    assert (touched (name s) x x2) as Ht.
    { split; [by split|done|intros m Hm; by apply dict_get_set_ne|intros Hk; by apply dict_set_NoDup]. }
    assert (attempts_log s x x2 1) as Hl by (eexists; by split).
    set (w := if _ && _ then _ else _). assert (dispatched w = []) as Hw by (unfold w; by destruct (_ && _)).
    assert (forall e', run_attempts dispatch s n (a + 1) e' (effects x2 w) = (r, x') ->
      touched (name s) x x' /\ exists k, (k <= S n)%nat /\ attempts_log s x x' k) as Hrec.
    { intros e' E. destruct (IH _ _ _ E) as [Ht' (k & Hk & new & El & Hd)]. split.
      - etransitivity; [exact Ht|]. etransitivity; [|exact Ht']. split; [by split|done|done|done].
      - exists (S k). split; [lia|]. exists ([Dispatch (name s) (handler_of s) a] ++ w ++ new). split.
        + rewrite El. cbn. by rewrite <- !app_assoc.
        + rewrite !dispatched_app, Hw, Hd. done. }
    destruct (dispatch _ _ _ _ _) as [v|msg|]; [|apply Hrec|apply Hrec].
    destruct v; intros [= <- <-]; (split; [exact Ht|]; exists 1%nat; split; [lia|exact Hl]).
Qed.

Lemma execute_step_touched s x r x' : execute_step dispatch s x = (r, x') ->
  touched (name s) x x' /\ exists k, (k <= Z.to_nat (attempts_of s))%nat /\ attempts_log s x x' k.
Proof. apply run_attempts_touched. Qed.
End Attempts.

(** The status an entry of a previous run records. *)
Definition prev_status (prev : pydict) : pyval := pd_get_or "status" (pd_get_or "step_status" (PStr "") prev) prev.

(** A previous run completed, skipped or suspended the step [n]. *)
Definition settled_before (resume : dict pydict) (n : string) : bool :=
  match dict_get n resume with
  | Some prev => existsb (eq_str (prev_status prev)) ["completed"; "skipped"; "suspended"]
  | None => false
  end.

Section Visit.
Context `{SetOrder} (dispatch : dispatcher) (simple_eval : string -> pydict -> evaluated)
  (now_iso : list effect -> datetime) (all ordered : list step) (pname : option string) (resume : dict pydict).

Local Abbreviation fail_step := (fail_step ordered pname).
Local Abbreviation abort_rest := (abort_rest ordered pname).
Local Abbreviation handle_result := (handle_result now_iso ordered pname).
Local Abbreviation run_step := (run_step dispatch simple_eval now_iso all ordered pname).
Local Abbreviation visit := (visit dispatch simple_eval now_iso all ordered pname resume).

(** The steps [rest] were skipped because a required step failed. *)
Record aborted (x x' : exec) (rest : list string) : Prop := {
  ab_statuses : step_statuses x' = step_statuses x ++ map (fun n => (n, "skipped")) rest;
  ab_counted : counted x';
  ab_error : error_message x' = error_message x;
  ab_halted : pipeline_suspended x' = pipeline_suspended x;
  ab_rest : rest ⊆ map name ordered;
  ab_all : map name ordered ⊆ dict_keys (step_statuses x');
  ab_log : exists new, log x' = log x ++ new /\ dispatched new = []
}.

Lemma abort_rest_ok x : counted x -> exists rest, aborted x (abort_rest x) rest.
Proof.
  unfold Pipeline.abort_rest. intros Hc.
  assert (forall l done x1 rest, ordered = done ++ l -> 
    step_statuses x1 = step_statuses x ++ map (fun n => (n, "skipped")) rest -> counted x1 ->
    error_message x1 = error_message x -> pipeline_suspended x1 = pipeline_suspended x ->
    rest ⊆ map name ordered -> map name done ⊆ dict_keys (step_statuses x1) ->
    (exists new, log x1 = log x ++ new /\ dispatched new = []) ->
    exists rest', aborted x (fold_left (fun x remaining =>
      if dict_mem (name remaining) (step_statuses x) then x
      else persist_progress pname (name remaining) "skipped" PNone PNone
             (set_progress (name remaining) [("status", PStr "skipped"); ("reason", PStr "pipeline aborted")]
                (mark_skipped (name remaining) x))) l x1) rest') as Hgen.
  { induction l as [|s l IH]; intros done x1 rest E Es Hc1 He Hh Hr Hall (new & El & Hd); cbn [fold_left].
    - exists rest. rewrite app_nil_r in E. subst done. split; eauto.
    - destruct (dict_mem (name s) (step_statuses x1)) eqn:Em.
      + apply dict_mem_true in Em. apply (IH (done ++ [s]) x1 rest); eauto; [by rewrite <- app_assoc|].
        rewrite map_app. set_solver.
      + assert (name s ∉ dict_keys (step_statuses x1)) as Hn by (intros Hx%dict_mem_true; congruence).
        pose proof (mark_skipped_ok _ _ Hn Hc1) as [Es' Hc'].
        apply (IH (done ++ [s]) _ (rest ++ [name s])); [by rewrite <- app_assoc| | |done|done| | |].
        * cbn [persist_progress effects set_progress step_statuses upd exec_eta] in *. cbn. cbn in Es'.
          by rewrite Es', Es, map_app, <- app_assoc.
        * eapply same_marks_counted; [|exact Hc']. by split.
        * rewrite E in *. rewrite map_app in *. set_solver.
        * cbn. cbn in Es'. rewrite Es'. unfold dict_keys. rewrite !map_app. set_solver.
        * exists (new ++ [Persist (ostr_or pname "unnamed") (name s) "skipped" PNone PNone]). cbn. rewrite El.
          split; [by rewrite app_assoc|]. by rewrite dispatched_app, Hd. }
  apply (Hgen ordered [] x []); try done; try (intros y Hy; inversion Hy; fail); [by rewrite app_nil_r|exists []; by rewrite app_nil_r].
Qed.

(** How the visit of a step ends: it is settled and the loop goes on; it is
    suspended and the loop stops; or it was required and failed, and the rest is skipped. *)
Inductive visited (s : step) (x : exec) : bool -> exec -> Prop :=
| visited_settled st x' : settled (name s) st x x' ->
    st = "completed" \/ st = "skipped" \/ (st = "failed" /\ optional s = true) ->
    pipeline_suspended x' = pipeline_suspended x -> visited s x false x'
| visited_suspended x' : settled (name s) "suspended" x x' -> pipeline_suspended x' = true -> visited s x true x'
| visited_aborted x1 x' err rest : settled (name s) "failed" x x1 -> optional s = false ->
    pipeline_suspended x1 = pipeline_suspended x ->
    aborted (x1 <| error_message := Some (name s, err) |>) x' rest -> visited s x true x'.

Lemma touched_visited s x x1 stop x' : touched (name s) x x1 -> visited s x1 stop x' -> visited s x stop x'.
Proof.
  intros Ht. pose proof (sm_halted _ _ (tc_marks _ _ _ Ht)) as Hh.
  destruct 1 as [st x' Hs Hst Hp|x' Hs Hp|x2 x' err rest Hs Ho Hp Ha].
  - eapply visited_settled; [by eapply touched_settled|done|congruence].
  - eapply visited_suspended; [by eapply touched_settled|done].
  - eapply visited_aborted; [by eapply touched_settled|done|congruence|exact Ha].
Qed.

Section Step.
Context (s : step) (x : exec) (Hn : name s ∉ dict_keys (step_statuses x)) (Hc : counted x).

Lemma fail_step_visited err entry : pd_get "status" entry = PStr "failed" ->
  let r := fail_step s err entry x in
  visited s x r.1 r.2 /\ exists new, log r.2 = log x ++ new /\ dispatched new = [].
Proof.
  intros He. unfold Pipeline.fail_step. set (x1 := persist_progress _ _ _ _ _ _).
  assert (settled (name s) "failed" x x1) as Hs.
  { split; [eapply marked_same; [by apply mark_failed_ok|by split]|done| | |].
    - right. exists entry. split; [apply dict_get_set_eq|done].
    - intros m Hm. by apply dict_get_set_ne.
    - intros Hk. by apply dict_set_NoDup. }
  destruct (optional s) eqn:Ho; cbn [fst snd].
  - split; [eapply visited_settled; [exact Hs|auto|done]|]. by eexists.
  - destruct (abort_rest_ok (x1 <| error_message := Some (name s, err) |>)) as [rest Ha].
    { pose proof (st_marked _ _ _ _ Hs) as [_ [? ? ? ? ? ?]]. by split. }
    split; [by eapply visited_aborted|]. destruct (ab_log _ _ _ Ha) as (new & El & Hd).
    exists ([Persist (ostr_or pname "unnamed") (name s) "failed" PNone err] ++ new). split; [|done].
    rewrite El. cbn. by rewrite <- app_assoc.
Qed.

Lemma handle_result_visited result_data :
  let r := handle_result s result_data x in
  visited s x r.1 r.2 /\ exists new, log r.2 = log x ++ new /\ dispatched new = [].
Proof.
  unfold Pipeline.handle_result. cbn zeta.
  destruct (eq_str _ "skipped"); [|destruct (eq_str _ "suspended"); [|destruct (eq_str _ "failed")]]; cbn [fst snd].
  - split; [|by eexists]. apply visited_settled with "skipped"; [solve_settled mark_skipped_ok|auto|done].
  - split; [|by eexists]. apply visited_suspended; [solve_settled mark_any_suspended_ok|done].
  - by apply fail_step_visited.
  - split; [|by eexists]. apply visited_settled with "completed"; [solve_settled mark_completed_ok|auto|done].
Qed.
End Step.

Lemma run_step_visited s x stop x' : name s ∉ dict_keys (step_statuses x) -> counted x ->
  run_step s x = Ok (stop, x') ->
  visited s x stop x' /\ exists k, (k <= Z.to_nat (attempts_of s))%nat /\ attempts_log s x x' k.
Proof.
  intros Hn Hc. unfold Pipeline.run_step.
  assert (forall reason, visited s x false (persist_progress pname (name s) "skipped" PNone PNone
    (set_progress (name s) [("status", PStr "skipped"); ("reason", PStr reason)] (mark_skipped (name s) x))) /\
    exists k, (k <= Z.to_nat (attempts_of s))%nat /\ attempts_log s x (persist_progress pname (name s) "skipped" PNone PNone
    (set_progress (name s) [("status", PStr "skipped"); ("reason", PStr reason)] (mark_skipped (name s) x))) k) as Hskip.
  { intros reason. split; [apply visited_settled with "skipped"; [solve_settled mark_skipped_ok|auto|done]|].
    exists 0%nat. split; [lia|]. by eexists. }
  destruct (blocked_by all (needs s) x) as [dep|]; [intros [= <- <-]; apply Hskip|].
  intros H1. apply bind_ok in H1 as (skip & _ & H1). destruct skip; [injection H1 as <- <-; apply Hskip|].
  destruct (execute_step dispatch s x) as [[d|msg] x1] eqn:E.
  - destruct (execute_step_touched _ _ _ _ _ E) as [Ht (k & Hk & Hl)]. injection H1 as H1.
    assert (name s ∉ dict_keys (step_statuses x1)) as Hn1 by (by rewrite (sm_statuses _ _ (tc_marks _ _ _ Ht))).
    destruct (handle_result_visited s x1 Hn1 (same_marks_counted _ _ (tc_marks _ _ _ Ht) Hc) d) as [Hv (new & El & Hd)].
    rewrite H1 in Hv, El. split; [by eapply touched_visited|]. exists k. split; [done|]. by eapply attempts_log_more.
  - destruct (execute_step_touched _ _ _ _ _ E) as [Ht (k & Hk & Hl)]. injection H1 as H1.
    assert (name s ∉ dict_keys (step_statuses x1)) as Hn1 by (by rewrite (sm_statuses _ _ (tc_marks _ _ _ Ht))).
    destruct (fail_step_visited s x1 Hn1 (same_marks_counted _ _ (tc_marks _ _ _ Ht) Hc) (PStr msg)
                [("status", PStr "failed"); ("error", PStr msg)] eq_refl) as [Hv (new & El & Hd)].
    rewrite H1 in Hv, El. split; [by eapply touched_visited|]. exists k. split; [done|]. by eapply attempts_log_more.
Qed.

Lemma resume_step_visited s prev x r : name s ∉ dict_keys (step_statuses x) -> counted x ->
  resume_step s prev x = Ok r ->
  match r with
  | Some (stop, x') => visited s x stop x' /\ log x' = log x
  | None => existsb (eq_str (prev_status prev)) ["completed"; "skipped"; "suspended"] = false
  end.
Proof.
  intros Hn Hc. unfold resume_step. fold (prev_status prev). cbn [existsb].
  destruct (eq_str (prev_status prev) "completed"); [|destruct (eq_str (prev_status prev) "skipped");
    [|destruct (eq_str (prev_status prev) "suspended")]]; cbn [orb].
  - intros [= <-]. split; [|by destruct (truthy _)].
    apply visited_settled with "completed"; [|auto|by destruct (truthy _)].
    destruct (truthy _); solve_settled mark_completed_ok.
  - intros [= <-]. split; [|done]. apply visited_settled with "skipped"; [solve_settled mark_skipped_ok|auto|done].
  - intros H1. inv_ok. split; [|done]. apply visited_suspended; [|done]. solve_settled mark_any_suspended_ok.
  - by intros [= <-].
Qed.

Lemma visit_visited s x stop x' : name s ∉ dict_keys (step_statuses x) -> counted x -> visit s x = Ok (stop, x') ->
  visited s x stop x' /\
  exists k, (k <= Z.to_nat (attempts_of s))%nat /\ (settled_before resume (name s) = true -> k = 0%nat) /\ attempts_log s x x' k.
Proof.
  intros Hn Hc. unfold Pipeline.visit, settled_before.
  assert (forall b, run_step s x = Ok (stop, x') -> b = false -> visited s x stop x' /\
    exists k, (k <= Z.to_nat (attempts_of s))%nat /\ (b = true -> k = 0%nat) /\ attempts_log s x x' k) as Hrun.
  { intros b E ->. destruct (run_step_visited _ _ _ _ Hn Hc E) as [Hv (k & Hk & Hl)]. split; [done|]. by exists k. }
  destruct (dict_get (name s) resume) as [[|p prev]|]; [intros E; by apply Hrun| |intros E; by apply Hrun].
  intros E. apply bind_ok in E as (r & Er & E). pose proof (resume_step_visited _ _ _ _ Hn Hc Er) as Hr.
  destruct r as [[stop' x1]|]; [|apply Hrun; [exact E|exact Hr]]. injection E as <- <-. destruct Hr as [Hv El]. split; [done|].
  exists 0%nat. split; [lia|]. split; [done|]. exists []. by rewrite El, app_nil_r.
Qed.

(** *** Runs *)

(** The steps dispatched, in the order of the steps visited, each within its
    attempts and not if a previous run settled it. *)
Inductive dispatch_log : list step -> list string -> Prop :=
| dl_nil : dispatch_log [] []
| dl_snoc pre s l k : dispatch_log pre l -> (k <= Z.to_nat (attempts_of s))%nat ->
    (settled_before resume (name s) = true -> k = 0%nat) -> dispatch_log (pre ++ [s]) (l ++ replicate k (name s)).

Definition logged (log0 : list effect) (pre : list step) (x : exec) : Prop :=
  exists new, log x = log0 ++ new /\ dispatch_log pre (dispatched new).

(** A run that visited the steps [pre] and goes on. *)
Record running (log0 : list effect) (pre : list step) (x : exec) : Prop := {
  rn_keys : dict_keys (step_statuses x) = map name pre;
  rn_counted : counted x;
  rn_error : error_message x = None;
  rn_halted : pipeline_suspended x = false;
  rn_status : forall s, s ∈ pre -> dict_get (name s) (step_statuses x) = Some "completed" \/
    dict_get (name s) (step_statuses x) = Some "skipped" \/
    (dict_get (name s) (step_statuses x) = Some "failed" /\ optional s = true);
  rn_log : logged log0 pre x;
  rn_noted : forall n st, dict_get n (step_statuses x) = Some st ->
    exists e, dict_get n (progress x) = Some (PDict e) /\ pd_get "status" e = PStr st;
  rn_pkeys : NoDup (dict_keys (progress x));
  rn_absent : forall n, n ∉ map name ordered -> dict_get n (progress x) = None
}.

Lemma dict_get_snoc {V} k k' (v : V) d : k' ∉ dict_keys d ->
  dict_get k (d ++ [(k', v)]) = if String.eqb k k' then Some v else dict_get k d.
Proof. intros Hn. rewrite <- dict_set_new by done. by rewrite dict_get_set. Qed.

Lemma logged_snoc log0 pre s x x' k : logged log0 pre x -> attempts_log s x x' k ->
  (k <= Z.to_nat (attempts_of s))%nat -> (settled_before resume (name s) = true -> k = 0%nat) ->
  logged log0 (pre ++ [s]) x'.
Proof.
  intros (new & E & Hd) (new' & E' & Hd') Hk Hs. exists (new ++ new'). split; [by rewrite E', E, app_assoc|].
  rewrite dispatched_app, Hd'. by constructor.
Qed.

Lemma settled_running log0 pre s st x x' : running log0 pre x -> name s ∉ map name pre -> s ∈ ordered ->
  settled (name s) st x x' ->
  st = "completed" \/ st = "skipped" \/ (st = "failed" /\ optional s = true) ->
  pipeline_suspended x' = pipeline_suspended x -> logged log0 (pre ++ [s]) x' -> running log0 (pre ++ [s]) x'.
Proof.
  intros [Rk Rc Re Rh Rs Rl Rn Rp Ra] Hn Hin [[Es Hc'] He Hnote Ho Hk] Hst Hh Hl.
  assert (name s ∉ dict_keys (step_statuses x)) as Hn' by (by rewrite Rk).
  split; [|done|congruence|congruence| |done| |auto|].
  - unfold dict_keys in *. by rewrite Es, !map_app, Rk.
  - intros s' [Hs'| ->%list_elem_of_singleton]%elem_of_app; rewrite Es, dict_get_snoc by done.
    + destruct (String.eqb_spec (name s') (name s)) as [E|]; [|by apply Rs]. destruct Hn. rewrite <- E.
      by apply list_elem_of_fmap_2.
    + rewrite String.eqb_refl. naive_solver.
  - intros n st'. rewrite Es, dict_get_snoc by done. destruct (String.eqb_spec n (name s)) as [->|Hne].
    + intros [= <-]. destruct Hnote as [->|]; [naive_solver|done].
    + rewrite Ho by done. apply Rn.
  - intros n Hno. rewrite Ho; [by apply Ra|]. intros ->. apply Hno. by apply list_elem_of_fmap_2.
Qed.

(** How a run ends. *)
Inductive finished (log0 : list effect) : exec -> Prop :=
| finished_all x : running log0 ordered x -> finished log0 x
| finished_suspended pre s post x0 x : ordered = pre ++ s :: post -> running log0 pre x0 ->
    settled (name s) "suspended" x0 x -> pipeline_suspended x = true -> logged log0 (pre ++ [s]) x -> finished log0 x
| finished_aborted pre s post x0 x1 x err rest : ordered = pre ++ s :: post -> running log0 pre x0 ->
    settled (name s) "failed" x0 x1 -> optional s = false -> pipeline_suspended x1 = false ->
    aborted (x1 <| error_message := Some (name s, err) |>) x rest -> logged log0 (pre ++ [s]) x -> finished log0 x.

Lemma run_steps_finished log0 pre l x x' : NoDup (map name ordered) -> ordered = pre ++ l -> running log0 pre x ->
  run_steps dispatch simple_eval now_iso all ordered pname resume l x = Ok x' -> finished log0 x'.
Proof.
  intros Hnd. revert pre x. induction l as [|s l IH]; intros pre x E Hr; cbn [run_steps].
  - intros [= <-]. rewrite app_nil_r in E. subst pre. by apply finished_all.
  - intros H1. apply bind_ok in H1 as ([stop x1] & Ev & H1).
    assert (name s ∉ map name pre) as Hn.
    { rewrite E, map_app in Hnd. apply NoDup_app in Hnd as (_ & Hd & _). intros Hx. apply (Hd _ Hx). left. }
    destruct (visit_visited s x stop x1) as [Hv (k & Hk & Hs & Hl)]; [by rewrite (rn_keys _ _ _ Hr)|apply Hr|done|].
    pose proof (logged_snoc _ _ _ _ _ _ (rn_log _ _ _ Hr) Hl Hk Hs) as Hlog.
    inversion Hv as [st x2 Hst Hcase Hh E1 E2|x2 Hst Hh E1 E2|x2 x3 err rest Hst Ho Hh Ha E1 E2]; subst.
    + apply (IH (pre ++ [s]) x1); [by rewrite <- app_assoc| |done]. eapply settled_running; eauto. rewrite E. set_solver.
    + injection H1 as <-. by eapply finished_suspended.
    + injection H1 as <-. eapply finished_aborted; eauto. by rewrite Hh, (rn_halted _ _ _ Hr).
Qed.
End Visit.

(** ** The log of a run *)

Section Log.
Context (resume : dict pydict).

Lemma dispatch_log_sub pre l : dispatch_log resume pre l -> l ⊆ map name pre.
Proof.
  induction 1 as [|pre s l k Hl IH _ _]; [done|]. rewrite map_app. intros n [Hn|Hn]%elem_of_app; [set_solver|].
  apply elem_of_replicate in Hn as [-> _]. set_solver.
Qed.

(** A step is dispatched within its attempts, and not if a previous run settled it. *)
Lemma dispatch_log_count pre l s : dispatch_log resume pre l -> NoDup (map name pre) -> s ∈ pre ->
  (length (filter (.= name s) l) <= Z.to_nat (attempts_of s))%nat /\
  (settled_before resume (name s) = true -> name s ∉ l).
Proof.
  assert (forall (n : string) k, length (filter (.= n) (replicate k n)) = k) as Hrep.
  { intros n k. induction k as [|k IH]; [done|]. cbn [replicate]. rewrite filter_cons_True by done. cbn. by rewrite IH. }
  assert (forall (n : string) l, n ∉ l -> filter (.= n) l = []) as Hnil.
  { intros n m. induction m as [|y m IH]; [done|]. rewrite not_elem_of_cons. intros [Hy Hm].
    rewrite filter_cons_False by congruence. auto. }
  induction 1 as [|pre t l k Hl IH Hk Hs]; intros Hnd Hin; [inversion Hin|].
  rewrite map_app in Hnd. apply NoDup_app in Hnd as (Hnd & Hdis & _).
  assert (name t ∉ l) as Ht by (intros Hx%(dispatch_log_sub _ _ Hl); apply (Hdis _ Hx); left).
  rewrite filter_app, length_app, not_elem_of_app. apply elem_of_app in Hin as [Hin| ->%list_elem_of_singleton].
  - assert (name s <> name t) as Hne.
    { intros E. apply (Hdis (name s)); [by apply list_elem_of_fmap_2|]. rewrite E. left. }
    assert (name s ∉ replicate k (name t)) as Hnr by (by intros [? _]%elem_of_replicate).
    rewrite (Hnil _ _ Hnr). cbn. destruct (IH Hnd Hin) as [IH1 IH2]. split; [lia|auto].
  - rewrite (Hnil _ _ Ht), Hrep. cbn. split; [lia|]. intros Hb. split; [done|]. rewrite (Hs Hb). inversion 1.
Qed.

(** Steps visited before a step are not dispatched after it. *)
Lemma dispatch_log_order pre l : dispatch_log resume pre l -> NoDup (map name pre) ->
  forall l1 n l2, l = l1 ++ n :: l2 -> exists a s b, pre = a ++ s :: b /\ name s = n /\ forall d, d ∈ map name a -> d ∉ l2.
Proof.
  induction 1 as [|pre t l k Hl IH Hk Hs]; intros Hnd l1 n l2 E; [by destruct l1|].
  rewrite map_app in Hnd. apply NoDup_app in Hnd as (Hnd & Hdis & _).
  assert (forall d, d ∈ map name pre -> d ∉ replicate k (name t)) as Hrep.
  { intros d Hd [-> _]%elem_of_replicate. apply (Hdis _ Hd). left. }
  apply app_eq_inv in E as [(m & -> & E)|(m & -> & E)].
  - destruct m as [|y m]; cbn in E.
    + exists pre, t, []. split; [done|]. assert (n ∈ replicate k (name t)) as [-> _]%elem_of_replicate by (rewrite <- E; left).
      split; [done|]. intros d Hd Hd2. apply (Hrep d Hd). rewrite <- E. by right.
    + injection E as -> ->. destruct (IH Hnd l1 y m eq_refl) as (a & s & b & -> & Hn & Hd).
      exists a, s, (b ++ [t]). split; [by rewrite <- app_assoc|]. split; [done|].
      intros d Hda. rewrite not_elem_of_app. split; [by apply Hd|]. apply Hrep. rewrite map_app. set_solver.
  - exists pre, t, []. split; [done|].
    assert (n ∈ replicate k (name t)) as Hn by (rewrite E; set_solver). apply elem_of_replicate in Hn as [-> _].
    split; [done|]. intros d Hd Hd2. apply (Hrep d Hd). rewrite E. set_solver.
Qed.
End Log.

(** The status a step settled with lets the steps that depend on it run. *)
Definition lets_go (s : step) (x : exec) : Prop :=
  dict_get (name s) (step_statuses x) = Some "completed" \/ dict_get (name s) (step_statuses x) = Some "skipped" \/
  (dict_get (name s) (step_statuses x) = Some "failed" /\ optional s = true).

Lemma dict_get_app {V} k (v : V) d d' : dict_get k d = Some v -> dict_get k (d ++ d') = Some v.
Proof. induction d as [|[k' v'] d IH]; cbn; [done|]. destruct (String.eqb k k'); auto. Qed.

Lemma lets_go_app s x x' l : step_statuses x' = step_statuses x ++ l -> lets_go s x -> lets_go s x'.
Proof. unfold lets_go. intros ->. intros [H|[H|[H Ho]]]; apply (dict_get_app _ _ _ l) in H; auto. Qed.

Section Finished.
Context `{SetOrder} (ordered : list step) (resume : dict pydict) (log0 : list effect).

(** A run visits a prefix of the sorted steps; but for the last of them, every step
    visited lets the others go. *)
Lemma finished_visited x : finished ordered resume log0 x ->
  exists pre post, ordered = pre ++ post /\ logged resume log0 pre x /\
    forall a s b, pre = a ++ s :: b -> forall t, t ∈ a -> lets_go t x.
Proof.
  destruct 1 as [x Hr|pre s post x0 x E Hr Hs _ Hl|pre s post x0 x1 x err rest E Hr Hs _ _ Ha Hl].
  - exists ordered, []. rewrite app_nil_r. split; [done|]. split; [apply Hr|].
    intros a s b E t Ht. apply (rn_status _ _ _ _ _ Hr). rewrite E. set_solver.
  - exists (pre ++ [s]), post. split; [by rewrite <- app_assoc|]. split; [done|]. intros a s' b E' t Ht.
    pose proof (st_marked _ _ _ _ Hs) as [Es _]. eapply lets_go_app; [exact Es|]. apply (rn_status _ _ _ _ _ Hr).
    destruct b as [|y b] using rev_ind; [apply app_inj_tail in E' as [-> _]; done|].
    rewrite app_comm_cons, app_assoc in E'. apply app_inj_tail in E' as [-> _]. set_solver.
  - exists (pre ++ [s]), post. split; [by rewrite <- app_assoc|]. split; [done|]. intros a s' b E' t Ht.
    pose proof (st_marked _ _ _ _ Hs) as [Es _]. pose proof (ab_statuses _ _ _ _ Ha) as Es'. cbn in Es'.
    rewrite Es, <- app_assoc in Es'. eapply lets_go_app; [exact Es'|]. apply (rn_status _ _ _ _ _ Hr).
    destruct b as [|y b] using rev_ind; [apply app_inj_tail in E' as [-> _]; done|].
    rewrite app_comm_cons, app_assoc in E'. apply app_inj_tail in E' as [-> _]. set_solver.
Qed.
End Finished.

(** ** Properties of [execute] *)

(** The result reports the status and the counters of the final state. *)
Record reports (r : PipelineResult) (x : exec) : Prop := {
  rp_status : status r = terminal_status x;
  rp_completed : steps_completed r = completed x;
  rp_failed : steps_failed r = failed x;
  rp_skipped : steps_skipped r = skipped x;
  rp_suspended : steps_suspended r = suspended_count x;
  rp_error : error r = error_message x
}.

Section Execute.
Context `{SetOrderLaws} (dispatch : dispatcher) (simple_eval : string -> pydict -> evaluated)
  (now_iso : list effect -> datetime) (getattr : pyval -> string -> option pyval).

Local Abbreviation execute := (execute dispatch simple_eval now_iso getattr).
Local Abbreviation run_steps := (run_steps dispatch simple_eval now_iso).

Lemma initial_running ordered resume log0 data :
  running ordered resume log0 [] (initial_exec log0 data (initial_progress ordered)).
Proof.
  split; try done.
  - split; try done. apply NoDup_nil_2.
  - intros s Hs. inversion Hs.
  - exists []. rewrite app_nil_r. split; [done|constructor].
  - unfold initial_progress. cbn. set (f := fun _ _ => _).
    assert (forall l (acc : pydict), NoDup (dict_keys acc) -> NoDup (dict_keys (fold_left f l acc))) as Hgen.
    { induction l as [|[i s] l IH]; intros acc Ha; cbn; [done|]. apply IH. by apply dict_set_NoDup. }
    apply Hgen, NoDup_nil_2.
  - intros n Hn. unfold initial_progress. cbn. set (f := fun _ _ => _).
    assert (forall l i0 (acc : pydict), n ∉ map name l -> dict_get n acc = None ->
              dict_get n (fold_left f (imap (fun i => pair (i0 + i)%nat) l) acc) = None) as Hgen.
    { induction l as [|s l IH]; intros i0 acc Hl Ha; cbn; [done|]. apply not_elem_of_cons in Hl as [Hs Hl].
      assert (imap (pair ∘ (Nat.add i0) ∘ S) l = imap (fun i => pair (S i0 + i)%nat) l) as Ei.
      { apply imap_ext. intros i y _. cbn. f_equal. lia. }
      specialize (IH (S i0) (f acc ((i0 + 0)%nat, s)) Hl). rewrite <- Ei in IH. apply IH.
      unfold f. by rewrite dict_get_set_ne. }
    by apply (Hgen ordered 0%nat).
Qed.

Lemma execute_finished p data ex pn log0 r x : execute p data ex pn log0 = Ok (r, x) ->
  reports r x /\ exists ordered resume, resolve_dag (steps p) = Ok ordered /\ well_formed (steps p) /\
    dependencies_first (steps p) ordered /\ NoDup (map name ordered) /\
    (steps p <> [] -> resume_index ex = Ok resume) /\ finished ordered resume log0 x.
Proof.
  unfold Pipeline.execute. pose proof (resolve_dag_cases (steps p)) as Hd. destruct (steps p) as [|s l] eqn:Es.
  - intros [= <- <-]. split; [by split|]. exists [], []. split; [done|]. split; [apply Hd|]. split; [apply Hd|].
    split; [apply NoDup_nil_2|]. split; [done|]. apply finished_all, (initial_running []).
  - rewrite <- Es in *. intros H1. apply bind_ok in H1 as (ordered & Eo & H1). apply bind_ok in H1 as (resume & Er & H1).
    apply bind_ok in H1 as (x' & Ex & H1). injection H1 as <- <-. rewrite Eo in Hd. destruct Hd as [Hw Hf].
    assert (NoDup (map name ordered)) as Hnd by (destruct Hf as [-> _]; apply Hw).
    split; [by split|]. exists ordered, resume. split; [done|]. split; [done|]. split; [done|]. split; [done|].
    split; [done|]. eapply run_steps_finished; [exact Hnd|exact (eq_sym (app_nil_l ordered))| |exact Ex].
    apply initial_running.
Qed.

(** (C13) Steps run after the steps they need.  Whatever the handlers answer, when
    a step is dispatched every step it needs has settled in a way that lets it
    run (completed, skipped, or failed and optional) and is never dispatched again. *)
Theorem dispatch_after_needs p data ex pn log0 r x : execute p data ex pn log0 = Ok (r, x) ->
  exists new, log x = log0 ++ new /\
    forall before n after, dispatched new = before ++ n :: after ->
      exists s, s ∈ steps p /\ name s = n /\
        forall d, d ∈ needs s -> d ∉ after /\ exists t, t ∈ steps p /\ name t = d /\ lets_go t x.
Proof.
  intros (_ & ordered & resume & _ & _ & [Hp Hd] & Hnd & _ & Hf)%execute_finished.
  destruct (finished_visited _ _ _ _ Hf) as (pre & post & E & (new & El & Hl) & Hgo). exists new. split; [done|].
  intros before n after En. assert (NoDup (map name pre)) as Hndp.
  { rewrite E, map_app in Hnd. by apply NoDup_app in Hnd as [? _]. }
  destruct (dispatch_log_order _ _ _ Hl Hndp _ _ _ En) as (a & s & b & Epre & Hn & Hafter).
  exists s. split; [rewrite <- Hp, E, Epre; set_solver|]. split; [done|]. intros d Hds.
  assert (d ∈ map name a) as Hda by (apply (Hd a s (b ++ post)); [by rewrite E, Epre, <- app_assoc|done]).
  split; [by apply Hafter|]. apply list_elem_of_fmap in Hda as (t & -> & Ht). exists t.
  split; [rewrite <- Hp, E, Epre; set_solver|]. split; [done|]. by apply (Hgo a s b Epre).
Qed.

(** A run dispatches a step at most as often as its retry configuration
    allows, and not at all when the previous run completed, skipped or suspended it. *)
Theorem attempts_bounded p data ex pn log0 r x resume : execute p data ex pn log0 = Ok (r, x) ->
  resume_index ex = Ok resume ->
  exists new, log x = log0 ++ new /\ forall s, s ∈ steps p ->
    (length (filter (.= name s) (dispatched new)) <= Z.to_nat (attempts_of s))%nat /\
    (settled_before resume (name s) = true -> name s ∉ dispatched new).
Proof.
  intros (_ & ordered & resume' & _ & _ & [Hp _] & Hnd & Hr & Hf)%execute_finished Er.
  destruct (finished_visited _ _ _ _ Hf) as (pre & post & E & (new & El & Hl) & _). exists new. split; [done|].
  intros s Hs. assert (resume' = resume) as -> by (rewrite Hr in Er; [congruence|intros E'; by rewrite E' in Hs; inversion Hs]).
  rewrite <- Hp, E in Hs. rewrite E, map_app in Hnd. apply NoDup_app in Hnd as (Hndp & Hdis & _).
  apply elem_of_app in Hs as [Hs|Hs]; [by eapply dispatch_log_count|].
  assert (name s ∉ dispatched new) as Hn.
  { intros Hx%(dispatch_log_sub _ _ _ Hl). apply (Hdis _ Hx). by apply list_elem_of_fmap_2. }
  split; [|done]. assert (filter (.= name s) (dispatched new) = []) as ->; [|cbn; lia].
  clear -Hn. induction (dispatched new) as [|y l IH]; [done|]. apply not_elem_of_cons in Hn as [? ?].
  rewrite filter_cons_False by congruence. auto.
Qed.
End Execute.
