(* ===== verification/PipelineSpec.v ===== *)
(** * What the result of a pipeline says, and runs that are run again

    The accounting of the steps, the redundancy of the check of failed
    dependencies, runs of a finished pipeline, and the loss of suspensions. *)
From S2P Require Import Prelude PySort PyData Topo TopoProps Pipeline PipelineProps.

(** ** The statuses at the end of a run *)

Lemma dict_values_elem {V} (v : V) d : v ∈ dict_values d <-> exists k, (k, v) ∈ d.
Proof.
  unfold dict_values. rewrite list_elem_of_fmap. split; [intros ([k w] & -> & Hk); by exists k|intros [k Hk]; by exists (k, v)].
Qed.

Lemma with_status_nil st x : counted x ->
  with_status st x = [] <-> forall n, dict_get n (step_statuses x) <> Some st.
Proof.
  intros Hc. unfold with_status. split.
  - intros E n Hn%dict_get_elem. assert (st ∈ filter (.= st) (dict_values (step_statuses x))) as H.
    { apply list_elem_of_filter. split; [done|]. apply dict_values_elem. by exists n. }
    rewrite E in H. inversion H.
  - intros Hn. destruct (filter (.= st) _) as [|v l] eqn:E; [done|].
    assert (v ∈ filter (.= st) (dict_values (step_statuses x))) as [-> Hv]%list_elem_of_filter by (rewrite E; left).
    apply dict_values_elem in Hv as [k Hk]. destruct (Hn k). apply dict_elem_get; [apply Hc|done].
Qed.

Section Accounting.
Context `{SetOrderLaws} (dispatch : dispatcher) (simple_eval : string -> pydict -> evaluated)
  (now_iso : list effect -> datetime) (getattr : pyval -> string -> option pyval).

Local Abbreviation execute := (execute dispatch simple_eval now_iso getattr).
Local Abbreviation run_steps := (run_steps dispatch simple_eval now_iso).

Lemma running_key ordered resume log0 pre x n st : running ordered resume log0 pre x ->
  dict_get n (step_statuses x) = Some st -> exists s, s ∈ pre /\ name s = n /\ lets_go s x.
Proof.
  intros Hr Hn. assert (n ∈ map name pre) as (s & -> & Hs)%list_elem_of_fmap.
  { rewrite <- (rn_keys _ _ _ _ _ Hr). unfold dict_keys. apply dict_get_elem in Hn. change n with (fst (n, st)).
    by apply list_elem_of_fmap_2. }
  exists s. split; [done|]. split; [done|]. by apply (rn_status _ _ _ _ _ Hr).
Qed.

Lemma running_not_suspended ordered resume log0 pre x : running ordered resume log0 pre x -> suspended_count x = 0%nat.
Proof.
  intros Hr. pose proof (rn_counted _ _ _ _ _ Hr) as Hc. rewrite (ct_suspended _ Hc).
  assert (with_status "suspended" x = []) as ->; [|done]. apply with_status_nil; [done|].
  intros n Hn. destruct (running_key _ _ _ _ _ _ _ Hr Hn) as (s & _ & <- & [Hg|[Hg|[Hg _]]]); congruence.
Qed.

(** Every step is settled. *)
Definition all_settled (p : pipeline) (r : PipelineResult) : Prop :=
  (steps_completed r + steps_failed r + steps_skipped r = length (steps p))%nat /\ steps_suspended r = 0%nat.

(** What each status of a result means. *)
Inductive outcome (p : pipeline) (r : PipelineResult) (x : exec) : Prop :=
| outcome_completed : status r = "completed" -> error r = None -> all_settled p r -> steps_failed r = 0%nat ->
    (forall s, s ∈ steps p -> dict_get (name s) (step_statuses x) = Some "completed" \/
                              dict_get (name s) (step_statuses x) = Some "skipped") -> outcome p r x
| outcome_partial : status r = "partial" -> error r = None -> all_settled p r -> (0 < steps_failed r)%nat ->
    (forall s, s ∈ steps p -> lets_go s x) -> outcome p r x
| outcome_failed s err : status r = "failed" -> error r = Some (name s, err) -> all_settled p r -> s ∈ steps p ->
    optional s = false -> dict_get (name s) (step_statuses x) = Some "failed" -> outcome p r x
| outcome_suspended s : status r = "suspended" -> error r = None -> steps_suspended r = 1%nat -> s ∈ steps p ->
    dict_get (name s) (step_statuses x) = Some "suspended" ->
    (forall t, t ∈ steps p -> optional t = false -> dict_get (name t) (step_statuses x) <> Some "failed") -> outcome p r x.

Lemma finished_all_outcome p r x ordered resume log0 : reports r x -> ordered ≡ₚ steps p ->
  running ordered resume log0 ordered x -> outcome p r x.
Proof.
  intros [R1 R2 R3 R4 R5 R6] Hp Hr. pose proof (running_not_suspended _ _ _ _ _ Hr) as Hs.
  pose proof (rn_counted _ _ _ _ _ Hr) as Hc. pose proof (rn_error _ _ _ _ _ Hr) as He.
  assert (length (step_statuses x) = length (steps p)) as Hlen.
  { rewrite <- Hp, <- (length_map name), <- (rn_keys _ _ _ _ _ Hr). unfold dict_keys. by rewrite length_map. }
  assert (all_settled p r) as Ha.
  { unfold all_settled. rewrite R2, R3, R4, R5. pose proof (ct_total _ Hc). lia. }
  unfold terminal_status in R1. rewrite (rn_halted _ _ _ _ _ Hr), He in R1.
  destruct (Nat.ltb_spec 0 (failed x)).
  - apply outcome_partial; [done|congruence|done|lia|]. intros s Hin. apply (rn_status _ _ _ _ _ Hr). by rewrite Hp.
  - apply outcome_completed; [done|congruence|done|lia|]. intros s Hin.
    destruct (rn_status _ _ _ _ _ Hr s) as [?|[?|[Hf _]]]; [by rewrite Hp|by left|by right|].
    assert (with_status "failed" x = []) as Hnil by (apply nil_length_inv; rewrite <- (ct_failed _ Hc); lia).
    by destruct (proj1 (with_status_nil "failed" x Hc) Hnil (name s)).
Qed.

Lemma snoc_status pre s st x0 x ordered resume log0 : running ordered resume log0 pre x0 -> NoDup (map name (pre ++ [s])) ->
  marked (name s) st x0 x -> dict_get (name s) (step_statuses x) = Some st /\
  forall st', length (with_status st' x) = (length (with_status st' x0) + if String.eqb st st' then 1 else 0)%nat.
Proof.
  intros Hr Hnd [Es _]. split; [|by intros st'; apply (with_status_snoc _ _ _ _ _ Es)].
  rewrite Es, dict_get_snoc, String.eqb_refl; [done|]. rewrite (rn_keys _ _ _ _ _ Hr). rewrite map_app in Hnd.
  apply NoDup_app in Hnd as (_ & Hd & _). intros Hx. apply (Hd _ Hx). left.
Qed.

Lemma prefix_NoDup (pre : list step) s post : NoDup (map name (pre ++ s :: post)) -> NoDup (map name (pre ++ [s])).
Proof. change (s :: post) with ([s] ++ post). rewrite app_assoc, map_app. by intros [? _]%NoDup_app. Qed.

Lemma suspended_outcome p r x ordered resume log0 pre s post x0 : reports r x -> ordered ≡ₚ steps p ->
  NoDup (map name ordered) -> ordered = pre ++ s :: post -> running ordered resume log0 pre x0 ->
  settled (name s) "suspended" x0 x -> pipeline_suspended x = true -> counted x /\ outcome p r x.
Proof.
  intros [R1 R2 R3 R4 R5 R6] Hp Hnd E Hr Hs Hh.
  assert (NoDup (map name (pre ++ [s]))) as Hnd' by (eapply prefix_NoDup; rewrite <- E; exact Hnd).
  pose proof (st_marked _ _ _ _ Hs) as Hm. destruct (snoc_status _ _ _ _ _ _ _ _ Hr Hnd' Hm) as [Hst Hcount].
  destruct Hm as [Es Hc]. split; [done|]. apply outcome_suspended with s.
  - rewrite R1. unfold terminal_status. by rewrite Hh.
  - by rewrite R6, (st_error _ _ _ _ Hs), (rn_error _ _ _ _ _ Hr).
  - by rewrite R5, (ct_suspended _ Hc), Hcount, <- (ct_suspended _ (rn_counted _ _ _ _ _ Hr)),
      (running_not_suspended _ _ _ _ _ Hr).
  - rewrite <- Hp, E. set_solver.
  - done.
  - intros t Htp Hot Ht. rewrite Es, dict_get_snoc in Ht.
    + destruct (String.eqb (name t) (name s)); [done|].
      destruct (running_key _ _ _ _ _ _ _ Hr Ht) as (t' & Ht' & Hn & _).
      assert (t = t') as <- by (apply (names_inj ordered); [done|by rewrite Hp|rewrite E; set_solver|done]).
      destruct (rn_status _ _ _ _ _ Hr t Ht') as [Hg|[Hg|[Hg Ho']]]; congruence.
    + rewrite (rn_keys _ _ _ _ _ Hr). rewrite map_app in Hnd'. apply NoDup_app in Hnd' as (_ & Hdis & _).
      intros Hx. apply (Hdis _ Hx). left.
Qed.

(** Aborting marks the rest as skipped, hence suspends nothing. *)
Lemma skipped_rest_suspends_nothing rest l :
  length (filter (.= "suspended") (dict_values (l ++ map (fun n : string => (n, "skipped")) rest)))
  = length (filter (.= "suspended") (dict_values l)).
Proof.
  unfold dict_values. rewrite map_app, filter_app, length_app. induction rest as [|n rest IH]; [cbn; lia|].
  cbn [map]. by rewrite filter_cons_False.
Qed.

Lemma aborted_outcome p r x ordered resume log0 pre s post x0 x1 err rest : reports r x -> ordered ≡ₚ steps p ->
  NoDup (map name ordered) -> ordered = pre ++ s :: post -> running ordered resume log0 pre x0 ->
  settled (name s) "failed" x0 x1 -> optional s = false -> pipeline_suspended x1 = false ->
  aborted ordered (x1 <| error_message := Some (name s, err) |>) x rest -> counted x /\ outcome p r x.
Proof.
  intros [R1 R2 R3 R4 R5 R6] Hp Hnd E Hr Hs Ho Hh Ha.
  assert (NoDup (map name (pre ++ [s]))) as Hnd' by (eapply prefix_NoDup; rewrite <- E; exact Hnd).
  pose proof (st_marked _ _ _ _ Hs) as Hm. destruct (snoc_status _ _ _ _ _ _ _ _ Hr Hnd' Hm) as [Hst Hcount].
  pose proof (ab_counted _ _ _ _ Ha) as Hc. split; [done|]. pose proof (ab_statuses _ _ _ _ Ha) as Es. cbn in Es.
  assert (suspended_count x = 0%nat) as Hsus.
  { rewrite (ct_suspended _ Hc). unfold with_status. rewrite Es, skipped_rest_suspends_nothing.
    fold (with_status "suspended" x1). rewrite (Hcount "suspended"), <- (ct_suspended _ (rn_counted _ _ _ _ _ Hr)).
    by rewrite (running_not_suspended _ _ _ _ _ Hr). }
  apply outcome_failed with s err.
  - rewrite R1. unfold terminal_status. rewrite (ab_halted _ _ _ _ Ha), (ab_error _ _ _ _ Ha). cbn. by rewrite Hh.
  - rewrite R6, (ab_error _ _ _ _ Ha). done.
  - unfold all_settled. rewrite R2, R3, R4, R5. split; [|done]. pose proof (ct_total _ Hc) as Ht. rewrite Hsus in Ht.
    assert (length (step_statuses x) = length ordered) as Hlen; [|rewrite <- Hp; lia].
    rewrite <- (length_map fst), <- (length_map name ordered). apply Permutation_length, NoDup_Permutation; [apply Hc|done|].
    intros n. split; [|apply (ab_all _ _ _ _ Ha)]. fold (dict_keys (step_statuses x)).
    rewrite Es. unfold dict_keys. rewrite map_app, map_map, map_id. intros [Hn|Hn]%elem_of_app.
    + destruct Hm as [Em _]. rewrite Em in Hn. rewrite map_app in Hn. rewrite E.
      change (map fst (step_statuses x0)) with (dict_keys (step_statuses x0)) in Hn. rewrite (rn_keys _ _ _ _ _ Hr) in Hn.
      rewrite map_app. cbn in *. set_solver.
    + by apply (ab_rest _ _ _ _ Ha).
  - rewrite <- Hp, E. set_solver.
  - done.
  - rewrite Es. by apply dict_get_app.
Qed.

(** (C14) The result accounts for every step.  The counters count the statuses;
    "completed" and "partial" mean that every step is settled and no required step
    failed, "failed" that a required step did and every other step is settled too,
    "suspended" that exactly one step waits and no required step failed. *)
Theorem run_accounting p data ex pn log0 r x : execute p data ex pn log0 = Ok (r, x) ->
  counted x /\ reports r x /\ outcome p r x.
Proof.
  intros (Hrep & ordered & resume & _ & _ & [Hp Hd] & Hnd & _ & Hf)%execute_finished.
  enough (counted x /\ outcome p r x) as [? ?] by done.
  destruct Hf as [x Hr| |].
  - split; [apply Hr|]. by eapply finished_all_outcome.
  - by eapply suspended_outcome.
  - by eapply aborted_outcome.
Qed.

End Accounting.

(** ** The check of failed dependencies *)

(** A step with its dependencies forgotten. *)
Definition without_needs (s : step) : step :=
  {| name := name s; optional := optional s; needs := []; skip_when := skip_when s; handler := handler s;
     timeout_seconds := timeout_seconds s; retry := retry s; params := params s |}.

Section Needs.
Context `{SetOrderLaws} (dispatch : dispatcher) (simple_eval : string -> pydict -> evaluated)
  (now_iso : list effect -> datetime).

Local Abbreviation run_steps := (run_steps dispatch simple_eval now_iso).
Local Abbreviation visit := (visit dispatch simple_eval now_iso).

Lemma find_step_in (l : list step) s : NoDup (map name l) -> s ∈ l -> find_step l (name s) = Some s.
Proof.
  unfold find_step. induction l as [|t l IH]; [intros _ Hs; inversion Hs|]. cbn. intros [Ht Hnd]%NoDup_cons.
  destruct (String.eqb_spec (name t) (name s)) as [E|Hne].
  - intros [->|Hs]%elem_of_cons; [done|]. destruct Ht. rewrite E. by apply list_elem_of_fmap_2.
  - intros [->|Hs]%elem_of_cons; [done|]. by apply IH.
Qed.

(** While a run goes on no dependency blocks a step. *)
Lemma not_blocked (l ordered : list step) resume log0 pre x deps : NoDup (map name l) -> ordered ≡ₚ l -> pre ⊆ ordered ->
  running ordered resume log0 pre x -> blocked_by l deps x = None.
Proof.
  intros Hnd Hp Hpre Hr. induction deps as [|d deps IH]; [done|]. cbn [blocked_by].
  destruct (dict_get d (step_statuses x)) as [st|] eqn:Ed; [|done]. destruct (String.eqb_spec st "failed") as [->|]; [|done].
  destruct (running_key _ _ _ _ _ _ _ Hr Ed) as (s & Hs & <- & Hg). rewrite find_step_in; [|done|rewrite <- Hp; by apply Hpre].
  destruct Hg as [Hg|[Hg|[_ ->]]]; [congruence|congruence|done].
Qed.

Lemma run_attempts_without_needs s n a e x :
  run_attempts dispatch (without_needs s) n a e x = run_attempts dispatch s n a e x.
Proof.
  revert a e x. induction n as [|n IH]; intros a e x; [done|]. cbn [run_attempts].
  change (name (without_needs s)) with (name s). change (handler_of (without_needs s)) with (handler_of s).
  change (params (without_needs s)) with (params s). change (attempts_of (without_needs s)) with (attempts_of s).
  change (delay_of (without_needs s)) with (delay_of s).
  change (timeout_message (without_needs s) a) with (timeout_message s a).
  destruct (dispatch _ _ _ _ _) as [v|msg|]; [done|apply IH|apply IH].
Qed.

Lemma abort_rest_without_needs ordered pn x : abort_rest (map without_needs ordered) pn x = abort_rest ordered pn x.
Proof. unfold abort_rest. revert x. induction ordered as [|s l IH]; intros x; cbn; [done|]. apply IH. Qed.

Lemma fail_step_without_needs ordered pn s err entry x :
  fail_step (map without_needs ordered) pn (without_needs s) err entry x = fail_step ordered pn s err entry x.
Proof. unfold fail_step. cbn [without_needs optional name]. by rewrite abort_rest_without_needs. Qed.

Lemma visit_without_needs all ordered pn resume s x : blocked_by all (needs s) x = None ->
  visit all (map without_needs ordered) pn resume (without_needs s) x = visit all ordered pn resume s x.
Proof.
  intros Hb. unfold Pipeline.visit. cbn [without_needs name].
  assert (run_step dispatch simple_eval now_iso all (map without_needs ordered) pn (without_needs s) x
          = run_step dispatch simple_eval now_iso all ordered pn s x) as Hrun.
  { unfold run_step. rewrite Hb. cbn [without_needs needs blocked_by skip_when name].
    destruct (if str_truthy _ then _ else _) as [[]|e]; cbn [mbind res_bind]; [done| |done].
    unfold execute_step. change (attempts_of (without_needs s)) with (attempts_of s). rewrite run_attempts_without_needs.
    destruct (run_attempts _ _ _ _ _ _) as [[d|msg] x1]; [|by rewrite fail_step_without_needs].
    unfold handle_result. cbn zeta. by rewrite fail_step_without_needs. }
  destruct (dict_get (name s) resume) as [[|q prev]|]; [done| |done].
  change (resume_step (without_needs s) (q :: prev) x) with (resume_step s (q :: prev) x).
  destruct (resume_step s (q :: prev) x) as [[]|]; cbn [mbind res_bind]; done.
Qed.

Lemma run_steps_without_needs all ordered pn resume log0 pre l x : NoDup (map name ordered) -> ordered ≡ₚ all ->
  ordered = pre ++ l -> running ordered resume log0 pre x ->
  run_steps all (map without_needs ordered) pn resume (map without_needs l) x = run_steps all ordered pn resume l x.
Proof.
  intros Hnd Hp. revert pre x. induction l as [|s l IH]; intros pre x E Hr; [done|]. cbn [map Pipeline.run_steps].
  assert (NoDup (map name all)) as Hnda by (by rewrite <- Hp).
  assert (pre ⊆ ordered) as Hpre by (rewrite E; set_solver).
  rewrite visit_without_needs by (by eapply (not_blocked all ordered resume log0 pre)).
  destruct (visit all ordered pn resume s x) as [[stop x1]|] eqn:Ev; cbn [mbind res_bind]; [|done].
  destruct stop; [done|]. apply (IH (pre ++ [s])); [by rewrite <- app_assoc|].
  assert (name s ∉ map name pre) as Hn.
  { rewrite E, map_app in Hnd. apply NoDup_app in Hnd as (_ & Hd & _). intros Hx. apply (Hd _ Hx). left. }
  destruct (visit_visited _ _ _ _ _ _ _ s x false x1 ltac:(by rewrite (rn_keys _ _ _ _ _ Hr)) (rn_counted _ _ _ _ _ Hr) Ev)
    as [Hv (k & Hk & Hs & Hl)].
  pose proof (logged_snoc _ _ _ _ _ _ _ (rn_log _ _ _ _ _ Hr) Hl Hk Hs) as Hlog.
  inversion Hv as [st x2 Hst Hcase Hh E1 E2| |]; subst x2. eapply settled_running; eauto. rewrite E. set_solver.
Qed.

(** Dependencies order the steps and do nothing else: on the sorted steps
    the loop runs the same when every step forgets its dependencies.  So the branch
    that skips a step because one it needs failed is never taken: a required step
    that fails ends the run, and an optional one lets the steps that need it run. *)
Theorem needs_only_sort p ordered pn resume data log0 : resolve_dag (steps p) = Ok ordered ->
  let x0 := initial_exec log0 data (initial_progress ordered) in
  run_steps (steps p) ordered pn resume ordered x0 =
  run_steps (steps p) (map without_needs ordered) pn resume (map without_needs ordered) x0.
Proof.
  intros E x0. pose proof (resolve_dag_cases (steps p)) as Hd. rewrite E in Hd. destruct Hd as [Hw [Hp _]].
  symmetry. eapply run_steps_without_needs; [by rewrite Hp; apply Hw|exact Hp|exact (eq_sym (app_nil_l ordered))|].
  apply initial_running.
Qed.
End Needs.

(** ** Running a finished pipeline again *)

Lemma resume_index_get d : NoDup (dict_keys d) -> (forall l, dict_get "steps" d <> Some (PList l)) ->
  exists idx, resume_index (Some d) = Ok idx /\
    forall n e, dict_get n d = Some (PDict e) -> dict_mem "status" e = true -> dict_get n idx = Some e.
Proof.
  intros Hnd Hs. unfold resume_index. set (f := fun _ _ => _).
  assert (forall d acc n, NoDup (dict_keys d) ->
    (forall e, dict_get n d = Some (PDict e) -> dict_mem "status" e = true -> dict_get n (fold_left f d acc) = Some e) /\
    (n ∉ dict_keys d -> dict_get n (fold_left f d acc) = dict_get n acc)) as Hfold.
  { clear. unfold dict_keys. induction d as [|[k v] d IH]; intros acc n; cbn; [done|]. intros [Hk Hnd]%NoDup_cons.
    assert (forall m, m <> k -> dict_get m (f acc (k, v)) = dict_get m acc) as Hne.
    { intros m Hm. unfold f. destruct v; try done. destruct (dict_mem "status" d0); [|done]. by apply dict_get_set_ne. }
    split.
    - intros e. destruct (String.eqb_spec n k) as [->|Hnk].
      + intros [= ->] He. destruct (IH (f acc (k, PDict e)) k Hnd) as [_ IH2]. cbn in IH2. rewrite IH2 by done. unfold f. rewrite He.
        apply dict_get_set_eq.
      + by apply IH.
    - intros [Hnk Hnd']%not_elem_of_cons. destruct (IH (f acc (k, v)) n Hnd) as [_ IH2]. etransitivity; [by apply IH2|by apply Hne]. }
  exists (fold_left f d []). split.
  - destruct (dict_get "steps" d) as [[]|] eqn:E; try done. by destruct (Hs l).
  - intros n e. by apply Hfold.
Qed.

Lemma pd_get_status e st : pd_get "status" e = PStr st -> st <> "" -> dict_mem "status" e = true /\ prev_status e = PStr st /\ e <> [].
Proof.
  unfold pd_get, dict_mem, prev_status, pd_get_or. destruct (dict_get "status" e) eqn:E; cbn; [|done].
  intros -> _. split; [done|]. split; [done|]. by intros ->.
Qed.

Section Rerun.
Context `{SetOrderLaws} (dispatch : dispatcher) (simple_eval : string -> pydict -> evaluated)
  (now_iso : list effect -> datetime) (getattr : pyval -> string -> option pyval).

Local Abbreviation execute := (execute dispatch simple_eval now_iso getattr).
Local Abbreviation run_steps := (run_steps dispatch simple_eval now_iso).
Local Abbreviation visit := (visit dispatch simple_eval now_iso).

(** A step noted as completed or skipped is settled without effect. *)
Lemma visit_resumed all ordered pn resume s x e st : name s ∉ dict_keys (step_statuses x) -> counted x ->
  dict_get (name s) resume = Some e -> pd_get "status" e = PStr st -> st = "completed" \/ st = "skipped" ->
  exists x', visit all ordered pn resume s x = Ok (false, x') /\ log x' = log x /\ settled (name s) st x x' /\
    pipeline_suspended x' = pipeline_suspended x.
Proof.
  intros Hn Hc He Hst Hcase. destruct (pd_get_status e st Hst) as (_ & Hp & Hne); [by destruct Hcase as [->| ->]|].
  unfold Pipeline.visit. rewrite He. destruct e as [|q e]; [done|]. unfold resume_step. fold (prev_status (q :: e)).
  rewrite Hp. destruct Hcase as [->| ->]; cbn [eq_str String.eqb Ascii.eqb Bool.eqb mbind res_bind]; eexists.
  - split; [reflexivity|]. split; [by destruct (truthy _)|]. split; [|by destruct (truthy _)].
    destruct (truthy _); solve_settled mark_completed_ok.
  - split; [reflexivity|]. split; [done|]. split; [|done]. solve_settled mark_skipped_ok.
Qed.

Lemma run_steps_resumed all ordered pn resume log0 (st : string -> string) pre l y :
  NoDup (map name ordered) -> ordered = pre ++ l -> running ordered resume log0 pre y -> log y = log0 ->
  (forall s, s ∈ ordered -> exists e, dict_get (name s) resume = Some e /\ pd_get "status" e = PStr (st (name s)) /\
     (st (name s) = "completed" \/ st (name s) = "skipped")) ->
  exists y', run_steps all ordered pn resume l y = Ok y' /\ log y' = log0 /\ running ordered resume log0 ordered y' /\
    step_statuses y' = step_statuses y ++ map (fun s => (name s, st (name s))) l.
Proof.
  intros Hnd. revert pre y. induction l as [|s l IH]; intros pre y E Hr Hl Hst.
  - exists y. cbn. rewrite !app_nil_r in *. by subst.
  - cbn [Pipeline.run_steps]. assert (s ∈ ordered) as Hs by (rewrite E; set_solver).
    assert (name s ∉ map name pre) as Hn.
    { rewrite E, map_app in Hnd. apply NoDup_app in Hnd as (_ & Hd & _). intros Hx. apply (Hd _ Hx). left. }
    destruct (Hst s Hs) as (e & He & Hse & Hcase).
    destruct (visit_resumed all ordered pn resume s y e (st (name s))) as (y1 & -> & Hl1 & Hset & Hh);
      [by rewrite (rn_keys _ _ _ _ _ Hr)|apply Hr|done|done|done|]. cbn [mbind res_bind].
    assert (running ordered resume log0 (pre ++ [s]) y1) as Hr1.
    { eapply settled_running; eauto; [by destruct Hcase; auto|]. destruct (rn_log _ _ _ _ _ Hr) as (new & El & Hd).
      exists new. split; [by rewrite Hl1|]. rewrite <- (app_nil_r (dispatched new)).
      apply (dl_snoc resume pre s (dispatched new) 0); [done|lia|done]. }
    destruct (IH (pre ++ [s]) y1) as (y' & Ey & Hly & Hry & Es); [by rewrite <- app_assoc|done|congruence|done|].
    exists y'. split; [done|]. split; [done|]. split; [done|]. rewrite Es.
    destruct (st_marked _ _ _ _ Hset) as [-> _]. by rewrite <- app_assoc.
Qed.

Lemma dict_eq_map {V} (d : dict V) (f : string -> V) : NoDup (dict_keys d) ->
  (forall k, k ∈ dict_keys d -> dict_get k d = Some (f k)) -> d = map (fun k => (k, f k)) (dict_keys d).
Proof.
  intros Hnd Hf. unfold dict_keys in *. rewrite map_map. rewrite <- (map_id d) at 1. apply map_ext_in.
  intros [k v] Hk%list_elem_of_In. cbn. f_equal. assert (k ∈ map fst d) as Hk'.
  { change k with (fst (k, v)). by apply list_elem_of_fmap_2. }
  specialize (Hf _ Hk'). apply (dict_elem_get k v d Hnd) in Hk. congruence.
Qed.

(** The status of a step at the end of a run. *)
Definition status_of (x : exec) (n : string) : string := default "" (dict_get n (step_statuses x)).

Lemma completed_run p data ex pn log0 r x : execute p data ex pn log0 = Ok (r, x) -> status r = "completed" ->
  reports r x /\ exists ordered resume, resolve_dag (steps p) = Ok ordered /\ NoDup (map name ordered) /\
    running ordered resume log0 ordered x /\ failed x = 0%nat /\
    forall s, s ∈ ordered -> dict_get (name s) (step_statuses x) = Some (status_of x (name s)) /\
      (status_of x (name s) = "completed" \/ status_of x (name s) = "skipped").
Proof.
  intros (Hrep & ordered & resume & Eo & _ & [Hp Hd] & Hnd & _ & Hf)%execute_finished Hst. split; [done|].
  exists ordered, resume. split; [done|]. split; [done|].
  assert (running ordered resume log0 ordered x) as Hr.
  { destruct Hf as [x Hr|pre s post x0 x _ _ _ Hh _|pre s post x0 x1 x err rest _ _ _ _ Hh Ha _]; [done| |];
      rewrite (rp_status _ _ Hrep) in Hst; unfold terminal_status in Hst; [by rewrite Hh in Hst|].
    rewrite (ab_halted _ _ _ _ Ha), (ab_error _ _ _ _ Ha) in Hst. cbn in Hst. by rewrite Hh in Hst. }
  split; [done|]. destruct (finished_all_outcome p r x _ _ _ Hrep Hp Hr) as [_ _ _ Hf0 Hall|Hs|? ? Hs|? Hs]; [|congruence..].
  split; [by rewrite <- (rp_failed _ _ Hrep)|]. intros s Hs. rewrite Hp in Hs. unfold status_of.
  destruct (Hall s Hs) as [->| ->]; cbn; auto.
Qed.

(** What resumption reads back from the progress of a completed run. *)
Lemma completed_index ordered resume log0 x : running ordered resume log0 ordered x ->
  (forall s, s ∈ ordered -> dict_get (name s) (step_statuses x) = Some (status_of x (name s)) /\
      (status_of x (name s) = "completed" \/ status_of x (name s) = "skipped")) ->
  exists idx, resume_index (Some (progress x)) = Ok idx /\ forall s, s ∈ ordered -> exists e,
    dict_get (name s) idx = Some e /\ pd_get "status" e = PStr (status_of x (name s)) /\
    (status_of x (name s) = "completed" \/ status_of x (name s) = "skipped").
Proof.
  intros Hr Hst. destruct (resume_index_get (progress x)) as (idx & Ei & Hidx); [apply Hr| |].
  - intros l E. destruct (decide ("steps" ∈ map name ordered)) as [Hin|Hin]; [|by rewrite (rn_absent _ _ _ _ _ Hr) in E].
    apply list_elem_of_fmap in Hin as (s & Hn & Hs). destruct (Hst s Hs) as [Hg _].
    destruct (rn_noted _ _ _ _ _ Hr _ _ Hg) as (e & He & _). rewrite <- Hn in He. congruence.
  - exists idx. split; [done|]. intros s Hs. destruct (Hst s Hs) as [Hg Hcase].
    destruct (rn_noted _ _ _ _ _ Hr _ _ Hg) as (e & He & Hse). exists e. split; [|done]. apply Hidx; [done|].
    by destruct (pd_get_status e _ Hse) as [? _]; [destruct Hcase as [->| ->]|].
Qed.

(** (C38) Running a finished pipeline again does nothing: given the progress of a
    run that completed, the executor calls no handler, persists nothing and
    reports the same statuses and counts. *)
Theorem rerun_is_silent p data ex pn log0 r x : execute p data ex pn log0 = Ok (r, x) -> status r = "completed" ->
  forall data' pn' log1, exists r' x', execute p data' (Some (progress x)) pn' log1 = Ok (r', x') /\
    log x' = log1 /\ step_statuses x' = step_statuses x /\ status r' = "completed" /\
    steps_completed r' = steps_completed r /\ steps_skipped r' = steps_skipped r.
Proof.
  intros Hex Hst data' pn' log1. pose proof (completed_run _ _ _ _ _ _ _ Hex Hst) as ([R1 R2 R3 R4 R5 R6] & Hrun).
  destruct Hrun as (ordered & resume & Eo & Hnd & Hr & Hf0 & Hst'). pose proof (rn_counted _ _ _ _ _ Hr) as Hc.
  destruct (steps p) as [|s0 l0] eqn:Es.
  { unfold Pipeline.execute in *. rewrite Es in *. injection Hex as <- <-. by eexists _, _. }
  rewrite <- Es in *. destruct (completed_index _ _ _ _ Hr Hst') as (idx & Ei & Hidx).
  destruct (run_steps_resumed (steps p) ordered pn' idx log1 (status_of x) [] ordered
              (initial_exec log1 data' (initial_progress ordered)) Hnd eq_refl (initial_running _ _ _ _) eq_refl Hidx)
    as (y & Ey & Hly & Hry & Esy).
  exists (result_of getattr p y), y. split.
  { unfold Pipeline.execute. rewrite Es, <- Es, Eo. cbn [mbind res_bind]. rewrite Ei. cbn [mbind res_bind]. by rewrite Ey. }
  assert (step_statuses y = step_statuses x) as Ess.
  { rewrite Esy. cbn. symmetry. rewrite <- (map_map name (fun n => (n, status_of x n))), <- (rn_keys _ _ _ _ _ Hr).
    apply dict_eq_map; [apply Hc|]. intros k Hk. rewrite (rn_keys _ _ _ _ _ Hr) in Hk.
    apply list_elem_of_fmap in Hk as (s & -> & Hs). by apply Hst'. }
  pose proof (rn_counted _ _ _ _ _ Hry) as Hcy. assert (forall st, with_status st y = with_status st x) as Ew.
  { intros st. unfold with_status. by rewrite Ess. }
  split; [done|]. split; [done|]. split; [|split].
  - cbn. unfold terminal_status. rewrite (rn_halted _ _ _ _ _ Hry), (rn_error _ _ _ _ _ Hry), (ct_failed _ Hcy), Ew.
    by rewrite <- (ct_failed _ Hc), Hf0.
  - by rewrite R2, (ct_completed _ Hc), <- Ew, <- (ct_completed _ Hcy).
  - by rewrite R4, (ct_skipped _ Hc), <- Ew, <- (ct_skipped _ Hcy).
Qed.
End Rerun.

(** ** Suspensions and the reconciler's dispatcher *)

(** A result made by one of the four constructors, its data without a status. *)
Inductive made : StepResult -> Prop :=
| made_completed d : pd_get "status" d = PNone -> made (StepResult_completed d)
| made_skipped reason : made (StepResult_skipped reason)
| made_failed error : made (StepResult_failed error)
| made_suspended job correlation reason : made (StepResult_suspended job correlation reason).

Section Suspension.
Context `{SetOrderLaws} (simple_eval : string -> pydict -> evaluated)
  (now_iso : list effect -> datetime) (getattr : pyval -> string -> option pyval).
Context (registry : string -> option (list effect -> pydict -> pydict -> option pydict -> awaited StepResult))
  (Hmade : forall h f l pr da pa sr, registry h = Some f -> f l pr da pa = Returned sr -> made sr).

Local Abbreviation D := (build_step_dispatcher registry (fun _ => None)).

Lemma dispatched_status l h pr da pa v : D l h pr da pa = Returned v ->
  exists d, v = PDict d /\ pd_get "status" d = PNone.
Proof.
  unfold build_step_dispatcher. destruct (registry h) as [f|] eqn:Ef; [|done].
  destruct (f l pr da pa) as [sr|msg|] eqn:Er; [|done|done].
  destruct (Hmade _ _ _ _ _ _ _ Ef Er) as [d Hd|reason|error|job correlation reason].
  - destruct d as [|q d]; cbn; intros [= <-]; eauto.
  - unfold StepResult_to_dict. cbn. destruct (str_truthy reason); cbn; intros [= <-]; eauto.
  - unfold StepResult_to_dict. cbn. by destruct (str_truthy error).
  - unfold StepResult_to_dict. cbn. destruct (str_truthy _), (str_truthy _), (str_truthy _); cbn; intros [= <-]; eauto.
Qed.

Lemma run_attempts_status s n a e x d x' : run_attempts D s n a e x = (inl d, x') -> pd_get "status" d = PNone.
Proof.
  revert a e x. induction n as [|n IH]; intros a e x; cbn [run_attempts]; [done|].
  destruct (D _ _ _ _ _) as [v|msg|] eqn:E; [|apply IH|apply IH].
  apply dispatched_status in E as (d' & -> & Hd). by intros [= <- _].
Qed.

Lemma abort_rest_halted ordered pn x : pipeline_suspended (abort_rest ordered pn x) = pipeline_suspended x.
Proof.
  unfold abort_rest. revert x. induction ordered as [|s l IH]; intros x; cbn; [done|]. rewrite IH. by destruct (dict_mem _ _).
Qed.

Lemma run_step_not_suspended all ordered pn s x stop x' :
  run_step D simple_eval now_iso all ordered pn s x = Ok (stop, x') -> pipeline_suspended x' = pipeline_suspended x.
Proof.
  unfold run_step. destruct (blocked_by all (needs s) x); [by intros [= <- <-]|].
  intros H1. apply bind_ok in H1 as (skip & _ & H1). destruct skip; [by injection H1 as <- <-|].
  destruct (execute_step D s x) as [r x1] eqn:E.
  destruct (execute_step_touched _ _ _ _ _ E) as [[Hm _ _ _] _]. rewrite <- (sm_halted _ _ Hm).
  assert (forall err entry x2, (fail_step ordered pn s err entry x1) = (stop, x2) ->
            pipeline_suspended x2 = pipeline_suspended x1) as Hfail.
  { intros err entry x2. unfold fail_step. destruct (optional s); intros [= _ <-]; [done|]. by rewrite abort_rest_halted. }
  destruct r as [d|msg]; injection H1 as H1; [|by apply Hfail in H1].
  apply run_attempts_status in E. unfold handle_result in H1. rewrite E in H1. cbn in H1. by injection H1 as _ <-.
Qed.

(** The reconciler's dispatcher passes on the data of a step's result and not
    its status, so a step that hands its work to the scenario engine and asks to
    wait is taken for completed: the step that runs such a handler settles as
    completed with the pipeline going on, and no run from scratch ever ends "suspended". *)
Theorem suspensions_lost all ordered pn :
  (forall s x f, registry (handler_of s) = Some f ->
     (forall l pr da pa, exists job correlation reason, f l pr da pa = Returned (StepResult_suspended job correlation reason)) ->
     0 < attempts_of s -> skip_when s = None -> blocked_by all (needs s) x = None ->
     exists x', run_step D simple_eval now_iso all ordered pn s x = Ok (false, x') /\
       dict_get (name s) (step_statuses x') = Some "completed") /\
  (forall p data log0 r x, execute D simple_eval now_iso getattr p data None pn log0 = Ok (r, x) -> status r <> "suspended").
Proof.
  split.
  - intros s x f Ef Hsus Ha Hskip Hb. unfold run_step. rewrite Hb, Hskip. cbn [default str_truthy String.eqb negb mbind res_bind].
    unfold execute_step. replace (Z.to_nat (attempts_of s)) with (S (pred (Z.to_nat (attempts_of s)))) by lia. cbn [run_attempts].
    unfold build_step_dispatcher at 1. rewrite Ef.
    match goal with |- context [f ?l ?pr ?da ?pa] => destruct (Hsus l pr da pa) as (j & c & rs & ->) end.
    assert (pd_get_or "result_data" (PDict []) (StepResult_to_dict (StepResult_suspended j c rs)) = PDict []) as ->.
    { unfold StepResult_to_dict. cbn. by repeat match goal with |- context [str_truthy ?a] => destruct (str_truthy a) end. }
    cbn. eexists. split; [reflexivity|]. cbn. apply dict_get_set_eq.
  - intros p data log0 r x. unfold execute. destruct (steps p) as [|s0 l0]; [by intros [= <- <-]|].
    intros H1. apply bind_ok in H1 as (o & _ & H1). apply bind_ok in H1 as (idx & Ei & H1). injection Ei as <-.
    apply bind_ok in H1 as (x' & Ex & H1). injection H1 as <- <-. cbn. unfold terminal_status.
    assert (forall l y, run_steps D simple_eval now_iso (s0 :: l0) o pn [] l y = Ok x' ->
              pipeline_suspended x' = pipeline_suspended y) as Hrun.
    { induction l as [|s l IH]; intros y; cbn [run_steps]; [by intros [= <-]|]. intros H1.
      apply bind_ok in H1 as ([stop y1] & Ev & H1). apply run_step_not_suspended in Ev.
      destruct stop; [by injection H1 as <-|]. by rewrite (IH y1 H1). }
    rewrite (Hrun _ _ Ex). cbn. intros E. destruct (error_message x'), (failed x'); discriminate E.
Qed.
End Suspension.

(** ** Examples

    An instantiation with a step that fails once, and an optional one that fails. *)

#[local] Instance demo_set_order : SetOrder := remove_dups.
#[local] Instance demo_set_order_laws : SetOrderLaws := insertion_order.

Definition ok_of {A} (r : res A) : match r with Ok _ => A | Err _ => unit end :=
  match r with Ok a => a | Err _ => () end.

Definition demo_step (n : string) (opt : bool) (deps : list string) (attempts : Z) : step :=
  {| name := n; optional := opt; needs := deps; skip_when := None; handler := None; timeout_seconds := Some 30;
     retry := Some {| max_attempts := attempts; delay_seconds := 5 |}; params := None |}.

Definition demo_pipeline (tags_optional : bool) : pipeline :=
  {| description := "instantiate";
     steps := [demo_step "mark_ready" false ["ports_alloc"; "tags_sync"] 1; demo_step "lab_resolve" false [] 1;
               demo_step "tags_sync" tags_optional ["lab_resolve"] 1; demo_step "ports_alloc" false ["lab_resolve"] 3];
     outputs := [("port", "$STEPS.ports_alloc.ssh")]; max_retries := 2 |}.

Definition demo_dispatch (tags : awaited pyval) : dispatcher := fun l h _ _ _ =>
  if String.eqb h "ports_alloc" then
    if bool_decide ("ports_alloc" ∈ dispatched l) then Returned (PDict [("ssh", PInt 2000)]) else Raised "busy"
  else if String.eqb h "tags_sync" then tags else Returned (PDict []).

Definition demo_eval (e : string) (data : pydict) : evaluated := Caught.
Definition demo_now (l : list effect) : datetime := utc 7.
Definition demo_getattr (v : pyval) (a : string) : option pyval := None.

Local Abbreviation demo_run tags p ex :=
  (execute (demo_dispatch tags) demo_eval demo_now demo_getattr p [] ex (Some "instantiate") []).

Definition demo_partial : PipelineResult * exec := Eval vm_compute in ok_of (demo_run (Raised "no tags") (demo_pipeline true) None).
Definition demo_completed : PipelineResult * exec := Eval vm_compute in ok_of (demo_run (Returned (PDict [])) (demo_pipeline true) None).

Lemma demo_partial_run : demo_run (Raised "no tags") (demo_pipeline true) None = Ok (demo_partial.1, demo_partial.2).
Proof. vm_compute. reflexivity. Qed.

Lemma resolve_dag_spec_witness : exists ordered, resolve_dag (steps (demo_pipeline true)) = Ok ordered /\
  map name ordered = ["lab_resolve"; "tags_sync"; "ports_alloc"; "mark_ready"] /\
  dependencies_first (steps (demo_pipeline true)) ordered.
Proof.
  assert (exists ordered, resolve_dag (steps (demo_pipeline true)) = Ok ordered /\
    map name ordered = ["lab_resolve"; "tags_sync"; "ports_alloc"; "mark_ready"]) as (o & E & Hn)
    by (eexists; split; vm_compute; reflexivity).
  exists o. split; [exact E|]. split; [exact Hn|]. exact (proj1 (resolve_dag_spec (steps (demo_pipeline true))) o E).
Defined.

Lemma dispatch_after_needs_witness :
  exists new, log demo_partial.2 = [] ++ new /\
    forall before n after, dispatched new = before ++ n :: after ->
      exists s, s ∈ steps (demo_pipeline true) /\ name s = n /\
        forall d, d ∈ needs s -> d ∉ after /\
          exists t, t ∈ steps (demo_pipeline true) /\ name t = d /\ lets_go t demo_partial.2.
Proof.
  exact (dispatch_after_needs (demo_dispatch (Raised "no tags")) demo_eval demo_now demo_getattr
           (demo_pipeline true) [] None (Some "instantiate") [] _ _ demo_partial_run).
Defined.

Lemma attempts_bounded_witness :
  dispatched (log demo_partial.2) = ["lab_resolve"; "tags_sync"; "ports_alloc"; "ports_alloc"; "mark_ready"] /\
  exists new, log demo_partial.2 = [] ++ new /\ forall s, s ∈ steps (demo_pipeline true) ->
    (length (filter (.= name s) (dispatched new)) <= Z.to_nat (attempts_of s))%nat /\
    (settled_before [] (name s) = true -> name s ∉ dispatched new).
Proof.
  split; [vm_compute; reflexivity|].
  exact (attempts_bounded (demo_dispatch (Raised "no tags")) demo_eval demo_now demo_getattr
           (demo_pipeline true) [] None (Some "instantiate") [] _ _ [] demo_partial_run eq_refl).
Defined.

Lemma run_accounting_witness : status demo_partial.1 = "partial" /\
  counted demo_partial.2 /\ reports demo_partial.1 demo_partial.2 /\ outcome (demo_pipeline true) demo_partial.1 demo_partial.2.
Proof.
  split; [reflexivity|].
  exact (run_accounting (demo_dispatch (Raised "no tags")) demo_eval demo_now demo_getattr
           (demo_pipeline true) [] None (Some "instantiate") [] _ _ demo_partial_run).
Defined.

Lemma needs_only_sort_witness : exists ordered, resolve_dag (steps (demo_pipeline true)) = Ok ordered /\
  run_steps (demo_dispatch (Raised "no tags")) demo_eval demo_now (steps (demo_pipeline true)) ordered None [] ordered
    (initial_exec [] [] (initial_progress ordered)) =
  run_steps (demo_dispatch (Raised "no tags")) demo_eval demo_now (steps (demo_pipeline true)) (map without_needs ordered) None []
    (map without_needs ordered) (initial_exec [] [] (initial_progress ordered)).
Proof.
  assert (exists ordered, resolve_dag (steps (demo_pipeline true)) = Ok ordered) as [o E] by (eexists; vm_compute; reflexivity).
  exists o. split; [exact E|]. exact (needs_only_sort _ demo_eval demo_now (demo_pipeline true) o None [] [] [] E).
Defined.

Lemma rerun_is_silent_witness : exists r' x',
  demo_run (Returned (PDict [])) (demo_pipeline true) (Some (progress demo_completed.2)) = Ok (r', x') /\
  log x' = [] /\ status r' = "completed".
Proof.
  assert (demo_run (Returned (PDict [])) (demo_pipeline true) None = Ok (demo_completed.1, demo_completed.2)) as E
    by (vm_compute; reflexivity).
  destruct (rerun_is_silent _ demo_eval demo_now demo_getattr (demo_pipeline true) [] None (Some "instantiate") [] _ _ E
              eq_refl [] (Some "instantiate") []) as (r' & x' & E' & Hl & _ & Hs & _).
  exists r', x'. exact (conj E' (conj Hl Hs)).
Defined.

(** A step that hands its work over and waits is reported as completed. *)
Definition waiting_registry (h : string) : option (list effect -> pydict -> pydict -> option pydict -> awaited StepResult) :=
  if String.eqb h "lab_start" then Some (fun _ _ _ _ => Returned (StepResult_suspended "job-1" "s-1:lab_start:0a" None)) else None.

Definition waiting_pipeline : pipeline :=
  {| description := "start"; steps := [demo_step "lab_start" false [] 1]; outputs := []; max_retries := 0 |}.

Lemma suspensions_lost_witness :
  exists r x, execute (build_step_dispatcher waiting_registry (fun _ => None)) demo_eval demo_now demo_getattr
    waiting_pipeline [] None None [] = Ok (r, x) /\ status r = "completed" /\ status r <> "suspended".
Proof.
  eexists _, _. split; [vm_compute; reflexivity|]. split; [reflexivity|].
  refine (proj2 (suspensions_lost demo_eval demo_now demo_getattr waiting_registry _ [] [] None) waiting_pipeline [] [] _ _ _).
  - intros h f l pr da pa sr Hf Hr. unfold waiting_registry in Hf. destruct (String.eqb h "lab_start"); [|discriminate Hf].
    injection Hf as <-. injection Hr as <-. constructor.
  - vm_compute. reflexivity.
Defined.
