(* ===== verification/PipelineTemplates.v ===== *)
(** * Pipeline templates ([lablet-controller/application/services/pipeline_template_resolver.py])

    A pipeline of a definition may extend a template: it removes steps, inserts steps
    next to others, overrides fields and adds outputs.  Definitions have the shapes of
    their schema; where a value has another shape some exception is raised here, and
    which one is not modelled: the reconciler catches them all
    ([lablet_reconciler.py], [_get_pipeline_def], at the end).  [read_pipeline] is what
    the executor ([pipeline_executor.py], [Pipeline]) reads off a resolved definition. *)
From S2P Require Import Prelude PySort PyData Pipeline.

(** ** The standard templates *)

Definition standard_instantiate : pydict :=
  [("description", PStr "Standard lab instantiation pipeline — import/reuse lab, allocate ports, provision LDS, mark ready.");
   ("trigger", PStr "on_status:instantiating"); ("max_retries", PInt 3); ("retry_backoff", PInt 30);
   ("steps", PList [
     PDict [("name", PStr "lab_resolve"); ("handler", PStr "lab_resolve");
      ("description", PStr "Import or reuse a CML lab on the assigned worker"); ("timeout_seconds", PInt 120);
      ("retry", PDict [("max_attempts", PInt 2); ("delay_seconds", PInt 10)])];
     PDict [("name", PStr "ports_alloc"); ("handler", PStr "ports_alloc");
      ("description", PStr "Allocate real ports from worker pool for console access");
      ("needs", PList [PStr "lab_resolve"]); ("skip_when", PStr "not $DEFINITION.port_template");
      ("timeout_seconds", PInt 30)];
     PDict [("name", PStr "tags_sync"); ("handler", PStr "tags_sync");
      ("description", PStr "Write protocol:port tags to CML nodes"); ("needs", PList [PStr "ports_alloc"]);
      ("skip_when", PStr "not $DEFINITION.port_template"); ("timeout_seconds", PInt 30)];
     PDict [("name", PStr "lab_binding"); ("handler", PStr "lab_binding");
      ("description", PStr "Bind LabRecord to session, create LabRunRecord");
      ("needs", PList [PStr "lab_resolve"; PStr "tags_sync"]); ("timeout_seconds", PInt 30)];
     PDict [("name", PStr "lab_start"); ("handler", PStr "lab_start");
      ("description", PStr "Start the CML lab and wait for convergence"); ("needs", PList [PStr "lab_binding"]);
      ("timeout_seconds", PInt 300); ("retry", PDict [("max_attempts", PInt 5); ("delay_seconds", PInt 15)])];
     PDict [("name", PStr "lds_provision"); ("handler", PStr "lds_provision");
      ("description", PStr "Create LDS session, map devices, get launch URL");
      ("needs", PList [PStr "lab_start"]); ("skip_when", PStr "not $DEFINITION.form_qualified_name");
      ("timeout_seconds", PInt 60)];
     PDict [("name", PStr "mark_ready"); ("handler", PStr "mark_ready");
      ("description", PStr "Atomic transition to READY status");
      ("needs", PList [PStr "lab_start"; PStr "lds_provision"]); ("timeout_seconds", PInt 10)]]);
   ("outputs", PDict [("cml_lab_id", PStr "$STEPS.lab_resolve.cml_lab_id");
    ("lab_record_id", PStr "$STEPS.lab_resolve.lab_record_id");
    ("user_session_id", PStr "$STEPS.lds_provision.user_session_id");
    ("launch_url", PStr "$STEPS.lds_provision.launch_url")])].

Definition standard_teardown : pydict :=
  [("description", PStr "Standard teardown pipeline — stop lab, deregister LDS, wipe, archive.");
   ("trigger", PStr "on_status:stopping");
   ("steps", PList [
     PDict [("name", PStr "stop_lab"); ("handler", PStr "stop_lab");
      ("description", PStr "Stop the CML lab (graceful shutdown)"); ("timeout_seconds", PInt 120)];
     PDict [("name", PStr "deregister_lds"); ("handler", PStr "deregister_lds");
      ("description", PStr "Close the LDS session and release license"); ("needs", PList [PStr "stop_lab"]);
      ("skip_when", PStr "not $SESSION.user_session_id"); ("optional", PBool true);
      ("timeout_seconds", PInt 30)];
     PDict [("name", PStr "wipe_lab"); ("handler", PStr "wipe_lab");
      ("description", PStr "Wipe lab state (reset to DEFINED_ON_CORE)"); ("needs", PList [PStr "stop_lab"]);
      ("timeout_seconds", PInt 120)];
     PDict [("name", PStr "archive"); ("handler", PStr "archive");
      ("description", PStr "Archive session record and transition to ARCHIVED");
      ("needs", PList [PStr "wipe_lab"; PStr "deregister_lds"]); ("timeout_seconds", PInt 10)]]);
   ("outputs", PDict [("archived_at", PStr "$STEPS.archive.archived_at")])].

Definition standard_collect_evidence : pydict :=
  [("description", PStr "Standard evidence collection pipeline."); ("trigger", PStr "on_status:collecting");
   ("steps", PList [
     PDict [("name", PStr "capture_configs"); ("handler", PStr "capture_configs");
      ("description", PStr "Export running-config from all managed devices"); ("timeout_seconds", PInt 120)];
     PDict [("name", PStr "capture_screenshots"); ("handler", PStr "capture_screenshots");
      ("description", PStr "Capture VNC screenshots of graphical nodes");
      ("needs", PList [PStr "capture_configs"]); ("optional", PBool true); ("timeout_seconds", PInt 60)];
     PDict [("name", PStr "export_pcaps"); ("handler", PStr "export_pcaps");
      ("description", PStr "Export packet capture files from bridge interfaces");
      ("needs", PList [PStr "capture_configs"]); ("optional", PBool true); ("timeout_seconds", PInt 60)];
     PDict [("name", PStr "package_evidence"); ("handler", PStr "package_evidence");
      ("description", PStr "Bundle all artifacts into a compressed evidence package");
      ("needs", PList [PStr "capture_configs"]); ("timeout_seconds", PInt 30)]]);
   ("outputs", PDict [("evidence_uri", PStr "$STEPS.package_evidence.evidence_uri")])].

Definition standard_compute_grading : pydict :=
  [("description", PStr "Standard grading pipeline."); ("trigger", PStr "on_status:grading");
   ("steps", PList [
     PDict [("name", PStr "load_rubric"); ("handler", PStr "load_rubric");
      ("description", PStr "Load grading rules from definition (grade.xml)"); ("timeout_seconds", PInt 30)];
     PDict [("name", PStr "evaluate"); ("handler", PStr "evaluate");
      ("description", PStr "Run grading engine against evidence and rubric");
      ("needs", PList [PStr "load_rubric"]); ("timeout_seconds", PInt 120)];
     PDict [("name", PStr "record_score"); ("handler", PStr "record_score");
      ("description", PStr "Create ScoreReport aggregate and store results");
      ("needs", PList [PStr "evaluate"]); ("timeout_seconds", PInt 10)]]);
   ("outputs", PDict [("score", PStr "$STEPS.evaluate.score"); ("score_report_id", PStr "$STEPS.record_score.score_report_id")])].

Definition _TEMPLATES : dict pydict := [
  ("standard-instantiate", standard_instantiate); ("standard-teardown", standard_teardown);
  ("standard-collect-evidence", standard_collect_evidence); ("standard-compute-grading", standard_compute_grading)].

(** ** Steps *)

(** [d.get("steps", [])], a list of dicts; and [d["steps"] = l]. *)
Definition steps_of (d : pydict) : res (list pydict) :=
  l ← as_list (pd_get_or "steps" (PList []) d); mapM as_dict l.
Definition set_steps (l : list pydict) (d : pydict) : pydict := dict_set "steps" (PList (map PDict l)) d.

(** [_find_step_index] *)
Fixpoint find_step_index (steps : list pydict) (name : string) : option nat :=
  match steps with
  | [] => None
  | s :: steps => if eq_str (pd_get "name" s) name then Some 0%nat else S <$> find_step_index steps name
  end.

(** [steps.insert(i, s)] *)
Definition insert_at (i : nat) (steps : list pydict) (s : pydict) : list pydict := take i steps ++ s :: drop i steps.

(** ** The operators *)

Fixpoint remove_steps (removals : list string) (steps : list pydict) : res (list pydict) :=
  match steps with
  | [] => Ok []
  | s :: steps =>
      v ← dict_item "name" s;
      name ← as_str v;
      rest ← remove_steps removals steps;
      Ok (if bool_decide (name ∈ removals) then rest else s :: rest)
  end.

(** [_apply_removes] *)
Definition apply_removes (base customization : pydict) : res pydict :=
  let removals := pd_get "remove" customization in
  if negb (truthy removals) then Ok base
  else
    removals ← as_str_list removals;
    steps ← steps_of base;
    steps ← remove_steps removals steps;
    Ok (set_steps steps base).

Definition no_anchor (operator name : string) : exn :=
  PipelineTemplateError (operator +:+ " '" +:+ name +:+ "' not found in template").

(** The loops over the anchors, [at_] being where the steps go. *)
Fixpoint insert_steps (operator : string) (at_ : nat -> list pydict -> list pydict -> list pydict)
    (inserts : dict pyval) (steps : list pydict) : res (list pydict) :=
  match inserts with
  | [] => Ok steps
  | (anchor_name, v) :: inserts =>
      new_steps ← as_list v;
      match find_step_index steps anchor_name with
      | None => Err (no_anchor (operator +:+ ": anchor step") anchor_name)
      | Some anchor_idx =>
          new_steps ← mapM as_dict new_steps;
          insert_steps operator at_ inserts (at_ anchor_idx new_steps steps)
      end
  end.

(** [for i, new_step in enumerate(reversed(new_steps)): steps.insert(anchor_idx + 1, new_step)] *)
Definition insert_after (anchor_idx : nat) (new_steps steps : list pydict) : list pydict :=
  fold_left (insert_at (S anchor_idx)) (rev new_steps) steps.

(** [for i, new_step in enumerate(new_steps): steps.insert(anchor_idx + i, new_step)] *)
Definition insert_before (anchor_idx : nat) (new_steps steps : list pydict) : list pydict :=
  fold_left (fun steps '(i, s) => insert_at (anchor_idx + i) steps s) (imap pair new_steps) steps.

Definition apply_inserts (operator : string) (at_ : nat -> list pydict -> list pydict -> list pydict)
    (base customization : pydict) : res pydict :=
  let inserts := pd_get operator customization in
  if negb (truthy inserts) then Ok base
  else
    inserts ← as_dict inserts;
    steps ← steps_of base;
    steps ← insert_steps operator at_ inserts steps;
    Ok (set_steps steps base).

(** [_apply_inserts_after], [_apply_inserts_before] *)
Definition apply_inserts_after : pydict -> pydict -> res pydict := apply_inserts "insert_after" insert_after.
Definition apply_inserts_before : pydict -> pydict -> res pydict := apply_inserts "insert_before" insert_before.

Fixpoint override_steps (overrides : dict pyval) (steps : list pydict) : res (list pydict) :=
  match overrides with
  | [] => Ok steps
  | (step_name, fields) :: overrides =>
      match find_step_index steps step_name with
      | None => Err (no_anchor "overrides: step" step_name)
      | Some step_idx =>
          fields ← as_dict fields;
          override_steps overrides (alter (fun s => dict_update s fields) step_idx steps)
      end
  end.

(** [_apply_overrides] *)
Definition apply_overrides (base customization : pydict) : res pydict :=
  let overrides := pd_get "overrides" customization in
  if negb (truthy overrides) then Ok base
  else
    overrides ← as_dict overrides;
    steps ← steps_of base;
    steps ← override_steps overrides steps;
    Ok (set_steps steps base).

(** ** Resolution *)
Section Resolver.
Context (templates : dict pydict).

(** [_load_template] *)
Definition load_template (name : string) : res pydict :=
  match dict_get name templates with
  | Some template => Ok template
  | None => Err (PipelineTemplateError ("Unknown pipeline template: '" +:+ name +:+ "'. Available: "
                   +:+ py_join ", " (sort_by str_ltb id (dict_keys templates))))
  end.

(** [for key in (...): if key in pipeline_def: resolved[key] = pipeline_def[key]] *)
Definition copy_field (pipeline_def resolved : pydict) (key : string) : pydict :=
  match dict_get key pipeline_def with Some v => dict_set key v resolved | None => resolved end.
Definition copied_fields : list string := ["description"; "trigger"; "max_retries"; "retry_backoff"].

(** [resolved.setdefault("outputs", {})], then [.update(...)] *)
Definition merge_outputs (pipeline_def resolved : pydict) : res pydict :=
  match dict_get "outputs" pipeline_def with
  | None => Ok resolved
  | Some more =>
      outputs ← as_dict (pd_get_or "outputs" (PDict []) resolved);
      more ← as_dict more;
      Ok (dict_set "outputs" (PDict (dict_update outputs more)) resolved)
  end.

(** [resolve] *)
Definition resolve (pipeline_def : pydict) : res pydict :=
  let extends := pd_get "extends" pipeline_def in
  if negb (truthy extends) then Ok pipeline_def
  else
    name ← as_str extends;
    base ← load_template name;
    resolved ← apply_removes base pipeline_def;
    resolved ← apply_inserts_before resolved pipeline_def;
    resolved ← apply_inserts_after resolved pipeline_def;
    resolved ← apply_overrides resolved pipeline_def;
    merge_outputs pipeline_def (fold_left (copy_field pipeline_def) copied_fields resolved).

Definition get_template_names : list string := dict_keys templates.

(** ** The definition of a pipeline of a session ([_get_pipeline_def])

    [pipelines] are those of the session's definition, when it was found; a template
    that cannot be resolved leaves the definition as it is. *)
Definition get_pipeline_def (pipelines : option pydict) (pipeline_name : string) : res (option pydict) :=
  match pipelines with
  | None => Ok None
  | Some pipelines =>
      let pipeline_def := pd_get pipeline_name pipelines in
      if negb (truthy pipeline_def) then Ok None
      else
        pipeline_def ← as_dict pipeline_def;
        Ok (Some (match resolve pipeline_def with Ok resolved => resolved | Err _ => pipeline_def end))
  end.
End Resolver.

(** [PipelineTemplateResolver(extra_templates)] *)
Definition new_templates (extra_templates : option (dict pydict)) : dict pydict :=
  match extra_templates with Some extra => dict_update _TEMPLATES extra | None => _TEMPLATES end.

(** ** What the executor reads *)

Definition read_retry (v : pyval) : res (option retry_config) :=
  if negb (truthy v) then Ok None
  else
    d ← as_dict v;
    max_attempts ← as_int (pd_get_or "max_attempts" (PInt 1) d);
    delay_seconds ← as_int (pd_get_or "delay_seconds" (PInt 0) d);
    Ok (Some {| max_attempts := max_attempts; delay_seconds := delay_seconds |}).

Definition read_step (d : pydict) : res step :=
  n ← dict_item "name" d;
  name ← as_str n;
  needs ← as_str_list (pd_get_or "needs" (PList []) d);
  skip_when ← as_ostr (pd_get "skip_when" d);
  handler ← match dict_get "handler" d with Some v => h ← as_str v; Ok (Some h) | None => Ok None end;
  timeout ← as_oint (pd_get "timeout_seconds" d);
  retry ← read_retry (pd_get "retry" d);
  params ← as_odict (pd_get "params" d);
  Ok {| name := name; optional := truthy (pd_get_or "optional" (PBool false) d); needs := needs;
        skip_when := skip_when; handler := handler; timeout_seconds := timeout; retry := retry; params := params |}.

Definition read_pipeline (d : pydict) : res pipeline :=
  description ← as_str (pd_get_or "description" (PStr "unnamed") d);
  l ← (if truthy (pd_get "steps" d) then steps_of d else Ok []);
  steps ← mapM read_step l;
  o ← as_dict (pd_get_or "outputs" (PDict []) d);
  outputs ← mapM (fun '(k, v) => s ← as_str v; Ok (k, s)) o;
  max_retries ← as_int (pd_get_or "max_retries" (PInt 0) d);
  Ok {| description := description; steps := steps; outputs := outputs; max_retries := max_retries |}.
