(* ===== verification/PipelineTemplatesProps.v ===== *)
(** * What a resolved pipeline is, and how it runs

    The steps a definition inherits from its template and those it inserts; what the
    executor makes of a step that was removed, of the place of an inserted one, and of
    a template that is not known. *)
From S2P Require Import Prelude PySort PyData Topo TopoProps Pipeline PipelineProps PipelineTemplates.

(** ** Steps in their place *)

Lemma insert_after_eq i new steps : (i < length steps)%nat ->
  insert_after i new steps = take (S i) steps ++ new ++ drop (S i) steps.
Proof.
  intros Hi. unfold insert_after. rewrite <- fold_left_rev_right, rev_involutive.
  induction new as [|s new IH]; cbn [fold_right]; [by rewrite app_nil_l, take_drop|].
  rewrite IH. unfold insert_at. rewrite take_app_length', drop_app_length' by (rewrite length_take; lia). done.
Qed.

Lemma insert_before_eq i new steps : (i < length steps)%nat ->
  insert_before i new steps = take i steps ++ new ++ drop i steps.
Proof.
  intros Hi. unfold insert_before.
  assert (forall k pre, (length pre = k)%nat ->
    fold_left (fun steps '(j, s) => insert_at (i + j) steps s) (imap (fun j s => (k + j, s)%nat) new) (take i steps ++ pre ++ drop i steps)
    = take i steps ++ pre ++ new ++ drop i steps) as Hg.
  { induction new as [|s new IH]; intros k pre Hk; [done|]. cbn [imap fold_left].
    rewrite Nat.add_0_r. unfold insert_at at 2. rewrite take_app_add', drop_app_add' by (rewrite length_take; lia).
    rewrite take_app_length', drop_app_length' by done.
    replace (imap ((fun j x => (k + j, x)%nat) ∘ S) new) with (imap (fun j x => (S k + j, x)%nat) new)
      by (apply imap_ext; intros; cbn; f_equal; lia).
    specialize (IH (S k) (pre ++ [s])). rewrite <- !app_assoc in IH. cbn in IH. rewrite <- app_assoc. apply IH. rewrite length_app. cbn. lia. }
  specialize (Hg 0%nat []). cbn in Hg. rewrite take_drop in Hg. by apply Hg.
Qed.

Lemma find_step_index_some steps n i : find_step_index steps n = Some i ->
  exists s, steps !! i = Some s /\ eq_str (pd_get "name" s) n = true.
Proof.
  revert i. induction steps as [|s steps IH]; intros i; cbn; [done|]. destruct (eq_str _ _) eqn:Hs.
  - intros [= <-]. by exists s.
  - destruct (find_step_index steps n) as [j|]; [|done]. intros [= <-]. by apply IH.
Qed.

(** ** The steps of a resolved pipeline *)

(** A step keeps its name through an override that does not change it. *)
Definition name_of (s : pydict) : pyval := pd_get "name" s.

(** The steps that a dict of insertions lists. *)
Definition listed (inserts : pyval) : list pydict :=
  match inserts with
  | PDict d => concat (map (fun '(_, v) => match v with
                                           | PList l => omap (fun v => match v with PDict s => Some s | _ => None end) l
                                           | _ => []
                                           end) d)
  | _ => []
  end.

(** [steps] are [kept], in their order, with the steps [new] between them. *)
Definition woven (kept new steps : list pydict) : Prop := kept `sublist_of` steps /\ steps ≡ₚ kept ++ new.

Lemma woven_refl steps : woven steps [] steps.
Proof. split; [done|by rewrite app_nil_r]. Qed.

Lemma woven_more kept new steps i more : woven kept new steps -> woven kept (new ++ more) (take i steps ++ more ++ drop i steps).
Proof.
  intros [Hs Hp]. split.
  - etransitivity; [exact Hs|]. rewrite <- (take_drop i steps) at 1. apply sublist_app; [done|]. by apply sublist_inserts_l.
  - rewrite app_assoc, (Permutation_app_comm (take i steps) more), <- app_assoc, take_drop, Hp.
    rewrite (Permutation_app_comm more), <- !app_assoc. done.
Qed.

Lemma mapM_dicts l new : mapM as_dict l = Ok new -> omap (fun v => match v with PDict s => Some s | _ => None end) l = new.
Proof.
  revert new. induction l as [|v l IH]; intros new; [by intros [= <-]|]. cbn. destruct v; try done. cbn.
  destruct (mapM as_dict l) as [m|] eqn:Hm; [|done]. cbn. intros [= <-]. by rewrite (IH m).
Qed.

Lemma insert_steps_woven op at_ inserts kept new steps r :
  (forall i new steps, (i < length steps)%nat -> exists j, at_ i new steps = take j steps ++ new ++ drop j steps) ->
  insert_steps op at_ inserts steps = Ok r -> woven kept new steps -> woven kept (new ++ listed (PDict inserts)) r.
Proof.
  intros Hat. revert new steps. induction inserts as [|[a v] inserts IH]; intros new steps; cbn [insert_steps].
  { intros [= <-]. cbn. by rewrite app_nil_r. }
  intros He Hw. apply bind_ok in He as (l & Hl & He). destruct v as [| | | | | | | |l'|]; try done. injection Hl as ->.
  destruct (find_step_index steps a) as [i|] eqn:Hi; [|done]. apply bind_ok in He as (more & Hm & He).
  apply find_step_index_some in Hi as (s & Hs%lookup_lt_Some & _). destruct (Hat i more steps Hs) as [j Hj].
  specialize (IH (new ++ more) _ He). rewrite Hj in IH. cbn. rewrite (mapM_dicts _ _ Hm), app_assoc.
  apply IH. by apply woven_more.
Qed.

(** The step is listed as removed. *)
Definition removed (removals : pyval) (s : pydict) : bool :=
  match removals with
  | PList l => existsb (fun v => match v with PStr n => eq_str (name_of s) n | _ => false end) l
  | _ => false
  end.

(** [s'] is [s] with fields that some override of the dict has. *)
Definition overridden (overrides : pyval) : pydict -> pydict -> Prop :=
  star (fun s s' => exists d n fields, overrides = PDict d /\ (n, PDict fields) ∈ d /\ s' = dict_update s fields).

#[export] Instance overridden_pre o : PreOrder (overridden o).
Proof. split; [constructor|]. intros x y z. apply star_trans. Qed.

Lemma steps_of_set l d : steps_of (set_steps l d) = Ok l.
Proof.
  unfold steps_of, set_steps, pd_get_or. rewrite dict_get_set_eq. cbn. induction l as [|s l IH]; [done|]. cbn. by rewrite IH.
Qed.

Lemma steps_of_other k v d : k <> "steps" -> steps_of (dict_set k v d) = steps_of d.
Proof. intros Hk. unfold steps_of, pd_get_or. by rewrite dict_get_set_ne. Qed.

Lemma set_steps_other k l d : k <> "steps" -> dict_get k (set_steps l d) = dict_get k d.
Proof. intros Hk. unfold set_steps. by rewrite dict_get_set_ne. Qed.

Lemma existsb_names l n names : mapM as_str l = Ok names ->
  existsb (fun v => match v with PStr m => String.eqb n m | _ => false end) l = bool_decide (n ∈ names).
Proof.
  revert names. induction l as [|v l IH]; intros names; [by intros [= <-]|]. cbn. destruct v; try done. cbn.
  destruct (mapM as_str l) as [m|]; [|done]. cbn. intros [= <-]. rewrite (IH m) by done.
  destruct (String.eqb_spec n s) as [->|Hne]; cbn.
  - symmetry. apply bool_decide_eq_true. by left.
  - apply bool_decide_ext. rewrite elem_of_cons. naive_solver.
Qed.

Lemma remove_steps_eq l names steps r : mapM as_str l = Ok names -> remove_steps names steps = Ok r ->
  r = List.filter (fun s => negb (removed (PList l) s)) steps.
Proof.
  intros Hl. revert r. induction steps as [|s steps IH]; intros r; cbn [remove_steps List.filter]; [by intros [= <-]|].
  intros He. apply bind_ok in He as (v & Hv & He). apply bind_ok in He as (n & Hn & He). apply bind_ok in He as (rest & Hr & He).
  destruct v; try done. injection Hn as <-. injection He as <-. rewrite (IH _ Hr). unfold removed, name_of, pd_get.
  unfold dict_item in Hv. destruct (dict_get "name" s) as [v|]; [|done]. injection Hv as ->. cbn.
  rewrite (existsb_names _ _ _ Hl). by destruct (bool_decide _).
Qed.

(** What an operator does to the other fields: nothing. *)
Definition same_fields (d d' : pydict) : Prop := forall k, k <> "steps" -> dict_get k d' = dict_get k d.

Lemma apply_removes_spec base d r bs : apply_removes base d = Ok r -> steps_of base = Ok bs ->
  steps_of r = Ok (List.filter (fun s => negb (removed (pd_get "remove" d) s)) bs) /\ same_fields base r.
Proof.
  unfold apply_removes. intros He Hb. destruct (truthy (pd_get "remove" d)) eqn:Ht; cbn [negb] in He.
  - unfold as_str_list in He. destruct (pd_get "remove" d) as [| | | | | | | |l|] eqn:Hl; try done. cbn in He.
    destruct (mapM as_str l) as [names|] eqn:Hn; [|done]. cbn in He. rewrite Hb in He. cbn in He.
    apply bind_ok in He as (kept & Hk & He). injection He as <-. rewrite steps_of_set, (remove_steps_eq _ _ _ _ Hn Hk).
    split; [done|]. intros k Hk'. by apply set_steps_other.
  - injection He as <-. split; [|done]. rewrite Hb. f_equal. symmetry. apply List.forallb_filter_id, List.forallb_forall.
    intros s _. by destruct (pd_get "remove" d) as [| | | | | | | |[|]|].
Qed.

Lemma apply_inserts_spec op at_ base d r bs kept new : 
  (forall i new steps, (i < length steps)%nat -> exists j, at_ i new steps = take j steps ++ new ++ drop j steps) ->
  apply_inserts op at_ base d = Ok r -> steps_of base = Ok bs -> woven kept new bs ->
  exists bs', steps_of r = Ok bs' /\ woven kept (new ++ listed (pd_get op d)) bs' /\ same_fields base r.
Proof.
  intros Hat He Hb Hw. unfold apply_inserts in He. destruct (truthy (pd_get op d)) eqn:Ht; cbn [negb] in He.
  - destruct (pd_get op d) as [| | | | | | | | |inserts]; try done. cbn [as_dict mbind res_bind] in He. rewrite Hb in He.
    apply bind_ok in He as (bs1 & [= <-] & He). apply bind_ok in He as (bs' & Hi & He). injection He as <-.
    exists bs'. rewrite steps_of_set. split; [done|]. split; [by eapply insert_steps_woven|]. intros k Hk. by apply set_steps_other.
  - injection He as <-. exists bs. split; [done|]. split; [|done].
    assert (listed (pd_get op d) = []) as -> by (by destruct (pd_get op d) as [| | | | | | | | |[|]]). by rewrite app_nil_r.
Qed.

Lemma inserts_after_spec base d r bs kept new : apply_inserts_after base d = Ok r -> steps_of base = Ok bs -> woven kept new bs ->
  exists bs', steps_of r = Ok bs' /\ woven kept (new ++ listed (pd_get "insert_after" d)) bs' /\ same_fields base r.
Proof. apply apply_inserts_spec. intros i l steps Hi. exists (S i). by apply insert_after_eq. Qed.

Lemma inserts_before_spec base d r bs kept new : apply_inserts_before base d = Ok r -> steps_of base = Ok bs -> woven kept new bs ->
  exists bs', steps_of r = Ok bs' /\ woven kept (new ++ listed (pd_get "insert_before" d)) bs' /\ same_fields base r.
Proof. apply apply_inserts_spec. intros i l steps Hi. exists i. by apply insert_before_eq. Qed.

Lemma override_steps_spec o steps r all : override_steps o steps = Ok r -> o ⊆ all -> Forall2 (overridden (PDict all)) steps r.
Proof.
  revert steps. induction o as [|[n v] o IH]; intros steps; cbn [override_steps].
  { intros [= <-] _. reflexivity. }
  intros He Ho. destruct (find_step_index steps n) as [i|]; [|done]. apply bind_ok in He as (fields & Hf & He).
  destruct v; try done. injection Hf as ->. apply IH in He; [|intros x Hx; apply Ho; by right].
  etransitivity; [|exact He]. apply Forall2_same_length_lookup_2; [by rewrite length_alter|]. intros j x y Hx Hy.
  destruct (decide (i = j)) as [<-|Hne].
  - rewrite list_lookup_alter_eq, Hx in Hy. injection Hy as <-. apply star_one. exists all, n, fields.
    split; [done|]. split; [|done]. apply Ho. by left.
  - rewrite list_lookup_alter_ne, Hx in Hy by done. by injection Hy as <-.
Qed.

Lemma apply_overrides_spec base d r bs : apply_overrides base d = Ok r -> steps_of base = Ok bs ->
  exists bs', steps_of r = Ok bs' /\ Forall2 (overridden (pd_get "overrides" d)) bs bs' /\ same_fields base r.
Proof.
  intros He Hb. unfold apply_overrides in He. destruct (truthy (pd_get "overrides" d)); cbn [negb] in He.
  - destruct (pd_get "overrides" d) as [| | | | | | | | |o]; try done. cbn [as_dict mbind res_bind] in He. rewrite Hb in He.
    apply bind_ok in He as (bs1 & [= <-] & He). apply bind_ok in He as (bs' & Ho & He). injection He as <-.
    exists bs'. rewrite steps_of_set. split; [done|]. split; [by eapply override_steps_spec|]. intros k Hk. by apply set_steps_other.
  - injection He as <-. exists bs. split; [done|]. split; [reflexivity|done].
Qed.

(** ** Top-level fields *)

Lemma copy_field_get d r k key : dict_get key (copy_field d r k) =
  if String.eqb key k then match dict_get k d with Some v => Some v | None => dict_get k r end else dict_get key r.
Proof.
  unfold copy_field. destruct (String.eqb_spec key k) as [->|Hne]; destruct (dict_get k d) as [v|]; try done.
  - apply dict_get_set_eq.
  - by apply dict_get_set_ne.
Qed.

Definition given_field (d base : pydict) (k : string) : option pyval :=
  match dict_get k d with Some v => Some v | None => dict_get k base end.

Lemma copied_get d r : let r' := fold_left (copy_field d) copied_fields r in
  (forall k, k ∈ copied_fields -> dict_get k r' = given_field d r k) /\
  (forall k, k ∉ copied_fields -> dict_get k r' = dict_get k r).
Proof.
  unfold copied_fields. cbn [fold_left]. unfold given_field. split; intros k Hk; rewrite !copy_field_get.
  - rewrite !elem_of_cons in Hk. destruct Hk as [ -> |[ -> |[ -> |[ -> |Hk]]]]; [cbn; by destruct (dict_get _ d)..|by inversion Hk].
  - rewrite !not_elem_of_cons in Hk. destruct Hk as (?&?&?&?&_).
    by repeat (rewrite (proj2 (String.eqb_neq _ _)) by done).
Qed.

Lemma steps_of_get d d' : dict_get "steps" d' = dict_get "steps" d -> steps_of d' = steps_of d.
Proof. unfold steps_of, pd_get_or. by intros ->. Qed.

Lemma merge_outputs_spec d r r' : merge_outputs d r = Ok r' ->
  (forall k, k <> "outputs" -> dict_get k r' = dict_get k r) /\
  match dict_get "outputs" d with
  | Some more => exists old new, pd_get_or "outputs" (PDict []) r = PDict old /\ more = PDict new /\
                   dict_get "outputs" r' = Some (PDict (dict_update old new))
  | None => dict_get "outputs" r' = dict_get "outputs" r
  end.
Proof.
  unfold merge_outputs. destruct (dict_get "outputs" d) as [more|]; [|by intros [= <-]]. intros He.
  apply bind_ok in He as (old & Ho & He). apply bind_ok in He as (new & Hn & He). injection He as <-.
  destruct (pd_get_or _ _ r) as [| | | | | | | | |o]; try done. injection Ho as ->. destruct more; try done. injection Hn as ->.
  split; [intros k Hk; by apply dict_get_set_ne|]. exists old, new. split; [done|]. split; [done|]. apply dict_get_set_eq.
Qed.

(** ** Reading *)

Lemma read_step_inv d s : read_step d = Ok s ->
  name_of d = PStr (name s) /\ as_str_list (pd_get_or "needs" (PList []) d) = Ok (needs s).
Proof.
  unfold read_step. intros He. do 8 (apply bind_ok in He as (? & ? & He)). injection He as <-. cbn. split; [|done].
  match goal with H : dict_item "name" d = Ok ?v |- _ =>
    unfold name_of, pd_get; unfold dict_item in H; destruct (dict_get "name" d) as [w|]; [|done]; injection H as -> end.
  match goal with H : as_str ?v = Ok _ |- _ => destruct v; try done; by injection H as -> end.
Qed.

Lemma mapM_forall2 {A B} (f : A -> res B) l k : mapM f l = Ok k -> Forall2 (fun x y => f x = Ok y) l k.
Proof.
  revert k. induction l as [|x l IH]; intros k; cbn [mapM]; [by intros [= <-]|]. intros He.
  apply bind_ok in He as (y & Hy & He). apply bind_ok in He as (k' & Hk & He). injection He as <-. constructor; auto.
Qed.

Lemma read_pipeline_steps r p l : read_pipeline r = Ok p -> steps_of r = Ok l ->
  Forall2 (fun d s => read_step d = Ok s) l (steps p).
Proof.
  unfold read_pipeline. intros He Hl. apply bind_ok in He as (? & _ & He). apply bind_ok in He as (l' & Hl' & He).
  apply bind_ok in He as (st & Hs & He). apply bind_ok in He as (? & _ & He). apply bind_ok in He as (? & _ & He).
  apply bind_ok in He as (? & _ & He). injection He as <-. cbn. apply mapM_forall2. rewrite <- Hs. f_equal.
  destruct (truthy (pd_get "steps" r)) eqn:Ht; [congruence|]. injection Hl' as <-.
  unfold steps_of, pd_get_or in Hl. unfold pd_get in Ht. destruct (dict_get "steps" r) as [v|]; cbn in *; [|by injection Hl as <-].
  destruct v as [| | | | | | | |[|]|]; try done. by injection Hl as <-.
Qed.

(** ** Steps that need nothing come first *)
Section Order.
Context `{SetOrder} {laws : SetOrderLaws}.

Lemma static_order_prefix g order : static_order g = inl order -> exists rest, order = initially_ready (sorter g) ++ rest.
Proof using Type.
  unfold static_order. destruct (find_cycle _); try done. intros [= <-]. cbn [rounds].
  destruct (initially_ready (sorter g)); [by exists []|]. destruct (fold_left _ _ _) as [t next]. by eexists.
Qed.

Lemma set_order_nil l : set_order l = [] <-> l = [].
Proof using laws.
  split; intros Hl.
  - destruct l as [|x l]; [done|]. exfalso. assert (x ∈ set_order (x :: l)) as Hx by (apply set_order_elem; by left).
    rewrite Hl in Hx. set_solver.
  - destruct (set_order l) as [|x k] eqn:Hk; [done|]. exfalso. subst l. assert (x ∈ set_order []) as Hx by (rewrite Hk; by left).
    rewrite set_order_elem in Hx. set_solver.
Qed.

Lemma resolve_dag_prefix l ordered : resolve_dag l = Ok ordered ->
  exists a b, ordered = a ++ b /\ Forall (fun s => needs s = []) a /\ Forall (fun s => needs s <> []) b.
Proof using laws.
  intros He. pose proof (resolve_dag_cases l) as Hc. rewrite He in Hc. destruct Hc as [[Hnd Hneeds _] [Hperm _]].
  unfold resolve_dag in He. pose proof (register_spec l []) as Hr. cbn [app] in Hr.
  change (@nil (string * step)) with (step_map_of []) in He. change (@nil (string * list string)) with (graph_of []) in He.
  destruct (register l _ _) as [[m g]|e]; cbn [mbind res_bind] in He; [|done]. destruct Hr as (-> & -> & _).
  apply bind_ok in He as (u & _ & He). destruct (static_order (graph_of l)) as [names|] eqn:Hso; [|done].
  assert (map name ordered = names) as Hm.
  { clear Hso Hperm. revert ordered He. induction names as [|n names IH]; intros o; cbn [mapM]; [by intros [= <-]|].
    intros He. apply bind_ok in He as (s & Hs & He). apply bind_ok in He as (o' & Ho & He). injection He as <-. cbn. f_equal; [|by apply IH].
    unfold dict_item in Hs. destruct (dict_get n _) as [s'|] eqn:Hg; [|done]. injection Hs as ->.
    apply dict_get_elem in Hg. unfold step_map_of in Hg. apply list_elem_of_fmap in Hg as (s' & [= -> ->] & _). done. }
  apply static_order_prefix in Hso as [rest Hrest]. set (ready := initially_ready _) in *.
  assert (table_of (graph_of l) (sorter (graph_of l))) as Ht.
  { apply sorter_table; [by rewrite keys_graph|]. apply Forall_forall. intros [n ps] (s & _ & _ & ->)%graph_elem. apply set_order_NoDup. }
  assert (forall s, s ∈ ordered -> (name s ∈ ready <-> needs s = [])) as Hready.
  { intros s Hs. rewrite Hperm in Hs. assert ((name s, set_order (needs s)) ∈ graph_of l) as Hg by (apply graph_elem; by exists s).
    pose proof (to_npred _ _ Ht _ _ Hg) as Hn. rewrite <- set_order_nil. unfold ready, initially_ready. split.
    - intros ([n i] & Hi & Hin)%list_elem_of_fmap. cbn in Hi. subst n. apply list_elem_of_filter in Hin as [Hz Hin].
      unfold npred, get_nodeinfo in Hn. rewrite (dict_elem_get _ _ _ (to_keys _ _ Ht) Hin) in Hn. cbn in *.
      rewrite Hz in Hn. destruct (set_order (needs s)); [done|cbn in Hn; lia].
    - intros Hz. rewrite Hz in Hn. assert (name s ∈ dict_keys (sorter (graph_of l))) as Hk.
      { apply (to_nodes _ _ Ht). left. by apply (list_elem_of_fmap_2 fst _ _ Hg). }
      unfold dict_keys in Hk. apply list_elem_of_fmap in Hk as ([n i] & Hi & Hin). cbn in Hi. subst n.
      apply list_elem_of_fmap. exists (name s, i). split; [done|]. apply list_elem_of_filter. split; [|done].
      unfold npred, get_nodeinfo in Hn. rewrite (dict_elem_get _ _ _ (to_keys _ _ Ht) Hin) in Hn. exact Hn. }
  exists (take (length ready) ordered), (drop (length ready) ordered). split; [by rewrite take_drop|].
  assert (NoDup (map name ordered)) as Hno by (by rewrite Hperm).
  assert (map name (take (length ready) ordered) = ready) as Hta by (by rewrite <- firstn_map, Hm, Hrest, take_app_length).
  split; apply Forall_forall; intros s Hs.
  - apply Hready; [by apply (subseteq_take (length ready))|]. rewrite <- Hta. by apply list_elem_of_fmap_2.
  - rewrite <- Hready by (by apply (subseteq_drop (length ready))).
    rewrite <- Hta. intros Hin. rewrite <- (take_drop (length ready) ordered), map_app in Hno.
    apply NoDup_app in Hno as (_ & Hd & _). apply (Hd _ Hin). by apply list_elem_of_fmap_2.
Qed.
End Order.

(** ** What a definition gets *)

Definition inserted_steps (d : pydict) : list pydict := listed (pd_get "insert_before" d) ++ listed (pd_get "insert_after" d).
Definition inherited_steps (d : pydict) (bs : list pydict) : list pydict :=
  List.filter (fun s => negb (removed (pd_get "remove" d) s)) bs.

Lemma resolve_cases templates d r n base bs : resolve templates d = Ok r -> pd_get "extends" d = PStr n -> n <> "" ->
  dict_get n templates = Some base -> steps_of base = Ok bs ->
  (exists placed l, steps_of r = Ok l /\ woven (inherited_steps d bs) (inserted_steps d) placed /\
     Forall2 (overridden (pd_get "overrides" d)) placed l) /\
  (forall k, k ∈ copied_fields -> dict_get k r = given_field d base k) /\
  match dict_get "outputs" d with
  | Some more => exists old new, pd_get_or "outputs" (PDict []) base = PDict old /\ more = PDict new /\
                   dict_get "outputs" r = Some (PDict (dict_update old new))
  | None => dict_get "outputs" r = dict_get "outputs" base
  end.
Proof.
  intros He Hx Hn Ht Hb. unfold resolve in He. rewrite Hx in He. cbn [truthy] in He.
  assert (str_truthy n = true) as Htr by (unfold str_truthy; by destruct (String.eqb_spec n "")). rewrite Htr in He. cbn [negb] in He.
  apply bind_ok in He as (n' & [= <-] & He). apply bind_ok in He as (b & Hl & He).
  unfold load_template in Hl. rewrite Ht in Hl. injection Hl as <-.
  apply bind_ok in He as (r1 & H1 & He). destruct (apply_removes_spec _ _ _ _ H1 Hb) as [S1 F1].
  apply bind_ok in He as (r2 & H2 & He). destruct (inserts_before_spec _ _ _ _ _ _ H2 S1 (woven_refl _)) as (l2 & S2 & W2 & F2).
  apply bind_ok in He as (r3 & H3 & He). destruct (inserts_after_spec _ _ _ _ _ _ H3 S2 W2) as (l3 & S3 & W3 & F3).
  apply bind_ok in He as (r4 & H4 & He). destruct (apply_overrides_spec _ _ _ _ H4 S3) as (l4 & S4 & O4 & F4).
  assert (same_fields base r4) as F by (intros k Hk; by rewrite F4, F3, F2, F1).
  destruct (copied_get d r4) as [C1 C2]. destruct (merge_outputs_spec _ _ _ He) as [M1 M2].
  assert (forall k, k ∈ copied_fields -> k <> "steps" /\ k <> "outputs") as Hc.
  { intros k. unfold copied_fields. rewrite !elem_of_cons. intros Hk; split; intros ->;
      (destruct Hk as [|[|[|[|Hk]]]]; [discriminate..|by inversion Hk]). }
  assert ("steps" ∉ copied_fields /\ "outputs" ∉ copied_fields) as [Cs Co] by (split; intros Hk; by destruct (Hc _ Hk)).
  split; [|split].
  - exists l3, l4. split; [|by split]. rewrite <- S4. apply steps_of_get. by rewrite M1, C2.
  - intros k Hk. rewrite M1, C1 by (done || by apply Hc). unfold given_field. destruct (dict_get k d); [done|]. by apply F, Hc.
  - rewrite (C2 _ Co) in M2. unfold pd_get_or in *. by rewrite (C2 _ Co), (F "outputs") in M2.
Qed.


Lemma overridden_none l l' : Forall2 (overridden PNone) l l' -> l = l'.
Proof. induction 1 as [|x y l l' Hxy _ ->]; [done|]. f_equal. by destruct Hxy as [|x y z (? & ? & ? & ? & _) _]. Qed.

Section Execution.
Context `{SetOrder} {laws : SetOrderLaws}.

(** A step that is removed from a template still counts as needed: when a step
    that stays needs it and nothing takes its name, the executor refuses the whole
    pipeline before any step runs. *)
Theorem removal_breaks templates d r p n base bs b gone l :
  resolve templates d = Ok r -> pd_get "extends" d = PStr n -> n <> "" -> dict_get n templates = Some base ->
  steps_of base = Ok bs -> pd_get "overrides" d = PNone -> read_pipeline r = Ok p ->
  b ∈ inherited_steps d bs -> as_str_list (pd_get_or "needs" (PList []) b) = Ok l -> gone ∈ l ->
  Forall (fun s => name_of s <> PStr gone) (inherited_steps d bs ++ inserted_steps d) ->
  exists msg, forall dispatch simple_eval now_iso getattr data ex pn log0,
    execute dispatch simple_eval now_iso getattr p data ex pn log0 = Err (PipelineDefinitionError msg).
Proof using laws.
  intros He Hx Hn Ht Hbs Ho Hr Hb Hl Hg Hnames.
  destruct (resolve_cases _ _ _ _ _ _ He Hx Hn Ht Hbs) as [(placed & l1 & Hl1 & [Hs Hp] & Hov) _].
  rewrite Ho in Hov. assert (placed = l1) as <-.
  { by apply overridden_none. }
  pose proof (read_pipeline_steps _ _ _ Hr Hl1) as Hread.
  assert (b ∈ placed) as Hbp by (rewrite Hp; apply elem_of_app; by left).
  apply list_elem_of_lookup in Hbp as [i Hi]. destruct (Forall2_lookup_l _ _ _ _ _ Hread Hi) as (s & Hs1 & Hs2).
  apply list_elem_of_lookup_2 in Hs1. apply read_step_inv in Hs2 as [_ Hneeds]. rewrite Hl in Hneeds. injection Hneeds as ->.
  assert (~ well_formed (steps p)) as Hwf.
  { intros [_ Hw _]. specialize (Hw s gone Hs1 Hg). apply list_elem_of_fmap in Hw as (s' & -> & Hs').
    apply list_elem_of_lookup in Hs' as [j Hj]. destruct (Forall2_lookup_r _ _ _ _ _ Hread Hj) as (d' & Hd' & Hd2).
    apply read_step_inv in Hd2 as [Hname _]. apply list_elem_of_lookup_2 in Hd'. rewrite Hp in Hd'.
    rewrite Forall_forall in Hnames. by apply (Hnames d'). }
  pose proof (resolve_dag_cases (steps p)) as Hc. destruct (resolve_dag (steps p)) as [o|e] eqn:Hd; [by destruct Hc|].
  destruct Hc as [[msg ->] _]. exists msg. intros. unfold execute. destruct (steps p) as [|s1 sp] eqn:Hsp; [by inversion Hs1|].
  by rewrite Hd.
Qed.

(** The place of an inserted step does not say when it runs: the executor runs
    all steps without [needs] before all steps with some, so a step inserted after
    another without needing it runs before every step that needs something. *)
Theorem inserted_runs_early templates d r p ordered s : resolve templates d = Ok r -> read_pipeline r = Ok p ->
  resolve_dag (steps p) = Ok ordered -> s ∈ steps p -> needs s = [] ->
  exists before after, ordered = before ++ after /\ s ∈ before /\ Forall (fun s => needs s = []) before /\
    (forall s', s' ∈ steps p -> needs s' <> [] -> s' ∈ after).
Proof using laws.
  intros _ _ Ho Hs Hn. pose proof (resolve_dag_cases (steps p)) as Hc. rewrite Ho in Hc. destruct Hc as [_ [Hperm _]].
  destruct (resolve_dag_prefix _ _ Ho) as (a & b & -> & Ha & Hb). rewrite Forall_forall in Ha, Hb.
  exists a, b. split; [done|]. rewrite <- Hperm in Hs. split.
  - apply elem_of_app in Hs as [Hs|Hs]; [done|]. by destruct (Hb _ Hs).
  - split; [by apply Forall_forall|]. intros s' Hs' Hn'. rewrite <- Hperm in Hs'. apply elem_of_app in Hs' as [Hs'|]; [|done].
    by destruct Hn'; apply Ha.
Qed.

(** A template that cannot be resolved passes for success: the reconciler runs
    the definition as it is, and when that has no steps of its own the run is
    completed at once, with no step run. *)
Theorem unresolved_completes templates pipelines pipeline_name d e p :
  pd_get pipeline_name pipelines = PDict d -> d <> [] -> resolve templates d = Err e -> truthy (pd_get "steps" d) = false ->
  read_pipeline d = Ok p ->
  get_pipeline_def templates (Some pipelines) pipeline_name = Ok (Some d) /\
  forall dispatch simple_eval now_iso getattr data ex pn log0, exists r x,
    execute dispatch simple_eval now_iso getattr p data ex pn log0 = Ok (r, x) /\
    status r = "completed" /\ steps_completed r = 0%nat /\ log x = log0.
Proof using Type.
  intros Hd Hne He Hs Hp. split.
  - unfold get_pipeline_def. rewrite Hd. destruct d as [|kv d]; [done|]. cbn [truthy negb as_dict mbind res_bind]. by rewrite He.
  - intros. assert (steps p = []) as Hnil.
    { unfold read_pipeline in Hp. apply bind_ok in Hp as (? & _ & Hp). rewrite Hs in Hp. cbn [mbind res_bind mapM] in Hp.
      repeat (apply bind_ok in Hp as (? & ? & Hp)). simplify_eq/=. unfold mret, res_ret in *. by simplify_eq. }
    unfold execute. rewrite Hnil. do 2 eexists. split; [reflexivity|]. by repeat split.
Qed.
End Execution.

(** ** The standard templates run in order *)
#[local] Instance template_set_order : SetOrder := remove_dups.
#[local] Instance template_set_order_laws : SetOrderLaws := insertion_order.

Definition order_of (d : pydict) : res (list string) :=
  r ← resolve _TEMPLATES d;
  p ← read_pipeline r;
  ordered ← resolve_dag (steps p);
  Ok (map name ordered).

Definition extension (template : string) (more : pydict) : pydict := ("extends", PStr template) :: more.

(** The order of the steps of each standard template. *)
Example standard_orders : map (fun n => order_of (extension n [])) (get_template_names _TEMPLATES) =
  [Ok ["lab_resolve"; "ports_alloc"; "tags_sync"; "lab_binding"; "lab_start"; "lds_provision"; "mark_ready"];
   Ok ["stop_lab"; "deregister_lds"; "wipe_lab"; "archive"];
   Ok ["capture_configs"; "capture_screenshots"; "export_pcaps"; "package_evidence"];
   Ok ["load_rubric"; "evaluate"; "record_score"]].
Proof. vm_compute. reflexivity. Qed.

(** An unknown template and its alternatives. *)
Example unknown_template : order_of (extension "standard" []) =
  Err (PipelineTemplateError "Unknown pipeline template: 'standard'. Available: standard-collect-evidence, standard-compute-grading, standard-instantiate, standard-teardown").
Proof. vm_compute. reflexivity. Qed.

(** ** Witnesses *)
Definition res_opt {A} (r : res A) : option A := match r with Ok x => Some x | Err _ => None end.

Definition plain_step (n : string) (more : pydict) : pyval := PDict (("name", PStr n) :: ("handler", PStr n) :: more).

Definition inserting : pydict := extension "standard-instantiate"
  [("max_retries", PInt 5);
   ("insert_after", PDict [("mark_ready", PList [plain_step "notify" []; plain_step "audit" []])]);
   ("remove", PList [PStr "tags_sync"]); ("overrides", PDict [("lab_start", PDict [("timeout_seconds", PInt 900)])]);
   ("outputs", PDict [("audited", PStr "$STEPS.audit.at")])].

Definition resolved_of (d : pydict) : pydict := default [] (res_opt (resolve _TEMPLATES d)).
Definition pipeline_of (d : pydict) : pipeline :=
  default {| description := ""; steps := []; outputs := []; max_retries := 0 |} (res_opt (read_pipeline d)).
Definition base_steps (d : pydict) : list pydict := default [] (res_opt (steps_of d)).


Definition shortened : pydict := extension "standard-instantiate" [("remove", PList [PStr "lds_provision"])].
Definition mark_ready_step : pydict := List.last (base_steps standard_instantiate) [].

Lemma removal_breaks_witness : exists msg, forall dispatch simple_eval now_iso getattr data ex pn log0,
  execute dispatch simple_eval now_iso getattr (pipeline_of (resolved_of shortened)) data ex pn log0
  = Err (PipelineDefinitionError msg).
Proof.
  apply (removal_breaks _TEMPLATES shortened (resolved_of shortened) (pipeline_of (resolved_of shortened))
    "standard-instantiate" standard_instantiate (base_steps standard_instantiate) mark_ready_step "lds_provision"
    ["lab_start"; "lds_provision"]); try (vm_compute; reflexivity).
  - discriminate.
  - apply (list_elem_of_lookup_2 _ 5). vm_compute. reflexivity.
  - apply (list_elem_of_lookup_2 _ 1). reflexivity.
  - vm_compute. repeat (constructor; [discriminate|]). constructor.
Defined.

Definition notify_step : step := default (Build_step "" false [] None None None None None)
  (List.find (fun s => String.eqb (name s) "notify") (steps (pipeline_of (resolved_of inserting)))).

Lemma inserted_runs_early_witness : exists ordered before after,
  resolve_dag (steps (pipeline_of (resolved_of (extension "standard-instantiate"
    [("insert_after", PDict [("mark_ready", PList [plain_step "notify" []; plain_step "audit" []])])])))) = Ok ordered /\
  map name ordered = ["lab_resolve"; "notify"; "audit"; "ports_alloc"; "tags_sync"; "lab_binding"; "lab_start"; "lds_provision"; "mark_ready"] /\
  ordered = before ++ after /\ notify_step ∈ before.
Proof.
  set (d := extension _ _).
  set (o := default [] (res_opt (resolve_dag (steps (pipeline_of (resolved_of d)))))).
  destruct (inserted_runs_early _TEMPLATES d (resolved_of d) (pipeline_of (resolved_of d)) o notify_step) as (b & a & He & Hb & _);
    try (vm_compute; reflexivity).
  - apply (list_elem_of_lookup_2 _ 7). vm_compute. reflexivity.
  - exists o, b, a. split; [vm_compute; reflexivity|]. split; [vm_compute; reflexivity|]. by split.
Defined.

Lemma unresolved_completes_witness :
  get_pipeline_def _TEMPLATES (Some [("instantiate", PDict (extension "standard" []))]) "instantiate"
  = Ok (Some (extension "standard" [])) /\
  forall dispatch simple_eval now_iso getattr data ex pn log0, exists r x,
    execute dispatch simple_eval now_iso getattr (pipeline_of (extension "standard" [])) data ex pn log0 = Ok (r, x) /\
    status r = "completed" /\ steps_completed r = 0%nat /\ log x = log0.
Proof.
  eapply (unresolved_completes _TEMPLATES [("instantiate", PDict (extension "standard" []))] "instantiate"
    (extension "standard" [])); [reflexivity|discriminate|vm_compute; reflexivity..].
Defined.
