(* ===== verification/Placement.v ===== *)
(** * The placement engine ([resource-scheduler/application/services/placement_engine.py])

    Filtering, scoring and selection of a worker for a session, the dry-run
    preview with its explanations, and the choice of a template to scale up with.
    Properties are in [PlacementProps].

    Workers and definitions arrive as JSON dicts.  The records below hold the
    keys the engine reads, at the types the control plane sends: an absent key or
    a null is [None] (or the empty list or dict, which the code treats alike), a
    present [id] or [name] is a string, capacity dicts hold integers. *)
From Stdlib Require Import Floats.SpecFloat.
From S2P Require Import Prelude PySort PyFloat PyData Enums.
Import WorkerStatus.

(** ** Inputs *)

(** Capacity dicts: [cpu_cores], [memory_gb], [storage_gb], [max_ports]. *)
Abbreviation capacity := (dict Z).

(** [d.get(k) or 0] and [d.get(k) or 1] *)
Definition cap0 (k : string) (d : capacity) : Z := dict_get_or k 0 d.
Definition cap_or (k : string) (default : Z) (d : capacity) : Z :=
  let v := dict_get_or k 0 d in if v =? 0 then default else v.

Record system_info := { cpu_count : option Z; memory_total : option Z; disk_total : option Z }.

Record worker := {
  w_id : option string;
  w_name : option string;
  w_status : option string;
  w_license_info : pydict;
  w_declared_capacity : capacity;
  w_system_info : system_info;
  w_allocated_capacity : capacity;
  w_session_ids : list string;
  w_node_definitions : list string;
  w_version : option string;
  w_port_allocations : list (dict Z)
}.

Record ami_requirement := {
  cml_version_min : option string;
  cml_version_max : option string;
  node_definitions_required : list string
}.

Record definition := {
  def_name : option string;
  license_affinity : list string;
  required_resources : capacity;
  ami_requirements : list ami_requirement;
  port_template : pydict
}.

(** One entry of the real-time capacities, a non-empty dict. *)
Record etcd_entry := {
  e_declared : capacity;
  e_allocated : capacity;
  e_available : capacity;
  e_session_count : option nat
}.

Abbreviation etcd_capacities := (dict etcd_entry).

(** ** Results *)
Record CandidateScore := {
  cs_worker_id : string;
  cs_worker_name : string;
  cs_score : float;
  cs_cpu_utilization : float;
  cs_memory_utilization : float;
  cs_session_count : nat;
  cs_locality_bonus : float
}.

Record WorkerRejection := {
  wr_worker_id : string;
  wr_worker_name : string;
  wr_reason_category : string;
  wr_reason_detail : string
}.

Record UtilizationForecast := {
  uf_worker_id : string;
  uf_worker_name : string;
  uf_cpu_before : float;
  uf_cpu_after : float;
  uf_memory_before : float;
  uf_memory_after : float;
  uf_storage_before : float;
  uf_storage_after : float;
  uf_sessions_before : nat;
  uf_sessions_after : nat
}.

Record SchedulingDecision := {
  sd_action : string;
  sd_worker_id : option string;
  sd_worker_template : option string;
  sd_reason : string;
  sd_rejection_summary : option (dict Z)
}.

Record PlacementPreviewResult := {
  pp_decision : SchedulingDecision;
  pp_candidates : list CandidateScore;
  pp_rejections : list WorkerRejection;
  pp_forecast : option UtilizationForecast;
  pp_total : nat;
  pp_definition_name : string
}.

(** ** Licenses *)

Definition EXCLUDED_STATUSES : list CMLWorkerStatus :=
  [DRAINING; STOPPING; STOPPED; SHUTTING_DOWN; TERMINATING; TERMINATED; FAILED].

Definition LICENSE_SATISFIES : dict (list string) :=
  [("enterprise", ["enterprise"; "personal"]); ("personal", ["personal"]); ("evaluation", ["evaluation"])].

Definition worker_license_satisfies (worker_license_type required_type : string) : bool :=
  bool_decide (py_lower required_type ∈ dict_get_or worker_license_type [] LICENSE_SATISFIES).

(** [s.lower().replace("cml_", "")] *)
Definition license_edition (s : string) : string := py_replace "cml_" "" (py_lower s).

Definition get_worker_license_type (w : worker) : string :=
  let license_info := w_license_info w in
  let flag := match pd_get "is_enterprise" license_info with
              | PBool true => "enterprise" | PBool false => "personal" | _ => "" end in
  let from_active :=
    match pd_get "product_license" license_info with
    | PDict product_license =>
        match pd_get "active" product_license with
        | PStr active => if str_truthy active then license_edition active else flag
        | _ => flag
        end
    | _ => flag
    end in
  match pd_get "product" license_info with
  | PStr product => if str_truthy product then license_edition product else from_active
  | _ => from_active
  end.

Definition check_license_affinity (w : worker) (d : definition) : bool :=
  match license_affinity d with
  | [] => true
  | affinity => existsb (worker_license_satisfies (get_worker_license_type w)) affinity
  end.

(** ** Capacity *)

(** [int(bytes / 1024**3)]: exact for sizes below 2^53 bytes. *)
Definition gib (bytes : Z) : Z := Z.quot bytes (2 ^ 30).

Definition get_effective_declared_capacity (w : worker) : capacity :=
  match w_declared_capacity w with
  | [] =>
      match cpu_count (w_system_info w), memory_total (w_system_info w), disk_total (w_system_info w) with
      | Some c, Some m, Some s =>
          if negb (c =? 0) && negb (m =? 0) && negb (s =? 0)
          then [("cpu_cores", c); ("memory_gb", gib m); ("storage_gb", gib s)] else []
      | _, _, _ => []
      end
  | declared => declared
  end.

(** [worker.get("id", default)] and [worker.get("name", worker_id)] *)
Definition id_or (default_ : string) (w : worker) : string := default default_ (w_id w).
Definition name_or (worker_id : string) (w : worker) : string := default worker_id (w_name w).

(** The session count: etcd's when it has one, else the assigned sessions. *)
Definition session_count (w : worker) (etcd_data : option etcd_entry) : nat :=
  match etcd_data with
  | Some e => match e_session_count e with Some n => n | None => length (w_session_ids w) end
  | None => length (w_session_ids w)
  end.

(** Available cpu, memory and storage. *)
Definition available_capacity (w : worker) (etcd_data : option etcd_entry) : Z * Z * Z :=
  match etcd_data with
  | Some {| e_available := (_ :: _) as available |} =>
      (cap0 "cpu_cores" available, cap0 "memory_gb" available, cap0 "storage_gb" available)
  | _ =>
      let declared := get_effective_declared_capacity w in
      let allocated := w_allocated_capacity w in
      (cap0 "cpu_cores" declared - cap0 "cpu_cores" allocated,
       cap0 "memory_gb" declared - cap0 "memory_gb" allocated,
       cap0 "storage_gb" declared - cap0 "storage_gb" allocated)
  end.

Definition check_resource_capacity (w : worker) (d : definition) (etcd : etcd_capacities) : bool :=
  let required_cpu := cap0 "cpu_cores" (required_resources d) in
  let required_memory := cap0 "memory_gb" (required_resources d) in
  let required_storage := cap0 "storage_gb" (required_resources d) in
  let etcd_data := dict_get (id_or "unknown" w) etcd in
  let '(available_cpu, available_memory, available_storage) := available_capacity w etcd_data in
  if String.eqb (get_worker_license_type w) "personal" && (1 <=? session_count w etcd_data)%nat then false
  else if available_cpu <? required_cpu then false
  else if available_memory <? required_memory then false
  else if available_storage <? required_storage then false
  else true.

Definition describe_capacity_rejection (w : worker) (d : definition) (etcd : etcd_capacities) : string :=
  let required_cpu := cap0 "cpu_cores" (required_resources d) in
  let required_memory := cap0 "memory_gb" (required_resources d) in
  let required_storage := cap0 "storage_gb" (required_resources d) in
  let etcd_data := dict_get (id_or "unknown" w) etcd in
  let n := session_count w etcd_data in
  if String.eqb (get_worker_license_type w) "personal" && (1 <=? n)%nat then
    "Personal license limited to 1 session (current: " +:+ pretty (Z.of_nat n) +:+ ")"
  else
    let '(avail_cpu, avail_mem, avail_stor) := available_capacity w etcd_data in
    let shortfalls :=
      (if avail_cpu <? required_cpu
       then ["CPU: need " +:+ pretty required_cpu +:+ ", have " +:+ pretty avail_cpu] else [])
      ++ (if avail_mem <? required_memory
          then ["Memory: need " +:+ pretty required_memory +:+ "GB, have " +:+ pretty avail_mem +:+ "GB"] else [])
      ++ (if avail_stor <? required_storage
          then ["Storage: need " +:+ pretty required_storage +:+ "GB, have " +:+ pretty avail_stor +:+ "GB"] else []) in
    match shortfalls with
    | [] => "Insufficient capacity"
    | _ => "Insufficient resources — " +:+ py_join "; " shortfalls
    end.

(** ** AMI and ports *)

Fixpoint check_ami_list (worker_version : string) (worker_nodes : list string) (l : list ami_requirement) : bool :=
  match l with
  | [] => true
  | r :: l =>
      let too_old := match cml_version_min r with
                     | Some v => str_truthy v && str_truthy worker_version && str_ltb worker_version v
                     | None => false end in
      let too_new := match cml_version_max r with
                     | Some v => str_truthy v && str_truthy worker_version && str_ltb v worker_version
                     | None => false end in
      if too_old then false
      else if too_new then false
      else if negb (forallb (fun n => bool_decide (n ∈ worker_nodes)) (node_definitions_required r)) then false
      else check_ami_list worker_version worker_nodes l
  end.

Definition check_ami_requirements (w : worker) (d : definition) : bool :=
  check_ami_list (ostr_or (w_version w) "") (w_node_definitions w) (ami_requirements d).

(** [len(port_template.get("port_entries") or [])] *)
Definition required_port_count (d : definition) : nat :=
  match pd_get "port_entries" (port_template d) with
  | PList l => length l
  | PDict l => length l
  | PStr s => String.length s
  | _ => 0
  end.

Definition check_port_availability (w : worker) (d : definition) : bool :=
  let required_ports := required_port_count d in
  if (required_ports =? 0)%nat then true else
  let max_ports := cap_or "max_ports" 1000 (get_effective_declared_capacity w) in
  let used_ports := Z.of_nat (fold_left (fun n alloc => (n + length alloc)%nat) (w_port_allocations w) 0%nat) in
  Z.of_nat required_ports <=? max_ports - used_ports.

(** ** Filtering *)

(** [rejections[k] = rejections.get(k, 0) + 1] *)
Definition count_rejection (k : string) (rejections : dict Z) : dict Z :=
  dict_set k (dict_get_or k 0 rejections + 1) rejections.

Definition raw_status (w : worker) : string := py_strip (ostr_or (w_status w) "").

(** The checks of one iteration of [_filter_eligible_workers]: the category of
    the rejection, or [None] for an eligible worker. *)
Definition reject_category (d : definition) (etcd : etcd_capacities) (w : worker) : option string :=
  match enum_call (raw_status w) with
  | Err _ => Some "status"
  | Ok worker_status =>
      if bool_decide (worker_status ∈ EXCLUDED_STATUSES) then Some "status"
      else if bool_decide (worker_status <> RUNNING) then Some "status"
      else if negb (check_license_affinity w d) then Some "license"
      else if negb (check_resource_capacity w d etcd) then Some "capacity"
      else if negb (check_ami_requirements w d) then Some "ami"
      else if negb (check_port_availability w d) then Some "ports"
      else None
  end.

Definition filter_eligible_workers (workers : list worker) (d : definition) (etcd : etcd_capacities)
    : list worker * dict Z :=
  fold_left (fun '(eligible, rejections) w =>
      match reject_category d etcd w with
      | Some k => (eligible, count_rejection k rejections)
      | None => (eligible ++ [w], rejections)
      end) workers ([], []).

(** One iteration of [_filter_eligible_workers_detailed]: category and detail. *)
Definition reject_detail (d : definition) (etcd : etcd_capacities) (w : worker) : option (string * string) :=
  match enum_call (raw_status w) with
  | Err _ => Some ("status", "Unknown status: " +:+ raw_status w)
  | Ok worker_status =>
      if bool_decide (worker_status ∈ EXCLUDED_STATUSES)
      then Some ("status", "Excluded status: " +:+ CMLWorkerStatus_value worker_status)
      else if bool_decide (worker_status <> RUNNING)
      then Some ("status", "Not running (current: " +:+ CMLWorkerStatus_value worker_status +:+ ")")
      else if negb (check_license_affinity w d)
      then Some ("license", "License mismatch: worker has '" +:+ get_worker_license_type w
                            +:+ "', definition requires " +:+ repr_list (license_affinity d))
      else if negb (check_resource_capacity w d etcd)
      then Some ("capacity", describe_capacity_rejection w d etcd)
      else if negb (check_ami_requirements w d)
      then Some ("ami", "AMI/CML version or node definitions not met")
      else if negb (check_port_availability w d)
      then Some ("ports", "Insufficient available ports")
      else None
  end.

Definition filter_eligible_workers_detailed (workers : list worker) (d : definition) (etcd : etcd_capacities)
    : list worker * dict Z * list WorkerRejection :=
  fold_left (fun '(eligible, rejections, worker_rejections) w =>
      match reject_detail d etcd w with
      | Some (k, detail) =>
          let worker_id := id_or "unknown" w in
          (eligible, count_rejection k rejections,
           worker_rejections ++ [{| wr_worker_id := worker_id; wr_worker_name := name_or worker_id w;
                                    wr_reason_category := k; wr_reason_detail := detail |}])
      | None => (eligible ++ [w], rejections, worker_rejections)
      end) workers ([], [], []).

(** ** Scoring *)

(** Declared and allocated capacity, from etcd when it has an entry. *)
Definition scoring_capacity (w : worker) (etcd_data : option etcd_entry) : capacity * capacity :=
  match etcd_data with
  | Some e => (match e_declared e with [] => get_effective_declared_capacity w | c => c end, e_allocated e)
  | None => (get_effective_declared_capacity w, w_allocated_capacity w)
  end.

(** [allocated / declared if declared > 0 else 0.0] for one resource. *)
Definition utilization (k : string) (declared allocated : capacity) : res float :=
  let declared_k := cap_or k 1 declared in
  if 0 <? declared_k then int_truediv (cap0 k allocated) declared_k else Ok fzero.

(** [min(0.05, session_count * 0.01)] *)
Definition locality_bonus (n : nat) : res float :=
  f ← float_of_int (Z.of_nat n); Ok (fmin f_0_05 (fmul f f_0_01)).

(** The float 2.0 the sum is divided by, and the float 100.0. *)
Definition f_2 : float := S754_finite false 4503599627370496 (-51).
Definition f_100 : float := S754_finite false 7036874417766400 (-46).

Definition score_worker (etcd : etcd_capacities) (w : worker) : res float :=
  let etcd_data := dict_get (id_or "" w) etcd in
  let '(declared, allocated) := scoring_capacity w etcd_data in
  cpu_utilization ← utilization "cpu_cores" declared allocated;
  memory_utilization ← utilization "memory_gb" declared allocated;
  bonus ← locality_bonus (session_count w etcd_data);
  Ok (fadd (fdiv (fadd cpu_utilization memory_utilization) f_2) bonus).

Definition score_candidates (candidates : list worker) (etcd : etcd_capacities) : res (list (worker * float)) :=
  mapM (fun w => score ← score_worker etcd w; Ok (w, score)) candidates.

(** [max(scored, key=lambda x: x[1])]: the first of the greatest. *)
Definition max_scored (x : worker * float) (l : list (worker * float)) : worker * float :=
  fold_left (fun best y => if fltb best.2 y.2 then y else best) l x.

(** ** Scale-up *)
Definition select_template (d : definition) : string :=
  match license_affinity d with
  | [l] => if String.eqb (py_lower l) "personal" then "single-session" else "multi-sessions"
  | _ => "multi-sessions"
  end.

Definition scale_up (d : definition) (reason : string) (summary : option (dict Z)) : SchedulingDecision :=
  {| sd_action := "scale_up"; sd_worker_id := None; sd_worker_template := Some (select_template d);
     sd_reason := reason; sd_rejection_summary := summary |}.

(** The reason given when no worker is eligible. *)
Definition no_candidate_reason (rejections : dict Z) : string :=
  let capacity := dict_get_or "capacity" 0 rejections in
  if (0 <? capacity) && (capacity =? fold_left Z.add (dict_values rejections) 0 - dict_get_or "status" 0 rejections)
  then "All running workers at capacity (" +:+ pretty capacity +:+ " rejected for capacity)"
  else "No worker meets requirements (rejections: "
         +:+ py_join ", " (map (fun '(k, v) => k +:+ "=" +:+ pretty v) (sort_by str_ltb fst rejections)) +:+ ")".

Definition assign (best : worker * float) : SchedulingDecision :=
  let worker_id := id_or "" best.1 in
  {| sd_action := "assign"; sd_worker_id := Some worker_id; sd_worker_template := None;
     sd_reason := "Best fit: " +:+ name_or worker_id best.1 +:+ " (utilization score: " +:+ fmt2 best.2 +:+ ")";
     sd_rejection_summary := None |}.

Definition schedule (d : definition) (workers : list worker) (etcd : etcd_capacities) : res SchedulingDecision :=
  match workers with
  | [] => Ok (scale_up d "No active workers available" None)
  | _ =>
      let '(candidates, rejections) := filter_eligible_workers workers d etcd in
      match candidates with
      | [] => Ok (scale_up d (no_candidate_reason rejections) (Some rejections))
      | _ =>
          scored ← score_candidates candidates etcd;
          match scored with
          | x :: rest => Ok (assign (max_scored x rest))
          | [] => Err (ValueError "max() arg is an empty sequence")
          end
      end
  end.

(** ** The preview *)

Definition build_candidate_score (etcd : etcd_capacities) (p : worker * float) : res CandidateScore :=
  let '(w, score) := p in
  let worker_id := id_or "" w in
  let etcd_data := dict_get worker_id etcd in
  let '(declared, allocated) := scoring_capacity w etcd_data in
  cpu_util ← utilization "cpu_cores" declared allocated;
  mem_util ← utilization "memory_gb" declared allocated;
  bonus ← locality_bonus (session_count w etcd_data);
  Ok {| cs_worker_id := worker_id; cs_worker_name := name_or worker_id w; cs_score := fround 4 score;
        cs_cpu_utilization := fround 4 cpu_util; cs_memory_utilization := fround 4 mem_util;
        cs_session_count := session_count w etcd_data; cs_locality_bonus := fround 4 bonus |}.

Definition build_candidate_scores (scored : list (worker * float)) (etcd : etcd_capacities) : res (list CandidateScore) :=
  mapM (build_candidate_score etcd) scored.

(** [round((allocated + extra) / declared * 100, 1)] for one resource. *)
Definition percent (k : string) (declared allocated : capacity) (extra : Z) : res float :=
  let declared_k := cap_or k 1 declared in
  if 0 <? declared_k then r ← int_truediv (cap0 k allocated + extra) declared_k; Ok (fround 1 (fmul r f_100))
  else Ok fzero.

Definition build_utilization_forecast (w : worker) (d : definition) (etcd : etcd_capacities) : res UtilizationForecast :=
  let worker_id := id_or "" w in
  let requirements := required_resources d in
  let etcd_data := dict_get worker_id etcd in
  let '(declared, allocated) := scoring_capacity w etcd_data in
  cpu_before ← percent "cpu_cores" declared allocated 0;
  cpu_after ← percent "cpu_cores" declared allocated (cap0 "cpu_cores" requirements);
  mem_before ← percent "memory_gb" declared allocated 0;
  mem_after ← percent "memory_gb" declared allocated (cap0 "memory_gb" requirements);
  stor_before ← percent "storage_gb" declared allocated 0;
  stor_after ← percent "storage_gb" declared allocated (cap0 "storage_gb" requirements);
  let n := session_count w etcd_data in
  Ok {| uf_worker_id := worker_id; uf_worker_name := name_or worker_id w;
        uf_cpu_before := cpu_before; uf_cpu_after := cpu_after;
        uf_memory_before := mem_before; uf_memory_after := mem_after;
        uf_storage_before := stor_before; uf_storage_after := stor_after;
        uf_sessions_before := n; uf_sessions_after := n + 1 |}.

Definition schedule_preview (d : definition) (workers : list worker) (etcd : etcd_capacities) : res PlacementPreviewResult :=
  let definition_name := default "unknown" (def_name d) in
  let result decision candidates rejections forecast :=
    {| pp_decision := decision; pp_candidates := candidates; pp_rejections := rejections;
       pp_forecast := forecast; pp_total := length workers; pp_definition_name := definition_name |} in
  match workers with
  | [] => Ok (result (scale_up d "No active workers available" None) [] [] None)
  | _ =>
      let '(candidates, rejection_summary, worker_rejections) := filter_eligible_workers_detailed workers d etcd in
      match candidates with
      | [] => Ok (result (scale_up d (no_candidate_reason rejection_summary) (Some rejection_summary))
                    [] worker_rejections None)
      | _ =>
          scored ← score_candidates candidates etcd;
          candidate_scores ← build_candidate_scores scored etcd;
          match scored with
          | x :: rest =>
              let best := max_scored x rest in
              forecast ← build_utilization_forecast best.1 d etcd;
              Ok (result (assign best) (sort_by (fun a b => fltb b a) cs_score candidate_scores)
                    worker_rejections (Some forecast))
          | [] => Err (ValueError "max() arg is an empty sequence")
          end
      end
  end.
