(* ===== verification/PlacementProps.v ===== *)
(** * Properties of the placement engine

    The plain and the detailed filter agree and account for every worker; the
    worker assigned is eligible and the first of greatest score; the preview takes
    the decision of [schedule]; license tiers; two checks that do not do what
    they are for. *)
From Stdlib Require Import Floats.SpecFloat.
From S2P Require Import Prelude PySort PyFloat PyData Enums LabValues Ports Placement.
Import WorkerStatus.

(** ** The filters *)

Section Filters.
Context (d : definition) (etcd : etcd_capacities).

(** The workers that pass every check, and the categories of the others. *)
Definition eligible (w : worker) : bool :=
  match reject_category d etcd w with None => true | Some _ => false end.
Definition categories (ws : list worker) : list string := omap (reject_category d etcd) ws.
Definition tally (ks : list string) : dict Z := fold_left (fun c k => count_rejection k c) ks [].

Lemma tally_snoc ks k : tally (ks ++ [k]) = count_rejection k (tally ks).
Proof. unfold tally. by rewrite fold_left_app. Qed.

Lemma tally_get ks k : dict_get_or k 0 (tally ks) = Z.of_nat (length (filter (.= k) ks)).
Proof.
  induction ks as [|k' ks IH] using rev_ind; [done|].
  rewrite tally_snoc, filter_app, length_app. unfold count_rejection, dict_get_or in *.
  rewrite dict_get_set, filter_cons, filter_nil. destruct (String.eqb_spec k k') as [->|Hne].
  - rewrite decide_True by done. cbn -[Z.of_nat]. rewrite IH. lia.
  - rewrite decide_False by congruence. rewrite IH. cbn. lia.
Qed.

Lemma categories_snoc ws w :
  categories (ws ++ [w]) = categories ws ++ match reject_category d etcd w with Some k => [k] | None => [] end.
Proof. unfold categories. rewrite omap_app. cbn. by destruct (reject_category d etcd w). Qed.

Lemma eligible_snoc ws w :
  base.filter eligible (ws ++ [w]) =
  base.filter eligible ws ++ match reject_category d etcd w with Some _ => [] | None => [w] end.
Proof.
  rewrite filter_app, filter_cons, filter_nil. f_equal. unfold eligible.
  by destruct (reject_category d etcd w).
Qed.

Lemma filter_eligible_workers_eq ws :
  filter_eligible_workers ws d etcd = (base.filter eligible ws, tally (categories ws)).
Proof.
  unfold filter_eligible_workers. induction ws as [|w ws IH] using rev_ind; [done|].
  rewrite fold_left_app, IH, eligible_snoc, categories_snoc. cbn.
  destruct (reject_category d etcd w); by rewrite ?tally_snoc, app_nil_r.
Qed.

(** The detailed checks reject for the category the plain ones give. *)
Lemma reject_detail_category w : fst <$> reject_detail d etcd w = reject_category d etcd w.
Proof.
  unfold reject_detail, reject_category. destruct (enum_call (raw_status w)); [|done].
  repeat (case_match; try done).
Qed.

Definition rejection (w : worker) : option WorkerRejection :=
  (fun '(k, detail) => {| wr_worker_id := id_or "unknown" w; wr_worker_name := name_or (id_or "unknown" w) w;
                          wr_reason_category := k; wr_reason_detail := detail |}) <$> reject_detail d etcd w.

Lemma rejection_category w : wr_reason_category <$> rejection w = reject_category d etcd w.
Proof. rewrite <- reject_detail_category. unfold rejection. by destruct (reject_detail d etcd w) as [[]|]. Qed.

Lemma filter_detailed_eq ws :
  filter_eligible_workers_detailed ws d etcd = (base.filter eligible ws, tally (categories ws), omap rejection ws).
Proof.
  unfold filter_eligible_workers_detailed. induction ws as [|w ws IH] using rev_ind; [done|].
  rewrite fold_left_app, IH, eligible_snoc, categories_snoc, omap_app, <- reject_detail_category. cbn.
  change (rejection w) with ((fun x => x) (rejection w)). unfold rejection at 4. cbn.
  by destruct (reject_detail d etcd w) as [[k det]|]; cbn; rewrite ?tally_snoc, ?app_nil_r.
Qed.

Lemma rejections_categories ws : map wr_reason_category (omap rejection ws) = categories ws.
Proof.
  unfold categories. induction ws as [|w ws IH]; cbn; [done|]. rewrite <- rejection_category.
  destruct (rejection w); cbn; by rewrite IH.
Qed.

Lemma eligible_rejected_length ws : (length (base.filter eligible ws) + length (categories ws) = length ws)%nat.
Proof.
  induction ws as [|w ws IH] using rev_ind; [done|]. rewrite eligible_snoc, categories_snoc, !length_app.
  destruct (reject_category d etcd w); cbn; lia.
Qed.
End Filters.

(** ** Scores *)

Lemma utilization_finite k declared allocated f : utilization k declared allocated = Ok f -> is_finite f.
Proof.
  unfold utilization. destruct (Z.ltb_spec 0 (cap_or k 1 declared)) as [H|]; [|by intros [= <-]].
  by apply int_truediv_finite.
Qed.

(** A float that is not negative: neither a NaN nor of negative sign. *)
Definition unsigned (f : float) : Prop :=
  match f with S754_zero s | S754_infinity s | S754_finite s _ _ => s = false | S754_nan => False end.

Lemma float_of_nat_unsigned n f : float_of_int (Z.of_nat n) = Ok f -> is_finite f /\ unsigned f.
Proof.
  unfold float_of_int, binary_normalize. destruct (Z.of_nat n) as [|p|p] eqn:E; [by intros [= <-]| |lia].
  unfold binary_round. destruct (shl_align _ _ _) as [mz ez].
  pose proof (binary_round_aux_number false (Z.pos mz) ez loc_Exact ltac:(lia)) as Hn.
  destruct (binary_round_aux _ _ _ _ _ _); try done; intros [= <-]; done.
Qed.

Lemma locality_bonus_finite n f : locality_bonus n = Ok f -> is_finite f.
Proof.
  unfold locality_bonus, fmin. destruct (float_of_int (Z.of_nat n)) as [x|] eqn:E; cbn; [|done].
  apply float_of_nat_unsigned in E as [Hf Hu]. destruct x as [[]| | |[] m e]; try done.
  - by intros [= <-].
  - unfold fmul, SFmul, f_0_01. cbn [xorb].
    pose proof (binary_round_aux_number false (Z.pos (m * 5764607523034235)) (e + -59) loc_Exact ltac:(lia)) as Hn.
    destruct (binary_round_aux _ _ _ _ _ _) as [|[]| |]; try done; intros [= <-]; [done|done|].
    by destruct (fltb _ _).
Qed.

(** A score is a number: the comparisons of [max] are those of an order. *)
Lemma score_number etcd w s : score_worker etcd w = Ok s -> not_nan s.
Proof.
  unfold score_worker. destruct (scoring_capacity w _) as [declared allocated]. intros H. inv_ok.
  apply fadd_finite_number; [|by eapply locality_bonus_finite].
  apply fdiv_number, fadd_number; by eapply utilization_finite.
Qed.

Lemma score_candidates_ok etcd ws scored : score_candidates ws etcd = Ok scored ->
  map fst scored = ws /\ Forall (fun p => score_worker etcd p.1 = Ok p.2) scored.
Proof.
  unfold score_candidates. revert scored. induction ws as [|w ws IH]; intros scored; cbn [mapM].
  - intros [= <-]. by split.
  - intros H. inv_ok. destruct (IH _ ltac:(eassumption)) as [<- HF]. by split; [|constructor].
Qed.

Lemma score_candidates_fails etcd ws e : score_candidates ws etcd = Err e ->
  exists w, w ∈ ws /\ score_worker etcd w = Err e.
Proof.
  unfold score_candidates. induction ws as [|w ws IH]; cbn [mapM]; [done|].
  destruct (score_worker etcd w) eqn:E; cbn; [|intros [= ->]; exists w; split; [set_solver|done]].
  match goal with |- context [mapM ?f ws] => destruct (mapM f ws) end; cbn; [done|].
  intros [= ->]. destruct IH as (w' & ? & ?); [done|]. exists w'. split; [set_solver|done].
Qed.

(** [max] gives the first of the greatest. *)
Lemma max_scored_spec x l : Forall (fun p => not_nan p.2) (x :: l) ->
  exists l1 l2, x :: l = l1 ++ max_scored x l :: l2 /\
    Forall (fun p => fltb p.2 (max_scored x l).2 = true) l1 /\
    Forall (fun p => fltb (max_scored x l).2 p.2 = false) l2.
Proof.
  unfold max_scored. induction l as [|y l IH] using rev_ind; intros Hn.
  - exists [], []. by repeat split.
  - change (x :: l ++ [y]) with ((x :: l) ++ [y]) in *. apply Forall_app in Hn as [Hn Hy].
    rewrite Forall_singleton in Hy. destruct (IH Hn) as (l1 & l2 & E & H1 & H2). rewrite fold_left_app. cbn [fold_left].
    set (b := fold_left _ l x) in *. assert (not_nan b.2) as Hb.
    { rewrite E in Hn. by apply Forall_app in Hn as [_ [? _]%Forall_cons]. }
    rewrite E in Hn |- *. destruct (fltb b.2 y.2) eqn:Eb.
    + exists (l1 ++ b :: l2), []. split; [done|]. split; [|done].
      assert (forall p : worker * float, not_nan p.2 -> fltb b.2 p.2 = false -> fltb p.2 y.2 = true) as Hlt.
      { intros p Hp Hbp. destruct (fltb p.2 y.2) eqn:E'; [done|].
        by rewrite (fltb_not_less_trans _ _ _ Hb Hp Hy Hbp E') in Eb. }
      apply Forall_app in Hn as [Hn1 [_ Hn2]%Forall_cons]. apply Forall_app. split; [|constructor; [done|]].
      * rewrite Forall_forall in *. intros p Hp. apply Hlt; [by apply Hn1|]. apply fltb_asym; auto.
      * rewrite Forall_forall in *. intros p Hp. apply Hlt; auto.
    + exists l1, (l2 ++ [y]). rewrite <- app_assoc. split; [done|]. split; [done|].
      apply Forall_app. by split; [|constructor].
Qed.

(** ** Eligibility *)

(** One AMI requirement, on a worker of the given version and node definitions. *)
Definition ami_met (version : string) (nodes : list string) (r : ami_requirement) : Prop :=
  (forall v, cml_version_min r = Some v -> v <> "" -> version <> "" -> str_ltb version v = false) /\
  (forall v, cml_version_max r = Some v -> v <> "" -> version <> "" -> str_ltb v version = false) /\
  (forall n, n ∈ node_definitions_required r -> n ∈ nodes).

Definition used_ports (w : worker) : nat := sum_list_with length (w_port_allocations w).

(** What a worker must satisfy to host a definition. *)
Record fits (d : definition) (etcd : etcd_capacities) (w : worker) : Prop := {
  fits_running : enum_call (raw_status w) = Ok RUNNING;
  fits_license : license_affinity d = [] \/
    exists t, t ∈ license_affinity d /\ worker_license_satisfies (get_worker_license_type w) t = true;
  fits_single : get_worker_license_type w = "personal" -> session_count w (dict_get (id_or "unknown" w) etcd) = 0%nat;
  fits_capacity : forall cpu mem stor,
    available_capacity w (dict_get (id_or "unknown" w) etcd) = (cpu, mem, stor) ->
    cap0 "cpu_cores" (required_resources d) <= cpu /\ cap0 "memory_gb" (required_resources d) <= mem /\
    cap0 "storage_gb" (required_resources d) <= stor;
  fits_ami : Forall (ami_met (ostr_or (w_version w) "") (w_node_definitions w)) (ami_requirements d);
  fits_ports : required_port_count d = 0%nat \/
    Z.of_nat (required_port_count d) + Z.of_nat (used_ports w)
      <= cap_or "max_ports" 1000 (get_effective_declared_capacity w)
}.

Lemma check_license_affinity_true w d : check_license_affinity w d = true <->
  license_affinity d = [] \/
  exists t, t ∈ license_affinity d /\ worker_license_satisfies (get_worker_license_type w) t = true.
Proof.
  unfold check_license_affinity. destruct (license_affinity d) as [|t l]; [naive_solver|].
  rewrite existsb_exists. setoid_rewrite list_elem_of_In. naive_solver.
Qed.

Lemma check_resource_capacity_true w d etcd : check_resource_capacity w d etcd = true <->
  (get_worker_license_type w = "personal" -> session_count w (dict_get (id_or "unknown" w) etcd) = 0%nat) /\
  forall cpu mem stor, available_capacity w (dict_get (id_or "unknown" w) etcd) = (cpu, mem, stor) ->
    cap0 "cpu_cores" (required_resources d) <= cpu /\ cap0 "memory_gb" (required_resources d) <= mem /\
    cap0 "storage_gb" (required_resources d) <= stor.
Proof.
  unfold check_resource_capacity. destruct (available_capacity w _) as [[cpu mem] stor].
  set (n := session_count _ _). destruct (String.eqb_spec (get_worker_license_type w) "personal");
    destruct (Nat.leb_spec 1 n); cbn [andb];
    [split; [done|intros [Hs _]; specialize (Hs e); lia]| | |];
    (destruct (Z.ltb_spec cpu (cap0 "cpu_cores" (required_resources d)));
       [split; [done|intros [_ H']; specialize (H' _ _ _ eq_refl); lia]|];
     destruct (Z.ltb_spec mem (cap0 "memory_gb" (required_resources d)));
       [split; [done|intros [_ H']; specialize (H' _ _ _ eq_refl); lia]|];
     destruct (Z.ltb_spec stor (cap0 "storage_gb" (required_resources d)));
       [split; [done|intros [_ H']; specialize (H' _ _ _ eq_refl); lia]|];
     split; [intros _; split; [intros; lia || done|intros ? ? ? [= <- <- <-]; lia]|done]).
Qed.

Lemma too_old_false version v : 
  match v with Some v => str_truthy v && str_truthy version && str_ltb version v | None => false end = false <->
  forall m, v = Some m -> m <> "" -> version <> "" -> str_ltb version m = false.
Proof.
  destruct v as [v|]; [|naive_solver]. unfold str_truthy.
  destruct (String.eqb_spec v ""), (String.eqb_spec version ""); naive_solver.
Qed.

Lemma too_new_false version v : 
  match v with Some v => str_truthy v && str_truthy version && str_ltb v version | None => false end = false <->
  forall m, v = Some m -> m <> "" -> version <> "" -> str_ltb m version = false.
Proof.
  destruct v as [v|]; [|naive_solver]. unfold str_truthy.
  destruct (String.eqb_spec v ""), (String.eqb_spec version ""); naive_solver.
Qed.

Lemma check_ami_list_true version nodes l : check_ami_list version nodes l = true <-> Forall (ami_met version nodes) l.
Proof.
  induction l as [|r l IH]; cbn [check_ami_list]; [by split|]. rewrite Forall_cons, <- IH. unfold ami_met at 1.
  rewrite <- too_old_false, <- too_new_false.
  destruct (match cml_version_min r with Some _ => _ | None => false end); [naive_solver|].
  destruct (match cml_version_max r with Some _ => _ | None => false end); [naive_solver|].
  destruct (forallb _ (node_definitions_required r)) eqn:E; cbn.
  - rewrite forallb_forall in E. setoid_rewrite bool_decide_eq_true in E. setoid_rewrite <- list_elem_of_In in E.
    naive_solver.
  - split; [done|]. intros ((_ & _ & Hn) & _). apply not_true_iff_false in E. destruct E.
    apply forallb_forall. intros n Hin%list_elem_of_In. apply bool_decide_eq_true. auto.
Qed.

Lemma check_port_availability_true w d : check_port_availability w d = true <->
  required_port_count d = 0%nat \/
  Z.of_nat (required_port_count d) + Z.of_nat (used_ports w)
    <= cap_or "max_ports" 1000 (get_effective_declared_capacity w).
Proof.
  unfold check_port_availability, used_ports.
  assert (forall l n, fold_left (fun n (alloc : dict Z) => (n + length alloc)%nat) l n = (n + sum_list_with length l)%nat) as ->.
  { induction l as [|a l IH]; intros n; cbn; [lia|]. rewrite IH. lia. }
  destruct (Nat.eqb_spec (required_port_count d) 0); [by split; [left|]|]. rewrite Z.leb_le. split; [right; lia|lia].
Qed.

Lemma negb_false_true b : negb b = false <-> b = true.
Proof. destruct b; naive_solver. Qed.

(** A worker passes the filter exactly when it is running, its license tier
    covers one of the tiers asked for (if any), a personal worker holds no session,
    the available processors, memory and storage cover the requirements, each AMI
    requirement is met and the ports asked for are left. *)
Theorem eligible_iff_fits d etcd w : reject_category d etcd w = None <-> fits d etcd w.
Proof.
  unfold reject_category. split.
  - intros H. destruct (enum_call (raw_status w)) as [st|] eqn:Es; [|done].
    destruct (bool_decide (st ∈ EXCLUDED_STATUSES)); [done|].
    destruct (bool_decide (st <> RUNNING)) eqn:Er; [done|]. apply bool_decide_eq_false, dec_stable in Er as ->.
    destruct (negb (check_license_affinity w d)) eqn:E1; [done|].
    destruct (negb (check_resource_capacity w d etcd)) eqn:E2; [done|].
    destruct (negb (check_ami_requirements w d)) eqn:E3; [done|].
    destruct (negb (check_port_availability w d)) eqn:E4; [done|].
    apply negb_false_true in E1, E2, E3, E4. apply check_resource_capacity_true in E2 as [E2 E2'].
    constructor; auto; [by apply check_license_affinity_true|by apply check_ami_list_true|by apply check_port_availability_true].
  - intros [Es E1 E2 E2' E3 E4]. rewrite Es. cbn.
    assert (bool_decide (RUNNING ∈ EXCLUDED_STATUSES) = false) as -> by reflexivity.
    assert (bool_decide (RUNNING <> RUNNING) = false) as -> by reflexivity.
    apply check_license_affinity_true in E1 as ->. apply check_port_availability_true in E4 as ->.
    assert (check_resource_capacity w d etcd = true) as -> by (by apply check_resource_capacity_true).
    unfold check_ami_requirements. by apply check_ami_list_true in E3 as ->.
Qed.

(** The detailed filter keeps the workers the plain filter keeps and counts
    the same rejections; it lists one rejection per worker that is not kept, in
    order and under the category the plain filter counted, and the count of each
    category is the number of rejections listed under it. *)
Theorem filters_agree d etcd ws :
  let '(kept, counts, rejected) := filter_eligible_workers_detailed ws d etcd in
  filter_eligible_workers ws d etcd = (kept, counts) /\
  kept = base.filter (fun w => reject_category d etcd w = None) ws /\
  map wr_reason_category rejected = omap (reject_category d etcd) ws /\
  (length kept + length rejected = length ws)%nat /\
  forall k, dict_get_or k 0 counts = Z.of_nat (length (base.filter (fun r => wr_reason_category r = k) rejected)).
Proof.
  rewrite filter_detailed_eq, filter_eligible_workers_eq. split; [done|].
  pose proof (rejections_categories d etcd ws) as Hc. repeat split.
  - apply list_filter_iff. intros w. unfold eligible. by destruct (reject_category d etcd w).
  - done.
  - rewrite <- (length_map wr_reason_category), Hc. apply eligible_rejected_length.
  - intros k. rewrite tally_get, <- Hc. f_equal. generalize (omap (rejection d etcd) ws). intros l.
    induction l as [|r l IH]; [done|]. cbn [map]. rewrite !filter_cons.
    destruct (decide (wr_reason_category r = k)); cbn [length]; by rewrite IH.
Qed.

(** ** The decision *)

(** [w], of score [s], is the first of the eligible workers of greatest score. *)
Definition best_fit (d : definition) (etcd : etcd_capacities) (ws : list worker) (w : worker) (s : float) : Prop :=
  exists before after, ws = before ++ w :: after /\
    reject_category d etcd w = None /\ score_worker etcd w = Ok s /\
    (forall w', w' ∈ before -> reject_category d etcd w' = None ->
       exists s', score_worker etcd w' = Ok s' /\ fltb s' s = true) /\
    (forall w', w' ∈ after -> reject_category d etcd w' = None ->
       exists s', score_worker etcd w' = Ok s' /\ fltb s s' = false).

Lemma filter_split {A} (P : A -> Prop) `{!forall x, Decision (P x)} l l1 x l2 :
  base.filter P l = l1 ++ x :: l2 ->
  exists k1 k2, l = k1 ++ x :: k2 /\ P x /\ base.filter P k1 = l1 /\ base.filter P k2 = l2.
Proof.
  revert l1. induction l as [|y l IH]; intros l1; [by destruct l1|].
  rewrite filter_cons. destruct (decide (P y)) as [HP|HP].
  - destruct l1 as [|z l1]; intros [= -> E].
    + exists [], l. by rewrite E.
    + destruct (IH _ E) as (k1 & k2 & -> & Hx & H1 & H2). exists (z :: k1), k2.
      rewrite filter_cons_True by done. naive_solver.
  - intros E. destruct (IH _ E) as (k1 & k2 & -> & Hx & H1 & H2). exists (y :: k1), k2.
    rewrite filter_cons_False by done. naive_solver.
Qed.

Lemma eligible_true d etcd w : eligible d etcd w <-> reject_category d etcd w = None.
Proof. unfold eligible. by destruct (reject_category d etcd w). Qed.

(** The greatest of the scored eligible workers is the best fit. *)
Lemma max_scored_best_fit d etcd ws x rest :
  score_candidates (base.filter (eligible d etcd) ws) etcd = Ok (x :: rest) ->
  best_fit d etcd ws (max_scored x rest).1 (max_scored x rest).2.
Proof.
  intros [Hm Hs]%score_candidates_ok.
  destruct (max_scored_spec x rest) as (l1 & l2 & E & H1 & H2).
  { eapply Forall_impl; [exact Hs|]. intros p. by apply score_number. }
  destruct (max_scored x rest) as [w s]. cbn [fst snd] in *. rewrite E in Hs, Hm.
  rewrite map_app in Hm. cbn in Hm. symmetry in Hm. apply filter_split in Hm as (k1 & k2 & -> & Hw & E1 & E2).
  apply Forall_app in Hs as [Hs1 [Hs Hs2]%Forall_cons]. cbn in Hs.
  exists k1, k2. repeat split; [by apply eligible_true|done| |]; intros w' Hin He%eligible_true.
  - assert (w' ∈ map fst l1) as ([? s'] & -> & Hp)%list_elem_of_fmap by (rewrite <- E1; by apply list_elem_of_filter).
    rewrite Forall_forall in H1, Hs1. exists s'. split; [by apply (Hs1 _ Hp)|by apply (H1 _ Hp)].
  - assert (w' ∈ map fst l2) as ([? s'] & -> & Hp)%list_elem_of_fmap by (rewrite <- E2; by apply list_elem_of_filter).
    rewrite Forall_forall in H2, Hs2. exists s'. split; [by apply (Hs2 _ Hp)|by apply (H2 _ Hp)].
Qed.

(** The decision on the workers the filter keeps, their scores and the counts. *)
Lemma schedule_cases d ws etcd : ws <> [] ->
  schedule d ws etcd =
    match base.filter (eligible d etcd) ws with
    | [] => let counts := tally (categories d etcd ws) in Ok (scale_up d (no_candidate_reason counts) (Some counts))
    | kept => scored ← score_candidates kept etcd;
              match scored with
              | x :: rest => Ok (assign (max_scored x rest))
              | [] => Err (ValueError "max() arg is an empty sequence")
              end
    end.
Proof.
  destruct ws as [|w ws]; [done|]. intros _. unfold schedule. rewrite filter_eligible_workers_eq.
  by destruct (base.filter _ _).
Qed.

Lemma none_eligible d etcd ws : base.filter (eligible d etcd) ws = [] ->
  Forall (fun w => reject_category d etcd w <> None) ws.
Proof.
  intros E. apply Forall_forall. intros w Hin He%eligible_true.
  assert (w ∈ base.filter (eligible d etcd) ws) as H by (by apply list_elem_of_filter).
  rewrite E in H. by apply elem_of_nil in H.
Qed.


(** ** Sizes at which no score overflows *)

Definition small_capacity (c : capacity) : Prop := Forall (fun kv => Z.abs kv.2 < 2 ^ 999) c.

(** The allocated capacity and the session count the scoring of [w] reads are below 2^999. *)
Definition small (etcd : etcd_capacities) (w : worker) : Prop :=
  let e := dict_get (id_or "" w) etcd in
  small_capacity (scoring_capacity w e).2 /\ Z.of_nat (session_count w e) < 2 ^ 999.

Lemma cap0_small k c : small_capacity c -> Z.abs (cap0 k c) < 2 ^ 999.
Proof.
  intros Hc. unfold cap0, dict_get_or. destruct (dict_get k c) as [v|] eqn:E; [|done].
  apply dict_get_elem in E. unfold small_capacity in Hc. rewrite Forall_forall in Hc. by apply (Hc _ E).
Qed.

Lemma utilization_total k declared allocated : small_capacity allocated ->
  exists f, utilization k declared allocated = Ok f.
Proof.
  intros Ha. unfold utilization. destruct (Z.ltb_spec 0 (cap_or k 1 declared)); [|eauto].
  apply int_truediv_total; [|done]. pose proof (cap0_small k _ Ha). lia.
Qed.

Lemma percent_total k declared allocated extra : small_capacity allocated -> Z.abs extra < 2 ^ 999 ->
  exists f, percent k declared allocated extra = Ok f.
Proof.
  intros Ha He. unfold percent. destruct (Z.ltb_spec 0 (cap_or k 1 declared)); [|eauto].
  pose proof (cap0_small k _ Ha).
  destruct (int_truediv_total (cap0 k allocated + extra) (cap_or k 1 declared)) as [f ->]; [lia|done|cbn; eauto].
Qed.

Lemma locality_bonus_total n : Z.of_nat n < 2 ^ 999 -> exists f, locality_bonus n = Ok f.
Proof.
  intros Hn. unfold locality_bonus. destruct (float_of_int_total (Z.of_nat n)) as [f ->]; [lia|cbn; eauto].
Qed.

Lemma score_worker_total etcd w : small etcd w -> exists s, score_worker etcd w = Ok s.
Proof.
  unfold small, score_worker. destruct (scoring_capacity w _) as [declared allocated]. intros [Ha Hn].
  destruct (utilization_total "cpu_cores" declared allocated Ha) as [? ->].
  destruct (utilization_total "memory_gb" declared allocated Ha) as [? ->].
  destruct (locality_bonus_total _ Hn) as [? ->]. cbn. eauto.
Qed.

Lemma build_candidate_score_total etcd p : small etcd p.1 ->
  exists c, build_candidate_score etcd p = Ok c /\ cs_worker_id c = id_or "" p.1.
Proof.
  unfold small, build_candidate_score. destruct p as [w s]. cbn [fst].
  destruct (scoring_capacity w _) as [declared allocated]. intros [Ha Hn].
  destruct (utilization_total "cpu_cores" declared allocated Ha) as [? ->].
  destruct (utilization_total "memory_gb" declared allocated Ha) as [? ->].
  destruct (locality_bonus_total _ Hn) as [? ->]. cbn. eauto.
Qed.

Lemma forecast_total etcd d w : small_capacity (required_resources d) -> small etcd w ->
  exists f, build_utilization_forecast w d etcd = Ok f /\ uf_worker_id f = id_or "" w /\
    uf_sessions_after f = (uf_sessions_before f + 1)%nat.
Proof.
  unfold small, build_utilization_forecast. intros Hd.
  destruct (scoring_capacity w _) as [declared allocated]. intros [Ha Hn].
  do 3 (match goal with |- context [percent ?k declared allocated 0] =>
          destruct (percent_total k declared allocated 0 Ha ltac:(done)) as [? ->] end;
        match goal with |- context [percent ?k declared allocated (cap0 ?k ?r)] =>
          destruct (percent_total k declared allocated (cap0 k r) Ha (cap0_small k _ Hd)) as [? ->] end).
  cbn. eauto.
Qed.

Lemma mapM_total {A B} (f : A -> res B) (P : A -> B -> Prop) l :
  (forall x, x ∈ l -> exists y, f x = Ok y /\ P x y) -> exists ys, mapM f l = Ok ys /\ Forall2 P l ys.
Proof.
  induction l as [|x l IH]; intros Hf; [by exists []|]. cbn [mapM].
  destruct (Hf x ltac:(left)) as (y & -> & Hy). destruct IH as (ys & E & Hys); [intros; apply Hf; by right|].
  cbn in *. rewrite E. cbn. eauto.
Qed.

Lemma score_candidates_total etcd ws : Forall (small etcd) ws -> exists scored, score_candidates ws etcd = Ok scored.
Proof.
  intros Hs. rewrite Forall_forall in Hs.
  destruct (mapM_total (fun w => score ← score_worker etcd w; Ok (w, score)) (fun _ _ => True) ws) as (l & E & _); [|eauto].
  intros w Hw. destruct (score_worker_total etcd w (Hs _ Hw)) as [s ->]. cbn. eauto.
Qed.

Lemma build_candidate_scores_total etcd scored : Forall (small etcd) (map fst scored) ->
  exists l, build_candidate_scores scored etcd = Ok l /\ map cs_worker_id l = map (id_or "") (map fst scored).
Proof.
  intros Hs. rewrite Forall_forall in Hs.
  destruct (mapM_total (build_candidate_score etcd) (fun p c => cs_worker_id c = id_or "" p.1) scored) as (l & E & Hf).
  { intros p Hp. apply build_candidate_score_total, Hs. by apply list_elem_of_fmap_2. }
  exists l. split; [done|]. clear E Hs. induction Hf as [|p c ps cs Hpc Hf IH]; cbn; [done|]. by rewrite Hpc, IH.
Qed.

(** What a preview promises beside the decision. *)
Definition preview_ok (d : definition) (etcd : etcd_capacities) (ws : list worker) (r : PlacementPreviewResult) : Prop :=
  pp_total r = length ws /\
  (length (pp_candidates r) + length (pp_rejections r) = length ws)%nat /\
  map cs_worker_id (pp_candidates r) ≡ₚ map (id_or "") (base.filter (fun w => reject_category d etcd w = None) ws) /\
  match pp_forecast r with
  | Some f => sd_worker_id (pp_decision r) = Some (uf_worker_id f) /\
              uf_sessions_after f = (uf_sessions_before f + 1)%nat
  | None => sd_action (pp_decision r) = "scale_up"
  end.

Lemma eligible_filter d etcd (ws : list worker) :
  base.filter (fun w => reject_category d etcd w = None) ws = base.filter (eligible d etcd) ws.
Proof. apply list_filter_iff. intros w. by rewrite eligible_true. Qed.

Lemma rejection_count d etcd (ws : list worker) :
  (length (base.filter (eligible d etcd) ws) + length (omap (rejection d etcd) ws) = length ws)%nat.
Proof. by rewrite <- (length_map wr_reason_category), rejections_categories, eligible_rejected_length. Qed.

(** (C36) On workers and requirements of reasonable size the preview and the engine
    both return, and the preview's decision is the engine's.  Every worker is either
    a candidate or a rejection, the candidates are the eligible workers, and an
    assignment comes with the forecast of the worker it chose, one session more. *)
Theorem preview_agrees d ws etcd : small_capacity (required_resources d) -> Forall (small etcd) ws ->
  exists r, schedule_preview d ws etcd = Ok r /\ schedule d ws etcd = Ok (pp_decision r) /\ preview_ok d etcd ws r.
Proof.
  intros Hd Hs. destruct (decide (ws = [])) as [->|Hne]; [by eexists|].
  rewrite schedule_cases by done. unfold schedule_preview, preview_ok. rewrite filter_detailed_eq, eligible_filter.
  pose proof (rejection_count d etcd ws) as Hc. destruct ws as [|w ws]; [done|]. set (l := w :: ws) in *.
  destruct (base.filter (eligible d etcd) l) as [|k ks] eqn:Ek; [by eexists|]. rewrite <- Ek in *.
  assert (Forall (small etcd) (base.filter (eligible d etcd) l)) as Hsk.
  { rewrite Forall_forall in *. intros x [_ Hx]%list_elem_of_filter. auto. }
  destruct (score_candidates_total _ _ Hsk) as [scored Esc]. rewrite Esc. cbn.
  destruct (score_candidates_ok _ _ _ Esc) as [Hm _].
  destruct (build_candidate_scores_total etcd scored) as (cs & Ecs & Hcs); [by rewrite Hm|]. rewrite Ecs. cbn.
  destruct scored as [|x rest]; [by rewrite <- Hm in Ek|].
  pose proof (max_scored_best_fit d etcd l x rest Esc) as (k1 & k2 & El & _).
  assert (small etcd (max_scored x rest).1) as Hb.
  { rewrite Forall_forall in Hs. apply Hs. rewrite El. set_solver. }
  destruct (forecast_total etcd d _ Hd Hb) as (f & Ef & Hf1 & Hf2). rewrite Ef. cbn.
  eexists. split; [done|]. split; [done|]. cbn -[sort_by length].
  split; [done|]. rewrite sort_by_perm, Hcs, Hm. split; [|split; [done|by rewrite Hf1]].
  by rewrite <- (length_map cs_worker_id), Hcs, length_map, Hm.
Qed.

(** ** License tiers *)

(** An enterprise worker covers every definition a personal one covers, and
    more: a definition that asks for enterprise alone is covered by no other tier. *)
Theorem enterprise_superset :
  (forall w w' d, get_worker_license_type w = "personal" -> get_worker_license_type w' = "enterprise" ->
     check_license_affinity w d = true -> check_license_affinity w' d = true) /\
  (forall w d, map py_lower (license_affinity d) = ["enterprise"] ->
     (check_license_affinity w d = true <-> get_worker_license_type w = "enterprise")).
Proof.
  split.
  - intros w w' d Hw Hw'. rewrite !check_license_affinity_true, Hw, Hw'. intros [?|(t & Ht & Hp)]; [by left|].
    right. exists t. split; [done|]. revert Hp. unfold worker_license_satisfies. cbn.
    rewrite !bool_decide_eq_true. set_solver.
  - intros w d. unfold check_license_affinity. destruct (license_affinity d) as [|t [|]]; try done.
    intros [= Et]. cbn [existsb]. rewrite orb_false_r. unfold worker_license_satisfies. rewrite Et, bool_decide_eq_true.
    unfold dict_get_or, LICENSE_SATISFIES. cbn.
    repeat (match goal with |- context [String.eqb ?a ?b] => destruct (String.eqb_spec a b) end); cbn; set_solver.
Qed.

(** ** Two checks that do not do what they are for *)

(** A port template as the control plane writes it keeps its ports under
    ["ports"]; the engine counts the entries under ["port_entries"].  So whatever
    the template and however many ports are in use, no worker is rejected for its
    ports. *)
Theorem ports_never_rejected w d etcd t : port_template d = PortTemplate_to_dict t ->
  reject_category d etcd w <> Some "ports".
Proof.
  intros E. assert (check_port_availability w d = true) as Hp.
  { unfold check_port_availability, required_port_count. by rewrite E. }
  unfold reject_category. rewrite Hp. repeat (case_match; try done).
Qed.

(** Versions are compared as strings: a worker of version 2.10.0 is too old
    for a definition that asks for 2.9.0 or more, and is rejected. *)
Theorem version_2_10_below_2_9 w d etcd r : w_version w = Some "2.10.0" ->
  ami_requirements d = [r] -> cml_version_min r = Some "2.9.0" -> reject_category d etcd w <> None.
Proof.
  intros Hv Hr Hm. intros E.
  assert (check_ami_requirements w d = false) as Hf.
  { unfold check_ami_requirements. rewrite Hr, Hv. cbn. by rewrite Hm. }
  revert E. unfold reject_category. rewrite Hf. repeat (case_match; try done).
Qed.

(** ** An example

    Five workers: a personal one that holds a session, one without enough
    processors left, one of version 2.10.0, and two eligible ones. *)

Definition demo_worker (id product : string) (cores_used : Z) (sessions : list string) (version : string) : worker :=
  {| w_id := Some id; w_name := None; w_status := Some " running"; w_license_info := [("product", PStr product)];
     w_declared_capacity := [("cpu_cores", 16); ("memory_gb", 64); ("storage_gb", 500)];
     w_system_info := {| cpu_count := None; memory_total := None; disk_total := None |};
     w_allocated_capacity := [("cpu_cores", cores_used); ("memory_gb", 4 * cores_used)];
     w_session_ids := sessions; w_node_definitions := ["iosv"]; w_version := Some version; w_port_allocations := [] |}.

Definition demo_definition : definition :=
  {| def_name := Some "demo"; license_affinity := ["personal"; "enterprise"];
     required_resources := [("cpu_cores", 4); ("memory_gb", 8); ("storage_gb", 20)];
     ami_requirements := [{| cml_version_min := Some "2.9.0"; cml_version_max := None; node_definitions_required := ["iosv"] |}];
     port_template := PortTemplate_to_dict {| pt_ports := [{| pd_name := "PC1_ssh"; pd_protocol := "tcp"; pd_description := None |}] |} |}.

Definition demo_workers : list worker :=
  [demo_worker "w1" "CML_Enterprise" 4 [] "2.9.1"; demo_worker "w2" "CML_Personal" 4 ["s1"] "2.9.1";
   demo_worker "w3" "CML_Enterprise" 8 ["s2"; "s3"] "2.9.1"; demo_worker "w4" "CML_Enterprise" 14 ["s4"] "2.9.1";
   demo_worker "w5" "CML_Enterprise" 10 ["s5"] "2.10.0"].

Definition demo_decision : SchedulingDecision :=
  {| sd_action := "assign"; sd_worker_id := Some "w3"; sd_worker_template := None;
     sd_reason := "Best fit: w3 (utilization score: 0.52)"; sd_rejection_summary := None |}.


Lemma demo_small : small_capacity (required_resources demo_definition) /\ Forall (small []) demo_workers.
Proof. split; repeat constructor. Qed.

Lemma preview_agrees_witness : exists r,
  schedule_preview demo_definition demo_workers [] = Ok r /\
  schedule demo_definition demo_workers [] = Ok (pp_decision r) /\ preview_ok demo_definition [] demo_workers r.
Proof. apply (preview_agrees demo_definition demo_workers []); [exact (proj1 demo_small)|exact (proj2 demo_small)]. Defined.

Lemma enterprise_superset_witness :
  check_license_affinity (demo_worker "w" "CML_Personal" 0 [] "2.9.1") demo_definition = true /\
  check_license_affinity (demo_worker "w'" "CML_Enterprise" 0 [] "2.9.1") demo_definition = true.
Proof.
  split; [reflexivity|].
  apply (proj1 enterprise_superset (demo_worker "w" "CML_Personal" 0 [] "2.9.1")); reflexivity.
Defined.

Lemma ports_never_rejected_witness : reject_category demo_definition [] (demo_worker "w" "CML_Personal" 0 [] "2.9.1") <> Some "ports".
Proof.
  apply (ports_never_rejected _ _ _ {| pt_ports := [{| pd_name := "PC1_ssh"; pd_protocol := "tcp"; pd_description := None |}] |}).
  reflexivity.
Defined.

Lemma version_2_10_below_2_9_witness :
  reject_category demo_definition [] (demo_worker "w5" "CML_Enterprise" 0 [] "2.10.0") <> None.
Proof.
  apply (version_2_10_below_2_9 _ _ _
    {| cml_version_min := Some "2.9.0"; cml_version_max := None; node_definitions_required := ["iosv"] |}); reflexivity.
Defined.
