(* ===== verification/WorkerValues.v ===== *)
(** * Value objects of the worker ([control-plane-api/domain/value_objects])

    Capacity, resource requirements, the license and the metrics of a CML worker.
    The metrics classes check nothing, so a field holds whatever the JSON had. *)
From S2P Require Import Prelude PyFloat PyData PyNum Enums.
Import LicenseState.

(** ** [WorkerCapacity] ([worker_capacity.py]) *)
Record WorkerCapacity := {
  cpu_cores : Z;
  memory_gb : Z;
  storage_gb : Z;
  max_nodes : option Z
}.

#[export] Instance capacity_eq_dec : EqDecision WorkerCapacity.
Proof. solve_decision. Defined.

Definition negative (n : option Z) : bool := match n with Some n => n <? 0 | None => false end.

Definition WorkerCapacity_post_init (c : WorkerCapacity) : res WorkerCapacity :=
  _ ← raise_if (cpu_cores c <? 0) (ValueError "cpu_cores cannot be negative");
  _ ← raise_if (memory_gb c <? 0) (ValueError "memory_gb cannot be negative");
  _ ← raise_if (storage_gb c <? 0) (ValueError "storage_gb cannot be negative");
  _ ← raise_if (negative (max_nodes c)) (ValueError "max_nodes cannot be negative");
  Ok c.

Definition mk_capacity (cpu memory storage : Z) (nodes : option Z) : res WorkerCapacity :=
  WorkerCapacity_post_init
    {| cpu_cores := cpu; memory_gb := memory; storage_gb := storage; max_nodes := nodes |}.

Definition zero : WorkerCapacity :=
  {| cpu_cores := 0; memory_gb := 0; storage_gb := 0; max_nodes := Some 0 |}.

(** [n or 0] *)
Definition oint0 (n : option Z) : Z := default 0 n.

Definition can_fit (c required : WorkerCapacity) : bool :=
  if cpu_cores c <? cpu_cores required then false
  else if memory_gb c <? memory_gb required then false
  else if storage_gb c <? storage_gb required then false
  else match max_nodes c, max_nodes required with
       | Some n, Some r => negb (n <? r)
       | _, _ => true
       end.

Definition subtract (c other : WorkerCapacity) : res WorkerCapacity :=
  mk_capacity (Z.max 0 (cpu_cores c - cpu_cores other)) (Z.max 0 (memory_gb c - memory_gb other))
    (Z.max 0 (storage_gb c - storage_gb other))
    (match max_nodes c with Some n => Some (Z.max 0 (n - oint0 (max_nodes other))) | None => None end).

Definition add (c other : WorkerCapacity) : res WorkerCapacity :=
  mk_capacity (cpu_cores c + cpu_cores other) (memory_gb c + memory_gb other) (storage_gb c + storage_gb other)
    (match max_nodes c, max_nodes other with
     | None, None => None
     | n, m => Some (oint0 n + oint0 m)
     end).

Definition WorkerCapacity_to_dict (c : WorkerCapacity) : pydict :=
  [("cpu_cores", PInt (cpu_cores c)); ("memory_gb", PInt (memory_gb c));
   ("storage_gb", PInt (storage_gb c)); ("max_nodes", of_oint (max_nodes c))].

Definition WorkerCapacity_from_dict (data : pydict) : res WorkerCapacity :=
  cpu ← as_int (pd_get_or "cpu_cores" (PInt 0) data);
  memory ← as_int (pd_get_or "memory_gb" (PInt 0) data);
  storage ← as_int (pd_get_or "storage_gb" (PInt 0) data);
  nodes ← as_oint (pd_get "max_nodes" data);
  mk_capacity cpu memory storage nodes.

(** ** [AmiRequirement] and [ResourceRequirements] ([resource_requirements.py]) *)
Record AmiRequirement := {
  cml_version_min : option string;
  cml_version_max : option string;
  node_definitions_required : list string
}.

Record ResourceRequirements := {
  rr_cpu_cores : Z;
  rr_memory_gb : Z;
  rr_storage_gb : Z;
  rr_nested_virt : bool;
  rr_ami_requirements : list AmiRequirement
}.

Definition matches_version (r : AmiRequirement) (version : string) : bool :=
  let below v := str_truthy v && str_ltb version v in
  let above v := str_truthy v && str_ltb v version in
  if match cml_version_min r with Some v => below v | None => false end then false
  else if match cml_version_max r with Some v => above v | None => false end then false
  else true.

Definition AmiRequirement_to_dict (r : AmiRequirement) : pydict :=
  [("cml_version_min", of_ostr (cml_version_min r)); ("cml_version_max", of_ostr (cml_version_max r));
   ("node_definitions_required", PList (map PStr (node_definitions_required r)))].

Definition AmiRequirement_from_dict (data : pydict) : res AmiRequirement :=
  vmin ← as_ostr (pd_get "cml_version_min" data);
  vmax ← as_ostr (pd_get "cml_version_max" data);
  nodes ← as_list (pd_get_or "node_definitions_required" (PList []) data);
  nodes ← mapM as_str nodes;
  Ok {| cml_version_min := vmin; cml_version_max := vmax; node_definitions_required := nodes |}.

Definition ResourceRequirements_post_init (r : ResourceRequirements) : res ResourceRequirements :=
  _ ← raise_if (rr_cpu_cores r <? 1) (ValueError "cpu_cores must be at least 1");
  _ ← raise_if (rr_memory_gb r <? 1) (ValueError "memory_gb must be at least 1");
  _ ← raise_if (rr_storage_gb r <? 1) (ValueError "storage_gb must be at least 1");
  Ok r.

Definition fits_capacity (r : ResourceRequirements) (available_cpu available_memory available_storage : Z) : bool :=
  (rr_cpu_cores r <=? available_cpu) && (rr_memory_gb r <=? available_memory)
  && (rr_storage_gb r <=? available_storage).

Definition with_node_definitions (r : ResourceRequirements) (node_definitions : list string)
    : res ResourceRequirements :=
  let new_ami_reqs :=
    match rr_ami_requirements r with
    | first :: rest =>
        {| cml_version_min := cml_version_min first; cml_version_max := cml_version_max first;
           node_definitions_required := node_definitions |} :: rest
    | [] => [{| cml_version_min := None; cml_version_max := None; node_definitions_required := node_definitions |}]
    end in
  ResourceRequirements_post_init
    {| rr_cpu_cores := rr_cpu_cores r; rr_memory_gb := rr_memory_gb r; rr_storage_gb := rr_storage_gb r;
       rr_nested_virt := rr_nested_virt r; rr_ami_requirements := new_ami_reqs |}.

Definition ResourceRequirements_to_dict (r : ResourceRequirements) : pydict :=
  [("cpu_cores", PInt (rr_cpu_cores r)); ("memory_gb", PInt (rr_memory_gb r)); ("storage_gb", PInt (rr_storage_gb r));
   ("nested_virt", PBool (rr_nested_virt r));
   ("ami_requirements", PList (map (fun q => PDict (AmiRequirement_to_dict q)) (rr_ami_requirements r)))].

Definition ResourceRequirements_from_dict (data : pydict) : res ResourceRequirements :=
  ami ← as_list (pd_get_or "ami_requirements" (PList []) data);
  ami ← mapM (fun v => d ← as_dict v; AmiRequirement_from_dict d) ami;
  cpu ← dict_item "cpu_cores" data ≫= as_int;
  memory ← dict_item "memory_gb" data ≫= as_int;
  storage ← dict_item "storage_gb" data ≫= as_int;
  nested ← as_bool (pd_get_or "nested_virt" (PBool true) data);
  ResourceRequirements_post_init
    {| rr_cpu_cores := cpu; rr_memory_gb := memory; rr_storage_gb := storage;
       rr_nested_virt := nested; rr_ami_requirements := ami |}.

(** ** [CMLLicense] ([cml_license.py]) *)
Record CMLLicense := {
  l_status : LicenseStatus;
  token : option string;
  pending_token : option string;
  pending_operation : option string;
  operation_in_progress : bool;
  expiry_date : option datetime;
  features : list string;
  raw_info : option pydict
}.

#[export] Instance eta_license : Eta CMLLicense := fun l =>
  Build_CMLLicense (l_status l) (token l) (pending_token l) (pending_operation l) (operation_in_progress l)
    (expiry_date l) (features l) (raw_info l).

(** [CMLLicense()] *)
Definition new_license : CMLLicense :=
  {| l_status := UNREGISTERED; token := None; pending_token := None; pending_operation := None;
     operation_in_progress := false; expiry_date := None; features := []; raw_info := None |}.

(** ** [CMLMetrics] ([cml_metrics.py]) *)
Record CpuStats := { load : pyval; count : pyval; percent : pyval; model : pyval; predicted : pyval }.
Record MemoryStats := { m_total : pyval; m_free : pyval; m_used : pyval }.
Record DiskStats := { d_total : pyval; d_free : pyval; d_used : pyval }.
Record DomInfoStats := {
  di_allocated_cpus : pyval; di_allocated_memory : pyval; di_total_nodes : pyval; di_total_orphans : pyval;
  di_running_nodes : pyval; di_running_orphans : pyval
}.

Record CMLSystemInfoComputeStats := {
  cpu : option CpuStats;
  memory : option MemoryStats;
  disk : option DiskStats;
  dominfo : option DomInfoStats
}.

Record CMLSystemInfoCompute := {
  hostname : pyval;
  is_controller : pyval;
  stats : option CMLSystemInfoComputeStats
}.

(** The [computes] field: parsed by the event handler, or the raw JSON value in
    the temporary metrics of [update_cml_metrics]. *)
Inductive Computes := Parsed (d : dict CMLSystemInfoCompute) | Raw (v : pyval).

Record CMLSystemInfo := {
  cpu_count : pyval;
  cpu_utilization : pyval;
  memory_total : pyval;
  memory_free : pyval;
  memory_used : pyval;
  disk_total : pyval;
  disk_free : pyval;
  disk_used : pyval;
  controller_disk_total : pyval;
  controller_disk_free : pyval;
  controller_disk_used : pyval;
  allocated_cpus : pyval;
  allocated_memory : pyval;
  total_nodes : pyval;
  running_nodes : pyval;
  computes : Computes
}.

Record CMLSystemHealth := {
  valid : pyval;
  is_licensed : pyval;
  is_enterprise : pyval;
  h_computes : pyval;
  controller : pyval
}.

#[export] Instance eta_health : Eta CMLSystemHealth := fun h =>
  Build_CMLSystemHealth (valid h) (is_licensed h) (is_enterprise h) (h_computes h) (controller h).

Record CMLMetrics := {
  version : option string;
  ready : bool;
  uptime_seconds : option Z;
  labs_count : Z;
  system_info : option CMLSystemInfo;
  system_health : option CMLSystemHealth;
  last_synced_at : option datetime
}.

#[export] Instance eta_metrics : Eta CMLMetrics := fun m =>
  Build_CMLMetrics (version m) (ready m) (uptime_seconds m) (labs_count m) (system_info m) (system_health m)
    (last_synced_at m).

(** [CMLMetrics()] *)
Definition new_metrics : CMLMetrics :=
  {| version := None; ready := false; uptime_seconds := None; labs_count := 0; system_info := None;
     system_health := None; last_synced_at := None |}.

(** [(used / total) * 100] when both are truthy and [total > 0], else [None]. *)
Definition usage_percent (total used : pyval) : res pyval :=
  if truthy total && truthy used then
    positive ← py_ltb (PInt 0) total;
    if positive : bool then r ← py_truediv used total; py_mul r (PInt 100) else Ok PNone
  else Ok PNone.

Definition no_attribute (name : string) : exn := AttributeError ("object has no attribute '" +:+ name +:+ "'").

(** The stats of the first compute. *)
Definition first_stats (c : Computes) : res (option CMLSystemInfoComputeStats) :=
  match c with
  | Parsed ((_, first_compute) :: _) => Ok (stats first_compute)
  | Raw (PDict (_ :: _)) => Err (no_attribute "stats")
  | _ => Ok None
  end.

Definition get_utilization (m : CMLMetrics) : res (pyval * pyval * pyval) :=
  match system_info m with
  | None => Ok (PNone, PNone, PNone)
  | Some info =>
      mem_util ← usage_percent (memory_total info) (memory_used info);
      storage_util ← usage_percent (disk_total info) (disk_used info);
      if negb (is_none (cpu_utilization info)) || negb (is_none mem_util) || negb (is_none storage_util)
      then Ok (cpu_utilization info, mem_util, storage_util)
      else
        stats ← first_stats (computes info);
        match stats with
        | None => Ok (PNone, PNone, PNone)
        | Some stats =>
            let cpu_util := match cpu stats with Some c => percent c | None => PNone end in
            mem_util ← match memory stats with
                       | Some s => usage_percent (m_total s) (m_used s) | None => Ok PNone end;
            storage_util ← match disk stats with
                           | Some s => usage_percent (d_total s) (d_used s) | None => Ok PNone end;
            Ok (cpu_util, mem_util, storage_util)
        end
  end.

(** ** Properties *)

(** The limit on nodes as the sums count it. *)
Definition nodes (c : WorkerCapacity) : Z := oint0 (max_nodes c).

Definition capacity_valid (c : WorkerCapacity) : Prop := WorkerCapacity_post_init c = Ok c.

Lemma capacity_valid_iff c : capacity_valid c <->
  0 <= cpu_cores c /\ 0 <= memory_gb c /\ 0 <= storage_gb c /\ 0 <= nodes c.
Proof.
  unfold capacity_valid, WorkerCapacity_post_init, raise_if, nodes, negative.
  destruct c as [cpu mem sto [n|]]; cbn; repeat case_match; cbn; split; intros; try done; repeat split; lia.
Qed.

Lemma mk_capacity_ok cpu mem sto n c : mk_capacity cpu mem sto n = Ok c <->
  c = {| cpu_cores := cpu; memory_gb := mem; storage_gb := sto; max_nodes := n |} /\ capacity_valid c.
Proof.
  unfold mk_capacity, capacity_valid. split.
  - unfold WorkerCapacity_post_init. intros H. inv_ok. split; [done|]. unfold raise_if in *. cbn in *.
    repeat split_match; done.
  - by intros [-> H].
Qed.

(** A capacity that fits another can be taken out of it and put back: nothing
    goes below zero and the sum is what it was, except that putting a limited
    number of nodes back into an unlimited capacity limits it. *)
Theorem subtract_add c r : capacity_valid c -> capacity_valid r -> can_fit c r = true ->
  exists a, subtract c r = Ok a /\ can_fit c a = true /\
    add a r = Ok (match max_nodes c, max_nodes r with
                  | None, Some n => {| cpu_cores := cpu_cores c; memory_gb := memory_gb c;
                                       storage_gb := storage_gb c; max_nodes := Some n |}
                  | _, _ => c
                  end).
Proof.
  rewrite !capacity_valid_iff. destruct c as [cpu mem sto n], r as [cpu' mem' sto' n'].
  unfold can_fit, subtract, nodes. cbn. intros Hc Hr Hf.
  destruct (Z.ltb_spec cpu cpu'), (Z.ltb_spec mem mem'), (Z.ltb_spec sto sto'); try done.
  eexists. split; [apply mk_capacity_ok; split; [reflexivity|]|].
  - apply capacity_valid_iff. unfold nodes. cbn. destruct n; cbn; lia.
  - unfold add. cbn. split.
    + repeat case_match; try done; simplify_eq/=; try apply negb_true_iff; lia.
    + apply mk_capacity_ok. split; [|apply capacity_valid_iff; unfold nodes; destruct n, n'; cbn in *; lia].
      destruct n as [n|], n' as [n'|]; cbn in *; f_equal; try lia; f_equal; try apply negb_true_iff in Hf; lia.
Qed.

Lemma mapM_as_str l : mapM as_str (map PStr l) = Ok l.
Proof. induction l as [|x l IH]; cbn; [done|]. by rewrite IH. Qed.

Lemma AmiRequirement_of_to_dict q : AmiRequirement_from_dict (AmiRequirement_to_dict q) = Ok q.
Proof.
  unfold AmiRequirement_from_dict. cbn -[as_ostr of_ostr mapM].
  rewrite !as_ostr_of. cbn -[mapM]. rewrite mapM_as_str. by destruct q.
Qed.

Lemma WorkerCapacity_of_to_dict c :
  WorkerCapacity_post_init c = Ok c -> WorkerCapacity_from_dict (WorkerCapacity_to_dict c) = Ok c.
Proof.
  intros Hc. unfold WorkerCapacity_from_dict. cbn -[as_oint of_oint]. rewrite as_oint_of. cbn.
  by apply mk_capacity_ok; destruct c.
Qed.

Lemma ResourceRequirements_of_to_dict r : ResourceRequirements_post_init r = Ok r ->
  ResourceRequirements_from_dict (ResourceRequirements_to_dict r) = Ok r.
Proof.
  intros Hr. unfold ResourceRequirements_from_dict. cbn -[mapM].
  rewrite (mapM_to_dict _ _ _ AmiRequirement_of_to_dict). cbn. by destruct r.
Qed.

(** Resource values survive being stored: what [to_dict] writes of a value the
    class accepts, [from_dict] reads back. *)
Theorem resources_roundtrip :
  (forall c, WorkerCapacity_post_init c = Ok c -> WorkerCapacity_from_dict (WorkerCapacity_to_dict c) = Ok c) /\
  (forall r, ResourceRequirements_post_init r = Ok r ->
     ResourceRequirements_from_dict (ResourceRequirements_to_dict r) = Ok r).
Proof. split; [apply WorkerCapacity_of_to_dict|apply ResourceRequirements_of_to_dict]. Qed.
