(* ===== verification/WorkerEvents.v ===== *)
(** * Worker domain events ([control-plane-api/domain/events/cml_worker.py],
    [worker_activity_events.py], [worker_metrics_events.py],
    [cloudwatch_monitoring_updated_domain_event.py])

    One record per event dataclass, with the dataclass's fields in order, and
    the type of all of them.  A timestamp passed as a string is a [pyval]: [PIso d]
    for [d.isoformat()], [PStr] for a string that is no timestamp. *)
From S2P Require Import Prelude PyFloat PyData Enums WorkerValues.
Import WorkerStatus ServiceStatus LicenseState Origin.

Record CMLWorkerCreatedDomainEvent := {
  Created_aggregate_id : string;
  Created_name : string;
  Created_aws_region : string;
  Created_aws_instance_id : option string;
  Created_instance_type : string;
  Created_ami_id : option string;
  Created_ami_name : option string;
  Created_ami_description : option string;
  Created_ami_creation_date : option string;
  Created_status : CMLWorkerStatus;
  Created_desired_status : CMLWorkerStatus;
  Created_cml_version : option string;
  Created_created_at : datetime;
  Created_created_by : option string;
  Created_origin : WorkerOrigin
}.

Record CMLWorkerDesiredStatusUpdatedDomainEvent := {
  DesiredStatusUpdated_aggregate_id : string;
  DesiredStatusUpdated_old_desired_status : CMLWorkerStatus;
  DesiredStatusUpdated_new_desired_status : CMLWorkerStatus;
  DesiredStatusUpdated_updated_at : datetime;
  DesiredStatusUpdated_requested_by : option string;
  DesiredStatusUpdated_reason : option string
}.

Record CMLWorkerStatusUpdatedDomainEvent := {
  StatusUpdated_aggregate_id : string;
  StatusUpdated_old_status : CMLWorkerStatus;
  StatusUpdated_new_status : CMLWorkerStatus;
  StatusUpdated_updated_at : datetime;
  StatusUpdated_transition_initiated_at : option datetime
}.

Record CMLServiceStatusUpdatedDomainEvent := {
  CMLServiceStatusUpdated_aggregate_id : string;
  CMLServiceStatusUpdated_old_service_status : CMLServiceStatus;
  CMLServiceStatusUpdated_new_service_status : CMLServiceStatus;
  CMLServiceStatusUpdated_https_endpoint : option string;
  CMLServiceStatusUpdated_updated_at : datetime
}.

Record CMLWorkerInstanceAssignedDomainEvent := {
  InstanceAssigned_aggregate_id : string;
  InstanceAssigned_aws_instance_id : string;
  InstanceAssigned_public_ip : option string;
  InstanceAssigned_private_ip : option string;
  InstanceAssigned_assigned_at : datetime
}.

Record CMLWorkerLicenseUpdatedDomainEvent := {
  LicenseUpdated_aggregate_id : string;
  LicenseUpdated_license_status : LicenseStatus;
  LicenseUpdated_license_token : option string;
  LicenseUpdated_updated_at : datetime
}.

Record CMLWorkerTelemetryUpdatedDomainEvent := {
  TelemetryUpdated_aggregate_id : string;
  TelemetryUpdated_last_activity_at : datetime;
  TelemetryUpdated_active_labs_count : Z;
  TelemetryUpdated_cpu_utilization : option float;
  TelemetryUpdated_memory_utilization : option float;
  TelemetryUpdated_updated_at : datetime;
  TelemetryUpdated_poll_interval : option Z;
  TelemetryUpdated_next_refresh_at : option datetime
}.

Record CMLWorkerEndpointUpdatedDomainEvent := {
  EndpointUpdated_aggregate_id : string;
  EndpointUpdated_https_endpoint : option string;
  EndpointUpdated_public_ip : option string;
  EndpointUpdated_updated_at : datetime
}.

Record CMLWorkerImportedDomainEvent := {
  Imported_aggregate_id : string;
  Imported_name : string;
  Imported_aws_region : string;
  Imported_aws_instance_id : string;
  Imported_instance_type : string;
  Imported_ami_id : string;
  Imported_ami_name : option string;
  Imported_ami_description : option string;
  Imported_ami_creation_date : option string;
  Imported_instance_state : string;
  Imported_public_ip : option string;
  Imported_private_ip : option string;
  Imported_created_by : option string;
  Imported_created_at : datetime;
  Imported_origin : WorkerOrigin
}.

Record CMLWorkerTerminatedDomainEvent := {
  Terminated_aggregate_id : string;
  Terminated_name : string;
  Terminated_terminated_at : datetime;
  Terminated_terminated_by : option string
}.

Record CMLWorkerTagsUpdatedDomainEvent := {
  TagsUpdated_aggregate_id : string;
  TagsUpdated_aws_tags : dict string;
  TagsUpdated_updated_at : datetime
}.

Record CMLWorkerLicenseRegistrationRequestedDomainEvent := {
  LicenseRegistrationRequested_aggregate_id : string;
  LicenseRegistrationRequested_worker_id : string;
  LicenseRegistrationRequested_license_token : string;
  LicenseRegistrationRequested_reregister : bool;
  LicenseRegistrationRequested_requested_at : pyval;
  LicenseRegistrationRequested_initiated_by : string
}.

Record CMLWorkerLicenseRegistrationStartedDomainEvent := {
  LicenseRegistrationStarted_aggregate_id : string;
  LicenseRegistrationStarted_worker_id : string;
  LicenseRegistrationStarted_started_at : pyval;
  LicenseRegistrationStarted_initiated_by : string
}.

Record CMLWorkerLicenseRegistrationCompletedDomainEvent := {
  LicenseRegistrationCompleted_aggregate_id : string;
  LicenseRegistrationCompleted_worker_id : string;
  LicenseRegistrationCompleted_registration_status : string;
  LicenseRegistrationCompleted_smart_account : option string;
  LicenseRegistrationCompleted_virtual_account : option string;
  LicenseRegistrationCompleted_completed_at : pyval
}.

Record CMLWorkerLicenseRegistrationFailedDomainEvent := {
  LicenseRegistrationFailed_aggregate_id : string;
  LicenseRegistrationFailed_worker_id : string;
  LicenseRegistrationFailed_error_message : string;
  LicenseRegistrationFailed_error_code : option string;
  LicenseRegistrationFailed_failed_at : pyval
}.

Record CMLWorkerLicenseDeregistrationRequestedDomainEvent := {
  LicenseDeregistrationRequested_aggregate_id : string;
  LicenseDeregistrationRequested_worker_id : string;
  LicenseDeregistrationRequested_requested_at : pyval;
  LicenseDeregistrationRequested_initiated_by : string
}.

Record CMLWorkerLicenseDeregistrationStartedDomainEvent := {
  LicenseDeregistrationStarted_aggregate_id : string;
  LicenseDeregistrationStarted_worker_id : string;
  LicenseDeregistrationStarted_started_at : pyval;
  LicenseDeregistrationStarted_initiated_by : string
}.

Record CMLWorkerLicenseDeregistrationCompletedDomainEvent := {
  LicenseDeregistrationCompleted_aggregate_id : string;
  LicenseDeregistrationCompleted_worker_id : string;
  LicenseDeregistrationCompleted_message : string;
  LicenseDeregistrationCompleted_completed_at : pyval
}.

Record CMLWorkerLicenseDeregistrationFailedDomainEvent := {
  LicenseDeregistrationFailed_aggregate_id : string;
  LicenseDeregistrationFailed_worker_id : string;
  LicenseDeregistrationFailed_error_message : string;
  LicenseDeregistrationFailed_failed_at : pyval
}.

Record CMLWorkerLicenseDeregisteredDomainEvent := {
  LicenseDeregistered_aggregate_id : string;
  LicenseDeregistered_worker_id : string;
  LicenseDeregistered_deregistered_at : pyval;
  LicenseDeregistered_initiated_by : string
}.

Record WorkerDataRefreshRequestedDomainEvent := {
  WorkerDataRefreshRequested_aggregate_id : string;
  WorkerDataRefreshRequested_worker_id : string;
  WorkerDataRefreshRequested_requested_at : pyval;
  WorkerDataRefreshRequested_requested_by : option string
}.

Record WorkerDataRefreshSkippedDomainEvent := {
  WorkerDataRefreshSkipped_aggregate_id : string;
  WorkerDataRefreshSkipped_worker_id : string;
  WorkerDataRefreshSkipped_reason : string;
  WorkerDataRefreshSkipped_skipped_at : pyval
}.

Record WorkerDataRefreshCompletedDomainEvent := {
  WorkerDataRefreshCompleted_aggregate_id : string;
  WorkerDataRefreshCompleted_worker_id : string;
  WorkerDataRefreshCompleted_completed_at : pyval;
  WorkerDataRefreshCompleted_refresh_type : string
}.

Record CMLWorkerCapacityUpdatedDomainEvent := {
  CapacityUpdated_aggregate_id : string;
  CapacityUpdated_template_name : option string;
  CapacityUpdated_declared_capacity_cpu_cores : Z;
  CapacityUpdated_declared_capacity_memory_gb : Z;
  CapacityUpdated_declared_capacity_storage_gb : Z;
  CapacityUpdated_declared_capacity_max_nodes : option Z;
  CapacityUpdated_updated_at : datetime
}.

Record CMLWorkerPortsAllocatedDomainEvent := {
  PortsAllocated_aggregate_id : string;
  PortsAllocated_session_id : string;
  PortsAllocated_ports : dict Z;
  PortsAllocated_allocated_at : datetime
}.

Record CMLWorkerPortsReleasedDomainEvent := {
  PortsReleased_aggregate_id : string;
  PortsReleased_session_id : string;
  PortsReleased_released_ports : list Z;
  PortsReleased_released_at : datetime
}.

Record LabletSessionAssignedDomainEvent := {
  LabletSessionAssigned_aggregate_id : string;
  LabletSessionAssigned_session_id : string;
  LabletSessionAssigned_allocated_cpu_cores : Z;
  LabletSessionAssigned_allocated_memory_gb : Z;
  LabletSessionAssigned_allocated_storage_gb : Z;
  LabletSessionAssigned_allocated_nodes : option Z;
  LabletSessionAssigned_assigned_at : datetime
}.

Record LabletSessionRemovedDomainEvent := {
  LabletSessionRemoved_aggregate_id : string;
  LabletSessionRemoved_session_id : string;
  LabletSessionRemoved_released_cpu_cores : Z;
  LabletSessionRemoved_released_memory_gb : Z;
  LabletSessionRemoved_released_storage_gb : Z;
  LabletSessionRemoved_released_nodes : option Z;
  LabletSessionRemoved_removed_at : datetime
}.

Record AllocatedCapacityRecalculatedDomainEvent := {
  AllocatedCapacityRecalculated_aggregate_id : string;
  AllocatedCapacityRecalculated_recalculated_cpu_cores : Z;
  AllocatedCapacityRecalculated_recalculated_memory_gb : Z;
  AllocatedCapacityRecalculated_recalculated_storage_gb : Z;
  AllocatedCapacityRecalculated_recalculated_max_nodes : option Z;
  AllocatedCapacityRecalculated_active_session_ids : list string;
  AllocatedCapacityRecalculated_stale_session_ids : list string;
  AllocatedCapacityRecalculated_recalculated_at : datetime
}.

Record CMLWorkerLabDiscoveryTriggeredDomainEvent := {
  LabDiscoveryTriggered_aggregate_id : string;
  LabDiscoveryTriggered_worker_id : string;
  LabDiscoveryTriggered_lab_ids : list string;
  LabDiscoveryTriggered_source : string;
  LabDiscoveryTriggered_triggered_at : pyval
}.

Record CMLWorkerSyncRequestedDomainEvent := {
  SyncRequested_aggregate_id : string;
  SyncRequested_worker_id : string;
  SyncRequested_requested_at : pyval;
  SyncRequested_requested_by : string;
  SyncRequested_scope : string;
  SyncRequested_include_labs : bool;
  SyncRequested_reason : string
}.

Record WorkerActivityUpdatedDomainEvent := {
  WorkerActivityUpdated_aggregate_id : string;
  WorkerActivityUpdated_last_activity_at : option datetime;
  WorkerActivityUpdated_last_activity_check_at : datetime;
  WorkerActivityUpdated_recent_activity_events : list pydict;
  WorkerActivityUpdated_next_idle_check_at : option datetime;
  WorkerActivityUpdated_target_pause_at : option datetime;
  WorkerActivityUpdated_updated_at : datetime
}.

Record WorkerPausedDomainEvent := {
  WorkerPaused_aggregate_id : string;
  WorkerPaused_pause_reason : string;
  WorkerPaused_paused_by : option string;
  WorkerPaused_paused_at : datetime;
  WorkerPaused_auto_pause_count : Z;
  WorkerPaused_manual_pause_count : Z;
  WorkerPaused_idle_duration_minutes : option float
}.

Record WorkerResumedDomainEvent := {
  WorkerResumed_aggregate_id : string;
  WorkerResumed_resume_reason : string;
  WorkerResumed_resumed_by : option string;
  WorkerResumed_resumed_at : datetime;
  WorkerResumed_auto_resume_count : Z;
  WorkerResumed_manual_resume_count : Z;
  WorkerResumed_was_auto_paused : bool
}.

Record IdleDetectionToggledDomainEvent := {
  IdleDetectionToggled_aggregate_id : string;
  IdleDetectionToggled_is_enabled : bool;
  IdleDetectionToggled_toggled_by : option string;
  IdleDetectionToggled_toggled_at : datetime
}.

Record EC2MetricsUpdatedDomainEvent := {
  EC2MetricsUpdated_aggregate_id : string;
  EC2MetricsUpdated_instance_state_detail : string;
  EC2MetricsUpdated_system_status_check : string;
  EC2MetricsUpdated_checked_at : datetime;
  EC2MetricsUpdated_updated_at : datetime
}.

Record CloudWatchMetricsUpdatedDomainEvent := {
  CloudWatchMetricsUpdated_aggregate_id : string;
  CloudWatchMetricsUpdated_cpu_utilization : float;
  CloudWatchMetricsUpdated_memory_utilization : float;
  CloudWatchMetricsUpdated_collected_at : datetime;
  CloudWatchMetricsUpdated_updated_at : datetime
}.

Record CMLMetricsUpdatedDomainEvent := {
  CMLMetricsUpdated_aggregate_id : string;
  CMLMetricsUpdated_cml_version : option string;
  CMLMetricsUpdated_system_info : pydict;
  CMLMetricsUpdated_system_health : option pydict;
  CMLMetricsUpdated_license_info : option pydict;
  CMLMetricsUpdated_ready : bool;
  CMLMetricsUpdated_uptime_seconds : option Z;
  CMLMetricsUpdated_labs_count : Z;
  CMLMetricsUpdated_synced_at : datetime;
  CMLMetricsUpdated_updated_at : datetime
}.

Record EC2InstanceDetailsUpdatedDomainEvent := {
  EC2InstanceDetailsUpdated_aggregate_id : string;
  EC2InstanceDetailsUpdated_public_ip : option string;
  EC2InstanceDetailsUpdated_private_ip : option string;
  EC2InstanceDetailsUpdated_instance_type : option string;
  EC2InstanceDetailsUpdated_ami_id : option string;
  EC2InstanceDetailsUpdated_ami_name : option string;
  EC2InstanceDetailsUpdated_ami_description : option string;
  EC2InstanceDetailsUpdated_ami_creation_date : option string;
  EC2InstanceDetailsUpdated_updated_at : datetime
}.

Record CloudWatchMonitoringUpdatedDomainEvent := {
  CloudWatchMonitoringUpdated_aggregate_id : string;
  CloudWatchMonitoringUpdated_enabled : bool;
  CloudWatchMonitoringUpdated_updated_at : datetime
}.

Inductive worker_event :=
| Created (event : CMLWorkerCreatedDomainEvent)
| DesiredStatusUpdated (event : CMLWorkerDesiredStatusUpdatedDomainEvent)
| StatusUpdated (event : CMLWorkerStatusUpdatedDomainEvent)
| CMLServiceStatusUpdated (event : CMLServiceStatusUpdatedDomainEvent)
| InstanceAssigned (event : CMLWorkerInstanceAssignedDomainEvent)
| LicenseUpdated (event : CMLWorkerLicenseUpdatedDomainEvent)
| TelemetryUpdated (event : CMLWorkerTelemetryUpdatedDomainEvent)
| EndpointUpdated (event : CMLWorkerEndpointUpdatedDomainEvent)
| Imported (event : CMLWorkerImportedDomainEvent)
| Terminated (event : CMLWorkerTerminatedDomainEvent)
| TagsUpdated (event : CMLWorkerTagsUpdatedDomainEvent)
| LicenseRegistrationRequested (event : CMLWorkerLicenseRegistrationRequestedDomainEvent)
| LicenseRegistrationStarted (event : CMLWorkerLicenseRegistrationStartedDomainEvent)
| LicenseRegistrationCompleted (event : CMLWorkerLicenseRegistrationCompletedDomainEvent)
| LicenseRegistrationFailed (event : CMLWorkerLicenseRegistrationFailedDomainEvent)
| LicenseDeregistrationRequested (event : CMLWorkerLicenseDeregistrationRequestedDomainEvent)
| LicenseDeregistrationStarted (event : CMLWorkerLicenseDeregistrationStartedDomainEvent)
| LicenseDeregistrationCompleted (event : CMLWorkerLicenseDeregistrationCompletedDomainEvent)
| LicenseDeregistrationFailed (event : CMLWorkerLicenseDeregistrationFailedDomainEvent)
| LicenseDeregistered (event : CMLWorkerLicenseDeregisteredDomainEvent)
| WorkerDataRefreshRequested (event : WorkerDataRefreshRequestedDomainEvent)
| WorkerDataRefreshSkipped (event : WorkerDataRefreshSkippedDomainEvent)
| WorkerDataRefreshCompleted (event : WorkerDataRefreshCompletedDomainEvent)
| CapacityUpdated (event : CMLWorkerCapacityUpdatedDomainEvent)
| PortsAllocated (event : CMLWorkerPortsAllocatedDomainEvent)
| PortsReleased (event : CMLWorkerPortsReleasedDomainEvent)
| LabletSessionAssigned (event : LabletSessionAssignedDomainEvent)
| LabletSessionRemoved (event : LabletSessionRemovedDomainEvent)
| AllocatedCapacityRecalculated (event : AllocatedCapacityRecalculatedDomainEvent)
| LabDiscoveryTriggered (event : CMLWorkerLabDiscoveryTriggeredDomainEvent)
| SyncRequested (event : CMLWorkerSyncRequestedDomainEvent)
| WorkerActivityUpdated (event : WorkerActivityUpdatedDomainEvent)
| WorkerPaused (event : WorkerPausedDomainEvent)
| WorkerResumed (event : WorkerResumedDomainEvent)
| IdleDetectionToggled (event : IdleDetectionToggledDomainEvent)
| EC2MetricsUpdated (event : EC2MetricsUpdatedDomainEvent)
| CloudWatchMetricsUpdated (event : CloudWatchMetricsUpdatedDomainEvent)
| CMLMetricsUpdated (event : CMLMetricsUpdatedDomainEvent)
| EC2InstanceDetailsUpdated (event : EC2InstanceDetailsUpdatedDomainEvent)
| CloudWatchMonitoringUpdated (event : CloudWatchMonitoringUpdatedDomainEvent).
