(* ===== verification/Worker.v ===== *)
(** * The CMLWorker aggregate ([control-plane-api/domain/entities/cml_worker.py])

    The persisted state, one handler per domain event ([on_...], dispatched by
    [on]), and the methods of the aggregate root, as in [LabletSession].
    Differences in the source: no command checks the table of transitions (an
    unexpected change of status is logged and made), and [request_refresh] and
    [clear_refresh_request] write the state without an event.  Not modelled:
    [get_effective_endpoint], which rewrites a URL. *)
From S2P Require Import Prelude PySort PyFloat PyData PyNum Enums Lifecycle WorkerValues Ports WorkerEvents.
Import WorkerStatus.

(** ** State

    [poll_interval] and [next_refresh_at] have no value until telemetry sets
    them, which is [None] here. *)
Record CMLWorkerState := {
  id : string;
  name : string;
  aws_region : string;
  aws_instance_id : option string;
  instance_type : option string;
  ami_id : option string;
  ami_name : option string;
  ami_description : option string;
  ami_creation_date : option string;
  status : CMLWorkerStatus;
  desired_status : CMLWorkerStatus;
  service_status : ServiceStatus.CMLServiceStatus;
  https_endpoint : option string;
  metrics : CMLMetrics;
  license : CMLLicense;
  public_ip : option string;
  private_ip : option string;
  aws_tags : dict string;
  ec2_instance_state_detail : option string;
  ec2_system_status_check : option string;
  ec2_last_checked_at : option datetime;
  cloudwatch_cpu_utilization : option float;
  cloudwatch_memory_utilization : option float;
  cloudwatch_last_collected_at : option datetime;
  cloudwatch_detailed_monitoring_enabled : bool;
  poll_interval : option Z;
  next_refresh_at : option datetime;
  refresh_requested_at : option datetime;
  created_at : datetime;
  updated_at : datetime;
  terminated_at : option datetime;
  start_initiated_at : option datetime;
  stop_initiated_at : option datetime;
  last_activity_at : option datetime;
  last_activity_check_at : option datetime;
  recent_activity_events : list pydict;
  auto_pause_count : Z;
  manual_pause_count : Z;
  auto_resume_count : Z;
  manual_resume_count : Z;
  last_paused_at : option datetime;
  last_resumed_at : option datetime;
  paused_by : option string;
  pause_reason : option string;
  next_idle_check_at : option datetime;
  target_pause_at : option datetime;
  is_idle_detection_enabled : bool;
  ws_connected : bool;
  created_by : option string;
  terminated_by : option string;
  origin : Origin.WorkerOrigin;
  template_name : option string;
  declared_capacity : option WorkerCapacity;
  allocated_capacity : WorkerCapacity;
  port_allocations : list PortAllocation;
  session_ids : list string;
  state_history : list pydict;
  resource_type : string;
  owner_id : string;
  pipeline_progress : option pydict;
  timeslot : option pydict;
  lifecycle : option pydict;
  started_at : option datetime;
  ended_at : option datetime;
  duration_seconds : option Z
}.

#[export] Instance eta_worker : Eta CMLWorkerState := fun s => {|
  id := s.(id);
  name := s.(name);
  aws_region := s.(aws_region);
  aws_instance_id := s.(aws_instance_id);
  instance_type := s.(instance_type);
  ami_id := s.(ami_id);
  ami_name := s.(ami_name);
  ami_description := s.(ami_description);
  ami_creation_date := s.(ami_creation_date);
  status := s.(status);
  desired_status := s.(desired_status);
  service_status := s.(service_status);
  https_endpoint := s.(https_endpoint);
  metrics := s.(metrics);
  license := s.(license);
  public_ip := s.(public_ip);
  private_ip := s.(private_ip);
  aws_tags := s.(aws_tags);
  ec2_instance_state_detail := s.(ec2_instance_state_detail);
  ec2_system_status_check := s.(ec2_system_status_check);
  ec2_last_checked_at := s.(ec2_last_checked_at);
  cloudwatch_cpu_utilization := s.(cloudwatch_cpu_utilization);
  cloudwatch_memory_utilization := s.(cloudwatch_memory_utilization);
  cloudwatch_last_collected_at := s.(cloudwatch_last_collected_at);
  cloudwatch_detailed_monitoring_enabled := s.(cloudwatch_detailed_monitoring_enabled);
  poll_interval := s.(poll_interval);
  next_refresh_at := s.(next_refresh_at);
  refresh_requested_at := s.(refresh_requested_at);
  created_at := s.(created_at);
  updated_at := s.(updated_at);
  terminated_at := s.(terminated_at);
  start_initiated_at := s.(start_initiated_at);
  stop_initiated_at := s.(stop_initiated_at);
  last_activity_at := s.(last_activity_at);
  last_activity_check_at := s.(last_activity_check_at);
  recent_activity_events := s.(recent_activity_events);
  auto_pause_count := s.(auto_pause_count);
  manual_pause_count := s.(manual_pause_count);
  auto_resume_count := s.(auto_resume_count);
  manual_resume_count := s.(manual_resume_count);
  last_paused_at := s.(last_paused_at);
  last_resumed_at := s.(last_resumed_at);
  paused_by := s.(paused_by);
  pause_reason := s.(pause_reason);
  next_idle_check_at := s.(next_idle_check_at);
  target_pause_at := s.(target_pause_at);
  is_idle_detection_enabled := s.(is_idle_detection_enabled);
  ws_connected := s.(ws_connected);
  created_by := s.(created_by);
  terminated_by := s.(terminated_by);
  origin := s.(origin);
  template_name := s.(template_name);
  declared_capacity := s.(declared_capacity);
  allocated_capacity := s.(allocated_capacity);
  port_allocations := s.(port_allocations);
  session_ids := s.(session_ids);
  state_history := s.(state_history);
  resource_type := s.(resource_type);
  owner_id := s.(owner_id);
  pipeline_progress := s.(pipeline_progress);
  timeslot := s.(timeslot);
  lifecycle := s.(lifecycle);
  started_at := s.(started_at);
  ended_at := s.(ended_at);
  duration_seconds := s.(duration_seconds)
|}.

(** [CMLWorkerState.__init__], with the clock reading [t]. *)
Definition init_state (t : datetime) : CMLWorkerState := {|
  id := ""; name := ""; aws_region := ""; aws_instance_id := None; instance_type := Some ""; ami_id := None;
  ami_name := None; ami_description := None; ami_creation_date := None; status := PENDING;
  desired_status := RUNNING; service_status := ServiceStatus.UNAVAILABLE; https_endpoint := None;
  metrics := new_metrics; license := new_license; public_ip := None; private_ip := None; aws_tags := [];
  ec2_instance_state_detail := None; ec2_system_status_check := None; ec2_last_checked_at := None;
  cloudwatch_cpu_utilization := None; cloudwatch_memory_utilization := None;
  cloudwatch_last_collected_at := None; cloudwatch_detailed_monitoring_enabled := false;
  poll_interval := None; next_refresh_at := None; refresh_requested_at := None; created_at := t;
  updated_at := t; terminated_at := None; start_initiated_at := None; stop_initiated_at := None;
  last_activity_at := None; last_activity_check_at := None; recent_activity_events := [];
  auto_pause_count := 0; manual_pause_count := 0; auto_resume_count := 0; manual_resume_count := 0;
  last_paused_at := None; last_resumed_at := None; paused_by := None; pause_reason := None;
  next_idle_check_at := None; target_pause_at := None; is_idle_detection_enabled := true;
  ws_connected := false; created_by := None; terminated_by := None; origin := Origin.UNKNOWN;
  template_name := None; declared_capacity := None; allocated_capacity := zero; port_allocations := [];
  session_ids := []; state_history := []; resource_type := "cml_worker"; owner_id := "";
  pipeline_progress := None; timeslot := None; lifecycle := None; started_at := None; ended_at := None;
  duration_seconds := None
|}.

(** ** State helpers *)

(** [TimedResourceState._compute_duration] *)
Definition compute_duration (s : CMLWorkerState) : res CMLWorkerState :=
  match s.(started_at), s.(ended_at) with
  | Some st, Some en =>
      d ← dt_sub (dt_to_utc en) (dt_to_utc st); Ok (s <| duration_seconds := Some d |>)
  | _, _ => Ok s
  end.

(** [_record_transition] *)
Definition record_transition (c : clock) (from_state : option string) (to_state triggered_by : string)
    (reason : option string) (metadata : option pydict) (s : CMLWorkerState) : CMLWorkerState :=
  let transition := {|
    st_from_state := from_state; st_to_state := to_state; st_transitioned_at := c.(now_hist);
    st_triggered_by := triggered_by; st_reason := reason; st_metadata := metadata |} in
  s <| state_history := s.(state_history) ++ [StateTransition_to_dict transition] |>
    <| updated_at := c.(now_upd) |>.

(** The worker's lifecycle at a phase. *)
Definition lifecycle_at (phase : option string) : pydict :=
  ManagedLifecycle_to_dict {| ml_phases := ml_phases CML_WORKER_LIFECYCLE; ml_current_phase := phase |}.

(** ** Event handlers *)

Definition on_Created (c : clock) (event : CMLWorkerCreatedDomainEvent) (s : CMLWorkerState) : res CMLWorkerState :=
  let s := s <| id := event.(Created_aggregate_id) |>
             <| name := event.(Created_name) |>
             <| aws_region := event.(Created_aws_region) |>
             <| aws_instance_id := event.(Created_aws_instance_id) |>
             <| instance_type := Some event.(Created_instance_type) |>
             <| ami_id := event.(Created_ami_id) |>
             <| ami_name := event.(Created_ami_name) |>
             <| ami_description := event.(Created_ami_description) |>
             <| ami_creation_date := event.(Created_ami_creation_date) |>
             <| status := event.(Created_status) |>
             <| desired_status := event.(Created_desired_status) |>
             <| metrics := s.(metrics) <| version := event.(Created_cml_version) |> |>
             <| created_at := event.(Created_created_at) |>
             <| updated_at := event.(Created_created_at) |>
             <| created_by := event.(Created_created_by) |>
             <| origin := event.(Created_origin) |>
             <| started_at := Some event.(Created_created_at) |>
             <| lifecycle := Some (lifecycle_at (Some "provision")) |> in
  Ok (record_transition c None (CMLWorkerStatus_value event.(Created_status))
        (ostr_or event.(Created_created_by) "system") (Some "Worker created")
        (Some [("origin", PStr (Origin.WorkerOrigin_value event.(Created_origin)));
               ("instance_type", PStr event.(Created_instance_type));
               ("ami_name", of_ostr event.(Created_ami_name))]) s).

(** The statuses an EC2 instance state stands for: actual and desired. *)
Definition status_of_instance (instance_state : string) : CMLWorkerStatus * CMLWorkerStatus :=
  if String.eqb instance_state "running" then (RUNNING, RUNNING)
  else if String.eqb instance_state "stopped" then (STOPPED, STOPPED)
  else if String.eqb instance_state "stopping" then (STOPPING, STOPPED)
  else if String.eqb instance_state "pending" then (PENDING, RUNNING)
  else (UNKNOWN, RUNNING).

Definition import_phase (status : CMLWorkerStatus) : option string :=
  match status with RUNNING => Some "monitor_resources" | STOPPED => None | _ => Some "provision" end.

Definition on_Imported (c : clock) (event : CMLWorkerImportedDomainEvent) (s : CMLWorkerState) : res CMLWorkerState :=
  let '(actual, desired) := status_of_instance event.(Imported_instance_state) in
  let s := s <| id := event.(Imported_aggregate_id) |>
             <| name := event.(Imported_name) |>
             <| aws_region := event.(Imported_aws_region) |>
             <| aws_instance_id := Some event.(Imported_aws_instance_id) |>
             <| instance_type := Some event.(Imported_instance_type) |>
             <| ami_id := Some event.(Imported_ami_id) |>
             <| ami_name := event.(Imported_ami_name) |>
             <| ami_description := event.(Imported_ami_description) |>
             <| ami_creation_date := event.(Imported_ami_creation_date) |>
             <| public_ip := event.(Imported_public_ip) |>
             <| private_ip := event.(Imported_private_ip) |>
             <| created_at := event.(Imported_created_at) |>
             <| updated_at := event.(Imported_created_at) |>
             <| created_by := event.(Imported_created_by) |>
             <| origin := event.(Imported_origin) |>
             <| status := actual |>
             <| desired_status := desired |>
             <| started_at := Some event.(Imported_created_at) |>
             <| lifecycle := Some (lifecycle_at (import_phase actual)) |> in
  Ok (record_transition c None (CMLWorkerStatus_value actual)
        (ostr_or event.(Imported_created_by) "system") (Some "Worker imported from existing EC2 instance")
        (Some [("origin", PStr (Origin.WorkerOrigin_value event.(Imported_origin)));
               ("instance_state", PStr event.(Imported_instance_state));
               ("ami_id", PStr event.(Imported_ami_id));
               ("ami_name", of_ostr event.(Imported_ami_name))]) s).

Definition on_StatusUpdated (c : clock) (event : CMLWorkerStatusUpdatedDomainEvent) (s : CMLWorkerState)
    : res CMLWorkerState :=
  let new_status := event.(StatusUpdated_new_status) in
  let initiated := default event.(StatusUpdated_updated_at) event.(StatusUpdated_transition_initiated_at) in
  let s := s <| status := new_status |> <| updated_at := event.(StatusUpdated_updated_at) |> in
  let s := record_transition c (Some (CMLWorkerStatus_value event.(StatusUpdated_old_status)))
             (CMLWorkerStatus_value new_status) "system" None None s in
  Ok (match new_status with
      | PENDING => s <| start_initiated_at := Some initiated |>
      | RUNNING => s <| start_initiated_at := None |>
      | STOPPING => s <| stop_initiated_at := Some initiated |>
                      <| service_status := ServiceStatus.UNAVAILABLE |>
      | STOPPED => s <| stop_initiated_at := None |>
                     <| public_ip := None |> <| private_ip := None |> <| https_endpoint := None |>
                     <| service_status := ServiceStatus.UNAVAILABLE |>
                     <| cloudwatch_cpu_utilization := None |>
                     <| cloudwatch_memory_utilization := None |>
                     <| cloudwatch_last_collected_at := None |>
                     <| metrics := new_metrics |>
      | _ => s
      end).

Definition on_DesiredStatusUpdated (event : CMLWorkerDesiredStatusUpdatedDomainEvent) (s : CMLWorkerState)
    : res CMLWorkerState :=
  Ok (s <| desired_status := event.(DesiredStatusUpdated_new_desired_status) |>
        <| updated_at := event.(DesiredStatusUpdated_updated_at) |>).

Definition on_CMLServiceStatusUpdated (event : CMLServiceStatusUpdatedDomainEvent) (s : CMLWorkerState)
    : res CMLWorkerState :=
  let s := s <| service_status := event.(CMLServiceStatusUpdated_new_service_status) |> in
  let s := if ostr_truthy event.(CMLServiceStatusUpdated_https_endpoint)
           then s <| https_endpoint := event.(CMLServiceStatusUpdated_https_endpoint) |> else s in
  Ok (s <| updated_at := event.(CMLServiceStatusUpdated_updated_at) |>).

Definition on_InstanceAssigned (event : CMLWorkerInstanceAssignedDomainEvent) (s : CMLWorkerState)
    : res CMLWorkerState :=
  Ok (s <| aws_instance_id := Some event.(InstanceAssigned_aws_instance_id) |>
        <| public_ip := event.(InstanceAssigned_public_ip) |>
        <| private_ip := event.(InstanceAssigned_private_ip) |>
        <| updated_at := event.(InstanceAssigned_assigned_at) |>).

Definition on_LicenseUpdated (event : CMLWorkerLicenseUpdatedDomainEvent) (s : CMLWorkerState) : res CMLWorkerState :=
  Ok (s <| license := s.(license) <| l_status := event.(LicenseUpdated_license_status) |>
                                  <| token := event.(LicenseUpdated_license_token) |> |>
        <| updated_at := event.(LicenseUpdated_updated_at) |>).

Definition on_EC2MetricsUpdated (event : EC2MetricsUpdatedDomainEvent) (s : CMLWorkerState) : res CMLWorkerState :=
  Ok (s <| ec2_instance_state_detail := Some event.(EC2MetricsUpdated_instance_state_detail) |>
        <| ec2_system_status_check := Some event.(EC2MetricsUpdated_system_status_check) |>
        <| ec2_last_checked_at := Some event.(EC2MetricsUpdated_checked_at) |>
        <| updated_at := event.(EC2MetricsUpdated_updated_at) |>).

Definition on_EC2InstanceDetailsUpdated (event : EC2InstanceDetailsUpdatedDomainEvent) (s : CMLWorkerState)
    : res CMLWorkerState :=
  Ok (s <| public_ip := event.(EC2InstanceDetailsUpdated_public_ip) |>
        <| private_ip := event.(EC2InstanceDetailsUpdated_private_ip) |>
        <| instance_type := event.(EC2InstanceDetailsUpdated_instance_type) |>
        <| ami_id := event.(EC2InstanceDetailsUpdated_ami_id) |>
        <| ami_name := event.(EC2InstanceDetailsUpdated_ami_name) |>
        <| ami_description := event.(EC2InstanceDetailsUpdated_ami_description) |>
        <| ami_creation_date := event.(EC2InstanceDetailsUpdated_ami_creation_date) |>
        <| updated_at := event.(EC2InstanceDetailsUpdated_updated_at) |>).

Definition on_CloudWatchMetricsUpdated (event : CloudWatchMetricsUpdatedDomainEvent) (s : CMLWorkerState)
    : res CMLWorkerState :=
  Ok (s <| cloudwatch_cpu_utilization := Some event.(CloudWatchMetricsUpdated_cpu_utilization) |>
        <| cloudwatch_memory_utilization := Some event.(CloudWatchMetricsUpdated_memory_utilization) |>
        <| cloudwatch_last_collected_at := Some event.(CloudWatchMetricsUpdated_collected_at) |>
        <| updated_at := event.(CloudWatchMetricsUpdated_updated_at) |>).

(** *** Metrics of the CML application *)

(** [v.get(k, d)] *)
Definition attr_get (k : string) (d v : pyval) : res pyval :=
  match v with PDict v => Ok (pd_get_or k d v) | _ => Err (no_attribute "get") end.

(** [f(v) if v else None] *)
Definition when_truthy {A} (f : pyval -> res A) (v : pyval) : res (option A) :=
  if truthy v then a ← f v; Ok (Some a) else Ok None.

Definition parse_cpu (v : pyval) : res CpuStats :=
  load ← attr_get "load" (PList []) v;
  count ← attr_get "count" PNone v;
  percent ← attr_get "percent" PNone v;
  model ← attr_get "model" PNone v;
  predicted ← attr_get "predicted" PNone v;
  Ok {| load := load; count := count; percent := percent; model := model; predicted := predicted |}.

Definition parse_memory (v : pyval) : res MemoryStats :=
  total ← attr_get "total" PNone v;
  free ← attr_get "free" PNone v;
  used ← attr_get "used" PNone v;
  Ok {| m_total := total; m_free := free; m_used := used |}.

Definition parse_disk (v : pyval) : res DiskStats :=
  total ← attr_get "total" PNone v;
  free ← attr_get "free" PNone v;
  used ← attr_get "used" PNone v;
  Ok {| d_total := total; d_free := free; d_used := used |}.

Definition parse_dominfo (v : pyval) : res DomInfoStats :=
  cpus ← attr_get "allocated_cpus" PNone v;
  memory ← attr_get "allocated_memory" PNone v;
  nodes ← attr_get "total_nodes" PNone v;
  orphans ← attr_get "total_orphans" PNone v;
  running ← attr_get "running_nodes" PNone v;
  running_orphans ← attr_get "running_orphans" PNone v;
  Ok {| di_allocated_cpus := cpus; di_allocated_memory := memory; di_total_nodes := nodes;
        di_total_orphans := orphans; di_running_nodes := running; di_running_orphans := running_orphans |}.

Definition parse_stats (stats_data : pyval) : res CMLSystemInfoComputeStats :=
  cpu_data ← attr_get "cpu" (PDict []) stats_data;
  mem_data ← attr_get "memory" (PDict []) stats_data;
  disk_data ← attr_get "disk" (PDict []) stats_data;
  dom_data ← attr_get "dominfo" (PDict []) stats_data;
  cpu ← when_truthy parse_cpu cpu_data;
  memory ← when_truthy parse_memory mem_data;
  disk ← when_truthy parse_disk disk_data;
  dominfo ← when_truthy parse_dominfo dom_data;
  Ok {| cpu := cpu; memory := memory; disk := disk; dominfo := dominfo |}.

(** The loop over the computes; an entry that is not a dict is skipped. *)
Fixpoint parse_computes (raw : pydict) : res (dict CMLSystemInfoCompute) :=
  match raw with
  | [] => Ok []
  | (compute_id, PDict compute_data) :: raw =>
      stats ← when_truthy parse_stats (pd_get_or "stats" (PDict []) compute_data);
      rest ← parse_computes raw;
      Ok ((compute_id, {| hostname := pd_get "hostname" compute_data;
                          is_controller := pd_get "is_controller" compute_data; stats := stats |}) :: rest)
  | _ :: raw => parse_computes raw
  end.

Definition parse_system_info (info : pydict) : res CMLSystemInfo :=
  computes ← match pd_get_or "computes" (PDict []) info with PDict raw => parse_computes raw | _ => Ok [] end;
  Ok {| cpu_count := pd_get "all_cpu_count" info; cpu_utilization := pd_get "all_cpu_percent" info;
        memory_total := pd_get "all_memory_total" info; memory_free := pd_get "all_memory_free" info;
        memory_used := pd_get "all_memory_used" info; disk_total := pd_get "all_disk_total" info;
        disk_free := pd_get "all_disk_free" info; disk_used := pd_get "all_disk_used" info;
        controller_disk_total := pd_get "controller_disk_total" info;
        controller_disk_free := pd_get "controller_disk_free" info;
        controller_disk_used := pd_get "controller_disk_used" info;
        allocated_cpus := pd_get "allocated_cpus" info; allocated_memory := pd_get "allocated_memory" info;
        total_nodes := pd_get "total_nodes" info; running_nodes := pd_get "running_nodes" info;
        computes := Parsed computes |}.

Definition parse_system_health (health : pydict) : CMLSystemHealth :=
  {| valid := pd_get_or "valid" (PBool false) health;
     is_licensed := pd_get_or "is_licensed" (PBool false) health;
     is_enterprise := pd_get_or "is_enterprise" (PBool false) health;
     h_computes := pd_get_or "computes" (PDict []) health;
     controller := pd_get_or "controller" (PDict []) health |}.

(** The registration status in the license information, flat or nested. *)
Definition registration_status (info : pydict) : pyval :=
  let reg_status := pd_get "registration_status" info in
  if truthy reg_status then reg_status
  else match pd_get "registration" info with PDict r => pd_get "status" r | _ => reg_status end.

Definition sync_license (info : pydict) (l : CMLLicense) : res CMLLicense :=
  let reg_status := registration_status info in
  if truthy reg_status then
    match reg_status with
    | PStr r =>
        let r := py_upper r in
        let new_status :=
          if String.eqb r "COMPLETED" || String.eqb r "REGISTERED" then LicenseState.REGISTERED
          else if String.eqb r "EVALUATION" then LicenseState.EVALUATION
          else l_status l in
        Ok (l <| l_status := new_status |> <| raw_info := Some info |>)
    | PIso _ => Ok (l <| raw_info := Some info |>)
    | _ => Err (no_attribute "upper")
    end
  else Ok (l <| raw_info := Some info |>).

Definition on_CMLMetricsUpdated (event : CMLMetricsUpdatedDomainEvent) (s : CMLWorkerState) : res CMLWorkerState :=
  info ← parse_system_info event.(CMLMetricsUpdated_system_info);
  let health := parse_system_health (default [] event.(CMLMetricsUpdated_system_health)) in
  let s := s <| metrics := {| version := event.(CMLMetricsUpdated_cml_version);
                              ready := event.(CMLMetricsUpdated_ready);
                              uptime_seconds := event.(CMLMetricsUpdated_uptime_seconds);
                              labs_count := event.(CMLMetricsUpdated_labs_count);
                              system_info := Some info; system_health := Some health;
                              last_synced_at := Some event.(CMLMetricsUpdated_synced_at) |} |>
             <| updated_at := event.(CMLMetricsUpdated_updated_at) |> in
  match event.(CMLMetricsUpdated_license_info) with
  | Some ((_ :: _) as license_info) =>
      l ← sync_license license_info s.(license); Ok (s <| license := l |>)
  | _ => Ok s
  end.

Definition on_TelemetryUpdated (event : CMLWorkerTelemetryUpdatedDomainEvent) (s : CMLWorkerState)
    : res CMLWorkerState :=
  let s := s <| updated_at := event.(TelemetryUpdated_updated_at) |> in
  let s := match event.(TelemetryUpdated_poll_interval) with
           | Some n => s <| poll_interval := Some n |> | None => s end in
  Ok (match event.(TelemetryUpdated_next_refresh_at) with
      | Some t => s <| next_refresh_at := Some t |> | None => s end).

Definition on_EndpointUpdated (event : CMLWorkerEndpointUpdatedDomainEvent) (s : CMLWorkerState)
    : res CMLWorkerState :=
  let s := s <| https_endpoint := event.(EndpointUpdated_https_endpoint) |> in
  let s := if ostr_truthy event.(EndpointUpdated_public_ip)
           then s <| public_ip := event.(EndpointUpdated_public_ip) |> else s in
  Ok (s <| updated_at := event.(EndpointUpdated_updated_at) |>).

Definition on_Terminated (c : clock) (event : CMLWorkerTerminatedDomainEvent) (s : CMLWorkerState)
    : res CMLWorkerState :=
  let previous_status := CMLWorkerStatus_value s.(status) in
  s ← compute_duration (s <| status := TERMINATED |>
                          <| service_status := ServiceStatus.UNAVAILABLE |>
                          <| terminated_at := Some event.(Terminated_terminated_at) |>
                          <| terminated_by := event.(Terminated_terminated_by) |>
                          <| updated_at := event.(Terminated_terminated_at) |>
                          <| ended_at := Some event.(Terminated_terminated_at) |>);
  Ok (record_transition c (Some previous_status) (CMLWorkerStatus_value TERMINATED)
        (ostr_or event.(Terminated_terminated_by) "system") (Some "Worker terminated") None s).

Definition on_TagsUpdated (event : CMLWorkerTagsUpdatedDomainEvent) (s : CMLWorkerState) : res CMLWorkerState :=
  Ok (s <| aws_tags := event.(TagsUpdated_aws_tags) |> <| updated_at := event.(TagsUpdated_updated_at) |>).

(** *** License operations *)

Definition on_LicenseRegistrationRequested (event : CMLWorkerLicenseRegistrationRequestedDomainEvent)
    (s : CMLWorkerState) : res CMLWorkerState :=
  let s := s <| license := s.(license)
                  <| pending_token := Some event.(LicenseRegistrationRequested_license_token) |>
                  <| pending_operation := Some "register" |> |> in
  t ← fromisoformat event.(LicenseRegistrationRequested_requested_at); Ok (s <| updated_at := t |>).

Definition on_LicenseRegistrationStarted (event : CMLWorkerLicenseRegistrationStartedDomainEvent)
    (s : CMLWorkerState) : res CMLWorkerState :=
  let s := s <| license := s.(license) <| operation_in_progress := true |> |> in
  t ← fromisoformat event.(LicenseRegistrationStarted_started_at); Ok (s <| updated_at := t |>).

Definition on_LicenseRegistrationCompleted (event : CMLWorkerLicenseRegistrationCompletedDomainEvent)
    (s : CMLWorkerState) : res CMLWorkerState :=
  let l := s.(license) in
  let s := s <| license := l <| l_status := LicenseState.REGISTERED |>
                             <| token := pending_token l |>
                             <| pending_token := None |>
                             <| pending_operation := None |>
                             <| operation_in_progress := false |> |> in
  t ← fromisoformat event.(LicenseRegistrationCompleted_completed_at); Ok (s <| updated_at := t |>).

Definition on_LicenseRegistrationFailed (event : CMLWorkerLicenseRegistrationFailedDomainEvent)
    (s : CMLWorkerState) : res CMLWorkerState :=
  let s := s <| license := s.(license) <| pending_token := None |>
                                       <| pending_operation := None |>
                                       <| operation_in_progress := false |> |> in
  t ← fromisoformat event.(LicenseRegistrationFailed_failed_at); Ok (s <| updated_at := t |>).

Definition on_LicenseDeregistrationRequested (event : CMLWorkerLicenseDeregistrationRequestedDomainEvent)
    (s : CMLWorkerState) : res CMLWorkerState :=
  let s := s <| license := s.(license) <| pending_operation := Some "deregister" |> |> in
  t ← fromisoformat event.(LicenseDeregistrationRequested_requested_at); Ok (s <| updated_at := t |>).

Definition on_LicenseDeregistrationStarted (event : CMLWorkerLicenseDeregistrationStartedDomainEvent)
    (s : CMLWorkerState) : res CMLWorkerState :=
  let s := s <| license := s.(license) <| operation_in_progress := true |> |> in
  t ← fromisoformat event.(LicenseDeregistrationStarted_started_at); Ok (s <| updated_at := t |>).

Definition on_LicenseDeregistrationCompleted (event : CMLWorkerLicenseDeregistrationCompletedDomainEvent)
    (s : CMLWorkerState) : res CMLWorkerState :=
  let s := s <| license := s.(license) <| l_status := LicenseState.UNREGISTERED |>
                                       <| token := None |>
                                       <| pending_token := None |>
                                       <| pending_operation := None |>
                                       <| operation_in_progress := false |> |> in
  t ← fromisoformat event.(LicenseDeregistrationCompleted_completed_at); Ok (s <| updated_at := t |>).

Definition on_LicenseDeregistrationFailed (event : CMLWorkerLicenseDeregistrationFailedDomainEvent)
    (s : CMLWorkerState) : res CMLWorkerState :=
  let s := s <| license := s.(license) <| pending_operation := None |>
                                       <| operation_in_progress := false |> |> in
  t ← fromisoformat event.(LicenseDeregistrationFailed_failed_at); Ok (s <| updated_at := t |>).

Definition on_LicenseDeregistered (event : CMLWorkerLicenseDeregisteredDomainEvent) (s : CMLWorkerState)
    : res CMLWorkerState :=
  let s := s <| license := s.(license) <| l_status := LicenseState.UNREGISTERED |> <| raw_info := None |> |> in
  t ← fromisoformat event.(LicenseDeregistered_deregistered_at);
  let s := s <| updated_at := t |> in
  Ok (match system_health s.(metrics) with
      | Some health =>
          let new_health := health <| is_licensed := PBool false |> <| is_enterprise := PBool false |> in
          s <| metrics := s.(metrics) <| system_health := Some new_health |> |>
      | None => s
      end).

(** *** Activity, pauses and idle detection *)

Definition on_CloudWatchMonitoringUpdated (event : CloudWatchMonitoringUpdatedDomainEvent) (s : CMLWorkerState)
    : res CMLWorkerState :=
  Ok (s <| cloudwatch_detailed_monitoring_enabled := event.(CloudWatchMonitoringUpdated_enabled) |>
        <| updated_at := event.(CloudWatchMonitoringUpdated_updated_at) |>).

Definition on_WorkerActivityUpdated (event : WorkerActivityUpdatedDomainEvent) (s : CMLWorkerState)
    : res CMLWorkerState :=
  let s := match event.(WorkerActivityUpdated_last_activity_at) with
           | Some t => s <| last_activity_at := Some t |> | None => s end in
  Ok (s <| last_activity_check_at := Some event.(WorkerActivityUpdated_last_activity_check_at) |>
        <| recent_activity_events := event.(WorkerActivityUpdated_recent_activity_events) |>
        <| next_idle_check_at := event.(WorkerActivityUpdated_next_idle_check_at) |>
        <| target_pause_at := event.(WorkerActivityUpdated_target_pause_at) |>
        <| updated_at := event.(WorkerActivityUpdated_updated_at) |>).

Definition on_WorkerPaused (event : WorkerPausedDomainEvent) (s : CMLWorkerState) : res CMLWorkerState :=
  Ok (s <| pause_reason := Some event.(WorkerPaused_pause_reason) |>
        <| paused_by := event.(WorkerPaused_paused_by) |>
        <| last_paused_at := Some event.(WorkerPaused_paused_at) |>
        <| auto_pause_count := event.(WorkerPaused_auto_pause_count) |>
        <| manual_pause_count := event.(WorkerPaused_manual_pause_count) |>
        <| target_pause_at := None |>
        <| updated_at := event.(WorkerPaused_paused_at) |>).

Definition on_WorkerResumed (event : WorkerResumedDomainEvent) (s : CMLWorkerState) : res CMLWorkerState :=
  let s := s <| last_resumed_at := Some event.(WorkerResumed_resumed_at) |>
             <| auto_resume_count := event.(WorkerResumed_auto_resume_count) |>
             <| manual_resume_count := event.(WorkerResumed_manual_resume_count) |>
             <| target_pause_at := None |> in
  let s := if event.(WorkerResumed_was_auto_paused)
           then s <| pause_reason := None |> <| paused_by := None |> else s in
  Ok (s <| updated_at := event.(WorkerResumed_resumed_at) |>).

Definition on_IdleDetectionToggled (event : IdleDetectionToggledDomainEvent) (s : CMLWorkerState)
    : res CMLWorkerState :=
  Ok (s <| is_idle_detection_enabled := event.(IdleDetectionToggled_is_enabled) |>
        <| updated_at := event.(IdleDetectionToggled_toggled_at) |>).

(** *** Capacity, ports and sessions *)

Definition on_CapacityUpdated (event : CMLWorkerCapacityUpdatedDomainEvent) (s : CMLWorkerState)
    : res CMLWorkerState :=
  capacity ← mk_capacity event.(CapacityUpdated_declared_capacity_cpu_cores)
               event.(CapacityUpdated_declared_capacity_memory_gb)
               event.(CapacityUpdated_declared_capacity_storage_gb)
               event.(CapacityUpdated_declared_capacity_max_nodes);
  Ok (s <| template_name := event.(CapacityUpdated_template_name) |>
        <| declared_capacity := Some capacity |>
        <| updated_at := event.(CapacityUpdated_updated_at) |>).

Definition on_PortsAllocated (event : CMLWorkerPortsAllocatedDomainEvent) (s : CMLWorkerState)
    : res CMLWorkerState :=
  allocation ← PortAllocation_post_init
                 {| pa_session_id := event.(PortsAllocated_session_id); pa_ports := event.(PortsAllocated_ports);
                    pa_allocated_at := event.(PortsAllocated_allocated_at) |};
  Ok (s <| port_allocations := s.(port_allocations) ++ [allocation] |>
        <| updated_at := event.(PortsAllocated_allocated_at) |>).

Definition on_PortsReleased (event : CMLWorkerPortsReleasedDomainEvent) (s : CMLWorkerState) : res CMLWorkerState :=
  Ok (s <| port_allocations :=
             List.filter (fun a => negb (String.eqb (pa_session_id a) event.(PortsReleased_session_id)))
               s.(port_allocations) |>
        <| updated_at := event.(PortsReleased_released_at) |>).

Definition on_LabletSessionAssigned (event : LabletSessionAssignedDomainEvent) (s : CMLWorkerState)
    : res CMLWorkerState :=
  let session := event.(LabletSessionAssigned_session_id) in
  let s := if bool_decide (session ∈ s.(session_ids)) then s
           else s <| session_ids := s.(session_ids) ++ [session] |> in
  session_capacity ← mk_capacity event.(LabletSessionAssigned_allocated_cpu_cores)
                       event.(LabletSessionAssigned_allocated_memory_gb)
                       event.(LabletSessionAssigned_allocated_storage_gb)
                       event.(LabletSessionAssigned_allocated_nodes);
  allocated ← add s.(allocated_capacity) session_capacity;
  Ok (s <| allocated_capacity := allocated |> <| updated_at := event.(LabletSessionAssigned_assigned_at) |>).

Definition on_LabletSessionRemoved (event : LabletSessionRemovedDomainEvent) (s : CMLWorkerState)
    : res CMLWorkerState :=
  let s := s <| session_ids :=
                  List.filter (fun sid => negb (String.eqb sid event.(LabletSessionRemoved_session_id)))
                    s.(session_ids) |> in
  released ← mk_capacity event.(LabletSessionRemoved_released_cpu_cores)
               event.(LabletSessionRemoved_released_memory_gb)
               event.(LabletSessionRemoved_released_storage_gb)
               event.(LabletSessionRemoved_released_nodes);
  let a := s.(allocated_capacity) in
  allocated ← mk_capacity (Z.max 0 (cpu_cores a - cpu_cores released))
                (Z.max 0 (memory_gb a - memory_gb released))
                (Z.max 0 (storage_gb a - storage_gb released))
                (match max_nodes a with
                 | Some n => Some (Z.max 0 (n - oint0 (max_nodes released))) | None => None end);
  Ok (s <| allocated_capacity := allocated |> <| updated_at := event.(LabletSessionRemoved_removed_at) |>).

Definition on_AllocatedCapacityRecalculated (event : AllocatedCapacityRecalculatedDomainEvent) (s : CMLWorkerState)
    : res CMLWorkerState :=
  let s := s <| session_ids := event.(AllocatedCapacityRecalculated_active_session_ids) |> in
  allocated ← mk_capacity event.(AllocatedCapacityRecalculated_recalculated_cpu_cores)
                event.(AllocatedCapacityRecalculated_recalculated_memory_gb)
                event.(AllocatedCapacityRecalculated_recalculated_storage_gb)
                event.(AllocatedCapacityRecalculated_recalculated_max_nodes);
  Ok (s <| allocated_capacity := allocated |>
        <| updated_at := event.(AllocatedCapacityRecalculated_recalculated_at) |>).

(** The handler of an event; the last five only notify. *)
Definition on (c : clock) (ev : worker_event) (s : CMLWorkerState) : res CMLWorkerState :=
  match ev with
  | Created e => on_Created c e s
  | Imported e => on_Imported c e s
  | StatusUpdated e => on_StatusUpdated c e s
  | DesiredStatusUpdated e => on_DesiredStatusUpdated e s
  | CMLServiceStatusUpdated e => on_CMLServiceStatusUpdated e s
  | InstanceAssigned e => on_InstanceAssigned e s
  | LicenseUpdated e => on_LicenseUpdated e s
  | EC2MetricsUpdated e => on_EC2MetricsUpdated e s
  | EC2InstanceDetailsUpdated e => on_EC2InstanceDetailsUpdated e s
  | CloudWatchMetricsUpdated e => on_CloudWatchMetricsUpdated e s
  | CMLMetricsUpdated e => on_CMLMetricsUpdated e s
  | TelemetryUpdated e => on_TelemetryUpdated e s
  | EndpointUpdated e => on_EndpointUpdated e s
  | Terminated e => on_Terminated c e s
  | TagsUpdated e => on_TagsUpdated e s
  | LicenseRegistrationRequested e => on_LicenseRegistrationRequested e s
  | LicenseRegistrationStarted e => on_LicenseRegistrationStarted e s
  | LicenseRegistrationCompleted e => on_LicenseRegistrationCompleted e s
  | LicenseRegistrationFailed e => on_LicenseRegistrationFailed e s
  | LicenseDeregistrationRequested e => on_LicenseDeregistrationRequested e s
  | LicenseDeregistrationStarted e => on_LicenseDeregistrationStarted e s
  | LicenseDeregistrationCompleted e => on_LicenseDeregistrationCompleted e s
  | LicenseDeregistrationFailed e => on_LicenseDeregistrationFailed e s
  | LicenseDeregistered e => on_LicenseDeregistered e s
  | CloudWatchMonitoringUpdated e => on_CloudWatchMonitoringUpdated e s
  | WorkerActivityUpdated e => on_WorkerActivityUpdated e s
  | WorkerPaused e => on_WorkerPaused e s
  | WorkerResumed e => on_WorkerResumed e s
  | IdleDetectionToggled e => on_IdleDetectionToggled e s
  | CapacityUpdated e => on_CapacityUpdated e s
  | PortsAllocated e => on_PortsAllocated e s
  | PortsReleased e => on_PortsReleased e s
  | LabletSessionAssigned e => on_LabletSessionAssigned e s
  | LabletSessionRemoved e => on_LabletSessionRemoved e s
  | AllocatedCapacityRecalculated e => on_AllocatedCapacityRecalculated e s
  | WorkerDataRefreshRequested _ | WorkerDataRefreshSkipped _ | WorkerDataRefreshCompleted _
  | LabDiscoveryTriggered _ | SyncRequested _ => Ok s
  end.

(** ** The aggregate root

    A command returns the new state and the events it registered, in order;
    a command with a boolean result returns that as well. *)
Abbreviation result := (res (CMLWorkerState * list worker_event)).
Abbreviation bool_result := (res (bool * CMLWorkerState * list worker_event)).

(** [self.state.on(self.register_event(ev))] *)
Definition emit (c : clock) (ev : worker_event) (s : CMLWorkerState) : result :=
  s' ← on c ev s; Ok (s', [ev]).

Definition emit_true (c : clock) (ev : worker_event) (s : CMLWorkerState) : bool_result :=
  '(s', evs) ← emit c ev s; Ok (true, s', evs).

(** [CMLWorker.__init__]: [t_init] is the clock of the new state, [uid] is
    [str(uuid4())]. *)
Definition create (c : clock) (t_init : datetime) (uid name_ region instance_type_ : string)
    (ami name_of_ami ami_desc ami_date instance : option string) (status_ : CMLWorkerStatus)
    (cml_version : option string) (created_at_ : option datetime) (by_ worker : option string)
    (origin_ : Origin.WorkerOrigin) : result :=
  emit c (Created {|
    Created_aggregate_id := ostr_or worker uid; Created_name := name_; Created_aws_region := region;
    Created_aws_instance_id := instance; Created_instance_type := instance_type_; Created_ami_id := ami;
    Created_ami_name := name_of_ami; Created_ami_description := ami_desc; Created_ami_creation_date := ami_date;
    Created_status := status_; Created_desired_status := RUNNING; Created_cml_version := cml_version;
    Created_created_at := default c.(now) created_at_; Created_created_by := by_;
    Created_origin := origin_ |}) (init_state t_init).

Definition import_from_existing_instance (c : clock) (t_init : datetime)
    (uid name_ region instance instance_type_ ami instance_state : string)
    (by_ name_of_ami ami_desc ami_date public private : option string) (origin_ : Origin.WorkerOrigin) : result :=
  emit c (Imported {|
    Imported_aggregate_id := uid; Imported_name := name_; Imported_aws_region := region;
    Imported_aws_instance_id := instance; Imported_instance_type := instance_type_; Imported_ami_id := ami;
    Imported_ami_name := name_of_ami; Imported_ami_description := ami_desc; Imported_ami_creation_date := ami_date;
    Imported_instance_state := instance_state; Imported_public_ip := public; Imported_private_ip := private;
    Imported_created_by := by_; Imported_created_at := c.(now); Imported_origin := origin_ |}) (init_state t_init).

Section Commands.
Context `{RootId CMLWorkerState}.
Implicit Types (c : clock) (s : CMLWorkerState).

(** [CMLWorker.id] *)
Definition aggregate_id s : res string :=
  match root_id s with
  | Some i => Ok i
  | None => Err (ValueError "CMLWorker aggregate identifier has not been initialized")
  end.

(** [_validate_transition]: whether the table allows the change; a refusal is
    only logged, with the identifier. *)
Definition validate_transition s (to_status : CMLWorkerStatus) : res bool :=
  if bool_decide (to_status ∈ CML_WORKER_VALID_TRANSITIONS s.(status)) then Ok true
  else _ ← aggregate_id s; Ok false.

Definition update_status c (new_status : CMLWorkerStatus) s : bool_result :=
  if bool_decide (s.(status) = new_status) then Ok (false, s, []) else
  _ ← validate_transition s new_status;
  let transition_ts := match new_status with PENDING | STOPPING => Some c.(now) | _ => None end in
  i ← aggregate_id s;
  emit_true c (StatusUpdated {|
    StatusUpdated_aggregate_id := i; StatusUpdated_old_status := s.(status);
    StatusUpdated_new_status := new_status; StatusUpdated_updated_at := c.(now);
    StatusUpdated_transition_initiated_at := transition_ts |}) s.

Definition update_desired_status c (new_desired : CMLWorkerStatus) (requested_by reason : option string) s
    : bool_result :=
  if bool_decide (s.(desired_status) = new_desired) then Ok (false, s, []) else
  i ← aggregate_id s;
  emit_true c (DesiredStatusUpdated {|
    DesiredStatusUpdated_aggregate_id := i; DesiredStatusUpdated_old_desired_status := s.(desired_status);
    DesiredStatusUpdated_new_desired_status := new_desired; DesiredStatusUpdated_updated_at := c.(now);
    DesiredStatusUpdated_requested_by := requested_by; DesiredStatusUpdated_reason := reason |}) s.

Definition update_service_status c (new_service : ServiceStatus.CMLServiceStatus) (endpoint : option string) s
    : bool_result :=
  if bool_decide (s.(service_status) = new_service) && bool_decide (s.(https_endpoint) = endpoint)
  then Ok (false, s, []) else
  i ← aggregate_id s;
  emit_true c (CMLServiceStatusUpdated {|
    CMLServiceStatusUpdated_aggregate_id := i;
    CMLServiceStatusUpdated_old_service_status := s.(service_status);
    CMLServiceStatusUpdated_new_service_status := new_service;
    CMLServiceStatusUpdated_https_endpoint := endpoint;
    CMLServiceStatusUpdated_updated_at := c.(now) |}) s.

Definition assign_instance c (instance : string) (public private : option string) s : result :=
  i ← aggregate_id s;
  emit c (InstanceAssigned {|
    InstanceAssigned_aggregate_id := i; InstanceAssigned_aws_instance_id := instance;
    InstanceAssigned_public_ip := public; InstanceAssigned_private_ip := private;
    InstanceAssigned_assigned_at := c.(now) |}) s.

Definition update_license c (license_status : LicenseState.LicenseStatus) (license_token : option string) s
    : bool_result :=
  if bool_decide (l_status s.(license) = license_status) && bool_decide (token s.(license) = license_token)
  then Ok (false, s, []) else
  i ← aggregate_id s;
  emit_true c (LicenseUpdated {|
    LicenseUpdated_aggregate_id := i; LicenseUpdated_license_status := license_status;
    LicenseUpdated_license_token := license_token; LicenseUpdated_updated_at := c.(now) |}) s.

Definition update_ec2_metrics c (detail check : string) (checked_at : option datetime) s : result :=
  i ← aggregate_id s;
  emit c (EC2MetricsUpdated {|
    EC2MetricsUpdated_aggregate_id := i; EC2MetricsUpdated_instance_state_detail := detail;
    EC2MetricsUpdated_system_status_check := check;
    EC2MetricsUpdated_checked_at := default c.(now) checked_at;
    EC2MetricsUpdated_updated_at := c.(now) |}) s.

Definition update_ec2_instance_details c (public private itype ami aname adesc adate : option string) s : result :=
  i ← aggregate_id s;
  emit c (EC2InstanceDetailsUpdated {|
    EC2InstanceDetailsUpdated_aggregate_id := i; EC2InstanceDetailsUpdated_public_ip := public;
    EC2InstanceDetailsUpdated_private_ip := private; EC2InstanceDetailsUpdated_instance_type := itype;
    EC2InstanceDetailsUpdated_ami_id := ami; EC2InstanceDetailsUpdated_ami_name := aname;
    EC2InstanceDetailsUpdated_ami_description := adesc; EC2InstanceDetailsUpdated_ami_creation_date := adate;
    EC2InstanceDetailsUpdated_updated_at := c.(now) |}) s.

Definition update_aws_tags c (tags : dict string) s : result :=
  i ← aggregate_id s;
  emit c (TagsUpdated {| TagsUpdated_aggregate_id := i; TagsUpdated_aws_tags := tags;
                         TagsUpdated_updated_at := c.(now) |}) s.

Definition update_cloudwatch_metrics c (cpu_util memory_util : float) (collected_at : option datetime) s : result :=
  i ← aggregate_id s;
  emit c (CloudWatchMetricsUpdated {|
    CloudWatchMetricsUpdated_aggregate_id := i; CloudWatchMetricsUpdated_cpu_utilization := cpu_util;
    CloudWatchMetricsUpdated_memory_utilization := memory_util;
    CloudWatchMetricsUpdated_collected_at := default c.(now) collected_at;
    CloudWatchMetricsUpdated_updated_at := c.(now) |}) s.

(** *** [update_cml_metrics] *)

(** What the method is given. *)
Record cml_report := {
  r_version : option string;
  r_system_info : pydict;
  r_system_health : option pydict;
  r_license_info : option pydict;
  r_ready : bool;
  r_uptime : option Z;
  r_labs_count : Z;
  r_synced_at : option datetime
}.

Definition pct_changed (old new : pyval) : res pyval :=
  if is_none old || is_none new then Ok (PFloat (if py_eq old new then fzero else f_100)) else
  if py_eq old (PInt 0) then Ok (PFloat (if py_eq new (PInt 0) then fzero else f_100)) else
  difference ← py_sub new old;
  n ← py_abs difference;
  d ← py_abs old;
  r ← py_truediv n d;
  py_mul r (PFloat f_100).

(** The temporary metrics object. *)
Definition reported_metrics (info : pydict) : CMLMetrics :=
  new_metrics <| system_info := Some {|
    cpu_count := PNone; cpu_utilization := pd_get "all_cpu_percent" info;
    memory_total := pd_get "all_memory_total" info; memory_free := PNone;
    memory_used := pd_get "all_memory_used" info; disk_total := pd_get "all_disk_total" info;
    disk_free := PNone; disk_used := pd_get "all_disk_used" info; controller_disk_total := PNone;
    controller_disk_free := PNone; controller_disk_used := PNone; allocated_cpus := PNone;
    allocated_memory := PNone; total_nodes := pd_get "total_nodes" info;
    running_nodes := pd_get "running_nodes" info;
    computes := Raw (pd_get_or "computes" (PDict []) info) |} |>.

Definition license_changed (r : cml_report) s : bool :=
  match r_license_info r with
  | Some ((_ :: _) as license_info) =>
      let current_reg := match raw_info s.(license) with
                         | Some raw => pd_get "registration_status" raw | None => PNone end in
      let new_reg := pd_get "registration_status" license_info in
      if negb (py_eq current_reg new_reg) then true
      else bool_decide (l_status s.(license) = LicenseState.UNREGISTERED) && eq_str new_reg "COMPLETED"
  | _ => false
  end.

Definition health_changed (r : cml_report) s : bool :=
  match r_system_health r with
  | Some ((_ :: _) as health) =>
      let current_licensed := match system_health s.(metrics) with
                              | Some h => is_licensed h | None => PBool false end in
      negb (py_eq current_licensed (pd_get_or "is_licensed" (PBool false) health))
  | _ => false
  end.

(** Whether the report differs from the stored metrics by the threshold or in
    something else; raises when the figures are no numbers. *)
Definition metrics_changed (threshold : pyval) (r : cml_report) s : res bool :=
  '(prev_cpu, prev_mem, prev_storage) ← get_utilization s.(metrics);
  '(new_cpu, new_mem, new_storage) ← get_utilization (reported_metrics (r_system_info r));
  cpu_delta ← pct_changed prev_cpu new_cpu;
  mem_delta ← pct_changed prev_mem new_mem;
  storage_delta ← pct_changed prev_storage new_storage;
  if negb (r_labs_count r =? labs_count s.(metrics)) || negb (bool_decide (r_version r = version s.(metrics)))
     || license_changed r s || health_changed r s then Ok true else
  cpu_over ← py_leb threshold cpu_delta;
  if cpu_over : bool then Ok true else
  mem_over ← py_leb threshold mem_delta;
  if mem_over : bool then Ok true else
  py_leb threshold storage_delta.

(** [emit_event] *)
Definition report_emits (threshold : option pyval) (r : cml_report) s : bool :=
  match threshold, system_info s.(metrics) with
  | Some threshold, Some _ => match metrics_changed threshold r s with Ok b => b | Err _ => true end
  | _, _ => true
  end.

Definition update_cml_metrics c (threshold : option pyval) (r : cml_report) s : result :=
  if negb (report_emits threshold r s) then Ok (s, []) else
  i ← aggregate_id s;
  emit c (CMLMetricsUpdated {|
    CMLMetricsUpdated_aggregate_id := i; CMLMetricsUpdated_cml_version := r_version r;
    CMLMetricsUpdated_system_info := r_system_info r; CMLMetricsUpdated_system_health := r_system_health r;
    CMLMetricsUpdated_license_info := r_license_info r; CMLMetricsUpdated_ready := r_ready r;
    CMLMetricsUpdated_uptime_seconds := r_uptime r; CMLMetricsUpdated_labs_count := r_labs_count r;
    CMLMetricsUpdated_synced_at := default c.(now) (r_synced_at r);
    CMLMetricsUpdated_updated_at := c.(now) |}) s.

Definition update_telemetry c (activity : datetime) (active_labs : Z) (cpu_util memory_util : option float)
    (poll : option Z) (next_refresh : option datetime) s : result :=
  i ← aggregate_id s;
  emit c (TelemetryUpdated {|
    TelemetryUpdated_aggregate_id := i; TelemetryUpdated_last_activity_at := activity;
    TelemetryUpdated_active_labs_count := active_labs; TelemetryUpdated_cpu_utilization := cpu_util;
    TelemetryUpdated_memory_utilization := memory_util; TelemetryUpdated_updated_at := c.(now);
    TelemetryUpdated_poll_interval := poll; TelemetryUpdated_next_refresh_at := next_refresh |}) s.

Definition update_endpoint c (endpoint public : option string) s : bool_result :=
  if bool_decide (s.(https_endpoint) = endpoint)
     && (bool_decide (public = None) || bool_decide (s.(public_ip) = public))
  then Ok (false, s, []) else
  i ← aggregate_id s;
  emit_true c (EndpointUpdated {|
    EndpointUpdated_aggregate_id := i; EndpointUpdated_https_endpoint := endpoint;
    EndpointUpdated_public_ip := public; EndpointUpdated_updated_at := c.(now) |}) s.

(** These two write the state and register nothing. *)
Definition request_refresh c s : result :=
  Ok (s <| refresh_requested_at := Some c.(now) |> <| updated_at := c.(now_upd) |>, []).
Definition clear_refresh_request c s : result :=
  Ok (s <| refresh_requested_at := None |> <| updated_at := c.(now_upd) |>, []).

Definition update_cloudwatch_monitoring c (enabled : bool) s : bool_result :=
  if Bool.eqb s.(cloudwatch_detailed_monitoring_enabled) enabled then Ok (false, s, []) else
  i ← aggregate_id s;
  emit_true c (CloudWatchMonitoringUpdated {|
    CloudWatchMonitoringUpdated_aggregate_id := i; CloudWatchMonitoringUpdated_enabled := enabled;
    CloudWatchMonitoringUpdated_updated_at := c.(now) |}) s.

Definition terminate c (by_ : option string) s : result :=
  i ← aggregate_id s;
  emit c (Terminated {|
    Terminated_aggregate_id := i; Terminated_name := s.(name); Terminated_terminated_at := c.(now);
    Terminated_terminated_by := by_ |}) s.

Definition request_license_registration c (license_token : string) (by_ : option string) (again : bool) s : result :=
  i ← aggregate_id s;
  emit c (LicenseRegistrationRequested {|
    LicenseRegistrationRequested_aggregate_id := i; LicenseRegistrationRequested_worker_id := i;
    LicenseRegistrationRequested_license_token := license_token;
    LicenseRegistrationRequested_reregister := again;
    LicenseRegistrationRequested_requested_at := PIso c.(now);
    LicenseRegistrationRequested_initiated_by := ostr_or by_ "system" |}) s.

Definition request_license_deregistration c (by_ : option string) s : result :=
  i ← aggregate_id s;
  emit c (LicenseDeregistrationRequested {|
    LicenseDeregistrationRequested_aggregate_id := i; LicenseDeregistrationRequested_worker_id := i;
    LicenseDeregistrationRequested_requested_at := PIso c.(now);
    LicenseDeregistrationRequested_initiated_by := ostr_or by_ "system" |}) s.

Definition start_license_registration c (at_ : pyval) (by_ : option string) s : result :=
  i ← aggregate_id s;
  emit c (LicenseRegistrationStarted {|
    LicenseRegistrationStarted_aggregate_id := i; LicenseRegistrationStarted_worker_id := i;
    LicenseRegistrationStarted_started_at := at_;
    LicenseRegistrationStarted_initiated_by := ostr_or by_ "system" |}) s.

Definition complete_license_registration c (reg_status : string) (smart virtual : option string) (at_ : pyval) s
    : result :=
  i ← aggregate_id s;
  emit c (LicenseRegistrationCompleted {|
    LicenseRegistrationCompleted_aggregate_id := i; LicenseRegistrationCompleted_worker_id := i;
    LicenseRegistrationCompleted_registration_status := reg_status;
    LicenseRegistrationCompleted_smart_account := smart;
    LicenseRegistrationCompleted_virtual_account := virtual;
    LicenseRegistrationCompleted_completed_at := at_ |}) s.

Definition fail_license_registration c (message : string) (at_ : pyval) (code : option string) s : result :=
  i ← aggregate_id s;
  emit c (LicenseRegistrationFailed {|
    LicenseRegistrationFailed_aggregate_id := i; LicenseRegistrationFailed_worker_id := i;
    LicenseRegistrationFailed_error_message := message; LicenseRegistrationFailed_error_code := code;
    LicenseRegistrationFailed_failed_at := at_ |}) s.

Definition start_license_deregistration c (at_ : pyval) (by_ : option string) s : result :=
  i ← aggregate_id s;
  emit c (LicenseDeregistrationStarted {|
    LicenseDeregistrationStarted_aggregate_id := i; LicenseDeregistrationStarted_worker_id := i;
    LicenseDeregistrationStarted_started_at := at_;
    LicenseDeregistrationStarted_initiated_by := ostr_or by_ "system" |}) s.

Definition complete_license_deregistration c (message : string) (at_ : pyval) s : result :=
  i ← aggregate_id s;
  emit c (LicenseDeregistrationCompleted {|
    LicenseDeregistrationCompleted_aggregate_id := i; LicenseDeregistrationCompleted_worker_id := i;
    LicenseDeregistrationCompleted_message := message;
    LicenseDeregistrationCompleted_completed_at := at_ |}) s.

Definition fail_license_deregistration c (message : string) (at_ : pyval) s : result :=
  i ← aggregate_id s;
  emit c (LicenseDeregistrationFailed {|
    LicenseDeregistrationFailed_aggregate_id := i; LicenseDeregistrationFailed_worker_id := i;
    LicenseDeregistrationFailed_error_message := message;
    LicenseDeregistrationFailed_failed_at := at_ |}) s.

Definition deregister_license c (at_ : pyval) (by_ : option string) s : result :=
  i ← aggregate_id s;
  emit c (LicenseDeregistered {|
    LicenseDeregistered_aggregate_id := i; LicenseDeregistered_worker_id := i;
    LicenseDeregistered_deregistered_at := at_;
    LicenseDeregistered_initiated_by := ostr_or by_ "system" |}) s.

Definition request_data_refresh c (at_ : pyval) (by_ : string) s : result :=
  i ← aggregate_id s;
  emit c (WorkerDataRefreshRequested {|
    WorkerDataRefreshRequested_aggregate_id := i; WorkerDataRefreshRequested_worker_id := i;
    WorkerDataRefreshRequested_requested_at := at_; WorkerDataRefreshRequested_requested_by := Some by_ |}) s.

Definition skip_data_refresh c (reason : string) (at_ : pyval) s : result :=
  i ← aggregate_id s;
  emit c (WorkerDataRefreshSkipped {|
    WorkerDataRefreshSkipped_aggregate_id := i; WorkerDataRefreshSkipped_worker_id := i;
    WorkerDataRefreshSkipped_reason := reason; WorkerDataRefreshSkipped_skipped_at := at_ |}) s.

Definition complete_data_refresh c (at_ : pyval) (refresh_type : string) s : result :=
  i ← aggregate_id s;
  emit c (WorkerDataRefreshCompleted {|
    WorkerDataRefreshCompleted_aggregate_id := i; WorkerDataRefreshCompleted_worker_id := i;
    WorkerDataRefreshCompleted_completed_at := at_;
    WorkerDataRefreshCompleted_refresh_type := refresh_type |}) s.

Definition trigger_lab_discovery c (labs : list string) (source : string) (at_ : pyval) s : result :=
  i ← aggregate_id s;
  emit c (LabDiscoveryTriggered {|
    LabDiscoveryTriggered_aggregate_id := i; LabDiscoveryTriggered_worker_id := i;
    LabDiscoveryTriggered_lab_ids := labs; LabDiscoveryTriggered_source := source;
    LabDiscoveryTriggered_triggered_at := at_ |}) s.

Definition request_sync c (at_ : pyval) (by_ scope : string) (include_labs : bool) (reason : string) s : result :=
  i ← aggregate_id s;
  emit c (SyncRequested {|
    SyncRequested_aggregate_id := i; SyncRequested_worker_id := i; SyncRequested_requested_at := at_;
    SyncRequested_requested_by := by_; SyncRequested_scope := scope;
    SyncRequested_include_labs := include_labs; SyncRequested_reason := reason |}) s.

(** [recent_events[-max_events:] if recent_events else []]; a bound of zero
    keeps everything, since [-0] is [0]. *)
Definition events_to_store (max_events : Z) (recent : list pydict) : list pydict :=
  if 0 <? max_events then last_n (Z.to_nat max_events) recent else drop (Z.to_nat (- max_events)) recent.

Definition update_activity c (recent : list pydict) (activity : option datetime) (check : datetime)
    (next_check target_pause : option datetime) (max_events : Z) s : result :=
  i ← aggregate_id s;
  emit c (WorkerActivityUpdated {|
    WorkerActivityUpdated_aggregate_id := i; WorkerActivityUpdated_last_activity_at := activity;
    WorkerActivityUpdated_last_activity_check_at := check;
    WorkerActivityUpdated_recent_activity_events := events_to_store max_events recent;
    WorkerActivityUpdated_next_idle_check_at := next_check;
    WorkerActivityUpdated_target_pause_at := target_pause;
    WorkerActivityUpdated_updated_at := c.(now) |}) s.

Definition pause c (reason : string) (by_ : option string) (idle_minutes : option float) s : result :=
  let auto := String.eqb reason "idle_timeout" in
  i ← aggregate_id s;
  emit c (WorkerPaused {|
    WorkerPaused_aggregate_id := i; WorkerPaused_pause_reason := reason; WorkerPaused_paused_by := by_;
    WorkerPaused_paused_at := c.(now);
    WorkerPaused_auto_pause_count := if auto then s.(auto_pause_count) + 1 else s.(auto_pause_count);
    WorkerPaused_manual_pause_count := if auto then s.(manual_pause_count) else s.(manual_pause_count) + 1;
    WorkerPaused_idle_duration_minutes := idle_minutes |}) s.

Definition resume c (reason : string) (by_ : option string) s : result :=
  let auto := String.eqb reason "auto" in
  let manual := String.eqb reason "manual" in
  i ← aggregate_id s;
  emit c (WorkerResumed {|
    WorkerResumed_aggregate_id := i; WorkerResumed_resume_reason := reason; WorkerResumed_resumed_by := by_;
    WorkerResumed_resumed_at := c.(now);
    WorkerResumed_auto_resume_count := if auto then s.(auto_resume_count) + 1 else s.(auto_resume_count);
    WorkerResumed_manual_resume_count := if manual then s.(manual_resume_count) + 1 else s.(manual_resume_count);
    WorkerResumed_was_auto_paused := bool_decide (s.(pause_reason) = Some "idle_timeout") |}) s.

Definition toggle_idle_detection c (enable : bool) (by_ : option string) s : result :=
  i ← aggregate_id s;
  emit c (IdleDetectionToggled {|
    IdleDetectionToggled_aggregate_id := i; IdleDetectionToggled_is_enabled := enable;
    IdleDetectionToggled_toggled_by := by_; IdleDetectionToggled_toggled_at := c.(now) |}) s.

Definition enable_idle_detection c (by_ : option string) s : result :=
  if s.(is_idle_detection_enabled) then Ok (s, []) else toggle_idle_detection c true by_ s.
Definition disable_idle_detection c (by_ : option string) s : result :=
  if s.(is_idle_detection_enabled) then toggle_idle_detection c false by_ s else Ok (s, []).

(** *** Capacity, ports and sessions *)

Definition update_capacity c (template : option string) (cpu mem storage : Z) (nodes : option Z) s : result :=
  i ← aggregate_id s;
  emit c (CapacityUpdated {|
    CapacityUpdated_aggregate_id := i; CapacityUpdated_template_name := template;
    CapacityUpdated_declared_capacity_cpu_cores := cpu; CapacityUpdated_declared_capacity_memory_gb := mem;
    CapacityUpdated_declared_capacity_storage_gb := storage;
    CapacityUpdated_declared_capacity_max_nodes := nodes; CapacityUpdated_updated_at := c.(now) |}) s.

Definition allocate_ports c (session : string) (ports : dict Z) s : result :=
  i ← aggregate_id s;
  emit c (PortsAllocated {|
    PortsAllocated_aggregate_id := i; PortsAllocated_session_id := session; PortsAllocated_ports := ports;
    PortsAllocated_allocated_at := c.(now) |}) s.

Definition get_port_allocation (session : string) s : option PortAllocation :=
  List.find (fun a => String.eqb (pa_session_id a) session) s.(port_allocations).

Definition release_ports c (session : string) s : result :=
  match get_port_allocation session s with
  | Some allocation =>
      i ← aggregate_id s;
      emit c (PortsReleased {|
        PortsReleased_aggregate_id := i; PortsReleased_session_id := session;
        PortsReleased_released_ports := dict_values (pa_ports allocation);
        PortsReleased_released_at := c.(now) |}) s
  | None => Ok (s, [])
  end.

Definition assign_lablet_session c (session : string) (cpu mem storage : Z) (nodes : option Z) s : result :=
  i ← aggregate_id s;
  emit c (LabletSessionAssigned {|
    LabletSessionAssigned_aggregate_id := i; LabletSessionAssigned_session_id := session;
    LabletSessionAssigned_allocated_cpu_cores := cpu; LabletSessionAssigned_allocated_memory_gb := mem;
    LabletSessionAssigned_allocated_storage_gb := storage; LabletSessionAssigned_allocated_nodes := nodes;
    LabletSessionAssigned_assigned_at := c.(now) |}) s.

Definition remove_lablet_session c (session : string) (cpu mem storage : Z) (nodes : option Z) s : result :=
  i ← aggregate_id s;
  emit c (LabletSessionRemoved {|
    LabletSessionRemoved_aggregate_id := i; LabletSessionRemoved_session_id := session;
    LabletSessionRemoved_released_cpu_cores := cpu; LabletSessionRemoved_released_memory_gb := mem;
    LabletSessionRemoved_released_storage_gb := storage; LabletSessionRemoved_released_nodes := nodes;
    LabletSessionRemoved_removed_at := c.(now) |}) s.

Definition recalculate_capacity c (cpu mem storage : Z) (nodes : option Z) (active stale : list string) s : result :=
  i ← aggregate_id s;
  emit c (AllocatedCapacityRecalculated {|
    AllocatedCapacityRecalculated_aggregate_id := i;
    AllocatedCapacityRecalculated_recalculated_cpu_cores := cpu;
    AllocatedCapacityRecalculated_recalculated_memory_gb := mem;
    AllocatedCapacityRecalculated_recalculated_storage_gb := storage;
    AllocatedCapacityRecalculated_recalculated_max_nodes := nodes;
    AllocatedCapacityRecalculated_active_session_ids := active;
    AllocatedCapacityRecalculated_stale_session_ids := stale;
    AllocatedCapacityRecalculated_recalculated_at := c.(now) |}) s.
End Commands.

(** ** Queries *)

Definition is_idle (t : datetime) (threshold : Z) (s : CMLWorkerState) : res bool :=
  let last_activity := match s.(cloudwatch_last_collected_at) with
                       | Some d => Some d | None => last_synced_at s.(metrics) end in
  match last_activity with
  | None => Ok false
  | Some d =>
      if 0 <? labs_count s.(metrics) then Ok false else
      us ← dt_sub t d;
      m ← in_minutes us;
      Ok (num_leb (NInt threshold) (NFloat m))
  end.

Definition can_connect (s : CMLWorkerState) : bool :=
  bool_decide (s.(status) = RUNNING) && bool_decide (s.(service_status) = ServiceStatus.AVAILABLE)
  && negb (bool_decide (s.(https_endpoint) = None)).

Definition in_snooze_period (t : datetime) (snooze_minutes : Z) (s : CMLWorkerState) : res bool :=
  match s.(last_resumed_at) with
  | None => Ok false
  | Some d => us ← dt_sub t (dt_to_utc d); m ← in_minutes us; Ok (num_ltb (NFloat m) (NInt snooze_minutes))
  end.

Definition calculate_idle_duration (t : datetime) (s : CMLWorkerState) : res (option float) :=
  match s.(last_activity_at) with
  | None => Ok None
  | Some d => us ← dt_sub t (dt_to_utc d); m ← in_minutes us; Ok (Some m)
  end.

(** [_derive_capacity_from_metrics]; the sizes are in bytes. *)
Definition derive_capacity_from_metrics (s : CMLWorkerState) : res (option WorkerCapacity) :=
  match system_info s.(metrics) with
  | None => Ok None
  | Some info =>
      if truthy (cpu_count info) && truthy (memory_total info) && truthy (disk_total info) then
        n ← py_num (cpu_count info);
        cpu ← num_int n;
        m ← py_num (memory_total info); m ← num_truediv m (NInt (1024 ^ 3)); mem ← trunc m;
        d ← py_num (disk_total info); d ← num_truediv d (NInt (1024 ^ 3)); storage ← trunc d;
        capacity ← mk_capacity cpu mem storage None;
        Ok (Some capacity)
      else Ok None
  end.

Definition available_capacity (s : CMLWorkerState) : res (option WorkerCapacity) :=
  effective ← match s.(declared_capacity) with
              | Some d => Ok (Some d) | None => derive_capacity_from_metrics s end;
  match effective with
  | None => Ok None
  | Some d => a ← subtract d s.(allocated_capacity); Ok (Some a)
  end.

Definition can_accommodate (required : WorkerCapacity) (s : CMLWorkerState) : res bool :=
  available ← available_capacity s;
  Ok (match available with None => false | Some a => can_fit a required end).

(** The ports of the aggregate's own allocations. *)
Definition allocated_port_set (s : CMLWorkerState) : gset Z :=
  foldr (fun a acc => list_to_set (dict_values (pa_ports a)) ∪ acc) ∅ s.(port_allocations).

(** [sorted(available_ports)]: the ports of [range(2000, 10000)] that are free. *)
Definition available_ports (s : CMLWorkerState) : list Z :=
  let allocated := allocated_port_set s in List.filter (fun p => bool_decide (p ∉ allocated)) (seqZ 2000 8000).

(** [l[:n]] *)
Definition py_take {A} (n : Z) (l : list A) : list A :=
  if 0 <=? n then take (Z.to_nat n) l else take (length l - Z.to_nat (- n)) l.

Definition get_next_available_ports (count : Z) (s : CMLWorkerState) : res (list Z) :=
  let available := available_ports s in
  if Z.of_nat (length available) <? count
  then Err (ValueError ("Not enough available ports: need " +:+ pretty count +:+ ", have "
                          +:+ pretty (Z.of_nat (length available))))
  else Ok (py_take count available).

Definition has_session (session : string) (s : CMLWorkerState) : bool := bool_decide (session ∈ s.(session_ids)).
