(* ===== verification/WorkerProps.v ===== *)
(** * The commands of a worker as runs

    The commands as one executable type, what a command that returns has done,
    and the audit trail of a worker. *)
From S2P Require Import Prelude PyFloat PyData PyNum Enums Lifecycle AuditTrail Aggregate WorkerValues Ports.
From S2P Require Import WorkerEvents Worker.
Import WorkerStatus.

(** ** Commands as data *)
Inductive command :=
| UpdateStatus (new_status : CMLWorkerStatus)
| UpdateDesiredStatus (new_desired : CMLWorkerStatus) (requested_by reason : option string)
| UpdateServiceStatus (new_service : ServiceStatus.CMLServiceStatus) (endpoint : option string)
| AssignInstance (instance : string) (public private : option string)
| UpdateLicense (license_status : LicenseState.LicenseStatus) (license_token : option string)
| UpdateEc2Metrics (detail check : string) (checked_at : option datetime)
| UpdateEc2InstanceDetails (public private itype ami aname adesc adate : option string)
| UpdateAwsTags (tags : dict string)
| UpdateCloudwatchMetrics (cpu_util memory_util : float) (collected_at : option datetime)
| UpdateCmlMetrics (threshold : option pyval) (r : cml_report)
| UpdateTelemetry (activity : datetime) (active_labs : Z) (cpu_util memory_util : option float)
    (poll : option Z) (next_refresh : option datetime)
| UpdateEndpoint (endpoint public : option string)
| RequestRefresh
| ClearRefreshRequest
| UpdateCloudwatchMonitoring (enabled : bool)
| Terminate (by_ : option string)
| RequestLicenseRegistration (license_token : string) (by_ : option string) (again : bool)
| RequestLicenseDeregistration (by_ : option string)
| StartLicenseRegistration (at_ : pyval) (by_ : option string)
| CompleteLicenseRegistration (reg_status : string) (smart virtual : option string) (at_ : pyval)
| FailLicenseRegistration (message : string) (at_ : pyval) (code : option string)
| StartLicenseDeregistration (at_ : pyval) (by_ : option string)
| CompleteLicenseDeregistration (message : string) (at_ : pyval)
| FailLicenseDeregistration (message : string) (at_ : pyval)
| DeregisterLicense (at_ : pyval) (by_ : option string)
| RequestDataRefresh (at_ : pyval) (by_ : string)
| SkipDataRefresh (reason : string) (at_ : pyval)
| CompleteDataRefresh (at_ : pyval) (refresh_type : string)
| TriggerLabDiscovery (labs : list string) (source : string) (at_ : pyval)
| RequestSync (at_ : pyval) (by_ scope : string) (include_labs : bool) (reason : string)
| UpdateActivity (recent : list pydict) (activity : option datetime) (check : datetime)
    (next_check target_pause : option datetime) (max_events : Z)
| Pause (reason : string) (by_ : option string) (idle_minutes : option float)
| Resume (reason : string) (by_ : option string)
| EnableIdleDetection (by_ : option string)
| DisableIdleDetection (by_ : option string)
| UpdateCapacity (template : option string) (cpu mem storage : Z) (nodes : option Z)
| AllocatePorts (session : string) (ports : dict Z)
| ReleasePorts (session : string)
| AssignLabletSession (session : string) (cpu mem storage : Z) (nodes : option Z)
| RemoveLabletSession (session : string) (cpu mem storage : Z) (nodes : option Z)
| RecalculateCapacity (cpu mem storage : Z) (nodes : option Z) (active stale : list string).

(** A command without its boolean result. *)
Definition drop_bool (r : bool_result) : result := '(_, s, evs) ← r; Ok (s, evs).

Definition exec `{RootId CMLWorkerState} (c : clock) (cmd : command) (s : CMLWorkerState) : result :=
  match cmd with
  | UpdateStatus new_status => drop_bool (update_status c new_status s)
  | UpdateDesiredStatus new_desired requested_by reason =>
      drop_bool (update_desired_status c new_desired requested_by reason s)
  | UpdateServiceStatus new_service endpoint => drop_bool (update_service_status c new_service endpoint s)
  | AssignInstance instance public private => assign_instance c instance public private s
  | UpdateLicense license_status license_token => drop_bool (update_license c license_status license_token s)
  | UpdateEc2Metrics detail check checked_at => update_ec2_metrics c detail check checked_at s
  | UpdateEc2InstanceDetails public private itype ami aname adesc adate =>
      update_ec2_instance_details c public private itype ami aname adesc adate s
  | UpdateAwsTags tags => update_aws_tags c tags s
  | UpdateCloudwatchMetrics cpu_util memory_util collected_at =>
      update_cloudwatch_metrics c cpu_util memory_util collected_at s
  | UpdateCmlMetrics threshold r => update_cml_metrics c threshold r s
  | UpdateTelemetry activity active_labs cpu_util memory_util poll next_refresh =>
      update_telemetry c activity active_labs cpu_util memory_util poll next_refresh s
  | UpdateEndpoint endpoint public => drop_bool (update_endpoint c endpoint public s)
  | RequestRefresh => request_refresh c s
  | ClearRefreshRequest => clear_refresh_request c s
  | UpdateCloudwatchMonitoring enabled => drop_bool (update_cloudwatch_monitoring c enabled s)
  | Terminate by_ => terminate c by_ s
  | RequestLicenseRegistration license_token by_ again =>
      request_license_registration c license_token by_ again s
  | RequestLicenseDeregistration by_ => request_license_deregistration c by_ s
  | StartLicenseRegistration at_ by_ => start_license_registration c at_ by_ s
  | CompleteLicenseRegistration reg_status smart virtual at_ =>
      complete_license_registration c reg_status smart virtual at_ s
  | FailLicenseRegistration message at_ code => fail_license_registration c message at_ code s
  | StartLicenseDeregistration at_ by_ => start_license_deregistration c at_ by_ s
  | CompleteLicenseDeregistration message at_ => complete_license_deregistration c message at_ s
  | FailLicenseDeregistration message at_ => fail_license_deregistration c message at_ s
  | DeregisterLicense at_ by_ => deregister_license c at_ by_ s
  | RequestDataRefresh at_ by_ => request_data_refresh c at_ by_ s
  | SkipDataRefresh reason at_ => skip_data_refresh c reason at_ s
  | CompleteDataRefresh at_ refresh_type => complete_data_refresh c at_ refresh_type s
  | TriggerLabDiscovery labs source at_ => trigger_lab_discovery c labs source at_ s
  | RequestSync at_ by_ scope include_labs reason => request_sync c at_ by_ scope include_labs reason s
  | UpdateActivity recent activity check next_check target_pause max_events =>
      update_activity c recent activity check next_check target_pause max_events s
  | Pause reason by_ idle_minutes => pause c reason by_ idle_minutes s
  | Resume reason by_ => resume c reason by_ s
  | EnableIdleDetection by_ => enable_idle_detection c by_ s
  | DisableIdleDetection by_ => disable_idle_detection c by_ s
  | UpdateCapacity template cpu mem storage nodes => update_capacity c template cpu mem storage nodes s
  | AllocatePorts session ports => allocate_ports c session ports s
  | ReleasePorts session => release_ports c session s
  | AssignLabletSession session cpu mem storage nodes => assign_lablet_session c session cpu mem storage nodes s
  | RemoveLabletSession session cpu mem storage nodes => remove_lablet_session c session cpu mem storage nodes s
  | RecalculateCapacity cpu mem storage nodes active stale =>
      recalculate_capacity c cpu mem storage nodes active stale s
  end.

#[export] Instance worker_aggregate `{RootId CMLWorkerState} : Aggregate CMLWorkerState worker_event command :=
  {| ag_on := on; ag_exec := exec |}.

#[export] Instance worker_audited : Audited CMLWorkerState CMLWorkerStatus :=
  {| au_status := status; au_value := CMLWorkerStatus_value; au_history := state_history |}.

(** ** What one command does *)

(** An event registered in state [s], with what it says about [s]. *)
Definition registered (s : CMLWorkerState) (ev : worker_event) : Prop :=
  match ev with
  | Created _ | Imported _ => False
  | StatusUpdated e => StatusUpdated_old_status e = status s /\ StatusUpdated_new_status e <> status s
  | WorkerPaused e =>
      WorkerPaused_auto_pause_count e + WorkerPaused_manual_pause_count e
        = auto_pause_count s + manual_pause_count s + 1 /\
      auto_pause_count s <= WorkerPaused_auto_pause_count e /\
      manual_pause_count s <= WorkerPaused_manual_pause_count e
  | _ => True
  end.

(** The commands that register nothing change two timestamps at most. *)
Definition silent (s s' : CMLWorkerState) : Prop :=
  exists r u, s' = s <| refresh_requested_at := r |> <| updated_at := u |>.

Lemma silent_refl s : silent s s.
Proof. exists (refresh_requested_at s), (updated_at s). by destruct s. Qed.

(** The event of a command. *)
Definition command_event (cmd : command) (ev : worker_event) : Prop :=
  match cmd, ev with
  | UpdateStatus _, StatusUpdated _
  | UpdateDesiredStatus _ _ _, DesiredStatusUpdated _
  | UpdateServiceStatus _ _, CMLServiceStatusUpdated _
  | AssignInstance _ _ _, InstanceAssigned _
  | UpdateLicense _ _, LicenseUpdated _
  | UpdateEc2Metrics _ _ _, EC2MetricsUpdated _
  | UpdateEc2InstanceDetails _ _ _ _ _ _ _, EC2InstanceDetailsUpdated _
  | UpdateAwsTags _, TagsUpdated _
  | UpdateCloudwatchMetrics _ _ _, CloudWatchMetricsUpdated _
  | UpdateCmlMetrics _ _, CMLMetricsUpdated _
  | UpdateTelemetry _ _ _ _ _ _, TelemetryUpdated _
  | UpdateEndpoint _ _, EndpointUpdated _
  | UpdateCloudwatchMonitoring _, CloudWatchMonitoringUpdated _
  | Terminate _, Terminated _
  | RequestLicenseRegistration _ _ _, LicenseRegistrationRequested _
  | RequestLicenseDeregistration _, LicenseDeregistrationRequested _
  | StartLicenseRegistration _ _, LicenseRegistrationStarted _
  | CompleteLicenseRegistration _ _ _ _, LicenseRegistrationCompleted _
  | FailLicenseRegistration _ _ _, LicenseRegistrationFailed _
  | StartLicenseDeregistration _ _, LicenseDeregistrationStarted _
  | CompleteLicenseDeregistration _ _, LicenseDeregistrationCompleted _
  | FailLicenseDeregistration _ _, LicenseDeregistrationFailed _
  | DeregisterLicense _ _, LicenseDeregistered _
  | RequestDataRefresh _ _, WorkerDataRefreshRequested _
  | SkipDataRefresh _ _, WorkerDataRefreshSkipped _
  | CompleteDataRefresh _ _, WorkerDataRefreshCompleted _
  | TriggerLabDiscovery _ _ _, LabDiscoveryTriggered _
  | RequestSync _ _ _ _ _, SyncRequested _
  | UpdateActivity _ _ _ _ _ _, WorkerActivityUpdated _
  | Pause _ _ _, WorkerPaused _
  | Resume _ _, WorkerResumed _
  | EnableIdleDetection _, IdleDetectionToggled _
  | DisableIdleDetection _, IdleDetectionToggled _
  | UpdateCapacity _ _ _ _ _, CapacityUpdated _
  | AllocatePorts _ _, PortsAllocated _
  | ReleasePorts _, PortsReleased _
  | AssignLabletSession _ _ _ _ _, LabletSessionAssigned _
  | RemoveLabletSession _ _ _ _ _, LabletSessionRemoved _
  | RecalculateCapacity _ _ _ _ _ _, AllocatedCapacityRecalculated _ => True
  | _, _ => False
  end.

(** A command that returns was silent, or registered its event and applied it. *)
Definition command_effect (c : clock) (cmd : command) (s s' : CMLWorkerState) (evs : list worker_event) : Prop :=
  (evs = [] /\ silent s s') \/ (exists ev, evs = [ev] /\ command_event cmd ev /\ registered s ev /\ on c ev s = Ok s').

Lemma worker_emit_ok c ev s s' evs : emit c ev s = Ok (s', evs) <-> evs = [ev] /\ on c ev s = Ok s'.
Proof. unfold emit. rewrite bind_ok. split; [intros (? & ? & [= -> ->]); done|intros [-> ?]; eauto]. Qed.

Lemma emit_true_ok c ev s b s' evs :
  emit_true c ev s = Ok (b, s', evs) <-> b = true /\ evs = [ev] /\ on c ev s = Ok s'.
Proof.
  unfold emit_true. rewrite bind_ok. split.
  - intros ([s1 e1] & [-> Ho]%worker_emit_ok & [= -> -> ->]). done.
  - intros (-> & -> & Ho). exists (s', [ev]). split; [by apply worker_emit_ok|done].
Qed.

Lemma drop_bool_ok r s evs : drop_bool r = Ok (s, evs) <-> exists b, r = Ok (b, s, evs).
Proof.
  unfold drop_bool. rewrite bind_ok. split.
  - intros ([[b s1] e1] & -> & [= -> ->]). by exists b.
  - intros [b ->]. by exists (b, s, evs).
Qed.

Ltac unfold_commands :=
  cbv [exec update_status update_desired_status update_service_status assign_instance update_license
       update_ec2_metrics update_ec2_instance_details update_aws_tags update_cloudwatch_metrics update_cml_metrics
       update_telemetry update_endpoint request_refresh clear_refresh_request update_cloudwatch_monitoring terminate
       request_license_registration request_license_deregistration start_license_registration
       complete_license_registration fail_license_registration start_license_deregistration
       complete_license_deregistration fail_license_deregistration deregister_license request_data_refresh
       skip_data_refresh complete_data_refresh trigger_lab_discovery request_sync update_activity pause resume
       enable_idle_detection disable_idle_detection toggle_idle_detection update_capacity allocate_ports
       release_ports assign_lablet_session remove_lablet_session recalculate_capacity].

Lemma worker_exec_effect `{RootId CMLWorkerState} c cmd s s' evs :
  exec c cmd s = Ok (s', evs) -> command_effect c cmd s s' evs.
Proof.
  destruct cmd; unfold_commands; intros He; try (apply drop_bool_ok in He as [b He]);
    repeat first
      [ progress inv_ok
      | match goal with
        | H : context [match ?x with _ => _ end] |- _ =>
            lazymatch x with context [match _ with _ => _ end] => fail | _ => destruct x eqn:? end
        end ];
    try (left; split; [done|]; by eauto using silent_refl || by eexists _, _);
    try (apply emit_true_ok in He as (_ & -> & Ho)); try (apply worker_emit_ok in He as [-> Ho]);
    right; eexists; (split; [reflexivity|]); (split; [exact I|]); (split; [|exact Ho]); try done; cbn;
    repeat match goal with H : bool_decide _ = _ |- _ => apply bool_decide_eq_false in H end;
    try (split; [done|congruence]); repeat case_match; lia.
Qed.

(** ** What the handlers do to the audited part *)

(** The status an event moves to. *)
Definition event_target (ev : worker_event) : option CMLWorkerStatus :=
  match ev with
  | StatusUpdated e => Some (StatusUpdated_new_status e)
  | Terminated _ => Some TERMINATED
  | _ => None
  end.

Lemma worker_duration_eq s s' : compute_duration s = Ok s' -> exists d, s' = s <| duration_seconds := d |>.
Proof.
  unfold compute_duration. destruct (started_at s), (ended_at s); rewrite ?dt_sub_utc; cbn; intros [= <-]; eauto;
    exists (duration_seconds s); by destruct s.
Qed.

(** The entry a termination appends. *)
Definition termination_entry (c : clock) (e : CMLWorkerTerminatedDomainEvent) (s : CMLWorkerState) : StateTransition :=
  {| st_from_state := Some (CMLWorkerStatus_value (status s)); st_to_state := CMLWorkerStatus_value TERMINATED;
     st_transitioned_at := now_hist c; st_triggered_by := ostr_or (Terminated_terminated_by e) "system";
     st_reason := Some "Worker terminated"; st_metadata := None |}.

Lemma record_transition_fields c f t b r m s s' : s' = record_transition c f t b r m s ->
  status s' = status s /\ state_history s' = state_history s ++ [StateTransition_to_dict {|
    st_from_state := f; st_to_state := t; st_transitioned_at := now_hist c;
    st_triggered_by := b; st_reason := r; st_metadata := m |}].
Proof. intros ->. split; reflexivity. Qed.

(** The entry a change of status appends. *)
Definition status_entry (c : clock) (e : CMLWorkerStatusUpdatedDomainEvent) : StateTransition :=
  {| st_from_state := Some (CMLWorkerStatus_value (StatusUpdated_old_status e));
     st_to_state := CMLWorkerStatus_value (StatusUpdated_new_status e);
     st_transitioned_at := now_hist c; st_triggered_by := "system"; st_reason := None; st_metadata := None |}.

Lemma on_StatusUpdated_fields c e s s' : on_StatusUpdated c e s = Ok s' ->
  status s' = StatusUpdated_new_status e /\ state_history s' = state_history s ++ [StateTransition_to_dict (status_entry c e)].
Proof.
  unfold on_StatusUpdated, status_entry. intros [= <-].
  destruct (StatusUpdated_new_status e) eqn:He; split; cbn; congruence || by rewrite He.
Qed.

Lemma on_Terminated_fields c e s s' : on_Terminated c e s = Ok s' ->
  status s' = TERMINATED /\ state_history s' = state_history s ++ [StateTransition_to_dict (termination_entry c e s)].
Proof.
  unfold on_Terminated. intros H. apply bind_ok in H as (s1 & Hd & Ht). injection Ht as Ht.
  apply eq_sym, record_transition_fields in Ht as [-> ->].
  apply worker_duration_eq in Hd as [d ->]. split; reflexivity.
Qed.

Lemma on_Terminated_counts c e s s' : on_Terminated c e s = Ok s' ->
  auto_pause_count s' = auto_pause_count s /\ manual_pause_count s' = manual_pause_count s.
Proof.
  unfold on_Terminated. intros H. apply bind_ok in H as (s1 & [d ->]%worker_duration_eq & Ht).
  injection Ht as <-. split; reflexivity.
Qed.

#[local] Strategy 1000 [on_Terminated].

(** Takes apart [on c ev s = Ok s'] for a known event constructor. *)
Ltac handler_cases H :=
  cbv [on on_Created on_Imported on_StatusUpdated on_DesiredStatusUpdated on_CMLServiceStatusUpdated
       on_InstanceAssigned on_LicenseUpdated on_EC2MetricsUpdated on_EC2InstanceDetailsUpdated
       on_CloudWatchMetricsUpdated on_CMLMetricsUpdated on_TelemetryUpdated on_EndpointUpdated on_TagsUpdated
       on_LicenseRegistrationRequested on_LicenseRegistrationStarted
       on_LicenseRegistrationCompleted on_LicenseRegistrationFailed on_LicenseDeregistrationRequested
       on_LicenseDeregistrationStarted on_LicenseDeregistrationCompleted on_LicenseDeregistrationFailed
       on_LicenseDeregistered on_CloudWatchMonitoringUpdated on_WorkerActivityUpdated on_WorkerPaused
       on_WorkerResumed on_IdleDetectionToggled on_CapacityUpdated on_PortsAllocated on_PortsReleased
       on_LabletSessionAssigned on_LabletSessionRemoved on_AllocatedCapacityRecalculated] in H;
  repeat first
    [ progress inv_ok
    | match goal with
      | H : on_Terminated _ _ _ = Ok _ |- _ => apply on_Terminated_fields in H as [? ?]
      | H : context [match ?x with _ => _ end] |- _ =>
          lazymatch x with context [match _ with _ => _ end] => fail | _ => destruct x eqn:? end
      end ];
  subst.

(** The matches that the new state itself contains. *)
Ltac by_cases := try done; cbn; repeat first [reflexivity | split_match; cbn].

Lemma worker_on_status c ev s s' : registered s ev -> on c ev s = Ok s' -> status s' = default (status s) (event_target ev).
Proof. intros He Ho. destruct ev; try done; handler_cases Ho; by_cases. Qed.

Lemma worker_on_audit c ev s s' : registered s ev -> on c ev s = Ok s' -> audit_step s s'.
Proof.
  intros He Ho. destruct ev; try done.
  all: try solve [left; handler_cases Ho; split; by_cases].
  - right. destruct He as [He _]. apply on_StatusUpdated_fields in Ho as [Hs Hh]. exists (status_entry c event).
    cbn [au_history au_status au_value worker_audited]. rewrite Hs, Hh. cbn [status_entry st_from_state]. by rewrite He.
  - right. apply on_Terminated_fields in Ho as [Hs Hh]. exists (termination_entry c event s).
    cbn [au_history au_status au_value worker_audited]. rewrite Hs, Hh. by split.
Qed.

Lemma worker_silent_audit s s' : silent s s' -> audit_step s s'.
Proof. intros (r & u & ->). by left. Qed.

Lemma worker_exec_audit `{RootId CMLWorkerState} c cmd s s' evs : exec c cmd s = Ok (s', evs) -> audit_step s s'.
Proof. intros [[_ Hs]|(ev & _ & _ & Hr & Ho)]%worker_exec_effect; [by apply worker_silent_audit|by apply worker_on_audit in Ho]. Qed.

(** A worker the constructor or the import made. *)
Definition created (s : CMLWorkerState) : Prop :=
  (exists c t uid n r it ami an ad adt i st v ca b w o evs,
     create c t uid n r it ami an ad adt i st v ca b w o = Ok (s, evs)) \/
  (exists c t uid n r i it ami ist b an ad adt pu pr o evs,
     import_from_existing_instance c t uid n r i it ami ist b an ad adt pu pr o = Ok (s, evs)).

(** An event a fresh worker came from. *)
Lemma worker_created_event s : created s -> exists c t ev,
  match ev with Created _ | Imported _ => True | _ => False end /\ on c ev (init_state t) = Ok s.
Proof.
  intros [(c & t & H)|(c & t & H)]; decompose [ex] H; unfold create, import_from_existing_instance in *;
    match goal with H : emit _ _ _ = Ok _ |- _ => apply worker_emit_ok in H as [_ H]; eexists c, t, _; by split; [|exact H] end.
Qed.

Lemma worker_created_history s : created s -> exists t,
  state_history s = [StateTransition_to_dict t] /\ st_from_state t = None /\
  st_to_state t = CMLWorkerStatus_value (status s).
Proof.
  intros (c & t & ev & Hev & Ho)%worker_created_event. destruct ev; try done; handler_cases Ho; eexists; split; done.
Qed.

(** ** The trail of a worker *)

(** The status history of any run reads back as one unbroken chain of changes
    from creation or import to the current status, whatever order the commands
    come in; no table of transitions restricts it. *)
Theorem worker_trail `{RootId CMLWorkerState} s l s' evs :
  created s -> ag_run l s = Ok (s', evs) -> trail (fun _ _ => True) s'.
Proof.
  intros Hc Hr. eapply ag_run_invariant with (I := trail (fun _ _ => True)); [|exact Hr|].
  - intros c cmd s1 s2 evs' He. apply trail_step; [exact (worker_exec_audit c cmd s1 s2 evs' He)|done].
  - apply worker_created_history in Hc as (t & Hh & Hf & Ht). by eapply trail_init.
Qed.

(** ** Counters *)

Definition is_pause (ev : worker_event) : bool := match ev with WorkerPaused _ => true | _ => false end.

(** The pauses among the events of a run. *)
Definition pauses (evs : list (clock * worker_event)) : Z :=
  Z.of_nat (length (List.filter (fun p => is_pause p.2) evs)).

Lemma pauses_app e1 e2 : pauses (e1 ++ e2) = pauses e1 + pauses e2.
Proof. unfold pauses. rewrite List.filter_app, length_app. lia. Qed.

Lemma on_pause_counts c ev s s' : registered s ev -> on c ev s = Ok s' ->
  auto_pause_count s <= auto_pause_count s' /\ manual_pause_count s <= manual_pause_count s' /\
  auto_pause_count s' + manual_pause_count s' = auto_pause_count s + manual_pause_count s + pauses [(c, ev)].
Proof.
  intros Hr Ho. destruct ev; try done.
  all: lazymatch type of Ho with
       | on _ (Terminated _) _ = _ => apply on_Terminated_counts in Ho as [-> ->]; unfold pauses; cbn; lia
       | _ => handler_cases Ho; unfold pauses; cbn in *; repeat first [lia | split_match; cbn]
       end.
Qed.

(** The pause counters of a worker have grown by the number of pauses the run
    recorded: every pause counts once, as automatic or as manual, and nothing
    else changes the counters. *)
Theorem pauses_counted `{RootId CMLWorkerState} l s s' evs : ag_run l s = Ok (s', evs) ->
  auto_pause_count s <= auto_pause_count s' /\ manual_pause_count s <= manual_pause_count s' /\
  auto_pause_count s' + manual_pause_count s' = auto_pause_count s + manual_pause_count s + pauses evs.
Proof.
  intros Hr. eapply (ag_run_history (fun s1 past =>
    auto_pause_count s <= auto_pause_count s1 /\ manual_pause_count s <= manual_pause_count s1 /\
    auto_pause_count s1 + manual_pause_count s1 = auto_pause_count s + manual_pause_count s + pauses past)
    l s s' evs []); [|done|change (pauses []) with 0; lia].
  intros c cmd s1 s2 evs' past He IH. rewrite pauses_app.
  apply worker_exec_effect in He as [[-> (r & u & ->)]|(ev & -> & _ & Hr' & Ho)].
  - change (pauses (map (pair c) [])) with 0. cbn. lia.
  - pose proof (on_pause_counts _ _ _ _ Hr' Ho). cbn [map]. lia.
Qed.
