(* ===== verification/WorkerSpec.v ===== *)
(** * What a worker promises about capacity, licenses, ports and metrics

    A ledger of the sessions of a worker with what each holds, refined by the
    [allocated_capacity] and [session_ids] the aggregate keeps; the license
    protocol; the aggregate's own search for ports against the search of the port
    service; the suppression of metrics reports. *)
From S2P Require Import Prelude PyFloat PyData PyNum Enums Lifecycle AuditTrail Aggregate WorkerValues Ports.
From S2P Require Import PortService PortServiceProps WorkerEvents Worker WorkerProps.
Import WorkerStatus.

(** ** The ledger of sessions *)

(** What each session of the worker holds. *)
Abbreviation ledger := (gmap string WorkerCapacity).

(** The sum of one resource over the sessions. *)
Definition total (f : WorkerCapacity -> Z) (m : ledger) : Z := map_fold (fun _ c acc => f c + acc) 0 m.

Lemma total_insert f m k c : m !! k = None -> total f (<[k := c]> m) = f c + total f m.
Proof. intros Hk. unfold total. rewrite map_fold_insert_L; [done| |done]. intros. lia. Qed.

Lemma total_delete f m k c : m !! k = Some c -> total f m = f c + total f (delete k m).
Proof. intros Hk. unfold total. rewrite (map_fold_delete_L _ _ k c m); [done| |done]. intros. lia. Qed.

Lemma total_nonneg f m : (forall c, capacity_valid c -> 0 <= f c) -> map_Forall (fun _ c => capacity_valid c) m -> 0 <= total f m.
Proof.
  intros Hf. unfold total. induction m as [|k c m Hk IH] using map_ind; intros Hm.
  - by rewrite map_fold_empty.
  - fold (total f (<[k := c]> m)). rewrite total_insert by done. apply map_Forall_insert in Hm as [Hc Hm]; [|done].
    specialize (IH Hm). specialize (Hf c Hc). unfold total. lia.
Qed.

(** The state [s] keeps the ledger [m]: the keys are the sessions, each once,
    and what is allocated is the sum of what they hold. *)
Record keeps (m : ledger) (s : CMLWorkerState) : Prop := {
  keeps_valid : map_Forall (fun _ c => capacity_valid c) m;
  keeps_nodup : NoDup (session_ids s);
  keeps_keys : forall k, k ∈ session_ids s <-> is_Some (m !! k);
  keeps_sum : allocated_capacity s =
    {| cpu_cores := total cpu_cores m; memory_gb := total memory_gb m;
       storage_gb := total storage_gb m; max_nodes := Some (total nodes m) |}
}.

(** The commands on the ledger: an assignment is of a session it does not have,
    a removal releases what the session holds. *)
Definition ledger_exec (cmd : command) (m : ledger) : option ledger :=
  match cmd with
  | AssignLabletSession session cpu mem storage n =>
      match m !! session, mk_capacity cpu mem storage n with
      | None, Ok c => Some (<[session := c]> m)
      | _, _ => None
      end
  | RemoveLabletSession session cpu mem storage n =>
      match m !! session, mk_capacity cpu mem storage n with
      | Some held, Ok c => if decide (held = c) then Some (delete session m) else None
      | _, _ => None
      end
  | RecalculateCapacity _ _ _ _ _ _ => None
  | _ => Some m
  end.

Fixpoint ledger_run (l : list (clock * command)) (m : ledger) : option ledger :=
  match l with
  | [] => Some m
  | (_, cmd) :: l => m ← ledger_exec cmd m; ledger_run l m
  end.

(** What the commands other than these three leave alone. *)
Definition same_sessions (s s' : CMLWorkerState) : Prop :=
  session_ids s' = session_ids s /\ allocated_capacity s' = allocated_capacity s.

Lemma on_Terminated_sessions c e s s' : on_Terminated c e s = Ok s' -> same_sessions s s'.
Proof.
  unfold on_Terminated, same_sessions. intros H. apply bind_ok in H as (s1 & [d ->]%worker_duration_eq & Ht).
  injection Ht as <-. split; reflexivity.
Qed.

Lemma transition_license c f t b r m s : license (record_transition c f t b r m s) = license s.
Proof. reflexivity. Qed.

Lemma duration_license s s' : compute_duration s = Ok s' -> license s' = license s.
Proof. intros [d ->]%worker_duration_eq. reflexivity. Qed.

Lemma on_Terminated_license c e s s' : on_Terminated c e s = Ok s' -> license s' = license s.
Proof.
  unfold on_Terminated. intros H. apply bind_ok in H as (s1 & Hd & Ht).
  injection Ht as <-. rewrite transition_license. apply duration_license in Hd. rewrite Hd. reflexivity.
Qed.

Definition same_values (s s' : CMLWorkerState) : Prop :=
  allocated_capacity s' = allocated_capacity s /\ declared_capacity s' = declared_capacity s /\
  port_allocations s' = port_allocations s.

Lemma on_Terminated_values c e s s' : on_Terminated c e s = Ok s' -> same_values s s'.
Proof.
  unfold on_Terminated, same_values. intros H. apply bind_ok in H as (s1 & [d ->]%worker_duration_eq & Ht).
  injection Ht as <-. repeat split; reflexivity.
Qed.

#[local] Strategy 1000 [on_Terminated].

Lemma on_same_sessions c ev s s' : registered s ev -> on c ev s = Ok s' ->
  match ev with
  | LabletSessionAssigned _ | LabletSessionRemoved _ | AllocatedCapacityRecalculated _ => True
  | _ => same_sessions s s'
  end.
Proof.
  intros Hr Ho. destruct ev; try done.
  all: lazymatch type of Ho with
       | on _ (Terminated _) _ = _ => by apply on_Terminated_sessions in Ho
       | _ => handler_cases Ho; split; by_cases
       end.
Qed.

Lemma exec_same_sessions `{RootId CMLWorkerState} c cmd s s' evs : exec c cmd s = Ok (s', evs) ->
  match cmd with
  | AssignLabletSession _ _ _ _ _ | RemoveLabletSession _ _ _ _ _ | RecalculateCapacity _ _ _ _ _ _ => True
  | _ => same_sessions s s'
  end.
Proof.
  intros [[_ (r & u & ->)]|(ev & _ & He & Hr & Ho)]%worker_exec_effect.
  - by destruct cmd.
  - apply on_same_sessions in Ho; [|done]. by destruct cmd; try done; destruct ev.
Qed.

Lemma keeps_same m s s' : same_sessions s s' -> keeps m s -> keeps m s'.
Proof. intros [Hs Ha] [H1 H2 H3 H4]. split; rewrite ?Hs, ?Ha; done. Qed.

Lemma add_sum m c : capacity_valid c -> map_Forall (fun _ c => capacity_valid c) m ->
  add {| cpu_cores := total cpu_cores m; memory_gb := total memory_gb m;
         storage_gb := total storage_gb m; max_nodes := Some (total nodes m) |} c
  = Ok {| cpu_cores := total cpu_cores m + cpu_cores c; memory_gb := total memory_gb m + memory_gb c;
          storage_gb := total storage_gb m + storage_gb c; max_nodes := Some (total nodes m + nodes c) |}.
Proof.
  intros Hc Hm. unfold add. cbn. apply mk_capacity_ok. split.
  - unfold nodes. by destruct (max_nodes c).
  - apply capacity_valid_iff in Hc as (? & ? & ? & ?).
    assert (forall f, (forall c, capacity_valid c -> 0 <= f c) -> 0 <= total f m) as Ht
      by (intros; by apply total_nonneg).
    apply capacity_valid_iff. cbn. unfold nodes in *. cbn.
    assert (0 <= total cpu_cores m /\ 0 <= total memory_gb m /\ 0 <= total storage_gb m /\ 0 <= total nodes m) as Hn
      by (repeat split; apply Ht; intros ? Hv; apply capacity_valid_iff in Hv; unfold nodes in *; lia).
    unfold nodes in Hn. lia.
Qed.

Lemma assign_keeps c e s m : keeps m s -> m !! LabletSessionAssigned_session_id e = None ->
  forall held, mk_capacity (LabletSessionAssigned_allocated_cpu_cores e) (LabletSessionAssigned_allocated_memory_gb e)
    (LabletSessionAssigned_allocated_storage_gb e) (LabletSessionAssigned_allocated_nodes e) = Ok held ->
  exists s', on c (LabletSessionAssigned e) s = Ok s' /\ keeps (<[LabletSessionAssigned_session_id e := held]> m) s'.
Proof.
  intros [H1 H2 H3 H4] Hk held Hh. cbn [on]. unfold on_LabletSessionAssigned. rewrite Hh. cbn [mbind res_bind].
  assert (LabletSessionAssigned_session_id e ∉ session_ids s) as Hn by (rewrite H3, Hk; by intros [? ?]).
  rewrite bool_decide_false by done. cbn. apply mk_capacity_ok in Hh as [_ Hv].
  rewrite H4, add_sum by done. eexists. split; [reflexivity|]. split; cbn.
  - by apply map_Forall_insert.
  - apply NoDup_app. split; [done|]. split; [|apply NoDup_singleton].
    by intros x Hx ->%list_elem_of_singleton.
  - intros k. rewrite elem_of_app, list_elem_of_singleton, lookup_insert_is_Some', H3.
    split; (intros [?|?]; [by right|by left]).
  - rewrite !total_insert by done. f_equal; [lia..|]. f_equal. lia.
Qed.

Lemma released_sum m k held : m !! k = Some held -> map_Forall (fun _ c => capacity_valid c) m ->
  mk_capacity (Z.max 0 (total cpu_cores m - cpu_cores held)) (Z.max 0 (total memory_gb m - memory_gb held))
    (Z.max 0 (total storage_gb m - storage_gb held)) (Some (Z.max 0 (total nodes m - nodes held)))
  = Ok {| cpu_cores := total cpu_cores (delete k m); memory_gb := total memory_gb (delete k m);
          storage_gb := total storage_gb (delete k m); max_nodes := Some (total nodes (delete k m)) |}.
Proof.
  intros Hk Hm. assert (map_Forall (fun _ c => capacity_valid c) (delete k m)) as Hd by by apply map_Forall_delete.
  assert (0 <= total cpu_cores (delete k m) /\ 0 <= total memory_gb (delete k m)
          /\ 0 <= total storage_gb (delete k m) /\ 0 <= total nodes (delete k m)) as (? & ? & ? & ?)
    by (repeat split; apply total_nonneg; try done; intros ? Hv; apply capacity_valid_iff in Hv; lia).
  rewrite !(total_delete _ m k held) by done. apply mk_capacity_ok. split.
  - f_equal; [lia..|]. f_equal. lia.
  - apply capacity_valid_iff. cbn. lia.
Qed.

Lemma remove_keeps c e s m held : keeps m s -> m !! LabletSessionRemoved_session_id e = Some held ->
  mk_capacity (LabletSessionRemoved_released_cpu_cores e) (LabletSessionRemoved_released_memory_gb e)
    (LabletSessionRemoved_released_storage_gb e) (LabletSessionRemoved_released_nodes e) = Ok held ->
  exists s', on c (LabletSessionRemoved e) s = Ok s' /\ keeps (delete (LabletSessionRemoved_session_id e) m) s'.
Proof.
  intros [H1 H2 H3 H4] Hk Hh. cbn [on]. unfold on_LabletSessionRemoved. rewrite Hh. cbn.
  fold (nodes held). rewrite H4. cbn. rewrite (released_sum m _ held) by done. cbn. eexists. split; [reflexivity|].
  split; cbn.
  - by apply map_Forall_delete.
  - by apply NoDup_ListNoDup, List.NoDup_filter, NoDup_ListNoDup.
  - intros k. rewrite list_elem_of_In, List.filter_In, <- list_elem_of_In, H3, lookup_delete_is_Some, negb_true_iff.
    rewrite String.eqb_neq. naive_solver.
  - done.
Qed.

Definition session_command (cmd : command) : bool :=
  match cmd with AssignLabletSession _ _ _ _ _ | RemoveLabletSession _ _ _ _ _ => true | _ => false end.

Section Refinement.
Context `{RootId CMLWorkerState} (Hid : forall s, root_id s = Some (id s)).

(** One command is simulated by the ledger; a session command the ledger
    accepts does not raise. *)
Lemma exec_keeps c cmd m m' s : keeps m s -> ledger_exec cmd m = Some m' ->
  (forall s' evs, exec c cmd s = Ok (s', evs) -> keeps m' s') /\
  (session_command cmd = true -> exists s' evs, exec c cmd s = Ok (s', evs) /\ keeps m' s').
Proof.
  intros Hk Hl.
  destruct cmd; try (split; [|done]; intros s' evs He; cbn in Hl; simplify_eq;
    apply (exec_same_sessions c) in He; by eapply keeps_same).
  all: cbn in Hl; destruct (m !! session) as [held|] eqn:Hm; try done;
    match type of Hl with context [mk_capacity ?a ?b ?d ?n] => destruct (mk_capacity a b d n) as [held'|?] eqn:Hc end; try done;
    repeat case_decide; simplify_eq; cbn;
    unfold assign_lablet_session, remove_lablet_session, aggregate_id, emit; rewrite Hid; cbn -[on].
  - match goal with |- context [on c ?ev s] => match ev with LabletSessionAssigned ?e =>
      destruct (assign_keeps c e s m Hk Hm _ Hc) as (s1 & -> & Hs1) end end.
    cbn. split; [by intros s' evs [= <- <-]|eauto].
  - match goal with |- context [on c ?ev s] => match ev with LabletSessionRemoved ?e =>
      destruct (remove_keeps c e s m _ Hk Hm Hc) as (s1 & -> & Hs1) end end.
    cbn. split; [by intros s' evs [= <- <-]|eauto].
Qed.

Lemma run_keeps l m m' s : keeps m s -> ledger_run l m = Some m' ->
  (forall s' evs, ag_run l s = Ok (s', evs) -> keeps m' s') /\
  (Forall (fun p => session_command p.2 = true) l -> exists s' evs, ag_run l s = Ok (s', evs) /\ keeps m' s').
Proof.
  revert m s. induction l as [|[c cmd] l IH]; intros m s Hk Hl.
  - cbn in *. simplify_eq. split; [by intros s' evs [= <- <-]|eauto].
  - cbn in Hl. destruct (ledger_exec cmd m) as [m1|] eqn:He; [|done]. cbn in Hl.
    destruct (exec_keeps c cmd m m1 s Hk He) as [Hs Hp]. split.
    + intros s' evs Hr. apply ag_run_cons in Hr as (s1 & evs1 & evs2 & Hx & Hr & _).
      eapply (IH m1 s1); eauto.
    + intros [Hc Hf]%Forall_cons. destruct (Hp Hc) as (s1 & evs1 & Hx & Hk1).
      destruct (IH m1 s1 Hk1 Hl) as [_ Hr]. destruct (Hr Hf) as (s' & evs2 & Hrun & Hk').
      eexists s', _. split; [|done]. apply ag_run_cons. eauto 8.
Qed.
End Refinement.

Lemma created_keeps s : created s -> keeps ∅ s.
Proof.
  intros (c & t & ev & Hev & Ho)%worker_created_event.
  assert (same_sessions (init_state t) s) as Hs by (destruct ev; try done; handler_cases Ho; by split).
  eapply keeps_same; [exact Hs|]. split; cbn.
  - apply map_Forall_empty.
  - by apply NoDup_nil.
  - intros k. rewrite lookup_empty. split; [by intros ?%not_elem_of_nil|by intros [? ?]].
  - unfold total. by rewrite !map_fold_empty.
Qed.


(** ** Guarded assignment *)

(** What is allocated stays within what is declared; no declared node limit is
    no limit. *)
Definition within (a d : WorkerCapacity) : Prop :=
  cpu_cores a <= cpu_cores d /\ memory_gb a <= memory_gb d /\ storage_gb a <= storage_gb d /\
  match max_nodes d with Some n => nodes a <= n | None => True end.

Lemma can_accommodate_true d r s : declared_capacity s = Some d -> within (allocated_capacity s) d ->
  can_accommodate r s = Ok true <->
  capacity_valid {| cpu_cores := cpu_cores d - cpu_cores (allocated_capacity s);
                    memory_gb := memory_gb d - memory_gb (allocated_capacity s);
                    storage_gb := storage_gb d - storage_gb (allocated_capacity s);
                    max_nodes := n ← max_nodes d; Some (n - nodes (allocated_capacity s)) |} /\
  cpu_cores (allocated_capacity s) + cpu_cores r <= cpu_cores d /\
  memory_gb (allocated_capacity s) + memory_gb r <= memory_gb d /\
  storage_gb (allocated_capacity s) + storage_gb r <= storage_gb d /\
  match max_nodes d, max_nodes r with
  | Some n, Some k => nodes (allocated_capacity s) + k <= n
  | _, _ => True
  end.
Proof.
  intros Hd (H1 & H2 & H3 & H4). unfold can_accommodate, available_capacity. rewrite Hd. cbn. unfold subtract.
  fold (nodes (allocated_capacity s)). rewrite !Z.max_r by lia.
  assert (match max_nodes d with Some n => Some (Z.max 0 (n - nodes (allocated_capacity s))) | None => None end
          = n ← max_nodes d; Some (n - nodes (allocated_capacity s))) as ->
    by (destruct (max_nodes d); [cbn; f_equal; lia|done]).
  match goal with |- context [mk_capacity ?a ?b ?c ?d] => destruct (mk_capacity a b c d) as [a'|e] eqn:Hm end; cbn.
  - apply mk_capacity_ok in Hm as [-> Hv]. unfold can_fit. cbn.
    destruct (max_nodes d), (max_nodes r); cbn; repeat case_match; split; intros Ht; simplify_eq;
      repeat match goal with H : negb _ = _ |- _ => apply negb_true_iff in H || apply negb_false_iff in H end;
      try (injection Ht as Ht; apply negb_true_iff in Ht); try done; try (split; [done|]); try lia.
    f_equal. apply negb_true_iff. lia.
  - split; [done|]. intros [Hv _]. assert (mk_capacity (cpu_cores d - cpu_cores (allocated_capacity s)) (memory_gb d - memory_gb (allocated_capacity s)) (storage_gb d - storage_gb (allocated_capacity s)) (n ← max_nodes d; Some (n - nodes (allocated_capacity s))) = Ok _) as He by by apply mk_capacity_ok. by rewrite Hm in He.
Qed.

Lemma assign_effect `{RootId CMLWorkerState} c session cpu mem sto n s s' evs :
  exec c (AssignLabletSession session cpu mem sto n) s = Ok (s', evs) ->
  declared_capacity s' = declared_capacity s /\ session ∈ session_ids s' /\
  cpu_cores (allocated_capacity s') = cpu_cores (allocated_capacity s) + cpu /\
  memory_gb (allocated_capacity s') = memory_gb (allocated_capacity s) + mem /\
  storage_gb (allocated_capacity s') = storage_gb (allocated_capacity s) + sto /\
  nodes (allocated_capacity s') = nodes (allocated_capacity s) + oint0 n.
Proof.
  cbn. unfold assign_lablet_session. intros (i & _ & [_ Ho]%worker_emit_ok)%bind_ok. cbn in Ho.
  unfold on_LabletSessionAssigned in Ho. apply bind_ok in Ho as (held & [-> Hv]%mk_capacity_ok & Ho).
  apply bind_ok in Ho as (a & Ha & [= <-]). unfold add in Ha. apply mk_capacity_ok in Ha as [-> _]. cbn.
  case_bool_decide; cbn; repeat split; try done; try (apply elem_of_app; right; by apply list_elem_of_singleton).
  all: unfold nodes; cbn; by destruct (max_nodes (allocated_capacity s)), n.
Qed.

(** A session that [can_accommodate] admits never takes a worker over its
    declared capacity, in any resource. *)
Theorem guarded_assign_within `{RootId CMLWorkerState} c d r session s s' evs :
  declared_capacity s = Some d -> within (allocated_capacity s) d -> can_accommodate r s = Ok true ->
  exec c (AssignLabletSession session (cpu_cores r) (memory_gb r) (storage_gb r) (max_nodes r)) s = Ok (s', evs) ->
  declared_capacity s' = Some d /\ within (allocated_capacity s') d /\ session ∈ session_ids s'.
Proof.
  intros Hd Hw Hc (Hd' & Hi & H1 & H2 & H3 & H4)%assign_effect.
  apply (can_accommodate_true d) in Hc as (_ & ? & ? & ? & Hn); [|done..].
  split; [by rewrite Hd'|]. split; [|done]. destruct Hw as (? & ? & ? & Hw).
  unfold within. rewrite H1, H2, H3, H4. repeat split; [lia..|].
  destruct (max_nodes d), (max_nodes r); cbn; lia.
Qed.

(** An assignment that is repeated counts again: the session is listed once, but
    what is allocated grows by its size, so that removing it once leaves the
    worker charged for a session it no longer has. *)
Theorem repeated_assignment_drifts `{RootId CMLWorkerState} c1 c2 session cpu mem sto s s' evs :
  session ∈ session_ids s ->
  ag_run [(c1, AssignLabletSession session cpu mem sto None); (c2, RemoveLabletSession session cpu mem sto None)] s
    = Ok (s', evs) ->
  session ∉ session_ids s' /\
  (0 <= cpu_cores (allocated_capacity s) -> cpu_cores (allocated_capacity s') = cpu_cores (allocated_capacity s)).
Proof.
  intros Hin Hr. apply ag_run_cons in Hr as (s1 & e1 & e2 & Hx & Hr & _).
  apply ag_run_cons in Hr as (s2 & e3 & e4 & Hy & Hr & _). cbn in Hr. inv_ok.
  apply (assign_effect c1) in Hx as (_ & _ & Hc & _).
  cbn in Hy. unfold remove_lablet_session in Hy. apply bind_ok in Hy as (i & _ & [_ Ho]%worker_emit_ok). cbn in Ho.
  unfold on_LabletSessionRemoved in Ho. cbn in Ho. apply bind_ok in Ho as (held & [-> Hv]%mk_capacity_ok & Ho).
  apply bind_ok in Ho as (a & [-> _]%mk_capacity_ok & [= <-]). cbn. rewrite Hc. split; [|intros; lia].
  rewrite list_elem_of_In, List.filter_In, negb_true_iff, String.eqb_neq. naive_solver.
Qed.

(** ** The license protocol *)

(** The commands that write the pending token. *)
Definition writes_pending (cmd : command) : bool :=
  match cmd with
  | RequestLicenseRegistration _ _ _ | CompleteLicenseRegistration _ _ _ _ | FailLicenseRegistration _ _ _
  | CompleteLicenseDeregistration _ _ => true
  | _ => false
  end.

Lemma sync_license_pending info l l' : sync_license info l = Ok l' -> pending_token l' = pending_token l.
Proof. unfold sync_license. intros H. repeat split_match_in H; by inv_ok. Qed.

Lemma on_pending c ev s s' : registered s ev -> on c ev s = Ok s' ->
  match ev with
  | LicenseRegistrationRequested _ | LicenseRegistrationCompleted _ | LicenseRegistrationFailed _
  | LicenseDeregistrationCompleted _ => True
  | _ => pending_token (license s') = pending_token (license s)
  end.
Proof.
  intros Hr Ho. destruct ev; try done.
  all: lazymatch type of Ho with
       | on _ (Terminated _) _ = _ => apply on_Terminated_license in Ho; by rewrite Ho
       | on _ (CMLMetricsUpdated _) _ = _ => idtac
       | _ => handler_cases Ho; by_cases
       end.
  cbn in Ho. unfold on_CMLMetricsUpdated in Ho. apply bind_ok in Ho as (i & _ & Ho). cbn in Ho.
  destruct (CMLMetricsUpdated_license_info event) as [[|p l]|]; try by injection Ho as <-.
  apply bind_ok in Ho as (l' & Hl & [= <-]). cbn. by apply sync_license_pending in Hl.
Qed.

Lemma exec_pending `{RootId CMLWorkerState} c cmd s s' evs : writes_pending cmd = false ->
  exec c cmd s = Ok (s', evs) -> pending_token (license s') = pending_token (license s).
Proof.
  intros Hw [[_ (r & u & ->)]|(ev & _ & He & Hr & Ho)]%worker_exec_effect; [done|].
  apply on_pending in Ho; [|done]. destruct cmd; try done; by destruct ev.
Qed.

Lemma run_pending `{RootId CMLWorkerState} l s s' evs : Forall (fun p => writes_pending p.2 = false) l ->
  ag_run l s = Ok (s', evs) -> pending_token (license s') = pending_token (license s).
Proof.
  revert s evs. induction l as [|[c cmd] l IH]; intros s evs Hf Hr; [cbn in Hr; by inv_ok|].
  apply Forall_cons in Hf as [Hw Hf]. apply ag_run_cons in Hr as (s1 & e1 & e2 & He & Hr & _).
  rewrite (IH _ _ Hf Hr). exact (exec_pending c cmd s s1 e1 Hw He).
Qed.


(** A registration that completes installs the token that was asked for: from
    the request on, whatever commands come in between, as long as none of them is
    another request, completion or failure, the worker ends registered with that
    token, with nothing pending and no operation in progress. *)
Theorem license_registration `{RootId CMLWorkerState} c1 c2 tok by_ again status_ smart virtual at_ mid s s' evs :
  Forall (fun p => writes_pending p.2 = false) mid ->
  ag_run ((c1, RequestLicenseRegistration tok by_ again) :: mid
          ++ [(c2, CompleteLicenseRegistration status_ smart virtual at_)]) s = Ok (s', evs) ->
  l_status (license s') = LicenseState.REGISTERED /\ token (license s') = Some tok /\
  pending_token (license s') = None /\ pending_operation (license s') = None /\
  operation_in_progress (license s') = false.
Proof.
  intros Hm Hr. apply ag_run_cons in Hr as (s1 & e1 & e2 & Hq & Hr & _).
  apply ag_run_app in Hr as (s2 & e3 & e4 & Hmid & Hr & _).
  apply ag_run_cons in Hr as (s3 & e5 & e6 & Hx & Hr & _). cbn in Hr. inv_ok.
  apply run_pending in Hmid; [|done].
  cbn in Hq, Hx. apply bind_ok in Hq as (i & _ & [_ Hq]%worker_emit_ok). apply bind_ok in Hx as (j & _ & [_ Hx]%worker_emit_ok).
  cbn in Hq, Hx. unfold on_LicenseRegistrationRequested in Hq. unfold on_LicenseRegistrationCompleted in Hx.
  inv_ok. cbn in *. done.
Qed.

(** A request to deregister that arrives while a registration runs is lost: the
    completion of the registration clears it, and a failed deregistration leaves
    the token of an earlier request pending. *)
Theorem deregistration_request_lost `{RootId CMLWorkerState} c1 c2 by_ status_ smart virtual at_ s s' evs :
  ag_run [(c1, RequestLicenseDeregistration by_); (c2, CompleteLicenseRegistration status_ smart virtual at_)] s
    = Ok (s', evs) ->
  pending_operation (license s') = None /\ l_status (license s') = LicenseState.REGISTERED.
Proof.
  intros Hr. apply ag_run_cons in Hr as (s1 & e1 & e2 & Hq & Hr & _).
  apply ag_run_cons in Hr as (s3 & e5 & e6 & Hx & Hr & _). cbn in Hr. inv_ok.
  cbn in Hx. apply bind_ok in Hx as (j & _ & [_ Hx]%worker_emit_ok).
  cbn in Hx. unfold on_LicenseRegistrationCompleted in Hx. inv_ok. done.
Qed.

(** ** Ports *)

Lemma available_ports_free s : available_ports s = free_ports (allocated_port_set s) PORT_RANGE_MIN PORT_RANGE_MAX.
Proof.
  unfold available_ports, free_ports. change (PORT_RANGE_MAX + 1 - PORT_RANGE_MIN) with 8000.
  change PORT_RANGE_MIN with 2000. induction (seqZ 2000 8000) as [|p l IH]; [done|].
  cbn [List.filter]. rewrite filter_cons, <- IH. case_bool_decide; by case_decide.
Qed.

(** The aggregate's own search finds the ports the port service would, on the
    service's default range: it succeeds exactly when the service finds enough,
    and then with the same ports. *)
Theorem worker_ports_agree n s :
  get_next_available_ports (Z.of_nat n) s
  = let found := find_available_ports PORT_RANGE_MIN PORT_RANGE_MAX (allocated_port_set s) n in
    if (length found =? n)%nat then Ok found
    else Err (ValueError ("Not enough available ports: need " +:+ pretty (Z.of_nat n) +:+ ", have "
                            +:+ pretty (Z.of_nat (length found)))).
Proof.
  unfold get_next_available_ports. rewrite available_ports_free, find_available_eq. cbv zeta.
  set (free := free_ports _ _ _). rewrite length_take.
  destruct (Z.ltb_spec (Z.of_nat (length free)) (Z.of_nat n)).
  - rewrite (proj2 (Nat.eqb_neq _ _)) by lia. by rewrite Nat.min_r by lia.
  - rewrite (proj2 (Nat.eqb_eq _ _)) by lia. unfold py_take. rewrite (proj2 (Z.leb_le 0 _)) by lia.
    by rewrite Nat2Z.id.
Qed.

(** ** Metrics *)

(** With a threshold, a report is recorded exactly when it differs from the
    stored metrics in something that counts, or when the comparison raises; a
    report that is not recorded leaves the worker untouched, and without a
    threshold or earlier metrics every report is recorded. *)
Theorem metrics_report_recorded `{RootId CMLWorkerState} c threshold r s s' evs :
  update_cml_metrics c threshold r s = Ok (s', evs) ->
  (evs = [] <-> exists t, threshold = Some t /\ is_Some (system_info (metrics s)) /\ metrics_changed t r s = Ok false) /\
  (evs = [] -> s' = s) /\
  (evs <> [] -> labs_count (metrics s') = r_labs_count r /\ version (metrics s') = r_version r /\
                ready (metrics s') = r_ready r /\ is_Some (system_info (metrics s'))).
Proof.
  unfold update_cml_metrics. intros Hr.
  assert (report_emits threshold r s = false <->
    exists t, threshold = Some t /\ is_Some (system_info (metrics s)) /\ metrics_changed t r s = Ok false) as Hiff.
  { unfold report_emits. destruct threshold as [t|]; [|naive_solver].
    destruct (system_info (metrics s)) as [info|]; [|split; [done|by intros (? & _ & [? [=]] & _)]].
    destruct (metrics_changed t r s) as [[]|] eqn:Hc; split; try done; try (intros (? & [= <-] & _ & ?); congruence).
    intros _. eauto. }
  destruct (report_emits threshold r s); cbn [negb] in Hr.
  - apply bind_ok in Hr as (i & _ & [-> Ho]%worker_emit_ok). split; [split; [done|by intros ?%Hiff]|]. split; [done|].
    intros _. cbn in Ho. unfold on_CMLMetricsUpdated in Ho. cbn in Ho. apply bind_ok in Ho as (info & _ & Ho).
    destruct (r_license_info r) as [[|p l]|]; [by injection Ho as <-| |by injection Ho as <-].
    apply bind_ok in Ho as (l' & _ & [= <-]). done.
  - inv_ok. split; [|done]. split; [|done]. intros _. by apply Hiff.
Qed.

(** ** Stopping *)

(** A worker that is stopped keeps nothing of what it measured or where it
    answered: it cannot be connected to, and unless its capacity is declared it
    accommodates nothing. *)
Theorem stopped_forgets `{RootId CMLWorkerState} c s s' evs :
  status s <> STOPPED -> exec c (UpdateStatus STOPPED) s = Ok (s', evs) ->
  status s' = STOPPED /\ public_ip s' = None /\ private_ip s' = None /\ https_endpoint s' = None /\
  service_status s' = ServiceStatus.UNAVAILABLE /\ metrics s' = new_metrics /\
  cloudwatch_cpu_utilization s' = None /\ cloudwatch_last_collected_at s' = None /\
  can_connect s' = false /\ (declared_capacity s = None -> forall r, can_accommodate r s' = Ok false) /\
  (forall t n, is_idle t n s' = Ok false).
Proof.
  intros Hs. cbn [exec]. unfold update_status. rewrite bool_decide_false by done.
  intros (b & He)%drop_bool_ok. apply bind_ok in He as (ok & _ & He). apply bind_ok in He as (i & _ & He).
  apply emit_true_ok in He as (_ & _ & Ho). cbn in Ho. injection Ho as <-.
  repeat split; try done. intros Hd r. unfold can_accommodate, available_capacity. cbn. by rewrite Hd.
Qed.

(** ** Well-formed values *)

Definition allocation_valid (a : PortAllocation) : Prop :=
  str_truthy (pa_session_id a) = true /\ Forall (fun n => 2000 <= n <= 65535) (dict_values (pa_ports a)).

(** The values the worker holds are values their classes accept. *)
Record well_formed (s : CMLWorkerState) : Prop := {
  wf_allocated : capacity_valid (allocated_capacity s);
  wf_declared : forall d, declared_capacity s = Some d -> capacity_valid d;
  wf_ports : Forall allocation_valid (port_allocations s)
}.

Lemma same_well_formed s s' : same_values s s' -> well_formed s -> well_formed s'.
Proof. intros (H1 & H2 & H3) [? ? ?]. split; rewrite ?H1, ?H2, ?H3; done. Qed.

Lemma on_well_formed c ev s s' : registered s ev -> on c ev s = Ok s' -> well_formed s -> well_formed s'.
Proof.
  intros Hr Ho [Ha Hd Hp]. destruct ev; try done.
  all: lazymatch type of Ho with
       | on _ (Terminated _) _ = _ => eapply same_well_formed; [by eapply on_Terminated_values|by split]
       | on _ (CapacityUpdated _) _ = _ => idtac
       | on _ (PortsAllocated _) _ = _ => idtac
       | on _ (PortsReleased _) _ = _ => idtac
       | on _ (LabletSessionAssigned _) _ = _ => idtac
       | on _ (LabletSessionRemoved _) _ = _ => idtac
       | on _ (AllocatedCapacityRecalculated _) _ = _ => idtac
       | _ => eapply same_well_formed; [|by split]; handler_cases Ho; repeat split; by_cases
       end.
  all: cbn in Ho; unfold on_CapacityUpdated, on_PortsAllocated, on_PortsReleased, on_LabletSessionAssigned,
         on_LabletSessionRemoved, on_AllocatedCapacityRecalculated in Ho; inv_ok;
       repeat match goal with H : mk_capacity _ _ _ _ = Ok _ |- _ => apply mk_capacity_ok in H as [_ H] end.
  all: split; cbn; try done.
  - by intros d [= <-].
  - match goal with H : PortAllocation_post_init _ = Ok _ |- _ => apply PortAllocation_post_init_ok in H as (-> & ? & ?) end.
    apply Forall_app. split; [done|]. by apply Forall_singleton.
  - apply Forall_forall. intros a Hin. rewrite list_elem_of_In, List.filter_In, <- list_elem_of_In in Hin.
    by apply (proj1 (Forall_forall _ _) Hp), Hin.
  - match goal with H : add _ _ = Ok _ |- _ => by apply mk_capacity_ok in H as [_ H] end.
  - by case_bool_decide.
  - by case_bool_decide.
Qed.

(** Whatever the commands, what a worker has declared and allocated stays a
    capacity without negative components, and its port allocations name a session
    and keep to the allowed ports. *)
Theorem worker_well_formed `{RootId CMLWorkerState} l s s' evs :
  created s -> ag_run l s = Ok (s', evs) -> well_formed s'.
Proof.
  intros Hc Hr. eapply ag_run_invariant with (I := well_formed); [|exact Hr|].
  - intros c cmd s1 s2 evs' He Hw. apply (worker_exec_effect c cmd s1 s2 evs') in He as [[_ (r & u & ->)]|(ev & _ & _ & Hreg & Ho)].
    + eapply same_well_formed; [|exact Hw]. repeat split; reflexivity.
    + exact (on_well_formed c ev s1 s2 Hreg Ho Hw).
  - apply worker_created_event in Hc as (c & t & ev & Hev & Ho).
    assert (same_values (init_state t) s) as Hs by (destruct ev; try done; handler_cases Ho; by split).
    eapply same_well_formed; [exact Hs|]. split; cbn; [by apply capacity_valid_iff|done|constructor].
Qed.

(** ** A concrete run *)

Definition example_clock : clock := {| now := utc 100; now_hist := utc 101; now_upd := utc 102 |}.

(** [CMLWorker.id] as the identifier of the state. *)
Definition worker_root_id : RootId CMLWorkerState := fun s => Some (id s).

Definition example_worker : CMLWorkerState :=
  match create example_clock (utc 0) "uid" "worker" "us-east-1" "m5zn.metal" None None None None None PENDING None
          None (Some "alice") (Some "w-1") Origin.UNKNOWN with
  | Ok (s, _) => s
  | Err _ => init_state (utc 0)
  end.

Lemma example_worker_created : created example_worker.
Proof.
  left. exists example_clock, (utc 0), "uid", "worker", "us-east-1", "m5zn.metal", None, None, None, None, None,
    PENDING, None, None, (Some "alice"), (Some "w-1"), Origin.UNKNOWN. eexists. vm_compute. reflexivity.
Qed.

Definition example_commands : list (clock * command) :=
  map (pair example_clock)
    [UpdateCapacity (Some "large") 16 64 500 (Some 20); UpdateStatus RUNNING;
     AssignLabletSession "s-1" 4 16 100 (Some 5); AllocatePorts "s-1" [("serial_1", 5041)];
     AssignLabletSession "s-2" 2 8 50 None; Pause "idle_timeout" None None; Resume "manual" (Some "bob");
     RemoveLabletSession "s-1" 4 16 100 (Some 5); ReleasePorts "s-1"; UpdateStatus STOPPED; Terminate (Some "bob")].

Definition example_result : CMLWorkerState * list (clock * worker_event) :=
  match @ag_run _ _ _ (worker_aggregate (H := worker_root_id)) example_commands example_worker with
  | Ok r => r
  | Err _ => (example_worker, [])
  end.

Lemma example_worker_run :
  @ag_run _ _ _ (worker_aggregate (H := worker_root_id)) example_commands example_worker
  = Ok (example_result.1, example_result.2).
Proof. vm_compute. reflexivity. Qed.

Lemma worker_trail_witness : status example_result.1 = TERMINATED /\ trail (fun _ _ => True) example_result.1.
Proof.
  split; [vm_compute; reflexivity|].
  exact (worker_trail (H := worker_root_id) _ _ _ _ example_worker_created example_worker_run).
Defined.

Lemma pauses_counted_witness : auto_pause_count example_result.1 + manual_pause_count example_result.1 = 1.
Proof. exact (proj2 (proj2 (pauses_counted (H := worker_root_id) _ _ _ _ example_worker_run))). Defined.

Lemma worker_well_formed_witness : well_formed example_result.1.
Proof. exact (worker_well_formed (H := worker_root_id) _ _ _ _ example_worker_created example_worker_run). Defined.

Definition example_ledger : ledger :=
  {["s-2" := {| cpu_cores := 2; memory_gb := 8; storage_gb := 50; max_nodes := None |}]}.


(** The state and the events of a result that is known to be no exception. *)
Definition state_of {E} (r : res (CMLWorkerState * list E)) : CMLWorkerState :=
  match r with Ok p => p.1 | Err _ => init_state (utc 0) end.
Definition events_of {E} (r : res (CMLWorkerState * list E)) : list E :=
  match r with Ok p => p.2 | Err _ => [] end.
Definition returns {E} (r : res (CMLWorkerState * list E)) : bool :=
  match r with Ok _ => true | Err _ => false end.

Lemma returns_ok {E} (r : res (CMLWorkerState * list E)) : returns r = true -> r = Ok (state_of r, events_of r).
Proof. destruct r as [[s evs]|e]; done. Qed.

Abbreviation demo_run := (@ag_run _ _ _ (worker_aggregate (H := worker_root_id))).
Abbreviation demo_exec := (exec (H := worker_root_id) example_clock).

(** The worker with a declared capacity and one session, and what it declares. *)
Definition example_busy : CMLWorkerState := state_of (demo_run (take 3 example_commands) example_worker).
Definition example_declared : WorkerCapacity :=
  {| cpu_cores := 16; memory_gb := 64; storage_gb := 500; max_nodes := Some 20 |}.
Definition example_request : WorkerCapacity :=
  {| cpu_cores := 12; memory_gb := 48; storage_gb := 100; max_nodes := Some 15 |}.

Lemma guarded_assign_within_witness :
  within (allocated_capacity (state_of (demo_exec (AssignLabletSession "s-2" 12 48 100 (Some 15)) example_busy)))
    example_declared.
Proof.
  refine (proj1 (proj2 (guarded_assign_within (H := worker_root_id) example_clock example_declared example_request
    "s-2" example_busy _ _ _ _ _ (returns_ok _ _)))).
  - vm_compute. reflexivity.
  - repeat split; vm_compute; discriminate.
  - vm_compute. reflexivity.
  - vm_compute. reflexivity.
Defined.

Definition license_run : list (clock * command) :=
  (example_clock, RequestLicenseRegistration "token-1" None false)
  :: [(example_clock, StartLicenseRegistration (PIso (utc 110)) None); (example_clock, UpdateStatus RUNNING)]
     ++ [(example_clock, CompleteLicenseRegistration "COMPLETED" None None (PIso (utc 120)))].

Lemma license_registration_witness : token (license (state_of (demo_run license_run example_worker))) = Some "token-1".
Proof.
  refine (proj1 (proj2 (license_registration (H := worker_root_id) example_clock example_clock "token-1" None false
    "COMPLETED" None None (PIso (utc 120)) _ example_worker _ _ _ (returns_ok _ _)))).
  - by repeat constructor.
  - vm_compute. reflexivity.
Defined.

Definition lost_run : list (clock * command) :=
  [(example_clock, RequestLicenseDeregistration None);
   (example_clock, CompleteLicenseRegistration "COMPLETED" None None (PIso (utc 120)))].

Lemma deregistration_request_lost_witness :
  pending_operation (license (state_of (demo_run lost_run example_worker))) = None.
Proof.
  refine (proj1 (deregistration_request_lost (H := worker_root_id) example_clock example_clock None
    "COMPLETED" None None (PIso (utc 120)) example_worker _ _ (returns_ok _ _))).
  vm_compute. reflexivity.
Defined.

Definition example_report : cml_report :=
  {| r_version := Some "2.9.1"; r_system_info := [("all_cpu_percent", PInt 10)]; r_system_health := None;
     r_license_info := None; r_ready := true; r_uptime := None; r_labs_count := 3; r_synced_at := None |}.

Definition example_recorded : res (CMLWorkerState * list worker_event) :=
  update_cml_metrics (H := worker_root_id) example_clock (Some (PInt 5)) example_report example_worker.

Lemma metrics_report_recorded_witness : labs_count (metrics (state_of example_recorded)) = 3.
Proof.
  refine (proj1 (proj2 (proj2 (metrics_report_recorded (H := worker_root_id) example_clock (Some (PInt 5)) example_report
    example_worker _ _ (returns_ok _ _))) _)); [vm_compute; reflexivity|vm_compute; discriminate].
Defined.

Lemma stopped_forgets_witness :
  metrics (state_of (demo_exec (UpdateStatus STOPPED) example_worker)) = new_metrics.
Proof.
  refine (proj1 (proj2 (proj2 (proj2 (proj2 (proj2 (stopped_forgets (H := worker_root_id) example_clock example_worker
    _ _ _ (returns_ok _ _)))))))); [vm_compute; discriminate|vm_compute; reflexivity].
Defined.

Lemma subtract_add_witness : exists a, subtract example_request example_request = Ok a /\ can_fit example_request a = true.
Proof.
  destruct (subtract_add example_request example_request eq_refl eq_refl eq_refl) as (a & ? & ? & _). by exists a.
Defined.

Lemma repeated_assignment_drifts_witness :
  "s-1" ∉ session_ids (state_of (demo_run
    [(example_clock, AssignLabletSession "s-1" 4 16 100 None); (example_clock, RemoveLabletSession "s-1" 4 16 100 None)]
    example_busy)).
Proof.
  refine (proj1 (repeated_assignment_drifts (H := worker_root_id) example_clock example_clock "s-1" 4 16 100 example_busy
    _ _ _ (returns_ok _ _))); [|vm_compute; reflexivity].
  apply (bool_decide_eq_true_1 _). vm_compute. reflexivity.
Defined.
