(* ===== verification/Slug.v ===== *)
(** * Names derived from names ([core/lcm_core/domain/utils.py] and the version
    helper of the definition commands)

    The bucket name of a form qualified name, and the patch bump of a version. *)
From Stdlib Require Import Ascii.
From S2P Require Import Prelude.

Fixpoint str_all (p : ascii -> bool) (s : string) : bool :=
  match s with EmptyString => true | String c s => p c && str_all p s end.

(** [re.sub(class, "", s)] for the characters [p] does not accept. *)
Fixpoint str_filter (p : ascii -> bool) (s : string) : string :=
  match s with
  | EmptyString => EmptyString
  | String c s => if p c then String c (str_filter p s) else str_filter p s
  end.

Definition is_dash (c : ascii) : bool := Ascii.eqb c "-".

(** [[a-z0-9.\-]] *)
Definition slug_char (c : ascii) : bool :=
  let n := nat_of_ascii c in
  ((97 <=? n) && (n <=? 122) || (48 <=? n) && (n <=? 57))%nat || Ascii.eqb c "." || is_dash c.

(** [re.sub(r"-{2,}", "-", s)] *)
Fixpoint collapse_dashes (s : string) : string :=
  match s with
  | EmptyString => EmptyString
  | String c s' =>
      let r := collapse_dashes s' in
      match s' with
      | String d _ => if is_dash c && is_dash d then r else String c r
      | EmptyString => String c r
      end
  end.

Definition slugify_fqn (form_qualified_name : string) : res string :=
  if negb (str_truthy form_qualified_name) || negb (str_truthy (py_strip form_qualified_name))
  then Err (ValueError "form_qualified_name cannot be empty") else
  let slug := py_lower (py_strip form_qualified_name) in
  let slug := py_replace " " "-" slug in
  let slug := str_filter slug_char slug in
  let slug := collapse_dashes slug in
  let slug := py_strip_by is_dash slug in
  if negb (str_truthy slug)
  then Err (ValueError ("Slugified FQN is empty after processing: '" +:+ form_qualified_name +:+ "'"))
  else Ok slug.

(** ** [_increment_patch_version] *)

Definition digit (c : ascii) : option Z :=
  let n := nat_of_ascii c in if ((48 <=? n) && (n <=? 57))%nat then Some (Z.of_nat (n - 48)) else None.

(** Digits with single underscores between them. *)
Fixpoint int_digits (acc : Z) (after_digit : bool) (s : string) : option Z :=
  match s with
  | EmptyString => if after_digit then Some acc else None
  | String c s =>
      match digit c with
      | Some d => int_digits (10 * acc + d) true s
      | None => if Ascii.eqb c "_" && after_digit then int_digits acc false s else None
      end
  end.

(** [int(s)] of a string; [None] where Python raises ValueError. *)
Definition py_int (s : string) : option Z :=
  match py_strip s with
  | String "-" s => Z.opp <$> int_digits 0 false s
  | String "+" s => int_digits 0 false s
  | s => int_digits 0 false s
  end.

(** [l[-1] = x] *)
Definition set_last {A} (x : A) (l : list A) : list A := take (length l - 1) l ++ [x].

Definition increment_patch_version (version : string) : string :=
  let parts := py_split "." version in
  let parts :=
    if (2 <=? length parts)%nat then
      match py_int (default "" (last parts)) with
      | Some n => set_last (pretty (n + 1)) parts
      | None => parts ++ ["1"]
      end
    else parts ++ ["1"] in
  py_join "." parts.

Example slug_doc : slugify_fqn "Exam Associate CCNA v1.1 LAB 1.3a" = Ok "exam-associate-ccna-v1.1-lab-1.3a".
Proof. vm_compute. reflexivity. Qed.
Example slug_dashes : slugify_fqn "  --A -- b!--" = Ok "a-b".
Proof. vm_compute. reflexivity. Qed.
Example bump_doc : map increment_patch_version ["1.0.0"; "2.3.7"; "1.0"; "1"; "1.x"] = ["1.0.1"; "2.3.8"; "1.1"; "1.1"; "1.x.1"].
Proof. vm_compute. reflexivity. Qed.

(** ** Facts *)

Lemma lstrip_id p s : str_all (fun c => negb (p c)) s = true -> lstrip_by p s = s.
Proof. destruct s as [|c s]; cbn; [done|]. rewrite andb_true_iff, negb_true_iff. by intros [-> _]. Qed.

Lemma rstrip_id p s : str_all (fun c => negb (p c)) s = true -> rstrip_by p s = s.
Proof.
  induction s as [|c s IH]; cbn; [done|]. rewrite andb_true_iff, negb_true_iff. intros [Hc Hs].
  rewrite IH by done. rewrite Hc. by destruct s.
Qed.

Lemma rstrip_idem p s : rstrip_by p (rstrip_by p s) = rstrip_by p s.
Proof.
  induction s as [|c s IH]; cbn; [done|].
  destruct (rstrip_by p s) as [|d r] eqn:Hr; [destruct (p c) eqn:Hc; cbn; [done|by rewrite Hc]|].
  cbn in *. by destruct (rstrip_by p r); [destruct (p d)|]; rewrite ?IH.
Qed.

Lemma lstrip_head p s : match lstrip_by p s with String c _ => p c = false | EmptyString => True end.
Proof. induction s as [|c s IH]; cbn; [done|]. by destruct (p c) eqn:Hc. Qed.

(** A string that keeps its first character is not stripped on the left. *)
Lemma lstrip_rstrip p s : lstrip_by p (rstrip_by p (lstrip_by p s)) = rstrip_by p (lstrip_by p s).
Proof.
  pose proof (lstrip_head p s) as Hh. destruct (lstrip_by p s) as [|c t]; [done|]. cbn.
  destruct (rstrip_by p t); cbn; by rewrite Hh; cbn; rewrite ?Hh.
Qed.

Lemma str_all_lstrip q p s : str_all q s = true -> str_all q (lstrip_by p s) = true.
Proof. induction s as [|c s IH]; cbn; [done|]. intros H. destruct (p c); [|done]. apply andb_true_iff in H as [_ H]. auto. Qed.

Lemma str_all_rstrip q p s : str_all q s = true -> str_all q (rstrip_by p s) = true.
Proof.
  induction s as [|c s IH]; cbn; [done|]. intros [Hc H]%andb_true_iff. specialize (IH H).
  destruct (rstrip_by p s); cbn in *; [destruct (p c); cbn; by rewrite ?Hc|]. by rewrite Hc.
Qed.

Lemma str_all_filter p s : str_all p (str_filter p s) = true.
Proof. induction s as [|c s IH]; cbn; [done|]. destruct (p c) eqn:Hc; cbn; [by rewrite Hc|done]. Qed.

Lemma str_filter_id p s : str_all p s = true -> str_filter p s = s.
Proof. induction s as [|c s IH]; cbn; [done|]. intros [-> H]%andb_true_iff. by rewrite IH. Qed.

Lemma str_all_collapse p s : str_all p s = true -> str_all p (collapse_dashes s) = true.
Proof.
  induction s as [|c s IH]; cbn; [done|]. intros [Hc H]%andb_true_iff. specialize (IH H).
  destruct s as [|d s]; [cbn; by rewrite Hc|]. destruct (is_dash c && is_dash d); [done|]. cbn in *. by rewrite Hc.
Qed.

(** No two dashes in a row. *)
Fixpoint no_double (s : string) : bool :=
  match s with
  | EmptyString => true
  | String c s' =>
      match s' with
      | String d _ => negb (is_dash c && is_dash d) && no_double s'
      | EmptyString => true
      end
  end.

Lemma collapse_cons c d s : collapse_dashes (String c (String d s)) =
  if is_dash c && is_dash d then collapse_dashes (String d s) else String c (collapse_dashes (String d s)).
Proof. reflexivity. Qed.

(** The first character survives collapsing. *)
Lemma collapse_head s : match s, collapse_dashes s with
  | String c _, String d _ => is_dash c = is_dash d
  | EmptyString, EmptyString => True
  | _, _ => False
  end.
Proof.
  induction s as [|c s IH]; [done|]. destruct s as [|d s]; [done|]. rewrite collapse_cons.
  destruct (is_dash c && is_dash d) eqn:Hd; [|done]. apply andb_true_iff in Hd as [Hc Hd].
  revert IH. destruct (collapse_dashes (String d s)); [done|]. intros <-. by rewrite Hc.
Qed.

Lemma collapse_no_double s : no_double (collapse_dashes s) = true.
Proof.
  induction s as [|c s IH]; [done|]. destruct s as [|d s]; [done|]. rewrite collapse_cons.
  destruct (is_dash c && is_dash d) eqn:Hd; [done|].
  pose proof (collapse_head (String d s)) as Hh. cbn -[collapse_dashes] in Hh. revert Hh IH.
  destruct (collapse_dashes (String d s)) as [|e r]; [done|]. intros Hh IH. cbn [no_double]. rewrite <- Hh at 1. rewrite Hd. exact IH.
Qed.

Lemma collapse_id s : no_double s = true -> collapse_dashes s = s.
Proof.
  induction s as [|c s IH]; [done|]. destruct s as [|d s]; [done|]. rewrite collapse_cons.
  cbn [no_double]. intros [Hd H]%andb_true_iff. apply negb_true_iff in Hd. by rewrite Hd, IH.
Qed.

Lemma no_double_tail c s : no_double (String c s) = true -> no_double s = true.
Proof. cbn. destruct s; [done|]. by intros [_ H]%andb_true_iff. Qed.

Lemma no_double_lstrip p s : no_double s = true -> no_double (lstrip_by p s) = true.
Proof.
  induction s as [|c s IH]; [done|]. intros H. cbn. destruct (p c); [|done]. apply IH. by eapply no_double_tail.
Qed.

Lemma rstrip_head p s : match rstrip_by p s with
  | String d _ => exists r, s = String d r
  | EmptyString => True
  end.
Proof. destruct s as [|c s]; [done|]. cbn. destruct (rstrip_by p s); [destruct (p c)|]; eauto. Qed.

Lemma no_double_rstrip p s : no_double s = true -> no_double (rstrip_by p s) = true.
Proof.
  induction s as [|c s IH]; [done|]. intros H. cbn.
  specialize (IH (no_double_tail _ _ H)). pose proof (rstrip_head p s) as Hh. cbn -[collapse_dashes] in Hh. revert Hh IH.
  destruct (rstrip_by p s) as [|d r]; [by destruct (p c)|]. intros [r' ->] IH.
  cbn [no_double] in H. apply andb_true_iff in H as [H _]. cbn [no_double]. rewrite H. exact IH.
Qed.

Lemma slug_char_lower c : slug_char c = true -> ascii_lower c = c /\ ascii_is_space c = false /\ Ascii.eqb c " " = false.
Proof. destruct c as [[] [] [] [] [] [] [] []]; done. Qed.

Lemma str_all_impl p q s : (forall c, p c = true -> q c = true) -> str_all p s = true -> str_all q s = true.
Proof. intros Hq. induction s as [|c s IH]; cbn; [done|]. intros [Hc H]%andb_true_iff. rewrite Hq, IH; done. Qed.

Lemma lower_id s : str_all slug_char s = true -> py_lower s = s.
Proof. induction s as [|c s IH]; cbn; [done|]. intros [[-> _]%slug_char_lower H]%andb_true_iff. by rewrite IH. Qed.

Lemma prefix_space c s : Ascii.eqb c " " = false -> String.prefix " " (String c s) = false.
Proof. by destruct c as [[] [] [] [] [] [] [] []]. Qed.

Lemma replace_space_id s : str_all slug_char s = true -> py_replace " " "-" s = s.
Proof.
  unfold py_replace. induction s as [|c s IH]; [done|]. cbn [str_all py_replace_from].
  intros [(_ & _ & Hc)%slug_char_lower H]%andb_true_iff. rewrite prefix_space by done. f_equal. by apply IH.
Qed.

(** What a bucket name is: not empty, of the allowed characters, without two
    dashes in a row, and with no dash at either end. *)
Record slug (s : string) : Prop := {
  slug_nonempty : str_truthy s = true;
  slug_chars : str_all slug_char s = true;
  slug_single : no_double s = true;
  slug_left : lstrip_by is_dash s = s;
  slug_right : rstrip_by is_dash s = s
}.

Lemma slug_fixed s : slug s -> slugify_fqn s = Ok s.
Proof.
  intros [H1 H2 H3 H4 H5].
  assert (py_strip s = s) as Hs.
  { assert (str_all (fun c => negb (ascii_is_space c)) s = true) as Hn
      by (eapply str_all_impl; [|exact H2]; intros c Hc; by apply slug_char_lower in Hc as (_ & -> & _)).
    unfold py_strip, py_strip_by. by rewrite lstrip_id, rstrip_id. }
  unfold slugify_fqn. rewrite Hs, H1. cbn [negb orb]. rewrite lower_id, replace_space_id by done.
  rewrite str_filter_id, collapse_id by done. unfold py_strip_by. rewrite H4, H5, H1. done.
Qed.

Lemma slugify_slug s t : slugify_fqn s = Ok t -> slug t.
Proof.
  unfold slugify_fqn. case_match; [done|]. case_match eqn:Ht; [done|]. intros [= <-]. apply negb_false_iff in Ht.
  split; [done| | | |]; unfold py_strip_by.
  - apply str_all_rstrip, str_all_lstrip, str_all_collapse, str_all_filter.
  - apply no_double_rstrip, no_double_lstrip, collapse_no_double.
  - apply lstrip_rstrip.
  - apply rstrip_idem.
Qed.

(** [slugify_fqn] either raises or returns a bucket name, and it changes no
    bucket name, so that deriving the name again gives the same name. *)
Theorem slugify_fqn_spec s :
  (forall t, slugify_fqn s = Ok t -> slug t /\ slugify_fqn t = Ok t) /\
  (slugify_fqn s = Ok s <-> slug s) /\
  (forall e, slugify_fqn s = Err e -> exists m, e = ValueError m).
Proof.
  split; [|split].
  - intros t Ht%slugify_slug. auto using slug_fixed.
  - split; [apply slugify_slug|apply slug_fixed].
  - intros e. unfold slugify_fqn. repeat case_match; intros [= <-]; eauto.
Qed.
