(* ===== verification/DefinitionEvents.v ===== *)
(** * Definition domain events ([control-plane-api/domain/events/lablet_definition_events.py])

    One record per event dataclass, with the dataclass's fields in order, and
    the type of all of them.  [definition_changes] is the [changes] dict of an
    update with values of the fields' types: [Some] for a key that is present. *)
From S2P Require Import Prelude PyData Enums.
Import DefinitionStatus.

(** The keys the handler of an update reads, in its order, and the keys it does
    not read. *)
Record definition_changes := {
  ch_resource_requirements : option pydict;
  ch_license_affinity : option (list string);
  ch_node_count : option Z;
  ch_max_duration_minutes : option Z;
  ch_warm_pool_depth : option Z;
  ch_grading_rules_uri : option (option string);
  ch_lab_artifact_uri : option string;
  ch_lab_yaml_hash : option string;
  ch_form_qualified_name : option (option string);
  ch_bucket_name : option string;
  ch_user_session_package_name : option string;
  ch_grading_ruleset_package_name : option string;
  ch_user_session_type : option string;
  ch_user_session_default_region : option (option string);
  ch_boot_lead_time_minutes : option (option Z);
  ch_lab_reuse_enabled : option bool;
  ch_lds_port_preferences : option (option (dict string));
  ch_pod_definition_ref : option (option pydict);
  ch_other_keys : list string
}.

(** [{}] *)
Definition no_changes : definition_changes := {|
  ch_resource_requirements := None; ch_license_affinity := None; ch_node_count := None;
  ch_max_duration_minutes := None; ch_warm_pool_depth := None; ch_grading_rules_uri := None;
  ch_lab_artifact_uri := None; ch_lab_yaml_hash := None; ch_form_qualified_name := None;
  ch_bucket_name := None; ch_user_session_package_name := None; ch_grading_ruleset_package_name := None;
  ch_user_session_type := None; ch_user_session_default_region := None; ch_boot_lead_time_minutes := None;
  ch_lab_reuse_enabled := None; ch_lds_port_preferences := None; ch_pod_definition_ref := None;
  ch_other_keys := []
|}.

(** [bool(changes)] *)
Definition has_changes (ch : definition_changes) : bool :=
  match ch with
  | {| ch_resource_requirements := None; ch_license_affinity := None; ch_node_count := None;
       ch_max_duration_minutes := None; ch_warm_pool_depth := None; ch_grading_rules_uri := None;
       ch_lab_artifact_uri := None; ch_lab_yaml_hash := None; ch_form_qualified_name := None;
       ch_bucket_name := None; ch_user_session_package_name := None; ch_grading_ruleset_package_name := None;
       ch_user_session_type := None; ch_user_session_default_region := None; ch_boot_lead_time_minutes := None;
       ch_lab_reuse_enabled := None; ch_lds_port_preferences := None; ch_pod_definition_ref := None;
       ch_other_keys := [] |} => false
  | _ => true
  end.

Record LabletDefinitionCreatedDomainEvent := {
  Created_aggregate_id : string;
  Created_name : string;
  Created_version : string;
  Created_lab_artifact_uri : string;
  Created_lab_yaml_hash : string;
  Created_lab_yaml_cached : option string;
  Created_resource_requirements : pydict;
  Created_license_affinity : list string;
  Created_node_count : Z;
  Created_port_template : pydict;
  Created_grading_rules_uri : option string;
  Created_max_duration_minutes : Z;
  Created_warm_pool_depth : Z;
  Created_owner_notification : option pydict;
  Created_created_by : string;
  Created_created_at : datetime;
  Created_form_qualified_name : option string;
  Created_bucket_name : string;
  Created_user_session_package_name : string;
  Created_grading_ruleset_package_name : string;
  Created_user_session_type : string;
  Created_user_session_default_region : option string;
  Created_lab_reuse_enabled : bool;
  Created_boot_lead_time_minutes : option Z;
  Created_pipelines : option pydict;
  Created_pod_definition_ref : option pydict
}.

Record LabletDefinitionVersionCreatedDomainEvent := {
  VersionCreated_aggregate_id : string;
  VersionCreated_name : string;
  VersionCreated_version : string;
  VersionCreated_previous_version : string;
  VersionCreated_lab_artifact_uri : string;
  VersionCreated_lab_yaml_hash : string;
  VersionCreated_resource_requirements : pydict;
  VersionCreated_node_count : Z;
  VersionCreated_port_template : pydict;
  VersionCreated_created_by : string;
  VersionCreated_created_at : datetime
}.

Record LabletDefinitionDeprecatedDomainEvent := {
  Deprecated_aggregate_id : string;
  Deprecated_name : string;
  Deprecated_version : string;
  Deprecated_deprecated_by : string;
  Deprecated_deprecated_at : datetime;
  Deprecated_deprecation_reason : option string;
  Deprecated_replacement_version : option string
}.

Record LabletDefinitionArtifactSyncedDomainEvent := {
  ArtifactSynced_aggregate_id : string;
  ArtifactSynced_lab_artifact_uri : string;
  ArtifactSynced_lab_yaml_hash : string;
  ArtifactSynced_synced_at : datetime;
  ArtifactSynced_sync_status : string;
  ArtifactSynced_error_message : option string
}.

Record LabletDefinitionWarmPoolUpdatedDomainEvent := {
  WarmPoolUpdated_aggregate_id : string;
  WarmPoolUpdated_old_warm_pool_depth : Z;
  WarmPoolUpdated_new_warm_pool_depth : Z;
  WarmPoolUpdated_updated_by : string;
  WarmPoolUpdated_updated_at : datetime
}.

Record LabletDefinitionUpdatedDomainEvent := {
  Updated_aggregate_id : string;
  Updated_changes : definition_changes;
  Updated_updated_by : string;
  Updated_updated_at : datetime
}.

Record LabletDefinitionActivatedDomainEvent := {
  Activated_aggregate_id : string;
  Activated_activated_by : string;
  Activated_activated_at : datetime
}.

Record LabletDefinitionDeactivatedDomainEvent := {
  Deactivated_aggregate_id : string;
  Deactivated_deactivated_by : string;
  Deactivated_deactivated_at : datetime;
  Deactivated_reason : option string
}.

Record LabletDefinitionDeletedDomainEvent := {
  Deleted_aggregate_id : string;
  Deleted_deleted_by : string;
  Deleted_deleted_at : datetime
}.

Record LabletDefinitionSyncRequestedDomainEvent := {
  SyncRequested_aggregate_id : string;
  SyncRequested_aggregate_type : string;
  SyncRequested_form_qualified_name : string;
  SyncRequested_bucket_name : string;
  SyncRequested_user_session_package_name : string;
  SyncRequested_requested_by : string;
  SyncRequested_requested_at : pyval
}.

Record LabletDefinitionContentSyncedDomainEvent := {
  ContentSynced_aggregate_id : string;
  ContentSynced_lab_artifact_uri : string;
  ContentSynced_lab_yaml_hash : string;
  ContentSynced_synced_at : datetime;
  ContentSynced_sync_status : string;
  ContentSynced_error_message : option string;
  ContentSynced_content_package_hash : option string;
  ContentSynced_upstream_version : option string;
  ContentSynced_upstream_date_published : option string;
  ContentSynced_upstream_instance_name : option string;
  ContentSynced_upstream_form_id : option string;
  ContentSynced_grade_xml_path : option string;
  ContentSynced_cml_yaml_path : option string;
  ContentSynced_cml_yaml_content : option string;
  ContentSynced_devices_json : option string;
  ContentSynced_content_xml_content : option string;
  ContentSynced_user_visible_devices : option (list (dict string));
  ContentSynced_upstream_sync_status : option pydict;
  ContentSynced_port_template : option pydict;
  ContentSynced_node_count : option Z;
  ContentSynced_node_definitions_required : option (list string);
  ContentSynced_port_conflicts : option (list pydict)
}.

Record LabletDefinitionPodDefinitionConfirmedDomainEvent := {
  PodDefinitionConfirmed_aggregate_id : string;
  PodDefinitionConfirmed_pod_definition_id : string;
  PodDefinitionConfirmed_pod_type : string;
  PodDefinitionConfirmed_content_hash : option string;
  PodDefinitionConfirmed_confirmed_at : datetime
}.

Inductive definition_event :=
| Created (event : LabletDefinitionCreatedDomainEvent)
| VersionCreated (event : LabletDefinitionVersionCreatedDomainEvent)
| Deprecated (event : LabletDefinitionDeprecatedDomainEvent)
| ArtifactSynced (event : LabletDefinitionArtifactSyncedDomainEvent)
| WarmPoolUpdated (event : LabletDefinitionWarmPoolUpdatedDomainEvent)
| Updated (event : LabletDefinitionUpdatedDomainEvent)
| Activated (event : LabletDefinitionActivatedDomainEvent)
| Deactivated (event : LabletDefinitionDeactivatedDomainEvent)
| Deleted (event : LabletDefinitionDeletedDomainEvent)
| SyncRequested (event : LabletDefinitionSyncRequestedDomainEvent)
| ContentSynced (event : LabletDefinitionContentSyncedDomainEvent)
| PodDefinitionConfirmed (event : LabletDefinitionPodDefinitionConfirmedDomainEvent).
