(* ===== verification/LabletDefinition.v ===== *)
(** * The LabletDefinition aggregate ([control-plane-api/domain/entities/lablet_definition.py])

    The persisted state, one handler per domain event ([on_...], dispatched by
    [on]), and the methods of the aggregate root, as in [LabletSession]; with the
    value objects only it uses, [NotificationConfig] and the reference to a pod
    definition ([core/lcm_core/domain/value_objects/pod_definition_ref.py]). *)
From S2P Require Import Prelude PyData Enums Lifecycle WorkerValues Ports Slug DefinitionEvents.
Import DefinitionStatus.

(** ** [NotificationConfig]

    The class checks nothing, so a field holds whatever the dict had. *)
Record NotificationConfig := {
  email : pyval;
  webhook_url : pyval;
  notify_on_start : pyval;
  notify_on_complete : pyval;
  notify_on_error : pyval
}.

Definition NotificationConfig_to_dict (n : NotificationConfig) : pydict :=
  [("email", email n); ("webhook_url", webhook_url n); ("notify_on_start", notify_on_start n);
   ("notify_on_complete", notify_on_complete n); ("notify_on_error", notify_on_error n)].

Definition NotificationConfig_from_dict (data : pydict) : NotificationConfig :=
  {| email := pd_get "email" data; webhook_url := pd_get "webhook_url" data;
     notify_on_start := pd_get_or "notify_on_start" (PBool true) data;
     notify_on_complete := pd_get_or "notify_on_complete" (PBool true) data;
     notify_on_error := pd_get_or "notify_on_error" (PBool true) data |}.

(** ** [PodDefinitionRef] *)
Record PodDefinitionRef := {
  definition_id : string;
  pr_version : string;
  pod_type : Platform.PodType;
  content_hash : option string
}.

Definition PodDefinitionRef_post_init (r : PodDefinitionRef) : res PodDefinitionRef :=
  _ ← raise_if (negb (str_truthy (definition_id r))) (ValueError "definition_id must not be empty");
  _ ← raise_if (negb (str_truthy (pr_version r))) (ValueError "version must not be empty");
  Ok r.

Definition mk_ref (definition version : string) (pod : Platform.PodType) (hash : option string)
    : res PodDefinitionRef :=
  PodDefinitionRef_post_init
    {| definition_id := definition; pr_version := version; pod_type := pod; content_hash := hash |}.

Definition is_synced (r : PodDefinitionRef) : bool := match content_hash r with Some _ => true | None => false end.

Definition with_sync_confirmation (hash : string) (r : PodDefinitionRef) : res PodDefinitionRef :=
  mk_ref (definition_id r) (pr_version r) (pod_type r) (Some hash).

Definition is_compatible_with (worker_pod_type : Platform.PodType) (r : PodDefinitionRef) : bool :=
  bool_decide (pod_type r = worker_pod_type).

Definition PodDefinitionRef_to_dict (r : PodDefinitionRef) : pydict :=
  [("definition_id", PStr (definition_id r)); ("version", PStr (pr_version r));
   ("pod_type", PStr (Platform.PodType_value (pod_type r))); ("content_hash", of_ostr (content_hash r))].

Definition PodDefinitionRef_from_dict (data : pydict) : res PodDefinitionRef :=
  definition ← dict_item "definition_id" data ≫= as_str;
  version ← dict_item "version" data ≫= as_str;
  pod ← dict_item "pod_type" data ≫= as_str;
  pod ← enum_call pod;
  hash ← as_ostr (pd_get "content_hash" data);
  mk_ref definition version pod hash.

(** ** State *)
Record LabletDefinitionState := {
  id : string;
  name : string;
  version : string;
  lab_artifact_uri : string;
  lab_yaml_hash : string;
  lab_yaml_cached : option string;
  resource_requirements : ResourceRequirements;
  license_affinity : list Affinity.LicenseType;
  node_count : Z;
  port_template : PortTemplate;
  grading_rules_uri : option string;
  max_duration_minutes : Z;
  form_qualified_name : option string;
  bucket_name : string;
  user_session_package_name : string;
  grading_ruleset_package_name : string;
  user_session_type : string;
  user_session_default_region : option string;
  warm_pool_depth : Z;
  state_history : list pydict;
  status : LabletDefinitionStatus;
  previous_version_id : option string;
  owner_notification : option NotificationConfig;
  created_by : string;
  deprecated_by : option string;
  deprecated_at : option datetime;
  deprecation_reason : option string;
  replacement_version : option string;
  created_at : datetime;
  updated_at : datetime;
  last_synced_at : option datetime;
  sync_status : option string;
  content_package_hash : option string;
  upstream_version : option string;
  upstream_date_published : option string;
  upstream_instance_name : option string;
  upstream_form_id : option string;
  grade_xml_path : option string;
  cml_yaml_path : option string;
  cml_yaml_content : option string;
  devices_json : option string;
  content_xml_content : option string;
  user_visible_devices : option (list (dict string));
  upstream_sync_status : option pydict;
  port_conflicts : option (list pydict);
  lds_port_preferences : option (dict string);
  pipelines : option pydict;
  pod_definition_ref : option PodDefinitionRef;
  lab_reuse_enabled : bool;
  multi_lab_enabled : bool;
  boot_lead_time_minutes : option Z;
  resource_type : string;
  owner_id : string;
  desired_status : option string;
  pipeline_progress : option pydict;
  timeslot : option pydict;
  lifecycle : option pydict;
  started_at : option datetime;
  ended_at : option datetime;
  duration_seconds : option Z;
  terminated_at : option datetime
}.

#[export] Instance eta_definition : Eta LabletDefinitionState := fun s => {|
  id := s.(id);
  name := s.(name);
  version := s.(version);
  lab_artifact_uri := s.(lab_artifact_uri);
  lab_yaml_hash := s.(lab_yaml_hash);
  lab_yaml_cached := s.(lab_yaml_cached);
  resource_requirements := s.(resource_requirements);
  license_affinity := s.(license_affinity);
  node_count := s.(node_count);
  port_template := s.(port_template);
  grading_rules_uri := s.(grading_rules_uri);
  max_duration_minutes := s.(max_duration_minutes);
  form_qualified_name := s.(form_qualified_name);
  bucket_name := s.(bucket_name);
  user_session_package_name := s.(user_session_package_name);
  grading_ruleset_package_name := s.(grading_ruleset_package_name);
  user_session_type := s.(user_session_type);
  user_session_default_region := s.(user_session_default_region);
  warm_pool_depth := s.(warm_pool_depth);
  state_history := s.(state_history);
  status := s.(status);
  previous_version_id := s.(previous_version_id);
  owner_notification := s.(owner_notification);
  created_by := s.(created_by);
  deprecated_by := s.(deprecated_by);
  deprecated_at := s.(deprecated_at);
  deprecation_reason := s.(deprecation_reason);
  replacement_version := s.(replacement_version);
  created_at := s.(created_at);
  updated_at := s.(updated_at);
  last_synced_at := s.(last_synced_at);
  sync_status := s.(sync_status);
  content_package_hash := s.(content_package_hash);
  upstream_version := s.(upstream_version);
  upstream_date_published := s.(upstream_date_published);
  upstream_instance_name := s.(upstream_instance_name);
  upstream_form_id := s.(upstream_form_id);
  grade_xml_path := s.(grade_xml_path);
  cml_yaml_path := s.(cml_yaml_path);
  cml_yaml_content := s.(cml_yaml_content);
  devices_json := s.(devices_json);
  content_xml_content := s.(content_xml_content);
  user_visible_devices := s.(user_visible_devices);
  upstream_sync_status := s.(upstream_sync_status);
  port_conflicts := s.(port_conflicts);
  lds_port_preferences := s.(lds_port_preferences);
  pipelines := s.(pipelines);
  pod_definition_ref := s.(pod_definition_ref);
  lab_reuse_enabled := s.(lab_reuse_enabled);
  multi_lab_enabled := s.(multi_lab_enabled);
  boot_lead_time_minutes := s.(boot_lead_time_minutes);
  resource_type := s.(resource_type);
  owner_id := s.(owner_id);
  desired_status := s.(desired_status);
  pipeline_progress := s.(pipeline_progress);
  timeslot := s.(timeslot);
  lifecycle := s.(lifecycle);
  started_at := s.(started_at);
  ended_at := s.(ended_at);
  duration_seconds := s.(duration_seconds);
  terminated_at := s.(terminated_at)
|}.

(** [LabletDefinitionState.__init__], with the clock reading [t]. *)
Definition init_state (t : datetime) : LabletDefinitionState := {|
  id := ""; name := ""; version := ""; lab_artifact_uri := ""; lab_yaml_hash := ""; lab_yaml_cached := None;
  resource_requirements := {| rr_cpu_cores := 1; rr_memory_gb := 1; rr_storage_gb := 1; rr_nested_virt :=
  true; rr_ami_requirements := [] |}; license_affinity := []; node_count := 0; port_template :=
  PortTemplate_empty; grading_rules_uri := None; max_duration_minutes := 60; form_qualified_name := None;
  bucket_name := ""; user_session_package_name := "SVN.zip"; grading_ruleset_package_name := "SVN.zip";
  user_session_type := "LDS"; user_session_default_region := None; warm_pool_depth := 0; state_history := [];
  status := ACTIVE; previous_version_id := None; owner_notification := None; created_by := ""; deprecated_by
  := None; deprecated_at := None; deprecation_reason := None; replacement_version := None; created_at := t;
  updated_at := t; last_synced_at := None; sync_status := None; content_package_hash := None; upstream_version
  := None; upstream_date_published := None; upstream_instance_name := None; upstream_form_id := None;
  grade_xml_path := None; cml_yaml_path := None; cml_yaml_content := None; devices_json := None;
  content_xml_content := None; user_visible_devices := None; upstream_sync_status := None; port_conflicts :=
  None; lds_port_preferences := None; pipelines := None; pod_definition_ref := None; lab_reuse_enabled :=
  false; multi_lab_enabled := false; boot_lead_time_minutes := None; resource_type := "lablet_definition";
  owner_id := ""; desired_status := None; pipeline_progress := None; timeslot := None; lifecycle := None;
  started_at := None; ended_at := None; duration_seconds := None; terminated_at := None
|}.

(** ** State helpers *)

(** [_record_transition] *)
Definition record_transition (c : clock) (from_state : option string) (to_state triggered_by : string)
    (reason : option string) (s : LabletDefinitionState) : LabletDefinitionState :=
  let transition := {|
    st_from_state := from_state; st_to_state := to_state; st_transitioned_at := c.(now_hist);
    st_triggered_by := triggered_by; st_reason := reason; st_metadata := None |} in
  s <| state_history := s.(state_history) ++ [StateTransition_to_dict transition] |>
    <| updated_at := c.(now_upd) |>.

(** A field written when there is a value for it. *)
Definition upd {V} (value : option V) (write : V -> LabletDefinitionState -> LabletDefinitionState)
    (s : LabletDefinitionState) : LabletDefinitionState :=
  match value with Some v => write v s | None => s end.

(** [f(v) if v else None] for an optional dict. *)
Definition when_dict {A} (f : pydict -> res A) (v : option pydict) : res (option A) :=
  match v with Some ((_ :: _) as d) => a ← f d; Ok (Some a) | _ => Ok None end.

(** ** Event handlers *)

Definition on_Created (c : clock) (event : LabletDefinitionCreatedDomainEvent) (s : LabletDefinitionState)
    : res LabletDefinitionState :=
  requirements ← ResourceRequirements_from_dict event.(Created_resource_requirements);
  affinity ← mapM enum_call event.(Created_license_affinity);
  template ← PortTemplate_from_dict event.(Created_port_template);
  pod_ref ← when_dict PodDefinitionRef_from_dict event.(Created_pod_definition_ref);
  let s := s <| id := event.(Created_aggregate_id) |>
             <| name := event.(Created_name) |>
             <| version := event.(Created_version) |>
             <| lab_artifact_uri := event.(Created_lab_artifact_uri) |>
             <| lab_yaml_hash := event.(Created_lab_yaml_hash) |>
             <| lab_yaml_cached := event.(Created_lab_yaml_cached) |>
             <| resource_requirements := requirements |>
             <| license_affinity := affinity |>
             <| node_count := event.(Created_node_count) |>
             <| port_template := template |>
             <| grading_rules_uri := event.(Created_grading_rules_uri) |>
             <| max_duration_minutes := event.(Created_max_duration_minutes) |>
             <| warm_pool_depth := event.(Created_warm_pool_depth) |>
             <| owner_notification := match event.(Created_owner_notification) with
                                      | Some ((_ :: _) as d) => Some (NotificationConfig_from_dict d)
                                      | _ => None end |>
             <| created_by := event.(Created_created_by) |>
             <| created_at := event.(Created_created_at) |>
             <| updated_at := event.(Created_created_at) |>
             <| form_qualified_name := event.(Created_form_qualified_name) |>
             <| status := PENDING_SYNC |>
             <| bucket_name := event.(Created_bucket_name) |>
             <| user_session_package_name := event.(Created_user_session_package_name) |>
             <| grading_ruleset_package_name := event.(Created_grading_ruleset_package_name) |>
             <| user_session_type := event.(Created_user_session_type) |>
             <| user_session_default_region := event.(Created_user_session_default_region) |>
             <| boot_lead_time_minutes := event.(Created_boot_lead_time_minutes) |>
             <| pipelines := event.(Created_pipelines) |>
             <| pod_definition_ref := pod_ref |>
             <| lab_reuse_enabled := event.(Created_lab_reuse_enabled) |>
             <| owner_id := event.(Created_created_by) |> in
  Ok (record_transition c None (LabletDefinitionStatus_value PENDING_SYNC) event.(Created_created_by)
        (Some "Definition created") s).

Definition on_VersionCreated (c : clock) (event : LabletDefinitionVersionCreatedDomainEvent)
    (s : LabletDefinitionState) : res LabletDefinitionState :=
  requirements ← ResourceRequirements_from_dict event.(VersionCreated_resource_requirements);
  template ← PortTemplate_from_dict event.(VersionCreated_port_template);
  let s := s <| id := event.(VersionCreated_aggregate_id) |>
             <| name := event.(VersionCreated_name) |>
             <| version := event.(VersionCreated_version) |>
             <| lab_artifact_uri := event.(VersionCreated_lab_artifact_uri) |>
             <| lab_yaml_hash := event.(VersionCreated_lab_yaml_hash) |>
             <| resource_requirements := requirements |>
             <| node_count := event.(VersionCreated_node_count) |>
             <| port_template := template |>
             <| created_by := event.(VersionCreated_created_by) |>
             <| created_at := event.(VersionCreated_created_at) |>
             <| updated_at := event.(VersionCreated_created_at) |>
             <| status := PENDING_SYNC |>
             <| owner_id := event.(VersionCreated_created_by) |> in
  Ok (record_transition c None (LabletDefinitionStatus_value PENDING_SYNC) event.(VersionCreated_created_by)
        (Some "New version created") s).

(** [reason or default] *)
Definition reason_or (reason : option string) (default : string) : option string := Some (ostr_or reason default).

Definition on_Deprecated (c : clock) (event : LabletDefinitionDeprecatedDomainEvent) (s : LabletDefinitionState)
    : res LabletDefinitionState :=
  let old_status := s.(status) in
  let s := s <| status := DEPRECATED |>
             <| deprecated_by := Some event.(Deprecated_deprecated_by) |>
             <| deprecated_at := Some event.(Deprecated_deprecated_at) |>
             <| deprecation_reason := event.(Deprecated_deprecation_reason) |>
             <| replacement_version := event.(Deprecated_replacement_version) |>
             <| updated_at := event.(Deprecated_deprecated_at) |> in
  Ok (record_transition c (Some (LabletDefinitionStatus_value old_status)) (LabletDefinitionStatus_value DEPRECATED)
        event.(Deprecated_deprecated_by)
        (reason_or event.(Deprecated_deprecation_reason) "Definition deprecated") s).

Definition on_ArtifactSynced (event : LabletDefinitionArtifactSyncedDomainEvent) (s : LabletDefinitionState)
    : res LabletDefinitionState :=
  Ok (s <| last_synced_at := Some event.(ArtifactSynced_synced_at) |>
        <| sync_status := Some event.(ArtifactSynced_sync_status) |>
        <| lab_yaml_hash := event.(ArtifactSynced_lab_yaml_hash) |>
        <| updated_at := event.(ArtifactSynced_synced_at) |>).

Definition on_SyncRequested (c : clock) (event : LabletDefinitionSyncRequestedDomainEvent) (s : LabletDefinitionState)
    : res LabletDefinitionState :=
  let old_status := s.(status) in
  let s := s <| sync_status := Some "sync_requested" |> <| status := PENDING_SYNC |> in
  t ← fromisoformat event.(SyncRequested_requested_at);
  let s := s <| updated_at := t |> in
  Ok (if bool_decide (old_status = PENDING_SYNC) then s
      else record_transition c (Some (LabletDefinitionStatus_value old_status))
             (LabletDefinitionStatus_value PENDING_SYNC) "system" (Some "Sync requested") s).

(** The content metadata of a sync: each field the event has. *)
Definition write_content (event : LabletDefinitionContentSyncedDomainEvent) (s : LabletDefinitionState)
    : LabletDefinitionState :=
  let s := s <| last_synced_at := Some event.(ContentSynced_synced_at) |>
             <| sync_status := Some event.(ContentSynced_sync_status) |>
             <| lab_yaml_hash := event.(ContentSynced_lab_yaml_hash) |>
             <| updated_at := event.(ContentSynced_synced_at) |> in
  let s := upd event.(ContentSynced_content_package_hash) (fun v s => s <| content_package_hash := Some v |>) s in
  let s := upd event.(ContentSynced_upstream_version) (fun v s => s <| upstream_version := Some v |>) s in
  let s := upd event.(ContentSynced_upstream_date_published)
             (fun v s => s <| upstream_date_published := Some v |>) s in
  let s := upd event.(ContentSynced_upstream_instance_name) (fun v s => s <| upstream_instance_name := Some v |>) s in
  let s := upd event.(ContentSynced_upstream_form_id) (fun v s => s <| upstream_form_id := Some v |>) s in
  let s := upd event.(ContentSynced_grade_xml_path) (fun v s => s <| grade_xml_path := Some v |>) s in
  let s := upd event.(ContentSynced_cml_yaml_path) (fun v s => s <| cml_yaml_path := Some v |>) s in
  let s := upd event.(ContentSynced_cml_yaml_content) (fun v s => s <| cml_yaml_content := Some v |>) s in
  let s := upd event.(ContentSynced_devices_json) (fun v s => s <| devices_json := Some v |>) s in
  let s := upd event.(ContentSynced_content_xml_content) (fun v s => s <| content_xml_content := Some v |>) s in
  let s := upd event.(ContentSynced_user_visible_devices) (fun v s => s <| user_visible_devices := Some v |>) s in
  upd event.(ContentSynced_upstream_sync_status) (fun v s => s <| upstream_sync_status := Some v |>) s.

Definition on_ContentSynced (c : clock) (event : LabletDefinitionContentSyncedDomainEvent) (s : LabletDefinitionState)
    : res LabletDefinitionState :=
  let old_status := s.(status) in
  let s := write_content event s in
  s ← match event.(ContentSynced_port_template) with
      | Some d => t ← PortTemplate_from_dict d; Ok (s <| port_template := t |>)
      | None => Ok s
      end;
  let s := upd event.(ContentSynced_node_count) (fun v s => s <| node_count := v |>) s in
  s ← match event.(ContentSynced_node_definitions_required) with
      | Some l => r ← with_node_definitions s.(resource_requirements) l; Ok (s <| resource_requirements := r |>)
      | None => Ok s
      end;
  let s := upd event.(ContentSynced_port_conflicts) (fun v s => s <| port_conflicts := Some v |>) s in
  let success := String.eqb event.(ContentSynced_sync_status) "success" in
  let s := if success && bool_decide (s.(status) = PENDING_SYNC)
           then record_transition c (Some (LabletDefinitionStatus_value old_status))
                  (LabletDefinitionStatus_value ACTIVE) "system" (Some "Content sync completed successfully")
                  (s <| status := ACTIVE |>)
           else s in
  match s.(pod_definition_ref), event.(ContentSynced_content_package_hash) with
  | Some r, Some h =>
      if success && str_truthy h
      then r ← with_sync_confirmation h r; Ok (s <| pod_definition_ref := Some r |>) else Ok s
  | _, _ => Ok s
  end.

Definition on_PodDefinitionConfirmed (event : LabletDefinitionPodDefinitionConfirmedDomainEvent)
    (s : LabletDefinitionState) : res LabletDefinitionState :=
  pod ← enum_call event.(PodDefinitionConfirmed_pod_type);
  new_ref ← mk_ref event.(PodDefinitionConfirmed_pod_definition_id) s.(version) pod
              event.(PodDefinitionConfirmed_content_hash);
  Ok (s <| pod_definition_ref := Some new_ref |> <| updated_at := event.(PodDefinitionConfirmed_confirmed_at) |>).

Definition on_WarmPoolUpdated (event : LabletDefinitionWarmPoolUpdatedDomainEvent) (s : LabletDefinitionState)
    : res LabletDefinitionState :=
  Ok (s <| warm_pool_depth := event.(WarmPoolUpdated_new_warm_pool_depth) |>
        <| updated_at := event.(WarmPoolUpdated_updated_at) |>).

(** The changes that need no conversion. *)
Definition write_changes (ch : definition_changes) (s : LabletDefinitionState) : LabletDefinitionState :=
  let s := upd (ch_node_count ch) (fun v s => s <| node_count := v |>) s in
  let s := upd (ch_max_duration_minutes ch) (fun v s => s <| max_duration_minutes := v |>) s in
  let s := upd (ch_warm_pool_depth ch) (fun v s => s <| warm_pool_depth := v |>) s in
  let s := upd (ch_grading_rules_uri ch) (fun v s => s <| grading_rules_uri := v |>) s in
  let s := upd (ch_lab_artifact_uri ch) (fun v s => s <| lab_artifact_uri := v |>) s in
  let s := upd (ch_lab_yaml_hash ch) (fun v s => s <| lab_yaml_hash := v |>) s in
  let s := upd (ch_form_qualified_name ch) (fun v s => s <| form_qualified_name := v |>) s in
  let s := upd (ch_bucket_name ch) (fun v s => s <| bucket_name := v |>) s in
  let s := upd (ch_user_session_package_name ch) (fun v s => s <| user_session_package_name := v |>) s in
  let s := upd (ch_grading_ruleset_package_name ch) (fun v s => s <| grading_ruleset_package_name := v |>) s in
  let s := upd (ch_user_session_type ch) (fun v s => s <| user_session_type := v |>) s in
  let s := upd (ch_user_session_default_region ch) (fun v s => s <| user_session_default_region := v |>) s in
  let s := upd (ch_boot_lead_time_minutes ch) (fun v s => s <| boot_lead_time_minutes := v |>) s in
  let s := upd (ch_lab_reuse_enabled ch) (fun v s => s <| lab_reuse_enabled := v |>) s in
  upd (ch_lds_port_preferences ch) (fun v s => s <| lds_port_preferences := v |>) s.

Definition on_Updated (event : LabletDefinitionUpdatedDomainEvent) (s : LabletDefinitionState)
    : res LabletDefinitionState :=
  let changes := event.(Updated_changes) in
  s ← match ch_resource_requirements changes with
      | Some d => r ← ResourceRequirements_from_dict d; Ok (s <| resource_requirements := r |>)
      | None => Ok s
      end;
  s ← match ch_license_affinity changes with
      | Some l => a ← mapM enum_call l; Ok (s <| license_affinity := a |>)
      | None => Ok s
      end;
  let s := write_changes changes s in
  s ← match ch_pod_definition_ref changes with
      | Some d => r ← when_dict PodDefinitionRef_from_dict d; Ok (s <| pod_definition_ref := r |>)
      | None => Ok s
      end;
  Ok (s <| updated_at := event.(Updated_updated_at) |>).

Definition on_Activated (c : clock) (event : LabletDefinitionActivatedDomainEvent) (s : LabletDefinitionState)
    : res LabletDefinitionState :=
  Ok (record_transition c (Some (LabletDefinitionStatus_value s.(status))) (LabletDefinitionStatus_value ACTIVE)
        event.(Activated_activated_by) (Some "Definition activated")
        (s <| status := ACTIVE |> <| updated_at := event.(Activated_activated_at) |>)).

Definition on_Deactivated (c : clock) (event : LabletDefinitionDeactivatedDomainEvent) (s : LabletDefinitionState)
    : res LabletDefinitionState :=
  Ok (record_transition c (Some (LabletDefinitionStatus_value s.(status))) (LabletDefinitionStatus_value INACTIVE)
        event.(Deactivated_deactivated_by) event.(Deactivated_reason)
        (s <| status := INACTIVE |> <| updated_at := event.(Deactivated_deactivated_at) |>)).

Definition on_Deleted (c : clock) (event : LabletDefinitionDeletedDomainEvent) (s : LabletDefinitionState)
    : res LabletDefinitionState :=
  Ok (record_transition c (Some (LabletDefinitionStatus_value s.(status))) (LabletDefinitionStatus_value DELETED)
        event.(Deleted_deleted_by) (Some "Definition soft-deleted")
        (s <| status := DELETED |> <| updated_at := event.(Deleted_deleted_at) |>)).

Definition on (c : clock) (ev : definition_event) (s : LabletDefinitionState) : res LabletDefinitionState :=
  match ev with
  | Created e => on_Created c e s
  | VersionCreated e => on_VersionCreated c e s
  | Deprecated e => on_Deprecated c e s
  | ArtifactSynced e => on_ArtifactSynced e s
  | WarmPoolUpdated e => on_WarmPoolUpdated e s
  | Updated e => on_Updated e s
  | Activated e => on_Activated c e s
  | Deactivated e => on_Deactivated c e s
  | Deleted e => on_Deleted c e s
  | SyncRequested e => on_SyncRequested c e s
  | ContentSynced e => on_ContentSynced c e s
  | PodDefinitionConfirmed e => on_PodDefinitionConfirmed e s
  end.

(** ** The aggregate root *)

Abbreviation result := (res (LabletDefinitionState * list definition_event)).

(** [self.state.on(self.register_event(ev))] *)
Definition emit (c : clock) (ev : definition_event) (s : LabletDefinitionState) : result :=
  s' ← on c ev s; Ok (s', [ev]).

(** What [create] is given. *)
Record definition_spec := {
  sp_name : string;
  sp_version : string;
  sp_form_qualified_name : string;
  sp_resource_requirements : ResourceRequirements;
  sp_license_affinity : list Affinity.LicenseType;
  sp_node_count : Z;
  sp_port_template : PortTemplate;
  sp_created_by : string;
  sp_user_session_package_name : string;
  sp_grading_ruleset_package_name : string;
  sp_user_session_type : string;
  sp_user_session_default_region : option string;
  sp_lab_yaml_hash : string;
  sp_lab_yaml_cached : option string;
  sp_grading_rules_uri : option string;
  sp_max_duration_minutes : Z;
  sp_warm_pool_depth : Z;
  sp_owner_notification : option NotificationConfig;
  sp_boot_lead_time_minutes : option Z;
  sp_pipelines : option pydict;
  sp_lab_reuse_enabled : bool;
  sp_pod_type : option Platform.PodType
}.

(** [f"s3://{bucket}/{package}"] *)
Definition artifact_uri (bucket package : string) : string := "s3://" +:+ bucket +:+ "/" +:+ package.

(** [create]: [t_init] is the clock of the new state, [uid] is [str(uuid4())]. *)
Definition create (c : clock) (t_init : datetime) (uid : string) (p : definition_spec) : result :=
  bucket ← slugify_fqn (sp_form_qualified_name p);
  pod_ref ← match sp_pod_type p with
            | Some pod => r ← mk_ref bucket (sp_version p) pod None; Ok (Some (PodDefinitionRef_to_dict r))
            | None => Ok None
            end;
  emit c (Created {|
    Created_aggregate_id := uid; Created_name := sp_name p; Created_version := sp_version p;
    Created_lab_artifact_uri := artifact_uri bucket (sp_user_session_package_name p);
    Created_lab_yaml_hash := sp_lab_yaml_hash p; Created_lab_yaml_cached := sp_lab_yaml_cached p;
    Created_resource_requirements := ResourceRequirements_to_dict (sp_resource_requirements p);
    Created_license_affinity := map Affinity.LicenseType_value (sp_license_affinity p);
    Created_node_count := sp_node_count p; Created_port_template := PortTemplate_to_dict (sp_port_template p);
    Created_grading_rules_uri := sp_grading_rules_uri p;
    Created_max_duration_minutes := sp_max_duration_minutes p; Created_warm_pool_depth := sp_warm_pool_depth p;
    Created_owner_notification := NotificationConfig_to_dict <$> sp_owner_notification p;
    Created_created_by := sp_created_by p; Created_created_at := c.(now);
    Created_form_qualified_name := Some (sp_form_qualified_name p); Created_bucket_name := bucket;
    Created_user_session_package_name := sp_user_session_package_name p;
    Created_grading_ruleset_package_name := sp_grading_ruleset_package_name p;
    Created_user_session_type := sp_user_session_type p;
    Created_user_session_default_region := sp_user_session_default_region p;
    Created_lab_reuse_enabled := sp_lab_reuse_enabled p;
    Created_boot_lead_time_minutes := sp_boot_lead_time_minutes p;
    Created_pipelines := sp_pipelines p; Created_pod_definition_ref := pod_ref |}) (init_state t_init).

Definition create_version (c : clock) (t_init : datetime)
    (uid name_ version_ previous_version uri hash : string) (requirements : ResourceRequirements) (nodes : Z)
    (template : PortTemplate) (by_ : string) : result :=
  emit c (VersionCreated {|
    VersionCreated_aggregate_id := uid; VersionCreated_name := name_; VersionCreated_version := version_;
    VersionCreated_previous_version := previous_version; VersionCreated_lab_artifact_uri := uri;
    VersionCreated_lab_yaml_hash := hash;
    VersionCreated_resource_requirements := ResourceRequirements_to_dict requirements;
    VersionCreated_node_count := nodes; VersionCreated_port_template := PortTemplate_to_dict template;
    VersionCreated_created_by := by_; VersionCreated_created_at := c.(now) |}) (init_state t_init).

(** What [record_content_sync] is given. *)
Record content_sync := {
  cs_lab_yaml_hash : string;
  cs_sync_status : string;
  cs_content_package_hash : option string;
  cs_upstream_version : option string;
  cs_upstream_date_published : option string;
  cs_upstream_instance_name : option string;
  cs_upstream_form_id : option string;
  cs_grade_xml_path : option string;
  cs_cml_yaml_path : option string;
  cs_cml_yaml_content : option string;
  cs_devices_json : option string;
  cs_content_xml_content : option string;
  cs_user_visible_devices : option (list (dict string));
  cs_upstream_sync_status : option pydict;
  cs_error_message : option string;
  cs_port_template : option PortTemplate;
  cs_node_count : option Z;
  cs_node_definitions_required : option (list string);
  cs_port_conflicts : option (list pydict)
}.

Section Commands.
Context `{RootId LabletDefinitionState}.
Implicit Types (c : clock) (s : LabletDefinitionState).

(** [LabletDefinition.id] *)
Definition aggregate_id s : res string :=
  match root_id s with
  | Some i => Ok i
  | None => Err (ValueError "LabletDefinition aggregate identifier has not been initialized")
  end.

Definition deprecate c (by_ : string) (reason replacement : option string) s : result :=
  if bool_decide (s.(status) = DEPRECATED) then Ok (s, []) else
  i ← aggregate_id s;
  emit c (Deprecated {|
    Deprecated_aggregate_id := i; Deprecated_name := s.(name); Deprecated_version := s.(version);
    Deprecated_deprecated_by := by_; Deprecated_deprecated_at := c.(now);
    Deprecated_deprecation_reason := reason; Deprecated_replacement_version := replacement |}) s.

Definition record_artifact_sync c (hash sync : string) (error : option string) s : result :=
  i ← aggregate_id s;
  emit c (ArtifactSynced {|
    ArtifactSynced_aggregate_id := i; ArtifactSynced_lab_artifact_uri := s.(lab_artifact_uri);
    ArtifactSynced_lab_yaml_hash := hash; ArtifactSynced_synced_at := c.(now);
    ArtifactSynced_sync_status := sync; ArtifactSynced_error_message := error |}) s.

Definition request_sync c (by_ : string) s : result :=
  i ← aggregate_id s;
  emit c (SyncRequested {|
    SyncRequested_aggregate_id := i; SyncRequested_aggregate_type := "LabletDefinition";
    SyncRequested_form_qualified_name := ostr_or s.(form_qualified_name) "";
    SyncRequested_bucket_name := s.(bucket_name);
    SyncRequested_user_session_package_name := ostr_or (Some s.(user_session_package_name)) "SVN.zip";
    SyncRequested_requested_by := by_; SyncRequested_requested_at := PIso c.(now) |}) s.

Definition record_content_sync c (r : content_sync) s : result :=
  i ← aggregate_id s;
  emit c (ContentSynced {|
    ContentSynced_aggregate_id := i; ContentSynced_lab_artifact_uri := s.(lab_artifact_uri);
    ContentSynced_lab_yaml_hash := cs_lab_yaml_hash r; ContentSynced_synced_at := c.(now);
    ContentSynced_sync_status := cs_sync_status r; ContentSynced_error_message := cs_error_message r;
    ContentSynced_content_package_hash := cs_content_package_hash r;
    ContentSynced_upstream_version := cs_upstream_version r;
    ContentSynced_upstream_date_published := cs_upstream_date_published r;
    ContentSynced_upstream_instance_name := cs_upstream_instance_name r;
    ContentSynced_upstream_form_id := cs_upstream_form_id r;
    ContentSynced_grade_xml_path := cs_grade_xml_path r; ContentSynced_cml_yaml_path := cs_cml_yaml_path r;
    ContentSynced_cml_yaml_content := cs_cml_yaml_content r; ContentSynced_devices_json := cs_devices_json r;
    ContentSynced_content_xml_content := cs_content_xml_content r;
    ContentSynced_user_visible_devices := cs_user_visible_devices r;
    ContentSynced_upstream_sync_status := cs_upstream_sync_status r;
    ContentSynced_port_template := PortTemplate_to_dict <$> cs_port_template r;
    ContentSynced_node_count := cs_node_count r;
    ContentSynced_node_definitions_required := cs_node_definitions_required r;
    ContentSynced_port_conflicts := cs_port_conflicts r |}) s.

(** [confirm_pod_definition]; a member of the enum is given by its value. *)
Definition confirm_pod_definition c (pod_definition_id pod : string) (hash : option string) s : result :=
  if negb (str_truthy pod_definition_id) then Err (ValueError "pod_definition_id must not be empty") else
  resolved ← match enum_call pod with
             | Ok p => Ok p
             | Err _ => Err (ValueError ("Unknown pod_type: " +:+ pod))
             end;
  let conflict := match s.(pod_definition_ref) with
                  | Some r => negb (bool_decide (pod_type r = resolved)) | None => false end in
  if conflict then
    Err (ValueError ("PodDefinition pod_type conflict: existing ref has "
           +:+ match s.(pod_definition_ref) with
               | Some r => Platform.PodType_value (pod_type r) | None => "" end
           +:+ ", but SE confirmed " +:+ Platform.PodType_value resolved))
  else
  i ← aggregate_id s;
  emit c (PodDefinitionConfirmed {|
    PodDefinitionConfirmed_aggregate_id := i; PodDefinitionConfirmed_pod_definition_id := pod_definition_id;
    PodDefinitionConfirmed_pod_type := Platform.PodType_value resolved;
    PodDefinitionConfirmed_content_hash := hash; PodDefinitionConfirmed_confirmed_at := c.(now) |}) s.

Definition update_warm_pool_depth c (new_depth : Z) (by_ : string) s : result :=
  if new_depth <? 0 then Err (ValueError "Warm pool depth cannot be negative") else
  if new_depth =? s.(warm_pool_depth) then Ok (s, []) else
  i ← aggregate_id s;
  emit c (WarmPoolUpdated {|
    WarmPoolUpdated_aggregate_id := i; WarmPoolUpdated_old_warm_pool_depth := s.(warm_pool_depth);
    WarmPoolUpdated_new_warm_pool_depth := new_depth; WarmPoolUpdated_updated_by := by_;
    WarmPoolUpdated_updated_at := c.(now) |}) s.

Definition update c (changes : definition_changes) (by_ : string) s : result :=
  if bool_decide (s.(status) = DEPRECATED) then Err (ValueError "Cannot update a deprecated definition") else
  if negb (has_changes changes) then Ok (s, []) else
  i ← aggregate_id s;
  emit c (Updated {|
    Updated_aggregate_id := i; Updated_changes := changes; Updated_updated_by := by_;
    Updated_updated_at := c.(now) |}) s.

Definition activate c (by_ : string) s : result :=
  if bool_decide (s.(status) = ACTIVE) then Ok (s, []) else
  if bool_decide (s.(status) = DEPRECATED) || bool_decide (s.(status) = DELETED)
  then Err (ValueError ("Cannot activate a " +:+ LabletDefinitionStatus_value s.(status) +:+ " definition")) else
  if bool_decide (s.(status) = PENDING_SYNC)
  then Err (ValueError "Cannot activate a definition that is pending sync") else
  i ← aggregate_id s;
  emit c (Activated {| Activated_aggregate_id := i; Activated_activated_by := by_;
                       Activated_activated_at := c.(now) |}) s.

Definition deactivate c (by_ : string) (reason : option string) s : result :=
  if bool_decide (s.(status) = INACTIVE) then Ok (s, []) else
  if negb (bool_decide (s.(status) = ACTIVE))
  then Err (ValueError ("Cannot deactivate a " +:+ LabletDefinitionStatus_value s.(status) +:+ " definition")) else
  i ← aggregate_id s;
  emit c (Deactivated {| Deactivated_aggregate_id := i; Deactivated_deactivated_by := by_;
                         Deactivated_deactivated_at := c.(now); Deactivated_reason := reason |}) s.

Definition soft_delete c (by_ : string) s : result :=
  if bool_decide (s.(status) = DELETED) then Ok (s, []) else
  i ← aggregate_id s;
  emit c (Deleted {| Deleted_aggregate_id := i; Deleted_deleted_by := by_; Deleted_deleted_at := c.(now) |}) s.
End Commands.

(** ** Queries *)

Definition is_active (s : LabletDefinitionState) : bool := bool_decide (s.(status) = ACTIVE).
Definition is_pending_sync (s : LabletDefinitionState) : bool := bool_decide (s.(status) = PENDING_SYNC).
Definition is_deprecated (s : LabletDefinitionState) : bool := bool_decide (s.(status) = DEPRECATED).
Definition definition_port_count (s : LabletDefinitionState) : nat := port_count s.(port_template).
Definition unique_key (s : LabletDefinitionState) : string := s.(name) +:+ ":" +:+ s.(version).
