(* ===== verification/DefinitionProps.v ===== *)
(** * Definitions as runs of commands

    What one command of a definition does, the transitions of its status, its
    audit trail, and what never changes. *)
From S2P Require Import Prelude PyData Enums Lifecycle AuditTrail Aggregate WorkerValues Ports Slug.
From S2P Require Import DefinitionEvents LabletDefinition.
Import DefinitionStatus.

Inductive command :=
| Deprecate (by_ : string) (reason replacement : option string)
| RecordArtifactSync (hash sync : string) (error : option string)
| RequestSync (by_ : string)
| RecordContentSync (r : content_sync)
| ConfirmPodDefinition (pod_definition_id pod : string) (hash : option string)
| UpdateWarmPoolDepth (new_depth : Z) (by_ : string)
| Update (changes : definition_changes) (by_ : string)
| Activate (by_ : string)
| Deactivate (by_ : string) (reason : option string)
| SoftDelete (by_ : string).

Definition exec `{RootId LabletDefinitionState} (c : clock) (cmd : command) (s : LabletDefinitionState) : result :=
  match cmd with
  | Deprecate by_ reason replacement => deprecate c by_ reason replacement s
  | RecordArtifactSync hash sync error => record_artifact_sync c hash sync error s
  | RequestSync by_ => request_sync c by_ s
  | RecordContentSync r => record_content_sync c r s
  | ConfirmPodDefinition d p h => confirm_pod_definition c d p h s
  | UpdateWarmPoolDepth n by_ => update_warm_pool_depth c n by_ s
  | Update changes by_ => update c changes by_ s
  | Activate by_ => activate c by_ s
  | Deactivate by_ reason => deactivate c by_ reason s
  | SoftDelete by_ => soft_delete c by_ s
  end.

#[export] Instance definition_aggregate `{RootId LabletDefinitionState} :
  Aggregate LabletDefinitionState definition_event command := {| ag_on := on; ag_exec := exec |}.

#[export] Instance definition_audited : Audited LabletDefinitionState LabletDefinitionStatus :=
  {| au_status := status; au_value := LabletDefinitionStatus_value; au_history := state_history |}.

(** The changes of status the commands make. *)
Definition definition_step (a b : LabletDefinitionStatus) : Prop :=
  match b with
  | PENDING_SYNC => True
  | ACTIVE => a = PENDING_SYNC \/ a = INACTIVE \/ a = ARCHIVED
  | INACTIVE => a = ACTIVE
  | DEPRECATED | DELETED => True
  | ARCHIVED => False
  end.

(** What one event does to a definition, told by the event alone: the status
    it moves to, if it records a change. *)
Definition records (ev : definition_event) (s : LabletDefinitionState) : option LabletDefinitionStatus :=
  match ev with
  | Deprecated _ => Some DEPRECATED
  | Activated _ => Some ACTIVE
  | Deactivated _ => Some INACTIVE
  | Deleted _ => Some DELETED
  | SyncRequested _ => if bool_decide (status s = PENDING_SYNC) then None else Some PENDING_SYNC
  | ContentSynced e =>
      if String.eqb (ContentSynced_sync_status e) "success" && bool_decide (status s = PENDING_SYNC)
      then Some ACTIVE else None
  | _ => None
  end.

(** The fields no command changes. *)
Definition identity (s : LabletDefinitionState) : string * string * string * string * datetime :=
  (id s, name s, version s, created_by s, created_at s).

(** The fields that only creation and an update write. *)
Definition naming (s : LabletDefinitionState) : option string * list Affinity.LicenseType * string :=
  (form_qualified_name s, license_affinity s, bucket_name s).

Lemma upd_keep {A V} (g : LabletDefinitionState -> A) (v : option V) write s :
  (forall v s, g (write v s) = g s) -> g (upd v write s) = g s.
Proof. intros H. by destruct v; cbn. Qed.

Ltac keep_fields := repeat (rewrite upd_keep; [|done]); done.

Lemma write_content_keeps e s :
  status (write_content e s) = status s /\ state_history (write_content e s) = state_history s /\
  identity (write_content e s) = identity s /\ pod_definition_ref (write_content e s) = pod_definition_ref s /\
  naming (write_content e s) = naming s /\
  last_synced_at (write_content e s) = Some (ContentSynced_synced_at e).
Proof. unfold write_content. cbv zeta. repeat split; keep_fields. Qed.

Lemma write_changes_keeps ch s :
  status (write_changes ch s) = status s /\ state_history (write_changes ch s) = state_history s /\
  identity (write_changes ch s) = identity s /\ pod_definition_ref (write_changes ch s) = pod_definition_ref s /\
  last_synced_at (write_changes ch s) = last_synced_at s.
Proof. unfold write_changes. cbv zeta. repeat split; keep_fields. Qed.

(** An audited change of a definition: nothing recorded, or one transition to [b]. *)
Definition moved (b : option LabletDefinitionStatus) (s s' : LabletDefinitionState) : Prop :=
  match b with
  | None => status s' = status s /\ state_history s' = state_history s
  | Some b => status s' = b /\ exists t, state_history s' = state_history s ++ [StateTransition_to_dict t]
                /\ st_from_state t = Some (LabletDefinitionStatus_value (status s))
                /\ st_to_state t = LabletDefinitionStatus_value b
  end.

Definition creates (ev : definition_event) : bool :=
  match ev with Created _ | VersionCreated _ => true | _ => false end.

Lemma record_moved c s s1 b by_ reason :
  status s1 = b -> state_history s1 = state_history s ->
  moved (Some b) s (record_transition c (Some (LabletDefinitionStatus_value (status s)))
                      (LabletDefinitionStatus_value b) by_ reason s1).
Proof. intros Hb Hh. split; [done|]. eexists. split; [by rewrite <- Hh|]. by split. Qed.

Lemma Ok_inj {A} (a b : A) : Ok a = Ok b -> a = b.
Proof. by intros [=]. Qed.

(** A conversion that succeeded, or none. *)
Lemma convert_ok {V W} (v : option V) (f : V -> res W) (write : W -> LabletDefinitionState -> LabletDefinitionState) s s' :
  match v with Some v => w ← f v; Ok (write w s) | None => Ok s end = Ok s' ->
  s' = s \/ exists w, s' = write w s.
Proof.
  destruct v as [v|]; [|by intros ->%Ok_inj; left].
  intros (w & _ & <-%Ok_inj)%bind_ok. eauto.
Qed.

(** The parts of [on_ContentSynced], one after the other. *)
Lemma on_ContentSynced_inv c e s s' : on_ContentSynced c e s = Ok s' -> exists s1 s2,
  (status s1 = status s /\ state_history s1 = state_history s /\ identity s1 = identity s
   /\ pod_definition_ref s1 = pod_definition_ref s /\ is_Some (last_synced_at s1) /\ naming s1 = naming s) /\
  s2 = (if String.eqb (ContentSynced_sync_status e) "success" && bool_decide (status s = PENDING_SYNC)
        then record_transition c (Some (LabletDefinitionStatus_value (status s)))
               (LabletDefinitionStatus_value ACTIVE) "system" (Some "Content sync completed successfully")
               (s1 <| status := ACTIVE |>)
        else s1) /\
  (s' = s2 \/ exists r r' h, pod_definition_ref s = Some r /\ with_sync_confirmation h r = Ok r' /\
                       s' = s2 <| pod_definition_ref := Some r' |>).
Proof.
  unfold on_ContentSynced. intros H. cbv zeta in H.
  apply bind_ok in H as (sa & Ha & H). apply bind_ok in H as (sb & Hb & H).
  set (s1 := upd (ContentSynced_port_conflicts e) _ sb) in *.
  destruct (write_content_keeps e s) as (W1 & W2 & W3 & W4 & W5 & W6).
  assert (status s1 = status s /\ state_history s1 = state_history s /\ identity s1 = identity s
   /\ pod_definition_ref s1 = pod_definition_ref s /\ is_Some (last_synced_at s1) /\ naming s1 = naming s) as Hs1.
  { unfold s1. rewrite !upd_keep by done. clearbody s1. clear H s1.
    assert (forall A (g : LabletDefinitionState -> A), (forall v s, g (s <| resource_requirements := v |>) = g s) ->
      (forall v s, g (s <| node_count := v |>) = g s) -> (forall v s, g (s <| port_template := v |>) = g s) ->
      g sb = g (write_content e s)) as Hg.
    { intros A g G1 G2 G3. transitivity (g sa).
      - apply (convert_ok _ _ (fun v s => s <| resource_requirements := v |>)) in Hb as [->|[w ->]];
          rewrite ?G1; by apply upd_keep.
      - by apply (convert_ok _ _ (fun v s => s <| port_template := v |>)) in Ha as [->|[w ->]]. }
    rewrite !Hg by done. rewrite W1, W2, W3, W4, W5, W6. eauto 10. }
  clearbody s1. exists s1. eexists. split; [exact Hs1|]. split; [reflexivity|].
  destruct Hs1 as (S1 & _ & _ & S4 & _ & _). rewrite S1 in H.
  set (s2 := if _ && _ then _ else s1) in *.
  assert (pod_definition_ref s2 = pod_definition_ref s) as S2 by (rewrite <- S4; unfold s2; by destruct (_ && _)).
  clearbody s2. rewrite S2 in H.
  destruct (pod_definition_ref s) as [r|] eqn:Hr; [|left; by inv_ok].
  destruct (ContentSynced_content_package_hash e) as [h|]; [|left; by inv_ok].
  destruct (_ && _) in H; [|left; by inv_ok].
  right. inv_ok. eauto 10.
Qed.

Lemma on_Updated_inv e s s' : on_Updated e s = Ok s' ->
  status s' = status s /\ state_history s' = state_history s /\ identity s' = identity s /\
  last_synced_at s' = last_synced_at s /\
  (ch_pod_definition_ref (Updated_changes e) = None -> pod_definition_ref s' = pod_definition_ref s).
Proof.
  unfold on_Updated. intros H. cbv zeta in H.
  apply bind_ok in H as (sa & Ha & H). apply bind_ok in H as (sb & Hb & H). apply bind_ok in H as (sc & Hc & H).
  destruct (write_changes_keeps (Updated_changes e) sb) as (W1 & W2 & W3 & W4 & W5).
  assert (forall A (g : LabletDefinitionState -> A), (forall v s, g (s <| resource_requirements := v |>) = g s) ->
    (forall v s, g (s <| license_affinity := v |>) = g s) -> g sb = g s) as Hg.
  { intros A g G1 G2. transitivity (g sa).
    - by apply (convert_ok _ _ (fun v s => s <| license_affinity := v |>)) in Hb as [->|[w ->]].
    - by apply (convert_ok _ _ (fun v s => s <| resource_requirements := v |>)) in Ha as [->|[w ->]]. }
  set (sw := write_changes (Updated_changes e) sb) in *. clearbody sw.
  injection H as <-. destruct (ch_pod_definition_ref (Updated_changes e)); inv_ok;
    cbn; unfold identity in *; cbn; rewrite ?W1, ?W2, ?W3, ?W4, ?W5, ?Hg by done; (repeat split; try done).
  all: rewrite W3; pose proof (Hg _ identity ltac:(done) ltac:(done)) as Hi; exact Hi.
Qed.

Lemma on_ContentSynced_moved c e s s' : on_ContentSynced c e s = Ok s' ->
  moved (records (ContentSynced e) s) s s' /\ identity s' = identity s /\ is_Some (last_synced_at s').
Proof.
  intros (s1 & s2 & (S1 & S2 & S3 & S4 & S5 & _) & -> & Hs)%on_ContentSynced_inv. cbn [records].
  destruct (String.eqb _ _ && _); destruct Hs as [->|(r & r' & h & _ & _ & ->)];
    (split; [|by rewrite <- S3]); first [by apply record_moved | by split].
Qed.

(** What an event that is not a creation does to status, trail, identity and
    the last synchronization. *)
Lemma on_moved c ev s s' : creates ev = false -> on c ev s = Ok s' ->
  moved (records ev s) s s' /\ identity s' = identity s /\
  (is_Some (last_synced_at s) -> is_Some (last_synced_at s')) /\
  match ev with ContentSynced _ => is_Some (last_synced_at s') | _ => True end.
Proof.
  intros He Ho. destruct ev; try done; cbn [on] in Ho.
  - apply Ok_inj in Ho as <-. split; [by apply record_moved|done].
  - apply Ok_inj in Ho as <-. split; [done|]. split; [done|]. split; [by cbn|done].
  - apply Ok_inj in Ho as <-. done.
  - apply on_Updated_inv in Ho as (H1 & H2 & H3 & H4 & _). rewrite H4. done.
  - apply Ok_inj in Ho as <-. split; [by apply record_moved|done].
  - apply Ok_inj in Ho as <-. split; [by apply record_moved|done].
  - apply Ok_inj in Ho as <-. split; [by apply record_moved|done].
  - unfold on_SyncRequested in Ho. cbv zeta in Ho. apply bind_ok in Ho as (t & _ & <-%Ok_inj). cbn [records].
    case_bool_decide as Hp; [done|]. split; [by apply record_moved|]. done.
  - apply on_ContentSynced_moved in Ho as (H1 & H2 & H3). done.
  - unfold on_PodDefinitionConfirmed in Ho. apply bind_ok in Ho as (p & _ & Ho).
    apply bind_ok in Ho as (r & _ & <-%Ok_inj). done.
Qed.

Lemma definition_emit_ok c ev s s' evs : emit c ev s = Ok (s', evs) <-> evs = [ev] /\ on c ev s = Ok s'.
Proof. unfold emit. rewrite bind_ok. split; [intros (? & ? & [= -> ->]); done|intros [-> ?]; eauto]. Qed.

(** What the guards of a command have established when its event is registered. *)
Definition admitted (s : LabletDefinitionState) (cmd : command) (ev : definition_event) : Prop :=
  match cmd, ev with
  | Deprecate _ _ _, Deprecated _ => status s <> DEPRECATED
  | RecordArtifactSync _ _ _, ArtifactSynced _ => True
  | RequestSync _, SyncRequested _ => True
  | RecordContentSync r, ContentSynced e => ContentSynced_sync_status e = cs_sync_status r
  | ConfirmPodDefinition d p h, PodDefinitionConfirmed e =>
      PodDefinitionConfirmed_pod_definition_id e = d /\ PodDefinitionConfirmed_content_hash e = h /\
      exists pod, enum_call p = Ok pod /\ PodDefinitionConfirmed_pod_type e = Platform.PodType_value pod /\
                  forall r, pod_definition_ref s = Some r -> pod_type r = pod
  | UpdateWarmPoolDepth n _, WarmPoolUpdated e => 0 <= n /\ WarmPoolUpdated_new_warm_pool_depth e = n
  | Update changes _, Updated e => status s <> DEPRECATED /\ Updated_changes e = changes
  | Activate _, Activated _ => status s = INACTIVE \/ status s = ARCHIVED
  | Deactivate _ _, Deactivated _ => status s = ACTIVE
  | SoftDelete _, Deleted _ => status s <> DELETED
  | _, _ => False
  end.

(** A command that returns did nothing, or registered one event and applied it. *)
Lemma definition_exec_effect `{RootId LabletDefinitionState} c cmd s s' evs : exec c cmd s = Ok (s', evs) ->
  (evs = [] /\ s' = s) \/ (exists ev, evs = [ev] /\ admitted s cmd ev /\ on c ev s = Ok s').
Proof.
  destruct cmd; cbn [exec];
    unfold deprecate, record_artifact_sync, request_sync, record_content_sync, confirm_pod_definition,
      update_warm_pool_depth, update, activate, deactivate, soft_delete; intros He;
    repeat match type of He with
      | (if ?b then _ else _) = _ => destruct b eqn:?
      | Err _ = _ => done
      | Ok _ = Ok _ => apply Ok_inj in He; injection He as <- <-; left; done
      end.
  all: repeat match goal with
    | H : bool_decide _ = true |- _ => apply bool_decide_eq_true in H
    | H : bool_decide _ = false |- _ => apply bool_decide_eq_false in H
    | H : negb _ = false |- _ => apply negb_false_iff in H
    | H : _ || _ = false |- _ => apply orb_false_iff in H as [? ?]
    | H : (_ <? _) = false |- _ => apply Z.ltb_ge in H
    end.
  5: { apply bind_ok in He as (resolved & Hp & He). cbv zeta in He.
       destruct (match pod_definition_ref s with Some r => _ | None => false end) eqn:Hc; [done|].
       apply bind_ok in He as (i & _ & [-> Ho]%definition_emit_ok). right. eexists. split; [done|]. split; [|exact Ho].
       cbn. split; [done|]. split; [done|]. exists resolved.
       destruct (enum_call pod) as [p|]; [|done]. injection Hp as ->. split; [done|]. split; [done|].
       intros r Hr. rewrite Hr in Hc. apply negb_false_iff, bool_decide_eq_true in Hc. done. }
  all: apply bind_ok in He as (i & _ & [-> Ho]%definition_emit_ok); right; eexists; (split; [done|]);
    (split; [|exact Ho]); cbn; try done.
  destruct (status s) eqn:Hs; try done; auto.
Qed.

(** The changes of status of any command are the listed ones. *)
Lemma exec_step `{RootId LabletDefinitionState} c cmd s s' evs : exec c cmd s = Ok (s', evs) ->
  identity s' = identity s /\
  ((status s' = status s /\ state_history s' = state_history s) \/
   (definition_step (status s) (status s') /\ moved (Some (status s')) s s')).
Proof.
  intros [[_ ->]|(ev & _ & Ha & Ho)]%definition_exec_effect; [split; [done|by left]|].
  assert (creates ev = false) as Hc by (by destruct cmd, ev).
  apply on_moved in Ho as (Hm & Hi & _); [|done]. split; [done|].
  destruct (records ev s) as [b|] eqn:Hr; [|by left].
  right. pose proof Hm as [Hb _]. rewrite Hb. split; [|done]. clear Hm Hi Hb Hc.
  destruct cmd, ev; try done; cbn in Hr, Ha; simplify_eq; cbn; try done; try (left; done); auto.
  - by case_bool_decide; simplify_eq.
  - destruct (String.eqb _ _ && bool_decide (status s = PENDING_SYNC)) eqn:Hp; [|done]. simplify_eq.
    apply andb_true_iff in Hp as [_ Hp%bool_decide_eq_true]. by left.
Qed.

(** A definition [create] or [create_version] made. *)
Definition created (s : LabletDefinitionState) : Prop :=
  exists c t ev, creates ev = true /\ on c ev (init_state t) = Ok s.

Lemma create_created c t uid p s evs : create c t uid p = Ok (s, evs) -> created s.
Proof.
  unfold create. intros (b & _ & (r & _ & [_ Ho]%definition_emit_ok)%bind_ok)%bind_ok. eexists c, t, _. by split; [|exact Ho].
Qed.

Lemma create_version_created c t uid n v pv u h r k tpl by_ s evs :
  create_version c t uid n v pv u h r k tpl by_ = Ok (s, evs) -> created s.
Proof. unfold create_version. intros [_ Ho]%definition_emit_ok. eexists c, t, _. by split; [|exact Ho]. Qed.

Lemma definition_created_fresh s : created s ->
  status s = PENDING_SYNC /\ exists t, state_history s = [StateTransition_to_dict t] /\ st_from_state t = None /\
    st_to_state t = LabletDefinitionStatus_value PENDING_SYNC.
Proof.
  intros (c & t & ev & He & Ho). destruct ev; try done; cbn [on] in Ho.
  - unfold on_Created in Ho. do 4 (apply bind_ok in Ho as (? & _ & Ho)). apply Ok_inj in Ho as <-.
    split; [done|]. eexists. split; [reflexivity|done].
  - unfold on_VersionCreated in Ho. do 2 (apply bind_ok in Ho as (? & _ & Ho)). apply Ok_inj in Ho as <-.
    split; [done|]. eexists. split; [reflexivity|done].
Qed.

(** The recorded changes. *)
Definition definition_change (a b : LabletDefinitionStatus) : Prop := a = b \/ definition_step a b.

(** The trail of a definition is one unbroken chain from its creation to its
    status, of changes its state machine has. *)
Theorem definition_trail `{RootId LabletDefinitionState} s l s' evs :
  created s -> ag_run l s = Ok (s', evs) -> trail definition_change s'.
Proof.
  intros Hc Hr. eapply ag_run_invariant with (I := trail definition_change); [|exact Hr|].
  - intros c cmd s1 s2 evs' He.
    apply (exec_step c cmd s1 s2 evs') in He as [_ [[Hs Hh]|[Hs [_ (t & Hh & Hf & Ht)]]]].
    + apply trail_step; [by left|by left].
    + apply trail_step; [|by right]. right. by exists t.
  - apply definition_created_fresh in Hc as (Hs & t & Hh & Hf & Ht). eapply trail_init; [exact Hh|done|].
    cbn [au_status au_value definition_audited]. by rewrite Hs.
Qed.

(** What a definition is stays fixed: no command changes its identifier, name,
    version, author or time of creation. *)
Theorem definition_identity `{RootId LabletDefinitionState} l s s' evs :
  ag_run l s = Ok (s', evs) -> identity s' = identity s.
Proof.
  intros Hr. refine (ag_run_invariant (fun s1 => identity s1 = identity s) l s s' evs _ Hr eq_refl).
  intros c cmd s1 s2 evs' He <-. by apply (exec_step c cmd s1 s2 evs') in He as [Hi _].
Qed.

(** A definition that is active, or was and is switched off, has been
    synchronized; and no definition is archived. *)
Definition synced_ok (s : LabletDefinitionState) : Prop :=
  status s <> ARCHIVED /\ (status s = ACTIVE \/ status s = INACTIVE -> is_Some (last_synced_at s)).

Lemma exec_synced_ok `{RootId LabletDefinitionState} c cmd s s' evs :
  exec c cmd s = Ok (s', evs) -> synced_ok s -> synced_ok s'.
Proof.
  intros He [Ha Hs]. pose proof He as [_ Hstep]%exec_step.
  apply definition_exec_effect in He as [[_ ->]|(ev & _ & Hadm & Ho)]; [done|].
  assert (creates ev = false) as Hc by (by destruct cmd, ev).
  apply on_moved in Ho as (Hm & _ & Hl & Hsync); [|done].
  destruct Hstep as [[Hst _]|[Hst [_ (t & Hh & _)]]].
  - split; [by rewrite Hst|]. rewrite Hst. auto.
  - split; [intros E; by rewrite E in Hst|]. intros [E|E]; rewrite E in *; cbn in Hst; [|by apply Hl, Hs; left].
    destruct Hst as [Hp|[Hi|Hi]]; [|by apply Hl, Hs; right|done].
    destruct cmd, ev; try done; cbn in Hadm, Hm.
    all: try (destruct Hm as [Hm _]; congruence).
    all: try (destruct Hadm; congruence).
    case_bool_decide; destruct Hm as [Hm _]; congruence.
Qed.

(** A definition is active, or active and switched off, only after its content
    has been synchronized at least once, and it is never archived. *)
Theorem active_was_synced `{RootId LabletDefinitionState} s l s' evs :
  created s -> ag_run l s = Ok (s', evs) ->
  status s' <> ARCHIVED /\ (status s' = ACTIVE \/ status s' = INACTIVE -> is_Some (last_synced_at s')).
Proof.
  intros Hc Hr. refine (ag_run_invariant synced_ok l s s' evs _ Hr _).
  - intros c cmd s1 s2 evs' He. exact (exec_synced_ok c cmd s1 s2 evs' He).
  - apply definition_created_fresh in Hc as (Hs & _). unfold synced_ok. rewrite Hs. split; [done|by intros [|]].
Qed.

(** ** The pod type *)

Definition keeps_ref (cmd : command) : bool :=
  match cmd with Update ch _ => match ch_pod_definition_ref ch with None => true | Some _ => false end | _ => true end.

Lemma on_pod_type c ev s s' r : creates ev = false -> on c ev s = Ok s' -> pod_definition_ref s = Some r ->
  match ev with
  | PodDefinitionConfirmed _ => True
  | Updated e => ch_pod_definition_ref (Updated_changes e) = None -> pod_definition_ref s' = Some r
  | _ => exists r', pod_definition_ref s' = Some r' /\ pod_type r' = pod_type r
  end.
Proof.
  intros He Ho Hr. destruct ev; try done; cbn [on] in Ho.
  1,2,3,5,6,7: apply Ok_inj in Ho as <-; exists r; by split.
  - apply on_Updated_inv in Ho as (_ & _ & _ & _ & Hp). intros Hn. by rewrite Hp.
  - unfold on_SyncRequested in Ho. cbv zeta in Ho. apply bind_ok in Ho as (t & _ & <-%Ok_inj). exists r.
    split; [|done]. by case_bool_decide.
  - apply on_ContentSynced_inv in Ho as (s1 & s2 & (_ & _ & _ & S4 & _) & -> & Hs). rewrite Hr in *.
    assert (forall b : bool, pod_definition_ref (if b
        then record_transition c (Some (LabletDefinitionStatus_value (status s)))
               (LabletDefinitionStatus_value ACTIVE) "system" (Some "Content sync completed successfully")
               (s1 <| status := ACTIVE |>)
        else s1) = Some r) as Hb by (by intros []).
    destruct Hs as [->|(r0 & r1 & h & [= <-] & Hw & ->)]; [rewrite Hb; eauto|].
    exists r1. split; [done|]. unfold with_sync_confirmation, mk_ref, PodDefinitionRef_post_init in Hw. inv_ok. done.
Qed.

Lemma exec_pod_type `{RootId LabletDefinitionState} c cmd s s' evs r : keeps_ref cmd = true ->
  exec c cmd s = Ok (s', evs) -> pod_definition_ref s = Some r ->
  exists r', pod_definition_ref s' = Some r' /\ pod_type r' = pod_type r.
Proof.
  intros Hk [[_ ->]|(ev & _ & Ha & Ho)]%definition_exec_effect Hr; [eauto|].
  assert (creates ev = false) as Hc by (by destruct cmd, ev).
  pose proof (on_pod_type _ _ _ _ _ Hc Ho Hr) as Hp.
  destruct ev; try done; destruct cmd; try done; cbn in Ha, Hk.
  - destruct Ha as [_ Ha]. rewrite Ha in Hp. destruct (ch_pod_definition_ref changes); [done|]. eauto.
  - destruct Ha as (_ & _ & p & Hen & Hpt & Hsame). cbn [on] in Ho. unfold on_PodDefinitionConfirmed in Ho.
    apply bind_ok in Ho as (p' & Hp' & Ho). apply bind_ok in Ho as (r' & Hr' & <-%Ok_inj).
    rewrite Hpt in Hp'. change (Platform.PodType_value p) with (enum_value p) in Hp'. apply enum_call_value in Hp' as ->.
    unfold mk_ref, PodDefinitionRef_post_init in Hr'. inv_ok. eexists. split; [reflexivity|].
    cbn. symmetry. by apply Hsame.
Qed.

(** Once a definition refers to a pod definition, its pod type is settled:
    requests, synchronizations and confirmations never change it nor drop the
    reference; a confirmation of another pod type is refused. *)
Theorem pod_type_settled `{RootId LabletDefinitionState} l s s' evs r :
  Forall (fun p => keeps_ref p.2 = true) l -> pod_definition_ref s = Some r -> ag_run l s = Ok (s', evs) ->
  (exists r', pod_definition_ref s' = Some r' /\ pod_type r' = pod_type r) /\
  (forall c d pod h p, enum_call pod = Ok p -> p <> pod_type r ->
     exists m, confirm_pod_definition c d pod h s' = Err (ValueError m)).
Proof.
  intros Hl Hr Hrun.
  assert (exists r', pod_definition_ref s' = Some r' /\ pod_type r' = pod_type r) as (r' & Hr' & Hp).
  { revert s evs r Hr Hrun. induction Hl as [|[c cmd] l Hk Hl IH]; intros s evs r Hr Hrun; [cbn in Hrun; inv_ok; eauto|].
    apply ag_run_cons in Hrun as (s1 & e1 & e2 & He & Hrun & _).
    destruct (exec_pod_type c cmd s s1 e1 r Hk He Hr) as (r1 & Hr1 & Hp1).
    destruct (IH _ _ _ Hr1 Hrun) as (r2 & Hr2 & Hp2). exists r2. split; [done|]. by rewrite Hp2. }
  split; [eauto|]. intros c d pod h p Hen Hne. unfold confirm_pod_definition.
  destruct (str_truthy d); cbn [negb]; [|eauto]. rewrite Hen. cbn [mbind res_bind]. rewrite Hr'.
  rewrite bool_decide_false by congruence. cbn. eauto.
Qed.

(** ** Creation *)

Lemma mapM_enum_call (l : list Affinity.LicenseType) : mapM enum_call (map Affinity.LicenseType_value l) = Ok l.
Proof.
  induction l as [|x l IH]; cbn -[enum_call]; [done|].
  change (Affinity.LicenseType_value x) with (enum_value x). by rewrite enum_call_of; cbn -[enum_call]; rewrite IH.
Qed.

Lemma NotificationConfig_of_to_dict n : NotificationConfig_from_dict (NotificationConfig_to_dict n) = n.
Proof. by destruct n. Qed.

Lemma PodDefinitionRef_of_to_dict r : PodDefinitionRef_post_init r = Ok r ->
  PodDefinitionRef_from_dict (PodDefinitionRef_to_dict r) = Ok r.
Proof.
  intros Hr. unfold PodDefinitionRef_from_dict. cbn -[enum_call as_ostr of_ostr].
  change (Platform.PodType_value (pod_type r)) with (enum_value (pod_type r)). rewrite enum_call_of.
  cbn -[as_ostr of_ostr]. rewrite as_ostr_of. by destruct r.
Qed.

(** The values of a specification, as their classes accept them. *)
Record spec_valid (p : definition_spec) : Prop := {
  sv_requirements : ResourceRequirements_post_init (sp_resource_requirements p) = Ok (sp_resource_requirements p);
  sv_ports : Forall (fun d => PortDefinition_post_init d = Ok d) (pt_ports (sp_port_template p));
  sv_template : PortTemplate_post_init (sp_port_template p) = Ok (sp_port_template p);
  sv_version : str_truthy (sp_version p) = true
}.

(** The reference of a new definition. *)
Definition first_ref (b v : string) (pod : Platform.PodType) : PodDefinitionRef :=
  {| definition_id := b; pr_version := v; pod_type := pod; content_hash := None |}.

(** The state of a definition created from [p] with the bucket [b]. *)
Definition created_as (uid : string) (p : definition_spec) (b : string) (s : LabletDefinitionState) : Prop :=
  id s = uid /\ name s = sp_name p /\ version s = sp_version p /\ status s = PENDING_SYNC /\
  bucket_name s = b /\ lab_artifact_uri s = artifact_uri b (sp_user_session_package_name p) /\
  resource_requirements s = sp_resource_requirements p /\ license_affinity s = sp_license_affinity p /\
  node_count s = sp_node_count p /\ port_template s = sp_port_template p /\
  owner_notification s = sp_owner_notification p /\ pipelines s = sp_pipelines p /\
  form_qualified_name s = Some (sp_form_qualified_name p) /\ last_synced_at s = None /\
  pod_definition_ref s = first_ref b (sp_version p) <$> sp_pod_type p.

Lemma create_ok c t uid p b : spec_valid p -> slugify_fqn (sp_form_qualified_name p) = Ok b -> str_truthy b = true ->
  exists s ev, create c t uid p = Ok (s, [ev]) /\ created_as uid p b s.
Proof.
  intros [H1 H2 H3 H4] Hb Htb. unfold create. rewrite Hb. cbn [mbind res_bind].
  assert (exists d r, match sp_pod_type p with
            | Some pod => r ← mk_ref b (sp_version p) pod None; Ok (Some (PodDefinitionRef_to_dict r))
            | None => Ok None end = Ok d /\ when_dict PodDefinitionRef_from_dict d = Ok r /\
            r = (first_ref b (sp_version p) <$> sp_pod_type p)) as (d & r & -> & Hd & ->).
  { destruct (sp_pod_type p) as [pod|]; [|by exists None, None].
    unfold mk_ref, PodDefinitionRef_post_init. cbn [definition_id pr_version]. rewrite Htb, H4. cbn.
    eexists _, _. split; [reflexivity|]. split; [|reflexivity].
    cbn -[PodDefinitionRef_from_dict]. rewrite PodDefinitionRef_of_to_dict; [done|].
    unfold PodDefinitionRef_post_init. cbn. by rewrite Htb, H4. }
  cbn [mbind res_bind]. unfold emit. cbn [on]. unfold on_Created. cbn -[ResourceRequirements_from_dict PortTemplate_from_dict mapM].
  rewrite ResourceRequirements_of_to_dict, mapM_enum_call, PortTemplate_of_to_dict, H3, Hd by done. cbn.
  eexists _, _. split; [reflexivity|]. repeat split; cbn.
  by destruct (sp_owner_notification p) as [n|]; cbn; rewrite ?NotificationConfig_of_to_dict.
Qed.

(** Creating a definition from valid values raises exactly what deriving the
    bucket name raises; otherwise the new definition holds the values it was
    given, although they pass through the event's dicts, waits for its first
    synchronization, and lies in the bucket derived from its name. *)
Theorem create_spec c t uid p : spec_valid p ->
  match slugify_fqn (sp_form_qualified_name p) with
  | Err e => create c t uid p = Err e
  | Ok b => exists s ev, create c t uid p = Ok (s, [ev]) /\ created_as uid p b s
  end.
Proof.
  intros Hp. destruct (slugify_fqn _) as [b|e] eqn:Hb; [|by unfold create; rewrite Hb].
  apply create_ok; [done|done|]. by apply slugify_slug, slug_nonempty in Hb.
Qed.

(** ** Synchronization revives *)

(** A successful synchronization that was requested makes any definition active,
    also one that was deprecated or deleted, which [activate] refuses. *)
Theorem sync_revives `{RootId LabletDefinitionState} c1 c2 by_ r s s' evs :
  cs_sync_status r = "success" ->
  ag_run [(c1, RequestSync by_); (c2, RecordContentSync r)] s = Ok (s', evs) ->
  status s' = ACTIVE /\
  (status s = DEPRECATED \/ status s = DELETED -> forall c by2, exists m, activate c by2 s = Err (ValueError m)).
Proof.
  intros Hok Hr. split.
  - apply ag_run_cons in Hr as (s1 & e1 & e2 & H1 & Hr & _). apply ag_run_cons in Hr as (s2 & e3 & e4 & H2 & Hr & _).
    cbn in Hr. inv_ok.
    assert (status s1 = PENDING_SYNC) as Hp.
    { cbn [exec ag_exec definition_aggregate] in H1. unfold request_sync in H1.
      apply bind_ok in H1 as (i & _ & [_ Ho]%definition_emit_ok). cbn [on] in Ho. unfold on_SyncRequested in Ho.
      cbv zeta in Ho. apply bind_ok in Ho as (t & _ & <-%Ok_inj). by case_bool_decide. }
    cbn [exec ag_exec definition_aggregate] in H2. unfold record_content_sync in H2.
    apply bind_ok in H2 as (i & _ & [_ Ho]%definition_emit_ok). cbn [on] in Ho.
    apply on_ContentSynced_moved in Ho as (Hm & _). cbn [records ContentSynced_sync_status] in Hm.
    rewrite Hok, Hp, bool_decide_eq_true_2 in Hm by done. by destruct Hm.
  - intros Hst c by2. unfold activate.
    rewrite bool_decide_eq_false_2 by (by destruct Hst as [->| ->]). destruct Hst as [->| ->]; cbn; eauto.
Qed.

(** ** A concrete definition *)

Definition definition_clock : clock := {| now := utc 100; now_hist := utc 101; now_upd := utc 102 |}.

(** [LabletDefinition.id] as the identifier of the state. *)
Definition definition_root_id : RootId LabletDefinitionState := fun s => Some (id s).

Definition example_spec : definition_spec := {|
  sp_name := "ccna"; sp_version := "1.0.0"; sp_form_qualified_name := "Exam Associate CCNA v1.1 LAB 1.3a";
  sp_resource_requirements := {| rr_cpu_cores := 4; rr_memory_gb := 16; rr_storage_gb := 50; rr_nested_virt := true;
    rr_ami_requirements := [] |};
  sp_license_affinity := [Affinity.PERSONAL; Affinity.ENTERPRISE]; sp_node_count := 5;
  sp_port_template := {| pt_ports := [{| pd_name := "serial_1"; pd_protocol := "tcp"; pd_description := None |}] |};
  sp_created_by := "alice"; sp_user_session_package_name := "SVN.zip"; sp_grading_ruleset_package_name := "SVN.zip";
  sp_user_session_type := "LDS"; sp_user_session_default_region := None; sp_lab_yaml_hash := "";
  sp_lab_yaml_cached := None; sp_grading_rules_uri := None; sp_max_duration_minutes := 60; sp_warm_pool_depth := 0;
  sp_owner_notification := None; sp_boot_lead_time_minutes := None; sp_pipelines := None;
  sp_lab_reuse_enabled := false; sp_pod_type := Some Platform.CML_ON_AWS |}.

Definition example_sync (hash : string) : content_sync := {|
  cs_lab_yaml_hash := "y"; cs_sync_status := "success"; cs_content_package_hash := Some hash;
  cs_upstream_version := Some "1"; cs_upstream_date_published := None; cs_upstream_instance_name := None;
  cs_upstream_form_id := None; cs_grade_xml_path := None; cs_cml_yaml_path := None; cs_cml_yaml_content := None;
  cs_devices_json := None; cs_content_xml_content := None; cs_user_visible_devices := None;
  cs_upstream_sync_status := None; cs_error_message := None; cs_port_template := None; cs_node_count := Some 7;
  cs_node_definitions_required := Some ["iosv"]; cs_port_conflicts := None |}.

(** The state and the events of a result that is known to be no exception. *)
Definition definition_of {E} (r : res (LabletDefinitionState * list E)) : LabletDefinitionState :=
  match r with Ok p => p.1 | Err _ => init_state (utc 0) end.
Definition definition_events {E} (r : res (LabletDefinitionState * list E)) : list E :=
  match r with Ok p => p.2 | Err _ => [] end.

Lemma definition_returns {E} (r : res (LabletDefinitionState * list E)) :
  match r with Ok _ => true | Err _ => false end = true -> r = Ok (definition_of r, definition_events r).
Proof. destruct r as [[s evs]|e]; done. Qed.

Definition example_definition : LabletDefinitionState :=
  definition_of (create definition_clock (utc 0) "d-1" example_spec).

Lemma example_definition_created : created example_definition.
Proof.
  eapply (create_created definition_clock (utc 0) "d-1" example_spec), definition_returns. vm_compute. reflexivity.
Qed.

Abbreviation definition_demo := (@ag_run _ _ _ (definition_aggregate (H := definition_root_id))).

Definition example_definition_run : list (clock * command) :=
  map (pair definition_clock)
    [RequestSync "alice"; RecordContentSync (example_sync "h1"); ConfirmPodDefinition "pod-1" "CML_ON_AWS" (Some "h1");
     UpdateWarmPoolDepth 2 "alice"; Deactivate "alice" None; Activate "alice"; Deprecate "alice" None (Some "1.0.1");
     SoftDelete "alice"].

Definition example_deleted : LabletDefinitionState :=
  definition_of (definition_demo example_definition_run example_definition).

Lemma definition_trail_witness : status example_deleted = DELETED /\ trail definition_change example_deleted.
Proof.
  split; [vm_compute; reflexivity|].
  refine (definition_trail (H := definition_root_id) _ _ _ _ example_definition_created (definition_returns _ _)).
  vm_compute. reflexivity.
Defined.

Lemma definition_identity_witness : identity example_deleted = identity example_definition.
Proof.
  refine (definition_identity (H := definition_root_id) example_definition_run example_definition _ _
    (definition_returns _ _)). vm_compute. reflexivity.
Defined.

Definition example_synced : LabletDefinitionState :=
  definition_of (definition_demo (take 2 example_definition_run) example_definition).

Lemma active_was_synced_witness : is_Some (last_synced_at example_synced).
Proof.
  refine (proj2 (active_was_synced (H := definition_root_id) example_definition (take 2 example_definition_run) _ _
    example_definition_created (definition_returns _ _)) _); [vm_compute; reflexivity|left; vm_compute; reflexivity].
Defined.

Lemma pod_type_settled_witness : exists m,
  confirm_pod_definition (H := definition_root_id) definition_clock "pod-2" "proxmox" None example_deleted
  = Err (ValueError m).
Proof.
  refine (proj2 (pod_type_settled (H := definition_root_id) example_definition_run example_definition _ _
    (first_ref "exam-associate-ccna-v1.1-lab-1.3a" "1.0.0" Platform.CML_ON_AWS) _ _ (definition_returns _ _))
    definition_clock "pod-2" "proxmox" None Platform.PROXMOX _ _).
  - by repeat constructor.
  - vm_compute. reflexivity.
  - vm_compute. reflexivity.
  - vm_compute. reflexivity.
  - discriminate.
Defined.

Lemma create_spec_witness : exists s ev, create definition_clock (utc 0) "d-1" example_spec = Ok (s, [ev])
  /\ created_as "d-1" example_spec "exam-associate-ccna-v1.1-lab-1.3a" s.
Proof. refine (create_spec definition_clock (utc 0) "d-1" example_spec _). by split; repeat constructor. Defined.

Lemma sync_revives_witness : status example_deleted = DELETED /\
  status (definition_of (definition_demo [(definition_clock, RequestSync "bob");
    (definition_clock, RecordContentSync (example_sync "h2"))] example_deleted)) = ACTIVE.
Proof.
  split; [vm_compute; reflexivity|].
  refine (proj1 (sync_revives (H := definition_root_id) definition_clock definition_clock "bob" (example_sync "h2")
    example_deleted _ _ eq_refl (definition_returns _ _))). vm_compute. reflexivity.
Defined.
