(* ===== verification/DefinitionCommands.v ===== *)
(** * The definition commands ([control-plane-api/application/commands/lablet_definition])

    One program per command handler, over the repository of definitions
    ([motor_lablet_definition_repository.py]).  A program is a function of the
    stored documents that returns a response or raises; what it stored before it
    raised stays stored.  The aggregate read from the repository is a copy: only
    [update_async] and [add_async] write.  A response that succeeded carries the
    state its DTO is built from.  The programs run one at a time. *)
From S2P Require Import Prelude Programs PyData Enums Lifecycle WorkerValues Ports Slug DefinitionEvents LabletDefinition.
Import DefinitionStatus.

(** ** Programs over the repository *)

(** The documents, by [_id]. *)
Abbreviation store := (gmap string LabletDefinitionState).

Abbreviation io := (prog store).

Definition get_by_id_async (i : string) : io (option LabletDefinitionState) := fun σ => (Ok (σ !! i), σ).

Definition same_key (n v : string) (s : LabletDefinitionState) : bool :=
  String.eqb (name s) n && String.eqb (version s) v.

(** [find_one({"name": name, "version": version})] *)
Definition get_by_name_and_version_async (n v : string) : io (option LabletDefinitionState) := fun σ =>
  (Ok (List.find (same_key n v) (map snd (map_to_list σ))), σ).

(** The unique index on name and version refuses a second document. *)
Definition add_async (s : LabletDefinitionState) : io () := fun σ =>
  match List.find (same_key (name s) (version s)) (map snd (map_to_list σ)) with
  | Some _ => (Err (ValueError ("LabletDefinition with name '" +:+ name s +:+ "' and version '" +:+ version s
                                  +:+ "' already exists")), σ)
  | None => (Ok (), <[id s := s]> σ)
  end.

Definition update_async (s : LabletDefinitionState) : io () := fun σ => (Ok (), <[id s := s]> σ).

(** [OperationResult] *)
Inductive response :=
| Success (code : Z) (s : LabletDefinitionState)
| NoContent
| BadRequest (message : string)
| NotFound (key : string)
| Conflict (message : string)
| InternalServerError (message : string).

(** [s] has a character that is not white space. *)
Definition filled (s : string) : bool := str_truthy s && str_truthy (py_strip s).

Definition ovalue_error (e : exn) : option string := match e with ValueError m => Some m | _ => None end.

(** [except ValueError as e: bad_request(str(e))], then
    [except Exception as e: internal_server_error(str(e))]. *)
Definition bad_or_internal (e : exn) : io response :=
  mret (match ovalue_error e with Some m => BadRequest m | None => InternalServerError (exn_str e) end).

(** [except ValueError as e: bad_request(str(e))]; anything else is raised. *)
Definition bad_or_raise (e : exn) : io response :=
  match ovalue_error e with Some m => mret (BadRequest m) | None => lift (Err e) end.

Definition internal_error (e : exn) : io response := mret (InternalServerError (exn_str e)).

(** The first license type that is none. *)
Definition bad_license (l : list string) : option string :=
  List.find (fun s => match enum_call (E := Affinity.LicenseType) s with Ok _ => false | Err _ => true end) l.

Definition invalid_license (s : string) : string :=
  "Invalid license type '" +:+ s +:+ "'. Must be one of: "
    +:+ py_join ", " (map Affinity.LicenseType_value Affinity.LicenseType_members).

(** ** [CreateLabletDefinitionCommand] *)
Record create_command := {
  cr_name : string;
  cr_version : string;
  cr_form_qualified_name : string;
  cr_created_by : string;
  cr_cpu_cores : Z;
  cr_memory_gb : Z;
  cr_storage_gb : Z;
  cr_nested_virt : bool;
  cr_license_affinity : option (list string);
  cr_node_count : Z;
  cr_port_definitions : option (list pydict);
  cr_user_session_package_name : string;
  cr_grading_ruleset_package_name : string;
  cr_user_session_type : string;
  cr_user_session_default_region : option string;
  cr_lab_yaml_hash : string;
  cr_lab_yaml_cached : option string;
  cr_grading_rules_uri : option string;
  cr_max_duration_minutes : Z;
  cr_warm_pool_depth : Z;
  cr_boot_lead_time_minutes : option Z;
  cr_owner_notification : option pydict
}.

(** The port template of the command. *)
Definition command_ports (defs : option (list pydict)) : res PortTemplate :=
  match defs with
  | Some ((_ :: _) as defs) =>
      ports ← mapM PortDefinition_from_dict defs;
      PortTemplate_post_init {| pt_ports := ports |}
  | _ => Ok PortTemplate_empty
  end.

(** ** [SetLdsPortPreferencesCommand] *)

(** The ports to choose from, by the label of a device with several; a later
    conflict with the same label replaces an earlier one. *)
Definition conflict_map (conflicts : list pydict) : res (dict pyval) :=
  labelled ← mapM (fun c => match dict_get "device_label" c with
                            | Some label => label ← as_str label; Ok [(label, c)]
                            | None => Ok []
                            end) conflicts;
  Ok (dict_of fst (fun p => pd_get_or "available_ports" (PList []) p.2) (concat labelled)).

(** The refusal of the first preference that no conflict allows. *)
Fixpoint refused_preference (conflicts : dict pyval) (preferences : dict string) : res (option string) :=
  match preferences with
  | [] => Ok None
  | (device_label, preferred_port) :: preferences =>
      match dict_get device_label conflicts with
      | None => Ok (Some ("Device '" +:+ device_label +:+ "' is not in the port conflicts list. "
                            +:+ "Port preferences can only be set for devices with multiple ports."))
      | Some available =>
          available ← as_str_list available;
          if bool_decide (preferred_port ∈ available) then refused_preference conflicts preferences
          else Ok (Some ("Port '" +:+ preferred_port +:+ "' is not available for device '" +:+ device_label
                           +:+ "'. Available ports: " +:+ repr_list available))
      end
  end.

(** [{"lds_port_preferences": preferences or None}] *)
Definition preference_change (preferences : dict string) : definition_changes := {|
  ch_resource_requirements := None; ch_license_affinity := None; ch_node_count := None;
  ch_max_duration_minutes := None; ch_warm_pool_depth := None; ch_grading_rules_uri := None;
  ch_lab_artifact_uri := None; ch_lab_yaml_hash := None; ch_form_qualified_name := None;
  ch_bucket_name := None; ch_user_session_package_name := None; ch_grading_ruleset_package_name := None;
  ch_user_session_type := None; ch_user_session_default_region := None; ch_boot_lead_time_minutes := None;
  ch_lab_reuse_enabled := None;
  ch_lds_port_preferences := Some (match preferences with [] => None | _ => Some preferences end);
  ch_pod_definition_ref := None; ch_other_keys := []
|}.

Section Handlers.
Context `{RootId LabletDefinitionState}.
Context (c : clock) (t_init : datetime) (uid : string).

Definition handle_create (p : create_command) : io response :=
  if negb (filled (cr_name p)) then mret (BadRequest "Name is required") else
  if negb (filled (cr_version p)) then mret (BadRequest "Version is required") else
  if negb (filled (cr_form_qualified_name p)) then mret (BadRequest "Form Qualified Name is required") else
  if negb (filled (cr_created_by p)) then mret (BadRequest "Created by is required") else
  match slugify_fqn (py_strip (cr_form_qualified_name p)) with
  | Err (ValueError m) => mret (BadRequest ("Invalid form_qualified_name: " +:+ m))
  | Err e => lift (Err e)
  | Ok _ =>
    existing ← get_by_name_and_version_async (py_strip (cr_name p)) (py_strip (cr_version p));
    match existing with
    | Some _ => mret (Conflict ("LabletDefinition with name '" +:+ cr_name p +:+ "' and version '"
                                  +:+ cr_version p +:+ "' already exists"))
    | None => try_ (
        requirements ← lift (ResourceRequirements_post_init
          {| rr_cpu_cores := cr_cpu_cores p; rr_memory_gb := cr_memory_gb p; rr_storage_gb := cr_storage_gb p;
             rr_nested_virt := cr_nested_virt p; rr_ami_requirements := [] |});
        let licenses := default [] (cr_license_affinity p) in
        match bad_license licenses with
        | Some l => mret (BadRequest (invalid_license l))
        | None =>
          affinity ← lift (match licenses with
                           | [] => Ok Affinity.LicenseType_members | _ => mapM enum_call licenses end);
          template ← lift (command_ports (cr_port_definitions p));
          '(s, _) ← lift (create c t_init uid {|
            sp_name := py_strip (cr_name p); sp_version := py_strip (cr_version p);
            sp_form_qualified_name := py_strip (cr_form_qualified_name p);
            sp_resource_requirements := requirements; sp_license_affinity := affinity;
            sp_node_count := cr_node_count p; sp_port_template := template;
            sp_created_by := py_strip (cr_created_by p);
            sp_user_session_package_name := cr_user_session_package_name p;
            sp_grading_ruleset_package_name := cr_grading_ruleset_package_name p;
            sp_user_session_type := cr_user_session_type p;
            sp_user_session_default_region := cr_user_session_default_region p;
            sp_lab_yaml_hash := cr_lab_yaml_hash p; sp_lab_yaml_cached := cr_lab_yaml_cached p;
            sp_grading_rules_uri := cr_grading_rules_uri p; sp_max_duration_minutes := cr_max_duration_minutes p;
            sp_warm_pool_depth := cr_warm_pool_depth p;
            sp_owner_notification := match cr_owner_notification p with
                                     | Some ((_ :: _) as d) => Some (NotificationConfig_from_dict d) | _ => None end;
            sp_boot_lead_time_minutes := cr_boot_lead_time_minutes p; sp_pipelines := None;
            sp_lab_reuse_enabled := false; sp_pod_type := None |});
          _ ← add_async s;
          mret (Success 201 s)
        end) bad_or_internal
    end
  end.

(** ** [UpdateLabletDefinitionCommand] *)
Record update_command := {
  up_definition_id : string;
  up_updated_by : string;
  up_form_qualified_name : option string;
  up_lab_artifact_uri : option string;
  up_lab_yaml_hash : option string;
  up_cpu_cores : option Z;
  up_memory_gb : option Z;
  up_storage_gb : option Z;
  up_nested_virt : option bool;
  up_license_affinity : option (list string);
  up_node_count : option Z;
  up_max_duration_minutes : option Z;
  up_warm_pool_depth : option Z;
  up_grading_rules_uri : option string;
  up_user_session_package_name : option string;
  up_grading_ruleset_package_name : option string;
  up_user_session_type : option string;
  up_user_session_default_region : option string;
  up_lab_reuse_enabled : option bool;
  up_boot_lead_time_minutes : option Z
}.

(** [a if a is not None else b] *)
Definition either {A} (a b : option A) : option A := match a with Some _ => a | None => b end.

(** What the new version of [state] is created from. *)
Definition bumped_spec (p : update_command) (new_version : string) (affinity : list Affinity.LicenseType)
    (requirements : ResourceRequirements) (state : LabletDefinitionState) : definition_spec := {|
  sp_name := name state; sp_version := new_version;
  sp_form_qualified_name := ostr_or (up_form_qualified_name p) (ostr_or (form_qualified_name state) "");
  sp_resource_requirements := requirements; sp_license_affinity := affinity;
  sp_node_count := default (node_count state) (up_node_count p); sp_port_template := port_template state;
  sp_created_by := up_updated_by p;
  sp_user_session_package_name := ostr_or (up_user_session_package_name p) (user_session_package_name state);
  sp_grading_ruleset_package_name :=
    ostr_or (up_grading_ruleset_package_name p) (grading_ruleset_package_name state);
  sp_user_session_type := ostr_or (up_user_session_type p) (user_session_type state);
  sp_user_session_default_region := either (up_user_session_default_region p) (user_session_default_region state);
  sp_lab_yaml_hash := ""; sp_lab_yaml_cached := None;
  sp_grading_rules_uri := either (up_grading_rules_uri p) (grading_rules_uri state);
  sp_max_duration_minutes := default (max_duration_minutes state) (up_max_duration_minutes p);
  sp_warm_pool_depth := default (warm_pool_depth state) (up_warm_pool_depth p);
  sp_owner_notification := owner_notification state;
  sp_boot_lead_time_minutes := either (up_boot_lead_time_minutes p) (boot_lead_time_minutes state);
  sp_pipelines := None;
  sp_lab_reuse_enabled := default (lab_reuse_enabled state) (up_lab_reuse_enabled p);
  sp_pod_type := None |}.

(** [UpdateLabletDefinitionCommandHandler._handle_version_bump] *)
Definition update_version_bump (p : update_command) (definition : LabletDefinitionState) : io response :=
  let new_version := increment_patch_version (version definition) in
  let current := resource_requirements definition in
  affinity ← lift (match up_license_affinity p with
                   | Some l => mapM enum_call l | None => Ok (license_affinity definition) end);
  requirements ← lift (ResourceRequirements_post_init
    {| rr_cpu_cores := default (rr_cpu_cores current) (up_cpu_cores p);
       rr_memory_gb := default (rr_memory_gb current) (up_memory_gb p);
       rr_storage_gb := default (rr_storage_gb current) (up_storage_gb p);
       rr_nested_virt := default (rr_nested_virt current) (up_nested_virt p); rr_ami_requirements := [] |});
  '(old, _) ← lift (deprecate c (up_updated_by p)
                (Some ("Superseded by version " +:+ new_version +:+ " (manual edit)")) (Some new_version) definition);
  _ ← update_async old;
  '(new, _) ← lift (create c t_init uid (bumped_spec p new_version affinity requirements definition));
  _ ← add_async new;
  '(new, _) ← lift (request_sync c (up_updated_by p) new);
  _ ← update_async new;
  mret (Success 200 new).

(** The [changes] of an update in place. *)
Definition in_place_changes (p : update_command) (definition : LabletDefinitionState) : res definition_changes :=
  naming ← match up_form_qualified_name p with
           | Some f =>
               let fqn := py_strip f in
               bucket ← slugify_fqn fqn;
               let pkg := ostr_or (up_user_session_package_name p) (user_session_package_name definition) in
               Ok (Some (fqn, bucket, artifact_uri bucket pkg))
           | None => Ok None
           end;
  let current := resource_requirements definition in
  let has_resource_change :=
    match up_cpu_cores p, up_memory_gb p, up_storage_gb p, up_nested_virt p with
    | None, None, None, None => false | _, _, _, _ => true end in
  Ok {| ch_resource_requirements :=
          if has_resource_change then Some
            [("cpu_cores", PInt (default (rr_cpu_cores current) (up_cpu_cores p)));
             ("memory_gb", PInt (default (rr_memory_gb current) (up_memory_gb p)));
             ("storage_gb", PInt (default (rr_storage_gb current) (up_storage_gb p)));
             ("nested_virt", PBool (default (rr_nested_virt current) (up_nested_virt p)))]
          else None;
        ch_license_affinity := up_license_affinity p;
        ch_node_count := up_node_count p;
        ch_max_duration_minutes := up_max_duration_minutes p;
        ch_warm_pool_depth := up_warm_pool_depth p;
        ch_grading_rules_uri := Some <$> up_grading_rules_uri p;
        ch_lab_artifact_uri := match naming with
                               | Some (_, _, uri) => Some uri
                               | None => py_strip <$> up_lab_artifact_uri p end;
        ch_lab_yaml_hash := py_strip <$> up_lab_yaml_hash p;
        ch_form_qualified_name := match naming with Some (fqn, _, _) => Some (Some fqn) | None => None end;
        ch_bucket_name := match naming with Some (_, bucket, _) => Some bucket | None => None end;
        ch_user_session_package_name := up_user_session_package_name p;
        ch_grading_ruleset_package_name := up_grading_ruleset_package_name p;
        ch_user_session_type := up_user_session_type p;
        ch_user_session_default_region := Some <$> up_user_session_default_region p;
        ch_boot_lead_time_minutes := Some <$> up_boot_lead_time_minutes p;
        ch_lab_reuse_enabled := up_lab_reuse_enabled p;
        ch_lds_port_preferences := None; ch_pod_definition_ref := None; ch_other_keys := [] |}.

Definition update_in_place (p : update_command) (definition : LabletDefinitionState) : io response :=
  changes ← lift (in_place_changes p definition);
  if negb (has_changes changes) then mret (BadRequest "No fields to update") else
  '(new, _) ← lift (update c changes (up_updated_by p) definition);
  _ ← update_async new;
  mret (Success 200 new).

Definition handle_update (p : update_command) : io response :=
  if negb (filled (up_definition_id p)) then mret (BadRequest "Definition ID is required") else
  definition ← get_by_id_async (up_definition_id p);
  match definition with
  | None => mret (NotFound (up_definition_id p))
  | Some definition =>
      if bool_decide (status definition = DEPRECATED) then mret (BadRequest "Cannot update a deprecated definition") else
      match bad_license (default [] (up_license_affinity p)) with
      | Some l => mret (BadRequest (invalid_license l))
      | None => try_ (if bool_decide (status definition = ACTIVE) then update_version_bump p definition
                      else update_in_place p definition) bad_or_internal
      end
  end.

(** ** [RecordContentSyncResultCommand] *)
Record sync_result_command := {
  rs_definition_id : string;
  rs_port_template : option pydict;
  rs_pod_definition_id : option string;
  rs_pod_type : option string;
  rs_sync : content_sync  (* the fields passed on; [cs_port_template] is not one of them *)
}.

(** The arguments of [record_content_sync]: with the port template read from the command. *)
Definition with_ports (template : option PortTemplate) (r : content_sync) : content_sync := {|
  cs_lab_yaml_hash := cs_lab_yaml_hash r; cs_sync_status := cs_sync_status r;
  cs_content_package_hash := cs_content_package_hash r; cs_upstream_version := cs_upstream_version r;
  cs_upstream_date_published := cs_upstream_date_published r;
  cs_upstream_instance_name := cs_upstream_instance_name r; cs_upstream_form_id := cs_upstream_form_id r;
  cs_grade_xml_path := cs_grade_xml_path r; cs_cml_yaml_path := cs_cml_yaml_path r;
  cs_cml_yaml_content := cs_cml_yaml_content r; cs_devices_json := cs_devices_json r;
  cs_content_xml_content := cs_content_xml_content r; cs_user_visible_devices := cs_user_visible_devices r;
  cs_upstream_sync_status := cs_upstream_sync_status r; cs_error_message := cs_error_message r;
  cs_port_template := template; cs_node_count := cs_node_count r;
  cs_node_definitions_required := cs_node_definitions_required r; cs_port_conflicts := cs_port_conflicts r |}.

(** The version bump passes neither the error message nor the port conflicts. *)
Definition without_errors (r : content_sync) : content_sync := {|
  cs_lab_yaml_hash := cs_lab_yaml_hash r; cs_sync_status := cs_sync_status r;
  cs_content_package_hash := cs_content_package_hash r; cs_upstream_version := cs_upstream_version r;
  cs_upstream_date_published := cs_upstream_date_published r;
  cs_upstream_instance_name := cs_upstream_instance_name r; cs_upstream_form_id := cs_upstream_form_id r;
  cs_grade_xml_path := cs_grade_xml_path r; cs_cml_yaml_path := cs_cml_yaml_path r;
  cs_cml_yaml_content := cs_cml_yaml_content r; cs_devices_json := cs_devices_json r;
  cs_content_xml_content := cs_content_xml_content r; cs_user_visible_devices := cs_user_visible_devices r;
  cs_upstream_sync_status := cs_upstream_sync_status r; cs_error_message := None;
  cs_port_template := cs_port_template r; cs_node_count := cs_node_count r;
  cs_node_definitions_required := cs_node_definitions_required r; cs_port_conflicts := None |}.

(** The confirmation of the pod definition, when the command has one; a
    ValueError ends the handler with a conflict. *)
Definition confirm_step (p : sync_result_command) (s : LabletDefinitionState)
    : res (LabletDefinitionState + response) :=
  match rs_pod_definition_id p, rs_pod_type p with
  | Some d, Some t =>
      if String.eqb (cs_sync_status (rs_sync p)) "success" && str_truthy d && str_truthy t then
        match confirm_pod_definition c d t (cs_content_package_hash (rs_sync p)) s with
        | Ok (s', _) => Ok (inl s')
        | Err (ValueError m) => Ok (inr (Conflict m))
        | Err e => Err e
        end
      else Ok (inl s)
  | _, _ => Ok (inl s)
  end.

(** [command.content_package_hash[:12] if command.content_package_hash else "unknown"] *)
Definition hash_preview (hash : option string) : string :=
  match hash with Some h => if str_truthy h then String.substring 0 12 h else "unknown" | None => "unknown" end.

(** [RecordContentSyncResultCommandHandler._handle_version_bump] *)
Definition sync_version_bump (p : sync_result_command) (definition : LabletDefinitionState) : io response :=
  let old_version := version definition in
  let new_version := increment_patch_version old_version in
  '(old, _) ← lift (deprecate c "content-sync-service"
                (Some ("Content updated (new hash: " +:+ hash_preview (cs_content_package_hash (rs_sync p)) +:+ "...)"))
                (Some new_version) definition);
  _ ← update_async old;
  '(new, _) ← lift (create_version c t_init uid (name definition) new_version old_version
                (lab_artifact_uri definition) (cs_lab_yaml_hash (rs_sync p)) (resource_requirements definition)
                (node_count definition) (port_template definition) "content-sync-service");
  template ← lift (when_dict PortTemplate_from_dict (rs_port_template p));
  '(new, _) ← lift (record_content_sync c (without_errors (with_ports template (rs_sync p))) new);
  confirmed ← lift (confirm_step p new);
  match confirmed with
  | inr r => mret r
  | inl new => _ ← add_async new; mret (Success 200 new)
  end.

Definition handle_record_sync (p : sync_result_command) : io response :=
  let sync := rs_sync p in
  if negb (str_truthy (rs_definition_id p)) then mret (BadRequest "definition_id is required") else
  if negb (String.eqb (cs_sync_status sync) "success" || String.eqb (cs_sync_status sync) "failed")
  then mret (BadRequest "sync_status must be 'success' or 'failed'") else
  try_ (
    definition ← get_by_id_async (rs_definition_id p);
    match definition with
    | None => mret (NotFound (rs_definition_id p))
    | Some definition =>
        let bad_pod := match rs_pod_type p with
                       | Some t => match enum_call (E := Platform.PodType) t with Ok _ => None | Err _ => Some t end
                       | None => None end in
        match bad_pod with
        | Some t => mret (BadRequest ("Unknown pod_type: " +:+ t))
        | None =>
            let content_changed :=
              match cs_content_package_hash sync, content_package_hash definition with
              | Some new, Some old => negb (String.eqb new old) | _, _ => false end in
            if content_changed && bool_decide (status definition = ACTIVE) then sync_version_bump p definition else
            template ← lift (when_dict PortTemplate_from_dict (rs_port_template p));
            '(new, _) ← lift (record_content_sync c (with_ports template sync) definition);
            confirmed ← lift (confirm_step p new);
            match confirmed with
            | inr r => mret r
            | inl new => _ ← update_async new; mret (Success 200 new)
            end
        end
    end) internal_error.

(** ** The short handlers *)

(** [SyncLabletDefinitionCommand]: by identifier, or by name and version. *)
Definition handle_sync (by_id by_name by_version : option string) (synced_by : string) : io response :=
  if negb (ostr_truthy by_id) && negb (ostr_truthy by_name && ostr_truthy by_version)
  then mret (BadRequest "Must provide either 'id' or both 'name' and 'version'") else
  try_ (
    definition ← (if ostr_truthy by_id then get_by_id_async (default "" by_id)
                  else get_by_name_and_version_async (default "" by_name) (default "" by_version));
    match definition with
    | None => mret (NotFound (if ostr_truthy by_id then default "" by_id
                              else default "" by_name +:+ ":" +:+ default "" by_version))
    | Some definition =>
        if negb (ostr_truthy (form_qualified_name definition))
        then mret (BadRequest "Definition has no form_qualified_name — cannot trigger content sync") else
        '(new, _) ← lift (request_sync c synced_by definition);
        _ ← update_async new;
        mret (Success 202 new)
    end) internal_error.

(** What one command of the aggregate returned is stored; a [ValueError] is
    answered. *)
Definition store_or_refuse (r : result) (answer : LabletDefinitionState -> response) : io response :=
  match r with
  | Ok (new, _) => _ ← update_async new; mret (answer new)
  | Err e => bad_or_raise e
  end.

(** A handler that fetches, runs one command of the aggregate and stores. *)
Definition handle_command (definition_id : string) (command : LabletDefinitionState -> result)
    (answer : LabletDefinitionState -> response) : io response :=
  if negb (str_truthy definition_id) then mret (BadRequest "definition_id is required") else
  definition ← get_by_id_async definition_id;
  match definition with
  | None => mret (NotFound definition_id)
  | Some definition =>
      store_or_refuse (command definition) answer
  end.

Definition handle_activate (definition_id activated_by : string) : io response :=
  handle_command definition_id (activate c activated_by) (Success 200).
Definition handle_deactivate (definition_id deactivated_by : string) (reason : option string) : io response :=
  handle_command definition_id (deactivate c deactivated_by reason) (Success 200).
Definition handle_delete (definition_id deleted_by : string) : io response :=
  handle_command definition_id (soft_delete c deleted_by) (fun _ => NoContent).

(** *** [SetLdsPortPreferencesCommand] *)
Definition handle_set_preferences (definition_id : string) (lds_port_preferences : dict string) (updated_by : string)
    : io response :=
  if negb (str_truthy definition_id) then mret (BadRequest "definition_id is required") else
  definition ← get_by_id_async definition_id;
  match definition with
  | None => mret (NotFound definition_id)
  | Some definition =>
      conflict_map ← lift (conflict_map (default [] (port_conflicts definition)));
      refused ← lift (refused_preference conflict_map lds_port_preferences);
      match refused with
      | Some message => mret (BadRequest message)
      | None =>
          store_or_refuse (update c (preference_change lds_port_preferences) updated_by definition) (Success 200)
      end
  end.
End Handlers.
