(* ===== verification/DefinitionStore.v ===== *)
(** * What the definition commands keep of the repository

    The invariant of the stored documents, and what a version bump and a
    synchronization do to them. *)
From S2P Require Import Prelude Programs PyData Enums Lifecycle AuditTrail Aggregate WorkerValues Ports Slug.
From S2P Require Import DefinitionEvents LabletDefinition DefinitionProps DefinitionCommands.
Import DefinitionStatus.

(** ** The invariant of the documents

    A document is stored under its identifier, and name and version identify it. *)
Definition store_ok (σ : store) : Prop :=
  (forall k s, σ !! k = Some s -> id s = k) /\
  (forall k1 k2 s1 s2, σ !! k1 = Some s1 -> σ !! k2 = Some s2 ->
     name s1 = name s2 -> version s1 = version s2 -> k1 = k2).

Lemma identity_eq s s' : identity s' = identity s -> id s' = id s /\ name s' = name s /\ version s' = version s.
Proof. unfold identity. by intros [= -> -> -> _ _]. Qed.

Lemma update_store_ok σ s s' : store_ok σ -> σ !! id s = Some s -> identity s' = identity s ->
  store_ok (<[id s' := s']> σ).
Proof.
  intros [H1 H2] Hs (Hi & Hn & Hv)%identity_eq. rewrite Hi. split.
  - intros k s1. destruct (decide (id s = k)) as [<-|Hne].
    + rewrite lookup_insert_eq. by intros [= <-].
    + rewrite lookup_insert_ne by done. apply H1.
  - intros k1 k2 s1 s2. destruct (decide (id s = k1)) as [<-|N1], (decide (id s = k2)) as [<-|N2]; try done;
      rewrite ?lookup_insert_eq, ?lookup_insert_ne by done.
    + intros [= <-] Hk2. rewrite Hn, Hv. by apply H2.
    + intros Hk1 [= <-]. rewrite Hn, Hv. by apply H2.
    + apply H2.
Qed.

Lemma find_key_None n v (σ : store) : List.find (same_key n v) (map snd (map_to_list σ)) = None <->
  forall k s, σ !! k = Some s -> name s = n -> version s = v -> False.
Proof.
  split.
  - intros Hf k s Hk <- <-.
    assert (In s (map snd (map_to_list σ))) as Hin.
    { apply list_elem_of_In. change s with (snd (k, s)). apply list_elem_of_fmap_2. by apply elem_of_map_to_list. }
    pose proof (List.find_none _ _ Hf s Hin) as Hn. unfold same_key in Hn. by rewrite !String.eqb_refl in Hn.
  - intros H. destruct (List.find _ _) as [s|] eqn:Hf; [|done]. exfalso.
    apply List.find_some in Hf as [Hin Hs]. apply list_elem_of_In in Hin.
    apply list_elem_of_fmap in Hin as ([k s'] & -> & Hin%elem_of_map_to_list). cbn in *.
    unfold same_key in Hs. apply andb_true_iff in Hs as [Hn%String.eqb_eq Hv%String.eqb_eq]. eauto.
Qed.

Lemma find_key_Some n v (σ : store) s : List.find (same_key n v) (map snd (map_to_list σ)) = Some s ->
  exists k, σ !! k = Some s /\ name s = n /\ version s = v.
Proof.
  intros [Hin Hs]%List.find_some. apply list_elem_of_In, list_elem_of_fmap in Hin as ([k s'] & -> & Hin%elem_of_map_to_list).
  unfold same_key in Hs. apply andb_true_iff in Hs as [Hn%String.eqb_eq Hv%String.eqb_eq]. eauto.
Qed.

Lemma triple_get i (P : store -> Prop) X :
  triple P (get_by_id_async i) (fun r σ => P σ /\ σ !! i = r) X.
Proof. intros σ r σ' HP [= <- <-]. done. Qed.

Lemma triple_get_key n v (P : store -> Prop) X :
  triple P (get_by_name_and_version_async n v)
    (fun r σ => P σ /\ match r with Some s => exists k, σ !! k = Some s | None => True end) X.
Proof.
  intros σ r σ' HP [= <- <-]. split; [done|]. destruct (List.find _ _) as [s|] eqn:Hf; [|done].
  apply find_key_Some in Hf as (k & Hk & _). eauto.
Qed.

(** Storing a later state of a stored document. *)
Lemma triple_update s s' (F : store -> Prop) X :
  identity s' = identity s -> (forall σ, F σ -> F (<[id s' := s']> σ)) ->
  triple (fun σ => store_ok σ /\ σ !! id s = Some s /\ F σ) (update_async s')
    (fun _ σ => store_ok σ /\ σ !! id s' = Some s' /\ F σ) X.
Proof.
  intros Hi HF σ r σ' (Hok & Hs & Hf) [= <- <-]. split; [by eapply update_store_ok|].
  split; [apply lookup_insert_eq|auto].
Qed.

(** Adding a document under a fresh identifier. *)
Lemma triple_add s : triple (fun σ => store_ok σ /\ σ !! id s = None) (add_async s)
  (fun _ σ => store_ok σ /\ σ !! id s = Some s) store_ok.
Proof.
  intros σ r σ' [[H1 H2] Hn]. unfold add_async. destruct (List.find _ _) as [s0|] eqn:Hf; intros [= <- <-]; [done|].
  pose proof (proj1 (find_key_None _ _ _) Hf) as Hf'. split; [|apply lookup_insert_eq]. split.
  - intros k s1. destruct (decide (id s = k)) as [<-|Hne].
    + rewrite lookup_insert_eq. by intros [= <-].
    + rewrite lookup_insert_ne by done. apply H1.
  - intros k1 k2 s1 s2. destruct (decide (id s = k1)) as [<-|N1], (decide (id s = k2)) as [<-|N2]; try done;
      rewrite ?lookup_insert_eq, ?lookup_insert_ne by done.
    + intros [= <-] Hk2 Hna Hve. by destruct (Hf' k2 s2 Hk2).
    + intros Hk1 [= <-] Hna Hve. by destruct (Hf' k1 s1 Hk1).
    + apply H2.
Qed.

(** ** The handlers keep the invariant *)

Lemma create_id c t uid p s evs : create c t uid p = Ok (s, evs) -> id s = uid.
Proof.
  unfold create. intros (b & _ & (r & _ & [_ Ho]%definition_emit_ok)%bind_ok)%bind_ok.
  cbn [on] in Ho. unfold on_Created in Ho. do 4 (apply bind_ok in Ho as (? & _ & Ho)). by apply Ok_inj in Ho as <-.
Qed.

Lemma create_version_id c t uid n v pv u h r k tpl by_ s evs :
  create_version c t uid n v pv u h r k tpl by_ = Ok (s, evs) -> id s = uid.
Proof.
  unfold create_version. intros [_ Ho]%definition_emit_ok. cbn [on] in Ho. unfold on_VersionCreated in Ho.
  do 2 (apply bind_ok in Ho as (? & _ & Ho)). by apply Ok_inj in Ho as <-.
Qed.

(** The assertions of the proofs: the invariant, a document, and a fresh identifier. *)
Definition fresh (uid : string) (σ : store) : Prop := store_ok σ /\ σ !! uid = None.
Definition holds (uid : string) (s : LabletDefinitionState) (σ : store) : Prop :=
  store_ok σ /\ σ !! id s = Some s /\ σ !! uid = None.
Definition has (s : LabletDefinitionState) (σ : store) : Prop := store_ok σ /\ σ !! id s = Some s.

Definition any {A} (_ : A) (σ : store) : Prop := store_ok σ.

Lemma holds_update uid s s' X : identity s' = identity s ->
  triple (holds uid s) (update_async s') (fun _ => holds uid s') X.
Proof.
  intros Hi σ r σ' (Hok & Hs & Hf) [= <- <-]. pose proof (identity_eq _ _ Hi) as (Hid & _).
  assert (id s <> uid) as Hne by (intros <-; congruence).
  split; [by eapply update_store_ok|]. split; [apply lookup_insert_eq|]. by rewrite lookup_insert_ne by congruence.
Qed.

Lemma has_update s s' X : identity s' = identity s -> triple (has s) (update_async s') (fun _ => has s') X.
Proof.
  intros Hi σ r σ' (Hok & Hs) [= <- <-]. split; [by eapply update_store_ok|apply lookup_insert_eq].
Qed.

Lemma fresh_add uid s : id s = uid -> triple (fresh uid) (add_async s) (fun _ => has s) store_ok.
Proof. intros <-. apply triple_add. Qed.

Lemma fresh_get uid i X :
  triple (fresh uid) (get_by_id_async i)
    (fun r σ => fresh uid σ /\ forall s, r = Some s -> holds uid s σ) X.
Proof.
  intros σ r σ' [Hok Hf] [= <- <-]. split; [done|]. intros s Hs. split; [done|]. split; [|done].
  by rewrite (proj1 Hok _ _ Hs).
Qed.

Lemma fresh_get_key uid n v X :
  triple (fresh uid) (get_by_name_and_version_async n v)
    (fun r σ => fresh uid σ /\ forall s, r = Some s -> holds uid s σ) X.
Proof.
  intros σ r σ' [Hok Hf] [= <- <-]. split; [done|]. intros s (k & Hs & _)%find_key_Some.
  split; [done|]. split; [|done]. by rewrite (proj1 Hok _ _ Hs).
Qed.

Section Handlers.
Context `{RootId LabletDefinitionState} (c : clock) (t_init : datetime) (uid : string).

Lemma command_identity cmd s s' evs : exec c cmd s = Ok (s', evs) -> identity s' = identity s.
Proof. by intros [? _]%exec_step. Qed.

Lemma bad_or_internal_keeps P e : (forall σ, P σ -> store_ok σ) -> triple P (bad_or_internal e) any store_ok.
Proof. intros HP. by apply triple_ret. Qed.

Ltac ok_of H := first [exact H | exact (proj1 H) | exact (proj1 (proj1 H))].
Ltac branch := lazymatch goal with |- triple _ (match ?x with _ => _ end) _ _ => destruct x end.
Ltac ret := apply triple_ret; let σ := fresh in let H := fresh in intros σ H; ok_of H.

Lemma store_or_refuse_keeps s r answer :
  (forall s' evs, r = Ok (s', evs) -> identity s' = identity s) ->
  triple (holds uid s) (store_or_refuse r answer) any store_ok.
Proof.
  intros Hr. destruct r as [[s' evs]|e].
  - eapply (triple_bind _ _ _ (fun _ => holds uid s')); [apply holds_update; by eapply Hr|intros []; ret].
  - cbn. unfold bad_or_raise. destruct (ovalue_error e); [ret|]. apply triple_lift; [done|]. intros σ Hσ. ok_of Hσ.
Qed.

(** A computation keeps the assertion, and tells what it returned. *)
Lemma lift_bind {A B} (r : res A) (f : A -> io B) (P : store -> Prop) Q :
  (forall σ, P σ -> store_ok σ) -> (forall a, r = Ok a -> triple P (f a) Q store_ok) ->
  triple P (lift r ≫= f) Q store_ok.
Proof.
  intros HP Hf σ r' σ' Hσ He. destruct r as [a|e]; [|injection He as <- <-; by apply HP].
  exact (Hf a eq_refl σ r' σ' Hσ He).
Qed.

Ltac lift_step := apply lift_bind; [let σ := fresh in let Hσ := fresh in intros σ Hσ; ok_of Hσ|].
Ltac store_step := eapply triple_bind; [first [by apply fresh_add | by apply holds_update | by apply has_update]|intros []].

Lemma handle_command_keeps i (command : LabletDefinitionState -> result) answer :
  (forall s s' evs, command s = Ok (s', evs) -> identity s' = identity s) ->
  triple (fresh uid) (handle_command i command answer) any store_ok.
Proof.
  intros Hc. unfold handle_command. destruct (negb (str_truthy i)); [ret|].
  eapply triple_bind; [apply fresh_get|]. intros [s|]; [|ret].
  eapply triple_weaken; [apply (store_or_refuse_keeps s), Hc|]. intros σ [_ Hσ]. by apply Hσ.
Qed.

Lemma preferences_keep i preferences by_ :
  triple (fresh uid) (handle_set_preferences c i preferences by_) any store_ok.
Proof.
  unfold handle_set_preferences. destruct (negb (str_truthy i)); [ret|].
  eapply triple_bind; [apply fresh_get|]. intros [s|]; [|ret].
  eapply triple_weaken with (P := holds uid s); [|intros σ [_ Hσ]; by apply Hσ].
  lift_step. intros conflicts _. lift_step. intros [m|] _; [ret|].
  apply store_or_refuse_keeps. intros s' evs. exact (command_identity (Update _ _) s s' evs).
Qed.

Lemma create_keeps p : triple (fresh uid) (handle_create c t_init uid p) any store_ok.
Proof.
  unfold handle_create. do 4 (case_match; [ret|]).
  destruct (slugify_fqn _) as [b|e]; [|destruct e; first [ret|apply triple_lift; [done|]; intros σ Hσ; ok_of Hσ]].
  eapply triple_bind; [apply fresh_get_key|]. intros [s|]; [ret|].
  eapply triple_weaken with (P := fresh uid); [|by intros σ [? _]].
  eapply triple_try with (Y := store_ok); [|intros e; by apply bad_or_internal_keeps].
  lift_step. intros rr _. case_match; [ret|]. lift_step. intros affinity _. lift_step. intros template _.
  lift_step. intros [s evs] Hs%create_id. store_step. ret.
Qed.

Lemma update_keeps p : triple (fresh uid) (handle_update c t_init uid p) any store_ok.
Proof.
  unfold handle_update. case_match; [ret|]. eapply triple_bind; [apply fresh_get|]. intros [s|]; [|ret].
  case_bool_decide; [ret|]. case_match; [ret|].
  eapply triple_weaken with (P := holds uid s); [|intros σ [_ Hσ]; by apply Hσ].
  eapply triple_try with (Y := store_ok); [|intros e; by apply bad_or_internal_keeps].
  case_bool_decide.
  - unfold update_version_bump. cbv zeta. lift_step. intros affinity _. lift_step. intros rr _.
    lift_step. intros [old evs] Hold. apply (command_identity (Deprecate _ _ _)) in Hold. store_step.
    eapply triple_weaken with (P := fresh uid); [|intros σ (? & _ & ?); by split].
    lift_step. intros [new evs'] Hnew%create_id. store_step.
    lift_step. intros [new' evs''] Hnew'. apply (command_identity (RequestSync _)) in Hnew'. store_step. ret.
  - unfold update_in_place. lift_step. intros ch _. case_match; [ret|].
    lift_step. intros [new evs] Hnew. apply (command_identity (Update _ _)) in Hnew. store_step. ret.
Qed.

(** A confirmation changes no identity. *)
Lemma confirm_step_identity p s s' : confirm_step c p s = Ok (inl s') -> identity s' = identity s.
Proof.
  unfold confirm_step. intros Hs. repeat split_match_in Hs; try (by injection Hs as <-); try done.
  injection Hs as <-. by eapply (command_identity (ConfirmPodDefinition _ _ _)).
Qed.

Lemma record_sync_keeps p : triple (fresh uid) (handle_record_sync c t_init uid p) any store_ok.
Proof.
  unfold handle_record_sync. cbv zeta. do 2 (case_match; [ret|]).
  eapply triple_try with (Y := store_ok); [|intros e; by apply triple_ret].
  eapply triple_bind; [apply fresh_get|]. intros [s|]; [|ret]. branch; [ret|].
  eapply triple_weaken with (P := holds uid s); [|intros σ [_ Hσ]; by apply Hσ]. branch.
  - unfold sync_version_bump. cbv zeta. lift_step.
    intros [old evs] Hold. apply (command_identity (Deprecate _ _ _)) in Hold. store_step.
    eapply triple_weaken with (P := fresh uid); [|intros σ (? & _ & ?); by split].
    lift_step. intros [new evs'] Hnew%create_version_id. lift_step. intros template _.
    lift_step. intros [new' evs''] Hnew'. apply (command_identity (RecordContentSync _)) in Hnew'.
    lift_step. intros [new''|r] Hc; [|ret]. apply confirm_step_identity in Hc. rewrite Hnew' in Hc.
    apply identity_eq in Hc as (Hid & _). rewrite Hnew in Hid. store_step. ret.
  - lift_step. intros template _. lift_step. intros [new evs] Hnew.
    apply (command_identity (RecordContentSync _)) in Hnew.
    lift_step. intros [new'|r] Hc; [|ret]. apply confirm_step_identity in Hc. rewrite Hnew in Hc. store_step. ret.
Qed.

Lemma sync_keeps by_id by_name by_version synced_by :
  triple (fresh uid) (handle_sync c by_id by_name by_version synced_by) any store_ok.
Proof.
  unfold handle_sync. case_match; [ret|].
  eapply triple_try with (Y := store_ok); [|intros e; by apply triple_ret].
  eapply (triple_bind _ _ _ (fun r σ => fresh uid σ /\ forall s, r = Some s -> holds uid s σ));
    [case_match; [apply fresh_get|apply fresh_get_key]|].
  intros [s|]; [|ret]. branch; [ret|].
  eapply triple_weaken with (P := holds uid s); [|intros σ [_ Hσ]; by apply Hσ].
  lift_step. intros [new evs] Hnew. apply (command_identity (RequestSync _)) in Hnew. store_step. ret.
Qed.
End Handlers.

(** The requests the handlers answer. *)
Inductive request :=
| CreateDefinition (p : create_command)
| UpdateDefinition (p : update_command)
| RecordSync (p : sync_result_command)
| SyncDefinition (by_id by_name by_version : option string) (synced_by : string)
| ActivateDefinition (definition_id by_ : string)
| DeactivateDefinition (definition_id by_ : string) (reason : option string)
| DeleteDefinition (definition_id by_ : string)
| SetPreferences (definition_id : string) (preferences : dict string) (by_ : string).

Definition serve `{RootId LabletDefinitionState} (c : clock) (t_init : datetime) (uid : string) (r : request)
    : io response :=
  match r with
  | CreateDefinition p => handle_create c t_init uid p
  | UpdateDefinition p => handle_update c t_init uid p
  | RecordSync p => handle_record_sync c t_init uid p
  | SyncDefinition i n v by_ => handle_sync c i n v by_
  | ActivateDefinition i by_ => handle_activate c i by_
  | DeactivateDefinition i by_ reason => handle_deactivate c i by_ reason
  | DeleteDefinition i by_ => handle_delete c i by_
  | SetPreferences i preferences by_ => handle_set_preferences c i preferences by_
  end.

(** One request, answered or raising; the identifier it may use is new. *)
Definition served `{RootId LabletDefinitionState} (σ σ' : store) : Prop :=
  exists c t_init uid r answer, σ !! uid = None /\ serve c t_init uid r σ = (answer, σ').


(** ** Synchronization and versions *)

Lemma request_sync_state `{RootId LabletDefinitionState} c by_ s s' evs : request_sync c by_ s = Ok (s', evs) ->
  status s' = PENDING_SYNC /\ identity s' = identity s.
Proof.
  intros Hr. split; [|exact (command_identity c (RequestSync by_) s s' evs Hr)].
  unfold request_sync in Hr. apply bind_ok in Hr as (i & _ & [_ Ho]%definition_emit_ok). cbn [on] in Ho.
  unfold on_SyncRequested in Ho. cbv zeta in Ho. apply bind_ok in Ho as (t & _ & <-%Ok_inj). by case_bool_decide.
Qed.

Lemma handle_sync_success `{RootId LabletDefinitionState} c i n v by_ σ code new σ' :
  handle_sync c i n v by_ σ = (Ok (Success code new), σ') ->
  status new = PENDING_SYNC /\ σ' = <[id new := new]> σ.
Proof.
  unfold handle_sync. case_match; [done|]. unfold try_, mbind, prog_bind.
  assert (exists d, (if ostr_truthy i then get_by_id_async (default "" i)
                     else get_by_name_and_version_async (default "" n) (default "" v)) σ = (Ok d, σ)) as [d ->]
    by (case_match; by eexists).
  destruct d as [s|]; [|done]. destruct (negb (ostr_truthy (form_qualified_name s))); [done|].
  unfold lift. destruct (request_sync c by_ s) as [[s' evs]|e] eqn:Hr; cbn; [|done].
  intros [= <- <- <-]. split; [by eapply request_sync_state|done].
Qed.

(** The outcome of a recorded synchronization of a definition that is not active:
    no document but its own is written. *)
Lemma record_sync_in_place `{RootId LabletDefinitionState} c t uid p s σ r σ' :
  σ !! rs_definition_id p = Some s -> status s <> ACTIVE ->
  handle_record_sync c t uid p σ = (r, σ') ->
  σ' = σ \/ exists s', identity s' = identity s /\ σ' = <[id s := s']> σ.
Proof.
  intros Hs Hst. unfold handle_record_sync. cbv zeta. case_match; [intros [= _ <-]; by left|].
  case_match; [intros [= _ <-]; by left|]. unfold try_, get_by_id_async. unfold mbind, prog_bind. rewrite Hs.
  destruct (match rs_pod_type p with Some _ => _ | None => _ end); [intros [= _ <-]; by left|].
  rewrite (bool_decide_eq_false_2 (status s = ACTIVE)) by done. rewrite andb_false_r.
  unfold lift. destruct (when_dict _ _) as [template|e]; [|intros [= _ <-]; by left].
  destruct (record_content_sync c _ s) as [[new evs]|e] eqn:Hn; [|intros [= _ <-]; by left].
  apply (command_identity c (RecordContentSync _)) in Hn.
  destruct (confirm_step c p new) as [[new'|rr]|e] eqn:Hc; cbn; [|intros [= _ <-]; by left|intros [= _ <-]; by left].
  apply confirm_step_identity in Hc. intros [= _ <-]. right. exists new'. rewrite Hn in Hc. split; [done|].
  by apply identity_eq in Hc as (-> & _).
Qed.

(** A synchronization that was requested never starts a new version: the request
    makes the definition pending, so that a result with other content is recorded
    in place, and no definition is added or deprecated. *)
Theorem requested_sync_never_bumps `{RootId LabletDefinitionState} c c' t uid i n v by_ code new p r σ σ1 σ2 :
  handle_sync c i n v by_ σ = (Ok (Success code new), σ1) -> rs_definition_id p = id new ->
  handle_record_sync c' t uid p σ1 = (r, σ2) ->
  dom σ2 = dom σ1 /\ (forall k s, k <> id new -> σ2 !! k = Some s -> σ1 !! k = Some s).
Proof.
  intros [Hst ->]%handle_sync_success Hid Hr.
  eapply record_sync_in_place in Hr; [|rewrite Hid; apply lookup_insert_eq|by rewrite Hst].
  destruct Hr as [->|(s' & Hi & ->)]; [done|]. split; [rewrite !dom_insert_L; set_solver|].
  intros k s Hne. by rewrite !lookup_insert_ne.
Qed.

(** ** A version bump that fails half-way *)

Lemma deprecate_state `{RootId LabletDefinitionState} c by_ reason v s s' evs : status s <> DEPRECATED ->
  deprecate c by_ reason (Some v) s = Ok (s', evs) ->
  status s' = DEPRECATED /\ replacement_version s' = Some v /\ identity s' = identity s.
Proof.
  intros Hs Hd. pose proof (command_identity c (Deprecate by_ reason (Some v)) s s' evs Hd) as Hi.
  unfold deprecate in Hd. rewrite bool_decide_eq_false_2 in Hd by done.
  apply bind_ok in Hd as (i & _ & [_ Ho]%definition_emit_ok). by apply Ok_inj in Ho as <-.
Qed.

Lemma deprecate_total `{RootId LabletDefinitionState} (Hid : forall s, root_id s = Some (id s)) c by_ reason v s :
  status s <> DEPRECATED -> exists s' evs, deprecate c by_ reason (Some v) s = Ok (s', evs).
Proof.
  intros Hs. unfold deprecate. rewrite bool_decide_eq_false_2 by done. unfold aggregate_id, emit. rewrite Hid. cbn. eauto.
Qed.

Lemma mapM_licenses l : bad_license l = None -> exists a : list Affinity.LicenseType, mapM enum_call l = Ok a.
Proof.
  unfold bad_license. induction l as [|x l IH]; [by exists []|]. cbn -[enum_call].
  destruct (enum_call x) as [a|e]; [|done]. intros (b & ->)%IH. by exists (a :: b).
Qed.

(** An edit of an active definition whose new name cannot be a bucket name is
    answered as a bad request, and yet the definition is deprecated: the old
    version is stored before the new one is made, and points to a version that no
    document has. *)
Theorem failed_edit_deprecates `{RootId LabletDefinitionState} (Hid : forall s, root_id s = Some (id s))
    c t uid p f m s σ :
  filled (up_definition_id p) = true -> σ !! up_definition_id p = Some s -> status s = ACTIVE ->
  bad_license (default [] (up_license_affinity p)) = None ->
  up_form_qualified_name p = Some f -> str_truthy f = true -> slugify_fqn f = Err (ValueError m) ->
  let r := resource_requirements s in
  1 <= default (rr_cpu_cores r) (up_cpu_cores p) -> 1 <= default (rr_memory_gb r) (up_memory_gb p) ->
  1 <= default (rr_storage_gb r) (up_storage_gb p) ->
  exists old, handle_update c t uid p σ = (Ok (BadRequest m), <[id s := old]> σ) /\
    status old = DEPRECATED /\ replacement_version old = Some (increment_patch_version (version s)) /\
    identity old = identity s.
Proof.
  intros Hf Hs Ha Hb Hn Htf Hslug r Hcpu Hmem Hsto.
  unfold handle_update. rewrite Hf. cbn [negb]. unfold mbind, prog_bind, get_by_id_async. rewrite Hs.
  rewrite (bool_decide_eq_false_2 (status s = DEPRECATED)) by (by rewrite Ha). rewrite Hb, bool_decide_eq_true_2 by done.
  unfold try_, update_version_bump. cbv zeta. unfold mbind, prog_bind, lift.
  assert (exists a, match up_license_affinity p with
                    | Some l => mapM enum_call l | None => Ok (license_affinity s) end = Ok a) as [a ->].
  { destruct (up_license_affinity p) as [l|]; [by apply mapM_licenses|eauto]. }
  unfold ResourceRequirements_post_init, raise_if. cbn [rr_cpu_cores rr_memory_gb rr_storage_gb].
  rewrite !(proj2 (Z.ltb_ge _ _)) by done. cbn [mbind res_bind].
  destruct (deprecate_total Hid c (up_updated_by p)
    (Some ("Superseded by version " +:+ increment_patch_version (version s) +:+ " (manual edit)"))
    (increment_patch_version (version s)) s) as (old & evs & Hd); [by rewrite Ha|].
  rewrite Hd. apply deprecate_state in Hd as (H1 & H2 & H3); [|by rewrite Ha].
  exists old. split; [|done]. apply identity_eq in H3 as (Hi & _).
  unfold update_async, create. cbn [bumped_spec sp_form_qualified_name]. rewrite Hn. cbn [ostr_or]. rewrite Htf, Hslug.
  cbn. by rewrite Hi.
Qed.

(** ** What a content bump leaves behind *)

Lemma create_version_state c t uid n v pv u h r k tpl by_ s evs :
  create_version c t uid n v pv u h r k tpl by_ = Ok (s, evs) ->
  version s = v /\ form_qualified_name s = None /\ license_affinity s = [] /\ bucket_name s = "".
Proof.
  unfold create_version. intros [_ Ho]%definition_emit_ok. cbn [on] in Ho. unfold on_VersionCreated in Ho.
  do 2 (apply bind_ok in Ho as (? & _ & Ho)). by apply Ok_inj in Ho as <-.
Qed.

Lemma record_content_naming `{RootId LabletDefinitionState} c r s s' evs :
  record_content_sync c r s = Ok (s', evs) -> naming s' = naming s.
Proof.
  unfold record_content_sync. intros (i & _ & [_ Ho]%definition_emit_ok)%bind_ok. cbn [on] in Ho.
  apply on_ContentSynced_inv in Ho as (s1 & s2 & (_ & _ & _ & _ & _ & <-) & -> & Hs).
  destruct (_ && _); by destruct Hs as [->|(r0 & r1 & h & _ & _ & ->)].
Qed.

Lemma confirm_step_naming `{RootId LabletDefinitionState} c p s s' :
  confirm_step c p s = Ok (inl s') -> naming s' = naming s.
Proof.
  unfold confirm_step. intros Hs. repeat split_match_in Hs; try (by injection Hs as <-); try done.
  injection Hs as <-. unfold confirm_pod_definition in *.
  repeat match goal with
    | H : (if ?b then _ else _) = Ok _ |- _ => destruct b; [done|]
    | H : mbind _ _ = Ok _ |- _ => apply bind_ok in H as (? & _ & ?)
    | H : emit _ _ _ = Ok _ |- _ => apply definition_emit_ok in H as [_ H]
    end.
  match goal with H : on _ _ _ = Ok _ |- _ => cbn [on] in H; unfold on_PodDefinitionConfirmed in H end.
  repeat match goal with H : mbind _ _ = Ok _ |- _ => apply bind_ok in H as (? & _ & ?) end.
  match goal with H : Ok _ = Ok _ |- _ => apply Ok_inj in H as <- end. done.
Qed.

Lemma confirm_step_conflict `{RootId LabletDefinitionState} c p s r :
  confirm_step c p s = Ok (inr r) -> exists m, r = Conflict m.
Proof. unfold confirm_step. intros Hs. repeat split_match_in Hs; try done. injection Hs as <-. eauto. Qed.

(** When the content of an active definition changed, the old version is
    deprecated in favour of the patch bump, but the new one has lost the name its
    content is found by, its bucket and its licenses: a request to synchronize it
    again is refused. *)
Theorem content_bump_forgets `{RootId LabletDefinitionState} c c' t uid p s new old_hash new_hash by_ code σ σ' :
  store_ok σ -> σ !! uid = None -> str_truthy uid = true ->
  σ !! rs_definition_id p = Some s -> status s = ACTIVE ->
  content_package_hash s = Some old_hash -> cs_content_package_hash (rs_sync p) = Some new_hash ->
  new_hash <> old_hash ->
  handle_record_sync c t uid p σ = (Ok (Success code new), σ') ->
  (exists old, σ' !! id s = Some old /\ status old = DEPRECATED /\ replacement_version old = Some (version new)) /\
  version new = increment_patch_version (version s) /\ σ' !! uid = Some new /\
  form_qualified_name new = None /\ license_affinity new = [] /\ bucket_name new = "" /\
  exists m, handle_sync c' (Some uid) None None by_ σ' = (Ok (BadRequest m), σ').
Proof.
  intros Hok Hfresh Huid Hs Hact Hold Hnew Hne. unfold handle_record_sync. cbv zeta.
  case_match; [done|]. case_match; [done|]. unfold try_, get_by_id_async. unfold mbind, prog_bind. rewrite Hs.
  destruct (match rs_pod_type p with Some _ => _ | None => _ end); [done|].
  rewrite Hold, Hnew, (bool_decide_eq_true_2 (status s = ACTIVE)) by done.
  rewrite (proj2 (String.eqb_neq _ _) Hne). cbn [negb andb].
  unfold sync_version_bump. cbv zeta. unfold mbind, prog_bind, lift, update_async, add_async.
  destruct (deprecate c _ _ _ s) as [[old evs]|e] eqn:Hd; [|done].
  apply deprecate_state in Hd as (Hd1 & Hd2 & Hd3); [|by rewrite Hact].
  destruct (create_version _ _ _ _ _ _ _ _ _ _ _ _) as [[v1 evs1]|e] eqn:Hc; [|done].
  pose proof (create_version_id _ _ _ _ _ _ _ _ _ _ _ _ _ _ Hc) as Hid.
  apply create_version_state in Hc as (Hv & Hf & Hl & Hb).
  destruct (when_dict _ _) as [template|e]; [|done].
  destruct (record_content_sync c _ v1) as [[v2 evs2]|e] eqn:Hr; [|done].
  apply record_content_naming in Hr as Hn2. apply (command_identity c (RecordContentSync _)) in Hr.
  destruct (confirm_step c p v2) as [[v3|rr]|e] eqn:Hcs; [| |done].
  2: { apply confirm_step_conflict in Hcs as [m ->]. done. }
  apply confirm_step_naming in Hcs as Hn3. apply confirm_step_identity in Hcs. rewrite Hr in Hcs. rewrite Hn2 in Hn3.
  apply identity_eq in Hcs as (Hi3 & _ & Hv3). unfold naming in Hn3. injection Hn3 as Hf3 Hl3 Hb3.
  destruct (List.find _ _); [done|]. intros [= <- <- <-].
  pose proof (identity_eq _ _ Hd3) as (Hio & _).
  assert (id s <> uid) as Hsu by (rewrite (proj1 Hok _ _ Hs); congruence).
  rewrite Hi3, Hid, Hf3, Hl3, Hb3, Hv3, Hv, Hio. split; [|split; [done|split; [apply lookup_insert_eq|]]].
  - exists old. by rewrite lookup_insert_ne, lookup_insert_eq.
  - do 3 (split; [done|]). unfold handle_sync. cbn [ostr_truthy]. rewrite Huid. cbn [negb andb].
    unfold try_, mbind, prog_bind, get_by_id_async. cbn [default from_option]. rewrite lookup_insert_eq, Hf3, Hf. cbn. eauto.
Qed.

(** ** Concrete requests *)

Definition example_create : create_command := {|
  cr_name := "ccna"; cr_version := "1.0.0"; cr_form_qualified_name := "Exam Associate CCNA v1.1 LAB 1.3a";
  cr_created_by := "alice"; cr_cpu_cores := 2; cr_memory_gb := 4; cr_storage_gb := 20; cr_nested_virt := true;
  cr_license_affinity := None; cr_node_count := 1; cr_port_definitions := None;
  cr_user_session_package_name := "SVN.zip"; cr_grading_ruleset_package_name := "SVN.zip";
  cr_user_session_type := "LDS"; cr_user_session_default_region := None; cr_lab_yaml_hash := "";
  cr_lab_yaml_cached := None; cr_grading_rules_uri := None; cr_max_duration_minutes := 60; cr_warm_pool_depth := 0;
  cr_boot_lead_time_minutes := None; cr_owner_notification := None |}.

Definition record_request (i hash : string) : sync_result_command := {|
  rs_definition_id := i; rs_port_template := None; rs_pod_definition_id := None; rs_pod_type := None;
  rs_sync := example_sync hash |}.

(** An edit that names only a new form. *)
Definition rename_request (i form : string) : update_command := {|
  up_definition_id := i; up_updated_by := "alice"; up_form_qualified_name := Some form; up_lab_artifact_uri := None;
  up_lab_yaml_hash := None; up_cpu_cores := None; up_memory_gb := None; up_storage_gb := None;
  up_nested_virt := None; up_license_affinity := None; up_node_count := None; up_max_duration_minutes := None;
  up_warm_pool_depth := None; up_grading_rules_uri := None; up_user_session_package_name := None;
  up_grading_ruleset_package_name := None; up_user_session_type := None; up_user_session_default_region := None;
  up_lab_reuse_enabled := None; up_boot_lead_time_minutes := None |}.

Abbreviation demo_serve := (serve (H := definition_root_id) definition_clock (utc 0)).

(** The repository after a creation and a first synchronization. *)
Definition synced_store : store :=
  (demo_serve "d-2" (RecordSync (record_request "d-1" "h1"))
    (demo_serve "d-1" (CreateDefinition example_create) ∅).2).2.

Definition answer_state (r : res response * store) : LabletDefinitionState :=
  match r.1 with Ok (Success _ s) => s | _ => init_state (utc 0) end.

Lemma synced_store_reached : star (served (H := definition_root_id)) ∅ synced_store.
Proof.
  eapply star_step; [|eapply star_one].
  - exists definition_clock, (utc 0), "d-1", (CreateDefinition example_create), (demo_serve "d-1" (CreateDefinition example_create) ∅).1.
    split; [done|apply surjective_pairing].
  - exists definition_clock, (utc 0), "d-2", (RecordSync (record_request "d-1" "h1")). eexists.
    split; [|apply surjective_pairing]. vm_compute. reflexivity.
Qed.


Definition resynced : res response * store :=
  handle_sync (H := definition_root_id) definition_clock (Some "d-1") None None "bob" synced_store.

Definition pending_definition : LabletDefinitionState := answer_state resynced.

Definition rerecorded : res response * store :=
  handle_record_sync (H := definition_root_id) definition_clock (utc 0) "d-3" (record_request "d-1" "h2") resynced.2.

Lemma resynced_ok : resynced = (Ok (Success 202 pending_definition), resynced.2).
Proof. vm_compute. reflexivity. Qed.

Lemma rerecorded_ok : rerecorded = (rerecorded.1, rerecorded.2).
Proof. apply surjective_pairing. Qed.

Lemma pending_id : rs_definition_id (record_request "d-1" "h2") = id pending_definition.
Proof. vm_compute. reflexivity. Qed.

Lemma requested_sync_never_bumps_witness : dom rerecorded.2 = dom resynced.2.
Proof.
  pose proof (requested_sync_never_bumps (H := definition_root_id) definition_clock definition_clock (utc 0) "d-3"
    (Some "d-1") None None "bob" 202 pending_definition (record_request "d-1" "h2") rerecorded.1 synced_store resynced.2
    rerecorded.2) as Hn.
  specialize (Hn resynced_ok). specialize (Hn pending_id). specialize (Hn rerecorded_ok). exact (proj1 Hn).
Defined.

Definition active_definition : LabletDefinitionState :=
  match synced_store !! "d-1" with Some s => s | None => init_state (utc 0) end.

Definition bad_edit : res response * store :=
  handle_update (H := definition_root_id) definition_clock (utc 0) "d-3" (rename_request "d-1" "!!!") synced_store.

Lemma active_stored : synced_store !! up_definition_id (rename_request "d-1" "!!!") = Some active_definition.
Proof. vm_compute. reflexivity. Qed.
Lemma active_status : status active_definition = ACTIVE.
Proof. vm_compute. reflexivity. Qed.
Lemma bad_slug : slugify_fqn "!!!" = Err (ValueError "Slugified FQN is empty after processing: '!!!'").
Proof. vm_compute. reflexivity. Qed.
Lemma active_requirements : let r := resource_requirements active_definition in
  1 <= rr_cpu_cores r /\ 1 <= rr_memory_gb r /\ 1 <= rr_storage_gb r.
Proof. vm_compute. repeat split; discriminate. Qed.

Lemma failed_edit_deprecates_witness : exists old,
  bad_edit.2 = <[id active_definition := old]> synced_store /\ status old = DEPRECATED.
Proof.
  pose proof (failed_edit_deprecates (H := definition_root_id) (fun s => eq_refl) definition_clock (utc 0) "d-3"
    (rename_request "d-1" "!!!") "!!!" _ active_definition synced_store eq_refl active_stored active_status
    eq_refl eq_refl eq_refl bad_slug (proj1 active_requirements) (proj1 (proj2 active_requirements))
    (proj2 (proj2 active_requirements))) as (old & He & Ho & _).
  exists old. split; [|done]. unfold bad_edit. by rewrite He.
Defined.

Definition bumped : res response * store :=
  handle_record_sync (H := definition_root_id) definition_clock (utc 0) "d-3" (record_request "d-1" "h2") synced_store.

Lemma bumped_ok : bumped = (Ok (Success 200 (answer_state bumped)), bumped.2).
Proof. vm_compute. reflexivity. Qed.
Lemma fresh_d3 : synced_store !! "d-3" = None.
Proof. vm_compute. reflexivity. Qed.
Lemma active_hash : content_package_hash active_definition = Some "h1".
Proof. vm_compute. reflexivity. Qed.

Lemma synced_store_ok : store_ok synced_store.
Proof.
  assert (synced_store = {["d-1" := active_definition]}) as -> by (vm_compute; reflexivity). split.
  - intros k s [<- <-]%lookup_singleton_Some. vm_compute. reflexivity.
  - intros k1 k2 s1 s2 [<- _]%lookup_singleton_Some [<- _]%lookup_singleton_Some. done.
Qed.

Lemma content_bump_forgets_witness : form_qualified_name (answer_state bumped) = None.
Proof.
  pose proof (content_bump_forgets (H := definition_root_id) definition_clock definition_clock (utc 0) "d-3"
    (record_request "d-1" "h2") active_definition (answer_state bumped) "h1" "h2" "bob" 200 synced_store bumped.2
    synced_store_ok fresh_d3 eq_refl active_stored active_status active_hash eq_refl ltac:(discriminate) bumped_ok)
    as (_ & _ & _ & Hf & _). exact Hf.
Defined.
