(* ===== verification/Reconciliation.v ===== *)
(** * The reconciliation loop ([core/lcm_core/infrastructure/hosted_services/reconciliation_hosted_service.py])

    What the service keeps about each resource, the outcome of one attempt with
    its backoff, the choice of the resources of a cycle, and the coroutines that
    attempts run in.  [reconcile] and [list_resources] belong to the subclasses:
    their results are arguments.  A coroutine runs from one [await] to the next
    without interruption, so an attempt is two steps: [begin_attempt] up to
    [await self.reconcile(resource)], and [finish_attempt] after it. *)
From S2P Require Import Prelude PyFloat PyData PyNum.
From Stdlib Require Import Floats.SpecFloat.

(** ** Results, configuration, state *)

Inductive ReconciliationStatus := SUCCESS | REQUEUE | FAILED | SKIP.

Record ReconciliationResult := {
  result_status : ReconciliationStatus;
  message : string;
  requeue_after_seconds : option float
}.

Definition result_success (m : string) : ReconciliationResult :=
  {| result_status := SUCCESS; message := m; requeue_after_seconds := None |}.
Definition result_requeue (m : string) (after : option float) : ReconciliationResult :=
  {| result_status := REQUEUE; message := m; requeue_after_seconds := after |}.
Definition result_failed (m : string) : ReconciliationResult :=
  {| result_status := FAILED; message := m; requeue_after_seconds := None |}.
Definition result_skip (m : string) : ReconciliationResult :=
  {| result_status := SKIP; message := m; requeue_after_seconds := None |}.

(** The float literals of the defaults. *)
Definition f_1 : float := S754_finite false 4503599627370496 (-52).
Definition f_2 : float := S754_finite false 4503599627370496 (-51).
Definition f_5 : float := S754_finite false 5629499534213120 (-50).
Definition f_30 : float := S754_finite false 8444249301319680 (-48).

Record ReconciliationConfig := {
  interval_seconds : float;
  initial_delay_seconds : float;
  polling_enabled : bool;
  max_concurrent_reconciles : nat;
  backoff_initial_seconds : float;
  backoff_max_seconds : float;
  backoff_multiplier : float
}.

Definition default_config : ReconciliationConfig := {|
  interval_seconds := f_30; initial_delay_seconds := f_5; polling_enabled := true; max_concurrent_reconciles := 10;
  backoff_initial_seconds := f_1; backoff_max_seconds := f_60; backoff_multiplier := f_2 |}.

Record ResourceState := {
  resource_id : string;
  in_progress : bool;
  last_attempt : float;
  failure_count : Z;
  next_retry : float
}.

#[export] Instance eta_ResourceState : Eta ResourceState := fun s => {|
  resource_id := s.(resource_id); in_progress := s.(in_progress); last_attempt := s.(last_attempt);
  failure_count := s.(failure_count); next_retry := s.(next_retry) |}.

Definition new_resource (i : string) : ResourceState :=
  {| resource_id := i; in_progress := false; last_attempt := fzero; failure_count := 0; next_retry := fzero |}.

(** What the service keeps between attempts. *)
Record service := {
  resource_states : gmap string ResourceState;
  total_reconciled : Z;
  total_failed : Z
}.

#[export] Instance eta_service : Eta service := fun v => {|
  resource_states := v.(resource_states); total_reconciled := v.(total_reconciled);
  total_failed := v.(total_failed) |}.

Definition new_service : service := {| resource_states := ∅; total_reconciled := 0; total_failed := 0 |}.

(** ** Backoff *)

(** [x ** n] of a float and an integer: the C library's [pow], which raises
    [OverflowError] when the result is out of range. *)
Class FloatPow := float_pow : float -> Z -> res float.

Section Service.
Context `{FloatPow} (config : ReconciliationConfig).

Definition calculate_backoff (failure_count : Z) : res float :=
  p ← float_pow (backoff_multiplier config) (failure_count - 1);
  let backoff := fmul (backoff_initial_seconds config) p in
  Ok (fmin backoff (backoff_max_seconds config)).

(** ** One attempt *)

Definition state_of (i : string) (v : service) : ResourceState := default (new_resource i) (resource_states v !! i).

Definition set_state (i : string) (s : ResourceState) (v : service) : service :=
  v <| resource_states := <[i := s]> v.(resource_states) |>.

(** [_reconcile_single] before [await self.reconcile]. *)
Definition begin_attempt (now : float) (i : string) (v : service) : service :=
  set_state i (state_of i v <| in_progress := true |> <| last_attempt := now |>) v.

(** How [reconcile] ended. *)
Inductive outcome := Returned (r : ReconciliationResult) | Raised (e : exn).

(** [self._config.interval_seconds] when the result has no delay, or a delay of
    zero. *)
Definition requeue_delay (r : ReconciliationResult) : float :=
  match requeue_after_seconds r with
  | Some d => if is_fzero d then interval_seconds config else d
  | None => interval_seconds config
  end.

(** [except Exception]: one more failure; computing the next retry may raise. *)
Definition attempt_raised (now : float) (i : string) (v : service) : res unit * service :=
  let s := state_of i v in
  let s := s <| failure_count := s.(failure_count) + 1 |> in
  match calculate_backoff s.(failure_count) with
  | Ok backoff => (Ok (), set_state i (s <| next_retry := fadd now backoff |>) v <| total_failed := v.(total_failed) + 1 |>)
  | Err e => (Err e, set_state i s v)
  end.

(** The body of the [try] after [await self.reconcile]. *)
Definition attempt_returned (now : float) (i : string) (r : ReconciliationResult) (v : service)
    : res unit * service :=
  let s := state_of i v in
  match result_status r with
  | SUCCESS =>
      (Ok (), set_state i (s <| failure_count := 0 |> <| next_retry := fzero |>) v
                <| total_reconciled := v.(total_reconciled) + 1 |>)
  | REQUEUE => (Ok (), set_state i (s <| next_retry := fadd now (requeue_delay r) |>) v)
  | FAILED =>
      let s := s <| failure_count := s.(failure_count) + 1 |> in
      match calculate_backoff s.(failure_count) with
      | Ok backoff =>
          (Ok (), set_state i (s <| next_retry := fadd now backoff |>) v <| total_failed := v.(total_failed) + 1 |>)
      | Err _ => attempt_raised now i (set_state i s v)
      end
  | SKIP => (Ok (), v)
  end.

(** [_reconcile_single] after [await self.reconcile], [finally] included: whether
    it raised, and the service. *)
Definition finish_attempt (now : float) (i : string) (o : outcome) (v : service) : res unit * service :=
  let '(r, v) := match o with
                 | Returned r => attempt_returned now i r v
                 | Raised _ => attempt_raised now i v
                 end in
  (r, set_state i (state_of i v <| in_progress := false |>) v).

(** ** One cycle *)

(** Whether [_reconcile_all] makes an attempt for the resource. *)
Definition due (now : float) (v : service) (i : string) : bool :=
  match resource_states v !! i with
  | Some s => negb (in_progress s) && negb (fltb now (next_retry s))
  | None => true
  end.

Definition due_resources (now : float) (ids : list string) (v : service) : list string := List.filter (due now v) ids.

(** [stats]: how many resources wait for a retry and how many are in progress. *)
Definition pending_retries (now : float) (v : service) : nat :=
  length (List.filter (fun p => fltb now (next_retry p.2)) (map_to_list (resource_states v))).
Definition in_progress_count (v : service) : nat :=
  length (List.filter (fun p => in_progress p.2) (map_to_list (resource_states v))).
End Service.

(** ** Coroutines *)

(** An attempt of a cycle waits for the semaphore before it begins; an attempt that a
    watch event triggers holds no permit. *)
Record attempt := {
  a_resource : string;
  a_polled : bool;
  a_running : bool
}.

#[export] Instance attempt_eq_dec : EqDecision attempt.
Proof. solve_decision. Defined.

Definition waiting (i : string) : attempt := {| a_resource := i; a_polled := true; a_running := false |}.
Definition polled (i : string) : attempt := {| a_resource := i; a_polled := true; a_running := true |}.
Definition watched (i : string) : attempt := {| a_resource := i; a_polled := false; a_running := true |}.

Record loop := {
  attempts : list attempt;
  svc : service
}.

#[export] Instance eta_loop : Eta loop := fun l => {| attempts := l.(attempts); svc := l.(svc) |}.

Definition new_loop : loop := {| attempts := []; svc := new_service |}.

(** The attempts that hold a permit of the semaphore. *)
Definition permits (l : list attempt) : nat := length (List.filter (fun a => a_polled a && a_running a) l).

Definition running_on (i : string) (l : list attempt) : nat :=
  length (List.filter (fun a => a_running a && String.eqb (a_resource a) i) l).

Inductive action :=
| Cycle (now : float) (ids : list string)
| Start (now : float) (n : nat)
| WatchTriggered (now : float) (i : string)
| Finish (now : float) (n : nat) (o : outcome).

Section Coroutines.
Context `{FloatPow} (config : ReconciliationConfig).

(** One step of the event loop, if it is enabled: [_reconcile_all] creates the
    attempts of a cycle; the semaphore lets one begin; the drain loop of a watch
    begins one; one ends. *)
Definition act (a : action) (l : loop) : option loop :=
  match a with
  | Cycle now ids => Some (l <| attempts := l.(attempts) ++ map waiting (due_resources now ids l.(svc)) |>)
  | Start now n =>
      t ← l.(attempts) !! n;
      if negb (a_running t) && bool_decide (permits l.(attempts) < max_concurrent_reconciles config)%nat
      then Some {| attempts := <[n := polled (a_resource t)]> l.(attempts);
                   svc := begin_attempt now (a_resource t) l.(svc) |}
      else None
  | WatchTriggered now i =>
      if forallb (fun t => a_polled t) l.(attempts)
      then Some {| attempts := l.(attempts) ++ [watched i]; svc := begin_attempt now i l.(svc) |}
      else None
  | Finish now n o =>
      t ← l.(attempts) !! n;
      if a_running t
      then Some {| attempts := delete n l.(attempts); svc := (finish_attempt config now (a_resource t) o l.(svc)).2 |}
      else None
  end.

Fixpoint acts (l : list action) (s : loop) : option loop :=
  match l with
  | [] => Some s
  | a :: l => s' ← act a s; acts l s'
  end.
End Coroutines.
