(* ===== verification/LifecycleHandler.v ===== *)
(** * The handlers of lifecycle phases

    ([lablet-controller/application/services/lifecycle_phase_handler.py], the pipeline
    phases of [hosted_services/lablet_reconciler.py], the pipeline control of
    [api/controllers/admin_controller.py], and the signals of
    [events/integration/scenario_engine_handler.py])

    A handler runs the pipeline of one phase of one session in an asyncio task.  The
    reconciler keeps its handlers in [_active_handlers], by session and pipeline, and
    the class keeps a registry by session.  A coroutine runs from one [await] to the
    next without interruption, so what happens between two is a step: a visit of a
    session up to the fetch of the definition ([inspect]) and after it ([launch]), the
    steps of a task, a signal, an operation of the administrator or of the step-down
    up to a task that it awaits.  What the executor returns is given with the step. *)
From S2P Require Import Prelude PyData Pipeline PipelineTemplates Reconciliation.

(** ** The state *)

(** The phases that a pipeline drives, and the names of their pipelines. *)
Inductive phase := Instantiate | CollectEvidence | ComputeGrading | Teardown.
#[export] Instance phase_eq : EqDecision phase.
Proof. solve_decision. Defined.

Definition pipeline_of (p : phase) : string :=
  match p with
  | Instantiate => "instantiate" | CollectEvidence => "collect_evidence"
  | ComputeGrading => "compute_grading" | Teardown => "teardown"
  end.

(** [f"{instance.id}:{pipeline_name}"] *)
Definition handler_key (session : string) (p : phase) : string := session +:+ ":" +:+ pipeline_of p.

(** Where the task of [_run] is: in the executor, in the callback of the result, asked
    to stop, or done. *)
Inductive task_state := Executing | InCallback (r : PipelineResult) | Cancelling | Done.

Record task := { owner : nat; state : task_state }.
#[export] Instance eta_task : Eta task := fun t => {| owner := owner t; state := state t |}.

(** A handler; [task_of] is [self._task]. *)
Record handler := {
  session_id : string;
  phase_of : phase;
  definition : pydict;
  existing_progress : option pydict;
  task_of : option nat;
  result : option PipelineResult;
  crashed : option exn;
  pipeline_attempt : Z
}.
#[export] Instance eta_handler : Eta handler := fun h => {|
  session_id := session_id h; phase_of := phase_of h; definition := definition h;
  existing_progress := existing_progress h; task_of := task_of h; result := result h;
  crashed := crashed h; pipeline_attempt := pipeline_attempt h |}.

Definition key_of (h : handler) : string := handler_key (session_id h) (phase_of h).

(** The operations that stop handlers: [cancel_pipeline] and [retry_pipeline] of the
    administrator, and the step-down. *)
Inductive admin := CancelPipeline | RetryPipeline.

(** What waits for something: a visit that holds the lock of its session, for the
    definition or for its last call; an operation that awaits the task of a handler,
    with what it has left to do. *)
Inductive waiting :=
| VisitLaunch (session : string) (p : phase) (progress : option pydict) (epoch : nat)
| VisitEnd (session : string) (epoch : nat) (answer : ReconciliationResult)
| AdminStop (a : admin) (key : string) (i t : nat) (rest : list string)
| StepDownStop (i t : nat) (rest : list (string * nat)).

(** Calls and answers. *)
Inductive output :=
| Answer (session : string) (r : ReconciliationResult)
| CleanUp (session : string) (attempts : Z)
| TerminateExhausted (session : string) (p : phase) (attempts : Z)
| TerminateUndefined (session : string) (p : phase)
| Http (code : Z).

(** The process: the handlers and tasks ever made, the registry of the class, the dict
    of the reconciler, its retry counts, what waits, how often the locks were
    forgotten, whether it is leader and whether it is stepping down. *)
Record world := {
  handlers : list handler;
  tasks : list task;
  registry : gmap string nat;
  active : dict nat;
  retry_counts : gmap string Z;
  waits : list waiting;
  epoch : nat;
  is_leader : bool;
  stepping : bool;
  outputs : list output
}.
#[export] Instance eta_world : Eta world := fun w => {|
  handlers := handlers w; tasks := tasks w; registry := registry w; active := active w;
  retry_counts := retry_counts w; waits := waits w; epoch := epoch w; is_leader := is_leader w;
  stepping := stepping w; outputs := outputs w |}.

Definition initial : world := {|
  handlers := []; tasks := []; registry := ∅; active := []; retry_counts := ∅; waits := []; epoch := 0;
  is_leader := false; stepping := false; outputs := [] |}.

Definition say (o : output) (w : world) : world := w <| outputs := outputs w ++ [o] |>.
Definition wait (x : waiting) (w : world) : world := w <| waits := waits w ++ [x] |>.

(** ** The handler *)

Definition live (w : world) (t : nat) : bool :=
  match tasks w !! t with Some t => match state t with Done => false | _ => true end | None => false end.

(** [is_running] *)
Definition is_running (w : world) (h : handler) : bool :=
  match task_of h with Some t => live w t | None => false end.

(** [_unregister] *)
Definition unregister (session : string) (w : world) : world := w <| registry := delete session (registry w) |>.

(** [start] *)
Definition start (i : nat) (w : world) : world :=
  match handlers w !! i with
  | None => w
  | Some h =>
      if is_running w h then w
      else w <| handlers := <[i := h <| pipeline_attempt := pipeline_attempt h + 1 |> <| result := None |>
                                      <| crashed := None |> <| task_of := Some (length (tasks w)) |>]> (handlers w) |>
             <| registry := <[session_id h := i]> (registry w) |>
             <| tasks := tasks w ++ [{| owner := i; state := Executing |}] |>
  end.

(** [resume_after_external_completion] and [fail_after_external_completion] *)
Definition resume (i : nat) (updated_progress : pydict) (w : world) : world :=
  match handlers w !! i with
  | None => w
  | Some h =>
      if is_running w h then w
      else start i (w <| handlers := <[i := h <| existing_progress := Some updated_progress |>]> (handlers w) |>)
  end.

Definition set_task (t : nat) (s : task_state) (w : world) : world :=
  w <| tasks := alter (fun k => k <| state := s |>) t (tasks w) |>.

(** [stop] up to [await self._task], and after it. *)
Definition stop_request (t : nat) (w : world) : world := set_task t Cancelling w.
Definition stop_end (i : nat) (w : world) : world :=
  match handlers w !! i with
  | None => w
  | Some h => unregister (session_id h) (w <| handlers := <[i := h <| task_of := None |>]> (handlers w) |>)
  end.

(** [_run]: the executor returns and [_on_complete] begins; it ends after the callback;
    the executor raises, and [_on_error], without a callback, ends at once. *)
Definition executed (t : nat) (r : PipelineResult) (w : world) : option world :=
  k ← tasks w !! t;
  match state k with
  | Executing => Some (set_task t (InCallback r) (w <| handlers := alter (fun h => h <| result := Some r |>) (owner k) (handlers w) |>))
  | _ => None
  end.

Definition callback_ends (t : nat) (w : world) : option world :=
  k ← tasks w !! t;
  h ← handlers w !! owner k;
  match state k with
  | InCallback r =>
      let w := set_task t Done w in
      Some (if String.eqb (status r) "suspended" then w else unregister (session_id h) w)
  | _ => None
  end.

Definition run_crashes (t : nat) (e : exn) (w : world) : option world :=
  k ← tasks w !! t;
  h ← handlers w !! owner k;
  match state k with
  | Executing =>
      Some (unregister (session_id h) (set_task t Done
        (w <| handlers := <[owner k := h <| crashed := Some e |>]> (handlers w) |>)))
  | _ => None
  end.

(** The cancelled task ends. *)
Definition task_cancelled (t : nat) (w : world) : option world :=
  k ← tasks w !! t;
  match state k with Cancelling => Some (set_task t Done w) | _ => None end.

(** ** A visit of the reconciler ([_handle_pipeline_phase]) *)

(** [_get_existing_progress] *)
Definition get_existing_progress (pipeline_progress : option pydict) (p : phase) : option pydict :=
  match pipeline_progress with
  | None => None
  | Some d => match pd_get (pipeline_of p) d with
              | PDict [] => None
              | PDict progress => Some progress
              | _ => None
              end
  end.

(** What to do about the handler of the phase, if there is one: the first part of
    [_handle_pipeline_phase].  The cleanup is that of [_handle_instantiating]. *)
Definition inspect (session : string) (p : phase) (progress : option pydict) (w : world) : world :=
  let key := handler_key session p in
  let go_on := wait (VisitLaunch session p progress (epoch w)) in
  match dict_get key (active w) with
  | None => go_on w
  | Some i =>
      match handlers w !! i with
      | None => w
      | Some h =>
          if is_running w h then say (Answer session (result_success (pipeline_of p +:+ " pipeline handler running"))) w
          else
            let w := w <| active := dict_pop key (active w) |> in
            match result h with
            | None => go_on w
            | Some r =>
                if String.eqb (status r) "completed" || String.eqb (status r) "partial"
                then say (Answer session (result_success (pipeline_of p +:+ " pipeline " +:+ status r))) w
                else if String.eqb (status r) "failed" then
                  let retry_count := default 0 (retry_counts w !! key) + 1 in
                  let max_retries := result_max_retries r in
                  if (0 <? max_retries) && (max_retries <=? retry_count)
                  then
                    let w := if bool_decide (p = Instantiate) then say (CleanUp session retry_count) w else w in
                    wait (VisitEnd session (epoch w) (result_failed ("Max " +:+ pipeline_of p +:+ " pipeline retries exhausted")))
                      (say (TerminateExhausted session p retry_count) w)
                  else go_on (w <| retry_counts := <[key := retry_count]> (retry_counts w) |>)
                else go_on w
            end
      end
  end.

(** The definition has been fetched: a handler starts, or the session is terminated. *)
Definition launch (session : string) (p : phase) (progress : option pydict) (d : option pydict) (w : world) : world :=
  match d with
  | None =>
      wait (VisitEnd session (epoch w) (result_failed ("No " +:+ pipeline_of p +:+ " pipeline defined")))
        (say (TerminateUndefined session p) w)
  | Some d =>
      let i := length (handlers w) in
      let h := {| session_id := session; phase_of := p; definition := d;
                  existing_progress := get_existing_progress progress p; task_of := None; result := None;
                  crashed := None; pipeline_attempt := 0 |} in
      say (Answer session (result_success (pipeline_of p +:+ " pipeline handler started")))
        (start i (w <| handlers := handlers w ++ [h] |> <| active := dict_set (handler_key session p) i (active w) |>))
  end.

(** The lock of the session: held by a visit that got it since the locks were last forgotten. *)
Definition locks (e : nat) (session : string) (x : waiting) : bool :=
  match x with
  | VisitLaunch s _ _ e' | VisitEnd s e' _ => String.eqb s session && (e' =? e)%nat
  | _ => false
  end.
Definition locked (w : world) (session : string) : bool := existsb (locks (epoch w) session) (waits w).

(** ** Stopping handlers *)

(** The rest of [retry_pipeline] and [cancel_pipeline], once the handler of [key] does
    not run: the entry is deleted ([KeyError] if it is gone). *)
Definition forget (a : admin) (key : string) (w : world) : option world :=
  match dict_get key (active w) with
  | None => None
  | Some _ =>
      let w := w <| active := dict_pop key (active w) |> in
      Some (match a with
            | RetryPipeline => w <| retry_counts := delete key (retry_counts w) |>
            | CancelPipeline => w
            end)
  end.

Fixpoint admin_loop (a : admin) (keys : list string) (w : world) : world :=
  match keys with
  | [] => say (Http 200) w
  | key :: keys =>
      match dict_get key (active w) with
      | None => admin_loop a keys w
      | Some i =>
          match handlers w !! i with
          | None => w
          | Some h =>
              match task_of h with
              | Some t => if live w t then wait (AdminStop a key i t keys) (stop_request t w)
                          else admin_loop a keys (default w (forget a key w))
              | None => admin_loop a keys (default w (forget a key w))
              end
          end
      end
  end.

Definition admin_begin (a : admin) (session : string) (w : world) : world :=
  if negb (is_leader w) then say (Http 409) w
  else match List.filter (py_startswith (session +:+ ":")) (dict_keys (active w)) with
       | [] => say (Http 404) w
       | keys => admin_loop a keys w
       end.

(** The loop of [_step_down] over the handlers, then what it clears. *)
Fixpoint step_down_loop (l : list (string * nat)) (w : world) : world :=
  match l with
  | [] => w <| active := [] |> <| epoch := S (epoch w) |> <| retry_counts := ∅ |>
  | (_, i) :: l =>
      match handlers w !! i with
      | None => step_down_loop l w
      | Some h =>
          match task_of h with
          | Some t => if live w t then wait (StepDownStop i t l) (stop_request t w) else step_down_loop l (stop_end i w)
          | None => step_down_loop l (stop_end i w)
          end
      end
  end.

Definition step_down (w : world) : world := step_down_loop (active w) (w <| stepping := true |>).

(** ** Steps *)
Inductive event :=
| Visit (session : string) (p : phase) (progress : option pydict)
| Continue (n : nat) (d : option pydict)
| Executed (t : nat) (r : PipelineResult)
| CallbackEnds (t : nat)
| Crashes (t : nat) (e : exn)
| TaskCancelled (t : nat)
| Signal (session : string) (updated_progress : pydict)
| Admin (a : admin) (session : string)
| StepDown
| SteppedDown
| BecomeLeader.

Definition without (n : nat) (w : world) : world := w <| waits := delete n (waits w) |>.

Definition visit_waits (x : waiting) : bool :=
  match x with VisitLaunch _ _ _ _ | VisitEnd _ _ _ => true | _ => false end.
Definition step_down_waits (x : waiting) : bool := match x with StepDownStop _ _ _ => true | _ => false end.

(** What waits at place [n] goes on; [d] is the definition that a visit has fetched. *)
Definition proceed (n : nat) (d : option pydict) (w : world) : option world :=
  x ← waits w !! n;
  match x with
  | VisitLaunch session p progress _ => Some (launch session p progress d (without n w))
  | VisitEnd session _ r => Some (say (Answer session r) (without n w))
  | AdminStop a key i t rest =>
      if live w t then None
      else let w := stop_end i (without n w) in
           Some (match forget a key w with Some w => admin_loop a rest w | None => say (Http 500) w end)
  | StepDownStop i t rest => if live w t then None else Some (step_down_loop rest (stop_end i (without n w)))
  end.

(** One step, if it is enabled.  The loops of the leader visit sessions until
    [super()._step_down()] cancels them, after the handlers have been stopped. *)
Definition act (e : event) (w : world) : option world :=
  match e with
  | Visit session p progress =>
      if is_leader w && negb (locked w session) then Some (inspect session p progress w) else None
  | Continue n d => proceed n d w
  | Executed t r => executed t r w
  | CallbackEnds t => callback_ends t w
  | Crashes t e => run_crashes t e w
  | TaskCancelled t => task_cancelled t w
  | Signal session progress =>
      Some (match registry w !! session with Some i => resume i progress w | None => w end)
  | Admin a session => Some (admin_begin a session w)
  | StepDown => if is_leader w && negb (stepping w) then Some (step_down w) else None
  | SteppedDown =>
      if stepping w && negb (existsb step_down_waits (waits w))
      then Some (w <| waits := List.filter (fun x => negb (visit_waits x)) (waits w) |> <| is_leader := false |> <| stepping := false |>)
      else None
  | BecomeLeader => if is_leader w then None else Some (w <| is_leader := true |>)
  end.

Fixpoint acts (l : list event) (w : world) : option world :=
  match l with
  | [] => Some w
  | e :: l => w' ← act e w; acts l w'
  end.
