(* ===== verification/LifecycleHandlerProps.v ===== *)
(** * One task per phase of a session

    An invariant of the steps of [LifecycleHandler], what follows from it, and what
    happens where it does not hold. *)
From S2P Require Import Prelude PyData Pipeline Reconciliation LifecycleHandler.

(** ** Keys *)

Lemma chars_app s1 s2 : String.list_ascii_of_string (s1 +:+ s2) = String.list_ascii_of_string s1 ++ String.list_ascii_of_string s2.
Proof. 
  induction s1 as [|c s1 IH]; [done|].
  change (c :: String.list_ascii_of_string (s1 +:+ s2) = c :: String.list_ascii_of_string s1 ++ String.list_ascii_of_string s2). by rewrite IH.
Qed.

Lemma chars_inj s1 s2 : String.list_ascii_of_string s1 = String.list_ascii_of_string s2 -> s1 = s2.
Proof.
  intros H. rewrite <- (String.string_of_list_ascii_of_string s1), <- (String.string_of_list_ascii_of_string s2). by rewrite H.
Qed.

Lemma handler_key_inj s1 p1 s2 p2 : handler_key s1 p1 = handler_key s2 p2 -> s1 = s2 /\ p1 = p2.
Proof.
  unfold handler_key. intros H.
  apply (f_equal (fun s => rev (String.list_ascii_of_string s))) in H. rewrite !chars_app, !rev_app_distr in H.
  assert (p1 = p2) as ->. { destruct p1, p2; try done; exfalso; revert H; cbn; intros H; discriminate. }
  split; [|done]. apply chars_inj. apply (f_equal (@rev Ascii.ascii)) in H. rewrite !rev_app_distr, !rev_involutive in H.
  by eapply app_inv_tail.
Qed.

(** ** The invariant *)

Definition stop_of (x : waiting) : option (nat * nat) :=
  match x with AdminStop _ _ i t _ | StepDownStop i t _ => Some (i, t) | _ => None end.
Definition visit_of (x : waiting) : option string :=
  match x with VisitLaunch s _ _ _ | VisitEnd s _ _ => Some s | _ => None end.

(** The live tasks belong to handlers of [l]. *)
Definition covered (l : list (string * nat)) (w : world) : Prop :=
  forall t k, tasks w !! t = Some k -> state k <> Done -> owner k ∈ l.*2.

Record tidy (w : world) : Prop := {
  (** A live task is the task of its handler, which is the one kept for its phase. *)
  t_owner t k : tasks w !! t = Some k -> state k <> Done ->
    exists h, handlers w !! owner k = Some h /\ task_of h = Some t /\ dict_get (key_of h) (active w) = Some (owner k);
  t_result t k r : tasks w !! t = Some k -> state k = InCallback r -> status r <> "suspended";
  t_cancel t k : tasks w !! t = Some k -> state k = Cancelling -> exists x, x ∈ waits w /\ stop_of x = Some (owner k, t);
  t_active key i : dict_get key (active w) = Some i -> exists h, handlers w !! i = Some h /\ key_of h = key;
  t_nodup : NoDup (dict_keys (active w));
  (** A registered handler runs, or is being stopped. *)
  t_reg s i : registry w !! s = Some i -> exists h, handlers w !! i = Some h /\ session_id h = s /\
    (is_running w h = true \/ exists x t, x ∈ waits w /\ stop_of x = Some (i, t));
  t_launch s p pr e : VisitLaunch s p pr e ∈ waits w -> dict_get (handler_key s p) (active w) = None;
  t_locks : NoDup (omap visit_of (waits w));
  t_epoch x s : stepping w = false -> x ∈ waits w -> visit_of x = Some s -> locks (epoch w) s x = true;
  t_stop x i t : x ∈ waits w -> stop_of x = Some (i, t) ->
    exists h, handlers w !! i = Some h /\ (task_of h = Some t \/ task_of h = None);
  t_admin a key i t rest : AdminStop a key i t rest ∈ waits w ->
    (dict_get key (active w) = Some i \/ dict_get key (active w) = None) /\ exists h, handlers w !! i = Some h /\ key_of h = key;
  t_step i t rest : StepDownStop i t rest ∈ waits w -> stepping w = true /\ covered (("", i) :: rest) w;
  t_task i h t : handlers w !! i = Some h -> task_of h = Some t -> exists k, tasks w !! t = Some k /\ owner k = i
}.

Lemma live_spec w t : live w t = true <-> exists k, tasks w !! t = Some k /\ state k <> Done.
Proof.
  unfold live. destruct (tasks w !! t) as [k|]; [|split; [done|intros (? & ? & _); done]].
  split; [intros H; exists k; split; [done|by destruct (state k)]|intros (k' & [= <-] & Hk); by destruct (state k)].
Qed.

Lemma tidy_initial : tidy initial.
Proof. split; cbn; try done; try (intros; exfalso; by eapply not_elem_of_nil); apply (NoDup_nil_2 (A:=string)). Qed.

(** Output does not matter. *)
Lemma tidy_say o w : tidy w -> tidy (say o w).
Proof. intros [H1 H2 H3 H4 H5 H6 H7 H8 H9 H10 H11 H12 H13]. split; assumption. Qed.

(** A handler without a live task. *)
Lemma not_running w i h : tidy w -> handlers w !! i = Some h -> is_running w h = false ->
  forall t k, tasks w !! t = Some k -> state k <> Done -> owner k <> i.
Proof.
  intros Hw Hh Hr t k Ht Hk <-. destruct (t_owner w Hw t k Ht Hk) as (h' & Hh' & Ht' & _).
  rewrite Hh in Hh'. injection Hh' as <-. unfold is_running in Hr. rewrite Ht' in Hr.
  apply not_true_iff_false in Hr. apply Hr, live_spec. eauto.
Qed.

(** *** What waits *)
Lemma sublist_filter_bool {A} (f : A -> bool) l : List.filter f l `sublist_of` l.
Proof. induction l as [|x l IH]; cbn; [done|]. destruct (f x); by constructor. Qed.

Lemma elem_of_delete_sub {A} n (l : list A) x : x ∈ delete n l -> x ∈ l.
Proof. intros H. eapply elem_of_submseteq; [exact H|]. apply sublist_submseteq, sublist_delete. Qed.

Lemma elem_of_delete_ne {A} n (l : list A) x y : l !! n = Some y -> x ∈ l -> x <> y -> x ∈ delete n l.
Proof.
  intros Hn Hx Hne. rewrite (delete_Permutation l n y Hn) in Hx. by apply elem_of_cons in Hx as [->|].
Qed.

(** Fewer waits. *)
Lemma waits_sub w l : l `sublist_of` waits w -> forall x, x ∈ l -> x ∈ waits w.
Proof. intros Hs x Hx. eapply elem_of_submseteq; [exact Hx|by apply sublist_submseteq]. Qed.

Lemma sublist_omap {A B} (f : A -> option B) l l' : l `sublist_of` l' -> omap f l `sublist_of` omap f l'.
Proof. induction 1 as [|x l l' Hs IH|x l l' Hs IH]; cbn; [done|..]; destruct (f x); eauto using sublist. Qed.

(** A visit goes on or ends. *)
Lemma tidy_visit_leaves w l : tidy w -> l `sublist_of` waits w -> (forall x, x ∈ waits w -> stop_of x <> None -> x ∈ l) ->
  tidy (w <| waits := l |>).
Proof.
  intros [H1 H2 H3 H4 H5 H6 H7 H8 H9 H10 H11 H12 H13] Hs Hk. pose proof (waits_sub _ _ Hs) as Hsub. split; cbn; eauto.
  - intros t k Ht Hc. destruct (H3 t k Ht Hc) as (x & Hx & Hxs). exists x. split; [|done]. apply Hk; congruence.
  - intros s i Hr. destruct (H6 s i Hr) as (h & Hh & Hs' & [Hrun|(x & t & Hx & Hxs)]); exists h; (split; [done|split; [done|]]); [by left|].
    right. exists x, t. split; [|done]. apply Hk; congruence.
  - eapply sublist_NoDup; [exact H8|]. by apply sublist_omap.
Qed.

(** A visit starts to wait. *)
Lemma tidy_visit_waits x s w : tidy w -> visit_of x = Some s -> s ∉ omap visit_of (waits w) -> locks (epoch w) s x = true ->
  (forall p pr e, x = VisitLaunch s p pr e -> dict_get (handler_key s p) (active w) = None) -> tidy (wait x w).
Proof.
  intros [H1 H2 H3 H4 H5 H6 H7 H8 H9 H10 H11 H12 H13] Hv Hs He Ha.
  assert (forall y, y ∈ waits w ++ [x] -> stop_of y <> None -> y ∈ waits w) as Hst.
  { intros y [Hy| ->%list_elem_of_singleton]%elem_of_app; [done|]. by destruct x. }
  split; cbn; try done.
  - intros t k Ht Hc. destruct (H3 t k Ht Hc) as (y & Hy & ?). exists y. split; [|done]. apply elem_of_app. by left.
  - intros s' i Hr. destruct (H6 s' i Hr) as (h & ? & ? & [?|(y & t & Hy & ?)]); exists h; (split; [done|split; [done|]]); [by left|].
    right. exists y, t. split; [|done]. apply elem_of_app. by left.
  - intros s' p pr e [Hy|Hy%list_elem_of_singleton]%elem_of_app; [by eapply H7|]. subst x. injection Hv as ->. by eapply Ha.
  - rewrite omap_app. cbn. rewrite Hv. apply NoDup_app. split; [done|]. split; [|apply NoDup_singleton].
    intros y Hy ->%list_elem_of_singleton. done.
  - intros y s' Hn [Hy| ->%list_elem_of_singleton]%elem_of_app Hvy; [by eapply H9|]. congruence.
  - intros y i t Hy Hyt. apply (H10 y); [|done]. apply Hst; congruence.
  - intros a key i t rest Hy. eapply H11, Hst; [exact Hy|done].
  - intros i t rest Hy. eapply H12, Hst; [exact Hy|done].
Qed.

(** An operation starts to wait. *)
Lemma tidy_stop_waits x i t h w : tidy w -> stop_of x = Some (i, t) -> handlers w !! i = Some h -> task_of h = Some t ->
  (forall a key rest, x = AdminStop a key i t rest -> dict_get key (active w) = Some i) ->
  (forall rest, x = StepDownStop i t rest -> stepping w = true /\ covered (("", i) :: rest) w) ->
  tidy (wait x w).
Proof.
  intros [H1 H2 H3 H4 H5 H6 H7 H8 H9 H10 H11 H12 H13] Hx Hh Ht Ha Hd.
  assert (forall y, y ∈ waits w ++ [x] -> stop_of y = None -> y ∈ waits w) as Hst.
  { intros y [Hy| ->%list_elem_of_singleton]%elem_of_app; [done|]. by destruct x. }
  assert (visit_of x = None) as Hv by by destruct x.
  split; cbn; try done.
  - intros t' k Ht' Hc. destruct (H3 t' k Ht' Hc) as (y & Hy & ?). exists y. split; [|done]. apply elem_of_app. by left.
  - intros s' j Hr. destruct (H6 s' j Hr) as (h' & ? & ? & [?|(y & t' & Hy & ?)]); exists h'; (split; [done|split; [done|]]); [by left|].
    right. exists y, t'. split; [|done]. apply elem_of_app. by left.
  - intros s' p pr e Hy. eapply H7, Hst; [exact Hy|done].
  - rewrite omap_app. cbn. rewrite Hv. by rewrite app_nil_r.
  - intros y s' Hn [Hy| ->%list_elem_of_singleton]%elem_of_app Hvy; [by eapply H9|]. congruence.
  - intros y j t' [Hy| ->%list_elem_of_singleton]%elem_of_app Hyt; [by eapply H10|]. rewrite Hx in Hyt. injection Hyt as <- <-. eauto.
  - intros a key j t' rest [Hy|Hy%list_elem_of_singleton]%elem_of_app; [by eapply H11|]. subst x. injection Hx as -> ->.
    specialize (Ha _ _ _ eq_refl). split; [by left|]. by apply H4.
  - intros j t' rest [Hy|Hy%list_elem_of_singleton]%elem_of_app; [by eapply H12|]. subst x. injection Hx as -> ->. by apply Hd.
Qed.

(** *** Tasks and handlers *)
Lemma live_set_task t s w t' : t' <> t -> live (set_task t s w) t' = live w t'.
Proof. intros Hne. unfold live, set_task. cbn. by rewrite list_lookup_alter_ne. Qed.

Lemma lookup_set_task t s w t' k : tasks (set_task t s w) !! t' = Some k ->
  (t' = t /\ exists k0, tasks w !! t = Some k0 /\ owner k = owner k0 /\ state k = s) \/ (t' <> t /\ tasks w !! t' = Some k).
Proof.
  unfold set_task. cbn. destruct (decide (t' = t)) as [->|Hne].
  - rewrite list_lookup_alter_eq. destruct (tasks w !! t) as [k0|]; [|done]. intros [= <-]. left. split; [done|]. by exists k0.
  - rewrite list_lookup_alter_ne by done. by right.
Qed.

Lemma owner_set_task t s w t' k i : tasks w !! t' = Some k -> owner k = i ->
  exists k, tasks (set_task t s w) !! t' = Some k /\ owner k = i.
Proof.
  intros Ht <-. unfold set_task. cbn. destruct (decide (t' = t)) as [->|Hne].
  - rewrite list_lookup_alter_eq, Ht. by eexists.
  - rewrite list_lookup_alter_ne by done. eauto.
Qed.

(** The task goes on. *)
Lemma tidy_task_on t k s w : tidy w -> tasks w !! t = Some k -> state k <> Done -> s <> Done ->
  (forall r, s = InCallback r -> status r <> "suspended") ->
  (s = Cancelling -> exists x, x ∈ waits w /\ stop_of x = Some (owner k, t)) -> tidy (set_task t s w).
Proof.
  intros Hw Ht Hk Hs Hr Hc. pose proof Hw as [H1 H2 H3 H4 H5 H6 H7 H8 H9 H10 H11 H12 H13].
  assert (forall t', live w t' = true -> live (set_task t s w) t' = true) as Hlive.
  { intros t' Hl. destruct (decide (t' = t)) as [->|]; [|by rewrite live_set_task].
    apply live_spec. exists {| owner := owner k; state := s |}. split; [|done]. unfold set_task. cbn. by rewrite list_lookup_alter_eq, Ht. }
  assert (forall l, covered l w -> covered l (set_task t s w)) as Hcov.
  { intros l Hl t' k' [(-> & k0 & Hk0 & -> & _)|[_ Ht']]%lookup_set_task Hd; [|by eapply Hl]. eapply Hl; [exact Hk0|congruence]. }
  split; try done.
  - intros t' k' [(-> & k0 & Hk0 & -> & Hsk)|[_ Ht']]%lookup_set_task Hd; [|by apply H1]. eapply H1; [exact Hk0|congruence].
  - intros t' k' r [(-> & k0 & Hk0 & Ho & Hsk)|[_ Ht']]%lookup_set_task Hd; [|by eapply H2]. apply Hr. congruence.
  - intros t' k' [(-> & k0 & Hk0 & Ho & Hsk)|[_ Ht']]%lookup_set_task Hd; [|by eapply H3].
    rewrite Ho. rewrite Ht in Hk0. injection Hk0 as <-. apply Hc. congruence.
  - intros s' i Hri. destruct (H6 s' i Hri) as (h & Hh & Hsh & [Hrun|Hst]); exists h; (split; [done|split; [done|]]); [|by right].
    left. revert Hrun. unfold is_running. destruct (task_of h); [apply Hlive|done].
  - intros i t' rest Hx. destruct (H12 _ _ _ Hx) as [? ?]. split; [done|]. by apply Hcov.
  - intros i h t' Hh Hth. destruct (H13 _ _ _ Hh Hth) as (k' & Hk' & Ho). by eapply owner_set_task.
Qed.

(** The task ends. *)
Lemma tidy_task_done t k w : tidy w -> tasks w !! t = Some k -> state k <> Done ->
  (forall s, registry w !! s = Some (owner k) -> exists x t', x ∈ waits w /\ stop_of x = Some (owner k, t')) ->
  tidy (set_task t Done w).
Proof.
  intros Hw Ht Hk Hs. pose proof Hw as [H1 H2 H3 H4 H5 H6 H7 H8 H9 H10 H11 H12 H13].
  split; try done.
  - intros t' k' [(-> & k0 & _ & _ & Hsk)|[_ Ht']]%lookup_set_task Hd; [done|by apply H1].
  - intros t' k' r [(-> & k0 & _ & _ & Hsk)|[_ Ht']]%lookup_set_task Hd; [congruence|by eapply H2].
  - intros t' k' [(-> & k0 & _ & _ & Hsk)|[_ Ht']]%lookup_set_task Hd; [congruence|by eapply H3].
  - intros s' i Hri. destruct (H6 s' i Hri) as (h & Hh & Hsh & [Hrun|Hst]); exists h; (split; [done|split; [done|]]); [|by right].
    unfold is_running in *. destruct (task_of h) as [t'|] eqn:Hth; [|done]. destruct (decide (t' = t)) as [->|Hne].
    + right. destruct (H1 t k Ht Hk) as (h' & Hh' & Hth' & Hact). destruct (decide (owner k = i)) as [<-|Hi]; [by eapply Hs|].
      exfalso. destruct (H13 _ _ _ Hh Hth) as (k' & Hk' & Ho). congruence.
    + left. by rewrite live_set_task.
  - intros i t' rest Hx. destruct (H12 _ _ _ Hx) as [? Hc]. split; [done|].
    intros t'' k' [(-> & k0 & _ & _ & Hsk)|[_ Ht']]%lookup_set_task Hd; [done|by eapply Hc].
  - intros i h t' Hh Hth. destruct (H13 _ _ _ Hh Hth) as (k' & Hk' & Ho). by eapply owner_set_task.
Qed.

(** What is recorded on a handler. *)
Lemma tidy_handler i h h' w : tidy w -> handlers w !! i = Some h -> session_id h' = session_id h -> phase_of h' = phase_of h ->
  task_of h' = task_of h -> tidy (w <| handlers := <[i := h']> (handlers w) |>).
Proof.
  intros [H1 H2 H3 H4 H5 H6 H7 H8 H9 H10 H11 H12 H13] Hh Hs Hp Ht.
  assert (key_of h' = key_of h) as Hkey by (unfold key_of; by rewrite Hs, Hp).
  assert (forall j g, handlers w !! j = Some g -> exists g', <[i := h']> (handlers w) !! j = Some g' /\
    session_id g' = session_id g /\ key_of g' = key_of g /\ task_of g' = task_of g) as Hl.
  { intros j g Hj. destruct (decide (j = i)) as [->|Hne].
    - exists h'. rewrite list_lookup_insert_eq by (by eapply lookup_lt_Some). rewrite Hh in Hj. injection Hj as <-. done.
    - exists g. by rewrite list_lookup_insert_ne. }
  assert (forall j g, <[i := h']> (handlers w) !! j = Some g -> exists g', handlers w !! j = Some g' /\ task_of g = task_of g') as Hb.
  { intros j g Hj. destruct (decide (j = i)) as [->|Hne].
    - rewrite list_lookup_insert_eq in Hj by (by eapply lookup_lt_Some). injection Hj as <-. eauto.
    - rewrite list_lookup_insert_ne in Hj by done. eauto. }
  split; try done; cbn.
  - intros t k Htk Hk. destruct (H1 t k Htk Hk) as (g & Hg & Hgt & Ha). destruct (Hl _ _ Hg) as (g' & ? & ? & Hk' & Ht').
    exists g'. rewrite Hk', Ht'. done.
  - intros key j Hj. destruct (H4 _ _ Hj) as (g & Hg & Hk). destruct (Hl _ _ Hg) as (g' & ? & ? & Hk' & _). exists g'. by rewrite Hk'.
  - intros s j Hj. destruct (H6 _ _ Hj) as (g & Hg & Hsg & Hr). destruct (Hl _ _ Hg) as (g' & ? & Hs' & _ & Ht').
    exists g'. rewrite Hs'. split; [done|]. split; [done|]. destruct Hr as [Hr|Hr]; [left|by right]. unfold is_running in *. by rewrite Ht'.
  - intros x j t Hx Hxs. destruct (H10 _ _ _ Hx Hxs) as (g & Hg & Hgt). destruct (Hl _ _ Hg) as (g' & ? & _ & _ & Ht'). exists g'. by rewrite Ht'.
  - intros a key j t rest Hx. destruct (H11 _ _ _ _ _ Hx) as (Ha & g & Hg & Hk). split; [done|].
    destruct (Hl _ _ Hg) as (g' & ? & _ & Hk' & _). exists g'. by rewrite Hk'.
  - intros j g t Hj Hg. destruct (Hb _ _ Hj) as (g' & Hg' & He). eapply H13; [exact Hg'|congruence].
Qed.

Lemma tidy_alter_result i h r w : tidy w -> handlers w !! i = Some h ->
  tidy (w <| handlers := alter (fun h => h <| result := Some r |>) i (handlers w) |>).
Proof.
  intros Hw Hh. replace (alter _ i (handlers w)) with (<[i := h <| result := Some r |>]> (handlers w)); [by eapply tidy_handler|].
  apply list_eq. intros j. destruct (decide (j = i)) as [->|].
  - rewrite list_lookup_alter_eq, Hh, list_lookup_insert_eq by (by eapply lookup_lt_Some). done.
  - by rewrite list_lookup_alter_ne, list_lookup_insert_ne.
Qed.

Lemma tidy_unregister s w : tidy w -> tidy (unregister s w).
Proof.
  intros [H1 H2 H3 H4 H5 H6 H7 H8 H9 H10 H11 H12 H13]. split; try done; cbn.
  intros s' i Hr. apply lookup_delete_Some in Hr as [_ Hr]. by apply H6.
Qed.

Lemma tidy_retries f w : tidy w -> tidy (w <| retry_counts := f |>).
Proof. intros [H1 H2 H3 H4 H5 H6 H7 H8 H9 H10 H11 H12 H13]. split; assumption. Qed.

(** The task ends, and its session is no longer registered. *)
Lemma tidy_task_unregistered t k h w : tidy w -> tasks w !! t = Some k -> state k <> Done -> handlers w !! owner k = Some h ->
  tidy (unregister (session_id h) (set_task t Done w)).
Proof.
  intros Hw Ht Hk Hh. change (tidy (set_task t Done (unregister (session_id h) w))).
  eapply tidy_task_done; [by apply tidy_unregister|exact Ht|done|].
  cbn. intros s [Hne Hr]%lookup_delete_Some. destruct (t_reg w Hw _ _ Hr) as (h' & Hh' & <- & _). congruence.
Qed.

(** An entry without a running handler is dropped. *)
Lemma tidy_pop key i w : tidy w -> dict_get key (active w) = Some i ->
  (forall t k, tasks w !! t = Some k -> state k <> Done -> owner k <> i) -> tidy (w <| active := dict_pop key (active w) |>).
Proof.
  intros [H1 H2 H3 H4 H5 H6 H7 H8 H9 H10 H11 H12 H13] Hi Hd.
  assert (forall k, dict_get k (dict_pop key (active w)) = if String.eqb k key then None else dict_get k (active w)) as Hg
    by (intros; by rewrite dict_get_pop).
  split; try done; cbn.
  - intros t k Ht Hk. destruct (H1 t k Ht Hk) as (h & Hh & Hth & Ha). exists h. split; [done|]. split; [done|]. rewrite Hg.
    destruct (String.eqb_spec (key_of h) key) as [He|]; [|done]. destruct (Hd t k Ht Hk). congruence.
  - intros key' j. rewrite Hg. destruct (String.eqb_spec key' key); [done|]. apply H4.
  - by apply dict_pop_NoDup.
  - intros s p pr e Hx. rewrite Hg. destruct (String.eqb _ _); [done|]. by eapply H7.
  - intros a key' j t rest Hx. destruct (H11 _ _ _ _ _ Hx) as [Ha ?]. split; [|done]. rewrite Hg. destruct (String.eqb _ _); [by right|done].
Qed.

(** [stop] after the task that it awaited, if any: [l] is what still waits. *)
Lemma tidy_stop_end i l w : tidy w -> (forall t k, tasks w !! t = Some k -> state k <> Done -> owner k <> i) ->
  l `sublist_of` waits w -> (forall x, x ∈ waits w -> x ∈ l \/ exists t, stop_of x = Some (i, t)) ->
  tidy (stop_end i (w <| waits := l |>)).
Proof.
  intros Hw Hd Hs Hl. pose proof Hw as [H1 H2 H3 H4 H5 H6 H7 H8 H9 H10 H11 H12 H13]. pose proof (waits_sub _ _ Hs) as Hsub.
  unfold stop_end. cbn. destruct (handlers w !! i) as [h|] eqn:Hh; cycle 1.
  { (* there is no such handler *)
    apply tidy_visit_leaves; [done|done|]. intros x Hx Hxs. destruct (Hl x Hx) as [|[t Ht]]; [done|].
    destruct (H10 _ _ _ Hx Ht) as (h & ? & _). congruence. }
  assert (forall j g, handlers w !! j = Some g -> exists g', <[i := h <| task_of := None |>]> (handlers w) !! j = Some g' /\
    session_id g' = session_id g /\ key_of g' = key_of g /\ (j = i /\ task_of g' = None \/ j <> i /\ task_of g' = task_of g)) as Hlk.
  { intros j g Hj. destruct (decide (j = i)) as [->|Hne].
    - exists (h <| task_of := None |>). rewrite list_lookup_insert_eq by (by eapply lookup_lt_Some).
      rewrite Hh in Hj. injection Hj as <-. eauto 6.
    - exists g. rewrite list_lookup_insert_ne by done. eauto 6. }
  split; cbn; try done.
  - intros t k Ht Hk. destruct (H1 t k Ht Hk) as (g & Hg & Hgt & Ha). destruct (Hlk _ _ Hg) as (g' & Hg' & _ & Hk' & [[He _]|[_ Ht']]).
    + by destruct (Hd t k Ht Hk).
    + exists g'. rewrite Hk', Ht'. done.
  - intros t k Ht Hc. destruct (H3 t k Ht Hc) as (x & Hx & Hxs). exists x. split; [|done]. destruct (Hl x Hx) as [|[t' Ht']]; [done|].
    destruct (Hd t k Ht); congruence.
  - intros key j Hj. destruct (H4 _ _ Hj) as (g & Hg & Hk). destruct (Hlk _ _ Hg) as (g' & ? & _ & Hk' & _). exists g'. by rewrite Hk'.
  - intros s j [Hne Hj]%lookup_delete_Some. destruct (H6 _ _ Hj) as (g & Hg & Hsg & Hr).
    destruct (Hlk _ _ Hg) as (g' & ? & Hs' & _ & [[-> _]|[Hji Ht']]); [congruence|].
    exists g'. rewrite Hs'. split; [done|]. split; [done|]. destruct Hr as [Hr|(x & t & Hx & Hxs)].
    + left. unfold is_running in *. by rewrite Ht'.
    + right. exists x, t. split; [|done]. destruct (Hl x Hx) as [|[t' Ht'']]; [done|]. congruence.
  - intros s p pr e Hx. eapply H7. by apply Hsub.
  - eapply sublist_NoDup; [exact H8|]. by apply sublist_omap.
  - intros x s Hn Hx. eapply H9; [done|by apply Hsub].
  - intros x j t Hx Hxs. destruct (H10 _ _ _ (Hsub _ Hx) Hxs) as (g & Hg & Hgt).
    destruct (Hlk _ _ Hg) as (g' & ? & _ & _ & [[_ Ht']|[_ Ht']]); exists g'; (split; [done|]); rewrite Ht'; [by right|done].
  - intros a key j t rest Hx. destruct (H11 _ _ _ _ _ (Hsub _ Hx)) as (Ha & g & Hg & Hk). split; [done|].
    destruct (Hlk _ _ Hg) as (g' & ? & _ & Hk' & _). exists g'. by rewrite Hk'.
  - intros j t rest Hx. by apply (H12 _ _ _ (Hsub _ Hx)).
  - intros j g t Hj Hg. destruct (decide (j = i)) as [->|Hne].
    + rewrite list_lookup_insert_eq in Hj by (by eapply lookup_lt_Some). by injection Hj as <-.
    + rewrite list_lookup_insert_ne in Hj by done. by eapply H13.
Qed.

(** *** The operations *)

Lemma tidy_forget a key i w w' : tidy w -> dict_get key (active w) = Some i ->
  (forall t k, tasks w !! t = Some k -> state k <> Done -> owner k <> i) -> forget a key w = Some w' -> tidy w'.
Proof.
  intros Hw Hi Hd. unfold forget. rewrite Hi. intros [= <-]. pose proof (tidy_pop _ _ _ Hw Hi Hd) as Hp. destruct a; [done|].
  exact (tidy_retries (delete key (retry_counts w)) _ Hp).
Qed.

(** The handler is asked to stop, and the operation waits for its task. *)
Lemma tidy_stop_request x i t h w : tidy w -> stop_of x = Some (i, t) -> handlers w !! i = Some h -> task_of h = Some t -> live w t = true ->
  (forall a key rest, x = AdminStop a key i t rest -> dict_get key (active w) = Some i) ->
  (forall rest, x = StepDownStop i t rest -> stepping w = true /\ covered (("", i) :: rest) w) ->
  tidy (wait x (stop_request t w)).
Proof.
  intros Hw Hx Hh Ht Hl Ha Hd. change (tidy (set_task t Cancelling (wait x w))).
  apply live_spec in Hl as (k & Hk & Hkd).
  eapply tidy_task_on; [by eapply tidy_stop_waits|exact Hk|done|done|done|].
  intros _. exists x. cbn. destruct (t_task w Hw _ _ _ Hh Ht) as (k' & Hk' & Ho). split; [apply elem_of_app; right; by left|]. congruence.
Qed.

Lemma running_by w h t : task_of h = Some t -> is_running w h = live w t.
Proof. unfold is_running. by intros ->. Qed.

Lemma tidy_admin_loop a keys w : tidy w -> tidy (admin_loop a keys w).
Proof.
  revert w. induction keys as [|key keys IH]; intros w Hw; cbn; [by apply tidy_say|].
  destruct (dict_get key (active w)) as [i|] eqn:Hi; [|by apply IH].
  destruct (t_active w Hw _ _ Hi) as (h & Hh & Hk). rewrite Hh.
  assert (is_running w h = false -> tidy (default w (forget a key w))) as Hf.
  { intros Hr. destruct (forget a key w) as [w'|] eqn:Hf; [|done]. cbn. eapply tidy_forget; [done|done| |done]. by eapply not_running. }
  destruct (task_of h) as [t|] eqn:Ht; [|apply IH, Hf; unfold is_running; by rewrite Ht].
  destruct (live w t) eqn:Hl; [|apply IH, Hf; by rewrite (running_by _ _ _ Ht)].
  eapply tidy_stop_request; try done. intros ? ? ? [= -> ->]. done.
Qed.

Lemma tidy_clear w : tidy w -> stepping w = true -> covered [] w -> tidy (w <| active := [] |> <| epoch := S (epoch w) |> <| retry_counts := ∅ |>).
Proof.
  intros [H1 H2 H3 H4 H5 H6 H7 H8 H9 H10 H11 H12 H13] Hs Hc.
  assert (forall t k, tasks w !! t = Some k -> state k = Done) as Hd.
  { intros t k Ht. destruct (state k) eqn:Hk; [..|done]; (assert (owner k ∈ ([] : list nat)) as Hn by (eapply Hc; [exact Ht|congruence])); by apply not_elem_of_nil in Hn. }
  split; cbn; try done.
  - intros t k Ht Hk. destruct Hk. by eapply Hd.
  - apply NoDup_nil_2.
  - intros x s Hn. congruence.
  - intros a key i t rest Hx. destruct (H11 _ _ _ _ _ Hx) as [_ ?]. split; [by right|done].
Qed.

Lemma tidy_step_down_loop l w : tidy w -> stepping w = true -> covered l w -> tidy (step_down_loop l w).
Proof.
  revert w. induction l as [|[key i] l IH]; intros w Hw Hs Hc; cbn; [by apply tidy_clear|].
  destruct (handlers w !! i) as [h|] eqn:Hh; cycle 1.
  { apply IH; [done|done|]. intros t k Ht Hk. destruct (t_owner w Hw t k Ht Hk) as (h & Hh' & _).
    specialize (Hc t k Ht Hk). cbn in Hc. apply elem_of_cons in Hc as [He|]; [congruence|done]. }
  assert (is_running w h = false -> tidy (step_down_loop l (stop_end i w))) as Hgo.
  { intros Hr. pose proof (not_running _ _ _ Hw Hh Hr) as Hd.
    assert (tidy (stop_end i (w <| waits := waits w |>))) as Hw' by (apply tidy_stop_end; auto).
    replace (w <| waits := waits w |>) with w in Hw' by (by destruct w).
    apply IH; [done|unfold stop_end; by rewrite Hh|].
    intros t k Ht Hk. assert (tasks w !! t = Some k) as Ht' by (revert Ht; unfold stop_end; by rewrite Hh).
    specialize (Hc t k Ht' Hk). cbn in Hc. apply elem_of_cons in Hc as [He|]; [|done]. by destruct (Hd t k Ht' Hk). }
  destruct (task_of h) as [t|] eqn:Ht; [|apply Hgo; unfold is_running; by rewrite Ht].
  destruct (live w t) eqn:Hl; [|apply Hgo; by rewrite (running_by _ _ _ Ht)].
  eapply tidy_stop_request; try done. intros rest [= ->]. done.
Qed.

Lemma tidy_step_down w : tidy w -> tidy (step_down w).
Proof.
  intros Hw. unfold step_down. pose proof Hw as [H1 H2 H3 H4 H5 H6 H7 H8 H9 H10 H11 H12 H13].
  apply tidy_step_down_loop; [|done|].
  - split; cbn; try done. intros i t rest Hx. by destruct (H12 _ _ _ Hx).
  - intros t k Ht Hk. destruct (H1 t k Ht Hk) as (h & _ & _ & Ha). apply dict_get_elem in Ha. apply list_elem_of_fmap. by eexists (_, _).
Qed.

(** ** Calm steps

    A key is busy while an operation awaits the task of its handler, and during a
    step-down.  A step is calm when no visit and no signal comes in between, and the
    result of the executor is not a suspension. *)
Definition busy (w : world) (key : string) : Prop :=
  stepping w = true \/ exists a i t rest, AdminStop a key i t rest ∈ waits w.

Definition calm (w : world) (e : event) : Prop :=
  match e with
  | Visit s p _ => ~ busy w (handler_key s p)
  | Continue n _ => forall s p pr e, waits w !! n = Some (VisitLaunch s p pr e) -> ~ busy w (handler_key s p)
  | Executed _ r => status r <> "suspended"
  | Signal s _ => forall p, ~ busy w (handler_key s p)
  | _ => True
  end.

Definition calm_step (w w' : world) : Prop := exists e, calm w e /\ act e w = Some w'.

Lemma unlocked w s : tidy w -> stepping w = false -> locked w s = false -> s ∉ omap visit_of (waits w).
Proof.
  intros Hw Hs Hl Hin. apply list_elem_of_omap in Hin as (x & Hx & Hv).
  apply not_true_iff_false in Hl. apply Hl, List.existsb_exists. exists x. split; [by apply list_elem_of_In|]. by eapply t_epoch.
Qed.

Lemma tidy_inspect s p pr w : tidy w -> ~ busy w (handler_key s p) -> locked w s = false -> tidy (inspect s p pr w).
Proof.
  intros Hw Hb Hl. assert (stepping w = false) as Hs by (destruct (stepping w) eqn:E; [destruct Hb; by left|done]).
  pose proof (unlocked _ _ Hw Hs Hl) as Hun.
  assert (forall x, visit_of x = Some s -> locks (epoch w) s x = true -> (forall p' pr e, x <> VisitLaunch s p' pr e) ->
    forall v, tidy v -> waits v = waits w -> epoch v = epoch w -> tidy (wait x v)) as Hend.
  { intros x Hx Hlx Hne v Hv Hwv Hev. eapply tidy_visit_waits; [done|done|by rewrite Hwv|by rewrite Hev|]. intros ? ? ? ->. by destruct (Hne p0 pr0 e). }
  assert (forall v, tidy v -> waits v = waits w -> epoch v = epoch w -> dict_get (handler_key s p) (active v) = None ->
    tidy (wait (VisitLaunch s p pr (epoch w)) v)) as Hgo.
  { intros v Hv Hwv Hev Ha. eapply tidy_visit_waits; [done|done|by rewrite Hwv|cbn; by rewrite String.eqb_refl, Hev, Nat.eqb_refl|].
    by intros ? ? ? [= <- <- <-]. }
  unfold inspect. destruct (dict_get _ _) as [i|] eqn:Hi; [|by apply Hgo].
  destruct (handlers w !! i) as [h|] eqn:Hh; [|done]. destruct (is_running w h) eqn:Hr; [by apply tidy_say|].
  pose proof (not_running _ _ _ Hw Hh Hr) as Hd. pose proof (tidy_pop _ _ _ Hw Hi Hd) as Hw1.
  assert (dict_get (handler_key s p) (dict_pop (handler_key s p) (active w)) = None) as Hnone
    by (rewrite dict_get_pop by apply Hw; by rewrite String.eqb_refl).
  destruct (result h) as [r|]; [|by apply Hgo].
  destruct (_ || _); [by apply tidy_say|]. destruct (String.eqb _ _); [|by apply Hgo].
  destruct (_ && _).
  - apply Hend; try done.
    + cbn. destruct (bool_decide _); cbn; by rewrite String.eqb_refl, Nat.eqb_refl.
    + apply tidy_say. destruct (bool_decide _); [by apply tidy_say|done].
    + by destruct (bool_decide _).
    + by destruct (bool_decide _).
  - apply Hgo; try done. by apply tidy_retries.
Qed.

Lemma without_sub n w : waits (without n w) `sublist_of` waits w.
Proof. apply sublist_delete. Qed.

Lemma tidy_without n x w : tidy w -> waits w !! n = Some x -> stop_of x = None -> tidy (without n w).
Proof.
  intros Hw Hn Hx. apply tidy_visit_leaves; [done|apply sublist_delete|].
  intros y Hy Hys. eapply elem_of_delete_ne; [done|done|]. by intros ->.
Qed.

Lemma visit_gone n x s w : tidy w -> waits w !! n = Some x -> visit_of x = Some s -> s ∉ omap visit_of (waits (without n w)).
Proof.
  intros Hw Hn Hx. pose proof (t_locks w Hw) as Hnd.
  assert (omap visit_of (waits w) ≡ₚ s :: omap visit_of (waits (without n w))) as Hp.
  { cbn. rewrite (delete_Permutation _ _ _ Hn) at 1. cbn. by rewrite Hx. }
  rewrite Hp in Hnd. by apply NoDup_cons in Hnd as [? _].
Qed.

(** A new handler for a phase that has none. *)
Lemma tidy_new_handler s p d pr w : let i := length (handlers w) in
  tidy w -> stepping w = false -> s ∉ omap visit_of (waits w) -> dict_get (handler_key s p) (active w) = None ->
  (forall a j t rest, AdminStop a (handler_key s p) j t rest ∉ waits w) ->
  tidy (start i (w <| handlers := handlers w ++ [{| session_id := s; phase_of := p; definition := d; existing_progress := pr;
      task_of := None; result := None; crashed := None; pipeline_attempt := 0 |}] |>
    <| active := dict_set (handler_key s p) i (active w) |>)).
Proof.
  intros i [H1 H2 H3 H4 H5 H6 H7 H8 H9 H10 H11 H12 H13] Hs Hv Ha Hb. subst i.
  unfold start. cbn. rewrite list_lookup_middle by done. cbn. rewrite insert_app_r_alt, Nat.sub_diag by done. cbn.
  set (h := {| session_id := s |}).
  assert (forall j g, handlers w !! j = Some g -> (handlers w ++ [h]) !! j = Some g) as Hl by (intros; by apply lookup_app_l_Some).
  assert (forall j g, (handlers w ++ [h]) !! j = Some g -> handlers w !! j = Some g \/ j = length (handlers w) /\ g = h) as Hlb.
  { intros j g [Hj|[Hj Hg]]%lookup_app_Some; [by left|]. right. apply list_lookup_singleton_Some in Hg as [? <-]. split; [lia|done]. }
  set (k0 := {| owner := length (handlers w); state := Executing |}).
  assert (forall t k, (tasks w ++ [k0]) !! t = Some k -> tasks w !! t = Some k \/ t = length (tasks w) /\ k = k0) as Htb.
  { intros t k [Ht|[Ht Hk]]%lookup_app_Some; [by left|]. right. apply list_lookup_singleton_Some in Hk as [? <-]. split; [lia|done]. }
  assert (forall j k, dict_get k (active w) = Some j -> k <> handler_key s p) as Hne by (intros j k Hj ->; congruence).
  assert (key_of h = handler_key s p) as Hkey by done.
  split; cbn.
  - intros t k Ht Hk. destruct (Htb _ _ Ht) as [Ht'|[-> ->]].
    + destruct (H1 t k Ht' Hk) as (g & Hg & Hgt & Hga). exists g. split; [by apply Hl|]. split; [done|].
      rewrite dict_get_set_ne; [done|by eapply Hne].
    + exists h. cbn. rewrite list_lookup_middle by done. split; [done|]. split; [done|]. by rewrite Hkey, dict_get_set_eq.
  - intros t k r Ht Hk. destruct (Htb _ _ Ht) as [Ht'|[-> ->]]; [by eapply H2|done].
  - intros t k Ht Hk. destruct (Htb _ _ Ht) as [Ht'|[-> ->]]; [by eapply H3|done].
  - intros key j. rewrite dict_get_set. destruct (String.eqb_spec key (handler_key s p)) as [->|_].
    + intros [= <-]. exists h. rewrite list_lookup_middle by done. done.
    + intros Hj. destruct (H4 _ _ Hj) as (g & Hg & Hk). exists g. split; [by apply Hl|done].
  - by apply dict_set_NoDup.
  - intros s' j. destruct (decide (s' = s)) as [->|Hs'].
    + rewrite lookup_insert_eq. intros [= <-]. exists h. rewrite list_lookup_middle by done. split; [done|]. split; [done|]. left.
      unfold is_running, live. cbn. by rewrite list_lookup_middle.
    + rewrite lookup_insert_ne by done. intros Hj. destruct (H6 _ _ Hj) as (g & Hg & Hsg & Hr). exists g. split; [by apply Hl|]. split; [done|].
      destruct Hr as [Hr|Hr]; [left|by right]. revert Hr. unfold is_running. destruct (task_of g) as [t|]; [|done].
      intros (k & Hk & Hd)%live_spec. apply live_spec. exists k. split; [|done]. by apply lookup_app_l_Some.
  - intros s' p' pr' e Hx. rewrite dict_get_set_ne; [by eapply H7|]. intros [-> ->]%handler_key_inj. destruct Hv.
    apply list_elem_of_omap. by eexists.
  - done.
  - done.
  - intros x j t Hx Hxs. destruct (H10 _ _ _ Hx Hxs) as (g & Hg & Hgt). exists g. split; [by apply Hl|done].
  - intros a key j t rest Hx. destruct (H11 _ _ _ _ _ Hx) as (Hka & g & Hg & Hk).
    assert (key <> handler_key s p) as Hkn by (intros ->; by eapply Hb). rewrite dict_get_set_ne by done. split; [done|].
    exists g. split; [by apply Hl|done].
  - intros j t rest Hx. destruct (H12 _ _ _ Hx). congruence.
  - intros j g t Hj Hg. destruct (Hlb _ _ Hj) as [Hj'|[-> ->]].
    + destruct (H13 _ _ _ Hj' Hg) as (k & Hk & Ho). exists k. split; [by apply lookup_app_l_Some|done].
    + injection Hg as <-. exists k0. split; [by rewrite list_lookup_middle|done].
Qed.

Lemma tidy_launch n s p pr e d w : tidy w -> waits w !! n = Some (VisitLaunch s p pr e) -> ~ busy w (handler_key s p) ->
  tidy (launch s p pr d (without n w)).
Proof.
  intros Hw Hn Hb. assert (stepping w = false) as Hs by (destruct (stepping w) eqn:E; [destruct Hb; by left|done]).
  pose proof (tidy_without _ _ _ Hw Hn eq_refl) as Hw'. pose proof (visit_gone _ _ _ _ Hw Hn eq_refl) as Hv.
  unfold launch. destruct d as [d|].
  - apply tidy_say, tidy_new_handler; [done..| |].
    + cbn. eapply (t_launch w Hw), list_elem_of_lookup_2. exact Hn.
    + intros a j t rest Hx. apply Hb. right. exists a, j, t, rest. exact (elem_of_delete_sub n _ _ Hx).
  - eapply tidy_visit_waits; [by apply tidy_say|done|done|cbn; by rewrite String.eqb_refl, Nat.eqb_refl|done].
Qed.

(** An operation goes on after the task that it awaited. *)
Lemma tidy_stop_proceeds n x i t w : tidy w -> waits w !! n = Some x -> stop_of x = Some (i, t) -> live w t = false ->
  tidy (stop_end i (without n w)) /\ (forall t' k, tasks w !! t' = Some k -> state k <> Done -> owner k <> i).
Proof.
  intros Hw Hn Hx Hl.
  assert (forall t' k, tasks w !! t' = Some k -> state k <> Done -> owner k <> i) as Hd.
  { intros t' k Ht' Hk <-. destruct (t_owner w Hw _ _ Ht' Hk) as (h & Hh & Hth & _).
    destruct (t_stop w Hw x _ _ (list_elem_of_lookup_2 _ _ _ Hn) Hx) as (h' & Hh' & Ht). assert (t' = t) as -> by (destruct Ht; congruence).
    apply not_true_iff_false in Hl. apply Hl, live_spec. eauto. }
  split; [|done]. apply tidy_stop_end; [done|done|apply sublist_delete|].
  intros y Hy. destruct (decide (stop_of y = stop_of x)) as [He|He]; [right; exists t; congruence|left].
  eapply elem_of_delete_ne; [done|done|]. by intros ->.
Qed.

Lemma stop_end_tasks i w : tasks (stop_end i w) = tasks w.
Proof. unfold stop_end. by destruct (handlers w !! i). Qed.

Lemma stop_end_active i w : active (stop_end i w) = active w.
Proof. unfold stop_end. by destruct (handlers w !! i). Qed.

Lemma stop_end_stepping i w : stepping (stop_end i w) = stepping w.
Proof. unfold stop_end. by destruct (handlers w !! i). Qed.

Lemma tidy_proceed n d w w' : tidy w -> calm w (Continue n d) -> proceed n d w = Some w' -> tidy w'.
Proof.
  intros Hw Hc Hp. unfold proceed in Hp. destruct (waits w !! n) as [x|] eqn:Hn; [|done]. cbn in Hp.
  destruct x as [s p pr e|s e r|a key i t rest|i t rest].
  - injection Hp as <-. eapply tidy_launch; [done|exact Hn|by eapply Hc].
  - injection Hp as <-. by eapply tidy_say, tidy_without.
  - destruct (live w t) eqn:Hl; [done|]. injection Hp as <-.
    destruct (tidy_stop_proceeds _ _ _ _ _ Hw Hn eq_refl Hl) as [Hw' Hd].
    destruct (forget a key _) as [v|] eqn:Hf; [|by apply tidy_say]. apply tidy_admin_loop.
    destruct (t_admin w Hw _ _ _ _ _ (list_elem_of_lookup_2 _ _ _ Hn)) as [Ha _].
    assert (dict_get key (active (stop_end i (without n w))) = Some i) as Hi.
    { rewrite stop_end_active. cbn. destruct Ha as [Ha|Ha]; [done|]. exfalso. revert Hf. unfold forget. rewrite stop_end_active. cbn. by rewrite Ha. }
    eapply tidy_forget; [exact Hw'|exact Hi| |exact Hf]. rewrite stop_end_tasks. cbn. done.
  - destruct (live w t) eqn:Hl; [done|]. injection Hp as <-.
    destruct (tidy_stop_proceeds _ _ _ _ _ Hw Hn eq_refl Hl) as [Hw' Hd].
    destruct (t_step w Hw _ _ _ (list_elem_of_lookup_2 _ _ _ Hn)) as [Hs Hcov].
    apply tidy_step_down_loop; [done|by rewrite stop_end_stepping|].
    intros t' k. rewrite stop_end_tasks. cbn. intros Ht' Hk. specialize (Hcov t' k Ht' Hk). cbn in Hcov.
    apply elem_of_cons in Hcov as [He|]; [|done]. by destruct (Hd t' k Ht' Hk).
Qed.

Lemma tidy_stepped_down w : tidy w -> existsb step_down_waits (waits w) = false ->
  tidy (w <| waits := List.filter (fun x => negb (visit_waits x)) (waits w) |> <| is_leader := false |> <| stepping := false |>).
Proof.
  intros Hw Hn. assert (forall i t rest, StepDownStop i t rest ∉ waits w) as Hns.
  { intros i t rest Hx. apply not_true_iff_false in Hn. apply Hn, List.existsb_exists. eexists. split; [by apply list_elem_of_In|done]. }
  assert (forall x, x ∈ List.filter (fun x => negb (visit_waits x)) (waits w) -> visit_of x = None) as Hv.
  { intros x Hx. apply list_elem_of_In, List.filter_In in Hx as [_ Hx]. by destruct x. }
  assert (tidy (w <| waits := List.filter (fun x => negb (visit_waits x)) (waits w) |>)) as Hw'.
  { apply tidy_visit_leaves; [done|apply sublist_filter_bool|]. intros x Hx Hxs. apply list_elem_of_In, List.filter_In.
    split; [by apply list_elem_of_In|by destruct x]. }
  destruct Hw' as [H1 H2 H3 H4 H5 H6 H7 H8 H9 H10 H11 H12 H13]. split; try done; cbn.
  - intros x s _ Hx Hxv. rewrite Hv in Hxv; done.
  - intros i t rest Hx. destruct (Hns i t rest). by eapply elem_of_submseteq, sublist_submseteq, sublist_filter_bool.
Qed.

(** A registered handler of a session that nothing stops runs already: a signal has no effect. *)
Lemma signal_is_late w s u : tidy w -> (forall p, ~ busy w (handler_key s p)) -> act (Signal s u) w = Some w.
Proof.
  intros Hw Hb. cbn. destruct (registry w !! s) as [i|] eqn:Hr; [|done].
  destruct (t_reg w Hw _ _ Hr) as (h & Hh & Hs & [Hrun|(x & t & Hx & Hxs)]).
  - unfold resume. by rewrite Hh, Hrun.
  - exfalso. destruct x as [| |a key j t' rest|j t' rest]; try done; injection Hxs as -> ->.
    + destruct (t_admin w Hw _ _ _ _ _ Hx) as (_ & h' & Hh' & Hk). rewrite Hh in Hh'. injection Hh' as <-.
      apply (Hb (phase_of h)). right. exists a, i, t, rest. by rewrite <- Hs, <- Hk in *.
    + destruct (t_step w Hw _ _ _ Hx) as [Hst _]. apply (Hb Instantiate). by left.
Qed.

Lemma tidy_act w w' : calm_step w w' -> tidy w -> tidy w'.
Proof.
  intros (e & Hc & He) Hw. destruct e as [s p pr|n d|t r|t|t x|t|s u|a s| | |].
  - cbn in He. destruct (_ && _) eqn:Hl; [|done]. injection He as <-. apply andb_true_iff in Hl as [_ Hl%negb_true_iff]. by apply tidy_inspect.
  - by eapply tidy_proceed.
  - cbn in He. unfold executed in He. destruct (tasks w !! t) as [k|] eqn:Ht; [|done]. cbn in He. destruct (state k) eqn:Hk; try done. injection He as <-.
    eapply tidy_task_on; [|exact Ht|congruence|done|by intros ? [= <-]|done].
    destruct (t_owner w Hw t k Ht) as (h & Hh & _); [congruence|]. by apply (tidy_alter_result (owner k) h).
  - cbn in He. unfold callback_ends in He. destruct (tasks w !! t) as [k|] eqn:Ht; [|done]. cbn in He.
    destruct (handlers w !! owner k) as [h|] eqn:Hh; [|done]. cbn in He. destruct (state k) eqn:Hk; try done. injection He as <-.
    pose proof (t_result w Hw _ _ _ Ht Hk) as Hr. apply String.eqb_neq in Hr. rewrite Hr.
    eapply tidy_task_unregistered; [done|done|congruence|done].
  - cbn in He. unfold run_crashes in He. destruct (tasks w !! t) as [k|] eqn:Ht; [|done]. cbn in He.
    destruct (handlers w !! owner k) as [h|] eqn:Hh; [|done]. cbn in He. destruct (state k) eqn:Hk; try done. injection He as <-.
    set (h' := h <| crashed := Some x |>). change (session_id h) with (session_id h').
    eapply tidy_task_unregistered; [by eapply tidy_handler|done|congruence|].
    cbn. apply list_lookup_insert_eq. by eapply lookup_lt_Some.
  - cbn in He. unfold task_cancelled in He. destruct (tasks w !! t) as [k|] eqn:Ht; [|done]. cbn in He. destruct (state k) eqn:Hk; try done. injection He as <-.
    eapply tidy_task_done; [done|exact Ht|congruence|]. intros _ _. destruct (t_cancel w Hw _ _ Ht Hk) as (y & Hy & Hys). eauto.
  - rewrite (signal_is_late w s u Hw Hc) in He. by injection He as <-.
  - cbn in He. injection He as <-. unfold admin_begin. destruct (negb _); [by apply tidy_say|].
    destruct (List.filter _ _); [by apply tidy_say|by apply tidy_admin_loop].
  - cbn in He. destruct (_ && _); [|done]. injection He as <-. by apply tidy_step_down.
  - cbn in He. destruct (_ && _) eqn:Hl; [|done]. injection He as <-. apply andb_true_iff in Hl as [_ Hl%negb_true_iff]. by apply tidy_stepped_down.
  - cbn in He. destruct (is_leader w); [done|]. injection He as <-. destruct Hw as [H1 H2 H3 H4 H5 H6 H7 H8 H9 H10 H11 H12 H13]. split; assumption.
Qed.

(** (C22) At most one task runs a phase of a session, and it is the task of the handler
    that the reconciler keeps for the phase, as long as no visit and no signal comes in
    between the steps of an operation that stops the handler, and no result is a
    suspension. *)
Theorem one_task_per_phase w t1 t2 k1 k2 h1 h2 : star calm_step initial w ->
  tasks w !! t1 = Some k1 -> state k1 <> Done -> handlers w !! owner k1 = Some h1 ->
  tasks w !! t2 = Some k2 -> state k2 <> Done -> handlers w !! owner k2 = Some h2 ->
  session_id h1 = session_id h2 -> phase_of h1 = phase_of h2 ->
  t1 = t2 /\ dict_get (key_of h1) (active w) = Some (owner k1).
Proof.
  intros Hr Ht1 Hk1 Hh1 Ht2 Hk2 Hh2 Hs Hp.
  pose proof (star_invariant _ tidy _ _ tidy_act Hr tidy_initial) as Hw.
  destruct (t_owner w Hw _ _ Ht1 Hk1) as (g1 & Hg1 & Hgt1 & Ha1). destruct (t_owner w Hw _ _ Ht2 Hk2) as (g2 & Hg2 & Hgt2 & Ha2).
  rewrite Hh1 in Hg1. injection Hg1 as <-. rewrite Hh2 in Hg2. injection Hg2 as <-.
  assert (key_of h1 = key_of h2) as Hk by (unfold key_of; by rewrite Hs, Hp).
  split; [|done]. rewrite <- Hk, Ha1 in Ha2. injection Ha2 as Ho. congruence.
Qed.

(** ** Retries *)
Section Retries.
Context (N : Z).

(** All results allow [N] retries. *)
Definition allowing (e : event) : Prop := match e with Executed _ r => result_max_retries r = N | _ => True end.
Definition allowing_step (w w' : world) : Prop := exists e, allowing e /\ act e w = Some w'.

Definition counted (w : world) : Prop :=
  Forall (fun h => forall r, result h = Some r -> result_max_retries r = N) (handlers w) /\
  map_Forall (fun _ c => 0 < c /\ (0 < N -> c < N)) (retry_counts w) /\
  (forall s p n, TerminateExhausted s p n ∈ outputs w -> 0 < N /\ n = N).

(** What a step may do besides: change handlers that keep or lose their results,
    forget counts, say other things. *)
Definition quiet (o : output) : Prop := match o with TerminateExhausted _ _ _ => False | _ => True end.

Lemma counted_say o w : counted w -> quiet o -> counted (say o w).
Proof.
  intros (H1 & H2 & H3) Ho. split; [done|]. split; [done|]. cbn. intros s p n [H|H%list_elem_of_singleton]%elem_of_app; [by eapply H3|].
  by subst o.
Qed.

Lemma counted_handlers l w : counted w -> (forall h r, h ∈ l -> result h = Some r -> result_max_retries r = N) -> counted (w <| handlers := l |>).
Proof. intros (H1 & H2 & H3) Hl. split; [|by split]. apply Forall_forall. intros h Hh r. by apply Hl. Qed.

Lemma counted_result w i h r : counted w -> handlers w !! i = Some h -> result h = Some r -> result_max_retries r = N.
Proof. intros (H1 & _) Hh. rewrite Forall_lookup in H1. by apply (H1 i h Hh). Qed.

(** A handler that keeps its result or loses it. *)
Lemma counted_handler i h h' w : counted w -> handlers w !! i = Some h -> (result h' = None \/ result h' = result h) ->
  counted (w <| handlers := <[i := h']> (handlers w) |>).
Proof.
  intros Hw Hh Hr. apply counted_handlers; [done|]. intros g r Hg He. apply list_elem_of_lookup in Hg as [j Hj].
  apply list_lookup_insert_Some in Hj as [(-> & <- & _)|[_ Hj]]; [|by eapply counted_result].
  destruct Hr as [Hr|Hr]; [congruence|]. eapply counted_result; [done|exact Hh|congruence].
Qed.

Lemma counted_start i w : counted w -> counted (start i w).
Proof.
  intros Hw. unfold start. destruct (handlers w !! i) as [h|] eqn:Hh; [|done]. destruct (is_running w h); [done|].
  by apply (counted_handler i h _ w Hw Hh); left.
Qed.

Lemma counted_stop_end i w : counted w -> counted (stop_end i w).
Proof.
  intros Hw. unfold stop_end. destruct (handlers w !! i) as [h|] eqn:Hh; [|done].
  by apply (counted_handler i h (h <| task_of := None |>) w Hw Hh); right.
Qed.

Lemma counted_forget a key w w' : counted w -> forget a key w = Some w' -> counted w'.
Proof.
  intros (H1 & H2 & H3). unfold forget. destruct (dict_get key _); [|done]. intros [= <-]. destruct a; [done|].
  split; [done|]. split; [|done]. cbn. by apply map_Forall_delete.
Qed.

Lemma counted_admin_loop a keys w : counted w -> counted (admin_loop a keys w).
Proof.
  revert w. induction keys as [|key keys IH]; intros w Hw; cbn; [by apply counted_say|].
  destruct (dict_get key (active w)) as [i|]; [|by apply IH]. destruct (handlers w !! i) as [h|]; [|done].
  assert (counted (default w (forget a key w))) as Hf by (destruct (forget a key w) eqn:Hf; [by eapply counted_forget|done]).
  destruct (task_of h) as [t|]; [|by apply IH]. destruct (live w t); [done|by apply IH].
Qed.

Lemma counted_step_down_loop l w : counted w -> counted (step_down_loop l w).
Proof.
  revert w. induction l as [|[key i] l IH]; intros w Hw; cbn.
  - destruct Hw as (H1 & H2 & H3). split; [done|]. split; [|done]. cbn. apply map_Forall_empty.
  - destruct (handlers w !! i) as [h|]; [|by apply IH]. pose proof (IH _ (counted_stop_end i w Hw)).
    destruct (task_of h) as [t|]; [|done]. by destruct (live w t).
Qed.

Lemma counted_inspect s p pr w : counted w -> counted (inspect s p pr w).
Proof.
  intros Hw. unfold inspect. destruct (dict_get _ _) as [i|]; [|done]. destruct (handlers w !! i) as [h|] eqn:Hh; [|done].
  destruct (is_running w h); [by apply counted_say|]. destruct (result h) as [r|] eqn:Hr; [|done].
  destruct (_ || _); [by apply counted_say|]. destruct (String.eqb _ _); [|done].
  pose proof (counted_result _ _ _ _ Hw Hh Hr) as Hn. destruct Hw as (H1 & H2 & H3). cbn. set (key := handler_key s p).
  assert (0 < default 0 (retry_counts w !! key) + 1 /\ (0 < N -> default 0 (retry_counts w !! key) + 1 <= N)) as Hc.
  { destruct (retry_counts w !! key) as [c|] eqn:Hc; cbn; [|lia]. specialize (H2 key c Hc). cbn in H2. lia. }
  rewrite Hn. destruct ((0 <? N) && _) eqn:Hb.
  - assert (0 < N /\ default 0 (retry_counts w !! key) + 1 = N) as He by lia.
    split; [by destruct (bool_decide _)|]. split; [by destruct (bool_decide _)|]. cbn.
    intros s' p' n [H|[= -> -> ->]%list_elem_of_singleton]%elem_of_app; [|done]. eapply H3. revert H.
    destruct (bool_decide _); cbn; [|by intros; eauto]. intros [H|H%list_elem_of_singleton]%elem_of_app; [exact H|done].
  - split; [done|]. split; [|done]. cbn. apply map_Forall_insert_2; [|done]. split; [lia|]. intros HN.
    destruct (default 0 (retry_counts w !! key) + 1 =? N) eqn:E; [|lia]. exfalso. apply andb_false_iff in Hb. lia.
Qed.

Lemma counted_act w w' : allowing_step w w' -> counted w -> counted w'.
Proof.
  intros (e & Hc & He) Hw. destruct e as [s p pr|n d|t r|t|t x|t|s u|a s| | |]; cbn in He.
  - destruct (_ && _); [|done]. injection He as <-. by apply counted_inspect.
  - unfold proceed in He. destruct (waits w !! n) as [[s p pr e|s e r|a key i t rest|i t rest]|]; [..|done]; cbn in He.
    + injection He as <-. unfold launch. destruct d as [d|]; [|apply (counted_say (TerminateUndefined s p) w Hw I)].
      apply counted_say; [|done]. apply counted_start. destruct Hw as (H1 & H2 & H3). split; [|by split]. cbn.
      apply Forall_app. split; [done|]. by apply Forall_singleton.
    + injection He as <-. by apply (counted_say (Answer s r) w Hw).
    + destruct (live w t); [done|]. injection He as <-. assert (counted (stop_end i (without n w))) as Hw' by (by apply counted_stop_end).
      destruct (forget _ _ _) eqn:Hf; [by apply counted_admin_loop; eapply counted_forget|by apply counted_say].
    + destruct (live w t); [done|]. injection He as <-. apply counted_step_down_loop. by apply counted_stop_end.
  - unfold executed in He. destruct (tasks w !! t) as [k|]; [|done]. cbn in He. destruct (state k); try done. injection He as <-.
    apply (counted_handlers _ w Hw). intros h r' Hh Hr. apply list_elem_of_lookup in Hh as [j Hj].
    destruct (decide (j = owner k)) as [->|]; [|rewrite list_lookup_alter_ne in Hj by done; by eapply counted_result].
    rewrite list_lookup_alter_eq in Hj. destruct (handlers w !! owner k); [|done]. injection Hj as <-. cbn in Hr. congruence.
  - unfold callback_ends in He. destruct (tasks w !! t) as [k|]; [|done]. cbn in He. destruct (handlers w !! owner k); [|done]. cbn in He.
    destruct (state k); try done. injection He as <-. by destruct (String.eqb _ _).
  - unfold run_crashes in He. destruct (tasks w !! t) as [k|]; [|done]. cbn in He. destruct (handlers w !! owner k) as [h|] eqn:Hh; [|done]. cbn in He.
    destruct (state k); try done. injection He as <-. by apply (counted_handler _ h _ w Hw Hh); right.
  - unfold task_cancelled in He. destruct (tasks w !! t) as [k|]; [|done]. cbn in He. destruct (state k); try done. by injection He as <-.
  - injection He as <-. destruct (registry w !! s) as [i|]; [|done]. unfold resume. destruct (handlers w !! i) as [h|] eqn:Hh; [|done].
    destruct (is_running w h); [done|]. apply counted_start. by eapply counted_handler; [..|right].
  - injection He as <-. unfold admin_begin. destruct (negb _); [by apply counted_say|].
    destruct (List.filter _ _); [by apply counted_say|by apply counted_admin_loop].
  - destruct (_ && _); [|done]. injection He as <-. unfold step_down. by apply counted_step_down_loop.
  - destruct (_ && _); [|done]. by injection He as <-.
  - destruct (is_leader w); [done|]. by injection He as <-.
Qed.

End Retries.

(** ** Where it fails *)

(** The task that the next handler gets. *)
Definition started (s : string) (p : phase) (w w' : world) : Prop :=
  let t := length (tasks w) in
  exists h, tasks w' !! t = Some {| owner := length (handlers w); state := Executing |} /\ handlers w' !! length (handlers w) = Some h /\
    session_id h = s /\ phase_of h = p /\ pipeline_attempt h = 1 /\ task_of h = Some t.

(** What a launch changes. *)
Lemma launch_spec s p pr d w : let w' := launch s p pr (Some d) w in let i := length (handlers w) in
  started s p w w' /\
  tasks w' = tasks w ++ [{| owner := i; state := Executing |}] /\ (exists h, handlers w' = handlers w ++ [h]) /\
  registry w' = <[s := i]> (registry w) /\ active w' = dict_set (handler_key s p) i (active w) /\
  waits w' = waits w /\ epoch w' = epoch w /\ is_leader w' = is_leader w /\ stepping w' = stepping w.
Proof.
  unfold launch, start, started. cbn. rewrite list_lookup_middle by done. cbn. rewrite insert_app_r_alt, Nat.sub_diag by done. cbn.
  repeat split; [|by eexists]. eexists. rewrite !list_lookup_middle by done. by repeat split.
Qed.

(** A visit of a phase without a handler. *)
Lemma visit_fresh s p pr w : is_leader w = true -> locked w s = false -> dict_get (handler_key s p) (active w) = None ->
  act (Visit s p pr) w = Some (wait (VisitLaunch s p pr (epoch w)) w).
Proof. intros Hl Hk Ha. cbn. rewrite Hl, Hk. cbn. unfold inspect. by rewrite Ha. Qed.

Lemma without_last x w : without (length (waits w)) (wait x w) = w.
Proof.
  unfold without, wait. destruct w as [a b c d e l f g h i]. cbn. f_equal. rewrite delete_take_drop, take_app_length.
  rewrite drop_app_ge by lia. by replace (S (length l) - length l)%nat with 1%nat by lia; rewrite app_nil_r.
Qed.

Lemma visit_and_launch s p pr d w : is_leader w = true -> locked w s = false -> dict_get (handler_key s p) (active w) = None ->
  acts [Visit s p pr; Continue (length (waits w)) (Some d)] w = Some (launch s p pr (Some d) w).
Proof.
  intros Hl Hk Ha. cbn [acts]. rewrite visit_fresh by done. cbn [mbind option_bind act]. unfold proceed.
  change (waits (wait ?x w)) with (waits w ++ [x]). rewrite list_lookup_middle by done. cbn [mbind option_bind]. by rewrite without_last.
Qed.

(** The phases of one session overlap: a session that leaves a phase early (it
    expires, or is terminated, while it is instantiated) keeps the task of that phase,
    and the next visit starts another beside it; the signals of the session go to the
    new handler from then on. *)
Theorem phases_overlap s p p' pr d w t k h : is_leader w = true -> locked w s = false ->
  dict_get (handler_key s p') (active w) = None ->
  tasks w !! t = Some k -> state k <> Done -> handlers w !! owner k = Some h -> session_id h = s -> phase_of h = p ->
  exists w', acts [Visit s p' pr; Continue (length (waits w)) (Some d)] w = Some w' /\
    tasks w' !! t = Some k /\ handlers w' !! owner k = Some h /\ started s p' w w' /\
    registry w' !! s = Some (length (handlers w)).
Proof.
  intros Hl Hk Ha Ht Hd Hh Hs Hp. eexists. split; [by apply visit_and_launch|].
  destruct (launch_spec s p' pr d w) as (Hst & Hts & [g Hg] & Hr & _). rewrite Hts, Hg, Hr.
  split; [by apply lookup_app_l_Some|]. split; [by apply lookup_app_l_Some|]. split; [done|]. by apply lookup_insert_eq.
Qed.

(** A step-down that finds nothing running is over at once. *)
Definition stop_all (l : list (string * nat)) (w : world) : world := fold_left (fun v ki => stop_end ki.2 v) l w.

Lemma stop_all_spec l w : let w' := stop_all l w in
  tasks w' = tasks w /\ waits w' = waits w /\ is_leader w' = is_leader w /\ stepping w' = stepping w /\ length (handlers w') = length (handlers w).
Proof.
  revert w. induction l as [|[key i] l IH]; intros w; [done|]. change (stop_all ((key, i) :: l) w) with (stop_all l (stop_end i w)). cbv zeta in *.
  destruct (IH (stop_end i w)) as (-> & -> & -> & -> & ->). unfold stop_end. destruct (handlers w !! i); [|done]. cbn. by rewrite length_insert.
Qed.

Lemma step_down_loop_idle l w : (forall t, live w t = false) -> step_down_loop l w = step_down_loop [] (stop_all l w).
Proof.
  revert w. induction l as [|[key i] l IH]; intros w Hd; [done|].
  change (stop_all ((key, i) :: l) w) with (stop_all l (stop_end i w)).
  assert (forall t, live (stop_end i w) t = false) as Hd' by (intros t; unfold live; rewrite stop_end_tasks; apply Hd).
  rewrite <- (IH _ Hd'). cbn [step_down_loop]. unfold stop_end at 3. destruct (handlers w !! i) as [h|] eqn:Hh; [|done].
  assert (stop_end i w = unregister (session_id h) (w <| handlers := <[i := h <| task_of := None |>]> (handlers w) |>)) as <-
    by (unfold stop_end; by rewrite Hh).
  destruct (task_of h) as [t|]; [|done]. by rewrite Hd.
Qed.

Lemma step_down_idle w : is_leader w = true -> stepping w = false -> (forall t, live w t = false) ->
  exists v, act StepDown w = Some v /\ tasks v = tasks w /\ waits v = waits w /\ is_leader v = true /\ stepping v = true /\
    length (handlers v) = length (handlers w).
Proof.
  intros Hl Hs Hd. destruct (stop_all_spec (active w) (w <| stepping := true |>)) as (H1 & H2 & H3 & H4 & H5).
  exists (step_down_loop [] (stop_all (active w) (w <| stepping := true |>))). split.
  - cbn [act]. rewrite Hl, Hs. cbn [negb andb]. unfold step_down. f_equal. by apply step_down_loop_idle.
  - cbn -[stop_all] in *. by rewrite H1, H2, H3, H4, H5.
Qed.

Lemma existsb_delete {A} (f : A -> bool) n l : existsb f l = false -> existsb f (delete n l) = false.
Proof.
  intros Hf. apply not_true_iff_false. intros (x & Hx & Hxf)%List.existsb_exists. apply not_true_iff_false in Hf. apply Hf, List.existsb_exists.
  exists x. split; [|done]. apply list_elem_of_In. by eapply elem_of_delete_sub, list_elem_of_In.
Qed.

(** The step-down can miss a handler: it stops the handlers first and cancels the
    loops of the reconciler last, so a visit that waits for a definition in between
    starts a handler, whose task runs on after the service has stopped leading. *)
Theorem step_down_misses s p pr e d n w : is_leader w = true -> stepping w = false -> (forall t, live w t = false) ->
  existsb step_down_waits (waits w) = false -> waits w !! n = Some (VisitLaunch s p pr e) ->
  exists w', acts [StepDown; Continue n (Some d); SteppedDown] w = Some w' /\ is_leader w' = false /\ stepping w' = false /\
    started s p w w' /\ live w' (length (tasks w)) = true.
Proof.
  intros Hl Hs Hd Hw Hn. destruct (step_down_idle w Hl Hs Hd) as (v1 & H1 & E1 & E2 & E3 & E4 & E5).
  destruct (launch_spec s p pr d (without n v1)) as (Hst & _ & _ & _ & _ & Hws & _ & _ & Hsp).
  assert (act (Continue n (Some d)) v1 = Some (launch s p pr (Some d) (without n v1))) as H2.
  { cbn [act]. unfold proceed. by rewrite E2, Hn. }
  set (v2 := launch s p pr (Some d) (without n v1)) in *.
  assert (existsb step_down_waits (waits v2) = false) as E7 by (rewrite Hws; cbn; rewrite E2; by apply existsb_delete).
  clearbody v2. cbn [without stepping] in Hsp. cbn in Hsp. rewrite E4 in Hsp.
  cbn [acts]. rewrite H1. cbn [mbind option_bind]. rewrite H2. cbn [mbind option_bind act]. rewrite E7, Hsp. cbn.
  eexists. split; [reflexivity|]. unfold started in *. cbn in Hst. rewrite E1, E5 in Hst. cbn.
  split; [done|]. split; [done|]. split; [exact Hst|]. destruct Hst as (h & Ht & _). unfold live. cbn. by rewrite Ht.
Qed.

(** *** Cancelling a pipeline *)

Lemma acts_app l1 e l2 w w' r : acts l1 w = Some w' -> acts (e :: l2) w' = r -> acts (l1 ++ e :: l2) w = r.
Proof.
  revert w. induction l1 as [|e1 l1 IH]; intros w; cbn [acts app]; [by intros [= ->]|].
  destruct (act e1 w) as [v|]; [|done]. cbn [mbind option_bind]. apply IH.
Qed.

Lemma str_prefix_app s a b : String.prefix (s +:+ a) (s +:+ b) = String.prefix a b.
Proof.
  induction s as [|c s IH]; [done|].
  change (String.prefix (String c (s +:+ a)) (String c (s +:+ b)) = String.prefix a b). cbn [String.prefix].
  destruct (Ascii.ascii_dec c c); [exact IH|done].
Qed.

(** The phase of a session is the only one with a handler; its task is live; nothing
    waits. *)
Record lone (s : string) (p : phase) (i t : nat) (w : world) : Prop := {
  l_leader : is_leader w = true;
  l_active : active w = [(handler_key s p, i)];
  l_waits : waits w = [];
  l_task : exists k h, tasks w !! t = Some k /\ owner k = i /\ state k = Executing /\ handlers w !! i = Some h /\
    task_of h = Some t /\ session_id h = s /\ result h = None
}.

(** What is left of it once the task has ended: the operation still waits. *)
Definition cancelling (s : string) (p : phase) (i t : nat) (w w' : world) : Prop :=
  is_leader w' = true /\ active w' = active w /\ waits w' = [AdminStop CancelPipeline (handler_key s p) i t []] /\
  live w' t = false /\ handlers w' = handlers w /\ length (tasks w') = length (tasks w) /\ epoch w' = epoch w /\
  retry_counts w' = retry_counts w.

Lemma cancel_begins s p i t w : lone s p i t w ->
  exists w', acts [Admin CancelPipeline s; TaskCancelled t] w = Some w' /\ cancelling s p i t w w'.
Proof.
  intros [Hl Ha Hw (k & h & Hk & Ho & He & Hh & Ht & Hs & Hr)].
  assert (live w t = true) as Hlive by (apply live_spec; exists k; split; [done|congruence]).
  assert (act (Admin CancelPipeline s) w = Some (wait (AdminStop CancelPipeline (handler_key s p) i t []) (stop_request t w))) as H1.
  { cbn [act]. unfold admin_begin. rewrite Hl, Ha. cbn [negb dict_keys map fst List.filter].
    unfold py_startswith, handler_key at 1. rewrite str_prefix_app.
    replace (String.prefix ":" (":" +:+ pipeline_of p)) with true by (by destruct p).
    cbn [admin_loop]. rewrite Ha. cbn [dict_get]. rewrite String.eqb_refl. by rewrite Hh, Ht, Hlive. }
  cbn [acts]. rewrite H1. cbn [mbind option_bind act]. unfold task_cancelled. cbn. rewrite list_lookup_alter_eq, Hk. cbn.
  eexists. split; [reflexivity|]. repeat split; cbn; try done; [by rewrite Hw| |by rewrite !length_alter].
  unfold live. cbn. by rewrite list_lookup_alter_eq, list_lookup_alter_eq, Hk.
Qed.

(** The operation ends. *)
Lemma cancel_ends key i j t h w : waits w = [AdminStop CancelPipeline key i t []] -> live w t = false -> handlers w !! i = Some h ->
  active w = [(key, j)] ->
  exists w', act (Continue 0 None) w = Some w' /\ active w' = [] /\ waits w' = [] /\ is_leader w' = is_leader w /\ tasks w' = tasks w /\
    handlers w' = <[i := h <| task_of := None |>]> (handlers w).
Proof.
  intros Hw Hl Hh Ha. cbn [act]. unfold proceed. rewrite Hw. cbn [lookup list_lookup mbind option_bind]. rewrite Hl.
  unfold stop_end. cbn. rewrite Hh. unfold forget. cbn. rewrite Ha. cbn. rewrite String.eqb_refl. cbn.
  eexists. split; [reflexivity|]. cbn. by rewrite Hw.
Qed.

(** Cancelling the pipeline of a session does not keep it from running again: once
    the operation is over, the next visit starts the phase anew, whatever its count
    of failures. *)
Theorem cancelled_restarts s p i t pr d w : lone s p i t w ->
  exists w1 w2, acts [Admin CancelPipeline s; TaskCancelled t; Continue 0 None] w = Some w1 /\ waits w1 = [] /\ live w1 t = false /\
    acts [Visit s p pr; Continue 0 (Some d)] w1 = Some w2 /\ started s p w1 w2.
Proof.
  intros Hw. destruct (cancel_begins _ _ _ _ _ Hw) as (v & Hv & Hl & Ha & Hwt & Hlt & Hh & _).
  destruct Hw as [_ Ha0 _ (k & h & Hk & Ho & He & Hh0 & Ht & Hs & Hr)].
  destruct (cancel_ends (handler_key s p) i i t h v Hwt Hlt) as (w1 & Hw1 & Ha1 & Hwt1 & Hl1 & Ht1 & _); [congruence|by rewrite Ha|].
  exists w1, (launch s p pr (Some d) w1). split; [eapply (acts_app [_; _] _ [] _ _ _ Hv); cbn [acts]; by rewrite Hw1|]. split; [done|].
  split; [unfold live; rewrite Ht1; exact Hlt|]. split; [|by apply launch_spec].
  rewrite <- (visit_and_launch s p pr d w1); [by rewrite Hwt1|by rewrite Hl1|unfold locked; by rewrite Hwt1|by rewrite Ha1].
Qed.

(** The operations of the administrator do not take the lock of the session: a visit
    that comes in while one awaits the task starts a new handler, whose entry the
    operation then deletes; the next visit starts a second one, and two tasks run the
    same phase of the same session. *)
Theorem cancel_race s p i t pr1 pr2 d1 d2 w : lone s p i t w ->
  exists w', acts [Admin CancelPipeline s; TaskCancelled t; Visit s p pr1; Continue 1 (Some d1); Continue 0 None;
                   Visit s p pr2; Continue 0 (Some d2)] w = Some w' /\
    exists t1 t2 k1 k2 h1 h2, t1 <> t2 /\ tasks w' !! t1 = Some k1 /\ state k1 = Executing /\ tasks w' !! t2 = Some k2 /\ state k2 = Executing /\
      handlers w' !! owner k1 = Some h1 /\ handlers w' !! owner k2 = Some h2 /\
      session_id h1 = s /\ session_id h2 = s /\ phase_of h1 = p /\ phase_of h2 = p.
Proof.
  intros Hw. destruct (cancel_begins _ _ _ _ _ Hw) as (v & Hv & Hl & Ha & Hwt & Hlt & Hh & Htk & _).
  destruct Hw as [_ Ha0 _ (k & h & Hk & Ho & He & Hh0 & Ht & Hs & Hr)]. rewrite Ha0 in Ha. rewrite <- Hh in Hh0.
  set (v1 := wait (VisitLaunch s p pr1 (epoch v)) (v <| active := [] |>)).
  assert (act (Visit s p pr1) v = Some v1) as H1.
  { cbn [act]. rewrite Hl. unfold locked. rewrite Hwt. cbn [existsb locks negb andb orb]. unfold inspect. rewrite Ha. cbn [dict_get].
    rewrite String.eqb_refl, Hh0, (running_by _ _ _ Ht), Hlt, Hr. cbn [dict_pop]. by rewrite String.eqb_refl. }
  set (v2 := launch s p pr1 (Some d1) (without 1 v1)).
  assert (act (Continue 1 (Some d1)) v1 = Some v2) as H2 by (cbn [act]; unfold proceed; cbn; by rewrite Hwt).
  destruct (launch_spec s p pr1 d1 (without 1 v1)) as ((g1 & Hg1 & Hg2 & Hg3 & Hg4 & _) & Ets & [g Eh] & _ & Ea & Ew & _ & El & _). fold v2 in Hg1, Hg2, Ets, Eh, Ea, Ew, El. clearbody v2.
  cbn in Hg1, Hg2, Ets, Eh, Ea, Ew, El. rewrite Hwt in Ew. cbn in Ew. rewrite Hl in El.
  assert (live v2 t = false) as Hlt2.
  { unfold live in *. rewrite Ets. rewrite lookup_app_l; [exact Hlt|]. rewrite Htk. by eapply lookup_lt_Some. }
  destruct (cancel_ends (handler_key s p) i (length (handlers v)) t h v2 Ew Hlt2) as (v3 & H3 & Ha3 & Hwt3 & Hl3 & Ht3 & Hh3).
  { rewrite Eh. by apply lookup_app_l_Some. } { exact Ea. }
  pose proof (visit_and_launch s p pr2 d2 v3) as H4. rewrite Hwt3 in H4.
  specialize (H4 ltac:(congruence) ltac:(unfold locked; by rewrite Hwt3) ltac:(by rewrite Ha3)).
  destruct (launch_spec s p pr2 d2 v3) as ((g2 & Hg5 & Hg6 & Hg7 & Hg8 & _) & Ets' & [g' Eh'] & _).
  eexists. split; [eapply (acts_app [_; _] _ [_; _; _; _] _ _ _ Hv); cbn [acts]; rewrite H1; cbn [mbind option_bind]; rewrite H2; cbn [mbind option_bind]; rewrite H3; exact H4|].
  assert (i < length (handlers v))%nat as Hi by (by eapply lookup_lt_Some).
  eexists _, _, _, _, g1, g2. split; [|split; [|split; [|split; [exact Hg5|split; [done|split; [|split; [exact Hg6|done]]]]]]].
  2: { rewrite Ets'. apply lookup_app_l_Some. rewrite Ht3. exact Hg1. }
  - rewrite Ht3, Ets, length_app. cbn. lia.
  - done.
  - cbn [owner]. rewrite Eh'. apply lookup_app_l_Some. rewrite Hh3. rewrite list_lookup_insert_ne by lia. exact Hg2.
Qed.

(** ** Witnesses *)

Lemma acts_allowing N l w w' : acts l w = Some w' -> Forall (allowing N) l -> star (allowing_step N) w w'.
Proof.
  revert w. induction l as [|e l IH]; intros w; cbn [acts]; [by intros [= ->] _; constructor|].
  destruct (act e w) as [v|] eqn:He; [|done]. cbn [mbind option_bind]. intros Hv [Ha Hl]%Forall_cons.
  eapply star_step; [exists e; split; [exact Ha|exact He]|by apply IH].
Qed.

Lemma not_busy w key : stepping w = false -> Forall (fun x => stop_of x = None) (waits w) -> ~ busy w key.
Proof. intros Hs Hf [H|(a & i & t & rest & Hx)]; [congruence|]. rewrite Forall_forall in Hf. by specialize (Hf _ Hx). Qed.

Definition after (l : list event) : world := default initial (acts l initial).

Definition instantiating : list event := [BecomeLeader; Visit "s1" Instantiate None; Continue 0 (Some [])].
Definition failed_run : PipelineResult := {|
  pipeline_name := "instantiate"; status := "failed"; steps_completed := 1; steps_failed := 1; steps_skipped := 0;
  steps_suspended := 0; resolved_outputs := []; error := None; result_max_retries := 2; result_external_jobs := [] |}.
Definition failing (n t : nat) : list event :=
  [Visit "s1" Instantiate None; Continue n (Some []); Executed t failed_run; CallbackEnds t].

Lemma one_task_per_phase_witness : exists k h, tasks (after instantiating) !! 0%nat = Some k /\ state k = Executing /\
  handlers (after instantiating) !! owner k = Some h /\ dict_get (key_of h) (active (after instantiating)) = Some (owner k).
Proof.
  eexists _, _. split; [reflexivity|]. split; [reflexivity|]. split; [reflexivity|].
  refine (proj2 (one_task_per_phase (after instantiating) 0 0 _ _ _ _ _ eq_refl _ eq_refl eq_refl _ eq_refl eq_refl eq_refl)); [|discriminate..].
  eapply star_step; [exists BecomeLeader; split; [exact I|reflexivity]|].
  eapply star_step; [exists (Visit "s1" Instantiate None); split; [|reflexivity]|].
  { apply not_busy; [reflexivity|constructor]. }
  eapply star_step; [exists (Continue 0 (Some [])); split; [|reflexivity]|apply star_refl].
  intros s p pr e [= <- <- <- <-]. apply not_busy; [reflexivity|]. repeat constructor.
Defined.


Lemma phases_overlap_witness : exists w', acts [Visit "s1" Teardown None; Continue 0 (Some [])] (after instantiating) = Some w' /\
  live w' 0 = true /\ live w' 1 = true /\ registry w' !! "s1" = Some 1%nat.
Proof.
  destruct (phases_overlap "s1" Instantiate Teardown None [] (after instantiating) 0 {| owner := 0; state := Executing |}
    (default (Build_handler "" Instantiate [] None None None None 0) (handlers (after instantiating) !! 0%nat)))
    as (w' & Hw & Ht & Hh & (h & Ht' & _) & Hr); [first [reflexivity|discriminate]..|].
  exists w'. split; [exact Hw|]. unfold live. rewrite Ht. split; [reflexivity|]. cbn in Ht'. rewrite Ht'. split; [reflexivity|exact Hr].
Defined.

Definition fetching : list event := [BecomeLeader; Visit "s1" Instantiate None].

Lemma step_down_misses_witness : exists w', acts [StepDown; Continue 0 (Some []); SteppedDown] (after fetching) = Some w' /\
  is_leader w' = false /\ live w' 0 = true.
Proof.
  destruct (step_down_misses "s1" Instantiate None 0 [] 0 (after fetching)) as (w' & Hw & Hl & _ & _ & Hlv); [reflexivity..|].
  exists w'. split; [exact Hw|]. split; [exact Hl|exact Hlv].
Defined.

Lemma lone_instantiating : lone "s1" Instantiate 0 0 (after instantiating).
Proof. split; [reflexivity..|]. eexists _, _. repeat split. Qed.

Lemma cancelled_restarts_witness : exists w1 w2,
  acts [Admin CancelPipeline "s1"; TaskCancelled 0; Continue 0 None] (after instantiating) = Some w1 /\ live w1 0 = false /\
  acts [Visit "s1" Instantiate None; Continue 0 (Some [])] w1 = Some w2 /\ started "s1" Instantiate w1 w2.
Proof.
  destruct (cancelled_restarts "s1" Instantiate 0 0 None [] _ lone_instantiating) as (w1 & w2 & H1 & _ & H2 & H3 & H4).
  exists w1, w2. split; [exact H1|]. split; [exact H2|]. split; [exact H3|exact H4].
Defined.

Lemma cancel_race_witness : exists w',
  acts [Admin CancelPipeline "s1"; TaskCancelled 0; Visit "s1" Instantiate None; Continue 1 (Some []); Continue 0 None;
        Visit "s1" Instantiate None; Continue 0 (Some [])] (after instantiating) = Some w' /\
  exists t1 t2, t1 <> t2 /\ live w' t1 = true /\ live w' t2 = true.
Proof.
  destruct (cancel_race "s1" Instantiate 0 0 None None [] [] _ lone_instantiating) as (w' & Hw & t1 & t2 & k1 & k2 & h1 & h2 & Hne & H1 & S1 & H2 & S2 & _).
  exists w'. split; [exact Hw|]. exists t1, t2. split; [exact Hne|]. split; apply live_spec; eexists; (split; [eassumption|congruence]).
Defined.
