(* ===== verification/DeviceAccess.v ===== *)
(** * Device access of LDS sessions

    ([lablet-controller/application/services/reconciler_helpers/lds_helpers.py] and the
    fallback of [step_handlers/lds_provision_step.py])

    Which devices a user of a session sees, and at which port each is reached. *)
From S2P Require Import Prelude PyData Slug.
From Stdlib Require Import Ascii.

Record DeviceAccessInfo := { device_label : string; protocol : string; host : string; port : Z }.
#[export] Instance device_eq : EqDecision DeviceAccessInfo.
Proof. solve_decision. Defined.

Definition DEFAULT_PROTOCOL_PRIORITY : list string := ["vnc"; "http"; "https"; "rdp"; "ssh"; "serial"; "telnet"].

(** [s.rsplit(c, 1)] with two parts: those before and after the last [c]. *)
Fixpoint rsplit_once (c : Ascii.ascii) (s : string) : option (string * string) :=
  match s with
  | EmptyString => None
  | String a s =>
      match rsplit_once c s with
      | Some (before, after) => Some (String a before, after)
      | None => if Ascii.eqb a c then Some (EmptyString, s) else None
      end
  end.

(** [s.split(c, 1)] with two parts. *)
Fixpoint split_once (c : Ascii.ascii) (s : string) : option (string * string) :=
  match s with
  | EmptyString => None
  | String a s =>
      if Ascii.eqb a c then Some (EmptyString, s)
      else '(before, after) ← split_once c s; Some (String a before, after)
  end.

(** [l.index(x)], which raises [ValueError] when there is none. *)
Fixpoint index_of (x : string) (l : list string) : option nat :=
  match l with
  | [] => None
  | y :: l => if String.eqb x y then Some 0%nat else S <$> index_of x l
  end.

(** ** From the allocated ports ([build_device_access_from_allocated_ports]) *)

Abbreviation ports := (list (string * Z)).

(** The loop of [_select_by_priority]: the best index so far and its entry. *)
Fixpoint select_loop (priority : list string) (best_idx : nat) (best_entry : string * Z) (port_list : ports) : string * Z :=
  match port_list with
  | [] => best_entry
  | (protocol, port_number) :: port_list =>
      let idx := default (length priority) (index_of protocol priority) in
      if (idx <? best_idx)%nat then select_loop priority idx (protocol, port_number) port_list
      else select_loop priority best_idx best_entry port_list
  end.

(** [_select_by_priority] of a list that is not empty. *)
Definition select_by_priority (first : string * Z) (rest : ports) (priority : list string) : string * Z :=
  select_loop priority (length priority) first (first :: rest).

(** The first pass: the candidates by label. *)
Definition add_candidate (user_visible_labels : option (list string)) (candidates : dict ports) (entry : string * Z) : dict ports :=
  match rsplit_once "_"%char entry.1 with
  | None => candidates
  | Some (node_label, protocol) =>
      if match user_visible_labels with Some labels => negb (bool_decide (node_label ∈ labels)) | None => false end
      then candidates
      else dict_set node_label (default [] (dict_get node_label candidates) ++ [(protocol, entry.2)]) candidates
  end.

(** The second pass for one label. *)
Definition resolve_conflict (priority : list string) (port_preferences : option (dict string)) (node_label : string)
    (first : string * Z) (rest : ports) : string * Z :=
  match rest with
  | [] => first
  | _ =>
      match dict_get node_label (default [] port_preferences) with
      | Some preferred_port_name =>
          if str_truthy preferred_port_name then
            match '(_, preferred_protocol) ← rsplit_once "_"%char preferred_port_name;
                  List.find (fun pp => String.eqb pp.1 preferred_protocol) (first :: rest) with
            | Some m => m
            | None => select_by_priority first rest priority
            end
          else select_by_priority first rest priority
      | None => select_by_priority first rest priority
      end
  end.

Definition build_device_access_from_allocated_ports (allocated_ports : dict Z) (worker_ip : string)
    (user_visible_labels : option (list string)) (protocol_priority : list string)
    (port_preferences : option (dict string)) : list DeviceAccessInfo :=
  let priority := match protocol_priority with [] => DEFAULT_PROTOCOL_PRIORITY | l => l end in
  let candidates := fold_left (add_candidate user_visible_labels) allocated_ports [] in
  omap (fun '(node_label, port_list) =>
    match port_list with
    | [] => None
    | first :: rest =>
        let '(protocol, port_number) := resolve_conflict priority port_preferences node_label first rest in
        Some {| device_label := node_label; protocol := protocol; host := worker_ip; port := port_number |}
    end) candidates.

(** ** From the tags of the nodes ([build_device_access_list]) *)

Record NodeInfo := { label : string; tags : list string }.

(** The [(protocol, port)] of a tag ["serial:5041"]. *)
Definition tag_pair (tag : string) : option (string * Z) :=
  '(p, n) ← split_once ":"%char tag;
  port ← py_int (py_strip n);
  Some (py_strip p, port).

Definition node_devices (worker_ip : string) (node : NodeInfo) : list DeviceAccessInfo :=
  let valid_pairs := omap tag_pair (tags node) in
  let use_suffix := (1 <? length valid_pairs)%nat in
  map (fun '(protocol, port) =>
    {| device_label := if use_suffix then label node +:+ "_" +:+ protocol else label node;
       protocol := protocol; host := worker_ip; port := port |}) valid_pairs.

Definition build_device_access_list (nodes : list NodeInfo) (worker_ip : string) (user_visible_labels : option (list string))
    : list DeviceAccessInfo :=
  concat (map (fun node =>
    if match user_visible_labels with Some labels => negb (bool_decide (label node ∈ labels)) | None => false end
    then [] else node_devices worker_ip node) nodes).

(** [_build_device_access_list_simple] *)
Definition tag_pair_simple (tag : string) : option (string * Z) :=
  '(p, n) ← split_once ":"%char tag;
  port ← py_int n;
  Some (p, port).
Definition build_device_access_list_simple (nodes : list NodeInfo) (worker_ip : string) : list DeviceAccessInfo :=
  concat (map (fun node => map (fun '(protocol, port) =>
    {| device_label := label node; protocol := protocol; host := worker_ip; port := port |}) (omap tag_pair_simple (tags node))) nodes).

(** ** The devices of a session (the middle of [step_lds_provision])

    [raw_visible] are the labels that the content of the definition shows, if it has
    been parsed; [all_devices] are those of the nodes. *)
Definition session_devices (allocated_ports : dict Z) (worker_ip : string) (raw_visible : option (list string))
    (lds_protocol_priority : list string) (lds_port_preferences : option (dict string)) (all_devices : list DeviceAccessInfo)
    : list DeviceAccessInfo :=
  match allocated_ports with
  | _ :: _ => build_device_access_from_allocated_ports allocated_ports worker_ip raw_visible lds_protocol_priority lds_port_preferences
  | [] =>
      match raw_visible with
      | Some ((_ :: _) as visible_labels) => List.filter (fun d => bool_decide (device_label d ∈ visible_labels)) all_devices
      | _ => all_devices
      end
  end.
