(* ===== verification/DeviceAccessProps.v ===== *)
(** * One device per label, at one of its ports

    What [build_device_access_from_allocated_ports] returns, the labels that the names
    of ports cannot carry, and what the path over the tags does instead. *)
From S2P Require Import Prelude PyData Slug Ports DeviceAccess.
From Stdlib Require Import Ascii.

(** ** Names of ports *)

Lemma rsplit_once_some c s a b : rsplit_once c s = Some (a, b) -> s = a +:+ String c b.
Proof.
  revert a b. induction s as [|x s IH]; intros a b; cbn; [done|]. destruct (rsplit_once c s) as [[a' b']|] eqn:Hs.
  - intros [= <- <-]. by rewrite (IH _ _ eq_refl) at 1.
  - destruct (Ascii.eqb_spec x c) as [->|]; [|done]. by intros [= <- <-].
Qed.

Definition without_char (c : ascii) (s : string) : bool := str_forallb (fun x => negb (Ascii.eqb x c)) s.

Lemma rsplit_once_none c s : without_char c s = true -> rsplit_once c s = None.
Proof.
  unfold without_char. induction s as [|x s IH]; [done|]. cbn. intros [Hx%negb_true_iff Hs]%andb_true_iff. by rewrite (IH Hs), Hx.
Qed.

Lemma rsplit_once_last c a b : without_char c b = true -> rsplit_once c (a +:+ String c b) = Some (a, b).
Proof.
  intros Hb. induction a as [|x a IH].
  - change (rsplit_once c (String c b) = Some ("", b)). cbn. by rewrite (rsplit_once_none _ _ Hb), Ascii.eqb_refl.
  - change (match rsplit_once c (a +:+ String c b) with
            | Some (before, after) => Some (String x before, after)
            | None => if Ascii.eqb x c then Some ("", a +:+ String c b) else None
            end = Some (String x a, b)). by rewrite IH.
Qed.

(** ** Choosing by priority *)

Definition rank (priority : list string) (p : string) : nat := default (length priority) (index_of p priority).

Lemma index_of_lt x l i : index_of x l = Some i -> (i < length l)%nat.
Proof.
  revert i. induction l as [|y l IH]; intros i; cbn; [done|]. destruct (String.eqb x y); [intros [= <-]; lia|].
  destruct (index_of x l) as [j|]; [|done]. intros [= <-]. specialize (IH j eq_refl). lia.
Qed.

Lemma rank_le priority p : (rank priority p <= length priority)%nat.
Proof. unfold rank. destruct (index_of p priority) as [i|] eqn:Hi; cbn; [|done]. apply index_of_lt in Hi. lia. Qed.

Lemma select_loop_spec priority best_idx best l : (rank priority best.1 <= best_idx)%nat ->
  let r := select_loop priority best_idx best l in
  r ∈ best :: l /\ (rank priority r.1 <= best_idx)%nat /\ forall x, x ∈ l -> (rank priority r.1 <= rank priority x.1)%nat.
Proof.
  revert best_idx best. induction l as [|[p n] l IH]; intros best_idx best Hb; cbn -[Nat.ltb].
  - split; [by left|]. split; [done|]. intros x Hx. by apply not_elem_of_nil in Hx.
  - fold (rank priority p). destruct (Nat.ltb_spec (rank priority p) best_idx) as [Hlt|Hge].
    + destruct (IH (rank priority p) (p, n)) as (H1 & H2 & H3); [done|].
      split; [apply elem_of_cons; right; exact H1|]. split; [lia|]. intros x [->|Hx]%elem_of_cons; [done|by apply H3].
    + destruct (IH best_idx best Hb) as (H1 & H2 & H3). split.
      * apply elem_of_cons in H1 as [H1|H1]; apply elem_of_cons; [by left|right; by right].
      * split; [done|]. intros x [->|Hx]%elem_of_cons; [cbn; lia|by apply H3].
Qed.

Lemma select_by_priority_spec priority first rest : let r := select_by_priority first rest priority in
  r ∈ first :: rest /\ forall x, x ∈ first :: rest -> (rank priority r.1 <= rank priority x.1)%nat.
Proof.
  destruct (select_loop_spec priority (length priority) first (first :: rest) (rank_le _ _)) as (H1 & _ & H3).
  split; [|exact H3]. unfold select_by_priority. apply elem_of_cons in H1 as [->|H1]; [by left|done].
Qed.

(** The preference of a label, if it has one. *)
Definition preference (port_preferences : option (dict string)) (label : string) : option string :=
  match dict_get label (default [] port_preferences) with
  | Some p => if str_truthy p then Some p else None
  | None => None
  end.

Lemma resolve_conflict_spec priority prefs label first rest : let r := resolve_conflict priority prefs label first rest in
  r ∈ first :: rest /\
  (preference prefs label = None -> forall x, x ∈ first :: rest -> (rank priority r.1 <= rank priority x.1)%nat) /\
  (forall n p x, preference prefs label = Some n -> rsplit_once "_" n = Some (label, p) -> x ∈ first :: rest -> x.1 = p -> r.1 = p).
Proof.
  unfold resolve_conflict, preference. destruct rest as [|x0 rest].
  - cbn. split; [by left|]. split.
    + by intros _ x ->%list_elem_of_singleton.
    + by intros n p x _ _ ->%list_elem_of_singleton.
  - set (l := x0 :: rest). destruct (select_by_priority_spec priority first l) as [H1 H2].
    destruct (dict_get label (default [] prefs)) as [n|]; [|by split; [|split]]. destruct (str_truthy n); [|by split; [|split]].
    destruct (rsplit_once "_" n) as [[a p]|] eqn:Hn; cbn -[select_by_priority List.find]; [|split; [done|split; [done|intros ? ? ? [= <-]; congruence]]].
    destruct (List.find _ (first :: l)) as [m|] eqn:Hf.
    + apply List.find_some in Hf as [Hm Hp%String.eqb_eq]. split; [by apply list_elem_of_In|]. split; [done|]. intros n' p' x [= <-]. congruence.
    + split; [done|]. split; [done|]. intros n' p' x [= <-] Hn' Hx Hxp. exfalso.
      rewrite Hn in Hn'. injection Hn' as -> ->. eapply List.find_none in Hf; [|by apply list_elem_of_In]. cbn in Hf.
      by rewrite Hxp, String.eqb_refl in Hf.
Qed.

(** ** The candidates *)

Definition visible (labels : option (list string)) (label : string) : Prop := match labels with Some l => label ∈ l | None => True end.

(** What an allocated port offers to a label. *)
Definition offers (labels : option (list string)) (label : string) (entry : string * Z) : option (string * Z) :=
  match rsplit_once "_" entry.1 with
  | Some (l, p) => if String.eqb l label && match labels with Some ls => bool_decide (l ∈ ls) | None => true end then Some (p, entry.2) else None
  | None => None
  end.

Lemma offers_some labels label name n e : offers labels label (name, n) = Some e <->
  exists p, rsplit_once "_" name = Some (label, p) /\ visible labels label /\ e = (p, n).
Proof.
  unfold offers, visible. cbn. destruct (rsplit_once "_" name) as [[l p]|]; [|split; [done|intros (? & ? & _); done]].
  destruct (String.eqb_spec l label) as [->|Hl]; cbn.
  - destruct labels as [ls|]; [destruct (bool_decide_reflect (label ∈ ls))|]; split.
    + intros [= <-]. eauto.
    + by intros (p' & [= <-] & _ & ->).
    + done.
    + by intros (p' & _ & ? & _).
    + intros [= <-]. eauto.
    + by intros (p' & [= <-] & _ & ->).
  - split; [done|]. intros (p' & [= ?] & _). done.
Qed.

Lemma candidates_spec labels allocated : let c := fold_left (add_candidate labels) allocated [] in
  NoDup (dict_keys c) /\
  forall label, dict_get label c = match omap (offers labels label) allocated with [] => None | l => Some l end.
Proof.
  cbv zeta. induction allocated as [|e allocated IH] using rev_ind; [split; [apply NoDup_nil_2|done]|].
  destruct IH as [Hnd Hget]. rewrite fold_left_app. cbn [fold_left]. set (c := fold_left _ allocated []) in *.
  unfold add_candidate. destruct (rsplit_once "_" e.1) as [[l p]|] eqn:He; cycle 1.
  { split; [done|]. intros label. rewrite omap_app, Hget. cbn. unfold offers at 3. by rewrite He, app_nil_r. }
  destruct (match labels with Some ls => negb (bool_decide (l ∈ ls)) | None => false end) eqn:Hv.
  { split; [done|]. intros label. rewrite omap_app, Hget. cbn. unfold offers at 3. rewrite He.
    replace (match labels with Some ls => bool_decide (l ∈ ls) | None => true end) with false by (by destruct labels; [apply negb_true_iff in Hv|]).
    by rewrite andb_false_r, app_nil_r. }
  assert (match labels with Some ls => bool_decide (l ∈ ls) | None => true end = true) as Hv' by (by destruct labels; [apply negb_false_iff in Hv|]).
  split; [by apply dict_set_NoDup|]. intros label. rewrite dict_get_set, omap_app. cbn. unfold offers at 2. rewrite He, Hv', andb_true_r.
  rewrite (String.eqb_sym l label). destruct (String.eqb_spec label l) as [->|Hl].
  - rewrite Hget. by destruct (omap (offers labels l) allocated).
  - by rewrite Hget, app_nil_r.
Qed.

(** Every device is at an allocated port of its label and protocol; a label has one
    device at most, and one as soon as a port offers it and it is visible; the device
    has the preferred port of the label if that is allocated, and the best protocol
    by priority when there is no preference. *)
Theorem devices_from_ports allocated ip labels protocol_priority prefs :
  let ds := build_device_access_from_allocated_ports allocated ip labels protocol_priority prefs in
  let priority := match protocol_priority with [] => DEFAULT_PROTOCOL_PRIORITY | l => l end in
  NoDup (map device_label ds) /\
  (forall d, d ∈ ds -> host d = ip /\ visible labels (device_label d) /\
     exists name, (name, port d) ∈ allocated /\ rsplit_once "_" name = Some (device_label d, protocol d)) /\
  (forall name n label p, (name, n) ∈ allocated -> rsplit_once "_" name = Some (label, p) -> visible labels label ->
     exists d, d ∈ ds /\ device_label d = label /\
       (preference prefs label = None -> (rank priority (protocol d) <= rank priority p)%nat) /\
       (preference prefs label = Some name -> protocol d = p)).
Proof.
  intros ds priority. destruct (candidates_spec labels allocated) as [Hnd Hget]. subst ds.
  unfold build_device_access_from_allocated_ports. fold priority. set (c := fold_left _ allocated []) in *.
  set (f := fun kv : string * list (string * Z) => _).
  assert (forall label l, dict_get label c = Some l -> exists first rest, l = first :: rest /\
    l = omap (offers labels label) allocated) as Hl.
  { intros label l Hd. rewrite Hget in Hd. destruct (omap _ allocated) as [|x r] eqn:E; [done|]. injection Hd as <-. eauto. }
  assert (forall d, d ∈ omap f c <-> exists label first rest, dict_get label c = Some (first :: rest) /\
    let r := resolve_conflict priority prefs label first rest in
    d = {| device_label := label; protocol := r.1; host := ip; port := r.2 |}) as Hin.
  { intros d. rewrite list_elem_of_omap. split.
    - intros ([label l] & Hx & Hf). apply dict_elem_get in Hx; [|done]. destruct (Hl _ _ Hx) as (first & rest & -> & _).
      cbn in Hf. exists label, first, rest. split; [done|]. cbv zeta. destruct (resolve_conflict _ _ _ _ _). by injection Hf as <-.
    - intros (label & first & rest & Hx & ->). exists (label, first :: rest). split; [by apply dict_get_elem|]. cbn. by destruct (resolve_conflict _ _ _ _ _). }
  split; [|split].
  - replace (map device_label (omap f c)) with (dict_keys c); [done|]. clear Hin.
    assert (forall label l, (label, l) ∈ c -> l <> []) as Hne.
    { intros label l Hx. apply dict_elem_get in Hx; [|done]. by destruct (Hl _ _ Hx) as (? & ? & -> & _). }
    clear -Hne. induction c as [|[label l] c IH]; [done|]. destruct l as [|first rest]; [by destruct (Hne label []); [left|]|].
    cbn. destruct (resolve_conflict _ _ _ _ _). cbn. f_equal. apply IH. intros label' l' Hx. apply (Hne label'). by right.
  - intros d (label & first & rest & Hg & ->)%Hin. destruct (Hl _ _ Hg) as (? & ? & _ & Ho).
    destruct (resolve_conflict_spec priority prefs label first rest) as [Hr _]. rewrite Ho in Hr.
    apply list_elem_of_omap in Hr as ([name n] & Hx & Hoff). apply offers_some in Hoff as (p & Hs & Hv & He). cbn -[resolve_conflict].
    rewrite He. split; [done|]. split; [done|]. exists name. split; done.
  - intros name n label p Hx Hs Hv. assert ((p, n) ∈ omap (offers labels label) allocated) as Ho.
    { apply list_elem_of_omap. exists (name, n). split; [done|]. apply offers_some. eauto. }
    assert (exists first rest, dict_get label c = Some (first :: rest) /\ first :: rest = omap (offers labels label) allocated) as (first & rest & Hg & He).
    { rewrite Hget. destruct (omap _ allocated) as [|first rest]; [by apply not_elem_of_nil in Ho|]. eauto. }
    rewrite <- He in Ho. destruct (resolve_conflict_spec priority prefs label first rest) as (_ & H1 & H2).
    eexists. split; [apply Hin; exists label, first, rest; split; [exact Hg|reflexivity]|]. cbn -[resolve_conflict]. split; [done|]. split.
    + intros Hp. by apply (H1 Hp (p, n)).
    + intros Hp. by apply (H2 name p (p, n)).
Qed.

(** ** Labels that the names of ports cannot carry

    The names of the ports of a template are made of sanitized labels
    ([PortTemplate.from_cml_nodes]); the labels that are visible come from the content
    of the definition as they are. *)

Definition template_name (n : string) : Prop := exists l proto, n = safe_label l +:+ "_" +:+ proto /\ proto ∈ CML_TCP_PROTOCOLS.

Definition named_after (acc : res (list PortDefinition * list string)) : Prop :=
  forall ports seen, acc = Ok (ports, seen) -> forall p, p ∈ ports -> template_name (pd_name p).

Lemma add_tag_named label acc tag : named_after acc -> named_after (add_tag label acc tag).
Proof.
  intros Ha ports seen Hs p Hp. unfold add_tag in Hs. apply bind_ok in Hs as ([ports0 seen0] & -> & Hs).
  specialize (Ha _ _ eq_refl).
  destruct (match_tag _) as [group|]; [|injection Hs as -> ->; by apply Ha].
  destruct (bool_decide_reflect (py_lower group ∈ CML_TCP_PROTOCOLS)) as [Hg|]; cbn in Hs; [|injection Hs as -> ->; by apply Ha].
  destruct (bool_decide _); [injection Hs as -> ->; by apply Ha|]. apply bind_ok in Hs as (q & Hq & Hs). injection Hs as <- <-.
  apply elem_of_app in Hp as [Hp| ->%list_elem_of_singleton]; [by apply Ha|].
  unfold PortDefinition_post_init in Hq. apply bind_ok in Hq as (? & _ & Hq). apply bind_ok in Hq as (? & _ & Hq). injection Hq as <-.
  by eexists _, _.
Qed.

Lemma fold_named {A} (f : res (list PortDefinition * list string) -> A -> _) l acc :
  (forall acc x, named_after acc -> named_after (f acc x)) -> named_after acc -> named_after (fold_left f l acc).
Proof. intros Hf. revert acc. induction l as [|x l IH]; intros acc Ha; [done|]. apply IH, Hf, Ha. Qed.

Lemma from_cml_nodes_named nodes t n : from_cml_nodes nodes = Ok t -> n ∈ port_names t -> template_name n.
Proof.
  intros Ht Hn. unfold from_cml_nodes in Ht. apply bind_ok in Ht as ([ports seen] & Hf & Ht).
  unfold PortTemplate_post_init in Ht. apply bind_ok in Ht as (? & _ & Ht). injection Ht as <-.
  assert (named_after (fold_left add_node nodes (Ok ([], [])))) as Ha.
  { apply fold_named; [|intros ? ? [= <- <-] p Hp; by apply not_elem_of_nil in Hp].
    intros acc node Hacc. unfold add_node. destruct (node_label node) as [l|]; [|done]. destruct (str_truthy l); [|done].
    apply fold_named; [|done]. intros. by apply add_tag_named. }
  apply list_elem_of_fmap in Hn as (p & -> & Hp). by apply (Ha _ _ Hf).
Qed.

Lemma safe_label_idem l : safe_label (safe_label l) = safe_label l.
Proof.
  unfold safe_label. induction l as [|c l IH]; [done|]. cbn [str_map]. rewrite IH. f_equal.
  destruct (is_name_char c) eqn:Hc; [by rewrite Hc|done].
Qed.

Lemma template_name_split n label p : template_name n -> rsplit_once "_" n = Some (label, p) -> safe_label label = label.
Proof.
  intros (l & proto & -> & Hp) Hs. change ("_" +:+ proto) with (String "_" proto) in Hs.
  rewrite rsplit_once_last in Hs; [injection Hs as <- <-; apply safe_label_idem|].
  clear -Hp. repeat (apply elem_of_cons in Hp as [->|Hp]; [reflexivity|]). by apply not_elem_of_nil in Hp.
Qed.

(** With the ports of a template read off the topology, a visible device whose label
    has a character that is not allowed in names of ports (a space, a dot) gets no
    access: its port goes by the sanitized label, which no visible label equals. *)
Theorem sanitized_labels_lost nodes t allocated ip labels protocol_priority prefs label :
  from_cml_nodes nodes = Ok t -> (forall name n, (name, n) ∈ allocated -> name ∈ port_names t) -> safe_label label <> label ->
  forall d, d ∈ build_device_access_from_allocated_ports allocated ip labels protocol_priority prefs -> device_label d <> label.
Proof.
  intros Ht Ha Hl d Hd <-. apply Hl. clear Hl. revert d Hd.
  unfold build_device_access_from_allocated_ports. destruct (candidates_spec labels allocated) as [Hnd Hget].
  intros d ([label l] & Hx & Hf)%list_elem_of_omap. apply dict_elem_get in Hx; [|done]. rewrite Hget in Hx.
  destruct (omap (offers labels label) allocated) as [|e r] eqn:E; [done|]. injection Hx as <-.
  assert (e ∈ omap (offers labels label) allocated) as He by (rewrite E; by left).
  apply list_elem_of_omap in He as ([name n] & Hin & Hoff). apply offers_some in Hoff as (p & Hs & _).
  destruct (resolve_conflict _ _ _ _ _). injection Hf as <-. cbn.
  eapply template_name_split; [|exact Hs]. eapply from_cml_nodes_named; [exact Ht|by eapply Ha].
Qed.

(** A router with a space in its label, which the content shows to the user. *)
Definition spaced_node : cml_node := {| node_label := Some "Router 1"; node_tags := Some ["serial:5041"] |}.
Definition spaced_template : PortTemplate := {| pt_ports := [{| pd_name := "Router_1_serial"; pd_protocol := "tcp"; pd_description := Some "serial on Router 1" |}] |}.

Lemma sanitized_labels_lost_witness :
  session_devices [("Router_1_serial", 5041)] "10.0.0.1" (Some ["Router 1"]) [] None [] = [] /\
  forall d, d ∈ build_device_access_from_allocated_ports [("Router_1_serial", 5041)] "10.0.0.1" None [] None -> device_label d <> "Router 1".
Proof.
  split; [reflexivity|].
  apply (sanitized_labels_lost [spaced_node] spaced_template); [vm_compute; reflexivity| |discriminate].
  intros name n [= -> _]%list_elem_of_singleton. by left.
Defined.

(** ** The path over the tags *)

(** Labels are not unique when two tags of a node have the same protocol. *)
Example duplicate_labels :
  map device_label (build_device_access_list [{| label := "r1"; tags := ["serial:5000"; "serial:5001"] |}] "10.0.0.1" None)
  = ["r1_serial"; "r1_serial"].
Proof. reflexivity. Qed.

(** A node with two tags disappears when its label is visible, because its devices have
    other labels; and without allocated ports an empty list of visible labels shows
    everything. *)
Example suffixed_devices_hidden : let nodes := [{| label := "desktop"; tags := ["vnc:5900"; "ssh:22"] |}] in
  session_devices [] "10.0.0.1" (Some ["desktop"]) [] None (build_device_access_list nodes "10.0.0.1" None) = [] /\
  length (session_devices [] "10.0.0.1" (Some []) [] None (build_device_access_list nodes "10.0.0.1" None)) = 2%nat /\
  session_devices [("desktop_vnc", 5900)] "10.0.0.1" (Some []) [] None [] = [].
Proof. split; [|split]; reflexivity. Qed.

(** Preference and priority: the desktop by ssh because that is preferred, the server by
    http, which comes before ssh. *)
Example chosen_devices :
  map (fun d => (device_label d, protocol d, port d)) (build_device_access_from_allocated_ports
    [("desktop_vnc", 5900); ("desktop_ssh", 2022); ("web_srv_ssh", 2023); ("web_srv_http", 8080); ("odd", 1)]
    "10.0.0.1" (Some ["desktop"; "web_srv"]) [] (Some [("desktop", "desktop_ssh")]))
  = [("desktop", "ssh", 2022); ("web_srv", "http", 8080)].
Proof. reflexivity. Qed.
