(* ===== verification/LabletServices.v ===== *)
(** * The services of the lablet controller, and the helpers of its reconciler

    ([lablet-controller/application/services/reconciler_helpers], and the read models of
    [core/lcm_core/domain/entities/read_models])

    The control plane, CML, LDS and the scenario engine are other processes: a call may
    return or raise, and what it does depends on all that happened before.  [answer]
    stands for them: it gives the outcome of a call from the log of the calls so far,
    and every theorem holds for all of them.  [clock] gives the readings of the clock.
    A program ([Programs.prog]) changes what the reconciler keeps and adds to the log. *)
From S2P Require Import Prelude PyData Enums Programs DeviceAccess.
From Stdlib Require Import Ascii.

(** ** Read models *)

(** [LabletSessionReadModel], with the fields that are used here. *)
Record session := {
  s_id : string;
  s_name : string;
  s_definition_id : string;
  s_status : string;
  s_worker_id : option string;
  s_worker_ip : option string;
  s_worker_aws_region : option string;
  s_lab_record_id : option string;
  s_cml_lab_id : option string;
  s_timeslot_start : pyval;
  s_timeslot_end : pyval;
  s_pipeline_progress : option pydict;
  s_topology_yaml : option string;
  s_user_session_id : option string;
  s_lds_session_id : option string
}.
#[export] Instance eta_session : Eta session := fun s => {|
  s_id := s_id s; s_name := s_name s; s_definition_id := s_definition_id s; s_status := s_status s;
  s_worker_id := s_worker_id s; s_worker_ip := s_worker_ip s; s_worker_aws_region := s_worker_aws_region s;
  s_lab_record_id := s_lab_record_id s; s_cml_lab_id := s_cml_lab_id s; s_timeslot_start := s_timeslot_start s;
  s_timeslot_end := s_timeslot_end s; s_pipeline_progress := s_pipeline_progress s; s_topology_yaml := s_topology_yaml s;
  s_user_session_id := s_user_session_id s; s_lds_session_id := s_lds_session_id s |}.

(** [x or y] on optional strings. *)
Definition or_else (x y : option string) : option string := if ostr_truthy x then x else y.

(** [__post_init__] *)
Definition session_post_init (s : session) : session :=
  let s := if ostr_truthy (s_lds_session_id s) && negb (ostr_truthy (s_user_session_id s))
           then s <| s_user_session_id := s_lds_session_id s |> else s in
  if ostr_truthy (s_user_session_id s) && negb (ostr_truthy (s_lds_session_id s))
  then s <| s_lds_session_id := s_user_session_id s |> else s.

(** [LabletSessionReadModel.from_dict] *)
Definition session_from_dict (data : pydict) : res session :=
  worker_data ← as_dict (py_or (pd_get_or "worker" (PDict []) data) (PDict []));
  id ← as_str (pd_get_or "id" (PStr "") data);
  name ← as_str (pd_get_or "name" (PStr "") data);
  definition_id ← as_str (pd_get_or "definition_id" (PStr "") data);
  status ← as_str (pd_get_or "status" (PStr "") data);
  worker_id ← as_ostr (pd_get "worker_id" data);
  worker_ip ← as_ostr (py_or (pd_get "ip_address" worker_data) (pd_get "worker_ip" data));
  region ← as_ostr (py_or (pd_get "aws_region" worker_data) (pd_get "worker_aws_region" data));
  lab_record_id ← as_ostr (pd_get "lab_record_id" data);
  cml_lab_id ← as_ostr (pd_get "cml_lab_id" data);
  progress ← as_odict (pd_get "pipeline_progress" data);
  topology ← as_ostr (pd_get "topology_yaml" data);
  user_session ← as_ostr (py_or (pd_get "user_session_id" data) (pd_get "lds_session_id" data));
  Ok (session_post_init {|
    s_id := id; s_name := name; s_definition_id := definition_id; s_status := status; s_worker_id := worker_id;
    s_worker_ip := worker_ip; s_worker_aws_region := region; s_lab_record_id := lab_record_id; s_cml_lab_id := cml_lab_id;
    s_timeslot_start := pd_get "timeslot_start" data; s_timeslot_end := pd_get "timeslot_end" data;
    s_pipeline_progress := progress; s_topology_yaml := topology; s_user_session_id := user_session;
    s_lds_session_id := None |}).

(** [LabletDefinitionReadModel], with the fields that are used here. *)
Record definition := {
  d_id : string;
  d_form_qualified_name : option string;
  d_topology_yaml : option string;
  d_cml_yaml_content : option string;
  d_user_visible_devices : option (list pyval);
  d_lab_reuse_enabled : bool;
  d_boot_lead_time_minutes : option Z;
  d_pipelines : option pydict;
  d_port_template : option pydict;
  d_lds_port_preferences : option (dict string);
  d_pod_definition_ref : option pydict;
  d_sync_status : option string
}.

(** [LabletDefinitionReadModel.from_dict]: a port template without ports is none. *)
Definition definition_from_dict (data : pydict) : res definition :=
  let port_template := match pd_get "port_template" data with
                       | PDict t => if truthy (pd_get "ports" t) then Some t else None
                       | _ => None
                       end in
  id ← as_str (pd_get_or "id" (PStr "") data);
  topology ← as_ostr (pd_get "topology_yaml" data);
  form ← as_ostr (pd_get "form_qualified_name" data);
  yaml ← as_ostr (pd_get "cml_yaml_content" data);
  visible ← match pd_get "user_visible_devices" data with PNone => Ok None | v => Some <$> as_list v end;
  reuse ← as_bool (pd_get_or "lab_reuse_enabled" (PBool false) data);
  boot ← as_oint (pd_get "boot_lead_time_minutes" data);
  pipelines ← as_odict (pd_get "pipelines" data);
  preferences ← match pd_get "lds_port_preferences" data with PNone => Ok None | v => Some <$> as_strs v end;
  ref ← as_odict (pd_get "pod_definition_ref" data);
  sync ← as_ostr (pd_get "sync_status" data);
  Ok {| d_id := id; d_form_qualified_name := form; d_topology_yaml := topology; d_cml_yaml_content := yaml;
        d_user_visible_devices := visible; d_lab_reuse_enabled := reuse; d_boot_lead_time_minutes := boot;
        d_pipelines := pipelines; d_port_template := port_template; d_lds_port_preferences := preferences;
        d_pod_definition_ref := ref; d_sync_status := sync |}.

(** [LabRecordReadModel], with the fields that are used here. *)
Record lab_record := {
  r_id : string;
  r_lab_id : string;
  r_status : string;
  r_based_on_definition_id : option string;
  r_active_lablet_session_id : option string;
  r_pending_action : option string
}.
Definition lab_record_from_dict (data : pydict) : res lab_record :=
  id ← as_str (pd_get_or "id" (PStr "") data);
  lab_id ← as_str (pd_get_or "lab_id" (PStr "") data);
  status ← as_str (pd_get_or "status" (PStr "discovered") data);
  based_on ← as_ostr (pd_get "based_on_definition_id" data);
  active ← as_ostr (pd_get "active_lablet_session_id" data);
  action ← as_ostr (pd_get "pending_action" data);
  Ok {| r_id := id; r_lab_id := lab_id; r_status := status; r_based_on_definition_id := based_on;
        r_active_lablet_session_id := active; r_pending_action := action |}.
Definition has_pending_action (r : lab_record) : bool := match r_pending_action r with Some _ => true | None => false end.

(** [LabState], [LabInfo] and [NodeInfo] of the CML client. *)
Inductive LabState := DEFINED_ON_CORE | STOPPED | STARTED | BOOTED | QUEUED.
#[export] Instance lab_state_eq : EqDecision LabState.
Proof. solve_decision. Defined.
Definition lab_state_value (s : LabState) : string :=
  match s with
  | DEFINED_ON_CORE => "DEFINED_ON_CORE" | STOPPED => "STOPPED" | STARTED => "STARTED" | BOOTED => "BOOTED" | QUEUED => "QUEUED"
  end.
(** [str(lab_state)] *)
Definition lab_state_str (s : LabState) : string := "LabState." +:+ lab_state_value s.

Record lab_info := { i_id : string; i_title : string; i_state : LabState }.
Record node_info := { n_id : string; n_node : NodeInfo }.

(** ** Calls *)
Inductive call : Type -> Type :=
(* the control plane *)
| GetDefinition (definition_id : string) : call (option pydict)
| GetWorker (worker_id : string) : call (option pydict)
| GetLabRecords (worker_id : option string) : call (list pydict)
| UpdateLabRecordStatus (lab_record_id new_status : string) : call ()
| DiscoverLabRecords (worker_id : option string) (entry : pydict) : call ()
| GetSession (session_id : string) : call (option pydict)
| GetSessions : call (list pydict)
| StartInstantiation (session_id : string) : call ()
| TerminateSession (session_id reason : string) : call ()
| ExpireSession (session_id reason : string) : call ()
| TransitionSession (session_id : string) (new_status : SessionStatus.LabletSessionStatus) (reason : string) : call ()
| MarkSessionReady (session_id user_session_id cml_lab_id : string) : call ()
| AllocateLabRecordPorts (lab_record_id : string) (worker_id : option string) : call pydict
| BindLabToSession (session_id : string) (worker_id : option string) (lab_record_id cml_lab_id : string) (title : pyval) : call pydict
| CreateUserSession (session_id lds_session_id lds_login_url cml_lab_id : string) : call pydict
| RecordLabRunCompleted (lab_record_id : string) (started_at : option datetime) (stopped_at : datetime) (session_id : string) : call ()
| ReportObservations (session_id : string) (observation : pydict) : call ()
(* CML, on a worker *)
| GetLab (host : option string) (lab_id : string) : call (option lab_info)
| GetLabState (host : option string) (lab_id : string) : call (option LabState)
| CheckIfConverged (host : option string) (lab_id : string) : call bool
| StartLab (host : option string) (lab_id : string) : call ()
| StopLab (host : option string) (lab_id : string) : call ()
| WipeLab (host : option string) (lab_id : string) : call ()
| DeleteLab (host : option string) (lab_id : string) : call ()
| ImportLab (host : option string) (topology_yaml title : string) : call (option string)
| GetLabNodes (host : option string) (lab_id : string) : call (list node_info)
| PatchNodeTags (host : option string) (lab_id node_id : string) (tags : list string) : call ()
| ObserveLab (host : option string) (lab_id : option string) : call (option pydict)
(* LDS and the scenario engine *)
| CreateLdsSession (username : string) (scheduled : datetime) (form_qualified_name : string) (region : option string) : call string
| SetDevices (lds_session_id : string) (devices : list DeviceAccessInfo) (region : option string) : call ()
| GetLaunchUrl (lds_session_id : string) (region : option string) : call string
| ArchiveLdsSession (lds_session_id : string) (region : option string) : call ()
| SubmitJob (scenario_name : string) (input_data : pydict) (pod_definition_id : string) (callback_url : option string) (metadata : pydict) : call string
(* etcd *)
| EtcdDelete (key : string) : call ()
(* this process *)
| Uuid : call string
| Now : call datetime.

Inductive event := | Ev {A : Type} (c : call A).

(** The settings that the code below reads. *)
Record settings := {
  worker_bootup_delay_minutes : Z;
  use_private_ip_for_monitoring : bool;
  resource_observation_enabled : bool;
  resource_observer_configured : bool;
  lds_protocol_priority : list string;
  scenario_engine_integration_enabled : bool;
  scenario_engine_callback_url : option string;
  etcd_key_prefix : string;
  (* which of the clients were injected *)
  lds_configured : bool;
  scenario_engine_client_configured : bool
}.

(** What the reconciler keeps between visits. *)
Record world := {
  log : list event;
  definition_cache : gmap string definition;
  worker_cache : gmap string pydict;
  lab_run_started_at : gmap string datetime;
  resolved_lab_ids : gmap string string;
  freshly_imported_sessions : gset string
}.
#[export] Instance eta_world : Eta world := fun w => {|
  log := log w; definition_cache := definition_cache w; worker_cache := worker_cache w;
  lab_run_started_at := lab_run_started_at w; resolved_lab_ids := resolved_lab_ids w;
  freshly_imported_sessions := freshly_imported_sessions w |}.

Abbreviation prog := (Programs.prog world).

(** Who answers the calls. *)
Class Services := {
  answer : forall A, list event -> call A -> res A;
  clock : list event -> Z;
  uuid4_hex : list event -> string;
  (* which exceptions of the LDS client are [LdsSpiError] *)
  lds_spi_error : exn -> bool
}.

Section Helpers.
Context `{Services} (cfg : settings).

Definition ask {A} (c : call A) : prog A := fun w => (answer A (log w) c, w <| log := log w ++ [Ev c] |>).

(** [datetime.now(timezone.utc)], which does not raise. *)
Definition now : prog datetime := fun w => (Ok (utc (clock (log w))), w <| log := log w ++ [Ev Now] |>).

(** [uuid.uuid4().hex[:8]] *)
Definition short_uuid : prog string := fun w =>
  (Ok (String.substring 0 8 (uuid4_hex (log w))), w <| log := log w ++ [Ev Uuid] |>).

Definition read {A} (f : world -> A) : prog A := fun w => (Ok (f w), w).
Definition write (f : world -> world) : prog () := fun w => (Ok (), f w).

(** [try: m except Exception: return x] *)
Definition or_return {A} (m : prog A) (x : A) : prog A := try_ m (fun _ => mret x).
(** [try: a = m except Exception as e: return h(e)], then [k(a)] outside of the [try]. *)
Definition try_else {A B} (m : prog A) (h : exn -> prog B) (k : A -> prog B) : prog B := fun w =>
  match m w with (Ok a, w') => k a w' | (Err e, w') => h e w' end.
Definition ignore_errors (m : prog ()) : prog () := or_return m ().

(** ** [definition_cache.py], [worker_helpers.py] *)

Definition get_definition (definition_id : string) : prog (option definition) :=
  cached ← read (fun w => definition_cache w !! definition_id);
  match cached with
  | Some d => mret (Some d)
  | None =>
      or_return (data ← ask (GetDefinition definition_id);
                 match data with
                 | Some ((_ :: _) as data) => d ← lift (definition_from_dict data); _ ← write (fun w => w <| definition_cache := <[definition_id := d]> (definition_cache w) |>); mret (Some d)
                 | _ => mret None
                 end) None
  end.

Definition get_cached_worker (worker_id : string) : prog (option pydict) :=
  cached ← read (fun w => worker_cache w !! worker_id);
  match cached with
  | Some d => mret (Some d)
  | None =>
      or_return (worker ← ask (GetWorker worker_id);
                 match worker with
                 | Some ((_ :: _) as d) => _ ← write (fun w => w <| worker_cache := <[worker_id := d]> (worker_cache w) |>); mret (Some d)
                 | _ => mret None
                 end) None
  end.

(** [extract_host_from_worker] *)
Definition extract_host_from_worker (worker : pydict) : res (option string) :=
  host ← as_ostr (if use_private_ip_for_monitoring cfg
                  then py_or (pd_get "private_ip" worker) (pd_get "public_ip" worker)
                  else py_or (pd_get "public_ip" worker) (pd_get "private_ip" worker));
  host ← (if negb (ostr_truthy host) then
            https_endpoint ← as_str (py_or (pd_get_or "https_endpoint" (PStr "") worker) (PStr ""));
            Ok (if str_truthy https_endpoint then head (py_split ":"%char (py_replace "https://" "" https_endpoint)) else host)
          else Ok host);
  Ok (if ostr_truthy host then host else None).

(** [enrich_with_worker_details] *)
Definition enrich_with_worker_details (s : session) : prog session :=
  match s_worker_id s with
  | Some worker_id =>
      if negb (str_truthy worker_id) then mret s
      else
        worker ← get_cached_worker worker_id;
        match worker with
        | None | Some [] => mret s
        | Some worker =>
            host ← lift (extract_host_from_worker worker);
            region ← lift (as_ostr (pd_get "aws_region" worker));
            mret (s <| s_worker_ip := host |> <| s_worker_aws_region := region |>)
        end
  | None => mret s
  end.

(** ** [lab_record_helpers.py] *)

(** The loop of [find_lab_record_id]: the record of the first entry of the lab. *)
Definition record_of_lab (cml_lab_id : string) (records : list pydict) : res (option string) :=
  match List.find (fun lr => eq_str (pd_get "lab_id" lr) cml_lab_id) records with
  | Some lr => as_ostr (pd_get "id" lr)
  | None => Ok None
  end.

Definition find_lab_record_id (cml_lab_id : string) (worker_id : option string) : prog (option string) :=
  or_return (records ← ask (GetLabRecords worker_id); lift (record_of_lab cml_lab_id records)) None.

Definition update_lab_record_status (cml_lab_id : string) (worker_id : option string) (new_status : string) : prog () :=
  ignore_errors (lab_record_id ← find_lab_record_id cml_lab_id worker_id;
                 match lab_record_id with
                 | Some id => if str_truthy id then ask (UpdateLabRecordStatus id new_status) else mret ()
                 | None => mret ()
                 end).

(** [status_mapping] *)
Definition status_of_lab_state (s : LabState) : LabStatus.LabRecordStatus :=
  match s with
  | DEFINED_ON_CORE => LabStatus.DEFINED | STARTED => LabStatus.BOOTED | BOOTED => LabStatus.BOOTED | STOPPED => LabStatus.STOPPED | QUEUED => LabStatus.QUEUED
  end.

Definition register_lab_record (cml_lab_id : string) (s : session) : prog (option string) :=
  or_return (info ← ask (GetLab (s_worker_ip s) cml_lab_id);
             match info with
             | None => mret None
             | Some info =>
                 let entry := [("id", PStr (i_id info)); ("title", PStr (i_title info)); ("state", PStr (lab_state_value (i_state info)));
                               ("status", PStr (LabStatus.LabRecordStatus_value (status_of_lab_state (i_state info))));
                               ("worker_ip", of_ostr (s_worker_ip s));
                               ("based_on_definition_id", of_ostr (if str_truthy (s_definition_id s) then Some (s_definition_id s) else None))] in
                 _ ← ask (DiscoverLabRecords (s_worker_id s) entry);
                 find_lab_record_id cml_lab_id (s_worker_id s)
             end) None.

(** ** [lab_resolution.py] *)

Record LabResolutionResult := { lab_id : string; freshly_imported : bool }.

(** The states in which a lab may be reused, in order of preference. *)
Definition reusable_states : list LabStatus.LabRecordStatus := [LabStatus.DEFINED; LabStatus.WIPED; LabStatus.STOPPED; LabStatus.WIPING; LabStatus.STOPPING].

(** The filters on a candidate. *)
Definition candidate (definition_id : string) (r : lab_record) : bool :=
  bool_decide (r_based_on_definition_id r = Some definition_id) &&
  negb (ostr_truthy (r_active_lablet_session_id r)) && negb (has_pending_action r).

Definition in_state (st : LabStatus.LabRecordStatus) (r : lab_record) : bool := String.eqb (r_status r) (LabStatus.LabRecordStatus_value st).

(** The candidates by state, in order. *)
Definition ordered_candidates (definition_id : string) (records : list lab_record) : list lab_record :=
  concat (map (fun st => List.filter (fun r => candidate definition_id r && in_state st r) records) reusable_states).

(** The loop over the candidates. *)
Fixpoint try_candidates (worker_ip : option string) (worker_id : string) (labs : list lab_record) : prog (option string) :=
  match labs with
  | [] => mret None
  | lab :: labs =>
      cml_lab ← ask (GetLab worker_ip (r_lab_id lab));
      match cml_lab with
      | None =>
          _ ← update_lab_record_status (r_lab_id lab) (Some worker_id) (LabStatus.LabRecordStatus_value LabStatus.ORPHANED);
          try_candidates worker_ip worker_id labs
      | Some _ =>
          if in_state LabStatus.DEFINED lab || in_state LabStatus.WIPED lab then mret (Some (r_lab_id lab))
          else if in_state LabStatus.STOPPED lab then
            _ ← ask (WipeLab worker_ip (r_lab_id lab));
            _ ← update_lab_record_status (r_lab_id lab) (Some worker_id) (LabStatus.LabRecordStatus_value LabStatus.WIPED);
            mret (Some (r_lab_id lab))
          else try_candidates worker_ip worker_id labs
      end
  end.

Definition try_reuse_existing_lab (s : session) : prog (option string) :=
  match s_worker_id s, s_worker_ip s with
  | Some worker_id, Some worker_ip =>
      if negb (str_truthy worker_id) || negb (str_truthy worker_ip) then mret None
      else or_return (records ← ask (GetLabRecords (Some worker_id));
                      candidates ← lift (mapM lab_record_from_dict records);
                      try_candidates (Some worker_ip) worker_id (ordered_candidates (s_definition_id s) candidates)) None
  | _, _ => mret None
  end.

Definition import_fresh_lab (s : session) (topology_yaml : option string) : prog (option string) :=
  match or_else topology_yaml (s_topology_yaml s) with
  | Some yaml => if str_truthy yaml then or_return (ask (ImportLab (s_worker_ip s) yaml (s_name s))) None else mret None
  | None => mret None
  end.

Definition resolve_lab_for_instance (s : session) (topology_yaml : option string) : prog (option LabResolutionResult) :=
  d ← get_definition (s_definition_id s);
  reused ← (if match d with Some d => d_lab_reuse_enabled d | None => false end then try_reuse_existing_lab s else mret None);
  match reused with
  | Some id =>
      if str_truthy id then mret (Some {| lab_id := id; freshly_imported := false |})
      else
        imported ← import_fresh_lab s topology_yaml;
        mret (match imported with Some id => if str_truthy id then Some {| lab_id := id; freshly_imported := true |} else None | None => None end)
  | None =>
      imported ← import_fresh_lab s topology_yaml;
      mret (match imported with Some id => if str_truthy id then Some {| lab_id := id; freshly_imported := true |} else None | None => None end)
  end.

(** ** [run_history.py], [observation_helpers.py], [archive_lds_session] *)

Definition record_lab_run_completed (s : session) : prog bool :=
  match s_cml_lab_id s, s_worker_id s with
  | Some cml_lab_id, Some worker_id =>
      if negb (str_truthy cml_lab_id) || negb (str_truthy worker_id) then mret false
      else or_return (lab_record_id ← find_lab_record_id cml_lab_id (Some worker_id);
                      match lab_record_id with
                      | Some id =>
                          if negb (str_truthy id) then mret false
                          else
                            started_at ← read (fun w => lab_run_started_at w !! s_id s);
                            _ ← write (fun w => w <| lab_run_started_at := delete (s_id s) (lab_run_started_at w) |>);
                            stopped_at ← now;
                            _ ← ask (RecordLabRunCompleted id started_at stopped_at (s_id s));
                            mret true
                      | None => mret false
                      end) false
  | _, _ => mret false
  end.

(** A timeout raises like any failure. *)
Definition observe_and_report (s : session) : prog () :=
  if negb (resource_observation_enabled cfg) || negb (resource_observer_configured cfg) then mret ()
  else ignore_errors (observation ← ask (ObserveLab (s_worker_ip s) (s_cml_lab_id s));
                      match observation with
                      | Some o => ask (ReportObservations (s_id s) o)
                      | None => mret ()
                      end).

Definition archive_lds_session (s : session) : prog bool :=
  match s_lds_session_id s with
  | Some id => if negb (str_truthy id) then mret false
               else or_return (_ ← ask (ArchiveLdsSession id (s_worker_aws_region s)); mret true) false
  | None => mret false
  end.
End Helpers.
