(* ===== verification/StepHandlers.v ===== *)
(** * The steps of the session pipelines

    ([lablet-controller/application/services/step_handlers], the dispatcher's view of them
    in [step_registry.py], and the context of [LabletReconciler._build_pipeline_context])

    Every handler is given the session, the progress of the pipeline and the context,
    and is a program over [LabletServices.world].  A handler that polls has as many
    polls as fit in the timeout of its step; then it is cancelled ([None]).  The helper
    callables of the context are those of the reconciler. *)
From S2P Require Import Prelude PyData Enums Programs Ports Pipeline DeviceAccess LabletServices.
From Stdlib Require Import Ascii.

(** [PipelineContext]: what [_build_pipeline_context] fills in. *)
Record PipelineContext := {
  c_definition : option definition;
  c_worker_ip : string;
  c_lds : bool;
  c_lds_protocol_priority : list string;
  c_lds_port_preferences : option (dict string);
  c_scenario_engine_client : bool;
  c_cloud_event_callback_url : option string;
  c_scenario_engine_enabled : bool
}.

(** [get_step_result_data] *)
Definition get_step_result_data (progress : pydict) (step_name : string) : pyval :=
  match pd_get step_name progress with PDict ((_ :: _) as step_info) => pd_get "result_data" step_info | _ => PNone end.

(** [data.get(k) if data else None] *)
Definition data_get (data : pyval) (k : string) : res pyval :=
  if truthy data then
    match data with PDict d => Ok (pd_get k d) | _ => Err (AttributeError "object has no attribute 'get'") end
  else Ok PNone.

Section Handlers.
Context `{Services} (cfg : settings).

Definition build_pipeline_context (s : session) : prog PipelineContext :=
  d ← get_definition (s_definition_id s);
  mret {|
    c_definition := d; c_worker_ip := default "" (s_worker_ip s); c_lds := lds_configured cfg;
    c_lds_protocol_priority := lds_protocol_priority cfg; c_lds_port_preferences := d ≫= d_lds_port_preferences;
    c_scenario_engine_client := scenario_engine_client_configured cfg;
    c_cloud_event_callback_url := scenario_engine_callback_url cfg;
    c_scenario_engine_enabled := scenario_engine_integration_enabled cfg && scenario_engine_client_configured cfg |}.

(** The steps below run for one session, with one progress and one context. *)
Context (instance : session) (progress : pydict) (context : PipelineContext).

Definition completed (result_data : pydict) : prog StepResult := mret (StepResult_completed result_data).
Definition skipped (reason : string) : prog StepResult := mret (StepResult_skipped reason).
Definition failed (error : string) : prog StepResult := mret (StepResult_failed error).

(** [try: m except Exception as e: return StepResult.failed(f"{message}{e}")] *)
Definition or_failed (message : string) (m : prog StepResult) : prog StepResult :=
  try_ m (fun e => failed (message +:+ exn_str e)).

(** The same around a call, then the rest. *)
Definition call_or_failed {A} (message : string) (m : prog A) (k : A -> prog StepResult) : prog StepResult :=
  try_else m (fun e => failed (message +:+ exn_str e)) k.

Definition worker_host : option string := Some (c_worker_ip context).
Definition resolve_data : pyval := get_step_result_data progress "lab_resolve".

(** The guard of the steps that need a lab. *)
Definition with_lab_id (k : string -> prog StepResult) : prog StepResult :=
  cml_lab_id ← lift (data_get resolve_data "cml_lab_id");
  if negb (truthy cml_lab_id) then failed "No cml_lab_id from lab_resolve"
  else cml_lab_id ← lift (as_str cml_lab_id); k cml_lab_id.

(** ** [content_sync_step.py], [variables_step.py]: the read model of a definition
    has neither [content_sync_enabled] nor [variables], and the content sync service
    has no [request_sync]. *)
Definition content_sync_enabled (d : definition) : bool := false.
Definition definition_variables (d : definition) : list pyval := [].

Definition step_content_sync : prog StepResult :=
  match c_definition context with
  | None => failed "Definition not found"
  | Some d =>
      if negb (content_sync_enabled d) then skipped "Content sync not enabled"
      else if bool_decide (d_sync_status d = Some "synced")
      then completed [("sync_status", of_ostr (d_sync_status d)); ("form_qualified_name", of_ostr (d_form_qualified_name d))]
      else failed ("Content not synced (status: " +:+ default "None" (d_sync_status d) +:+ "). Waiting for sync.")
  end.

Definition step_variables : prog StepResult :=
  match c_definition context ≫= fun d => head (definition_variables d) with
  | None => skipped "No variables defined"
  | Some _ => completed [("resolved_variables", PDict [])]
  end.

(** ** [_scenario_engine_step.py] *)
Definition submit_scenario_engine_job (scenario_name step_name : string) (input_data : pydict) : prog StepResult :=
  if negb (c_scenario_engine_client context)
  then failed (step_name +:+ ": ScenarioEngineClient not available on PipelineContext")
  else
    pod_definition_id ← lift (as_ostr (match c_definition context ≫= d_pod_definition_ref with
                                       | Some ref => pd_get "definition_id" ref | None => PNone end));
    match pod_definition_id with
    | Some pod_definition_id =>
        if negb (str_truthy pod_definition_id)
        then failed (step_name +:+ ": LabletDefinition has no pod_definition_ref - cannot submit SE job")
        else
          token ← short_uuid;
          let step_correlation_id := s_id instance +:+ ":" +:+ step_name +:+ ":" +:+ token in
          let metadata := [("lablet_session_id", PStr (s_id instance)); ("step_name", PStr step_name);
                           ("step_correlation_id", PStr step_correlation_id)] in
          call_or_failed (step_name +:+ ": SE submit_job failed: ")
            (ask (SubmitJob scenario_name input_data pod_definition_id (c_cloud_event_callback_url context) metadata))
            (fun job_id => mret (StepResult_suspended job_id step_correlation_id
               (Some ("awaiting SE job " +:+ job_id +:+ " (scenario=" +:+ scenario_name +:+ "@v1)"))))
    | None => failed (step_name +:+ ": LabletDefinition has no pod_definition_ref - cannot submit SE job")
    end.

(** ** [lab_resolve_step.py] *)

(** The topology of the session, else that of its definition. *)
Definition effective_topology : option string :=
  if ostr_truthy (s_topology_yaml instance) then s_topology_yaml instance
  else d ← c_definition context; or_else (d_cml_yaml_content d) (d_topology_yaml d).

(** The lab of the session: the recorded one, the one resolved before, or one that is
    reused or imported now, which is tracked. *)
Definition resolve_lab (topology_yaml : string) : prog (option LabResolutionResult) :=
  tracked ← read (fun w => resolved_lab_ids w !! s_id instance);
  let cml_lab_id := or_else (s_cml_lab_id instance) tracked in
  if ostr_truthy cml_lab_id then mret (Some {| lab_id := default "" cml_lab_id; freshly_imported := false |})
  else
    resolution ← resolve_lab_for_instance instance (Some topology_yaml);
    match resolution with
    | None => mret None
    | Some r =>
        _ ← write (fun w => w <| resolved_lab_ids := <[s_id instance := lab_id r]> (resolved_lab_ids w) |>);
        _ ← (if freshly_imported r
             then write (fun w => w <| freshly_imported_sessions := {[s_id instance]} ∪ freshly_imported_sessions w |>)
             else mret ());
        mret (Some r)
    end.

(** The record of a lab: found, else registered, else looked up once more. *)
Definition find_or_register (cml_lab_id : string) : prog (option string) :=
  let worker_id := Some (default "" (s_worker_id instance)) in
  found ← find_lab_record_id cml_lab_id worker_id;
  if ostr_truthy found then mret found
  else
    registered ← register_lab_record cml_lab_id instance;
    if ostr_truthy registered then mret registered else find_lab_record_id cml_lab_id worker_id.

Definition step_lab_resolve : prog StepResult :=
  if negb (ostr_truthy effective_topology) then failed ("No topology YAML found for definition " +:+ s_definition_id instance)
  else
    let topology_yaml := default "" effective_topology in
    if c_scenario_engine_enabled context then
      submit_scenario_engine_job "lab_resolve" "lab_resolve"
        [("session_id", PStr (s_id instance)); ("definition_id", PStr (s_definition_id instance));
         ("topology_yaml", PStr topology_yaml); ("worker_pool_hint", of_ostr (s_worker_id instance))]
    else
      resolution ← resolve_lab topology_yaml;
      match resolution with
      | None => failed "Lab resolution failed: unable to import or reuse a lab"
      | Some r =>
          lab_record_id ← find_or_register (lab_id r);
          if negb (ostr_truthy lab_record_id)
          then failed ("Failed to resolve or create LabRecord for lab " +:+ lab_id r +:+ " on worker " +:+ default "None" (s_worker_id instance))
          else
            cml_lab_title ← or_return (lab_info ← ask (GetLab worker_host (lab_id r)); mret (i_title <$> lab_info)) None;
            completed [("cml_lab_id", PStr (lab_id r)); ("lab_record_id", of_ostr lab_record_id);
                       ("cml_lab_title", of_ostr cml_lab_title); ("freshly_imported", PBool (freshly_imported r))]
      end.

(** ** [ports_alloc_step.py], [tags_sync_step.py], [lab_binding_step.py] *)

Definition step_ports_alloc : prog StepResult :=
  match c_definition context ≫= d_port_template with
  | None | Some [] => skipped "No port template defined"
  | Some _ =>
      lab_record_id ← lift (data_get resolve_data "lab_record_id");
      if negb (truthy lab_record_id) then failed "No lab_record_id from lab_resolve"
      else
        lab_record_id ← lift (as_str lab_record_id);
        or_failed "" (result ← ask (AllocateLabRecordPorts lab_record_id (s_worker_id instance)); completed result)
  end.

(** The allocated ports that [ports_alloc] left. *)
Definition allocated_ports (ports_data : pyval) : res pyval :=
  if truthy ports_data then
    match ports_data with
    | PDict d => Ok (pd_get_or "allocated_ports" (PDict []) d)
    | _ => Err (AttributeError "object has no attribute 'get'")
    end
  else Ok (PDict []).

(** The tags by node label, from port names ["{node_label}_{protocol}"]. *)
Definition add_tag (node_tags : dict (list string)) (entry : string * Z) : dict (list string) :=
  match rsplit_once "_"%char entry.1 with
  | None => node_tags
  | Some (node_label, protocol) =>
      dict_set node_label (default [] (dict_get node_label node_tags) ++ [protocol +:+ ":" +:+ pretty entry.2]) node_tags
  end.
Definition tags_by_label (ports : dict Z) : dict (list string) := fold_left add_tag ports [].

(** The loop over the nodes: the labels of those that were tagged. *)
Fixpoint sync_nodes (cml_lab_id : string) (node_tags : dict (list string)) (nodes : list node_info) : prog (list string) :=
  match nodes with
  | [] => mret []
  | node :: nodes =>
      let node_label := label (n_node node) in
      synced ← (match dict_get (safe_label node_label) node_tags with
                | Some tags => or_return (_ ← ask (PatchNodeTags worker_host cml_lab_id (n_id node) tags); mret [node_label]) []
                | None => mret []
                end);
      rest ← sync_nodes cml_lab_id node_tags nodes;
      mret (synced ++ rest)
  end.

Definition step_tags_sync : prog StepResult :=
  let ports_data := get_step_result_data progress "ports_alloc" in
  if negb (truthy ports_data) then skipped "No ports_alloc data"
  else
    ports ← lift (allocated_ports ports_data);
    if negb (truthy ports) then skipped "No allocated ports"
    else with_lab_id (fun cml_lab_id =>
      ports ← lift (as_ports ports);
      let node_tags := tags_by_label ports in
      call_or_failed "Failed to get lab nodes: " (ask (GetLabNodes worker_host cml_lab_id)) (fun nodes =>
        synced_nodes ← sync_nodes cml_lab_id node_tags nodes;
        completed [("synced_nodes", PList (map PStr synced_nodes));
                   ("tag_count", PInt (Z.of_nat (length (concat (map snd node_tags)))))])).

Definition step_lab_binding : prog StepResult :=
  with_lab_id (fun cml_lab_id =>
    recorded ← lift (data_get resolve_data "lab_record_id");
    lab_record_id ← (if truthy recorded then lift (as_ostr recorded) else find_or_register cml_lab_id);
    match lab_record_id with
    | Some id =>
        if negb (str_truthy id) then failed ("No lab_record_id for lab " +:+ cml_lab_id +:+ " - find and register both failed")
        else
          cml_lab_title ← lift (data_get resolve_data "cml_lab_title");
          or_failed "" (result ← ask (BindLabToSession (s_id instance) (s_worker_id instance) id cml_lab_id cml_lab_title);
                        completed result)
    | None => failed ("No lab_record_id for lab " +:+ cml_lab_id +:+ " - find and register both failed")
    end).

(** ** [lab_start_step.py], [stop_lab_step.py] *)

Definition finished (m : prog StepResult) : prog (option StepResult) := r ← m; mret (Some r).

Definition converged_result (cml_lab_id : string) : pydict := [("lab_state", PStr "CONVERGED"); ("cml_lab_id", PStr cml_lab_id)].
Definition check_converged (cml_lab_id : string) : prog bool := or_return (ask (CheckIfConverged worker_host cml_lab_id)) false.

(** The polls until the lab has converged; a poll that fails is repeated. *)
Fixpoint poll_started (cml_lab_id : string) (polls poll_count : nat) : prog (option StepResult) :=
  match polls with
  | O => mret None
  | S polls =>
      let poll_count := S poll_count in
      try_else (ask (GetLabState worker_host cml_lab_id)) (fun _ => poll_started cml_lab_id polls poll_count) (fun lab_state =>
        if bool_decide (lab_state = Some QUEUED) then poll_started cml_lab_id polls poll_count
        else if negb (bool_decide (lab_state = Some STARTED)) then
          finished (failed ("Lab entered unexpected state " +:+ default "None" (lab_state_str <$> lab_state) +:+ " while waiting for convergence"))
        else
          converged ← check_converged cml_lab_id;
          if negb converged then
            _ ← (if (poll_count =? 1)%nat || (poll_count mod 3 =? 0)%nat
                 then ignore_errors (_ ← ask (GetLabNodes worker_host cml_lab_id); mret ()) else mret ());
            poll_started cml_lab_id polls poll_count
          else finished (completed (converged_result cml_lab_id)))
  end.

Definition step_lab_start (polls : nat) : prog (option StepResult) :=
  cml_lab_id ← lift (data_get resolve_data "cml_lab_id");
  if negb (truthy cml_lab_id) then finished (failed "No cml_lab_id from lab_resolve")
  else
    cml_lab_id ← lift (as_str cml_lab_id);
    if c_scenario_engine_enabled context then
      finished (submit_scenario_engine_job "lab_start" "lab_start"
                  [("session_id", PStr (s_id instance)); ("cml_lab_id", PStr cml_lab_id)])
    else
      try_else (ask (GetLabState worker_host cml_lab_id)) (fun e => finished (failed ("Failed to get lab state: " +:+ exn_str e)))
        (fun lab_state =>
          match lab_state with
          | None =>
              _ ← (if ostr_truthy (s_worker_id instance)
                   then ignore_errors (update_lab_record_status cml_lab_id (s_worker_id instance) "orphaned") else mret ());
              finished (failed ("Lab " +:+ cml_lab_id +:+ " not found on worker (ghost lab) - LabRecord marked ORPHANED"))
          | Some STARTED =>
              converged ← check_converged cml_lab_id;
              if negb converged then poll_started cml_lab_id polls 0 else finished (completed (converged_result cml_lab_id))
          | Some STOPPED | Some DEFINED_ON_CORE =>
              try_else (ask (StartLab worker_host cml_lab_id)) (fun e => finished (failed ("Failed to start lab: " +:+ exn_str e)))
                (fun _ => poll_started cml_lab_id polls 0)
          | Some _ => poll_started cml_lab_id polls 0
          end).

Definition is_stopped (lab_state : option LabState) : bool :=
  match lab_state with Some STOPPED | Some DEFINED_ON_CORE => true | _ => false end.
Definition stopped_result (lab_state : option LabState) : pydict :=
  [("lab_state", PStr (default "None" (lab_state_str <$> lab_state)))].

Fixpoint poll_stopped (cml_lab_id : string) (polls : nat) : prog (option StepResult) :=
  match polls with
  | O => mret None
  | S polls =>
      try_else (ask (GetLabState worker_host cml_lab_id)) (fun e => finished (failed ("Failed to poll lab state: " +:+ exn_str e)))
        (fun lab_state =>
          if is_stopped lab_state then finished (completed (stopped_result lab_state)) else poll_stopped cml_lab_id polls)
  end.

Definition step_stop_lab (polls : nat) : prog (option StepResult) :=
  match s_cml_lab_id instance with
  | Some cml_lab_id =>
      if negb (str_truthy cml_lab_id) then finished (completed [("lab_state", PStr "NO_LAB")])
      else
        try_else (ask (GetLabState worker_host cml_lab_id)) (fun e => finished (failed ("Failed to get lab state: " +:+ exn_str e)))
          (fun lab_state =>
            if is_stopped lab_state then finished (completed (stopped_result lab_state))
            else if bool_decide (lab_state = Some STARTED) then
              try_else (ask (StopLab worker_host cml_lab_id)) (fun e => finished (failed ("Failed to stop lab: " +:+ exn_str e)))
                (fun _ => poll_stopped cml_lab_id polls)
            else poll_stopped cml_lab_id polls)
  | None => finished (completed [("lab_state", PStr "NO_LAB")])
  end.

(** ** [lds_provision_step.py], [mark_ready_step.py] *)

(** [{d["device_label"] for d in raw_visible}] *)
Definition visible_label (d : pyval) : res string :=
  match d with
  | PDict d => match dict_get "device_label" d with Some v => as_str v | None => Err (KeyError "device_label") end
  | _ => Err (TypeError "string indices must be integers")
  end.
Definition visible_labels (raw_visible : option (list pyval)) : res (option (list string)) :=
  match raw_visible with None => Ok None | Some l => Some <$> mapM visible_label l end.

(** The [except] clauses of [step_lds_provision]. *)
Definition provisioning_failed (e : exn) : prog StepResult :=
  failed (if lds_spi_error e then "LDS provisioning failed: " +:+ exn_str e else exn_str e).

Definition provision (cml_lab_id form_qualified_name : string) (d : definition) : prog StepResult :=
  labels ← lift (visible_labels (d_user_visible_devices d));
  ports ← lift (allocated_ports (get_step_result_data progress "ports_alloc"));
  ports ← (if truthy ports then lift (as_ports ports) else mret []);
  all_devices ← (match ports with
                 | [] => nodes ← ask (GetLabNodes worker_host cml_lab_id);
                         mret (build_device_access_list (map n_node nodes) (c_worker_ip context) None)
                 | _ => mret []
                 end);
  let devices := session_devices ports (c_worker_ip context) labels (c_lds_protocol_priority context)
                   (c_lds_port_preferences context) all_devices in
  let region := s_worker_aws_region instance in
  scheduled ← now;
  lds_session_id ← ask (CreateLdsSession (s_name instance) scheduled form_qualified_name region);
  _ ← (match devices with [] => mret () | _ => ask (SetDevices lds_session_id devices region) end);
  launch_url ← ask (GetLaunchUrl lds_session_id region);
  user_session_data ← ask (CreateUserSession (s_id instance) lds_session_id launch_url cml_lab_id);
  completed [("lds_session_id", PStr lds_session_id); ("user_session_id", pd_get_or "id" (PStr lds_session_id) user_session_data);
             ("launch_url", PStr launch_url); ("device_count", PInt (Z.of_nat (length devices)))].

Definition step_lds_provision : prog StepResult :=
  with_lab_id (fun cml_lab_id =>
    match c_definition context ≫= fun d => form ← d_form_qualified_name d; if str_truthy form then Some (d, form) else None with
    | None => skipped "No form_qualified_name - LDS not applicable"
    | Some (d, form) =>
        if negb (c_lds context) then skipped "LDS client not configured"
        else try_ (provision cml_lab_id form d) provisioning_failed
    end).

Definition step_mark_ready : prog StepResult :=
  with_lab_id (fun cml_lab_id =>
    user_session_id ← lift (data_get (get_step_result_data progress "lds_provision") "user_session_id");
    user_session_id ← lift (as_str (py_or user_session_id (PStr "")));
    or_failed "" (
      _ ← ask (MarkSessionReady (s_id instance) user_session_id cml_lab_id);
      _ ← write (fun w => w <| resolved_lab_ids := delete (s_id instance) (resolved_lab_ids w) |>);
      _ ← write (fun w => w <| freshly_imported_sessions := freshly_imported_sessions w ∖ {[s_id instance]} |>);
      completed [("cml_lab_id", PStr cml_lab_id); ("user_session_id", PStr user_session_id)])).

(** ** [deregister_lds_step.py], [wipe_lab_step.py], [archive_step.py] *)

Definition step_deregister_lds : prog StepResult :=
  match s_lds_session_id instance with
  | Some lds_session_id =>
      if negb (str_truthy lds_session_id) then completed [("lds_archived", PBool false)]
      else if negb (c_lds context) then skipped "LDS client not configured"
      else try_ (_ ← ask (ArchiveLdsSession lds_session_id (s_worker_aws_region instance)); completed [("lds_archived", PBool true)])
                (fun e => failed (if lds_spi_error e then "LDS archive failed: " +:+ exn_str e else exn_str e))
  | None => completed [("lds_archived", PBool false)]
  end.

Definition step_wipe_lab : prog StepResult :=
  match s_cml_lab_id instance with
  | Some cml_lab_id =>
      if negb (str_truthy cml_lab_id) then completed [("lab_wiped", PBool false)]
      else or_failed "Failed to wipe lab: " (
             _ ← ask (WipeLab worker_host cml_lab_id);
             _ ← (if ostr_truthy (s_worker_id instance)
                  then ignore_errors (update_lab_record_status cml_lab_id (s_worker_id instance) "wiped") else mret ());
             completed [("lab_wiped", PBool true)])
  | None => completed [("lab_wiped", PBool false)]
  end.

Definition step_archive : prog StepResult :=
  _ ← ignore_errors (_ ← record_lab_run_completed instance; mret ());
  or_failed "Failed to archive session: " (
    _ ← ask (TransitionSession (s_id instance) SessionStatus.ARCHIVED "Teardown pipeline completed");
    archived_at ← now;
    completed [("archived_at", PIso archived_at)]).

(** ** The stubs of evidence and grading *)
Definition step_capture_configs : prog StepResult := completed [("configs", PList []); ("note", PStr "stub")].
Definition step_capture_screenshots : prog StepResult := completed [("screenshots", PList []); ("note", PStr "stub")].
Definition step_export_pcaps : prog StepResult := completed [("pcaps", PList []); ("note", PStr "stub")].
Definition step_package_evidence : prog StepResult :=
  completed [("evidence_uri", PNone); ("note", PStr "stub - no evidence collected yet")].
Definition step_load_rubric : prog StepResult := completed [("rubric_loaded", PBool false); ("note", PStr "stub")].
Definition step_record_score : prog StepResult := completed [("score_report_id", PNone); ("note", PStr "stub")].
Definition step_evaluate : prog StepResult := completed [("score", PNone); ("note", PStr "stub - grading engine not implemented")].

(** ** [cml_command_step.py]

    The client of CML ([CmlLabsSpiClient]) has none of the methods that the actions
    call: the attribute is looked up inside of the [try]. *)
Definition missing_method {A} (name : string) : prog A :=
  lift (Err (AttributeError ("'CmlLabsSpiClient' object has no attribute '" +:+ name +:+ "'"))).

Definition find_node_id_by_label (nodes : list node_info) (target_label : string) : option string :=
  n_id <$> List.find (fun node => String.eqb (py_lower (label (n_node node))) (py_lower target_label)) nodes.

Definition param (k : string) (params : pydict) : pyval := pd_get_or k (PStr "") params.

Definition action_transfer_file (node_label : string) (params : pydict) : prog StepResult :=
  if negb (truthy (param "source_url" params)) || negb (truthy (param "target_path" params))
  then failed "transfer_file requires source_url and target_path params"
  else or_failed ("File transfer to " +:+ node_label +:+ " failed: ") (
         _ ← missing_method (A := ()) "upload_file_to_node";
         completed [("action", PStr "transfer_file"); ("node", PStr node_label); ("target_path", param "target_path" params)]).

Definition action_execute_command (node_label : string) (params : pydict) : prog StepResult :=
  if negb (truthy (param "command" params)) then failed "execute_command requires command param"
  else or_failed ("Command execution on " +:+ node_label +:+ " failed: ") (
         output ← missing_method (A := pyval) "execute_node_command";
         completed [("action", PStr "execute_command"); ("node", PStr node_label); ("command", param "command" params); ("output", output)]).

(** [_action_shut_interface] ([state] "down") and [_action_no_shut_interface] ("up"). *)
Definition action_interface (action state : string) (node_label : string) (params : pydict) : prog StepResult :=
  if negb (truthy (param "interface" params)) then failed (action +:+ " requires interface param")
  else or_failed ("Interface " +:+ (if String.eqb state "down" then "shutdown" else "enable") +:+ " on " +:+ node_label +:+ " failed: ") (
         _ ← missing_method (A := ()) "set_interface_state";
         completed [("action", PStr action); ("node", PStr node_label); ("interface", param "interface" params); ("state", PStr state)]).

Definition action_extract_configs (node_label : string) (params : pydict) : prog StepResult :=
  or_failed ("Config extraction from " +:+ node_label +:+ " failed: ") (
    config ← missing_method (A := option string) "get_node_config";
    completed [("action", PStr "extract_configs"); ("node", PStr node_label); ("config_type", pd_get_or "config_type" (PStr "running") params);
               ("config_length", PInt (Z.of_nat (String.length (default "" config)))); ("config", of_ostr config)]).

Definition action_handler (action : pyval) : option (string -> pydict -> prog StepResult) :=
  if eq_str action "transfer_file" then Some action_transfer_file
  else if eq_str action "execute_command" then Some action_execute_command
  else if eq_str action "shut_interface" then Some (action_interface "shut_interface" "down")
  else if eq_str action "no_shut_interface" then Some (action_interface "no_shut_interface" "up")
  else if eq_str action "extract_configs" then Some action_extract_configs
  else None.

(** The lab of the session, else that of [lab_resolve]. *)
Definition command_lab_id : res pyval :=
  if ostr_truthy (s_cml_lab_id instance) then Ok (of_ostr (s_cml_lab_id instance))
  else match pd_get_or "lab_resolve" (PDict []) progress with
       | PDict lab_resolve_data =>
           match pd_get_or "result_data" (PDict []) lab_resolve_data with
           | PDict result_data => Ok (pd_get "cml_lab_id" result_data)
           | _ => Err (AttributeError "object has no attribute 'get'")
           end
       | _ => Ok (of_ostr (s_cml_lab_id instance))
       end.

Definition step_execute_command_on_cml_node (params : option pydict) : prog StepResult :=
  match params with
  | None | Some [] => failed "No params provided for execute_command_on_cml_node"
  | Some params =>
      if negb (truthy (pd_get "action" params)) then failed "Missing required param: action"
      else if negb (truthy (pd_get "target_node" params)) then failed "Missing required param: target_node"
      else
        cml_lab_id ← lift command_lab_id;
        if negb (truthy cml_lab_id) then failed "No cml_lab_id available"
        else
          cml_lab_id ← lift (as_str cml_lab_id);
          call_or_failed "Failed to get lab nodes: " (ask (GetLabNodes worker_host cml_lab_id)) (fun nodes =>
            target_node_label ← lift (as_str (pd_get "target_node" params));
            match find_node_id_by_label nodes target_node_label with
            | Some node_id =>
                if negb (str_truthy node_id) then failed ("Node '" +:+ target_node_label +:+ "' not found in lab " +:+ cml_lab_id)
                else match action_handler (pd_get "action" params) with
                     | None => failed "Unknown action. Supported: transfer_file, execute_command, shut_interface, no_shut_interface, extract_configs"
                     | Some handler => handler target_node_label params
                     end
            | None => failed ("Node '" +:+ target_node_label +:+ "' not found in lab " +:+ cml_lab_id)
            end)
  end.

(** ** The registry, and the dispatcher ([_build_step_dispatcher])

    [polls] is how many polls the timeout of the step leaves room for. *)
Definition get_handler (polls : nat) (params : option pydict) (name : string) : option (prog (option StepResult)) :=
  dict_get name [
    ("content_sync", finished step_content_sync); ("variables", finished step_variables);
    ("lab_resolve", finished step_lab_resolve); ("ports_alloc", finished step_ports_alloc);
    ("tags_sync", finished step_tags_sync); ("lab_binding", finished step_lab_binding);
    ("lab_start", step_lab_start polls); ("lds_provision", finished step_lds_provision);
    ("mark_ready", finished step_mark_ready); ("stop_lab", step_stop_lab polls);
    ("deregister_lds", finished step_deregister_lds); ("wipe_lab", finished step_wipe_lab);
    ("archive", finished step_archive); ("capture_configs", finished step_capture_configs);
    ("capture_screenshots", finished step_capture_screenshots); ("export_pcaps", finished step_export_pcaps);
    ("package_evidence", finished step_package_evidence); ("load_rubric", finished step_load_rubric);
    ("evaluate", finished step_evaluate); ("record_score", finished step_record_score);
    ("execute_command_on_cml_node", finished (step_execute_command_on_cml_node params))].

(** What the executor sees of a step: its result data, an error, or a timeout.  The
    reconciler has no [_step_*] methods. *)
Definition dispatch (polls : nat) (handler_name : string) (params : option pydict) : prog (awaited pyval) := fun w =>
  match get_handler polls params handler_name with
  | None => (Ok (Raised ("Unknown pipeline step handler: " +:+ handler_name +:+ " (not in registry or reconciler)")), w)
  | Some handler_fn =>
      match handler_fn w with
      | (Ok (Some step_result), w') =>
          let result_dict := StepResult_to_dict step_result in
          (Ok (if eq_str (pd_get_or "status" (PStr "completed") result_dict) "failed"
               then Raised (match pd_get "error" result_dict with PStr e => e | _ => "Step " +:+ handler_name +:+ " failed" end)
               else Returned (pd_get_or "result_data" (PDict []) result_dict)), w')
      | (Ok None, w') => (Ok TimedOut, w')
      | (Err e, w') => (Ok (Raised (exn_str e)), w')
      end
  end.

End Handlers.
