(* ===== verification/StepHandlersProps.v ===== *)
(** * What the steps of the session pipelines do to labs

    What a program adds to the log and changes of what the reconciler tracks, the labs
    that were imported, and the theorems on the steps: at most one lab is imported for a
    session however often [lab_resolve] runs, which lab is reused, and the steps that
    cannot do what they are for. *)
From S2P Require Import Prelude PyData Enums Programs Ports Pipeline DeviceAccess LabletServices StepHandlers.
From Stdlib Require Import Ascii.

(** ** Programs within a relation of worlds ([Programs.within]) *)
Section Within.
Context `{Services} (R : world -> world -> Prop) `{!PreOrder R}.

Lemma within_read {A} (f : world -> A) : within R (read f).
Proof. intros w. cbn. reflexivity. Qed.
Lemma within_write f : (forall w, R w (f w)) -> within R (write f).
Proof. intros HR w. apply HR. Qed.

Lemma within_try_else {A B} (m : prog A) (h : exn -> prog B) k :
  within R m -> (forall e, within R (h e)) -> (forall a, within R (k a)) -> within R (try_else m h k).
Proof.
  intros Hm Hh Hk w. unfold try_else. pose proof (Hm w) as Hw. destruct (m w) as [[a|e] w1]; cbn in *;
    (etransitivity; [done|]); [apply Hk|apply Hh].
Qed.
Lemma within_or_return {A} (m : prog A) x : within R m -> within R (or_return m x).
Proof. intros Hm. apply within_try; [exact _|done|]. intros e. apply within_ret; exact _. Qed.
End Within.

(** ** The quiet programs: they neither import nor delete a lab, and leave what is tracked *)
Definition plain (e : event) : bool :=
  match e with Ev c => match c with ImportLab _ _ _ | DeleteLab _ _ => false | _ => true end end.

Definition quiet (w w' : world) : Prop :=
  (exists l, log w' = log w ++ l /\ Forall (fun e => plain e = true) l) /\
  resolved_lab_ids w' = resolved_lab_ids w /\ freshly_imported_sessions w' = freshly_imported_sessions w.

#[export] Instance quiet_preorder : PreOrder quiet.
Proof.
  split.
  - intros w. split; [|done]. exists []. by rewrite app_nil_r.
  - intros w1 w2 w3 [(l1 & H1 & F1) [R1 S1]] [(l2 & H2 & F2) [R2 S2]]. split; [|split; congruence].
    exists (l1 ++ l2). rewrite H2, H1, app_assoc. split; [done|by apply Forall_app].
Qed.

Lemma quiet_log (w : world) e : plain e = true -> quiet w (w <| log := log w ++ [e] |>).
Proof. intros He. split; [|done]. exists [e]. split; [done|by constructor]. Qed.

Section Quiet.
Context `{Services} (cfg : settings).

Lemma quiet_ask {A} (c : call A) : plain (Ev c) = true -> within quiet (ask c).
Proof. intros Hc w. by apply quiet_log. Qed.
Lemma quiet_now : within quiet now.
Proof. intros w. by apply quiet_log. Qed.
Lemma quiet_uuid : within quiet short_uuid.
Proof. intros w. by apply quiet_log. Qed.
End Quiet.

Create HintDb quiet.
#[export] Hint Resolve quiet_now quiet_uuid : quiet.

(** Follow a program: its binds, handlers and cases. *)
Ltac quiet_step :=
  first
  [ solve [auto with quiet]
  | apply within_ret; exact _ | apply within_lift; exact _ | apply within_read; exact _
  | apply quiet_ask; reflexivity
  | apply within_write; [exact _..|]; intros; split; [exists []; split; [by rewrite app_nil_r|constructor]|done]
  | apply within_bind; [exact _| |intros]
  | apply within_try; [exact _| |intros]
  | apply within_try_else; [exact _| |intros|intros]
  | apply within_or_return; [exact _|]
  | match goal with
    | |- within _ (match ?x with _ => _ end) => destruct x
    | |- within _ (let _ := _ in _) => cbv zeta
    end ].
Ltac quiet := intros; repeat quiet_step.

Section QuietPrograms.
Context `{Services} (cfg : settings).

Lemma quiet_get_definition id : within quiet (get_definition id).
Proof. unfold get_definition. quiet. Qed.
Lemma quiet_get_cached_worker id : within quiet (get_cached_worker id).
Proof. unfold get_cached_worker. quiet. Qed.
Lemma quiet_find lab worker : within quiet (find_lab_record_id lab worker).
Proof. unfold find_lab_record_id. quiet. Qed.
#[local] Hint Resolve quiet_get_definition quiet_get_cached_worker quiet_find : quiet.
Lemma quiet_enrich s : within quiet (enrich_with_worker_details cfg s).
Proof. unfold enrich_with_worker_details. quiet. Qed.
Lemma quiet_update lab worker status : within quiet (update_lab_record_status lab worker status).
Proof. unfold update_lab_record_status, ignore_errors. quiet. Qed.
#[local] Hint Resolve quiet_update : quiet.
Lemma quiet_register lab s : within quiet (register_lab_record lab s).
Proof. unfold register_lab_record. quiet. Qed.
Lemma quiet_candidates ip worker labs : within quiet (try_candidates ip worker labs).
Proof. induction labs as [|lab labs IH]; cbn [try_candidates]; quiet. Qed.
#[local] Hint Resolve quiet_candidates : quiet.
Lemma quiet_reuse s : within quiet (try_reuse_existing_lab s).
Proof. unfold try_reuse_existing_lab. quiet. Qed.
Lemma quiet_record_run s : within quiet (record_lab_run_completed s).
Proof. unfold record_lab_run_completed. quiet. Qed.
Lemma quiet_observe s : within quiet (observe_and_report cfg s).
Proof. unfold observe_and_report, ignore_errors. quiet. Qed.
End QuietPrograms.
#[export] Hint Resolve quiet_get_definition quiet_get_cached_worker quiet_find quiet_enrich quiet_update quiet_register
  quiet_reuse quiet_record_run quiet_observe : quiet.

(** ** The steps that are quiet: all but [lab_resolve] and [mark_ready] *)
Section QuietSteps.
Context `{Services} (cfg : settings) (instance : session) (progress : pydict) (context : PipelineContext).

#[local] Ltac steps := try unfold finished, with_lab_id, call_or_failed, or_failed, provisioning_failed, completed, skipped, failed, ignore_errors; quiet.

Lemma quiet_find_or_register lab : within quiet (find_or_register instance lab).
Proof. unfold find_or_register. quiet. Qed.
#[local] Hint Resolve quiet_find_or_register : quiet.
Lemma quiet_submit scenario step input : within quiet (submit_scenario_engine_job instance context scenario step input).
Proof. unfold submit_scenario_engine_job. steps. Qed.
#[local] Hint Resolve quiet_submit : quiet.

Lemma quiet_sync_nodes lab tags nodes : within quiet (sync_nodes context lab tags nodes).
Proof. induction nodes as [|n nodes IH]; cbn [sync_nodes]; quiet. Qed.
Lemma quiet_poll_started lab polls count : within quiet (poll_started context lab polls count).
Proof.
  revert count. induction polls as [|polls IH]; intros count; cbn [poll_started]; [quiet|].
  unfold check_converged. cbv zeta. steps.
Qed.
Lemma quiet_poll_stopped lab polls : within quiet (poll_stopped context lab polls).
Proof. induction polls as [|polls IH]; cbn [poll_stopped]; steps. Qed.
#[local] Hint Resolve quiet_sync_nodes quiet_poll_started quiet_poll_stopped : quiet.

Lemma quiet_lab_start polls : within quiet (step_lab_start instance progress context polls).
Proof. unfold step_lab_start, check_converged. steps. Qed.
Lemma quiet_stop_lab polls : within quiet (step_stop_lab instance context polls).
Proof. unfold step_stop_lab. steps. Qed.
Lemma quiet_action action label params :
  within quiet (match action_handler action with None => failed "Unknown action. Supported: transfer_file, execute_command, shut_interface, no_shut_interface, extract_configs" | Some handler => handler label params end).
Proof.
  unfold action_handler. repeat destruct (eq_str _ _);
    unfold action_transfer_file, action_execute_command, action_interface, action_extract_configs, missing_method; steps.
Qed.
Lemma quiet_command params : within quiet (step_execute_command_on_cml_node instance progress context params).
Proof.
  unfold step_execute_command_on_cml_node, call_or_failed.
  pose proof quiet_action as Ha. unfold failed in *. quiet.
Qed.
#[local] Hint Resolve quiet_lab_start quiet_stop_lab quiet_command : quiet.

Lemma quiet_handler polls params name handler :
  get_handler instance progress context polls params name = Some handler ->
  name <> "lab_resolve" -> name <> "mark_ready" -> within quiet handler.
Proof.
  intros Hh Hr Hm. unfold get_handler in Hh. apply dict_get_elem, list_elem_of_In in Hh.
  repeat destruct Hh as [[= <- <-]|Hh]; try done; try solve [steps].
  all: unfold step_content_sync, step_variables, step_ports_alloc, step_tags_sync, step_deregister_lds, step_wipe_lab; steps.
Qed.
End QuietSteps.

(** ** Programs that do not raise *)
Definition returns {A} (m : prog A) : Prop := forall w, exists a, (m w).1 = Ok a.

Lemma returns_run {A} (m : prog A) w : returns m -> exists a w', m w = (Ok a, w').
Proof. intros Hm. destruct (Hm w) as [a Ha]. destruct (m w) as [r w'] eqn:Hw. cbn in Ha. subst. eauto. Qed.
Lemma or_return_returns {A} (m : prog A) x : returns (or_return m x).
Proof. intros w. unfold or_return, try_. destruct (m w) as [[a|e] w']; cbn; eauto. Qed.
Lemma returns_ret {A} (a : A) : returns (mret a).
Proof. intros w. cbn. eauto. Qed.
Lemma returns_bind {A B} (m : prog A) (f : A -> prog B) : returns m -> (forall a, returns (f a)) -> returns (m ≫= f).
Proof. intros Hm Hf w. destruct (returns_run m w Hm) as (a & w' & Hr). rewrite (run_bind _ _ _ _ _ Hr). apply Hf. Qed.

(** ** The labs that were imported *)
Section Imports.
Context `{Services}.

(** The lab of an import that succeeded. *)
Definition import_result {A} (c : call A) : res A -> list string :=
  match c in call A return res A -> list string with
  | ImportLab _ _ _ => fun r => match r with Ok (Some id) => if str_truthy id then [id] else [] | _ => [] end
  | _ => fun _ => []
  end.

(** Those of the log [rest], which continues [pre]. *)
Fixpoint imports_from (pre rest : list event) : list string :=
  match rest with
  | [] => []
  | Ev c :: rest => import_result c (answer _ pre c) ++ imports_from (pre ++ [Ev c]) rest
  end.
Definition imports (l : list event) : list string := imports_from [] l.

Lemma imports_from_app pre l1 l2 : imports_from pre (l1 ++ l2) = imports_from pre l1 ++ imports_from (pre ++ l1) l2.
Proof.
  revert pre. induction l1 as [|[A c] l1 IH]; intros pre; cbn [imports_from app]; [by rewrite app_nil_r|].
  rewrite IH, <- !app_assoc. done.
Qed.
Lemma imports_app l1 l2 : imports (l1 ++ l2) = imports l1 ++ imports_from l1 l2.
Proof. apply imports_from_app. Qed.
Lemma imports_plain pre l : Forall (fun e => plain e = true) l -> imports_from pre l = [].
Proof.
  intros Hl. revert pre. induction Hl as [|[A c] l Hc Hl IH]; intros pre; cbn [imports_from]; [done|].
  rewrite IH. by destruct c.
Qed.
Lemma imports_quiet w w' : quiet w w' -> imports (log w') = imports (log w).
Proof. intros [(l & -> & Hl) _]. by rewrite imports_app, imports_plain, app_nil_r. Qed.

(** ** [lab_resolve] *)

Definition keeps_labs (e : event) : bool := match e with Ev c => match c with DeleteLab _ _ => false | _ => true end end.
Definition extends (w w' : world) : Prop := exists l, log w' = log w ++ l /\ Forall (fun e => keeps_labs e = true) l.

#[export] Instance extends_preorder : PreOrder extends.
Proof.
  split.
  - intros w. exists []. by rewrite app_nil_r.
  - intros w1 w2 w3 (l1 & H1 & F1) (l2 & H2 & F2). exists (l1 ++ l2). rewrite H2, H1, app_assoc. split; [done|by apply Forall_app].
Qed.
Lemma quiet_extends w w' : quiet w w' -> extends w w'.
Proof. intros [(l & Hl & F) _]. exists l. split; [done|]. eapply Forall_impl; [exact F|]. by intros [A []]. Qed.

(** Whether the reconciler knows the lab of the session. *)
Definition known_lab (s : session) (w : world) : bool := ostr_truthy (or_else (s_cml_lab_id s) (resolved_lab_ids w !! s_id s)).

(** What a resolution does to the labs and to what is tracked. *)
Inductive resolution (s : session) (w w' : world) : Prop :=
| Untouched : imports (log w') = imports (log w) -> resolved_lab_ids w' = resolved_lab_ids w ->
    freshly_imported_sessions w' = freshly_imported_sessions w -> resolution s w w'
| Resolved (fresh : bool) (lab : string) : known_lab s w = false -> str_truthy lab = true ->
    imports (log w') = imports (log w) ++ (if fresh then [lab] else []) ->
    resolved_lab_ids w' = <[s_id s := lab]> (resolved_lab_ids w) ->
    freshly_imported_sessions w' = (if fresh then {[s_id s]} ∪ freshly_imported_sessions w else freshly_imported_sessions w) ->
    resolution s w w'.

Lemma quiet_untouched s w w' : quiet w w' -> resolution s w w'.
Proof. intros Hq. apply Untouched; [by apply imports_quiet|apply Hq..]. Qed.
Lemma resolution_quiet s w w' w'' : resolution s w w' -> quiet w' w'' -> resolution s w w''.
Proof.
  intros Hr Hq. pose proof (imports_quiet _ _ Hq) as Hi. destruct Hq as (_ & Hr' & Hf').
  destruct Hr as [H1 H2 H3|fresh lab H0 Ht H1 H2 H3]; [apply Untouched; congruence|].
  apply (Resolved s w w'' fresh lab); congruence.
Qed.

Lemma get_definition_returns id : returns (get_definition id).
Proof.
  unfold get_definition. apply returns_bind; [by intros w; cbn; eauto|]. intros [d|]; [apply returns_ret|apply or_return_returns].
Qed.
Lemma reuse_returns s : returns (try_reuse_existing_lab s).
Proof.
  unfold try_reuse_existing_lab. destruct (s_worker_id s), (s_worker_ip s); try apply returns_ret.
  destruct (_ || _); [apply returns_ret|apply or_return_returns].
Qed.

(** What is known of one import. *)
Lemma import_fresh_run s topology w : exists o w', import_fresh_lab s topology w = (Ok o, w') /\ extends w w' /\
  resolved_lab_ids w' = resolved_lab_ids w /\ freshly_imported_sessions w' = freshly_imported_sessions w /\
  imports (log w') = imports (log w) ++ match o with Some id => if str_truthy id then [id] else [] | None => [] end.
Proof.
  assert (forall w, exists o w', mret (M := prog) (None (A := string)) w = (Ok o, w') /\ extends w w' /\
    resolved_lab_ids w' = resolved_lab_ids w /\ freshly_imported_sessions w' = freshly_imported_sessions w /\
    imports (log w') = imports (log w) ++ match o with Some id => if str_truthy id then [id] else [] | None => [] end) as Hnone.
  { intros w1. exists None, w1. split; [done|]. by rewrite app_nil_r. }
  unfold import_fresh_lab. destruct (or_else _ _) as [yaml|]; [|apply Hnone].
  destruct (str_truthy yaml); [|apply Hnone].
  set (c := ImportLab (s_worker_ip s) yaml (s_name s)).
  assert (forall o, match answer _ (log w) c with Ok r => o = r | Err _ => o = None end -> exists o w',
    or_return (ask c) None w = (Ok o, w') /\ extends w w' /\ resolved_lab_ids w' = resolved_lab_ids w /\
    freshly_imported_sessions w' = freshly_imported_sessions w /\
    imports (log w') = imports (log w) ++ match o with Some id => if str_truthy id then [id] else [] | None => [] end) as Hc.
  { intros o Ho. exists o, (w <| log := log w ++ [Ev c] |>). unfold or_return, try_, ask. cbn [resolved_lab_ids freshly_imported_sessions log].
    split; [destruct (answer _ _ _); subst; done|]. split; [exists [Ev c]; split; [done|by repeat constructor]|]. do 2 (split; [done|]).
    change (log _) with (log w ++ [Ev c]) at 1. rewrite imports_app. f_equal. unfold c at 1. cbn [imports_from import_result]. rewrite app_nil_r. fold c.
    destruct (answer _ _ c); subst; done. }
  destruct (answer _ (log w) c) as [r|e] eqn:Ha; [apply (Hc r)|apply (Hc None)]; done.
Qed.

(** A resolution: what is imported is what is said to be. *)
Definition import_of (o : option LabResolutionResult) : list string :=
  match o with Some r => if freshly_imported r then [lab_id r] else [] | None => [] end.

Lemma resolve_for_run s topology w : exists o w', resolve_lab_for_instance s topology w = (Ok o, w') /\ extends w w' /\
  resolved_lab_ids w' = resolved_lab_ids w /\ freshly_imported_sessions w' = freshly_imported_sessions w /\
  imports (log w') = imports (log w) ++ import_of o /\ match o with Some r => str_truthy (lab_id r) = true | None => True end.
Proof.
  assert (forall w0, quiet w w0 -> exists o w',
    (imported ← import_fresh_lab s topology;
     mret (match imported with Some id => if str_truthy id then Some {| lab_id := id; freshly_imported := true |} else None | None => None end)) w0
    = (Ok o, w') /\ extends w w' /\ resolved_lab_ids w' = resolved_lab_ids w /\
    freshly_imported_sessions w' = freshly_imported_sessions w /\
    imports (log w') = imports (log w) ++ import_of o /\ match o with Some r => str_truthy (lab_id r) = true | None => True end) as Hfresh.
  { intros w0 Hq. destruct (import_fresh_run s topology w0) as (o & w' & Hr & He & H1 & H2 & H3).
    rewrite (run_bind _ _ _ _ _ Hr). eexists _, w'. split; [done|].
    split; [etransitivity; [by apply quiet_extends|done]|]. rewrite H1, H2, H3, (imports_quiet _ _ Hq). destruct Hq as (_ & -> & ->).
    do 2 (split; [done|]). destruct o as [id|]; [|done]. by destruct (str_truthy id) eqn:Ht. }
  unfold resolve_lab_for_instance.
  destruct (returns_run _ w (get_definition_returns (s_definition_id s))) as (d & w1 & Hd).
  rewrite (run_bind _ _ _ _ _ Hd). pose proof (quiet_get_definition (s_definition_id s) w) as Hq. rewrite Hd in Hq. cbn [snd] in Hq.
  assert (exists reused w2, (if match d with Some d => d_lab_reuse_enabled d | None => false end then try_reuse_existing_lab s else mret None) w1
    = (Ok reused, w2) /\ quiet w w2) as (reused & w2 & Hr & Hq2).
  { destruct (match d with Some d => _ | None => _ end).
    - destruct (returns_run _ w1 (reuse_returns s)) as (o & w2 & Hr). exists o, w2. split; [done|].
      pose proof (quiet_reuse s w1) as Hq1. rewrite Hr in Hq1. by etransitivity.
    - by exists None, w1. }
  rewrite (run_bind _ _ _ _ _ Hr). destruct reused as [id|]; [|by apply Hfresh].
  destruct (str_truthy id) eqn:Ht; [|by apply Hfresh].
  eexists _, w2. split; [done|]. split; [by apply quiet_extends|]. cbn [import_of freshly_imported lab_id].
  rewrite app_nil_r, (imports_quiet _ _ Hq2). by destruct Hq2 as (_ & -> & ->).
Qed.

Lemma resolve_lab_run s topology w : exists o w', resolve_lab s topology w = (Ok o, w') /\ extends w w' /\ resolution s w w'.
Proof.
  unfold resolve_lab. unfold read. unfold mbind at 1, prog_bind at 1. cbv zeta.
  fold (known_lab s w). destruct (known_lab s w) eqn:Hk.
  { eexists _, w. split; [done|]. split; [done|]. by apply Untouched. }
  destruct (resolve_for_run s (Some topology) w) as (o & w1 & Hr & He & H1 & H2 & H3 & Ht).
  rewrite (run_bind _ _ _ _ _ Hr). destruct o as [r|]; cbn [import_of] in H3.
  - destruct (freshly_imported r) eqn:Hf; (eexists _, _; split; [reflexivity|]; split; [exact He|]).
    + apply (Resolved s w _ true (lab_id r)); cbn; [done..| |]; congruence.
    + apply (Resolved s w _ false (lab_id r)); cbn; [done..| |]; congruence.
  - exists None, w1. split; [done|]. split; [done|]. apply Untouched; [|done..]. by rewrite H3, app_nil_r.
Qed.

Lemma resolve_step_resolution s context w : let w' := (step_lab_resolve s context w).2 in extends w w' /\ resolution s w w'.
Proof.
  cbv zeta. assert (forall m : prog StepResult, within quiet m -> extends w (m w).2 /\ resolution s w (m w).2) as Hq.
  { intros m Hm. split; [apply quiet_extends, Hm|apply quiet_untouched, Hm]. }
  unfold step_lab_resolve. destruct (negb _); [by apply Hq, within_ret; exact _|]. cbv zeta.
  destruct (c_scenario_engine_enabled context); [apply Hq, quiet_submit|].
  destruct (resolve_lab_run s (default "" (effective_topology s context)) w) as (o & w1 & Hr & He & Hs).
  rewrite (run_bind _ _ _ _ _ Hr).
  match goal with |- extends w (?m w1).2 /\ _ => assert (within quiet m) as Hm end.
  { pose proof quiet_find_or_register. unfold failed, completed. quiet. }
  split; [etransitivity; [exact He|apply quiet_extends, Hm]|by eapply resolution_quiet, Hm].
Qed.
End Imports.

(** ** Runs of steps *)
Record step_run := {
  of_session : session; with_progress : pydict; in_context : PipelineContext; polls : nat; handler_name : string;
  with_params : option pydict
}.

Section Runs.
Context `{Services}.

Definition run_step (w : world) (r : step_run) : world :=
  (dispatch (of_session r) (with_progress r) (in_context r) (polls r) (handler_name r) (with_params r) w).2.
Definition run_steps (w : world) (l : list step_run) : world := fold_left run_step l w.

Lemma run_step_handler w r : run_step w r =
  match get_handler (of_session r) (with_progress r) (in_context r) (polls r) (with_params r) (handler_name r) with
  | Some handler => (handler w).2
  | None => w
  end.
Proof.
  unfold run_step, dispatch. destruct (get_handler _ _ _ _ _ _) as [handler|]; [|done].
  by destruct (handler w) as [[[r'|]|e] w'].
Qed.

(** A step of a session's pipeline resolves its lab at most; other steps are quiet. *)
Lemma run_step_resolution w r : handler_name r <> "mark_ready" ->
  extends w (run_step w r) /\ resolution (of_session r) w (run_step w r).
Proof.
  intros Hm. rewrite run_step_handler. destruct (get_handler _ _ _ _ _ _) as [handler|] eqn:Hh; [|split; [done|by apply Untouched]].
  destruct (decide (handler_name r = "lab_resolve")) as [Hr|Hr].
  - rewrite Hr in Hh. injection Hh as <-. pose proof (resolve_step_resolution (of_session r) (in_context r) w) as Hs.
    unfold finished, mbind, prog_bind. by destruct (step_lab_resolve _ _ w) as [[a|e] w'].
  - pose proof (quiet_handler _ _ _ _ _ _ _ Hh Hr Hm w). split; [by apply quiet_extends|by apply quiet_untouched].
Qed.

Definition tracked (id : string) (w : world) : Prop := exists lab, str_truthy lab = true /\ resolved_lab_ids w !! id = Some lab.

Lemma tracked_known s w : tracked (s_id s) w -> known_lab s w = true.
Proof.
  intros (lab & Ht & Hl). unfold known_lab, or_else. rewrite Hl. by destruct (ostr_truthy (s_cml_lab_id s)) eqn:Hs.
Qed.

Lemma run_step_once id w r : s_id (of_session r) = id -> handler_name r <> "mark_ready" ->
  (imports (log (run_step w r)) = imports (log w) /\ (tracked id w -> tracked id (run_step w r))) \/
  (~ tracked id w /\ tracked id (run_step w r) /\ length (imports (log (run_step w r))) = (length (imports (log w)) + 1)%nat).
Proof.
  intros <- Hm. destruct (run_step_resolution w r Hm) as [_ [Hi Hr _|fresh lab Hk Ht Hi Hr _]].
  - left. split; [done|]. unfold tracked. by rewrite Hr.
  - assert (tracked (s_id (of_session r)) (run_step w r)) as Htr.
    { exists lab. split; [done|]. by rewrite Hr, lookup_insert_eq. }
    destruct fresh; [right|left; by rewrite Hi, app_nil_r].
    split; [intros Hw; apply tracked_known in Hw; congruence|]. split; [done|]. rewrite Hi, length_app. done.
Qed.

End Runs.

(** ** Which lab is reused *)
Section Reuse.
Context `{Services}.

Definition on_worker (ip : option string) (lab : string) (known : bool) : Prop :=
  exists before info, answer _ before (GetLab ip lab) = Ok info /\ known = bool_decide (is_Some info).

Definition reusable (r : lab_record) : bool :=
  in_state LabStatus.DEFINED r || in_state LabStatus.WIPED r || in_state LabStatus.STOPPED r.

Lemma update_returns lab worker status : returns (update_lab_record_status lab worker status).
Proof. apply or_return_returns. Qed.

Lemma ask_run {A} (c : call A) a w : answer _ (log w) c = Ok a -> ask c w = (Ok a, w <| log := log w ++ [Ev c] |>).
Proof. unfold ask. by intros ->. Qed.

(** One turn of the loop over the candidates. *)
Lemma try_candidates_cons ip worker r labs w lab w' : try_candidates ip worker (r :: labs) w = (Ok (Some lab), w') ->
  (r_lab_id r = lab /\ reusable r = true /\ on_worker ip lab true) \/
  ((on_worker ip (r_lab_id r) false \/ reusable r = false) /\ exists w1, try_candidates ip worker labs w1 = (Ok (Some lab), w')).
Proof.
  cbn [try_candidates]. intros Ht. unfold mbind, prog_bind in Ht. unfold ask at 1 in Ht.
  destruct (answer _ (log w) (GetLab ip (r_lab_id r))) as [[info|]|e] eqn:Ha; [| |done].
  - assert (on_worker ip (r_lab_id r) true) as Hw by (exists (log w), (Some info); done).
    destruct (in_state LabStatus.DEFINED r || in_state LabStatus.WIPED r) eqn:Hd.
    { injection Ht as <- _. left. unfold reusable. rewrite Hd. done. }
    destruct (in_state LabStatus.STOPPED r) eqn:Hst.
    + unfold ask in Ht. destruct (answer _ _ (WipeLab _ _)); [|done].
      match type of Ht with context [update_lab_record_status ?a ?b ?c ?w1] =>
        destruct (returns_run _ w1 (update_returns a b c)) as ([] & w2 & Hu); rewrite Hu in Ht end.
      injection Ht as <- _. left. unfold reusable. rewrite Hd, Hst. done.
    + right. split; [right; unfold reusable; by rewrite Hd, Hst|eauto].
  - match type of Ht with context [update_lab_record_status ?a ?b ?c ?w1] =>
      destruct (returns_run _ w1 (update_returns a b c)) as ([] & w2 & Hu); rewrite Hu in Ht end.
    right. split; [|eauto]. left. by exists (log w), None.
Qed.

Lemma try_candidates_found ip worker labs w lab w' : try_candidates ip worker labs w = (Ok (Some lab), w') ->
  exists pre r post, labs = pre ++ r :: post /\ r_lab_id r = lab /\ reusable r = true /\ on_worker ip lab true /\
    Forall (fun g => on_worker ip (r_lab_id g) false \/ reusable g = false) pre.
Proof.
  revert w. induction labs as [|r labs IH]; intros w Ht; [done|].
  apply try_candidates_cons in Ht as [(Hl & Hr & Hw)|(Hg & w1 & Ht)].
  - exists [], r, labs. by repeat split.
  - destruct (IH w1 Ht) as (pre & r' & post & -> & ? & ? & ? & ?). exists (r :: pre), r', post. by repeat split; try constructor.
Qed.

Lemma ordered_candidates_elem definition_id records r : r ∈ ordered_candidates definition_id records ->
  r ∈ records /\ candidate definition_id r = true.
Proof.
  unfold ordered_candidates. rewrite list_elem_of_In, in_concat. intros (l & Hl & Hr).
  apply in_map_iff in Hl as (st & <- & _). apply List.filter_In in Hr as [Hr Hc]. apply andb_prop in Hc as [Hc _].
  by rewrite list_elem_of_In.
Qed.

(** A lab is reused only when its record says that it is of the definition of the
    session, bound to no session and without a pending action, in a state to start from,
    and when it is found on the worker; the candidates before it, in the order of
    preference, were not found there or are in transition. *)
Theorem reused_lab_fits s w lab w' : try_reuse_existing_lab s w = (Ok (Some lab), w') ->
  exists entries records pre r post,
    answer _ (log w) (GetLabRecords (s_worker_id s)) = Ok entries /\ mapM lab_record_from_dict entries = Ok records /\
    ordered_candidates (s_definition_id s) records = pre ++ r :: post /\ r ∈ records /\ r_lab_id r = lab /\
    r_based_on_definition_id r = Some (s_definition_id s) /\ ostr_truthy (r_active_lablet_session_id r) = false /\
    r_pending_action r = None /\ reusable r = true /\ on_worker (s_worker_ip s) lab true /\
    Forall (fun g => on_worker (s_worker_ip s) (r_lab_id g) false \/ reusable g = false) pre.
Proof.
  unfold try_reuse_existing_lab. destruct (s_worker_id s) as [worker|], (s_worker_ip s) as [ip|]; [|done..].
  destruct (_ || _); [done|]. unfold or_return, try_, mbind, prog_bind, ask, lift.
  destruct (answer _ (log w) (GetLabRecords (Some worker))) as [entries|e] eqn:Ha; [|done].
  destruct (mapM lab_record_from_dict entries) as [records|e] eqn:Hm; [|done].
  destruct (try_candidates _ _ _ _) as [[[lab'|]|e] w1] eqn:Ht; [|done..]. intros [= <- <-].
  destruct (try_candidates_found _ _ _ _ _ _ Ht) as (pre & r & post & Ho & Hl & Hr & Hw & Hp).
  destruct (ordered_candidates_elem (s_definition_id s) records r) as [Hin Hc].
  { rewrite Ho. apply elem_of_app. right. by left. }
  exists entries, records, pre, r, post. do 5 (split; [done|]). unfold candidate, has_pending_action in Hc.
  destruct (r_pending_action r); [by rewrite andb_false_r in Hc|]. rewrite andb_true_r in Hc.
  apply andb_prop in Hc as [Hb%bool_decide_eq_true Ha'%negb_true_iff]. by repeat split.
Qed.
End Reuse.

(** ** Steps that do not do what they are for *)
Section Faults.
Context `{Services}.

(** A program whose results all say that it failed. *)
Definition only_fails (m : prog StepResult) : Prop := forall w r, (m w).1 = Ok r -> sr_status r = "failed".

Lemma fails_failed e : only_fails (failed e).
Proof. by intros w r [= <-]. Qed.
Lemma fails_lift {A} (a : res A) (k : A -> prog StepResult) : (forall a, only_fails (k a)) -> only_fails (x ← lift a; k x).
Proof. intros Hk. destruct a as [a|e]; intros w r; [apply Hk|done]. Qed.
Lemma fails_call {A} e (m : prog A) k : (forall a, only_fails (k a)) -> only_fails (call_or_failed e m k).
Proof. intros Hk w r. unfold call_or_failed, try_else. destruct (m w) as [[a|x] w1]; [apply Hk|apply fails_failed]. Qed.
Lemma fails_missing {A} e name (k : A -> prog StepResult) : only_fails (or_failed e (a ← missing_method name; k a)).
Proof. by intros w r [= <-]. Qed.
#[local] Hint Resolve fails_failed fails_missing : core.

Lemma fails_action action h label params : action_handler action = Some h -> only_fails (h label params).
Proof.
  unfold action_handler. intros Hh.
  repeat (destruct (eq_str _ _) in Hh; [injection Hh as <-; unfold action_transfer_file, action_execute_command, action_interface,
    action_extract_configs; try destruct (negb _); try destruct (negb _); cbn [orb]; auto|]). done.
Qed.

(** The step that runs a command on a node never completes: the client of CML has
    none of the methods that its actions call. *)
Theorem cml_command_never_completes s progress context params w r :
  (step_execute_command_on_cml_node s progress context params w).1 = Ok r -> sr_status r = "failed".
Proof.
  revert w r. fold (only_fails (step_execute_command_on_cml_node s progress context params)).
  unfold step_execute_command_on_cml_node. destruct params as [[|p params]|]; auto.
  destruct (negb _); auto. destruct (negb _); auto. apply fails_lift. intros id. destruct (negb _); auto.
  apply fails_lift. intros id'. apply fails_call. intros nodes. apply fails_lift. intros label.
  destruct (find_node_id_by_label _ _); auto. destruct (negb _); auto.
  destruct (action_handler _) eqn:Hh; [by eapply fails_action|auto].
Qed.

(** The LDS session that teardown archives is named by the id of the user session:
    a read model takes no [lds_session_id], and aliases it to [user_session_id]. *)
Theorem teardown_archives_user_session data s user_session context w :
  session_from_dict data = Ok s -> pd_get "user_session_id" data = PStr user_session -> str_truthy user_session = true ->
  c_lds context = true ->
  log (step_deregister_lds s context w).2 = log w ++ [Ev (ArchiveLdsSession user_session (s_worker_aws_region s))].
Proof.
  intros Hs Hu Ht Hc.
  assert (s_lds_session_id s = Some user_session) as Hl.
  { assert (forall v, py_or (PStr user_session) v = PStr user_session) as Hor by (intros v; unfold py_or; cbn; by rewrite Ht).
    unfold session_from_dict in Hs. rewrite Hu, Hor in Hs. cbn [as_ostr] in Hs.
    repeat (apply bind_ok in Hs as (? & ? & Hs)). simplify_eq. unfold session_post_init. cbn. by rewrite Ht. }
  unfold step_deregister_lds. rewrite Hl, Ht, Hc. cbn [negb]. unfold try_, mbind, prog_bind, ask.
  by destruct (answer _ _ _) as [[]|e].
Qed.

(** The step that stops a lab waits for a lab that is not on its worker any more,
    however many polls its timeout leaves room for. *)
Theorem stop_waits_for_missing_lab s context polls lab w :
  s_cml_lab_id s = Some lab -> str_truthy lab = true -> (forall l, answer _ l (GetLabState (worker_host context) lab) = Ok None) ->
  (step_stop_lab s context polls w).1 = Ok None.
Proof.
  intros Hl Ht Ha. unfold step_stop_lab. rewrite Hl, Ht. cbn [negb]. unfold try_else at 1, ask at 1. rewrite Ha. cbn [is_stopped].
  rewrite bool_decide_eq_false_2 by done. generalize (w <| log := log w ++ [Ev (GetLabState (worker_host context) lab)] |>).
  induction polls as [|polls IH]; intros w1; [done|]. cbn [poll_stopped]. unfold try_else, ask. rewrite Ha. apply IH.
Qed.

(** A program that completes a start right after the worker said that the lab has converged. *)
Definition completes_converged (context : PipelineContext) (m : prog (option StepResult)) : Prop :=
  forall w r w', m w = (Ok (Some r), w') -> sr_status r = "completed" ->
  exists before lab, log w' = before ++ [Ev (CheckIfConverged (worker_host context) lab)] /\
    answer _ before (CheckIfConverged (worker_host context) lab) = Ok true.

Section Converged.
Context (context : PipelineContext).
Abbreviation good := (completes_converged context).

Lemma conv_failed e : good (finished (failed e)).
Proof. by intros w r w' [= <- <-]. Qed.
Lemma conv_none : good (mret None).
Proof. by intros w r w'. Qed.
Lemma conv_bind {A} (m : prog A) f : (forall a, good (f a)) -> good (m ≫= f).
Proof. intros Hf w r w'. unfold mbind, prog_bind. destruct (m w) as [[a|e] w1]; [apply Hf|done]. Qed.
Lemma conv_try_else {A} (m : prog A) h k : (forall e, good (h e)) -> (forall a, good (k a)) -> good (try_else m h k).
Proof. intros Hh Hk w r w'. unfold try_else. destruct (m w) as [[a|e] w1]; [apply Hk|apply Hh]. Qed.
Lemma conv_check lab m : good m ->
  good (converged ← check_converged context lab; if negb converged then m else finished (completed (converged_result lab))).
Proof.
  intros Hm w r w'. unfold mbind at 1, prog_bind at 1. unfold check_converged, or_return, try_, ask.
  destruct (answer _ (log w) _) as [[]|e] eqn:Ha; cbn [negb]; [|apply Hm..].
  intros [= <- <-] _. by exists (log w), lab.
Qed.

Lemma conv_poll lab polls count : good (poll_started context lab polls count).
Proof.
  revert count. induction polls as [|polls IH]; intros count; cbn [poll_started]; [apply conv_none|]. cbv zeta.
  apply conv_try_else; [intros e; apply IH|intros st]. destruct (bool_decide _); [apply IH|].
  destruct (negb _); [apply conv_failed|]. apply conv_check, conv_bind. intros _. apply IH.
Qed.
End Converged.

(** The step that starts a lab completes only right after its worker has answered
    that the lab has converged. *)
Theorem started_labs_converged s progress context polls w r w' :
  c_scenario_engine_enabled context = false -> step_lab_start s progress context polls w = (Ok (Some r), w') -> sr_status r = "completed" ->
  exists before lab, log w' = before ++ [Ev (CheckIfConverged (worker_host context) lab)] /\
    answer _ before (CheckIfConverged (worker_host context) lab) = Ok true.
Proof.
  intros He. revert w r w'. fold (completes_converged context (step_lab_start s progress context polls)).
  unfold step_lab_start. rewrite He. apply conv_bind. intros v. destruct (negb _); [apply conv_failed|]. apply conv_bind. intros lab.
  apply conv_try_else; [intros e; apply conv_failed|]. intros [[]|]; try apply conv_poll.
  - apply conv_try_else; intros ?; [apply conv_failed|apply conv_poll].
  - apply conv_try_else; intros ?; [apply conv_failed|apply conv_poll].
  - apply conv_check, conv_poll.
  - apply conv_bind. intros _. apply conv_failed.
Qed.
End Faults.

(** ** Runs on concrete services *)
Definition demo_session : session := {|
  s_id := "s-1"; s_name := "exam"; s_definition_id := "d-1"; s_status := "instantiating"; s_worker_id := Some "w-1";
  s_worker_ip := Some "10.0.0.1"; s_worker_aws_region := Some "eu-1"; s_lab_record_id := None; s_cml_lab_id := None;
  s_timeslot_start := PNone; s_timeslot_end := PNone; s_pipeline_progress := None; s_topology_yaml := Some "lab: {}";
  s_user_session_id := None; s_lds_session_id := None |}.
Definition demo_context : PipelineContext := {|
  c_definition := None; c_worker_ip := "10.0.0.1"; c_lds := true; c_lds_protocol_priority := []; c_lds_port_preferences := None;
  c_scenario_engine_client := false; c_cloud_event_callback_url := None; c_scenario_engine_enabled := false |}.
Definition demo_definition : pydict := [("id", PStr "d-1"); ("lab_reuse_enabled", PBool true)].
Definition demo_world : world := {|
  log := []; definition_cache := ∅; worker_cache := ∅; lab_run_started_at := ∅; resolved_lab_ids := ∅;
  freshly_imported_sessions := ∅ |}.

(** Services with these lab records, on a worker that has the labs of [on_worker]. *)
Definition demo_services (records : list pydict) (on_worker : list string) (missing_state converged : bool) : Services := {|
  answer := fun A _ c => match c with
    | GetDefinition _ => Ok (Some demo_definition)
    | GetLabRecords _ => Ok records
    | GetLab _ lab => Ok (if bool_decide (lab ∈ on_worker) then Some {| i_id := lab; i_title := lab; i_state := STOPPED |} else None)
    | ImportLab _ _ _ => Ok (Some "lab-new")
    | GetLabState _ _ => Ok (if missing_state then None else Some STARTED)
    | CheckIfConverged _ _ => Ok converged
    | GetLabNodes _ _ => Ok [{| n_id := "n0"; n_node := {| label := "R1"; tags := [] |} |}]
    | WipeLab _ _ => Ok ()
    | ArchiveLdsSession _ _ => Ok ()
    | _ => Err (ValueError "unavailable")
    end;
  clock := fun _ => 0; uuid4_hex := fun _ => "0123456789"; lds_spi_error := fun _ => false |}.

Definition demo_run (name : string) : step_run := {|
  of_session := demo_session; with_progress := []; in_context := demo_context; polls := 2; handler_name := name; with_params := None |}.

(** The import succeeds, its record is not found: the step fails, and is repeated. *)
Definition unrecorded : Services := demo_services [] ["lab-new"] false true.
Example repeated_resolve : imports (H := unrecorded) (log (run_steps (H := unrecorded) demo_world
  [demo_run "lab_resolve"; demo_run "lab_resolve"; demo_run "lab_start"])) = ["lab-new"].
Proof. vm_compute. reflexivity. Qed.


(** Three records of the definition: a ghost, one in a session, one to reuse. *)
Definition lab_entry (id lab status : string) (active : pyval) : pydict :=
  [("id", PStr id); ("lab_id", PStr lab); ("status", PStr status); ("based_on_definition_id", PStr "d-1");
   ("active_lablet_session_id", active)].
Definition three_labs : Services := demo_services
  [lab_entry "r1" "lab-ghost" "defined" PNone; lab_entry "r2" "lab-busy" "defined" (PStr "s-9"); lab_entry "r3" "lab-old" "stopped" PNone]
  ["lab-busy"; "lab-old"] false true.

Lemma reused_lab_fits_witness :
  let w' := (try_reuse_existing_lab (H := three_labs) demo_session demo_world).2 in
  try_reuse_existing_lab (H := three_labs) demo_session demo_world = (Ok (Some "lab-old"), w') /\
  exists entries records pre r post,
    answer (Services := three_labs) _ [] (GetLabRecords (Some "w-1")) = Ok entries /\ mapM lab_record_from_dict entries = Ok records /\
    ordered_candidates "d-1" records = pre ++ r :: post /\ r ∈ records /\ r_lab_id r = "lab-old" /\
    r_based_on_definition_id r = Some "d-1" /\ ostr_truthy (r_active_lablet_session_id r) = false /\
    r_pending_action r = None /\ reusable r = true /\ on_worker (H := three_labs) (Some "10.0.0.1") "lab-old" true /\
    Forall (fun g => on_worker (H := three_labs) (Some "10.0.0.1") (r_lab_id g) false \/ reusable g = false) pre.
Proof.
  cbv zeta. split; [vm_compute; reflexivity|].
  apply (reused_lab_fits (H := three_labs) demo_session demo_world "lab-old" (try_reuse_existing_lab (H := three_labs) demo_session demo_world).2).
  vm_compute. reflexivity.
Defined.

(** Two sessions find the same lab as long as neither has bound it. *)
Example same_lab_reused_twice :
  let w := (try_reuse_existing_lab (H := three_labs) demo_session demo_world).2 in
  (try_reuse_existing_lab (H := three_labs) (demo_session <| s_id := "s-2" |>) w).1 = Ok (Some "lab-old").
Proof. vm_compute. reflexivity. Qed.

Definition demo_command : pydict := [("action", PStr "execute_command"); ("target_node", PStr "r1"); ("command", PStr "show run")].
Lemma cml_command_never_completes_witness :
  let s := demo_session <| s_cml_lab_id := Some "lab-old" |> in
  let r := StepResult_failed "Command execution on r1 failed: 'CmlLabsSpiClient' object has no attribute 'execute_node_command'" in
  (step_execute_command_on_cml_node (H := three_labs) s [] demo_context (Some demo_command) demo_world).1 = Ok r /\ sr_status r = "failed".
Proof.
  cbv zeta. split; [vm_compute; reflexivity|].
  apply (cml_command_never_completes (H := three_labs) (demo_session <| s_cml_lab_id := Some "lab-old" |>) [] demo_context (Some demo_command) demo_world).
  vm_compute. reflexivity.
Defined.

(** The session as the control plane gives it, after provisioning. *)
Definition provisioned : pydict :=
  [("id", PStr "s-1"); ("status", PStr "stopping"); ("user_session_id", PStr "us-1"); ("lds_session_id", PStr "lds-1")].
Definition provisioned_session : session :=
  match session_from_dict provisioned with Ok s => s | Err _ => demo_session end.
Lemma teardown_archives_user_session_witness :
  session_from_dict provisioned = Ok provisioned_session /\
  log (step_deregister_lds (H := three_labs) provisioned_session demo_context demo_world).2 = [Ev (ArchiveLdsSession "us-1" None)].
Proof.
  split; [vm_compute; reflexivity|].
  apply (teardown_archives_user_session (H := three_labs) provisioned provisioned_session "us-1" demo_context demo_world); vm_compute; reflexivity.
Defined.

Definition lab_gone : Services := demo_services [] [] true false.
Lemma stop_waits_for_missing_lab_witness :
  (step_stop_lab (H := lab_gone) (demo_session <| s_cml_lab_id := Some "lab-old" |>) demo_context 60 demo_world).1 = Ok None.
Proof.
  apply (stop_waits_for_missing_lab (H := lab_gone) _ demo_context 60 "lab-old"); [reflexivity..|]. intros l. reflexivity.
Defined.

Definition resolved_progress : pydict :=
  [("lab_resolve", PDict [("status", PStr "completed"); ("result_data", PDict [("cml_lab_id", PStr "lab-old")])])].
Lemma started_labs_converged_witness :
  let w' := (step_lab_start (H := three_labs) demo_session resolved_progress demo_context 3 demo_world).2 in
  let r := StepResult_completed (converged_result "lab-old") in
  step_lab_start (H := three_labs) demo_session resolved_progress demo_context 3 demo_world = (Ok (Some r), w') /\
  exists before lab, log w' = before ++ [Ev (CheckIfConverged (worker_host demo_context) lab)] /\
    answer (Services := three_labs) _ before (CheckIfConverged (worker_host demo_context) lab) = Ok true.
Proof.
  cbv zeta. split; [vm_compute; reflexivity|].
  apply (started_labs_converged (H := three_labs) demo_session resolved_progress demo_context 3 demo_world
    (StepResult_completed (converged_result "lab-old"))); [reflexivity|vm_compute; reflexivity|reflexivity].
Defined.
