(* ===== verification/LabletReconciler.v ===== *)
(** * The visits of the lablet reconciler

    ([lablet-controller/application/hosted_services/lablet_reconciler.py])

    How [reconcile] routes a session by its status, the handlers of the statuses that
    run no pipeline, the cleanup of an instantiation that failed, and where the sessions
    of a visit come from.  For a status that runs a pipeline [reconcile_inner] stops with
    the phase: [LifecycleHandler] has what follows. *)
From S2P Require Import Prelude PyData PyFloat Enums Programs Reconciliation PipelineTemplates LifecycleHandler LabletServices StepHandlers.
From Stdlib Require Import Ascii.

(** A time of the read model: text or a datetime, in UTC when it has no zone. *)
Definition session_time (v : pyval) : res datetime := t ← as_datetime v; Ok (dt_to_utc t).

(** A visit answers, or goes on with a pipeline. *)
Inductive visit := Answer (r : ReconciliationResult) | Phase (p : phase).

Section Reconciler.
Context `{Services} (cfg : settings).
Import SessionStatus.

Definition answer_success (m : string) : prog ReconciliationResult := mret (result_success m).
Definition answer_requeue (m : string) : prog ReconciliationResult := mret (result_requeue m None).
Definition answer_failed (m : string) : prog ReconciliationResult := mret (result_failed m).

(** ** Where sessions come from *)

(** The enrichment of [fetch_resource_by_id] and [list_resources]. *)
Definition with_worker (s : session) : prog session :=
  if ostr_truthy (s_worker_id s) && negb (ostr_truthy (s_worker_ip s)) then enrich_with_worker_details cfg s else mret s.

Definition fetch_resource_by_id (resource_id : string) : prog (option session) :=
  or_return (session_data ← ask (GetSession resource_id);
             match session_data with
             | Some ((_ :: _) as data) => s ← lift (session_from_dict data); s ← with_worker s; mret (Some s)
             | _ => mret None
             end) None.

Definition terminal_statuses : list LabletSessionStatus := [STOPPED; ARCHIVED; TERMINATED].

(** The filter: a status that is no member raises. *)
Definition needs_reconcile (s : session) : res bool :=
  if str_truthy (s_status s) then st ← enum_call (s_status s); Ok (negb (bool_decide (st ∈ terminal_statuses)))
  else Ok false.

Fixpoint filter_res {A} (p : A -> res bool) (l : list A) : res (list A) :=
  match l with
  | [] => Ok []
  | a :: l => keep ← p a; rest ← filter_res p l; Ok (if keep : bool then a :: rest else rest)
  end.

Fixpoint each {A B} (f : A -> prog B) (l : list A) : prog (list B) :=
  match l with [] => mret [] | a :: l => b ← f a; bs ← each f l; mret (b :: bs) end.

Definition list_resources : prog (list session) :=
  or_return (sessions_data ← ask GetSessions;
             sessions ← lift (mapM session_from_dict sessions_data);
             sessions ← lift (filter_res needs_reconcile sessions);
             each with_worker sessions) [].

(** ** The statuses without a pipeline *)

(** [boot_lead_time_minutes]: of the definition, else the setting. *)
Definition boot_lead_time (d : option definition) : Z :=
  match d ≫= d_boot_lead_time_minutes with
  | Some m => if m =? 0 then worker_bootup_delay_minutes cfg else m
  | None => worker_bootup_delay_minutes cfg
  end.

Definition should_instantiate (s : session) : prog bool :=
  if negb (truthy (s_timeslot_start s)) then mret true
  else
    t ← now;
    d ← get_definition (s_definition_id s);
    timeslot_start ← lift (session_time (s_timeslot_start s));
    mret (dt_us timeslot_start - dt_us t <=? minutes (boot_lead_time d)).

Definition handle_scheduled (s : session) : prog ReconciliationResult :=
  instantiate ← should_instantiate s;
  if negb instantiate then answer_success ""
  else
    _ ← ask (StartInstantiation (s_id s));
    answer_requeue "Transitioning to instantiation".

Definition handle_expired (s : session) : prog ReconciliationResult :=
  try_ (_ ← ask (ExpireSession (s_id s) "timeslot_expired"); answer_requeue "Session expired - cleanup in progress")
       (fun e => answer_failed ("Expiry failed: " +:+ exn_str e)).

(** The state of the lab is asked for, and only logged. *)
Definition verify_lab (s : session) (cml_lab_id : string) : prog ReconciliationResult :=
  _ ← ask (GetLabState (s_worker_ip s) cml_lab_id); answer_success "".

Definition handle_ready (s : session) : prog ReconciliationResult :=
  if negb (ostr_truthy (s_cml_lab_id s)) then answer_failed "No CML lab ID in READY state"
  else try_ (verify_lab s (default "" (s_cml_lab_id s))) (fun _ => answer_success "").

(** [now >= timeslot_end], where there is one. *)
Definition timeslot_over (s : session) : prog bool :=
  if truthy (s_timeslot_end s) then
    t ← now;
    timeslot_end ← lift (session_time (s_timeslot_end s));
    mret (dt_us timeslot_end <=? dt_us t)
  else mret false.

Definition handle_running (s : session) : prog ReconciliationResult :=
  if negb (ostr_truthy (s_cml_lab_id s)) then answer_failed "No CML lab ID"
  else
    try_ (over ← timeslot_over s;
          if negb over then verify_lab s (default "" (s_cml_lab_id s))
          else
            _ ← observe_and_report cfg s;
            _ ← ask (TransitionSession (s_id s) STOPPING "Timeslot ended");
            answer_requeue "Timeslot ended")
         (fun _ => answer_success "").

(** ** [reconcile] *)

Definition expiry_exempt : list LabletSessionStatus := [STOPPING; STOPPED; ARCHIVED; TERMINATED].
Definition needs_worker_ip : list LabletSessionStatus := [INSTANTIATING; READY; RUNNING; COLLECTING; GRADING; STOPPING].

Definition answered (m : prog ReconciliationResult) : prog visit := r ← m; mret (Answer r).

(** The routing by status. *)
Definition route (s : session) (status : LabletSessionStatus) : prog visit :=
  match status with
  | SCHEDULED => answered (handle_scheduled s)
  | INSTANTIATING => mret (Phase Instantiate)
  | READY => answered (handle_ready s)
  | RUNNING => answered (handle_running s)
  | COLLECTING => mret (Phase CollectEvidence)
  | GRADING => mret (Phase ComputeGrading)
  | STOPPING => mret (Phase Teardown)
  | _ => answered (answer_success "")
  end.

(** After the check of the deadline. *)
Definition reconcile_status (s : session) (status : LabletSessionStatus) : prog visit :=
  if negb (ostr_truthy (s_worker_id s)) then
    answered (match status with
              | SCHEDULED => answer_success ""
              | _ => answer_failed ("Session " +:+ s_id s +:+ " has no worker_id in " +:+ LabletSessionStatus_value status +:+ " state")
              end)
  else if negb (ostr_truthy (s_worker_ip s)) && bool_decide (status ∈ needs_worker_ip) then
    answered (answer_failed ("Worker connection details missing for session " +:+ s_id s +:+ " (worker_id=" +:+ default "" (s_worker_id s) +:+ ")"))
  else route s status.

Definition reconcile_inner (s : session) : prog visit :=
  match enum_call (s_status s) with
  | Err _ => answered (answer_success "")
  | Ok status =>
      try_ (over ← (if bool_decide (status ∈ expiry_exempt) then mret false else timeslot_over s);
            if negb over then reconcile_status s status else answered (handle_expired s))
           (fun e => answered (answer_failed (exn_str e)))
  end.

(** ** Around a pipeline *)

(** [_get_pipeline_def] *)
Definition session_pipeline_def (templates : dict pydict) (s : session) (p : phase) : prog (option pydict) :=
  d ← get_definition (s_definition_id s);
  match d with
  | None => mret None
  | Some d => lift (PipelineTemplates.get_pipeline_def templates (Some (default [] (d_pipelines d))) (pipeline_of p))
  end.

(** [_cleanup_failed_instantiation] *)
Definition cleanup_failed_instantiation (s : session) : prog () :=
  tracked ← read (fun w => resolved_lab_ids w !! s_id s);
  is_freshly_imported ← read (fun w => bool_decide (s_id s ∈ freshly_imported_sessions w));
  let cleanup_lab_id := or_else (s_cml_lab_id s) tracked in
  _ ← (if ostr_truthy cleanup_lab_id && ostr_truthy (s_worker_ip s) then
         let lab := default "" cleanup_lab_id in
         _ ← ignore_errors (ask (StopLab (s_worker_ip s) lab));
         _ ← ignore_errors (ask (WipeLab (s_worker_ip s) lab));
         if is_freshly_imported : bool then
           _ ← ignore_errors (ask (DeleteLab (s_worker_ip s) lab));
           update_lab_record_status lab (s_worker_id s) (LabStatus.LabRecordStatus_value LabStatus.DELETED)
         else update_lab_record_status lab (s_worker_id s) (LabStatus.LabRecordStatus_value LabStatus.WIPED)
       else mret ());
  _ ← write (fun w => w <| resolved_lab_ids := delete (s_id s) (resolved_lab_ids w) |>);
  write (fun w => w <| freshly_imported_sessions := freshly_imported_sessions w ∖ {[s_id s]} |>).

(** ** Watch events *)

Definition is_slash (c : Ascii.ascii) : bool := Ascii.eqb c "/"%char.

(** [key[len(prefix):]] when the key starts with the prefix of the settings. *)
Definition strip_prefix (key : string) : string :=
  let prefix := rstrip_by is_slash (etcd_key_prefix cfg) in
  if str_truthy prefix && py_startswith prefix key
  then String.substring (String.length prefix) (String.length key - String.length prefix) key else key.

(** What an event asks for: an observation of a session, its reconciliation, or nothing. *)
Inductive watched := Observe (session_id : string) | Reconcile (session_id : string) | Ignore.

Definition on_watch_event (key : string) (value : option string) : watched :=
  match py_split "/"%char (py_strip_by is_slash (strip_prefix key)) with
  | "sessions" :: session_id :: rest =>
      match rest with
      | third :: _ => if String.eqb third "observe_resources" && ostr_truthy value then Observe session_id else Reconcile session_id
      | [] => Reconcile session_id
      end
  | _ => Ignore
  end.

(** [_handle_observe_resources_event]: [parsed] is whether the value is a JSON object. *)
Definition handle_observe_resources (session_id : string) (parsed : bool) : prog () :=
  _ ← (if negb parsed then mret ()
       else ignore_errors (
         instance ← fetch_resource_by_id session_id;
         match instance with
         | Some s => if String.eqb (s_status s) (LabletSessionStatus_value RUNNING) then observe_and_report cfg s else mret ()
         | None => mret ()
         end));
  ignore_errors (ask (EtcdDelete ("/sessions/" +:+ session_id +:+ "/observe_resources"))).
End Reconciler.
