(* ===== verification/LabletReconcilerProps.v ===== *)
(** * What a visit of the lablet reconciler does

    The deadline of a session comes first, a visit always answers, only labs that the
    reconciler imported are deleted, and a definition that was read is never read again. *)
From S2P Require Import Prelude PyData Enums LabletSession Programs Reconciliation PipelineTemplates LifecycleHandler LabletServices StepHandlers LabletReconciler StepHandlersProps.
From Stdlib Require Import Ascii.

(** ** The deadline *)
Section Deadline.
Context `{Services} (cfg : settings).
Import SessionStatus.

Lemma timeslot_over_run s e w : truthy (s_timeslot_end s) = true -> session_time (s_timeslot_end s) = Ok e ->
  timeslot_over s w = (Ok (dt_us e <=? clock (log w)), w <| log := log w ++ [Ev Now] |>).
Proof. intros Ht He. unfold timeslot_over. rewrite Ht. unfold mbind, prog_bind, now, lift. by rewrite He. Qed.

Lemma overdue_run s status e w :
  enum_call (s_status s) = Ok status -> status ∉ expiry_exempt -> truthy (s_timeslot_end s) = true ->
  session_time (s_timeslot_end s) = Ok e -> dt_us e <= clock (log w) ->
  (reconcile_inner cfg s w).2 = w <| log := log w ++ [Ev Now; Ev (ExpireSession (s_id s) "timeslot_expired")] |>.
Proof.
  intros Hs Hx Ht He Hc. unfold reconcile_inner. rewrite Hs. rewrite bool_decide_eq_false_2 by done.
  unfold try_, mbind, prog_bind. rewrite (timeslot_over_run _ _ _ Ht He). rewrite (proj2 (Z.leb_le _ _) Hc). cbn [negb].
  unfold answered, handle_expired, try_, mbind, prog_bind, ask. cbn. change [Ev Now; ?x] with ([Ev Now] ++ [x]).
  rewrite app_assoc. by destruct (answer _ _ _) as [[]|x].
Qed.

(** (C21) A session whose deadline has passed, in any status but the four of a session that
    ends, is only expired: the visit reads the clock, makes that one call, and does nothing
    for its status. *)
Theorem overdue_is_only_expired s status e w :
  enum_call (s_status s) = Ok status -> status ∉ expiry_exempt -> truthy (s_timeslot_end s) = true ->
  session_time (s_timeslot_end s) = Ok e -> dt_us e <= clock (log w) ->
  (exists r, (reconcile_inner cfg s w).1 = Ok (Answer r)) /\
  (reconcile_inner cfg s w).2 = w <| log := log w ++ [Ev Now; Ev (ExpireSession (s_id s) "timeslot_expired")] |>.
Proof.
  intros Hs Hx Ht He Hc. split; [|by eapply overdue_run].
  unfold reconcile_inner. rewrite Hs. rewrite bool_decide_eq_false_2 by done.
  unfold try_, mbind, prog_bind. rewrite (timeslot_over_run _ _ _ Ht He). rewrite (proj2 (Z.leb_le _ _) Hc). cbn [negb].
  unfold answered, handle_expired, try_, mbind, prog_bind, ask. destruct (answer _ _ _) as [[]|x]; cbn; eauto.
Qed.

(** A visit always answers. *)
Lemma visits_answer s : returns (reconcile_inner cfg s).
Proof.
  unfold reconcile_inner. destruct (enum_call (s_status s)); [|intros w; cbn; eauto].
  intros w. unfold try_. match goal with |- context [match ?m with _ => _ end] => destruct m as [[v|e] w'] end; cbn; eauto.
Qed.

(** A scheduled session whose deadline has passed stays as it is: every visit only asks
    for its expiry, which the aggregate refuses in that status. *)
Theorem overdue_scheduled_is_stuck `{RootId LabletSessionState} s e w c reason aggregate :
  enum_call (s_status s) = Ok SCHEDULED -> truthy (s_timeslot_end s) = true -> session_time (s_timeslot_end s) = Ok e ->
  dt_us e <= clock (log w) -> LabletSession.status aggregate = SCHEDULED ->
  log (reconcile_inner cfg s w).2 = log w ++ [Ev Now; Ev (ExpireSession (s_id s) "timeslot_expired")] /\
  exists x, LabletSession.expire c reason aggregate = Err x.
Proof.
  intros Hs Ht He Hc Ha. split.
  - rewrite (overdue_run s SCHEDULED e w); try done. unfold expiry_exempt. set_solver.
  - unfold LabletSession.expire, LabletSession.validate_transition. rewrite Ha. cbn. eauto.
Qed.
End Deadline.

(** ** Visits are quiet *)
Section QuietVisits.
Context `{Services} (cfg : settings).

Lemma quiet_timeslot_over s : within quiet (timeslot_over s).
Proof. unfold timeslot_over. quiet. Qed.
#[local] Hint Resolve quiet_timeslot_over : quiet.
Lemma quiet_with_worker s : within quiet (with_worker cfg s).
Proof. unfold with_worker. quiet. Qed.
#[local] Hint Resolve quiet_with_worker : quiet.
Lemma quiet_fetch id : within quiet (fetch_resource_by_id cfg id).
Proof. unfold fetch_resource_by_id. quiet. Qed.
Lemma quiet_list : within quiet (list_resources cfg).
Proof.
  assert (forall l, within quiet (each (with_worker cfg) l)) as Hl by (induction l as [|s l IH]; cbn [each]; quiet).
  unfold list_resources. quiet.
Qed.
Lemma quiet_visit s : within quiet (reconcile_inner cfg s).
Proof.
  unfold reconcile_inner, reconcile_status, route, answered, handle_scheduled, should_instantiate, handle_expired, handle_ready,
    handle_running, verify_lab, answer_success, answer_requeue, answer_failed. quiet.
Qed.
#[local] Hint Resolve quiet_fetch : quiet.
Lemma quiet_observe_request id parsed : within quiet (handle_observe_resources cfg id parsed).
Proof. unfold handle_observe_resources, ignore_errors. quiet. Qed.
End QuietVisits.

(** ** Which labs are deleted *)
Section Deletions.
Context `{Services} (cfg : settings).

(** Every lab whose deletion was asked for had been imported before. *)
Definition deletes_imported (l : list event) : Prop :=
  forall before ip lab after, l = before ++ Ev (DeleteLab ip lab) :: after -> lab ∈ imports before.

(** So it is, and the lab that is tracked for a session of a fresh import was imported. *)
Record imports_only (w : world) : Prop := {
  deleted_imported : deletes_imported (log w);
  fresh_imported : forall id, id ∈ freshly_imported_sessions w ->
    exists lab, resolved_lab_ids w !! id = Some lab /\ str_truthy lab = true /\ lab ∈ imports (log w)
}.

Lemma imports_incl l1 l2 lab : lab ∈ imports l1 -> lab ∈ imports (l1 ++ l2).
Proof. rewrite imports_app, elem_of_app. auto. Qed.

(** One more event. *)
Lemma deleted_snoc l e : deletes_imported l -> (forall ip lab, e = Ev (DeleteLab ip lab) -> lab ∈ imports l) ->
  deletes_imported (l ++ [e]).
Proof.
  intros Hd He before ip lab after Hl. destruct after as [|x after _] using rev_ind.
  - apply app_inj_tail in Hl as [<- ->]. by eapply He.
  - rewrite app_comm_cons, app_assoc in Hl. apply app_inj_tail in Hl as [Hl _]. by eapply Hd.
Qed.

Lemma deleted_extends w w' : extends w w' -> deletes_imported (log w) -> deletes_imported (log w').
Proof.
  intros (l & -> & Hk) Hd. induction l as [|e l IH] using rev_ind; [by rewrite app_nil_r|].
  apply Forall_app in Hk as [Hk He]. rewrite app_assoc. apply deleted_snoc; [by apply IH|].
  intros ip lab ->. inversion He. discriminate.
Qed.

(** What keeps that true, and the labs [L] among the imported ones. *)
Definition safe (L : list string) (w w' : world) : Prop :=
  imports_only w -> Forall (fun lab => lab ∈ imports (log w)) L ->
  imports_only w' /\ Forall (fun lab => lab ∈ imports (log w')) L.

#[export] Instance safe_preorder L : PreOrder (safe L).
Proof. split; [by intros w|]. intros w1 w2 w3 H1 H2 Hw HL. destruct (H1 Hw HL). auto. Qed.

Lemma quiet_safe L w w' : quiet w w' -> safe L w w'.
Proof.
  intros Hq [Hd Hf] HL. rewrite (imports_quiet _ _ Hq). split; [|done]. split.
  - by eapply deleted_extends, Hd; apply quiet_extends.
  - rewrite (imports_quiet _ _ Hq). destruct Hq as (_ & -> & ->). exact Hf.
Qed.
Lemma within_safe {A} L (m : prog A) : within quiet m -> within (safe L) m.
Proof. intros Hm w. apply quiet_safe, Hm. Qed.

Lemma safe_nil w w' : safe [] w w' -> imports_only w -> imports_only w'.
Proof. intros Hs Hw. by apply Hs. Qed.

(** Both trackings of a session end together. *)
Lemma safe_forget id {A} (k : prog A) : within (safe []) k -> within (safe [])
  (_ ← write (fun w => w <| resolved_lab_ids := delete id (resolved_lab_ids w) |>);
   _ ← write (fun w => w <| freshly_imported_sessions := freshly_imported_sessions w ∖ {[id]} |>); k).
Proof.
  intros Hk w. unfold mbind, prog_bind, write. etransitivity; [|apply Hk]. intros [Hd Hf] _. split; [|done]. split; [exact Hd|].
  cbn. intros id' [Hid Hne]%elem_of_difference. destruct (Hf id' Hid) as (lab & Hl & Ht & Hi).
  exists lab. rewrite lookup_delete_ne by set_solver. done.
Qed.

Lemma safe_mark_ready s progress : within (safe []) (step_mark_ready s progress).
Proof.
  unfold step_mark_ready, with_lab_id, or_failed, failed. apply within_bind; [exact _|apply within_lift; exact _|]. intros v.
  destruct (negb _); [apply within_ret; exact _|]. apply within_bind; [exact _|apply within_lift; exact _|]. intros lab.
  do 2 (apply within_bind; [exact _|apply within_lift; exact _|]; intros ?).
  apply within_try; [exact _| |intros; apply within_ret; exact _].
  apply within_bind; [exact _|by apply within_safe, quiet_ask|]. intros _. apply safe_forget, within_ret; exact _.
Qed.

Lemma safe_resolution s w w' : extends w w' -> resolution s w w' -> safe [] w w'.
Proof.
  intros He Hr [Hd Hf] _. split; [|done]. split; [by eapply deleted_extends|].
  destruct Hr as [Hi Hm Hs|fresh lab Hk Ht Hi Hm Hs]; rewrite Hi, Hm, Hs; [exact Hf|]. intros id Hid.
  destruct (decide (id = s_id s)) as [->|Hne].
  - rewrite lookup_insert_eq. exists lab. split; [done|]. split; [done|]. destruct fresh; [rewrite elem_of_app; right; by left|].
    exfalso. destruct (Hf _ Hid) as (lab' & Hl & Ht' & _). rewrite (tracked_known s w) in Hk; [done|by exists lab'].
  - rewrite lookup_insert_ne by done. destruct (Hf id) as (lab' & Hl & Ht' & Hi'); [destruct fresh; set_solver|].
    exists lab'. rewrite elem_of_app. auto.
Qed.

Lemma safe_run_step w r : safe [] w (run_step w r).
Proof.
  destruct (decide (handler_name r = "mark_ready")) as [Hm|Hm].
  - rewrite run_step_handler, Hm. cbn [get_handler dict_get String.eqb Ascii.eqb Bool.eqb]. unfold finished.
    pose proof (safe_mark_ready (of_session r) (with_progress r) w) as Hs. unfold mbind, prog_bind. cbn -[step_mark_ready].
    by destruct (step_mark_ready _ _ w) as [[a|e] w'].
  - destruct (run_step_resolution w r Hm). by eapply safe_resolution.
Qed.

(** What the control plane says of the lab of a session agrees with what was imported for it. *)
Definition consistent (s : session) (w : world) : Prop :=
  s_id s ∈ freshly_imported_sessions w -> ostr_truthy (s_cml_lab_id s) = true -> resolved_lab_ids w !! s_id s = s_cml_lab_id s.

Lemma cleanup_lab s w : imports_only w -> consistent s w -> s_id s ∈ freshly_imported_sessions w ->
  default "" (or_else (s_cml_lab_id s) (resolved_lab_ids w !! s_id s)) ∈ imports (log w).
Proof.
  intros [_ Hf] Hc Hid. destruct (Hf _ Hid) as (lab & Hl & Ht & Hi). unfold or_else.
  destruct (ostr_truthy (s_cml_lab_id s)) eqn:Hs; [rewrite <- (Hc Hid Hs)|]; by rewrite Hl.
Qed.

Lemma safe_delete ip lab : within (safe [lab]) (ask (DeleteLab ip lab)).
Proof.
  intros w [Hd Hf] HL. assert (lab ∈ imports (log w)) as Hlab by (by inversion HL). cbn. split; [split|].
  - apply deleted_snoc; [done|]. by intros ip' lab' [= <- <-].
  - intros id Hid. destruct (Hf id Hid) as (x & ? & ? & ?). exists x. do 2 (split; [done|]). by apply imports_incl.
  - apply Forall_singleton. by apply imports_incl.
Qed.

Lemma safe_cleanup s w : imports_only w -> consistent s w -> imports_only (cleanup_failed_instantiation s w).2.
Proof.
  intros Hw Hc. unfold cleanup_failed_instantiation, read. unfold mbind at 1, prog_bind at 1. unfold mbind at 1, prog_bind at 1. cbv zeta.
  set (lab := default "" _).
  match goal with |- imports_only ((?b ≫= _) w).2 => assert (imports_only (b w).2) as Hb; [|assert (returns b) as Hr] end.
  - destruct (ostr_truthy _ && _); [|done]. destruct (bool_decide_reflect (s_id s ∈ freshly_imported_sessions w)) as [Hid|Hid].
    + match goal with |- imports_only (?b w).2 => assert (within (safe [lab]) b) as Hs end.
      { unfold ignore_errors. apply within_bind; [exact _|apply within_safe; quiet|intros _].
        apply within_bind; [exact _|apply within_safe; quiet|intros _].
        apply within_bind; [exact _|apply within_or_return; [exact _|apply safe_delete]|intros _]. apply within_safe. quiet. }
      apply (Hs w); [done|]. apply Forall_singleton. by apply cleanup_lab.
    + match goal with |- imports_only (?b w).2 => assert (within quiet b) as Hs end; [unfold ignore_errors; quiet|].
      by apply (quiet_safe [] _ _ (Hs w)).
  - unfold ignore_errors. destruct (ostr_truthy _ && _); [|apply returns_ret].
    do 2 (apply returns_bind; [apply or_return_returns|intros _]). destruct (bool_decide _); [|apply update_returns].
    apply returns_bind; [apply or_return_returns|intros _; apply update_returns].
  - destruct (returns_run _ w Hr) as (a & w1 & H1). rewrite (run_bind _ _ _ _ _ H1). rewrite H1 in Hb.
    apply (safe_forget (s_id s) (mret ()) (within_ret (safe []) ()) w1); done.
Qed.

(** ** Runs of the reconciler *)
Inductive move :=
| Run (r : step_run) | CleanUp (s : session) | VisitSession (s : session) | ListResources | Fetch (id : string)
| ObserveRequest (id : string) (parsed : bool).

Definition make (w : world) (m : move) : world :=
  match m with
  | Run r => run_step w r
  | CleanUp s => (cleanup_failed_instantiation s w).2
  | VisitSession s => (reconcile_inner cfg s w).2
  | ListResources => (list_resources cfg w).2
  | Fetch id => (fetch_resource_by_id cfg id w).2
  | ObserveRequest id parsed => (handle_observe_resources cfg id parsed w).2
  end.

Inductive run : world -> world -> Prop :=
| run_done w : run w w
| run_more w m w' : match m with CleanUp s => consistent s w | _ => True end -> run (make w m) w' -> run w w'.

End Deletions.

(** A definition that has been read is never read again. *)
Lemma cached_definition_stands `{Services} id d w : definition_cache w !! id = Some d -> get_definition id w = (Ok (Some d), w).
Proof. intros Hd. unfold get_definition, mbind, prog_bind, read. by rewrite Hd. Qed.

(** ** The deadline inside of a visit *)
Section Window.
Context `{Services} (cfg : settings).
Import SessionStatus.

(** A visit before the deadline, when the handler reads the clock before it too. *)
Lemma running_visit_log s e w :
  enum_call (s_status s) = Ok RUNNING -> truthy (s_timeslot_end s) = true -> session_time (s_timeslot_end s) = Ok e ->
  clock (log w) < dt_us e -> clock (log w ++ [Ev Now]) < dt_us e ->
  log (reconcile_inner cfg s w).2 ∈ [log w ++ [Ev Now]; log w ++ [Ev Now; Ev Now; Ev (GetLabState (s_worker_ip s) (default "" (s_cml_lab_id s)))]].
Proof.
  intros Hs Ht He H1 H2. unfold reconcile_inner. rewrite Hs. rewrite bool_decide_eq_false_2 by (unfold expiry_exempt; set_solver).
  unfold try_, mbind, prog_bind. rewrite (timeslot_over_run _ _ _ Ht He). rewrite (proj2 (Z.leb_gt _ _) H1). cbn [negb].
  set (w1 := w <| log := log w ++ [Ev Now] |>). unfold reconcile_status, answered, answer_failed.
  destruct (negb (ostr_truthy (s_worker_id s))); [by left|]. destruct (negb _ && _); [by left|].
  cbn [route]. unfold answered, handle_running. destruct (negb (ostr_truthy (s_cml_lab_id s))); [by left|].
  unfold try_, mbind, prog_bind. rewrite (timeslot_over_run _ _ w1 Ht He). change (log w1) with (log w ++ [Ev Now]).
  rewrite (proj2 (Z.leb_gt _ _) H2). cbn [negb]. unfold verify_lab, mbind, prog_bind, ask. right.
  destruct (answer _ _ _) as [st|x]; cbn; rewrite <- !app_assoc; by left.
Qed.

(** A visit moves a running session to STOPPING, and so observes its resources, only
    when the deadline falls between the two readings of the clock in that visit: after
    the first reading the session would have been expired. *)
Theorem stopping_needs_the_window s e w :
  enum_call (s_status s) = Ok RUNNING -> truthy (s_timeslot_end s) = true -> session_time (s_timeslot_end s) = Ok e ->
  (exists before after, log (reconcile_inner cfg s w).2 = log w ++ before ++ Ev (TransitionSession (s_id s) STOPPING "Timeslot ended") :: after) ->
  clock (log w) < dt_us e <= clock (log w ++ [Ev Now]).
Proof.
  intros Hs Ht He (before & after & Hl).
  assert (forall l, log (reconcile_inner cfg s w).2 = log w ++ l -> Ev (TransitionSession (s_id s) STOPPING "Timeslot ended") ∈ l) as Hin.
  { intros l Hr. rewrite Hl in Hr. apply app_inv_head in Hr as <-. rewrite elem_of_app. right. by left. }
  destruct (Z.le_gt_cases (dt_us e) (clock (log w))) as [Hc|Hc].
  - rewrite (overdue_run cfg s RUNNING e w) in Hin; [|done| |done..]; [|unfold expiry_exempt; set_solver].
    by specialize (Hin _ eq_refl) as [?|[?|?%not_elem_of_nil]%elem_of_cons]%elem_of_cons.
  - split; [done|]. apply Z.nlt_ge. intros Hc2. pose proof (running_visit_log s e w Hs Ht He Hc Hc2) as Hr.
    apply elem_of_cons in Hr as [Hr|Hr%list_elem_of_singleton]; specialize (Hin _ Hr).
    + by apply list_elem_of_singleton in Hin.
    + by repeat (apply elem_of_cons in Hin as [Hin|Hin]); try by apply not_elem_of_nil in Hin.
Qed.
End Window.

(** ** Visits and runs on concrete services *)
Definition demo_settings : settings := {|
  worker_bootup_delay_minutes := 15; use_private_ip_for_monitoring := true; resource_observation_enabled := false;
  resource_observer_configured := false; lds_protocol_priority := []; scenario_engine_integration_enabled := false;
  scenario_engine_callback_url := None; etcd_key_prefix := "/lcm"; lds_configured := true; scenario_engine_client_configured := false |}.

(** Services whose clock is the number of calls so far. *)
Definition counting : Services := {|
  answer := @answer unrecorded; clock := fun l => Z.of_nat (length l); uuid4_hex := fun _ => "0123456789"; lds_spi_error := fun _ => false |}.

Definition due (status : string) (us : Z) : session :=
  demo_session <| s_status := status |> <| s_timeslot_end := PTime (utc us) |> <| s_cml_lab_id := Some "lab-new" |>.

Lemma overdue_is_only_expired_witness :
  (exists r, (reconcile_inner (H := counting) demo_settings (due "expired" 0) demo_world).1 = Ok (Answer r)) /\
  (reconcile_inner (H := counting) demo_settings (due "expired" 0) demo_world).2
  = demo_world <| log := [Ev Now; Ev (ExpireSession "s-1" "timeslot_expired")] |>.
Proof.
  apply (overdue_is_only_expired (H := counting) demo_settings (due "expired" 0) SessionStatus.EXPIRED (utc 0) demo_world);
    [vm_compute; reflexivity|by apply (bool_decide_unpack _); vm_compute|reflexivity..|vm_compute; discriminate].
Defined.

Definition aggregate_root_id : RootId LabletSessionState := fun a => Some (LabletSession.id a).
Definition scheduled_aggregate : LabletSessionState :=
  LabletSession.init_state (utc 0) <| LabletSession.status := SessionStatus.SCHEDULED |>.
Definition demo_clock : PyData.clock := {| PyData.now := utc 0; now_hist := utc 0; now_upd := utc 0 |}.

Lemma overdue_scheduled_is_stuck_witness :
  log (reconcile_inner (H := counting) demo_settings (due "scheduled" 0) demo_world).2
    = [Ev Now; Ev (ExpireSession "s-1" "timeslot_expired")] /\
  exists x, LabletSession.expire (H := aggregate_root_id) demo_clock "timeslot_expired" scheduled_aggregate = Err x.
Proof.
  apply (overdue_scheduled_is_stuck (H := counting) demo_settings (H0 := aggregate_root_id) (due "scheduled" 0) (utc 0) demo_world
    demo_clock "timeslot_expired" scheduled_aggregate); [vm_compute; reflexivity|reflexivity..|vm_compute; discriminate|reflexivity].
Defined.

Lemma stopping_needs_the_window_witness :
  (exists before after, log (reconcile_inner (H := counting) demo_settings (due "running" 1) demo_world).2
     = [] ++ before ++ Ev (TransitionSession "s-1" SessionStatus.STOPPING "Timeslot ended") :: after) /\
  (0 < 1 <= 1)%Z.
Proof.
  assert (exists before after, log (reconcile_inner (H := counting) demo_settings (due "running" 1) demo_world).2
     = log demo_world ++ before ++ Ev (TransitionSession "s-1" SessionStatus.STOPPING "Timeslot ended") :: after) as Hl.
  { exists [Ev Now; Ev Now], []. vm_compute. reflexivity. }
  split; [exact Hl|].
  exact (stopping_needs_the_window (H := counting) demo_settings (due "running" 1) (utc 1) demo_world eq_refl eq_refl eq_refl Hl).
Defined.

(** A lab is imported, its start fails for good, and it is deleted. *)
Definition failed_run : list move := [Run (demo_run "lab_resolve"); VisitSession demo_session; CleanUp demo_session].
Definition run_moves (l : list move) (w : world) : world := fold_left (make (H := unrecorded) demo_settings) l w.
Example fresh_lab_deleted : Ev (DeleteLab (Some "10.0.0.1") "lab-new") ∈ log (run_moves failed_run demo_world).
Proof. vm_compute. repeat first [by left|right]. Qed.

