(* ===== verification/Timeslots.v ===== *)
(** * Time slots: who watches for deadlines

    ([control-plane-api]: the query [get_sessions_with_imminent_deadlines] and the two
    listings of [motor_lablet_session_repository.py] behind it; [resource-scheduler]:
    [timeslot_manager_hosted_service.py]; [lablet-controller]:
    [timeslot_watcher_service.py])

    Both services scan: they ask for the sessions whose deadlines are near, act on those
    that are new, and keep what they acted on.  A scan is a function from the answer, and
    from which requests succeed, to the requests it makes. *)
From S2P Require Import Prelude PyData Enums LabletSession Programs Reconciliation LifecycleHandler LabletServices StepHandlers StepHandlersProps LabletReconciler LabletReconcilerProps.
Import SessionStatus.

(** ** What the control plane answers *)

(** [SessionDeadlineInfo], and [ImminentDeadlinesResult]. *)
Record deadline_info := { di_id : string; di_status : string; di_start : datetime; di_end : datetime }.
Record deadlines := { approaching_start : list deadline_info; past_end : list deadline_info }.

(** [{"$ne": None, "$lte": t}] on a field of a document *)
Definition at_most (t : datetime) (v : option datetime) : bool :=
  match v with Some d => dt_us d <=? dt_us t | None => false end.

Definition actionable_statuses : list LabletSessionStatus := [SCHEDULED; INSTANTIATING; READY; RUNNING; COLLECTING; GRADING].

(** The fields [timeslot_start] and [timeslot_end] of the stored document of a session,
    which the serializer of the framework writes. *)
Section Query.
Context (stored_start stored_end : LabletSessionState -> option datetime).

(** [list_approaching_start_async] *)
Definition list_approaching_start (before : datetime) (sessions : list LabletSessionState) : list LabletSessionState :=
  List.filter (fun s => bool_decide (status s = SCHEDULED) && at_most before (stored_start s)) sessions.

(** [list_past_end_async] *)
Definition list_past_end (as_of : datetime) (sessions : list LabletSessionState) : list LabletSessionState :=
  List.filter (fun s => bool_decide (status s ∈ actionable_statuses) && at_most as_of (stored_end s)) sessions.

Definition info_of (s : LabletSessionState) : res deadline_info :=
  t0 ← timeslot_start s;
  t1 ← timeslot_end s;
  Ok {| di_id := id s; di_status := LabletSessionStatus_value (status s); di_start := t0; di_end := t1 |}.

(** [GetSessionsWithImminentDeadlinesQueryHandler.handle_async]: an exception becomes an
    answer that the client raises on. *)
Definition imminent_deadlines (now : datetime) (boot_window_minutes : Z) (sessions : list LabletSessionState) : res deadlines :=
  approaching ← mapM info_of (list_approaching_start (dt_add now (minutes boot_window_minutes)) sessions);
  past ← mapM info_of (list_past_end now sessions);
  Ok {| approaching_start := approaching; past_end := past |}.
End Query.

(** ** Scans *)

(** What a scan asks for: a write that wakes a watch, or the expiry of a session. *)
Inductive action := Trigger (session_id : string) (value : string) | Expire (session_id : string) (reason : string).

Definition ids (l : list deadline_info) : gset string := list_to_set (map di_id l).
(** [tracked -= tracked - current] *)
Definition prune (tracked : gset string) (current : list deadline_info) : gset string := tracked ∖ (tracked ∖ ids current).

(** A loop over the sessions of a list: those that match and are not tracked yet are acted on, and
    tracked when [keep] says so. *)
Fixpoint scan_list (matches : deadline_info -> bool) (act : string -> action) (keep : string -> bool) (tracked : gset string)
    (l : list deadline_info) : list action * gset string :=
  match l with
  | [] => ([], tracked)
  | s :: l =>
      if matches s && negb (bool_decide (di_id s ∈ tracked)) then
        let '(actions, tracked) :=
          scan_list matches act keep (if keep (di_id s) then {[di_id s]} ∪ tracked else tracked) l in
        (act (di_id s) :: actions, tracked)
      else scan_list matches act keep tracked l
  end.

(** *** The manager of the scheduler *)
Record manager := { triggered_session_ids : gset string; expired_session_ids : gset string }.

Definition is_pending (s : deadline_info) : bool := String.eqb (di_status s) "PENDING".

(** [_run_scan]; [expired_ok] says for which sessions [_expire_session] returns [True].
    A write that fails is logged, and the session is tracked all the same. *)
Definition run_scan (answer : deadlines) (expired_ok : string -> bool) (m : manager) : list action * manager :=
  let '(triggers, triggered) :=
    scan_list is_pending (fun i => Trigger i "PENDING") (fun _ => true) (prune (triggered_session_ids m) (approaching_start answer))
      (approaching_start answer) in
  let '(expiries, expired) :=
    scan_list is_pending (fun i => Expire i "timeslot_missed") expired_ok (prune (expired_session_ids m) (past_end answer))
      (past_end answer) in
  (triggers ++ expiries, {| triggered_session_ids := triggered; expired_session_ids := expired |}).

(** *** The watcher of the lablet controller *)
Record watcher := { triggered_approaching : gset string; triggered_past_end : gset string }.

(** [_scan_deadlines] *)
Definition scan_deadlines (answer : deadlines) (w : watcher) : list action * watcher :=
  let '(starts, approaching) :=
    scan_list (fun _ => true) (fun i => Trigger i "timeslot_approaching") (fun _ => true)
      (prune (triggered_approaching w) (approaching_start answer)) (approaching_start answer) in
  let '(ends, past) :=
    scan_list (fun _ => true) (fun i => Trigger i "timeslot_expired") (fun _ => true)
      (prune (triggered_past_end w) (past_end answer)) (past_end answer) in
  (starts ++ ends, {| triggered_approaching := approaching; triggered_past_end := past |}).

(** * What the scans for deadlines come to

    The manager of the scheduler never acts on what the control plane answers; the watcher
    of the lablet controller acts once on each session, which is too early. *)
Import SessionStatus.

(** ** The manager *)
Section Manager.
Context (stored_start stored_end : LabletSessionState -> option datetime).

Lemma mapM_info_of l infos : mapM info_of l = Ok infos -> Forall2 (fun s i => di_id i = id s /\ di_status i = LabletSessionStatus_value (status s)) l infos.
Proof.
  revert infos. induction l as [|s l IH]; intros infos Hm; cbn in Hm; [injection Hm as <-; constructor|].
  apply bind_ok in Hm as (i & Hi & Hm). apply bind_ok in Hm as (infos' & His & Hm). injection Hm as <-. constructor; [|by apply IH].
  unfold info_of in Hi. apply bind_ok in Hi as (t0 & _ & Hi). apply bind_ok in Hi as (t1 & _ & Hi). by injection Hi as <-.
Qed.

Lemma statuses_listed (p : LabletSessionState -> bool) (P : LabletSessionStatus -> Prop) sessions infos :
  (forall s, p s = true -> P (status s)) -> mapM info_of (List.filter p sessions) = Ok infos ->
  Forall (fun i => exists st, P st /\ di_status i = LabletSessionStatus_value st) infos.
Proof.
  intros Hp Hm%mapM_info_of. assert (Forall (fun s => p s = true) (List.filter p sessions)) as Hf.
  { apply List.Forall_forall. intros s Hs. by apply List.filter_In in Hs as [_ Hs]. }
  induction Hm as [|s i l infos [_ Hi] Hm IH]; constructor.
  - apply Forall_cons in Hf as [Hs _]. eauto.
  - apply Forall_cons in Hf as [_ Hf]. auto.
Qed.

Lemma scan_list_none matches act keep tracked l :
  Forall (fun s => matches s = false) l -> scan_list matches act keep tracked l = ([], tracked).
Proof. induction 1 as [|s l Hs Hl IH]; cbn [scan_list]; [done|]. by rewrite Hs. Qed.

Lemma not_pending i st : di_status i = LabletSessionStatus_value st -> is_pending i = false.
Proof. unfold is_pending. intros ->. by destruct st. Qed.

(** The manager of the time slots never acts: whatever the sessions, no pending session
    is in what the control plane answers, the statuses there are in lower case, and so a
    scan neither triggers a scheduling nor expires a session. *)
Theorem timeslot_manager_is_idle now window sessions answer expired_ok m :
  imminent_deadlines stored_start stored_end now window sessions = Ok answer ->
  Forall (fun i => di_status i <> LabletSessionStatus_value PENDING) (approaching_start answer ++ past_end answer) /\
  (run_scan answer expired_ok m).1 = [].
Proof.
  intros Ha. unfold imminent_deadlines in Ha. apply bind_ok in Ha as (near & Hn & Ha). apply bind_ok in Ha as (past & Hp & Ha).
  injection Ha as <-. cbn [approaching_start past_end run_scan].
  apply (statuses_listed _ (fun st => st = SCHEDULED)) in Hn; [|by intros s [H%bool_decide_eq_true _]%andb_prop].
  apply (statuses_listed _ (fun st => st ∈ actionable_statuses)) in Hp; [|by intros s [H%bool_decide_eq_true _]%andb_prop].
  split.
  - apply Forall_app. split; (eapply Forall_impl; [eassumption|]); intros i (st & Hst & ->) He.
    + subst st. discriminate.
    + destruct st; try discriminate. revert Hst. unfold actionable_statuses. set_solver.
  - unfold run_scan. cbn [approaching_start past_end]. rewrite !scan_list_none; [done|..];
      (eapply Forall_impl; [eassumption|]); intros i (st & _ & Hi); by eapply not_pending.
Qed.
End Manager.

(** ** The watcher *)

Lemma scan_list_elem act tracked l i : act i ∈ (scan_list (fun _ => true) act (fun _ => true) tracked l).1 -> Inj (=) (=) act -> i ∉ tracked.
Proof.
  revert tracked. induction l as [|s l IH]; intros tracked Hin Hinj; cbn [scan_list] in Hin; [by apply not_elem_of_nil in Hin|].
  cbn [andb] in Hin. destruct (bool_decide_reflect (di_id s ∈ tracked)) as [Hs|Hs]; cbn [negb] in Hin; [by apply IH|].
  specialize (IH ({[di_id s]} ∪ tracked)).
  destruct (scan_list _ _ _ ({[di_id s]} ∪ tracked) l) as [actions tracked'] eqn:He. cbn [fst] in *.
  apply elem_of_cons in Hin as [->%Hinj|Hin]; [done|]. specialize (IH Hin Hinj). set_solver.
Qed.

Lemma scan_list_tracked act tracked l : (scan_list (fun _ => true) act (fun _ => true) tracked l).2 = ids l ∪ tracked.
Proof.
  revert tracked. induction l as [|s l IH]; intros tracked; cbn [scan_list]; [unfold ids; cbn; set_solver|].
  cbn [andb]. unfold ids. cbn [map list_to_set foldr]. fold (ids l). destruct (bool_decide_reflect (di_id s ∈ tracked)) as [Hs|Hs]; cbn [negb].
  - rewrite IH. unfold ids. set_solver.
  - specialize (IH ({[di_id s]} ∪ tracked)). destruct (scan_list _ _ _ ({[di_id s]} ∪ tracked) l) as [actions tracked'].
    cbn [snd] in *. rewrite IH. unfold ids. set_solver.
Qed.

(** *** The triggers of one session *)
Definition wakes (i : string) (a : action) : bool := match a with Trigger j _ => String.eqb j i | Expire _ _ => false end.
Definition wake_count (i : string) (actions : list action) : nat := length (List.filter (wakes i) actions).

Lemma scan_list_count value tracked l i :
  wake_count i (scan_list (fun _ => true) (fun j => Trigger j value) (fun _ => true) tracked l).1
  = if bool_decide (i ∈ ids l /\ i ∉ tracked) then 1%nat else 0%nat.
Proof.
  revert tracked. induction l as [|s l IH]; intros tracked; cbn [scan_list].
  { rewrite bool_decide_eq_false_2; [done|]. unfold ids. cbn. set_solver. }
  cbn [andb]. change (ids (s :: l)) with ({[di_id s]} ∪ ids l).
  destruct (bool_decide_reflect (di_id s ∈ tracked)) as [Hs|Hs]; cbn [negb].
  - rewrite IH. apply (f_equal (fun b : bool => if b then 1%nat else 0%nat)), bool_decide_ext. set_solver.
  - specialize (IH ({[di_id s]} ∪ tracked)). destruct (scan_list _ _ _ ({[di_id s]} ∪ tracked) l) as [actions tracked'].
    cbn [fst] in *. unfold wake_count in *. cbn [List.filter wakes]. destruct (String.eqb_spec (di_id s) i) as [<-|Hne].
    + cbn [length]. rewrite IH. rewrite bool_decide_eq_false_2 by set_solver. rewrite bool_decide_eq_true_2; [done|set_solver].
    + rewrite IH. apply (f_equal (fun b : bool => if b then 1%nat else 0%nat)), bool_decide_ext. set_solver.
Qed.

Lemma prune_elem tracked l i : i ∈ prune tracked l <-> i ∈ tracked /\ i ∈ ids l.
Proof. unfold prune. rewrite !elem_of_difference. destruct (decide (i ∈ ids l)); tauto. Qed.

(** While a session approaches and has not ended, it is triggered by the first scan that lists
    it and by no other. *)
Lemma approaching_scan answer wt i : i ∈ ids (approaching_start answer) -> i ∉ ids (past_end answer) ->
  wake_count i (scan_deadlines answer wt).1 = (if bool_decide (i ∈ triggered_approaching wt) then 0%nat else 1%nat) /\
  i ∈ triggered_approaching (scan_deadlines answer wt).2.
Proof.
  intros Ha Hp. unfold scan_deadlines.
  pose proof (scan_list_count "timeslot_approaching" (prune (triggered_approaching wt) (approaching_start answer)) (approaching_start answer) i) as H1.
  pose proof (scan_list_tracked (fun j => Trigger j "timeslot_approaching") (prune (triggered_approaching wt) (approaching_start answer)) (approaching_start answer)) as H2.
  pose proof (scan_list_count "timeslot_expired" (prune (triggered_past_end wt) (past_end answer)) (past_end answer) i) as H3.
  destruct (scan_list _ _ _ _ (approaching_start answer)) as [starts tracked]. destruct (scan_list _ _ _ _ (past_end answer)) as [ends past].
  cbn [fst snd triggered_approaching] in *. split; [|set_solver].
  unfold wake_count in *. rewrite List.filter_app, length_app, H1, H3. rewrite (bool_decide_eq_false_2 (i ∈ ids (past_end answer) /\ _)) by tauto.
  destruct (decide (i ∈ triggered_approaching wt)) as [Ht|Ht].
  - rewrite (bool_decide_eq_true_2 _ Ht), bool_decide_eq_false_2; [done|]. rewrite prune_elem. tauto.
  - rewrite (bool_decide_eq_false_2 _ Ht), bool_decide_eq_true_2; [done|]. rewrite prune_elem. tauto.
Qed.

(** ** The watcher and the reconciler, without polling *)
Section WatchOnly.
Context `{Services} (cfg : settings).

(** The reconciler visits the session once for each trigger. *)
Fixpoint watch_only (s : session) (scans : list deadlines) (wt : watcher) (w : world) : world :=
  match scans with
  | [] => w
  | answer :: scans =>
      let '(actions, wt) := scan_deadlines answer wt in
      watch_only s scans wt (Nat.iter (wake_count (s_id s) actions) (fun w => (reconcile_inner cfg s w).2) w)
  end.

Lemma tracked_scans s scans wt w : s_id s ∈ triggered_approaching wt ->
  Forall (fun a => s_id s ∈ ids (approaching_start a) /\ s_id s ∉ ids (past_end a)) scans -> watch_only s scans wt w = w.
Proof.
  intros Ht Hs. revert wt Ht. induction Hs as [|a scans [Ha Hp] Hs IH]; intros wt Ht; cbn [watch_only]; [done|].
  destruct (approaching_scan a wt (s_id s) Ha Hp) as [Hc Htr]. destruct (scan_deadlines a wt) as [actions wt']. cbn [fst snd] in *.
  rewrite Hc, bool_decide_eq_true_2 by done. cbn [Nat.iter nat_rect]. by apply IH.
Qed.

(** The visits do not start an instantiation. *)
Definition starts_nothing (w w' : world) : Prop :=
  exists l, log w' = log w ++ l /\ forall x, Ev (StartInstantiation x) ∉ l.
#[local] Instance starts_nothing_preorder : PreOrder starts_nothing.
Proof.
  split.
  - intros w. exists []. split; [by rewrite app_nil_r|]. intros x. apply not_elem_of_nil.
  - intros w1 w2 w3 (l1 & H1 & N1) (l2 & H2 & N2). exists (l1 ++ l2). split; [by rewrite H2, H1, app_assoc|].
    intros x [Hx|Hx]%elem_of_app; [by apply (N1 x)|by apply (N2 x)].
Qed.
Lemma starts_nothing_log (w : world) e : (forall x, e <> Ev (StartInstantiation x)) -> starts_nothing w (w <| log := log w ++ [e] |>).
Proof. intros He. exists [e]. split; [done|]. intros x Hx%list_elem_of_singleton. by apply (He x). Qed.

Lemma get_definition_starts_nothing i : within starts_nothing (get_definition i).
Proof.
  unfold get_definition. apply within_bind; [exact _|apply within_read; exact _|]. intros [d|]; [apply within_ret; exact _|].
  apply within_or_return; [exact _|]. apply within_bind; [exact _|intros w; by apply starts_nothing_log|].
  intros [[|p data]|]; [apply within_ret; exact _| |apply within_ret; exact _].
  apply within_bind; [exact _|apply within_lift; exact _|]. intros d.
  apply within_bind; [exact _| |intros _; apply within_ret; exact _].
  apply within_write. intros w. exists []. split; [by rewrite app_nil_r|]. intros x. apply not_elem_of_nil.
Qed.

(** Before the boot lead time a visit of a scheduled session starts nothing. *)
Lemma early_visit s st lead w :
  enum_call (s_status s) = Ok SCHEDULED -> truthy (s_timeslot_start s) = true -> session_time (s_timeslot_start s) = Ok st ->
  (forall d w1, definition_cache w1 = definition_cache w -> (get_definition (s_definition_id s) w1).1 = Ok d -> boot_lead_time cfg d <= lead) ->
  (forall l, (length l <= 1)%nat -> clock (log w ++ l) + minutes lead < dt_us st) ->
  starts_nothing w (reconcile_inner cfg s w).2.
Proof.
  intros Hs Ht Hst Hlead Hc.
  assert (forall l, (length l <= 1)%nat -> (forall x, Ev (StartInstantiation x) ∉ l) -> forall w1, log w1 = log w ++ l ->
    definition_cache w1 = definition_cache w ->
    starts_nothing w (reconcile_status cfg s SCHEDULED w1).2) as Hstatus.
  { intros l Hlen Hl w1 H1 Hcache. assert (starts_nothing w w1) as Hw by (by exists l). etransitivity; [exact Hw|]. unfold reconcile_status.
    destruct (negb _); [reflexivity|]. rewrite bool_decide_eq_false_2, andb_false_r by (unfold needs_worker_ip; set_solver).
    cbn [route]. unfold answered, handle_scheduled, should_instantiate. rewrite Ht. cbn [negb].
    unfold mbind, prog_bind, now at 1. set (w2 := w1 <| log := log w1 ++ [Ev Now] |>).
    assert (starts_nothing w1 w2) as H2 by (by apply starts_nothing_log).
    pose proof (get_definition_starts_nothing (s_definition_id s) w2) as H3.
    destruct (returns_run _ w2 (get_definition_returns (s_definition_id s))) as (d & w3 & Hd). rewrite Hd in H3 |- *.
    unfold lift. rewrite Hst. cbn [dt_us utc].
    assert (dt_us st - clock (log w1) <=? minutes (boot_lead_time cfg d) = false) as ->.
    { apply Z.leb_gt. specialize (Hlead d w2 Hcache). rewrite Hd in Hlead. specialize (Hlead eq_refl). specialize (Hc l Hlen). rewrite <- H1 in Hc.
      unfold minutes, seconds in *. lia. }
    cbn. by transitivity w2. }
  unfold reconcile_inner. rewrite Hs. rewrite bool_decide_eq_false_2 by (unfold expiry_exempt; set_solver).
  assert (forall e w1, starts_nothing w w1 -> starts_nothing w (answered (answer_failed (exn_str e)) w1).2) as Herr by done.
  assert (forall m w1, starts_nothing w (m w1).2 -> starts_nothing w (try_ m (fun e => answered (answer_failed (exn_str e))) w1).2) as Htry.
  { intros m w1. unfold try_. by destruct (m w1) as [[v|e] w2]. }
  apply Htry. unfold timeslot_over. destruct (truthy (s_timeslot_end s)).
  - unfold mbind, prog_bind, now at 1, lift. destruct (session_time (s_timeslot_end s)) as [e|x]; [|by apply starts_nothing_log].
    cbn [mret prog_ret]. destruct (dt_us e <=? _); cbn [negb].
    + transitivity (w <| log := log w ++ [Ev Now] |>); [by apply starts_nothing_log|].
      unfold answered, handle_expired, try_, mbind, prog_bind, ask. destruct (answer _ _ _) as [[]|y]; by apply starts_nothing_log.
    + apply (Hstatus [Ev Now]); [done| |done..]. intros x Hx%list_elem_of_singleton. discriminate.
  - apply (Hstatus []); [cbn; lia|intros x; apply not_elem_of_nil|by rewrite app_nil_r|done].
Qed.

(** With the watch alone (the polling of the reconciler is a setting) a scheduled session
    that is first listed before its boot lead time is not instantiated while it approaches:
    it is triggered by one scan, whose visit finds it too early, and by no later one. *)
Theorem watch_only_never_instantiates s st lead scans wt w :
  enum_call (s_status s) = Ok SCHEDULED -> truthy (s_timeslot_start s) = true -> session_time (s_timeslot_start s) = Ok st ->
  (forall d w1, definition_cache w1 = definition_cache w -> (get_definition (s_definition_id s) w1).1 = Ok d -> boot_lead_time cfg d <= lead) ->
  (forall l, (length l <= 1)%nat -> clock (log w ++ l) + minutes lead < dt_us st) ->
  Forall (fun a => s_id s ∈ ids (approaching_start a) /\ s_id s ∉ ids (past_end a)) scans ->
  exists l, log (watch_only s scans wt w) = log w ++ l /\ Ev (StartInstantiation (s_id s)) ∉ l.
Proof.
  intros Hs Ht Hst Hlead Hc Hscans.
  assert (starts_nothing w (watch_only s scans wt w)) as (l & Hl & Hn); [|by exists l].
  destruct Hscans as [|a scans [Ha Hp] Hscans]; cbn [watch_only]; [reflexivity|].
  destruct (approaching_scan a wt (s_id s) Ha Hp) as [Hcount Htr]. destruct (scan_deadlines a wt) as [actions wt']. cbn [fst snd] in *.
  rewrite tracked_scans by done. rewrite Hcount. destruct (bool_decide _); cbn [Nat.iter nat_rect]; [reflexivity|]. by eapply early_visit.
Qed.
End WatchOnly.

(** ** Concrete scans *)
Definition stored (field : LabletSessionState -> res datetime) (s : LabletSessionState) : option datetime :=
  match field s with Ok t => Some t | Err _ => None end.
Definition slotted (st : LabletSessionStatus) (i : string) : LabletSessionState :=
  init_state (utc 0) <| LabletSession.id := i |> <| status := st |>.
Definition two_sessions : list LabletSessionState := [slotted PENDING "s-0"; slotted SCHEDULED "s-1"].
Definition two_deadlines : deadlines :=
  match imminent_deadlines (stored timeslot_start) (stored timeslot_end) (utc 1) 35 two_sessions with
  | Ok a => a | Err _ => {| approaching_start := []; past_end := [] |} end.
Definition idle : manager := {| triggered_session_ids := ∅; expired_session_ids := ∅ |}.

Lemma timeslot_manager_is_idle_witness :
  imminent_deadlines (stored timeslot_start) (stored timeslot_end) (utc 1) 35 two_sessions = Ok two_deadlines /\
  map di_id (past_end two_deadlines) = ["s-1"] /\
  Forall (fun i => di_status i <> LabletSessionStatus_value PENDING) (approaching_start two_deadlines ++ past_end two_deadlines) /\
  (run_scan two_deadlines (fun _ => true) idle).1 = [].
Proof.
  split; [vm_compute; reflexivity|]. split; [vm_compute; reflexivity|].
  apply (timeslot_manager_is_idle (stored timeslot_start) (stored timeslot_end) (utc 1) 35 two_sessions). vm_compute. reflexivity.
Defined.

(** A session that starts in half an hour, and needs a quarter to boot. *)
Definition half_an_hour : session := demo_session <| s_status := "scheduled" |> <| s_timeslot_start := PTime (utc (minutes 30)) |>.
Definition listed : deadlines :=
  {| approaching_start := [{| di_id := "s-1"; di_status := "scheduled"; di_start := utc (minutes 30); di_end := utc (minutes 90) |}]; past_end := [] |}.
Definition fresh_watcher : watcher := {| triggered_approaching := ∅; triggered_past_end := ∅ |}.

Lemma watch_only_never_instantiates_witness :
  log (watch_only (H := three_labs) demo_settings half_an_hour [listed; listed; listed] fresh_watcher demo_world)
    = [Ev Now; Ev (GetDefinition "d-1")] /\
  exists l, log (watch_only (H := three_labs) demo_settings half_an_hour [listed; listed; listed] fresh_watcher demo_world) = [] ++ l /\
    Ev (StartInstantiation "s-1") ∉ l.
Proof.
  split; [vm_compute; reflexivity|].
  apply (watch_only_never_instantiates (H := three_labs) demo_settings half_an_hour (utc (minutes 30)) 15); [vm_compute; reflexivity|reflexivity..| | |].
  - intros d w1 Hc Hd. unfold get_definition, read, or_return, try_, mbind, prog_bind in Hd. rewrite Hc in Hd. cbn in Hd.
    vm_compute in Hd. injection Hd as <-. vm_compute. discriminate.
  - intros l _. vm_compute. reflexivity.
  - assert (Hl : s_id half_an_hour ∈ ids (approaching_start listed) /\ s_id half_an_hour ∉ ids (past_end listed)) by (split; [by apply elem_of_list_to_set, list_elem_of_singleton|by apply not_elem_of_empty]).
    by do 3 (apply Forall_cons_2; [exact Hl|]).
Defined.
