(* ===== verification/Scheduler.v ===== *)
(** * The scheduler service

    ([resource-scheduler/application/hosted_services/scheduler_hosted_service.py])

    The leader lists the pending sessions, keeps what it needs of workers, definitions and
    capacities for a cycle, asks the placement engine ([Placement]) for a decision for each
    session, and carries the decision out at the control plane.  The loop that visits the
    sessions and backs off is in [Reconciliation] and [WatchTrigger].

    The control plane and etcd answer from the log of the calls so far, as in
    [LabletServices]; definitions and workers arrive as the records of [Placement]. *)
From Stdlib Require Import Floats.SpecFloat Ascii.
From S2P Require Import Prelude PySort PyFloat PyData Enums Programs LabletServices Placement Reconciliation.

(** [s.endswith(suffix)] *)
Definition py_endswith (suffix s : string) : bool :=
  (String.length suffix <=? String.length s)%nat &&
  String.eqb (String.substring (String.length s - String.length suffix) (String.length suffix) s) suffix.

(** ** What is asked of other processes *)

(** A definition of the control plane: what the placement engine reads, and [lab_record_id]. *)
Record scheduling_definition := { sc_definition : Placement.definition; sc_lab_record_id : option string }.

(** A value under [/workers/] in etcd, read by [json.loads]. *)
Inductive published := InvalidJson | NotAnObject | Published (worker_id : string) (capacity : etcd_entry).

Inductive call : Type -> Type :=
(* the control plane *)
| GetSession (session_id : string) : call pydict
| GetPendingSessions : call (list pydict)
| GetRunningWorkers : call (list Placement.worker)
| GetWorkerTemplates : call (list pydict)
| GetDefinition (definition_id : string) : call (option scheduling_definition)
| ScheduleSession (session_id worker_id : string) (allocated_ports : dict Z) (lab_record_id scheduled_by : string) : call ()
| RequestScaleUp (template reason : string) : call ()
(* etcd *)
| GetPrefix (prefix : string) : call (dict published)
(* this process *)
| Now : call datetime
| Monotonic : call float.

Inductive event := | Ev {A : Type} (c : call A).

Class Services := {
  answer : forall A, list event -> call A -> res A;
  clock : list event -> Z;
  monotonic_clock : list event -> float
}.

(** The settings that the code below reads. *)
Record settings := { timeslot_lead_time_minutes : Z; etcd_key_prefix : string }.

(** What the service keeps. *)
Record scheduler := {
  log : list event;
  cached_workers : option (list Placement.worker);
  cached_templates : option (list pydict);
  definition_cache : gmap string (option scheduling_definition);
  etcd_capacities : Placement.etcd_capacities;
  etcd_capacities_fetched_at : float;
  instance_retry_counts : gmap string Z;
  successful_placements : Z;
  failed_placements : Z;
  scale_up_requests : Z
}.
#[export] Instance eta_scheduler : Eta scheduler := fun w => {|
  log := log w; cached_workers := cached_workers w; cached_templates := cached_templates w;
  definition_cache := definition_cache w; etcd_capacities := etcd_capacities w;
  etcd_capacities_fetched_at := etcd_capacities_fetched_at w; instance_retry_counts := instance_retry_counts w;
  successful_placements := successful_placements w; failed_placements := failed_placements w;
  scale_up_requests := scale_up_requests w |}.

Definition new_scheduler : scheduler := {|
  log := []; cached_workers := None; cached_templates := None; definition_cache := ∅; etcd_capacities := [];
  etcd_capacities_fetched_at := fzero; instance_retry_counts := ∅; successful_placements := 0; failed_placements := 0;
  scale_up_requests := 0 |}.

(** [30.0], [300.0] and [_max_scheduling_retries] *)
Definition etcd_capacity_ttl : float := S754_finite false 8444249301319680 (-48).
Definition extended_backoff : float := S754_finite false 5277655813324800 (-44).
Definition max_scheduling_retries : Z := 5.

Abbreviation prog := (Programs.prog scheduler).

(** ** Time slots *)

(** [_parse_timeslot]: a time in UTC when it has no zone; text that is no time is none. *)
Definition parse_timeslot (value : pyval) : option datetime :=
  match value with PTime d | PIso d => Some (dt_to_utc d) | _ => None end.

(** [timeslot_start <= now + lead_time], or there is no slot. *)
Definition in_window (now : datetime) (lead_time_minutes : Z) (s : session) : bool :=
  match parse_timeslot (s_timeslot_start s) with
  | None => true
  | Some start => dt_us start <=? dt_us (dt_add now (minutes lead_time_minutes))
  end.

(** [datetime.min.replace(tzinfo=timezone.utc)] *)
Definition datetime_min : datetime := utc (seconds (-62135596800)).
Definition start_key (s : session) : Z := dt_us (default datetime_min (parse_timeslot (s_timeslot_start s))).

(** ** Watch events *)

Definition is_slash (c : Ascii.ascii) : bool := Ascii.eqb c "/"%char.

(** [on_watch_event]: the session of a change of state to PENDING; a value that is no
    status raises. *)
Definition on_watch_event (cfg : settings) (is_put : bool) (key : string) (value : option string) : res (option string) :=
  let prefix := rstrip_by is_slash (etcd_key_prefix cfg) in
  let key := if str_truthy prefix && py_startswith prefix key
             then String.substring (String.length prefix) (String.length key - String.length prefix) key else key in
  match py_split "/"%char (py_strip_by is_slash key) with
  | first :: session_id :: third :: _ =>
      if String.eqb first "sessions" && String.eqb third "state" && is_put && ostr_truthy value then
        status ← enum_call (default "" value);
        Ok (if bool_decide (status = SessionStatus.PENDING) then Some session_id else None)
      else Ok None
  | _ => Ok None
  end.

Section Scheduler.
Context `{Services} (cfg : settings).

Definition ask {A} (c : call A) : prog A := fun w => (answer A (log w) c, w <| log := log w ++ [Ev c] |>).
Definition now : prog datetime := fun w => (Ok (utc (clock (log w))), w <| log := log w ++ [Ev Now] |>).
Definition monotonic : prog float := fun w => (Ok (monotonic_clock (log w)), w <| log := log w ++ [Ev Monotonic] |>).
Definition read {A} (f : scheduler -> A) : prog A := fun w => (Ok (f w), w).
Definition write (f : scheduler -> scheduler) : prog () := fun w => (Ok (), f w).
(** [try: m except Exception: return x] *)
Definition or_return {A} (m : prog A) (x : A) : prog A := try_ m (fun _ => mret x).

(** ** Capacities in etcd *)

(** The loop over what is under the prefix. *)
Fixpoint read_capacities (raw : list (string * published)) (capacities : Placement.etcd_capacities) : res Placement.etcd_capacities :=
  match raw with
  | [] => Ok capacities
  | (key, value) :: raw =>
      if negb (py_endswith "/capacity" key) then read_capacities raw capacities
      else
        match value with
        | InvalidJson => read_capacities raw capacities
        | NotAnObject => Err (AttributeError "get")
        | Published worker_id data => read_capacities raw (if str_truthy worker_id then dict_set worker_id data capacities else capacities)
        end
  end.

Definition refresh_etcd_capacities : prog () :=
  t ← monotonic;
  fetched_at ← read etcd_capacities_fetched_at;
  if fltb (SFsub prec emax t fetched_at) etcd_capacity_ttl then mret ()
  else
    or_return (raw_data ← ask (GetPrefix "/workers/");
               capacities ← lift (read_capacities raw_data []);
               write (fun w => w <| etcd_capacities := capacities |> <| etcd_capacities_fetched_at := t |>)) ().

(** ** Where sessions come from *)

Definition fetch_resource_by_id (resource_id : string) : prog (option session) :=
  or_return (session_data ← ask (GetSession resource_id);
             match session_data with
             | [] => mret None
             | _ =>
                 workers ← ask GetRunningWorkers;
                 _ ← write (fun w => w <| cached_workers := Some workers |>);
                 _ ← refresh_etcd_capacities;
                 s ← lift (session_from_dict session_data);
                 mret (Some s)
             end) None.

Definition list_resources : prog (list session) :=
  or_return (sessions_data ← ask GetPendingSessions;
             sessions ← lift (mapM session_from_dict sessions_data);
             t ← now;
             let eligible := sort_by Z.ltb start_key (List.filter (in_window t (timeslot_lead_time_minutes cfg)) sessions) in
             workers ← ask GetRunningWorkers;
             _ ← write (fun w => w <| cached_workers := Some workers |> <| definition_cache := ∅ |>);
             templates ← or_return (templates ← ask GetWorkerTemplates; mret (Some templates)) None;
             _ ← write (fun w => w <| cached_templates := templates |>);
             _ ← refresh_etcd_capacities;
             mret eligible) [].

(** [_get_definition]: what was fetched is kept, an empty answer included. *)
Definition get_definition (definition_id : string) : prog (option scheduling_definition) :=
  cached ← read (fun w => definition_cache w !! definition_id);
  match cached with
  | Some d => mret d
  | None =>
      or_return (d ← ask (GetDefinition definition_id);
                 _ ← write (fun w => w <| definition_cache := <[definition_id := d]> (definition_cache w) |>);
                 mret d) None
  end.

(** ** Decisions *)

Definition count_failed : prog () := write (fun w => w <| failed_placements := failed_placements w + 1 |>).

Definition handle_assign (session_id : string) (decision : SchedulingDecision) (d : scheduling_definition)
    : prog ReconciliationResult :=
  if negb (ostr_truthy (sd_worker_id decision)) then
    _ ← count_failed;
    mret (result_failed "Assign decision missing worker_id")
  else
    let worker_id := default "" (sd_worker_id decision) in
    try_ (_ ← ask (ScheduleSession session_id worker_id [] (default "" (sc_lab_record_id d)) "resource-scheduler");
          _ ← write (fun w => w <| successful_placements := successful_placements w + 1 |>);
          mret (result_success ("Scheduled to worker " +:+ worker_id)))
         (fun e => _ ← count_failed; mret (result_failed (exn_str e))).

Definition handle_scale_up (decision : SchedulingDecision) : prog ReconciliationResult :=
  if negb (ostr_truthy (sd_worker_template decision)) then mret (result_failed "Scale-up decision missing worker_template")
  else
    _ ← write (fun w => w <| scale_up_requests := scale_up_requests w + 1 |>);
    try_ (_ ← ask (RequestScaleUp (default "" (sd_worker_template decision)) (sd_reason decision));
          mret (result_requeue "Waiting for scale-up" None))
         (fun e => mret (result_failed (exn_str e))).

Definition execute_decision (session_id : string) (decision : SchedulingDecision) (d : scheduling_definition)
    : prog ReconciliationResult :=
  if String.eqb (sd_action decision) "assign" then handle_assign session_id decision d
  else if String.eqb (sd_action decision) "scale_up" then handle_scale_up decision
  else if String.eqb (sd_action decision) "wait" then mret (result_requeue (sd_reason decision) None)
  else mret (result_failed ("Unknown action: " +:+ sd_action decision)).

(** The counting of failures, and the answer that replaces a failure too many. *)
Definition track_retries (session_id : string) (result : ReconciliationResult) : prog ReconciliationResult :=
  match result_status result with
  | SUCCESS => _ ← write (fun w => w <| instance_retry_counts := delete session_id (instance_retry_counts w) |>); mret result
  | FAILED =>
      count ← read (fun w => default 0 (instance_retry_counts w !! session_id));
      let retry_count := count + 1 in
      _ ← write (fun w => w <| instance_retry_counts := <[session_id := retry_count]> (instance_retry_counts w) |>);
      mret (if max_scheduling_retries <=? retry_count
            then result_requeue ("Max retries (" +:+ pretty retry_count +:+ ") reached, extended backoff") (Some extended_backoff)
            else result)
  | _ => mret result
  end.

Definition reconcile (instance : session) : prog ReconciliationResult :=
  try_ (d ← get_definition (s_definition_id instance);
        match d with
        | None => mret (result_failed ("Definition " +:+ s_definition_id instance +:+ " not found"))
        | Some d =>
            workers ← read cached_workers;
            capacities ← read etcd_capacities;
            decision ← lift (Placement.schedule (sc_definition d) (default [] workers) capacities);
            result ← execute_decision (s_id instance) decision d;
            track_retries (s_id instance) result
        end)
       (fun e => mret (result_failed (exn_str e))).
End Scheduler.
