(* ===== verification/SchedulerProps.v ===== *)
(** * What the scheduler service does

    Which sessions a cycle visits and in which order, where a session may be sent, what
    becomes of a session that the control plane keeps refusing, and what the caches of a
    cycle make of several sessions. *)
From Stdlib Require Import Floats.SpecFloat Sorting.Sorted.
From S2P Require Import Prelude PySort PyFloat PyData Enums Programs LabletServices Placement PlacementProps Reconciliation Scheduler.

#[export] Instance zltb_total : StrictTotal Z.ltb.
Proof. split; intros; lia. Qed.

(** ** What is listed *)
Section Listing.
Context `{Services} (cfg : settings).

(** Sessions in the order of their starts. *)
Definition earlier (s s' : session) : Prop := start_key s <= start_key s'.

Lemma earlier_sorted l : StronglySorted earlier (sort_by Z.ltb start_key l).
Proof.
  assert (StronglySorted (key_le Z.ltb start_key) (sort_by Z.ltb start_key l)) as Hs by apply sort_by_sorted, _.
  induction Hs as [|s l' Hl IH Hf]; constructor; [done|]. eapply Forall_impl; [exact Hf|]. unfold key_le, earlier. intros s' Hk. lia.
Qed.

(** A program that returns nothing but [x]. *)
Definition returning {A} (x : A) (m : prog A) : Prop := forall w, match (m w).1 with Ok y => y = x | Err _ => True end.
Lemma returning_ret {A} (x : A) : returning x (mret x).
Proof. intros w. done. Qed.
Lemma returning_bind {A B} (x : B) (m : prog A) (f : A -> prog B) : (forall a, returning x (f a)) -> returning x (m ≫= f).
Proof. intros Hf w. unfold mbind, prog_bind. destruct (m w) as [[a|e] w1]; [apply Hf|done]. Qed.
Lemma returning_only {A} (x y : A) (m : prog A) w : returning x m -> (m w).1 = Ok y -> y = x.
Proof. intros Hm Hy. specialize (Hm w). by rewrite Hy in Hm. Qed.

Lemma listed_sessions w sessions w' : list_resources cfg w = (Ok sessions, w') -> sessions <> [] ->
  exists data all, answer _ (log w) GetPendingSessions = Ok data /\ mapM session_from_dict data = Ok all /\
    sessions = sort_by Z.ltb start_key (List.filter (in_window (utc (clock (log w ++ [Ev GetPendingSessions]))) (timeslot_lead_time_minutes cfg)) all).
Proof.
  intros He Hne. unfold list_resources, or_return at 1, try_ at 1 in He.
  match type of He with (match ?m with _ => _ end) = _ => destruct m as [[l|e] w1] eqn:Hm end; injection He as <- <-; [|done].
  apply run_returned in Hm as (data & w2 & Ha & Hm). apply run_returned in Hm as (all & w3 & Hall & Hm).
  apply run_returned in Hm as (t & w4 & Ht & Hm). injection Ha as Ha <-. injection Hall as Hall <-. injection Ht as <- <-.
  exists data, all. split; [done|]. split; [done|]. eapply (f_equal fst), returning_only in Hm; [exact Hm|].
  repeat (apply returning_bind; intros ?). apply returning_ret.
Qed.

(** The scheduler visits the pending sessions that are due, each as often as the control
    plane lists it: those without a slot, and those whose slot starts within the lead time; sessions
    without a slot come first, then the earlier start. *)
Theorem scheduler_lists_due w sessions w' :
  list_resources cfg w = (Ok sessions, w') -> sessions <> [] ->
  exists data all t, answer _ (log w) GetPendingSessions = Ok data /\ mapM session_from_dict data = Ok all /\
    t = utc (clock (log w ++ [Ev GetPendingSessions])) /\
    sessions ≡ₚ List.filter (in_window t (timeslot_lead_time_minutes cfg)) all /\ StronglySorted earlier sessions.
Proof.
  intros He Hne. destruct (listed_sessions _ _ _ He Hne) as (data & all & Ha & Hm & ->).
  eexists data, all, _. do 3 (split; [done|]). split; [apply sort_by_perm|apply earlier_sorted].
Qed.
End Listing.

(** ** A visit *)
Section Visits.
Context `{Services}.

(** The call that a decision comes to. *)
Definition decision_calls (i : string) (d : scheduling_definition) (ws : list worker) (etcd : Placement.etcd_capacities) : list event :=
  match Placement.schedule (sc_definition d) ws etcd with
  | Ok dec =>
      match sd_worker_id dec, sd_worker_template dec with
      | Some k, _ => if str_truthy k then [Ev (ScheduleSession i k [] (default "" (sc_lab_record_id d)) "resource-scheduler")] else []
      | None, Some t => [Ev (RequestScaleUp t (sd_reason dec))]
      | None, None => []
      end
  | Err _ => []
  end.

(** What a visit leaves alone. *)
Definition same_caches (w w' : scheduler) : Prop :=
  cached_workers w' = cached_workers w /\ etcd_capacities w' = etcd_capacities w /\ definition_cache w' = definition_cache w.

(** The engine assigns a worker that it finds fit, or scales up with a template. *)
Lemma schedule_decides d ws etcd dec : Placement.schedule d ws etcd = Ok dec ->
  (sd_action dec = "scale_up" /\ sd_worker_id dec = None /\ sd_worker_template dec = Some (select_template d)) \/
  (exists k, k ∈ ws /\ reject_category d etcd k = None /\ sd_action dec = "assign" /\ sd_worker_id dec = Some (id_or "" k)).
Proof.
  destruct (decide (ws = [])) as [->|Hne]; [intros [= <-]; by left|].
  rewrite schedule_cases by done. destruct (base.filter (eligible d etcd) ws) as [|k ks] eqn:E; [intros [= <-]; by left|].
  intros (scored & Hsc & He)%bind_ok. destruct scored as [|x rest]; [done|]. injection He as <-.
  right. rewrite <- E in Hsc. destruct (max_scored_best_fit _ _ _ _ _ Hsc) as (l1 & l2 & -> & Hk & _).
  exists (max_scored x rest).1. repeat split; [|done]. apply elem_of_app. right. by left.
Qed.

Lemma select_template_truthy d : str_truthy (select_template d) = true.
Proof. unfold select_template. repeat case_match; done. Qed.

Lemma execute_calls i d ws etcd dec w : Placement.schedule (sc_definition d) ws etcd = Ok dec ->
  log (execute_decision i dec d w).2 = log w ++ decision_calls i d ws etcd /\ same_caches w (execute_decision i dec d w).2 /\
  instance_retry_counts (execute_decision i dec d w).2 = instance_retry_counts w /\ exists r, (execute_decision i dec d w).1 = Ok r.
Proof.
  intros Hd. unfold decision_calls. rewrite Hd. unfold execute_decision.
  destruct (schedule_decides _ _ _ _ Hd) as [(-> & -> & Ht)|(k & _ & _ & -> & Hk)]; cbn [String.eqb Ascii.eqb Bool.eqb].
  - rewrite Ht. unfold handle_scale_up. rewrite Ht. cbn. rewrite select_template_truthy. cbn.
    unfold mbind, prog_bind, try_, ask. cbn. by destruct (answer _ _ _) as [[]|e]; cbn; repeat split; eauto.
  - rewrite Hk. unfold handle_assign. rewrite Hk. cbn. destruct (str_truthy (id_or "" k)); cbn.
    + unfold mbind, prog_bind, try_, ask. cbn. by destruct (answer _ _ _) as [[]|e]; cbn; repeat split; eauto.
    + rewrite app_nil_r. repeat split; eauto.
Qed.

Lemma track_run i r w : exists r' w', track_retries i r w = (Ok r', w') /\ log w' = log w /\ same_caches w w'.
Proof. unfold track_retries. destruct (result_status r); cbn; repeat eexists. Qed.

(** A failure is counted. *)
Lemma track_failed i r w : result_status r = FAILED ->
  let count := default 0 (instance_retry_counts w !! i) + 1 in
  exists r', track_retries i r w = (Ok r', w <| instance_retry_counts := <[i := count]> (instance_retry_counts w) |>) /\
    (result_status r', requeue_after_seconds r') =
      if count <? max_scheduling_retries then (FAILED, requeue_after_seconds r) else (REQUEUE, Some extended_backoff).
Proof.
  intros Hr. cbn zeta. unfold track_retries. rewrite Hr. unfold mbind, prog_bind, read, write. eexists. split; [reflexivity|].
  rewrite Z.ltb_antisym. destruct (max_scheduling_retries <=? _); cbn; [done|by rewrite Hr].
Qed.

(** A visit of a session whose definition is at hand. *)
Lemma reconcile_eq s w d : definition_cache w !! s_definition_id s = Some (Some d) ->
  reconcile s w =
    match Placement.schedule (sc_definition d) (default [] (cached_workers w)) (etcd_capacities w) with
    | Ok dec => try_ (execute_decision (s_id s) dec d ≫= track_retries (s_id s)) (fun e => mret (result_failed (exn_str e))) w
    | Err e => (Ok (result_failed (exn_str e)), w)
    end.
Proof.
  intros Hd. unfold reconcile, get_definition, try_, mbind, prog_bind, read. rewrite Hd. cbn.
  by destruct (Placement.schedule _ _ _) as [dec|e].
Qed.

Lemma reconcile_cached s w d : definition_cache w !! s_definition_id s = Some (Some d) ->
  log (reconcile s w).2 = log w ++ decision_calls (s_id s) d (default [] (cached_workers w)) (etcd_capacities w) /\
  same_caches w (reconcile s w).2.
Proof.
  intros Hd. rewrite (reconcile_eq s w d Hd). destruct (Placement.schedule _ _ _) as [dec|e] eqn:Hs; cbn [snd].
  - destruct (execute_calls (s_id s) d _ _ dec w Hs) as (Hl & (H1 & H2 & H3) & _ & r & Hr).
    unfold try_, mbind, prog_bind. destruct (execute_decision _ _ _ w) as [[r'|e] w1]; cbn [fst snd] in *; [|done].
    destruct (track_run (s_id s) r' w1) as (r'' & w2 & -> & Hl2 & H1' & H2' & H3'). cbn [snd]. unfold same_caches. repeat split; congruence.
  - unfold decision_calls. by rewrite Hs, app_nil_r.
Qed.

(** The definition is asked for when it is not at hand, and kept. *)
Lemma reconcile_log s w :
  exists lookup calls, log (reconcile s w).2 = log w ++ lookup ++ calls /\
    (lookup = [] \/ lookup = [Ev (GetDefinition (s_definition_id s))]) /\
    (calls = [] \/ exists d, definition_cache (reconcile s w).2 !! s_definition_id s = Some (Some d) /\
       calls = decision_calls (s_id s) d (default [] (cached_workers w)) (etcd_capacities w)).
Proof.
  destruct (definition_cache w !! s_definition_id s) as [[d|]|] eqn:Hd.
  - destruct (reconcile_cached s w d Hd) as (Hl & _ & _ & Hc). eexists [], _. split; [done|]. split; [by left|]. right.
    exists d. by rewrite Hc.
  - exists [], []. unfold reconcile, get_definition, try_, mbind, prog_bind, read. rewrite Hd. cbn. rewrite app_nil_r. auto.
  - set (w1 := w <| log := log w ++ [Ev (GetDefinition (s_definition_id s))] |>).
    destruct (answer _ (log w) (GetDefinition (s_definition_id s))) as [[d|]|e] eqn:Ha.
    + set (w2 := w1 <| definition_cache := <[s_definition_id s := Some d]> (definition_cache w) |>).
      assert (reconcile s w = reconcile s w2) as E.
      { unfold reconcile, get_definition, or_return, try_, mbind, prog_bind, read, ask, write. rewrite Hd, Ha. cbn.
        by rewrite lookup_insert_eq. }
      rewrite E. assert (definition_cache w2 !! s_definition_id s = Some (Some d)) as Hw2 by (cbn; by rewrite lookup_insert_eq).
      destruct (reconcile_cached s w2 d Hw2) as (Hl & _ & _ & Hc). eexists [_], _. rewrite Hl. cbn [log w2 w1].
      split; [unfold w2, w1; cbn; by rewrite <- app_assoc|]. split; [by right|]. right. exists d. split; [by rewrite Hc|done].
    + exists [Ev (GetDefinition (s_definition_id s))], []. rewrite app_nil_r.
      unfold reconcile, get_definition, or_return, try_, mbind, prog_bind, read, ask, write. rewrite Hd, Ha. cbn. auto.
    + exists [Ev (GetDefinition (s_definition_id s))], []. rewrite app_nil_r.
      unfold reconcile, get_definition, or_return, try_, mbind, prog_bind, read, ask, write. rewrite Hd, Ha. cbn. auto.
Qed.

(** (C11) A visit sends its session, and no other, only to a worker that the scheduler knows
    and that fits the definition of the session by the capacities at hand; it asks for no ports, and for one
    placement at most. *)
Theorem scheduled_worker_fits s w :
  exists calls, log (reconcile s w).2 = log w ++ calls /\
    (forall i k ports lab by_, Ev (ScheduleSession i k ports lab by_) ∈ calls ->
       i = s_id s /\ ports = [] /\
       exists d worker, definition_cache (reconcile s w).2 !! s_definition_id s = Some (Some d) /\
         worker ∈ default [] (cached_workers w) /\ id_or "" worker = k /\ fits (sc_definition d) (etcd_capacities w) worker) /\
    (length (List.filter (fun e => match e with Ev (ScheduleSession _ _ _ _ _) | Ev (RequestScaleUp _ _) => true | _ => false end) calls) <= 1)%nat.
Proof.
  destruct (reconcile_log s w) as (lookup & calls & Hl & Hk & Hc). exists (lookup ++ calls). split; [done|].
  assert ((forall i k ports lab by_, Ev (ScheduleSession i k ports lab by_) ∈ lookup ++ calls -> Ev (ScheduleSession i k ports lab by_) ∈ calls)
    /\ List.filter (fun e => match e with Ev (ScheduleSession _ _ _ _ _) | Ev (RequestScaleUp _ _) => true | _ => false end) lookup = []) as [Hin Hf].
  { destruct Hk as [-> | ->]; (split; [|done]); intros i k ports lab by_ Hi; [done|]. by apply elem_of_cons in Hi as [Hi|Hi]. }
  rewrite List.filter_app, Hf. cbn [app].
  destruct Hc as [-> | (d & Hd & ->)].
  - split; [|cbn; lia]. intros i k ports lab by_ Hi%Hin. by apply elem_of_nil in Hi.
  - unfold decision_calls in *. destruct (Placement.schedule _ _ _) as [dec|e] eqn:Hs.
    + destruct (schedule_decides _ _ _ _ Hs) as [(_ & Hw & Ht)|(k & Hk' & Hrej & _ & Hw)]; rewrite Hw in *.
      * rewrite Ht in *. split; [|cbn; lia]. intros i k ports lab by_ Hi%Hin%list_elem_of_singleton. discriminate.
      * split; [|destruct (str_truthy _); cbn; lia]. intros i k' ports lab by_ Hi%Hin.
        destruct (str_truthy _); [|by apply elem_of_nil in Hi]. apply list_elem_of_singleton in Hi. injection Hi as -> -> -> -> ->.
        split; [done|]. split; [done|]. exists d, k. by rewrite eligible_iff_fits in Hrej.
    + split; [|cbn; lia]. intros i k ports lab by_ Hi%Hin. by apply elem_of_nil in Hi.
Qed.

(** ** Several visits *)

(** The visits of a cycle, one after the other. *)
Definition visit_all (l : list session) (w : scheduler) : scheduler := fold_left (fun w s => (reconcile s w).2) l w.

(** A cycle sends all sessions of a definition to the same worker: what one visit places is
    not in the capacities that the next one reads, whatever the control plane answers. *)
Theorem cycle_crowds_one_worker l i d dec k w :
  Forall (fun s => s_definition_id s = i) l -> definition_cache w !! i = Some (Some d) ->
  Placement.schedule (sc_definition d) (default [] (cached_workers w)) (etcd_capacities w) = Ok dec ->
  sd_worker_id dec = Some k -> str_truthy k = true ->
  log (visit_all l w) = log w ++ map (fun s => Ev (ScheduleSession (s_id s) k [] (default "" (sc_lab_record_id d)) "resource-scheduler")) l.
Proof.
  intros Hl Hd Hs Hk Ht. revert w Hd Hs. induction Hl as [|s l <- Hl IH]; intros w Hd Hs; cbn [visit_all fold_left map]; [by rewrite app_nil_r|].
  destruct (reconcile_cached s w d Hd) as (Hlog & H1 & H2 & H3). unfold visit_all in IH. rewrite IH; [|by rewrite H3|by rewrite H1, H2].
  rewrite Hlog, <- app_assoc. unfold decision_calls. by rewrite Hs, Hk, Ht.
Qed.

(** The answers to [n] visits of a session in a row. *)
Fixpoint answers (n : nat) (s : session) (w : scheduler) : list (res ReconciliationResult) :=
  match n with O => [] | S n => (reconcile s w).1 :: answers n s (reconcile s w).2 end.

Definition refused (s : session) (d : scheduling_definition) (k : string) : Prop :=
  forall h, exists e, answer _ h (ScheduleSession (s_id s) k [] (default "" (sc_lab_record_id d)) "resource-scheduler") = Err e.

Lemma refused_visit s d dec k w : definition_cache w !! s_definition_id s = Some (Some d) ->
  Placement.schedule (sc_definition d) (default [] (cached_workers w)) (etcd_capacities w) = Ok dec ->
  sd_worker_id dec = Some k -> str_truthy k = true -> refused s d k ->
  let count := default 0 (instance_retry_counts w !! s_id s) + 1 in
  (exists r, (reconcile s w).1 = Ok r /\
     (result_status r, requeue_after_seconds r) = if count <? max_scheduling_retries then (FAILED, None) else (REQUEUE, Some extended_backoff)) /\
  instance_retry_counts (reconcile s w).2 !! s_id s = Some count.
Proof.
  intros Hd Hs Hk Ht Hr. cbn zeta. rewrite (reconcile_eq s w d Hd), Hs. unfold execute_decision.
  destruct (schedule_decides _ _ _ _ Hs) as [(_ & Hn & _)|(kw & _ & _ & -> & _)]; [by rewrite Hn in Hk|]. cbn [String.eqb Ascii.eqb Bool.eqb].
  unfold handle_assign. rewrite Hk. cbn [ostr_truthy default]. rewrite Ht. cbn [negb].
  destruct (Hr (log w)) as [e He]. unfold try_, mbind, prog_bind, ask. change (id k) with k. rewrite He. unfold count_failed, write.
  cbn [mret prog_ret]. destruct (track_failed (s_id s) (result_failed (exn_str e)) (w <| log := log w ++ [Ev (ScheduleSession (s_id s) k [] (default "" (sc_lab_record_id d)) "resource-scheduler")] |>
    <| failed_placements := failed_placements w + 1 |>) eq_refl) as (r & Hrun & Hres).
  cbn in Hrun |- *. rewrite Hrun. cbn. rewrite lookup_insert_eq. eauto.
Qed.

(** A session that the control plane keeps refusing fails four times, to be tried again
    as the loop backs off, and from the fifth time on is put off for five minutes: it is never given up. *)
Theorem refused_sessions_back_off n s d dec k w :
  definition_cache w !! s_definition_id s = Some (Some d) ->
  Placement.schedule (sc_definition d) (default [] (cached_workers w)) (etcd_capacities w) = Ok dec ->
  sd_worker_id dec = Some k -> str_truthy k = true -> refused s d k -> instance_retry_counts w !! s_id s = None ->
  Forall2 (fun a j => exists r, a = Ok r /\
      (result_status r, requeue_after_seconds r) = if j <? 5 then (FAILED, None) else (REQUEUE, Some extended_backoff))
    (answers n s w) (map Z.of_nat (seq 1 n)).
Proof.
  intros Hd Hs Hk Ht Hr H0.
  assert (forall w c, definition_cache w !! s_definition_id s = Some (Some d) ->
    Placement.schedule (sc_definition d) (default [] (cached_workers w)) (etcd_capacities w) = Ok dec ->
    default 0 (instance_retry_counts w !! s_id s) = Z.of_nat c ->
    Forall2 (fun a j => exists r, a = Ok r /\
      (result_status r, requeue_after_seconds r) = if j <? 5 then (FAILED, None) else (REQUEUE, Some extended_backoff))
    (answers n s w) (map Z.of_nat (seq (S c) n))) as Hn; [|by apply Hn; rewrite ?H0].
  clear w Hd Hs H0. induction n as [|n IH]; intros w c Hd Hs Hc; cbn [answers seq map]; constructor.
  - destruct (refused_visit s d dec k w Hd Hs Hk Ht Hr) as [(r & -> & Hv) _]. exists r. split; [done|].
    rewrite Hv, Hc. by replace (Z.of_nat c + 1) with (Z.of_nat (S c)) by lia.
  - destruct (refused_visit s d dec k w Hd Hs Hk Ht Hr) as [_ Hcount]. destruct (reconcile_cached s w d Hd) as (_ & H1 & H2 & H3).
    apply IH; [by rewrite H3|by rewrite H1, H2|]. rewrite Hcount, Hc. cbn. lia.
Qed.

(** ** The watch *)

Lemma ask_answers {A} (c : call A) w a : answer _ (log w) c = Ok a -> ask c w = (Ok a, w <| log := log w ++ [Ev c] |>).
Proof. unfold ask. by intros ->. Qed.

Lemma refresh_run w : exists w', refresh_etcd_capacities w = (Ok (), w') /\ cached_workers w' = cached_workers w /\ definition_cache w' = definition_cache w.
Proof.
  unfold refresh_etcd_capacities, or_return, try_, mbind, prog_bind, ask, monotonic, read, lift, write. cbn.
  destruct (fltb _ _); cbn; [eauto|]. destruct (answer _ _ (GetPrefix _)) as [raw|e]; cbn; [|eauto].
  destruct (read_capacities raw []) as [cs|e]; cbn; eauto.
Qed.

Lemma fetch_ok i data s workers w :
  answer _ (log w) (GetSession i) = Ok data -> data <> [] -> session_from_dict data = Ok s ->
  answer _ (log w ++ [Ev (GetSession i)]) GetRunningWorkers = Ok workers ->
  exists w', fetch_resource_by_id i w = (Ok (Some s), w') /\ cached_workers w' = Some workers /\ definition_cache w' = definition_cache w.
Proof.
  intros Ha Hne Hs Hw. unfold fetch_resource_by_id, or_return, try_. rewrite (run_bind _ _ _ _ _ (ask_answers _ _ _ Ha)).
  destruct data as [|kv data]; [done|]. 
  assert (ask GetRunningWorkers (w <| log := log w ++ [Ev (GetSession i)] |>) = (Ok workers, w <| log := (log w ++ [Ev (GetSession i)]) ++ [Ev GetRunningWorkers] |>)) as Hask.
  { unfold ask. cbn. by rewrite Hw. }
  rewrite (run_bind _ _ _ _ _ Hask).
  match goal with |- context [(write ?f ≫= _) ?x] => rewrite (run_bind (write f) _ x () (f x) eq_refl) end.
  match goal with |- context [(refresh_etcd_capacities ≫= _) ?x] => destruct (refresh_run x) as (w' & Hr & H1 & H2) end.
  rewrite (run_bind _ _ _ _ _ Hr), Hs. cbn. exists w'. split; [done|]. by rewrite H1, H2.
Qed.

(** The watch places a session as soon as it is pending, its slot however far: a session
    that starts after the lead time is in no listing, and yet a change of its state has it
    fetched and sent to a worker. *)
Theorem watch_places_early cfg i data s workers d w :
  answer _ (log w) (GetSession i) = Ok data -> data <> [] -> session_from_dict data = Ok s ->
  answer _ (log w ++ [Ev (GetSession i)]) GetRunningWorkers = Ok workers ->
  definition_cache w !! s_definition_id s = Some (Some d) ->
  in_window (utc (clock (log w ++ [Ev GetPendingSessions]))) (timeslot_lead_time_minutes cfg) s = false ->
  (forall sessions w', list_resources cfg w = (Ok sessions, w') -> s ∉ sessions) /\
  exists w1, fetch_resource_by_id i w = (Ok (Some s), w1) /\
    log (reconcile s w1).2 = log w1 ++ decision_calls (s_id s) d workers (etcd_capacities w1).
Proof.
  intros Ha Hne Hs Hw Hd Hlate. split.
  - intros sessions w' Hl Hin. destruct (listed_sessions cfg w sessions w' Hl) as (l & all & _ & _ & ->); [by intros ->; apply elem_of_nil in Hin|].
    rewrite sort_by_perm in Hin. apply list_elem_of_In, List.filter_In in Hin as [_ Hin]. congruence.
  - destruct (fetch_ok i data s workers w Ha Hne Hs Hw) as (w1 & Hf & H1 & H2). exists w1. split; [done|].
    destruct (reconcile_cached s w1 d) as [-> _]; [by rewrite H2|]. by rewrite H1.
Qed.
End Visits.

(** ** A concrete scheduler

    The control plane has two pending sessions of one definition, and refuses to schedule. *)
Definition pending_data (i : string) (start : datetime) : pydict :=
  [("id", PStr i); ("definition_id", PStr "d-1"); ("status", PStr "pending"); ("timeslot_start", PIso start)].
Definition demo_scheduling : scheduling_definition := {| sc_definition := demo_definition; sc_lab_record_id := None |}.

Definition demo_answer (A : Type) (h : list event) (c : call A) : res A :=
  match c with
  | GetSession i => Ok (pending_data i (utc (minutes 600)))
  | GetPendingSessions => Ok [pending_data "s-2" (utc (minutes 20)); pending_data "s-3" (utc (minutes 600)); pending_data "s-1" (utc (minutes 10))]
  | GetRunningWorkers => Ok demo_workers
  | GetWorkerTemplates => Ok []
  | GetDefinition _ => Ok (Some demo_scheduling)
  | ScheduleSession _ _ _ _ _ => Err (ValueError "409")
  | RequestScaleUp _ _ => Ok ()
  | GetPrefix _ => Ok []
  | Now => Ok (utc 0)
  | Monotonic => Ok fzero
  end.
#[local] Instance demo_services : Services :=
  {| answer := demo_answer; clock := fun h => Z.of_nat (length h); monotonic_clock := fun _ => fzero |}.
Definition demo_config : settings := {| timeslot_lead_time_minutes := 35; etcd_key_prefix := "/lcm" |}.

Definition demo_session (i : string) (start : datetime) : session := {|
  s_id := i; s_name := ""; s_definition_id := "d-1"; s_status := "pending"; s_worker_id := None; s_worker_ip := None;
  s_worker_aws_region := None; s_lab_record_id := None; s_cml_lab_id := None; s_timeslot_start := PIso start; s_timeslot_end := PNone;
  s_pipeline_progress := None; s_topology_yaml := None; s_user_session_id := None; s_lds_session_id := None |}.
Definition early : session := demo_session "s-1" (utc (minutes 10)).
Definition late : session := demo_session "s-2" (utc (minutes 20)).
Definition far : session := demo_session "s-3" (utc (minutes 600)).
(** After the listing, with the definition at hand. *)
Definition in_cycle : scheduler :=
  new_scheduler <| cached_workers := Some demo_workers |> <| definition_cache := {["d-1" := Some demo_scheduling]} |>.

Lemma scheduler_lists_due_witness :
  (list_resources demo_config new_scheduler).1 = Ok [early; late] /\ StronglySorted earlier [early; late].
Proof.
  destruct (list_resources demo_config new_scheduler) as [r w'] eqn:E. assert (r = Ok [early; late]) as ->.
  { change r with (r, w').1. rewrite <- E. vm_compute. reflexivity. }
  split; [reflexivity|]. by destruct (scheduler_lists_due demo_config new_scheduler [early; late] w' E ltac:(discriminate)) as (_ & _ & _ & _ & _ & _ & _ & Hs).
Defined.

Lemma cycle_crowds_one_worker_witness :
  log (visit_all [early; late] in_cycle) =
    [Ev (ScheduleSession "s-1" "w3" [] "" "resource-scheduler"); Ev (ScheduleSession "s-2" "w3" [] "" "resource-scheduler")].
Proof.
  apply (cycle_crowds_one_worker [early; late] "d-1" demo_scheduling demo_decision "w3" in_cycle);
    [repeat constructor|vm_compute; reflexivity..].
Defined.

Lemma refused_sessions_back_off_witness :
  map (fun a => match a with Ok r => requeue_after_seconds r | Err _ => None end) (answers 6 early in_cycle)
    = [None; None; None; None; Some extended_backoff; Some extended_backoff] /\
  Forall2 (fun a j => exists r, a = Ok r /\
      (result_status r, requeue_after_seconds r) = if j <? 5 then (FAILED, None) else (REQUEUE, Some extended_backoff))
    (answers 6 early in_cycle) [1; 2; 3; 4; 5; 6].
Proof.
  split; [vm_compute; reflexivity|].
  apply (refused_sessions_back_off 6 early demo_scheduling demo_decision "w3" in_cycle); try (vm_compute; reflexivity).
  intros h. by exists (ValueError "409").
Defined.

Lemma watch_places_early_witness :
  (forall sessions w', list_resources demo_config in_cycle = (Ok sessions, w') -> far ∉ sessions) /\
  exists w1, fetch_resource_by_id "s-3" in_cycle = (Ok (Some far), w1) /\
    log (reconcile far w1).2 = log w1 ++ decision_calls "s-3" demo_scheduling demo_workers (etcd_capacities w1).
Proof.
  apply (watch_places_early demo_config "s-3" (pending_data "s-3" (utc (minutes 600))) far demo_workers demo_scheduling in_cycle);
    first [discriminate|vm_compute; reflexivity].
Defined.
