(* ===== verification/WorkerVisits.v ===== *)
(** * The visits of the worker reconciler

    ([worker-controller/application/hosted_services/worker_reconciler.py], with the read
    model of [cml_worker_read_model.py])

    A worker is an EC2 instance that runs CML.  A visit compares the status that the
    control plane has for it with what EC2 says, and moves both towards each other.  The
    control plane, AWS, CML and etcd are other processes and answer from the log of the calls
    so far, as in [LabletServices].  The loops beside the visits are in [WorkerDiscovery]. *)
From S2P Require Import Prelude PyData Enums Programs Reconciliation.
From Stdlib Require Import Ascii.
Import WorkerStatus.

(** ** Read models *)

(** [CMLWorkerReadModel] with its [CMLLicenseReadModel], the fields that are used here. *)
Record worker := {
  w_id : string;
  w_name : string;
  w_status : string;
  w_desired_status : string;
  w_ec2_instance_id : option string;
  w_ip_address : option string;
  w_public_ip : option string;
  w_private_ip : option string;
  w_template_name : option string;
  w_instance_type : option string;
  w_ami_name : option string;
  w_aws_region : option string;
  w_cml_username : option string;
  w_cml_password : option string;
  w_is_idle_detection_enabled : bool;
  w_refresh_requested_at : pyval;
  w_pending_token : option string;
  w_pending_operation : option string
}.
#[export] Instance eta_worker : Eta worker := fun w => {|
  w_id := w_id w; w_name := w_name w; w_status := w_status w; w_desired_status := w_desired_status w;
  w_ec2_instance_id := w_ec2_instance_id w; w_ip_address := w_ip_address w; w_public_ip := w_public_ip w;
  w_private_ip := w_private_ip w; w_template_name := w_template_name w; w_instance_type := w_instance_type w;
  w_ami_name := w_ami_name w; w_aws_region := w_aws_region w; w_cml_username := w_cml_username w;
  w_cml_password := w_cml_password w; w_is_idle_detection_enabled := w_is_idle_detection_enabled w;
  w_refresh_requested_at := w_refresh_requested_at w; w_pending_token := w_pending_token w;
  w_pending_operation := w_pending_operation w |}.

(** [CMLLicenseReadModel.from_dict]: the pending token and operation. *)
Definition license_from_dict (data : pyval) : res (option string * option string) :=
  if negb (truthy data) then Ok (None, None)
  else
    data ← as_dict data;
    token ← as_ostr (pd_get "pending_token" data);
    operation ← as_ostr (pd_get "pending_operation" data);
    Ok (token, operation).

(** [CMLWorkerReadModel.from_dict] *)
Definition worker_from_dict (data : pydict) : res worker :=
  id ← as_str (pd_get_or "id" (PStr "") data);
  name ← as_str (pd_get_or "name" (PStr "") data);
  status ← as_str (pd_get_or "status" (PStr "") data);
  desired ← as_str (pd_get_or "desired_status" (PStr "running") data);
  instance ← as_ostr (py_or (pd_get "ec2_instance_id" data) (pd_get "aws_instance_id" data));
  ip ← as_ostr (py_or (py_or (pd_get "ip_address" data) (pd_get "public_ip" data)) (pd_get "private_ip" data));
  public ← as_ostr (pd_get "public_ip" data);
  private ← as_ostr (pd_get "private_ip" data);
  template ← as_ostr (pd_get "template_name" data);
  instance_type ← as_ostr (pd_get "instance_type" data);
  ami ← as_ostr (pd_get "ami_name" data);
  region ← as_ostr (pd_get "aws_region" data);
  username ← as_ostr (pd_get "cml_username" data);
  password ← as_ostr (pd_get "cml_password" data);
  idle ← as_bool (pd_get_or "is_idle_detection_enabled" (PBool true) data);
  '(token, operation) ← license_from_dict (pd_get "license" data);
  Ok {| w_id := id; w_name := name; w_status := status; w_desired_status := desired; w_ec2_instance_id := instance;
        w_ip_address := ip; w_public_ip := public; w_private_ip := private; w_template_name := template;
        w_instance_type := instance_type; w_ami_name := ami; w_aws_region := region; w_cml_username := username;
        w_cml_password := password; w_is_idle_detection_enabled := idle;
        w_refresh_requested_at := pd_get "refresh_requested_at" data; w_pending_token := token;
        w_pending_operation := operation |}.

(** [worker.status == status], on text. *)
Definition in_status (w : worker) (s : CMLWorkerStatus) : bool := String.eqb (w_status w) (CMLWorkerStatus_value s).
Definition wants (w : worker) (s : CMLWorkerStatus) : bool := String.eqb (w_desired_status w) (CMLWorkerStatus_value s).

(** [Ec2InstanceState] *)
Record instance_state := {
  e_instance_id : string;
  e_state : string;
  e_public_ip : option string;
  e_private_ip : option string;
  e_instance_type : option string;
  e_image_id : option string;
  e_launch_time : option datetime;
  e_name : option string
}.

(** [AwsRegionConfig] *)
Record region_config := {
  rc_subnet_id : option string;
  rc_security_group_ids : list string;
  rc_key_name : option string;
  rc_default_tags : dict string
}.

(** What the CML client answers on a system: only handed on, so any type will do. *)
Class CmlData := { system_info : Type; system_stats : Type; system_health : Type; license_info : Type }.

(** A document under [/workers/{id}/sync], read by [json.loads]. *)
Inductive sync_value := NoSync | BadJson | Sync (document : pyval).

(** ** Calls *)
Section Calls.
Context `{CmlData}.

(** What a report on CML is made of, where it could be read. *)
Record cml_report := {
  report_info : system_info;
  report_stats : option system_stats;
  report_health : option system_health;
  report_license : option license_info
}.

Inductive call : Type -> Type :=
(* the control plane *)
| GetWorker (worker_id : string) : call pydict
| GetWorkers (status : option CMLWorkerStatus) (region : option string) : call (list pydict)
| GetWorkerTemplate (name : string) : call pydict
| UpdateWorkerStatus (worker_id : string) (status : CMLWorkerStatus) (instance : option string) : call ()
| MarkWorkerTerminated (worker_id reason terminated_by : string) : call ()
| UpdateEc2Details (worker_id : string) (details : pydict) : call ()
| TriggerLabDiscovery (worker_id : string) (lab_ids : list string) (source : string) : call ()
| CompleteWorkerSync (worker_id : string) : call ()
| DetectWorkerIdle (worker_id : string) (events : list pydict) : call pydict
| DrainWorker (worker_id reason requested_by : string) : call ()
| StartLicenseRegistration (worker_id : string) : call ()
| CompleteLicenseRegistration (worker_id status : string) : call ()
| FailLicenseRegistration (worker_id message : string) : call ()
| StartLicenseDeregistration (worker_id : string) : call ()
| CompleteLicenseDeregistration (worker_id message : string) : call ()
| FailLicenseDeregistration (worker_id message : string) : call ()
| ReportCmlData (worker_id : string) (collected_at : datetime) (report : cml_report) : call ()
| ReportMetrics (worker_id : string) (collected_at : datetime) (ec2 : bool) (cml : option system_stats) : call ()
| ReportLabStats (worker_id lab_id : string) : call ()
| ReportWsStatus (worker_id : string) (connected : bool) : call ()
| GetDiscoverySettings : call pydict
| BulkImportWorkers (instances : list instance_state) (region source : string) : call pydict
(* AWS: in the region of the settings, or in the one given *)
| GetAmiIdsByName (region : option string) (pattern : string) : call (list string)
| ListInstancesByAmi (region : string) (ami_ids : list string) : call (list instance_state)
| RunInstance (ami instance_type subnet : string) (security_groups : list string) (key_name : option string) (tags : dict string) : call string
| GetInstanceState (region : option string) (instance : string) : call (option instance_state)
| StartInstance (instance : string) : call ()
| StopInstance (instance : string) : call ()
| TerminateInstance (instance : string) : call ()
| DescribeImage (image : string) : call (option pydict)
| GetEc2Metrics (instance : string) : call ()
(* CML on a worker, and the connections to its event stream *)
| CheckHealth (host : string) : call (bool * string)
| GetTelemetryEvents (host : string) : call (list pydict)
| RegisterLicense (host token : string) : call (bool * string)
| DeregisterLicense (host : string) : call (bool * string)
| GetSystemInfo (host : string) : call system_info
| GetSystemStats (host : string) : call system_stats
| GetSystemHealth (host : string) : call system_health
| GetLicenseInfo (host : string) : call license_info
| EnsureMonitoring (worker_id host : string) (fallback : option string) : call ()
| StopMonitoring (worker_id : string) : call ()
| DrainActivityEvents (worker_id : string) : call (option (list pydict))
| MonitorHasStats (worker_id : string) : call bool
(* etcd *)
| GetSync (key : string) : call sync_value
(* this process *)
| Now : call datetime.

Inductive event := | Ev {A : Type} (c : call A).

Class Services := {
  answer : forall A, list event -> call A -> res A;
  clock : list event -> Z
}.
End Calls.

(** The settings that the code below reads. *)
Record settings := {
  aws_region : string;
  region_configs : dict region_config;
  etcd_key_prefix : string;
  cml_websocket_enabled : bool;
  scale_down_enabled : bool;
  min_workers : Z;
  scale_down_cooldown_seconds : Z;
  worker_discovery_enabled : bool;
  worker_discovery_interval : Z;
  worker_discovery_ami_name : option string;
  worker_discovery_regions : string;
  (* which of the services were injected *)
  ws_registry : bool;
  etcd_configured : bool
}.

(** [CachedDiscoverySettings] *)
Record discovery_settings := {
  ds_enabled : bool;
  ds_regions : list string;
  ds_ami_name_pattern : string;
  ds_scan_interval_seconds : Z;
  ds_fetched_at : datetime
}.

(** What the reconciler keeps. *)
Record controller `{CmlData} := {
  log : list event;
  provisioned_count : Z;
  started_count : Z;
  stopped_count : Z;
  terminated_count : Z;
  metrics_collected_count : Z;
  activity_checks_count : Z;
  auto_pauses_triggered_count : Z;
  license_registrations_count : Z;
  license_deregistrations_count : Z;
  scale_down_count : Z;
  last_scale_down_at : option datetime;
  running_worker_count : Z;
  cached_discovery_settings : option discovery_settings;
  discovery_runs : Z;
  total_discovered : Z;
  total_imported : Z;
  total_orphans_terminated : Z;
  last_discovery_at : option datetime;
  known_lab_ids : gmap string (gset string)
}.
#[export] Instance eta_controller `{CmlData} : Eta controller := fun w => {|
  log := log w; provisioned_count := provisioned_count w; started_count := started_count w; stopped_count := stopped_count w;
  terminated_count := terminated_count w; metrics_collected_count := metrics_collected_count w;
  activity_checks_count := activity_checks_count w; auto_pauses_triggered_count := auto_pauses_triggered_count w;
  license_registrations_count := license_registrations_count w; license_deregistrations_count := license_deregistrations_count w;
  scale_down_count := scale_down_count w; last_scale_down_at := last_scale_down_at w; running_worker_count := running_worker_count w;
  cached_discovery_settings := cached_discovery_settings w; discovery_runs := discovery_runs w; total_discovered := total_discovered w;
  total_imported := total_imported w; total_orphans_terminated := total_orphans_terminated w; last_discovery_at := last_discovery_at w;
  known_lab_ids := known_lab_ids w |}.

Definition new_controller `{CmlData} : controller := {|
  log := []; provisioned_count := 0; started_count := 0; stopped_count := 0; terminated_count := 0; metrics_collected_count := 0;
  activity_checks_count := 0; auto_pauses_triggered_count := 0; license_registrations_count := 0; license_deregistrations_count := 0;
  scale_down_count := 0; last_scale_down_at := None; running_worker_count := 0; cached_discovery_settings := None; discovery_runs := 0;
  total_discovered := 0; total_imported := 0; total_orphans_terminated := 0; last_discovery_at := None; known_lab_ids := ∅ |}.

Abbreviation prog := (Programs.prog controller).

(** [_map_ec2_state_to_worker_status] *)
Definition map_ec2_state_to_worker_status (ec2_state : string) : CMLWorkerStatus :=
  dict_get_or ec2_state UNKNOWN
    [("pending", PROVISIONING); ("running", RUNNING); ("stopping", STOPPING); ("stopped", STOPPED);
     ("shutting-down", TERMINATING); ("terminated", TERMINATED)].

(** [f"{v:.1f}"], of which only the errors matter: a null, a list or a dict has no such format. *)
Definition format_minutes (v : pyval) : res () :=
  match v with
  | PInt _ | PBool _ | PSecs _ => Ok ()
  | PStr _ | PIso _ => Err (ValueError "Unknown format code 'f' for object of type 'str'")
  | _ => Err (TypeError "unsupported format string")
  end.

Definition is_slash (c : Ascii.ascii) : bool := Ascii.eqb c "/"%char.

(** [on_watch_event]: any event under [/workers/] is for its worker. *)
Definition on_watch_event (cfg : settings) (key : string) : option string :=
  let prefix := rstrip_by is_slash (etcd_key_prefix cfg) in
  let key := if str_truthy prefix && py_startswith prefix key
             then String.substring (String.length prefix) (String.length key - String.length prefix) key else key in
  match py_split "/"%char (py_strip_by is_slash key) with
  | first :: worker_id :: _ => if String.eqb first "workers" then Some worker_id else None
  | _ => None
  end.

Section Visits.
Context `{Services} (cfg : settings).

Definition ask {A} (c : call A) : prog A := fun w => (answer A (log w) c, w <| log := log w ++ [Ev c] |>).
Definition now : prog datetime := fun w => (Ok (utc (clock (log w))), w <| log := log w ++ [Ev Now] |>).
Definition read {A} (f : controller -> A) : prog A := fun w => (Ok (f w), w).
Definition write (f : controller -> controller) : prog () := fun w => (Ok (), f w).
(** [try: m except Exception: return x] *)
Definition or_return {A} (m : prog A) (x : A) : prog A := try_ m (fun _ => mret x).
Definition ignore_errors (m : prog ()) : prog () := or_return m ().
Definition when (b : bool) (m : prog ()) : prog () := if b then m else mret ().

Definition answer_success : prog ReconciliationResult := mret (result_success "").
Definition answer_requeue (m : string) : prog ReconciliationResult := mret (result_requeue m None).
Definition answer_failed (m : string) : prog ReconciliationResult := mret (result_failed m).

(** [ControlPlaneApiClient.update_worker_status]: TERMINATED has its own endpoint. *)
Definition update_worker_status (worker_id : string) (status : CMLWorkerStatus) (instance : option string) : prog () :=
  if bool_decide (status = TERMINATED) then ask (MarkWorkerTerminated worker_id "status_update" "worker-controller")
  else ask (UpdateWorkerStatus worker_id status instance).

(** ** Where workers come from *)

Definition fetch_resource_by_id (resource_id : string) : prog (option worker) :=
  or_return (worker_data ← ask (GetWorker resource_id);
             match worker_data with
             | [] => mret None
             | _ => w ← lift (worker_from_dict worker_data); mret (Some w)
             end) None.

Definition terminal_statuses : list CMLWorkerStatus := [STOPPED; TERMINATED; SHUTTING_DOWN; FAILED; UNKNOWN].

(** The filter of [list_resources]; [sweep] is [_startup_sweep_active]. *)
Definition needs_reconcile (sweep : bool) (w : worker) : bool :=
  if sweep then negb (in_status w TERMINATED)
  else str_truthy (w_status w) && negb (existsb (in_status w) terminal_statuses).

Definition list_resources (sweep : bool) : prog (list worker) :=
  or_return (workers_data ← ask (GetWorkers None None);
             workers ← lift (mapM worker_from_dict workers_data);
             _ ← write (fun w => w <| running_worker_count := Z.of_nat (length (List.filter (fun w => in_status w RUNNING) workers)) |>);
             mret (List.filter (needs_reconcile sweep) workers)) [].

(** ** What EC2 knows of an instance *)

(** [_report_ec2_details]: the details of the image are added when there are any. *)
Definition image_details (info : pydict) : pydict :=
  [("ami_name", pd_get "name" info); ("ami_description", pd_get "description" info); ("ami_creation_date", pd_get "creation_date" info)].

Definition report_ec2_details (worker_id : string) (s : instance_state) : prog () :=
  let details := [("public_ip", of_ostr (e_public_ip s)); ("private_ip", of_ostr (e_private_ip s));
                  ("instance_type", of_ostr (e_instance_type s)); ("ami_id", of_ostr (e_image_id s))] in
  more ← (match e_image_id s with
          | Some image =>
              if str_truthy image then
                or_return (info ← ask (DescribeImage image);
                           match info with Some ((_ :: _) as info) => mret (image_details info) | _ => mret [] end) []
              else mret []
          | None => mret []
          end);
  ignore_errors (ask (UpdateEc2Details worker_id (details ++ more))).

(** ** The statuses *)

(** The launch of an instance, with its tags: those of the region, then those of the worker. *)
Definition instance_tags (w : worker) (template : string) (rc : region_config) : dict string :=
  let tags := [("Name", "cml-worker-" +:+ w_name w); ("lcm:worker_id", w_id w); ("lcm:template_name", template);
               ("lcm:managed_by", "lablet-cloud-manager")] in
  match rc_default_tags rc with [] => tags | defaults => dict_update (dict_update [] defaults) tags end.

Definition launch (w : worker) (template instance_type subnet : string) (rc : region_config) (ami : string) : prog ReconciliationResult :=
  instance_id ← ask (RunInstance ami instance_type subnet (rc_security_group_ids rc) (rc_key_name rc) (instance_tags w template rc));
  _ ← update_worker_status (w_id w) PROVISIONING (Some instance_id);
  _ ← write (fun c => c <| provisioned_count := provisioned_count c + 1 |>);
  answer_requeue "EC2 instance launched, waiting for running state".

(** The body of the [try] of [_handle_pending]. *)
Definition provision (w : worker) : prog ReconciliationResult :=
  if negb (ostr_truthy (w_template_name w)) then answer_failed "Worker has no template_name - cannot provision without template configuration"
  else
    let template_name := default "" (w_template_name w) in
    template ← ask (GetWorkerTemplate template_name);
    match template with
    | [] => answer_failed ("Worker template '" +:+ template_name +:+ "' not found in control-plane-api")
    | _ =>
        instance_type ← lift (as_ostr (py_or (pd_get "instance_type" template) (of_ostr (w_instance_type w))));
        pattern ← lift (as_ostr (pd_get "ami_name_pattern" template));
        if negb (ostr_truthy instance_type) then answer_failed "No instance_type in template or worker"
        else
          let region := ostr_or (w_aws_region w) (aws_region cfg) in
          match dict_get region (region_configs cfg) with
          | None => answer_failed ("No infrastructure config for region '" +:+ region +:+ "'. Add region to config/aws_regions.yaml")
          | Some rc =>
              if negb (ostr_truthy (rc_subnet_id rc)) then answer_failed ("No subnet_id configured for region '" +:+ region +:+ "'")
              else
                match rc_security_group_ids rc with
                | [] => answer_failed ("No security_group_ids configured for region '" +:+ region +:+ "'")
                | _ =>
                    let ami_name := if ostr_truthy pattern then pattern else w_ami_name w in
                    if negb (ostr_truthy ami_name) then answer_failed "No AMI name pattern in template or worker - cannot resolve AMI ID"
                    else
                      ami_ids ← ask (GetAmiIdsByName None (default "" ami_name));
                      match ami_ids with
                      | [] => answer_failed ("No AMI found matching name pattern '" +:+ default "" ami_name +:+ "' in region '" +:+ region +:+ "'")
                      | ami :: _ => launch w template_name (default "" instance_type) (default "" (rc_subnet_id rc)) rc ami
                      end
                end
          end
    end.

Definition handle_pending (w : worker) : prog ReconciliationResult :=
  try_ (provision w) (fun e =>
    _ ← ignore_errors (update_worker_status (w_id w) FAILED None);
    answer_failed (exn_str e)).

(** The state of the instance, or the answer that there is none. *)
Definition with_instance (w : worker) (missing : string) (k : string -> instance_state -> prog ReconciliationResult) : prog ReconciliationResult :=
  if negb (ostr_truthy (w_ec2_instance_id w)) then answer_failed missing
  else
    let instance := default "" (w_ec2_instance_id w) in
    state ← ask (GetInstanceState None instance);
    match state with
    | None => answer_failed ("EC2 instance " +:+ instance +:+ " not found")
    | Some s => k instance s
    end.

Definition handle_provisioning (w : worker) : prog ReconciliationResult :=
  with_instance w "Worker in PROVISIONING but no EC2 instance ID" (fun _ s =>
    if String.eqb (e_state s) "running" then
      _ ← update_worker_status (w_id w) RUNNING None;
      _ ← write (fun c => c <| provisioned_count := provisioned_count c + 1 |>);
      _ ← report_ec2_details (w_id w) s;
      answer_success
    else if String.eqb (e_state s) "pending" then answer_requeue "EC2 instance still pending"
    else answer_failed ("EC2 instance in unexpected state: " +:+ e_state s)).

Definition handle_starting (w : worker) : prog ReconciliationResult :=
  with_instance w "Worker in STARTING but no EC2 instance ID" (fun instance s =>
    if String.eqb (e_state s) "running" then
      _ ← update_worker_status (w_id w) RUNNING None;
      _ ← write (fun c => c <| started_count := started_count c + 1 |>);
      _ ← report_ec2_details (w_id w) s;
      answer_success
    else if String.eqb (e_state s) "stopped" then
      _ ← ask (StartInstance instance);
      answer_requeue "EC2 start initiated, waiting for running state"
    else if String.eqb (e_state s) "pending" then answer_requeue "EC2 instance starting"
    else answer_failed ("Cannot start EC2 instance in state: " +:+ e_state s)).

(** *** A running worker *)

(** [_handle_on_demand_refresh] *)
Definition on_demand_refresh (w : worker) : prog () :=
  if ostr_truthy (w_ec2_instance_id w) then
    ignore_errors (state ← ask (GetInstanceState None (default "" (w_ec2_instance_id w)));
                   match state with Some s => report_ec2_details (w_id w) s | None => mret () end)
  else mret ().

(** A fallback only from a private address to the public one. *)
Definition fallback_host (w : worker) : option string :=
  if bool_decide (w_ip_address w = w_private_ip w) then w_public_ip w else None.

(** [ensure_monitoring], whose errors are logged. *)
Definition ensure_monitoring (w : worker) : prog () :=
  ignore_errors (ask (EnsureMonitoring (w_id w) (default "" (w_ip_address w)) (fallback_host w))).

(** The check of the instance: the worker with its current addresses, or the answer that ends the visit. *)
Definition verify_instance (w : worker) : prog (worker + ReconciliationResult) :=
  if negb (ostr_truthy (w_ec2_instance_id w)) then mret (inl w)
  else
    state ← ask (GetInstanceState None (default "" (w_ec2_instance_id w)));
    match state with
    | None => mret (inl w)
    | Some s =>
        if negb (String.eqb (e_state s) "running") then
          _ ← update_worker_status (w_id w) (map_ec2_state_to_worker_status (e_state s)) None;
          mret (inr (result_requeue "EC2 state changed" None))
        else
          let ec2_ip := if ostr_truthy (e_public_ip s) then e_public_ip s else e_private_ip s in
          if ostr_truthy ec2_ip && negb (bool_decide (ec2_ip = w_ip_address w)) then
            _ ← report_ec2_details (w_id w) s;
            mret (inl (w <| w_ip_address := ec2_ip |> <| w_public_ip := e_public_ip s |> <| w_private_ip := e_private_ip s |>))
          else mret (inl w)
    end.

(** *** Licences *)

(** [m], and on an exception the report of it, whose own exception is raised. *)
Definition or_report (m : prog ()) (report : string -> prog ()) : prog () := try_ m (fun e => report (exn_str e)).

Definition execute_license_registration (w : worker) : prog () :=
  if negb (ostr_truthy (w_pending_token w)) then ask (FailLicenseRegistration (w_id w) "No license token provided")
  else
    or_report (
      _ ← ask (StartLicenseRegistration (w_id w));
      '(success, message) ← ask (RegisterLicense (default "" (w_ip_address w)) (default "" (w_pending_token w)));
      if success : bool then
        _ ← ask (CompleteLicenseRegistration (w_id w) "COMPLETED");
        write (fun c => c <| license_registrations_count := license_registrations_count c + 1 |>)
      else ask (FailLicenseRegistration (w_id w) message))
      (fun m => ask (FailLicenseRegistration (w_id w) m)).

Definition execute_license_deregistration (w : worker) : prog () :=
  or_report (
    _ ← ask (StartLicenseDeregistration (w_id w));
    '(success, message) ← ask (DeregisterLicense (default "" (w_ip_address w)));
    if success : bool then
      _ ← ask (CompleteLicenseDeregistration (w_id w) message);
      write (fun c => c <| license_deregistrations_count := license_deregistrations_count c + 1 |>)
    else ask (FailLicenseDeregistration (w_id w) message))
    (fun m => ask (FailLicenseDeregistration (w_id w) m)).

Definition reconcile_license (w : worker) : prog () :=
  if negb (ostr_truthy (w_pending_operation w)) then mret ()
  else if negb (ostr_truthy (w_ip_address w)) then mret ()
  else if String.eqb (default "" (w_pending_operation w)) "register" then execute_license_registration w
  else if String.eqb (default "" (w_pending_operation w)) "deregister" then execute_license_deregistration w
  else mret ().

(** *** Activity and scale-down *)

(** The events of the connection when there is one, else those that CML gives. *)
Definition telemetry_events (w : worker) : prog (list pydict) :=
  drained ← (if ws_registry cfg then ask (DrainActivityEvents (w_id w)) else mret None);
  match drained with
  | Some events => mret events
  | None =>
      if ostr_truthy (w_ip_address w) then or_return (ask (GetTelemetryEvents (default "" (w_ip_address w)))) []
      else mret []
  end.

(** [_detect_activity] *)
Definition detect_activity (w : worker) : prog (option pydict) :=
  events ← telemetry_events w;
  or_return (
    result ← ask (DetectWorkerIdle (w_id w) events);
    if truthy (pd_get "error" result) then mret None
    else if truthy (pd_get "auto_pause_triggered" result) then
      _ ← lift (format_minutes (pd_get_or "idle_minutes" (PInt 0) result));
      _ ← write (fun c => c <| auto_pauses_triggered_count := auto_pauses_triggered_count c + 1 |>);
      mret (Some result)
    else if truthy (pd_get "is_idle" result) then
      _ ← lift (format_minutes (pd_get_or "idle_minutes" (PInt 0) result));
      mret (Some result)
    else mret (Some result)) None.

(** The drain itself. *)
Definition drain (w : worker) : prog bool :=
  or_return (
    _ ← ask (DrainWorker (w_id w) "scale_down" "worker-controller");
    t ← now;
    _ ← write (fun c => c <| last_scale_down_at := Some t |> <| scale_down_count := scale_down_count c + 1 |>
                          <| running_worker_count := running_worker_count c - 1 |>);
    mret true) false.

(** [now - last_scale_down_at < cooldown] *)
Definition in_cooldown : prog bool :=
  last ← read last_scale_down_at;
  match last with
  | None => mret false
  | Some t0 => t ← now; mret (dt_us t - dt_us t0 <? seconds (scale_down_cooldown_seconds cfg))
  end.

Definition evaluate_scale_down (w : worker) (idle_result : pydict) : prog bool :=
  if truthy (pd_get "auto_pause_triggered" idle_result) then mret false
  else if negb (truthy (pd_get "is_idle" idle_result)) then mret false
  else if negb (truthy (pd_get "eligible_for_pause" idle_result)) then mret false
  else
    running ← read running_worker_count;
    if running <=? min_workers cfg then mret false
    else
      cooling ← in_cooldown;
      if cooling : bool then mret false
      else _ ← lift (format_minutes (pd_get_or "idle_minutes" (PInt 0) idle_result)); drain w.

(** [_handle_running] after the checks of the desired state and of the instance. *)
Definition tend (w : worker) : prog ReconciliationResult :=
  _ ← when (truthy (w_refresh_requested_at w)) (on_demand_refresh w);
  cml_ready ← (if ostr_truthy (w_ip_address w) then h ← ask (CheckHealth (default "" (w_ip_address w))); mret h.1 else mret true);
  _ ← when (cml_ready && ws_registry cfg && cml_websocket_enabled cfg && ostr_truthy (w_ip_address w)) (ensure_monitoring w);
  _ ← reconcile_license w;
  idle_result ← (if w_is_idle_detection_enabled w then
                   r ← detect_activity w;
                   _ ← write (fun c => c <| activity_checks_count := activity_checks_count c + 1 |>);
                   mret r
                 else mret None);
  match idle_result with
  | Some ((_ :: _) as r) =>
      if scale_down_enabled cfg then
        drained ← evaluate_scale_down w r;
        if drained : bool then answer_requeue "Worker drained for scale-down" else answer_success
      else answer_success
  | _ => answer_success
  end.

Definition handle_running (w : worker) : prog ReconciliationResult :=
  if wants w STOPPED then
    _ ← update_worker_status (w_id w) STOPPING None; answer_requeue "Transitioning to STOPPING"
  else if wants w TERMINATED then
    _ ← update_worker_status (w_id w) TERMINATING None; answer_requeue "Transitioning to TERMINATING"
  else
    verified ← verify_instance w;
    match verified with
    | inr r => mret r
    | inl w => tend w
    end.

(** *** The way down *)

Definition stop_monitoring (w : worker) : prog () :=
  when (ws_registry cfg && cml_websocket_enabled cfg) (ask (StopMonitoring (w_id w))).

Definition mark (w : worker) (status : CMLWorkerStatus) : prog ReconciliationResult :=
  _ ← update_worker_status (w_id w) status None; answer_success.

(** STOPPING, and DRAINING alike. *)
Definition handle_stopping (w : worker) : prog ReconciliationResult :=
  _ ← stop_monitoring w;
  if negb (ostr_truthy (w_ec2_instance_id w)) then mark w STOPPED
  else
    let instance := default "" (w_ec2_instance_id w) in
    state ← ask (GetInstanceState None instance);
    match state with
    | None => mark w STOPPED
    | Some s =>
        if String.eqb (e_state s) "stopped" then
          _ ← update_worker_status (w_id w) STOPPED None;
          _ ← write (fun c => c <| stopped_count := stopped_count c + 1 |>);
          answer_success
        else if String.eqb (e_state s) "running" then
          _ ← ask (StopInstance instance);
          answer_requeue "EC2 stop initiated, waiting for stopped state"
        else if String.eqb (e_state s) "stopping" then answer_requeue "EC2 instance stopping"
        else answer_failed ("Cannot stop EC2 instance in state: " +:+ e_state s)
    end.

(** A worker whose instance is gone. *)
Definition gone (w : worker) : prog ReconciliationResult :=
  _ ← update_worker_status (w_id w) TERMINATED None;
  _ ← write (fun c => c <| terminated_count := terminated_count c + 1 |>);
  answer_success.

(** [_handle_stopped] after the check of the instance. *)
Definition align_stopped (w : worker) : prog ReconciliationResult :=
  if wants w RUNNING then
    _ ← update_worker_status (w_id w) STARTING None; answer_requeue "Transitioning STOPPED → STARTING"
  else if wants w TERMINATED then
    _ ← update_worker_status (w_id w) TERMINATING None; answer_requeue "Transitioning STOPPED → TERMINATING"
  else answer_success.

Definition handle_stopped (w : worker) : prog ReconciliationResult :=
  _ ← stop_monitoring w;
  if negb (ostr_truthy (w_ec2_instance_id w)) then align_stopped w
  else
    state ← ask (GetInstanceState None (default "" (w_ec2_instance_id w)));
    match state with
    | None => gone w
    | Some s =>
        if String.eqb (e_state s) "terminated" then gone w
        else if String.eqb (e_state s) "running" then
          _ ← report_ec2_details (w_id w) s;
          _ ← update_worker_status (w_id w) RUNNING None;
          answer_requeue "EC2 running detected, corrected STOPPED → RUNNING"
        else align_stopped w
    end.

Definition handle_terminating (w : worker) : prog ReconciliationResult :=
  if negb (ostr_truthy (w_ec2_instance_id w)) then mark w TERMINATED
  else
    let instance := default "" (w_ec2_instance_id w) in
    state ← ask (GetInstanceState None instance);
    match state with
    | None => mark w TERMINATED
    | Some s =>
        if String.eqb (e_state s) "terminated" then gone w
        else if negb (String.eqb (e_state s) "shutting-down") then
          _ ← ask (TerminateInstance instance);
          answer_requeue "EC2 terminate initiated"
        else answer_requeue "EC2 instance shutting down"
    end.

(** ** Sync requests *)

(** [m], or nothing when it raises. *)
Definition attempt {A} (m : prog A) : prog (option A) := or_return (a ← m; mret (Some a)) None.

(** [_collect_and_report_cml_data]: without the system info there is no report; what else
    could not be read is left out. *)
Definition collect_and_report_cml_data (w : worker) (collected_at : datetime) : prog () :=
  let host := default "" (w_ip_address w) in
  info ← attempt (ask (GetSystemInfo host));
  match info with
  | None => mret ()
  | Some info =>
      stats ← attempt (ask (GetSystemStats host));
      health ← attempt (ask (GetSystemHealth host));
      license ← attempt (ask (GetLicenseInfo host));
      ignore_errors (ask (ReportCmlData (w_id w) collected_at
        {| report_info := info; report_stats := stats; report_health := health; report_license := license |}))
  end.

(** [_check_pending_sync] *)
Definition check_pending_sync (worker_id : string) : prog (option pyval) :=
  if negb (etcd_configured cfg) then mret None
  else
    or_return (value ← ask (GetSync (rstrip_by is_slash (etcd_key_prefix cfg) +:+ "/workers/" +:+ worker_id +:+ "/sync"));
               match value with
               | NoSync | Sync PNone => mret None
               | BadJson => lift (Err (ValueError "Expecting value"))
               | Sync document => mret (Some document)
               end) None.

(** Steps 1 and 2 of [_handle_sync_request]. *)
Definition sync_ec2 (w : worker) : prog () :=
  state ← ask (GetInstanceState None (default "" (w_ec2_instance_id w)));
  match state with
  | None => mret ()
  | Some s =>
      let actual_status := map_ec2_state_to_worker_status (e_state s) in
      _ ← report_ec2_details (w_id w) s;
      when (negb (in_status w actual_status)) (update_worker_status (w_id w) actual_status None)
  end.

Definition sync_cml (w : worker) : prog () :=
  h ← ask (CheckHealth (default "" (w_ip_address w)));
  if (h.1 : bool) then t ← now; collect_and_report_cml_data w t else mret ().

Definition handle_sync_request (w : worker) (sync_data : pyval) : prog ReconciliationResult :=
  data ← lift (as_dict sync_data);
  let scope := pd_get_or "scope" (PStr "full") data in
  _ ← when (ostr_truthy (w_ec2_instance_id w) && (eq_str scope "full" || eq_str scope "ec2_only")) (ignore_errors (sync_ec2 w));
  _ ← when (ostr_truthy (w_ip_address w) && (eq_str scope "full" || eq_str scope "cml_only")) (ignore_errors (sync_cml w));
  _ ← when (truthy (pd_get_or "include_labs" (PBool true) data)) (ignore_errors (ask (TriggerLabDiscovery (w_id w) [] "sync")));
  _ ← ignore_errors (ask (CompleteWorkerSync (w_id w)));
  answer_requeue "Sync completed — re-reconcile with fresh state".

(** ** [reconcile] *)

Definition route (w : worker) : prog ReconciliationResult :=
  if in_status w PENDING then handle_pending w
  else if in_status w PROVISIONING then handle_provisioning w
  else if in_status w STARTING then handle_starting w
  else if in_status w RUNNING then handle_running w
  else if in_status w STOPPING || in_status w DRAINING then handle_stopping w
  else if in_status w STOPPED then handle_stopped w
  else if in_status w TERMINATING then handle_terminating w
  else answer_success.

Definition reconcile (w : worker) : prog ReconciliationResult :=
  try_ (sync_data ← check_pending_sync (w_id w);
        match sync_data with
        | Some data => handle_sync_request w data
        | None => route w
        end) (fun e => answer_failed (exn_str e)).
End Visits.
