(* ===== verification/WorkerVisitsProps.v ===== *)
(** * What the worker reconciler does

    A visit takes the steps of a plan that depends on the status of the worker, on what is
    wanted of it and on the state of its instance; the plan brings a worker to rest; and what
    the reconciler cannot do. *)
From S2P Require Import Prelude PyData Enums Programs Reconciliation WorkerVisits.
Import WorkerStatus.

(** ** Steps *)

(** What a visit does to the worker and to its instance. *)
Inductive step := Becomes (s : CMLWorkerStatus) | Starts | Stops | Terminates | Launches | Drains.

Section Steps.
Context `{CmlData}.

Definition step_of (e : event) : option step :=
  match e with
  | Ev c =>
      match c with
      | UpdateWorkerStatus _ s _ => Some (Becomes s)
      | MarkWorkerTerminated _ _ _ => Some (Becomes TERMINATED)
      | StartInstance _ => Some Starts
      | StopInstance _ => Some Stops
      | TerminateInstance _ => Some Terminates
      | RunInstance _ _ _ _ _ _ => Some Launches
      | DrainWorker _ _ _ => Some Drains
      | _ => None
      end
  end.

Definition steps (l : list event) : list step := omap step_of l.

(** [c'] comes after [c] by the steps [p]. *)
Definition takes (p : list step) (c c' : controller) : Prop := exists l, log c' = log c ++ l /\ steps l = p.

(** [c'] comes after [c] by events that satisfy [P]. *)
Definition adds (P : event -> bool) (c c' : controller) : Prop := exists l, log c' = log c ++ l /\ forallb P l = true.

Definition no_step (e : event) : bool := match step_of e with None => true | Some _ => false end.
Definition no_drain (e : event) : bool := match step_of e with Some Drains => false | _ => true end.
End Steps.

(** Programs that take no step. *)
Abbreviation quiet := (within (adds no_step)).

#[export] Instance adds_preorder `{CmlData} P : PreOrder (adds P).
Proof.
  split.
  - intros c. exists []. by rewrite app_nil_r.
  - intros c1 c2 c3 (l1 & H1 & S1) (l2 & H2 & S2). exists (l1 ++ l2). by rewrite H2, H1, app_assoc, forallb_app, S1, S2.
Qed.

Section Quiet.
Context `{Services} (cfg : settings) (P : event -> bool).

Lemma takes_refl c : takes [] c c.
Proof. exists []. by rewrite app_nil_r. Qed.

Lemma takes_app p q c1 c2 c3 : takes p c1 c2 -> takes q c2 c3 -> takes (p ++ q) c1 c3.
Proof. intros (l1 & H1 & <-) (l2 & H2 & <-). exists (l1 ++ l2). unfold steps. by rewrite H2, H1, app_assoc, omap_app. Qed.

Lemma adds_takes c c' : adds no_step c c' -> takes [] c c'.
Proof.
  intros (l & Hl & Hs). exists l. split; [done|]. clear Hl. induction l as [|e l IH]; [done|]. cbn in Hs. apply andb_prop in Hs as [He Hs].
  unfold steps. cbn. unfold no_step in He. destruct (step_of e); [done|]. by apply IH.
Qed.
Lemma quiet_takes {A} (m : prog A) c : quiet m -> takes [] c (m c).2.
Proof. intros Hm. apply adds_takes, Hm. Qed.

Lemma adds_ask {A} (c : call A) : P (Ev c) = true -> within (adds P) (ask c).
Proof. intros Hc w. exists [Ev c]. split; [done|]. cbn. by rewrite Hc. Qed.
Lemma adds_now : P (Ev Now) = true -> within (adds P) now.
Proof. intros Hc w. exists [Ev Now]. split; [done|]. cbn. by rewrite Hc. Qed.
Lemma adds_read {A} (f : controller -> A) : within (adds P) (read f).
Proof. intros w. cbn. reflexivity. Qed.
Lemma adds_write f : (forall c, log (f c) = log c) -> within (adds P) (write f).
Proof. intros Hf c. exists []. cbn. by rewrite Hf, app_nil_r. Qed.
Lemma adds_or_return {A} (m : prog A) x : within (adds P) m -> within (adds P) (or_return m x).
Proof. intros Hm. apply within_try; [exact _|done|]. intros e. apply within_ret; exact _. Qed.
Lemma adds_ignore m : within (adds P) m -> within (adds P) (ignore_errors m).
Proof. apply adds_or_return. Qed.
Lemma adds_when b m : within (adds P) m -> within (adds P) (when b m).
Proof. intros Hm. destruct b; [done|]. apply within_ret; exact _. Qed.
Lemma adds_mono {A} (Q : event -> bool) (m : prog A) : (forall e, P e = true -> Q e = true) -> within (adds P) m -> within (adds Q) m.
Proof.
  intros HPQ Hm c. destruct (Hm c) as (l & Hl & HP). exists l. split; [done|]. rewrite forallb_forall in HP |- *. auto.
Qed.
End Quiet.

Create HintDb quiet_visits.
#[export] Hint Resolve adds_read : quiet_visits.

(** Follow a program: its binds, handlers and cases. *)
Ltac quiet_visit :=
  repeat first
    [ by eauto with quiet_visits
    | apply adds_ask; reflexivity | apply adds_now; reflexivity | apply adds_write; intros ?; reflexivity
    | apply within_ret; exact _ | apply within_lift; exact _
    | apply adds_or_return | apply adds_ignore | apply adds_when
    | apply within_try; [exact _| |intros ?]
    | apply within_bind; [exact _| |intros ?]
    | match goal with |- within _ (match ?x with _ => _ end) => destruct x end ].

Section QuietParts.
Context `{Services} (cfg : settings).

Lemma quiet_report id s : quiet (report_ec2_details id s).
Proof. unfold report_ec2_details. quiet_visit. Qed.
#[local] Hint Resolve quiet_report : quiet_visits.
Lemma quiet_refresh w : quiet (on_demand_refresh w).
Proof. unfold on_demand_refresh. quiet_visit. Qed.
Lemma quiet_ensure w : quiet (ensure_monitoring w).
Proof. unfold ensure_monitoring. quiet_visit. Qed.
Lemma quiet_license w : quiet (reconcile_license w).
Proof. unfold reconcile_license, execute_license_registration, execute_license_deregistration, or_report. quiet_visit. Qed.
Lemma quiet_activity w : quiet (detect_activity cfg w).
Proof. unfold detect_activity, telemetry_events. quiet_visit. Qed.
Lemma quiet_cooldown : quiet (in_cooldown cfg).
Proof. unfold in_cooldown. quiet_visit. Qed.
Lemma quiet_cml_data w t : quiet (collect_and_report_cml_data w t).
Proof. unfold collect_and_report_cml_data, attempt. quiet_visit. Qed.
Lemma quiet_stop_monitoring w : quiet (stop_monitoring cfg w).
Proof. unfold stop_monitoring. quiet_visit. Qed.
Lemma quiet_sync i : quiet (check_pending_sync cfg i).
Proof. unfold check_pending_sync. quiet_visit. Qed.
End QuietParts.
#[export] Hint Resolve quiet_report quiet_refresh quiet_ensure quiet_license quiet_activity quiet_cooldown quiet_cml_data
  quiet_stop_monitoring quiet_sync : quiet_visits.

(** ** The plan *)

(** The steps of a visit: what has become of the instance comes first, then what is wanted. *)
Definition plan (status : CMLWorkerStatus) (desired : string) (instance : bool) (ec2 : option string) : list step :=
  let ec2 := if instance then ec2 else None in
  let is_ (state : string) := match ec2 with Some s => String.eqb s state | None => false end in
  let missing := match ec2 with None => true | Some _ => false end in
  let wanted (s : CMLWorkerStatus) := String.eqb desired (CMLWorkerStatus_value s) in
  match status with
  | PROVISIONING => if is_ "running" then [Becomes RUNNING] else []
  | STARTING => if is_ "running" then [Becomes RUNNING] else if is_ "stopped" then [Starts] else []
  | RUNNING =>
      if wanted STOPPED then [Becomes STOPPING]
      else if wanted TERMINATED then [Becomes TERMINATING]
      else match ec2 with
           | Some s => if String.eqb s "running" then [] else [Becomes (map_ec2_state_to_worker_status s)]
           | None => []
           end
  | STOPPING | DRAINING => if missing || is_ "stopped" then [Becomes STOPPED] else if is_ "running" then [Stops] else []
  | STOPPED =>
      if instance && (missing || is_ "terminated") then [Becomes TERMINATED]
      else if is_ "running" then [Becomes RUNNING]
      else if wanted RUNNING then [Becomes STARTING]
      else if wanted TERMINATED then [Becomes TERMINATING]
      else []
  | TERMINATING => if missing || is_ "terminated" then [Becomes TERMINATED] else if is_ "shutting-down" then [] else [Terminates]
  | _ => []
  end.

Section Plan.
Context `{Services} (cfg : settings).

Lemma takes_then {A B} p (m : prog A) (f : A -> prog B) c :
  takes p c (m c).2 -> (forall a, quiet (f a)) -> takes p c ((m ≫= f) c).2.
Proof.
  intros Hm Hf. unfold mbind, prog_bind. destruct (m c) as [[a|e] c1]; cbn in *; [|done].
  rewrite <- (app_nil_r p). eapply takes_app; [done|by apply quiet_takes].
Qed.

Lemma takes_after {A B} p (m : prog A) (f : A -> prog B) c a :
  quiet m -> (m c).1 = Ok a -> (forall c1, takes p c1 (f a c1).2) -> takes p c ((m ≫= f) c).2.
Proof.
  intros Hm Ha Hf. pose proof (quiet_takes m c Hm) as Hc. unfold mbind, prog_bind. destruct (m c) as [r c1]. cbn in Ha, Hc. subst r.
  change p with ([] ++ p). eapply takes_app; [done|apply Hf].
Qed.

Lemma takes_ret {A} (a : A) c : takes [] c (mret (M := prog) a c).2.
Proof. apply takes_refl. Qed.

Lemma update_step i s o c : takes [Becomes s] c (update_worker_status i s o c).2.
Proof.
  unfold update_worker_status. case_bool_decide as Hs; [subst s|]; eexists [_]; (split; [reflexivity|done]).
Qed.

Lemma ask_step {A} (q : call A) p c : step_of (Ev q) = Some p -> takes [p] c (ask q c).2.
Proof. intros Hq. exists [Ev q]. split; [done|]. unfold steps. cbn. cbn in Hq. by rewrite Hq. Qed.

(** What EC2 says of the instance of [w], throughout a visit. *)
Definition ec2_says (w : worker) (s : option instance_state) : Prop :=
  ostr_truthy (w_ec2_instance_id w) = true -> forall h, answer _ h (GetInstanceState None (default "" (w_ec2_instance_id w))) = Ok s.

(** What follows the state of an instance. *)
Lemma after_state {B} w s p (f : option instance_state -> prog B) c :
  ec2_says w s -> ostr_truthy (w_ec2_instance_id w) = true -> (forall c1, takes p c1 (f s c1).2) ->
  takes p c ((ask (GetInstanceState None (default "" (w_ec2_instance_id w))) ≫= f) c).2.
Proof. intros Hs Hi Hf. eapply takes_after; [by apply adds_ask|cbn; by apply Hs|done]. Qed.

Lemma with_instance_takes w s missing k p c :
  ec2_says w s -> match w_ec2_instance_id w, s with Some i, Some st => if str_truthy i then forall c1, takes p c1 (k i st c1).2 else p = [] | _, _ => p = [] end ->
  takes p c (with_instance w missing k c).2.
Proof.
  intros Hs Hk. unfold with_instance. destruct (w_ec2_instance_id w) as [i|] eqn:Hi; cbn [ostr_truthy]; [|subst p; apply takes_refl].
  destruct (str_truthy i) eqn:Ht; cbn [negb]; [|destruct s; subst p; apply takes_refl].
  eapply (takes_after _ _ _ _ s); [by apply adds_ask|cbn; change i with (default "" (Some i)); rewrite <- Hi; apply Hs; by rewrite Hi|].
  intros c1. destruct s as [st|]; [apply Hk|subst p; apply takes_refl].
Qed.

Definition planned (w : worker) (status : CMLWorkerStatus) (s : option instance_state) : list step :=
  plan status (w_desired_status w) (ostr_truthy (w_ec2_instance_id w)) (e_state <$> s).

(** An update of the status, then what takes no step. *)
Lemma becomes_then {B} i st o (f : () -> prog B) c : (forall a, quiet (f a)) -> takes [Becomes st] c ((update_worker_status i st o ≫= f) c).2.
Proof. apply takes_then, update_step. Qed.

End Plan.

Ltac by_plan := first [apply takes_ret | apply becomes_then; intros ?; quiet_visit
  | apply takes_then; [by apply ask_step|intros ?; quiet_visit]].

Section Cases.
Context `{Services} (cfg : settings).

Lemma provisioning_plan w s c : ec2_says w s -> takes (planned w PROVISIONING s) c (handle_provisioning w c).2.
Proof.
  intros Hs. apply (with_instance_takes _ s); [done|]. unfold planned, plan.
  destruct (w_ec2_instance_id w) as [i|]; [|done]. cbn [ostr_truthy]. destruct s as [st|]; [|by destruct (str_truthy i)].
  destruct (str_truthy i); [|done]. cbn. intros c1. repeat case_match; by_plan.
Qed.

Lemma starting_plan w s c : ec2_says w s -> takes (planned w STARTING s) c (handle_starting w c).2.
Proof.
  intros Hs. apply (with_instance_takes _ s); [done|]. unfold planned, plan.
  destruct (w_ec2_instance_id w) as [i|]; [|done]. cbn [ostr_truthy]. destruct s as [st|]; [|by destruct (str_truthy i)].
  destruct (str_truthy i); [|done]. cbn. intros c1. repeat case_match; by_plan.
Qed.

(** The connections to the event stream of a worker can be closed. *)
Definition monitoring_stops (w : worker) : Prop := forall h, is_ok (answer _ h (StopMonitoring (w_id w))) = true.

Lemma after_monitoring {B} w p (f : () -> prog B) c :
  monitoring_stops w -> (forall c1, takes p c1 (f () c1).2) -> takes p c ((stop_monitoring cfg w ≫= f) c).2.
Proof.
  intros Hm Hf. eapply (takes_after _ _ _ _ ()); [apply quiet_stop_monitoring| |done].
  unfold stop_monitoring, when. destruct (_ && _); [|done]. cbn. specialize (Hm (log c)). destruct (answer _ _ _) as [[]|e]; [done|discriminate].
Qed.

Lemma stopping_plan w st s c : st = STOPPING \/ st = DRAINING -> monitoring_stops w -> ec2_says w s ->
  takes (planned w st s) c (handle_stopping cfg w c).2.
Proof.
  intros Hst Hm Hs. assert (planned w st s = planned w STOPPING s) as -> by (by destruct Hst as [-> | ->]).
  unfold handle_stopping. apply after_monitoring; [done|]. intros c1. unfold planned, plan, mark.
  destruct (ostr_truthy (w_ec2_instance_id w)) eqn:Hi; cbn [negb]; [|by_plan].
  apply after_state with s; [done..|]. intros c2. destruct s as [x|]; [|by_plan]. cbn. repeat case_match; by_plan.
Qed.

Lemma align_plan w s c : (forall x, s = Some x -> String.eqb (e_state x) "running" = false) ->
  (ostr_truthy (w_ec2_instance_id w) = true -> exists x, s = Some x /\ String.eqb (e_state x) "terminated" = false) ->
  takes (planned w STOPPED s) c (align_stopped w c).2.
Proof.
  intros Hr Ht. unfold planned, plan, align_stopped, wants. destruct (ostr_truthy (w_ec2_instance_id w)) eqn:Hi.
  - destruct (Ht eq_refl) as (x & -> & Hx). cbn. rewrite Hx, (Hr x eq_refl). repeat case_match; by_plan.
  - cbn. repeat case_match; by_plan.
Qed.

Lemma or_return_run {A} (m : prog A) x c : exists a c', or_return m x c = (Ok a, c').
Proof. unfold or_return, try_. destruct (m c) as [[a|e] c']; cbn; eauto. Qed.

Lemma report_run i x c : exists c', report_ec2_details i x c = (Ok (), c').
Proof.
  unfold report_ec2_details.
  match goal with |- context [(?m ≫= ?f) c] => assert (exists a c1, m c = (Ok a, c1)) as (a & c1 & Hm) end.
  { destruct (e_image_id x) as [image|]; [|by eexists _, _]. destruct (str_truthy image); [apply or_return_run|by eexists _, _]. }
  rewrite (run_bind _ _ _ _ _ Hm). destruct (or_return_run (ask (UpdateEc2Details i
    ([("public_ip", of_ostr (e_public_ip x)); ("private_ip", of_ostr (e_private_ip x)); ("instance_type", of_ostr (e_instance_type x));
      ("ami_id", of_ostr (e_image_id x))] ++ a))) () c1) as ([] & c2 & Hr). eauto.
Qed.

Lemma stopped_plan w s c : monitoring_stops w -> ec2_says w s -> takes (planned w STOPPED s) c (handle_stopped cfg w c).2.
Proof.
  intros Hm Hs. unfold handle_stopped. apply after_monitoring; [done|]. intros c1.
  destruct (ostr_truthy (w_ec2_instance_id w)) eqn:Hi; cbn [negb].
  2:{ unfold planned, plan, align_stopped, wants. rewrite Hi. cbn. repeat case_match; by_plan. }
  apply after_state with s; [done..|]. intros c2. destruct s as [x|]; [|unfold planned, plan, gone; rewrite Hi; by_plan].
  destruct (String.eqb (e_state x) "terminated") eqn:Ht; [unfold planned, plan, gone; rewrite Hi; cbn; rewrite Ht; by_plan|].
  destruct (String.eqb (e_state x) "running") eqn:Hr.
  - unfold planned, plan. rewrite Hi. cbn. rewrite Ht, Hr. change [Becomes RUNNING] with ([] ++ [Becomes RUNNING]).
    destruct (report_run (w_id w) x c2) as (c3 & Hrep). rewrite (run_bind _ _ _ _ _ Hrep).
    pose proof (quiet_takes _ c2 (quiet_report (w_id w) x)) as Hq. rewrite Hrep in Hq. eapply takes_app; [exact Hq|].
    apply takes_then; [apply update_step|intros ?; quiet_visit].
  - apply align_plan; [by intros y [= <-]|]. intros _. eauto.
Qed.

Lemma terminating_plan w s c : ec2_says w s -> takes (planned w TERMINATING s) c (handle_terminating w c).2.
Proof.
  intros Hs. unfold handle_terminating, planned, plan, mark, gone.
  destruct (ostr_truthy (w_ec2_instance_id w)) eqn:Hi; cbn [negb]; [|by_plan].
  apply after_state with s; [done..|]. intros c2. destruct s as [x|]; [|by_plan]. cbn.
  destruct (String.eqb (e_state x) "terminated"); [by_plan|]. destruct (String.eqb (e_state x) "shutting-down"); by_plan.
Qed.
End Cases.

Section Visit.
Context `{Services} (cfg : settings).

(** Programs that take no step, or drain at most. *)
Definition drains_at_most {A} (m : prog A) : Prop :=
  forall c, takes [] c (m c).2 \/ takes [Drains] c (m c).2 /\ scale_down_enabled cfg = true.

Lemma quiet_drains {A} (m : prog A) : quiet m -> drains_at_most m.
Proof. intros Hm c. left. by apply quiet_takes. Qed.
Lemma drains_after {A B} (m : prog A) (f : A -> prog B) : quiet m -> (forall a, drains_at_most (f a)) -> drains_at_most (m ≫= f).
Proof.
  intros Hm Hf c. pose proof (quiet_takes m c Hm) as Hc. unfold mbind, prog_bind. destruct (m c) as [[a|e] c1]; cbn in Hc; [|by left].
  destruct (Hf a c1) as [H1|[H1 H2]]; [left|right; split; [|done]]; by eapply (takes_app []).
Qed.

Lemma drain_drains w : scale_down_enabled cfg = true -> drains_at_most (drain w).
Proof.
  intros Hs c. right. split; [|done]. unfold drain, or_return, try_, mbind, prog_bind, ask.
  destruct (answer _ _ _) as [[]|e]; cbn; [|by exists [Ev (DrainWorker (w_id w) "scale_down" "worker-controller")]].
  exists [Ev (DrainWorker (w_id w) "scale_down" "worker-controller"); Ev Now]. cbn. by rewrite <- app_assoc.
Qed.

Lemma evaluate_drains w r : scale_down_enabled cfg = true -> drains_at_most (evaluate_scale_down cfg w r).
Proof.
  intros Hs. unfold evaluate_scale_down. repeat (case_match; [by apply quiet_drains; quiet_visit|]).
  apply drains_after; [quiet_visit|]. intros running. case_match; [by apply quiet_drains; quiet_visit|].
  apply drains_after; [quiet_visit|]. intros cooling. case_match; [by apply quiet_drains; quiet_visit|].
  apply drains_after; [quiet_visit|]. intros _. by apply drain_drains.
Qed.

Lemma tend_drains w : drains_at_most (tend cfg w).
Proof.
  unfold tend. do 5 (apply drains_after; [quiet_visit|intros ?]).
  match goal with |- drains_at_most (match ?x with _ => _ end) => destruct x as [[|kv r]|] end; try (apply quiet_drains; quiet_visit; fail).
  destruct (scale_down_enabled cfg) eqn:Hs; [|apply quiet_drains; quiet_visit].
  intros c. destruct (evaluate_drains w (kv :: r) Hs c) as [Ht|[Ht _]]; [left|right; split; [|done]];
    (apply takes_then; [exact Ht|intros drained; quiet_visit]).
Qed.

(** The check of an instance that EC2 answers for. *)
Lemma verify_instance_cases w s c : ec2_says w s ->
  let seen := match s with Some x => if String.eqb (e_state x) "running" then [] else [Becomes (map_ec2_state_to_worker_status (e_state x))] | None => [] end in
  let p := if ostr_truthy (w_ec2_instance_id w) then seen else [] in
  match verify_instance w c with
  | (Ok (inl _), c1) => takes [] c c1 /\ p = []
  | (_, c1) => takes p c c1
  end.
Proof.
  intros Hs. cbn zeta. unfold verify_instance. destruct (ostr_truthy (w_ec2_instance_id w)) eqn:Hi; cbn [negb].
  2:{ cbn. split; [apply takes_refl|done]. }
  pose proof (quiet_takes _ c (adds_ask no_step (GetInstanceState None (default "" (w_ec2_instance_id w))) eq_refl)) as Hq.
  assert (ask (GetInstanceState None (default "" (w_ec2_instance_id w))) c = (Ok s, (ask (GetInstanceState None (default "" (w_ec2_instance_id w))) c).2)) as Hask.
  { unfold ask. cbn. by rewrite (Hs Hi). }
  rewrite (run_bind _ _ _ _ _ Hask). clear Hask. revert Hq. generalize (ask (GetInstanceState None (default "" (w_ec2_instance_id w))) c).2.
  intros c1 Hq. destruct s as [x|]; [|by split]. destruct (String.eqb (e_state x) "running") eqn:Hr; cbn [negb].
  - match goal with |- context [if ?b then _ else _] => destruct b end; [|by split].
    destruct (report_run (w_id w) x c1) as (c2 & Hrep). rewrite (run_bind _ _ _ _ _ Hrep). split; [|done].
    pose proof (quiet_takes _ c1 (quiet_report (w_id w) x)) as Hq2. rewrite Hrep in Hq2. by eapply (takes_app [] []).
  - pose proof (update_step (w_id w) (map_ec2_state_to_worker_status (e_state x)) None c1) as Hu. unfold mbind, prog_bind.
    destruct (update_worker_status _ _ _ c1) as [[[]|e] c2]; cbn in Hu |- *; by eapply (takes_app []).
Qed.

Lemma running_plan w s c : ec2_says w s ->
  exists tail, takes (planned w RUNNING s ++ tail) c (handle_running cfg w c).2 /\
    (tail = [] \/ tail = [Drains] /\ planned w RUNNING s = [] /\ scale_down_enabled cfg = true).
Proof.
  intros Hs. unfold handle_running, wants, planned, plan.
  destruct (String.eqb (w_desired_status w) (CMLWorkerStatus_value STOPPED)); [exists []; split; [|by left]; by_plan|].
  destruct (String.eqb (w_desired_status w) (CMLWorkerStatus_value TERMINATED)); [exists []; split; [|by left]; by_plan|].
  pose proof (verify_instance_cases w s c Hs) as Hv. unfold mbind, prog_bind.
  assert (match (if ostr_truthy (w_ec2_instance_id w) then e_state <$> s else None) with
          | Some s => if String.eqb s "running" then [] else [Becomes (map_ec2_state_to_worker_status s)] | None => [] end
    = (if ostr_truthy (w_ec2_instance_id w) then match s with Some x => if String.eqb (e_state x) "running" then [] else [Becomes (map_ec2_state_to_worker_status (e_state x))] | None => [] end else [])) as ->
    by (destruct (ostr_truthy _), s; done).
  destruct (verify_instance w c) as [[[w'|r]|e] c1]; cbn beta iota zeta in Hv.
  - destruct Hv as [Hv ->]. destruct (tend_drains w' c1) as [Ht|[Ht He]].
    + exists []. split; [|by left]. by eapply (takes_app [] []).
    + exists [Drains]. split; [|by right]. by eapply (takes_app []).
  - exists []. split; [|by left]. by rewrite app_nil_r.
  - exists []. split; [|by left]. by rewrite app_nil_r.
Qed.

Lemma route_takes w status s c :
  w_status w = CMLWorkerStatus_value status -> status <> PENDING -> monitoring_stops w -> ec2_says w s ->
  exists tail, takes (planned w status s ++ tail) c (route cfg w c).2 /\
    (tail = [] \/ tail = [Drains] /\ status = RUNNING /\ planned w status s = [] /\ scale_down_enabled cfg = true).
Proof.
  intros Hw Hp Hm Hs. unfold route, in_status. rewrite Hw. destruct (decide (status = RUNNING)) as [->|Hr].
  - destruct (running_plan w s c Hs) as (tail & Ht & Htail). exists tail. split; [exact Ht|naive_solver].
  - exists []. split; [rewrite app_nil_r|by left]. destruct status; try done; cbn -[planned];
      first [by apply provisioning_plan | by apply starting_plan | by apply stopped_plan | by apply terminating_plan
            | by apply stopping_plan; auto | exact (takes_refl c)].
Qed.

Lemma visit_takes_plan w status s c :
  w_status w = CMLWorkerStatus_value status -> status <> PENDING ->
  (forall c, (check_pending_sync cfg (w_id w) c).1 = Ok None) -> monitoring_stops w -> ec2_says w s ->
  exists tail, takes (planned w status s ++ tail) c (reconcile cfg w c).2 /\
    (tail = [] \/ tail = [Drains] /\ status = RUNNING /\ planned w status s = [] /\ scale_down_enabled cfg = true).
Proof.
  intros Hw Hp Hsync Hm Hs.
  pose proof (quiet_takes _ c (quiet_sync cfg (w_id w))) as Hq. unfold reconcile, try_, mbind, prog_bind. specialize (Hsync c).
  destruct (check_pending_sync cfg (w_id w) c) as [r c1]. cbn in Hsync, Hq. subst r.
  destruct (route_takes w status s c1 Hw Hp Hm Hs) as (tail & Ht & Htail). exists tail. split; [|done].
  destruct (route cfg w c1) as [[r|e] c2]; cbn in Ht |- *; by eapply (takes_app []).
Qed.
(** (C27) A visit of a worker that is past PENDING, for which no sync is asked, takes the
    steps of the plan: none or one step, by the status, by what is wanted, and by what EC2
    says of the instance.  Only the scale-down of a running worker at rest may come on top. *)
Theorem visit_follows_plan w status s c :
  w_status w = CMLWorkerStatus_value status -> status <> PENDING ->
  (forall c, (check_pending_sync cfg (w_id w) c).1 = Ok None) -> monitoring_stops w -> ec2_says w s ->
  exists tail, takes (planned w status s ++ tail) c (reconcile cfg w c).2 /\
    (tail = [] \/ tail = [Drains] /\ status = RUNNING /\ planned w status s = [] /\ scale_down_enabled cfg = true).
Proof. apply visit_takes_plan. Qed.
End Visit.

(** ** Worker and instance together *)

(** The states of an instance, and what AWS documents of them: a command takes effect, and
    a state of passage ends by itself. *)
Inductive ec2 := Pending | Running | Stopping | Stopped | ShuttingDown | Terminated.
#[export] Instance ec2_eq : EqDecision ec2.
Proof. solve_decision. Defined.

Definition ec2_name (e : ec2) : string :=
  match e with
  | Pending => "pending" | Running => "running" | Stopping => "stopping" | Stopped => "stopped"
  | ShuttingDown => "shutting-down" | Terminated => "terminated"
  end.

Definition settle (e : ec2) : ec2 :=
  match e with Pending => Running | Stopping => Stopped | ShuttingDown => Terminated | e => e end.

Abbreviation system := (CMLWorkerStatus * ec2)%type.

(** What becomes of both by a step: the control plane takes every status that it is given. *)
Definition obey (s : system) (p : step) : system :=
  match p, s with
  | Becomes st, (_, e) => (st, e)
  | Starts, (st, Stopped) => (st, Pending)
  | Stops, (st, Running) => (st, Stopping)
  | Terminates, (st, Terminated) => (st, Terminated)
  | Terminates, (st, _) => (st, ShuttingDown)
  | Drains, (_, e) => (DRAINING, e)
  | _, s => s
  end.

(** The effect of a visit by the plan, and a round: visits, then the instance settles. *)
Definition planned_visit (desired : string) (s : system) : system :=
  fold_left obey (plan s.1 desired true (Some (ec2_name s.2))) s.
Definition settled (s : system) : system := (s.1, settle s.2).

(** Where a worker should come to rest, and the states from which it does. *)
Definition rest (desired : CMLWorkerStatus) : option system :=
  match desired with
  | RUNNING => Some (RUNNING, Running) | STOPPED => Some (STOPPED, Stopped) | TERMINATED => Some (TERMINATED, Terminated) | _ => None
  end.

Definition sound (s : system) : bool :=
  match s with
  | (PROVISIONING, (Pending | Running)) => true
  | ((STARTING | RUNNING | STOPPING | DRAINING | STOPPED), (Pending | Running | Stopping | Stopped)) => true
  | _ => false
  end.

(** The states on the way: the sound ones, and those of a termination. *)
Definition on_way (desired : CMLWorkerStatus) (s : system) : bool :=
  sound s || bool_decide (desired = TERMINATED) && match s with (TERMINATING, _) | (TERMINATED, Terminated) => true | _ => false end.

Fixpoint distance (fuel : nat) (desired : CMLWorkerStatus) (s : system) : nat :=
  match fuel with
  | O => O
  | S fuel =>
      if bool_decide (rest desired = Some s) then O
      else
        let s' := planned_visit (CMLWorkerStatus_value desired) s in
        S (distance fuel desired (if bool_decide (s' = s) then settled s else s'))
  end.
Definition to_rest (desired : CMLWorkerStatus) (s : system) : nat := distance 20 desired s.

Definition all_systems : list system :=
  st ← CMLWorkerStatus_members; e ← [Pending; Running; Stopping; Stopped; ShuttingDown; Terminated]; [(st, e)].

(** One state: a visit stays on the way, also when the instance then settles, and comes no farther
    from rest; one of both comes nearer unless it is reached, where both change nothing. *)
Definition nearer (desired : CMLWorkerStatus) (s : system) : bool :=
  let v := planned_visit (CMLWorkerStatus_value desired) s in
  on_way desired v && on_way desired (settled v) &&
  (bool_decide (v = s) || (to_rest desired v <? to_rest desired s)%nat) &&
  (to_rest desired (settled v) <=? to_rest desired v)%nat &&
  (to_rest desired s <=? 8)%nat &&
  (if bool_decide (rest desired = Some s) then bool_decide (v = s) && bool_decide (settled s = s)
   else negb (bool_decide (v = s)) || (to_rest desired (settled v) <? to_rest desired s)%nat).

Lemma all_nearer desired s : rest desired <> None -> on_way desired s = true -> nearer desired s = true.
Proof. destruct desired; try done; intros _; destruct s as [[] []]; try done; intros _; vm_compute; reflexivity. Qed.

Lemma on_way_launched desired s : on_way desired s = true -> s.1 <> PENDING.
Proof. destruct desired, s as [[] []]; done. Qed.

Section Rounds.
Context (desired : CMLWorkerStatus) (goal : system) (Hgoal : rest desired = Some goal).
Let visit := planned_visit (CMLWorkerStatus_value desired).


Lemma to_rest_goal : to_rest desired goal = 0%nat.
Proof.
  assert (forall n, distance (S n) desired goal = 0%nat) as Hd by (intros n; cbn [distance]; by rewrite bool_decide_eq_true_2).
  apply Hd.
Qed.

#[local] Opaque to_rest.

Lemma visits_settle n s : on_way desired s = true ->
  let s' := settled (Nat.iter (S n) visit s) in
  on_way desired s' = true /\ (s = goal -> s' = goal) /\ (s <> goal -> (to_rest desired s' < to_rest desired s)%nat).
Proof.
  revert s. induction n as [|n IH]; intros s Hs; cbn zeta; pose proof (all_nearer desired s ltac:(by rewrite Hgoal) Hs) as Hn;
    unfold nearer in Hn; rewrite !andb_true_iff in Hn; destruct Hn as [[[[[Hv Hsv] Hd] Hset] _] Hr];
    apply orb_true_iff in Hd; rewrite bool_decide_eq_true, Nat.ltb_lt in Hd; apply Nat.leb_le in Hset; rewrite Hgoal in Hr.
  - change (Nat.iter 1 visit s) with (visit s). split; [done|]. split.
    + intros ->. rewrite bool_decide_eq_true_2 in Hr by done. apply andb_prop in Hr as [E1%bool_decide_eq_true E2%bool_decide_eq_true].
      fold visit in E1. by rewrite E1, E2.
    + intros Hne. rewrite bool_decide_eq_false_2 in Hr by congruence. apply orb_true_iff in Hr. rewrite negb_true_iff, bool_decide_eq_false, Nat.ltb_lt in Hr.
      fold visit in Hv, Hsv, Hd, Hset, Hr. destruct Hr as [Hr|Hr]; [destruct Hd as [Hd|Hd]; [by destruct (Hr Hd)|]|]; lia.
  - rewrite Nat.iter_succ_r. fold visit in Hv, Hsv, Hd, Hset, Hr. destruct (IH (visit s) Hv) as (I1 & I2 & I3). split; [done|]. split.
    + intros ->. rewrite bool_decide_eq_true_2 in Hr by done. apply andb_prop in Hr as [E1%bool_decide_eq_true _]. fold visit in E1. by apply I2.
    + intros Hne. destruct Hd as [Hd|Hd]; [rewrite Hd in *; auto|]. destruct (decide (visit s = goal)) as [Hg|Hg].
      * rewrite (I2 Hg), <- Hg. exact Hd.
      * specialize (I3 Hg). lia.
Qed.

Lemma rounds_rest (ns : list nat) s : on_way desired s = true -> (to_rest desired s <= length ns)%nat ->
  fold_left (fun s n => settled (Nat.iter (S n) visit s)) ns s = goal.
Proof.
  revert s. induction ns as [|n ns IH]; intros s Hs Hlen; cbn [fold_left length] in *.
  - destruct (decide (s = goal)) as [|Hne]; [done|]. destruct (visits_settle 0 s Hs) as (_ & _ & Hlt). specialize (Hlt Hne). lia.
  - destruct (visits_settle n s Hs) as (Hw & Hstay & Hlt). apply IH; [done|]. destruct (decide (s = goal)) as [Hg|Hne].
    + rewrite (Hstay Hg). rewrite to_rest_goal. lia.
    + specialize (Hlt Hne). lia.
Qed.
End Rounds.

(** ** The closed loop *)
Section Closed.
Context `{CmlData} (cfg : settings) (w : worker) (services : ec2 -> Services) (instance : ec2 -> instance_state).

Definition with_status (st : CMLWorkerStatus) : worker := w <| w_status := CMLWorkerStatus_value st |>.

(** A visit in the state [c] of the controller, and what it makes of worker and instance. *)
Definition visit (s : system) (c : controller) : system :=
  fold_left obey (steps (drop (length (log c)) (log (reconcile (H0 := services s.2) cfg (with_status s.1) c).2))) s.

(** At least one visit, then the instance settles. *)
Definition round (s : system) (cs : controller * list controller) : system := settled (fold_left visit (cs.1 :: cs.2) s).

(** What EC2 says is so; no sync is asked for, and there is no scale-down. *)
Record ordinary : Prop := {
  no_sync e c : (check_pending_sync (H0 := services e) cfg (w_id w) c).1 = Ok None;
  closes e : monitoring_stops (H0 := services e) w;
  ec2_is e : ec2_says (H0 := services e) w (Some (instance e));
  named e : e_state (instance e) = ec2_name e;
  launched : ostr_truthy (w_ec2_instance_id w) = true;
  no_scale_down : scale_down_enabled cfg = false
}.

Lemma visit_planned s c : ordinary -> s.1 <> PENDING -> visit s c = planned_visit (w_desired_status w) s.
Proof.
  intros Ho Hp. unfold visit, planned_visit.
  destruct (visit_takes_plan (H0 := services s.2) cfg (with_status s.1) s.1 (Some (instance s.2)) c eq_refl Hp (no_sync Ho _) (closes Ho _) (ec2_is Ho _))
    as (tail & (l & Hl & Hsteps) & Htail).
  assert (tail = []) as -> by (destruct Htail as [->|(_ & _ & _ & He)]; [done|by rewrite (no_scale_down Ho) in He]).
  rewrite Hl, drop_app_length, Hsteps, app_nil_r. unfold planned. cbn [fmap option_fmap option_map with_status].
  by rewrite (named Ho), (launched Ho : ostr_truthy (w_ec2_instance_id (with_status s.1)) = true).
Qed.

(** (C26) A worker comes to rest as it is wanted: running, stopped or terminated with its
    instance, from every state on the way, after eight rounds at most, and it stays there. *)
Theorem worker_comes_to_rest desired goal rounds s :
  ordinary -> w_desired_status w = CMLWorkerStatus_value desired -> rest desired = Some goal -> on_way desired s = true ->
  (8 <= length rounds)%nat -> fold_left round rounds s = goal.
Proof.
  intros Ho Hw Hg Hs Hlen.
  assert (forall s (cs : list controller), on_way desired s = true ->
    fold_left visit cs s = Nat.iter (length cs) (planned_visit (CMLWorkerStatus_value desired)) s) as Hiter.
  { clear s Hs. intros s cs. revert s. induction cs as [|c cs IH]; intros s Hs; [done|]. cbn [fold_left length].
    rewrite Nat.iter_succ_r, (visit_planned s c Ho), Hw by (by eapply on_way_launched).
    apply IH. pose proof (all_nearer desired s ltac:(by rewrite Hg) Hs) as Hn. unfold nearer in Hn. by rewrite !andb_true_iff in Hn; destruct Hn as [[[[[Hv _] _] _] _] _]. }
  assert (forall rs s, on_way desired s = true -> fold_left round rs s
    = fold_left (fun s n => settled (Nat.iter (S n) (planned_visit (CMLWorkerStatus_value desired)) s)) (map (fun cs => length cs.2) rs) s) as Hrounds.
  { clear s Hs Hlen. intros rs. induction rs as [|cs rs IH]; intros s Hs; [done|]. cbn [fold_left map]. unfold round at 2.
    rewrite (Hiter s (cs.1 :: cs.2) Hs). apply IH. by destruct (visits_settle desired goal Hg (length cs.2) s Hs). }
  rewrite (Hrounds rounds s Hs). eapply rounds_rest; [done|done|]. rewrite length_map.
  pose proof (all_nearer desired s ltac:(by rewrite Hg) Hs) as Hn. unfold nearer in Hn. rewrite !andb_true_iff in Hn.
  destruct Hn as [[_ H8%Nat.leb_le] _]. lia.
Qed.
End Closed.

(** ** Where a worker stays

    No handler answers an instance that went away under a worker on its way up or down. *)
Definition stuck (s : system) : bool :=
  match s with
  | (PROVISIONING, (Stopping | Stopped | ShuttingDown | Terminated))
  | ((STARTING | STOPPING | DRAINING), (ShuttingDown | Terminated)) => true
  | _ => false
  end.

Lemma stuck_launched s : stuck s = true -> s.1 <> PENDING.
Proof. by destruct s as [[] []]. Qed.
Lemma stuck_visit desired s : stuck s = true -> planned_visit desired s = s.
Proof. by destruct s as [[] []]. Qed.
Lemma stuck_settled s : stuck s = true -> stuck (settled s) = true /\ (settled s).1 = s.1.
Proof. by destruct s as [[] []]. Qed.

Section Stuck.
Context `{CmlData} (cfg : settings) (w : worker) (services : ec2 -> Services) (instance : ec2 -> instance_state).

End Stuck.

(** ** A launch *)
Section Launch.
Context `{Services} (cfg : settings).

(** What a visit of a PENDING worker may do. *)
Definition pending_steps : list (list step) :=
  [[]; [Becomes FAILED]; [Launches; Becomes FAILED]; [Launches; Becomes PROVISIONING];
   [Launches; Becomes PROVISIONING; Becomes FAILED]].

(** Before the launch nothing is done; after it only the status is told. *)
Lemma launch_takes w template instance_type subnet rc ami c :
  exists p, takes p c (launch w template instance_type subnet rc ami c).2 /\
    match (launch w template instance_type subnet rc ami c).1 with
    | Ok _ => p = [Launches; Becomes PROVISIONING]
    | Err _ => p = [Launches] \/ p = [Launches; Becomes PROVISIONING]
    end.
Proof.
  unfold launch, mbind, prog_bind.
  set (q := RunInstance _ _ _ _ _ _). pose proof (ask_step q Launches c eq_refl) as Hl.
  destruct (ask q c) as [[i|e] c1]; cbn in Hl |- *; [|exists [Launches]; by auto].
  pose proof (update_step (w_id w) PROVISIONING (Some i) c1) as Hu.
  destruct (update_worker_status _ _ _ c1) as [[[]|e] c2]; cbn in Hu |- *; exists [Launches; Becomes PROVISIONING]; (split; [|by auto]).
  - eapply (takes_app [Launches] [Becomes PROVISIONING]); [done|]. destruct Hu as (l & Hl2 & Hs). by exists l.
  - by eapply (takes_app [Launches] [Becomes PROVISIONING]).
Qed.

(** Programs whose last step, if any, is such a launch. *)
Definition launching (m : prog ReconciliationResult) : Prop := forall c,
  exists p, takes p c (m c).2 /\
    match (m c).1 with
    | Ok _ => p = [] \/ p = [Launches; Becomes PROVISIONING]
    | Err _ => p = [] \/ p = [Launches] \/ p = [Launches; Becomes PROVISIONING]
    end.

Lemma launching_quiet m : quiet m -> launching m.
Proof. intros Hm c. exists []. split; [by apply quiet_takes|]. destruct (m c).1; by left. Qed.

Lemma launching_bind {A} (m : prog A) f : quiet m -> (forall a, launching (f a)) -> launching (m ≫= f).
Proof.
  intros Hm Hf c. pose proof (quiet_takes m c Hm) as Hc. unfold mbind, prog_bind.
  destruct (m c) as [[a|e] c1]; cbn in Hc |- *; [|exists []; by auto].
  destruct (Hf a c1) as (p & Hp & Hr). exists p. split; [|done]. by eapply (takes_app []).
Qed.

Lemma launching_launch w template instance_type subnet rc ami : launching (launch w template instance_type subnet rc ami).
Proof. intros c. destruct (launch_takes w template instance_type subnet rc ami c) as (p & Hp & Hr). exists p. split; [done|]. destruct (_ : res _); auto. Qed.

Lemma launching_provision w : launching (provision cfg w).
Proof.
  unfold provision, answer_failed.
  repeat first
    [ apply launching_launch | apply launching_bind; [by quiet_visit|intros ?]
    | apply launching_quiet; by quiet_visit | case_match ].
Qed.

Lemma pending_takes w c : exists p, takes p c (handle_pending cfg w c).2 /\ p ∈ pending_steps.
Proof.
  unfold handle_pending, try_. destruct (launching_provision w c) as (p & Hp & Hr).
  destruct (provision cfg w c) as [[r|e] c1]; cbn in Hp, Hr |- *.
  - exists p. split; [done|]. unfold pending_steps. destruct Hr as [-> | ->]; set_solver.
  - assert (takes [Becomes FAILED] c1 ((_ ← ignore_errors (update_worker_status (w_id w) FAILED None); answer_failed (exn_str e)) c1).2) as Hf.
    { apply takes_then; [|intros ?; unfold answer_failed; quiet_visit].
      pose proof (update_step (w_id w) FAILED None c1) as Hu. unfold ignore_errors, or_return, try_.
      by destruct (update_worker_status _ _ _ c1) as [[[]|e'] c2]. }
    exists (p ++ [Becomes FAILED]). split; [by eapply takes_app|]. unfold pending_steps. destruct Hr as [-> |[-> | ->]]; set_solver.
Qed.
End Launch.

(** ** Examples *)

Definition example_data : CmlData := {| system_info := (); system_stats := (); system_health := (); license_info := () |}.

(** Services where every command is taken, CML is healthy and idle, and EC2 has the instance as [s]. *)
Definition example_services (s : option instance_state) (workers : list pydict) : Services (H := example_data) := {|
  clock h := Z.of_nat (length h);
  answer A h c :=
    match c in @call _ A return res A with
    | GetInstanceState _ _ => Ok s
    | GetWorker _ => Ok []
    | GetWorkers _ _ => Ok workers
    | GetWorkerTemplate _ => Ok [("instance_type", PStr "c5.2xlarge"); ("ami_name_pattern", PStr "cml*")]
    | GetAmiIdsByName _ _ => Ok ["ami-1"]
    | ListInstancesByAmi _ _ => Ok []
    | RunInstance _ _ _ _ _ _ => Ok "i-1"
    | DetectWorkerIdle _ _ => Ok []
    | GetDiscoverySettings => Ok []
    | BulkImportWorkers _ _ _ => Ok []
    | DescribeImage _ => Ok None
    | CheckHealth _ => Ok (true, "")
    | GetTelemetryEvents _ => Ok []
    | RegisterLicense _ _ | DeregisterLicense _ => Ok (true, "")
    | GetSystemInfo _ => Ok (tt : system_info (CmlData := example_data))
    | GetSystemStats _ => Ok (tt : system_stats (CmlData := example_data))
    | GetSystemHealth _ => Ok (tt : system_health (CmlData := example_data))
    | GetLicenseInfo _ => Ok (tt : license_info (CmlData := example_data))
    | DrainActivityEvents _ => Ok None
    | MonitorHasStats _ => Ok false
    | GetSync _ => Ok NoSync
    | Now => Ok (utc (Z.of_nat (length h)))
    | _ => Ok ()
    end
|}.

Definition example_instance (state : string) : instance_state :=
  {| e_instance_id := "i-1"; e_state := state; e_public_ip := Some "198.51.100.7"; e_private_ip := None; e_instance_type := None;
     e_image_id := None; e_launch_time := None; e_name := None |}.

Definition example_worker (status desired : CMLWorkerStatus) : worker :=
  {| w_id := "w1"; w_name := "one"; w_status := CMLWorkerStatus_value status; w_desired_status := CMLWorkerStatus_value desired;
     w_ec2_instance_id := Some "i-1"; w_ip_address := Some "198.51.100.7"; w_public_ip := None; w_private_ip := None;
     w_template_name := None; w_instance_type := None; w_ami_name := None; w_aws_region := None; w_cml_username := None;
     w_cml_password := None; w_is_idle_detection_enabled := true; w_refresh_requested_at := PNone; w_pending_token := None;
     w_pending_operation := None |}.

Definition example_settings : settings :=
  {| aws_region := "us-east-1"; region_configs := []; etcd_key_prefix := "/lcm/"; cml_websocket_enabled := true;
     scale_down_enabled := false; min_workers := 1; scale_down_cooldown_seconds := 300; worker_discovery_enabled := true;
     worker_discovery_interval := 300; worker_discovery_ami_name := Some "cml*"; worker_discovery_regions := "us-east-1";
     ws_registry := true; etcd_configured := true |}.

Lemma visit_follows_plan_witness :
  exists tail, takes (H := example_data) ([Becomes TERMINATED] ++ tail) (new_controller (H := example_data))
    (reconcile (H0 := example_services None []) example_settings (example_worker STOPPED RUNNING) new_controller).2 /\
    (tail = [] \/ tail = [Drains] /\ STOPPED = RUNNING /\ [Becomes TERMINATED] = [] /\ scale_down_enabled example_settings = true).
Proof.
  apply (visit_follows_plan (H0 := example_services None []) example_settings (example_worker STOPPED RUNNING) STOPPED None);
    [reflexivity|done|reflexivity|intros h; reflexivity|intros _ h; reflexivity].
Defined.

Lemma example_ordinary desired :
  ordinary (H := example_data) example_settings (example_worker RUNNING desired)
    (fun e => example_services (Some (example_instance (ec2_name e))) []) (fun e => example_instance (ec2_name e)).
Proof. split; repeat intros ?; reflexivity. Qed.

(** A stopped worker that is wanted runs after eight rounds of two visits each. *)
Lemma worker_comes_to_rest_witness :
  fold_left (round (H := example_data) example_settings (example_worker RUNNING RUNNING)
               (fun e => example_services (Some (example_instance (ec2_name e))) []))
    (replicate 8 (new_controller, [new_controller])) (STOPPED, Stopped) = (RUNNING, Running).
Proof.
  apply (worker_comes_to_rest (H := example_data) _ _ _ _ RUNNING _ _ _ (example_ordinary RUNNING)); first [reflexivity | cbn; lia].
Defined.

