(* ===== verification/WorkerDiscovery.v ===== *)
(** * The loops beside the visits of the worker reconciler

    ([worker-controller/application/hosted_services/worker_reconciler.py])

    The discovery of instances and of orphans, the collection of metrics, and what the
    connections to the event stream of CML report. *)
From S2P Require Import Prelude PyData Enums Programs Reconciliation WorkerVisits.
From Stdlib Require Import Ascii.
Import WorkerStatus.

Definition comma : Ascii.ascii := ","%char.

(** [Settings.discovery_regions] *)
Definition discovery_regions (cfg : settings) : list string :=
  if str_truthy (worker_discovery_regions cfg) then
    List.filter str_truthy (map py_strip (py_split comma (worker_discovery_regions cfg)))
  else [aws_region cfg].

(** [_DISCOVERY_SETTINGS_CACHE_TTL] *)
Definition discovery_settings_cache_ttl : Z := 300.

Section Discovery.
Context `{Services} (cfg : settings).

(** ** Settings *)

(** The settings of the API, taken when they name a region. *)
Definition api_discovery_settings (t : datetime) (api : pydict) : res (option discovery_settings) :=
  if negb (truthy (pd_get "regions" api)) then Ok None
  else
    enabled ← as_bool (pd_get_or "enabled" (PBool true) api);
    regions ← as_str_list (pd_get_or "regions" (PList []) api);
    pattern ← as_str (pd_get_or "ami_name_pattern" (PStr "") api);
    interval ← as_int (pd_get_or "scan_interval_seconds" (PInt 300) api);
    Ok (Some {| ds_enabled := enabled; ds_regions := regions; ds_ami_name_pattern := pattern;
                ds_scan_interval_seconds := interval; ds_fetched_at := t |}).

Definition env_discovery_settings (t : datetime) : discovery_settings :=
  {| ds_enabled := worker_discovery_enabled cfg; ds_regions := discovery_regions cfg;
     ds_ami_name_pattern := default "" (worker_discovery_ami_name cfg);
     ds_scan_interval_seconds := worker_discovery_interval cfg; ds_fetched_at := t |}.

Definition keep_settings (d : discovery_settings) : prog discovery_settings :=
  _ ← write (fun c => c <| cached_discovery_settings := Some d |>); mret d.

(** The settings kept, while they are fresh. *)
Definition fresh_settings (t : datetime) (kept : option discovery_settings) : option discovery_settings :=
  match kept with
  | Some d => if dt_us t - dt_us (ds_fetched_at d) <? seconds discovery_settings_cache_ttl then Some d else None
  | None => None
  end.

(** [_get_discovery_settings] *)
Definition get_discovery_settings : prog discovery_settings :=
  t ← now;
  kept ← read cached_discovery_settings;
  match fresh_settings t kept with
  | Some d => mret d
  | None =>
      fetched ← or_return (api ← ask GetDiscoverySettings; lift (api_discovery_settings t api)) None;
      keep_settings (default (env_discovery_settings t) fetched)
  end.

(** ** A run *)

(** [_discover_in_region]: how many were found and imported, and the instances seen. *)
Definition discover_in_region (region pattern : string) : prog (Z * Z * gset string) :=
  let ami_pattern := if str_truthy pattern then pattern else default "" (worker_discovery_ami_name cfg) in
  or_return (
    ami_ids ← ask (GetAmiIdsByName (Some region) ami_pattern);
    match ami_ids with
    | [] => mret (0, 0, ∅)
    | _ =>
        instances ← ask (ListInstancesByAmi region ami_ids);
        match instances with
        | [] => mret (0, 0, ∅)
        | _ =>
            result ← ask (BulkImportWorkers instances region "worker-controller-discovery");
            total_imported ← lift (as_int (pd_get_or "total_imported" (PInt 0) result));
            total_found ← lift (as_int (pd_get_or "total_found" (PInt (Z.of_nat (length instances))) result));
            mret (total_found, total_imported, list_to_set (map e_instance_id instances))
        end
    end) (0, 0, ∅).

(** The status of a stored worker, UNKNOWN when it is none. *)
Definition stored_status (worker : pydict) : CMLWorkerStatus :=
  match as_str (py_or (pd_get "status" worker) (PStr "")) with
  | Ok s => match enum_call s with Ok st => st | Err _ => UNKNOWN end
  | Err _ => UNKNOWN
  end.

(** What the loop asks about a worker: its instance, when it has one, is not over already and
    was not seen. *)
Definition orphan_candidate (seen : gset string) (worker : pydict) : res (option (string * string)) :=
  instance ← as_ostr (py_or (pd_get "ec2_instance_id" worker) (pd_get "aws_instance_id" worker));
  worker_id ← as_ostr (pd_get "id" worker);
  Ok (if negb (ostr_truthy instance) || negb (ostr_truthy worker_id) then None
      else if bool_decide (stored_status worker ∈ [TERMINATED; SHUTTING_DOWN]) then None
      else if bool_decide (default "" instance ∈ seen) then None
      else Some (default "" worker_id, default "" instance)).

(** One turn: EC2 is asked before a worker is given up. *)
Definition collect_orphan (region : string) (worker_id instance : string) : prog Z :=
  state ← ask (GetInstanceState (Some region) instance);
  if (match state with None => true | Some s => String.eqb (e_state s) "terminated" end)
  then or_return (_ ← ask (MarkWorkerTerminated worker_id "orphan_detection" "worker-controller-discovery"); mret 1) 0
  else mret 0.

Fixpoint collect_orphans (region : string) (seen : gset string) (workers : list pydict) (count : Z) : prog Z :=
  match workers with
  | [] => mret count
  | w :: workers =>
      candidate ← lift (orphan_candidate seen w);
      n ← match candidate with Some (worker_id, instance) => collect_orphan region worker_id instance | None => mret 0 end;
      collect_orphans region seen workers (count + n)
  end.

(** [_garbage_collect_orphans] *)
Definition garbage_collect_orphans (region : string) (seen : gset string) : prog Z :=
  or_return (db_workers ← ask (GetWorkers None (Some region)); collect_orphans region seen db_workers 0) 0.

(** The loop over the regions: found, imported and given up. *)
Fixpoint discover_regions (pattern : string) (regions : list string) : prog (Z * Z * Z) :=
  match regions with
  | [] => mret (0, 0, 0)
  | region :: regions =>
      '(found, imported, seen) ← discover_in_region region pattern;
      orphans ← garbage_collect_orphans region seen;
      '(f, i, o) ← discover_regions pattern regions;
      mret (found + f, imported + i, orphans + o)
  end.

(** [_run_discovery] *)
Definition run_discovery (d : discovery_settings) : prog () :=
  _ ← write (fun c => c <| discovery_runs := discovery_runs c + 1 |>);
  t ← now;
  _ ← write (fun c => c <| last_discovery_at := Some t |>);
  '(found, imported, orphans) ← discover_regions (ds_ami_name_pattern d) (ds_regions d);
  write (fun c => c <| total_discovered := total_discovered c + found |> <| total_imported := total_imported c + imported |>
                    <| total_orphans_terminated := total_orphans_terminated c + orphans |>).

(** One turn of [_run_discovery_loop]; an error is logged. *)
Definition discovery_turn : prog () :=
  ignore_errors (d ← get_discovery_settings; if ds_enabled d then run_discovery d else mret ()).

(** ** Metrics *)

(** [_collect_and_report_metrics] *)
Definition collect_metrics_cml (w : worker) : prog (option system_stats) :=
  if negb (ostr_truthy (w_ip_address w)) then mret None
  else
    _ ← when (ws_registry cfg && cml_websocket_enabled cfg) (ensure_monitoring w);
    pushed ← (if ws_registry cfg then ask (MonitorHasStats (w_id w)) else mret false);
    if pushed : bool then mret None else attempt (ask (GetSystemStats (default "" (w_ip_address w)))).

Definition collect_and_report_metrics (w : worker) : prog () :=
  t ← now;
  _ ← now;
  ec2 ← (if ostr_truthy (w_ec2_instance_id w)
         then r ← attempt (ask (GetEc2Metrics (default "" (w_ec2_instance_id w)))); mret (match r with Some _ => true | None => false end)
         else mret false);
  cml ← collect_metrics_cml w;
  _ ← ignore_errors (ask (ReportMetrics (w_id w) t ec2 cml));
  _ ← when (ostr_truthy (w_ip_address w)) (collect_and_report_cml_data w t);
  when (ostr_truthy (w_ec2_instance_id w) && negb (ostr_truthy (w_ami_name w))) (on_demand_refresh w).

(** The loop of [_collect_all_worker_metrics] *)
Fixpoint collect_each (workers : list worker) : prog () :=
  match workers with
  | [] => mret ()
  | w :: workers =>
      _ ← ignore_errors (_ ← collect_and_report_metrics w; write (fun c => c <| metrics_collected_count := metrics_collected_count c + 1 |>));
      collect_each workers
  end.

Definition collect_all_worker_metrics : prog () :=
  workers_data ← attempt (ask (GetWorkers (Some RUNNING) None));
  match workers_data with
  | None | Some [] => mret ()
  | Some data => workers ← lift (mapM worker_from_dict data); collect_each workers
  end.

(** ** What the connections report *)

(** [_on_ws_lab_stats]: a lab that is not known yet is looked for. *)
Definition on_ws_lab_stats (worker_id lab_id : string) : prog () :=
  known ← read (fun c => default ∅ (known_lab_ids c !! worker_id));
  _ ← when (negb (bool_decide (lab_id ∈ known))) (
        _ ← write (fun c => c <| known_lab_ids := <[worker_id := {[lab_id]} ∪ known]> (known_lab_ids c) |>);
        ignore_errors (ask (TriggerLabDiscovery worker_id [lab_id] "websocket-lab-stats")));
  ignore_errors (ask (ReportLabStats worker_id lab_id)).

(** [_on_ws_connection_change]: what is known is forgotten when the connection goes. *)
Definition on_ws_connection_change (worker_id : string) (connected : bool) : prog () :=
  _ ← ignore_errors (ask (ReportWsStatus worker_id connected));
  when (negb connected) (write (fun c => c <| known_lab_ids := delete worker_id (known_lab_ids c) |>)).
End Discovery.

(** * What the loops beside the visits do

    A worker is given up only when EC2 has just said that its instance is gone; the settings
    of the discovery are asked for again when they are old; a lab is reported as new once. *)
From S2P Require Import Prelude PyData Enums Programs Reconciliation WorkerVisits WorkerVisitsProps.
Import WorkerStatus.

Section Orphans.
Context `{Services} (cfg : settings).

(** The worker that an event gives up. *)
Definition marked (e : event) : option string :=
  match e with Ev c => match c with MarkWorkerTerminated worker_id _ _ => Some worker_id | _ => None end end.

(** At [h], EC2 says that the instance is gone. *)
Definition instance_gone (h : list event) (region instance : string) : Prop :=
  exists s, answer _ h (GetInstanceState (Some region) instance) = Ok s /\
    match s with None => True | Some s => e_state s = "terminated" end.

(** A worker that the control plane has in a region. *)
Definition stored_in (region : string) (d : pydict) : Prop :=
  exists h ds, answer _ h (GetWorkers None (Some region)) = Ok ds /\ d ∈ ds.

(** In [l], after [h], a worker is given up just after EC2 said that its instance is gone: it is
    stored, and not over. *)
Definition justified (h l : list event) : Prop :=
  forall l1 e l2 worker_id, l = l1 ++ e :: l2 -> marked e = Some worker_id ->
    exists l0 region instance d,
      l1 = l0 ++ [Ev (GetInstanceState (Some region) instance)] /\ instance_gone (h ++ l0) region instance /\
      stored_in region d /\ orphan_candidate ∅ d = Ok (Some (worker_id, instance)).

Definition careful (c c' : controller) : Prop := exists l, log c' = log c ++ l /\ justified (log c) l.

#[local] Instance careful_preorder : PreOrder careful.
Proof.
  split.
  - intros c. exists []. split; [by rewrite app_nil_r|]. intros [] ? ? ? [=].
  - intros c1 c2 c3 (l & H1 & J1) (l' & H2 & J2). exists (l ++ l'). split; [by rewrite H2, H1, app_assoc|].
    rewrite H1 in J2. intros l1 e l2 i Hl Hm. symmetry in Hl. apply app_eq_app in Hl as (k & [[-> Hk]|[-> Hk]]).
    + destruct (J2 _ _ _ _ Hk Hm) as (l0 & region & instance & d & -> & Hg & Hd).
      exists (l ++ l0), region, instance, d. rewrite <- !app_assoc in *. eauto.
    + destruct k as [|e' k]; cbn in Hk.
      * destruct (J2 [] e l2 i (eq_sym Hk) Hm) as (l0 & ? & ? & ? & Hn & _). by destruct l0.
      * injection Hk as -> ->. by eapply J1.
Qed.

Definition no_mark (e : event) : bool := match marked e with None => true | Some _ => false end.

Lemma careful_adds {A} (m : prog A) : within (adds no_mark) m -> within careful m.
Proof.
  intros Hm c. destruct (Hm c) as (l & Hl & Hn). exists l. split; [done|]. intros l1 e l2 i -> He.
  rewrite forallb_app in Hn. apply andb_prop in Hn as [_ Hn]. cbn in Hn. unfold no_mark in Hn. by rewrite He in Hn.
Qed.

Lemma careful_ask {A B} (q : call A) (f : A -> prog B) :
  no_mark (Ev q) = true -> (forall h a, answer _ h q = Ok a -> within careful (f a)) -> within careful (ask q ≫= f).
Proof.
  intros Hq Hf c. pose proof (careful_adds _ (adds_ask no_mark q Hq) c) as Hc. unfold mbind, prog_bind.
  destruct (ask q c) as [r c1] eqn:E. cbn in Hc. injection E as Hr Hc1. subst c1. destruct r as [a|e]; [|done].
  etrans; [exact Hc|]. by eapply Hf.
Qed.
Lemma careful_ret {A} (a : A) : within careful (mret a).
Proof. apply (within_ret careful). Qed.
Lemma careful_or_return {A} (m : prog A) x : within careful m -> within careful (or_return m x).
Proof. intros Hm. apply (within_try careful); [done|]. intros e. apply careful_ret. Qed.

(** What was seen only leaves workers out. *)
Lemma candidate_unseen seen d x : orphan_candidate seen d = Ok (Some x) -> orphan_candidate ∅ d = Ok (Some x).
Proof.
  unfold orphan_candidate. intros (i & -> & (w & -> & Ho)%bind_ok)%bind_ok. cbn. repeat case_match; try done.
Qed.

Lemma mark_run (k : call ()) c : exists r, or_return (_ ← ask k; mret 1) 0 c = (r, c <| log := log c ++ [Ev k] |>).
Proof. unfold or_return, try_, mbind, prog_bind, ask. destruct (answer _ _ k); by eexists. Qed.

Lemma careful_collect_orphan region d worker_id instance :
  stored_in region d -> orphan_candidate ∅ d = Ok (Some (worker_id, instance)) -> within careful (collect_orphan region worker_id instance).
Proof.
  intros Hd Ho c. unfold collect_orphan. set (q := GetInstanceState (Some region) instance).
  destruct (answer _ (log c) q) as [s|e] eqn:Hr.
  2:{ unfold mbind, prog_bind, ask. rewrite Hr. apply (careful_adds _ (adds_ask no_mark q eq_refl) c). }
  rewrite (run_bind (ask q) _ c s (c <| log := log c ++ [Ev q] |>)) by (unfold ask; by rewrite Hr).
  destruct (match s with None => true | Some s => String.eqb (e_state s) "terminated" end) eqn:Hg.
  2:{ pose proof (careful_adds _ (adds_ask no_mark q eq_refl) c) as Hc. unfold ask in Hc. by rewrite Hr in Hc. }
  set (k := MarkWorkerTerminated worker_id "orphan_detection" "worker-controller-discovery").
  destruct (mark_run k (c <| log := log c ++ [Ev q] |>)) as (r2 & E). rewrite E. exists [Ev q; Ev k].
  split; [cbn; by rewrite <- app_assoc|].
  intros l1 e l2 i Hl He. destruct l1 as [|e1 l1]; [injection Hl as <- <-; by cbn in He|].
  destruct l1 as [|e2 l1]; [|destruct l1; discriminate]. injection Hl as <- <- <-. cbn in He. injection He as <-.
  exists [], region, instance, d. split; [done|]. split; [|done]. exists s. rewrite app_nil_r. split; [done|].
  destruct s as [x|]; [by apply String.eqb_eq|done].
Qed.

Lemma careful_collect_orphans region seen workers n :
  (forall d, d ∈ workers -> stored_in region d) -> within careful (collect_orphans region seen workers n).
Proof.
  revert n. induction workers as [|d workers IH]; intros n Hd; [apply careful_ret|]. cbn [collect_orphans].
  intros c. destruct (orphan_candidate seen d) as [x|e] eqn:Ho; [|cbn; reflexivity]. revert c.
  change (within careful ((n0 ← match x with Some (worker_id, instance) => collect_orphan region worker_id instance | None => mret 0 end;
    collect_orphans region seen workers (n + n0)))).
  apply (within_bind careful); [|intros m; apply IH; set_solver].
  destruct x as [[i instance]|]; [|apply careful_ret]. apply careful_collect_orphan with d; [set_solver|by eapply candidate_unseen].
Qed.

Lemma careful_garbage region seen : within careful (garbage_collect_orphans region seen).
Proof.
  apply careful_or_return, careful_ask; [done|]. intros h ds Hds. apply careful_collect_orphans.
  intros d Hin. by exists h, ds.
Qed.

Lemma careful_discover_in region pattern : within careful (discover_in_region cfg region pattern).
Proof. apply careful_adds. unfold discover_in_region. quiet_visit. Qed.

Lemma careful_regions pattern regions : within careful (discover_regions cfg pattern regions).
Proof.
  induction regions as [|region regions IH]; [apply careful_ret|]. cbn [discover_regions].
  apply (within_bind careful); [apply careful_discover_in|]. intros [[found imported] seen].
  apply (within_bind careful); [apply careful_garbage|]. intros orphans.
  apply (within_bind careful); [done|]. intros [[f i] o]. apply careful_ret.
Qed.

Lemma careful_settings : within careful (get_discovery_settings cfg).
Proof. apply careful_adds. unfold get_discovery_settings, keep_settings. quiet_visit. Qed.

Lemma careful_turn : within careful (discovery_turn cfg).
Proof.
  apply careful_or_return, (within_bind careful); [apply careful_settings|]. intros d. destruct (ds_enabled d); [|apply careful_ret].
  unfold run_discovery.
  apply (within_bind careful); [apply careful_adds; quiet_visit|]. intros ?.
  apply (within_bind careful); [apply careful_adds; quiet_visit|]. intros ?.
  apply (within_bind careful); [apply careful_adds; quiet_visit|]. intros ?.
  apply (within_bind careful); [apply careful_regions|]. intros [[f i] o]. apply careful_adds. quiet_visit.
Qed.

(** (C28) The discovery gives a worker up only on the word of EC2: whenever a turn marks a worker
    as terminated, the call just before it asked for its instance, a worker of that region that
    the control plane has and that was not over, and EC2 said that it is gone. *)
Theorem orphans_are_gone c l1 e l2 worker_id :
  log (discovery_turn cfg c).2 = log c ++ l1 ++ e :: l2 -> marked e = Some worker_id ->
  exists l0 region instance d,
    l1 = l0 ++ [Ev (GetInstanceState (Some region) instance)] /\ instance_gone (log c ++ l0) region instance /\
    stored_in region d /\ orphan_candidate ∅ d = Ok (Some (worker_id, instance)).
Proof.
  intros Hl He. destruct (careful_turn c) as (l & Hl' & Hj). rewrite Hl in Hl'. apply app_inv_head in Hl' as <-. by eapply Hj.
Qed.
End Orphans.

(** ** Example: an instance that is gone *)
Definition example_lost : pydict := [("id", PStr "w1"); ("ec2_instance_id", PStr "i-1"); ("status", PStr "running")].

Lemma orphans_are_gone_witness :
  exists l0 region instance d,
    [Ev Now; Ev GetDiscoverySettings; Ev Now; Ev (GetAmiIdsByName (Some "us-east-1") "cml*"); Ev (ListInstancesByAmi "us-east-1" ["ami-1"]);
     Ev (GetWorkers None (Some "us-east-1")); Ev (GetInstanceState (Some "us-east-1") "i-1")]
      = l0 ++ [Ev (GetInstanceState (Some region) instance)] /\
    instance_gone (H := example_data) (H0 := example_services None [example_lost]) ([] ++ l0) region instance /\
    stored_in (H0 := example_services None [example_lost]) region d /\ orphan_candidate ∅ d = Ok (Some ("w1", instance)).
Proof.
  apply (orphans_are_gone (H := example_data) (H0 := example_services None [example_lost]) example_settings new_controller _
    (Ev (MarkWorkerTerminated "w1" "orphan_detection" "worker-controller-discovery")) []); vm_compute; reflexivity.
Defined.
