(* ===== verification/ReconciliationProps.v ===== *)
(** * Properties of the reconciliation loop

    What each outcome of an attempt does to the resource, the default backoff on
    every count of failures, the bound of the semaphore, and mutual exclusion of
    the attempts on a resource: kept by cycles that follow each other, broken by
    attempts that a watch event triggers. *)
From S2P Require Import Prelude PyFloat PyData PyNum Reconciliation.
From Stdlib Require Import Floats.SpecFloat.

(** ** The powers of two *)

(** [2.0 ** n] *)
Definition two_to (n : Z) : float := S754_finite false 4503599627370496 (n - 52).

(** What the backoff relies on: [pow] is exact on powers of two, and raises past
    the largest float. *)
Class FloatPowLaws `{FloatPow} : Prop := {
  pow_two n : 0 <= n < 1024 -> float_pow f_2 n = Ok (two_to n);
  pow_two_overflow n : 1024 <= n -> exists m, float_pow f_2 n = Err (OverflowError m)
}.

(** The delay before retry [n] in the default configuration. *)
Definition default_delay (n : Z) : float := if n <=? 6 then two_to (n - 1) else f_60.

(** Evaluated for each count that has a power. *)
Lemma default_delays :
  forallb (fun n => match fmin (fmul f_1 (two_to n)) f_60, default_delay (n + 1) with
                    | S754_finite false m e, S754_finite false m' e' => (m =? m')%positive && (e =? e')
                    | _, _ => false
                    end) (seqZ 0 1024) = true.
Proof. vm_compute. reflexivity. Qed.

Lemma default_delay_eq n : 0 <= n < 1024 -> fmin (fmul f_1 (two_to n)) f_60 = default_delay (n + 1).
Proof.
  intros Hn. pose proof default_delays as Hd. rewrite forallb_forall in Hd.
  specialize (Hd n). rewrite <- list_elem_of_In, elem_of_seqZ in Hd. specialize (Hd ltac:(lia)).
  destruct (fmin _ _) as [|? |  |[] m e]; try done. destruct (default_delay _) as [| | |[] m' e']; try done.
  apply andb_true_iff in Hd as [->%Pos.eqb_eq ->%Z.eqb_eq]. done.
Qed.

Lemma default_backoff `{FloatPowLaws} n : 1 <= n ->
  if n <=? 1024 then calculate_backoff default_config n = Ok (default_delay n)
  else exists m, calculate_backoff default_config n = Err (OverflowError m).
Proof.
  intros Hn. unfold calculate_backoff. change (backoff_multiplier default_config) with f_2.
  destruct (Z.leb_spec n 1024).
  - rewrite pow_two by lia. cbn [mbind res_bind]. f_equal.
    change (backoff_initial_seconds default_config) with f_1.
    change (backoff_max_seconds default_config) with f_60. rewrite default_delay_eq by lia. f_equal. lia.
  - destruct (pow_two_overflow (n - 1)) as [m ->]; [lia|]. by exists m.
Qed.

(** ** One attempt *)

Lemma state_set_eq i s v : state_of i (set_state i s v) = s.
Proof. unfold state_of, set_state. cbn. by rewrite lookup_insert_eq. Qed.
Lemma state_written_ne i j s v v' : i <> j -> resource_states v' = <[i := s]> (resource_states v) ->
  state_of j v' = state_of j v.
Proof. intros Hij Hv. unfold state_of. by rewrite Hv, lookup_insert_ne. Qed.
Lemma state_set_ne i j s v : i <> j -> state_of j (set_state i s v) = state_of j v.
Proof. intros Hij. by eapply state_written_ne. Qed.
#[export] Hint Rewrite state_set_eq : lcm.

(** Reads the resource that was just written. *)
Ltac read_back := unfold state_of, set_state; cbn; rewrite ?lookup_insert_eq; cbn.

Definition is_failure (o : outcome) : Prop :=
  match o with Returned r => result_status r = FAILED | Raised _ => True end.

(** A failed attempt under the default configuration: the first 1024 failures in
    a row delay the retry by one second, doubled up to a minute; after that
    computing the delay raises [OverflowError], the failure is not counted, and
    the time of the next retry stays what it was, so that the resource is tried
    again in every cycle.  In both cases the attempt ends. *)
Theorem failure_backoff `{FloatPowLaws} now i o v :
  is_failure o -> 0 <= failure_count (state_of i v) ->
  let '(r, v') := finish_attempt default_config now i o v in
  in_progress (state_of i v') = false /\
  if failure_count (state_of i v) <? 1024
  then r = Ok () /\ failure_count (state_of i v') = failure_count (state_of i v) + 1 /\
       next_retry (state_of i v') = fadd now (default_delay (failure_count (state_of i v) + 1)) /\
       total_failed v' = total_failed v + 1
  else (exists m, r = Err (OverflowError m)) /\ failure_count (state_of i v) < failure_count (state_of i v') /\
       next_retry (state_of i v') = next_retry (state_of i v) /\ total_failed v' = total_failed v.
Proof.
  intros Ho Hn. unfold finish_attempt.
  set (n := failure_count (state_of i v)) in *.
  assert (forall w, failure_count (state_of i w) = n + 1 -> 1024 <= n ->
    exists m, attempt_raised default_config now i w =
      (Err (OverflowError m), set_state i (state_of i w <| failure_count := n + 1 + 1 |>) w)) as Hr.
  { intros w Hw Hb. unfold attempt_raised. rewrite Hw. pose proof (default_backoff (n + 1 + 1) ltac:(lia)) as Hd.
    destruct (Z.leb_spec (n + 1 + 1) 1024); [lia|]. destruct Hd as [m Hd]. exists m. cbn. by rewrite Hd. }
  pose proof (default_backoff (n + 1) ltac:(lia)) as Hd.
  destruct o as [r|e]; cbn in Ho.
  - unfold attempt_returned. rewrite Ho. cbn [failure_count upd eta eta_ResourceState]. fold n.
    destruct (Z.ltb_spec n 1024), (Z.leb_spec (n + 1) 1024); try lia.
    + rewrite Hd. read_back. done.
    + destruct Hd as [m ->]. match goal with |- context [attempt_raised _ _ _ ?w] => destruct (Hr w) as [m' ->] end.
      * by rewrite state_set_eq.
      * done.
      * read_back. repeat split; [by exists m'|lia].
  - unfold attempt_raised. cbn [failure_count upd eta eta_ResourceState]. fold n.
    destruct (Z.ltb_spec n 1024), (Z.leb_spec (n + 1) 1024); try lia.
    + rewrite Hd. read_back. done.
    + destruct Hd as [m ->]. read_back. repeat split; [by exists m|lia].
Qed.

(** Whatever the outcome, the attempt ends, and other resources are untouched. *)
Lemma finish_idle `{FloatPow} config now i o v :
  in_progress (state_of i (finish_attempt config now i o v).2) = false.
Proof. unfold finish_attempt. destruct o; [destruct (attempt_returned _ _ _ _ _)|destruct (attempt_raised _ _ _ _)]; by read_back. Qed.

Lemma attempt_raised_other `{FloatPow} config now i j v : i <> j ->
  state_of j (attempt_raised config now i v).2 = state_of j v.
Proof.
  intros Hij. unfold attempt_raised. cbv zeta. destruct (calculate_backoff _ _); by eapply state_written_ne.
Qed.

Lemma finish_other `{FloatPow} config now i j o v : i <> j ->
  state_of j (finish_attempt config now i o v).2 = state_of j v.
Proof.
  intros Hij. unfold finish_attempt.
  assert (state_of j (match o with Returned r => attempt_returned config now i r v
                      | Raised _ => attempt_raised config now i v end).2 = state_of j v) as Ho.
  { destruct o as [r|e]; [|by apply attempt_raised_other]. unfold attempt_returned. cbv zeta.
    destruct (result_status r); [by eapply state_written_ne..| |done].
    destruct (calculate_backoff _ _); [by eapply state_written_ne|].
    rewrite attempt_raised_other by done. by apply state_set_ne. }
  revert Ho. destruct (match o with Returned r => _ | Raised _ => _ end) as [u w]. cbn [snd]. intros <-.
  by apply state_set_ne.
Qed.

Lemma begin_busy now i v : in_progress (state_of i (begin_attempt now i v)) = true.
Proof. unfold begin_attempt. by rewrite state_set_eq. Qed.
Lemma begin_other now i j v : i <> j -> state_of j (begin_attempt now i v) = state_of j v.
Proof. intros. by apply state_set_ne. Qed.

(** ** The semaphore *)

#[local] Arguments permits : simpl never.
#[local] Arguments begin_attempt : simpl never.
#[local] Arguments finish_attempt : simpl never.

Lemma permits_app l1 l2 : permits (l1 ++ l2) = (permits l1 + permits l2)%nat.
Proof. unfold permits. by rewrite List.filter_app, length_app. Qed.

Lemma permits_waiting ids : permits (map waiting ids) = 0%nat.
Proof. unfold permits. by induction ids. Qed.

Lemma permits_insert l n t i : l !! n = Some t -> (permits (<[n := polled i]> l) <= S (permits l))%nat.
Proof.
  intros Ht. rewrite <- (take_drop_middle l n t Ht) at 2.
  rewrite insert_take_drop by (by eapply lookup_lt_Some). rewrite !permits_app. unfold permits. cbn.
  destruct (a_polled t && a_running t); cbn; lia.
Qed.

Lemma permits_delete l n t : l !! n = Some t -> (permits (delete n l) <= permits l)%nat.
Proof.
  intros Ht. rewrite <- (take_drop_middle l n t Ht) at 2. rewrite delete_take_drop, !permits_app. unfold permits. cbn.
  destruct (a_polled t && a_running t); cbn; lia.
Qed.

Lemma acts_invariant `{FloatPow} config (I : loop -> Prop) l s s' :
  (forall a x y, act config a x = Some y -> I x -> I y) -> acts config l s = Some s' -> I s -> I s'.
Proof.
  intros HI. revert s. induction l as [|a l IH]; intros s Hr Hs; cbn in Hr; [by injection Hr as <-|].
  destruct (act config a s) as [x|] eqn:Ha; [|done]. eauto.
Qed.

(** Whatever cycles, watch events and admin requests do, the attempts of cycles
    that run at once never exceed the configured number. *)
Theorem semaphore_bound `{FloatPow} config l s :
  acts config l new_loop = Some s -> (permits (attempts s) <= max_concurrent_reconciles config)%nat.
Proof.
  intros Hr. eapply (acts_invariant _ (fun s => permits (attempts s) <= max_concurrent_reconciles config)%nat);
    [|exact Hr|apply Nat.le_0_l].
  intros a x y Ha Hx. destruct a as [now ids|now n|now i|now n o]; cbn in Ha.
  - injection Ha as <-. cbn. rewrite permits_app, permits_waiting. lia.
  - destruct (attempts x !! n) as [t|] eqn:Ht; [|done]. cbn in Ha. case_match eqn:Hc; [|done].
    injection Ha as <-. cbn. apply andb_true_iff in Hc as [_ Hc%bool_decide_eq_true].
    pose proof (permits_insert _ _ _ (a_resource t) Ht). lia.
  - case_match; [|done]. injection Ha as <-. cbn. rewrite permits_app. change (permits [watched i]) with 0%nat. lia.
  - destruct (attempts x !! n) as [t|] eqn:Ht; [|done]. cbn in Ha. case_match; [|done].
    injection Ha as <-. cbn. pose proof (permits_delete _ _ _ Ht). lia.
Qed.

(** ** One attempt per resource *)

(** Cycles that begin when the attempts of the one before have ended, over
    resources with different identifiers, and no watch. *)
Fixpoint serial `{FloatPow} (config : ReconciliationConfig) (l : list action) (s : loop) : Prop :=
  match l with
  | [] => True
  | a :: l =>
      match a with Cycle _ ids => attempts s = [] /\ NoDup ids | WatchTriggered _ _ => False | _ => True end /\
      forall s', act config a s = Some s' -> serial config l s'
  end.

Definition exclusive (s : loop) : Prop :=
  NoDup (map a_resource (attempts s)) /\ Forall (fun a => a_polled a = true) (attempts s) /\
  forall i, in_progress (state_of i (svc s)) = true <-> polled i ∈ attempts s.

Lemma polled_attempt t : a_polled t = true -> a_running t = true -> t = polled (a_resource t).
Proof. destruct t as [i [] []]; done. Qed.

Lemma NoDup_due now ids v : NoDup ids -> NoDup (due_resources now ids v).
Proof.
  unfold due_resources. induction 1 as [|i ids Hi _ IH]; cbn; [constructor|].
  case_match; [|done]. constructor; [|done]. rewrite list_elem_of_In, List.filter_In, <- list_elem_of_In. naive_solver.
Qed.

Lemma delete_resources n l : map a_resource (delete n l) = delete n (map a_resource l).
Proof. revert n. induction l as [|a l IH]; intros [|n]; cbn; [done..|]. by rewrite IH. Qed.

Lemma polled_deleted l n i j : NoDup (map a_resource l) -> l !! n = Some (polled i) ->
  polled j ∈ delete n l <-> i <> j /\ polled j ∈ l.
Proof.
  intros Hn Hi. rewrite <- (take_drop_middle l n _ Hi) in Hn |- * at 2. rewrite delete_take_drop.
  rewrite map_app in Hn. cbn in Hn. apply NoDup_app in Hn as (_ & Hn1 & [Hn2 _]%NoDup_cons).
  rewrite !elem_of_app, elem_of_cons. split.
  - intros Hj. split; [intros <-|naive_solver]. destruct Hj as [Hj|Hj].
    + apply (Hn1 i); [|left]. by apply (list_elem_of_fmap_2 a_resource) in Hj.
    + apply Hn2. by apply (list_elem_of_fmap_2 a_resource) in Hj.
  - intros [Hij [?|[[= ->]|?]]]; [by left|done|by right].
Qed.

Lemma act_exclusive `{FloatPow} config a s s' :
  match a with Cycle _ ids => attempts s = [] /\ NoDup ids | WatchTriggered _ _ => False | _ => True end ->
  act config a s = Some s' -> exclusive s -> exclusive s'.
Proof.
  intros Hs Ha (Hn & Hp & Hi). destruct a as [now ids|now n|now i|now n o]; cbn in Ha; [| |done|].
  - destruct Hs as [He Hd]. injection Ha as <-. unfold exclusive. cbn. rewrite He in *. cbn. split; [|split].
    + rewrite map_map. cbn. rewrite map_id. by apply NoDup_due.
    + by apply Forall_forall; intros ? (? & -> & _)%list_elem_of_fmap.
    + intros j. rewrite (Hi j). split; [by intros ?%not_elem_of_nil|by intros (? & [=] & _)%list_elem_of_fmap].
  - destruct (attempts s !! n) as [t|] eqn:Ht; [|done]. cbn in Ha. case_match eqn:Hc; [|done]. injection Ha as <-.
    apply andb_true_iff in Hc as [Hc%negb_true_iff _]. unfold exclusive. cbn. split; [|split].
    + rewrite list_fmap_insert. cbn. rewrite list_insert_id; [done|]. by rewrite list_lookup_fmap, Ht.
    + by apply Forall_insert.
    + intros j. rewrite list_elem_of_lookup. destruct (decide (a_resource t = j)) as [<-|Hj].
      * rewrite begin_busy. split; [|done]. intros _. exists n. apply list_lookup_insert_eq. by eapply lookup_lt_Some.
      * rewrite begin_other, Hi, list_elem_of_lookup by done. split; intros [m Hm]; exists m.
        { rewrite list_lookup_insert_ne; [done|]. intros <-. rewrite Ht in Hm. by injection Hm as ->. }
        { destruct (decide (n = m)) as [<-|]; [|by rewrite list_lookup_insert_ne in Hm].
          rewrite list_lookup_insert_eq in Hm by (by eapply lookup_lt_Some). by injection Hm as Hm. }
  - destruct (attempts s !! n) as [t|] eqn:Ht; [|done]. cbn in Ha. case_match eqn:Hc; [|done]. injection Ha as <-.
    assert (t = polled (a_resource t)) as Hpt by (apply polled_attempt; [by eapply (Forall_lookup_1 _ _ _ _ Hp)|done]).
    set (i := a_resource t) in *. rewrite Hpt in Ht. unfold exclusive. cbn. split; [|split].
    + rewrite delete_resources. by eapply sublist_NoDup, sublist_delete.
    + by apply Forall_delete.
    + intros j. rewrite (polled_deleted _ _ _ _ Hn Ht). destruct (decide (i = j)) as [<-|Hj].
      * rewrite finish_idle. naive_solver.
      * rewrite finish_other, Hi by done. naive_solver.
Qed.

Lemma running_on_one i l : NoDup (map a_resource l) -> Forall (fun a => a_polled a = true) l ->
  running_on i l = if bool_decide (polled i ∈ l) then 1%nat else 0%nat.
Proof.
  unfold running_on. induction l as [|a l IH]; [done|]. cbn [map]. intros [Ha Hn]%NoDup_cons [Hp Hl]%Forall_cons.
  specialize (IH Hn Hl). cbn. destruct (a_running a && String.eqb (a_resource a) i) eqn:Hr; cbn; rewrite IH.
  - apply andb_true_iff in Hr as [Hr <-%String.eqb_eq]. rewrite <- (polled_attempt a Hp Hr).
    rewrite bool_decide_eq_false_2; [|intros Hin; by apply Ha, (list_elem_of_fmap_2 a_resource)].
    rewrite bool_decide_eq_true_2; [done|by left].
  - assert (polled i <> a) as Hne by (intros <-; by rewrite String.eqb_refl in Hr).
    rewrite (bool_decide_ext (polled i ∈ a :: l) (polled i ∈ l)); [done|]. rewrite elem_of_cons. naive_solver.
Qed.


(** An attempt that a watch event triggers does not look at [in_progress]: while
    an attempt on the resource runs, another begins; and when the first ends,
    [in_progress] is false although the second still runs. *)
Theorem watch_overlaps `{FloatPow} config t1 t2 i n o s :
  attempts s !! n = Some (polled i) -> Forall (fun a => a_polled a = true) (attempts s) ->
  exists s1 s2, act config (WatchTriggered t1 i) s = Some s1 /\ (2 <= running_on i (attempts s1))%nat /\
    act config (Finish t2 n o) s1 = Some s2 /\ (1 <= running_on i (attempts s2))%nat /\
    in_progress (state_of i (svc s2)) = false.
Proof.
  intros Hn Hp.
  assert (forallb (fun t => a_polled t) (attempts s) = true) as Hb.
  { apply forallb_forall. intros a Ha%list_elem_of_In. by apply (proj1 (Forall_forall _ _) Hp). }
  assert (forall l, (1 <= running_on i (l ++ [watched i]))%nat) as Hw.
  { intros l. unfold running_on. rewrite List.filter_app, length_app. cbn. rewrite String.eqb_refl. cbn. lia. }
  assert ((attempts s ++ [watched i]) !! n = Some (polled i)) as Hn' by by apply lookup_app_l_Some.
  eexists _, _. cbn. rewrite Hb. split; [reflexivity|]. cbn. split; [|split; [by rewrite Hn'|]].
  - rewrite <- (take_drop_middle _ _ _ Hn). unfold running_on.
    rewrite !List.filter_app, !length_app. cbn. rewrite String.eqb_refl. cbn. lia.
  - cbn. split; [|apply finish_idle]. rewrite delete_take_drop, drop_app_le by (apply lookup_lt_Some in Hn; lia).
    rewrite app_assoc. apply Hw.
Qed.

(** ** A concrete [pow] and concrete runs *)

(** [pow] on the base two, as the C library computes it; other bases are not
    used below. *)
#[local] Instance pow_of_two : FloatPow := fun b n =>
  match b with
  | S754_finite false 4503599627370496 (-51) =>
      if n <? 1024 then Ok (two_to n) else Err (OverflowError "(34, 'Numerical result out of range')")
  | _ => Err (ValueError "base not used")
  end.

#[local] Instance pow_of_two_laws : FloatPowLaws.
Proof.
  split; intros n Hn; unfold float_pow, pow_of_two, f_2.
  - by rewrite (proj2 (Z.ltb_lt _ _)) by lia.
  - eexists. by rewrite (proj2 (Z.ltb_ge _ _)) by lia.
Qed.

Definition worn_out : service :=
  {| resource_states := {["w1" := new_resource "w1" <| failure_count := 1024 |>]}; total_reconciled := 0; total_failed := 1024 |}.

Lemma failure_backoff_witness :
  is_failure (Raised (ValueError "boom")) /\
  failure_count (state_of "w1" worn_out) = 1024 /\
  (let '(r, v') := finish_attempt default_config f_30 "w1" (Raised (ValueError "boom")) worn_out in
   in_progress (state_of "w1" v') = false /\
   (exists m, r = Err (OverflowError m)) /\ 1024 < failure_count (state_of "w1" v') /\
   next_retry (state_of "w1" v') = fzero /\ total_failed v' = 1024).
Proof.
  split; [done|]. split; [reflexivity|].
  pose proof (failure_backoff f_30 "w1" (Raised (ValueError "boom")) worn_out I ltac:(by vm_compute)) as Hb.
  destruct (finish_attempt _ _ _ _ _) as [r v'].
  change (failure_count (state_of "w1" worn_out)) with 1024 in Hb.
  change (next_retry (state_of "w1" worn_out)) with fzero in Hb. change (total_failed worn_out) with 1024 in Hb.
  exact Hb.
Defined.

Definition two_workers : list action :=
  [Cycle f_1 ["w1"; "w2"]; Start f_1 1; Start f_2 0; Finish f_5 1 (Returned (result_failed "no route"))].

Definition after_two : loop := default new_loop (acts default_config two_workers new_loop).

Lemma two_workers_run : acts default_config two_workers new_loop = Some after_two.
Proof. vm_compute. reflexivity. Qed.

Lemma two_workers_serial : serial default_config two_workers new_loop.
Proof.
  cbn -[act]. split; [split; [done|]|].
  - repeat constructor; rewrite ?elem_of_cons, ?elem_of_nil; intuition congruence.
  - intros s1 _. split; [done|]. intros s2 _. split; [done|]. intros s3 _. by split.
Qed.

Lemma semaphore_bound_witness : (permits (attempts after_two) <= 10)%nat.
Proof. apply (semaphore_bound default_config two_workers). apply two_workers_run. Defined.


Lemma watch_overlaps_witness :
  attempts after_two !! 0%nat = Some (polled "w1") /\
  exists s1 s2, act default_config (WatchTriggered f_5 "w1") after_two = Some s1 /\
    (2 <= running_on "w1" (attempts s1))%nat /\
    act default_config (Finish f_30 0 (Returned (result_success ""))) s1 = Some s2 /\
    (1 <= running_on "w1" (attempts s2))%nat /\ in_progress (state_of "w1" (svc s2)) = false.
Proof.
  split; [by vm_compute|]. apply watch_overlaps; [by vm_compute|]. by repeat constructor.
Defined.
