(* ===== verification/Traces.v ===== *)
(** * Infinite traces

    Infinite executions of a labelled transition system, weak fairness towards a
    set of labels, and the rule that derives "eventually" from a measure that
    the fair steps decrease. *)
From S2P Require Import Prelude.

Section Traces.
Context {S L : Type} (step : L -> S -> S -> Prop).

Record trace := {
  tr_state : nat -> S;
  tr_label : nat -> L;
  tr_step n : step (tr_label n) (tr_state n) (tr_state (Datatypes.S n))
}.

(** Whenever the labels of [fair] are enabled, later they are not or one of them
    is taken. *)
Definition weakly_fair (fair : L -> Prop) (enabled : S -> Prop) (t : trace) : Prop :=
  forall n, exists m, (n <= m)%nat /\ (~ enabled (tr_state t m) \/ fair (tr_label t m)).

(** From a state in which [P] holds, [Q] is eventually taken: [P] keeps the fair
    labels enabled, every step takes [Q] or keeps [P] with a measure that does not
    grow, and a fair step makes the measure smaller. *)
Lemma eventually {M} (lt : M -> M -> Prop) (Hwf : well_founded lt) (mu : S -> M)
    (fair : L -> Prop) (enabled : S -> Prop) (P : S -> Prop) (Q : L -> S -> Prop) (quiet : L -> Prop) (t : trace) n :
  weakly_fair fair enabled t ->
  (forall s, P s -> enabled s) ->
  (forall l s s', step l s s' -> quiet l -> P s -> Q l s' \/ (P s' /\ (mu s' = mu s \/ lt (mu s') (mu s)) /\
                                          (fair l -> lt (mu s') (mu s)))) ->
  (forall m, (n <= m)%nat -> quiet (tr_label t m)) ->
  P (tr_state t n) -> exists m, (n <= m)%nat /\ Q (tr_label t m) (tr_state t (Datatypes.S m)).
Proof.
  intros Hf He Hs Hq. remember (mu (tr_state t n)) as x eqn:Hx. revert n Hq Hx.
  induction (Hwf x) as [x _ IH]. intros n Hq Hx Hp.
  destruct (Hf n) as (m & Hm & Ht).
  (* either the measure has gone down by [m], or the step at [m] takes it down *)
  assert (forall k, (n + k <= m)%nat ->
    (exists j, (n <= j)%nat /\ Q (tr_label t j) (tr_state t (Datatypes.S j))) \/
    (P (tr_state t (n + k)) /\ (mu (tr_state t (n + k)) = x \/
      exists j, (n <= j)%nat /\ P (tr_state t j) /\ lt (mu (tr_state t j)) x))) as Hk.
  { induction k as [|k IHk]; intros Hle; [rewrite Nat.add_0_r; right; split; [done|by left]|].
    destruct IHk as [?|[Hpk Hmk]]; [lia|by left|].
    destruct (Hs _ _ _ (tr_step t (n + k)) (Hq (n + k)%nat ltac:(lia)) Hpk) as [HQ|(Hp' & Hmu & _)].
    - left. exists (n + k)%nat. split; [lia|done].
    - right. replace (n + Datatypes.S k)%nat with (Datatypes.S (n + k)) by lia. split; [done|].
      destruct Hmk as [Hmk|Hmk]; [|by right]. rewrite Hmk in Hmu. destruct Hmu as [|Hlt]; [by left|].
      right. exists (Datatypes.S (n + k)). split; [lia|done]. }
  assert (forall j, (n <= j)%nat -> P (tr_state t j) -> lt (mu (tr_state t j)) x ->
    exists m, (n <= m)%nat /\ Q (tr_label t m) (tr_state t (Datatypes.S m))) as Hdown.
  { intros j Hj Hpj Hlt. destruct (IH _ Hlt j) as (m' & Hm' & HQ); [intros; apply Hq; lia|done|done|].
    exists m'. split; [lia|done]. }
  destruct (Hk (m - n)%nat) as [?|[Hpm Hmm]]; [lia|done|].
  replace (n + (m - n))%nat with m in * by lia.
  destruct Hmm as [Hmm|(j & Hj & Hpj & Hlt)]; [|by eapply Hdown].
  destruct Ht as [Ht|Ht]; [by destruct Ht; apply He|].
  destruct (Hs _ _ _ (tr_step t m) (Hq _ Hm) Hpm) as [HQ|(Hp' & _ & Hlt)]; [by exists m|].
  apply (Hdown (Datatypes.S m)); [lia|done|]. rewrite <- Hmm. by apply Hlt.
Qed.
End Traces.
Arguments trace {_ _} _.
Arguments tr_state {_ _ _} _ _.
Arguments tr_label {_ _ _} _ _.
Arguments tr_step {_ _ _} _ _.
Arguments weakly_fair {_ _ _} _ _ _.

(** ** A finite run that then idles *)
Section Lasso.
Context {S L : Type} (next : L -> S -> option S) (idle : L).

Fixpoint lasso_state (l : list L) (s : S) (n : nat) {struct n} : S :=
  match n with
  | O => s
  | Datatypes.S n =>
      match l with
      | [] => s
      | x :: l => match next x s with Some s' => lasso_state l s' n | None => s end
      end
  end.

Fixpoint ends_idle (l : list L) (s : S) : Prop :=
  match l with
  | [] => next idle s = Some s
  | x :: l => match next x s with Some s' => ends_idle l s' | None => False end
  end.

Lemma lasso_step l s n : ends_idle l s ->
  next (nth n l idle) (lasso_state l s n) = Some (lasso_state l s (Datatypes.S n)).
Proof.
  revert s n. induction l as [|x l IH]; intros s n Hl; [by destruct n as [|[|n]]|].
  cbn [ends_idle] in Hl. destruct (next x s) as [s'|] eqn:Hx; [|done].
  assert (forall k, lasso_state (x :: l) s (Datatypes.S k) = lasso_state l s' k) as Hs by (intros k; cbn; by rewrite Hx).
  rewrite Hs. destruct n as [|n]; [exact Hx|]. rewrite Hs. by apply IH.
Qed.

Definition lasso (l : list L) (s : S) (Hl : ends_idle l s) : trace (fun x a b => next x a = Some b) := {|
  tr_state := lasso_state l s; tr_label n := nth n l idle; tr_step n := lasso_step l s n Hl |}.

(** A run that ends where nothing is enabled is fair. *)
Lemma lasso_fair fair enabled l s Hl :
  ~ enabled (lasso_state l s (length l)) -> weakly_fair fair enabled (lasso l s Hl).
Proof.
  intros He n. exists (length l + n)%nat. split; [lia|]. left. intros Hn. apply He. revert Hn. clear He. cbn.
  generalize dependent s. induction l as [|x l IH]; intros s Hl; [by destruct n|]. cbn in *.
  destruct (next x s) as [s'|]; [|done]. by apply IH.
Qed.

(** So is one that idles with a fair label. *)
Lemma lasso_fair_idle (fair : L -> Prop) enabled l s Hl : fair idle -> weakly_fair fair enabled (lasso l s Hl).
Proof.
  intros Hi n. exists (length l + n)%nat. split; [lia|]. right. cbn. rewrite nth_overflow by lia. exact Hi.
Qed.

Lemma lasso_labels (P : L -> Prop) l s Hl n : P idle -> Forall P (drop n l) ->
  forall k, (n <= k)%nat -> P (tr_label (lasso l s Hl) k).
Proof.
  intros Hi Hf k Hk. cbn. destruct (nth_in_or_default k l idle) as [Hin| ->]; [|done].
  destruct (decide (k < length l)%nat) as [Hlt|]; [|by rewrite nth_overflow by lia].
  apply (proj1 (Forall_forall _ _) Hf). apply list_elem_of_lookup. exists (k - n)%nat.
  rewrite lookup_drop. replace (n + (k - n))%nat with k by lia. destruct (nth_lookup_or_length l k idle); [done|lia].
Qed.
End Lasso.
