(* ===== verification/WatchTrigger.v ===== *)
(** * Reconciliation triggered by a watch ([core/lcm_core/infrastructure/hosted_services/watch_triggered_hosted_service.py])

    The drain loop that reconciles the resources whose watch events arrived, as
    the steps its coroutine takes from one [await] to the next, with the events,
    elections and demotions that come in between; and the loop that reconnects the
    watch.  Sleeping, fetching and reconciling are [await]s of the services: when
    they answer, and whether the resource is found, are arguments. *)
From S2P Require Import Prelude.

(** ** The drain loop *)

(** Where [_debounced_reconcile] stands: no task, or one that is done; before the
    debounce period is over; at [await self.fetch_resource_by_id] or at
    [await self._reconcile_single] of a resource, with the rest of the batch. *)
Inductive phase :=
| Off
| Sleeping
| Fetching (resource_id : string) (rest : list string)
| Reconciling (resource_id : string) (rest : list string).

Record watch := {
  is_leader : bool;
  stopping : bool;
  pending_reconciles : list string;
  debounce_task : phase;
  watch_events_received : nat;
  watch_triggered_reconciles : nat
}.

#[export] Instance eta_watch : Eta watch := fun w => {|
  is_leader := w.(is_leader); stopping := w.(stopping); pending_reconciles := w.(pending_reconciles);
  debounce_task := w.(debounce_task); watch_events_received := w.(watch_events_received);
  watch_triggered_reconciles := w.(watch_triggered_reconciles) |}.

Definition new_watch : watch := {|
  is_leader := false; stopping := false; pending_reconciles := []; debounce_task := Off;
  watch_events_received := 0; watch_triggered_reconciles := 0 |}.

(** [s.add(x)] *)
Definition set_add (x : string) (s : list string) : list string := if bool_decide (x ∈ s) then s else s ++ [x].

Inductive label :=
| Event (resource_id : option string)
| Wake
| Fetched (found : bool)
| Reconciled
| Elected
| Demoted
| Stop.

Section Drain.
Context `{SetOrder}.

(** The loop from the end of one iteration to the next [await]: the rest of the
    batch, then the resources that became pending meanwhile; a service that stops
    or lost its leadership leaves both loops. *)
Definition proceed (rest : list string) (w : watch) : watch :=
  if w.(stopping) || negb w.(is_leader) then w <| debounce_task := Off |> else
  match rest with
  | r :: rest => w <| debounce_task := Fetching r rest |>
  | [] =>
      match set_order w.(pending_reconciles) with
      | [] => w <| debounce_task := Off |>
      | r :: rest => w <| pending_reconciles := [] |> <| debounce_task := Fetching r rest |>
      end
  end.

(** [_schedule_debounced_reconcile] *)
Definition schedule_debounced (w : watch) : watch :=
  match w.(debounce_task) with Off => w <| debounce_task := Sleeping |> | _ => w end.

(** One step, if it is enabled.  An event is handled by the watch stream of a
    leader; [_become_leader] starts that stream, [_step_down] cancels it and the
    drain loop. *)
Definition watch_step (l : label) (w : watch) : option watch :=
  match l with
  | Event r =>
      if w.(is_leader) && negb w.(stopping) then
        let w := w <| watch_events_received := (w.(watch_events_received) + 1)%nat |> in
        Some (match r with
              | Some r =>
                  if str_truthy r
                  then schedule_debounced (w <| pending_reconciles := set_add r w.(pending_reconciles) |>) else w
              | None => w
              end)
      else None
  | Wake => match w.(debounce_task) with Sleeping => Some (proceed [] w) | _ => None end
  | Fetched found =>
      match w.(debounce_task) with
      | Fetching r rest =>
          Some (if found : bool
                then w <| watch_triggered_reconciles := (w.(watch_triggered_reconciles) + 1)%nat |>
                       <| debounce_task := Reconciling r rest |>
                else proceed rest w)
      | _ => None
      end
  | Reconciled => match w.(debounce_task) with Reconciling r rest => Some (proceed rest w) | _ => None end
  | Elected => Some (w <| is_leader := true |>)
  | Demoted => Some (w <| is_leader := false |> <| debounce_task := Off |>)
  | Stop => Some (w <| stopping := true |>)
  end.
End Drain.

(** ** The watch loop *)

(** How [_watch_stream] ended: it returned, or raised after some events. *)
Inductive stream := Ended | Broken (events : nat).

(** The streams the loop opens while the service leads: it goes on with the
    counted failures, or gives up. *)
Fixpoint watch_loop (max_reconnect_attempts reconnect_attempts : nat) (streams : list stream) : option nat :=
  match streams with
  | [] => Some reconnect_attempts
  | Ended :: streams => watch_loop max_reconnect_attempts 0 streams
  | Broken _ :: streams =>
      let reconnect_attempts := (reconnect_attempts + 1)%nat in
      if (max_reconnect_attempts <? reconnect_attempts)%nat then None
      else watch_loop max_reconnect_attempts reconnect_attempts streams
  end.

(** * Properties of watch-triggered reconciliation

    Every watch event is followed by a fetch of its resource that starts after
    it; what a demotion forgets; when the watch gives up. *)
From S2P Require Import Prelude Traces.
From Stdlib Require Import Relation_Operators Lexicographic_Product Wellfounded.

(** ** The drain loop serves every event *)

Section Served.
Context `{SetOrderLaws}.

(** The steps of the drain loop itself. *)
Definition drains (l : label) : Prop := match l with Wake | Fetched _ | Reconciled => True | _ => False end.

Definition draining (w : watch) : Prop := debounce_task w <> Off.

(** The service neither stops nor loses its leadership. *)
Definition steady (l : label) : Prop := l <> Demoted /\ l <> Stop.

(** The step starts to fetch the resource. *)
Definition starts (r : string) (l : label) (w : watch) : Prop :=
  drains l /\ exists rest, debounce_task w = Fetching r rest.

Definition rest_of (p : phase) : list string :=
  match p with Fetching _ rest | Reconciling _ rest => rest | _ => [] end.

(** The resource is still to be fetched. *)
Definition owed (r : string) (w : watch) : Prop :=
  is_leader w = true /\ stopping w = false /\ draining w /\
  (r ∈ rest_of (debounce_task w) \/ r ∈ pending_reconciles w).

(** The steps left: in the batch that holds the resource, or before that batch is
    made. *)
Definition left_in (p : phase) : nat :=
  match p with Fetching _ rest => 2 * length rest + 1 | Reconciling _ rest => 2 * length rest | _ => 0 end%nat.
Definition left (r : string) (w : watch) : nat * nat :=
  (if bool_decide (r ∈ rest_of (debounce_task w)) then 0 else 1, left_in (debounce_task w))%nat.

Definition fewer : nat * nat -> nat * nat -> Prop := slexprod nat nat lt lt.

Lemma fewer_wf : well_founded fewer.
Proof. apply wf_slexprod; apply Nat.lt_wf_0. Qed.

Lemma fewer_left r w w' : (r ∈ rest_of (debounce_task w) -> r ∈ rest_of (debounce_task w')) ->
  (left_in (debounce_task w') < left_in (debounce_task w))%nat -> fewer (left r w') (left r w).
Proof.
  intros Hr Hl. unfold left. case_bool_decide as H1; case_bool_decide as H2; try by right.
  - left. lia.
  - by destruct H1; apply Hr.
Qed.

Lemma fewer_batch r w w' : r ∉ rest_of (debounce_task w) -> r ∈ rest_of (debounce_task w') -> fewer (left r w') (left r w).
Proof. intros ??. unfold left. rewrite bool_decide_eq_true_2, bool_decide_eq_false_2 by done. left. lia. Qed.

(** From one iteration to the next: the fetch starts, or the resource is still
    owed with less to do. *)
Lemma proceed_owed r w rest : rest = rest_of (debounce_task w) ->
  (match debounce_task w with Fetching _ _ | Reconciling _ _ | Sleeping => True | Off => False end) -> owed r w ->
  (exists rest', debounce_task (proceed rest w) = Fetching r rest') \/
  (owed r (proceed rest w) /\ fewer (left r (proceed rest w)) (left r w)).
Proof.
  intros Hrest Hph (Hl & Hs & Hd & Ho). unfold proceed. rewrite Hl, Hs. cbn [orb negb].
  destruct rest as [|x rest].
  - destruct Ho as [Ho|Ho]; [rewrite <- Hrest in Ho; by apply not_elem_of_nil in Ho|].
    apply set_order_elem in Ho. destruct (set_order (pending_reconciles w)) as [|x batch] eqn:Hb; [by apply not_elem_of_nil in Ho|].
    apply elem_of_cons in Ho as [<-|Ho]; [left; by exists batch|]. right. split.
    + repeat split; [done..|]. by left.
    + apply fewer_batch; [by rewrite <- Hrest; apply not_elem_of_nil|done].
  - rewrite <- Hrest in Ho. destruct (decide (r = x)) as [<-|Hx]; [left; by exists rest|]. right.
    assert (left_in (Fetching x rest) < left_in (debounce_task w))%nat as Hless.
    { destruct (debounce_task w); try done; cbn in Hrest; subst; cbn; lia. }
    split.
    + repeat split; [done..|]. cbn. destruct Ho as [[?|Ho]%elem_of_cons|Ho]; [done|by left|by right].
    + apply fewer_left; [|done]. rewrite <- Hrest. cbn. by intros [?|?]%elem_of_cons.
Qed.

Lemma elem_of_set_add x y s : x ∈ set_add y s <-> x = y \/ x ∈ s.
Proof. unfold set_add. case_bool_decide; rewrite ?elem_of_app, ?list_elem_of_singleton; naive_solver. Qed.

Lemma step_owed r l w w' : watch_step l w = Some w' -> steady l -> owed r w ->
  starts r l w' \/ (owed r w' /\ (left r w' = left r w \/ fewer (left r w') (left r w)) /\
                    (drains l -> fewer (left r w') (left r w))).
Proof.
  intros Hstep [Hd Hs] Ho. pose proof Ho as (Hl & Hst & Hdr & Hin). unfold draining in Hdr.
  destruct l as [x| |found| | | |]; cbn in Hstep; try done.
  - rewrite Hl, Hst in Hstep. cbn in Hstep. injection Hstep as <-. right.
    destruct x as [x|]; [destruct (str_truthy x)|]; [|by split; [|split; [left|]]..].
    unfold schedule_debounced. cbn. destruct (debounce_task w) eqn:Hp; [done|..].
    all: split; [|split; [left; unfold left; cbn; by rewrite Hp|done]].
    all: repeat split; try done; try (unfold draining; cbn; congruence).
    all: cbn; rewrite ?Hp; cbn in Hin |- *; rewrite elem_of_set_add; naive_solver.
  - destruct (debounce_task w) eqn:Hp; try done. injection Hstep as <-.
    destruct (proceed_owed r w []) as [Hf|[Hw Hf]]; [by rewrite Hp|by rewrite Hp|done|by left|right]. by split; [|split; [right|]].
  - destruct (debounce_task w) as [| |x rest|] eqn:Hp; try done. injection Hstep as <-. destruct found.
    + right. assert (fewer (left r (w <| watch_triggered_reconciles := (watch_triggered_reconciles w + 1)%nat |>
                                        <| debounce_task := Reconciling x rest |>)) (left r w)) as Hf.
      { apply fewer_left; rewrite Hp; cbn; [done|lia]. }
      split; [|by split; [right|]]. repeat split; cbn; [done..|]. done.
    + destruct (proceed_owed r w rest) as [Hf|[Hw Hf]]; [by rewrite Hp|by rewrite Hp|done|by left|right]. by split; [|split; [right|]].
  - destruct (debounce_task w) as [| | |x rest] eqn:Hp; try done. injection Hstep as <-.
    destruct (proceed_owed r w rest) as [Hf|[Hw Hf]]; [by rewrite Hp|by rewrite Hp|done|by left|right]. by split; [|split; [right|]].
  - injection Hstep as <-. right. unfold left, owed, draining in *. cbn. split; [by rewrite Hst|split; [by left|done]].
Qed.

Definition runs (l : label) (w w' : watch) : Prop := watch_step l w = Some w'.

(** (C25) Every watch event is served: when the drain loop keeps taking its steps (its
    sleeps, fetches and reconciliations end) and the service neither stops nor
    loses its leadership from then on, the resource of an event is fetched by a
    fetch that starts after the event, however many other events arrive and
    whatever is being reconciled when it does. *)
Theorem event_served (t : trace runs) n r :
  weakly_fair drains draining t ->
  tr_label t n = Event (Some r) -> str_truthy r = true ->
  (forall m, (n <= m)%nat -> steady (tr_label t m)) ->
  exists m, (n < m)%nat /\ starts r (tr_label t m) (tr_state t (S m)).
Proof.
  intros Hf Hl Hr Hs.
  destruct (eventually runs fewer fewer_wf (left r) drains draining (owed r) (starts r) steady t (S n))
    as (m & Hm & HQ); [done|by intros w (_ & _ & ? & _)|intros l w w' Hw Hq Ho; by apply step_owed| |..].
  - intros m Hm. apply Hs. lia.
  - assert (watch_step (tr_label t n) (tr_state t n) = Some (tr_state t (S n))) as Hstep by apply (tr_step t n).
    rewrite Hl in Hstep. cbn in Hstep.
    destruct (is_leader _ && negb _) eqn:Hb; [|done]. apply andb_true_iff in Hb as [Hb1 Hb2%negb_true_iff].
    rewrite Hr in Hstep. injection Hstep as Hstep. rewrite <- Hstep. unfold schedule_debounced. cbn.
    destruct (debounce_task _) eqn:Hp; repeat split; unfold draining; cbn; rewrite ?Hp; try done.
    all: right; apply elem_of_set_add; by left.
  - by exists m.
Qed.
End Served.

(** ** Giving up *)

Definition broken (s : stream) : Prop := match s with Broken _ => True | Ended => False end.

Lemma watch_loop_None max k l : (k <= max)%nat ->
  watch_loop max k l = None <->
  (exists l2 l3, l = l2 ++ l3 /\ Forall broken l2 /\ (max < k + length l2)%nat) \/
  (exists l1 l2 l3, l = l1 ++ Ended :: l2 ++ l3 /\ Forall broken l2 /\ (max < length l2)%nat).
Proof.
  revert k. induction l as [|[|events] l IH]; intros k Hk; cbn [watch_loop].
  - split; [done|]. intros [(l2 & l3 & [-> ->]%eq_sym%app_nil & _ & ?)|([|] & l2 & l3 & [=] & _)]. cbn in *. lia.
  - rewrite IH by lia. split.
    + intros [(l2 & l3 & -> & Hb & ?)|(l1 & l2 & l3 & -> & Hb & ?)]; right; [by exists [], l2, l3|by exists (Ended :: l1), l2, l3].
    + intros [([|x l2] & l3 & Hl & Hb & ?)|([|x l1] & l2 & l3 & Hl & Hb & ?)].
      * cbn in *. lia.
      * injection Hl as <- ->. by apply Forall_cons in Hb as [[] _].
      * injection Hl as ->. left. exists l2, l3. split; [done|]. split; [done|lia].
      * injection Hl as <- ->. right. by exists l1, l2, l3.
  - assert ((exists l2 l3, Broken events :: l = l2 ++ l3 /\ Forall broken l2 /\ (max < k + length l2)%nat) <->
      (exists l2 l3, l = l2 ++ l3 /\ Forall broken l2 /\ (max < k + 1 + length l2)%nat)) as ->.
    { split.
      - intros ([|x l2] & l3 & Hl & Hb & ?); [cbn in *; lia|]. injection Hl as <- ->. apply Forall_cons in Hb as [_ Hb].
        exists l2, l3. cbn in *. split; [done|]. split; [done|lia].
      - intros (l2 & l3 & -> & Hb & ?). exists (Broken events :: l2), l3. cbn. split; [done|]. split; [by constructor|lia]. }
    assert ((exists l1 l2 l3, Broken events :: l = l1 ++ Ended :: l2 ++ l3 /\ Forall broken l2 /\ (max < length l2)%nat) <->
      (exists l1 l2 l3, l = l1 ++ Ended :: l2 ++ l3 /\ Forall broken l2 /\ (max < length l2)%nat)) as ->.
    { split.
      - intros ([|x l1] & l2 & l3 & Hl & ?); [done|]. injection Hl as <- ->. by exists l1, l2, l3.
      - intros (l1 & l2 & l3 & -> & ?). by exists (Broken events :: l1), l2, l3. }
    destruct (Nat.ltb_spec max (k + 1)); [|by apply IH].
    split; [|done]. intros _. left. exists [], l. cbn. split; [done|]. split; [constructor|lia].
Qed.

(** The watch of a leader gives up for good as soon as one more stream than
    allowed has broken since one last ended without an error: the events that the
    broken streams delivered, and so the time each connection lasted, do not
    reset the count. *)
Theorem watch_gives_up max l :
  watch_loop max 0 l = None <->
  exists l1 l2 l3, l = l1 ++ l2 ++ l3 /\ Forall broken l2 /\ (max < length l2)%nat.
Proof.
  rewrite watch_loop_None by lia. split.
  - intros [(l2 & l3 & -> & ?)|(l1 & l2 & l3 & -> & ?)]; [by exists [], l2, l3|].
    exists (l1 ++ [Ended]), l2, l3. by rewrite <- app_assoc.
  - intros (l1 & l2 & l3 & -> & Hb & Hm).
    (* the break of the count before [l2], if there is one *)
    assert ((Forall broken l1) \/ exists a b, l1 = a ++ Ended :: b /\ Forall broken b) as [H1|(a & b & -> & H1)].
    { induction l1 as [|[|e] l1 [H1|(a & b & -> & H1)]]; [by left|right|right|left|right].
      - by exists [], l1.
      - by exists (Ended :: a), b.
      - by constructor.
      - by exists (Broken e :: a), b. }
    + left. exists (l1 ++ l2), l3. rewrite <- app_assoc. split; [done|]. split; [by apply Forall_app|rewrite length_app; lia].
    + right. exists a, (b ++ l2), l3. split; [by rewrite <- !app_assoc; cbn; rewrite <- ?app_assoc|].
      split; [by apply Forall_app|rewrite length_app; lia].
Qed.

(** ** A concrete trace *)

#[local] Instance event_order : SetOrder := remove_dups.
#[local] Instance event_order_laws : SetOrderLaws := insertion_order.

(** Election, one event, its service, and then nothing. *)
Definition example_labels : list label := [Elected; Event (Some "w1"); Wake; Fetched true; Reconciled].

Lemma example_ends : ends_idle watch_step Elected example_labels new_watch.
Proof. vm_compute. reflexivity. Qed.

Definition example_trace : trace runs := lasso watch_step Elected example_labels new_watch example_ends.

Lemma event_served_witness :
  tr_label example_trace 1 = Event (Some "w1") /\
  exists m, (1 < m)%nat /\ starts "w1" (tr_label example_trace m) (tr_state example_trace (S m)).
Proof.
  split; [reflexivity|]. apply event_served; [|reflexivity..|].
  - apply lasso_fair. unfold draining. vm_compute. congruence.
  - apply lasso_labels; [by vm_compute|]. repeat constructor; by vm_compute.
Defined.
