(* ===== verification/Election.v ===== *)
(** * Leader election ([core/lcm_core/infrastructure/hosted_services/leader_elected_hosted_service.py])

    The members of a service compete for one key of etcd, which holds the
    identifier of the leader and lives as long as the lease it was written with.
    etcd itself is the class [Etcd]; the requests of the client
    ([lcm_core/integration/clients/etcd_client.py]) that this service makes are
    programmed over it.  A member runs three kinds of coroutines: the election
    loop, renewal loops, and calls of [_step_down].  The client blocks, so a
    coroutine of a member gives way to the others of that member only at its
    sleeps and where [_step_down] waits for the reconciliation task; the requests
    of different members interleave freely. *)
From S2P Require Import Prelude.

(** ** etcd *)

(** The requests of the election and, after them, what a server does by itself
    ([expire]) and what the laws speak of: the leases that live, all that were ever
    granted, and the value and lease of the election key. *)
Class Etcd (E : Type) := {
  grant_lease : E -> Z * E;
  put_if_not_exists : string -> Z -> E -> bool * E;
  get_key : E -> option string;
  keep_alive : Z -> E -> Z;
  revoke : Z -> E -> E;
  expire : Z -> E -> E;
  alive : E -> gset Z;
  granted : E -> gset Z;
  owner : E -> option (string * Z)
}.

(** The documented behaviour: lease identifiers are not used twice; a put with a
    condition on a missing key and with a lease that lives; [LeaseKeepAlive]
    answers a time to live of zero for a lease that is gone; a key goes with its
    lease. *)
Class EtcdLaws (E : Type) `{Etcd E} : Prop := {
  owner_alive e v l : owner e = Some (v, l) -> l ∈ alive e;
  alive_granted e : alive e ⊆ granted e;
  grant_fresh e : (grant_lease e).1 ∉ granted e;
  grant_alive e : alive (grant_lease e).2 = {[(grant_lease e).1]} ∪ alive e;
  grant_granted e : granted (grant_lease e).2 = {[(grant_lease e).1]} ∪ granted e;
  grant_owner e : owner (grant_lease e).2 = owner e;
  put_taken e v l : owner e <> None \/ l ∉ alive e -> put_if_not_exists v l e = (false, e);
  put_free e v l : owner e = None -> l ∈ alive e ->
    exists e', put_if_not_exists v l e = (true, e') /\ owner e' = Some (v, l) /\
      alive e' = alive e /\ granted e' = granted e;
  get_owner e : get_key e = fst <$> owner e;
  keep_alive_ttl e l : (0 <? keep_alive l e) = bool_decide (l ∈ alive e);
  revoke_alive e l : alive (revoke l e) = alive e ∖ {[l]};
  revoke_granted e l : granted (revoke l e) = granted e;
  revoke_owner e l : owner (revoke l e) = if bool_decide (snd <$> owner e = Some l) then None else owner e;
  expire_alive e l : alive (expire l e) = alive e ∖ {[l]};
  expire_granted e l : granted (expire l e) = granted e;
  expire_owner e l : owner (expire l e) = if bool_decide (snd <$> owner e = Some l) then None else owner e
}.

(** ** A member *)

(** Where the election loop stands: at its top, after its sleep; between the
    requests of [_try_become_leader]. *)
Inductive campaign := Idle | Granted | Refused | Failed.

Record member := {
  instance_id : string;
  connected : bool;
  is_leader : bool;
  lease : option Z;
  current_leader_id : option string;
  election : campaign;
  renewals : nat;
  stepping_down : nat
}.

#[export] Instance eta_member : Eta member := fun m => {|
  instance_id := m.(instance_id); connected := m.(connected); is_leader := m.(is_leader); lease := m.(lease);
  current_leader_id := m.(current_leader_id); election := m.(election); renewals := m.(renewals);
  stepping_down := m.(stepping_down) |}.

(** A member that was started; it is not connected when [connect] raised. *)
Definition started (i : string) (connected : bool) : member := {|
  instance_id := i; connected := connected; is_leader := false; lease := None; current_leader_id := None;
  election := Idle; renewals := 0; stepping_down := 0 |}.

(** How a request ended: answered; not carried out; carried out, but the answer
    was lost. *)
Inductive reply := Answered | Unsent | Lost.

Inductive task :=
| Campaign (r : reply)
| Renew (r : reply)
| Resign
| SteppedDown (r : reply).

Section Member.
Context {E : Type} `{Etcd E}.

(** [_become_leader], up to its callbacks: the renewal loop starts if there is a
    lease. *)
Definition become_leader (m : member) : member :=
  m <| is_leader := true |> <| current_leader_id := Some m.(instance_id) |>
    <| renewals := if m.(connected) && bool_decide (is_Some m.(lease)) then S m.(renewals) else m.(renewals) |>.

(** [_step_down] until it waits for the reconciliation task; the rest is
    [finish_step_down]. *)
Definition step_down (m : member) : member :=
  if m.(is_leader) then m <| is_leader := false |> <| stepping_down := S m.(stepping_down) |> else m.

(** The lease is revoked, unless the request fails, and forgotten. *)
Definition give_up_lease (r : reply) (e : E) (m : member) : E * member :=
  match m.(lease) with
  | Some l => (match r with Unsent => e | _ => revoke l e end, m <| lease := None |>)
  | None => (e, m)
  end.

(** One request of the election loop: [_leader_election_loop] and
    [_try_become_leader].  The client turns a failed put into [False] and a
    failed get into [None]; a failed grant raises, and the member revokes the lease
    it still has from an earlier attempt. *)
Definition campaign_step (r : reply) (e : E) (m : member) : E * member :=
  match m.(election) with
  | Idle =>
      if m.(is_leader) then (e, m) else
      if negb m.(connected) then (e, become_leader m) else
      match r with
      | Answered => let '(l, e) := grant_lease e in (e, m <| lease := Some l |> <| election := Granted |>)
      | Unsent => (e, m <| election := Failed |>)
      | Lost => ((grant_lease e).2, m <| election := Failed |>)
      end
  | Granted =>
      match m.(lease) with
      | Some l =>
          let '(acquired, e') := put_if_not_exists m.(instance_id) l e in
          match r with
          | Answered => if acquired : bool then (e', become_leader (m <| election := Idle |>))
                        else (e', m <| election := Refused |>)
          | Unsent => (e, m <| election := Refused |>)
          | Lost => (e', m <| election := Refused |>)
          end
      | None => (e, m)
      end
  | Refused =>
      (e, m <| current_leader_id := match r with Answered => get_key e | _ => None end |> <| election := Idle |>)
  | Failed => let '(e, m) := give_up_lease r e m in (e, m <| election := Idle |>)
  end.

(** A renewal loop wakes up: [refresh_lease], and the test of the loop.  The time
    to live that etcd answers is not looked at. *)
Definition renew_step (r : reply) (e : E) (m : member) : E * member :=
  let ends m := m <| renewals := pred m.(renewals) |> in
  match (if m.(connected) then m.(lease) else None), r with
  | Some l, Answered => let _ := keep_alive l e in (e, if m.(is_leader) then m else ends m)
  | Some _, _ => (e, ends (step_down m))
  | None, _ => (e, if m.(is_leader) then m else ends m)
  end.

(** One step of one coroutine of the member, when the coroutine exists and no
    other is in the middle of its requests. *)
Definition member_step (t : task) (e : E) (m : member) : option (E * member) :=
  match t, m.(election) with
  | Campaign r, _ => Some (campaign_step r e m)
  | Renew r, Idle => if bool_decide (0 < m.(renewals))%nat then Some (renew_step r e m) else None
  | Resign, Idle => Some (e, step_down m)
  | SteppedDown r, Idle =>
      if bool_decide (0 < m.(stepping_down))%nat
      then let '(e, m) := give_up_lease r e m in Some (e, m <| stepping_down := pred m.(stepping_down) |>)
      else None
  | _, _ => None
  end.

(** ** The members together

    A process that died is [None]. *)
Record cluster := {
  etcd : E;
  members : list (option member)
}.

(** A member takes a step; a process dies with its coroutines; a lease runs out. *)
Inductive event :=
| Step (i : nat) (t : task)
| Crash (i : nat)
| Expire (l : Z).

Definition member_at (i : nat) (c : cluster) : option member := mjoin (members c !! i).

Definition cluster_step (ev : event) (c : cluster) : option cluster :=
  match ev with
  | Step i t =>
      m ← member_at i c;
      '(e, m) ← member_step t (etcd c) m;
      Some {| etcd := e; members := <[i := Some m]> (members c) |}
  | Crash i => Some {| etcd := etcd c; members := <[i := None]> (members c) |}
  | Expire l => Some {| etcd := expire l (etcd c); members := members c |}
  end.

Fixpoint cluster_run (l : list event) (c : cluster) : option cluster :=
  match l with
  | [] => Some c
  | ev :: l => c' ← cluster_step ev c; cluster_run l c'
  end.
End Member.
Arguments cluster _ : clear implicits.
Arguments Build_cluster {_} _ _.
