(* ===== verification/ElectionProps.v ===== *)
(** * Properties of leader election

    Leaders whose lease lives are one at most; a leader whose lease is gone does
    not find out; a free key is taken by a member that campaigns. *)
From S2P Require Import Prelude Traces Election.

Section Election.
Context {E : Type} `{EtcdLaws E}.

(** ** One step of one member *)

(** What a member with that lease may do to etcd. *)
Record moves (own : option Z) (e e' : E) : Prop := {
  moves_granted : granted e ⊆ granted e';
  moves_alive l : l ∈ granted e -> own <> Some l -> l ∈ alive e' <-> l ∈ alive e;
  moves_owner v l : owner e = Some (v, l) -> l ∈ alive e' -> owner e' = Some (v, l)
}.

Lemma moves_refl own e : moves own e e.
Proof. by split. Qed.

Lemma moves_grant own e : moves own e (grant_lease e).2.
Proof.
  split.
  - rewrite grant_granted. set_solver.
  - intros l Hl _. rewrite grant_alive, elem_of_union, elem_of_singleton. pose proof (grant_fresh e). naive_solver.
  - intros v l Ho _. by rewrite grant_owner.
Qed.

Lemma put_cases v l e :
  put_if_not_exists v l e = (false, e) \/
  exists e', put_if_not_exists v l e = (true, e') /\ owner e = None /\ l ∈ alive e /\ owner e' = Some (v, l) /\
    alive e' = alive e /\ granted e' = granted e.
Proof.
  destruct (owner e) eqn:Ho; [left; apply put_taken; left; by rewrite Ho|].
  destruct (decide (l ∈ alive e)) as [Hl|Hl]; [right|left; apply put_taken; by right].
  destruct (put_free e v l Ho Hl) as (e' & ? & ? & ? & ?). by exists e'.
Qed.

Lemma moves_put own v l e : moves own e (put_if_not_exists v l e).2.
Proof.
  destruct (put_cases v l e) as [->|(e' & -> & Ho & _ & _ & Ha & Hg)]; [apply moves_refl|]. cbn. split.
  - by rewrite Hg.
  - intros l' _ _. by rewrite Ha.
  - intros v' l' Ho'. congruence.
Qed.

Lemma moves_revoke e l : moves (Some l) e (revoke l e).
Proof.
  split.
  - by rewrite revoke_granted.
  - intros l' _ Hne. rewrite revoke_alive. set_solver.
  - intros v l' Ho. rewrite revoke_alive, revoke_owner, Ho. cbn. intros Hl.
    rewrite bool_decide_eq_false_2; [done|]. set_solver.
Qed.

Lemma moves_give_up r e m : moves (lease m) e (give_up_lease r e m).1.
Proof.
  unfold give_up_lease. destruct (lease m) as [l|]; [|apply moves_refl].
  destruct r; [apply moves_revoke|apply moves_refl|apply moves_revoke].
Qed.

Lemma member_step_moves t e m e' m' : member_step t e m = Some (e', m') -> moves (lease m) e e'.
Proof.
  assert (forall x : E * member, moves (lease m) e x.1 -> Some x = Some (e', m') -> moves (lease m) e e') as Hx
    by (by intros [] Hm [= -> ->]).
  destruct t as [r|r| |r]; cbn.
  - apply Hx. unfold campaign_step. destruct (election m).
    + destruct (is_leader m); [apply moves_refl|]. destruct (connected m); [|apply moves_refl]. cbn.
      destruct r; [|apply moves_refl|apply moves_grant]. pose proof (moves_grant (lease m) e) as Hg.
      by destruct (grant_lease e).
    + destruct (lease m) as [l|]; [|apply moves_refl].
      pose proof (moves_put (Some l) (instance_id m) l e) as Hp.
      destruct (put_if_not_exists _ _ _) as [b e1]. cbn in Hp. destruct r, b; try done; apply moves_refl.
    + apply moves_refl.
    + pose proof (moves_give_up r e m) as Hg. by destruct (give_up_lease r e m).
  - destruct (election m); try done. case_bool_decide; [|done]. apply Hx. unfold renew_step.
    destruct (if connected m then lease m else None); [destruct r|]; apply moves_refl.
  - destruct (election m); try done. by intros [= <- <-].
  - destruct (election m); try done. case_bool_decide; [|done].
    pose proof (moves_give_up r e m) as Hg. destruct (give_up_lease r e m). by intros [= <- <-].
Qed.

(** A member's lease: the one it had, none, or a new one. *)
Definition lease_after (e e' : E) (m m' : member) : Prop :=
  instance_id m' = instance_id m /\
  (lease m' = lease m \/ lease m' = None \/ exists l, lease m' = Some l /\ l ∉ granted e /\ l ∈ granted e').

Lemma lease_kept e e' m m' : instance_id m' = instance_id m -> lease m' = lease m -> lease_after e e' m m'.
Proof. by split; [|left]. Qed.

Lemma give_up_after r e m : lease_after e (give_up_lease r e m).1 m (give_up_lease r e m).2.
Proof. unfold give_up_lease. destruct (lease m) eqn:Hl; [|by apply lease_kept]. by split; [|right; left]. Qed.

Lemma campaign_after r e m : lease_after e (campaign_step r e m).1 m (campaign_step r e m).2.
Proof.
  unfold campaign_step. destruct (election m).
  - destruct (is_leader m); [by apply lease_kept|]. destruct (connected m); [|by apply lease_kept]. cbn.
    pose proof (grant_fresh e) as Hf. pose proof (grant_granted e) as Hg.
    destruct r; [|by apply lease_kept..]. destruct (grant_lease e) as [l e1]. cbn in *.
    split; [done|]. right; right. exists l. split; [done|]. split; [done|]. rewrite Hg. set_solver.
  - destruct (lease m) as [l|] eqn:Hl; [|by apply lease_kept]. destruct (put_if_not_exists _ _ _) as [b e1].
    destruct r; [destruct b|..]; by apply lease_kept.
  - by apply lease_kept.
  - pose proof (give_up_after r e m) as Hg. destruct (give_up_lease r e m) as [e1 m1]. exact Hg.
Qed.

Lemma member_step_lease t e m e' m' : member_step t e m = Some (e', m') -> lease_after e e' m m'.
Proof.
  intros Hs. destruct t as [r|r| |r]; cbn in Hs.
  - pose proof (campaign_after r e m) as Hc. destruct (campaign_step r e m). by injection Hs as <- <-.
  - destruct (election m); try done. case_bool_decide; [|done].
    assert (lease_after e (renew_step r e m).1 m (renew_step r e m).2) as Hr.
    { unfold renew_step, step_down. destruct (if connected m then lease m else None); [destruct r|]; destruct (is_leader m); by apply lease_kept. }
    destruct (renew_step r e m). by injection Hs as <- <-.
  - destruct (election m); try done. injection Hs as <- <-. unfold step_down. destruct (is_leader m); by apply lease_kept.
  - destruct (election m); try done. case_bool_decide; [|done].
    pose proof (give_up_after r e m) as Hg. destruct (give_up_lease r e m). by injection Hs as <- <-.
Qed.

(** ** Leaders with a lease *)

(** A leader whose lease lives holds the key with it; a member is no leader while
    it campaigns; one that is not connected has no lease. *)
Record member_ok (e : E) (m : member) : Prop := {
  leader_owns l : is_leader m = true -> lease m = Some l -> l ∈ alive e -> owner e = Some (instance_id m, l);
  campaigner : election m <> Idle -> is_leader m = false;
  unconnected : connected m = false -> lease m = None;
  granted_lease : election m = Granted -> is_Some (lease m)
}.

Lemma member_ok_moves own e e' m : moves own e e' -> (forall l, lease m = Some l -> l ∈ granted e /\ own <> Some l) ->
  member_ok e m -> member_ok e' m.
Proof.
  intros Hm Hl [Ho Hc Hu Hg]. split; [|done..]. intros l Hi Hle Ha. destruct (Hl l Hle) as [Hgr Hne].
  apply (moves_owner _ _ _ Hm); [|done]. apply Ho; [done..|]. by apply (moves_alive _ _ _ Hm).
Qed.

(** Field by field, what follows from the case. *)
Ltac fields := split; cbn; intros; try done; try congruence; eauto.

Lemma campaign_ok r e m : member_ok e m -> member_ok (campaign_step r e m).1 (campaign_step r e m).2.
Proof.
  intros Hok. pose proof Hok as [Ho Hc Hu Hg]. unfold campaign_step. destruct (election m) eqn:He.
  - destruct (is_leader m) eqn:Hi; [done|]. destruct (connected m) eqn:Hco; cbn.
    + destruct r; [destruct (grant_lease e) as [l e1]|..]; fields.
    + specialize (Hu eq_refl). fields.
  - destruct (lease m) as [l|] eqn:Hl; [|done].
    pose proof (put_cases (instance_id m) l e) as Hp. destruct (put_if_not_exists _ _ _) as [b e1].
    assert (is_leader m = false) as Hi by (by apply Hc).
    assert (forall e2, member_ok e2 (m <| election := Refused |>)) as Hno.
    { intros e2. fields. by rewrite Hl; apply Hu. }
    destruct r; [destruct b|..]; cbn; try apply Hno.
    destruct Hp as [[=]|(e2 & [= <-] & _ & _ & Hown & _)]. fields. by rewrite Hl; apply Hu.
  - fields.
  - assert (is_leader m = false) as Hi by (by apply Hc).
    unfold give_up_lease. destruct (lease m) as [l|] eqn:Hl; cbn; fields.
Qed.

Lemma step_down_ok e m : member_ok e m -> member_ok e (step_down m).
Proof. intros Hok. unfold step_down. destruct (is_leader m) eqn:Hi; [|done]. destruct Hok. fields. Qed.

(** A renewal loop changes nothing else. *)
Lemma renewals_ok n e m : member_ok e m -> member_ok e (m <| renewals := n |>).
Proof. intros []. fields. Qed.

Lemma renew_ok r e m : member_ok e m -> member_ok (renew_step r e m).1 (renew_step r e m).2.
Proof.
  intros Hok. unfold renew_step. pose proof (step_down_ok e m Hok) as Hd.
  destruct (if connected m then lease m else None); [destruct r|];
    [destruct (is_leader m)|..|destruct (is_leader m)]; try done; by apply renewals_ok.
Qed.

Lemma member_step_ok t e m e' m' : member_step t e m = Some (e', m') -> member_ok e m -> member_ok e' m'.
Proof.
  intros Hs Hok. destruct t as [r|r| |r]; cbn in Hs.
  - pose proof (campaign_ok r e m Hok) as Hc. destruct (campaign_step r e m). by injection Hs as <- <-.
  - destruct (election m); try done. case_bool_decide; [|done].
    pose proof (renew_ok r e m Hok) as Hc. destruct (renew_step r e m). by injection Hs as <- <-.
  - destruct (election m); try done. injection Hs as <- <-. by apply step_down_ok.
  - destruct (election m) eqn:He; try done. case_bool_decide; [|done].
    pose proof Hok as [Ho Hc Hu Hg]. unfold give_up_lease in Hs.
    destruct (lease m) as [l|] eqn:Hl; injection Hs as <- <-; fields.
Qed.

(** ** The cluster *)

Record cluster_ok (c : cluster E) : Prop := {
  ok_members i m : member_at i c = Some m -> member_ok (etcd c) m;
  ok_granted i m l : member_at i c = Some m -> lease m = Some l -> l ∈ granted (etcd c);
  ok_leases i j m m' l : member_at i c = Some m -> member_at j c = Some m' ->
    lease m = Some l -> lease m' = Some l -> i = j;
  ok_names i j m m' : member_at i c = Some m -> member_at j c = Some m' -> instance_id m = instance_id m' -> i = j
}.

Lemma member_at_insert i j m (c : cluster E) (e : E) :
  member_at j {| etcd := e; members := <[i := m]> (members c) |} =
  if bool_decide (i = j /\ (i < length (members c))%nat) then m else member_at j c.
Proof.
  unfold member_at. cbn. case_bool_decide as Hij.
  - destruct Hij as [<- Hi]. by rewrite list_lookup_insert_eq.
  - destruct (decide (i = j)) as [<-|]; [|by rewrite list_lookup_insert_ne].
    rewrite list_insert_ge; [done|]. apply Nat.le_ngt. naive_solver.
Qed.

Lemma member_at_lt i (c : cluster E) m : member_at i c = Some m -> (i < length (members c))%nat.
Proof. unfold member_at. destruct (members c !! i) eqn:Hi; [|done]. intros _. by eapply lookup_lt_Some. Qed.

Lemma cluster_step_ok ev c c' : cluster_step ev c = Some c' -> cluster_ok c -> cluster_ok c'.
Proof.
  intros Hs [Hm Hg Hl Hn]. destruct ev as [i t|i|x]; cbn in Hs.
  - destruct (member_at i c) as [m|] eqn:Hi; [|done]. cbn in Hs.
    destruct (member_step t (etcd c) m) as [[e m']|] eqn:Ht; [|done]. cbn in Hs. injection Hs as <-.
    pose proof (member_step_moves _ _ _ _ _ Ht) as Hmv. pose proof (moves_granted _ _ _ Hmv) as Hsub.
    pose proof (member_step_ok _ _ _ _ _ Ht (Hm _ _ Hi)) as Hok.
    pose proof (member_step_lease _ _ _ _ _ Ht) as [Hid Hlease]. pose proof (member_at_lt _ _ _ Hi) as Hlt.
    assert (forall j x, member_at j {| etcd := e; members := <[i := Some m']> (members c) |} = Some x ->
      (i = j /\ x = m') \/ (i <> j /\ member_at j c = Some x)) as Hat.
    { intros j x. rewrite member_at_insert. case_bool_decide as Hb; [naive_solver|].
      intros Hx. right. split; [|done]. naive_solver. }
    assert (forall j x l, i <> j -> member_at j c = Some x -> lease x = Some l -> lease m' <> Some l) as Hdiff.
    { intros j x l Hij Hx Hxl Hml. destruct Hlease as [Hsame|[Hnone|(l' & Hl' & Hfresh & _)]].
      - apply Hij. eapply (Hl i j m x l); congruence.
      - congruence.
      - rewrite Hl' in Hml. injection Hml as ->. by apply Hfresh, (Hg j x). }
    split; cbn.
    + intros j x [[<- ->]|[Hij Hx]]%Hat; [done|]. apply (member_ok_moves (lease m) (etcd c)); [done| |by eapply Hm].
      intros l Hxl. split; [by eapply Hg|]. intros Hml. apply Hij. by eapply (Hl i j m x l).
    + intros j x l [[<- ->]|[Hij Hx]]%Hat Hxl; [|by apply Hsub, (Hg j x)].
      destruct Hlease as [Hsame|[Hnone|(l' & Hl' & _ & Hin)]]; [|congruence..].
      apply Hsub, (Hg i m); congruence.
    + intros j k x y l [[<- ->]|[Hij Hx]]%Hat [[<- ->]|[Hik Hy]]%Hat Hxl Hyl; [done| | |by eapply Hl].
      * by destruct (Hdiff k y l Hik Hy Hyl).
      * by destruct (Hdiff j x l Hij Hx Hxl).
    + intros j k x y [[<- ->]|[Hij Hx]]%Hat [[<- ->]|[Hik Hy]]%Hat Hxy; [done| | |by eapply Hn].
      * eapply (Hn i k m y); congruence.
      * eapply (Hn j i x m); congruence.
  - injection Hs as <-.
    assert (forall j x, member_at j {| etcd := etcd c; members := <[i := None]> (members c) |} = Some x ->
      member_at j c = Some x) as Hat.
    { intros j x. rewrite member_at_insert. by case_bool_decide. }
    split; cbn; [intros j x ?%Hat|intros j x l ?%Hat|intros j k x y l ?%Hat ?%Hat|intros j k x y ?%Hat ?%Hat]; eauto.
  - injection Hs as <-. unfold member_at in *. cbn in *. split; unfold member_at; cbn; [|intros ???; rewrite expire_granted; eauto|eauto..].
    intros i m Hi. destruct (Hm i m Hi) as [Ho Hc Hu Hgr]. split; [|done..].
    intros l Hl1 Hl2. rewrite expire_alive, elem_of_difference, elem_of_singleton. intros [Ha Hx].
    rewrite expire_owner, (Ho l) by done. cbn. by rewrite bool_decide_eq_false_2 by congruence.
Qed.

(** A cluster of members that were just started, with identifiers of their own;
    etcd may hold anything. *)
Definition fresh_cluster (c : cluster E) : Prop :=
  (forall i m, member_at i c = Some m -> exists name b, m = started name b) /\
  forall i j m m', member_at i c = Some m -> member_at j c = Some m' -> instance_id m = instance_id m' -> i = j.

Lemma fresh_cluster_ok c : fresh_cluster c -> cluster_ok c.
Proof.
  intros [Hs Hn]. split; [|..|exact Hn].
  - intros i m (name & b & ->)%Hs. by split.
  - by intros i m l (name & b & ->)%Hs.
  - by intros i j m m' l (name & b & ->)%Hs.
Qed.

Lemma cluster_run_ok l c c' : cluster_run l c = Some c' -> cluster_ok c -> cluster_ok c'.
Proof.
  revert c. induction l as [|ev l IH]; intros c Hr Hc; cbn in Hr; [by injection Hr as <-|].
  destruct (cluster_step ev c) as [c1|] eqn:H1; [|done]. cbn in Hr. eauto using cluster_step_ok.
Qed.

(** (C29) However the requests of the members interleave, fail or lose their answers,
    and whatever leases run out and processes die: of the members that take
    themselves for the leader at most one has a lease that lives, and the key holds
    its name with that lease. *)
Theorem one_live_leader l c c' i j m m' x y :
  fresh_cluster c -> cluster_run l c = Some c' ->
  member_at i c' = Some m -> member_at j c' = Some m' -> is_leader m = true -> is_leader m' = true ->
  lease m = Some x -> lease m' = Some y -> x ∈ alive (etcd c') -> y ∈ alive (etcd c') ->
  i = j /\ owner (etcd c') = Some (instance_id m, x).
Proof.
  intros Hf Hr Hi Hj Hm Hm' Hx Hy Hax Hay. apply fresh_cluster_ok in Hf.
  pose proof (cluster_run_ok _ _ _ Hr Hf) as Hok.
  pose proof (leader_owns _ _ (ok_members _ Hok _ _ Hi) x Hm Hx Hax) as Ho.
  pose proof (leader_owns _ _ (ok_members _ Hok _ _ Hj) y Hm' Hy Hay) as Ho'.
  split; [|done]. eapply (ok_names _ Hok i j); [done..|congruence].
Qed.

(** ** A leader without a lease *)

Lemma insert_same i m (c : cluster E) : member_at i c = Some m ->
  {| etcd := etcd c; members := <[i := Some m]> (members c) |} = c.
Proof.
  unfold member_at. intros Hi. destruct c as [e ms]. cbn in *. f_equal. apply list_insert_id.
  destruct (ms !! i) as [x|]; [by f_equal|done].
Qed.

(** The coroutines of a leader that goes on. *)
Definition renewing (m : member) : Prop := is_leader m = true /\ election m = Idle /\ (0 < renewals m)%nat.

Lemma renew_unnoticed i m (c : cluster E) : member_at i c = Some m -> renewing m ->
  cluster_step (Step i (Renew Answered)) c = Some c.
Proof.
  intros Hi (Hl & He & Hr). cbn. rewrite Hi. cbn. rewrite He, bool_decide_eq_true_2 by done. cbn.
  assert (renew_step Answered (etcd c) m = (etcd c, m)) as ->.
  { unfold renew_step. rewrite Hl. by destruct (if connected m then lease m else None). }
  cbn. by rewrite insert_same.
Qed.

Fixpoint rounds (i j n : nat) : list event :=
  match n with
  | O => []
  | S n => Step i (Renew Answered) :: Step j (Renew Answered) :: rounds i j n
  end.

Lemma rounds_unnoticed i j n m m' (c : cluster E) : member_at i c = Some m -> member_at j c = Some m' ->
  renewing m -> renewing m' -> cluster_run (rounds i j n) c = Some c.
Proof.
  intros Hi Hj Hm Hm'. induction n as [|n IH]; [done|]. cbn [rounds cluster_run].
  rewrite (renew_unnoticed i m) by done. cbn [mbind option_bind]. rewrite (renew_unnoticed j m') by done. exact IH.
Qed.

Lemma cluster_run_app l1 l2 c c' : cluster_run l1 c = Some c' -> cluster_run (l1 ++ l2) c = cluster_run l2 c'.
Proof.
  revert c. induction l1 as [|ev l1 IH]; intros c Hr; cbn in Hr |- *; [by injection Hr as <-|].
  destruct (cluster_step ev c) as [c1|]; [|done]. by apply IH.
Qed.

Lemma cluster_campaign r i m (c : cluster E) : member_at i c = Some m ->
  cluster_step (Step i (Campaign r)) c =
    Some {| etcd := (campaign_step r (etcd c) m).1; members := <[i := Some (campaign_step r (etcd c) m).2]> (members c) |}.
Proof. intros Hi. cbn. rewrite Hi. cbn. by destruct (campaign_step r (etcd c) m). Qed.

Lemma idle_campaign e m : election m = Idle -> is_leader m = false -> connected m = true ->
  campaign_step Answered e m =
    ((grant_lease e).2, m <| lease := Some (grant_lease e).1 |> <| election := Granted |>).
Proof. intros He Hl Hc. unfold campaign_step. rewrite He, Hl, Hc. cbn. by destruct (grant_lease e). Qed.

(** When the lease of a leader runs out, a member that campaigns becomes leader as
    well, and both stay leaders however often they renew their leases with etcd
    answering: the answer of zero for the lease that is gone is not looked at. *)
Theorem two_leaders c i j m m' l n :
  member_at i c = Some m -> renewing m -> owner (etcd c) = Some (instance_id m, l) -> lease m = Some l ->
  i <> j -> member_at j c = Some m' -> connected m' = true -> is_leader m' = false -> election m' = Idle ->
  exists c' x, cluster_run ([Expire l; Step j (Campaign Answered); Step j (Campaign Answered)] ++ rounds i j n) c = Some c' /\
    l ∉ alive (etcd c') /\ member_at i c' = Some m /\ is_leader m = true /\
    member_at j c' = Some x /\ is_leader x = true /\ owner (etcd c') = Some (instance_id m', default l (lease x)).
Proof.
  intros Hi Hm Ho Hl Hij Hj Hc Hnl He.
  set (c1 := {| etcd := expire l (etcd c); members := members c |}).
  assert (owner (etcd c1) = None) as Ho1 by (cbn; by rewrite expire_owner, Ho, bool_decide_eq_true_2).
  pose proof (grant_alive (etcd c1)) as Hga. pose proof (grant_owner (etcd c1)) as Hgo. pose proof (grant_fresh (etcd c1)) as Hgf.
  destruct (grant_lease (etcd c1)) as [y e2] eqn:Hg. cbn [fst snd] in *. rewrite Ho1 in Hgo.
  destruct (put_free e2 (instance_id m') y Hgo) as (e3 & Hp & Ho3 & Ha3 & _); [rewrite Hga; set_solver|].
  set (x := become_leader (m' <| lease := Some y |> <| election := Granted |> <| election := Idle |>)).
  set (c2 := {| etcd := e2; members := <[j := Some (m' <| lease := Some y |> <| election := Granted |>)]> (members c) |}).
  set (c3 := {| etcd := e3; members := <[j := Some x]> (members c2) |}).
  pose proof (member_at_lt _ _ _ Hj) as Hlt.
  assert (member_at j c2 = Some (m' <| lease := Some y |> <| election := Granted |>)) as Hj2.
  { unfold c2. rewrite member_at_insert. by rewrite bool_decide_eq_true_2. }
  assert (member_at j c3 = Some x) as Hj3.
  { unfold c3. rewrite member_at_insert, bool_decide_eq_true_2; [done|]. cbn. by rewrite length_insert. }
  assert (member_at i c3 = Some m) as Hi3.
  { unfold c3. rewrite member_at_insert, bool_decide_eq_false_2 by naive_solver.
    unfold c2. by rewrite member_at_insert, bool_decide_eq_false_2 by naive_solver. }
  exists c3, x. split; [|split; [|split; [done|split; [by destruct Hm|split; [done|split; [done|done]]]]]].
  - rewrite (cluster_run_app _ _ _ c3).
    + apply (rounds_unnoticed i j n m x); [done..|]. repeat split. cbn. rewrite Hc. cbn. lia.
    + cbn [cluster_run]. change (cluster_step (Expire l) c) with (Some c1). cbn [mbind option_bind].
      rewrite (cluster_campaign _ _ m') by done. rewrite idle_campaign by done. rewrite Hg. cbn [fst snd mbind option_bind].
      change (members c1) with (members c). fold c2. rewrite (cluster_campaign _ _ _ c2 Hj2).
      assert (campaign_step Answered (etcd c2) (m' <| lease := Some y |> <| election := Granted |>) = (e3, x)) as ->.
      { unfold campaign_step. cbn [election lease instance_id upd eta eta_member]. change (etcd c2) with e2. by rewrite Hp. }
      reflexivity.
  - cbn. rewrite Ha3, Hga. cbn in *. rewrite expire_alive. intros [Hy%elem_of_singleton|]%elem_of_union; [|set_solver].
    apply Hgf. rewrite <- Hy. cbn. rewrite expire_granted. apply alive_granted. by eapply owner_alive.
Qed.

(** ** A free key is taken *)

Definition cluster_steps (ev : event) (c c' : cluster E) : Prop := cluster_step ev c = Some c'.

Definition campaigns (j : nat) (ev : event) : Prop := exists r, ev = Step j (Campaign r).
Definition lives (j : nat) (c : cluster E) : Prop := member_at j c <> None.

(** No lease runs out, the member lives, and etcd answers its campaign. *)
Definition undisturbed (j : nat) (ev : event) : Prop :=
  match ev with
  | Step i (Campaign r) => i = j -> r = Answered
  | Step _ _ => True
  | Crash i => i <> j
  | Expire _ => False
  end.

(** The member leads, or another one took the key. *)
Definition taken (j : nat) (ev : event) (c : cluster E) : Prop :=
  owner (etcd c) <> None /\
  ((exists m, member_at j c = Some m /\ is_leader m = true) \/ exists i r, i <> j /\ ev = Step i (Campaign r)).

Record candidate (e : E) (m : member) : Prop := {
  cand_follows : is_leader m = false;
  cand_connected : connected m = true;
  cand_lease l : election m = Granted -> lease m = Some l -> l ∈ alive e
}.

Definition contested (j : nat) (c : cluster E) : Prop :=
  cluster_ok c /\ owner (etcd c) = None /\ exists m, member_at j c = Some m /\ candidate (etcd c) m.

Definition requests_left (j : nat) (c : cluster E) : nat :=
  match election <$> member_at j c with
  | Some Granted => 1 | Some Idle => 2 | Some _ => 3 | None => 0
  end%nat.

Lemma give_up_rest r e m : let m' := (give_up_lease r e m).2 in
  election m' = election m /\ is_leader m' = is_leader m /\ connected m' = connected m.
Proof. unfold give_up_lease. by destruct (lease m). Qed.

Lemma give_up_free r e m : owner e = None -> owner (give_up_lease r e m).1 = None.
Proof.
  intros Ho. unfold give_up_lease. destruct (lease m); [|done]. destruct r; cbn; rewrite ?revoke_owner, ?Ho; done.
Qed.

(** A candidate's campaign, answered. *)
Lemma campaign_progress e m : owner e = None -> member_ok e m -> candidate e m ->
  let '(e', m') := campaign_step Answered e m in
  (owner e' <> None /\ is_leader m' = true) \/
  (owner e' = None /\ candidate e' m' /\
   match election m with Granted => False | Idle => election m' = Granted | _ => election m' = Idle end).
Proof.
  intros Ho Hok [Hf Hc Hl]. unfold campaign_step. destruct (election m) eqn:He.
  - rewrite Hf, Hc. cbn. pose proof (grant_owner e) as Hgo. pose proof (grant_alive e) as Hga.
    destruct (grant_lease e) as [y e1]. cbn in *. right. split; [congruence|]. split; [|done].
    split; cbn; [done..|]. intros l _ [= <-]. rewrite Hga. set_solver.
  - destruct (granted_lease _ _ Hok He) as [l Hle]. rewrite Hle.
    destruct (put_free e (instance_id m) l Ho) as (e' & -> & Ho' & _); [by apply Hl|]. left. by rewrite Ho'.
  - right. split; [done|]. split; [|done]. by split.
  - pose proof (give_up_free Answered e m Ho) as Hg. pose proof (give_up_rest Answered e m) as (_ & Hgl & Hgc).
    destruct (give_up_lease Answered e m) as [e' m']. cbn in *. right. split; [done|]. split; [|done].
    split; cbn; congruence.
Qed.

(** The other coroutines do not take a free key, and leave a member a candidate. *)
Lemma other_task_free t e m e' m' : (forall r, t <> Campaign r) -> member_step t e m = Some (e', m') ->
  owner e = None -> owner e' = None.
Proof.
  intros Ht Hs Ho. destruct t as [r|r| |r]; [by destruct (Ht r)|..]; cbn in Hs; destruct (election m); try done.
  - case_bool_decide; [|done]. injection Hs as Hs. revert Hs. unfold renew_step.
    destruct (if connected m then lease m else None); [destruct r|]; by intros [= <- <-].
  - by injection Hs as <- <-.
  - case_bool_decide; [|done]. pose proof (give_up_free r e m Ho) as Hg.
    destruct (give_up_lease r e m). by injection Hs as <- <-.
Qed.

Lemma other_task_candidate t e m e' m' : (forall r, t <> Campaign r) -> member_step t e m = Some (e', m') ->
  candidate e m -> candidate e' m' /\ election m' = election m.
Proof.
  intros Ht Hs [Hf Hc Hl].
  assert (forall e2 m2, is_leader m2 = false -> connected m2 = true -> election m2 = Idle -> candidate e2 m2) as Hi.
  { intros e2 m2 ???. split; congruence. }
  destruct t as [r|r| |r]; [by destruct (Ht r)|..]; cbn in Hs; destruct (election m) eqn:He; try done.
  - case_bool_decide; [|done]. injection Hs as Hs. revert Hs. unfold renew_step, step_down. rewrite Hf.
    destruct (if connected m then lease m else None); [destruct r|]; intros [= <- <-]; (split; [by apply Hi|done]).
  - injection Hs as <- <-. unfold step_down. rewrite Hf. split; [by apply Hi|done].
  - case_bool_decide; [|done]. pose proof (give_up_rest r e m) as (Hge & Hgl & Hgc).
    destruct (give_up_lease r e m) as [e1 m1]. injection Hs as <- <-. cbn in *.
    split; [apply Hi; cbn; congruence|cbn; congruence].
Qed.

Lemma campaign_or_not t : (exists r, t = Campaign r) \/ (forall r, t <> Campaign r).
Proof. destruct t; [left; by eexists|by right..]. Qed.

(** A step of a contest: won, or still on. *)
Definition goes_on (j : nat) (ev : event) (c c' : cluster E) : Prop :=
  contested j c' /\ (requests_left j c' = requests_left j c \/ (requests_left j c' < requests_left j c)%nat) /\
  (campaigns j ev -> (requests_left j c' < requests_left j c)%nat).

Lemma contested_own j t c e m m' : cluster_ok c -> owner (etcd c) = None -> member_at j c = Some m ->
  candidate (etcd c) m -> undisturbed j (Step j t) -> member_step t (etcd c) m = Some (e, m') ->
  let c' := {| etcd := e; members := <[j := Some m']> (members c) |} in
  cluster_ok c' -> taken j (Step j t) c' \/ goes_on j (Step j t) c c'.
Proof.
  intros Hok Ho Hj Hm Hu Ht c' Hok'.
  assert (member_at j c' = Some m') as Hj' by (unfold c'; rewrite member_at_insert, bool_decide_eq_true_2; eauto using member_at_lt).
  unfold goes_on, contested, requests_left. rewrite Hj', Hj. cbn [fmap option_fmap option_map].
  destruct (campaign_or_not t) as [[r ->]|Hn].
  - cbn in Hu. rewrite (Hu eq_refl) in Ht. cbn in Ht. injection Ht as Ht.
    pose proof (campaign_progress _ _ Ho (ok_members _ Hok _ _ Hj) Hm) as Hp. rewrite Ht in Hp.
    destruct Hp as [[Ho' Hl]|(Ho' & Hm' & He)]; [left; split; [done|]; left; by exists m'|]. right.
    assert (match election m' with Granted => 1 | Idle => 2 | _ => 3 end <
            match election m with Granted => 1 | Idle => 2 | _ => 3 end)%nat as Hless.
    { destruct (election m); [rewrite He; lia|done|rewrite He; lia..]. }
    destruct (election m), (election m'); cbn in *; eauto 8.
  - apply other_task_candidate in Ht as Hc; [|done..]. apply other_task_free in Ht; [|done..].
    destruct Hc as [Hm' He]. right. rewrite He. split; [by eauto|]. split; [by left|]. intros [r [= ->]]. by destruct (Hn r).
Qed.

Lemma contested_other i j t c e m m1 m1' : cluster_ok c -> owner (etcd c) = None -> member_at j c = Some m ->
  candidate (etcd c) m -> i <> j -> member_at i c = Some m1 -> member_step t (etcd c) m1 = Some (e, m1') ->
  let c' := {| etcd := e; members := <[i := Some m1']> (members c) |} in
  cluster_ok c' -> taken j (Step i t) c' \/ goes_on j (Step i t) c c'.
Proof.
  intros Hok Ho Hj Hm Hij Hi Ht c' Hok'.
  assert (member_at j c' = Some m) as Hj' by (unfold c'; rewrite member_at_insert, bool_decide_eq_false_2; naive_solver).
  destruct (owner e) eqn:Ho'.
  - left. split; [cbn; by rewrite Ho'|]. right. destruct (campaign_or_not t) as [[r ->]|Hn]; [by exists i, r|].
    by rewrite (other_task_free _ _ _ _ _ Hn Ht Ho) in Ho'.
  - right. unfold goes_on, contested, requests_left. rewrite Hj', Hj. split; [|split; [by left|by intros [r [= ->]]]].
    split; [done|]. split; [done|]. exists m. split; [done|]. destruct Hm as [Hf Hc Hl]. split; [done..|].
    intros l He Hle. pose proof (member_step_moves _ _ _ _ _ Ht) as Hmv.
    apply (moves_alive _ _ _ Hmv); [exact (ok_granted _ Hok _ _ _ Hj Hle)| |by apply Hl].
    intros Hl1. exact (Hij (ok_leases _ Hok _ _ _ _ _ Hi Hj Hl1 Hle)).
Qed.

Lemma contested_step j ev c c' : cluster_steps ev c c' -> undisturbed j ev -> contested j c ->
  taken j ev c' \/ goes_on j ev c c'.
Proof.
  intros Hs Hu (Hok & Ho & m & Hj & Hm). unfold cluster_steps in Hs. pose proof (cluster_step_ok _ _ _ Hs Hok) as Hok'.
  destruct ev as [i t|i|x]; [| |done]; cbn in Hs.
  - destruct (member_at i c) as [m1|] eqn:Hi; [|done]. cbn in Hs.
    destruct (member_step t (etcd c) m1) as [[e' m1']|] eqn:Ht; [|done]. cbn in Hs. injection Hs as <-.
    destruct (decide (i = j)) as [->|Hij]; [|by eapply contested_other].
    assert (m1 = m) as -> by congruence. by eapply contested_own.
  - injection Hs as <-. right.
    assert (member_at j {| etcd := etcd c; members := <[i := None]> (members c) |} = Some m) as Hj'
      by (rewrite member_at_insert, bool_decide_eq_false_2; naive_solver).
    unfold goes_on, contested, requests_left. rewrite Hj', Hj. split; [by eauto|]. split; [by left|by intros [? [=]]].
Qed.

Lemma trace_ok (t : trace cluster_steps) n : fresh_cluster (tr_state t 0) -> cluster_ok (tr_state t n).
Proof.
  intros Hf. induction n as [|n IH]; [by apply fresh_cluster_ok|].
  assert (cluster_step (tr_label t n) (tr_state t n) = Some (tr_state t (S n))) as Hs by apply (tr_step t n).
  by eapply cluster_step_ok.
Qed.

(** When the key is free, a member that follows and is connected takes the lead,
    or another member takes the key before it: provided that its election loop
    goes on, that etcd answers it, and that no lease runs out between its two
    requests.  The other members may do anything, and their requests may fail. *)
Theorem free_key_taken (t : trace cluster_steps) n j m :
  fresh_cluster (tr_state t 0) -> weakly_fair (campaigns j) (lives j) t ->
  owner (etcd (tr_state t n)) = None -> member_at j (tr_state t n) = Some m ->
  is_leader m = false -> connected m = true -> election m <> Granted ->
  (forall k, (n <= k)%nat -> undisturbed j (tr_label t k)) ->
  exists k, (n <= k)%nat /\ taken j (tr_label t k) (tr_state t (S k)).
Proof.
  intros Hf Hfair Ho Hj Hl Hc He Hu.
  apply (eventually cluster_steps lt Nat.lt_wf_0 (requests_left j) (campaigns j) (lives j) (contested j) (taken j)
           (undisturbed j) t n); [done| | |done|].
  - intros c (_ & _ & x & Hx & _). unfold lives. by rewrite Hx.
  - intros ev c c' Hs Hq Hp. by apply contested_step.
  - split; [by apply trace_ok|]. split; [done|]. exists m. split; [done|]. by split.
Qed.
End Election.

(** ** A server, and witnesses *)

(** Leases are numbered from zero. *)
Record server := { next_lease : Z; live : gset Z; entry : option (string * Z) }.

Definition leases_below (n : Z) : gset Z := list_to_set (seqZ 0 n).
Definition live_entry (o : option (string * Z)) (s : gset Z) : option (string * Z) :=
  match o with Some (v, l) => if decide (l ∈ s) then Some (v, l) else None | None => None end.

#[local] Instance server_etcd : Etcd server := {|
  grant_lease e := (Z.max 0 (next_lease e), {| next_lease := Z.max 0 (next_lease e) + 1;
    live := {[Z.max 0 (next_lease e)]} ∪ (live e ∩ leases_below (next_lease e));
    entry := live_entry (entry e) (live e ∩ leases_below (next_lease e)) |});
  alive e := live e ∩ leases_below (next_lease e);
  granted e := leases_below (next_lease e);
  owner e := live_entry (entry e) (live e ∩ leases_below (next_lease e));
  get_key e := fst <$> live_entry (entry e) (live e ∩ leases_below (next_lease e));
  put_if_not_exists v l e :=
    match live_entry (entry e) (live e ∩ leases_below (next_lease e)) with
    | Some _ => (false, e)
    | None => if decide (l ∈ live e ∩ leases_below (next_lease e))
              then (true, {| next_lease := next_lease e; live := live e; entry := Some (v, l) |}) else (false, e)
    end;
  keep_alive l e := if decide (l ∈ live e ∩ leases_below (next_lease e)) then 15 else 0;
  revoke l e := {| next_lease := next_lease e; live := live e ∖ {[l]}; entry := entry e |};
  expire l e := {| next_lease := next_lease e; live := live e ∖ {[l]}; entry := entry e |}
|}.

Lemma elem_of_leases_below l n : l ∈ leases_below n <-> 0 <= l < n.
Proof. unfold leases_below. rewrite elem_of_list_to_set, elem_of_seqZ. lia. Qed.

Lemma live_entry_Some o s v l : live_entry o s = Some (v, l) <-> o = Some (v, l) /\ l ∈ s.
Proof. destruct o as [[v' l']|]; cbn; [|naive_solver]. case_decide; naive_solver. Qed.

Lemma live_entry_minus o s t l : s ∖ {[l]} = t ->
  live_entry o t = if bool_decide (snd <$> live_entry o s = Some l) then None else live_entry o s.
Proof.
  intros <-. destruct o as [[v' l']|]; cbn; [|by case_bool_decide].
  destruct (decide (l' ∈ s)); cbn; repeat case_decide; case_bool_decide; set_solver.
Qed.

Lemma live_entry_same o s : live_entry (live_entry o s) s = live_entry o s.
Proof. destruct o as [[v l]|]; cbn; [|done]. case_decide as Hd; [|done]. cbn. by rewrite decide_True. Qed.

Lemma minus_below (s : gset Z) l n : s ∖ {[l]} ∩ leases_below n = (s ∩ leases_below n) ∖ {[l]}.
Proof. set_solver. Qed.

#[local] Instance server_laws : EtcdLaws server.
Proof.
  split; cbn; intros; try done.
  - by apply live_entry_Some in H as [_ ?].
  - set_solver.
  - rewrite elem_of_leases_below. lia.
  - apply set_eq. intros x. rewrite !elem_of_intersection, !elem_of_union, !elem_of_intersection, elem_of_singleton, !elem_of_leases_below.
    intuition lia.
  - apply set_eq. intros x. rewrite elem_of_union, elem_of_singleton, !elem_of_leases_below. lia.
  - destruct (entry e) as [[v l]|]; cbn; [|done]. case_decide as Hd; [|done]. cbn. rewrite decide_True; [done|].
    revert Hd. rewrite !elem_of_intersection, elem_of_union, elem_of_intersection, !elem_of_leases_below.
    intros (? & ? & ?). split; [right; split; [done|lia]|lia].
  - destruct (live_entry _ _); [done|]. rewrite decide_False; [done|]. by destruct H.
  - rewrite H, decide_True by done. eexists. split; [done|]. cbn. by rewrite decide_True.
  - repeat case_decide; case_bool_decide; done.
  - by rewrite minus_below.
  - by apply live_entry_minus; rewrite minus_below.
  - by rewrite minus_below.
  - by apply live_entry_minus; rewrite minus_below.
Qed.

Definition empty_server : server := {| next_lease := 0; live := ∅; entry := None |}.
Definition pair : cluster server :=
  Build_cluster empty_server [Some (started "a" true); Some (started "b" true)].

Lemma pair_fresh : fresh_cluster pair.
Proof.
  split.
  - intros [|[|i]] m [= <-]; by do 2 eexists.
  - by intros [|[|i]] [|[|j]] m m' [= <-] [= <-].
Qed.

(** The first member takes the key. *)
Definition first_wins : list event := [Step 0 (Campaign Answered); Step 0 (Campaign Answered)].

Definition first_leads : cluster server := default pair (cluster_run first_wins pair).

Lemma one_live_leader_witness :
  exists c m, cluster_run (first_wins ++ [Step 1 (Campaign Answered); Step 1 (Campaign Answered); Step 0 (Renew Answered)]) pair = Some c /\
    member_at 0 c = Some m /\ is_leader m = true /\ owner (etcd c) = Some ("a", 0).
Proof.
  eexists _, _. split; [vm_compute; reflexivity|]. split; [reflexivity|]. split; [reflexivity|].
  pose proof (one_live_leader (first_wins ++ [Step 1 (Campaign Answered); Step 1 (Campaign Answered); Step 0 (Renew Answered)])
    pair _ 0 0 _ _ 0 0 pair_fresh eq_refl eq_refl eq_refl eq_refl eq_refl eq_refl eq_refl) as Hl.
  apply Hl; by apply (bool_decide_unpack _); vm_compute.
Defined.

Lemma two_leaders_witness :
  exists c x, cluster_run ([Expire 0; Step 1 (Campaign Answered); Step 1 (Campaign Answered)] ++ rounds 0 1 3) first_leads = Some c /\
    member_at 0 c = member_at 0 first_leads /\ member_at 1 c = Some x /\ is_leader x = true.
Proof.
  pose proof (two_leaders first_leads 0 1 _ _ 0 3 eq_refl (conj eq_refl (conj eq_refl (Nat.lt_0_succ _))) eq_refl eq_refl
    (Nat.neq_0_succ 0) eq_refl eq_refl eq_refl eq_refl) as (c & x & ? & _ & ? & _ & ? & ? & _).
  by exists c, x.
Defined.

(** The leader dies, its lease runs out, and the other member takes the key. *)
Definition succession : list event :=
  first_wins ++ [Crash 0; Expire 0; Step 1 (Campaign Answered); Step 1 (Campaign Answered)].

Lemma succession_ends : ends_idle cluster_step (Step 1 (Campaign Answered)) succession pair.
Proof. vm_compute. reflexivity. Qed.

Definition succession_trace : trace cluster_steps :=
  lasso cluster_step (Step 1 (Campaign Answered)) succession pair succession_ends.

Lemma free_key_taken_witness :
  owner (etcd (tr_state succession_trace 4)) = None /\ exists k, (4 <= k)%nat /\ taken 1 (tr_label succession_trace k) (tr_state succession_trace (S k)).
Proof.
  split; [vm_compute; reflexivity|].
  apply (free_key_taken succession_trace 4 1 (started "b" true)); [apply pair_fresh| |vm_compute; reflexivity..|done|].
  - apply lasso_fair_idle. by exists Answered.
  - apply lasso_labels; [done|]. by repeat constructor.
Defined.
