(* ===== verification/Dsl.v ===== *)
(** * The executor of lifecycle documents ([scenario-engine/application/services/dsl_executor.py])

    A document is a list of tasks, nested through [do], [try] and [catch]; running
    it updates a dict of workflow context.  Tasks and contexts are untyped values.

    What is not in the repository is a parameter: [jq], the package that evaluates
    expressions; [scenario], the coroutine of a registered scenario; the clock and
    whoever sets the event of cancellation act on a world [W].  Scenarios are taken
    not to write into their input, which may be the live context.  [str_number] is
    the text of a number in a message. *)
From S2P Require Import Prelude PyData PyNum.
From Stdlib Require Import Ascii.

(** ** Expressions ([jq_evaluator.py]) *)

(** The match of [^\$\{\s*(.+?)\s*\}$]: what is between the braces, without the
    spaces around it; only spaces leave the last of them.  [$] also matches before a
    final newline. *)
Definition newline : string := String "010"%char "".

Fixpoint before_suffix (suffix s : string) : option string :=
  if String.eqb s suffix then Some EmptyString else
  match s with
  | EmptyString => None
  | String c s => String c <$> before_suffix suffix s
  end.

Fixpoint last_char (s : string) : string :=
  match s with
  | EmptyString => EmptyString
  | String c EmptyString => s
  | String _ s => last_char s
  end.

Definition extract_expression (value : string) : option string :=
  if py_startswith "${" value then
    let body := str_drop 2 value in
    inner ← match before_suffix "}" body with Some s => Some s | None => before_suffix ("}" +:+ newline) body end;
    if String.eqb inner "" then None
    else Some (if String.eqb (py_strip inner) "" then last_char inner else py_strip inner)
  else None.

Definition is_expression (value : pyval) : bool :=
  match value with PStr s => bool_decide (is_Some (extract_expression s)) | _ => false end.

(** ** Values and messages *)

(** [type(v)] *)
Definition type_of (v : pyval) : string :=
  let t := match v with
    | PNone => "NoneType" | PBool _ => "bool" | PInt _ => "int" | PFloat _ | PSecs _ => "float"
    | PStr _ | PIso _ => "str" | PTime _ => "datetime.datetime" | PList _ => "list" | PDict _ => "dict"
    end in
  "<class '" +:+ t +:+ "'>".

(** [f"{o}"] *)
Definition str_opt (o : option string) : string := default "None" o.

(** [v.get] on a value that should be a dict. *)
Definition get_of (v : pyval) (k : string) (d : pyval) : res pyval :=
  match v with
  | PDict m => Ok (pd_get_or k d m)
  | _ => Err (AttributeError "object has no attribute 'get'")
  end.

Definition get_if_dict (v : pyval) (k : string) (d : pyval) : pyval :=
  match v with PDict m => pd_get_or k d m | _ => d end.

(** [v and isinstance(v, dict) and k in v], then [v[k]]. *)
Definition get_present (v : pyval) (k : string) : option pyval :=
  match v with PDict m => dict_get k m | _ => None end.

(** ** Outcomes *)

(** A scenario's [ScenarioResult], or how it did not come to one. *)
Inductive scenario_outcome :=
| Returned (status : string) (output_data : pydict) (error : option string)
| TimedOut
| Cancelled
| Crashed (e : exn).

Record DslExecutionResult := {
  success : bool;
  result_context : pydict;
  error : option string;
  failed_task : option string
}.

Definition completed (context : pydict) : DslExecutionResult :=
  {| success := true; result_context := context; error := None; failed_task := None |}.
Definition failed (error : string) (failed_task : option string) : DslExecutionResult :=
  {| success := false; result_context := []; error := Some error; failed_task := failed_task |}.

(** A call returns, raises [DslExecutionError], raises another exception, or is
    stopped in its sleep by a [CancelledError].  [Deep] is no outcome of the code: the
    depth allowed was too small. *)
Inductive outcome A :=
| Returns (a : A)
| DslError (task_name detail : string)
| Raises (e : exn)
| Stopped
| Deep.
Arguments Returns {_} _.
Arguments DslError {_} _ _.
Arguments Raises {_} _.
Arguments Stopped {_}.
Arguments Deep {_}.

(** The object of an output: the context of the executor itself, or another one. *)
Inductive ref := Live | Val (v : pyval).

Section Executor.
Context {W : Type} `{SetOrder}.
Context (jq : string -> dict pyval -> pyval -> string + list pyval) (str_value : pyval -> string).
Context (registered : string -> bool)
        (scenario : string -> pyval -> option pyval -> W -> scenario_outcome * W).
Context (cancellation : W -> bool) (sleep : pyval -> W -> bool * W).

(** A method of an executor: it has the context of that executor and the world. *)
Definition M (A : Type) : Type := pydict * W -> outcome A * (pydict * W).

#[local] Instance M_ret : MRet M := fun _ a s => (Returns a, s).
#[local] Instance M_bind : MBind M := fun _ _ k m s =>
  match m s with
  | (Returns a, s) => k a s
  | (DslError t d, s) => (DslError t d, s)
  | (Raises e, s) => (Raises e, s)
  | (Stopped, s) => (Stopped, s)
  | (Deep, s) => (Deep, s)
  end.

Definition get_context : M pydict := fun s => (Returns s.1, s).
Definition put_context (d : pydict) : M unit := fun s => (Returns (), (d, s.2)).
Definition dsl_error {A} (task_name detail : string) : M A := fun s => (DslError task_name detail, s).
Definition lift {A} (r : res A) : M A := fun s => (match r with Ok a => Returns a | Err e => Raises e end, s).
Definition is_cancelled : M bool := fun s => (Returns (cancellation s.2), s).

(** [try: m  except DslExecutionError]. *)
Definition try_dsl {A} (m : M A) : M ((string * string) + A) := fun s =>
  match m s with
  | (Returns a, s) => (Returns (inr a), s)
  | (DslError t d, s) => (Returns (inl (t, d)), s)
  | (Raises e, s) => (Raises e, s)
  | (Stopped, s) => (Stopped, s)
  | (Deep, s) => (Deep, s)
  end.

Definition asyncio_sleep (delay : pyval) : M unit := fun s =>
  let '(woken, w) := sleep delay s.2 in (if woken : bool then Returns () else Stopped, (s.1, w)).

(** ** [jq_evaluator.py], continued: the result, or the detail of [JqEvaluationError] *)

(** The variables are dicts and lists here, which need no conversion. *)
Definition evaluate (expression : string) (data : pyval) (variables : dict pyval) : string + pyval :=
  match jq expression variables data with
  | inl detail => inl detail
  | inr [] => inr PNone
  | inr [x] => inr x
  | inr results => inr (PList results)
  end.

Definition resolve_value (value data : pyval) (variables : dict pyval) : string + pyval :=
  match value with
  | PStr s =>
      match extract_expression s with
      | Some expr => evaluate expr data variables
      | None => inr value
      end
  | _ => inr value
  end.

Fixpoint resolve_object (obj : pydict) (data : pyval) (variables : dict pyval) : string + pydict :=
  match obj with
  | [] => inr []
  | (key, value) :: obj =>
      match resolve_value value data variables with
      | inl detail => inl detail
      | inr v => match resolve_object obj data variables with inl detail => inl detail | inr r => inr ((key, v) :: r) end
      end
  end.

(** ** Helpers of the executor *)

Definition deref (context : pydict) (r : ref) : pyval := match r with Live => PDict context | Val v => v end.

Definition jq_variables (context : pydict) (current_output : pyval) : dict pyval :=
  let io := match current_output with PDict _ | PList _ => current_output | _ => PDict [] end in
  [("context", PDict context); ("input", io); ("output", io)].

(** [resolve_value(value, output, self._jq_variables(output))] *)
Definition resolve (value : pyval) (output : ref) : M (string + pyval) :=
  context ← get_context;
  let v := deref context output in mret (resolve_value value v (jq_variables context v)).

Definition resolve_task_input (task_name : string) (spec : pydict) (raw_input : ref) : M pyval :=
  context ← get_context;
  let raw := deref context raw_input in
  let variables := jq_variables context raw in
  match pd_get "with" spec with
  | PDict ((_ :: _) as args) =>
      match resolve_object args raw variables with
      | inl detail => dsl_error task_name ("'with' argument evaluation failed: " +:+ detail)
      | inr d => mret (PDict d)
      end
  | _ =>
      match get_present (pd_get "input" spec) "from" with
      | Some value =>
          match resolve_value value raw variables with
          | inl detail => dsl_error task_name ("'input.from' evaluation failed: " +:+ detail)
          | inr v => mret v
          end
      | None => mret (if is_dict raw then raw else PDict [])
      end
  end.

(** ** The types of tasks

    [self] is [_execute_task], for the tasks inside. *)
Section Tasks.
Context (self : string -> pydict -> ref -> M ref).

Inductive flow :=
| Next (last_output : ref)
| End
| Fail (error : string) (failed_task : option string).

(** The condition of a task. *)
Definition condition (spec : pydict) (last_output : ref) : M (string + bool) :=
  match pd_get "if" spec with
  | PNone => mret (inr true)
  | if_expr => c ← resolve if_expr last_output; mret (match c with inl d => inl d | inr v => inr (truthy v) end)
  end.

(** What follows a task: [output.as], [export.as] and [then]. *)
Definition finish_task (task_name : string) (spec : pydict) (task_output : ref) : M flow :=
  transformed ← match get_present (pd_get "output" spec) "as" with
                | Some value => r ← resolve value task_output;
                                mret (match r with inl d => inl d | inr v => inr (Val v) end)
                | None => mret (inr task_output)
                end;
  match transformed with
  | inl detail => mret (Fail ("Output transform failed: " +:+ detail) (Some task_name))
  | inr task_output =>
      exported ← match get_present (pd_get "export" spec) "as" with
                 | Some value => resolve value task_output
                 | None => mret (inr PNone)
                 end;
      match exported with
      | inl detail => mret (Fail ("Export transform failed: " +:+ detail) (Some task_name))
      | inr new_context =>
          context ← get_context;
          _ ← match new_context with PDict d => put_context (dict_update context d) | _ => mret () end;
          mret (if eq_str (pd_get "then" spec) "end" then End else Next task_output)
      end
  end.

Definition run_task (task_def : pyval) (last_output : ref) : M flow :=
  stop ← is_cancelled;
  if stop : bool then mret (Fail "Cancelled" (Some "(cancellation)")) else
  match task_def with
  | PDict [(task_name, PDict spec)] =>
      go ← condition spec last_output;
      match go with
      | inl detail => mret (Fail ("Condition evaluation failed: " +:+ detail) (Some task_name))
      | inr false => mret (Next last_output)
      | inr true =>
          out ← try_dsl (self task_name spec last_output);
          match out with
          | inl (t, detail) => mret (Fail detail (Some t))
          | inr task_output => finish_task task_name spec task_output
          end
      end
  | PDict [(task_name, _)] =>
      mret (Fail ("Invalid task spec for '" +:+ task_name +:+ "': expected dict") (Some task_name))
  | _ => mret (Fail ("Invalid task definition: expected single-key dict, got " +:+ type_of task_def) None)
  end.

Fixpoint run_tasks (tasks : list pyval) (last_output : ref) : M DslExecutionResult :=
  match tasks with
  | [] => context ← get_context; mret (completed context)
  | task_def :: tasks =>
      f ← run_task task_def last_output;
      match f with
      | Next last_output => run_tasks tasks last_output
      | End => context ← get_context; mret (completed context)
      | Fail e t => mret (failed e t)
      end
  end.

(** [DslExecutor(self._context).execute(tasks, context)]: an executor with a copy of
    the context. *)
Definition sub_execute (tasks : list pyval) (context : pydict) : M DslExecutionResult := fun s =>
  let '(r, (_, w)) := run_tasks tasks Live (context, s.2) in (r, (s.1, w)).

Definition await_scenario (key : string) (task_input : pyval) (timeout : option pyval) : M scenario_outcome := fun s =>
  let '(o, w) := scenario key task_input timeout s.2 in (Returns o, (s.1, w)).

Definition split_ref (call_ref : string) : string * string :=
  match String.index 0 "@" call_ref with
  | Some i => (String.substring 0 i call_ref, str_drop (S i) call_ref)
  | None => (call_ref, "v1")
  end.

Definition execute_call (task_name : string) (spec : pydict) (call : pyval) (raw_input : ref) : M ref :=
  if negb (is_str call)
  then dsl_error task_name ("'call' must be a string scenario reference, got " +:+ type_of call)
  else
  let call_ref := match call with PStr s => s | _ => str_value call end in
  let '(scenario_name, scenario_version) := split_ref call_ref in
  let key := scenario_name +:+ "@" +:+ scenario_version in
  if negb (registered key) then dsl_error task_name ("Scenario '" +:+ call_ref +:+ "' not found in registry") else
  task_input ← resolve_task_input task_name spec raw_input;
  let timeout_seconds := get_if_dict (pd_get "timeout" spec) "seconds" PNone in
  let timeout := if truthy timeout_seconds then Some timeout_seconds else None in
  outcome ← await_scenario key task_input timeout;
  match outcome with
  | TimedOut =>
      dsl_error task_name ("Scenario '" +:+ call_ref +:+ "' timed out after " +:+ str_value timeout_seconds +:+ "s")
  | Cancelled => dsl_error task_name "Cancelled"
  | Crashed e => lift (Err e)
  | Returned status output_data error =>
      if String.eqb status "failed"
      then dsl_error task_name ("Scenario '" +:+ call_ref +:+ "' failed: " +:+ str_opt error)
      else if String.eqb status "cancelled" then dsl_error task_name "Scenario cancelled"
      else mret (Val (PDict output_data))
  end.

Definition execute_do (task_name : string) (sub_tasks : pyval) : M ref :=
  match sub_tasks with
  | PList tasks =>
      context ← get_context;
      sub_result ← sub_execute tasks context;
      if success sub_result then
        _ ← put_context (dict_update context (result_context sub_result));
        mret (Val (PDict (result_context sub_result)))
      else dsl_error task_name ("Sub-task failed: " +:+ str_opt (error sub_result) +:+
             " (at: " +:+ str_opt (failed_task sub_result) +:+ ")")
  | _ => dsl_error task_name "'do' must be a list of sub-tasks"
  end.

(** The values that [set] resolves; the key and the detail of one that fails. *)
Fixpoint resolve_set (values : pydict) (data : pyval) (variables : dict pyval) : (string * string) + pydict :=
  match values with
  | [] => inr []
  | (key, value) :: values =>
      match (if is_expression value then resolve_value value data variables else inr value) with
      | inl detail => inl (key, detail)
      | inr v => match resolve_set values data variables with inl e => inl e | inr r => inr ((key, v) :: r) end
      end
  end.

Definition execute_set (task_name : string) (set_values : pyval) (raw_input : ref) : M ref :=
  match set_values with
  | PDict values =>
      context ← get_context;
      let raw := deref context raw_input in
      match resolve_set values raw (jq_variables context raw) with
      | inl (key, detail) => dsl_error task_name ("Failed to evaluate set." +:+ key +:+ ": " +:+ detail)
      | inr resolved => _ ← put_context (dict_update context resolved); mret Live
      end
  | _ => dsl_error task_name "'set' must be a dict of key-value pairs"
  end.

(** *** [try] *)

Record retry_policy := { max_attempts : Z; base_delay : pyval; use_exponential : bool }.

(** [range(1, v + 1)] wants an integer. *)
Definition attempt_count (v : pyval) : res Z :=
  match v with
  | PInt z => Ok z
  | PBool b => Ok (if b then 1 else 0)
  | _ => Err (TypeError "max_attempts is not an integer")
  end.

Definition read_retry (catch_spec : pyval) : res retry_policy :=
  retry_spec ← get_of catch_spec "retry" (PDict []);
  retry_limit ← get_of retry_spec "limit" (PDict []);
  delay_spec ← get_of retry_spec "delay" (PDict []);
  backoff_spec ← get_of retry_spec "backoff" (PDict []);
  count ← attempt_count (get_if_dict (get_if_dict retry_limit "attempt" (PDict [])) "count" (PInt 1));
  Ok {| max_attempts := count;
        base_delay := get_if_dict delay_spec "seconds" (PInt 1);
        use_exponential := match backoff_spec with PDict m => dict_mem "exponential" m | _ => false end |}.

Definition retry_delay (p : retry_policy) (attempt : Z) : res pyval :=
  delay ← (if use_exponential p then py_mul (base_delay p) (PInt (2 ^ (attempt - 1))) else Ok (base_delay p));
  _ ← py_num delay; Ok delay.

(** The sleep after a failed attempt that was not the last. *)
Definition pause (p : retry_policy) (attempt : Z) : M unit :=
  if attempt <? max_attempts p then delay ← lift (retry_delay p attempt); asyncio_sleep delay else mret ().

(** The attempts from number [attempt] on, [n] of them left: the output, or the
    last error. *)
Fixpoint attempts (p : retry_policy) (once : M ref) (n : nat) (attempt : Z) (last_error : option string)
    : M (option string + ref) :=
  match n with
  | O => mret (inl last_error)
  | S n =>
      out ← try_dsl once;
      match out with
      | inr r => mret (inr r)
      | inl (_, detail) =>
          _ ← pause p attempt;
          attempts p once n (attempt + 1) (Some detail)
      end
  end.

(** [catch.do]: its output, if it succeeds. *)
Definition fallback (task_name : string) (catch_spec : pyval) (last_error : option string) : M (option ref) :=
  catch_tasks ← lift (get_of catch_spec "do" PNone);
  match catch_tasks with
  | PList ((_ :: _) as tasks) =>
      context ← get_context;
      _ ← put_context (dict_set "_error" (PDict [("task", PStr task_name); ("detail", of_ostr last_error)]) context);
      context ← get_context;
      sub_result ← sub_execute tasks context;
      _ ← put_context (dict_pop "_error" context);
      context ← get_context;
      if success sub_result then
        _ ← put_context (dict_update context (result_context sub_result));
        mret (Some (Val (PDict (result_context sub_result))))
      else mret None
  | _ => mret None
  end.

Definition execute_try (task_name : string) (spec : pydict) (try_task : pyval) (raw_input : ref) : M ref :=
  let catch_spec := pd_get_or "catch" (PDict []) spec in
  p ← lift (read_retry catch_spec);
  let once := match try_task with
              | PDict task => self task_name task raw_input
              | _ => dsl_error task_name "'try' value must be a task spec dict"
              end in
  r ← attempts p once (Z.to_nat (max_attempts p)) 1 None;
  match r with
  | inr output => mret output
  | inl last_error =>
      f ← fallback task_name catch_spec last_error;
      match f with
      | Some output => mret output
      | None => dsl_error task_name
                  ("try exhausted " +:+ pretty (max_attempts p) +:+ " attempts: " +:+ str_opt last_error)
      end
  end.

(** [_execute_task] *)
Definition known_types : list string :=
  ["call"; "do"; "set"; "try"; "for"; "fork"; "switch"; "wait"; "emit"; "run"; "raise"; "listen"].

Definition dispatch (task_name : string) (spec : pydict) (raw_input : ref) : M ref :=
  match dict_get "call" spec with Some call => execute_call task_name spec call raw_input | None =>
  match dict_get "do" spec with Some sub_tasks => execute_do task_name sub_tasks | None =>
  match dict_get "set" spec with Some values => execute_set task_name values raw_input | None =>
  match dict_get "try" spec with Some try_task => execute_try task_name spec try_task raw_input | None =>
  match set_order (filter (fun k => k ∈ known_types) (dict_keys spec)) with
  | t :: _ => dsl_error task_name ("Task type '" +:+ t +:+ "' not yet implemented (Phase 3+)")
  | [] => dsl_error task_name ("Unknown task type. Keys: " +:+ repr_list (dict_keys spec))
  end end end end end.
End Tasks.

(** ** The executor *)

Fixpoint execute_task (n : nat) (task_name : string) (spec : pydict) (raw_input : ref) : M ref :=
  match n with
  | O => fun s => (Deep, s)
  | S n => dispatch (execute_task n) task_name spec raw_input
  end.

(** How deep the values are nested. *)
Fixpoint depth (v : pyval) : nat :=
  match v with
  | PList l => S (fold_right (fun v n => Nat.max (depth v) n) 0%nat l)
  | PDict d => S (fold_right (fun '(_, v) n => Nat.max (depth v) n) 0%nat d)
  | _ => O
  end.

Definition execute (tasks : list pyval) (initial_context : option pydict) (w : W) : outcome DslExecutionResult * W :=
  let '(r, (_, w)) := run_tasks (execute_task (depth (PList tasks))) tasks Live (default [] initial_context, w) in (r, w).
End Executor.
