(* ===== verification/DslProps.v ===== *)
(** * Properties of the executor of documents

    Every document is executed to an outcome; a task that fails leaves the context
    as it found it; a fallback leaves the error it handled in the context. *)
From S2P Require Import Prelude PyData PyNum Dsl.

Section Props.
Context {W : Type} `{SetOrder}.
Context (jq : string -> dict pyval -> pyval -> string + list pyval) (str_value : pyval -> string).
Context (registered : string -> bool)
        (scenario : string -> pyval -> option pyval -> W -> scenario_outcome * W).
Context (cancellation : W -> bool) (sleep : pyval -> W -> bool * W).

#[local] Notation M := (M (W := W)).
#[local] Abbreviation task_fun := (string -> pydict -> ref -> M ref).
#[local] Abbreviation run_tasks := (run_tasks jq cancellation).
#[local] Abbreviation dispatch := (dispatch jq str_value registered scenario cancellation sleep).
#[local] Abbreviation execute_task := (execute_task jq str_value registered scenario cancellation sleep).
#[local] Abbreviation sub_execute := (sub_execute jq cancellation).
#[local] Abbreviation execute := (execute jq str_value registered scenario cancellation sleep).
#[local] Existing Instances M_ret M_bind.

(** ** The depth is enough *)

(** Two programs that do the same, and do not run out of depth. *)
Definition alike {A} (m1 m2 : M A) : Prop := forall s, m1 s = m2 s /\ (m1 s).1 <> Deep.

Lemma alike_bind {A B} (m1 m2 : M A) (k1 k2 : A -> M B) :
  alike m1 m2 -> (forall a, alike (k1 a) (k2 a)) -> alike (m1 ≫= k1) (m2 ≫= k2).
Proof.
  intros Hm Hk s. unfold mbind, M_bind. destruct (Hm s) as [<- Hd]. destruct (m1 s) as [[] s']; try done.
  apply Hk.
Qed.

Lemma alike_try {A} (m1 m2 : M A) : alike m1 m2 -> alike (try_dsl m1) (try_dsl m2).
Proof. intros Hm s. unfold try_dsl. destruct (Hm s) as [<- Hd]. by destruct (m1 s) as [[] s']. Qed.

Lemma alike_same {A} (m : M A) : (forall s, (m s).1 <> Deep) -> alike m m.
Proof. intros Hm s. split; [done|apply Hm]. Qed.

Lemma alike_ret {A} (a : A) : alike (mret a) (mret a).
Proof. by apply alike_same. Qed.

Lemma alike_lift {A B} (r : res A) (k1 k2 : A -> M B) :
  (forall a, r = Ok a -> alike (k1 a) (k2 a)) -> alike (lift r ≫= k1) (lift r ≫= k2).
Proof. intros Hk s. destruct r as [a|e]; [by apply (Hk a)|done]. Qed.

Lemma alike_sleep d : alike (asyncio_sleep sleep d) (asyncio_sleep sleep d).
Proof. apply alike_same. intros s. unfold asyncio_sleep. by destruct (sleep d s.2) as [[] w]. Qed.

Lemma alike_error {A} t d : alike (A := A) (dsl_error t d) (dsl_error t d).
Proof. by apply alike_same. Qed.

Lemma alike_get : alike get_context get_context.
Proof. by apply alike_same. Qed.

Lemma alike_put d : alike (put_context d) (put_context d).
Proof. by apply alike_same. Qed.

Lemma alike_cancelled : alike (is_cancelled cancellation) (is_cancelled cancellation).
Proof. by apply alike_same. Qed.

Lemma alike_resolve v o : alike (resolve jq v o) (resolve jq v o).
Proof. by apply alike_same. Qed.

Lemma alike_scenario key input timeout :
  alike (await_scenario scenario key input timeout) (await_scenario scenario key input timeout).
Proof. apply alike_same. intros s. unfold await_scenario. by destruct (scenario key input timeout s.2). Qed.

Lemma alike_raise {A} e : alike (A := A) (lift (Err e)) (lift (Err e)).
Proof. by apply alike_same. Qed.

#[local] Opaque alike.

(** Takes a program apart that is the same on both sides but for its tasks. *)
Ltac alike :=
  repeat first
    [ assumption
    | apply alike_scenario | apply alike_raise | apply alike_ret | apply alike_lift; intros ? ? | apply alike_sleep | apply alike_error | apply alike_get | apply alike_put
    | apply alike_cancelled | apply alike_resolve
    | apply alike_bind; [|intros ?]
    | apply alike_try
    | progress cbv zeta
    | match goal with |- alike (match ?x with _ => _ end) _ => destruct x eqn:? end ].

Lemma depth_in v l : v ∈ l -> (depth v < depth (PList l))%nat.
Proof.
  intros Hv. cbn. apply Nat.lt_succ_r. induction Hv as [l|x l Hv IH]; cbn [fold_right]; lia.
Qed.

Lemma depth_item k v (d : pydict) : (k, v) ∈ d -> (depth v < depth (PDict d))%nat.
Proof.
  intros Hv. cbn. apply Nat.lt_succ_r. remember (k, v) as kv eqn:Hkv. revert Hkv.
  induction Hv as [l|x [k' v'] l Hv IH]; intros Hkv; cbn [fold_right]; [subst; lia|]. specialize (IH Hkv). lia.
Qed.

Lemma depth_get k v (d : pydict) : dict_get k d = Some v -> (depth v < depth (PDict d))%nat.
Proof. intros Hg. by eapply depth_item, dict_get_elem. Qed.

Lemma depth_catch spec v : get_of (pd_get_or "catch" (PDict []) spec) "do" PNone = Ok v ->
  (depth v < depth (PDict spec))%nat.
Proof.
  unfold pd_get_or. destruct (dict_get "catch" spec) as [c|] eqn:Hc; [|intros [= <-]; apply Nat.lt_0_succ].
  apply depth_get in Hc. destruct c as [| | | | | | | | |c]; try done. intros [= <-]. unfold pd_get_or.
  destruct (dict_get "do" c) as [v|] eqn:Hv; cbn [default]; [apply depth_get in Hv; exact (Nat.lt_trans _ _ _ Hv Hc)|apply Nat.lt_0_succ].
Qed.

(** Alike on the tasks that are at most that deep. *)
Definition agree (k : nat) (f g : task_fun) : Prop :=
  forall t spec raw, (depth (PDict spec) <= k)%nat -> alike (f t spec raw) (g t spec raw).

Lemma agree_mono j k f g : (j <= k)%nat -> agree k f g -> agree j f g.
Proof. intros Hjk Ha t spec raw Hd. apply Ha. lia. Qed.

Lemma condition_alike spec o : alike (condition jq spec o) (condition jq spec o).
Proof. unfold condition. alike. Qed.

Lemma finish_alike t spec o : alike (finish_task jq t spec o) (finish_task jq t spec o).
Proof. unfold finish_task. alike. Qed.

Lemma run_task_agree k f g d o : agree k f g -> (depth d <= S k)%nat ->
  alike (run_task jq cancellation f d o) (run_task jq cancellation g d o).
Proof.
  intros Ha Hd. unfold run_task. apply alike_bind; [alike|intros []; [alike|]].
  destruct d as [| | | | | | | | |[|[t v] [|]]]; alike.
  all: first [apply condition_alike | apply finish_alike | apply Ha; cbn [depth fold_right] in *; lia].
Qed.

Lemma run_tasks_agree k f g tasks o : agree k f g -> (depth (PList tasks) <= S (S k))%nat ->
  alike (run_tasks f tasks o) (run_tasks g tasks o).
Proof.
  intros Ha. revert o. induction tasks as [|d tasks IH]; intros o Hd; cbn [Dsl.run_tasks]; [alike|].
  cbn [depth fold_right] in *. apply alike_bind; [apply (run_task_agree k); [done|lia]|].
  intros []; alike. apply IH. lia.
Qed.

#[local] Transparent alike.
Lemma sub_execute_agree k f g tasks c : agree k f g -> (depth (PList tasks) <= S (S k))%nat ->
  alike (sub_execute f tasks c) (sub_execute g tasks c).
Proof.
  intros Ha Hd s. unfold Dsl.sub_execute. destruct (run_tasks_agree k f g tasks Live Ha Hd (c, s.2)) as [<- Hr].
  by destruct (run_tasks f tasks Live (c, s.2)) as [r [? ?]].
Qed.

#[local] Opaque alike.

Lemma pause_alike p i : alike (pause sleep p i) (pause sleep p i).
Proof. unfold pause. alike. Qed.

Lemma attempts_alike p (m1 m2 : M ref) n i e : alike m1 m2 ->
  alike (attempts sleep p m1 n i e) (attempts sleep p m2 n i e).
Proof.
  intros Hm. revert i e. induction n as [|n IH]; intros i e; cbn [attempts]; [alike|].
  apply alike_bind; [by apply alike_try|]. intros [[]|]; alike; [apply pause_alike|apply IH].
Qed.

Lemma dispatch_agree k f g : agree k f g -> agree (S k) (dispatch f) (dispatch g).
Proof.
  intros Ha t spec raw Hd. unfold Dsl.dispatch. pose proof (fun k v => depth_get k v spec) as Hget.
  destruct (dict_get "call" spec) as [call|].
  { unfold execute_call. alike. }
  destruct (dict_get "do" spec) as [sub|] eqn:Hdo.
  { unfold execute_do. apply Hget in Hdo. destruct sub; alike. apply (sub_execute_agree k); [done|lia]. }
  destruct (dict_get "set" spec) as [v|]; [unfold execute_set; alike|].
  destruct (dict_get "try" spec) as [v|] eqn:Htry; [|alike].
  unfold execute_try. alike; [apply attempts_alike|].
  - apply Hget in Htry. alike. apply Ha. lia.
  - unfold fallback. alike. apply (sub_execute_agree k); [done|].
    match goal with Hg : get_of _ "do" _ = _ |- _ => apply depth_catch in Hg; lia end.
Qed.

Lemma execute_task_agree n m k : (k <= n)%nat -> (k <= m)%nat -> agree k (execute_task n) (execute_task m).
Proof.
  revert n m. induction k as [|k IH]; intros n m Hn Hm; [intros t spec raw Hd; cbn [depth] in Hd; lia|].
  destruct n as [|n]; [lia|]. destruct m as [|m]; [lia|]. apply (dispatch_agree k), IH; lia.
Qed.

#[local] Transparent alike.

(** (C31) A document is executed to an outcome: [execute] looks as deep as the document
    is nested, and so it does not run out of depth, whatever the scenarios, the
    expressions and the sleeps do; looking deeper gives the same outcome. *)
Theorem execute_ends tasks initial w n :
  (depth (PList tasks) <= n)%nat ->
  (execute tasks initial w).1 <> Deep /\
  (let '(r, (_, w')) := run_tasks (execute_task n) tasks Live (default [] initial, w) in (r, w')) = execute tasks initial w.
Proof.
  intros Hn. unfold Dsl.execute.
  assert (agree (depth (PList tasks)) (execute_task (depth (PList tasks))) (execute_task n)) as Ha
    by (by apply execute_task_agree).
  destruct (run_tasks_agree _ _ _ tasks Live Ha ltac:(lia) (default [] initial, w)) as [Heq Hd].
  rewrite <- Heq. by destruct (run_tasks _ tasks Live _) as [r [c w']].
Qed.

(** ** A task that fails *)

(** Nothing of a task that failed is left in the context, except that a fallback that
    failed has removed an [_error] that was there. *)
Definition restored (c c' : pydict) : Prop := c' = c \/ c' = dict_pop "_error" c.

Lemma restored_trans c1 c2 c3 : NoDup (dict_keys c1) -> restored c1 c2 -> restored c2 c3 -> restored c1 c3.
Proof.
  intros Hn [->| ->] [->| ->]; [by left|by right..|]. right. apply dict_pop_notin, dict_get_None.
  by rewrite dict_get_pop, String.eqb_refl.
Qed.

Lemma restored_NoDup c c' : NoDup (dict_keys c) -> restored c c' -> NoDup (dict_keys c').
Proof. intros Hn [->| ->]; [done|by apply dict_pop_NoDup]. Qed.

Lemma dict_pop_set {V} k (v : V) d : dict_pop k (dict_set k v d) = dict_pop k d.
Proof.
  induction d as [|[k' v'] d IH]; cbn; [by rewrite String.eqb_refl|].
  destruct (String.eqb k k') eqn:Hk; cbn; rewrite Hk; [done|]. by rewrite IH.
Qed.

(** Programs that leave the context alone; ones that raise no [DslExecutionError];
    ones that restore the context when they raise it. *)
Definition keeps {A} (m : M A) : Prop := forall s, (m s).2.1 = s.1.
Definition no_error {A} (m : M A) : Prop := forall s t d, (m s).1 <> DslError t d.
Definition rolls_back {A} (m : M A) : Prop := forall s t d, NoDup (dict_keys s.1) ->
  (m s).1 = DslError t d -> restored s.1 (m s).2.1.

Lemma keeps_rolls_back {A} (m : M A) : keeps m -> rolls_back m.
Proof. intros Hm s t d _ _. left. apply Hm. Qed.

Lemma no_error_rolls_back {A} (m : M A) : no_error m -> rolls_back m.
Proof. intros Hm s t d _ Hd. by destruct (Hm s t d). Qed.

Lemma keeps_bind {A B} (m : M A) (k : A -> M B) : keeps m -> (forall a, keeps (k a)) -> keeps (m ≫= k).
Proof.
  intros Hm Hk s. specialize (Hm s). unfold mbind, M_bind. destruct (m s) as [[a|t d|e| |] s1]; try done.
  cbn in Hm. by rewrite Hk.
Qed.

Lemma no_error_bind {A B} (m : M A) (k : A -> M B) : no_error m -> (forall a, no_error (k a)) -> no_error (m ≫= k).
Proof.
  intros Hm Hk s t d. specialize (Hm s). unfold mbind, M_bind. destruct (m s) as [[a|t' d'|e| |] s1]; try done.
  - apply Hk.
  - intros [= -> ->]. by destruct (Hm t d).
Qed.

(** A program whose first part leaves the context alone. *)
Lemma rolls_back_bind {A B} (m : M A) (k : A -> M B) :
  keeps m -> (forall a, rolls_back (k a)) -> rolls_back (m ≫= k).
Proof.
  intros Hm Hk s t d Hn. specialize (Hm s). unfold mbind, M_bind. destruct (m s) as [[a|t' d'|e| |] s1]; try done.
  - cbn in Hm. rewrite <- Hm in *. by apply Hk.
  - intros _. by left.
Qed.

(** One that fails in its first part only. *)
Lemma rolls_back_then {A B} (m : M A) (k : A -> M B) :
  rolls_back m -> (forall a, no_error (k a)) -> rolls_back (m ≫= k).
Proof.
  intros Hm Hk s t d Hn. specialize (Hm s). unfold mbind, M_bind. destruct (m s) as [[a|t' d'|e| |] s1]; try done.
  - intros Hd. by destruct (Hk a s1 t d).
  - intros Hd. by apply (Hm t' d').
Qed.

Lemma keeps_lift {A} (r : res A) : keeps (lift r).
Proof. by intros []. Qed.
Lemma keeps_sleep d : keeps (asyncio_sleep sleep d).
Proof. intros s. unfold asyncio_sleep. by destruct (sleep d s.2). Qed.
Lemma keeps_scenario key input timeout : keeps (await_scenario scenario key input timeout).
Proof. intros s. unfold await_scenario. by destruct (scenario key input timeout s.2). Qed.
Lemma keeps_sub f tasks c : keeps (sub_execute f tasks c).
Proof. intros s. unfold Dsl.sub_execute. by destruct (run_tasks f tasks Live (c, s.2)) as [? [? ?]]. Qed.
Lemma no_error_lift {A} (r : res A) : no_error (lift r).
Proof. by intros s t d; destruct r. Qed.
Lemma no_error_sleep d : no_error (asyncio_sleep sleep d).
Proof. intros s t x. unfold asyncio_sleep. by destruct (sleep d s.2) as [[] ?]. Qed.
Lemma no_error_try {A} (m : M A) : no_error (try_dsl m).
Proof. intros s t d. unfold try_dsl. by destruct (m s) as [[] ?]. Qed.

Lemma no_error_ret {A} (a : A) : no_error (mret a).
Proof. by intros s t d. Qed.
Lemma no_error_get : no_error get_context.
Proof. by intros s t d. Qed.
Lemma no_error_put c : no_error (put_context c).
Proof. by intros s t d. Qed.
Lemma no_error_cancelled : no_error (is_cancelled cancellation).
Proof. by intros s t d. Qed.
Lemma no_error_resolve v o : no_error (resolve jq v o).
Proof. by intros s t d. Qed.
Lemma keeps_ret {A} (a : A) : keeps (mret a).
Proof. by intros s. Qed.
Lemma keeps_error {A} t d : keeps (A := A) (dsl_error t d).
Proof. by intros s. Qed.
Lemma keeps_get : keeps get_context.
Proof. by intros s. Qed.

#[local] Opaque no_error keeps rolls_back.

Ltac no_errors :=
  repeat first
    [ assumption
    | apply no_error_ret | apply no_error_lift | apply no_error_sleep | apply no_error_get | apply no_error_put
    | apply no_error_cancelled | apply no_error_resolve | apply no_error_try
    | apply no_error_bind; [|intros ?]
    | progress cbv zeta
    | match goal with |- no_error (match ?x with _ => _ end) => destruct x eqn:? end ].

Ltac keep :=
  repeat first
    [ assumption
    | apply keeps_ret | apply keeps_lift | apply keeps_sleep | apply keeps_error | apply keeps_get
    | apply keeps_scenario | apply keeps_sub
    | apply keeps_bind; [|intros ?]
    | progress cbv zeta
    | match goal with |- keeps (match ?x with _ => _ end) => destruct x eqn:? end ].

Lemma keeps_pause p i : keeps (pause sleep p i).
Proof. unfold pause. keep. Qed.

Lemma no_error_pause p i : no_error (pause sleep p i).
Proof. unfold pause. no_errors. Qed.

Lemma run_tasks_no_error f tasks o : no_error (run_tasks f tasks o).
Proof.
  revert o. induction tasks as [|v tasks IH]; intros o; cbn [Dsl.run_tasks]; no_errors; [|apply IH].
  unfold run_task, condition, finish_task. no_errors.
Qed.

#[local] Transparent no_error keeps rolls_back.

Lemma sub_execute_no_error f tasks c : no_error (sub_execute f tasks c).
Proof.
  intros s t d. unfold Dsl.sub_execute. pose proof (run_tasks_no_error f tasks Live (c, s.2)) as Hr.
  destruct (run_tasks f tasks Live (c, s.2)) as [r [? ?]]. apply Hr.
Qed.

(** The attempts raise no [DslExecutionError], and restore the context when all of
    them failed. *)
Lemma attempts_no_error p m n i e : no_error (attempts sleep p m n i e).
Proof. revert i e. induction n as [|n IH]; intros i e; cbn [attempts]; no_errors; [apply no_error_pause|apply IH]. Qed.

Lemma attempts_restored p m n i e s e' s' : rolls_back m -> NoDup (dict_keys s.1) ->
  attempts sleep p m n i e s = (Returns (inl e'), s') -> restored s.1 s'.1.
Proof.
  intros Hm. revert i e s. induction n as [|n IH]; intros i e s Hn; cbn [attempts]; [intros [= <- <-]; by left|].
  unfold mbind, M_bind, try_dsl. specialize (Hm s). destruct (m s) as [[a|t d|x| |] s1]; try done.
  assert (restored s.1 s1.1) as Hr by (by apply (Hm t d)).
  assert (NoDup (dict_keys s1.1)) as Hn1 by (by eapply restored_NoDup).
  intros Hs. apply (restored_trans _ s1.1); [done..|].
  revert Hs. pose proof (keeps_pause p i s1) as Hk. destruct (pause sleep p i s1) as [[[]|?? |?| |] s2]; try done.
  cbn in Hk. rewrite <- Hk. apply IH. by rewrite Hk.
Qed.

Lemma fallback_no_error f t c e : no_error (fallback jq cancellation f t c e).
Proof. unfold fallback. no_errors. apply sub_execute_no_error. Qed.

Lemma fallback_restored f t c e s s' :
  fallback jq cancellation f t c e s = (Returns None, s') -> restored s.1 s'.1.
Proof.
  unfold fallback, mbind, M_bind, lift. destruct (get_of c "do" PNone) as [v|]; [|done].
  assert (mret (M := M) (A := option ref) None s = (Returns None, s') -> restored s.1 s'.1) as Hnone
    by (intros [= <-]; by left).
  destruct v as [| | | | | | | |[|v l]|]; try apply Hnone. cbn -[Dsl.sub_execute].
  set (c1 := dict_set _ _ s.1). pose proof (keeps_sub f (v :: l) c1 (c1, s.2)) as Hk.
  destruct (sub_execute f (v :: l) c1 (c1, s.2)) as [[r|?? |?| |] s2]; try done. cbn in Hk |- *.
  destruct (success r); [done|]. intros [= <-]. cbn. right. apply dict_pop_set.
Qed.

Lemma execute_try_rolls_back f t spec v raw : (forall t spec raw, rolls_back (f t spec raw)) ->
  rolls_back (execute_try jq cancellation sleep f t spec v raw).
Proof.
  intros Hf. unfold execute_try. apply rolls_back_bind; [apply keeps_lift|intros p].
  set (once := match v with PDict task => _ | _ => _ end).
  assert (rolls_back once) as Ho by (unfold once; destruct v; first [apply keeps_rolls_back, keeps_error|apply Hf]).
  intros s t' d Hn. unfold mbind, M_bind.
  pose proof (attempts_restored p once (Z.to_nat (max_attempts p)) 1 None s) as Hr.
  pose proof (attempts_no_error p once (Z.to_nat (max_attempts p)) 1 None s) as Hne.
  destruct (attempts _ _ _ _ _ _ s) as [[[e|r]|?? |?| |] s1]; try done; [|by edestruct Hne].
  specialize (Hr e s1 Ho Hn eq_refl). intros Hd.
  assert (NoDup (dict_keys s1.1)) as Hn1 by (by eapply restored_NoDup). revert Hd.
  set (c := pd_get_or "catch" (PDict []) spec).
  pose proof (fallback_restored f t c e s1) as Hfb. pose proof (fallback_no_error f t c e s1) as Hfe.
  destruct (fallback _ _ _ _ _ _ s1) as [[[o|]|?? |?| |] s2]; try done; [|by edestruct Hfe].
  intros _. cbn. apply (restored_trans _ s1.1); [done..|]. by apply Hfb.
Qed.

Lemma dispatch_rolls_back f : (forall t spec raw, rolls_back (f t spec raw)) ->
  forall t spec raw, rolls_back (dispatch f t spec raw).
Proof.
  intros Hf t spec raw. unfold Dsl.dispatch.
  destruct (dict_get "call" spec) as [call|].
  { apply keeps_rolls_back. unfold execute_call, resolve_task_input. keep. }
  destruct (dict_get "do" spec) as [sub|].
  { unfold execute_do. destruct sub; try apply keeps_rolls_back, keeps_error.
    apply rolls_back_bind; [apply keeps_get|intros c]. apply rolls_back_bind; [apply keeps_sub|intros r].
    destruct (success r); [|apply keeps_rolls_back, keeps_error]. apply no_error_rolls_back. no_errors. }
  destruct (dict_get "set" spec) as [v|].
  { unfold execute_set. destruct v; try apply keeps_rolls_back, keeps_error.
    apply rolls_back_bind; [apply keeps_get|intros c]. cbv zeta.
    destruct (resolve_set _ _ _ _) as [[]|]; [apply keeps_rolls_back, keeps_error|]. apply no_error_rolls_back. no_errors. }
  destruct (dict_get "try" spec) as [v|]; [by apply execute_try_rolls_back|].
  apply keeps_rolls_back. keep.
Qed.

(** (C17) A task that fails leaves no trace in the workflow context, however deep in
    sub-tasks, retries and fallbacks it failed and whatever those had set: the next
    attempt and the fallback start from the context the task started from.  A
    fallback that failed as well removes an [_error] that was there before. *)
Theorem failed_task_restores n task_name spec raw context w t detail context' w' :
  NoDup (dict_keys context) ->
  execute_task n task_name spec raw (context, w) = (DslError t detail, (context', w')) ->
  context' = context \/ context' = dict_pop "_error" context.
Proof.
  intros Hn He. assert (rolls_back (execute_task n task_name spec raw)) as Hr.
  { clear. revert task_name spec raw. induction n as [|n IH]; intros t spec raw; [by intros s t' d|].
    by apply dispatch_rolls_back. }
  specialize (Hr (context, w) t detail Hn). rewrite He in Hr. by apply Hr.
Qed.

(** ** What a fallback leaves behind *)

(** The context has at least the keys it had. *)
Definition grows {A} (m : M A) : Prop := forall s k, is_Some (dict_get k s.1) -> is_Some (dict_get k (m s).2.1).

Lemma update_get {V} k (d e : dict V) : is_Some (dict_get k d) \/ is_Some (dict_get k e) -> is_Some (dict_get k (dict_update d e)).
Proof.
  unfold dict_update. revert d. induction e as [|[k' v] e IH]; intros d Hk; cbn in *.
  - destruct Hk as [|[? [=]]]; done.
  - apply IH. rewrite dict_get_set. destruct (String.eqb k k'); [by left; eexists|done].
Qed.

Lemma keeps_grows {A} (m : M A) : keeps m -> grows m.
Proof. intros Hm s k. by rewrite Hm. Qed.

Lemma grows_bind {A B} (m : M A) (k : A -> M B) : grows m -> (forall a, grows (k a)) -> grows (m ≫= k).
Proof.
  intros Hm Hk s x Hx. apply Hm in Hx. unfold mbind, M_bind. destruct (m s) as [[a|t d|e| |] s1]; try done. by apply Hk.
Qed.

(** [self._workflow_context.update(d)] *)
Lemma grows_update {A} d (a : A) : grows (c ← get_context; _ ← put_context (dict_update c d); mret a).
Proof. intros s k Hk. cbn. apply update_get. by left. Qed.

Definition plain (task : pyval) : Prop :=
  exists name spec, task = PDict [(name, PDict spec)] /\ (is_Some (dict_get "call" spec) \/ is_Some (dict_get "set" spec)) /\
    dict_get "do" spec = None.

Lemma dispatch_grows f t spec raw : is_Some (dict_get "call" spec) \/ is_Some (dict_get "set" spec) ->
  dict_get "do" spec = None -> grows (dispatch f t spec raw).
Proof.
  intros Hp Hd. unfold Dsl.dispatch. rewrite Hd. destruct (dict_get "call" spec) as [call|].
  - apply keeps_grows. unfold execute_call, resolve_task_input. keep.
  - destruct (dict_get "set" spec) as [v|]; [|by destruct Hp as [[? [=]]|[? [=]]]].
    unfold execute_set. destruct v; try apply keeps_grows, keeps_error. intros s k Hk. unfold mbind, M_bind. cbn -[resolve_set].
    destruct (resolve_set jq _ _ _) as [[]|]; cbn; [done|]. apply update_get. by left.
Qed.

Lemma finish_grows t spec o : grows (finish_task jq t spec o).
Proof.
  unfold finish_task. apply grows_bind; [apply keeps_grows; by destruct (get_present _ "as")|].
  intros [d|o']; [by apply keeps_grows, keeps_ret|]. apply grows_bind; [apply keeps_grows; by destruct (get_present _ "as")|].
  intros [d|v]; [by apply keeps_grows, keeps_ret|]. intros s k Hk. destruct v; cbn; try done. apply update_get. by left.
Qed.

Lemma try_grows {A} (m : M A) : grows m -> grows (try_dsl m).
Proof. intros Hm s k Hk. apply Hm in Hk. unfold try_dsl. by destruct (m s) as [[] s1]. Qed.

Lemma run_plain_grows n tasks o : Forall plain tasks -> grows (run_tasks (execute_task n) tasks o).
Proof.
  intros Hp. revert o. induction Hp as [|task tasks (name & spec & -> & Hc & Hd) _ IH]; intros o; cbn [Dsl.run_tasks]; [by intros ??|].
  apply grows_bind; [|intros []; [apply IH|by intros ??..]].
  unfold run_task. apply grows_bind; [by apply keeps_grows|intros []; [by intros ??|]].
  apply grows_bind; [apply keeps_grows; unfold condition; destruct (pd_get "if" spec); by intros ?|].
  intros [|[]]; [by intros ??| |by intros ??]. apply grows_bind.
  - apply try_grows. destruct n as [|n]; [by intros ??|]. by apply dispatch_grows.
  - intros [[]|]; [by intros ??|apply finish_grows].
Qed.

Lemma run_tasks_context f tasks o s r s' : run_tasks f tasks o s = (Returns r, s') -> success r = true ->
  result_context r = s'.1.
Proof.
  revert o s. induction tasks as [|task tasks IH]; intros o s; cbn [Dsl.run_tasks]; unfold mbind, M_bind.
  - by intros [= <- <-].
  - destruct (run_task jq cancellation f task o s) as [[[o'| |e t]|?? |?| |] s1]; try done; [apply IH|..]; by intros [= <- <-].
Qed.

(** A fallback of calls and [set]s that succeeds puts [_error] back into the
    context, out of which it was taken: the context of the fallback, which has it, is
    merged after that.  All the tasks that follow see the error of a task that was
    handled. *)
Theorem fallback_leaves_error n task_name catch tasks last_error s output s' :
  dict_get "do" catch = Some (PList tasks) -> Forall plain tasks ->
  fallback jq cancellation (execute_task n) task_name (PDict catch) last_error s = (Returns (Some output), s') ->
  is_Some (dict_get "_error" s'.1).
Proof.
  intros Hd Hp. unfold fallback, mbind, M_bind, lift, get_of, pd_get_or. rewrite Hd. cbn [default].
  destruct tasks as [|v l]; [done|]. cbn -[Dsl.sub_execute]. set (c1 := dict_set _ _ s.1).
  unfold Dsl.sub_execute. cbn [fst snd].
  pose proof (run_plain_grows n (v :: l) Live Hp (c1, s.2) "_error") as Hg.
  pose proof (run_tasks_context (execute_task n) (v :: l) Live (c1, s.2)) as Hc.
  destruct (run_tasks (execute_task n) (v :: l) Live (c1, s.2)) as [[r|?? |?| |] s2]; destruct s2 as [c2 w2]; try done.
  specialize (Hc r (c2, w2) eq_refl). destruct (success r); [|done]. intros [= _ <-]. cbn. apply update_get. right.
  rewrite Hc by done. apply Hg. cbn. unfold c1. rewrite dict_get_set. by eexists.
Qed.
End Props.

(** ** Witnesses

    The world counts the calls; a scenario [flaky@v1] fails. *)
#[local] Instance demo_order : SetOrder := remove_dups.

Definition demo_jq (expr : string) (vars : dict pyval) (data : pyval) : string + list pyval :=
  if String.eqb expr "." then inr [data] else inl "not supported".
Definition demo_text (v : pyval) : string := "".
Definition demo_registered (key : string) : bool := bool_decide (key ∈ ["flaky@v1"; "note@v1"]).
Definition demo_scenario (key : string) (input : pyval) (timeout : option pyval) (w : nat) : scenario_outcome * nat :=
  (if String.eqb key "flaky@v1" then Returned "failed" [] (Some "boom") else Returned "completed" [("noted", PBool true)] None, S w).

Definition call_task (ref : string) : pydict := [("call", PStr ref)].
Definition two_attempts : pyval := PDict [("limit", PDict [("attempt", PDict [("count", PInt 2)])])].

(** [{"guarded": {"try": {"call": "flaky"}, "catch": {"retry": ..., "do": tasks}}}] *)
Definition guarded_spec (tasks : list pyval) : pydict :=
  [("try", PDict (call_task "flaky")); ("catch", PDict [("retry", two_attempts); ("do", PList tasks)])].

Definition note_task : pyval := PDict [("note", PDict (call_task "note" ++ [("export", PDict [("as", PStr "${ . }")])]))].
Definition set_then_fail : list pyval :=
  [PDict [("keep", PDict [("set", PDict [("half", PInt 1)])])]; PDict [("break", PDict (call_task "flaky@v1"))]].

Definition demo_document : list pyval := [PDict [("guarded", PDict (guarded_spec [note_task]))]].

#[local] Abbreviation demo_execute := (execute demo_jq demo_text demo_registered demo_scenario (fun _ => false) (fun _ n => (true, n))).
#[local] Abbreviation demo_task := (execute_task demo_jq demo_text demo_registered demo_scenario (fun _ => false) (fun _ n => (true, n))).

Example demo_executes : demo_execute demo_document None 0%nat =
  (Returns (completed
     [("_error", PDict [("task", PStr "guarded"); ("detail", PStr "Scenario 'flaky' failed: boom")]);
      ("noted", PBool true)]), 3%nat).
Proof. vm_compute. reflexivity. Qed.

Lemma execute_ends_witness :
  (depth (PList demo_document) <= 20)%nat /\ (demo_execute demo_document None 0%nat).1 <> Deep.
Proof.
  split; [vm_compute; lia|].
  apply (execute_ends demo_jq demo_text demo_registered demo_scenario (fun _ => false) (fun _ n => (true, n))
    demo_document None 0%nat 20).
  vm_compute. lia.
Defined.

(** The fallback sets [half] before it fails. *)
Lemma failed_task_restores_witness :
  exists t d c w, demo_task 5 "guarded" (guarded_spec set_then_fail) Live ([("x", PInt 1)], 0%nat) = (DslError t d, (c, w)) /\
    (c = [("x", PInt 1)] \/ c = dict_pop "_error" [("x", PInt 1)]).
Proof.
  eexists _, _, _, _. split; [vm_compute; reflexivity|].
  eapply (failed_task_restores demo_jq demo_text demo_registered demo_scenario (fun _ => false) (fun _ n => (true, n))
    5 "guarded" (guarded_spec set_then_fail) Live [("x", PInt 1)] 0%nat); [|vm_compute; reflexivity].
  apply (bool_decide_unpack _). vm_compute. exact I.
Defined.

Lemma fallback_leaves_error_witness :
  exists o s', fallback demo_jq (fun _ => false) (demo_task 3) "guarded" (PDict [("do", PList [note_task])]) (Some "boom") ([], 2%nat)
    = (Returns (Some o), s') /\ is_Some (dict_get "_error" s'.1).
Proof.
  eexists _, _. split; [vm_compute; reflexivity|].
  eapply (fallback_leaves_error demo_jq demo_text demo_registered demo_scenario (fun _ => false) (fun _ n => (true, n))
    3 "guarded" [("do", PList [note_task])] [note_task] (Some "boom") ([], 2%nat));
    [reflexivity| |vm_compute; reflexivity].
  constructor; [|constructor]. eexists _, _. split; [reflexivity|]. split; [left; by eexists|reflexivity].
Defined.
