(* ===== verification/Job.v ===== *)
(** * Jobs of the scenario engine ([scenario-engine/domain/entities/job.py])

    The events ([domain/events/job_events.py]), their handlers, and the methods of
    the aggregate, which have no guards: what keeps a job to its life cycle is the
    service that executes it (JobExecution). *)
From S2P Require Import Prelude PyData.

Inductive JobStatus := SUBMITTED | RUNNING | COMPLETED | FAILED | CANCELLED.

#[export] Instance JobStatus_eq_dec : EqDecision JobStatus.
Proof. solve_decision. Defined.

Definition JobStatus_value (s : JobStatus) : string :=
  match s with
  | SUBMITTED => "submitted" | RUNNING => "running" | COMPLETED => "completed" | FAILED => "failed"
  | CANCELLED => "cancelled"
  end.

(** ** Events *)

Record JobCreatedDomainEvent := {
  Created_aggregate_id : string;
  Created_scenario_name : string;
  Created_scenario_version : string;
  Created_input_data : pydict;
  Created_callback_url : option string;
  Created_pod_definition_id : option string;
  Created_created_at : datetime;
  Created_metadata : option pydict
}.

Record JobStartedDomainEvent := {
  Started_aggregate_id : string;
  Started_started_at : datetime
}.

Record JobCompletedDomainEvent := {
  Completed_aggregate_id : string;
  Completed_output_data : pydict;
  Completed_completed_at : datetime
}.

Record JobFailedDomainEvent := {
  Failed_aggregate_id : string;
  Failed_error : string;
  Failed_failed_at : datetime
}.

Record JobCancelledDomainEvent := {
  Cancelled_aggregate_id : string;
  Cancelled_cancelled_at : datetime
}.

Inductive job_event :=
| Created (e : JobCreatedDomainEvent)
| Started (e : JobStartedDomainEvent)
| Completed (e : JobCompletedDomainEvent)
| Failed (e : JobFailedDomainEvent)
| Cancelled (e : JobCancelledDomainEvent).

(** ** The state and its handlers *)

Record JobState := {
  id : string;
  scenario_name : string;
  scenario_version : string;
  status : JobStatus;
  input_data : pydict;
  output_data : pydict;
  callback_url : option string;
  pod_definition_id : option string;
  progress : pydict;
  error : option string;
  created_at : option datetime;
  started_at : option datetime;
  completed_at : option datetime;
  metadata : option pydict
}.

#[export] Instance eta_JobState : Eta JobState := fun s => {|
  id := s.(id); scenario_name := s.(scenario_name); scenario_version := s.(scenario_version); status := s.(status);
  input_data := s.(input_data); output_data := s.(output_data); callback_url := s.(callback_url);
  pod_definition_id := s.(pod_definition_id); progress := s.(progress); error := s.(error);
  created_at := s.(created_at); started_at := s.(started_at); completed_at := s.(completed_at);
  metadata := s.(metadata) |}.

Definition init_state : JobState := {|
  id := ""; scenario_name := ""; scenario_version := "v1"; status := SUBMITTED; input_data := []; output_data := [];
  callback_url := None; pod_definition_id := None; progress := []; error := None; created_at := None;
  started_at := None; completed_at := None; metadata := None |}.

Definition on_Created (event : JobCreatedDomainEvent) (self : JobState) : JobState :=
  self <| id := Created_aggregate_id event |>
       <| scenario_name := Created_scenario_name event |>
       <| scenario_version := Created_scenario_version event |>
       <| input_data := Created_input_data event |>
       <| callback_url := Created_callback_url event |>
       <| pod_definition_id := Created_pod_definition_id event |>
       <| status := SUBMITTED |>
       <| created_at := Some (Created_created_at event) |>
       <| metadata := Created_metadata event |>.

Definition on_Started (event : JobStartedDomainEvent) (self : JobState) : JobState :=
  self <| status := RUNNING |> <| started_at := Some (Started_started_at event) |>.

Definition on_Completed (event : JobCompletedDomainEvent) (self : JobState) : JobState :=
  self <| status := COMPLETED |> <| output_data := Completed_output_data event |>
       <| completed_at := Some (Completed_completed_at event) |>.

Definition on_Failed (event : JobFailedDomainEvent) (self : JobState) : JobState :=
  self <| status := FAILED |> <| error := Some (Failed_error event) |>
       <| completed_at := Some (Failed_failed_at event) |>.

Definition on_Cancelled (event : JobCancelledDomainEvent) (self : JobState) : JobState :=
  self <| status := CANCELLED |> <| completed_at := Some (Cancelled_cancelled_at event) |>.

Definition on (event : job_event) (self : JobState) : JobState :=
  match event with
  | Created e => on_Created e self
  | Started e => on_Started e self
  | Completed e => on_Completed e self
  | Failed e => on_Failed e self
  | Cancelled e => on_Cancelled e self
  end.

(** ** The methods: the new state and the event *)

(** [self.state.on(self.register_event(event))] *)
Definition emit (event : job_event) (self : JobState) : JobState * job_event := (on event self, event).

(** The identifier is the one given or a new one. *)
Definition create (name version : string) (input : option pydict) (url pod : option string) (job_id : option string)
    (meta : option pydict) (new_id : string) (now : datetime) : res (JobState * job_event) :=
  _ ← raise_if (negb (str_truthy name)) (ValueError "scenario_name cannot be empty");
  Ok (emit (Created {| Created_aggregate_id := ostr_or job_id new_id;
                       Created_scenario_name := name;
                       Created_scenario_version := version;
                       Created_input_data := default [] input;
                       Created_callback_url := url;
                       Created_pod_definition_id := pod;
                       Created_created_at := now;
                       Created_metadata := meta |}) init_state).

Definition start (now : datetime) (self : JobState) : JobState * job_event :=
  emit (Started {| Started_aggregate_id := id self; Started_started_at := now |}) self.

Definition complete (output : option pydict) (now : datetime) (self : JobState) : JobState * job_event :=
  emit (Completed {| Completed_aggregate_id := id self; Completed_output_data := default [] output;
                     Completed_completed_at := now |}) self.

Definition fail (err : string) (now : datetime) (self : JobState) : JobState * job_event :=
  emit (Failed {| Failed_aggregate_id := id self; Failed_error := err; Failed_failed_at := now |}) self.

Definition cancel (now : datetime) (self : JobState) : JobState * job_event :=
  emit (Cancelled {| Cancelled_aggregate_id := id self; Cancelled_cancelled_at := now |}) self.
