(* ===== verification/JobExecution.v ===== *)
(** * The execution of jobs ([scenario-engine/application/services/job_execution_service.py])

    Jobs are submitted and cancelled by commands
    ([application/commands/submit_job_command.py], [cancel_job_command.py]) and
    executed by tasks that a dispatch loop starts, as many at once as a semaphore
    has permits; a service that starts again sweeps what its predecessor left.  A
    coroutine runs from one [await] to the next without interruption; the steps of
    the coroutines and of the commands interleave freely.  One service runs at a
    time.

    The repository is the class [JobStore]: a [MotorRepository] keeps a version with
    each document, and [update_async] of a document that was read at another version
    raises.  Scenarios, identifiers and clocks are arguments of the steps.  Not
    modelled: progress reports, and the times that the announcements carry. *)
From S2P Require Import Prelude PyData Job.

(** ** The repository *)

Class JobStore (D : Type) := {
  find : string -> D -> option (Z * JobState);
  find_by_status : JobStatus -> D -> list (Z * JobState);
  insert : JobState -> D -> D;
  update : Z -> JobState -> D -> option (Z * D)
}.

(** A stored document gets a greater version with each update; the update is refused
    when the version of the caller is not the stored one. *)
Class JobStoreLaws (D : Type) `{JobStore D} : Prop := {
  find_id j d v s : find j d = Some (v, s) -> id s = j;
  by_status st d v s : (v, s) ∈ find_by_status st d <-> find (id s) d = Some (v, s) /\ status s = st;
  insert_find j s d : find (id s) d = None ->
    if bool_decide (j = id s) then exists v, find j (insert s d) = Some (v, s) else find j (insert s d) = find j d;
  update_stale v s d : (forall s', find (id s) d <> Some (v, s')) -> update v s d = None;
  update_fresh v s d s' : find (id s) d = Some (v, s') ->
    exists v' d', update v s d = Some (v', d') /\ v < v' /\ find (id s) d' = Some (v', s) /\
      forall j, j <> id s -> find j d' = find j d
}.

(** ** Tasks *)

(** What [CloudEventCallbackService] sends; the client does not raise. *)
Inductive announcement :=
| JobStarted
| JobCompleted (output : pydict)
| JobFailed (err : string)
| JobCancelled.

(** Where a task waits: for a document; for an update, then to announce it; for an
    announcement; for the scenario; the same in the handler of exceptions.  A job in
    hand has the version it was read or stored at. *)
Inductive phase :=
| Load
| Save (v : Z) (job : JobState) (a : announcement)
| Announce (v : Z) (job : JobState) (a : announcement)
| Run (v : Z) (job : JobState)
| Recover (err : string)
| RecoverSave (v : Z) (job : JobState) (err : string)
| RecoverAnnounce (err : string)
| Done.

Record task := {
  t_job : string;
  t_phase : phase;
  t_cancelled : bool
}.

#[export] Instance eta_task : Eta task := fun t =>
  {| t_job := t.(t_job); t_phase := t.(t_phase); t_cancelled := t.(t_cancelled) |}.

(** How a request ended: answered; not carried out; carried out, but the answer was
    lost; the last two raise. *)
Inductive reply := Answered | Unsent | Lost.

(** [ScenarioResult], or how the scenario ended without one. *)
Inductive scenario_outcome :=
| Returned (status : string) (output : pydict) (err : option string)
| TimedOut
| Raised (err : string).

Section Execution.
Context {D : Type} `{JobStore D}.
Context (registered : string -> bool) (max_concurrent : nat) (timeout : Z).

(** [update_async]: the database, and the version the document is stored at unless it
    raised. *)
Definition update_async (r : reply) (v : Z) (job : JobState) (d : D) : D * option Z :=
  match r, update v job d with
  | Unsent, _ | _, None => (d, None)
  | Answered, Some (v, d) => (d, Some v)
  | Lost, Some (_, d) => (d, None)
  end.

Definition scenario_key (job : JobState) : string := scenario_name job +:+ "@" +:+ scenario_version job.

(** [_execute_job] up to the first update. *)
Definition loaded (now : datetime) (found : option (Z * JobState)) : phase :=
  match found with
  | None => Done
  | Some (v, job) =>
      if negb (bool_decide (status job = SUBMITTED)) then Done else
      if negb (registered (scenario_key job)) then
        let err := "Scenario '" +:+ scenario_key job +:+ "' not found in registry" in
        Save v (fail err now job).1 (JobFailed err)
      else Save v (start now job).1 JobStarted
  end.

(** The result of the scenario. *)
Definition finished (now : datetime) (o : scenario_outcome) (v : Z) (job : JobState) : phase :=
  match o with
  | TimedOut =>
      let err := "Job exceeded timeout (" +:+ pretty timeout +:+ "s)" in
      Save v (fail err now job).1 (JobFailed err)
  | Raised err => Recover err
  | Returned status output err =>
      if String.eqb status "completed" then Save v (complete (Some output) now job).1 (JobCompleted output) else
      if String.eqb status "failed" then
        Save v (fail (ostr_or err "Scenario returned failed status") now job).1 (JobFailed (ostr_or err "Unknown error")) else
      if String.eqb status "cancelled" then Save v (cancel now job).1 JobCancelled else
      Done
  end.

(** The handler of exceptions: [job.fail], if the job is running. *)
Definition recovered (now : datetime) (err : string) (found : option (Z * JobState)) : phase :=
  match found with
  | Some (v, job) =>
      if bool_decide (status job = RUNNING) then RecoverSave v (fail err now job).1 err else Done
  | None => Done
  end.

Definition announced_next (v : Z) (job : JobState) (a : announcement) : phase :=
  match a with JobStarted => Run v job | _ => Done end.

(** A [CancelledError] is raised where the task waits. *)
Definition interrupted (now : datetime) (t : task) : phase :=
  match t_phase t with
  | Run v job =>
      if t_cancelled t then Announce v job JobCancelled
      else Save v (fail "Service shutting down" now job).1 (JobFailed "Service shutting down")
  | _ => Done
  end.

(** ** The service *)

(** How far [start_async] is: before the two queries of the sweep, in the updates of
    the second, done. *)
Inductive startup := ToQueue | ToFail | Failing | Started.

Record engine := {
  db : D;
  boot : startup;
  queue : list string;
  held : option string;
  stopping : bool;
  tasks : list task;
  running_tasks : gmap string nat;
  cancellation_events : gmap string nat;
  permits_taken : nat;
  timers : list string;
  cancels : list (Z * JobState);
  sweep : list (Z * JobState);
  executions : list string;
  announced : list (string * announcement)
}.

#[export] Instance eta_engine : Eta engine := fun s => {|
  db := s.(db); boot := s.(boot); queue := s.(queue); held := s.(held); stopping := s.(stopping); tasks := s.(tasks);
  running_tasks := s.(running_tasks); cancellation_events := s.(cancellation_events);
  permits_taken := s.(permits_taken); timers := s.(timers); cancels := s.(cancels); sweep := s.(sweep);
  executions := s.(executions); announced := s.(announced) |}.

(** A service over the database; the last two are what was done so far. *)
Definition new_engine (d : D) (ex : list string) (an : list (string * announcement)) : engine := {|
  db := d; boot := ToQueue; queue := []; held := None; stopping := false; tasks := []; running_tasks := ∅; cancellation_events := ∅;
  permits_taken := 0; timers := []; cancels := []; sweep := []; executions := ex; announced := an |}.

(** [_on_task_done] *)
Definition on_task_done (j : string) (s : engine) : engine :=
  s <| running_tasks := delete j s.(running_tasks) |>
    <| cancellation_events := delete j s.(cancellation_events) |>
    <| permits_taken := pred s.(permits_taken) |>.

(** The task goes on to wait at [p]; the scenario starts with a new event of
    cancellation. *)
Definition goto (i : nat) (t : task) (p : phase) (s : engine) : engine :=
  let s := s <| tasks := <[i := t <| t_phase := p |>]> s.(tasks) |> in
  match p with
  | Done => on_task_done (t_job t) s
  | Run _ _ =>
      s <| cancellation_events := <[t_job t := i]> s.(cancellation_events) |>
        <| executions := s.(executions) ++ [t_job t] |>
  | _ => s
  end.

Definition announce (j : string) (a : announcement) (s : engine) : engine :=
  s <| announced := s.(announced) ++ [(j, a)] |>.

(** What the task waits for comes in. *)
Definition task_step (now : datetime) (r : reply) (o : scenario_outcome) (i : nat) (t : task) (s : engine) : engine :=
  match t_phase t with
  | Load =>
      goto i t (match r with Answered => loaded now (find (t_job t) s.(db)) | _ => Recover "repository" end) s
  | Save v job a =>
      let '(d, saved) := update_async r v job s.(db) in
      goto i t (match saved with Some v => Announce v job a | None => Recover "repository" end) (s <| db := d |>)
  | Announce v job a => goto i t (announced_next v job a) (announce (t_job t) a s)
  | Run v job => goto i t (finished now o v job) s
  | Recover err =>
      goto i t (match r with Answered => recovered now err (find (t_job t) s.(db)) | _ => Done end) s
  | RecoverSave v job err =>
      let '(d, saved) := update_async r v job s.(db) in
      goto i t (match saved with Some _ => RecoverAnnounce err | None => Done end) (s <| db := d |>)
  | RecoverAnnounce err => goto i t Done (announce (t_job t) (JobFailed err) s)
  | Done => s
  end.

Definition interrupt (now : datetime) (i : nat) (s : engine) : engine :=
  match s.(tasks) !! i with
  | Some t => match t_phase t with Done => s | _ => goto i t (interrupted now t) s end
  | None => s
  end.

Definition set_event (i : nat) (s : engine) : engine :=
  match s.(tasks) !! i with
  | Some t => s <| tasks := <[i := t <| t_cancelled := true |>]> s.(tasks) |>
  | None => s
  end.

Definition enqueue_job (j : string) (s : engine) : engine :=
  if s.(stopping) then s else s <| queue := s.(queue) ++ [j] |>.

Definition request_cancel (j : string) (s : engine) : engine :=
  let s := match s.(cancellation_events) !! j with Some i => set_event i s | None => s end in
  match s.(running_tasks) !! j with Some _ => s <| timers := s.(timers) ++ [j] |> | None => s end.

(** ** Steps *)

Inductive step_label :=
| Submit (r : reply) (job : JobState)
| CancelLoad (j : string) (now : datetime)
| CancelSave (n : nat) (r : reply)
| Take
| Spawn
| Step (i : nat) (now : datetime) (r : reply) (o : scenario_outcome)
| HardCancel (n : nat) (now : datetime)
| Stop (now : datetime)
| Restart
| SweepSubmitted (r : reply)
| SweepRunning (r : reply) (now : datetime)
| SweepSave (r : reply).

Definition cancellable (s : JobStatus) : bool := bool_decide (s = SUBMITTED \/ s = RUNNING).

(** The handlers of the commands. *)

(** [Job.create] gives a new identifier. *)
Definition submit (r : reply) (job : JobState) (s : engine) : option engine :=
  if negb (str_truthy (scenario_name job) && registered (scenario_key job)) then Some s else
  match find (id job) s.(db), status job with
  | None, SUBMITTED =>
      Some (match r with
            | Answered => enqueue_job (id job) (s <| db := insert job s.(db) |>)
            | Unsent => s
            | Lost => s <| db := insert job s.(db) |>
            end)
  | _, _ => None
  end.

Definition cancel_load (j : string) (now : datetime) (s : engine) : engine :=
  match find j s.(db) with
  | Some (v, job) => if cancellable (status job) then s <| cancels := s.(cancels) ++ [(v, (cancel now job).1)] |> else s
  | None => s
  end.

Definition cancel_save (n : nat) (r : reply) (s : engine) : option engine :=
  '(v, job) ← s.(cancels) !! n;
  let '(d, saved) := update_async r v job s.(db) in
  let s := s <| db := d |> <| cancels := delete n s.(cancels) |> in
  Some (match saved with Some _ => request_cancel (id job) s | None => s end).

(** The dispatch loop: it takes a job, waits for a permit, and starts the task. *)
Definition take (s : engine) : option engine :=
  match s.(boot), s.(stopping), s.(held), s.(queue) with
  | Started, false, None, j :: q => Some (s <| queue := q |> <| held := Some j |>)
  | _, _, _, _ => None
  end.

Definition spawn (s : engine) : option engine :=
  match s.(held) with
  | Some j =>
      if bool_decide (s.(permits_taken) < max_concurrent)%nat
      then Some (s <| held := None |> <| permits_taken := S s.(permits_taken) |>
                   <| running_tasks := <[j := length s.(tasks)]> s.(running_tasks) |>
                   <| tasks := s.(tasks) ++ [{| t_job := j; t_phase := Load; t_cancelled := false |}] |>)
      else None
  | None => None
  end.

(** [_hard_cancel], when the timer of a cancellation runs out. *)
Definition hard_cancel (n : nat) (now : datetime) (s : engine) : option engine :=
  j ← s.(timers) !! n;
  let s := s <| timers := delete n s.(timers) |> in
  Some (match s.(running_tasks) !! j with Some i => interrupt now i s | None => s end).

(** [stop_async]: the dispatch loop and the tasks are cancelled. *)
Definition stop (now : datetime) (s : engine) : engine :=
  let s := s <| stopping := true |> <| held := None |> in
  foldr (fun p s => interrupt now p.2 s) s (map_to_list s.(running_tasks)).

(** [_startup_sweep]: submitted jobs are queued, running ones fail; a request that
    raises ends it. *)
Definition sweep_submitted (r : reply) (s : engine) : option engine :=
  match s.(boot), r with
  | ToQueue, Answered =>
      Some (s <| boot := ToFail |>
              <| queue := s.(queue) ++ map (fun p => id p.2) (find_by_status SUBMITTED s.(db)) |>)
  | ToQueue, _ => Some (s <| boot := Started |>)
  | _, _ => None
  end.

Definition sweep_running (r : reply) (now : datetime) (s : engine) : option engine :=
  match s.(boot), r with
  | ToFail, Answered =>
      Some (s <| boot := Failing |>
              <| sweep := map (fun p => (p.1, (fail "Service restarted; execution context lost" now p.2).1))
                              (find_by_status RUNNING s.(db)) |>)
  | ToFail, _ => Some (s <| boot := Started |>)
  | _, _ => None
  end.

Definition sweep_save (r : reply) (s : engine) : option engine :=
  match s.(boot), s.(sweep) with
  | Failing, (v, job) :: rest =>
      let '(d, saved) := update_async r v job s.(db) in
      let s := s <| db := d |> in
      Some (match saved with Some _ => s <| sweep := rest |> | None => s <| sweep := [] |> end)
  | Failing, [] => Some (s <| boot := Started |>)
  | _, _ => None
  end.

Definition engine_step (l : step_label) (s : engine) : option engine :=
  match l with
  | Submit r job => submit r job s
  | CancelLoad j now => Some (cancel_load j now s)
  | CancelSave n r => cancel_save n r s
  | Take => take s
  | Spawn => spawn s
  | Step i now r o =>
      t ← s.(tasks) !! i;
      match t_phase t with Done => None | _ => Some (task_step now r o i t s) end
  | HardCancel n now => hard_cancel n now s
  | Stop now => Some (stop now s)
  | Restart => Some (new_engine s.(db) s.(executions) s.(announced))
  | SweepSubmitted r => sweep_submitted r s
  | SweepRunning r now => sweep_running r now s
  | SweepSave r => sweep_save r s
  end.

Fixpoint engine_run (l : list step_label) (s : engine) : option engine :=
  match l with
  | [] => Some s
  | x :: l => s' ← engine_step x s; engine_run l s'
  end.
End Execution.
Arguments engine _ : clear implicits.
