(* ===== verification/JobExecutionProps.v ===== *)
(** * Properties of the execution of jobs

    Jobs keep to their life cycle, although the aggregate has no guards; a scenario
    is executed once per job; the tasks are bounded; a job that was cancelled while
    it ran is not announced. *)
From S2P Require Import Prelude PyData Job JobExecution.

(** The life cycle. *)
Definition edge (a b : JobStatus) : Prop :=
  match a with
  | SUBMITTED => b = RUNNING \/ b = FAILED \/ b = CANCELLED
  | RUNNING => b = COMPLETED \/ b = FAILED \/ b = CANCELLED
  | _ => False
  end.

Definition terminal (s : JobStatus) : bool := bool_decide (s <> SUBMITTED /\ s <> RUNNING).

Section Props.
Context {D : Type} `{JobStoreLaws D}.
Context (registered : string -> bool) (max_concurrent : nat) (timeout : Z).

#[local] Abbreviation engine_step := (engine_step registered max_concurrent timeout).
#[local] Abbreviation engine_run := (engine_run registered max_concurrent timeout).
#[local] Abbreviation task_step := (task_step registered timeout).

(** ** The database *)

(** Documents stay; each is as it was, or has a greater version and one step of its
    life behind it. *)
Definition evolves (d d' : D) : Prop := forall j v s, find j d = Some (v, s) ->
  exists v' s', find j d' = Some (v', s') /\ ((v', s') = (v, s) \/ (v < v' /\ edge (status s) (status s'))).

(** What is known of a document that was read or stored at version [v]. *)
Definition at_version (d : D) (j : string) (v : Z) (st : JobStatus) : Prop :=
  exists v' s, find j d = Some (v', s) /\ v <= v' /\ (v = v' -> status s = st).

(** A document in hand that may be stored. *)
Definition pending (d : D) (v : Z) (job : JobState) : Prop :=
  exists st, edge st (status job) /\ at_version d (id job) v st.

Lemma evolves_refl d : evolves d d.
Proof. intros j v s Hf. exists v, s. split; [done|by left]. Qed.

Lemma at_version_evolves d d' j v st : evolves d d' -> at_version d j v st -> at_version d' j v st.
Proof.
  intros He (v1 & s1 & Hf & Hv & Hst). apply He in Hf as (v2 & s2 & Hf & [[= -> ->]|[Hlt _]]).
  - by exists v1, s1.
  - exists v2, s2. split; [done|]. split; lia.
Qed.

Lemma pending_evolves d d' v job : evolves d d' -> pending d v job -> pending d' v job.
Proof. intros He (st & Hs & Ha). exists st. split; [done|]. by eapply at_version_evolves. Qed.

Lemma at_version_found d j v s : find j d = Some (v, s) -> at_version d j v (status s).
Proof. intros Hf. exists v, s. split; [done|]. by split. Qed.

Lemma insert_evolves s d : find (id s) d = None -> evolves d (insert s d).
Proof.
  intros Hn j v s' Hf. pose proof (insert_find j s d Hn) as Hi. case_bool_decide as Hj; [subst; congruence|].
  exists v, s'. split; [congruence|by left].
Qed.

Lemma update_cases r v job d : pending d v job ->
  let '(d', saved) := update_async r v job d in
  evolves d d' /\ (forall v', saved = Some v' -> find (id job) d' = Some (v', job)) /\
  (saved = None \/ exists s, find (id job) d = Some (v, s) /\ edge (status s) (status job)).
Proof.
  intros (st & Hst & v1 & s1 & Hf & Hv & Hs). unfold update_async.
  destruct (decide (v = v1)) as [<-|Hne].
  - destruct (update_fresh v job d s1 Hf) as (v2 & d2 & -> & Hlt & Hf2 & Ho).
    assert (evolves d d2) as He.
    { intros j w s Hj. destruct (decide (j = id job)) as [->|]; [|rewrite Ho by done; exists w, s; split; [done|by left]].
      exists v2, job. split; [done|]. right. rewrite Hf in Hj. injection Hj as <- <-. split; [done|]. by rewrite Hs. }
    destruct r; (split; [done || apply evolves_refl|]); (split; [by intros ? [= <-]|]); [right|by left..].
    exists s1. split; [done|]. by rewrite Hs.
  - rewrite update_stale by congruence. destruct r; (split; [apply evolves_refl|]); by split; [|left].
Qed.

(** ** The engine *)

(** The job has left [SUBMITTED]. *)
Definition past (d : D) (j : string) : Prop := exists v s, find j d = Some (v, s) /\ status s <> SUBMITTED.

Lemma past_evolves d d' j : evolves d d' -> past d j -> past d' j.
Proof.
  intros He (v & s & Hf & Hs). apply He in Hf as (v' & s' & Hf & [[= -> ->]|[_ Hed]]); [by exists v, s|].
  exists v', s'. split; [done|]. intros Hn. rewrite Hn in Hed. by destruct (status s) in Hed; cbn in Hed; intuition.
Qed.

Definition phase_ok (d : D) (j : string) (p : phase) : Prop :=
  match p with
  | Save v job a => id job = j /\ pending d v job /\ (a = JobStarted <-> status job = RUNNING)
  | Announce v job a => id job = j /\ (a = JobStarted -> at_version d j v RUNNING)
  | Run v job => id job = j /\ at_version d j v RUNNING
  | RecoverSave v job _ => id job = j /\ pending d v job /\ status job = FAILED
  | _ => True
  end.

Lemma phase_ok_evolves d d' j p : evolves d d' -> phase_ok d j p -> phase_ok d' j p.
Proof.
  intros He. destruct p; cbn; intuition eauto using pending_evolves, at_version_evolves.
Qed.

(** About to start the scenario. *)
Definition starting (p : phase) : bool := match p with Announce _ _ JobStarted => true | _ => false end.

Definition busy (t : task) : bool := match t_phase t with Done => false | _ => true end.
Definition active (l : list task) : nat := length (List.filter busy l).

#[local] Arguments active : simpl never.

Record engine_ok (s : engine D) : Prop := {
  ok_tasks i t : tasks s !! i = Some t -> phase_ok (db s) (t_job t) (t_phase t);
  ok_cancels p : p ∈ cancels s -> pending (db s) p.1 p.2;
  ok_sweep p : p ∈ sweep s -> pending (db s) p.1 p.2;
  ok_once : NoDup (executions s);
  ok_past j : j ∈ executions s -> past (db s) j;
  ok_starting i t : tasks s !! i = Some t -> starting (t_phase t) = true ->
    past (db s) (t_job t) /\ t_job t ∉ executions s;
  ok_unique i j t t' : tasks s !! i = Some t -> tasks s !! j = Some t' -> starting (t_phase t) = true ->
    starting (t_phase t') = true -> t_job t = t_job t' -> i = j;
  ok_count : active (tasks s) = permits_taken s;
  ok_max : (permits_taken s <= max_concurrent)%nat
}.

(** Steps that touch nothing of this. *)
Lemma engine_ok_same s s' :
  db s' = db s -> tasks s' = tasks s -> cancels s' = cancels s -> sweep s' = sweep s -> executions s' = executions s ->
  permits_taken s' = permits_taken s -> engine_ok s -> engine_ok s'.
Proof. intros Hd Ht Hc Hs He Hp []. by split; rewrite ?Hd, ?Ht, ?Hc, ?Hs, ?He, ?Hp. Qed.

Lemma engine_ok_db s d : engine_ok s -> evolves (db s) d -> engine_ok (s <| db := d |>).
Proof.
  intros [] He. split; cbn; try done; eauto using phase_ok_evolves, pending_evolves, past_evolves.
  intros i t Hi Hst. destruct (ok_starting0 i t Hi Hst). eauto using past_evolves.
Qed.

Lemma active_insert i t t' l : l !! i = Some t -> busy t = true ->
  active l = S (pred (active l)) /\
  active (<[i := t']> l) = (pred (active l) + if busy t' then 1 else 0)%nat.
Proof.
  unfold active. revert i. induction l as [|x l IH]; intros [|i] Hi Hb; try done.
  - injection Hi as ->. change (<[0%nat := t']> (t :: l)) with (t' :: l). cbn [List.filter]. rewrite Hb.
    destruct (busy t'); cbn [length]; lia.
  - destruct (IH i Hi Hb) as [Ha Ha']. change (<[S i := t']> (x :: l)) with (x :: <[i := t']> l). cbn [List.filter].
    destruct (busy x); cbn [length]; lia.
Qed.

Lemma insert_cases {A} (i j : nat) (x y : A) (l : list A) : <[i := x]> l !! j = Some y -> (i = j /\ y = x) \/ (i <> j /\ l !! j = Some y).
Proof.
  destruct (decide (i = j)) as [<-|Hne]; [|rewrite list_lookup_insert_ne by done; by right].
  intros Hj. left. destruct (decide (i < length l)%nat); [|rewrite list_insert_ge in Hj by lia; apply lookup_lt_Some in Hj; lia].
  rewrite list_lookup_insert_eq in Hj by done. by injection Hj as <-.
Qed.

Lemma busy_phase t : t_phase t <> Done <-> busy t = true.
Proof. unfold busy. by destruct (t_phase t). Qed.

(** A task goes on. *)
Lemma goto_ok i t p s : engine_ok s -> tasks s !! i = Some t -> busy t = true ->
  phase_ok (db s) (t_job t) p ->
  (starting p = true -> past (db s) (t_job t) /\ t_job t ∉ executions s /\
     forall j t', tasks s !! j = Some t' -> starting (t_phase t') = true -> t_job t' <> t_job t) ->
  (forall v job, p = Run v job -> starting (t_phase t) = true) ->
  engine_ok (goto i t p s).
Proof.
  intros Hok Hi Hb Hp Hst Hrun. set (t1 := t <| t_phase := p |>).
  destruct (active_insert i t t1 (tasks s) Hi Hb) as [Ha Ha'].
  pose proof Hok as []. 
  assert (engine_ok (s <| tasks := <[i := t1]> (tasks s) |> <| permits_taken := active (<[i := t1]> (tasks s)) |>)) as Hok1.
  { split; cbn; try done.
    - intros j x [[<- ->]|[_ Hj]]%insert_cases; eauto.
    - intros j x [[<- ->]|[_ Hj]]%insert_cases; eauto. intros Hs. by destruct (Hst Hs) as (? & ? & _).
    - intros j k x y [[<- ->]|[Hij Hj]]%insert_cases [[<- ->]|[Hik Hk]]%insert_cases Hx Hy Hxy; eauto.
      + destruct (Hst Hx) as (_ & _ & Hno). by destruct (Hno k y Hk Hy).
      + destruct (Hst Hy) as (_ & _ & Hno). by destruct (Hno j x Hj Hx).
    - rewrite Ha'. destruct (busy t1); lia. }
  assert (busy t1 = match p with Done => false | _ => true end) as Hb1 by by destruct p.
  destruct p; try (eapply engine_ok_same; [..|exact Hok1]; try done; cbn; fold t1; rewrite Ha', Hb1; lia).
  (* the scenario starts *)
  destruct (ok_starting0 i t Hi (Hrun _ _ eq_refl)) as [Hpa Hne].
  pose proof Hok1 as [? ? ? ? ? ? ? ? ?]. split; cbn; fold t1; cbn in *; try done.
  - apply NoDup_app. split; [done|]. split; [|apply NoDup_singleton]. intros x Hx ->%list_elem_of_singleton. done.
  - intros j [Hj| ->%list_elem_of_singleton]%elem_of_app; eauto.
  - intros j x Hj Hx. destruct (ok_starting1 j x Hj Hx) as [Hpx Hnx]. split; [done|]. intros [Hin|Heq%list_elem_of_singleton]%elem_of_app.
    + done.
    + apply insert_cases in Hj as [[<- ->]|[Hij Hj]]; [done|].
      apply Hij. eapply ok_unique0; [exact Hi|exact Hj|by eapply Hrun|done|done].
  - unfold t1 in *. cbn in *. lia.
Qed.

(** A phase that is neither the announcement of a start nor the run. *)
Definition quiet (p : phase) : Prop := starting p = false /\ forall v job, p <> Run v job.

Lemma goto_quiet i t p s : engine_ok s -> tasks s !! i = Some t -> busy t = true ->
  phase_ok (db s) (t_job t) p -> quiet p -> engine_ok (goto i t p s).
Proof.
  intros Hok Hi Hb Hp [Hs Hr]. apply goto_ok; try done; [by rewrite Hs|]. intros v job Hv. by destruct (Hr v job).
Qed.

Lemma goto_db i t p (s : engine D) : db (goto i t p s) = db s.
Proof. by destruct p. Qed.

(** A running job may be stored as ended. *)
Lemma save_running d j v job job' a : id job = j -> at_version d j v RUNNING -> id job' = id job ->
  edge RUNNING (status job') -> a <> JobStarted -> phase_ok d j (Save v job' a) /\ quiet (Save v job' a).
Proof.
  intros Hj Ha Hid Hed Hn. split; [|by split]. cbn. split; [congruence|]. split.
  - exists RUNNING. split; [done|]. by rewrite Hid, Hj.
  - split; [done|]. intros Hs. rewrite Hs in Hed. by destruct Hed as [|[|]].
Qed.

Lemma finished_ok d j now o v job : id job = j -> at_version d j v RUNNING ->
  phase_ok d j (finished timeout now o v job) /\ quiet (finished timeout now o v job).
Proof.
  intros Hj Ha. destruct o as [st out err| |err]; cbn [finished].
  - repeat case_match; try (eapply save_running; eauto; cbn; by intuition). by split.
  - eapply save_running; eauto; cbn; by intuition.
  - by split.
Qed.

Lemma loaded_ok d j now : phase_ok d j (loaded registered now (find j d)) /\ quiet (loaded registered now (find j d)).
Proof.
  unfold loaded. destruct (find j d) as [[v job]|] eqn:Hf; [|by split]. pose proof (find_id _ _ _ _ Hf) as Hid.
  case_bool_decide as Hs; cbn [negb]; [|by split]. pose proof (at_version_found _ _ _ _ Hf) as Ha. rewrite Hs in Ha.
  assert (forall job', id job' = id job -> edge SUBMITTED (status job') -> pending d v job') as Hp.
  { intros job' Hj He. exists SUBMITTED. split; [done|]. by rewrite Hj, Hid. }
  destruct (negb (registered _)); (split; [|by split]); cbn; (split; [done|]); (split; [apply Hp; cbn; by intuition|done]).
Qed.

Lemma recovered_ok d j now err :
  phase_ok d j (recovered now err (find j d)) /\ quiet (recovered now err (find j d)).
Proof.
  unfold recovered. destruct (find j d) as [[v job]|] eqn:Hf; [|by split]. pose proof (find_id _ _ _ _ Hf) as Hid.
  case_bool_decide as Hs; [|by split]. pose proof (at_version_found _ _ _ _ Hf) as Ha. rewrite Hs in Ha.
  split; [|by split]. split; [done|]. split; [|done]. exists RUNNING. split; [cbn; by intuition|]. cbn. by rewrite Hid.
Qed.

Lemma interrupt_ok now i s : engine_ok s -> engine_ok (interrupt now i s) /\ db (interrupt now i s) = db s.
Proof.
  intros Hok. unfold interrupt. destruct (tasks s !! i) as [t|] eqn:Hi; [|done].
  destruct (busy t) eqn:Hb; [|unfold busy in Hb; by destruct (t_phase t)].
  assert (engine_ok (goto i t (interrupted now t) s) /\ db (goto i t (interrupted now t) s) = db s) as Hg.
  { split; [|apply goto_db]. pose proof (ok_tasks _ Hok i t Hi) as Hp.
    assert (phase_ok (db s) (t_job t) (interrupted now t) /\ quiet (interrupted now t)) as [Hp' Hq].
    { unfold interrupted. destruct (t_phase t); try by split. destruct Hp as [Hj Ha].
      destruct (t_cancelled t); [split; [|by split]; by split|]. eapply save_running; eauto; cbn; by intuition. }
    by apply goto_quiet. }
  by destruct (t_phase t).
Qed.

(** A task's update: what it waits for then. *)
Lemma save_step_ok i t s r v job a : engine_ok s -> tasks s !! i = Some t -> t_phase t = Save v job a ->
  let '(d, saved) := update_async r v job (db s) in
  let p := match saved with Some v => Announce v job a | None => Recover "repository" end in
  engine_ok (goto i t p (s <| db := d |>)) /\ evolves (db s) d.
Proof.
  intros Hok Hi Ht. pose proof (ok_tasks _ Hok i t Hi) as Hp. rewrite Ht in Hp. destruct Hp as (Hid & Hpe & Hst).
  pose proof (update_cases r v job (db s) Hpe) as Hu. destruct (update_async r v job (db s)) as [d saved].
  destruct Hu as (He & Hsaved & Hfrom). split; [|done].
  pose proof (engine_ok_db s d Hok He) as Hok'.
  assert (busy t = true) as Hb by (unfold busy; by rewrite Ht).
  destruct saved as [v'|]; [|by apply goto_quiet]. specialize (Hsaved v' eq_refl). rewrite Hid in Hsaved.
  apply goto_ok; try done; cbn.
  - split; [done|]. intros ->. pose proof (at_version_found _ _ _ _ Hsaved) as Ha.
    by rewrite (proj1 Hst eq_refl) in Ha.
  - intros Hs. destruct a; try done. assert (status job = RUNNING) as Hr by (by apply Hst).
    destruct Hfrom as [|(s0 & Hf0 & Hed)]; [done|]. rewrite Hid in Hf0.
    assert (~ past (db s) (t_job t)) as Hnp.
    { intros (v1 & s1 & Hf1 & Hne). rewrite Hf0 in Hf1. injection Hf1 as <- <-. rewrite Hr in Hed.
      destruct (status s0); cbn in Hed; try done; by intuition. }
    split; [exists v', job; split; [done|by rewrite Hr]|]. split; [intros Hin; by apply Hnp, (ok_past _ Hok)|].
    intros k t' Hk Hs' Heq. apply Hnp. rewrite <- Heq. by eapply (ok_starting _ Hok).
Qed.

Definition advances (s s' : engine D) : Prop := engine_ok s' /\ evolves (db s) (db s').

Lemma advances_same s s' :
  db s' = db s -> tasks s' = tasks s -> cancels s' = cancels s -> sweep s' = sweep s -> executions s' = executions s ->
  permits_taken s' = permits_taken s -> engine_ok s -> advances s s'.
Proof. intros Hd ??????. split; [by eapply engine_ok_same|rewrite Hd; apply evolves_refl]. Qed.

Lemma goto_advances i t p s : engine_ok s -> tasks s !! i = Some t -> busy t = true ->
  phase_ok (db s) (t_job t) p /\ quiet p -> advances s (goto i t p s).
Proof. intros Hok Hi Hb [Hp Hq]. split; [by apply goto_quiet|]. rewrite goto_db. apply evolves_refl. Qed.

Lemma announce_ok j a s : engine_ok s -> engine_ok (announce j a s).
Proof. by apply engine_ok_same. Qed.

Lemma task_step_ok now r o i t s : engine_ok s -> tasks s !! i = Some t -> busy t = true ->
  advances s (task_step now r o i t s).
Proof.
  intros Hok Hi Hb. pose proof (ok_tasks _ Hok i t Hi) as Hp. unfold JobExecution.task_step. destruct (t_phase t) eqn:Ht.
  - apply goto_advances; [done..|]. destruct r; try by split. apply loaded_ok.
  - pose proof (save_step_ok i t s r v job a Hok Hi Ht) as Hs. destruct (update_async r v job (db s)) as [d saved].
    destruct Hs as [Hg He]. split; [exact Hg|]. by rewrite goto_db.
  - split; [|rewrite goto_db; apply evolves_refl]. destruct Hp as [Hid Ha].
    apply goto_ok; [by apply announce_ok|done|done|..]; unfold announced_next; destruct a; try done; cbn.
    + split; [done|]. by apply Ha.
    + intros v0 job0 _. by rewrite Ht.
  - apply goto_advances; [done..|]. destruct Hp. by apply finished_ok.
  - apply goto_advances; [done..|]. destruct r; try by split. apply recovered_ok.
  - destruct Hp as (Hid & Hpe & Hf). pose proof (update_cases r v job (db s) Hpe) as Hu.
    destruct (update_async r v job (db s)) as [d saved]. destruct Hu as (He & _).
    split; [|by rewrite goto_db]. apply goto_quiet; [by apply engine_ok_db|done|done|by destruct saved..].
  - split; [|rewrite goto_db; apply evolves_refl]. apply goto_quiet; [by apply announce_ok|done..].
  - split; [done|apply evolves_refl].
Qed.

(** Steps that put documents in hand. *)
Lemma engine_ok_hand s s' :
  db s' = db s -> tasks s' = tasks s -> executions s' = executions s -> permits_taken s' = permits_taken s ->
  (forall p, p ∈ cancels s' -> pending (db s) p.1 p.2) -> (forall p, p ∈ sweep s' -> pending (db s) p.1 p.2) ->
  engine_ok s -> engine_ok s'.
Proof. intros Hd Ht He Hp Hc Hs []. by split; rewrite ?Hd, ?Ht, ?He, ?Hp. Qed.

Lemma submit_ok r job s s' : submit registered r job s = Some s' -> engine_ok s -> advances s s'.
Proof.
  unfold submit. intros Hs Hok. destruct (negb _); [injection Hs as <-; by apply advances_same|].
  destruct (find (id job) (db s)) eqn:Hf; [done|]. destruct (status job); try done. injection Hs as <-.
  pose proof (insert_evolves job (db s) Hf) as He. destruct r; [|by apply advances_same|].
  - split; [|unfold enqueue_job; cbn; by destruct (stopping s)].
    apply (engine_ok_same (s <| db := insert job (db s) |>)); [unfold enqueue_job; cbn; by destruct (stopping s)..|].
    by apply engine_ok_db.
  - split; [by apply engine_ok_db|done].
Qed.

Lemma cancellable_edge st : cancellable st = true -> edge st CANCELLED.
Proof. unfold cancellable. intros Hc%bool_decide_eq_true. destruct Hc as [-> | ->]; cbn; by intuition. Qed.

Lemma cancel_load_ok j now s : engine_ok s -> advances s (cancel_load j now s).
Proof.
  intros Hok. unfold cancel_load. destruct (find j (db s)) as [[v job]|] eqn:Hf; [|by apply advances_same].
  destruct (cancellable (status job)) eqn:Hc; [|by apply advances_same]. split; [|apply evolves_refl].
  apply (engine_ok_hand s); try done; [|apply (ok_sweep _ Hok)]. intros p [Hp| ->%list_elem_of_singleton]%elem_of_app; [by eapply ok_cancels|].
  exists (status job). split; [by apply cancellable_edge|]. cbn. rewrite (find_id _ _ _ _ Hf). by apply at_version_found.
Qed.

Lemma active_same i t t' l : l !! i = Some t -> busy t' = busy t -> active (<[i := t']> l) = active l.
Proof.
  unfold active. intros Hi Hb. revert i Hi. induction l as [|x l IH]; intros [|i] Hi; try done.
  - injection Hi as ->. change (<[0%nat := t']> (t :: l)) with (t' :: l). cbn [List.filter]. rewrite Hb.
    by destruct (busy t).
  - change (<[S i := t']> (x :: l)) with (x :: <[i := t']> l). cbn [List.filter].
    destruct (busy x); cbn [length]; by rewrite (IH i Hi).
Qed.

Lemma set_event_ok i s : engine_ok s -> engine_ok (set_event i s) /\ db (set_event i s) = db s.
Proof.
  intros Hok. unfold set_event. destruct (tasks s !! i) as [t|] eqn:Hi; [|done]. split; [|done].
  set (t' := {| t_job := t_job t; t_phase := t_phase t; t_cancelled := true |}).
  assert (forall k x, <[i := t']> (tasks s) !! k = Some x ->
    exists y, tasks s !! k = Some y /\ t_phase x = t_phase y /\ t_job x = t_job y) as Hat.
  { intros k x [[<- ->]|[_ Hk]]%insert_cases; [by exists t|by exists x]. }
  destruct Hok. split; cbn; try done.
  - intros k x (y & Hy & -> & ->)%Hat. eauto.
  - intros k x (y & Hy & -> & ->)%Hat. eauto.
  - intros k k' x x' (y & Hy & -> & ->)%Hat (y' & Hy' & -> & ->)%Hat. eauto.
  - rewrite <- ok_count0. by apply (active_same i t).
Qed.

Lemma request_cancel_ok j s : engine_ok s -> engine_ok (request_cancel j s) /\ db (request_cancel j s) = db s.
Proof.
  intros Hok. unfold request_cancel.
  assert (exists s1, match cancellation_events s !! j with Some i => set_event i s | None => s end = s1 /\
    engine_ok s1 /\ db s1 = db s) as (s1 & -> & Hok1 & Hd).
  { eexists. split; [reflexivity|]. destruct (cancellation_events s !! j); [by apply set_event_ok|done]. }
  destruct (running_tasks s1 !! j); [|done]. split; [by apply (engine_ok_same s1)|done].
Qed.

Lemma request_cancel_advances j s s1 : advances s s1 -> advances s (request_cancel j s1).
Proof. intros [Hok He]. destruct (request_cancel_ok j s1 Hok) as [? Hd]. split; [done|]. by rewrite Hd. Qed.

Lemma interrupt_advances now i s s1 : advances s s1 -> advances s (interrupt now i s1).
Proof. intros [Hok He]. destruct (interrupt_ok now i s1 Hok) as [? Hd]. split; [done|]. by rewrite Hd. Qed.

Lemma cancel_save_ok n r s s' : cancel_save n r s = Some s' -> engine_ok s -> advances s s'.
Proof.
  unfold cancel_save. intros Hs Hok. destruct (cancels s !! n) as [[v job]|] eqn:Hn; [|done]. cbn in Hs.
  pose proof (ok_cancels _ Hok (v, job) (list_elem_of_lookup_2 _ _ _ Hn)) as Hp.
  pose proof (update_cases r v job (db s) Hp) as Hu. destruct (update_async r v job (db s)) as [d saved].
  destruct Hu as (He & _). injection Hs as <-.
  pose proof (engine_ok_db s d Hok He) as Hok0.
  assert (engine_ok (s <| db := d |> <| cancels := delete n (cancels s) |>)) as Hok1.
  { eapply engine_ok_hand; [..|exact Hok0]; try done; [|apply (ok_sweep _ Hok0)].
    intros p Hin. apply (ok_cancels _ Hok0). exact (sublist_subseteq _ _ (sublist_delete _ _) _ Hin). }
  destruct saved; [apply request_cancel_advances|]; split; [exact Hok1|exact He|exact Hok1|exact He].
Qed.

Lemma spawn_ok s s' : spawn max_concurrent s = Some s' -> engine_ok s -> advances s s'.
Proof.
  unfold spawn. intros Hs Hok. destruct (held s) as [j|]; [|done]. case_bool_decide as Hlt; [|done]. injection Hs as <-.
  split; [|apply evolves_refl]. set (t := {| t_job := j; t_phase := Load; t_cancelled := false |}).
  assert (forall i x, (tasks s ++ [t]) !! i = Some x -> tasks s !! i = Some x \/ x = t) as Hat.
  { intros i x [[_ Hi]|[_ Hi]]%lookup_snoc_Some; [by left|by right]. }
  pose proof Hok as []. split; cbn; try done.
  - intros i x [Hi| ->]%Hat; [eauto|done].
  - intros i x [Hi| ->]%Hat; [eauto|done].
  - intros i k x y [Hi| ->]%Hat [Hk| ->]%Hat; try done. eauto.
  - unfold active in *. rewrite List.filter_app, length_app, ok_count0. cbn. lia.
Qed.

Lemma hard_cancel_ok n now s s' : hard_cancel n now s = Some s' -> engine_ok s -> advances s s'.
Proof.
  unfold hard_cancel. intros Hs Hok. destruct (timers s !! n) as [j|]; [|done]. injection Hs as <-.
  assert (engine_ok (s <| timers := delete n (timers s) |>)) as Hok1 by by apply (engine_ok_same s).
  destruct (_ !! j); [apply interrupt_advances|]; (split; [exact Hok1|apply evolves_refl]).
Qed.

Lemma stop_ok now s : engine_ok s -> advances s (stop now s).
Proof.
  intros Hok. unfold stop. induction (map_to_list _) as [|p l IH]; cbn [foldr]; [by apply advances_same|].
  by apply interrupt_advances.
Qed.

Lemma sweep_running_ok r now s s' : sweep_running r now s = Some s' -> engine_ok s -> advances s s'.
Proof.
  unfold sweep_running. intros Hs Hok. destruct (boot s); try done.
  destruct r; injection Hs as <-; [|by apply advances_same..]. split; [|apply evolves_refl].
  apply (engine_ok_hand s); try done; [apply (ok_cancels _ Hok)|].
  intros p Hp. apply list_elem_of_fmap in Hp as ([v job] & -> & [Hf Hst]%by_status).
  exists RUNNING. split; [cbn; by intuition|]. cbn. pose proof (at_version_found _ _ _ _ Hf) as Ha. by rewrite Hst in Ha.
Qed.

Lemma sweep_save_ok r s s' : sweep_save r s = Some s' -> engine_ok s -> advances s s'.
Proof.
  unfold sweep_save. intros Hs Hok. destruct (boot s); try done.
  destruct (sweep s) as [|[v job] rest] eqn:Hsw; [injection Hs as <-; by apply advances_same|].
  assert (forall p, p ∈ rest -> p ∈ sweep s) as Hrest by (intros p Hp; rewrite Hsw; by right).
  pose proof (ok_sweep _ Hok (v, job)) as Hp. rewrite Hsw in Hp. specialize (Hp (list_elem_of_here _ _)).
  pose proof (update_cases r v job (db s) Hp) as Hu. destruct (update_async r v job (db s)) as [d saved].
  destruct Hu as (He & _). injection Hs as <-. pose proof (engine_ok_db s d Hok He) as Hok1.
  split; [|by destruct saved].
  destruct saved; (eapply engine_ok_hand; [..|exact Hok1]; try done; try apply (ok_cancels _ Hok1)); intros p Hin.
  - by apply (ok_sweep _ Hok1), Hrest.
  - by apply elem_of_nil in Hin.
Qed.

Lemma new_engine_ok d ex an : NoDup ex -> (forall j, j ∈ ex -> past d j) -> engine_ok (new_engine d ex an).
Proof. intros Hn Hp. split; cbn; try done; try lia; by intros ? ?%elem_of_nil. Qed.

Lemma step_ok x s s' : engine_step x s = Some s' -> engine_ok s -> advances s s'.
Proof.
  intros Hs Hok. destruct x; cbn [JobExecution.engine_step] in Hs.
  - by eapply submit_ok.
  - injection Hs as <-. by apply cancel_load_ok.
  - by eapply cancel_save_ok.
  - unfold take in Hs. destruct (boot s), (stopping s), (held s), (queue s); try done. injection Hs as <-. by apply advances_same.
  - by eapply spawn_ok.
  - destruct (tasks s !! i) as [t|] eqn:Hi; [|done]. cbn in Hs.
    destruct (busy t) eqn:Hb; [|unfold busy in Hb; by destruct (t_phase t)].
    assert (s' = task_step now r o i t s) as -> by (destruct (t_phase t); congruence). by apply task_step_ok.
  - by eapply hard_cancel_ok.
  - injection Hs as <-. by apply stop_ok.
  - injection Hs as <-. split; [|apply evolves_refl]. apply new_engine_ok; [apply (ok_once _ Hok)|apply (ok_past _ Hok)].
  - unfold sweep_submitted in Hs. destruct (boot s); try done. destruct r; injection Hs as <-; by apply advances_same.
  - by eapply sweep_running_ok.
  - by eapply sweep_save_ok.
Qed.

Lemma run_ok l s s' : engine_run l s = Some s' -> engine_ok s -> engine_ok s'.
Proof.
  revert s. induction l as [|x l IH]; intros s Hr Hok; cbn in Hr; [by injection Hr as <-|].
  destruct (engine_step x s) as [s1|] eqn:Hs; [|done]. cbn in Hr. destruct (step_ok _ _ _ Hs Hok). eauto.
Qed.

Lemma fresh_ok d : engine_ok (new_engine d [] []).
Proof. apply new_engine_ok; [constructor|by intros ? ?%elem_of_nil]. Qed.

(** (C15) In every interleaving of submissions, cancellations, tasks, time-outs, failed
    requests, shutdowns and restarts, a job in the database only moves along its life
    cycle (submitted, running, then completed, failed or cancelled), and does not
    change any more once it has ended: although no method of the aggregate has a
    guard, the version that a document was read at is one. *)
Theorem job_lifecycle d l1 l2 s s' j v job :
  engine_run l1 (new_engine d [] []) = Some s -> engine_run l2 s = Some s' ->
  find j (db s) = Some (v, job) ->
  exists v' job', find j (db s') = Some (v', job') /\ star edge (status job) (status job') /\
    (terminal (status job) = true -> job' = job).
Proof.
  intros H1 H2 Hf. pose proof (run_ok _ _ _ H1 (fresh_ok d)) as Hok. clear H1. revert s v job H2 Hf Hok.
  induction l2 as [|x l2 IH]; intros s v job H2 Hf Hok; cbn in H2.
  - injection H2 as <-. exists v, job. split; [done|]. split; [constructor|done].
  - destruct (engine_step x s) as [s1|] eqn:Hs; [|done]. cbn in H2. destruct (step_ok _ _ _ Hs Hok) as [Hok1 He].
    destruct (He j v job Hf) as (v1 & job1 & Hf1 & Hcase).
    destruct (IH s1 v1 job1 H2 Hf1 Hok1) as (v2 & job2 & Hf2 & Hst & Hend). exists v2, job2. split; [done|].
    destruct Hcase as [[= -> ->]|[_ Hed]]; [done|]. split; [by eapply star_trans; [apply star_one|]|].
    intros Ht. unfold terminal in Ht. apply bool_decide_eq_true in Ht. destruct (status job); cbn in Hed; try done; by destruct Ht.
Qed.

(** (C30) The scenario of a job is executed at most once, also when the job was queued
    more than once, and over restarts of the service. *)
Theorem executed_once d l s : engine_run l (new_engine d [] []) = Some s -> NoDup (executions s).
Proof. intros Hr. by apply (ok_once _ (run_ok _ _ _ Hr (fresh_ok d))). Qed.

(** No more tasks are alive than the semaphore has permits, and each holds one,
    however the tasks ended. *)
Theorem tasks_bounded d l s : engine_run l (new_engine d [] []) = Some s ->
  active (tasks s) = permits_taken s /\ (active (tasks s) <= max_concurrent)%nat.
Proof.
  intros Hr. pose proof (run_ok _ _ _ Hr (fresh_ok d)) as Hok. split; [apply (ok_count _ Hok)|].
  rewrite (ok_count _ Hok). apply (ok_max _ Hok).
Qed.

(** ** A cancellation that the scenario heeds *)

Definition at_phase (s : engine D) (i : nat) (j : string) (p : phase) : Prop :=
  exists t, tasks s !! i = Some t /\ t_job t = j /\ t_phase t = p.

Lemma step_goto now r o s i j p q : at_phase s i j p -> p <> Done ->
  (forall t, t_job t = j -> t_phase t = p -> task_step now r o i t s = goto i t q s) ->
  exists s1, engine_step (Step i now r o) s = Some s1 /\ at_phase s1 i j q /\ db s1 = db s /\ announced s1 = announced s.
Proof.
  intros (t & Hi & Hj & Hp) Hn Hs. exists (goto i t q s). split; [|split; [|split; [apply goto_db|by destruct q]]].
  - cbn [JobExecution.engine_step]. rewrite Hi. cbn. rewrite Hs by done. rewrite Hp. by destruct p.
  - exists (t <| t_phase := q |>). split; [|done].
    assert (<[i := t <| t_phase := q |>]> (tasks s) !! i = Some (t <| t_phase := q |>)) as Hin
      by (apply list_lookup_insert_eq; by eapply lookup_lt_Some).
    by destruct q.
Qed.

Lemma finished_cases now o v job : let p := finished timeout now o v job in
  p = Done \/ (exists err, p = Recover err) \/ exists job' a, p = Save v job' a /\ id job' = id job.
Proof.
  destruct o as [st out err| |err]; cbn; [|right; right; eauto|right; left; eauto].
  destruct (String.eqb st "completed"); [right; right; eauto|]. destruct (String.eqb st "failed"); [right; right; eauto|].
  destruct (String.eqb st "cancelled"); [right; right; eauto|by left].
Qed.

(** A job that was cancelled while it ran: whatever its scenario then returns,
    [cancelled] included, the task finds the document changed, and ends without
    announcing anything.  Only a scenario that does not heed the cancellation, and is
    killed ten seconds later, has its cancellation announced. *)
Theorem cancelled_unannounced d l s i t v job w cur now o :
  engine_run l (new_engine d [] []) = Some s -> tasks s !! i = Some t -> t_phase t = Run v job ->
  find (t_job t) (db s) = Some (w, cur) -> status cur = CANCELLED ->
  exists n s', engine_run (repeat (Step i now Answered o) n) s = Some s' /\
    at_phase s' i (t_job t) Done /\ announced s' = announced s /\ db s' = db s.
Proof.
  intros Hr Hi Ht Hf Hc. pose proof (run_ok _ _ _ Hr (fresh_ok d)) as Hok.
  pose proof (ok_tasks _ Hok i t Hi) as Hp. rewrite Ht in Hp. destruct Hp as [Hid (w' & cur' & Hf' & _ & Hv)].
  rewrite Hf in Hf'. injection Hf' as <- <-.
  assert (v <> w) as Hne by (intros ->; rewrite (Hv eq_refl) in Hc; done). clear Hv.
  assert (at_phase s i (t_job t) (Run v job)) as H0' by by exists t.
  assert (forall s1, db s1 = db s -> (exists err, at_phase s1 i (t_job t) (Recover err)) -> exists s2,
    engine_step (Step i now Answered o) s1 = Some s2 /\ at_phase s2 i (t_job t) Done /\ db s2 = db s /\ announced s2 = announced s1) as Hrec.
  { intros s1 Hd [err Ha]. rewrite <- Hd. apply (step_goto _ _ _ _ _ _ _ _ Ha); [done|]. intros t1 Hj Hp.
    unfold JobExecution.task_step. rewrite Hp, Hj, Hd, Hf. unfold recovered. by rewrite bool_decide_eq_false_2 by congruence. }
  destruct (step_goto now Answered o s i (t_job t) (Run v job) (finished timeout now o v job) H0') as (s1 & Hs1 & Ha1 & Hd1 & Hn1);
    [done|intros t1 _ Hp; unfold JobExecution.task_step; by rewrite Hp|].
  destruct (finished_cases now o v job) as [Hq|[[err Hq]|(job' & a & Hq & Hid')]]; rewrite Hq in Ha1.
  - exists 1%nat, s1. cbn [repeat JobExecution.engine_run]. by rewrite Hs1.
  - destruct (Hrec s1 Hd1) as (s2 & Hs2 & Ha2 & Hd2 & Hn2); [by eexists|]. exists 2%nat, s2. cbn [repeat JobExecution.engine_run]. rewrite Hs1. cbn [mbind option_bind]. rewrite Hs2.
    split; [done|]. split; [done|]. split; congruence.
  - destruct (step_goto now Answered o s1 i (t_job t) _ (Recover "repository") Ha1) as (s2 & Hs2 & Ha2 & Hd2 & Hn2); [done| |].
    { intros t1 _ Hp. unfold JobExecution.task_step. rewrite Hp. unfold update_async. rewrite update_stale.
      - by destruct s1.
      - intros s'. rewrite Hd1, Hid', Hid, Hf. congruence. }
    destruct (Hrec s2) as (s3 & Hs3 & Ha3 & Hd3 & Hn3); [congruence|by eexists|].
    exists 3%nat, s3. cbn [repeat JobExecution.engine_run]. rewrite Hs1. cbn [mbind option_bind]. rewrite Hs2. cbn [mbind option_bind]. rewrite Hs3. split; [done|]. split; [done|]. split; congruence.
Qed.
End Props.

(** ** A repository, and witnesses *)

Abbreviation documents := (gmap string (Z * JobState)).

Definition lookup_document (j : string) (d : documents) : option (Z * JobState) :=
  match d !! j with Some (v, s) => if String.eqb (id s) j then Some (v, s) else None | None => None end.

#[local] Instance documents_store : JobStore documents := {|
  find := lookup_document;
  find_by_status st d :=
    List.filter (fun p => bool_decide (status p.2 = st)) (omap (fun p => lookup_document p.1 d) (map_to_list d));
  insert s d := <[id s := (0, s)]> d;
  update v s d :=
    match lookup_document (id s) d with
    | Some (w, _) => if v =? w then Some (v + 1, <[id s := (v + 1, s)]> d) else None
    | None => None
    end
|}.

Lemma lookup_document_id j d v s : lookup_document j d = Some (v, s) -> id s = j.
Proof.
  unfold lookup_document. destruct (d !! j) as [[w x]|]; [|done].
  destruct (String.eqb_spec (id x) j); [|done]. by intros [= <- <-].
Qed.

Lemma lookup_document_insert j v s (d : documents) : id s = j -> lookup_document j (<[j := (v, s)]> d) = Some (v, s).
Proof. intros Hj. unfold lookup_document. by rewrite lookup_insert_eq, Hj, String.eqb_refl. Qed.

Lemma lookup_document_ne j k v s (d : documents) : j <> k -> lookup_document k (<[j := (v, s)]> d) = lookup_document k d.
Proof. intros Hj. unfold lookup_document. by rewrite lookup_insert_ne. Qed.

#[local] Instance documents_laws : JobStoreLaws documents.
Proof.
  split; cbn.
  - apply lookup_document_id.
  - intros st d v s. rewrite list_elem_of_In, List.filter_In, <- list_elem_of_In, bool_decide_eq_true, list_elem_of_omap.
    cbn. split; (intros [Hf Hst]; split; [|done]).
    + destruct Hf as ([j p] & _ & Hf). cbn in Hf. by rewrite (lookup_document_id _ _ _ _ Hf).
    + unfold lookup_document in Hf. destruct (d !! id s) as [[w x]|] eqn:Hd; [|done].
      exists (id s, (w, x)). split; [by apply elem_of_map_to_list|]. cbn. unfold lookup_document. by rewrite Hd.
  - intros j s d Hn. case_bool_decide as Hj; [subst j; exists 0; by apply lookup_document_insert|].
    apply lookup_document_ne. congruence.
  - intros v s d Hs. destruct (lookup_document (id s) d) as [[w x]|]; [|done].
    destruct (Z.eqb_spec v w); [|done]. subst. by destruct (Hs x).
  - intros v s d s' Hf. rewrite Hf, Z.eqb_refl. exists (v + 1), (<[id s := (v + 1, s)]> d). split; [done|]. split; [lia|].
    split; [by apply lookup_document_insert|]. intros j Hj. by apply lookup_document_ne.
Qed.

Definition example_now : datetime := utc 0.

Definition example_job : JobState :=
  match create "lab_start" "v1" None None None (Some "j1") None "" example_now with Ok (s, _) => s | Err _ => init_state end.

#[local] Abbreviation example_run := (engine_run (fun _ => true) 2 600).

Definition answered (i : nat) : step_label := Step i example_now Answered TimedOut.

(** The job is submitted and queued, taken and started. *)
Definition to_run : list step_label :=
  [SweepSubmitted Answered; SweepRunning Answered example_now; SweepSave Answered; Submit Answered example_job; Take; Spawn;
   answered 0; answered 0; answered 0].

(** It is cancelled, which its scenario heeds. *)
Definition to_cancel : list step_label := [CancelLoad "j1" example_now; CancelSave 0 Answered].
Definition heeded : scenario_outcome := Returned "cancelled" [] None.

Definition run_state : engine documents := Eval vm_compute in default (new_engine ∅ [] []) (example_run to_run (new_engine ∅ [] [])).
Definition cancelled_state : engine documents := Eval vm_compute in default run_state (example_run to_cancel run_state).

Lemma to_run_state : example_run to_run (new_engine ∅ [] []) = Some run_state.
Proof. vm_compute. reflexivity. Qed.

Lemma to_cancelled_state : example_run (to_run ++ to_cancel) (new_engine ∅ [] []) = Some cancelled_state.
Proof. vm_compute. reflexivity. Qed.

Lemma job_lifecycle_witness :
  exists v job v' job', find "j1" (db run_state) = Some (v, job) /\ status job = RUNNING /\
    find "j1" (db cancelled_state) = Some (v', job') /\ star edge (status job) (status job').
Proof.
  eexists _, _. pose proof (job_lifecycle (fun _ => true) 2 600 ∅ to_run to_cancel run_state cancelled_state "j1" _ _
    to_run_state (eq_refl : example_run to_cancel run_state = Some cancelled_state) eq_refl) as (v' & job' & Hf & Hs & _).
  exists v', job'. split; [vm_compute; reflexivity|]. split; [reflexivity|]. split; [exact Hf|exact Hs].
Defined.

Lemma executed_once_witness : executions run_state = ["j1"] /\ NoDup (executions run_state).
Proof. split; [vm_compute; reflexivity|]. apply (executed_once _ _ _ _ _ _ to_run_state). Defined.

Lemma tasks_bounded_witness : active (tasks run_state) = 1%nat /\ (active (tasks run_state) <= 2)%nat.
Proof. split; [vm_compute; reflexivity|]. apply (tasks_bounded _ _ _ _ _ _ to_run_state). Defined.

Lemma cancelled_unannounced_witness :
  exists n s', example_run (repeat (Step 0 example_now Answered heeded) n) cancelled_state = Some s' /\
    announced s' = [("j1", JobStarted)].
Proof.
  pose proof (cancelled_unannounced (fun _ => true) 2 600 ∅ _ cancelled_state 0 _ _ _ _ _ example_now heeded
    to_cancelled_state eq_refl eq_refl eq_refl eq_refl) as (n & s' & Hr & _ & Ha & _).
  exists n, s'. split; [exact Hr|]. rewrite Ha. vm_compute. reflexivity.
Defined.
