(* ===== verification/SessionCommands.v ===== *)
(** * The session commands ([control-plane-api/application/commands/lablet_session])

    One program per command handler, over the four repositories the handlers read
    and write together, with the capacity commands of a worker
    ([commands/worker/allocate_capacity_command.py], [release_capacity_command.py])
    and the wipe of a lab ([commands/lab/wipe_lab_record_command.py]) they send
    through the mediator.  As in [DefinitionCommands], a program is a function of what
    is stored, a read returns a copy, and what was stored before an exception stays
    stored.  Here requests fail too: a request to a repository takes its fate from
    the head of [faults].  A handler runs alone; [c k] are the readings of the clock of
    its [k]-th call on an aggregate. *)
From S2P Require Import Prelude Programs PyData Enums Lifecycle LabValues WorkerValues.
From S2P Require Import LabletDefinition Worker LabRecord LabletSession.
Import SessionStatus.

(** ** The repositories *)

(** A request is served, refused with nothing done, or carried out with its answer
    lost. *)
Inductive fate := Served | Refused (e : exn) | Lost (e : exn).

(** [PipelineExecutionRecord]: one run of a pipeline, for auditing. *)
Record execution := {
  ex_id : string;
  ex_session_id : string;
  ex_pipeline_name : string;
  ex_status : string;
  ex_steps : list pyval;
  ex_attempt : Z;
  ex_started_at : datetime;
  ex_completed_at : option datetime;
  ex_duration_seconds : Z;
  ex_outputs : pydict;
  ex_error : option string
}.

(** The events handed to the bus ([application/events/integration/pipeline_events.py]). *)
Inductive pipeline_event :=
| StepStarted (session pipeline step : string) (at_ : datetime)
| StepCompleted (session pipeline step : string) (result_data : pydict) (at_ : datetime)
| StepFailed (session pipeline step error : string) (at_ : datetime)
| PipelineCompleted (session pipeline status : string) (completed failed skipped : Z) (at_ : datetime).

(** Documents by [_id]; the executions in the order they were added.  When [faults]
    is used up, requests are served. *)
Record world := {
  sessions : gmap string LabletSessionState;
  labs : gmap string LabRecordState;
  workers : gmap string CMLWorkerState;
  definitions : gmap string LabletDefinitionState;
  executions : list execution;
  published : list pipeline_event;
  faults : list fate
}.

#[export] Instance eta_world : Eta world := fun w => {|
  sessions := w.(sessions); labs := w.(labs); workers := w.(workers); definitions := w.(definitions);
  executions := w.(executions); published := w.(published); faults := w.(faults)
|}.

Abbreviation io := (prog world).

Definition request {A} (m : io A) : io A := fun w =>
  match w.(faults) with
  | [] => m w
  | Served :: rest => m (w <| faults := rest |>)
  | Refused e :: rest => (Err e, w <| faults := rest |>)
  | Lost e :: rest => (Err e, (m (w <| faults := rest |>)).2)
  end.

Definition get_session (i : string) : io (option LabletSessionState) := request (fun w => (Ok (w.(sessions) !! i), w)).
Definition get_lab (i : string) : io (option LabRecordState) := request (fun w => (Ok (w.(labs) !! i), w)).
Definition get_worker (i : string) : io (option CMLWorkerState) := request (fun w => (Ok (w.(workers) !! i), w)).
Definition get_definition (i : string) : io (option LabletDefinitionState) :=
  request (fun w => (Ok (w.(definitions) !! i), w)).

(** [find_one({"reservation_id": r})] *)
Definition get_by_reservation_id (r : string) : io (option LabletSessionState) := request (fun w =>
  (Ok (List.find (fun s => bool_decide (LabletSession.reservation_id s = Some r))
         (map snd (map_to_list w.(sessions)))), w)).

(** [update_async] and [add_async] *)
Definition put_session (s : LabletSessionState) : io () := request (fun w =>
  (Ok (), w <| sessions := <[LabletSession.id s := s]> w.(sessions) |>)).
Definition put_lab (s : LabRecordState) : io () := request (fun w =>
  (Ok (), w <| labs := <[LabRecord.id s := s]> w.(labs) |>)).
Definition put_worker (s : CMLWorkerState) : io () := request (fun w =>
  (Ok (), w <| workers := <[Worker.id s := s]> w.(workers) |>)).

(** [OperationResult]; [NotFound] has the entity's class and its key. *)
Inductive response :=
| Success (code : Z) (data : pydict)
| BadRequest (message : string)
| NotFound (entity key : string)
| Conflict (message : string)
| InternalServerError (message : string).

Definition is_success (r : response) : bool := match r with Success _ _ => true | _ => false end.

Definition ok (data : pydict) : io response := mret (Success 200 data).

(** [s] has a character that is not white space. *)
Definition filled (s : string) : bool := str_truthy s && str_truthy (py_strip s).

(** [d.isoformat() if d else None] *)
Definition iso_or_none (d : option datetime) : pyval := match d with Some d => PIso d | None => PNone end.

(** [WorkerCapacity.__str__] *)
Definition capacity_str (c : WorkerCapacity) : string :=
  "WorkerCapacity(cpu=" +:+ pretty (WorkerValues.cpu_cores c) +:+ ", mem=" +:+ pretty (WorkerValues.memory_gb c)
    +:+ "GB, storage=" +:+ pretty (WorkerValues.storage_gb c) +:+ "GB"
    +:+ match WorkerValues.max_nodes c with Some n => ", max_nodes=" +:+ pretty n | None => "" end +:+ ")".

Definition insufficient_capacity (worker : string) (required : WorkerCapacity) (available : option WorkerCapacity)
    : response :=
  Conflict ("Insufficient capacity on worker " +:+ worker +:+ ". Required: " +:+ capacity_str required
              +:+ ", Available: " +:+ match available with Some a => capacity_str a | None => "None" end).

Definition not_running (worker : string) (status : WorkerStatus.CMLWorkerStatus) : response :=
  Conflict ("Worker " +:+ worker +:+ " is " +:+ WorkerStatus.CMLWorkerStatus_value status +:+ ", must be RUNNING").

(** The entries of a capacity response about the worker in state [worker]. *)
Definition capacity_report (worker : CMLWorkerState) : res pydict :=
  available ← available_capacity worker;
  Ok [("allocated_capacity", PDict (WorkerCapacity_to_dict (allocated_capacity worker)));
      ("available_capacity", of_odict (WorkerCapacity_to_dict <$> available))].

(** The capacity of a request: the requirements of the session's definition, or
    nothing when there is no definition. *)
Record capacity := { cap_cpu : Z; cap_memory : Z; cap_storage : Z }.

Definition no_capacity : capacity := {| cap_cpu := 0; cap_memory := 0; cap_storage := 0 |}.

Definition required_capacity (definition : LabletDefinitionState) : capacity :=
  let r := LabletDefinition.resource_requirements definition in
  {| cap_cpu := rr_cpu_cores r; cap_memory := rr_memory_gb r; cap_storage := rr_storage_gb r |}.

(** ** The commands sent through the mediator *)
Section Mediated.
Context `{RootId LabRecordState} `{RootId CMLWorkerState}.
Context (c : nat -> clock).

(** *** [AllocateCapacityCommand] *)
Record allocate_command := {
  ac_worker_id : string;
  ac_session_id : string;
  ac_capacity : capacity;
  ac_node_count : option Z;
  ac_port_requirements : option (dict Z)
}.

(** [except ValueError as e: bad_request(str(e))], then [except Exception as e]. *)
Definition allocation_failed (e : exn) : io response :=
  mret (match e with
        | ValueError m => BadRequest m
        | e => InternalServerError ("Failed to allocate capacity: " +:+ exn_str e)
        end).

(** The ports of the worker for the names asked for. *)
Definition pick_ports (command : allocate_command) (worker : CMLWorkerState) : res (dict Z * CMLWorkerState) :=
  match command.(ac_port_requirements) with
  | Some ((_ :: _) as requirements) =>
      available_ports ← get_next_available_ports (Z.of_nat (length requirements)) worker;
      let allocated_ports := zip (dict_keys requirements) available_ports in
      '(worker, _) ← Worker.allocate_ports (c 1) command.(ac_session_id) allocated_ports worker;
      Ok (allocated_ports, worker)
  | _ => Ok ([], worker)
  end.

Definition handle_allocate (command : allocate_command) : io response :=
  let i := command.(ac_worker_id) in
  let k := command.(ac_capacity) in
  try_ (
    found ← get_worker i;
    match found with
    | None => mret (NotFound "CMLWorker" i)
    | Some worker =>
        if negb (bool_decide (Worker.status worker = WorkerStatus.RUNNING))
        then mret (not_running i (Worker.status worker))
        else if has_session command.(ac_session_id) worker
        then mret (Conflict ("Session " +:+ command.(ac_session_id) +:+ " is already assigned to worker " +:+ i))
        else
          requirements ← lift (mk_capacity (cap_cpu k) (cap_memory k) (cap_storage k) command.(ac_node_count));
          fits ← lift (can_accommodate requirements worker);
          if negb fits then
            available ← lift (available_capacity worker);
            mret (insufficient_capacity i requirements available)
          else
            '(worker, _) ← lift (assign_lablet_session (c 0) command.(ac_session_id) (cap_cpu k) (cap_memory k)
                                   (cap_storage k) command.(ac_node_count) worker);
            '(allocated_ports, worker) ← lift (pick_ports command worker);
            _ ← put_worker worker;
            report ← lift (capacity_report worker);
            ok ([("worker_id", PStr i); ("session_id", PStr command.(ac_session_id))] ++ report ++
                [("allocated_ports", of_ports allocated_ports);
                 ("assigned_session_count", PInt (Z.of_nat (length (session_ids worker))))])
    end) allocation_failed.

(** *** [ReleaseCapacityCommand] *)
Definition handle_release (i session : string) (k : capacity) (nodes : option Z) : io response :=
  try_ (
    found ← get_worker i;
    match found with
    | None => mret (NotFound "CMLWorker" i)
    | Some worker =>
        if negb (has_session session worker) then
          report ← lift (capacity_report worker);
          ok ([("worker_id", PStr i); ("session_id", PStr session); ("already_released", PBool true)] ++ report)
        else
          '(worker, _) ← lift (match get_port_allocation session worker with
                               | Some _ => Worker.release_ports (c 0) session worker
                               | None => Ok (worker, [])
                               end);
          '(worker, _) ← lift (remove_lablet_session (c 1) session (cap_cpu k) (cap_memory k) (cap_storage k)
                                 nodes worker);
          _ ← put_worker worker;
          report ← lift (capacity_report worker);
          ok ([("worker_id", PStr i); ("session_id", PStr session); ("already_released", PBool false)] ++ report
              ++ [("assigned_session_count", PInt (Z.of_nat (length (session_ids worker))))])
    end) (fun e => mret (InternalServerError ("Failed to release capacity: " +:+ exn_str e))).

(** *** [WipeLabRecordCommand] *)
Definition handle_wipe (i : string) : io response :=
  try_ (
    found ← get_lab i;
    match found with
    | None => mret (NotFound "LabRecord" i)
    | Some lab =>
        if ostr_truthy (pending_action lab)
        then mret (Conflict ("Lab already has pending action: " +:+ default "" (pending_action lab)
                               +:+ ". Wait for it to complete or clear it first."))
        else if LabRecord.is_terminal lab
        then mret (BadRequest ("Cannot wipe lab in terminal state: "
                                 +:+ LabStatus.LabRecordStatus_value (LabRecord.status lab)))
        else
          '(lab, _) ← lift (request_wipe (c 0) lab);
          _ ← put_lab lab;
          mret (Success 202 [("lab_record_id", PStr i); ("lab_id", PStr (LabRecord.lab_id lab));
                             ("worker_id", PStr (LabRecord.worker_id lab)); ("action", PStr "wipe");
                             ("status", PStr "pending"); ("message", PStr "Wipe queued for reconciliation")])
    end) (fun e => mret (InternalServerError ("Error queuing wipe for lab " +:+ i +:+ ": " +:+ exn_str e))).
End Mediated.

(** ** The commands on one session *)
Section Handlers.
Context `{RootId LabletSessionState} `{RootId LabRecordState} `{RootId CMLWorkerState}
  `{RootId LabletDefinitionState} `{SetOrder}.
Context (c : nat -> clock).

(** The readings of the clock from the [k]-th call on. *)
Definition later (k : nat) : nat -> clock := fun n => c (k + n)%nat.

(** The session, or the answer that there is none. *)
Definition with_session (i : string) (k : LabletSessionState -> io response) : io response :=
  found ← get_session i;
  match found with Some session => k session | None => mret (NotFound "LabletSession" i) end.

(** [except Exception as e: conflict(prefix + str(e))] around a method of the
    aggregate; then [update_async]. *)
Definition apply_or_conflict (prefix : string) (r : result) (answer : LabletSessionState -> io response)
    : io response :=
  match r with
  | Ok (session, _) => _ ← put_session session; answer session
  | Err e => mret (Conflict (prefix +:+ exn_str e))
  end.

(** [StartInstantiationCommand] *)
Definition handle_start_instantiation (i : string) : io response :=
  with_session i (fun session =>
    apply_or_conflict "Invalid state transition: " (start_instantiation (c 0) session) (fun session =>
      ok [("session_id", PStr i); ("status", PStr (LabletSessionStatus_value (status session)))])).

(** [MarkSessionReadyCommand] *)
Definition handle_mark_ready (i user_session cml_lab : string) : io response :=
  with_session i (fun session =>
    apply_or_conflict "Invalid state transition: " (mark_ready (c 0) user_session cml_lab session) (fun _ =>
      ok [("session_id", PStr i); ("status", PStr "READY"); ("user_session_id", PStr user_session);
          ("cml_lab_id", PStr cml_lab)])).

(** [RecordScoreCommand] *)
Definition handle_record_score (i score_report grade : string) : io response :=
  if negb (bool_decide (grade ∈ ["pass"; "fail"]))
  then mret (BadRequest ("grade_result must be 'pass' or 'fail', got '" +:+ grade +:+ "'"))
  else with_session i (fun session =>
    apply_or_conflict "Cannot record score: " (record_score (c 0) score_report grade session) (fun _ =>
      ok [("session_id", PStr i); ("score_report_id", PStr score_report); ("grade_result", PStr grade)])).

(** A text that is no time stamp, for a message. *)
Definition text (v : pyval) : string := match v with PStr s => s | _ => "" end.

(** [ExtendTimeslotCommand]: the new end is [datetime.fromisoformat] of the text
    with [Z] for an offset of zero. *)
Definition handle_extend_timeslot (i : string) (new_timeslot_end : pyval) (extended_by : string) : io response :=
  with_session i (fun session =>
    match fromisoformat new_timeslot_end with
    | Err (ValueError _) => mret (BadRequest ("Invalid new_timeslot_end format: " +:+ text new_timeslot_end))
    | Err e => lift (Err e)
    | Ok new_end =>
        match (old_end ← timeslot_end session;
               '(session, _) ← extend_timeslot (c 0) new_end extended_by session;
               Ok (old_end, session)) with
        | Err (ValueError m) => mret (BadRequest m)
        | Err e => lift (Err e)
        | Ok (old_end, session) =>
            _ ← put_session session;
            ok [("session_id", PStr i); ("old_timeslot_end", PIso old_end); ("new_timeslot_end", PIso new_end);
                ("extended_by", PStr extended_by)]
        end
    end).

Definition VALID_DESIRED_STATUSES : list LabletSessionStatus := [RUNNING; STOPPED; TERMINATED].

Definition valid_desired : string := py_join ", " (map LabletSessionStatus_value VALID_DESIRED_STATUSES).

(** [SetDesiredStatusCommand] *)
Definition handle_set_desired (i desired : string) (requested_by reason : option string) : io response :=
  match enum_call (E := LabletSessionStatus) desired with
  | Err _ => mret (BadRequest ("Invalid desired_status '" +:+ desired +:+ "'. Must be one of: " +:+ valid_desired))
  | Ok target =>
      if negb (bool_decide (target ∈ VALID_DESIRED_STATUSES))
      then mret (BadRequest ("Cannot set desired_status to '" +:+ LabletSessionStatus_value target
                               +:+ "'. Valid targets: " +:+ valid_desired))
      else with_session i (fun session =>
        '(changed, session, _) ← lift (update_desired_status (c 0) target requested_by reason session);
        _ ← (if changed : bool then put_session session else mret ());
        ok [("session_id", PStr i); ("desired_status", PStr (LabletSessionStatus_value target));
            ("changed", PBool changed)])
  end.

(** The statuses in which a session is observed, listed in the order of a set. *)
Definition observable_states : list LabletSessionStatus := [RUNNING; COLLECTING].
Definition observable (session : LabletSessionState) : bool := bool_decide (status session ∈ observable_states).
Definition not_observable (what : string) (session : LabletSessionState) : io response :=
  mret (BadRequest ("Cannot " +:+ what +:+ " for session in '" +:+ LabletSessionStatus_value (status session)
                      +:+ "' state. Session must be in "
                      +:+ repr_list (set_order (map LabletSessionStatus_value observable_states)))).

(** [RequestResourceObservationCommand] *)
Definition handle_request_observation (i requested_by : string) : io response :=
  with_session i (fun session =>
    if negb (observable session) then not_observable "request observation" session
    else if negb (ostr_truthy (cml_lab_id session)) then mret (BadRequest "Session does not have a CML lab assigned")
    else if negb (ostr_truthy (worker_id session)) then mret (BadRequest "Session does not have a worker assigned")
    else
      '(session, _) ← lift (request_resource_observation (c 0) requested_by session);
      _ ← put_session session;
      mret (Success 202
        [("session_id", PStr i);
         ("message", PStr "Resource observation requested. Results will be recorded asynchronously.")])).

(** [RecordResourceObservationCommand] *)
Definition handle_record_observation (i : string) (observed_resources : pydict) (observed_ports : dict Z)
    : io response :=
  with_session i (fun session =>
    if negb (observable session) then not_observable "record observations" session
    else
      '(session, _) ← lift (record_resource_observation (c 0) observed_resources observed_ports session);
      _ ← put_session session;
      ok [("session_id", PStr i); ("observation_count", PInt (observation_count session));
          ("port_drift_detected", PBool (port_drift_detected session));
          ("observed_at", iso_or_none (observed_at session))]).

(** [RequeueLabletSessionCommand] *)
Definition handle_requeue (i requeued_by : string) (reason : option string) : io response :=
  if negb (filled i) then mret (BadRequest "Session ID is required")
  else if negb (filled requeued_by) then mret (BadRequest "Requeued by is required")
  else try_ (
    found ← get_session (py_strip i);
    match found with
    | None => mret (NotFound "LabletSession" i)
    | Some session =>
        '(session, _) ← lift (requeue (c 0) (py_strip requeued_by) reason session);
        _ ← put_session session;
        j ← lift (LabletSession.aggregate_id session);
        ok [("id", PStr j); ("status", PStr (LabletSessionStatus_value (status session)));
            ("requeued_by", PStr (py_strip requeued_by)); ("reason", of_ostr reason)]
    end) (fun e => mret match e with
                        | InvalidStateTransitionError _ _ m => Conflict m
                        | e => InternalServerError ("Failed to requeue session: " +:+ exn_str e)
                        end).

(** [BulkRequeueLabletSessionsCommand]: the loop, with what it counts. *)
Fixpoint requeue_each (k : nat) (ids : list string) (by_ : string) (reason : option string)
    (successes failures : Z) (errors : list pyval) : io (Z * Z * list pyval) :=
  match ids with
  | [] => mret (successes, failures, errors)
  | i :: ids =>
      let failed message := PDict [("session_id", PStr i); ("error", PStr message)] in
      outcome ← try_ (
        found ← get_session (py_strip i);
        match found with
        | None => mret (Some (failed "Not found"))
        | Some session =>
            '(session, _) ← lift (requeue (c k) (py_strip by_) reason session);
            _ ← put_session session;
            mret None
        end) (fun e => mret (Some (failed (exn_str e))));
      match outcome with
      | None => requeue_each (S k) ids by_ reason (successes + 1) failures errors
      | Some error => requeue_each (S k) ids by_ reason successes (failures + 1) (errors ++ [error])
      end
  end.

Definition handle_bulk_requeue (ids : list string) (requeued_by : string) (reason : option string) : io response :=
  match ids with
  | [] => mret (BadRequest "At least one session ID is required")
  | _ =>
      if negb (filled requeued_by) then mret (BadRequest "Requeued by is required")
      else
        '(successes, failures, errors) ← requeue_each 0 ids requeued_by reason 0 0 [];
        ok [("success_count", PInt successes); ("fail_count", PInt failures); ("errors", PList errors)]
  end.

(** ** The commands across aggregates *)

(** The requirements of the definition, or nothing when it is missing. *)
Definition capacity_of (definition_id : string) : io capacity :=
  definition ← get_definition definition_id;
  mret (match definition with Some definition => required_capacity definition | None => no_capacity end).

(** The release that ends an expiry or a stop; the answer is whether it succeeded. *)
Definition release_session (k : nat) (i worker : string) (session : LabletSessionState) : io bool :=
  try_ (
    required ← (if str_truthy (definition_id session) then capacity_of (definition_id session)
                else mret no_capacity);
    result ← handle_release (later k) worker i required None;
    mret (is_success result)) (fun _ => mret false).

(** [TransitionLabletSessionCommand]: the method of the target, or a refusal. *)
Definition transition_method (target : LabletSessionStatus) (reason : option string)
    : string + (LabletSessionState -> result) :=
  match target with
  | INSTANTIATING => inl "Use POST /internal/lablet-sessions/{id}/start-instantiation instead."
  | READY => inl ("Transition to READY requires user_session_id and cml_lab_id. "
                    +:+ "Use POST /internal/lablet-sessions/{id}/mark-ready instead.")
  | RUNNING => inr (mark_running (c 0))
  | COLLECTING => inr (start_collection (c 0))
  | GRADING => inl ("Transition to GRADING requires grading_session_id. "
                      +:+ "Use POST /internal/lablet-sessions/{id}/start-grading instead.")
  | STOPPING => inr (start_stopping (c 0) reason)
  | STOPPED => inr (mark_stopped (c 0))
  | ARCHIVED => inr (archive (c 0) "lablet-controller")
  | TERMINATED => inl "Use POST /internal/lablet-sessions/{id}/terminate instead."
  | _ => inl ("Transition to " +:+ LabletSessionStatus_value target +:+ " not supported via this endpoint")
  end.

Definition handle_transition (i target_status : string) (reason : option string) : io response :=
  with_session i (fun session =>
    match enum_call (E := LabletSessionStatus) target_status with
    | Err _ => mret (BadRequest ("Invalid target status: " +:+ target_status +:+ ". Valid values: "
                                   +:+ repr_list (map LabletSessionStatus_value LabletSessionStatus_members)))
    | Ok target =>
        let current := LabletSessionStatus_value (status session) in
        match transition_method target reason with
        | inl refusal => mret (BadRequest refusal)
        | inr method =>
            apply_or_conflict ("Cannot transition from " +:+ current +:+ " to "
                                 +:+ LabletSessionStatus_value target +:+ ": ") (method session) (fun session =>
              released ← match worker_id session with
                         | Some worker =>
                             if bool_decide (target = STOPPING) && str_truthy worker
                             then released ← release_session 1 i worker session; mret (Some released)
                             else mret None
                         | None => mret None
                         end;
              ok ([("session_id", PStr i); ("previous_status", PStr current);
                   ("current_status", PStr (LabletSessionStatus_value (status session)));
                   ("reason", of_ostr reason)]
                  ++ match released with Some b => [("capacity_released", PBool b)] | None => [] end))
        end
    end).

(** [ScheduleLabletSessionCommand] *)
Definition handle_schedule (i worker : string) (allocated_ports : dict Z) (lab_record scheduled_by : string)
    : io response :=
  with_session i (fun session =>
    if negb (bool_decide (status session = PENDING))
    then mret (Conflict ("Cannot schedule session in " +:+ LabletSessionStatus_value (status session)
                           +:+ " status (expected PENDING)"))
    else
      found ← get_worker worker;
      match found with
      | None => mret (NotFound "CMLWorker" worker)
      | Some w =>
          if negb (bool_decide (Worker.status w = WorkerStatus.RUNNING))
          then mret (not_running worker (Worker.status w))
          else
            found ← get_definition (definition_id session);
            match found with
            | None => mret (NotFound "LabletDefinition" (definition_id session))
            | Some definition =>
                let k := required_capacity definition in
                required ← lift (mk_capacity (cap_cpu k) (cap_memory k) (cap_storage k) None);
                fits ← lift (can_accommodate required w);
                if negb fits then
                  available ← lift (available_capacity w);
                  mret (insufficient_capacity worker required available)
                else
                  '(session, _) ← lift (schedule (c 0) worker allocated_ports lab_record scheduled_by session);
                  _ ← put_session session;
                  allocated ← try_ (
                    result ← handle_allocate (later 1) {| ac_worker_id := worker; ac_session_id := i;
                                                          ac_capacity := k; ac_node_count := None;
                                                          ac_port_requirements := None |};
                    mret (is_success result)) (fun _ => mret false);
                  ok [("session_id", PStr i); ("worker_id", PStr worker); ("lab_record_id", PStr lab_record);
                      ("status", PStr (LabletSessionStatus_value (status session)));
                      ("scheduled_at", iso_or_none (scheduled_at session));
                      ("capacity_allocated", PBool allocated)]
            end
      end).

(** [BindLabToSessionCommand]; [run_id] is [str(uuid4())]. *)
Definition handle_bind_lab (run_id : string) (i lab_record : string) (cml_lab cml_title : option string)
    : io response :=
  found ← get_lab lab_record;
  match found with
  | None => mret (NotFound "LabRecord" lab_record)
  | Some lab =>
      with_session i (fun session =>
        let active := active_lablet_session_id lab in
        if bool_decide (active = Some i) && bool_decide (lab_record_id session = Some lab_record)
        then ok [("lab_record_id", PStr lab_record); ("already_bound", PBool true);
                 ("allocated_ports", of_ports (default [] (LabRecord.allocated_ports lab)))]
        else if ostr_truthy active && negb (bool_decide (active = Some i))
        then mret (Conflict ("Lab record " +:+ lab_record +:+ " is already bound to session " +:+ default "" active))
        else
          run ← lift (LabRunRecord_post_init
                        {| run_id := run_id; run_started_at := (c 0).(now); run_stopped_at := None;
                           run_duration_seconds := None; run_started_by := "lablet-controller";
                           run_stop_reason := None; run_lablet_session_id := Some i; run_final_state := None |});
          '(lab, _) ← lift (bind_to_lablet (c 1) i run_id "instantiation" (record_run run lab));
          _ ← put_lab lab;
          let ports := default [] (LabRecord.allocated_ports lab) in
          j ← lift (LabRecord.aggregate_id lab);
          '(session, _) ← lift (bind_lab (c 2) j (Some ports) cml_lab cml_title session);
          _ ← put_session session;
          ok [("lab_record_id", PStr j); ("run_id", PStr run_id); ("allocated_ports", of_ports ports)])
  end.

(** [except ValueError: bad_request], then [except Exception: internal_server_error]. *)
Definition bad_or_internal (e : exn) : io response :=
  mret (match e with ValueError m => BadRequest m | e => InternalServerError (exn_str e) end).

(** A time stamp that is there and is not blank. *)
Definition filled_stamp (v : pyval) : bool := match v with PStr s => filled s | v => truthy v end.

(** [CreateLabletSessionCommand]; [uid] is [str(uuid4())] and [t_now], [t_check],
    [t_init] the clock in the handler, in [create] and in the state's [__init__]. *)
Definition handle_create (uid : string) (t_now t_check t_init : datetime) (definition_id owner : string)
    (ts_start ts_end : pyval) (reservation : option string) : io response :=
  if negb (filled definition_id) then mret (BadRequest "Definition ID is required")
  else if negb (filled owner) then mret (BadRequest "Owner ID is required")
  else if negb (filled_stamp ts_start) then mret (BadRequest "Timeslot start is required")
  else if negb (filled_stamp ts_end) then mret (BadRequest "Timeslot end is required")
  else try_ (
    match fromisoformat ts_start, fromisoformat ts_end with
    | Err (ValueError _), _ => mret (BadRequest ("Invalid timeslot_start format: " +:+ text ts_start))
    | Err e, _ => lift (Err e)
    | Ok _, Err (ValueError _) => mret (BadRequest ("Invalid timeslot_end format: " +:+ text ts_end))
    | Ok _, Err e => lift (Err e)
    | Ok timeslot_start, Ok timeslot_end =>
        empty ← lift (dt_leb timeslot_end timeslot_start);
        if empty : bool then mret (BadRequest "timeslot_end must be after timeslot_start") else
        past ← lift (dt_ltb timeslot_start t_now);
        if past : bool then mret (BadRequest "timeslot_start cannot be in the past") else
        found ← get_definition (py_strip definition_id);
        match found with
        | None => mret (NotFound "LabletDefinition" definition_id)
        | Some definition =>
            let st := LabletDefinition.status definition in
            if negb (bool_decide (st = DefinitionStatus.ACTIVE))
            then mret (BadRequest ("LabletDefinition '" +:+ LabletDefinition.name definition
                                     +:+ "' is not active (status: " +:+ DefinitionStatus.LabletDefinitionStatus_value st
                                     +:+ ")"))
            else
              existing ← match reservation with
                         | Some r => if str_truthy r then get_by_reservation_id r else mret None
                         | None => mret None
                         end;
              match existing with
              | Some _ => mret (Conflict ("LabletSession with reservation_id '" +:+ default "" reservation
                                            +:+ "' already exists"))
              | None =>
                  d ← lift (LabletDefinition.aggregate_id definition);
                  '(session, _) ← lift (LabletSession.create (c 0) t_check t_init uid d
                                          (LabletDefinition.name definition) (LabletDefinition.version definition)
                                          (py_strip owner) timeslot_start timeslot_end reservation);
                  _ ← put_session session;
                  j ← lift (LabletSession.aggregate_id session);
                  from ← lift (LabletSession.timeslot_start session);
                  until ← lift (LabletSession.timeslot_end session);
                  mret (Success 201
                    [("id", PStr j); ("definition_id", PStr (LabletSession.definition_id session));
                     ("definition_name", PStr (definition_name session));
                     ("definition_version", PStr (definition_version session));
                     ("owner_id", PStr (owner_id session));
                     ("status", PStr (LabletSessionStatus_value (status session)));
                     ("timeslot_start", PIso from); ("timeslot_end", PIso until);
                     ("reservation_id", of_ostr (reservation_id session)); ("created_at", PIso (created_at session))])
              end
        end
    end) bad_or_internal.

(** The lab is given back when [session] is the one it is bound to. *)
Definition unbind (at_ : clock) (i : string) (lab : LabRecordState) : io (LabRecordState * bool) :=
  if bool_decide (active_lablet_session_id lab = Some i) then
    '(lab, _) ← lift (unbind_from_lablet at_ i (default "" (active_binding_id lab)) lab);
    _ ← put_lab lab;
    mret (lab, true)
  else mret (lab, false).

(** [not is_terminal and not pending_action] *)
Definition may_be_wiped (lab : LabRecordState) : bool :=
  negb (LabRecord.is_terminal lab) && negb (ostr_truthy (pending_action lab)).

(** [TerminateLabletSessionCommand]: the release of the capacity and the clean-up
    of the lab, whose errors are logged. *)
Definition terminate_release (i worker : string) (session : LabletSessionState) : io () :=
  try_ (
    required ← capacity_of (definition_id session);
    _ ← handle_release (later 2) worker i required None;
    mret ()) (fun _ => mret ()).

Definition terminate_cleanup (i lab_record : string) : io () :=
  try_ (
    found ← get_lab lab_record;
    match found with
    | None => mret ()
    | Some lab =>
        '(lab, _) ← unbind (c 4) i lab;
        if may_be_wiped lab then _ ← handle_wipe (later 5) lab_record; mret () else mret ()
    end) (fun _ => mret ()).

Definition handle_terminate (i terminated_by : string) (reason : option string) : io response :=
  if negb (filled i) then mret (BadRequest "Session ID is required")
  else if negb (filled terminated_by) then mret (BadRequest "Terminated by is required")
  else try_ (
    found ← get_session (py_strip i);
    match found with
    | None => mret (NotFound "LabletSession" i)
    | Some session =>
        if bool_decide (status session = TERMINATED)
        then mret (Conflict ("LabletSession '" +:+ i +:+ "' is already terminated"))
        else if negb (can_be_terminated session)
        then mret (Conflict ("LabletSession '" +:+ i +:+ "' cannot be terminated from current status '"
                               +:+ LabletSessionStatus_value (status session) +:+ "'"))
        else
          '(session, _) ← lift (match LabletSession.allocated_ports session with
                                | Some (_ :: _) => LabletSession.release_ports (c 0) session
                                | _ => Ok (session, [])
                                end);
          '(session, _) ← lift (LabletSession.terminate (c 1) (py_strip terminated_by) reason session);
          _ ← put_session session;
          j ← lift (LabletSession.aggregate_id session);
          _ ← match worker_id session with
              | Some worker => if str_truthy worker then terminate_release j worker session else mret ()
              | None => mret ()
              end;
          _ ← match lab_record_id session with
              | Some lab_record => if str_truthy lab_record then terminate_cleanup j lab_record else mret ()
              | None => mret ()
              end;
          ok [("id", PStr j); ("status", PStr (LabletSessionStatus_value (status session)));
              ("terminated_at", match LabletSession.terminated_at session with Some t => PIso t | None => PStr "" end);
              ("terminated_by", PStr (py_strip terminated_by)); ("reason", of_ostr reason)]
    end) (fun e => mret match e with
                        | InvalidStateTransitionError _ _ m => Conflict m
                        | e => InternalServerError (exn_str e)
                        end).

(** [ExpireLabletSessionCommand].  Step 3: the lab as read, or as unbound; errors
    are raised. *)
Definition expire_unbind (i : string) (session : LabletSessionState) : io (option LabRecordState * bool) :=
  match lab_record_id session with
  | Some lab_record =>
      if str_truthy lab_record then
        found ← get_lab lab_record;
        match found with
        | Some lab => '(lab, unbound) ← unbind (c 1) i lab; mret (Some lab, unbound)
        | None => mret (None, false)
        end
      else mret (None, false)
  | None => mret (None, false)
  end.

(** Step 3b: whether the wipe was queued. *)
Definition expire_wipe (lab : option LabRecordState) (session : LabletSessionState) : io bool :=
  match lab_record_id session with
  | Some lab_record =>
      if str_truthy lab_record then
        try_ (
          found ← match lab with Some lab => mret (Some lab) | None => get_lab lab_record end;
          match found with
          | Some lab =>
              if may_be_wiped lab then result ← handle_wipe (later 2) lab_record; mret (is_success result)
              else mret false
          | None => mret false
          end) (fun _ => mret false)
      else mret false
  | None => mret false
  end.

Definition handle_expire (i reason : string) : io response :=
  with_session i (fun session =>
    if bool_decide (status session = EXPIRED)
    then ok [("session_id", PStr i); ("status", PStr "expired"); ("already_expired", PBool true)]
    else
      apply_or_conflict "Cannot expire session: " (expire (c 0) reason session) (fun session =>
        '(lab, unbound) ← expire_unbind i session;
        queued ← expire_wipe lab session;
        released ← match worker_id session with
                   | Some worker => if str_truthy worker then release_session 3 i worker session else mret false
                   | None => mret false
                   end;
        ok [("session_id", PStr i); ("status", PStr "expired"); ("reason", PStr reason);
            ("lab_record_unbound", PBool unbound); ("lab_wipe_queued", PBool queued);
            ("capacity_released", PBool released)])).
End Handlers.
