(* ===== verification/PipelineProgress.v ===== *)
(** * Pipeline progress
    ([commands/lablet_session/update_pipeline_progress_command.py],
    [resume_pipeline_step_command.py], [fail_pipeline_step_command.py])

    The reports of the lablet controller on the steps of a pipeline, with the events
    and the audit record that follow from them, and the answers of the scenario engine
    for a step that waits for it.  The handlers change the dictionaries of the
    aggregate in place before the event stores the same dictionaries; here the event
    does.  A step's entry that is no dictionary makes a handler raise, as in the
    source. *)
From S2P Require Import Prelude Programs PyData Enums LabletSession SessionCommands.

Definition VALID_STEP_STATUSES : list string := ["pending"; "completed"; "failed"; "skipped"; "suspended"].
Definition VALID_PIPELINE_NAMES : list string := ["instantiate"; "teardown"; "collect_evidence"; "compute_grading"].

(** [str(t)] of a tuple of strings *)
Definition repr_tuple (l : list string) : string :=
  "(" +:+ py_join ", " (map (fun s => "'" +:+ s +:+ "'") l) +:+ ")".

Record progress_command := {
  pc_session_id : string;
  pc_pipeline_name : string;
  pc_step_name : string;
  pc_step_status : string;
  pc_result_data : option pydict;
  pc_error : option string
}.

(** An item read as a dictionary. *)
Definition no_dict : exn := AttributeError "object has no attribute 'get'".
Definition entry_dict (v : pyval) : res pydict := match v with PDict d => Ok d | _ => Err no_dict end.

(** [session.state.pipeline_progress.get(pipeline_name, {})], where a step is looked
    up, and [...get(pipeline_name)], where it may be false. *)
Definition progress_of (session : LabletSessionState) (pipeline : string) : res pydict :=
  match dict_get pipeline (default [] (pipeline_progress session)) with
  | None => Ok []
  | Some (PDict d) => Ok d
  | Some _ => Err (TypeError "argument is not iterable")
  end.

Definition recorded_progress (session : LabletSessionState) (pipeline : string) : res pydict :=
  let v := pd_get pipeline (default [] (pipeline_progress session)) in if truthy v then entry_dict v else Ok [].

(** [if data: ...] for an optional dictionary *)
Definition filled_dict (d : option pydict) : option pydict :=
  match d with Some ((_ :: _) as d) => Some d | _ => None end.

(** [if k in data: step[k] = data[k]] *)
Definition copy_key (k : string) (data step : pydict) : pydict :=
  match dict_get k data with Some v => dict_set k v step | None => step end.

(** The entry of the step after the report. *)
Definition apply_report (request : progress_command) (step : pydict) : pydict :=
  let status := pc_step_status request in
  if String.eqb status "pending" then dict_set "status" (PStr "in_progress") step
  else if String.eqb status "completed" then
    let step := dict_set "status" (PStr "completed") step in
    match filled_dict (pc_result_data request) with Some d => dict_set "result_data" (PDict d) step | None => step end
  else if String.eqb status "failed" then
    dict_set "error" (PStr (ostr_or (pc_error request) "Unknown error")) (dict_set "status" (PStr "failed") step)
  else if String.eqb status "skipped" then
    let step := dict_set "status" (PStr "skipped") step in
    match pc_error request with
    | Some e => if str_truthy e then dict_set "skip_reason" (PStr e) step else step
    | None => step
    end
  else if String.eqb status "suspended" then
    let step := dict_set "status" (PStr "suspended") step in
    match filled_dict (pc_result_data request) with
    | Some d => copy_key "suspended_at" d (copy_key "step_correlation_id" d (copy_key "external_job_id" d
                  (dict_set "result_data" (PDict d) step)))
    | None => step
    end
  else step.

(** The progress of the pipeline after the report; a step that was not there is
    added at the end. *)
Definition report_step (request : progress_command) (current : pydict) : res pydict :=
  let name := pc_step_name request in
  let current := if dict_mem name current then current
                 else dict_set name (PDict [("status", PStr "pending"); ("order", PInt (Z.of_nat (length current)))])
                        current in
  step ← dict_item name current;
  step ← entry_dict step;
  Ok (dict_set name (PDict (apply_report request step)) current).

(** [s.get("status") == status] *)
Definition has_status (status : string) (step : pydict) : bool := eq_str (pd_get "status" step) status.

(** [all(s.get("status") in ("completed", "skipped") for s in ...)] *)
Fixpoint all_settled (steps : list pyval) : res bool :=
  match steps with
  | [] => Ok true
  | v :: steps =>
      s ← entry_dict v;
      if has_status "completed" s || has_status "skipped" s then all_settled steps else Ok false
  end.

(** [sum(1 for s in ... if s.get("status") == status)] *)
Definition count_status (status : string) (steps : list pyval) : res Z :=
  entries ← mapM entry_dict steps;
  Ok (Z.of_nat (length (List.filter (has_status status) entries))).

(** ** The events *)

Definition publish (ev : pipeline_event) : io () := fun w => (Ok (), w <| published := published w ++ [ev] |>).

(** The status a finished pipeline is announced with. *)
Definition terminal_status (failed skipped : Z) : string :=
  if 0 <? failed then "failed" else if 0 <? skipped then "partial" else "completed".

(** [_emit_step_cloud_event] *)
Definition emit_step_cloud_event (t : datetime) (request : progress_command) (all_done : bool) (current : pydict)
    : io () :=
  let session := pc_session_id request in
  let pipeline := pc_pipeline_name request in
  let step := pc_step_name request in
  try_ (
    _ ← (if String.eqb (pc_step_status request) "pending" then publish (StepStarted session pipeline step t)
         else if String.eqb (pc_step_status request) "completed"
         then publish (StepCompleted session pipeline step (default [] (pc_result_data request)) t)
         else if String.eqb (pc_step_status request) "failed"
         then publish (StepFailed session pipeline step (ostr_or (pc_error request) "Unknown error") t)
         else mret ());
    if all_done then
      completed ← lift (count_status "completed" (dict_values current));
      failed ← lift (count_status "failed" (dict_values current));
      skipped ← lift (count_status "skipped" (dict_values current));
      publish (PipelineCompleted session pipeline (terminal_status failed skipped) completed failed skipped t)
    else mret ()) (fun _ => mret ()).

(** ** The audit record *)

Definition of_run (session pipeline : string) (x : execution) : bool :=
  String.eqb (ex_session_id x) session && String.eqb (ex_pipeline_name x) pipeline.

Definition get_executions (session pipeline : string) : io (list execution) :=
  request (fun w => (Ok (List.filter (of_run session pipeline) (executions w)), w)).

(** [find_one(..., sort=[("started_at", -1)])]; of records that started together
    the one added first. *)
Definition latest (l : list execution) : option execution :=
  fold_left (fun best x => match best with
                           | Some y => if dt_us (ex_started_at y) <? dt_us (ex_started_at x) then Some x else best
                           | None => Some x
                           end) l None.

Definition get_latest_execution (session pipeline : string) : io (option execution) :=
  request (fun w => (Ok (latest (List.filter (of_run session pipeline) (executions w))), w)).

Definition add_execution (x : execution) : io () :=
  request (fun w => (Ok (), w <| executions := executions w ++ [x] |>)).

(** [replace_one({"id": x.id}, x)] *)
Fixpoint replace_execution (x : execution) (l : list execution) : list execution :=
  match l with
  | [] => []
  | y :: l => if String.eqb (ex_id y) (ex_id x) then x :: l else y :: replace_execution x l
  end.

Definition update_execution (x : execution) : io () :=
  request (fun w => (Ok (), w <| executions := replace_execution x (executions w) |>)).

(** The snapshot of the steps. *)
Definition step_snapshot (current : pydict) : res (list pyval) :=
  mapM (fun '(name, v) =>
    data ← entry_dict v;
    Ok (PDict [("name", PStr name); ("status", pd_get_or "status" (PStr "pending") data);
               ("order", pd_get_or "order" (PInt 0) data)])) current.

(** [PipelineExecutionRecord.create] *)
Definition new_execution (uid : string) (t : datetime) (session pipeline : string) (attempt : Z) (steps : list pyval)
    : execution :=
  {| ex_id := uid; ex_session_id := session; ex_pipeline_name := pipeline; ex_status := "running"; ex_steps := steps;
     ex_attempt := attempt; ex_started_at := t; ex_completed_at := None; ex_duration_seconds := 0; ex_outputs := [];
     ex_error := None |}.

Definition finalize (status : string) (t : datetime) (duration : Z) (steps : list pyval) (outputs : pydict)
    (error : option string) (x : execution) : execution :=
  {| ex_id := ex_id x; ex_session_id := ex_session_id x; ex_pipeline_name := ex_pipeline_name x; ex_status := status;
     ex_steps := steps; ex_attempt := ex_attempt x; ex_started_at := ex_started_at x; ex_completed_at := Some t;
     ex_duration_seconds := duration; ex_outputs := outputs; ex_error := error |}.

Definition mark_completed t duration steps outputs x : execution :=
  finalize "completed" t duration steps outputs (ex_error x) x.
Definition mark_partial t duration steps outputs x : execution :=
  finalize "partial" t duration steps outputs (ex_error x) x.
Definition mark_failed t duration steps error x : execution :=
  finalize "failed" t duration steps (ex_outputs x) (Some error) x.

(** [_upsert_execution_record]; [t] is the clock of the record and [t_end] that of
    the duration. *)
Definition upsert_execution_record (uid : string) (t t_end : datetime) (request : progress_command) (current : pydict)
    (all_done : bool) : io () :=
  let session := pc_session_id request in
  let pipeline := pc_pipeline_name request in
  try_ (
    if String.eqb (pc_step_status request) "pending" then
      existing ← get_executions session pipeline;
      steps ← lift (step_snapshot current);
      add_execution (new_execution uid t session pipeline (Z.of_nat (length existing) + 1) steps)
    else if all_done then
      found ← get_latest_execution session pipeline;
      match found with
      | Some x =>
          if String.eqb (ex_status x) "running" then
            steps ← lift (step_snapshot current);
            failed ← lift (count_status "failed" (dict_values current));
            skipped ← lift (count_status "skipped" (dict_values current));
            duration ← lift (dt_sub t_end (ex_started_at x));
            update_execution
              (if 0 <? failed then mark_failed t duration steps (ostr_or (pc_error request) "One or more steps failed") x
               else if 0 <? skipped then mark_partial t duration steps (default [] (pc_result_data request)) x
               else mark_completed t duration steps (default [] (pc_result_data request)) x)
          else mret ()
      | None => mret ()
      end
    else mret ()) (fun _ => mret ()).

(** ** The handlers *)
Section Handlers.
Context `{RootId LabletSessionState}.
Context (c : nat -> clock).

(** [UpdatePipelineProgressCommand]; [uid] is [str(uuid4())], and the readings after
    the first are those of the events and of the record. *)
Definition handle_update_progress (uid : string) (p : progress_command) : io response :=
  if negb (bool_decide (pc_pipeline_name p ∈ VALID_PIPELINE_NAMES))
  then mret (BadRequest ("Invalid pipeline_name '" +:+ pc_pipeline_name p +:+ "'. Must be one of "
                           +:+ repr_tuple VALID_PIPELINE_NAMES))
  else if negb (bool_decide (pc_step_status p ∈ VALID_STEP_STATUSES))
  then mret (BadRequest ("Invalid step_status '" +:+ pc_step_status p +:+ "'. Must be one of "
                           +:+ repr_tuple VALID_STEP_STATUSES))
  else with_session (pc_session_id p) (fun session =>
    current ← lift (progress_of session (pc_pipeline_name p));
    current ← lift (report_step p current);
    '(session, _) ← lift (update_pipeline_progress (c 0) (pc_pipeline_name p) (pc_step_name p) (pc_step_status p)
                            current session);
    _ ← put_session session;
    all_done ← lift (all_settled (dict_values current));
    _ ← emit_step_cloud_event (now (c 1)) p all_done current;
    _ ← upsert_execution_record uid (now (c 2)) (now (c 3)) p current all_done;
    ok [("session_id", PStr (pc_session_id p)); ("pipeline_name", PStr (pc_pipeline_name p));
        ("step_name", PStr (pc_step_name p)); ("step_status", PStr (pc_step_status p));
        ("pipeline_complete", PBool all_done)]).

(** The first step with the correlation identifier; entries that are no
    dictionaries are passed over. *)
Fixpoint correlated (correlation_id : string) (current : pydict) : option (string * pydict) :=
  match current with
  | [] => None
  | (name, PDict data) :: current =>
      if eq_str (pd_get "step_correlation_id" data) correlation_id then Some (name, data)
      else correlated correlation_id current
  | _ :: current => correlated correlation_id current
  end.

(** [str(v)] of a status, for a message. *)
Definition status_text (v : pyval) : string := match v with PStr s => s | _ => "None" end.

(** The session, the progress of its pipeline and the step that waits. *)
Definition with_step (i pipeline correlation_id : string)
    (k : LabletSessionState -> pydict -> string -> pydict -> io response) : io response :=
  with_session i (fun session =>
    current ← lift (recorded_progress session pipeline);
    match current with
    | [] => mret (NotFound "LabletSession" (i +:+ "/" +:+ pipeline))
    | _ =>
        match correlated correlation_id current with
        | None => mret (NotFound "LabletSession" (i +:+ "/" +:+ pipeline +:+ "/correlation/" +:+ correlation_id))
        | Some (name, step) => k session current name step
        end
    end).

(** [x or datetime.now(timezone.utc).isoformat()] *)
Definition stamp (given : option pyval) : pyval :=
  match given with Some v => if truthy v then v else PIso (now (c 1)) | None => PIso (now (c 1)) end.

Definition step_response (i pipeline name : string) (current : pydict) (more : pydict) : io response :=
  ok ([("session_id", PStr i); ("pipeline_name", PStr pipeline); ("step_name", PStr name);
       ("pipeline_progress", PDict current)] ++ more).

(** Storing the progress with the step set to [step]. *)
Definition settle_step (i pipeline name : string) (status : string) (step current : pydict)
    (session : LabletSessionState) (more : pydict) : io response :=
  let current := dict_set name (PDict step) current in
  '(session, _) ← lift (update_pipeline_progress (c 0) pipeline name status current session);
  _ ← put_session session;
  step_response i pipeline name current more.

(** [dict(step.get("result_data") or {})] *)
Definition result_data (step : pydict) : res pydict :=
  let v := pd_get "result_data" step in if truthy v then entry_dict v else Ok [].

(** [ResumePipelineStepCommand] *)
Definition handle_resume_step (i pipeline correlation_id : string) (output_data : pydict)
    (completed_at : option pyval) : io response :=
  with_step i pipeline correlation_id (fun session current name step =>
    if negb (has_status "suspended" step)
    then step_response i pipeline name current [("idempotent", PBool true)]
    else
      merged ← lift (result_data step);
      settle_step i pipeline name "completed"
        (dict_set "completed_at" (stamp completed_at)
           (dict_set "result_data" (PDict (dict_update merged output_data))
              (dict_set "status" (PStr "completed") step))) current session [("idempotent", PBool false)]).

(** [FailPipelineStepCommand] *)
Definition handle_fail_step (i pipeline correlation_id error : string) (details : option pydict)
    (failed_at : option pyval) : io response :=
  with_step i pipeline correlation_id (fun session current name step =>
    if negb (has_status "suspended" step || has_status "failed" step)
    then mret (Conflict ("Cannot fail step " +:+ name +:+ " in status '" +:+ status_text (pd_get "status" step) +:+ "'"))
    else
      let step := dict_set "error" (PStr error) (dict_set "status" (PStr "failed") step) in
      let step := match details with Some d => dict_set "error_details" (PDict d) step | None => step end in
      settle_step i pipeline name "failed" (dict_set "failed_at" (stamp failed_at) step) current session []).
End Handlers.
