(* ===== verification/SessionBooks.v ===== *)
(** * What sessions owe their workers

    The ledger that the stored sessions and definitions fix for every worker, and
    what the commands of a session do to it. *)
From S2P Require Import Prelude PyData Enums Lifecycle AuditTrail Aggregate WorkerValues.
From S2P Require Import LabletDefinition Worker WorkerSpec LabletSessionEvents LabletSession LabletSessionProps SessionCommands.
Import SessionStatus.

(** ** Ledgers *)

Abbreviation sessions_by_id := (gmap string LabletSessionState).
Abbreviation definitions_by_id := (gmap string LabletDefinitionState).

(** What a session is charged: the requirements of its definition. *)
Definition bill (D : definitions_by_id) (s : LabletSessionState) : option WorkerCapacity :=
  d ← D !! definition_id s;
  Some {| WorkerValues.cpu_cores := cap_cpu (required_capacity d);
          WorkerValues.memory_gb := cap_memory (required_capacity d);
          WorkerValues.storage_gb := cap_storage (required_capacity d); WorkerValues.max_nodes := None |}.

Definition entry (P : LabletSessionStatus -> bool) (D : definitions_by_id) (worker : string) (s : LabletSessionState)
    : option WorkerCapacity :=
  if bool_decide (worker_id s = Some worker) && P (status s) then bill D s else None.

(** A session holds its worker's capacity from its scheduling to its stop, its
    expiry or its termination. *)
Definition holding (st : LabletSessionStatus) : bool :=
  bool_decide (st ∈ [SCHEDULED; INSTANTIATING; READY; RUNNING; COLLECTING; GRADING]).

Definition placed (st : LabletSessionStatus) : bool := negb (bool_decide (st = PENDING)).

(** The sessions that hold capacity of [worker], and those ever placed on it, with
    what each is charged. *)
Definition holders (S : sessions_by_id) (D : definitions_by_id) (worker : string) : ledger :=
  omap (entry holding D worker) S.
Definition assigned (S : sessions_by_id) (D : definitions_by_id) (worker : string) : ledger :=
  omap (entry placed D worker) S.

(** ** The commands of a session *)

(** The commands after which a session holds nothing. *)
Definition leaves (cmd : command) : bool :=
  match cmd with StartStopping _ | Terminate _ _ | Expire _ => true | _ => false end.

Lemma on_owner c ev s s' : is_creation ev = false -> event_target ev <> Some SCHEDULED -> on c ev s = Ok s' ->
  worker_id s' = worker_id s /\ definition_id s' = definition_id s.
Proof.
  intros Hc Ht Ho. destruct ev; try done; handler_cases Ho; try done; cbn; by repeat case_match.
Qed.

(** A session that was placed stays where it is. *)
Lemma applied_owner c s evs s' : applied c s evs s' -> placed (status s) = true ->
  worker_id s' = worker_id s /\ definition_id s' = definition_id s /\ placed (status s') = true.
Proof.
  induction 1 as [|s ev s1 evs s2 [Hc Hv] Ho Ha IH]; intros Hp; [done|].
  assert (event_target ev <> Some SCHEDULED /\ placed (status s1) = true) as [Hn Hp1].
  { rewrite (on_status _ _ _ _ Ho). destruct (event_target ev) as [to|]; [|done].
    apply (bool_decide_eq_true_2 _) in Hv. by destruct (status s), to. }
  apply (on_owner c) in Ho as [<- <-]; [|done..]. by apply IH.
Qed.

Section Exec.
Context `{RootId LabletSessionState}.

Lemma exec_id c cmd s s' evs : exec c cmd s = Ok (s', evs) -> id s' = id s.
Proof.
  intros [Ha _ _ _]%exec_effect. induction Ha as [|s ev s1 evs s2 [Hc _] Ho Ha IH]; [done|].
  rewrite IH. by apply (on_id c) in Ho.
Qed.

(** What a session is charged, before and after a command. *)
Lemma exec_entry c cmd s s' evs D worker : exec c cmd s = Ok (s', evs) -> target cmd <> Some SCHEDULED ->
  entry holding D worker s' = (if leaves cmd then None else entry holding D worker s) /\
  (forall b, entry placed D worker s = Some b -> entry placed D worker s' = Some b).
Proof.
  intros He Ht. pose proof (exec_effect _ _ _ _ _ He) as [Ha _ Hs Hv].
  destruct (placed (status s)) eqn:Hp.
  - apply applied_owner in Ha as (Hw & Hd & Hp'); [|done]. unfold entry, bill. rewrite Hw, Hd, Hp, Hp'.
    split; [|done]. rewrite Hs.
    assert (holding (default (status s) (target cmd)) = negb (leaves cmd) && holding (status s)) as ->.
    { destruct cmd; try done; cbn in *; apply (bool_decide_eq_true_2 _) in Hv; destruct (status s); try done;
        by contradict Ht. }
    destruct (leaves cmd); cbn; [by rewrite andb_false_r|done].
  - split; [|unfold entry; rewrite Hp, andb_false_r; done].
    assert (holding (status s') = false) as Hh.
    { rewrite Hs. destruct (target cmd) as [to|]; cbn; [|by destruct (status s)].
      apply (bool_decide_eq_true_2 _) in Hv. destruct (status s), to; try done. }
    unfold entry. rewrite Hh, andb_false_r. destruct (leaves cmd); [done|].
    destruct (status s); try done. by rewrite andb_false_r.
Qed.
End Exec.

(** ** Storing a session *)
Section Ledgers.
Context (D : definitions_by_id).
Implicit Types (S : sessions_by_id) (worker : string).

Lemma holders_assigned S worker : holders S D worker ⊆ assigned S D worker.
Proof.
  apply map_subseteq_spec. intros i b. unfold holders, assigned. rewrite !lookup_omap.
  destruct (S !! i) as [s|]; [|done]. cbn. unfold entry. destruct (holding (status s)) eqn:Hh.
  - assert (placed (status s) = true) as -> by (by destruct (status s)). done.
  - by rewrite andb_false_r.
Qed.

Lemma holders_put S i s worker : holders (<[i := s]> S) D worker =
  match entry holding D worker s with
  | Some b => <[i := b]> (holders S D worker)
  | None => delete i (holders S D worker)
  end.
Proof. unfold holders. rewrite omap_insert. by destruct (entry _ _ _ s). Qed.

Lemma holders_kept S i s s' worker : S !! i = Some s -> entry holding D worker s' = entry holding D worker s ->
  holders (<[i := s']> S) D worker = holders S D worker.
Proof.
  intros Hs He. apply map_eq. intros j. unfold holders. rewrite !lookup_omap. destruct (decide (i = j)) as [<-|Hn].
  - by rewrite lookup_insert_eq, Hs.
  - by rewrite lookup_insert_ne.
Qed.

Lemma assigned_grows S i s' worker :
  (forall s b, S !! i = Some s -> entry placed D worker s = Some b -> entry placed D worker s' = Some b) ->
  assigned S D worker ⊆ assigned (<[i := s']> S) D worker.
Proof.
  intros He. apply map_subseteq_spec. intros j b. unfold assigned. rewrite !lookup_omap.
  destruct (decide (i = j)) as [<-|Hn].
  - rewrite lookup_insert_eq. destruct (S !! i) as [s|] eqn:Hs; [|done]. cbn. by apply He.
  - by rewrite lookup_insert_ne.
Qed.

Lemma assigned_put S i s' b worker : entry placed D worker s' = Some b ->
  assigned (<[i := s']> S) D worker = <[i := b]> (assigned S D worker).
Proof. intros He. unfold assigned. by rewrite omap_insert, He. Qed.
End Ledgers.

(** ** Storing a worker *)

(** Every stored worker keeps the ledger [L] has for it, under its identifier. *)
Definition books (L : string -> ledger) (W : gmap string CMLWorkerState) : Prop :=
  forall i wk, W !! i = Some wk -> Worker.id wk = i /\ i <> "" /\ keeps (L i) wk.

(** [L] with [m] for one worker. *)
Definition with_ledger (worker : string) (m : ledger) (L : string -> ledger) : string -> ledger :=
  fun j => if decide (j = worker) then m else L j.

Lemma books_put L W i wk m : books L W -> Worker.id wk = i -> i <> "" -> keeps m wk ->
  books (with_ledger i m L) (<[i := wk]> W).
Proof.
  intros Hb Hi Hn Hk j wk' Hj. unfold with_ledger. destruct (decide (j = i)) as [->|Hne].
  - rewrite lookup_insert_eq in Hj. by injection Hj as <-.
  - rewrite lookup_insert_ne in Hj by done. by apply Hb.
Qed.

(** The ledger of a worker that is not stored does not matter. *)
Lemma books_absent L W i m : books L W -> W !! i = None -> books (with_ledger i m L) W.
Proof. intros Hb Hi j wk Hj. unfold with_ledger. destruct (decide (j = i)) as [->|]; [congruence|by apply Hb]. Qed.

Lemma books_same L L' W : books L W -> (forall j, L' j = L j) -> books L' W.
Proof. intros Hb He j wk Hj. rewrite He. by apply Hb. Qed.

Section Workers.
Context `{RootId CMLWorkerState} (worker_root : forall s : CMLWorkerState, root_id s = Some (Worker.id s)).

Lemma worker_id_ok wk : Worker.aggregate_id wk = Ok (Worker.id wk).
Proof. unfold Worker.aggregate_id. by rewrite worker_root. Qed.

Lemma assign_ok c m wk session k held : keeps m wk -> m !! session = None ->
  mk_capacity (cap_cpu k) (cap_memory k) (cap_storage k) None = Ok held ->
  exists wk' evs, assign_lablet_session c session (cap_cpu k) (cap_memory k) (cap_storage k) None wk = Ok (wk', evs)
    /\ keeps (<[session := held]> m) wk' /\ Worker.id wk' = Worker.id wk.
Proof.
  intros Hk Hm Hc. unfold assign_lablet_session. rewrite worker_id_ok. cbn -[Worker.on]. unfold Worker.emit.
  match goal with |- context [WorkerEvents.LabletSessionAssigned ?e] =>
    destruct (assign_keeps c e wk m Hk Hm held Hc) as (wk' & Ho & Hk') end.
  rewrite Ho. cbn. eexists _, _. split; [done|]. split; [exact Hk'|].
  cbn in Ho. unfold on_LabletSessionAssigned in Ho. inv_ok. cbn. by case_bool_decide.
Qed.

Lemma removal_ok c c' m wk session k held : keeps m wk -> m !! session = Some held ->
  mk_capacity (cap_cpu k) (cap_memory k) (cap_storage k) None = Ok held ->
  exists wk1 evs1 wk' evs, match get_port_allocation session wk with
                 | Some _ => Worker.release_ports c session wk | None => Ok (wk, []) end = Ok (wk1, evs1)
    /\ remove_lablet_session c' session (cap_cpu k) (cap_memory k) (cap_storage k) None wk1 = Ok (wk', evs)
    /\ keeps (delete session m) wk' /\ Worker.id wk' = Worker.id wk.
Proof.
  intros Hk Hm Hc.
  assert (exists wk1 evs1, match get_port_allocation session wk with
                 | Some _ => Worker.release_ports c session wk | None => Ok (wk, []) end = Ok (wk1, evs1)
            /\ keeps m wk1 /\ Worker.id wk1 = Worker.id wk) as (wk1 & evs1 & -> & Hk1 & <-).
  { unfold Worker.release_ports. destruct (get_port_allocation session wk); [|eauto].
    rewrite worker_id_ok. cbn. eexists _, _. split; [done|]. split; [|done]. eapply keeps_same; [|exact Hk]. by split. }
  assert (exists wk' evs, remove_lablet_session c' session (cap_cpu k) (cap_memory k) (cap_storage k) None wk1 = Ok (wk', evs)
            /\ keeps (delete session m) wk' /\ Worker.id wk' = Worker.id wk1) as (wk' & evs & Hr & Hk' & Hi).
  { unfold remove_lablet_session. rewrite worker_id_ok. cbn -[Worker.on]. unfold Worker.emit.
    match goal with |- context [WorkerEvents.LabletSessionRemoved ?e] =>
      destruct (remove_keeps c' e wk1 m held Hk1 Hm Hc) as (wk' & Ho & Hk') end.
    rewrite Ho. cbn. eexists _, _. split; [done|]. split; [exact Hk'|].
    cbn in Ho. unfold on_LabletSessionRemoved in Ho. by inv_ok. }
  by exists wk1, evs1, wk', evs.
Qed.
End Workers.

(** ** Sound books

    [L] charges every worker for sessions placed on it, with the requirements of
    their definitions; with [b], for those that hold capacity and no other. *)
Definition requirements_valid (d : LabletDefinitionState) : Prop :=
  capacity_valid {| WorkerValues.cpu_cores := cap_cpu (required_capacity d);
                    WorkerValues.memory_gb := cap_memory (required_capacity d);
                    WorkerValues.storage_gb := cap_storage (required_capacity d); WorkerValues.max_nodes := None |}.

Record sound (b : bool) (S : sessions_by_id) (D : definitions_by_id) (L : string -> ledger) : Prop := {
  so_sessions : forall i s, S !! i = Some s -> id s = i;
  so_definitions : forall i d, D !! i = Some d -> i <> "" /\ requirements_valid d;
  so_within : forall j, L j ⊆ assigned S D j;
  so_exact : b = true -> forall j, L j = holders S D j
}.

Lemma sound_weak b S D L : sound b S D L -> sound false S D L.
Proof. by intros []; split. Qed.

(** What the ledger has for a session is the bill of its definition. *)
Lemma sound_bill b S D L i s j held : sound b S D L -> S !! i = Some s -> L j !! i = Some held ->
  worker_id s = Some j /\ placed (status s) = true /\
  exists d, D !! definition_id s = Some d /\ definition_id s <> "" /\
    mk_capacity (cap_cpu (required_capacity d)) (cap_memory (required_capacity d)) (cap_storage (required_capacity d))
      None = Ok held.
Proof.
  intros Hs Hi Hl. pose proof (lookup_weaken _ _ _ _ Hl (so_within _ _ _ _ Hs j)) as Ha.
  unfold assigned in Ha. rewrite lookup_omap, Hi in Ha. cbn in Ha. unfold entry in Ha.
  case_bool_decide; [|done]. destruct (placed (status s)); [|done]. split; [done|]. split; [done|].
  cbn in Ha. unfold bill in Ha. destruct (D !! definition_id s) as [d|] eqn:Hd; [|done]. injection Ha as <-.
  destruct (so_definitions _ _ _ _ Hs _ _ Hd) as [Hne Hv]. exists d. split; [done|]. split; [done|].
  by apply mk_capacity_ok.
Qed.

(** A session that is not placed is in no ledger. *)
Lemma sound_unplaced b S D L i j : sound b S D L -> (forall s, S !! i = Some s -> placed (status s) = false) ->
  L j !! i = None.
Proof.
  intros Hs Hp. destruct (L j !! i) as [held|] eqn:Hl; [|done]. exfalso.
  pose proof (lookup_weaken _ _ _ _ Hl (so_within _ _ _ _ Hs j)) as Ha. unfold assigned in Ha.
  rewrite lookup_omap in Ha. destruct (S !! i) as [s|] eqn:Hi; [|done]. cbn in Ha.
  pose proof (sound_bill _ _ _ _ _ _ _ _ Hs Hi Hl) as (_ & Hp' & _). by rewrite Hp in Hp'.
Qed.

Lemma sessions_put (S : sessions_by_id) i s : (forall i s, S !! i = Some s -> id s = i) -> id s = i ->
  forall j s', <[i := s]> S !! j = Some s' -> id s' = j.
Proof.
  intros HS Hi j s'. destruct (decide (i = j)) as [<-|Hn].
  - rewrite lookup_insert_eq. by intros [= <-].
  - rewrite lookup_insert_ne by done. apply HS.
Qed.

Section Puts.
Context `{RootId LabletSessionState}.
Context (b : bool) (S : sessions_by_id) (D : definitions_by_id) (L : string -> ledger).
Context (c : clock) (cmd : command) (i : string) (s s' : LabletSessionState) (evs : list session_event).
Context (Hs : sound b S D L) (Hi : S !! i = Some s) (He : exec c cmd s = Ok (s', evs)).

Lemma put_key : id s' = i.
Proof. rewrite (exec_id _ _ _ _ _ He). by apply (so_sessions _ _ _ _ Hs). Qed.

Lemma put_placed : target cmd <> Some SCHEDULED -> sound false (<[id s' := s']> S) D L.
Proof.
  intros Ht. rewrite put_key. split; [|apply (so_definitions _ _ _ _ Hs)| |done].
  - apply sessions_put; [apply (so_sessions _ _ _ _ Hs)|apply put_key].
  - intros j. etransitivity; [apply (so_within _ _ _ _ Hs)|]. apply assigned_grows.
    intros s0 held Hs0. rewrite Hi in Hs0. injection Hs0 as <-. by apply (exec_entry _ _ _ _ _ D j He Ht).
Qed.

Lemma put_kept : target cmd <> Some SCHEDULED -> leaves cmd = false -> sound b (<[id s' := s']> S) D L.
Proof.
  intros Ht Hl. pose proof (put_placed Ht) as [P1 P2 P3 _]. split; [done..|]. intros Hb j.
  rewrite put_key, (holders_kept D S i s); [by apply (so_exact _ _ _ _ Hs)|done|].
  destruct (exec_entry _ _ _ _ _ D j He Ht) as [-> _]. by rewrite Hl.
Qed.

(** After a command that leaves, with the capacity released. *)
Lemma put_left : leaves cmd = true ->
  sound b (<[id s' := s']> S) D
    (match worker_id s' with Some worker => with_ledger worker (delete i (L worker)) L | None => L end).
Proof.
  intros Hl. assert (target cmd <> Some SCHEDULED) as Ht by by destruct cmd.
  pose proof (put_placed Ht) as [P1 P2 P3 _].
  assert (b = true -> forall j, holders (<[i := s']> S) D j = delete i (L j)) as Hh.
  { intros Hb j. rewrite (so_exact _ _ _ _ Hs Hb), holders_put.
    destruct (exec_entry _ _ _ _ _ D j He Ht) as [-> _]. by rewrite Hl. }
  assert (forall j, worker_id s' <> Some j -> L j !! i = None) as Hother.
  { intros j Hj. destruct (L j !! i) as [held|] eqn:Hlj; [|done]. exfalso. apply Hj.
    destruct (sound_bill _ _ _ _ _ _ _ _ Hs Hi Hlj) as (<- & Hp & _).
    pose proof (exec_effect _ _ _ _ _ He) as [Ha _ _ _]. by apply applied_owner in Ha as (-> & _ & _). }
  rewrite put_key in *. destruct (worker_id s') as [worker|]; unfold with_ledger; split; try done.
  - intros j. destruct (decide (j = worker)) as [->|]; [|apply P3]. etransitivity; [apply delete_subseteq|apply P3].
  - intros Hb j. rewrite Hh by done. destruct (decide (j = worker)) as [->|Hn]; [done|].
    rewrite delete_id; [done|]. apply Hother. congruence.
  - intros Hb j. rewrite Hh by done. rewrite delete_id; [done|]. by apply Hother.
Qed.
End Puts.

Section OtherPuts.
Context `{RootId LabletSessionState}.
Context (b : bool) (S : sessions_by_id) (D : definitions_by_id) (L : string -> ledger) (Hs : sound b S D L).

(** Storing a session that holds nothing under a key that held nothing. *)
Lemma put_created s : S !! id s = None -> status s = PENDING -> sound b (<[id s := s]> S) D L.
Proof.
  intros Hn Hp. assert (forall j, entry holding D j s = None) as He.
  { intros j. unfold entry. rewrite Hp. by rewrite andb_false_r. }
  split; [|apply (so_definitions _ _ _ _ Hs)| |].
  - by apply sessions_put; [apply (so_sessions _ _ _ _ Hs)|].
  - intros j. etransitivity; [apply (so_within _ _ _ _ Hs)|]. apply assigned_grows. by rewrite Hn.
  - intros Hb j. rewrite holders_put, He, (so_exact _ _ _ _ Hs Hb). rewrite delete_id; [done|].
    unfold holders. by rewrite lookup_omap, Hn.
Qed.

Lemma schedule_fields c worker ports lab by_ s s' evs : schedule c worker ports lab by_ s = Ok (s', evs) ->
  worker_id s' = Some worker /\ definition_id s' = definition_id s /\ status s' = SCHEDULED.
Proof.
  unfold schedule. intros Hx. inv_ok.
  match goal with Hx : emit _ _ _ = Ok _ |- _ => apply emit_ok in Hx as [_ Ho] end. handler_cases Ho. repeat split.
Qed.

Lemma put_scheduled c worker ports lab by_ i s s' evs d held :
  S !! i = Some s -> status s = PENDING -> schedule c worker ports lab by_ s = Ok (s', evs) ->
  D !! definition_id s = Some d ->
  mk_capacity (cap_cpu (required_capacity d)) (cap_memory (required_capacity d)) (cap_storage (required_capacity d))
    None = Ok held ->
  sound false (<[id s' := s']> S) D L /\
  sound b (<[id s' := s']> S) D (with_ledger worker (<[i := held]> (L worker)) L).
Proof.
  intros Hi Hp He Hd Hk. pose proof (so_sessions _ _ _ _ Hs _ _ Hi) as Hid.
  assert (id s' = i) as Hid'.
  { rewrite <- Hid. by apply (exec_id c (Schedule worker ports lab by_) s s' evs). }
  assert (forall j, L j !! i = None) as Hn.
  { intros j. eapply sound_unplaced; [exact Hs|]. intros s0 Hs0. rewrite Hi in Hs0. injection Hs0 as <-. by rewrite Hp. }
  apply schedule_fields in He as (Hw & Hdi & Hst). apply mk_capacity_ok in Hk as [-> _].
  assert (forall P j, P SCHEDULED = true -> entry P D j s' = if decide (j = worker) then bill D s' else None) as He.
  { intros P j HP. unfold entry. rewrite Hw, Hst, HP, andb_true_r.
    destruct (decide (j = worker)) as [->|Hne]; [by rewrite bool_decide_true|]. rewrite bool_decide_false; [done|congruence]. }
  assert (bill D s' = Some {| WorkerValues.cpu_cores := cap_cpu (required_capacity d);
    WorkerValues.memory_gb := cap_memory (required_capacity d);
    WorkerValues.storage_gb := cap_storage (required_capacity d); WorkerValues.max_nodes := None |}) as Hbill.
  { unfold bill. by rewrite Hdi, Hd. }
  assert (forall j, L j ⊆ assigned (<[i := s']> S) D j) as Hwithin.
  { intros j. etransitivity; [apply (so_within _ _ _ _ Hs)|]. apply assigned_grows.
    intros s0 held0 Hs0 He0. rewrite Hi in Hs0. injection Hs0 as <-. unfold entry in He0. by rewrite Hp, andb_false_r in He0. }
  assert (forall j s0, <[i := s']> S !! j = Some s0 -> id s0 = j) as Hkeys
    by (apply sessions_put; [apply (so_sessions _ _ _ _ Hs)|done]).
  rewrite Hid'. split; (split; [done|apply (so_definitions _ _ _ _ Hs)| |]); [done|done| |].
  - intros j. unfold with_ledger. destruct (decide (j = worker)) as [->|Hne]; [|done].
    assert (entry placed D worker s' = bill D s') as E by (rewrite He by done; by rewrite decide_True).
    rewrite (assigned_put D S i s' _ worker (eq_trans E Hbill)). apply insert_mono, (so_within _ _ _ _ Hs).
  - intros Hb j. rewrite holders_put, (He holding j eq_refl). unfold with_ledger.
    rewrite <- !(so_exact _ _ _ _ Hs Hb). destruct (decide (j = worker)) as [->|Hne].
    + by rewrite Hbill.
    + by rewrite delete_id.
Qed.
End OtherPuts.
