(* ===== verification/SessionCommandsProps.v ===== *)
(** * The session commands and the capacity of the workers

    Under any failure of the repositories the books of every worker are a ledger of
    sessions that were placed on it; without failures they are the ledger of the
    sessions that hold capacity. *)
From S2P Require Import Prelude Programs PyData Enums Lifecycle AuditTrail Aggregate WorkerValues.
From S2P Require Import LabletDefinition LabRecord Worker WorkerSpec LabletSessionEvents LabletSession LabletSessionProps.
From S2P Require Import SessionCommands PipelineProgress SessionBooks.
Import SessionStatus.

(** ** Requests

    [st b S W D] is a world with these documents; with [b], no request fails. *)
Definition st (b : bool) (S : sessions_by_id) (W : gmap string CMLWorkerState) (D : definitions_by_id) (w : world)
    : Prop := (b = true -> faults w = []) /\ sessions w = S /\ workers w = W /\ definitions w = D.

(** The fate of a request, when what is stored is known. *)
Lemma request_cases {A} b S W D (m : prog world A) (Q : A -> world -> Prop) X :
  (forall w, st b S W D w -> match m w with (Ok a, w') => Q a w' /\ (b = false -> X w') | (Err _, w') => X w' end) ->
  (b = false -> forall w, st b S W D w -> X w) ->
  triple (st b S W D) (request m) Q X.
Proof.
  intros Hm HX w r w' Hw He. unfold request in He. pose proof Hw as (Hb & HS & HW & HD).
  assert (b = false -> forall l, st b S W D (w <| faults := l |>)) as Hl by (intros -> l; by split).
  assert (forall v, st b S W D v -> m v = (r, w') -> match r with Ok a => Q a w' | Err _ => X w' end) as Hrun.
  { intros v Hv Hr. specialize (Hm v Hv). rewrite Hr in Hm. destruct r; [by destruct Hm|done]. }
  destruct (faults w) as [|[|e|e] l] eqn:Hfs; [by apply (Hrun w)| | |];
    (destruct b; [by specialize (Hb eq_refl)|]).
  - apply (Hrun _ (Hl eq_refl l) He).
  - injection He as <- <-. by apply HX; [|apply Hl].
  - injection He as <- <-. specialize (Hm _ (Hl eq_refl l)). destruct (m _) as [[a|e'] w1]; [|done]. by apply Hm.
Qed.

Lemma triple_read {A} b S W D (f : world -> A) :
  triple (st b S W D) (request (fun w => (Ok (f w), w)))
    (fun r w => (exists v, st b S W D v /\ r = f v) /\ st b S W D w) (fun w => b = false /\ st b S W D w).
Proof. apply request_cases; [|done]. intros w Hw. cbn. eauto 8. Qed.

Lemma triple_write b S W D S' W' (g : world -> world) :
  (forall w, st b S W D w -> st b S' W' D (g w)) ->
  triple (st b S W D) (request (fun w => (Ok (), g w))) (fun _ => st b S' W' D)
    (fun w => b = false /\ (st b S W D w \/ st b S' W' D w)).
Proof. intros Hg. apply request_cases; cbn; auto 6. Qed.

Section Requests.
Context (b : bool) (S : sessions_by_id) (W : gmap string CMLWorkerState) (D : definitions_by_id).

Lemma triple_get_session i :
  triple (st b S W D) (get_session i) (fun r w => r = S !! i /\ st b S W D w) (fun w => b = false /\ st b S W D w).
Proof. eapply triple_post; [apply triple_read| |done]. by intros r w [(v & (_ & <- & _) & ->) Hw]. Qed.

Lemma triple_get_worker i :
  triple (st b S W D) (get_worker i) (fun r w => r = W !! i /\ st b S W D w) (fun w => b = false /\ st b S W D w).
Proof. eapply triple_post; [apply triple_read| |done]. by intros r w [(v & (_ & _ & <- & _) & ->) Hw]. Qed.

Lemma triple_get_definition i :
  triple (st b S W D) (get_definition i) (fun r w => r = D !! i /\ st b S W D w) (fun w => b = false /\ st b S W D w).
Proof. eapply triple_post; [apply triple_read| |done]. by intros r w [(v & (_ & _ & _ & <-) & ->) Hw]. Qed.

(** What is read of the labs is not followed. *)
Lemma triple_get_lab i :
  triple (st b S W D) (get_lab i) (fun _ => st b S W D) (fun w => b = false /\ st b S W D w).
Proof. eapply triple_post; [apply triple_read| |done]. by intros r w [_ Hw]. Qed.

Lemma triple_put_session s :
  triple (st b S W D) (put_session s) (fun _ => st b (<[LabletSession.id s := s]> S) W D)
    (fun w => b = false /\ (st b S W D w \/ st b (<[LabletSession.id s := s]> S) W D w)).
Proof. apply triple_write. intros w (? & <- & ? & ?). by split. Qed.

Lemma triple_put_worker s :
  triple (st b S W D) (put_worker s) (fun _ => st b S (<[Worker.id s := s]> W) D)
    (fun w => b = false /\ (st b S W D w \/ st b S (<[Worker.id s := s]> W) D w)).
Proof. apply triple_write. intros w (? & ? & <- & ?). by split. Qed.

Lemma triple_put_lab s :
  triple (st b S W D) (put_lab s) (fun _ => st b S W D) (fun w => b = false /\ st b S W D w).
Proof.
  eapply triple_post; [apply (triple_write b S W D S W)|done|by intros w [? []]]. intros w (? & ? & ? & ?). by split.
Qed.
End Requests.

(** ** The mediated commands *)

(** The books after the step from [L] to [L'], or from before it when a request
    failed. *)
Definition moved (b : bool) (S : sessions_by_id) (D : definitions_by_id) (L L' : string -> ledger) (w : world) : Prop :=
  exists W' L1, st b S W' D w /\ books L1 W' /\ (L1 = L' \/ b = false /\ L1 = L).

Lemma moved_done b S W D L L' w : st b S W D w -> books L' W -> moved b S D L L' w.
Proof. intros Hw Hb. exists W, L'. auto. Qed.

Lemma moved_stayed b S W D L L' w : b = false -> st b S W D w -> books L W -> moved b S D L L' w.
Proof. intros He Hw Hb. exists W, L. auto. Qed.

#[export] Hint Resolve moved_done moved_stayed : lcm.

Definition released (i session : string) (L : string -> ledger) : string -> ledger :=
  with_ledger i (delete session (L i)) L.

Definition charged (i session : string) (held : WorkerCapacity) (L : string -> ledger) : string -> ledger :=
  with_ledger i (<[session := held]> (L i)) L.

Section Mediated.
Context `{RootId LabRecordState} `{RootId CMLWorkerState} (worker_root : forall s : CMLWorkerState, root_id s = Some (Worker.id s)).
Context (lab_root : forall s : LabRecordState, root_id s = Some (LabRecord.id s)).

Lemma has_session_books L W i wk session : books L W -> W !! i = Some wk ->
  has_session session wk = true <-> is_Some (L i !! session).
Proof. intros Hb (_ & _ & Hk)%Hb. unfold has_session. rewrite bool_decide_eq_true. apply (keeps_keys _ _ Hk). Qed.

Lemma triple_release b S W D L c i session k : books L W ->
  (forall held, L i !! session = Some held ->
     mk_capacity (cap_cpu k) (cap_memory k) (cap_storage k) None = Ok held) ->
  triple (st b S W D) (handle_release c i session k None) (fun _ => moved b S D L (released i session L)) (fun _ => False).
Proof.
  intros HL Hk. eapply triple_try; [|intros e; by apply triple_ret].
  eapply triple_bind; [eapply triple_post; [apply triple_get_worker|done|]; intros w [? ?]; eauto with lcm|].
  intros found. apply triple_pure. intros ->. destruct (W !! i) as [wk|] eqn:Hi.
  2:{ apply triple_ret. intros w Hw. eapply moved_done; [done|]. by apply books_absent. }
  pose proof (has_session_books L W i wk session HL Hi) as Hh. pose proof (HL _ _ Hi) as (Hid & Hne & Hkeeps).
  destruct (has_session session wk); cbn [negb].
  - destruct (proj1 Hh eq_refl) as [held Hheld]. specialize (Hk _ Hheld).
    destruct (removal_ok worker_root (c 0%nat) (c 1%nat) _ _ _ _ _ Hkeeps Hheld Hk)
      as (wk1 & evs1 & wk' & evs & E1 & E2 & Hk' & Hid').
    rewrite E1. apply triple_call; [intros ? [= <-]|done]. cbn beta iota.
    rewrite E2. apply triple_call; [intros ? [= <-]|done]. cbn beta iota.
    assert (books (released i session L) (<[Worker.id wk' := wk']> W)) as Hb.
    { rewrite Hid', Hid. apply books_put; [done|congruence|done|done]. }
    eapply triple_bind; [eapply triple_post; [apply triple_put_worker|intros; eassumption|]|].
    { intros w [? [?|?]]; eauto with lcm. }
    intros []. apply triple_call; [|eauto with lcm]. intros a _. apply triple_ret. eauto with lcm.
  - assert (L i !! session = None) as Hn by (apply eq_None_not_Some; intros Hs; by apply Hh in Hs).
    assert (books (released i session L) W) as Hb.
    { eapply books_same; [exact HL|]. intros j. unfold released, with_ledger. destruct (decide (j = i)) as [->|]; [|done].
      by rewrite delete_id. }
    apply triple_call; [|eauto with lcm]. intros a _. apply triple_ret. eauto with lcm.
Qed.

Lemma triple_allocate b S W D L c i session k held wk : books L W -> W !! i = Some wk ->
  Worker.status wk = WorkerStatus.RUNNING -> L i !! session = None ->
  mk_capacity (cap_cpu k) (cap_memory k) (cap_storage k) None = Ok held -> can_accommodate held wk = Ok true ->
  triple (st b S W D)
    (handle_allocate c {| ac_worker_id := i; ac_session_id := session; ac_capacity := k; ac_node_count := None;
                          ac_port_requirements := None |})
    (fun _ => moved b S D L (charged i session held L)) (fun _ => False).
Proof.
  intros HL Hi Hrun Hs Hk Hfit. eapply triple_try; [|intros e; destruct e; by apply triple_ret].
  eapply triple_bind; [eapply triple_post; [apply triple_get_worker|done|]; intros w [? ?]; eauto with lcm|].
  intros found. apply triple_pure. intros ->. cbn [ac_worker_id ac_session_id ac_capacity ac_node_count]. rewrite Hi.
  pose proof (has_session_books L W i wk session HL Hi) as Hh. pose proof (HL _ _ Hi) as (Hid & Hne & Hkeeps).
  rewrite bool_decide_true by done. cbn [negb].
  destruct (has_session session wk); [destruct (proj1 Hh eq_refl); congruence|].
  rewrite Hk. apply triple_call; [intros ? [= <-]|done]. rewrite Hfit. apply triple_call; [intros ? [= <-]|done]. cbn [negb].
  destruct (assign_ok worker_root (c 0%nat) _ _ _ _ _ Hkeeps Hs Hk) as (wk' & evs & E1 & Hk' & Hid').
  rewrite E1. apply triple_call; [intros ? [= <-]|done]. cbn beta iota.
  apply triple_call; [intros ? [= <-]|done]. cbn beta iota.
  assert (books (charged i session held L) (<[Worker.id wk' := wk']> W)) as Hb.
  { rewrite Hid', Hid. apply books_put; [done|congruence|done|done]. }
  eapply triple_bind; [eapply triple_post; [apply triple_put_worker|intros; eassumption|]|].
  { intros w [? [?|?]]; eauto with lcm. }
  intros []. apply triple_call; [|eauto with lcm]. intros a _. apply triple_ret. eauto with lcm.
Qed.

(** The labs are another matter. *)
Lemma triple_wipe b S W D c i : triple (st b S W D) (handle_wipe c i) (fun _ => st b S W D) (fun _ => False).
Proof.
  eapply triple_try; [|intros e; by apply triple_ret].
  eapply triple_bind; [eapply triple_post; [apply triple_get_lab|done|]; by intros w [? ?]|].
  intros [lab|]; [|by apply triple_ret]. destruct (ostr_truthy _); [by apply triple_ret|].
  destruct (LabRecord.is_terminal lab); [by apply triple_ret|].
  apply triple_call; [|done]. intros [lab' evs] _.
  eapply triple_bind; [eapply triple_post; [apply triple_put_lab|done|]; by intros w [? ?]|].
  intros []. by apply triple_ret.
Qed.

Lemma unbind_from_lablet_ok c session binding lab :
  exists lab' evs, unbind_from_lablet c session binding lab = Ok (lab', evs).
Proof.
  unfold unbind_from_lablet, LabRecord.aggregate_id. rewrite lab_root. cbn. eauto.
Qed.

Lemma triple_unbind b S W D c i lab :
  triple (st b S W D) (unbind c i lab) (fun _ => st b S W D) (fun w => b = false /\ st b S W D w).
Proof.
  unfold unbind. case_bool_decide; [|by apply triple_ret].
  destruct (unbind_from_lablet_ok c i (default "" (active_binding_id lab)) lab) as (lab' & evs & ->).
  apply triple_call; [intros ? [= <-]|done]. cbn beta iota.
  eapply triple_bind; [apply triple_put_lab|]. intros []. by apply triple_ret.
Qed.
End Mediated.

(** ** The handlers *)

(** The books of the workers are sound; with [b], they are exact and no request
    fails. *)
Definition good (b : bool) (w : world) : Prop :=
  exists L, sound b (sessions w) (definitions w) L /\ books L (workers w) /\ (b = true -> faults w = []).

Lemma good_st b S W D L w : sound b S D L -> books L W -> st b S W D w -> good b w.
Proof. intros Hs Hb (Hf & <- & <- & <-). by exists L. Qed.

Lemma good_moved b S D L L' w : sound b S D L' -> (b = false -> sound b S D L) -> moved b S D L L' w -> good b w.
Proof.
  intros Hs Hw (W & L1 & Hst & Hb & [->|[-> ->]]); [by eapply good_st|]. eapply good_st; [by apply Hw|done|done].
Qed.

Abbreviation keeps_good b P m := (triple P m (fun _ => good b) (good b)).

Lemma triple_good {A} b (m : prog world A) :
  (forall S W D L, sound b S D L -> books L W -> keeps_good b (st b S W D) m) -> keeps_good b (good b) m.
Proof.
  intros Hm w r w' (L & Hs & Hb & Hf) He. by apply (Hm (sessions w) (workers w) (definitions w) L Hs Hb w r w').
Qed.

Section Handlers.
Context `{RootId LabletSessionState} `{RootId LabRecordState} `{RootId CMLWorkerState}
  `{RootId LabletDefinitionState} `{SetOrder}.
Context (session_root : forall s : LabletSessionState, root_id s = Some (LabletSession.id s)).
Context (worker_root : forall s : CMLWorkerState, root_id s = Some (Worker.id s)).
Context (lab_root : forall s : LabRecordState, root_id s = Some (LabRecord.id s)).
Context (b : bool) (c : nat -> clock).

Section State.
Context (S : sessions_by_id) (W : gmap string CMLWorkerState) (D : definitions_by_id) (L : string -> ledger).
Context (Hsound : sound b S D L) (Hbooks : books L W).

Lemma here w : st b S W D w -> good b w.
Proof. by apply good_st with L. Qed.

Lemma triple_same {A} (m : prog world A) : triple (st b S W D) m (fun _ => st b S W D) (st b S W D) ->
  keeps_good b (st b S W D) m.
Proof. intros Hm. eapply triple_post; [exact Hm|..]; eauto using here. Qed.

Lemma triple_answer {A} (a : A) : keeps_good b (st b S W D) (mret a).
Proof. apply triple_ret, here. Qed.

Lemma triple_raise {A} e : keeps_good b (st b S W D) (lift (Err e) : prog world A).
Proof. apply triple_lift; [done|apply here]. Qed.

Lemma triple_calls {A B} (r : res A) (f : A -> prog world B) :
  (forall a, r = Ok a -> keeps_good b (st b S W D) (f a)) -> keeps_good b (st b S W D) (lift r ≫= f).
Proof. intros Hf. apply triple_call; [done|]. intros e w _. apply here. Qed.

Lemma triple_found (i : string) {A} (f : option LabletSessionState -> prog world A) :
  keeps_good b (st b S W D) (f (S !! i)) -> keeps_good b (st b S W D) (get_session i ≫= f).
Proof.
  intros Hf. eapply triple_bind; [eapply triple_post; [apply triple_get_session|done|]; intros w [_ ?]; by apply here|].
  intros found. by apply triple_pure; intros ->.
Qed.

Lemma triple_with_session i k : (forall s, S !! i = Some s -> keeps_good b (st b S W D) (k s)) ->
  keeps_good b (st b S W D) (with_session i k).
Proof. intros Hk. apply triple_found. destruct (S !! i) as [s|]; [by apply Hk|apply triple_answer]. Qed.

(** Storing a session, when the books stay sound. *)
Lemma triple_store {A} s (f : () -> prog world A) :
  sound false (<[LabletSession.id s := s]> S) D L ->
  keeps_good b (st b (<[LabletSession.id s := s]> S) W D) (f ()) ->
  keeps_good b (st b S W D) (put_session s ≫= f).
Proof.
  intros Hs Hf. eapply triple_bind; [eapply triple_post; [apply triple_put_session|done|]|].
  - intros w [Hb [Hw|Hw]]; [by apply here|]. eapply good_st; [|done..]. by rewrite Hb.
  - intros []. exact Hf.
Qed.
End State.

(** A command after which the session holds what it held. *)
Lemma triple_kept {A} S W D L i s k cmd s' evs (f : () -> prog world A) :
  sound b S D L -> books L W -> S !! i = Some s -> exec k cmd s = Ok (s', evs) ->
  target cmd <> Some SCHEDULED -> leaves cmd = false ->
  (forall S', sound b S' D L -> S' !! i = Some s' -> keeps_good b (st b S' W D) (f ())) ->
  keeps_good b (st b S W D) (put_session s' ≫= f).
Proof.
  intros HS HW Hi He Ht Hl Hf. pose proof (put_kept b S D L k cmd i s s' evs HS Hi He Ht Hl) as Hs.
  eapply triple_store; [done|done|by eapply sound_weak|]. apply Hf; [done|].
  rewrite (put_key b S D L k cmd i s s' evs HS Hi He). apply lookup_insert_eq.
Qed.

Lemma triple_apply_kept S W D L i s prefix k cmd answer :
  sound b S D L -> books L W -> S !! i = Some s -> target cmd <> Some SCHEDULED -> leaves cmd = false ->
  (forall S' s', sound b S' D L -> keeps_good b (st b S' W D) (answer s')) ->
  keeps_good b (st b S W D) (apply_or_conflict prefix (exec k cmd s) answer).
Proof.
  intros HS HW Hi Ht Hl Ha. unfold apply_or_conflict. destruct (exec k cmd s) as [[s' evs]|e] eqn:He.
  - eapply triple_kept; eauto.
  - by eapply triple_answer.
Qed.

(** *** Commands on the session alone *)

Lemma good_start_instantiation i : keeps_good b (good b) (handle_start_instantiation c i).
Proof.
  apply triple_good. intros S W D L HS HW. apply triple_with_session with L; [done..|]. intros s Hi.
  apply (triple_apply_kept S W D L i s _ (c 0%nat) StartInstantiation); try done.
  intros S' s' HS'. by apply triple_answer with L.
Qed.

Lemma good_mark_ready i u l : keeps_good b (good b) (handle_mark_ready c i u l).
Proof.
  apply triple_good. intros S W D L HS HW. apply triple_with_session with L; [done..|]. intros s Hi.
  apply (triple_apply_kept S W D L i s _ (c 0%nat) (MarkReady u l)); try done.
  intros S' s' HS'. by apply triple_answer with L.
Qed.

Lemma good_record_score i r g : keeps_good b (good b) (handle_record_score c i r g).
Proof.
  unfold handle_record_score. destruct (negb _); [by apply triple_ret|].
  apply triple_good. intros S W D L HS HW. apply triple_with_session with L; [done..|]. intros s Hi.
  apply (triple_apply_kept S W D L i s _ (c 0%nat) (RecordScore r g)); try done.
  intros S' s' HS'. by apply triple_answer with L.
Qed.

Lemma good_extend_timeslot i e by_ : keeps_good b (good b) (handle_extend_timeslot c i e by_).
Proof.
  apply triple_good. intros S W D L HS HW. apply triple_with_session with L; [done..|]. intros s Hi.
  destruct (fromisoformat e) as [new_end|[]]; try (by apply triple_answer with L); try (by apply triple_raise with L).
  destruct (timeslot_end s) as [old_end|[]] eqn:Ho; cbn; try (by apply triple_answer with L); try (by apply triple_raise with L).
  destruct (extend_timeslot (c 0%nat) new_end by_ s) as [[s' evs]|[]] eqn:He; cbn;
    try (by apply triple_answer with L); try (by apply triple_raise with L).
  apply (triple_kept S W D L i s (c 0%nat) (ExtendTimeslot new_end by_) s' evs); try done.
  intros S' HS' _. by apply triple_answer with L.
Qed.

Lemma good_set_desired i d by_ r : keeps_good b (good b) (handle_set_desired c i d by_ r).
Proof.
  unfold handle_set_desired. destruct (enum_call d) as [t|]; [|by apply triple_ret].
  destruct (negb _); [by apply triple_ret|].
  apply triple_good. intros S W D L HS HW. apply triple_with_session with L; [done..|]. intros s Hi.
  apply triple_calls with L; [done..|]. intros [[changed s'] evs] He. destruct changed.
  - apply (triple_kept S W D L i s (c 0%nat) (SetDesired t by_ r) s' evs); try done.
    + cbn. by rewrite He.
    + intros S' HS' _. by apply triple_answer with L.
  - by apply triple_answer with L.
Qed.

Lemma good_request_observation i by_ : keeps_good b (good b) (handle_request_observation c i by_).
Proof.
  apply triple_good. intros S W D L HS HW. apply triple_with_session with L; [done..|]. intros s Hi.
  repeat (destruct (negb _); [by apply triple_answer with L|]).
  apply triple_calls with L; [done..|]. intros [s' evs] He.
  apply (triple_kept S W D L i s (c 0%nat) (RequestObservation by_) s' evs); try done.
  intros S' HS' _. by apply triple_answer with L.
Qed.

Lemma good_record_observation i r p : keeps_good b (good b) (handle_record_observation c i r p).
Proof.
  apply triple_good. intros S W D L HS HW. apply triple_with_session with L; [done..|]. intros s Hi.
  destruct (negb _); [by apply triple_answer with L|].
  apply triple_calls with L; [done..|]. intros [s' evs] He.
  apply (triple_kept S W D L i s (c 0%nat) (ObserveResources r p) s' evs); try done.
  intros S' HS' _. by apply triple_answer with L.
Qed.

(** A requeue, for one session or among several. *)
Lemma triple_requeue {A} k i by_ r (found : string -> A) (answer : LabletSessionState -> prog world A) :
  (forall s, keeps_good b (good b) (answer s)) ->
  keeps_good b (good b)
    (session ← get_session i;
     match session with
     | None => mret (found i)
     | Some session => '(session, _) ← lift (requeue (c k) by_ r session); _ ← put_session session; answer session
     end).
Proof.
  intros Ha. apply triple_good. intros S W D L HS HW. apply triple_found with L; [done..|].
  destruct (S !! i) as [s|] eqn:Hi; [|by apply triple_answer with L].
  apply triple_calls with L; [done..|]. intros [s' evs] He.
  apply (triple_kept S W D L i s (c k) (Requeue by_ r) s' evs); try done.
  intros S' HS' _. eapply triple_weaken; [apply Ha|]. intros w. by apply good_st with L.
Qed.

Lemma good_requeue i by_ r : keeps_good b (good b) (handle_requeue c i by_ r).
Proof.
  unfold handle_requeue. destruct (negb _); [by apply triple_ret|]. destruct (negb _); [by apply triple_ret|].
  eapply triple_try; [|intros e; by apply triple_ret].
  apply (triple_requeue 0 _ _ _ (fun _ => NotFound "LabletSession" i)). intros s.
  eapply triple_call; [|auto]. intros j _. by apply triple_ret.
Qed.

Lemma good_requeue_each k ids by_ r n m errors : keeps_good b (good b) (requeue_each c k ids by_ r n m errors).
Proof.
  revert k n m errors. induction ids as [|i ids IH]; intros k n m errors; [by apply triple_ret|]. cbn [requeue_each].
  eapply triple_bind with (R := fun _ => good b).
  - eapply triple_try; [|intros e; by apply triple_ret].
    apply (triple_requeue k _ _ _ (fun _ => Some (PDict [("session_id", PStr i); ("error", PStr "Not found")]))).
    intros s. by apply triple_ret.
  - intros [error|]; apply IH.
Qed.

Lemma good_bulk_requeue ids by_ r : keeps_good b (good b) (handle_bulk_requeue c ids by_ r).
Proof.
  unfold handle_bulk_requeue. destruct ids as [|i ids]; [by apply triple_ret|]. destruct (negb _); [by apply triple_ret|].
  eapply triple_bind; [apply good_requeue_each|]. intros [[n m] errors]. by apply triple_ret.
Qed.

(** *** Reports on pipelines *)

Lemma triple_publish S W D ev : triple (st b S W D) (publish ev) (fun _ => st b S W D) (fun _ => False).
Proof. intros w r w' Hw [= <- <-]. exact Hw. Qed.

Lemma triple_write_execution S W D (g : world -> list execution) :
  triple (st b S W D) (request (fun w => (Ok (), w <| executions := g w |>))) (fun _ => st b S W D) (st b S W D).
Proof.
  eapply triple_post; [apply (triple_write b S W D S W)|done|by intros w [_ []]]. intros w (? & ? & ? & ?). by split.
Qed.

Lemma triple_emit S W D t p all_done current :
  triple (st b S W D) (emit_step_cloud_event t p all_done current) (fun _ => st b S W D) (fun _ => False).
Proof.
  eapply triple_try with (Y := st b S W D); [|intros e; by apply triple_ret].
  eapply triple_bind with (R := fun _ => st b S W D).
  - repeat (destruct (String.eqb _ _); [eapply triple_post; [apply triple_publish|done|done]|]). by apply triple_ret.
  - intros _. destruct all_done; [|by apply triple_ret].
    do 3 (apply triple_call; [intros ? _|done]). eapply triple_post; [apply triple_publish|done|done].
Qed.

Lemma triple_upsert S W D uid t t' p current all_done :
  triple (st b S W D) (upsert_execution_record uid t t' p current all_done) (fun _ => st b S W D) (fun _ => False).
Proof.
  eapply triple_try with (Y := st b S W D); [|intros e; by apply triple_ret].
  destruct (String.eqb _ _); [|destruct all_done; [|by apply triple_ret]].
  - eapply triple_bind with (R := fun _ => st b S W D); [eapply triple_post; [apply triple_read|by intros ? ? []|by intros ? []]|].
    intros existing. apply triple_call; [intros steps _|done]. apply triple_write_execution.
  - eapply triple_bind with (R := fun _ => st b S W D); [eapply triple_post; [apply triple_read|by intros ? ? []|by intros ? []]|].
    intros [x|]; [|by apply triple_ret]. destruct (String.eqb _ _); [|by apply triple_ret].
    do 4 (apply triple_call; [intros ? _|done]). apply triple_write_execution.
Qed.

Lemma good_update_progress uid p : keeps_good b (good b) (handle_update_progress c uid p).
Proof.
  unfold handle_update_progress. destruct (negb _); [by apply triple_ret|]. destruct (negb _); [by apply triple_ret|].
  apply triple_good. intros S W D L HS HW. apply triple_with_session with L; [done..|]. intros s Hi.
  apply triple_calls with L; [done..|]. intros old _. apply triple_calls with L; [done..|]. intros current _.
  apply triple_calls with L; [done..|]. intros [s' evs] He.
  apply (triple_kept S W D L (pc_session_id p) s (c 0%nat)
           (PipelineProgress (pc_pipeline_name p) (pc_step_name p) (pc_step_status p) current) s' evs); try done.
  intros S' HS' _. apply triple_calls with L; [done..|]. intros all_done _. apply triple_same with L; [done..|].
  eapply triple_bind; [eapply triple_post; [apply triple_emit|intros; eassumption|done]|]. intros [].
  eapply triple_bind; [eapply triple_post; [apply triple_upsert|intros; eassumption|done]|]. intros [].
  by apply triple_ret.
Qed.

Lemma triple_settle_step S W D L i s pipeline name status step current more : sound b S D L -> books L W ->
  S !! i = Some s -> keeps_good b (st b S W D) (settle_step c i pipeline name status step current s more).
Proof.
  intros HS HW Hi. apply triple_calls with L; [done..|]. intros [s' evs] He.
  apply (triple_kept S W D L i s (c 0%nat)
           (PipelineProgress pipeline name status (dict_set name (PDict step) current)) s' evs); try done.
  intros S' HS' _. by apply triple_answer with L.
Qed.

Lemma triple_with_step i pipeline corr k :
  (forall S W D L s current name step, sound b S D L -> books L W -> S !! i = Some s ->
     keeps_good b (st b S W D) (k s current name step)) -> keeps_good b (good b) (with_step i pipeline corr k).
Proof.
  intros Hk. apply triple_good. intros S W D L HS HW. apply triple_with_session with L; [done..|]. intros s Hi.
  apply triple_calls with L; [done..|]. intros [|e current] _; [by apply triple_answer with L|].
  destruct (correlated corr _) as [[name step]|]; [|by apply triple_answer with L]. by eapply Hk.
Qed.

Lemma good_resume_step i pipeline corr output at_ : keeps_good b (good b) (handle_resume_step c i pipeline corr output at_).
Proof.
  apply triple_with_step. intros S W D L s current name step HS HW Hi. destruct (negb _); [by apply triple_answer with L|].
  apply triple_calls with L; [done..|]. intros merged _. by apply triple_settle_step with L.
Qed.

Lemma good_fail_step i pipeline corr error details at_ :
  keeps_good b (good b) (handle_fail_step c i pipeline corr error details at_).
Proof.
  apply triple_with_step. intros S W D L s current name step HS HW Hi. destruct (negb _); [by apply triple_answer with L|].
  by apply triple_settle_step with L.
Qed.

(** *** Commands across aggregates *)

Lemma good_create uid t1 t2 t3 d o ts te r :
  keeps_good b (fun w => sessions w !! uid = None /\ good b w) (handle_create c uid t1 t2 t3 d o ts te r).
Proof.
  assert (forall S W D L, sound b S D L -> books L W -> S !! uid = None ->
    keeps_good b (st b S W D) (handle_create c uid t1 t2 t3 d o ts te r)) as Hm.
  2:{ intros w r0 w' (Hn & L & Hs & Hb & Hf) He. by apply (Hm (sessions w) (workers w) (definitions w) L Hs Hb Hn w r0 w'). }
  intros S W D L HS HW Hn. unfold handle_create. repeat (destruct (negb _); [by apply triple_answer with L|]).
  eapply triple_try; [|intros e; by apply triple_ret].
  destruct (fromisoformat ts) as [tstart|[]]; try (by apply triple_answer with L); try (by apply triple_raise with L).
  destruct (fromisoformat te) as [tend|[]]; try (by apply triple_answer with L); try (by apply triple_raise with L).
  apply triple_calls with L; [done..|]. intros [] _; [by apply triple_answer with L|].
  apply triple_calls with L; [done..|]. intros [] _; [by apply triple_answer with L|].
  eapply triple_bind with (R := fun _ => st b S W D).
  { eapply triple_post; [apply triple_get_definition|by intros ? ? []|]. intros w [_ ?]. by apply here with S W D L. }
  intros [def|]; [|by apply triple_answer with L]. destruct (negb _); [by apply triple_answer with L|].
  eapply triple_bind with (R := fun _ => st b S W D).
  { destruct r as [r|]; [destruct (str_truthy r)|]; try (by apply triple_ret).
    eapply triple_post; [apply triple_read|by intros ? ? []|]. intros w [_ ?]. by apply here with S W D L. }
  intros [x|]; [by apply triple_answer with L|].
  apply triple_calls with L; [done..|]. intros did _. apply triple_calls with L; [done..|]. intros [s evs] Hc.
  assert (LabletSession.id s = uid /\ status s = PENDING) as [Hid Hp].
  { unfold create in Hc. inv_ok. match goal with Hc : emit _ _ _ = Ok _ |- _ => apply emit_ok in Hc as [_ Ho] end.
    cbn in Ho. unfold on_Created in Ho. inv_ok. repeat split. }
  assert (sound b (<[LabletSession.id s := s]> S) D L) as HS'
    by (eapply put_created; [done|by rewrite Hid|done]).
  eapply triple_store; [done..|by eapply sound_weak|].
  apply triple_calls with L; [done..|]. intros j _. apply triple_calls with L; [done..|]. intros u _.
  apply triple_calls with L; [done..|]. intros v _. by apply triple_answer with L.
Qed.

Lemma good_bind_lab run i l a t : keeps_good b (good b) (handle_bind_lab c run i l a t).
Proof.
  apply triple_good. intros S W D L HS HW. unfold handle_bind_lab.
  eapply triple_bind; [eapply triple_post; [apply triple_get_lab|done|]; intros w [_ ?]; by apply here with S W D L|].
  intros [lab|]; [|by apply triple_answer with L]. apply triple_with_session with L; [done..|]. intros s Hi.
  cbv zeta. destruct (_ && _); [by apply triple_answer with L|]. destruct (_ && _); [by apply triple_answer with L|].
  apply triple_calls with L; [done..|]. intros run' _. apply triple_calls with L; [done..|]. intros [lab' evs'] _.
  eapply triple_bind; [eapply triple_post; [apply triple_put_lab|done|]; intros w [_ ?]; by apply here with S W D L|].
  intros []. apply triple_calls with L; [done..|]. intros j _. apply triple_calls with L; [done..|]. intros [s' evs] He.
  apply (triple_kept S W D L i s (c 2%nat) (BindLab j (Some (default [] (LabRecord.allocated_ports lab'))) a t) s' evs);
    try done.
  intros S' HS' _. by apply triple_answer with L.
Qed.

Lemma good_schedule i worker ports lab by_ : keeps_good b (good b) (handle_schedule c i worker ports lab by_).
Proof.
  apply triple_good. intros S W D L HS HW. apply triple_with_session with L; [done..|]. intros s Hi.
  case_bool_decide as Hp; cbn [negb]; [|by apply triple_answer with L].
  eapply triple_bind; [eapply triple_post; [apply triple_get_worker|done|]; intros w [_ ?]; by apply here with S W D L|].
  intros found. apply triple_pure. intros ->. destruct (W !! worker) as [wk|] eqn:Hw; [|by apply triple_answer with L].
  case_bool_decide as Hrun; cbn [negb]; [|by apply triple_answer with L].
  eapply triple_bind; [eapply triple_post; [apply triple_get_definition|done|]; intros w [_ ?]; by apply here with S W D L|].
  intros found. apply triple_pure. intros ->. destruct (D !! definition_id s) as [d|] eqn:Hd; [|by apply triple_answer with L].
  cbv zeta. apply triple_calls with L; [done..|]. intros held Hk. apply triple_calls with L; [done..|]. intros fits Hfit.
  destruct fits; cbn [negb].
  2:{ apply triple_calls with L; [done..|]. intros a _. by apply triple_answer with L. }
  apply triple_calls with L; [done..|]. intros [s' evs] He.
  destruct (put_scheduled b S D L HS (c 0%nat) worker ports lab by_ i s s' evs d held Hi Hp He Hd Hk) as [Hs1 Hs2].
  assert (L worker !! i = None) as Hn.
  { eapply sound_unplaced; [exact HS|]. intros s0 Hs0. rewrite Hi in Hs0. injection Hs0 as <-. by rewrite Hp. }
  eapply triple_store; [done..|].
  eapply triple_bind with (R := fun _ => good b); [|intros a; by apply triple_ret].
  eapply triple_try; [|intros e; by apply triple_ret].
  eapply triple_bind; [eapply triple_post; [by eapply (triple_allocate worker_root)|intros; eassumption|done]|].
  intros r. apply triple_ret. intros w Hm. eapply good_moved; [exact Hs2| |exact Hm]. intros ->. exact Hs1.
Qed.

(** After a command that leaves: the books are good once the capacity is released,
    and without a worker at once. *)
Section Leaving.
Context (S : sessions_by_id) (W : gmap string CMLWorkerState) (D : definitions_by_id) (L : string -> ledger).
Context (k : clock) (cmd : command) (i : string) (s s' : LabletSessionState) (evs : list session_event).
Context (Hsound : sound b S D L) (Hbooks : books L W) (Hi : S !! i = Some s) (He : exec k cmd s = Ok (s', evs)).
Context (Hleaves : leaves cmd = true).

Lemma left_placed : sound false (<[LabletSession.id s' := s']> S) D L.
Proof. apply (put_placed b S D L k cmd i s s' evs); try done. by destruct cmd. Qed.

Lemma left_failed w : b = false /\ st b (<[LabletSession.id s' := s']> S) W D w -> good b w.
Proof. intros [Hb Hw]. eapply good_st; [|done..]. rewrite Hb. apply left_placed. Qed.

Lemma left_unassigned w : ostr_truthy (worker_id s') = false -> st b (<[LabletSession.id s' := s']> S) W D w -> good b w.
Proof.
  intros Hw. eapply good_st; [by apply (put_left b S D L k cmd i s s' evs)|].
  destruct (worker_id s') as [wk|]; [|done]. apply books_absent; [done|].
  destruct (W !! wk) as [x|] eqn:Hx; [|done]. exfalso. apply Hbooks in Hx as (_ & Hne & _). by destruct wk.
Qed.

Lemma left_bill wk held : worker_id s' = Some wk -> L wk !! i = Some held ->
  exists d, D !! definition_id s' = Some d /\ definition_id s' <> "" /\
    mk_capacity (cap_cpu (required_capacity d)) (cap_memory (required_capacity d)) (cap_storage (required_capacity d))
      None = Ok held.
Proof.
  intros Hw Hl. destruct (sound_bill _ _ _ _ _ _ _ _ Hsound Hi Hl) as (_ & Hp & Hd).
  pose proof (exec_effect _ _ _ _ _ He) as [Ha _ _ _]. by apply applied_owner in Ha as (_ & -> & _).
Qed.

Lemma triple_left (req : prog world capacity) {A} (f : response -> A) (g : exn -> A) n wk : worker_id s' = Some wk ->
  triple (st b (<[LabletSession.id s' := s']> S) W D) req
    (fun r w => (forall held, L wk !! i = Some held -> mk_capacity (cap_cpu r) (cap_memory r) (cap_storage r) None = Ok held)
                /\ st b (<[LabletSession.id s' := s']> S) W D w)
    (fun w => b = false /\ st b (<[LabletSession.id s' := s']> S) W D w) ->
  triple (st b (<[LabletSession.id s' := s']> S) W D)
    (try_ (required ← req; result ← handle_release (later c n) wk i required None; mret (f result))
       (fun e => mret (g e))) (fun _ => good b) (fun _ => False).
Proof.
  intros Hw Hreq. eapply triple_try.
  - eapply triple_bind; [eapply triple_post; [exact Hreq|intros; eassumption|apply left_failed]|].
    intros required. apply triple_pure. intros Hk.
    eapply triple_bind; [eapply triple_post; [by apply (triple_release worker_root)|intros; eassumption|done]|].
    intros result. apply triple_ret. intros w Hm. eapply good_moved; [| |exact Hm].
    + pose proof (put_left b S D L k cmd i s s' evs Hsound Hi He Hleaves) as Hl. by rewrite Hw in Hl.
    + intros Hb. rewrite Hb. apply left_placed.
  - intros e. by apply triple_ret.
Qed.

Lemma triple_capacity_of wk : worker_id s' = Some wk ->
  triple (st b (<[LabletSession.id s' := s']> S) W D) (capacity_of (definition_id s'))
    (fun r w => (forall held, L wk !! i = Some held -> mk_capacity (cap_cpu r) (cap_memory r) (cap_storage r) None = Ok held)
                /\ st b (<[LabletSession.id s' := s']> S) W D w)
    (fun w => b = false /\ st b (<[LabletSession.id s' := s']> S) W D w).
Proof.
  intros Hw. unfold capacity_of. eapply triple_bind; [apply triple_get_definition|]. intros d. apply triple_pure.
  intros ->. apply triple_ret. intros w Hst. split; [|done]. intros held Hl.
  by destruct (left_bill wk held Hw Hl) as (d & -> & _ & Hk).
Qed.

Lemma triple_release_session n wk : worker_id s' = Some wk ->
  triple (st b (<[LabletSession.id s' := s']> S) W D) (release_session c n i wk s') (fun _ => good b) (fun _ => False).
Proof.
  intros Hw. apply (triple_left _ is_success (fun _ => false)); [done|].
  destruct (str_truthy (definition_id s')) eqn:Hd; [by apply triple_capacity_of|].
  apply triple_ret. intros w Hst. split; [|done]. intros held Hl.
  destruct (left_bill wk held Hw Hl) as (d & _ & Hne & _). by destruct (definition_id s').
Qed.

Lemma triple_terminate_release wk : worker_id s' = Some wk ->
  triple (st b (<[LabletSession.id s' := s']> S) W D) (terminate_release c i wk s') (fun _ => good b) (fun _ => False).
Proof. intros Hw. apply (triple_left _ (fun _ => ()) (fun _ => ())); [done|]. by apply triple_capacity_of. Qed.
End Leaving.

Lemma good_transition i t r : keeps_good b (good b) (handle_transition c i t r).
Proof.
  apply triple_good. intros S W D L HS HW. apply triple_with_session with L; [done..|]. intros s Hi.
  destruct (enum_call t) as [target|]; [|by apply triple_answer with L]. cbv zeta.
  destruct (transition_method c target r) as [refusal|method] eqn:Hm; [by apply triple_answer with L|].
  assert (exists cmd, method = exec (c 0%nat) cmd /\ LabletSessionProps.target cmd = Some target /\ target <> SCHEDULED /\
            leaves cmd = bool_decide (target = STOPPING)) as (cmd & -> & Ht & Hns & Hl).
  { destruct target; try done; injection Hm as <-;
      [exists MarkRunning|exists StartCollection|exists (StartStopping r)|exists MarkStopped|exists (Archive "lablet-controller")];
      done. }
  case_bool_decide as Hstop; cbn [andb].
  - unfold apply_or_conflict. destruct (exec (c 0%nat) cmd s) as [[s' evs]|e] eqn:He; [|by apply triple_answer with L].
    eapply triple_store; [done..|by eapply left_placed|].
    eapply triple_bind with (R := fun _ => good b); [|intros released; by apply triple_ret].
    destruct (worker_id s') as [wk|] eqn:Hw.
    2:{ apply triple_ret. intros w. eapply left_unassigned; try done. by rewrite Hw. }
    destruct (str_truthy wk) eqn:Hwk.
    2:{ apply triple_ret. intros w. eapply left_unassigned; try done. by rewrite Hw. }
    eapply triple_bind; [eapply triple_post; [by eapply triple_release_session|intros; eassumption|done]|].
    intros released. by apply triple_ret.
  - apply (triple_apply_kept S W D L i s _ (c 0%nat) cmd); try done; [by rewrite Ht; intros [= ?]|].
    intros S' s' HS'. destruct (worker_id s'); by apply triple_answer with L.
Qed.

Lemma good_terminate_cleanup i lab : keeps_good b (good b) (terminate_cleanup c i lab).
Proof.
  apply triple_good. intros S W D L HS HW. apply triple_same with L; [done..|].
  eapply triple_try; [|intros e; by apply triple_ret].
  eapply triple_bind; [eapply triple_post; [apply triple_get_lab|done|]; by intros w [_ ?]|].
  intros [l|]; [|by apply triple_ret].
  eapply triple_bind; [eapply triple_post; [by apply triple_unbind|intros; eassumption|]; by intros w [_ ?]|].
  intros [l' u]. destruct (may_be_wiped l'); [|by apply triple_ret].
  eapply triple_bind; [eapply triple_post; [apply triple_wipe|intros; eassumption|done]|]. intros r. by apply triple_ret.
Qed.

Lemma good_terminate i by_ r : keeps_good b (good b) (handle_terminate c i by_ r).
Proof.
  unfold handle_terminate. destruct (negb _); [by apply triple_ret|]. destruct (negb _); [by apply triple_ret|].
  eapply triple_try; [|intros e; by apply triple_ret].
  apply triple_good. intros S W D L HS HW. apply triple_found with L; [done..|].
  destruct (S !! py_strip i) as [s|] eqn:Hi; [|by apply triple_answer with L].
  case_bool_decide; [by apply triple_answer with L|]. destruct (negb _); [by apply triple_answer with L|].
  apply triple_calls with L; [done..|]. intros [s1 evs1] He1. apply triple_calls with L; [done..|]. intros [s' evs] He.
  (* the two methods are as one command that leaves, on the session with its ports released *)
  assert (exists S1, sound b S1 D L /\ S1 !! py_strip i = Some s1 /\
            <[LabletSession.id s' := s']> S1 = <[LabletSession.id s' := s']> S) as (S1 & HS1 & Hi1 & HS').
  { assert (s1 = s \/ exec (c 0%nat) ReleasePorts s = Ok (s1, evs1)) as [->|Hx]
      by (revert He1; destruct (LabletSession.allocated_ports s) as [[|p ps]|]; intros He1; [left|right|left]; cbn; congruence);
      [by exists S|].
    pose proof (put_key b S D L _ _ _ _ _ _ HS Hi Hx) as Hk.
    exists (<[LabletSession.id s1 := s1]> S). split; [by eapply put_kept|]. rewrite Hk. split; [apply lookup_insert_eq|].
    rewrite (exec_id (c 1%nat) (Terminate (py_strip by_) r) _ _ _ He), Hk. apply insert_insert_eq. }
  eapply triple_store; [done..|rewrite <- HS'; by eapply (left_placed S1 D L (c 1%nat) (Terminate (py_strip by_) r))|].
  rewrite <- HS'. unfold LabletSession.aggregate_id. rewrite session_root. apply triple_call; [intros ? [= <-]|done].
  rewrite <- (put_key b S1 D L (c 1%nat) (Terminate (py_strip by_) r) _ _ _ _ HS1 Hi1 He) in Hi1.
  eapply triple_bind with (R := fun _ => good b).
  - destruct (worker_id s') as [wk|] eqn:Hw; [destruct (str_truthy wk) eqn:Hwk|].
    + eapply triple_post; [by eapply (triple_terminate_release S1 W D L (c 1%nat) (Terminate (py_strip by_) r))|done|done].
    + apply triple_ret. intros w.
      eapply (left_unassigned S1 W D L (c 1%nat) (Terminate (py_strip by_) r)); try done. by rewrite Hw.
    + apply triple_ret. intros w.
      eapply (left_unassigned S1 W D L (c 1%nat) (Terminate (py_strip by_) r)); try done. by rewrite Hw.
  - intros []. eapply triple_bind with (R := fun _ => good b); [|intros []; by apply triple_ret].
    destruct (lab_record_id s') as [lab|]; [destruct (str_truthy lab)|]; try (by apply triple_ret).
    apply good_terminate_cleanup.
Qed.

Lemma triple_expire_unbind S W D i s :
  triple (st b S W D) (expire_unbind c i s) (fun _ => st b S W D) (fun w => b = false /\ st b S W D w).
Proof.
  unfold expire_unbind. destruct (lab_record_id s) as [lab|]; [destruct (str_truthy lab)|]; try (by apply triple_ret).
  eapply triple_bind; [apply triple_get_lab|]. intros [l|]; [|by apply triple_ret].
  eapply triple_bind; [by apply triple_unbind|]. intros [l' u]. by apply triple_ret.
Qed.

Lemma triple_expire_wipe S W D l s :
  triple (st b S W D) (expire_wipe c l s) (fun _ => st b S W D) (fun _ => False).
Proof.
  unfold expire_wipe. destruct (lab_record_id s) as [lab|]; [destruct (str_truthy lab)|]; try (by apply triple_ret).
  eapply triple_try; [|intros e; by apply triple_ret].
  eapply triple_bind with (R := fun _ => st b S W D).
  - destruct l as [l|]; [by apply triple_ret|]. eapply triple_post; [apply triple_get_lab|done|]. by intros w [_ ?].
  - intros [l'|]; [|by apply triple_ret]. destruct (may_be_wiped l'); [|by apply triple_ret].
    eapply triple_bind; [eapply triple_post; [apply triple_wipe|intros; eassumption|done]|].
    intros result. by apply triple_ret.
Qed.

Lemma good_expire i r : keeps_good b (good b) (handle_expire c i r).
Proof.
  apply triple_good. intros S W D L HS HW. apply triple_with_session with L; [done..|]. intros s Hi.
  case_bool_decide; [by apply triple_answer with L|]. unfold apply_or_conflict.
  destruct (expire (c 0%nat) r s) as [[s' evs]|e] eqn:He; [|by apply triple_answer with L].
  eapply triple_store; [done..|by eapply (left_placed S D L (c 0%nat) (Expire r))|].
  eapply triple_bind; [eapply triple_post; [apply triple_expire_unbind|intros; eassumption|]|].
  { intros w. by eapply (left_failed S W D L (c 0%nat) (Expire r)). }
  intros [lab u]. eapply triple_bind; [eapply triple_post; [apply triple_expire_wipe|intros; eassumption|done]|].
  intros queued. eapply triple_bind with (R := fun _ => good b); [|intros released; by apply triple_ret].
  destruct (worker_id s') as [wk|] eqn:Hw; [destruct (str_truthy wk) eqn:Hwk|].
  - eapply triple_post; [by eapply (triple_release_session S W D L (c 0%nat) (Expire r))|done|done].
  - apply triple_ret. intros w.
    eapply (left_unassigned S W D L (c 0%nat) (Expire r)); try done. by rewrite Hw.
  - apply triple_ret. intros w.
    eapply (left_unassigned S W D L (c 0%nat) (Expire r)); try done. by rewrite Hw.
Qed.
End Handlers.

(** ** The system *)

Inductive session_request :=
| Create (uid : string) (t_now t_check t_init : datetime) (definition_id owner : string) (ts_start ts_end : pyval)
    (reservation : option string)
| Schedule (i worker : string) (ports : dict Z) (lab_record by_ : string)
| StartInstantiation (i : string)
| BindLab (run_id i lab_record : string) (cml_lab cml_title : option string)
| MarkReady (i user_session cml_lab : string)
| Transition (i target_status : string) (reason : option string)
| RecordScore (i score_report grade : string)
| ExtendTimeslot (i : string) (new_end : pyval) (by_ : string)
| SetDesired (i desired : string) (by_ reason : option string)
| RequestObservation (i by_ : string)
| RecordObservation (i : string) (resources : pydict) (ports : dict Z)
| UpdateProgress (uid : string) (report : progress_command)
| ResumeStep (i pipeline correlation_id : string) (output_data : pydict) (completed_at : option pyval)
| FailStep (i pipeline correlation_id error : string) (details : option pydict) (failed_at : option pyval)
| Requeue (i by_ : string) (reason : option string)
| BulkRequeue (ids : list string) (by_ : string) (reason : option string)
| Terminate (i by_ : string) (reason : option string)
| Expire (i reason : string).

Section System.
Context `{RootId LabletSessionState} `{RootId LabRecordState} `{RootId CMLWorkerState}
  `{RootId LabletDefinitionState} `{SetOrder}.

Definition handle (c : nat -> clock) (r : session_request) : prog world response :=
  match r with
  | Create uid t1 t2 t3 d o ts te r => handle_create c uid t1 t2 t3 d o ts te r
  | Schedule i w p l b => handle_schedule c i w p l b
  | StartInstantiation i => handle_start_instantiation c i
  | BindLab run i l a t => handle_bind_lab c run i l a t
  | MarkReady i u l => handle_mark_ready c i u l
  | Transition i t r => handle_transition c i t r
  | RecordScore i r g => handle_record_score c i r g
  | ExtendTimeslot i e b => handle_extend_timeslot c i e b
  | SetDesired i d b r => handle_set_desired c i d b r
  | RequestObservation i b => handle_request_observation c i b
  | RecordObservation i r p => handle_record_observation c i r p
  | UpdateProgress uid p => handle_update_progress c uid p
  | ResumeStep i p k o t => handle_resume_step c i p k o t
  | FailStep i p k e d t => handle_fail_step c i p k e d t
  | Requeue i b r => handle_requeue c i b r
  | BulkRequeue l b r => handle_bulk_requeue c l b r
  | Terminate i b r => handle_terminate c i b r
  | Expire i r => handle_expire c i r
  end.

(** The identifier of a new session is new. *)
Definition fresh (r : session_request) (w : world) : Prop :=
  match r with Create uid _ _ _ _ _ _ _ _ => sessions w !! uid = None | _ => True end.

(** A request runs, or another writer changes a document without touching what is
    followed here: a worker keeps its sessions and what it has allocated, a new worker
    has none, a definition keeps its requirements while sessions refer to it.  With
    [b] nothing fails; without it, faults come at any time. *)
Inductive step (b : bool) (w : world) : world -> Prop :=
| step_request c r : fresh r w -> step b w (handle c r w).2
| step_worker i wk wk' : workers w !! i = Some wk -> Worker.id wk' = Worker.id wk -> same_sessions wk wk' ->
    step b w (w <| workers := <[i := wk']> (workers w) |>)
| step_new_worker wk : workers w !! Worker.id wk = None -> Worker.id wk <> "" -> keeps ∅ wk ->
    (forall i s, sessions w !! i = Some s -> worker_id s <> Some (Worker.id wk)) ->
    step b w (w <| workers := <[Worker.id wk := wk]> (workers w) |>)
| step_definition i d : i <> "" -> requirements_valid d ->
    (forall j s, sessions w !! j = Some s -> definition_id s = i ->
       exists d', definitions w !! i = Some d' /\ required_capacity d = required_capacity d') ->
    step b w (w <| definitions := <[i := d]> (definitions w) |>)
| step_fault l : b = false -> step b w (w <| faults := l |>).

Definition initial (w : world) : Prop :=
  sessions w = ∅ /\ faults w = [] /\
  (forall i wk, workers w !! i = Some wk -> Worker.id wk = i /\ i <> "" /\ keeps ∅ wk) /\
  (forall i d, definitions w !! i = Some d -> i <> "" /\ requirements_valid d).

Definition reached (b : bool) (w : world) : Prop := exists w0, initial w0 /\ star (step b) w0 w.

Lemma initial_good b w : initial w -> good b w.
Proof.
  intros (HS & Hf & HW & HD). exists (fun _ => ∅). split; [|by split]. rewrite HS. split; [done|done| |].
  - intros j. apply map_empty_subseteq.
  - intros _ j. unfold holders. by rewrite omap_empty.
Qed.

Context (session_root : forall s : LabletSessionState, root_id s = Some (LabletSession.id s)).
Context (worker_root : forall s : CMLWorkerState, root_id s = Some (Worker.id s)).
Context (lab_root : forall s : LabRecordState, root_id s = Some (LabRecord.id s)).

Lemma triple_handle b c r : keeps_good b (fun w => fresh r w /\ good b w) (handle c r).
Proof using session_root worker_root lab_root.
  destruct r; cbn [handle fresh]; [by apply good_create|apply triple_pure; intros _..].
  - by apply good_schedule.
  - apply good_start_instantiation.
  - apply good_bind_lab.
  - apply good_mark_ready.
  - by apply good_transition.
  - apply good_record_score.
  - apply good_extend_timeslot.
  - apply good_set_desired.
  - apply good_request_observation.
  - apply good_record_observation.
  - apply good_update_progress.
  - apply good_resume_step.
  - apply good_fail_step.
  - apply good_requeue.
  - apply good_bulk_requeue.
  - by apply good_terminate.
  - by apply good_expire.
Qed.

Lemma good_request b c r w : fresh r w -> good b w -> good b (handle c r w).2.
Proof using session_root worker_root lab_root.
  intros Hf Hg. destruct (handle c r w) as [a w'] eqn:He.
  pose proof (triple_handle b c r w a w' (conj Hf Hg) He) as Hm. by destruct a.
Qed.

(** The books when the definitions change and no session notices. *)
Lemma sound_definitions b S D D' L : sound b S D L -> (forall i d, D' !! i = Some d -> i <> "" /\ requirements_valid d) ->
  (forall i s, S !! i = Some s -> bill D' s = bill D s) -> sound b S D' L.
Proof.
  intros [H1' H2' H3' H4'] HD Hb.
  assert (forall P j, omap (entry P D' j) S = omap (entry P D j) S) as He.
  { intros P j. apply map_eq. intros i. rewrite !lookup_omap. destruct (S !! i) as [s|] eqn:Hs; [|done]. cbn.
    unfold entry. by rewrite (Hb i s Hs). }
  split; [done|done| |]; intros; unfold assigned, holders in *; rewrite He; auto.
Qed.

Lemma step_good b w w' : step b w w' -> good b w -> good b w'.
Proof using session_root worker_root lab_root.
  intros Hstep Hg. pose proof Hg as (L & Hs & Hb & Hf).
  destruct Hstep as [c r Hfr|i wk wk' Hi Hid Hsame|wk Hn Hne Hk Hfree|i d Hne Hv Hreq|l ->].
  - by apply good_request.
  - exists L. split; [done|]. split; [|done]. cbn. intros j x Hj. destruct (decide (i = j)) as [<-|Hne].
    + rewrite lookup_insert_eq in Hj. injection Hj as <-. destruct (Hb _ _ Hi) as (Hwk & Hne & Hk).
      split; [by rewrite Hid|]. split; [done|]. by eapply keeps_same.
    + rewrite lookup_insert_ne in Hj by done. by apply Hb.
  - exists L. split; [done|]. split; [|done]. cbn. intros j x Hj. destruct (decide (Worker.id wk = j)) as [<-|Hn'].
    + rewrite lookup_insert_eq in Hj. injection Hj as <-. split; [done|]. split; [done|].
      assert (L (Worker.id wk) = ∅) as ->; [|done]. apply map_empty. intros i.
      destruct (L (Worker.id wk) !! i) as [held|] eqn:Hl; [|done]. exfalso.
      pose proof (lookup_weaken _ _ _ _ Hl (so_within _ _ _ _ Hs _)) as Ha. unfold assigned in Ha.
      rewrite lookup_omap in Ha. destruct (sessions w !! i) as [s|] eqn:Hi; [|done].
      destruct (sound_bill _ _ _ _ _ _ _ _ Hs Hi Hl) as [Hw _]. by apply (Hfree i s).
    + rewrite lookup_insert_ne in Hj by done. by apply Hb.
  - exists L. split; [|by split]. cbn. eapply sound_definitions; [exact Hs| |].
    + intros j d'. destruct (decide (i = j)) as [<-|Hij].
      * rewrite lookup_insert_eq. by intros [= <-].
      * rewrite lookup_insert_ne by done. apply (so_definitions _ _ _ _ Hs).
    + intros j s Hj. unfold bill. destruct (decide (i = definition_id s)) as [Hi|Hij].
      * destruct (Hreq j s Hj (eq_sym Hi)) as (d' & Hd' & Hr). rewrite <- Hi, lookup_insert_eq, Hd'. cbn -[required_capacity]. by rewrite Hr.
      * by rewrite lookup_insert_ne.
  - exists L. by split.
Qed.

Lemma reached_good b w : reached b w -> good b w.
Proof using session_root worker_root lab_root.
  intros (w0 & H0' & Hw). eapply (star_invariant (step b) (good b)); [apply step_good|exact Hw|by apply initial_good].
Qed.
End System.
