(* ===== verification/SessionCommandsSpec.v ===== *)
(** * What the session commands promise, and what they lose

    The books of the workers, with and without failures; what an expiry does to the
    lab, and what is left when it is interrupted; what an edited definition leaks. *)
From S2P Require Import Prelude Programs PyData Enums Lifecycle AuditTrail Aggregate WorkerValues.
From S2P Require Import DefinitionProps LabRecordSpec.
From S2P Require Import LabletDefinition LabRecord Worker WorkerSpec LabletSessionEvents LabletSession LabletSessionProps.
From S2P Require Import SessionCommands SessionBooks SessionCommandsProps.
Import SessionStatus.

Section Spec.
Context `{RootId LabletSessionState} `{RootId LabRecordState} `{RootId CMLWorkerState}
  `{RootId LabletDefinitionState} `{SetOrder}.
Context (session_root : forall s : LabletSessionState, root_id s = Some (LabletSession.id s)).
Context (worker_root : forall s : CMLWorkerState, root_id s = Some (Worker.id s)).
Context (lab_root : forall s : LabRecordState, root_id s = Some (LabRecord.id s)).

Lemma reached_books w i wk : reached true w -> workers w !! i = Some wk ->
  Worker.id wk = i /\ keeps (holders (sessions w) (definitions w) i) wk.
Proof using session_root worker_root lab_root.
  intros Hr Hi. apply reached_good in Hr as (L & Hs & Hb & _); [|done..].
  rewrite <- (so_exact _ _ _ _ Hs eq_refl). by apply Hb in Hi as (? & _ & Hk).
Qed.

(** (C3) As long as no request to a repository fails, after any commands on any
    sessions every worker lists exactly the sessions that were scheduled on it and
    have not stopped, expired or been terminated, each once, and its
    [allocated_capacity] is the sum of the requirements of their definitions. *)
Theorem workers_charge_holders w i wk : reached true w -> workers w !! i = Some wk ->
  keeps (holders (sessions w) (definitions w) i) wk.
Proof using session_root worker_root lab_root. intros Hr Hi. by apply reached_books. Qed.

(** (C4) Whatever requests fail, and wherever a command stops: the books of a worker
    are a ledger of sessions that were placed on that worker, with the requirements
    of their definitions, so capacity may stay charged but is never charged twice or
    to a session of another worker; and no session is listed by two workers. *)
Theorem books_survive_failures w : reached false w ->
  (forall i wk, workers w !! i = Some wk ->
     exists m, keeps m wk /\ m ⊆ assigned (sessions w) (definitions w) i) /\
  (forall i j wk1 wk2 session, workers w !! i = Some wk1 -> workers w !! j = Some wk2 ->
     session ∈ session_ids wk1 -> session ∈ session_ids wk2 -> i = j).
Proof using session_root worker_root lab_root.
  intros Hr. apply reached_good in Hr as (L & Hs & Hb & _); [|done..]. split.
  - intros i wk Hi. exists (L i). split; [by apply Hb in Hi as (_ & _ & Hk)|apply (so_within _ _ _ _ Hs)].
  - assert (forall i wk session, workers w !! i = Some wk -> session ∈ session_ids wk ->
      exists s, sessions w !! session = Some s /\ worker_id s = Some i) as Hin.
    { intros i wk session Hi Hses. apply Hb in Hi as (_ & _ & Hk). apply (keeps_keys _ _ Hk) in Hses as [held Hl].
      pose proof (lookup_weaken _ _ _ _ Hl (so_within _ _ _ _ Hs i)) as Ha. unfold assigned in Ha.
      rewrite lookup_omap in Ha. destruct (sessions w !! session) as [s|] eqn:Hses; [|done].
      exists s. split; [done|]. by destruct (sound_bill _ _ _ _ _ _ _ _ Hs Hses Hl). }
    intros i j wk1 wk2 session Hi Hj Hs1 Hs2. destruct (Hin _ _ _ Hi Hs1) as (s1 & E1 & W1).
    destruct (Hin _ _ _ Hj Hs2) as (s2 & E2 & W2). congruence.
Qed.

(** ** Expiry *)

Lemma request_served {A} (m : prog world A) w rest : faults w = Served :: rest ->
  request m w = m (w <| faults := rest |>).
Proof. unfold request. by intros ->. Qed.

Lemma request_free {A} (m : prog world A) w : faults w = [] -> request m w = m w.
Proof. unfold request. by intros ->. Qed.

(** An expiry that is interrupted is not taken up again: when the read of the lab
    fails after the session was stored as [EXPIRED], the command raises with the lab
    still bound to the session and the worker still charged, and the same command,
    sent again any number of times, answers that the session is already expired and
    changes nothing. *)
Theorem expire_not_resumed c i reason w s s' evs lab e :
  sessions w !! i = Some s -> LabletSession.id s = i -> status s <> EXPIRED ->
  expire (c 0%nat) reason s = Ok (s', evs) -> lab_record_id s' = Some lab -> lab <> "" ->
  faults w = [Served; Served; Refused e] ->
  exists w1, handle_expire c i reason w = (Err e, w1) /\ workers w1 = workers w /\ labs w1 = labs w /\
    (exists s1, sessions w1 !! i = Some s1 /\ status s1 = EXPIRED) /\
    forall c' reason', handle_expire c' i reason' w1
      = (Ok (Success 200 [("session_id", PStr i); ("status", PStr "expired"); ("already_expired", PBool true)]), w1).
Proof using.
  intros Hi Hid Hne He Hlab Hl Hf. pose proof (exec_id (c 0%nat) (LabletSessionProps.Expire reason) s s' evs He) as Hid'.
  exists {| sessions := <[LabletSession.id s' := s']> (sessions w); labs := labs w; workers := workers w;
       definitions := definitions w; executions := executions w; published := published w; faults := [] |}.
  assert (status s' = EXPIRED) as Hst.
  { pose proof (exec_effect (c 0%nat) (LabletSessionProps.Expire reason) s s' evs He) as [_ _ Hst _]. exact Hst. }
  split; [|split; [done|split; [done|split; [exists s'; split; [|done]; cbn; rewrite Hid', Hid; apply lookup_insert_eq|]]]].
  - unfold handle_expire, with_session.
    erewrite run_bind by (unfold get_session; rewrite (request_served _ w _ Hf); cbn; by rewrite Hi).
    cbv beta iota. rewrite bool_decide_false by done. rewrite He. unfold apply_or_conflict, expire_unbind. rewrite Hlab.
    destruct lab; [done|]. reflexivity.
  - intros c' reason'. unfold handle_expire, with_session.
    erewrite run_bind by (unfold get_session; rewrite request_free by done; cbn; by rewrite Hid', Hid, lookup_insert_eq).
    cbv beta iota. rewrite bool_decide_true by done. by rewrite Hid', Hid.
Qed.

(** A release writes workers only. *)
Definition elsewhere (S : sessions_by_id) (B : gmap string LabRecordState) (w : world) : Prop :=
  sessions w = S /\ labs w = B.

Lemma triple_elsewhere {A} S B (m : prog world A) :
  (forall w, elsewhere S B w -> elsewhere S B (m w).2) ->
  triple (elsewhere S B) (request m) (fun _ => elsewhere S B) (elsewhere S B).
Proof.
  intros Hm w r w' Hw He. assert (elsewhere S B w') as Hw'; [|by destruct r]. unfold request in He.
  destruct (faults w) as [|[|e|e] l].
  - match type of He with ?f ?v = _ => specialize (Hm v Hw); by rewrite He in Hm end.
  - match type of He with ?f ?v = _ => specialize (Hm v Hw); by rewrite He in Hm end.
  - by injection He as <- <-.
  - injection He as <- <-. by apply Hm.
Qed.

Lemma release_elsewhere S B c i session k :
  triple (elsewhere S B) (handle_release c i session k None) (fun _ => elsewhere S B) (fun _ => False).
Proof.
  eapply triple_try; [|intros e; by apply triple_ret].
  eapply triple_bind; [by apply triple_elsewhere|]. intros [wk|]; [|by apply triple_ret].
  destruct (negb _).
  - apply triple_call; [|done]. intros a _. by apply triple_ret.
  - apply triple_call; [|done]. intros [wk1 e1] _. apply triple_call; [|done]. intros [wk2 e2] _.
    eapply triple_bind; [by apply triple_elsewhere|]. intros []. apply triple_call; [|done].
    intros a _. by apply triple_ret.
Qed.

Lemma release_session_elsewhere S B c n i wk s :
  triple (elsewhere S B) (release_session c n i wk s) (fun _ => elsewhere S B) (fun _ => False).
Proof.
  eapply triple_try; [|intros e; by apply triple_ret].
  eapply triple_bind with (R := fun _ => elsewhere S B).
  - destruct (str_truthy _); [|by apply triple_ret]. unfold capacity_of.
    eapply triple_bind; [by apply triple_elsewhere|]. intros d. by apply triple_ret.
  - intros k. eapply triple_bind; [eapply triple_post; [apply release_elsewhere|intros; eassumption|done]|].
    intros r. by apply triple_ret.
Qed.

(** What an expiry leaves of the lab. *)
Record given_back (lab lab' : LabRecordState) : Prop := {
  gb_session : active_lablet_session_id lab' = None;
  gb_binding : active_binding_id lab' = None;
  gb_action : pending_action lab' = Some "wipe";
  gb_ports : LabRecord.allocated_ports lab' = LabRecord.allocated_ports lab;
  gb_status : LabRecord.status lab' = LabRecord.status lab
}.

(** The lab, unbound from its session. *)
Definition unbound_lab (lab : LabRecordState) : LabRecordState :=
  lab <| active_lablet_session_id := None |> <| active_binding_id := None |>.

Lemma unbind_free at_ i lab binding w : faults w = [] -> active_lablet_session_id lab = Some i ->
  active_binding_id lab = Some binding ->
  unbind at_ i lab w
  = (Ok (unbound_lab lab, true), w <| labs := <[LabRecord.id lab := unbound_lab lab]> (labs w) |>).
Proof using lab_root.
  intros Hf Ha Hb. unfold unbind. rewrite Ha, bool_decide_true by done. rewrite Hb.
  assert (exists evs, unbind_from_lablet at_ i binding lab = Ok (unbound_lab lab, evs)) as [evs Hu].
  { unfold unbind_from_lablet, LabRecord.aggregate_id. rewrite lab_root. cbn. rewrite Hb, bool_decide_true by done. eauto. }
  change (default "" (Some binding)) with binding. rewrite Hu. erewrite run_bind by reflexivity. cbv beta iota.
  unfold put_lab. by erewrite run_bind by (by rewrite request_free).
Qed.

Lemma wipe_free c l lab w : faults w = [] -> labs w !! l = Some lab -> pending_action lab = None ->
  LabRecord.is_terminal lab = false ->
  exists data lab', handle_wipe c l w = (Ok (Success 202 data), w <| labs := <[LabRecord.id lab := lab']> (labs w) |>) /\
    pending_action lab' = Some "wipe" /\ active_lablet_session_id lab' = active_lablet_session_id lab /\
    active_binding_id lab' = active_binding_id lab /\ LabRecord.allocated_ports lab' = LabRecord.allocated_ports lab /\
    LabRecord.status lab' = LabRecord.status lab.
Proof using lab_root.
  intros Hf Hl Hp Ht. unfold handle_wipe.
  assert (exists lab' evs, request_wipe (c 0%nat) lab = Ok (lab', evs) /\ LabRecord.id lab' = LabRecord.id lab /\
    pending_action lab' = Some "wipe" /\ active_lablet_session_id lab' = active_lablet_session_id lab /\
    active_binding_id lab' = active_binding_id lab /\ LabRecord.allocated_ports lab' = LabRecord.allocated_ports lab /\
    LabRecord.status lab' = LabRecord.status lab) as (lab' & evs & Hw & Hid & Hrest).
  { unfold request_wipe, request_action, LabRecord.aggregate_id. rewrite lab_root. cbn. eexists _, _. by repeat split. }
  eexists _, lab'. split; [|exact Hrest].
  apply run_try. unfold get_lab. erewrite run_bind by (by rewrite request_free). rewrite Hl, Hp, Ht. cbn [ostr_truthy].
  rewrite Hw. erewrite run_bind by reflexivity. cbv beta iota.
  unfold put_lab. erewrite run_bind by (by rewrite request_free). by rewrite Hid.
Qed.


(** ** What an edited definition leaks *)

Lemma total_held f m k held : m !! k = Some held -> map_Forall (fun _ c => capacity_valid c) m ->
  (forall c, capacity_valid c -> 0 <= f c) -> total f m = f held + total f (delete k m) /\ 0 <= total f (delete k m).
Proof.
  intros Hk Hm Hf. split; [by apply total_delete|]. apply total_nonneg; [done|]. by apply map_Forall_delete.
Qed.

(** A session is released with the requirements its definition has then, which an
    edit in place may have lowered since it was scheduled: the worker drops the session
    and stays charged for the difference. *)
Theorem release_after_edit c i session k w wk m held :
  faults w = [] -> workers w !! i = Some wk -> Worker.id wk = i -> keeps m wk -> m !! session = Some held ->
  0 <= cap_cpu k <= WorkerValues.cpu_cores held -> 0 <= cap_memory k <= WorkerValues.memory_gb held ->
  0 <= cap_storage k <= WorkerValues.storage_gb held ->
  exists r wk', handle_release c i session k None w = (Ok r, w <| workers := <[i := wk']> (workers w) |>) /\
    session ∉ session_ids wk' /\
    WorkerValues.cpu_cores (allocated_capacity wk')
    = total WorkerValues.cpu_cores (delete session m) + (WorkerValues.cpu_cores held - cap_cpu k) /\
    WorkerValues.memory_gb (allocated_capacity wk')
    = total WorkerValues.memory_gb (delete session m) + (WorkerValues.memory_gb held - cap_memory k) /\
    WorkerValues.storage_gb (allocated_capacity wk')
    = total WorkerValues.storage_gb (delete session m) + (WorkerValues.storage_gb held - cap_storage k).
Proof using worker_root.
  intros Hf Hi Hid Hk Hm Hc Hmem Hsto.
  assert (exists wk1 evs1, match get_port_allocation session wk with
             | Some _ => Worker.release_ports (c 0%nat) session wk | None => Ok (wk, []) end = Ok (wk1, evs1)
            /\ keeps m wk1 /\ Worker.id wk1 = i) as (wk1 & evs1 & E1 & Hk1 & Hid1).
  { unfold Worker.release_ports. destruct (get_port_allocation session wk); [|eauto].
    rewrite worker_id_ok by done. cbn. eexists _, _. split; [done|]. split; [|done]. eapply keeps_same; [|exact Hk]. by split. }
  pose proof (keeps_valid _ _ Hk) as Hv. pose proof (Hv _ _ Hm) as Hheld.
  assert (forall c, capacity_valid c -> 0 <= WorkerValues.cpu_cores c /\ 0 <= WorkerValues.memory_gb c
            /\ 0 <= WorkerValues.storage_gb c) as Hpos by (intros x Hx%capacity_valid_iff; lia).
  destruct (total_held WorkerValues.cpu_cores m session held Hm Hv) as [Tc Pc]; [intros x Hx; apply (Hpos x Hx)|].
  destruct (total_held WorkerValues.memory_gb m session held Hm Hv) as [Tm Pm]; [intros x Hx; apply (Hpos x Hx)|].
  destruct (total_held WorkerValues.storage_gb m session held Hm Hv) as [Ts Ps]; [intros x Hx; apply (Hpos x Hx)|].
  assert (exists wk' evs, remove_lablet_session (c 1%nat) session (cap_cpu k) (cap_memory k) (cap_storage k) None wk1
            = Ok (wk', evs) /\ Worker.id wk' = i /\ session ∉ session_ids wk' /\
            WorkerValues.cpu_cores (allocated_capacity wk') = Z.max 0 (total WorkerValues.cpu_cores m - cap_cpu k) /\
            WorkerValues.memory_gb (allocated_capacity wk') = Z.max 0 (total WorkerValues.memory_gb m - cap_memory k) /\
            WorkerValues.storage_gb (allocated_capacity wk') = Z.max 0 (total WorkerValues.storage_gb m - cap_storage k))
    as (wk' & evs & E2 & Hid2 & Hout & A1 & A2 & A3).
  { unfold remove_lablet_session. rewrite worker_id_ok by done. cbn -[Worker.on]. unfold Worker.emit. cbn [Worker.on].
    unfold on_LabletSessionRemoved. cbn -[mk_capacity Z.max List.filter]. rewrite (keeps_sum _ _ Hk1).
    cbn -[mk_capacity Z.max List.filter].
    assert (forall a b c d, 0 <= a -> 0 <= b -> 0 <= c -> 0 <= oint0 d -> mk_capacity a b c d
              = Ok {| WorkerValues.cpu_cores := a; WorkerValues.memory_gb := b; WorkerValues.storage_gb := c;
                      WorkerValues.max_nodes := d |}) as Hmk.
    { intros a b c0 d Ha Hb Hc0 Hd. apply mk_capacity_ok. split; [done|]. apply capacity_valid_iff. by repeat split. }
    rewrite Hmk by (cbn; lia). cbn -[mk_capacity Z.max List.filter].
    rewrite Hmk by (cbn; lia). cbn -[Z.max List.filter]. eexists _, _. split; [done|]. cbn -[Z.max List.filter].
    split; [done|]. split; [|by repeat split].
    rewrite list_elem_of_In, List.filter_In. intros [_ Hn]. by rewrite String.eqb_refl in Hn. }
  assert (has_session session wk = true) as Hhas.
  { unfold has_session. apply bool_decide_eq_true. apply (keeps_keys _ _ Hk). by eexists. }
  assert (exists r, handle_release c i session k None w = (Ok r, w <| workers := <[i := wk']> (workers w) |>)) as [r Hr].
  2:{ exists r, wk'. split; [exact Hr|]. split; [exact Hout|]. rewrite A1, A2, A3, Tc, Tm, Ts. lia. }
  unfold handle_release, get_worker. unfold try_. erewrite run_bind by (by rewrite request_free). rewrite Hi, Hhas. cbn [negb].
  rewrite E1. erewrite run_bind by reflexivity. cbv beta iota. rewrite E2. erewrite run_bind by reflexivity. cbv beta iota.
  unfold put_worker. erewrite run_bind by (by rewrite request_free). rewrite Hid2.
  destruct (capacity_report wk') as [report|e].
  - erewrite run_bind by reflexivity. by eexists.
  - erewrite run_raise by reflexivity. by eexists.
Qed.
End Spec.

(** ** A concrete run *)

#[local] Instance demo_session_root : RootId LabletSessionState := fun s => Some (LabletSession.id s).
#[local] Instance demo_lab_root : RootId LabRecordState := fun s => Some (LabRecord.id s).
#[local] Instance demo_worker_root : RootId CMLWorkerState := fun s => Some (Worker.id s).
#[local] Instance demo_definition_root : RootId LabletDefinitionState := fun s => Some (LabletDefinition.id s).
#[local] Instance demo_order : SetOrder := remove_dups.

Definition demo_clock : nat -> clock := fun k =>
  let t := 1000 + 10 * Z.of_nat k in {| now := utc t; now_hist := utc (t + 1); now_upd := utc (t + 2) |}.

(** One worker, one active definition, one lab. *)
Definition demo_worker : CMLWorkerState := state_of (demo_run (take 2 WorkerSpec.example_commands) example_worker).

Definition demo_start : world := {|
  sessions := ∅; labs := {["r-1" := LabRecordSpec.example_record]}; workers := {["w-1" := demo_worker]};
  definitions := {["d-1" := DefinitionProps.example_synced]}; executions := []; published := []; faults := [] |}.

Definition demo_requests : list session_request :=
  [SessionCommandsProps.Create "s-1" (utc 10) (utc 10) (utc 10) "d-1" "alice" (PIso (utc 5000)) (PIso (utc 9000)) None;
   SessionCommandsProps.Schedule "s-1" "w-1" [] "r-1" "resource-scheduler";
   SessionCommandsProps.BindLab "run-1" "s-1" "r-1" (Some "lab-1") None;
   SessionCommandsProps.StartInstantiation "s-1"].

Definition serve (w : world) (r : session_request) : world := (handle demo_clock r w).2.

Definition demo_world : world := fold_left serve demo_requests demo_start.

Lemma demo_worker_idle : keeps ∅ demo_worker.
Proof.
  destruct (run_keeps (H := worker_root_id) (fun s => eq_refl) (take 2 WorkerSpec.example_commands) ∅ ∅ example_worker)
    as [Hk _]; [apply created_keeps, example_worker_created|vm_compute; reflexivity|].
  eapply Hk. apply (returns_ok (demo_run (take 2 WorkerSpec.example_commands) example_worker)). vm_compute. reflexivity.
Qed.

Lemma demo_initial : initial demo_start.
Proof.
  split; [done|]. split; [done|]. split.
  - intros i wk Hw. cbn in Hw. apply lookup_singleton_Some in Hw as [<- <-]. split; [vm_compute; reflexivity|]. split; [done|]. apply demo_worker_idle.
  - intros i d Hd. cbn in Hd. apply lookup_singleton_Some in Hd as [<- <-]. split; [done|]. vm_compute. reflexivity.
Qed.

Fixpoint all_fresh (l : list session_request) (w : world) : Prop :=
  match l with [] => True | r :: l => fresh r w /\ all_fresh l (serve w r) end.

Lemma serve_all b l w : all_fresh l w -> star (step b) w (fold_left serve l w).
Proof.
  revert w. induction l as [|r l IH]; cbn; intros w; [by constructor|].
  intros [Hf Hl]. eapply star_step; [by apply (step_request b w demo_clock r)|by apply IH].
Qed.

Lemma demo_reached b : reached b demo_world.
Proof.
  exists demo_start. split; [apply demo_initial|]. apply serve_all. by repeat split.
Qed.

Lemma workers_charge_holders_witness : exists wk, workers demo_world !! "w-1" = Some wk /\ session_ids wk = ["s-1"] /\
  keeps (holders (sessions demo_world) (definitions demo_world) "w-1") wk.
Proof.
  destruct (workers demo_world !! "w-1") as [wk|] eqn:Hw; [|vm_compute in Hw; discriminate Hw]. exists wk.
  split; [done|]. split.
  - revert Hw. vm_compute. by intros [= <-].
  - by apply (workers_charge_holders (fun s => eq_refl) (fun s => eq_refl) (fun s => eq_refl) demo_world "w-1" wk (demo_reached true)).
Defined.

(** The expiry of the session while the labs cannot be read. *)
Definition demo_fault : exn := ValueError "connection reset".
Definition demo_failing : world := demo_world <| faults := [Served; Served; Refused demo_fault] |>.
Definition demo_expire : session_request := SessionCommandsProps.Expire "s-1" "timeslot_expired".

Lemma books_survive_failures_witness :
  (exists wk, workers (serve demo_failing demo_expire) !! "w-1" = Some wk /\ session_ids wk = ["s-1"]) /\
  (forall i j wk1 wk2 session, workers (serve demo_failing demo_expire) !! i = Some wk1 ->
     workers (serve demo_failing demo_expire) !! j = Some wk2 ->
     session ∈ session_ids wk1 -> session ∈ session_ids wk2 -> i = j).
Proof.
  split; [eexists; split; vm_compute; reflexivity|].
  refine (proj2 (books_survive_failures (fun s => eq_refl) (fun s => eq_refl) (fun s => eq_refl) _ _)).
  destruct (demo_reached false) as (w0 & H0 & Hw). exists w0. split; [exact H0|]. eapply star_trans; [exact Hw|].
  eapply star_step; [by apply (step_fault false _ [Served; Served; Refused demo_fault])|].
  by apply star_one, (step_request false demo_failing demo_clock demo_expire).
Defined.

Definition demo_session : LabletSessionState :=
  Eval vm_compute in match sessions demo_world !! "s-1" with Some s => s | None => init_state (utc 0) end.
Definition demo_expired : LabletSessionState * list session_event :=
  Eval vm_compute in match expire (demo_clock 0%nat) "timeslot_expired" demo_session with
                     | Ok r => r | Err _ => (demo_session, []) end.
Definition demo_lab : LabRecordState :=
  Eval vm_compute in match labs demo_world !! "r-1" with Some l => l | None => LabRecordSpec.example_record end.

Lemma demo_session_stored : sessions demo_world !! "s-1" = Some demo_session.
Proof. vm_compute. reflexivity. Qed.
Lemma demo_expires : expire (demo_clock 0%nat) "timeslot_expired" demo_session = Ok (demo_expired.1, demo_expired.2).
Proof. vm_compute. reflexivity. Qed.

Lemma expire_not_resumed_witness : exists w1,
  handle_expire demo_clock "s-1" "timeslot_expired" demo_failing = (Err demo_fault, w1) /\
  exists lab, labs w1 !! "r-1" = Some lab /\ active_lablet_session_id lab = Some "s-1".
Proof.
  destruct (expire_not_resumed demo_clock "s-1" "timeslot_expired" demo_failing demo_session demo_expired.1 demo_expired.2
              "r-1" demo_fault demo_session_stored eq_refl ltac:(discriminate) demo_expires eq_refl ltac:(discriminate) eq_refl)
    as (w1 & Hw & _ & Hl & _).
  exists w1. split; [exact Hw|]. exists demo_lab. rewrite Hl. split; vm_compute; reflexivity.
Defined.


Definition demo_busy : CMLWorkerState :=
  match workers demo_world !! "w-1" with Some wk => wk | None => demo_worker end.
Definition demo_ledger : ledger := holders (sessions demo_world) (definitions demo_world) "w-1".
Definition demo_held : WorkerCapacity :=
  Eval vm_compute in match demo_ledger !! "s-1" with Some held => held | None => zero end.

(** The definition asks for one core less than when the session was scheduled. *)
Definition demo_edited : capacity := {|
  cap_cpu := WorkerValues.cpu_cores demo_held - 1; cap_memory := WorkerValues.memory_gb demo_held;
  cap_storage := WorkerValues.storage_gb demo_held |}.

Lemma release_after_edit_witness : exists r wk',
  handle_release demo_clock "w-1" "s-1" demo_edited None demo_world
  = (Ok r, demo_world <| workers := <["w-1" := wk']> (workers demo_world) |>) /\
  "s-1" ∉ session_ids wk' /\ WorkerValues.cpu_cores (allocated_capacity wk') = 1.
Proof.
  assert (workers demo_world !! "w-1" = Some demo_busy) as Hi by (vm_compute; reflexivity).
  destruct (reached_books (fun s => eq_refl) (fun s => eq_refl) (fun s => eq_refl) _ _ _ (demo_reached true) Hi) as [Hid Hk].
  assert (faults demo_world = []) as Hf by (vm_compute; reflexivity).
  assert (demo_ledger !! "s-1" = Some demo_held) as Hm by (vm_compute; reflexivity).
  destruct (release_after_edit (fun s => eq_refl) demo_clock "w-1" "s-1" demo_edited demo_world demo_busy demo_ledger
              demo_held Hf Hi Hid Hk Hm) as (r & wk' & Hw & Hn & Hc & _).
  1-3: split; vm_compute; discriminate.
  exists r, wk'. split; [exact Hw|]. split; [exact Hn|]. rewrite Hc. vm_compute. reflexivity.
Defined.
