(* ===== verification/WorkerCommands.v ===== *)
(** * The worker commands ([control-plane-api/application/commands/worker])

    One program per command handler, over the repositories of [SessionCommands]: what a user
    wants of a worker is written down here, and what the worker controller reports of it.
    The commands that hand out and take back capacity are in [SessionCommands].  The unique
    index of the database on instances is not modelled: of two workers with one instance only
    the insertion is prevented, as [add_async] does it. *)
From S2P Require Import Prelude Programs PyData PyNum Enums Lifecycle WorkerValues WorkerEvents SessionCommands Worker.
Import WorkerStatus.

(** ** The repository ([motor_cml_worker_repository.py]) *)

(** [get_all_async] *)
Definition all_workers : io (list CMLWorkerState) := request (fun w => (Ok (map snd (map_to_list w.(workers))), w)).

(** [get_active_workers_async] *)
Definition active_workers : io (list CMLWorkerState) := request (fun w =>
  (Ok (List.filter (fun s => negb (bool_decide (status s = TERMINATED))) (map snd (map_to_list w.(workers)))), w)).

(** [get_by_status_async] *)
Definition workers_in (st : CMLWorkerStatus) : io (list CMLWorkerState) := request (fun w =>
  (Ok (List.filter (fun s => bool_decide (status s = st)) (map snd (map_to_list w.(workers)))), w)).

(** [find_one({"aws_instance_id": instance})] *)
Definition find_instance (instance : string) : io (option CMLWorkerState) := request (fun w =>
  (Ok (List.find (fun s => bool_decide (aws_instance_id s = Some instance)) (map snd (map_to_list w.(workers)))), w)).

(** [add_async]: an instance that has a worker keeps it. *)
Definition add_worker (s : CMLWorkerState) : io CMLWorkerState :=
  existing ← (if ostr_truthy (aws_instance_id s) then find_instance (default "" (aws_instance_id s)) else mret None);
  match existing with
  | Some existing => mret existing
  | None => _ ← put_worker s; mret s
  end.

(** [delete_async] *)
Definition delete_worker (i : string) : io bool := request (fun w => (Ok true, w <| workers := delete i w.(workers) |>)).

(** ** Answers *)

Definition accepted (data : pydict) : io response := mret (Success 202 data).
Definition created (data : pydict) : io response := mret (Success 201 data).

(** [return self.internal_server_error(f"{prefix}{e}")] *)
Definition internal (prefix : string) (e : exn) : io response := mret (InternalServerError (prefix +:+ exn_str e)).

(** The worker, or the answer that there is none. *)
Definition with_worker (i : string) (missing : response) (k : CMLWorkerState -> io response) : io response :=
  found ← get_worker i;
  match found with Some worker => k worker | None => mret missing end.

Definition cml_worker_missing (i : string) : response := NotFound "CMLWorker" ("CML Worker not found: " +:+ i).
Definition worker_missing (i : string) : response := NotFound ("Worker " +:+ i) ("Worker " +:+ i +:+ " not found").
Definition licensed_worker_missing (i : string) : response := NotFound "Worker" ("Worker " +:+ i +:+ " not found").
Definition reported_worker_missing (i : string) : response := NotFound "CMLWorker" ("Worker " +:+ i +:+ " not found").

Definition status_str (worker : CMLWorkerState) : pyval := PStr (CMLWorkerStatus_value (status worker)).
Definition desired_str (worker : CMLWorkerState) : pyval := PStr (CMLWorkerStatus_value (desired_status worker)).

Section Handlers.
Context `{RootId CMLWorkerState} (c : nat -> clock).
(** [OperationResult.error_message], of the framework. *)
Context (error_message : response -> option string).

(** [worker.id()], the statuses and a message. *)
Definition report_worker (worker : CMLWorkerState) (message : string) : io response :=
  i ← lift (aggregate_id worker);
  ok [("id", PStr i); ("status", status_str worker); ("desired_status", desired_str worker); ("message", PStr message)].

(** ** What is wanted of a worker *)

(** [StartCMLWorkerCommand] *)
Definition handle_start (i : string) (started_by : option string) (is_auto_resume : bool) (reason : option string) : io response :=
  try_ (with_worker i (cml_worker_missing i) (fun worker =>
    if bool_decide (status worker = TERMINATED) then mret (BadRequest ("Cannot start terminated CML Worker " +:+ i))
    else if bool_decide (desired_status worker = RUNNING) then report_worker worker "Already has desired_status=RUNNING"
    else
      let resume_reason := ostr_or reason (if is_auto_resume then "auto" else "manual") in
      let requested_by := if is_auto_resume then None else started_by in
      '(_, worker, _) ← lift (update_desired_status (c 0) RUNNING requested_by (Some resume_reason) worker);
      '(worker, _) ← lift (resume (c 1) resume_reason requested_by worker);
      _ ← put_worker worker;
      report_worker worker "Start requested - worker-controller will reconcile")) (internal "Unexpected error: ").

(** [StopCMLWorkerCommand] *)
Definition handle_stop (i : string) (stopped_by : option string) (is_auto_pause : bool) (reason : option string) : io response :=
  try_ (with_worker i (cml_worker_missing i) (fun worker =>
    if bool_decide (status worker = TERMINATED) then mret (BadRequest ("Cannot stop terminated CML Worker " +:+ i))
    else if bool_decide (desired_status worker = STOPPED) then report_worker worker "Already has desired_status=STOPPED"
    else
      let pause_reason := ostr_or reason (if is_auto_pause then "idle_timeout" else "manual") in
      let requested_by := if is_auto_pause then None else stopped_by in
      '(_, worker, _) ← lift (update_desired_status (c 0) STOPPED requested_by (Some pause_reason) worker);
      '(worker, _) ← lift (pause (c 1) pause_reason requested_by None worker);
      _ ← put_worker worker;
      report_worker worker "Stop requested - worker-controller will reconcile")) (internal "Unexpected error: ").

(** [PauseWorkerCommand], which goes on to [StopCMLWorkerCommand]. *)
Definition handle_pause (i : string) (is_auto_pause : bool) (reason : option string) : io response :=
  result ← handle_stop i (if is_auto_pause then Some "system" else None) is_auto_pause reason;
  mret (if is_success result then Success 204 [] else BadRequest (ostr_or (error_message result) "Failed to pause worker")).

(** [TerminateCMLWorkerCommand] *)
Definition handle_terminate_worker (i : string) (terminated_by reason : option string) : io response :=
  try_ (with_worker i (cml_worker_missing i) (fun worker =>
    if bool_decide (status worker = TERMINATED) then report_worker worker "Worker is already terminated"
    else if bool_decide (desired_status worker = TERMINATED) then report_worker worker "Already has desired_status=TERMINATED"
    else
      '(_, worker, _) ← lift (update_desired_status (c 0) TERMINATED terminated_by (Some (ostr_or reason "manual")) worker);
      '(worker, _) ← lift (terminate (c 1) terminated_by worker);
      _ ← put_worker worker;
      report_worker worker "Terminate requested - worker-controller will reconcile")) (internal "Unexpected error: ").

(** [DeleteCMLWorkerCommand] *)
Definition hard_delete (i : string) (deleted_by : option string) (worker : CMLWorkerState) : io response :=
  '(worker, _) ← lift (terminate (c 0) deleted_by worker);
  deleted ← delete_worker i;
  if deleted : bool then
    ok [("message", PStr "Worker permanently deleted (hard delete)"); ("worker_id", PStr i); ("deleted_by", of_ostr deleted_by)]
  else mret (BadRequest ("Failed to delete worker " +:+ i)).

Definition soft_delete (i : string) (deleted_by : option string) (worker : CMLWorkerState) : io response :=
  '(_, worker, _) ← lift (update_desired_status (c 0) TERMINATED None None worker);
  '(worker, new_status) ← lift (
     if ostr_truthy (aws_instance_id worker)
     then '(_, worker, _) ← update_status (c 1) SHUTTING_DOWN worker; Ok (worker, SHUTTING_DOWN)
     else '(worker, _) ← terminate (c 1) deleted_by worker; Ok (worker, TERMINATED));
  _ ← put_worker worker;
  accepted [("message", PStr "Worker termination initiated (soft delete)"); ("worker_id", PStr i);
            ("desired_status", PStr (CMLWorkerStatus_value TERMINATED)); ("status", PStr (CMLWorkerStatus_value new_status));
            ("has_ec2_instance", PBool (ostr_truthy (aws_instance_id worker)));
            ("note", PStr "Record will be retained for audit. Use force_hard_delete=True for immediate removal.")].

Definition handle_delete (i : string) (force_hard_delete : bool) (deleted_by : option string) : io response :=
  try_ (with_worker i (cml_worker_missing i) (fun worker =>
    if bool_decide (status worker = TERMINATED) then
      ok [("message", PStr "Worker already terminated"); ("worker_id", PStr i);
          ("status", PStr (CMLWorkerStatus_value TERMINATED)); ("terminated_at", iso_or_none (terminated_at worker))]
    else if force_hard_delete then hard_delete i deleted_by worker
    else soft_delete i deleted_by worker)) (internal "Unexpected error: ").

(** [DrainWorkerCommand] *)
Definition handle_drain (i reason requested_by : string) : io response :=
  try_ (with_worker i (NotFound "CMLWorker" i) (fun worker =>
    if negb (bool_decide (status worker = RUNNING)) then
      mret (Conflict ("Cannot drain worker in status '" +:+ CMLWorkerStatus_value (status worker)
                        +:+ "'. Only RUNNING workers can be drained."))
    else
      '(_, worker, _) ← lift (update_status (c 0) DRAINING worker);
      '(_, worker, _) ← lift (update_desired_status (c 1) STOPPED (Some requested_by) (Some reason) worker);
      _ ← put_worker worker;
      ok [("worker_id", PStr i); ("status", PStr "draining"); ("desired_status", PStr "stopped"); ("reason", PStr reason);
          ("requested_by", PStr requested_by); ("drained_at", PIso (now (c 2)))])) (internal "Failed to drain worker: ").

(** [EnableIdleDetectionCommand] and [DisableIdleDetectionCommand] *)
Definition detection_answer (i : string) (enabled : bool) (message : string) : io response :=
  ok [("worker_id", PStr i); ("idle_detection_enabled", PBool enabled); ("message", PStr message)].

Definition handle_enable_detection (i : string) (enabled_by : option string) : io response :=
  try_ (with_worker i (worker_missing i) (fun worker =>
    if is_idle_detection_enabled worker then detection_answer i true "Idle detection already enabled"
    else
      '(worker, _) ← lift (enable_idle_detection (c 0) enabled_by worker);
      _ ← put_worker worker;
      detection_answer i true "Idle detection enabled successfully")) (internal "Failed to enable idle detection: ").

Definition handle_disable_detection (i : string) (disabled_by : option string) : io response :=
  try_ (with_worker i (worker_missing i) (fun worker =>
    if negb (is_idle_detection_enabled worker) then detection_answer i false "Idle detection already disabled"
    else
      '(worker, _) ← lift (disable_idle_detection (c 0) disabled_by worker);
      _ ← put_worker worker;
      detection_answer i false "Idle detection disabled successfully")) (internal "Failed to disable idle detection: ").

(** [RequestWorkerRefreshCommand] *)
Definition handle_refresh (i : string) : io response :=
  with_worker i (reported_worker_missing i) (fun worker =>
    if negb (bool_decide (status worker = RUNNING)) then
      mret (BadRequest ("Cannot refresh worker in " +:+ CMLWorkerStatus_value (status worker) +:+ " state. Worker must be RUNNING."))
    else
      '(worker, _) ← lift (request_refresh (c 0) worker);
      _ ← put_worker worker;
      accepted [("worker_id", PStr i); ("refresh_requested", PBool true);
                ("message", PStr "Refresh requested. Data will be updated on next reconciliation cycle.")]).

(** [RequestWorkerSyncCommand] *)
Definition handle_sync (i scope : string) (include_labs : bool) (reason requested_by : string) : io response :=
  with_worker i (reported_worker_missing i) (fun worker =>
    if bool_decide (status worker = TERMINATED) then
      mret (BadRequest "Cannot sync a terminated worker — no resources to reconcile")
    else
      '(worker, _) ← lift (request_sync (c 0) (PIso (now (c 0))) requested_by scope include_labs reason worker);
      _ ← put_worker worker;
      accepted [("worker_id", PStr i); ("sync_requested", PBool true); ("scope", PStr scope); ("include_labs", PBool include_labs);
                ("message", PStr "Synchronization requested. Worker state will be reconciled immediately.")]).

(** [TriggerLabDiscoveryCommand] *)
Definition handle_trigger_discovery (i : string) (lab_ids : list string) (source : string) : io response :=
  if negb (str_truthy i) then mret (BadRequest "worker_id is required")
  else
    with_worker i (NotFound "CMLWorker" i) (fun worker =>
      let triggered_at := PIso (now (c 0)) in
      '(worker, _) ← lift (trigger_lab_discovery (c 0) lab_ids source triggered_at worker);
      _ ← put_worker worker;
      accepted [("worker_id", PStr i); ("lab_ids", PList (map PStr lab_ids)); ("source", PStr source); ("triggered_at", triggered_at)]).

(** ** Licences *)

(** [CMLWorkerStatus.<name>], for a name that the class may not have. *)
Definition member_name (s : CMLWorkerStatus) : string :=
  match s with
  | PENDING => "PENDING" | PROVISIONING => "PROVISIONING" | STARTING => "STARTING" | RUNNING => "RUNNING"
  | DRAINING => "DRAINING" | STOPPING => "STOPPING" | STOPPED => "STOPPED" | TERMINATING => "TERMINATING"
  | SHUTTING_DOWN => "SHUTTING_DOWN" | TERMINATED => "TERMINATED" | FAILED => "FAILED" | UNKNOWN => "UNKNOWN"
  end.

Definition member (name : string) : res CMLWorkerStatus :=
  match List.find (fun s => String.eqb (member_name s) name) CMLWorkerStatus_members with
  | Some s => Ok s
  | None => Err (AttributeError name)
  end.

(** [\[CMLWorkerStatus.RUNNING, CMLWorkerStatus.READY\]] *)
Definition licensable : res (list CMLWorkerStatus) :=
  running ← member "RUNNING"; ready ← member "READY"; Ok [running; ready].

(** [RegisterCMLWorkerLicenseCommand] *)
Definition handle_register (i token_ : string) (reregister : bool) (initiated_by : option string) : io response :=
  with_worker i (licensed_worker_missing i) (fun worker =>
    statuses ← lift licensable;
    if negb (bool_decide (status worker ∈ statuses)) then
      mret (BadRequest ("Worker must be running to register license (current: " +:+ CMLWorkerStatus_value (status worker) +:+ ")"))
    else if operation_in_progress (license worker) then mret (Conflict "License operation already in progress")
    else if bool_decide (pending_operation (license worker) = Some "register") then
      mret (Conflict "License registration already pending")
    else
      try_ ('(worker, _) ← lift (request_license_registration (c 0) token_ initiated_by reregister worker);
            _ ← put_worker worker;
            accepted [("message", PStr "License registration queued"); ("worker_id", PStr i); ("status", PStr "pending");
                      ("note", PStr "Worker-controller will execute registration. Monitor worker status for completion.")])
           (internal "License registration request failed: ")).

(** [DeregisterCMLWorkerLicenseCommand] *)
Definition handle_deregister (i : string) (initiated_by : option string) : io response :=
  with_worker i (licensed_worker_missing i) (fun worker =>
    statuses ← lift licensable;
    if negb (bool_decide (status worker ∈ statuses)) then
      mret (BadRequest ("Worker must be running to deregister license (current: " +:+ CMLWorkerStatus_value (status worker) +:+ ")"))
    else if negb (bool_decide (l_status (license worker) = LicenseState.REGISTERED)) then
      mret (BadRequest "Worker does not have a registered license")
    else if operation_in_progress (license worker) then mret (Conflict "License operation already in progress")
    else if bool_decide (pending_operation (license worker) = Some "deregister") then
      mret (Conflict "License deregistration already pending")
    else
      try_ ('(worker, _) ← lift (request_license_deregistration (c 0) initiated_by worker);
            _ ← put_worker worker;
            accepted [("message", PStr "License deregistration queued"); ("worker_id", PStr i); ("status", PStr "pending");
                      ("note", PStr "Worker-controller will execute deregistration. Monitor worker status for completion.")])
           (internal "License deregistration request failed: ")).

(** The six reports of [license_status_commands.py]: a method of the aggregate, then its answer. *)
Definition license_report (i : string) (method : pyval -> CMLWorkerState -> result) (answer : pydict) : io response :=
  with_worker i (licensed_worker_missing i) (fun worker =>
    try_ ('(worker, _) ← lift (method (PIso (now (c 0))) worker);
          _ ← put_worker worker;
          ok (("worker_id", PStr i) :: answer)) (internal "")).

Definition handle_start_registration (i : string) (initiated_by : option string) : io response :=
  license_report i (fun t => start_license_registration (c 0) t initiated_by) [("status", PStr "in_progress")].
Definition handle_complete_registration (i registration_status : string) (smart virtual : option string) : io response :=
  license_report i (complete_license_registration (c 0) registration_status smart virtual)
    [("status", PStr "completed"); ("registration_status", PStr registration_status)].
Definition handle_fail_registration (i message : string) (code : option string) : io response :=
  license_report i (fun t => fail_license_registration (c 0) message t code) [("status", PStr "failed"); ("error", PStr message)].
Definition handle_start_deregistration (i : string) (initiated_by : option string) : io response :=
  license_report i (fun t => start_license_deregistration (c 0) t initiated_by) [("status", PStr "in_progress")].
Definition handle_complete_deregistration (i message : string) : io response :=
  license_report i (complete_license_deregistration (c 0) message) [("status", PStr "completed"); ("message", PStr message)].
Definition handle_fail_deregistration (i message : string) : io response :=
  license_report i (fail_license_deregistration (c 0) message) [("status", PStr "failed"); ("error", PStr message)].
End Handlers.

(** * What the worker controller reports
    ([control-plane-api/application/commands/worker])

    The commands that write down what was seen of a worker: its status and its end, its
    instance, its metrics, what CML says, its activity; and the two that put the books right,
    on its capacity and on the workers that are over.  Figures in the reports are numbers. *)
From S2P Require Import Prelude Programs PyFloat PyData PyNum Enums Lifecycle WorkerValues WorkerEvents LabletDefinition.
From S2P Require Import SessionCommands Worker.
Import WorkerStatus.

(** [datetime.fromisoformat(v.replace("Z", "+00:00"))] for a text, and what an invalid one stands for. *)
Definition stamp_or (fallback : datetime) (v : pyval) : res datetime :=
  if negb (truthy v) then Ok fallback
  else match fromisoformat v with Ok d => Ok d | Err (ValueError _) => Ok fallback | Err e => Err e end.

Section Handlers.
Context `{RootId CMLWorkerState} (c : nat -> clock).

(** ** Status *)

(** The [try] of [UpdateCMLWorkerStatusCommand]: the worker with the status, or the refusal. *)
Definition set_status (st : string) (worker : CMLWorkerState) : io (CMLWorkerState + response) :=
  try_ (new_status ← lift (enum_call st);
        '(status_updated, worker, _) ← lift (update_status (c 0) new_status worker);
        _ ← (if status_updated : bool then put_worker worker else mret ());
        mret (inl worker))
    (fun e => match e with ValueError _ => mret (inr (BadRequest ("Invalid status value: " +:+ st))) | e => lift (Err e) end).

(** [UpdateCMLWorkerStatusCommand] *)
Definition handle_update_status (i : string) (status_ instance : option string) (metrics_ : pydict) : io response :=
  try_ (with_worker i (cml_worker_missing i) (fun worker =>
    updated ← (if ostr_truthy status_ then set_status (default "" status_) worker else mret (inl worker));
    match updated with
    | inr refusal => mret refusal
    | inl worker =>
        worker ← (if ostr_truthy instance
                  then '(worker, _) ← lift (assign_instance (c 1) (default "" instance) None None worker);
                       _ ← put_worker worker; mret worker
                  else mret worker);
        worker_id ← lift (aggregate_id worker);
        let status_info := [("worker_id", PStr worker_id); ("status", status_str worker); ("desired_status", desired_str worker);
                            ("instance_state", status_str worker); ("instance_id", PStr (ostr_or (aws_instance_id worker) "none"));
                            ("aws_region", PStr (aws_region worker))] in
        ok (dict_update status_info metrics_)
    end)) (internal "Unexpected error: ").

(** [MarkWorkerTerminatedCommand] *)
Definition handle_mark_terminated (i : string) (terminated_by reason : option string) : io response :=
  try_ (with_worker i (NotFound "CML Worker" ("CML Worker not found: " +:+ i)) (fun worker =>
    if bool_decide (status worker = TERMINATED) then
      ok [("worker_id", PStr i); ("name", PStr (name worker)); ("status", PStr "TERMINATED"); ("already_terminated", PBool true)]
    else
      let old_status := status_str worker in
      '(worker, _) ← lift (terminate (c 0) terminated_by worker);
      _ ← put_worker worker;
      ok [("worker_id", PStr i); ("name", PStr (name worker)); ("old_status", old_status); ("status", PStr "TERMINATED");
          ("terminated_at", PIso (now (c 1))); ("terminated_by", PStr (ostr_or terminated_by "system"));
          ("reason", of_ostr reason); ("already_terminated", PBool false)]))
    (internal "Failed to mark worker as terminated: ").

(** ** Instance and metrics *)

(** [UpdateWorkerEc2DetailsCommand] *)
Definition handle_ec2_details (i : string) (public private itype ami aname adesc adate : option string) : io response :=
  with_worker i (reported_worker_missing i) (fun worker =>
    match update_ec2_instance_details (c 0) public private itype ami aname adesc adate worker with
    | Err e => internal "Failed to update EC2 details: " e
    | Ok (worker, _) =>
        _ ← put_worker worker;
        ok [("worker_id", PStr i); ("ec2_details_updated", PBool true); ("ami_id", of_ostr ami); ("ami_name", of_ostr aname)]
    end).

Definition as_float (v : pyval) : res float := n ← py_num v; float_of_num n.

(** The telemetry part of [UpdateCMLWorkerMetricsCommand], whose errors are logged. *)
Definition note_poll (collected_at : datetime) (poll : option Z) (next_refresh_at : pyval) (worker : CMLWorkerState) : CMLWorkerState :=
  if bool_decide (poll = None) && is_none next_refresh_at then worker
  else
    match (next_refresh ← (if truthy next_refresh_at
                           then match fromisoformat next_refresh_at with
                                | Ok d => Ok (Some d) | Err (ValueError _) => Ok None | Err e => Err e end
                           else Ok None);
           update_telemetry (c 2) collected_at 0 None None poll next_refresh worker) with
    | Ok (worker, _) => worker
    | Err _ => worker
    end.

(** [UpdateCMLWorkerMetricsCommand] *)
Definition handle_metrics (i : string) (collected : pyval) (ec2_metrics cml_metrics : pydict) (poll : option Z) (next_refresh_at : pyval)
    : io response :=
  with_worker i (reported_worker_missing i) (fun worker =>
    let cpu := py_or (pd_get "cpu_utilization" ec2_metrics) (pd_get "cpu_percent" cml_metrics) in
    let memory := pd_get "memory_percent" cml_metrics in
    collected_at ← lift (stamp_or (now (c 0)) collected);
    worker ← (if is_none cpu && is_none memory then mret worker
              else
                cpu ← lift (as_float (py_or cpu (PFloat fzero)));
                memory ← lift (as_float (py_or memory (PFloat fzero)));
                '(worker, _) ← lift (update_cloudwatch_metrics (c 1) cpu memory (Some collected_at) worker);
                mret worker);
    _ ← put_worker (note_poll collected_at poll next_refresh_at worker);
    ok [("worker_id", PStr i); ("metrics_updated", PBool true); ("collected_at", PIso collected_at)]).

(** [EnableWorkerDetailedMonitoringCommand], whose answer is [True]. *)
Definition handle_enable_monitoring (i : string) : io response :=
  try_ (with_worker i (NotFound "CMLWorker" ("Worker not found: " +:+ i)) (fun worker =>
    '(_, worker, _) ← lift (update_cloudwatch_monitoring (c 0) true worker);
    _ ← put_worker worker;
    ok [("result", PBool true)])) (internal "Unexpected error: ").

(** ** What CML says ([UpdateWorkerCmlDataCommand]) *)

(** The service status; an error is logged. *)
Definition note_service (ready_ : bool) (worker : CMLWorkerState) : CMLWorkerState :=
  match update_service_status (c 1) (if ready_ then ServiceStatus.AVAILABLE else ServiceStatus.STARTING) None worker with
  | Ok (_, worker, _) => worker
  | Err _ => worker
  end.

(** [x.get(k1) or x.get(k2)] *)
Definition get_either (k1 k2 : string) (d : pydict) : pyval := py_or (pd_get k1 d) (pd_get k2 d).

(** The limit of the licence on nodes, when there is one. *)
Definition node_limit (license_info : option pydict) : res (option Z) :=
  match license_info with
  | Some ((_ :: _) as info) =>
      match pd_get_or "product_license" (PDict []) info with
      | PDict product =>
          let limit := pd_get "node_limit" product in
          if truthy limit then n ← py_num limit; n ← num_int n; Ok (if 0 <? n then Some n else None) else Ok None
      | _ => Ok None
      end
  | _ => Ok None
  end.

(** [int(bytes / 1024**3)] *)
Definition gigabytes (v : pyval) : res Z := n ← py_num v; q ← num_truediv n (NInt (1024 ^ 3)); trunc q.

(** The capacity that the hardware has, when CML tells all of it. *)
Definition reported_capacity (info : pydict) (license_info : option pydict) : res (option (Z * Z * Z * option Z)) :=
  let cpu_count := get_either "all_cpu_count" "cpu_count" info in
  let memory_total := get_either "all_memory_total" "memory_total" info in
  let disk_total := get_either "all_disk_total" "disk_total" info in
  if truthy cpu_count && truthy memory_total && truthy disk_total then
    n ← py_num cpu_count; cpu ← num_int n;
    memory ← gigabytes memory_total;
    storage ← gigabytes disk_total;
    limit ← node_limit license_info;
    Ok (Some (cpu, memory, storage, limit))
  else Ok None.

Definition same_capacity (declared : option WorkerCapacity) (cpu memory storage : Z) (nodes : option Z) : bool :=
  match declared with
  | Some d => (cpu_cores d =? cpu) && (memory_gb d =? memory) && (storage_gb d =? storage) && bool_decide (max_nodes d = nodes)
  | None => false
  end.

(** The capacity is written down when it differs; an error is logged. *)
Definition note_capacity (info : pydict) (license_info : option pydict) (worker : CMLWorkerState) : CMLWorkerState :=
  match reported_capacity info license_info with
  | Ok (Some (cpu, memory, storage, nodes)) =>
      if same_capacity (declared_capacity worker) cpu memory storage nodes then worker
      else match update_capacity (c 2) (template_name worker) cpu memory storage nodes worker with
           | Ok (worker, _) => worker
           | Err _ => worker
           end
  | _ => worker
  end.

Definition handle_cml_data (i : string) (report : Worker.cml_report) (collected : pyval) : io response :=
  with_worker i (reported_worker_missing i) (fun worker =>
    synced_at ← lift (stamp_or (now (c 0)) collected);
    match update_cml_metrics (c 0) None {| r_version := r_version report; r_system_info := r_system_info report;
            r_system_health := r_system_health report; r_license_info := r_license_info report; r_ready := r_ready report;
            r_uptime := r_uptime report; r_labs_count := r_labs_count report; r_synced_at := Some synced_at |} worker with
    | Err e => internal "Failed to update CML data: " e
    | Ok (worker, _) =>
        let worker := note_capacity (r_system_info report) (r_license_info report) (note_service (r_ready report) worker) in
        '(worker, _) ← lift (match refresh_requested_at worker with
                             | Some _ => clear_refresh_request (c 3) worker
                             | None => Ok (worker, [])
                             end);
        _ ← put_worker worker;
        ok [("worker_id", PStr i); ("cml_data_updated", PBool true); ("cml_version", of_ostr (r_version report));
            ("ready", PBool (r_ready report)); ("collected_at", PIso synced_at)]
    end).

(** ** Connections and activity *)

(** [UpdateWorkerWsStatusCommand]; the event to the browsers is left out. *)
Definition handle_ws_status (i : string) (connected : bool) : io response :=
  with_worker i (worker_missing i) (fun worker =>
    _ ← put_worker (worker <| ws_connected := connected |> <| updated_at := now (c 0) |>);
    ok [("worker_id", PStr i); ("ws_connected", PBool connected);
        ("event_type", PStr (if connected then "worker.ws.connected" else "worker.ws.disconnected"))]).

(** The later of [latest] and the time of an event, when it has one. *)
Definition later_activity (latest : datetime) (event : pydict) : datetime :=
  let ts := get_either "timestamp" "collected_at" event in
  if truthy ts then
    match fromisoformat ts with
    | Ok parsed => match dt_ltb latest parsed with Ok true => parsed | _ => latest end
    | Err _ => latest
    end
  else latest.

(** [ReportActivityEventsCommand] *)
Definition handle_activity_events (i : string) (events : list pydict) (source : string) : io response :=
  with_worker i (worker_missing i) (fun worker =>
    match events with
    | [] => ok [("worker_id", PStr i); ("events_processed", PInt 0); ("source", PStr source)]
    | _ =>
        let t := now (c 0) in
        let last_activity_at := fold_left later_activity events t in
        '(worker, _) ← lift (update_activity (c 1) events (Some last_activity_at) t None None 10 worker);
        _ ← put_worker worker;
        ok [("worker_id", PStr i); ("events_processed", PInt (Z.of_nat (length events)));
            ("last_activity_at", PIso last_activity_at); ("source", PStr source)]
    end).

(** [UpdateWorkerActivityCommand] *)
Definition handle_update_activity (i : string) (activity : option datetime) (recent : list pydict) (check next_check target : option datetime)
    : io response :=
  try_ (with_worker i (worker_missing i) (fun worker =>
    '(worker, _) ← lift (update_activity (c 1) recent activity (default (now (c 0)) check) next_check target 10 worker);
    _ ← put_worker worker;
    mret (Success 204 []))) (fun e => mret (BadRequest ("Error updating activity: " +:+ exn_str e))).

(** ** Tags *)

(** [worker.state.tags]: the state has [aws_tags] only. *)
Definition state_tags (worker : CMLWorkerState) : res (dict string) := Err (no_attribute "tags").

(** [UpdateCMLWorkerTagsCommand] *)
Definition handle_update_tags (i : string) (tags : dict string) : io response :=
  match tags with
  | [] => mret (BadRequest "No tags provided to update")
  | _ =>
      try_ (with_worker i (cml_worker_missing i) (fun worker =>
        current_tags ← lift (state_tags worker);
        let updated_tags := dict_update current_tags tags in
        _ ← put_worker worker;
        ok (map (fun '(k, v) => (k, PStr v)) updated_tags))) (internal "Unexpected error: ")
  end.

(** ** The books *)

(** [CAPACITY_HOLDING_STATUSES] *)
Definition CAPACITY_HOLDING_STATUSES : list SessionStatus.LabletSessionStatus :=
  [SessionStatus.PENDING; SessionStatus.SCHEDULED; SessionStatus.INSTANTIATING; SessionStatus.READY; SessionStatus.RUNNING;
   SessionStatus.COLLECTING; SessionStatus.GRADING; SessionStatus.STOPPING].

(** What the loop of [RecalculateWorkerCapacityCommand] adds up. *)
Record tally := {
  active_session_ids : list string;
  stale_session_ids : list string;
  stale_reasons : pydict;
  total : capacity;
  total_nodes : option Z
}.

Definition no_tally : tally :=
  {| active_session_ids := []; stale_session_ids := []; stale_reasons := []; total := no_capacity; total_nodes := None |}.

Definition stale (session_id reason : string) (t : tally) : tally :=
  {| active_session_ids := active_session_ids t; stale_session_ids := stale_session_ids t ++ [session_id];
     stale_reasons := dict_set session_id (PStr reason) (stale_reasons t); total := total t; total_nodes := total_nodes t |}.

(** An active session, with what its definition requires when it can be read. *)
Definition active (session_id : string) (definition : option LabletDefinitionState) (t : tally) : tally :=
  let k := match definition with Some d => required_capacity d | None => no_capacity end in
  {| active_session_ids := active_session_ids t ++ [session_id]; stale_session_ids := stale_session_ids t;
     stale_reasons := stale_reasons t;
     total := {| cap_cpu := cap_cpu (total t) + cap_cpu k; cap_memory := cap_memory (total t) + cap_memory k;
                 cap_storage := cap_storage (total t) + cap_storage k |};
     total_nodes := match definition with
                    | Some d => Some (oint0 (total_nodes t) + LabletDefinition.node_count d)
                    | None => total_nodes t
                    end |}.

Definition weigh (session_id : string) (t : tally) : io tally :=
  found ← get_session session_id;
  match found with
  | None => mret (stale session_id "session_not_found" t)
  | Some session =>
      if negb (bool_decide (LabletSession.status session ∈ CAPACITY_HOLDING_STATUSES)) then
        mret (stale session_id ("terminal_status:" +:+ SessionStatus.LabletSessionStatus_value (LabletSession.status session)) t)
      else
        definition ← (if str_truthy (LabletSession.definition_id session)
                      then get_definition (LabletSession.definition_id session) else mret None);
        mret (active session_id definition t)
  end.

Fixpoint weigh_all (session_ids : list string) (t : tally) : io tally :=
  match session_ids with
  | [] => mret t
  | session_id :: session_ids => t ← weigh session_id t; weigh_all session_ids t
  end.

(** [RecalculateWorkerCapacityCommand] *)
Definition handle_recalculate (i requested_by : string) : io response :=
  with_worker i (NotFound "CMLWorker" i) (fun worker =>
    let old_allocated := WorkerCapacity_to_dict (allocated_capacity worker) in
    t ← weigh_all (session_ids worker) no_tally;
    '(worker, _) ← lift (recalculate_capacity (c 0) (cap_cpu (total t)) (cap_memory (total t)) (cap_storage (total t)) (total_nodes t)
                           (active_session_ids t) (stale_session_ids t) worker);
    _ ← put_worker worker;
    available ← lift (available_capacity worker);
    ok [("worker_id", PStr i); ("old_allocated_capacity", PDict old_allocated);
        ("new_allocated_capacity", PDict (WorkerCapacity_to_dict (allocated_capacity worker)));
        ("available_capacity", of_odict (WorkerCapacity_to_dict <$> available));
        ("active_session_ids", PList (map PStr (active_session_ids t)));
        ("stale_sessions_removed", PList (map PStr (stale_session_ids t))); ("stale_reasons", PDict (stale_reasons t));
        ("requested_by", PStr requested_by)]).

(** *** [CleanupTerminatedWorkersCommand] *)

(** Whether a worker was over before [cutoff_date]. *)
Definition long_over (cutoff_date : datetime) (worker : CMLWorkerState) : res bool :=
  if negb (bool_decide (status worker = TERMINATED)) then Ok false
  else match terminated_at worker with None => Ok false | Some t => dt_ltb t cutoff_date end.

Fixpoint res_filter {A} (f : A -> res bool) (l : list A) : res (list A) :=
  match l with
  | [] => Ok []
  | x :: l => b ← f x; l ← res_filter f l; Ok (if b : bool then x :: l else l)
  end.

(** The ids deleted, and the errors. *)
Definition clean (dry_run : bool) (worker_id : string) (r : list string * list string) : io (list string * list string) :=
  try_ (deleted ← (if dry_run then mret true else delete_worker worker_id);
        mret (if deleted : bool then (r.1 ++ [worker_id], r.2)
              else (r.1, r.2 ++ ["Failed to delete worker " +:+ worker_id])))
    (fun e => mret (r.1, r.2 ++ ["Error deleting " +:+ worker_id +:+ ": " +:+ exn_str e])).

Fixpoint clean_each (dry_run : bool) (workers : list CMLWorkerState) (r : list string * list string) : io (list string * list string) :=
  match workers with
  | [] => mret r
  | worker :: workers => i ← lift (aggregate_id worker); r ← clean dry_run i r; clean_each dry_run workers r
  end.

Definition count (l : list string) : pyval := PInt (Z.of_nat (length l)).

Definition handle_cleanup (retention_days : Z) (dry_run : bool) : io response :=
  let cutoff_date := dt_add (now (c 0)) (- seconds (retention_days * 86400)) in
  try_ (
    everyone ← all_workers;
    terminated_workers ← lift (res_filter (long_over cutoff_date) everyone);
    match terminated_workers with
    | [] =>
        ok [("message", PStr "No workers eligible for cleanup"); ("workers_found", PInt 0); ("workers_deleted", PInt 0);
            ("retention_days", PInt retention_days); ("cutoff_date", PIso cutoff_date); ("dry_run", PBool dry_run)]
    | _ =>
        '(deleted, errors) ← clean_each dry_run terminated_workers ([], []);
        ok [("message", PStr (if dry_run then "Cleanup simulation" else "Cleanup complete"));
            ("workers_found", PInt (Z.of_nat (length terminated_workers))); ("workers_deleted", count deleted);
            ("workers_skipped", count errors); ("retention_days", PInt retention_days); ("cutoff_date", PIso cutoff_date);
            ("dry_run", PBool dry_run); ("deleted_worker_ids", PList (map PStr deleted));
            ("errors", match errors with [] => PNone | _ => PList (map PStr errors) end)]
    end) (internal "Cleanup failed: ").
End Handlers.
