(* ===== verification/SystemSettings.v ===== *)
(** * System settings
    ([control-plane-api/domain/entities/system_settings.py],
    [application/services/system_configuration_service.py] and the command and the query on them)

    One document holds what an operator may change at run time; the static settings of the
    process are to stand in where it says nothing.  Values have the types that are declared. *)
From S2P Require Import Prelude PyData Programs.

(** ** The document *)
Record WorkerProvisioningSettings := {
  wp_ami_name_default : string;
  wp_ami_ids : dict string;
  wp_ami_names : dict string;
  wp_instance_type : string;
  wp_security_group_ids : list string;
  wp_subnet_id : option string
}.

Record MonitoringSettings := { mo_worker_metrics_poll_interval_seconds : Z }.
Record IdleDetectionSettings := { id_enabled : bool; id_timeout_minutes : option Z }.
Record DiscoverySettings := {
  di_enabled : bool;
  di_regions : list string;
  di_ami_name_pattern : string;
  di_scan_interval_seconds : Z
}.

Record SystemSettingsState := {
  sy_id : string;
  worker_provisioning : WorkerProvisioningSettings;
  monitoring : MonitoringSettings;
  idle_detection : IdleDetectionSettings;
  discovery : DiscoverySettings;
  sy_updated_at : datetime;
  sy_updated_by : option string
}.

(** [SystemSettingsState.__init__]; [small] is [Ec2InstanceType.SMALL.value]. *)
Definition default_provisioning (small : string) : WorkerProvisioningSettings := {|
  wp_ami_name_default := "my-cml2.7.0-lablet-v0.1.0";
  wp_ami_ids := [("us-east-1", "ami-0123456789abcdef0"); ("us-west-2", "ami-0123456789abcdef0")];
  wp_ami_names := [("us-east-1", "CML-2.7.0-Ubuntu-22.04"); ("us-west-2", "CML-2.7.0-Ubuntu-22.04")];
  wp_instance_type := small; wp_security_group_ids := ["sg-0123456789abcdef0"]; wp_subnet_id := None |}.
Definition default_monitoring : MonitoringSettings := {| mo_worker_metrics_poll_interval_seconds := 300 |}.
Definition default_idle_detection : IdleDetectionSettings := {| id_enabled := true; id_timeout_minutes := Some 60 |}.
Definition default_discovery : DiscoverySettings :=
  {| di_enabled := true; di_regions := ["us-east-1"]; di_ami_name_pattern := "cisco-cml2.9*"; di_scan_interval_seconds := 300 |}.

Definition default_settings (small : string) (t : datetime) : SystemSettingsState := {|
  sy_id := "default"; worker_provisioning := default_provisioning small; monitoring := default_monitoring;
  idle_detection := default_idle_detection; discovery := default_discovery; sy_updated_at := t; sy_updated_by := Some "system" |}.

(** [SystemSettings.update] *)
Definition update_settings (t : datetime) (wp : option WorkerProvisioningSettings) (mo : option MonitoringSettings)
    (idle : option IdleDetectionSettings) (di : option DiscoverySettings) (by_ : option string) (s : SystemSettingsState)
    : SystemSettingsState := {|
  sy_id := sy_id s; worker_provisioning := default (worker_provisioning s) wp; monitoring := default (monitoring s) mo;
  idle_detection := default (idle_detection s) idle; discovery := default (discovery s) di;
  sy_updated_at := t; sy_updated_by := by_ |}.

(** ** [dataclasses.replace(current, **changes)] *)

Definition unexpected (k : string) : exn := TypeError ("__init__() got an unexpected keyword argument '" +:+ k +:+ "'").

Definition set_provisioning (s : WorkerProvisioningSettings) (p : string * pyval) : res WorkerProvisioningSettings :=
  let '(k, v) := p in
  let '{| wp_ami_name_default := ami; wp_ami_ids := ids; wp_ami_names := names; wp_instance_type := itype;
          wp_security_group_ids := groups; wp_subnet_id := subnet |} := s in
  if String.eqb k "ami_name_default" then x ← as_str v; Ok (Build_WorkerProvisioningSettings x ids names itype groups subnet)
  else if String.eqb k "ami_ids" then x ← as_strs v; Ok (Build_WorkerProvisioningSettings ami x names itype groups subnet)
  else if String.eqb k "ami_names" then x ← as_strs v; Ok (Build_WorkerProvisioningSettings ami ids x itype groups subnet)
  else if String.eqb k "instance_type" then x ← as_str v; Ok (Build_WorkerProvisioningSettings ami ids names x groups subnet)
  else if String.eqb k "security_group_ids" then x ← as_str_list v; Ok (Build_WorkerProvisioningSettings ami ids names itype x subnet)
  else if String.eqb k "subnet_id" then x ← as_ostr v; Ok (Build_WorkerProvisioningSettings ami ids names itype groups x)
  else Err (unexpected k).

Definition set_monitoring (s : MonitoringSettings) (p : string * pyval) : res MonitoringSettings :=
  if String.eqb p.1 "worker_metrics_poll_interval_seconds"
  then x ← as_int p.2; Ok {| mo_worker_metrics_poll_interval_seconds := x |} else Err (unexpected p.1).

Definition set_idle_detection (s : IdleDetectionSettings) (p : string * pyval) : res IdleDetectionSettings :=
  if String.eqb p.1 "enabled" then x ← as_bool p.2; Ok {| id_enabled := x; id_timeout_minutes := id_timeout_minutes s |}
  else if String.eqb p.1 "timeout_minutes" then x ← as_oint p.2; Ok {| id_enabled := id_enabled s; id_timeout_minutes := x |}
  else Err (unexpected p.1).

Definition set_discovery (s : DiscoverySettings) (p : string * pyval) : res DiscoverySettings :=
  let '(k, v) := p in
  let '{| di_enabled := on; di_regions := regions; di_ami_name_pattern := pattern; di_scan_interval_seconds := interval |} := s in
  if String.eqb k "enabled" then x ← as_bool v; Ok (Build_DiscoverySettings x regions pattern interval)
  else if String.eqb k "regions" then x ← as_str_list v; Ok (Build_DiscoverySettings on x pattern interval)
  else if String.eqb k "ami_name_pattern" then x ← as_str v; Ok (Build_DiscoverySettings on regions x interval)
  else if String.eqb k "scan_interval_seconds" then x ← as_int v; Ok (Build_DiscoverySettings on regions pattern x)
  else Err (unexpected k).

Fixpoint replace {A} (set : A -> string * pyval -> res A) (current : A) (changes : pydict) : res A :=
  match changes with [] => Ok current | p :: changes => next ← set current p; replace set next changes end.

(** [None] unless there are changes. *)
Definition replaced {A} (set : A -> string * pyval -> res A) (current : A) (changes : option pydict) : res (option A) :=
  match changes with
  | Some ((_ :: _) as changes) => next ← replace set current changes; Ok (Some next)
  | _ => Ok None
  end.

(** ** The repository

    It serves or it fails; a missing document is made by the first who asks. *)
Record settings_store := { document : option SystemSettingsState; outage : option exn }.
Abbreviation sio := (prog settings_store).

Section Settings.
Context (small : string) (t : datetime).

(** [get_default_async] *)
Definition get_default : sio SystemSettingsState := fun w =>
  match outage w, document w with
  | Some e, _ => (Err e, w)
  | None, Some s => (Ok s, w)
  | None, None => let s := default_settings small t in (Ok s, {| document := Some s; outage := None |})
  end.

Definition put_settings (s : SystemSettingsState) : sio () := fun w =>
  match outage w with Some e => (Err e, w) | None => (Ok (), {| document := Some s; outage := None |}) end.

(** [UpdateSystemSettingsCommand]: the state it answers with. *)
Definition handle_update_settings (wp mo idle di : option pydict) (by_ : option string) : sio (SystemSettingsState + string) :=
  try_ (s ← get_default;
        wp ← lift (replaced set_provisioning (worker_provisioning s) wp);
        mo ← lift (replaced set_monitoring (monitoring s) mo);
        idle ← lift (replaced set_idle_detection (idle_detection s) idle);
        di ← lift (replaced set_discovery (discovery s) di);
        let s := update_settings t wp mo idle di by_ s in
        _ ← put_settings s;
        mret (inl s)) (fun e => mret (inr (exn_str e))).

(** [GetSystemSettingsQuery] *)
Definition query_settings : sio (SystemSettingsState + string) :=
  try_ (s ← get_default; mret (inl s)) (fun e => mret (inr (exn_str e))).

(** ** Effective settings ([SystemConfigurationService]) *)

(** [_get_dynamic_settings] *)
Definition dynamic_settings : sio (option SystemSettingsState) :=
  try_ (s ← get_default; mret (Some s)) (fun _ => mret None).

(** The static settings that are read here. *)
Record static_settings := {
  st_ami_name_default : string;
  st_ami_ids : dict string;
  st_ami_names : dict string;
  st_instance_type : string;
  st_security_group_ids : list string;
  st_subnet_id : option string;
  st_auto_pause_enabled : bool;
  st_idle_timeout_minutes : Z;
  st_metrics_poll_interval : Z
}.

Record EffectiveWorkerProvisioningSettings := {
  ami_name_default : string;
  eff_instance_type : string;
  eff_security_group_ids : list string;
  eff_subnet_id : option string
}.

Record EffectiveIdleDetectionSettings := { enabled : bool; timeout_minutes : Z; check_interval_seconds : Z }.

Definition get_worker_provisioning_settings (st : static_settings) : sio EffectiveWorkerProvisioningSettings :=
  dynamic ← dynamic_settings;
  mret (match dynamic with
        | Some s =>
            let prov := worker_provisioning s in
            {| ami_name_default := if str_truthy (wp_ami_name_default prov) then wp_ami_name_default prov else st_ami_name_default st;
               eff_instance_type := if str_truthy (wp_instance_type prov) then wp_instance_type prov else st_instance_type st;
               eff_security_group_ids := match wp_security_group_ids prov with [] => st_security_group_ids st | l => l end;
               eff_subnet_id := if ostr_truthy (wp_subnet_id prov) then wp_subnet_id prov else st_subnet_id st |}
        | None =>
            {| ami_name_default := st_ami_name_default st; eff_instance_type := st_instance_type st;
               eff_security_group_ids := st_security_group_ids st; eff_subnet_id := st_subnet_id st |}
        end).

Definition get_idle_detection_settings (st : static_settings) : sio EffectiveIdleDetectionSettings :=
  dynamic ← dynamic_settings;
  mret (match dynamic with
        | Some s =>
            {| enabled := id_enabled (idle_detection s);
               timeout_minutes := default (st_idle_timeout_minutes st) (id_timeout_minutes (idle_detection s));
               check_interval_seconds := st_metrics_poll_interval st |}
        | None =>
            {| enabled := st_auto_pause_enabled st; timeout_minutes := st_idle_timeout_minutes st;
               check_interval_seconds := st_metrics_poll_interval st |}
        end).

Definition get_monitoring_settings (st : static_settings) : sio Z :=
  dynamic ← dynamic_settings;
  mret (match dynamic with
        | Some s =>
            let interval := mo_worker_metrics_poll_interval_seconds (monitoring s) in
            if interval =? 0 then st_metrics_poll_interval st else interval
        | None => st_metrics_poll_interval st
        end).
End Settings.

(** * Idle detection
    ([control-plane-api/application/commands/worker/detect_worker_idle_command.py],
    [queries/get_worker_idle_status_query.py], [utils/telemetry_filter.py],
    [domain/services/idle_detection_service.py])

    The worker controller hands in what users did on a worker; the control plane keeps the
    latest of it, decides whether the worker is idle, and pauses it. *)
From S2P Require Import Prelude Programs PyFloat PySort PyData PyNum Enums WorkerValues.
From S2P Require Import SessionCommands Worker WorkerCommands.
Import Calendar WorkerStatus.
From Stdlib Require Import Floats.SpecFloat.

(** ** Telemetry *)

(** [parse_event_timestamp]: four formats; the text of a naive datetime has the second or the
    fourth, that of an aware one none. *)
Definition parse_event_timestamp (v : pyval) : res datetime :=
  match v with
  | PStr s =>
      match strptime true true s, strptime true false s, strptime false true s, strptime false false s with
      | Some d, _, _, _ | None, Some d, _, _ | None, None, Some d, _ | None, None, None, Some d => Ok d
      | None, None, None, None => Err (ValueError ("Timestamp '" +:+ s +:+ "' does not match any expected format."))
      end
  | PIso d => if dt_aware d then Err (ValueError "Timestamp does not match any expected format.") else Ok d
  | _ => Err (TypeError "strptime() argument 1 must be str")
  end.

Definition event_timestamp (event : pydict) : res datetime := parse_event_timestamp (pd_get_or "timestamp" (PStr "") event).

Section Telemetry.
(** The categories of the settings, and [re.match] on the pattern of the settings. *)
Context (relevant_categories : list string) (excluded : string -> bool).

(** The body of the loop of [filter_relevant_events]: whether an event is kept. *)
Definition relevant (since : option datetime) (event : pydict) : res bool :=
  event_time ← event_timestamp event;
  before ← (match since with Some t => dt_leb event_time t | None => Ok false end);
  if before : bool then Ok false
  else
    let category := pd_get_or "category" (PStr "") event in
    if negb (existsb (eq_str category) relevant_categories) then Ok false
    else if eq_str category "user_activity" then
      data ← (match pd_get_or "data" (PDict []) event with PDict d => Ok d | _ => Err (no_attribute "get") end);
      match pd_get_or "user_id" (PStr "") data with
      | PStr user_id => Ok (negb (excluded user_id))
      | _ => Err (TypeError "expected string or bytes-like object")
      end
    else Ok true.

(** [filter_relevant_events]; an event that cannot be read is left out. *)
Definition filter_relevant_events (since : option datetime) (events : list pydict) : list pydict :=
  List.filter (fun event => match relevant since event with Ok b => b | Err _ => false end) events.
End Telemetry.

(** [l\[:n\]] *)
Definition first_events (n : Z) (events : list pydict) : list pydict := py_take n events.

(** [get_most_recent_events]: the newest first, events of the same time in their order. *)
Definition most_recent_events (max_count : Z) (events : list pydict) : list pydict :=
  match mapM (fun e => t ← event_timestamp e; Ok (dt_us t, e)) events with
  | Ok keyed => first_events max_count (map snd (sort_by Z.ltb (fun p : Z * pydict => - p.1) keyed))
  | Err _ => first_events max_count events
  end.

(** [get_latest_activity_timestamp] *)
Definition latest_activity (events : list pydict) : option datetime :=
  match mapM event_timestamp events with
  | Ok (t :: ts) => Some (fold_left (fun a b => if dt_us a <? dt_us b then b else a) ts t)
  | _ => None
  end.

(** ** Idleness *)

(** [IdleDetectionService.is_worker_idle] *)
Definition is_worker_idle (t : datetime) (threshold : Z) (s : CMLWorkerState) : res bool :=
  let last_activity := match last_activity_at s with
                       | Some d => d
                       | None => match last_resumed_at s with Some d => d | None => created_at s end
                       end in
  us ← dt_sub t (dt_to_utc last_activity);
  m ← in_minutes us;
  Ok (num_leb (NInt threshold) (NFloat m)).

Record idle_settings := {
  categories : list string;
  excluded_user : string -> bool;
  max_stored : Z;
  snooze_minutes : Z
}.

Section Detection.
Context `{RootId CMLWorkerState} (c : nat -> clock) (error_message : response -> option string).
Context (cfg : idle_settings) (settings : EffectiveIdleDetectionSettings).

Definition otime (d : option datetime) : pyval := match d with Some d => PTime d | None => PNone end.

(** [GetWorkerIdleStatusQuery] *)
Definition idle_status (worker : CMLWorkerState) : res pydict :=
  idle_minutes ← calculate_idle_duration (now (c 0)) worker;
  in_snooze ← in_snooze_period (now (c 1)) (snooze_minutes cfg) worker;
  is_idle ← is_worker_idle (now (c 2)) (timeout_minutes settings) worker;
  let auto_pause_enabled := enabled settings && is_idle_detection_enabled worker in
  let eligible := is_idle && auto_pause_enabled && negb in_snooze && bool_decide (status worker = RUNNING) in
  Ok [("worker_id", PStr (id worker)); ("is_idle", PBool is_idle);
      ("idle_minutes", match idle_minutes with Some m => PFloat m | None => PNone end);
      ("idle_threshold_minutes", PInt (timeout_minutes settings)); ("last_activity_at", otime (last_activity_at worker));
      ("in_snooze_period", PBool in_snooze); ("snooze_until", otime (last_resumed_at worker));
      ("auto_pause_enabled", PBool auto_pause_enabled); ("eligible_for_pause", PBool eligible);
      ("next_idle_check_at", otime (next_idle_check_at worker)); ("target_pause_at", otime (target_pause_at worker));
      ("checked_at", PTime (now (c 3)))].

Definition handle_idle_status (i : string) : io response :=
  try_ (with_worker i (worker_missing i) (fun worker => r ← lift (idle_status worker); ok r))
    (fun e => mret (BadRequest ("Error checking idle status: " +:+ exn_str e))).

(** ** Detection ([DetectWorkerIdleCommand]) *)

(** [f"{x:.1f}"] *)
Definition fmt1 (x : float) : string :=
  match x with
  | S754_nan => "nan"
  | S754_infinity s => (if s then "-" else "") +:+ "inf"
  | S754_zero s => (if s then "-" else "") +:+ "0.0"
  | S754_finite s m e =>
      let n := scaled 1 m e in (if s then "-" else "") +:+ pretty (n / 10) +:+ "." +:+ pretty (n mod 10)
  end.

(** [idle_status.get("idle_minutes") or 0], in minutes. *)
Definition minutes_text (idle_minutes : pyval) : string :=
  match idle_minutes with PFloat m => if truthy idle_minutes then fmt1 m else "0.0" | _ => "0.0" end.

Definition new_detection (i : string) : pydict :=
  [("worker_id", PStr i); ("checked_at", PTime (now (c 0))); ("telemetry_fetched", PBool false); ("activity_updated", PBool false);
   ("idle_check_performed", PBool false); ("auto_pause_triggered", PBool false); ("error", PNone)].

Definition with_error (r : pydict) (m : string) : io response := ok (dict_set "error" (PStr m) r).

(** Part of the [try], entered with the result [r]. *)
Definition guarded (r : pydict) (m : io response) : io response := try_ m (fun e => with_error r (exn_str e)).

(** Step 4 *)
Definition auto_pause (i : string) (status_ r : pydict) : io response :=
  if truthy (pd_get "eligible_for_pause" status_) then
    pause_result ← handle_pause (later c 12) error_message i true
      (Some ("Auto-paused after " +:+ minutes_text (pd_get "idle_minutes" status_) +:+ " minutes idle"));
    if is_success pause_result then ok (dict_set "auto_pause_triggered" (PBool true) r)
    else with_error r "Failed to trigger auto-pause"
  else ok r.

(** Step 3 *)
Definition check_status (i : string) (r : pydict) : io response :=
  status_result ← handle_idle_status i;
  match status_result with
  | Success _ status_ =>
      let r := dict_set "idle_check_performed" (PBool true) r in
      let r := dict_update r [("is_idle", pd_get "is_idle" status_); ("idle_minutes", pd_get "idle_minutes" status_);
                              ("eligible_for_pause", pd_get "eligible_for_pause" status_);
                              ("in_snooze_period", pd_get "in_snooze_period" status_)] in
      guarded r (auto_pause i status_ r)
  | _ => with_error r "Failed to check idle status"
  end.

(** When the worker would be paused. *)
Definition target_pause (latest : option datetime) : option datetime :=
  match latest with
  | Some t => if timeout_minutes settings =? 0 then None else Some (dt_add t (minutes (timeout_minutes settings)))
  | None => None
  end.

(** Step 2 *)
Definition note_activity (i : string) (filtered : list pydict) (r : pydict) : io response :=
  let latest := latest_activity filtered in
  let checked_at := now (c 4) in
  update_result ← handle_update_activity (later c 5) i latest (most_recent_events (max_stored cfg) filtered) (Some checked_at)
                    (Some (dt_add checked_at (seconds (check_interval_seconds settings)))) (target_pause latest);
  if negb (is_success update_result) then with_error r "Failed to update activity"
  else
    let r := dict_set "activity_updated" (PBool true) r in
    guarded r (check_status i r).

Definition handle_detect_idle (i : string) (raw_telemetry_events : option (list pydict)) : io response :=
  let r := new_detection i in
  match raw_telemetry_events with
  | None => with_error r "No telemetry events provided"
  | Some raw =>
      let filtered := filter_relevant_events (categories cfg) (excluded_user cfg) None raw in
      let r := dict_set "telemetry_fetched" (PBool true) r in
      guarded r (note_activity i filtered r)
  end.
End Detection.
