(* ===== verification/WorkerFleet.v ===== *)
(** * How workers come to be, and how they are seen
    ([control-plane-api/application/commands/worker]: [create_cml_worker_command.py],
    [request_scale_up_command.py], [internal_bulk_import_workers_command.py];
    [mappers/cml_worker_mapper.py]; the queries for workers)

    A worker is made by a user or by the scheduler, or it is found in EC2.  The controllers
    see it as a document made from the stored state. *)
From S2P Require Import Prelude Programs PyFloat PyData PyNum Enums Lifecycle WorkerValues WorkerEvents SystemSettings.
From S2P Require Import SessionCommands Worker WorkerCommands.
Import Calendar WorkerStatus.

Section Making.
Context `{RootId CMLWorkerState} (c : nat -> clock).

(** ** [CreateCMLWorkerCommand] *)

(** The AMI asked for, else what the static settings and the default name give for the region. *)
Definition pick_ami (st : static_settings) (default_name region : string) (ami aname : option string) : option string * option string :=
  if ostr_truthy ami then (ami, aname)
  else (match dict_get region (st_ami_ids st) with Some i => Some i | None => ami end,
        Some (dict_get_or region default_name (st_ami_names st))).

Definition handle_create_worker (st : static_settings) (prov : EffectiveWorkerProvisioningSettings) (t_init : datetime) (uid : string)
    (name_ region itype : string) (ami aname cml_version created_by_ : option string) : io response :=
  try_ (
    let '(ami, aname) := pick_ami st (ami_name_default prov) region ami aname in
    '(worker, _) ← lift (Worker.create (c 1) t_init uid name_ region itype ami aname None None None PENDING cml_version (Some (now (c 0)))
                           created_by_ None Origin.USER_CREATED);
    saved_worker ← add_worker worker;
    i ← lift (aggregate_id saved_worker);
    created [("id", PStr i); ("name", PStr (name saved_worker)); ("status", status_str saved_worker);
             ("desired_status", desired_str saved_worker); ("aws_region", PStr (aws_region saved_worker));
             ("instance_type", of_ostr (instance_type saved_worker)); ("ami_id", of_ostr (ami_id saved_worker));
             ("ami_name", of_ostr (ami_name saved_worker)); ("created_at", PIso (created_at saved_worker));
             ("message", PStr "Worker created - worker-controller will provision")])
    (internal "Unexpected error: ").

(** ** [RequestScaleUpCommand] *)

(** What is used of a [WorkerTemplate]. *)
Record worker_template := {
  wt_name : string;
  wt_enabled : bool;
  wt_instance_type : string;
  wt_ami_name_pattern : string;
  wt_capacity : WorkerCapacity
}.

(** The static settings that are read here. *)
Record scale_up_settings := {
  aws_access_key_id : option string;
  ami_names : dict string;
  max_workers_per_region : Z
}.

(** [request.aws_region or (settings.aws_access_key_id and "us-east-1")], else the first region that has an AMI. *)
Definition scale_up_region (cfg : scale_up_settings) (asked : option string) : string :=
  if ostr_truthy asked then default "" asked
  else if ostr_truthy (aws_access_key_id cfg) then "us-east-1"
  else match ami_names cfg with (region, _) :: _ => region | [] => "us-east-1" end.

(** [_check_scaling_constraints]: an error lets the request pass. *)
Definition check_scaling_constraints (cfg : scale_up_settings) (region : string) : io (option string) :=
  try_ (
    workers ← active_workers;
    let active_count := Z.of_nat (length (List.filter (fun s => String.eqb (aws_region s) region) workers)) in
    mret (if max_workers_per_region cfg <=? active_count
          then Some ("Maximum workers per region (" +:+ pretty (max_workers_per_region cfg) +:+ ") reached in " +:+ region
                       +:+ ". Active: " +:+ pretty active_count)
          else None)) (fun _ => mret None).

(** [stored]: the template of that name, as [_resolve_template] gets it. *)
Definition handle_scale_up (cfg : scale_up_settings) (stored : res (option worker_template)) (t_init : datetime) (uid : string)
    (template_name_ reason requested_by : string) (region : option string) : io response :=
  try_ (
    match stored with
    | Ok (Some template) =>
        if negb (wt_enabled template) then mret (BadRequest ("Worker template '" +:+ template_name_ +:+ "' is disabled"))
        else
          let region := scale_up_region cfg region in
          constraint_error ← check_scaling_constraints cfg region;
          match constraint_error with
          | Some m => mret (Conflict m)
          | None =>
              let aname := if str_truthy (wt_ami_name_pattern template) then Some (wt_ami_name_pattern template)
                           else dict_get region (ami_names cfg) in
              let k := wt_capacity template in
              '(worker, _) ← lift (Worker.create (c 1) t_init uid ("cml-" +:+ template_name_ +:+ "-" +:+ compact_stamp (now (c 0))) region
                                     (wt_instance_type template) None aname None None None PENDING None None (Some requested_by) None
                                     Origin.USER_CREATED);
              '(worker, _) ← lift (update_capacity (c 2) (Some template_name_) (cpu_cores k) (memory_gb k) (storage_gb k) (max_nodes k) worker);
              saved_worker ← add_worker worker;
              i ← lift (aggregate_id saved_worker);
              created [("id", PStr i); ("name", PStr (name saved_worker)); ("status", status_str saved_worker);
                       ("desired_status", desired_str saved_worker); ("aws_region", PStr (aws_region saved_worker));
                       ("instance_type", of_ostr (instance_type saved_worker)); ("template_name", PStr template_name_);
                       ("reason", PStr reason); ("requested_by", PStr requested_by); ("created_at", PIso (created_at saved_worker));
                       ("message", PStr "Scale-up accepted - worker-controller will provision EC2 instance")]
          end
    | _ => mret (NotFound "WorkerTemplate" template_name_)
    end) (internal "Scale-up failed: ").

(** ** [InternalBulkImportWorkersCommand] *)

(** The workers by instance, in the order they were found; the loop changes them in place. *)
Abbreviation known := (dict CMLWorkerState).

Record import_result := {
  imported : list string;
  skipped : list (string * string);
  updated : list string;
  existing : known
}.

(** The addresses, one after the other. *)
Definition align_addresses (k : nat) (instance_data : pydict) (worker : CMLWorkerState) : res (CMLWorkerState * bool) :=
  let align (k : nat) (field : string) (current : option string) (set : option string -> CMLWorkerState -> result) worker :=
    found ← as_ostr (pd_get field instance_data);
    if ostr_truthy found && negb (bool_decide (found = current))
    then '(worker, _) ← set found worker; Ok (worker, true)
    else Ok (worker, false) in
  '(worker, b1) ← align k "public_ip" (public_ip worker)
                    (fun found => update_ec2_instance_details (c k) found None None None None None None) worker;
  '(worker, b2) ← align (S k) "private_ip" (private_ip worker)
                    (fun found => update_ec2_instance_details (c (S k)) None found None None None None None) worker;
  Ok (worker, b1 || b2).

(** The status, as the state of the instance says. *)
Definition align_status (k : nat) (instance_state : string) (worker : CMLWorkerState) : res (CMLWorkerState * bool) :=
  let differs (st : CMLWorkerStatus) := negb (bool_decide (status worker = st)) in
  let become (st : CMLWorkerStatus) := '(_, worker, _) ← update_status (c k) st worker; Ok (worker, true) in
  if String.eqb instance_state "running" && differs RUNNING then become RUNNING
  else if String.eqb instance_state "stopped" && differs STOPPED then
    '(worker, _) ← become STOPPED;
    '(_, worker, _) ← update_desired_status (c (S k)) STOPPED (Some "system-sync")
                        (Some "Aligned with actual EC2 stopped state detected during discovery") worker;
    Ok (worker, true)
  else if String.eqb instance_state "stopping" && differs STOPPING then become STOPPING
  else if String.eqb instance_state "shutting-down" && differs SHUTTING_DOWN then become SHUTTING_DOWN
  else if String.eqb instance_state "terminated" && differs TERMINATED then
    '(worker, _) ← terminate (c k) (Some "system-sync") worker; Ok (worker, true)
  else Ok (worker, false).

(** The name that was found, for a worker that has a made-up one. *)
Definition align_name (instance_data : pydict) (worker : CMLWorkerState) : res CMLWorkerState :=
  found ← as_ostr (pd_get "name" instance_data);
  Ok (if ostr_truthy found && py_startswith "worker-" (name worker) then worker <| name := default "" found |> else worker).

(** An instance that has a worker. *)
Definition align_worker (k : nat) (instance_id instance_state : string) (instance_data : pydict) (worker : CMLWorkerState) (r : import_result)
    : io import_result :=
  worker ← lift (align_name instance_data worker);
  '(worker, ip_changed) ← lift (align_addresses k instance_data worker);
  '(worker, changed) ← lift (align_status (k + 2) instance_state worker);
  let existing' := dict_set instance_id worker (existing r) in
  ids ← (if changed || ip_changed
         then try_ (_ ← put_worker worker; i ← lift (aggregate_id worker); mret (updated r ++ [i])) (fun _ => mret (updated r))
         else mret (updated r));
  mret {| imported := imported r; skipped := skipped r ++ [(instance_id, "Already registered")]; updated := ids; existing := existing' |}.

(** An instance that has none; its type and its AMI are known. *)
Definition import_worker (k : nat) (t_init : datetime) (uid region source instance_id instance_state : string) (instance_data : pydict)
    (r : import_result) : io import_result :=
  try_ (
    found ← lift (as_ostr (pd_get "name" instance_data));
    itype ← lift (as_str (pd_get "instance_type" instance_data));
    ami ← lift (as_str (pd_get "image_id" instance_data));
    public ← lift (as_ostr (pd_get "public_ip" instance_data));
    private ← lift (as_ostr (pd_get "private_ip" instance_data));
    '(worker, _) ← lift (import_from_existing_instance (c k) t_init uid (ostr_or found ("worker-" +:+ instance_id)) region instance_id itype ami
                           instance_state (Some source) None None None public private Origin.EC2_DISCOVERY);
    saved_worker ← add_worker worker;
    i ← lift (aggregate_id saved_worker);
    mret {| imported := imported r ++ [i]; skipped := skipped r; updated := updated r; existing := existing r |})
  (fun e => mret {| imported := imported r; skipped := skipped r ++ [(instance_id, "Import failed: " +:+ exn_str e)];
                    updated := updated r; existing := existing r |}).

Definition import_instance (k : nat) (t_init : datetime) (uid region source : string) (instance_data : pydict) (r : import_result)
    : io import_result :=
  instance_id ← lift (as_ostr (pd_get "instance_id" instance_data));
  instance_state ← lift (as_str (pd_get_or "state" (PStr "unknown") instance_data));
  if negb (ostr_truthy instance_id) then mret r
  else
    let instance_id := default "" instance_id in
    match dict_get instance_id (existing r) with
    | Some worker => align_worker k instance_id instance_state instance_data worker r
    | None =>
        if String.eqb instance_state "terminated" || String.eqb instance_state "shutting-down" then
          mret {| imported := imported r; skipped := skipped r ++ [(instance_id, "Instance state: " +:+ instance_state)];
                  updated := updated r; existing := existing r |}
        else import_worker k t_init uid region source instance_id instance_state instance_data r
    end.

(** The loop; turn [n] reads the clock from [8 * n] on and has its own identifier. *)
Fixpoint import_each (n : nat) (t_init : datetime) (uid : nat -> string) (region source : string) (discovered : list pydict) (r : import_result)
    : io import_result :=
  match discovered with
  | [] => mret r
  | instance_data :: discovered =>
      r ← import_instance (8 * n) t_init (uid n) region source instance_data r;
      import_each (S n) t_init uid region source discovered r
  end.

(** The workers that have an instance; of two with the same one, the later. *)
Definition by_instance (workers : list CMLWorkerState) : known :=
  fold_left (fun d s => if ostr_truthy (aws_instance_id s) then dict_set (default "" (aws_instance_id s)) s d else d) workers [].

Definition no_import (existing_ : known) : import_result := {| imported := []; skipped := []; updated := []; existing := existing_ |}.

(** The totals are the lengths of the lists. *)
Definition handle_bulk_import (t_init : datetime) (uid : nat -> string) (discovered : list pydict) (region source : string)
    : io (response + import_result) :=
  match discovered with
  | [] => mret (inr (no_import []))
  | _ =>
      if negb (str_truthy region) then mret (inl (BadRequest "aws_region is required"))
      else
        existing_workers ← all_workers;
        r ← import_each 0 t_init uid region source discovered (no_import (by_instance existing_workers));
        mret (inr r)
  end.
End Making.

(** * How workers are seen
    ([control-plane-api/application/mappers/cml_worker_mapper.py] and the queries for workers)

    The document of a worker, made from the stored state: what the user interface and the
    controllers get.  The statistics on ports are added by the query for one worker; the version
    number that the framework keeps with a document is left out. *)
From S2P Require Import Prelude Programs PyFloat PyData PyNum Enums Lifecycle WorkerValues SessionCommands Worker WorkerCommands.
Import WorkerStatus.

(** ** System information as a dict ([dataclasses.asdict]) *)

Definition of_option {A} (f : A -> pyval) (o : option A) : pyval := match o with Some a => f a | None => PNone end.

Definition CpuStats_dict (s : CpuStats) : pyval :=
  PDict [("load", load s); ("count", WorkerValues.count s); ("percent", percent s); ("model", model s); ("predicted", predicted s)].
Definition MemoryStats_dict (s : MemoryStats) : pyval := PDict [("total", m_total s); ("free", m_free s); ("used", m_used s)].
Definition DiskStats_dict (s : DiskStats) : pyval := PDict [("total", d_total s); ("free", d_free s); ("used", d_used s)].
Definition DomInfoStats_dict (s : DomInfoStats) : pyval :=
  PDict [("allocated_cpus", di_allocated_cpus s); ("allocated_memory", di_allocated_memory s); ("total_nodes", di_total_nodes s);
         ("total_orphans", di_total_orphans s); ("running_nodes", di_running_nodes s); ("running_orphans", di_running_orphans s)].

Definition compute_stats_dict (s : CMLSystemInfoComputeStats) : pyval :=
  PDict [("cpu", of_option CpuStats_dict (cpu s)); ("memory", of_option MemoryStats_dict (memory s));
         ("disk", of_option DiskStats_dict (disk s)); ("dominfo", of_option DomInfoStats_dict (dominfo s))].

Definition compute_dict (c : CMLSystemInfoCompute) : pyval :=
  PDict [("hostname", hostname c); ("is_controller", is_controller c); ("stats", of_option compute_stats_dict (stats c))].

Definition computes_dict (c : Computes) : pyval :=
  match c with Parsed d => PDict (map (fun '(k, c) => (k, compute_dict c)) d) | Raw v => v end.

Definition system_info_dict (i : CMLSystemInfo) : pyval :=
  PDict [("cpu_count", cpu_count i); ("cpu_utilization", cpu_utilization i); ("memory_total", memory_total i);
         ("memory_free", memory_free i); ("memory_used", memory_used i); ("disk_total", disk_total i); ("disk_free", disk_free i);
         ("disk_used", disk_used i); ("controller_disk_total", controller_disk_total i);
         ("controller_disk_free", controller_disk_free i); ("controller_disk_used", controller_disk_used i);
         ("allocated_cpus", allocated_cpus i); ("allocated_memory", allocated_memory i); ("total_nodes", WorkerValues.total_nodes i);
         ("running_nodes", running_nodes i); ("computes", computes_dict (computes i))].

(** [_serialize_system_health] *)
Definition serialize_system_health (h : CMLSystemHealth) : pyval :=
  PDict [("valid", valid h); ("is_licensed", is_licensed h); ("is_enterprise", is_enterprise h); ("computes", h_computes h);
         ("controller", controller h)].

(** ** The document *)

Definition fmax (a b : float) : float := if fltb a b then b else a.

(** [_clamp], on numbers; what is no number is left out. *)
Definition clamp (v : pyval) : pyval :=
  match v with
  | PNone => PNone
  | v => match (n ← py_num v; float_of_num n) with Ok f => PFloat (fmax fzero (fmin f_100 f)) | Err _ => PNone end
  end.

(** [a], and [b] where it is missing. *)
Definition or_stored (a : pyval) (b : option float) : pyval :=
  match a, b with PNone, Some f => PFloat f | a, _ => a end.

Definition of_ofloat (f : option float) : pyval := of_option PFloat f.
Definition of_ostrs (d : dict string) : pyval := PDict (map (fun '(k, v) => (k, PStr v)) d).

(** [map_worker_to_dto], then [worker_dto_to_dict] *)
Definition worker_document (s : CMLWorkerState) : res pydict :=
  '(cpu_util, mem_util, storage_util) ← get_utilization (metrics s);
  let cpu_util := or_stored cpu_util (cloudwatch_cpu_utilization s) in
  let mem_util := or_stored mem_util (cloudwatch_memory_utilization s) in
  declared_cap ← (match declared_capacity s with Some k => Ok (Some k) | None => derive_capacity_from_metrics s end);
  Ok ([("id", PStr (id s)); ("name", PStr (name s)); ("aws_region", PStr (aws_region s));
       ("aws_instance_id", of_ostr (aws_instance_id s)); ("instance_type", of_ostr (instance_type s));
       ("status", status_str s); ("desired_status", desired_str s);
       ("service_status", PStr (ServiceStatus.CMLServiceStatus_value (service_status s)));
       ("ami_id", of_ostr (ami_id s)); ("ami_name", of_ostr (ami_name s)); ("ami_description", of_ostr (ami_description s));
       ("ami_creation_date", of_ostr (ami_creation_date s)); ("template_name", of_ostr (template_name s));
       ("https_endpoint", of_ostr (https_endpoint s)); ("public_ip", of_ostr (public_ip s)); ("private_ip", of_ostr (private_ip s));
       ("aws_tags", of_ostrs (aws_tags s));
       ("license_status", PStr (LicenseState.LicenseStatus_value (l_status (license s))));
       ("license_token", of_ostr (token (license s))); ("cml_license_info", of_odict (raw_info (license s)))] ++
      [("cml_version", of_ostr (version (metrics s))); ("cml_ready", PBool (ready (metrics s)));
       ("cml_uptime_seconds", of_oint (uptime_seconds (metrics s))); ("cml_labs_count", PInt (labs_count (metrics s)));
       ("cml_system_info", of_option system_info_dict (system_info (metrics s)));
       ("cml_system_health", of_option serialize_system_health (system_health (metrics s)));
       ("cml_last_synced_at", of_otime (last_synced_at (metrics s)));
       ("ec2_instance_state_detail", of_ostr (ec2_instance_state_detail s));
       ("ec2_system_status_check", of_ostr (ec2_system_status_check s)); ("ec2_last_checked_at", of_otime (ec2_last_checked_at s));
       ("cloudwatch_cpu_utilization", of_ofloat (cloudwatch_cpu_utilization s));
       ("cloudwatch_memory_utilization", of_ofloat (cloudwatch_memory_utilization s));
       ("cloudwatch_last_collected_at", of_otime (cloudwatch_last_collected_at s));
       ("cloudwatch_detailed_monitoring_enabled", PBool (cloudwatch_detailed_monitoring_enabled s));
       ("cpu_utilization", clamp cpu_util); ("memory_utilization", clamp mem_util);
       ("storage_utilization", clamp storage_util); ("disk_utilization", clamp storage_util);
       ("active_labs_count", PInt (labs_count (metrics s)))] ++
      [("poll_interval", of_oint (poll_interval s)); ("next_refresh_at", of_otime (next_refresh_at s));
       ("created_at", PIso (created_at s)); ("updated_at", PIso (updated_at s));
       ("start_initiated_at", of_otime (start_initiated_at s)); ("stop_initiated_at", of_otime (stop_initiated_at s));
       ("terminated_at", of_otime (terminated_at s)); ("created_by", of_ostr (created_by s));
       ("last_activity_at", of_otime (last_activity_at s)); ("last_activity_check_at", of_otime (last_activity_check_at s));
       ("next_idle_check_at", of_otime (next_idle_check_at s)); ("target_pause_at", of_otime (target_pause_at s));
       ("is_idle_detection_enabled", PBool (is_idle_detection_enabled s));
       ("auto_pause_count", PInt (auto_pause_count s)); ("manual_pause_count", PInt (manual_pause_count s));
       ("auto_resume_count", PInt (auto_resume_count s)); ("manual_resume_count", PInt (manual_resume_count s));
       ("last_paused_at", of_otime (last_paused_at s)); ("last_resumed_at", of_otime (last_resumed_at s));
       ("paused_by", of_ostr (paused_by s)); ("pause_reason", of_ostr (pause_reason s));
       ("declared_capacity", of_odict (WorkerCapacity_to_dict <$> declared_cap));
       ("allocated_capacity", PDict (WorkerCapacity_to_dict (allocated_capacity s)));
       ("session_ids", PList (map PStr (session_ids s))); ("allocated_port_count", PInt 0); ("available_port_count", PInt 0);
       ("port_utilization_pct", PFloat fzero)]).

(** ** Queries *)

(** [GetCMLWorkerByIdQuery]; [stats] is what the port allocation service says of the worker. *)
Definition with_ports (stats : res pydict) (d : pydict) : pydict :=
  match stats with
  | Ok stats =>
      dict_update d [("allocated_port_count", pd_get_or "allocated" (PInt 0) stats);
                     ("available_port_count", pd_get_or "available" (PInt 0) stats);
                     ("port_utilization_pct", pd_get_or "utilization_pct" (PFloat fzero) stats)]
  | Err _ => d
  end.

Definition handle_get_worker (stats : string -> res pydict) (worker_id instance : option string) : io response :=
  try_ (
    if negb (ostr_truthy worker_id) && negb (ostr_truthy instance) then
      mret (BadRequest "Either worker_id or aws_instance_id must be provided")
    else
      let identifier := default "" (if ostr_truthy worker_id then worker_id else instance) in
      found ← (if ostr_truthy worker_id then get_worker identifier else find_instance identifier);
      match found with
      | None => mret (NotFound "CML Worker" identifier)
      | Some worker => d ← lift (worker_document worker); ok (with_ports (stats (id worker)) d)
      end) (internal "").

(** [ListCMLWorkersInternalQuery]: the documents, or a refusal. *)
Definition handle_list_workers (st region : option string) (include_terminated : bool) : io (list pydict + response) :=
  try_ (
    let in_region (s : CMLWorkerState) := if ostr_truthy region then bool_decide (Some (aws_region s) = region) else true in
    let documents (workers : list CMLWorkerState) := l ← lift (mapM worker_document (List.filter in_region workers)); mret (inl l) in
    if ostr_truthy st then
      match enum_call (E := CMLWorkerStatus) (default "" st) with
      | Ok st => workers ← workers_in st; documents workers
      | Err _ => mret (inr (BadRequest ("Invalid status: " +:+ default "" st)))
      end
    else if include_terminated then workers ← all_workers; documents workers
    else workers ← active_workers; documents workers)
  (fun e => r ← internal "" e; mret (inr r)).
