(* ===== verification/WorkerStore.v ===== *)
(** * What the worker commands keep true of the stored workers

    The handlers change a stored worker through the methods of the aggregate only (but for
    two fields that are written past it), whatever fails between two requests; so the
    stored workers keep what the aggregate keeps.  Then what the cleanup deletes, what a
    recalculation finds, and what the reconciler makes of a worker after some commands. *)
From S2P Require Import Prelude Programs PyFloat PyData PyNum Enums Lifecycle AuditTrail Aggregate WorkerValues WorkerEvents SystemSettings.
From S2P Require Import LabletDefinition SessionCommands Worker WorkerProps WorkerSpec WorkerCommands WorkerFleet.
Import WorkerStatus.

(** ** Sound workers *)

Definition sound (s : CMLWorkerState) : Prop := well_formed s /\ trail (fun _ _ => True) s.

(** Every stored worker is sound and has its own key. *)
Definition all_sound (w : world) : Prop := forall i s, workers w !! i = Some s -> Worker.id s = i /\ sound s.

Section Sound.
Context `{RootId CMLWorkerState}.
Implicit Types (s : CMLWorkerState).

Lemma exec_sound c cmd s s' evs : exec c cmd s = Ok (s', evs) -> sound s -> sound s'.
Proof.
  intros He [Hw Ht]. split; [|by eapply trail_step, Ht; [by eapply worker_exec_audit|]].
  apply worker_exec_effect in He as [[_ (r & u & ->)]|(ev & _ & _ & Hreg & Ho)].
  - eapply same_well_formed; [|exact Hw]. repeat split; reflexivity.
  - exact (on_well_formed c ev s s' Hreg Ho Hw).
Qed.

(** The methods that also say whether something changed. *)
Lemma exec_bool_sound c cmd (r : bool_result) s b s' evs : exec c cmd s = drop_bool r -> r = Ok (b, s', evs) -> sound s -> sound s'.
Proof. intros He ->. exact (exec_sound c cmd s s' evs He). Qed.

Lemma created_sound s : WorkerProps.created s -> sound s.
Proof.
  intros Hc. split.
  - apply worker_created_event in Hc as (c & t & ev & Hev & Ho).
    assert (same_values (init_state t) s) as Hs by (destruct ev; try done; handler_cases Ho; by split).
    eapply same_well_formed; [exact Hs|]. split; cbn; [by apply capacity_valid_iff|done|constructor].
  - apply worker_created_history in Hc as (t & Hh & Hf & Ht). by eapply trail_init.
Qed.

(** What is written past the aggregate. *)
Lemma patched_sound s s' : same_values s s' -> au_status s' = au_status s -> au_history s' = au_history s -> sound s -> sound s'.
Proof. intros Hv Hs Hh [H1 H2]. split; [by eapply same_well_formed|]. eapply trail_step, H2; [by left|done]. Qed.
End Sound.

(** ** Programs that keep the store sound

    [m] keeps the stored workers sound, returning or raising, and what it returns satisfies [Q]. *)
Definition yields {A} (Q : A -> Prop) (m : io A) : Prop := triple all_sound m (fun a w => Q a /\ all_sound w) all_sound.
Abbreviation keeps m := (yields (fun _ => True) m).

Section Yields.
Context {A B : Type}.
Implicit Types (Q : B -> Prop) (R : A -> Prop).

Lemma yields_ret Q b : Q b -> yields Q (mret b).
Proof. intros HQ. by apply triple_ret. Qed.

Lemma yields_bind R Q (m : io A) f : yields R m -> (forall a, R a -> yields Q (f a)) -> yields Q (m ≫= f).
Proof. intros Hm Hf. eapply triple_bind; [exact Hm|]. intros a. apply triple_pure, Hf. Qed.

Lemma yields_call Q (r : res A) f : (forall a, r = Ok a -> yields Q (f a)) -> yields Q (lift r ≫= f).
Proof. intros Hf. apply triple_call; [done|]. by intros e w _ Hw. Qed.

Lemma yields_lift Q (r : res B) : (forall b, r = Ok b -> Q b) -> yields Q (lift r).
Proof. intros Hf. apply triple_lift; [|done]. intros b w Hr Hw. eauto. Qed.

Lemma yields_try Q (m : io B) h : yields Q m -> (forall e, yields Q (h e)) -> yields Q (try_ m h).
Proof. intros Hm Hh. by eapply triple_try. Qed.

Lemma yields_weaken Q (Q' : B -> Prop) (m : io B) : yields Q m -> (forall b, Q b -> Q' b) -> yields Q' m.
Proof. intros Hm HQ. eapply triple_post; [exact Hm| |done]. intros b w [Hb Hw]. auto. Qed.

(** A request, whatever becomes of it. *)
Lemma yields_request Q (m : io B) :
  (forall w, all_sound w -> all_sound (m w).2 /\ forall b, (m w).1 = Ok b -> Q b) -> yields Q (request m).
Proof.
  intros Hm w r w' Hw He. unfold request in He.
  assert (forall l, all_sound (w <| faults := l |>)) as Hl by (intros l i s; apply Hw).
  assert (forall v, all_sound v -> m v = (r, w') -> match r with Ok a => Q a /\ all_sound w' | Err _ => all_sound w' end) as Hrun.
  { intros v Hv Hr. specialize (Hm v Hv). rewrite Hr in Hm. destruct Hm as [Hs HQ]. destruct r; cbn in *; auto. }
  destruct (faults w) as [|[|e|e] l]; [by eapply Hrun|by apply (Hrun _ (Hl l))|by injection He as <- <-|].
  injection He as <- <-. exact (proj1 (Hm _ (Hl l))).
Qed.

(** A read of what is not a worker. *)
Lemma yields_read (f : world -> B) : keeps (request (fun w => (Ok (f w), w))).
Proof. by apply yields_request. Qed.
End Yields.

(** ** The requests *)
Section Store.
Implicit Types (s : CMLWorkerState).

Lemma stored_sound (w : world) : all_sound w -> Forall sound (map snd (map_to_list (workers w))).
Proof. intros Hw. apply Forall_fmap, Forall_forall. intros [i s] Hi%elem_of_map_to_list. by apply Hw in Hi as [_ Hs]. Qed.

Lemma filter_sound f l : Forall sound l -> Forall sound (List.filter f l).
Proof. intros Hl. apply Forall_forall. intros s [Hs _]%list_elem_of_In%List.filter_In. rewrite Forall_forall in Hl. by apply Hl, list_elem_of_In. Qed.

Lemma get_worker_yields i : yields (fun found => forall s, found = Some s -> sound s) (get_worker i).
Proof. apply yields_request. intros w Hw. split; [done|]. intros b [= <-] s Hs. by apply Hw in Hs as [_ Hs]. Qed.

Lemma all_workers_yields : yields (Forall sound) all_workers.
Proof. apply yields_request. intros w Hw. split; [done|]. intros b [= <-]. by apply stored_sound. Qed.

Lemma active_workers_yields : yields (Forall sound) active_workers.
Proof. apply yields_request. intros w Hw. split; [done|]. intros b [= <-]. by apply filter_sound, stored_sound. Qed.

Lemma find_instance_yields i : yields (fun found => forall s, found = Some s -> sound s) (find_instance i).
Proof.
  apply yields_request. intros w Hw. split; [done|]. intros b [= <-] s [Hs _]%List.find_some. pose proof (stored_sound w Hw) as Hl.
  rewrite Forall_forall in Hl. by apply Hl, list_elem_of_In.
Qed.

Lemma put_worker_keeps s : sound s -> keeps (put_worker s).
Proof.
  intros Hs. apply yields_request. intros w Hw. split; [|done]. intros i s'. cbn. rewrite lookup_insert.
  case_decide as Hi; [|apply Hw]. intros [= <-]. by subst.
Qed.

Lemma delete_worker_keeps i : keeps (delete_worker i).
Proof.
  apply yields_request. intros w Hw. split; [|done]. intros j s. cbn. intros [_ Hs]%lookup_delete_Some. by apply Hw.
Qed.

Lemma add_worker_yields s : sound s -> yields sound (add_worker s).
Proof.
  intros Hs. unfold add_worker. eapply (yields_bind (fun found => forall s, found = Some s -> sound s)).
  - case_match; [apply find_instance_yields|by apply yields_ret].
  - intros [s'|] Hf; [by apply yields_ret, Hf|]. eapply yields_bind; [by apply put_worker_keeps|]. intros _ _. by apply yields_ret.
Qed.

Lemma with_worker_keeps i missing k : (forall s, sound s -> keeps (k s)) -> keeps (with_worker i missing k).
Proof.
  intros Hk. unfold with_worker. eapply yields_bind; [apply get_worker_yields|]. intros [s|] Hf; [by apply Hk, Hf|by apply yields_ret].
Qed.
End Store.

(** ** The handlers *)

(** A worker that a method of the aggregate answers with is sound. *)
Ltac is_new s' := lazymatch goal with _ : sound s' |- _ => fail | _ => idtac end.
Ltac method_sound H c cmd s s' evs Hs := is_new s'; pose proof (exec_sound c cmd s s' evs H Hs).
Ltac bool_sound H c cmd s b s' evs Hs := is_new s'; pose proof (exec_bool_sound c cmd _ s b s' evs eq_refl H Hs).

Ltac sounds :=
  match goal with
  | H : update_status ?c ?st ?s = Ok (?b, ?s', ?e), Hs : sound ?s |- _ => bool_sound H c (UpdateStatus st) s b s' e Hs
  | H : update_desired_status ?c ?st ?by_ ?r ?s = Ok (?b, ?s', ?e), Hs : sound ?s |- _ =>
      bool_sound H c (UpdateDesiredStatus st by_ r) s b s' e Hs
  | H : update_service_status ?c ?st ?ep ?s = Ok (?b, ?s', ?e), Hs : sound ?s |- _ => bool_sound H c (UpdateServiceStatus st ep) s b s' e Hs
  | H : update_cloudwatch_monitoring ?c ?on ?s = Ok (?b, ?s', ?e), Hs : sound ?s |- _ =>
      bool_sound H c (UpdateCloudwatchMonitoring on) s b s' e Hs
  | H : terminate ?c ?by_ ?s = Ok (?s', ?e), Hs : sound ?s |- _ => method_sound H c (Terminate by_) s s' e Hs
  | H : resume ?c ?r ?by_ ?s = Ok (?s', ?e), Hs : sound ?s |- _ => method_sound H c (Resume r by_) s s' e Hs
  | H : pause ?c ?r ?by_ ?m ?s = Ok (?s', ?e), Hs : sound ?s |- _ => method_sound H c (Pause r by_ m) s s' e Hs
  | H : enable_idle_detection ?c ?by_ ?s = Ok (?s', ?e), Hs : sound ?s |- _ => method_sound H c (EnableIdleDetection by_) s s' e Hs
  | H : disable_idle_detection ?c ?by_ ?s = Ok (?s', ?e), Hs : sound ?s |- _ => method_sound H c (DisableIdleDetection by_) s s' e Hs
  | H : request_refresh ?c ?s = Ok (?s', ?e), Hs : sound ?s |- _ => method_sound H c RequestRefresh s s' e Hs
  | H : clear_refresh_request ?c ?s = Ok (?s', ?e), Hs : sound ?s |- _ => method_sound H c ClearRefreshRequest s s' e Hs
  | H : request_sync ?c ?t ?by_ ?sc ?l ?r ?s = Ok (?s', ?e), Hs : sound ?s |- _ => method_sound H c (RequestSync t by_ sc l r) s s' e Hs
  | H : trigger_lab_discovery ?c ?l ?so ?t ?s = Ok (?s', ?e), Hs : sound ?s |- _ => method_sound H c (TriggerLabDiscovery l so t) s s' e Hs
  | H : request_license_registration ?c ?t ?by_ ?a ?s = Ok (?s', ?e), Hs : sound ?s |- _ =>
      method_sound H c (RequestLicenseRegistration t by_ a) s s' e Hs
  | H : request_license_deregistration ?c ?by_ ?s = Ok (?s', ?e), Hs : sound ?s |- _ =>
      method_sound H c (RequestLicenseDeregistration by_) s s' e Hs
  | H : start_license_registration ?c ?t ?by_ ?s = Ok (?s', ?e), Hs : sound ?s |- _ => method_sound H c (StartLicenseRegistration t by_) s s' e Hs
  | H : complete_license_registration ?c ?r ?sm ?v ?t ?s = Ok (?s', ?e), Hs : sound ?s |- _ =>
      method_sound H c (CompleteLicenseRegistration r sm v t) s s' e Hs
  | H : fail_license_registration ?c ?m ?t ?co ?s = Ok (?s', ?e), Hs : sound ?s |- _ => method_sound H c (FailLicenseRegistration m t co) s s' e Hs
  | H : start_license_deregistration ?c ?t ?by_ ?s = Ok (?s', ?e), Hs : sound ?s |- _ => method_sound H c (StartLicenseDeregistration t by_) s s' e Hs
  | H : complete_license_deregistration ?c ?m ?t ?s = Ok (?s', ?e), Hs : sound ?s |- _ =>
      method_sound H c (CompleteLicenseDeregistration m t) s s' e Hs
  | H : fail_license_deregistration ?c ?m ?t ?s = Ok (?s', ?e), Hs : sound ?s |- _ => method_sound H c (FailLicenseDeregistration m t) s s' e Hs
  | H : assign_instance ?c ?i ?p ?q ?s = Ok (?s', ?e), Hs : sound ?s |- _ => method_sound H c (AssignInstance i p q) s s' e Hs
  | H : update_ec2_instance_details ?c ?pu ?pr ?it ?am ?an ?ad ?adt ?s = Ok (?s', ?e), Hs : sound ?s |- _ =>
      method_sound H c (UpdateEc2InstanceDetails pu pr it am an ad adt) s s' e Hs
  | H : update_cloudwatch_metrics ?c ?cp ?m ?t ?s = Ok (?s', ?e), Hs : sound ?s |- _ => method_sound H c (UpdateCloudwatchMetrics cp m t) s s' e Hs
  | H : update_telemetry ?c ?a ?n ?cp ?m ?p ?t ?s = Ok (?s', ?e), Hs : sound ?s |- _ => method_sound H c (UpdateTelemetry a n cp m p t) s s' e Hs
  | H : update_cml_metrics ?c ?t ?r ?s = Ok (?s', ?e), Hs : sound ?s |- _ => method_sound H c (UpdateCmlMetrics t r) s s' e Hs
  | H : update_capacity ?c ?t ?cp ?m ?d ?n ?s = Ok (?s', ?e), Hs : sound ?s |- _ => method_sound H c (UpdateCapacity t cp m d n) s s' e Hs
  | H : update_activity ?c ?r ?a ?ch ?n ?t ?m ?s = Ok (?s', ?e), Hs : sound ?s |- _ => method_sound H c (UpdateActivity r a ch n t m) s s' e Hs
  | H : recalculate_capacity ?c ?cp ?m ?d ?n ?a ?st ?s = Ok (?s', ?e), Hs : sound ?s |- _ =>
      method_sound H c (RecalculateCapacity cp m d n a st) s s' e Hs
  | H : Worker.allocate_ports ?c ?se ?p ?s = Ok (?s', ?e), Hs : sound ?s |- _ => method_sound H c (AllocatePorts se p) s s' e Hs
  | H : Worker.release_ports ?c ?se ?s = Ok (?s', ?e), Hs : sound ?s |- _ => method_sound H c (ReleasePorts se) s s' e Hs
  | H : assign_lablet_session ?c ?se ?cp ?m ?d ?n ?s = Ok (?s', ?e), Hs : sound ?s |- _ =>
      method_sound H c (AssignLabletSession se cp m d n) s s' e Hs
  | H : remove_lablet_session ?c ?se ?cp ?m ?d ?n ?s = Ok (?s', ?e), Hs : sound ?s |- _ =>
      method_sound H c (RemoveLabletSession se cp m d n) s s' e Hs
  end.

(** What led to a result. *)
Ltac open_ok :=
  repeat match goal with
  | p : (_ * _)%type |- _ => destruct p
  | H : (if ?b then _ else _) = Ok _ |- _ => destruct b
  | H : (_ ≫= _) = Ok _ |- _ => apply bind_ok in H as (? & ? & H)
  | H : Ok _ = Ok _ |- _ => injection H as ?; subst
  | _ => sounds
  end.

(** One step through a handler. *)
Ltac keep1 :=
  first
    [ match goal with |- forall _, _ => intros end | by apply yields_ret | apply put_worker_keeps | apply delete_worker_keeps
    | apply with_worker_keeps; intros ? ?
    | apply yields_try; [|intros ?]
    | apply yields_call; intros ? ?; open_ok
    | by apply yields_lift
    | progress (unfold ok, accepted, created, internal, report_worker, detection_answer)
    | match goal with |- yields _ (if ?b then _ else _) => destruct b end
    | match goal with |- yields _ (match ?x with _ => _ end) => destruct x end
    | eapply yields_bind; [|intros ? ?] ].
Ltac keep := cbn zeta; repeat (keep1; cbn zeta); try done.

Section Commands.
Context `{RootId CMLWorkerState} (c : nat -> clock) (error_message : response -> option string).

Lemma start_keeps i by_ auto reason : keeps (handle_start c i by_ auto reason).
Proof. unfold handle_start. keep. Qed.
Lemma stop_keeps i by_ auto reason : keeps (handle_stop c i by_ auto reason).
Proof. unfold handle_stop. keep. Qed.
Lemma pause_keeps i auto reason : keeps (handle_pause c error_message i auto reason).
Proof. unfold handle_pause. eapply yields_bind; [apply stop_keeps|]. intros ? ?. keep. Qed.
Lemma terminate_keeps i by_ reason : keeps (handle_terminate_worker c i by_ reason).
Proof. unfold handle_terminate_worker. keep. Qed.
Lemma delete_keeps i hard by_ : keeps (handle_delete c i hard by_).
Proof. unfold handle_delete, hard_delete, soft_delete. keep. Qed.
Lemma drain_keeps i reason by_ : keeps (handle_drain c i reason by_).
Proof. unfold handle_drain. keep. Qed.
Lemma enable_keeps i by_ : keeps (handle_enable_detection c i by_).
Proof. unfold handle_enable_detection. keep. Qed.
Lemma disable_keeps i by_ : keeps (handle_disable_detection c i by_).
Proof. unfold handle_disable_detection. keep. Qed.
Lemma refresh_keeps i : keeps (handle_refresh c i).
Proof. unfold handle_refresh. keep. Qed.
Lemma syncing_keeps i scope labs reason by_ : keeps (handle_sync c i scope labs reason by_).
Proof. unfold handle_sync. keep. Qed.
Lemma trigger_keeps i labs source : keeps (handle_trigger_discovery c i labs source).
Proof. unfold handle_trigger_discovery. keep. Qed.
Lemma register_keeps i t again by_ : keeps (handle_register c i t again by_).
Proof. unfold handle_register. keep. Qed.
Lemma deregister_keeps i by_ : keeps (handle_deregister c i by_).
Proof. unfold handle_deregister. keep. Qed.
Lemma license_report_keeps i method answer :
  (forall t s s' evs, method t s = Ok (s', evs) -> sound s -> sound s') -> keeps (license_report c i method answer).
Proof. intros Hm. unfold license_report. keep. all: eauto. Qed.

(** *** Reports *)

Lemma set_status_yields st s : sound s -> yields (fun r => forall s', r = inl s' -> sound s') (set_status c st s).
Proof. intros Hs. unfold set_status. keep. apply yields_ret. by intros ? [= <-]. Qed.

Lemma update_status_keeps i st instance m : keeps (handle_update_status c i st instance m).
Proof.
  unfold handle_update_status. apply yields_try; [|intros ?; by apply yields_ret]. apply with_worker_keeps. intros s Hs.
  eapply (yields_bind (fun r => forall s', r = inl s' -> sound s')).
  - case_match; [by apply set_status_yields|]. apply yields_ret. by intros s' [= <-].
  - intros [s'|r] Hr; [|by apply yields_ret]. specialize (Hr s' eq_refl). eapply (yields_bind sound); keep.
Qed.

Lemma mark_terminated_keeps i by_ reason : keeps (handle_mark_terminated c i by_ reason).
Proof. unfold handle_mark_terminated. keep. Qed.
Lemma ec2_details_keeps i pu pr it am an ad adt : keeps (handle_ec2_details c i pu pr it am an ad adt).
Proof.
  unfold handle_ec2_details. apply with_worker_keeps. intros s Hs. destruct (update_ec2_instance_details _ _ _ _ _ _ _ _ _) as [[s' e]|e] eqn:Hr; [sounds|]; keep.
Qed.

Lemma note_poll_sound t p n s : sound s -> sound (note_poll c t p n s).
Proof.
  intros Hs. unfold note_poll. case_match; [done|]. match goal with |- context [match ?r with Ok _ => _ | Err _ => _ end] => destruct r as [[s' e]|e] eqn:Hr end; [|done].
  apply bind_ok in Hr as (? & _ & Hr). by sounds.
Qed.

Lemma metrics_keeps i t e m p n : keeps (handle_metrics c i t e m p n).
Proof.
  unfold handle_metrics. apply with_worker_keeps. intros s Hs. apply yields_call. intros ? _. cbn zeta.
  eapply (yields_bind sound); [keep|]. intros s' Hs'. eapply yields_bind; [by apply put_worker_keeps, note_poll_sound|]. keep.
Qed.

Lemma monitoring_keeps i : keeps (handle_enable_monitoring c i).
Proof. unfold handle_enable_monitoring. keep. Qed.

Lemma note_service_sound r s : sound s -> sound (note_service c r s).
Proof.
  intros Hs. unfold note_service. destruct (update_service_status _ _ _ _) as [[[b s'] e]|e] eqn:Hr; [|done]. by sounds.
Qed.

Lemma note_capacity_sound info l s : sound s -> sound (note_capacity c info l s).
Proof.
  intros Hs. unfold note_capacity. destruct (reported_capacity info l) as [[[[[? ?] ?] ?]|]|]; try done. case_match; [done|].
  destruct (update_capacity _ _ _ _ _ _ _) as [[s' e]|e] eqn:Hr; [|done]. by sounds.
Qed.

Lemma cml_data_keeps i r t : keeps (handle_cml_data c i r t).
Proof.
  unfold handle_cml_data. apply with_worker_keeps. intros s Hs. apply yields_call. intros ? _.
  destruct (update_cml_metrics _ _ _ _) as [[s' e]|e] eqn:Hr; [sounds|keep]. cbn zeta.
  set (s2 := note_capacity _ _ _ _). assert (sound s2) by (by apply note_capacity_sound, note_service_sound). clearbody s2.
  apply yields_call. intros [s3 e3] Hc. assert (sound s3) by (case_match; [by sounds|by injection Hc as <-]). keep.
Qed.

Lemma ws_status_keeps i on : keeps (handle_ws_status c i on).
Proof.
  unfold handle_ws_status. apply with_worker_keeps. intros s Hs. eapply yields_bind; [|keep].
  apply put_worker_keeps. by eapply patched_sound, Hs.
Qed.

Lemma activity_events_keeps i l src : keeps (handle_activity_events c i l src).
Proof. unfold handle_activity_events. keep. Qed.
Lemma update_activity_keeps i a r ch n t : keeps (handle_update_activity c i a r ch n t).
Proof. unfold handle_update_activity. keep. Qed.
Lemma update_tags_keeps i tags : keeps (handle_update_tags i tags).
Proof. unfold handle_update_tags, state_tags. keep. Qed.

(** *** The books *)

Lemma weigh_keeps i t : keeps (weigh i t).
Proof.
  unfold weigh. eapply yields_bind; [apply yields_read|]. intros [s|] _; [|keep]. case_match; [keep|].
  eapply yields_bind; [case_match; [apply yields_read|by apply yields_ret]|]. keep.
Qed.

Lemma weigh_all_keeps l t : keeps (weigh_all l t).
Proof. revert t. induction l as [|i l IH]; intros t; cbn [weigh_all]; [by apply yields_ret|]. eapply yields_bind; [apply weigh_keeps|auto]. Qed.

Lemma recalculate_keeps i by_ : keeps (handle_recalculate c i by_).
Proof.
  unfold handle_recalculate. apply with_worker_keeps. intros s Hs. cbn zeta. eapply yields_bind; [apply weigh_all_keeps|]. keep.
Qed.

Lemma clean_each_keeps dry l r : keeps (clean_each dry l r).
Proof.
  revert r. induction l as [|s l IH]; intros r; cbn [clean_each]; [by apply yields_ret|]. apply yields_call. intros i _.
  eapply (yields_bind (fun _ => True)); [|intros; apply IH].
  unfold clean. apply yields_try; [|keep]. eapply (yields_bind (fun _ => True)); [destruct dry|]; keep.
Qed.

Lemma cleanup_keeps days dry : keeps (handle_cleanup c days dry).
Proof.
  unfold handle_cleanup. cbn zeta. apply yields_try; [|keep]. eapply yields_bind; [apply all_workers_yields|]. intros l _.
  apply yields_call. intros [|s l'] _; [keep|]. eapply yields_bind; [apply clean_each_keeps|]. intros [? ?] _. keep.
Qed.

(** *** New workers *)

Lemma creation_keeps st prov t uid n rg it ami an v by_ : keeps (handle_create_worker c st prov t uid n rg it ami an v by_).
Proof.
  unfold handle_create_worker. apply yields_try; [|keep]. destruct (pick_ami _ _ _ _ _) as [a b]. apply yields_call.
  intros [s e] Hc. eapply (yields_bind sound); [|keep]. apply add_worker_yields, created_sound. left. eauto 25.
Qed.

Lemma scale_up_keeps cfg stored t uid n reason by_ rg : keeps (handle_scale_up c cfg stored t uid n reason by_ rg).
Proof.
  unfold handle_scale_up. apply yields_try; [|keep]. destruct stored as [[template|]|]; [|keep..]. case_match; [keep|]. cbn zeta.
  eapply (yields_bind (fun _ => True)).
  { unfold check_scaling_constraints. apply yields_try; [|keep]. eapply yields_bind; [apply active_workers_yields|keep]. }
  intros [m|] _; [keep|]. apply yields_call. intros [s e] Hc. assert (sound s) by (apply created_sound; left; eauto 25).
  apply yields_call. intros [s' e'] Hu. sounds. eapply (yields_bind sound); [by apply add_worker_yields|keep].
Qed.

(** *** The import *)

Definition known_sound (r : import_result) : Prop := Forall (fun p => sound p.2) (existing r).

Lemma dict_get_sound (d : dict CMLWorkerState) k s : Forall (fun p => sound p.2) d -> dict_get k d = Some s -> sound s.
Proof. induction 1 as [|[k' v] d Hv _ IH]; cbn; [done|]. case_match; [by intros [= <-]|done]. Qed.
Lemma dict_set_sound (d : dict CMLWorkerState) k s : Forall (fun p => sound p.2) d -> sound s -> Forall (fun p => sound p.2) (dict_set k s d).
Proof. intros Hd Hs. rewrite Forall_forall in Hd |- *. by intros [k' v] [[= -> ->]|Hin%Hd]%dict_set_elem. Qed.

Lemma align_name_sound d s s' : align_name d s = Ok s' -> sound s -> sound s'.
Proof. unfold align_name. intros (f & _ & [= <-])%bind_ok Hs. case_match; [|done]. by eapply patched_sound, Hs. Qed.

Lemma align_addresses_sound k d s s' b : align_addresses c k d s = Ok (s', b) -> sound s -> sound s'.
Proof. unfold align_addresses. intros He Hs. open_ok. all: done. Qed.

Lemma align_status_sound k st s s' b : align_status c k st s = Ok (s', b) -> sound s -> sound s'.
Proof. unfold align_status. intros He Hs. open_ok. all: done. Qed.

Lemma align_worker_yields k i st d s r : sound s -> known_sound r -> yields known_sound (align_worker c k i st d s r).
Proof.
  intros Hs Hr. unfold align_worker. apply yields_call. intros s1 H1. apply (align_name_sound _ _ _) in H1; [|done].
  apply yields_call. intros [s2 b2] H2. apply (align_addresses_sound _ _ _ _ _) in H2; [|done].
  apply yields_call. intros [s3 b3] H3. apply (align_status_sound _ _ _ _ _) in H3; [|done]. cbn zeta.
  eapply (yields_bind (fun _ => True)); [keep|]. intros ids _. apply yields_ret. by apply dict_set_sound.
Qed.

Lemma import_worker_yields k t uid rg src i st d r : known_sound r -> yields known_sound (import_worker c k t uid rg src i st d r).
Proof.
  intros Hr. unfold import_worker. apply yields_try; [|intros e; by apply yields_ret]. do 5 (apply yields_call; intros ? _).
  apply yields_call. intros [s e] Hc. eapply (yields_bind sound); [apply add_worker_yields, created_sound; right; eauto 25|]. keep.
Qed.

Lemma import_each_yields n t uid rg src l r : known_sound r -> yields known_sound (import_each c n t uid rg src l r).
Proof.
  revert n r. induction l as [|d l IH]; intros n r Hr; cbn [import_each]; [by apply yields_ret|].
  eapply (yields_bind known_sound); [|intros r' Hr'; by apply IH]. unfold import_instance. do 2 (apply yields_call; intros ? _).
  case_match; [by apply yields_ret|]. cbn zeta. destruct (dict_get _ (existing r)) eqn:Hg.
  - apply align_worker_yields; [by eapply dict_get_sound|done].
  - case_match; [by apply yields_ret|by apply import_worker_yields].
Qed.

Lemma bulk_import_keeps t uid l rg src : keeps (handle_bulk_import c t uid l rg src).
Proof.
  unfold handle_bulk_import. destruct l as [|d l]; [keep|]. case_match; [keep|]. eapply yields_bind; [apply all_workers_yields|].
  intros ws Hws. eapply (yields_bind known_sound); [|keep]. apply import_each_yields. unfold known_sound, no_import, by_instance. cbn [existing].
  assert (forall d, Forall (fun p : string * CMLWorkerState => sound p.2) d ->
    Forall (fun p : string * CMLWorkerState => sound p.2) (fold_left (fun d s => if ostr_truthy (aws_instance_id s) then dict_set (default "" (aws_instance_id s)) s d else d) ws d)) as Hfold.
  { induction Hws as [|s ws Hs Hws IH]; intros d0 Hd0; cbn [fold_left]; [done|]. apply IH. case_match; [by apply dict_set_sound|done]. }
  by apply Hfold.
Qed.

(** *** Idle detection *)
Context (cfg : idle_settings) (settings : EffectiveIdleDetectionSettings).

Lemma idle_status_keeps i : keeps (handle_idle_status c cfg settings i).
Proof. unfold handle_idle_status. keep. Qed.

Lemma detect_keeps i raw : keeps (handle_detect_idle c error_message cfg settings i raw).
Proof.
  unfold handle_detect_idle, with_error. cbn zeta. case_match; [|keep]. unfold guarded, note_activity, with_error. apply yields_try; [|keep]. cbn zeta.
  eapply (yields_bind (fun _ => True)); [unfold handle_update_activity; keep|]. intros r1 _. case_match; [keep|]. cbn zeta. apply yields_try; [|keep].
  unfold check_status, with_error. eapply (yields_bind (fun _ => True)); [apply idle_status_keeps|]. intros r2 _. destruct r2; try solve [keep].
  unfold guarded, auto_pause, with_error. apply yields_try; [|keep]. case_match; [|keep].
  eapply (yields_bind (fun _ => True)); [|keep]. unfold handle_pause. eapply (yields_bind (fun _ => True)); [unfold handle_stop; keep|keep].
Qed.

(** *** Capacity *)

Lemma allocate_keeps command : keeps (SessionCommands.handle_allocate c command).
Proof.
  unfold SessionCommands.handle_allocate. cbn zeta. apply yields_try; [|intros ?; by apply yields_ret].
  eapply yields_bind; [apply get_worker_yields|]. intros [s|] Hs; [|keep]. specialize (Hs s eq_refl).
  case_match; [keep|]. case_match; [keep|]. do 2 (apply yields_call; intros ? _). case_match; [keep|].
  apply yields_call. intros [s1 e1] Hs1. sounds. apply yields_call. intros [ports s2] Hs2. unfold pick_ports in Hs2.
  assert (sound s2) by (destruct (ac_port_requirements command) as [[|? ?]|]; open_ok; done). keep.
Qed.

Lemma release_keeps i session k nodes : keeps (SessionCommands.handle_release c i session k nodes).
Proof.
  unfold SessionCommands.handle_release. apply yields_try; [|intros ?; by apply yields_ret].
  eapply yields_bind; [apply get_worker_yields|]. intros [s|] Hs; [|keep]. specialize (Hs s eq_refl). case_match; [keep|].
  apply yields_call. intros [s1 e1] Hs1. assert (sound s1) by (case_match; [by sounds|by injection Hs1 as <-]). keep.
Qed.
End Commands.

(** ** Any requests

    The requests that workers get, and one request served; what is answered is for the caller. *)
Inductive worker_request :=
| CreateWorker (st : static_settings) (prov : EffectiveWorkerProvisioningSettings) (name_ region itype : string)
    (ami aname version by_ : option string)
| ScaleUp (cfg : scale_up_settings) (stored : res (option worker_template)) (template reason by_ : string) (region : option string)
| BulkImport (discovered : list pydict) (region source : string)
| StartWorker (i : string) (by_ : option string) (auto : bool) (reason : option string)
| StopWorker (i : string) (by_ : option string) (auto : bool) (reason : option string)
| PauseWorker (i : string) (auto : bool) (reason : option string)
| TerminateWorker (i : string) (by_ reason : option string)
| DeleteWorker (i : string) (hard : bool) (by_ : option string)
| DrainWorker (i reason by_ : string)
| EnableDetection (i : string) (by_ : option string)
| DisableDetection (i : string) (by_ : option string)
| RefreshWorker (i : string)
| SyncWorker (i scope : string) (labs : bool) (reason by_ : string)
| TriggerDiscovery (i : string) (labs : list string) (source : string)
| RegisterLicense (i token_ : string) (again : bool) (by_ : option string)
| DeregisterLicense (i : string) (by_ : option string)
| StartRegistration (i : string) (by_ : option string)
| CompleteRegistration (i st : string) (smart virtual : option string)
| FailRegistration (i m : string) (code : option string)
| StartDeregistration (i : string) (by_ : option string)
| CompleteDeregistration (i m : string)
| FailDeregistration (i m : string)
| ReportStatus (i : string) (st instance : option string) (m : pydict)
| MarkTerminated (i : string) (by_ reason : option string)
| ReportEc2 (i : string) (public private itype ami aname adesc adate : option string)
| ReportMetrics (i : string) (collected : pyval) (ec2 cml : pydict) (poll : option Z) (next_refresh : pyval)
| EnableMonitoring (i : string)
| ReportCml (i : string) (r : Worker.cml_report) (collected : pyval)
| ReportConnection (i : string) (connected : bool)
| ReportActivity (i : string) (events : list pydict) (source : string)
| UpdateActivityOf (i : string) (activity : option datetime) (recent : list pydict) (check next_check target : option datetime)
| UpdateTags (i : string) (tags : dict string)
| DetectIdle (cfg : idle_settings) (settings : EffectiveIdleDetectionSettings) (i : string) (raw : option (list pydict))
| AllocateCapacity (command : allocate_command)
| ReleaseCapacity (i session : string) (k : capacity) (nodes : option Z)
| RecalculateWorker (i by_ : string)
| CleanupTerminated (days : Z) (dry_run : bool).

(** The request alone, without its answer. *)
Definition unanswered {A} (m : io A) : io () := _ ← m; mret ().

Definition serve `{RootId CMLWorkerState} (c : nat -> clock) (error_message : response -> option string) (t_init : datetime) (uid : nat -> string)
    (r : worker_request) : io () :=
  match r with
  | CreateWorker st prov name_ region itype ami aname version by_ =>
      unanswered (handle_create_worker c st prov t_init (uid 0%nat) name_ region itype ami aname version by_)
  | ScaleUp cfg stored template reason by_ region => unanswered (handle_scale_up c cfg stored t_init (uid 0%nat) template reason by_ region)
  | BulkImport discovered region source => unanswered (handle_bulk_import c t_init uid discovered region source)
  | StartWorker i by_ auto reason => unanswered (handle_start c i by_ auto reason)
  | StopWorker i by_ auto reason => unanswered (handle_stop c i by_ auto reason)
  | PauseWorker i auto reason => unanswered (handle_pause c error_message i auto reason)
  | TerminateWorker i by_ reason => unanswered (handle_terminate_worker c i by_ reason)
  | DeleteWorker i hard by_ => unanswered (handle_delete c i hard by_)
  | DrainWorker i reason by_ => unanswered (handle_drain c i reason by_)
  | EnableDetection i by_ => unanswered (handle_enable_detection c i by_)
  | DisableDetection i by_ => unanswered (handle_disable_detection c i by_)
  | RefreshWorker i => unanswered (handle_refresh c i)
  | SyncWorker i scope labs reason by_ => unanswered (handle_sync c i scope labs reason by_)
  | TriggerDiscovery i labs source => unanswered (handle_trigger_discovery c i labs source)
  | RegisterLicense i token_ again by_ => unanswered (handle_register c i token_ again by_)
  | DeregisterLicense i by_ => unanswered (handle_deregister c i by_)
  | StartRegistration i by_ => unanswered (handle_start_registration c i by_)
  | CompleteRegistration i st smart virtual => unanswered (handle_complete_registration c i st smart virtual)
  | FailRegistration i m code => unanswered (handle_fail_registration c i m code)
  | StartDeregistration i by_ => unanswered (handle_start_deregistration c i by_)
  | CompleteDeregistration i m => unanswered (handle_complete_deregistration c i m)
  | FailDeregistration i m => unanswered (handle_fail_deregistration c i m)
  | ReportStatus i st instance m => unanswered (handle_update_status c i st instance m)
  | MarkTerminated i by_ reason => unanswered (handle_mark_terminated c i by_ reason)
  | ReportEc2 i public private itype ami aname adesc adate => unanswered (handle_ec2_details c i public private itype ami aname adesc adate)
  | ReportMetrics i collected ec2 cml poll next_refresh => unanswered (handle_metrics c i collected ec2 cml poll next_refresh)
  | EnableMonitoring i => unanswered (handle_enable_monitoring c i)
  | ReportCml i r collected => unanswered (handle_cml_data c i r collected)
  | ReportConnection i connected => unanswered (handle_ws_status c i connected)
  | ReportActivity i events source => unanswered (handle_activity_events c i events source)
  | UpdateActivityOf i activity recent check next_check target =>
      unanswered (handle_update_activity c i activity recent check next_check target)
  | UpdateTags i tags => unanswered (handle_update_tags i tags)
  | DetectIdle cfg settings i raw => unanswered (handle_detect_idle c error_message cfg settings i raw)
  | AllocateCapacity command => unanswered (SessionCommands.handle_allocate c command)
  | ReleaseCapacity i session k nodes => unanswered (SessionCommands.handle_release c i session k nodes)
  | RecalculateWorker i by_ => unanswered (handle_recalculate c i by_)
  | CleanupTerminated days dry_run => unanswered (handle_cleanup c days dry_run)
  end.

#[local] Hint Resolve creation_keeps scale_up_keeps bulk_import_keeps start_keeps stop_keeps pause_keeps terminate_keeps delete_keeps drain_keeps
  enable_keeps disable_keeps refresh_keeps syncing_keeps trigger_keeps register_keeps deregister_keeps update_status_keeps mark_terminated_keeps
  ec2_details_keeps metrics_keeps monitoring_keeps cml_data_keeps ws_status_keeps activity_events_keeps update_activity_keeps update_tags_keeps
  detect_keeps allocate_keeps release_keeps recalculate_keeps cleanup_keeps : lcm.

Section Served.
Context `{RootId CMLWorkerState}.

Lemma unanswered_keeps {A} (m : io A) : keeps m -> keeps (unanswered m).
Proof. intros Hm. eapply yields_bind; [exact Hm|]. intros ? _. by apply yields_ret. Qed.

Lemma serve_keeps c error_message t uid r : keeps (serve c error_message t uid r).
Proof. destruct r; cbn [serve]; apply unanswered_keeps; auto with lcm; apply license_report_keeps; intros; by sounds. Qed.

(** One request in a world whose documents may have changed elsewhere, answered or raising. *)
Definition served (w w' : world) : Prop :=
  exists c error_message t uid r w0, workers w0 = workers w /\ w' = (serve c error_message t uid r w0).2.

(** (C8) Whatever requests the workers get, in whatever order and with whatever failures between
    two accesses to the store, every stored worker has its own key, capacities and ports
    that are well formed, and an unbroken history up to its status. *)
Theorem stored_workers_sound w w' : workers w = ∅ -> star served w w' -> all_sound w'.
Proof.
  intros Hw Hs. eapply star_invariant; [|exact Hs|intros i s; by rewrite Hw, lookup_empty].
  intros w1 w2 (c & m & t & uid & r & w0 & Hw0 & ->) Hok.
  assert (all_sound w0) as Hok0 by (intros i s; rewrite Hw0; apply Hok).
  pose proof (serve_keeps c m t uid r w0 _ _ Hok0 (surjective_pairing _)) as Hr. destruct (serve c m t uid r w0).1; [by destruct Hr|done].
Qed.
End Served.

(** ** A concrete history *)
Definition store_clock (k : nat) : clock :=
  let t := 1000 + 10 * Z.of_nat k in {| now := utc t; now_hist := utc (t + 1); now_upd := utc (t + 2) |}.

Definition store_settings : static_settings := {|
  st_ami_name_default := "cml"; st_ami_ids := []; st_ami_names := []; st_instance_type := "m5zn.metal"; st_security_group_ids := [];
  st_subnet_id := None; st_auto_pause_enabled := true; st_idle_timeout_minutes := 60; st_metrics_poll_interval := 300 |}.
Definition store_provisioning : EffectiveWorkerProvisioningSettings :=
  {| ami_name_default := "cml"; eff_instance_type := "m5zn.metal"; eff_security_group_ids := []; eff_subnet_id := None |}.

Definition empty_store : world :=
  {| sessions := ∅; labs := ∅; workers := ∅; definitions := ∅; executions := []; published := []; faults := [] |}.

(** A worker is made, reported as running with its instance, charged for a session, and told to stop
    while the answer of the store is lost. *)
Definition store_requests : list (worker_request * list fate) :=
  [(CreateWorker store_settings store_provisioning "lab worker" "us-east-1" "m5zn.metal" None None None (Some "alice"), []);
   (ReportStatus "w-0" (Some "running") (Some "i-1") [], []);
   (AllocateCapacity {| ac_worker_id := "w-0"; ac_session_id := "s-1"; ac_capacity := no_capacity; ac_node_count := None;
                        ac_port_requirements := None |}, []);
   (StopWorker "w-0" None true None, [Served; Lost (ValueError "timeout")])].

Definition store_serve (w : world) (r : worker_request * list fate) : world :=
  (serve (H := worker_root_id) store_clock (fun _ => None) (utc 0) (fun _ => "w-0") r.1 (w <| faults := r.2 |>)).2.

Definition store_final : world := fold_left store_serve store_requests empty_store.

Lemma store_reached l w : star (served (H := worker_root_id)) w (fold_left store_serve l w).
Proof.
  revert w. induction l as [|[r f] l IH]; intros w; cbn [fold_left]; [constructor|]. eapply star_step; [|apply IH].
  exists store_clock, (fun _ => None), (utc 0), (fun _ => "w-0"), r, (w <| faults := f |>). by split.
Qed.

Lemma stored_workers_sound_witness :
  (desired_status <$> workers store_final !! "w-0" = Some STOPPED) /\ all_sound store_final.
Proof.
  split; [vm_compute; reflexivity|].
  exact (stored_workers_sound (H := worker_root_id) empty_store store_final eq_refl (store_reached store_requests empty_store)).
Defined.

(** * What the worker commands do

    The recalculation of a worker's books, the cleanup of the workers that are over, and what
    the reconciler makes of workers after a termination or a creation by command. *)
From S2P Require Import WorkerVisits LabletSession LabletSessionProps DefinitionProps.
From S2P Require Import Prelude Programs PyFloat PyData PyNum Enums Lifecycle Aggregate WorkerValues WorkerEvents SystemSettings.
From S2P Require Import LabletDefinition SessionCommands Worker WorkerProps WorkerSpec WorkerCommands WorkerFleet.
Import WorkerStatus.

(** ** Requests that were answered *)
Section Answered.
Implicit Types (w : world).

Lemma get_worker_answered i w r w' : get_worker i w = (Ok r, w') -> r = workers w !! i /\ workers w' = workers w.
Proof. unfold get_worker, request. destruct (faults w) as [|[|e|e] l]; by intros [= <- <-]. Qed.

Lemma put_worker_answered s w w' r : put_worker s w = (Ok r, w') -> workers w' = <[Worker.id s := s]> (workers w).
Proof. unfold put_worker, request. destruct (faults w) as [|[|e|e] l]; by intros [= <- <-]. Qed.

Lemma lift_answered {A} (r : res A) w a w' : lift r w = (Ok a, w') -> r = Ok a /\ w' = w.
Proof. unfold lift. by intros [= -> ->]. Qed.

(** A handler that succeeds has a body that did. *)
Lemma success_body (m : io response) p w n d w' :
  try_ m (internal p) w = (Ok (Success n d), w') -> m w = (Ok (Success n d), w').
Proof. unfold try_, internal. destruct (m w) as [[r|e] w1]; [done|]. intros [= ]. Qed.

Lemma with_worker_answered i missing k w n d w' :
  with_worker i missing k w = (Ok (Success n d), w') -> (forall n d, missing <> Success n d) ->
  exists s w1, workers w !! i = Some s /\ workers w1 = workers w /\ k s w1 = (Ok (Success n d), w').
Proof.
  unfold with_worker. intros (f & w1 & [-> Hw]%get_worker_answered & Hk)%run_returned Hm.
  destruct (workers w !! i) as [s|]; [eauto|]. injection Hk as Hk _. by destruct (Hm n d).
Qed.
End Answered.

Ltac answered := repeat match goal with
  | H : (lift _ ≫= _) _ = (Ok _, _) |- _ => apply run_returned in H as (? & ? & [? ->]%lift_answered & H)
  | p : (_ * _)%type |- _ => destruct p
  | H : (put_worker _ ≫= _) _ = (Ok _, _) |- _ => apply run_returned in H as (? & ? & ?%put_worker_answered & H)
  end.

(** ** The recalculation of the books *)

(** Whether a session is one that holds capacity, and what its definition asks for. *)
Definition holding (w : world) (i : string) : bool :=
  match sessions w !! i with
  | Some session => bool_decide (LabletSession.status session ∈ CAPACITY_HOLDING_STATUSES)
  | None => false
  end.

Definition definition_of (w : world) (i : string) : option LabletDefinitionState :=
  match sessions w !! i with
  | Some session =>
      if str_truthy (LabletSession.definition_id session) then definitions w !! LabletSession.definition_id session else None
  | None => None
  end.

Definition required (w : world) (i : string) : capacity := default no_capacity (required_capacity <$> definition_of w i).

Definition sum (f : string -> Z) (l : list string) : Z := foldr (fun i n => f i + n) 0 l.

Lemma sum_app f l1 l2 : sum f (l1 ++ l2) = sum f l1 + sum f l2.
Proof. unfold sum. induction l1; cbn; lia. Qed.

(** What the loop has added up. *)
Record weighed (w : world) (l : list string) (t : tally) : Prop := {
  weighed_active : active_session_ids t = List.filter (holding w) l;
  weighed_stale : stale_session_ids t = List.filter (fun i => negb (holding w i)) l;
  weighed_cpu : cap_cpu (total t) = sum (fun i => cap_cpu (required w i)) (List.filter (holding w) l);
  weighed_memory : cap_memory (total t) = sum (fun i => cap_memory (required w i)) (List.filter (holding w) l);
  weighed_storage : cap_storage (total t) = sum (fun i => cap_storage (required w i)) (List.filter (holding w) l)
}.

Lemma get_session_run i w : faults w = [] -> get_session i w = (Ok (sessions w !! i), w).
Proof. unfold get_session, request. by intros ->. Qed.
Lemma get_definition_run i w : faults w = [] -> get_definition i w = (Ok (definitions w !! i), w).
Proof. unfold get_definition, request. by intros ->. Qed.

Lemma weighed_stale_next w l i reason t : holding w i = false -> weighed w l t -> weighed w (l ++ [i]) (stale i reason t).
Proof.
  intros Hh [Ha Hs Hc Hm Hd].
  split; cbn [stale active_session_ids stale_session_ids total]; rewrite List.filter_app; cbn; rewrite Hh; cbn; by rewrite ?app_nil_r, ?Hs.
Qed.

Lemma weighed_active_next w l i t : holding w i = true -> weighed w l t -> weighed w (l ++ [i]) (active i (definition_of w i) t).
Proof.
  intros Hh [Ha Hs Hc Hm Hd].
  assert (match definition_of w i with Some d => required_capacity d | None => no_capacity end = required w i) as Hr
    by (unfold required; by destruct (definition_of w i)).
  split; cbn [active active_session_ids stale_session_ids total cap_cpu cap_memory cap_storage]; rewrite List.filter_app; cbn; rewrite Hh; cbn;
    rewrite ?app_nil_r, ?sum_app, ?Hr, ?Hc, ?Hm, ?Hd, ?Ha, ?Hs; cbn; try done; lia.
Qed.

Lemma weigh_run w i l t : faults w = [] -> weighed w l t -> exists t', weigh i t w = (Ok t', w) /\ weighed w (l ++ [i]) t'.
Proof.
  intros Hf Ht. unfold weigh. rewrite (run_bind _ _ _ _ _ (get_session_run i w Hf)).
  destruct (sessions w !! i) as [session|] eqn:Hi.
  2: { eexists. split; [done|]. apply weighed_stale_next; [|done]. unfold holding. by rewrite Hi. }
  assert (holding w i = bool_decide (LabletSession.status session ∈ CAPACITY_HOLDING_STATUSES)) as Hh by (unfold holding; by rewrite Hi).
  rewrite <- Hh. destruct (holding w i) eqn:Hb; cbn [negb].
  - exists (active i (definition_of w i) t). split; [|by apply weighed_active_next]. unfold definition_of. rewrite Hi.
    case_match; [by rewrite (run_bind _ _ _ _ _ (get_definition_run _ w Hf))|done].
  - eexists. split; [done|]. by apply weighed_stale_next.
Qed.

Lemma weigh_all_run w l : faults w = [] -> forall l0 t, weighed w l0 t -> exists t', weigh_all l t w = (Ok t', w) /\ weighed w (l0 ++ l) t'.
Proof.
  intros Hf. induction l as [|i l IH]; intros l0 t Ht; cbn [weigh_all].
  - exists t. by rewrite app_nil_r.
  - destruct (weigh_run w i l0 t Hf Ht) as (t1 & Hr & Ht1). destruct (IH _ _ Ht1) as (t2 & Hr2 & Ht2). exists t2.
    rewrite (run_bind _ _ _ _ _ Hr). by rewrite <- app_assoc in Ht2.
Qed.

Section Books.
Context `{RootId CMLWorkerState} (c : nat -> clock).

Lemma recalculate_effect c0 cpu mem sto nodes l1 l2 s s' evs : recalculate_capacity c0 cpu mem sto nodes l1 l2 s = Ok (s', evs) ->
  Worker.id s' = Worker.id s /\ session_ids s' = l1 /\
  allocated_capacity s' = {| cpu_cores := cpu; memory_gb := mem; storage_gb := sto; max_nodes := nodes |}.
Proof.
  unfold recalculate_capacity. intros (? & _ & [_ Ho]%worker_emit_ok)%bind_ok. cbn [on] in Ho. unfold on_AllocatedCapacityRecalculated in Ho.
  apply bind_ok in Ho as (k & [-> _]%mk_capacity_ok & [= <-]). by split_and!.
Qed.

(** (C20) After a recalculation that nothing disturbed the worker lists, of the sessions it had
    listed, those that are stored in a status that holds capacity, in their order, and it is
    charged the sum of what their definitions require: a session without a definition counts
    for nothing. *)
Theorem recalculated_books i by_ w n d w' s :
  faults w = [] -> workers w !! i = Some s -> Worker.id s = i -> handle_recalculate c i by_ w = (Ok (Success n d), w') ->
  exists s', workers w' !! i = Some s' /\
    session_ids s' = List.filter (holding w) (session_ids s) /\
    cpu_cores (allocated_capacity s') = sum (fun k => cap_cpu (required w k)) (session_ids s') /\
    memory_gb (allocated_capacity s') = sum (fun k => cap_memory (required w k)) (session_ids s') /\
    storage_gb (allocated_capacity s') = sum (fun k => cap_storage (required w k)) (session_ids s').
Proof.
  intros Hf Hs Hi Hr. unfold handle_recalculate, with_worker in Hr.
  assert (get_worker i w = (Ok (workers w !! i), w)) as Hg by (unfold get_worker, request; by rewrite Hf).
  rewrite (run_bind _ _ _ _ _ Hg), Hs in Hr. cbn zeta in Hr.
  destruct (weigh_all_run w (session_ids s) Hf [] no_tally) as (t & Ht & [Ha _ Hc Hm Hd]); [by split|].
  rewrite (run_bind _ _ _ _ _ Ht) in Hr. cbn [app] in *. answered.
  match goal with H : recalculate_capacity _ _ _ _ _ _ _ _ = Ok (?s', _) |- _ => apply recalculate_effect in H as (Hi' & Hl & Hk); exists s' end.
  injection Hr as _ _ <-. match goal with H : workers _ = _ |- _ => rewrite H end. rewrite Hi', Hi, lookup_insert_eq.
  rewrite Hl, Hk, Ha. cbn [cpu_cores memory_gb storage_gb]. by rewrite Hc, Hm, Hd.
Qed.
End Books.

(** ** The cleanup *)

(** [l] without the workers that the cleanup takes for old. *)
Definition old (cutoff : datetime) (s : CMLWorkerState) : Prop := long_over cutoff s = Ok true.

Lemma res_filter_ok {A} (f : A -> res bool) l l' x : res_filter f l = Ok l' -> x ∈ l' <-> x ∈ l /\ f x = Ok true.
Proof.
  revert l'. induction l as [|y l IH]; cbn [res_filter]; intros l' Hl.
  - injection Hl as <-. split; [by intros ?%elem_of_nil|by intros [?%elem_of_nil _]].
  - apply bind_ok in Hl as (b & Hb & (l1 & H1 & [= <-])%bind_ok). specialize (IH l1 H1). destruct b.
    + rewrite !elem_of_cons, IH. split; [intros [->|[Hx Hf]]; auto|intros [[->|Hx] Hf]; auto].
    + rewrite elem_of_cons, IH. split; [intros [Hx Hf]; auto|intros [[->|Hx] Hf]; [congruence|auto]].
Qed.

(** The stored workers of [w], of which some that satisfy [P] may be gone. *)
Definition less (P : string -> Prop) (w w' : world) : Prop :=
  forall i, workers w' !! i = workers w !! i \/ P i /\ workers w' !! i = None.
#[local] Instance less_preorder P : PreOrder (less P).
Proof. split; [intros w i; by left|]. intros w1 w2 w3 H12 H23 i. destruct (H12 i) as [H1|H1], (H23 i) as [H2|H2]; rewrite ?H2, ?H1; auto. Qed.

Lemma delete_less (P : string -> Prop) i : P i -> Programs.within (less P) (delete_worker i).
Proof.
  intros Hi w j. unfold delete_worker, request. destruct (decide (i = j)) as [->|Hj].
  - destruct (faults w) as [|[|e|e] l]; cbn; auto; right; (split; [done|]); apply lookup_delete_eq.
  - left. destruct (faults w) as [|[|e|e] l]; cbn; try done; by apply lookup_delete_ne.
Qed.

Section Cleanup.
Context `{RootId CMLWorkerState} (worker_root : forall s : CMLWorkerState, root_id s = Some (Worker.id s)) (c : nat -> clock).

Lemma worker_id s : aggregate_id s = Ok (Worker.id s).
Proof using worker_root. unfold aggregate_id. by rewrite worker_root. Qed.

Lemma clean_less P dry i r : (dry = false -> P i) -> Programs.within (less P) (clean dry i r).
Proof.
  intros Hi. unfold clean. apply within_try; [exact _| |intros e; apply within_ret; exact _].
  apply within_bind; [exact _| |intros b; apply within_ret; exact _]. destruct dry; [apply within_ret; exact _|by apply delete_less, Hi].
Qed.

Lemma clean_each_less P dry l r : (dry = false -> Forall (fun s => P (Worker.id s)) l) -> Programs.within (less P) (clean_each dry l r).
Proof using worker_root.
  revert r. induction l as [|s l IH]; intros r Hl; cbn [clean_each]; [apply within_ret; exact _|]. rewrite worker_id.
  intros w. cbn [lift mbind prog_bind]. revert w. change (Programs.within (less P) (r ← clean dry (Worker.id s) r; clean_each dry l r)).
  apply within_bind; [exact _| |].
  - apply clean_less. intros Hd. by destruct (Forall_cons_1 _ _ _ (Hl Hd)).
  - intros r'. apply IH. intros Hd. by destruct (Forall_cons_1 _ _ _ (Hl Hd)).
Qed.

(** Without failures all of [l] go. *)
Lemma clean_each_run l r w : faults w = [] -> Forall (fun s => workers (clean_each false l r w).2 !! Worker.id s = None) l /\
  faults (clean_each false l r w).2 = [] /\ (forall i, workers w !! i = None -> workers (clean_each false l r w).2 !! i = None).
Proof using worker_root.
  revert r w. induction l as [|s l IH]; intros r w Hf; [split_and!; [constructor|exact Hf|by intros i]|].
  set (w1 := w <| workers := delete (Worker.id s) (workers w) |>).
  assert (clean_each false (s :: l) r w = clean_each false l (r.1 ++ [Worker.id s], r.2) w1) as ->.
  { cbn [clean_each]. rewrite worker_id, (run_bind _ _ _ _ _ (eq_refl : lift (Ok (Worker.id s)) w = _)). apply run_bind.
    unfold clean, try_, mbind, prog_bind, delete_worker, request. by rewrite Hf. }
  destruct (IH (r.1 ++ [Worker.id s], r.2) w1 Hf) as (Hl & Hf1 & Hn). split_and!; [|done|].
  - constructor; [|done]. apply Hn. unfold w1. cbn. apply lookup_delete_eq.
  - intros i Hi. apply Hn. unfold w1. cbn. destruct (decide (Worker.id s = i)) as [->|Hne]; [apply lookup_delete_eq|by rewrite lookup_delete_ne].
Qed.

(** The first request of a handler, then the rest. *)
Lemma try_then {A B} (m : io A) (k : A -> io B) h w a w1 : m w = (Ok a, w1) -> try_ (m ≫= k) h w = try_ (k a) h w1.
Proof. intros Hm. unfold try_. by rewrite (run_bind _ _ _ _ _ Hm). Qed.

Lemma all_workers_answer w r w1 : all_workers w = (r, w1) ->
  workers w1 = workers w /\ match r with Ok l => l = map snd (map_to_list (workers w)) | Err _ => True end.
Proof. unfold all_workers, request. destruct (faults w) as [|[|e|e] l]; by intros [= <- <-]. Qed.

Definition cutoff (days : Z) : datetime := dt_add (now (c 0%nat)) (- seconds (days * 86400)).

Lemma res_filter_total {A} (f : A -> res bool) l : Forall (fun x => is_ok (f x)) l -> exists l', res_filter f l = Ok l'.
Proof.
  induction 1 as [|x l Hx _ (l' & Hl)]; cbn [res_filter]; [by eexists|]. destruct (f x) as [b|e]; [|done]. rewrite Hl. by eexists.
Qed.

Lemma within_call {A B} P (r : res A) (f : A -> io B) : (forall a, r = Ok a -> Programs.within (less P) (f a)) -> Programs.within (less P) (lift r ≫= f).
Proof. intros Hf w. destruct r as [a|e]; [by apply Hf|by left]. Qed.

Definition expired (dry : bool) (days : Z) (w : world) (j : string) : Prop :=
  dry = false /\ exists t, workers w !! j = Some t /\ old (cutoff days) t.

Lemma cleanup_less days dry w : (forall j t, workers w !! j = Some t -> Worker.id t = j) ->
  less (expired dry days w) w (handle_cleanup c days dry w).2.
Proof using worker_root.
  intros Hkeys. unfold handle_cleanup. cbn zeta. fold (cutoff days).
  destruct (all_workers w) as [[l|e] w1] eqn:Ha; pose proof (all_workers_answer _ _ _ Ha) as [Hw Hl].
  2: { unfold try_. rewrite (run_raise _ _ _ _ _ Ha). intros j. left. by rewrite <- Hw. }
  rewrite (try_then _ _ _ _ _ _ Ha). transitivity w1; [intros j; left; by rewrite Hw|].
  match goal with |- less ?P ?x (try_ ?b ?h ?x).2 => cut (Programs.within (less P) (try_ b h)); [by intros HH; apply HH|] end.
  apply within_try; [exact _| |intros e; apply within_ret; exact _].
  apply within_call. intros l' Hr.
  destruct l' as [|t l']; [apply within_ret; exact _|].
  apply within_bind; [exact _| |intros [? ?]; apply within_ret; exact _]. apply clean_each_less. intros Hd. apply Forall_forall.
  intros t' Ht'. apply (res_filter_ok _ _ _ _ Hr) in Ht' as [Hin Ho]. subst l. apply list_elem_of_fmap in Hin as ([j t1] & -> & Hj%elem_of_map_to_list).
  split; [done|]. exists t1. cbn in *. by rewrite (Hkeys _ _ Hj).
Qed.

Lemma cleanup_all days w i s : (forall j t, workers w !! j = Some t -> Worker.id t = j) -> workers w !! i = Some s ->
  faults w = [] -> (forall j t, workers w !! j = Some t -> is_ok (long_over (cutoff days) t)) -> old (cutoff days) s ->
  workers (handle_cleanup c days false w).2 !! i = None.
Proof using worker_root.
  intros Hkeys Hs Hf Hok Ho. unfold handle_cleanup. cbn zeta. fold (cutoff days).
  assert (all_workers w = (Ok (map snd (map_to_list (workers w))), w)) as Ha by (unfold all_workers, request; by rewrite Hf).
  rewrite (try_then _ _ _ _ _ _ Ha). destruct (res_filter_total (long_over (cutoff days)) (map snd (map_to_list (workers w)))) as [l' Hl'].
  { apply Forall_fmap, Forall_forall. intros [j t] Hj%elem_of_map_to_list. by eapply Hok. }
  rewrite (try_then _ _ _ w l' w) by (by rewrite Hl').
  assert (s ∈ l') as Hin.
  { apply (res_filter_ok _ _ _ _ Hl'). split; [|exact Ho]. apply list_elem_of_fmap. exists (i, s). by rewrite elem_of_map_to_list. }
  destruct (clean_each_run l' ([], []) w Hf) as (Hall & _ & _). rewrite Forall_forall in Hall. specialize (Hall s Hin). rewrite (Hkeys _ _ Hs) in Hall.
  destruct l' as [|t l']; [by apply elem_of_nil in Hin|]. unfold try_, mbind, prog_bind.
  by destruct (clean_each false (t :: l') ([], []) w) as [[[? ?]|e] w2].
Qed.

(** (C37) The cleanup deletes terminated workers that ended before the cutoff and no others, whatever
    fails; when nothing fails, and all the times can be compared, it deletes them all.  A dry
    run deletes none. *)
Theorem cleanup_deletes_old days dry w i s :
  (forall j t, workers w !! j = Some t -> Worker.id t = j) -> workers w !! i = Some s ->
  (workers (handle_cleanup c days dry w).2 !! i = Some s \/
   workers (handle_cleanup c days dry w).2 !! i = None /\ dry = false /\
   status s = TERMINATED /\ exists t, terminated_at s = Some t /\ dt_ltb t (cutoff days) = Ok true) /\
  (faults w = [] -> dry = false -> (forall j t, workers w !! j = Some t -> is_ok (long_over (cutoff days) t)) ->
   old (cutoff days) s -> workers (handle_cleanup c days dry w).2 !! i = None).
Proof using worker_root.
  intros Hkeys Hs. split.
  - destruct (cleanup_less days dry w Hkeys i) as [Hi|[[Hd (t & Ht & Ho)] Hi]]; rewrite Hi; [by left|]. right. rewrite Hs in Ht. injection Ht as <-.
    unfold old, long_over in Ho. case_bool_decide as Hst; [|done]. cbn [negb] in Ho. destruct (terminated_at s) as [t|]; [|done]. eauto 6.
  - intros Hf -> Hok Ho. by apply cleanup_all with s.
Qed.
End Cleanup.

(** ** What the reconciler makes of it *)
Section Controller.
Context `{RootId CMLWorkerState}.

Lemma on_Terminated_instance c0 e s s' : on_Terminated c0 e s = Ok s' -> Worker.id s' = Worker.id s /\ aws_instance_id s' = aws_instance_id s.
Proof.
  unfold on_Terminated. intros H1. apply bind_ok in H1 as (s1 & [d ->]%worker_duration_eq & Ht). injection Ht as <-. split; reflexivity.
Qed.
#[local] Strategy 1000 [on_Terminated].

Lemma terminate_effect c0 by_ s s' evs : terminate c0 by_ s = Ok (s', evs) ->
  Worker.id s' = Worker.id s /\ aws_instance_id s' = aws_instance_id s /\ status s' = TERMINATED.
Proof.
  unfold terminate. intros (? & _ & [_ Ho]%worker_emit_ok)%bind_ok. cbn [on] in Ho.
  destruct (on_Terminated_instance _ _ _ _ Ho) as [-> ->]. by destruct (on_Terminated_fields _ _ _ _ Ho) as [-> _].
Qed.

Lemma desired_effect c0 st by_ r s b s' evs : update_desired_status c0 st by_ r s = Ok (b, s', evs) ->
  Worker.id s' = Worker.id s /\ aws_instance_id s' = aws_instance_id s /\ desired_status s' = st.
Proof.
  unfold update_desired_status. case_bool_decide as Hd; [by intros [= _ <- _]|].
  intros (? & _ & (_ & _ & Ho)%emit_true_ok)%bind_ok. cbn [on] in Ho. injection Ho as <-. by split_and!.
Qed.

(** A termination by command marks the worker as terminated at once, with its instance still
    assigned; and the reconciler visits no worker that it reads in that status, after its
    start as little as during it. *)
Theorem terminated_keeps_instance c i by_ reason w n d w' s :
  handle_terminate_worker c i by_ reason w = (Ok (Success n d), w') ->
  workers w !! i = Some s -> Worker.id s = i -> status s <> TERMINATED -> desired_status s <> TERMINATED ->
  exists s', workers w' !! i = Some s' /\ aws_instance_id s' = aws_instance_id s /\ status s' = TERMINATED /\
    forall sweep (m : WorkerVisits.worker), w_status m = CMLWorkerStatus_value (status s') -> needs_reconcile sweep m = false.
Proof.
  intros Hr Hs Hi Hst Hd. unfold handle_terminate_worker in Hr. apply success_body, with_worker_answered in Hr as (s0 & w1 & Hs0 & Hw1 & Hr); [|done].
  rewrite Hs in Hs0. injection Hs0 as <-. rewrite !bool_decide_eq_false_2 in Hr by done. answered.
  match goal with H : update_desired_status _ _ _ _ _ = _ |- _ => apply desired_effect in H as (Hi1 & Ha1 & _) end.
  match goal with H : terminate _ _ _ = _ |- _ => apply terminate_effect in H as (Hi2 & Ha2 & Hs2) end.
  unfold report_worker in Hr. answered. injection Hr as _ _ <-. eexists. split; [match goal with H : workers _ = _ |- _ => rewrite H end; rewrite Hi2, Hi1, Hi; apply lookup_insert_eq|].
  split; [by rewrite Ha2, Ha1|]. split; [done|]. intros sweep m Hm. rewrite Hs2 in Hm. unfold needs_reconcile, in_status. rewrite Hm. by destruct sweep.
Qed.

Lemma create_effect c0 t uid n rg it ami an ad adt ins st v ca by_ o s evs :
  Worker.create c0 t uid n rg it ami an ad adt ins st v ca by_ None o = Ok (s, evs) ->
  Worker.id s = uid /\ aws_instance_id s = ins /\ status s = st /\ template_name s = None.
Proof.
  unfold Worker.create. intros [_ Ho]%worker_emit_ok. cbn [on] in Ho. unfold on_Created in Ho. injection Ho as <-. split_and!; reflexivity.
Qed.

(** A worker that a user creates has no template, and without one the reconciler launches
    nothing: its visits ask nobody anything, and the worker stays pending. *)
Theorem created_worker_never_launches c st prov t_init uid name_ region itype ami aname version by_ w n d w' :
  handle_create_worker c st prov t_init uid name_ region itype ami aname version by_ w = (Ok (Success n d), w') ->
  exists s, workers w' !! uid = Some s /\ status s = PENDING /\ template_name s = None /\
    forall `{Services} (cfg : settings) (m : WorkerVisits.worker) ctl, w_template_name m = None ->
      exists message, handle_pending cfg m ctl = (Ok (Reconciliation.result_failed message), ctl).
Proof.
  intros Hr. unfold handle_create_worker in Hr. apply success_body in Hr. destruct (pick_ami _ _ _ _ _) as [a1 a2]. answered.
  match goal with H : Worker.create _ _ _ _ _ _ _ _ _ _ _ _ _ _ _ _ _ = Ok (?s, _) |- _ => apply create_effect in H as (Hi & Ha & Hs & Ht); rename s into s0 end.
  apply run_returned in Hr as (s1 & w1 & Hadd & Hr). unfold add_worker in Hadd. rewrite Ha in Hadd. cbn [ostr_truthy] in Hadd.
  rewrite (run_bind (mret None) _ w None w eq_refl) in Hadd. answered. injection Hadd as <- ->. unfold created in Hr. answered. injection Hr as _ _ <-.
  exists s0. split; [match goal with H : workers _ = _ |- _ => rewrite H end; rewrite Hi; apply lookup_insert_eq|]. split; [done|]. split; [done|].
  intros ? ? cfg m ctl Hm. unfold handle_pending, provision, try_. rewrite Hm. cbn. by eexists.
Qed.
End Controller.

(** ** Concrete worlds *)
Definition booked_worker : CMLWorkerState := init_state (utc 0) <| Worker.id := "w-1" |> <| status := RUNNING |> <| aws_instance_id := Some "i-1" |>
  <| session_ids := ["s-0"; "s-1"; "s-2"] |>.
Definition ended_worker : CMLWorkerState := init_state (utc 0) <| Worker.id := "w-2" |> <| status := TERMINATED |> <| terminated_at := Some (utc 10) |>.
Definition booked_session : LabletSession.LabletSessionState :=
  LabletSessionProps.example_session <| LabletSession.id := "s-1" |> <| LabletSession.definition_id := "d-1" |>.

Definition booked_world : world := {|
  sessions := {["s-1" := booked_session]}; labs := ∅; workers := {["w-1" := booked_worker; "w-2" := ended_worker]};
  definitions := {["d-1" := DefinitionProps.example_synced]}; executions := []; published := []; faults := [] |}.

Definition answered_with (r : res response * world) : Z * pydict := match r.1 with Ok (Success n d) => (n, d) | _ => (0, []) end.

Definition is_success_of (r : res response * world) : bool := match r.1 with Ok (Success _ _) => true | _ => false end.
Lemma answer_is (r : res response * world) : is_success_of r = true -> r = (Ok (Success (answered_with r).1 (answered_with r).2), r.2).
Proof. destruct r as [[[] |] ?]; try done. Qed.

Definition recalculated : res response * world := handle_recalculate (H := worker_root_id) store_clock "w-1" "admin" booked_world.

Lemma recalculated_books_witness : exists s', workers recalculated.2 !! "w-1" = Some s' /\ session_ids s' = ["s-1"] /\
  cpu_cores (allocated_capacity s') = sum (fun k => cap_cpu (required booked_world k)) ["s-1"].
Proof.
  destruct (recalculated_books (H := worker_root_id) store_clock "w-1" "admin" booked_world (answered_with recalculated).1
    (answered_with recalculated).2 recalculated.2 booked_worker eq_refl) as (s' & Hs & Hl & Hc & _).
  - vm_compute. reflexivity.
  - reflexivity.
  - apply (answer_is recalculated). vm_compute. reflexivity.
  - exists s'. rewrite Hl in Hc |- *. split; [done|]. split; [|exact Hc]. vm_compute. reflexivity.
Defined.

Lemma booked_stored j t : workers booked_world !! j = Some t -> j = "w-1" /\ t = booked_worker \/ j = "w-2" /\ t = ended_worker.
Proof.
  cbn [booked_world workers]. intros [[<- <-]|[_ Hj]]%lookup_insert_Some; [by left|]. apply lookup_singleton_Some in Hj as [<- <-]. by right.
Qed.

Lemma cleanup_deletes_old_witness : workers (handle_cleanup (H := worker_root_id) store_clock 0 false booked_world).2 !! "w-2" = None.
Proof.
  refine (proj2 (cleanup_deletes_old (H := worker_root_id) (fun s => eq_refl) store_clock 0 false booked_world "w-2" ended_worker _ _) eq_refl eq_refl _ _).
  - by intros j t [[-> ->]|[-> ->]]%booked_stored.
  - vm_compute. reflexivity.
  - intros j t [[-> ->]|[-> ->]]%booked_stored; vm_compute; reflexivity.
  - vm_compute. reflexivity.
Defined.
