(* ===== verification/Enforcement.v ===== *)
(** * The enforcement of time slots
    ([control-plane-api/application/services/timeslot_enforcement_service.py])

    The control plane itself looks for sessions that are past their end, apart from what
    the controllers do, and sends [ExpireLabletSessionCommand] for each of them. *)
From S2P Require Import Prelude PyData Enums Programs LabletDefinition Worker LabRecord LabletSession LabletSessionProps.
From S2P Require Import SessionCommands SessionBooks SessionCommandsSpec Timeslots.
Import SessionStatus.

Section Enforcement.
Context `{RootId LabletSessionState} `{RootId LabRecordState} `{RootId CMLWorkerState}
  `{RootId LabletDefinitionState} `{SetOrder}.
(** [c k] has the readings of the clock for the [k]-th command. *)
Context (stored_end : LabletSessionState -> option datetime) (c : nat -> nat -> clock).

Definition enforcement_reason : string := "timeslot_enforcement_cpa".

(** One turn of the loop: a command that raises is logged. *)
Definition enforce_session (k : nat) (session_id : string) : io bool :=
  try_ (result ← handle_expire (c k) session_id enforcement_reason; mret (is_success result)) (fun _ => mret false).

(** The loop, and by how much [_enforcement_count] grows. *)
Fixpoint enforce_sessions (k : nat) (expired : list LabletSessionState) : io nat :=
  match expired with
  | [] => mret 0%nat
  | s :: expired =>
      done_ ← enforce_session k (id s);
      count ← enforce_sessions (S k) expired;
      mret (if done_ : bool then S count else count)
  end.

(** [_enforce_timeslots], where the repository finds [repository]. *)
Definition enforce_timeslots (as_of : datetime) (repository : list LabletSessionState) : io nat :=
  enforce_sessions 0 (list_past_end stored_end as_of repository).

(** ** What a command does to sessions *)

(** Nothing; and if nothing is to fail, it stays so. *)
Definition calm (w w' : world) : Prop := sessions w' = sessions w /\ (faults w = [] -> faults w' = []).
#[local] Instance calm_preorder : PreOrder calm.
Proof. split; [by split|]. intros w1 w2 w3 [E1 F1] [E2 F2]. split; [congruence|auto]. Qed.

Lemma calm_request {A} (m : io A) : within calm m -> within calm (request m).
Proof.
  intros Hm w. unfold request. destruct (faults w) as [|[|e|e] l] eqn:Hf.
  - by apply Hm.
  - destruct (Hm (w <| faults := l |>)) as [E F]. split; [exact E|by rewrite Hf].
  - split; [done|by rewrite Hf].
  - destruct (Hm (w <| faults := l |>)) as [E F]. split; [exact E|by rewrite Hf].
Qed.
Lemma calm_read {A} (f : world -> res A) : within calm (request (fun w => (f w, w))).
Proof. apply calm_request. by intros w. Qed.
Lemma calm_put_lab lab : within calm (put_lab lab).
Proof. apply calm_request. by intros w. Qed.
Lemma calm_put_worker wk : within calm (put_worker wk).
Proof. apply calm_request. by intros w. Qed.

Ltac calm :=
  repeat first
    [ apply calm_put_lab | apply calm_put_worker | apply calm_read
    | apply within_ret; exact _ | apply within_lift; exact _
    | apply within_try; [exact _| |intros ?]
    | apply within_bind; [exact _| |intros ?]
    | match goal with |- within _ (match ?x with _ => _ end) => destruct x end ].

Lemma calm_release_session at_ k i wk s : within calm (release_session at_ k i wk s).
Proof. unfold release_session, capacity_of, get_definition. calm. Qed.
Lemma calm_unbind at_ i s : within calm (expire_unbind at_ i s).
Proof. unfold expire_unbind, unbind, get_lab. calm. Qed.
Lemma calm_expire_wipe at_ lab s : within calm (expire_wipe at_ lab s).
Proof. unfold expire_wipe, get_lab. calm. Qed.

(** The session that a command leaves: expired if the aggregate lets it be. *)
Definition expired_at (at_ : clock) (s : LabletSessionState) : LabletSessionState :=
  if bool_decide (status s = EXPIRED) then s
  else match expire at_ enforcement_reason s with Ok (s', _) => s' | Err _ => s end.

(** The rest of the command, once the session is written. *)
Lemma calm_after_put at_ i s : within calm (
  '(lab, unbound) ← expire_unbind at_ i s;
  queued ← expire_wipe at_ lab s;
  released ← match worker_id s with
             | Some worker => if str_truthy worker then release_session at_ 3 i worker s else mret false
             | None => mret false
             end;
  ok [("session_id", PStr i); ("status", PStr "expired"); ("reason", PStr enforcement_reason);
      ("lab_record_unbound", PBool unbound); ("lab_wipe_queued", PBool queued);
      ("capacity_released", PBool released)]).
Proof.
  apply within_bind; [exact _|apply calm_unbind|]. intros [lab unbound]. apply within_bind; [exact _|apply calm_expire_wipe|].
  intros queued. apply within_bind; [exact _| |intros released; apply within_ret; exact _].
  destruct (worker_id s) as [wk|]; [destruct (str_truthy wk)|]; try (apply within_ret; exact _). apply calm_release_session.
Qed.

Lemma expire_command k i s w : faults w = [] -> sessions w !! i = Some s -> id s = i ->
  sessions (handle_expire (c k) i enforcement_reason w).2 = <[i := expired_at (c k 0%nat) s]> (sessions w) /\
  faults (handle_expire (c k) i enforcement_reason w).2 = [].
Proof.
  intros Hf Hi Hid. assert (get_session i w = (Ok (Some s), w)) as Hg by (unfold get_session, request; by rewrite Hf, Hi).
  unfold handle_expire, with_session. rewrite (run_bind _ _ _ _ _ Hg).
  unfold expired_at. destruct (decide (status s = EXPIRED)) as [He|He].
  - rewrite !bool_decide_eq_true_2 by done. cbn. by rewrite (insert_id _ _ _ Hi).
  - rewrite !bool_decide_eq_false_2 by done. unfold apply_or_conflict. destruct (expire (c k 0%nat) enforcement_reason s) as [[s' evs]|e] eqn:Hx.
    + pose proof (exec_id (c k 0%nat) (LabletSessionProps.Expire enforcement_reason) s s' evs Hx) as Hid'.
      assert (put_session s' w = (Ok (), w <| sessions := <[i := s']> (sessions w) |>)) as Hput
        by (unfold put_session, request; by rewrite Hf, Hid', Hid).
      rewrite (run_bind _ _ _ _ _ Hput).
      match goal with |- context [(?m ?x).2] => destruct (calm_after_put (c k) i s' x) as [E F] end.
      rewrite E. split; [done|]. by apply F.
    + cbn. by rewrite (insert_id _ _ _ Hi).
Qed.

Lemma enforce_session_run k i s w : faults w = [] -> sessions w !! i = Some s -> id s = i ->
  exists b w', enforce_session k i w = (Ok b, w') /\ sessions w' = <[i := expired_at (c k 0%nat) s]> (sessions w) /\ faults w' = [].
Proof.
  intros Hf Hi Hid. destruct (expire_command k i s w Hf Hi Hid) as [E F]. unfold enforce_session, try_, mbind, prog_bind.
  destruct (handle_expire (c k) i enforcement_reason w) as [[r|e] w']; cbn in *; eauto.
Qed.

Lemma enforce_run l k w : faults w = [] -> NoDup (map id l) -> Forall (fun s => sessions w !! id s = Some s) l ->
  exists n w', enforce_sessions k l w = (Ok n, w') /\
    (forall j s, l !! j = Some s -> sessions w' !! id s = Some (expired_at (c (k + j)%nat 0%nat) s)) /\
    (forall i, i ∉ map id l -> sessions w' !! i = sessions w !! i).
Proof.
  revert k w. induction l as [|s l IH]; intros k w Hf Hn Hl; cbn [enforce_sessions]; [by eexists _, _|].
  apply Forall_cons in Hl as [Hs Hl]. apply NoDup_cons in Hn as [Hni Hn].
  destruct (enforce_session_run k (id s) s w Hf Hs eq_refl) as (b & w1 & Hrun & E & F).
  assert (Forall (fun s => sessions w1 !! id s = Some s) l) as Hl1.
  { rewrite Forall_forall in Hl |- *. intros s' Hs'. rewrite E, lookup_insert_ne; [by apply Hl|].
    intros Heq. apply Hni. rewrite Heq. by apply (list_elem_of_fmap_2 id). }
  destruct (IH (S k) w1 F Hn Hl1) as (n & w2 & Hrest & Hin & Hout).
  exists (if b then S n else n), w2. split; [|split].
  - rewrite (run_bind _ _ _ _ _ Hrun), (run_bind _ _ _ _ _ Hrest). done.
  - intros [|j] s' Hj; cbn in Hj.
    + injection Hj as <-. rewrite Hout by done. by rewrite E, lookup_insert_eq, Nat.add_0_r.
    + rewrite (Hin j s' Hj). by rewrite Nat.add_succ_r.
  - intros i Hi. cbn in Hi. apply not_elem_of_cons in Hi as [Hne Hi]. rewrite Hout by done. by rewrite E, lookup_insert_ne.
Qed.

Lemma filter_ids p (l : list LabletSessionState) : NoDup (map id l) -> NoDup (map id (List.filter p l)).
Proof.
  induction l as [|s l IH]; cbn; [done|]. intros [Hn Hl]%NoDup_cons. destruct (p s); cbn; [|auto]. apply NoDup_cons. split; [|auto].
  intros (s' & Heq & Hs')%list_elem_of_fmap. apply Hn. rewrite Heq. apply (list_elem_of_fmap_2 id).
  apply list_elem_of_In in Hs'. by apply List.filter_In in Hs' as [Hs'%list_elem_of_In _].
Qed.

End Enforcement.

(** ** A concrete run: the session of [SessionCommandsSpec.demo_world], instantiating and overdue. *)
#[local] Instance session_root : RootId LabletSessionState := fun s => Some (id s).
#[local] Instance lab_root : RootId LabRecordState := fun s => Some (LabRecord.id s).
#[local] Instance worker_root : RootId CMLWorkerState := fun s => Some (Worker.id s).
#[local] Instance definition_root : RootId LabletDefinitionState := fun s => Some (LabletDefinition.id s).

Definition ends (s : LabletSessionState) : option datetime := match timeslot_end s with Ok t => Some t | Err _ => None end.

