(* ===== verification/PipelineProgressProps.v ===== *)
(** * What the reports on a pipeline leave behind

    The audit record that is never opened, the completion that is announced too early
    and the failure that is never announced; the answer of the scenario engine for a
    step that waits. *)
From S2P Require Import Prelude Programs PyData Enums Pipeline PipelineProps PipelineSpec.
From S2P Require Import LabletSession SessionCommandsSpec SessionCommands PipelineProgress.

(** ** The statuses the executor reports *)

Definition report_statuses : list string := ["completed"; "failed"; "skipped"; "suspended"].

Definition reported (e : effect) : Prop :=
  match e with Persist _ _ status _ _ => status ∈ report_statuses | _ => True end.

(** Every report in the log is on a step that ended or waits. *)
Definition settled_log (x : exec) : Prop := Forall reported (log x).

Lemma settled_effects l x : settled_log x -> Forall reported l -> settled_log (effects x l).
Proof. intros Hx Hl. by apply Forall_app. Qed.

Lemma settled_persist pn n st d e x : settled_log x -> st ∈ report_statuses -> settled_log (persist_progress pn n st d e x).
Proof. intros Hx Hst. apply settled_effects; [done|]. constructor; [exact Hst|constructor]. Qed.

Ltac reported_tac := rewrite <- (bool_decide_spec (_ ∈ report_statuses)); exact I.

Section Executor.
Context `{SetOrder} (dispatch : dispatcher) (simple_eval : string -> pydict -> evaluated)
  (now_iso : list effect -> datetime) (getattr : pyval -> string -> option pyval).

Lemma settled_attempts s n a e x : settled_log x -> settled_log (run_attempts dispatch s n a e x).2.
Proof.
  revert a e x. induction n as [|n IH]; intros a e x Hx; cbn [run_attempts]; [done|].
  set (x2 := effects _ [Dispatch _ _ _]).
  assert (settled_log x2) as Hx2 by (apply settled_effects; [exact Hx|by repeat constructor]).
  set (w := if _ && _ then _ else _). assert (Forall reported w) as Hw by (unfold w; destruct (_ && _); by repeat constructor).
  destruct (dispatch _ _ _ _ _) as [[] | |]; try exact Hx2; by apply IH, settled_effects.
Qed.

Section Loop.
Context (all ordered : list step) (pn : option string) (resume : dict pydict).

Lemma settled_abort x : settled_log x -> settled_log (abort_rest ordered pn x).
Proof.
  unfold abort_rest. generalize ordered as l. intros l. revert x.
  induction l as [|s l IH]; intros x Hx; [done|]. cbn [fold_left]. apply IH.
  destruct (dict_mem _ _); [done|]. by apply settled_persist; [|reported_tac].
Qed.

Lemma settled_fail s err entry x : settled_log x -> settled_log (fail_step ordered pn s err entry x).2.
Proof.
  intros Hx. unfold fail_step. destruct (optional s); cbn [snd]; [|apply settled_abort];
    (apply settled_persist; [exact Hx|reported_tac]).
Qed.

Lemma settled_result s d x : settled_log x -> settled_log (handle_result now_iso ordered pn s d x).2.
Proof.
  intros Hx. unfold handle_result. cbv zeta.
  destruct (eq_str _ "skipped"); [|destruct (eq_str _ "suspended"); [|destruct (eq_str _ "failed")]]; cbn [snd];
    [| |by apply settled_fail|]; (apply settled_persist; [exact Hx|reported_tac]).
Qed.

Lemma settled_run_step s x stop x' : run_step dispatch simple_eval now_iso all ordered pn s x = Ok (stop, x') ->
  settled_log x -> settled_log x'.
Proof.
  unfold run_step. intros He Hx. destruct (blocked_by all (needs s) x) as [dep|].
  - injection He as <- <-. apply settled_persist; [exact Hx|reported_tac].
  - apply bind_ok in He as (skip & _ & He). destruct skip.
    + injection He as <- <-. apply settled_persist; [exact Hx|reported_tac].
    + pose proof (settled_attempts s (Z.to_nat (attempts_of s)) 1 "None" x Hx) as Hx1. unfold execute_step in He.
      destruct (run_attempts _ _ _ _ _ _) as [[d|msg] x1]; cbn [snd] in Hx1; injection He as He.
      * by pose proof (settled_result s d x1 Hx1) as Hr; rewrite He in Hr.
      * by pose proof (settled_fail s (PStr msg) [("status", PStr "failed"); ("error", PStr msg)] x1 Hx1) as Hr; rewrite He in Hr.
Qed.

Lemma settled_resume_step s prev x r : resume_step s prev x = Ok (Some r) -> settled_log x -> settled_log r.2.
Proof.
  unfold resume_step. intros He Hx. destruct (eq_str _ "completed"); [|destruct (eq_str _ "skipped"); [|destruct (eq_str _ "suspended")]].
  - injection He as <-. by destruct (truthy _).
  - by injection He as <-.
  - apply bind_ok in He as (j & _ & He). apply bind_ok in He as (k & _ & He). by injection He as <-.
  - done.
Qed.

Lemma settled_visit s x stop x' : visit dispatch simple_eval now_iso all ordered pn resume s x = Ok (stop, x') ->
  settled_log x -> settled_log x'.
Proof.
  unfold visit. destruct (dict_get _ resume) as [[|e prev]|]; [apply settled_run_step| |apply settled_run_step].
  intros He Hx. apply bind_ok in He as ([r|] & Hr & He).
  - injection He as ->. by apply (settled_resume_step _ _ _ _ Hr).
  - by eapply settled_run_step.
Qed.

Lemma settled_run_steps l x x' : run_steps dispatch simple_eval now_iso all ordered pn resume l x = Ok x' ->
  settled_log x -> settled_log x'.
Proof.
  revert x. induction l as [|s l IH]; intros x; cbn [run_steps]; [by intros [= <-]|].
  intros He Hx. apply bind_ok in He as ([stop x1] & Hv & He). apply settled_visit in Hv; [|done].
  destruct stop; [by injection He as <-|by apply (IH x1)].
Qed.
End Loop.

Lemma settled_execute p data ex pn r x : execute dispatch simple_eval now_iso getattr p data ex pn [] = Ok (r, x) -> settled_log x.
Proof.
  unfold execute. destruct (steps p) as [|s l]; [intros [= <- <-]; constructor|].
  intros He. apply bind_ok in He as (ordered & _ & He). apply bind_ok in He as (resume & _ & He).
  apply bind_ok in He as (x1 & He & Hx). injection Hx as <- <-. eapply settled_run_steps; [exact He|constructor].
Qed.
End Executor.

(** ** What a report does to records and events *)

Lemma settled_entries l : all_settled l = Ok true -> exists entries, mapM entry_dict l = Ok entries /\
  Forall (fun s => has_status "completed" s || has_status "skipped" s = true) entries.
Proof.
  induction l as [|v l IH]; cbn [all_settled]; [intros _; exists []; by split|].
  intros He. apply bind_ok in He as (s & Hv & He). destruct (has_status _ s || has_status _ s) eqn:Hs; [|done].
  destruct (IH He) as (entries & Hm & Hall). exists (s :: entries). cbn [mapM]. rewrite Hv. cbn. rewrite Hm. by repeat constructor.
Qed.

Lemma settled_no_failure l n : all_settled l = Ok true -> count_status "failed" l = Ok n -> n = 0.
Proof.
  intros (entries & Hm & Hall)%settled_entries. unfold count_status. rewrite Hm. cbn. intros [= <-]. clear Hm.
  induction Hall as [|s entries Hs _ IH]; [done|]. cbn.
  destruct (has_status "failed" s) eqn:Hf; [|exact IH]. exfalso. revert Hs Hf. unfold has_status, eq_str.
  destruct (pd_get "status" s); try discriminate. intros Hs ->%String.eqb_eq. discriminate Hs.
Qed.

Lemma replace_execution_ids x l : map ex_id (replace_execution x l) = map ex_id l.
Proof. induction l as [|y l IH]; [done|]. cbn. destruct (String.eqb_spec (ex_id y) (ex_id x)); cbn; congruence. Qed.

Lemma replace_execution_elem x y l : y ∈ replace_execution x l -> y = x \/ y ∈ l.
Proof.
  induction l as [|z l IH]; cbn; [auto|]. destruct (String.eqb _ _); rewrite !elem_of_cons; [|intros [->|[]%IH]; auto]. tauto.
Qed.

Section Reports.
Context `{RootId LabletSessionState}.

(** [I] holds of the world however its requests end. *)
Section Invariant.
Context (I : world -> Prop) (keeps_faults : forall w l, I w -> I (w <| faults := l |>)).

Lemma triple_request_keeps {A} (m : prog world A) : (forall w, I w -> I (m w).2) ->
  triple I (request m) (fun _ => I) I.
Proof using keeps_faults.
  intros Hm w r w' Hw He. assert (I w') as Hw'; [|by destruct r]. unfold request in He.
  destruct (faults w) as [|[|e|e] l].
  - specialize (Hm w Hw). by rewrite He in Hm.
  - specialize (Hm _ (keeps_faults w l Hw)). by rewrite He in Hm.
  - injection He as <- <-. by apply keeps_faults.
  - injection He as <- <-. apply Hm. by apply keeps_faults.
Qed.

(** A report keeps what its events and its record keep. *)
Lemma triple_report c uid p : (forall w S, I w -> I (w <| sessions := S |>)) ->
  (forall t all_done current, all_settled (dict_values current) = Ok all_done ->
     triple I (emit_step_cloud_event t p all_done current) (fun _ => I) I) ->
  (forall t t' all_done current, all_settled (dict_values current) = Ok all_done ->
     triple I (upsert_execution_record uid t t' p current all_done) (fun _ => I) I) ->
  triple I (handle_update_progress c uid p) (fun _ => I) I.
Proof using keeps_faults.
  intros Hsess Hemit Hrec. unfold handle_update_progress.
  destruct (negb _); [by apply triple_ret|]. destruct (negb _); [by apply triple_ret|]. unfold with_session.
  eapply triple_bind; [by apply triple_request_keeps|]. intros [s|]; [|by apply triple_ret].
  apply triple_call; [intros old _|done]. apply triple_call; [intros current _|done].
  apply triple_call; [intros [s' evs] _|done].
  eapply triple_bind; [apply triple_request_keeps; intros w Hw; by apply Hsess|]. intros [].
  apply triple_call; [intros all_done Ha|done].
  eapply triple_bind; [by apply Hemit|]. intros []. eapply triple_bind; [by apply Hrec|]. intros []. by apply triple_ret.
Qed.
End Invariant.

(** [w] has the events of [w0] and then events that satisfy [P]. *)
Definition announces (P : pipeline_event -> Prop) (w0 w : world) : Prop :=
  exists new, published w = published w0 ++ new /\ Forall P new.

Lemma announces_refl P w : announces P w w.
Proof. exists []. by rewrite app_nil_r. Qed.

Lemma announces_more P w0 w ev : announces P w0 w -> P ev -> announces P w0 (w <| published := published w ++ [ev] |>).
Proof.
  intros (new & E & Hn) Hev. exists (new ++ [ev]). cbn. rewrite E. split; [by rewrite app_assoc|]. apply Forall_app. by repeat constructor.
Qed.

Lemma triple_emit_announces P w0 t p all_done current :
  let session := pc_session_id p in
  all_settled (dict_values current) = Ok all_done ->
  (pc_step_status p = "pending" -> P (StepStarted session (pc_pipeline_name p) (pc_step_name p) t)) ->
  (forall d, P (StepCompleted session (pc_pipeline_name p) (pc_step_name p) d t)) ->
  (forall e, P (StepFailed session (pc_pipeline_name p) (pc_step_name p) e t)) ->
  (forall status n k, status <> "failed" -> P (PipelineCompleted session (pc_pipeline_name p) status n 0 k t)) ->
  triple (announces P w0) (emit_step_cloud_event t p all_done current) (fun _ => announces P w0) (announces P w0).
Proof.
  intros session Ha Hs Hc Hf Hp. eapply triple_try with (Y := announces P w0); [|by intros e; apply triple_ret].
  assert (forall ev, P ev -> triple (announces P w0) (publish ev) (fun _ => announces P w0) (announces P w0)) as Hev.
  { intros ev Hev w r w' Hw [= <- <-]. by apply announces_more. }
  eapply triple_bind with (R := fun _ => announces P w0).
  - destruct (String.eqb_spec (pc_step_status p) "pending"); [by apply Hev, Hs|].
    destruct (String.eqb _ _); [by apply Hev|]. destruct (String.eqb _ _); [by apply Hev|by apply triple_ret].
  - intros []. destruct all_done; [|by apply triple_ret].
    apply triple_call; [intros n _|done]. apply triple_call; [intros failed Hfl|done]. apply triple_call; [intros k _|done].
    rewrite (settled_no_failure _ _ Ha Hfl). apply Hev, Hp. unfold terminal_status. by destruct (0 <? k).
Qed.

Lemma emit_executions t p all_done current w r w' : emit_step_cloud_event t p all_done current w = (r, w') ->
  executions w' = executions w.
Proof.
  set (I := fun w' => executions w' = executions w). intros He.
  assert (triple I (emit_step_cloud_event t p all_done current) (fun _ => I) I) as Ht.
  { assert (forall ev, triple I (publish ev) (fun _ => I) I) as Hev by (by intros ev ? ? ? ? [= <- <-]).
    eapply triple_try with (Y := I); [|by intros e; apply triple_ret].
    eapply triple_bind with (R := fun _ => I).
    - repeat (destruct (String.eqb _ _); [apply Hev|]). by apply triple_ret.
    - intros []. destruct all_done; [|by apply triple_ret]. by do 3 (apply triple_call; [intros ? _|done]). }
  specialize (Ht w r w' eq_refl He). by destruct r.
Qed.

(** The record after a report: one more when a step starts, else the one that runs. *)
Lemma triple_upsert_keeps I uid t t' p all_done current : (forall w l, I w -> I (w <| faults := l |>)) ->
  all_settled (dict_values current) = Ok all_done ->
  (pc_step_status p = "pending" -> forall w n steps, I w ->
     I (w <| executions := executions w ++ [new_execution uid t (pc_session_id p) (pc_pipeline_name p) n steps] |>)) ->
  (forall w x status duration steps outputs error, I w -> status <> "failed" ->
     I (w <| executions := replace_execution (finalize status t duration steps outputs error x) (executions w) |>)) ->
  triple I (upsert_execution_record uid t t' p current all_done) (fun _ => I) I.
Proof.
  intros Hf Ha Hnew Hend. eapply triple_try with (Y := I); [|by intros e; apply triple_ret].
  destruct (String.eqb_spec (pc_step_status p) "pending") as [Hp|_].
  - eapply triple_bind; [by apply triple_request_keeps|]. intros existing. apply triple_call; [intros steps _|done].
    apply triple_request_keeps; [done|]. intros w Hw. by apply Hnew.
  - destruct all_done; [|by apply triple_ret].
    eapply triple_bind; [by apply triple_request_keeps|]. intros [x|]; [|by apply triple_ret].
    destruct (String.eqb _ _); [|by apply triple_ret].
    apply triple_call; [intros steps _|done]. apply triple_call; [intros failed Hfl|done].
    apply triple_call; [intros k _|done]. apply triple_call; [intros d _|done].
    rewrite (settled_no_failure _ _ Ha Hfl). cbn [Z.ltb Z.compare].
    apply triple_request_keeps; [done|]. intros w Hw. destruct (0 <? k); by apply Hend.
Qed.

(** What a report keeps, however it ends. *)
Lemma report_keeps I c uid p w : triple I (handle_update_progress c uid p) (fun _ => I) I -> I w ->
  I (handle_update_progress c uid p w).2.
Proof. intros Ht Hw. destruct (handle_update_progress c uid p w) as [r w'] eqn:He. specialize (Ht _ _ _ Hw He). by destruct r. Qed.

(** ** A run of the executor leaves no record *)

(** The body of the report of an effect; the API refuses an error that is no string
    and data that are no object. *)
Definition report_of (session : string) (e : effect) : option progress_command :=
  match e with
  | Persist pipeline step status data error =>
      match as_odict data, as_ostr error with
      | Ok data, Ok error =>
          Some {| pc_session_id := session; pc_pipeline_name := pipeline; pc_step_name := step; pc_step_status := status;
                  pc_result_data := data; pc_error := error |}
      | _, _ => None
      end
  | _ => None
  end.

(** A report of a run arrives, at any time, in any order and as often as it likes. *)
Inductive delivered (session : string) (l : list effect) (w : world) : world -> Prop :=
| delivered_report c uid e p : e ∈ l -> report_of session e = Some p ->
    delivered session l w (handle_update_progress c uid p w).2.

Definition not_started (ev : pipeline_event) : Prop := match ev with StepStarted _ _ _ _ => False | _ => True end.

Definition unrecorded (w0 w : world) : Prop :=
  map ex_id (executions w) = map ex_id (executions w0) /\ announces not_started w0 w.

Lemma report_unrecorded w0 c uid p w : pc_step_status p <> "pending" -> unrecorded w0 w ->
  unrecorded w0 (handle_update_progress c uid p w).2.
Proof.
  intros Hp Hw. apply (report_keeps (unrecorded w0)); [|exact Hw].
  apply triple_report; [done|done|..]; intros t.
  - intros all_done current Ha w1 r w2 [Hx Hn] He.
    pose proof (triple_emit_announces not_started w0 t p all_done current Ha (fun H => Hp H) (fun _ => I) (fun _ => I)
                  (fun _ _ _ _ => I) w1 r w2 Hn He) as Hn2.
    pose proof (emit_executions _ _ _ _ _ _ _ He) as Hx2.
    destruct r; (split; [by rewrite Hx2|exact Hn2]).
  - intros t' all_done current Ha. apply triple_upsert_keeps; [done|done|done|].
    intros w1 x status d steps o e [Hx Hn] _. split; [|exact Hn]. cbn. by rewrite replace_execution_ids.
Qed.

(** The audit record of a run is never opened: the executor reports only how a
    step ended or that it waits, and the control plane opens the record, and announces
    the start of a step, on the report of a step that is ["pending"].  Whatever of the
    reports of a run arrives, in any order, once or again and with any fault, no record
    is added and no step is announced as started. *)
Theorem executor_leaves_no_record `{SetOrder} dispatch simple_eval now_iso getattr p data ex pn r x session w w' :
  execute dispatch simple_eval now_iso getattr p data ex pn [] = Ok (r, x) ->
  star (fun w1 w2 => delivered session (log x) w1 w2 \/ exists l, w2 = w1 <| faults := l |>) w w' ->
  unrecorded w w'.
Proof.
  intros Hx%settled_execute Hw. unfold settled_log in Hx. rewrite Forall_forall in Hx.
  eapply (star_invariant _ (unrecorded w)); [|exact Hw|by split; [|apply announces_refl]].
  intros w1 w2 [[c uid e q He Hq]|[l ->]] Hu; [|exact Hu]. apply report_unrecorded; [|exact Hu].
  specialize (Hx e He). destruct e as [| |pipeline step status d err]; [done..|]. cbn in Hq.
  destruct (as_odict d); [|done]. destruct (as_ostr err); [|done]. injection Hq as <-. cbn in *.
  intros ->. revert Hx. unfold report_statuses. rewrite !elem_of_cons. intros [|[|[|[|Hn]]]]; [done..|]. by inversion Hn.
Qed.

(** ** A failure is not announced *)

Definition not_failed (ev : pipeline_event) : Prop :=
  match ev with PipelineCompleted _ _ status _ failed _ _ => status <> "failed" /\ failed = 0 | _ => True end.

(** No report announces that a pipeline failed or closes its record as failed: a
    pipeline counts as done when every step reported so far is completed or skipped, so
    the counter of the failed steps is zero wherever it is read. *)
Theorem failure_unannounced c uid p w :
  let w' := (handle_update_progress c uid p w).2 in
  announces not_failed w w' /\ (forall x, x ∈ executions w' -> ex_status x = "failed" -> x ∈ executions w).
Proof.
  set (J := fun w' => announces not_failed w w' /\ (forall x, x ∈ executions w' -> ex_status x = "failed" -> x ∈ executions w)).
  apply (report_keeps J); [|split; [apply announces_refl|done]].
  apply triple_report; [done|done|..]; intros t.
  - intros all_done current Ha w1 r w2 [Hn Hx] He.
    pose proof (triple_emit_announces not_failed w t p all_done current Ha (fun _ => I) (fun _ => I) (fun _ => I)
                  (fun _ _ _ Hs => conj Hs eq_refl) w1 r w2 Hn He) as Hn2.
    pose proof (emit_executions _ _ _ _ _ _ _ He) as Hx2.
    destruct r; (split; [exact Hn2|by rewrite Hx2]).
  - intros t' all_done current Ha. apply triple_upsert_keeps; [done|done|..].
    + intros _ w1 n steps [Hn Hx]. split; [exact Hn|]. cbn. intros x [Hi|Hi]%elem_of_app; [by apply Hx|].
      apply list_elem_of_singleton in Hi as ->. cbn. discriminate.
    + intros w1 x status d steps o e [Hn Hx] Hs. split; [exact Hn|]. cbn.
      intros y [->|Hy]%replace_execution_elem; [done|by apply Hx].
Qed.
End Reports.

(** ** A pipeline is announced as complete with every step *)

Lemma dict_set_again {V} k (v v' : V) d : dict_set k v' (dict_set k v d) = dict_set k v' d.
Proof.
  induction d as [|[k' x] d IH]; cbn; [by rewrite String.eqb_refl|].
  destruct (String.eqb_spec k k') as [->|Hne]; cbn; [by rewrite String.eqb_refl|].
  destruct (String.eqb_spec k k'); [done|]. by rewrite IH.
Qed.

Lemma new_step p current : pc_step_name p ∉ dict_keys current ->
  report_step p current = Ok (current ++ [(pc_step_name p, PDict (apply_report p
    [("status", PStr "pending"); ("order", PInt (Z.of_nat (length current)))]))]).
Proof.
  intros Hn. unfold report_step, dict_mem. rewrite (proj2 (dict_get_None _ _) Hn). unfold dict_item.
  rewrite dict_get_set_eq. cbn [entry_dict mbind res_bind]. by rewrite dict_set_again, dict_set_new.
Qed.

Lemma completed_entry p step : pc_step_status p = "completed" -> has_status "completed" (apply_report p step) = true.
Proof.
  intros Hp. unfold apply_report. rewrite Hp. cbn [String.eqb Ascii.eqb Bool.eqb]. unfold has_status, pd_get.
  destruct (filled_dict _); [rewrite dict_get_set_ne by done|]; by rewrite dict_get_set_eq.
Qed.

(** Entries that are all completed. *)
Definition all_completed (l : list pyval) : Prop :=
  Forall (fun v => exists e, v = PDict e /\ has_status "completed" e = true) l.

Lemma completed_not status step : has_status "completed" step = true -> status <> "completed" -> has_status status step = false.
Proof.
  unfold has_status, eq_str. destruct (pd_get _ step); try discriminate. intros ->%String.eqb_eq Hs.
  apply String.eqb_neq. congruence.
Qed.

Lemma completed_settled l : all_completed l -> all_settled l = Ok true.
Proof. induction 1 as [|v l (e & -> & He) _ IH]; [done|]. cbn. by rewrite He. Qed.

Lemma completed_count l : all_completed l -> count_status "completed" l = Ok (Z.of_nat (length l)) /\
  forall status, status <> "completed" -> count_status status l = Ok 0.
Proof.
  intros Hl. assert (exists entries, mapM entry_dict l = Ok entries /\ length entries = length l /\
    Forall (fun e => has_status "completed" e = true) entries) as (entries & Hm & Hlen & Hall).
  { induction Hl as [|v l (e & -> & He) _ (es & Hm & Hlen & Hall)]; [by exists []|]. exists (e :: es).
    cbn [mapM]. cbn. rewrite Hm. cbn. rewrite Hlen. by repeat constructor. }
  unfold count_status. rewrite Hm. cbn. rewrite <- Hlen. clear Hl Hm Hlen. split.
  - f_equal. f_equal. induction Hall as [|e es He _ IH]; [done|]. cbn. by rewrite He, <- IH at 1.
  - intros status Hs. f_equal. induction Hall as [|e es He _ IH]; [done|]. cbn. by rewrite (completed_not _ _ He Hs).
Qed.

Section Served.
Context `{RootId LabletSessionState} (session_root : forall s : LabletSessionState, root_id s = Some (LabletSession.id s)).

Lemma request_unfailing {A} (m : prog world A) w : faults w = [] -> request m w = m w.
Proof. unfold request. by intros ->. Qed.

(** The session with its progress of the pipeline, when no request fails. *)
Definition at_progress (i pipeline : string) (current : pydict) (w : world) : Prop :=
  faults w = [] /\ exists s, sessions w !! i = Some s /\ LabletSession.id s = i /\ progress_of s pipeline = Ok current.

Lemma updated_progress c pipeline step status current s : exists s' evs,
  update_pipeline_progress c pipeline step status current s = Ok (s', evs) /\ LabletSession.id s' = LabletSession.id s /\
  default [] (pipeline_progress s') = dict_set pipeline (PDict current) (default [] (pipeline_progress s)).
Proof using session_root.
  unfold update_pipeline_progress, LabletSession.aggregate_id. rewrite session_root. by do 2 eexists.
Qed.

Lemma progress_set s pipeline current d : default [] (pipeline_progress s) = dict_set pipeline (PDict current) d ->
  progress_of s pipeline = Ok current.
Proof. unfold progress_of. intros ->. by rewrite dict_get_set_eq. Qed.

(** Writing the record changes nothing else. *)
Lemma upsert_elsewhere uid t t' p current all_done w r w' : upsert_execution_record uid t t' p current all_done w = (r, w') ->
  faults w = [] -> r = Ok () /\ exists l, w' = w <| executions := l |>.
Proof.
  set (I := fun w' => faults w' = [] /\ exists l, w' = w <| executions := l |>). intros He Hf.
  assert (forall {A} (m : prog world A), (forall w, I w -> I (m w).2) -> triple I (request m) (fun _ => I) I) as Hreq.
  { intros A m Hm w1 r1 w2 Hw1 He1. pose proof (Hm w1 Hw1) as H1. rewrite request_unfailing in He1 by apply Hw1.
    rewrite He1 in H1. by destruct r1. }
  assert (triple I (upsert_execution_record uid t t' p current all_done) (fun _ => I) (fun _ => False)) as Ht.
  { eapply triple_try with (Y := I); [|by intros e; apply triple_ret].
    assert (forall w l, I w -> I (w <| executions := l |>)) as Hg.
    { intros w1 l1 [Hf1 [l ->]]. split; [done|]. by eexists. }
    destruct (String.eqb _ _); [|destruct all_done; [|by apply triple_ret]];
      (eapply triple_bind; [by apply Hreq|]).
    - intros existing. apply triple_call; [intros steps _|done]. apply Hreq. intros w1 Hw1. exact (Hg w1 _ Hw1).
    - intros [x|]; [|by apply triple_ret]. destruct (String.eqb _ _); [|by apply triple_ret].
      do 4 (apply triple_call; [intros ? _|done]). apply Hreq. intros w1 Hw1. exact (Hg w1 _ Hw1). }
  assert (I w) as Hw by (split; [done|exists (executions w); by destruct w]).
  specialize (Ht w r w' Hw He). destruct r as [[]|]; [by destruct Ht|done].
Qed.

(** One more step completed, none of the others reported otherwise. *)
Lemma report_completed c uid p w current :
  at_progress (pc_session_id p) (pc_pipeline_name p) current w -> all_completed (dict_values current) ->
  pc_step_name p ∉ dict_keys current -> pc_pipeline_name p ∈ VALID_PIPELINE_NAMES -> pc_step_status p = "completed" ->
  let w' := (handle_update_progress c uid p w).2 in
  exists e, has_status "completed" e = true /\
    at_progress (pc_session_id p) (pc_pipeline_name p) (current ++ [(pc_step_name p, PDict e)]) w' /\
    published w' = published w ++
      [StepCompleted (pc_session_id p) (pc_pipeline_name p) (pc_step_name p) (default [] (pc_result_data p)) (now (c 1%nat));
       PipelineCompleted (pc_session_id p) (pc_pipeline_name p) "completed" (Z.of_nat (S (length current))) 0 0 (now (c 1%nat))].
Proof using session_root.
  intros (Hf & s & Hs & Hid & Hp) Hall Hn Hpipe Hst. cbv zeta. unfold handle_update_progress.
  rewrite bool_decide_true by done. rewrite Hst. cbn [negb bool_decide].
  rewrite bool_decide_true by (rewrite <- (bool_decide_spec (_ ∈ VALID_STEP_STATUSES)); exact I). cbn [negb].
  unfold with_session, get_session. erewrite run_bind by (rewrite request_unfailing by done; by rewrite Hs). cbn beta iota.
  erewrite run_bind by (unfold lift; by rewrite Hp). erewrite run_bind by (unfold lift; by rewrite new_step).
  set (e := apply_report p _). set (current' := current ++ [(pc_step_name p, PDict e)]).
  assert (has_status "completed" e = true) as He by (by apply completed_entry).
  assert (all_completed (dict_values current')) as Hall'.
  { unfold dict_values, current'. rewrite map_app. apply Forall_app. split; [done|]. repeat constructor. by exists e. }
  destruct (updated_progress (c 0%nat) (pc_pipeline_name p) (pc_step_name p) "completed" current' s) as (s' & evs & Hu & Hid' & Hd).
  erewrite run_bind by (unfold lift; by rewrite Hu). cbn beta iota. unfold put_session.
  erewrite run_bind by (by rewrite request_unfailing). rewrite (completed_settled _ Hall').
  erewrite run_bind by reflexivity. destruct (completed_count _ Hall') as [Hc Ho].
  set (w1 := w <| sessions := _ |>). unfold emit_step_cloud_event. rewrite Hst, Hc, !Ho by done. cbn [String.eqb Ascii.eqb Bool.eqb].
  erewrite run_bind by reflexivity. cbn beta iota. set (w2 := upd _ _ _).
  destruct (upsert_execution_record uid (now (c 2%nat)) (now (c 3%nat)) p current' true w2) as [r w3] eqn:Hr.
  destruct (upsert_elsewhere _ _ _ _ _ _ _ _ _ Hr Hf) as [-> [l ->]].
  erewrite run_bind by exact Hr. exists e. split; [done|]. split.
  - split; [done|]. exists s'. cbn. rewrite Hid', Hid, lookup_insert_eq. split; [done|]. split; [done|]. by eapply progress_set.
  - cbn. rewrite <- app_assoc. unfold dict_values, current'. rewrite length_map, length_app. cbn.
    by rewrite Nat.add_1_r.
Qed.

(** What is announced when a run's steps complete one after the other, [n] of them
    being complete already. *)
Fixpoint announced (n : nat) (l : list ((nat -> clock) * string * progress_command)) : list pipeline_event :=
  match l with
  | [] => []
  | (c, _, p) :: l =>
      StepCompleted (pc_session_id p) (pc_pipeline_name p) (pc_step_name p) (default [] (pc_result_data p)) (now (c 1%nat))
      :: PipelineCompleted (pc_session_id p) (pc_pipeline_name p) "completed" (Z.of_nat (S n)) 0 0 (now (c 1%nat))
      :: announced (S n) l
  end.

(** A pipeline is announced as complete with every step that completes: the
    handler knows only the steps reported so far, so when the steps of a run are
    reported as completed one after the other, each report announces the completion of
    the whole pipeline, the first one with a single step. *)
Theorem completion_is_premature i pipeline w l : at_progress i pipeline [] w -> pipeline ∈ VALID_PIPELINE_NAMES ->
  Forall (fun '(_, _, p) => pc_session_id p = i /\ pc_pipeline_name p = pipeline /\ pc_step_status p = "completed") l ->
  NoDup (map (fun '(_, _, p) => pc_step_name p) l) ->
  published (fold_left (fun w '(c, uid, p) => (handle_update_progress c uid p w).2) l w) = published w ++ announced 0 l.
Proof using session_root.
  intros Hw Hpipe Hl Hd.
  assert (forall current, all_completed (dict_values current) -> at_progress i pipeline current w ->
    NoDup (dict_keys current ++ map (fun '(_, _, p) => pc_step_name p) l) ->
    published (fold_left (fun w '(c, uid, p) => (handle_update_progress c uid p w).2) l w)
      = published w ++ announced (length current) l) as Hgen; [|by apply (Hgen []); [constructor|..]].
  clear Hw Hd. revert w. induction Hl as [|[[c uid] p] l (Hi & Hp & Hst) _ IH]; intros w current Hall Hw Hd; cbn [fold_left announced].
  - by rewrite app_nil_r.
  - subst i pipeline. cbn [map] in Hd. assert (pc_step_name p ∉ dict_keys current) as Hn.
    { apply NoDup_app in Hd as (_ & Hd & _). intros Hin. apply (Hd _ Hin). by left. }
    destruct (report_completed c uid p w current Hw Hall Hn Hpipe Hst) as (e & He & Hw' & Hpub).
    rewrite (IH _ (current ++ [(pc_step_name p, PDict e)])); [..|exact Hw'|].
    + rewrite Hpub, length_app, Nat.add_1_r, <- app_assoc. done.
    + unfold dict_values. rewrite map_app. apply Forall_app. split; [done|]. repeat constructor. by exists e.
    + unfold dict_keys in *. rewrite map_app, <- app_assoc. exact Hd.
Qed.

(** ** The answer for a step that waits *)

Lemma correlated_set corr current name step step' : NoDup (dict_keys current) -> correlated corr current = Some (name, step) ->
  eq_str (pd_get "step_correlation_id" step') corr = true ->
  correlated corr (dict_set name (PDict step') current) = Some (name, step').
Proof.
  induction current as [|[n v] current IH]; [done|]. cbn. intros [Hn Hd]%NoDup_cons Hc Hs.
  assert (forall k x, correlated corr current = Some (k, x) -> k ∈ dict_keys current) as Hin.
  { clear. induction current as [|[m v] current IH]; [done|]. cbn. intros k x Hc.
    assert (forall x, correlated corr current = Some (k, x) -> k ∈ m :: dict_keys current) as Hr by (intros; right; eauto).
    destruct v; eauto. revert Hc. destruct (eq_str _ _); [intros [= <- _]; by left|eauto]. }
  assert (forall x, correlated corr current = Some (name, x) -> String.eqb name n = false) as Hne.
  { intros x Hx. apply String.eqb_neq. intros ->. by apply Hn, (Hin n x). }
  destruct v; try (rewrite (Hne _ Hc); cbn; by apply IH).
  match type of Hc with context [eq_str ?a corr] => destruct (eq_str a corr) eqn:Hs' end.
  - injection Hc as -> ->. rewrite String.eqb_refl. cbn. by rewrite Hs.
  - rewrite (Hne _ Hc). cbn. rewrite Hs'. by apply IH.
Qed.

Lemma correlated_key corr current name step : correlated corr current = Some (name, step) ->
  eq_str (pd_get "step_correlation_id" step) corr = true.
Proof.
  induction current as [|[n v] current IH]; [done|]. cbn. destruct v; try exact IH.
  intros Hc. match type of Hc with context [eq_str ?a corr] => destruct (eq_str a corr) eqn:Hs end; [|by apply IH].
  by injection Hc as <- <-.
Qed.

(** The session with its recorded progress of the pipeline, in which the step [name]
    has the correlation identifier. *)
Definition waits (i pipeline corr : string) (current : pydict) (name : string) (step : pydict) (w : world) : Prop :=
  faults w = [] /\ exists s, sessions w !! i = Some s /\ LabletSession.id s = i /\
    recorded_progress s pipeline = Ok current /\ correlated corr current = Some (name, step).

Lemma run_with_step i pipeline corr current name step w : waits i pipeline corr current name step w ->
  exists s, sessions w !! i = Some s /\ LabletSession.id s = i /\
    forall k, with_step i pipeline corr k w = k s current name step w.
Proof.
  intros (Hf & s & Hs & Hid & Hr & Hc). exists s. split; [done|]. split; [done|]. intros k. unfold with_step, with_session, get_session.
  erewrite run_bind by (rewrite request_unfailing by done; by rewrite Hs). cbn beta iota.
  erewrite run_bind by (unfold lift; by rewrite Hr). destruct current; [done|]. by rewrite Hc.
Qed.

(** Storing the step that waits leaves the step found under its identifier. *)
Lemma settle_waits c i pipeline corr current name step step' status more s w : NoDup (dict_keys current) ->
  waits i pipeline corr current name step w -> sessions w !! i = Some s -> LabletSession.id s = i ->
  eq_str (pd_get "step_correlation_id" step') corr = true ->
  exists w', settle_step c i pipeline name status step' current s more w
      = (Ok (Success 200 ([("session_id", PStr i); ("pipeline_name", PStr pipeline); ("step_name", PStr name);
                           ("pipeline_progress", PDict (dict_set name (PDict step') current))] ++ more)), w') /\
    waits i pipeline corr (dict_set name (PDict step') current) name step' w' /\
    (forall j, j <> i -> sessions w' !! j = sessions w !! j) /\ published w' = published w /\ executions w' = executions w.
Proof using session_root.
  intros Hd (Hf & _ & _ & _ & _ & Hc) Hs Hid Hcorr. set (current' := dict_set name (PDict step') current).
  destruct (updated_progress (c 0%nat) pipeline name status current' s) as (s' & evs & Hu & Hid' & Hp).
  exists (w <| sessions := <[i := s']> (sessions w) |>). split; [|split].
  - unfold settle_step. cbv zeta. fold current'. erewrite run_bind by (unfold lift; by rewrite Hu). cbn beta iota. unfold put_session.
    erewrite run_bind by (by rewrite request_unfailing). by rewrite Hid', Hid.
  - split; [done|]. exists s'. cbn. rewrite lookup_insert_eq, Hid'. split; [done|]. split; [done|].
    pose proof (correlated_set corr current name step step' Hd Hc Hcorr) as Hc'. fold current' in Hc'. split; [|exact Hc'].
    unfold recorded_progress, pd_get. rewrite Hp, dict_get_set_eq. cbn. by destruct current'.
  - split; [intros j Hj; cbn; by rewrite lookup_insert_ne|done].
Qed.

(** (C16) The answer of the scenario engine is taken once: a suspended step becomes
    completed with the output merged over its data and every other step as it was; from
    then on the same answer is acknowledged without effect, whatever it carries, and a
    failure reported for the step is refused with nothing stored. *)
Theorem resumed_once c i pipeline corr output at_ current name step merged w : NoDup (dict_keys current) ->
  waits i pipeline corr current name step w -> has_status "suspended" step = true -> result_data step = Ok merged ->
  exists step' w',
    handle_resume_step c i pipeline corr output at_ w
    = (Ok (Success 200 [("session_id", PStr i); ("pipeline_name", PStr pipeline); ("step_name", PStr name);
                        ("pipeline_progress", PDict (dict_set name (PDict step') current)); ("idempotent", PBool false)]), w') /\
    has_status "completed" step' = true /\ pd_get "result_data" step' = PDict (dict_update merged output) /\
    waits i pipeline corr (dict_set name (PDict step') current) name step' w' /\
    (forall c2 output2 at2, handle_resume_step c2 i pipeline corr output2 at2 w'
       = (Ok (Success 200 [("session_id", PStr i); ("pipeline_name", PStr pipeline); ("step_name", PStr name);
                           ("pipeline_progress", PDict (dict_set name (PDict step') current)); ("idempotent", PBool true)]), w')) /\
    (forall c2 error details at2, handle_fail_step c2 i pipeline corr error details at2 w'
       = (Ok (Conflict ("Cannot fail step " +:+ name +:+ " in status 'completed'")), w')).
Proof using session_root.
  intros Hd Hw Hst Hm. set (step' := dict_set "completed_at" (stamp c at_) (dict_set "result_data" (PDict (dict_update merged output))
    (dict_set "status" (PStr "completed") step))).
  assert (forall k, k ∉ ["completed_at"; "result_data"; "status"] -> pd_get k step' = pd_get k step) as Hkept.
  { intros k Hk. rewrite !not_elem_of_cons in Hk. destruct Hk as (? & ? & ? & _). unfold pd_get, step'. by rewrite !dict_get_set_ne. }
  assert (pd_get "status" step' = PStr "completed") as Hs'.
  { unfold pd_get, step'. by rewrite 2!dict_get_set_ne, dict_get_set_eq by done. }
  destruct (run_with_step _ _ _ _ _ _ _ Hw) as (s & Hs & Hid & Hrun).
  assert (eq_str (pd_get "step_correlation_id" step') corr = true) as Hcorr.
  { rewrite Hkept by (rewrite !not_elem_of_cons; repeat split; [done..|apply not_elem_of_nil]).
    destruct Hw as (_ & ? & _ & _ & _ & Hc). by eapply correlated_key. }
  destruct (settle_waits c i pipeline corr current name step step' "completed" [("idempotent", PBool false)] s w
              Hd Hw Hs Hid Hcorr) as (w' & Hset & Hw' & _).
  destruct (run_with_step _ _ _ _ _ _ _ Hw') as (s2 & _ & _ & Hrun2). exists step', w'. split.
  { unfold handle_resume_step. rewrite Hrun, Hst. cbn [negb]. by erewrite run_bind by (unfold lift; by rewrite Hm). }
  split; [unfold has_status; by rewrite Hs'|].
  split; [unfold pd_get, step'; by rewrite dict_get_set_ne, dict_get_set_eq by done|]. split; [exact Hw'|].
  split; intros c2; intros.
  - unfold handle_resume_step. rewrite Hrun2. unfold has_status. by rewrite Hs'.
  - unfold handle_fail_step. rewrite Hrun2. unfold has_status. by rewrite Hs'.
Qed.
End Served.

(** ** Examples

    The reports of the run of [PipelineSpec] in which a required step fails, three
    steps that complete, and a step that waits for the scenario engine. *)

#[local] Instance example_root : RootId LabletSessionState := fun s => Some (LabletSession.id s).

Definition example_world : world := {|
  sessions := {["s-1" := demo_session]}; labs := ∅; workers := ∅; definitions := ∅; executions := []; published := [];
  faults := [] |}.

Definition deliver_all (session : string) (l : list effect) (w : world) : world :=
  fold_left (fun w p => (handle_update_progress demo_clock "x-1" p w).2) (omap (report_of session) l) w.

Lemma deliver_all_star session L l w : l ⊆ L ->
  star (fun w1 w2 => delivered session L w1 w2 \/ exists f, w2 = w1 <| faults := f |>) w (deliver_all session l w).
Proof.
  unfold deliver_all. revert w. induction l as [|e l IH]; intros w Hl; [constructor|].
  assert (e ∈ L) as He by (apply Hl; by left). assert (l ⊆ L) as Hl' by (intros x Hx; apply Hl; by right).
  cbn. destruct (report_of session e) as [p|] eqn:Hp; [|by apply IH]. cbn.
  eapply star_step; [left; by eapply delivered_report|by apply IH].
Qed.

Lemma executor_leaves_no_record_witness :
  length (omap (report_of "s-1") (log demo_partial.2)) = 4%nat /\
  unrecorded example_world (deliver_all "s-1" (log demo_partial.2) example_world).
Proof.
  split; [vm_compute; reflexivity|].
  exact (executor_leaves_no_record _ _ _ _ _ _ _ _ _ _ "s-1" _ _ demo_partial_run
           (deliver_all_star "s-1" (log demo_partial.2) (log demo_partial.2) example_world (reflexivity _))).
Defined.

Definition example_report (step : string) : (nat -> clock) * string * progress_command :=
  (demo_clock, "x-1", {| pc_session_id := "s-1"; pc_pipeline_name := "teardown"; pc_step_name := step;
                         pc_step_status := "completed"; pc_result_data := None; pc_error := None |}).

Lemma completion_is_premature_witness :
  let reports := map example_report ["stop_lab"; "wipe_lab"; "archive"] in
  published (fold_left (fun w '(c, uid, p) => (handle_update_progress c uid p w).2) reports example_world)
  = announced 0 reports.
Proof.
  refine (completion_is_premature (fun s => eq_refl) "s-1" "teardown" example_world _ _ _ _ _).
  - split; [done|]. exists demo_session. repeat split; vm_compute; reflexivity.
  - rewrite <- (bool_decide_spec (_ ∈ VALID_PIPELINE_NAMES)). exact I.
  - by repeat constructor.
  - apply (bool_decide_unpack _). exact I.
Defined.

Definition example_suspended : progress_command := {|
  pc_session_id := "s-1"; pc_pipeline_name := "collect_evidence"; pc_step_name := "run_scenario"; pc_step_status := "suspended";
  pc_result_data := Some [("step_correlation_id", PStr "c-1"); ("external_job_id", PStr "j-1")]; pc_error := None |}.

Definition example_waiting : world := (handle_update_progress demo_clock "x-1" example_suspended example_world).2.

Definition example_progress : pydict := Eval vm_compute in
  match sessions example_waiting !! "s-1" with
  | Some s => match progress_of s "collect_evidence" with Ok d => d | Err _ => [] end
  | None => []
  end.
Definition example_step : pydict := Eval vm_compute in
  match dict_get "run_scenario" example_progress with Some (PDict d) => d | _ => [] end.

Lemma resumed_once_witness : exists step' w',
  (handle_resume_step demo_clock "s-1" "collect_evidence" "c-1" [("score", PInt 7)] None example_waiting).2 = w' /\
  pd_get "result_data" step' = PDict [("step_correlation_id", PStr "c-1"); ("external_job_id", PStr "j-1"); ("score", PInt 7)] /\
  waits "s-1" "collect_evidence" "c-1" (dict_set "run_scenario" (PDict step') example_progress) "run_scenario" step' w'.
Proof.
  destruct (resumed_once (fun s => eq_refl) demo_clock "s-1" "collect_evidence" "c-1" [("score", PInt 7)] None
              example_progress "run_scenario" example_step
              [("step_correlation_id", PStr "c-1"); ("external_job_id", PStr "j-1")] example_waiting)
    as (step' & w' & Hw & _ & Hd & Hwaits & _).
  - apply (bool_decide_unpack _). exact I.
  - split; [vm_compute; reflexivity|]. destruct (sessions example_waiting !! "s-1") as [s|] eqn:Hs.
    + exists s. split; [done|]. revert Hs. vm_compute. intros [= <-]. by repeat split.
    + vm_compute in Hs. discriminate Hs.
  - vm_compute. reflexivity.
  - vm_compute. reflexivity.
  - exists step', w'. split; [exact (f_equal snd Hw)|]. split; [exact Hd|exact Hwaits].
Defined.
